(* ===== verification/_CoqProject ===== *)
-Q . S2P
Prelude.v
Integers.v
Buffer.v
Frame.v
PacketId.v
ReplayWindow.v
Replay.v
EpochKeys.v
EpochDerive.v
EpochInv.v
DataChannel.v
DataSafety.v
DataSend.v
CryptoV1.v
CryptoModes.v
Data.v
Reliable.v
AckList.v
Windows.v
SendWindow.v
ReliableSpec.v
RecvWindow.v
Control.v
ControlNet.v
ControlOne.v
ControlAny.v
ControlInv.v
ControlSafe.v
ControlLive.v
Fragment.v
FragmentWire.v
Fragmentation.v
PacketSize.v
OTime.v
Schedule.v
ScheduleTree.v
ScheduleOps.v
ScheduleMap.v
Mbuf.v
Base64.v
Proto.v
Mss.v
HashTable.v
Mroute.v
Hash.v
Routes.v
RouteNet.v
RouteInv.v
RouteSteps.v
Routing.v
RoutingDemo.v
KeyMethod.v
KeyExpansion.v
Ncp.v
TlsCrypt.v
TlsCryptSpec.v
TlsWrap.v
WrapSpec.v
ClientKey.v
Handshake.v
TlsSession.v
TlsLife.v
TlsAuth.v
TlsProcess.v
TlsMulti.v
TlsReceive.v
Mudp.v
FirstPacket.v
TlsRun.v
TlsDemo.v
TlsInv.v
TlsText.v
TlsSteps.v
TlsRounds.v
TlsServe.v
TlsPacket.v
TlsSafe.v
TlsAccess.v
TlsWitness.v
WrapDemo.v
