(* ===== verification/Prelude.v ===== *)
(** * OpenVPN 2 engine of DJProxy: verification development

    DJProxy is a VPN client whose native engine is OpenVPN 2
    ([src/openvpn3/src/main/cpp/openvpn/src/openvpn/], the directory of every file named
    here).  This library translates the core of that engine into Rocq - what decides which
    packets are accepted, under which keys, in which order, and for whom - and proves what
    makes it correct.  Every definition carries the name of the C function it translates.

    ** The program

    A tunnel has a control channel and a data channel over one stream of datagrams.  The
    control channel ([ssl.c], [ssl_pkt.c]) carries a TLS session; [reliable.c] numbers,
    resends and acknowledges its packets, [tls_crypt.c] and [swap_hmac] authenticate and
    hide them.  When the TLS handshake is done, both ends exchange key material
    ([key_method_2_write], [key_method_2_read]), check who the peer is ([ssl_verify.c]), and
    derive the keys of the data channel, whose packets [crypto.c] and [crypto_epoch.c]
    encrypt and [packet_id.c] guards against replay.  On the way to the network a packet is
    cut by [fragment.c] and clamped by [mss.c]; on a server, [mudp.c] decides whether an
    unknown address gets an instance at all, and [multi.c] routes packets to the clients,
    with the tables of [list.c], the timers of [schedule.c] and the queues of [mbuf.c].

    ** How the model is made

    Integers are [Z]; where the code wraps, the wrap is written ([u8], [u16], [u32], [u64],
    [i32]).  A block of memory is a list of bytes, a pointer into it a position.  A mutable
    struct is a record, and an operation gives back the new one.  [None] is a failed [ASSERT],
    a division by zero, an access outside a block, to what has been freed, or through [NULL];
    the errors that the code handles are values.  Time ([now]) and random numbers are
    arguments.  What the engine links against is a parameter, and what it relies on there a
    class of laws: [CryptoLib]/[CryptoLaws] (AEAD, HMAC), [ModeLib]/[ModeLaws]/[CtrLaws]
    (ciphers as streams), [PrfLib]/[PrfLaws] (exporter, PRF), [TlsLib]/[TlsLaws] (the TLS
    object), [NameLib], [TokenLib].  None of the laws says that a tag cannot be forged: where
    that matters, the theorem says what a forger would have to produce.  Small concrete
    libraries ([Data], [TlsDemo], [WrapDemo]) satisfy the laws and carry the witnesses.

    ** The files

    - Foundations: [Prelude] (this file: notations, tactics, integers, slices of lists),
      [Integers] ([integer.h]), [Buffer] ([buffer.h]: the struct, every operation, and that
      no sequence of operations leaves the block), [Frame] ([mtu.h]), [OTime] ([otime.h],
      [otime.c]).
    - Replay protection, [packet_id.c]: [PacketId] (the code), [ReplayWindow] (the abstract
      window and the simulation), [Replay] (the interface [ReplayFilter], discharged by the
      sliding window and by the strict sequence, and the theorems).
    - Data channel: [EpochKeys], [EpochDerive], [EpochInv] ([crypto_epoch.c]: code,
      derivation, invariant); [DataChannel], [DataSafety], [DataSend] (the AEAD functions of
      [crypto.c]); [CryptoV1], [CryptoModes] ([openvpn_encrypt_v1], [openvpn_decrypt_v1]: CBC,
      OFB, CFB and no cipher); [Data] (runs of both directions).
    - Reliability layer, [reliable.c]: [Reliable] (the code), [AckList], [Windows],
      [SendWindow], [RecvWindow] (what its parts do), [ReliableSpec].
    - Control channel: [Control] (one [key_state]: [write_outgoing_tls_ciphertext],
      [write_control_auth], [read_control_auth] and their callers), [ControlOne],
      [ControlAny] (one end, whatever the peer sends), [ControlNet], [ControlInv],
      [ControlSafe], [ControlLive] (two peers and a network that loses, repeats, reorders).
    - Wrapping: [TlsCrypt] ([tls_crypt.c]), [TlsWrap] ([swap_hmac], [tls_wrap_control],
      [read_control_auth], the stateless reply of [ssl_pkt.c]), [TlsCryptSpec], [WrapSpec]
      (what is accepted, and that wrapping is transparent), [ClientKey] ([tls-crypt-v2]).
    - Connection start: [Mudp] ([mudp.c], [reflect_filter.c], [multi_assign_peer_id]),
      [FirstPacket] (what an unknown client can make the server do), [WrapDemo].
    - Key exchange: [KeyMethod] (the messages), [KeyExpansion] (the keys), [Handshake]; [Ncp]
      (peer information and the negotiation of the cipher: [ssl_ncp.c], [push_peer_info],
      [multi_client_set_protocol_options]).
    - Sessions, [ssl.c]: [TlsSession], [TlsLife] (state, life of sessions and keys), [TlsAuth]
      ([ssl_verify.c]), [TlsProcess], [TlsMulti] ([tls_process], [tls_multi_process]),
      [TlsReceive] ([tls_pre_decrypt], [tls_pre_encrypt]), [TlsRun] (events and runs of a
      tunnel); [TlsInv], [TlsText], [TlsSteps], [TlsRounds], [TlsServe], [TlsPacket]
      (the invariant, step by step), [TlsSafe], [TlsAccess] (the theorems), [TlsDemo],
      [TlsWitness].
    - Sizes: [Fragment], [FragmentWire], [Fragmentation] ([fragment.c]); [PacketSize] ([mtu.c]
      and the limits of [mss.c], against what [openvpn_encrypt] sends).
    - Server: [HashTable], [Hash] ([list.c]); [Mroute] ([mroute.c]); [Routes], [RouteNet],
      [RouteInv], [RouteSteps], [Routing], [RoutingDemo] (virtual addresses of [multi.c]);
      [Schedule], [ScheduleTree], [ScheduleOps], [ScheduleMap] ([schedule.c]);
      [Mbuf] ([mbuf.c]).
    - Packets and text: [Proto] ([proto.c]), [Mss] ([mss.c]), [Base64] ([base64.c]).

    Interfaces: [DataSafety] and [WrapSpec] are proved against [ReplayFilter], not against
    [packet_id.c]; [Control], [ControlAny] and the sessions use the windows only through their
    invariants; the routing table uses [list.c] only as the map that [Hash] refines it to.

    ** What is shown

    - Data channel: no assertion fails, no packet is delivered twice and no nonce used twice,
      whatever arrives ([data_channel_safe]); packets arrive in every mode
      ([data_round_trip], [data_v1_round_trip]); epochs are found exactly and derived as RFC
      5869 says; the window is the abstract one.
    - Control channel: both byte streams arrive in order and complete over any network, no
      state is a deadlock, nothing is forgotten before it has arrived; wrapping is transparent
      in its three modes, only authentic packets with a new id are accepted
      ([control_packets_authentic]), and without keys it is the wrapping that the sessions are
      proved with ([plain_control_is_control]).
    - Connection start: whatever comes from an unknown address, no assertion fails and the
      server keeps nothing before the cookie is shown ([server_stateless]); the three-way
      handshake goes through ([three_way_handshake]), cookies last as long as they should,
      answers are limited, and a client's key comes back with the packet.
    - Sessions: with a calm control channel no event sequence, peer or library makes a tunnel fail
      ([tunnel_never_fails]; what is not calm is a request for a wrapped client key, with which a
      peer does end a server that has none, and packet ids near 2^31); the rounds end; handshakes
      that hang time out; the two ends of a key exchange open matching channels and negotiate the
      same cipher and options ([p2p_negotiation_agrees], [server_choice_accepted]); data flows
      only under the keys of an accepted peer, and not after its identity has changed.
    - Server and the rest: [list.c] and [schedule.c] refine finite maps, [mbuf.c] a queue; routing
      is longest prefix match (without [--stale-routes-check]), a client cannot send from an
      address that is not its own, no route outlives its instance and no key of the table its
      route; fragments reassemble in any order and reassembly is safe for any packet; MSS clamping
      keeps checksums valid; the limits that are calculated for fragments and MSS are those that
      encryption needs ([packet_limits_kept]).
    - Defects that the model shows, each as a theorem or an example: an acknowledgement sent from
      freed memory, a hand window of 0, a limit on fragments below the overhead, packets of the
      epoch format that are 4 bytes too large, wrong checksums for options at odd places, and
      those of [RoutingDemo].

    ** Bounds and fuel

    - Loops over data have as fuel the length of the data ([Base64], [parse_tlvs],
      [split_loop]) and are proved to end within it.  [hkdf_loop] has 256 rounds, and RFC 5869
      allows 255 blocks.  [iterate_send_to] has 65535 rounds: epochs have 16 bits.
    - [TLS_ROUNDS] is 64: a key has at most 33 rounds to do ([rounds_left_bound]), so the
      loop of [tls_process] ends before the fuel does ([tls_rounds_bounded]).
    - [SID_DRAWS] is 64: the code draws session ids until one is not zero; that the random
      source gives one within 64 draws is a law of [TlsLaws].
    - The loops of the scheduler have the number of its entries as fuel, which is not less
      than the height of the tree ([ScheduleOps]); the insertion starts again when it meets an
      equal priority, with another random number, and ends if one of those gives a priority
      that no other entry has ([new_key]; [same_numbers_never_end] shows one run that does not).
    - Packet ids of the control channel are followed below [ID_BOUND]; what
      [reliable_pid_in_range2] does when they wrap is a lemma of [ReliableSpec].

    ** Not modelled

    - System calls and the event loop ([socket.c], [forward.c], [tun.c], [route.c], ...): what
      they bring are the events of a tunnel.  Options ([options.c]): their values are
      arguments.  The back ends ([*_openssl.c], [*_mbedtls.c]) and all vendored libraries
      (OpenSSL, mbed TLS, lzo, lz4, OpenVPN 3): parameters.
    - Data channel offload, plugins, scripts, the management interface: what they answer is an
      argument ([world] in [TlsAuth], [learn_ok] in [Routes], the script of
      [tls_crypt_v2_verify_metadata]).
    - Sessions with a wrapping key in the invariant of [TlsInv]: [Control] is the channel
      without one, and [WrapSpec] shows that the others carry the same messages.  In the
      sessions the peer information is any text; [Ncp] is about the texts that the code
      writes.  Key files, compression, the push of options, [multi_create_instance] beyond its
      result, [hmac_reply_ls] and log messages are left out. *)
From stdpp Require Export prelude gmap strings.
From Stdlib Require Export ZArith Lia ZifyBool.

#[global] Open Scope Z_scope.

(** ** Machine integers

    A C integer is a [Z]; the wrap-around of an unsigned operation is written
    out with [u8], [u16], [u32], [u64], and the conversion to a signed 32-bit
    [int] with [i32]. *)
Definition u8 (z : Z) : Z := z mod 256.
Definition u16 (z : Z) : Z := z mod 65536.
Definition u32 (z : Z) : Z := z mod 4294967296.
Definition u64 (z : Z) : Z := z mod 18446744073709551616.
Definition i32 (z : Z) : Z := (z + 2147483648) mod 4294967296 - 2147483648.

Declare Scope c_scope.
Delimit Scope c_scope with C.
Notation "x +u y" := (u32 (x + y)) (at level 50, left associativity) : c_scope.
Notation "x -u y" := (u32 (x - y)) (at level 50, left associativity) : c_scope.
Notation "x *u y" := (u32 (x * y)) (at level 40, left associativity) : c_scope.
#[global] Open Scope c_scope.

(** [is_u32 z]: [z] is a value of [uint32_t]; likewise for the other widths. *)
Definition is_u8 (z : Z) : Prop := 0 <= z < 256.
Definition is_u16 (z : Z) : Prop := 0 <= z < 65536.
Definition is_u32 (z : Z) : Prop := 0 <= z < 4294967296.
Definition is_u64 (z : Z) : Prop := 0 <= z < 18446744073709551616.
Definition is_int (z : Z) : Prop := -2147483648 <= z < 2147483648.

(** C's [ASSERT(e)]: the process exits when [e] is false, modelled by [None]. *)
Definition ASSERT (b : bool) : option unit := if b then Some tt else None.

Lemma ASSERT_true b : b = true -> ASSERT b = Some tt.
Proof. by intros ->. Qed.

Lemma ASSERT_false b : b = false -> ASSERT b = None.
Proof. by intros ->. Qed.

Lemma ASSERT_inv {A} b (k : option A) x : (ASSERT b;; k) = Some x -> b = true /\ k = Some x.
Proof. by destruct b. Qed.

(** One step of a computation that has not failed. *)
Lemma Some_bind {A B} (x : A) (f : A -> option B) : (Some x ≫= f) = f x.
Proof. done. Qed.

(** ** Automation *)

(** Linear arithmetic with division and modulo by constants. *)
Ltac lia_mod := Z.div_mod_to_equations; lia.

(** Destruct the scrutinees of all the matches in sight, clean up, and try
    arithmetic and congruence. *)
Ltac crush_match :=
  repeat (case_match || case_decide || case_bool_decide);
  simplify_eq/=; try lia; try done.

(** Unfold the machine-integer wrappers and finish by arithmetic. *)
Ltac solve_uint :=
  unfold is_u8, is_u16, is_u32, is_u64, is_int, u8, u16, u32, u64, i32 in *; lia_mod.

Create HintDb cint discriminated.
Create HintDb bufdb discriminated.

Lemma u32_range z : is_u32 (u32 z).
Proof. solve_uint. Qed.

Lemma u32_small z : is_u32 z -> u32 z = z.
Proof. intros. unfold u32. by apply Z.mod_small. Qed.

Lemma u8_range z : is_u8 (u8 z).
Proof. solve_uint. Qed.

Lemma u8_small z : is_u8 z -> u8 z = z.
Proof. intros. unfold u8. by apply Z.mod_small. Qed.

Lemma u16_range z : is_u16 (u16 z).
Proof. solve_uint. Qed.

Lemma u16_small z : is_u16 z -> u16 z = z.
Proof. intros. unfold u16. by apply Z.mod_small. Qed.

Lemma u64_range z : is_u64 (u64 z).
Proof. solve_uint. Qed.

Lemma u64_small z : is_u64 z -> u64 z = z.
Proof. intros. unfold u64. by apply Z.mod_small. Qed.

Lemma i32_small z : is_int z -> i32 z = z.
Proof. solve_uint. Qed.

#[export] Hint Resolve u8_range u16_range u32_range u64_range : cint.

(** ** Byte strings *)

Abbreviation bytes := (Forall is_u8).

(** [zlen l]: the length of a list as a C integer. *)
Abbreviation zlen l := (Z.of_nat (length l)).

(** [slice pos n d]: the [n] bytes of [d] from position [pos]. *)
Definition slice {A} (pos n : Z) (d : list A) : list A :=
  take (Z.to_nat n) (drop (Z.to_nat pos) d).

(** [splice pos src d]: [memcpy(d + pos, src, n)].  A copy that runs past the end
    makes the list longer, so that a length invariant is a memory-safety claim. *)
Definition splice {A} (pos : Z) (src d : list A) : list A :=
  take (Z.to_nat pos) d ++ src ++ drop (Z.to_nat pos + length src)%nat d.

(** Big-endian (network order) encoding of the low [n] bytes of an integer:
    what [htons]/[htonl]/[htonll] followed by a [memcpy] leave in memory. *)
Fixpoint be_bytes (n : nat) (z : Z) : list Z :=
  match n with
  | O => []
  | S n' => (z / 256 ^ Z.of_nat n') mod 256 :: be_bytes n' z
  end.

(** Big-endian decoding: [memcpy] followed by [ntohs]/[ntohl]/[ntohll]. *)
Definition be_val (l : list Z) : Z := foldl (fun acc b => acc * 256 + b) 0 l.

Section slices.
Context {A : Type}.
Implicit Types d src l : list A.

Lemma length_slice pos n d :
  0 <= pos -> 0 <= n -> pos + n <= zlen d -> zlen (slice pos n d) = n.
Proof. intros. unfold slice. rewrite length_take, length_drop. lia. Qed.

Lemma length_splice pos src d :
  0 <= pos -> pos + zlen src <= zlen d -> length (splice pos src d) = length d.
Proof.
  intros. unfold splice. rewrite !length_app, length_take, length_drop. lia.
Qed.

Lemma slice_0 pos d : slice pos 0 d = [].
Proof. done. Qed.

Lemma slice_all d : slice 0 (zlen d) d = d.
Proof. unfold slice. rewrite Nat2Z.id. simpl. by rewrite drop_0, firstn_all. Qed.

Lemma slice_split pos n m d :
  0 <= pos -> 0 <= n -> 0 <= m ->
  slice pos (n + m) d = slice pos n d ++ slice (pos + n) m d.
Proof.
  intros. unfold slice.
  rewrite !Z2Nat.inj_add, <- drop_drop by lia.
  generalize (drop (Z.to_nat pos) d) as l; intros l.
  rewrite <- (take_drop (Z.to_nat n) l) at 1.
  rewrite take_app, length_take.
  rewrite take_take, Nat.min_r by lia.
  destruct (decide (Z.to_nat n <= length l)%nat).
  - f_equal. f_equal. lia.
  - rewrite (drop_ge l) by lia. by rewrite !take_nil.
Qed.

Lemma slice_take k pos n d :
  0 <= k -> 0 <= pos -> 0 <= n -> take (Z.to_nat k) (slice pos n d) = slice pos (Z.min k n) d.
Proof. intros. unfold slice. rewrite take_take. f_equal. lia. Qed.

Lemma slice_drop k pos n d :
  0 <= k <= n -> 0 <= pos -> drop (Z.to_nat k) (slice pos n d) = slice (pos + k) (n - k) d.
Proof.
  intros. unfold slice. rewrite skipn_firstn_comm, drop_drop.
  f_equal; [lia|]. f_equal. lia.
Qed.

(** Reading back exactly what was written. *)
Lemma slice_splice_eq pos src d :
  0 <= pos <= zlen d -> slice pos (zlen src) (splice pos src d) = src.
Proof.
  intros. unfold slice, splice. rewrite drop_app_ge, length_take by (rewrite length_take; lia).
  rewrite Nat.min_l, Nat.sub_diag by lia. simpl. rewrite drop_0.
  rewrite take_app_le by lia. apply firstn_all2. lia.
Qed.

(** Reading a range that the write did not touch. *)
Lemma slice_splice_before pos n wpos src d :
  0 <= pos -> 0 <= n -> pos + n <= wpos -> wpos <= zlen d ->
  slice pos n (splice wpos src d) = slice pos n d.
Proof.
  intros. unfold slice, splice.
  rewrite <- (take_drop (Z.to_nat wpos) d) at 3.
  rewrite !drop_app_le by (rewrite length_take; lia).
  rewrite !take_app_le by (rewrite length_drop, length_take; lia). done.
Qed.

Lemma slice_splice_after pos n wpos src d :
  0 <= wpos -> wpos + zlen src <= pos -> pos <= zlen d ->
  slice pos n (splice wpos src d) = slice pos n d.
Proof.
  intros. unfold slice, splice. f_equal.
  rewrite drop_app_ge, length_take by (rewrite length_take; lia).
  rewrite drop_app_ge by lia. rewrite drop_drop. f_equal. lia.
Qed.

(** The two halves of a range that holds [c1 ++ c2]. *)
Lemma slice_app_inv pos c1 c2 d :
  0 <= pos -> pos + zlen (c1 ++ c2) <= zlen d -> slice pos (zlen (c1 ++ c2)) d = c1 ++ c2 ->
  slice pos (zlen c1) d = c1 /\ slice (pos + zlen c1) (zlen c2) d = c2.
Proof.
  rewrite length_app, Nat2Z.inj_add. intros ?? H. rewrite slice_split in H by lia.
  apply app_inj_1 in H; [done|]. apply Nat2Z.inj. rewrite length_slice; lia.
Qed.

Lemma lookup_slice pos n d k :
  0 <= pos -> slice pos n d !! k = if decide (k < Z.to_nat n)%nat then d !! (Z.to_nat pos + k)%nat else None.
Proof.
  intros. unfold slice. destruct (decide _); [by rewrite lookup_take_lt, lookup_drop by done|].
  apply lookup_take_ge. lia.
Qed.

Lemma lookup_splice pos src d k :
  0 <= pos -> pos + zlen src <= zlen d ->
  splice pos src d !! k =
    if decide (pos <= Z.of_nat k < pos + zlen src) then src !! (k - Z.to_nat pos)%nat else d !! k.
Proof.
  intros. unfold splice. destruct (decide (Z.of_nat k < pos)).
  { rewrite decide_False by lia. rewrite lookup_app_l by (rewrite length_take; lia). by rewrite lookup_take_lt by lia. }
  rewrite lookup_app_r by (rewrite length_take; lia). rewrite length_take, Nat.min_l by lia.
  destruct (decide _); [by rewrite lookup_app_l by lia|].
  rewrite lookup_app_r, lookup_drop by lia. f_equal. lia.
Qed.

Lemma Forall_slice (P : A -> Prop) pos n d : Forall P d -> Forall P (slice pos n d).
Proof. intros. by apply Forall_take, Forall_drop. Qed.

Lemma Forall_splice (P : A -> Prop) pos src d :
  Forall P d -> Forall P src -> Forall P (splice pos src d).
Proof.
  intros. apply Forall_app; split; [by apply Forall_take|].
  apply Forall_app; split; [done|by apply Forall_drop].
Qed.
End slices.

#[export] Hint Resolve Forall_slice Forall_splice : bufdb.

(** ** Network byte order *)

Lemma length_be_bytes n z : length (be_bytes n z) = n.
Proof. induction n; simpl; auto. Qed.

Lemma be_bytes_bytes n z : bytes (be_bytes n z).
Proof. induction n; constructor; [|done]. unfold is_u8. lia_mod. Qed.

Lemma be_val_app l1 l2 : be_val (l1 ++ l2) = be_val l1 * 256 ^ zlen l2 + be_val l2.
Proof.
  unfold be_val. rewrite foldl_app. generalize (foldl (fun acc b => acc * 256 + b) 0 l1).
  induction l2 as [|x l2 IH] using rev_ind; intros a; simpl.
  - lia.
  - rewrite !foldl_app, length_app, Nat2Z.inj_add, Z.pow_add_r by lia. simpl.
    rewrite IH. lia.
Qed.

Lemma be_val_cons x l : be_val (x :: l) = x * 256 ^ zlen l + be_val l.
Proof. change (x :: l) with ([x] ++ l). rewrite be_val_app. unfold be_val at 1. simpl. lia. Qed.

Lemma be_val_range l : bytes l -> 0 <= be_val l < 256 ^ zlen l.
Proof.
  induction 1 as [|x l Hx _ IH]; [unfold be_val; simpl; lia|].
  rewrite be_val_cons. cbn [length]. rewrite Nat2Z.inj_succ, Z.pow_succ_r by lia.
  unfold is_u8 in Hx. nia.
Qed.

(** Decoding inverts encoding, on the low [n] bytes. *)
Lemma be_val_be_bytes n z : be_val (be_bytes n z) = z mod 256 ^ Z.of_nat n.
Proof.
  induction n as [|n IH]; [by rewrite Z.mod_1_r|].
  cbn [be_bytes]. rewrite be_val_cons, length_be_bytes, IH.
  rewrite Nat2Z.inj_succ, Z.pow_succ_r by lia.
  assert (0 < 256 ^ Z.of_nat n) by lia.
  rewrite (Z.mul_comm 256), Z.rem_mul_r by lia. lia.
Qed.

Lemma be_bytes_mod n z : be_bytes n (z mod 256 ^ Z.of_nat n) = be_bytes n z.
Proof.
  enough (forall m, (m <= n)%nat -> be_bytes m (z mod 256 ^ Z.of_nat n) = be_bytes m z) by auto.
  induction m as [|m IH]; intros Hm; [done|]. cbn [be_bytes]. rewrite IH by lia. f_equal.
  replace (Z.of_nat n) with (Z.of_nat m + (1 + Z.of_nat (n - m - 1))) by lia.
  rewrite !Z.pow_add_r by lia.
  assert (0 < 256 ^ Z.of_nat m) by lia. assert (0 < 256 ^ Z.of_nat (n - m - 1)) by lia.
  rewrite Z.rem_mul_r by lia.
  rewrite Z.mul_comm, Z.div_add, (Z.div_small (z mod _)) by (try apply Z.mod_pos_bound; lia).
  rewrite Z.rem_mul_r by lia. rewrite Z.add_0_l. change (256 ^ 1) with 256.
  rewrite Z.mul_comm, Z.mod_add, Z.mod_mod by lia. done.
Qed.

(** Encoding inverts decoding, on byte strings. *)
Lemma be_bytes_be_val l : bytes l -> be_bytes (length l) (be_val l) = l.
Proof.
  induction 1 as [|x l Hx Hl IH]; [done|]. cbn [length be_bytes].
  rewrite be_val_cons. pose proof (be_val_range l Hl) as Hr. unfold is_u8 in Hx.
  f_equal.
  - rewrite Z.div_add_l, Z.div_small, Z.add_0_r by lia. by apply Z.mod_small.
  - rewrite <- be_bytes_mod, Z.add_comm, Z.mod_add, be_bytes_mod by lia. done.
Qed.

#[export] Hint Resolve be_bytes_bytes : bufdb.

(** A byte string can be recognised by evaluation. *)
Lemma bytes_dec l : forallb (fun z => (0 <=? z) && (z <? 256)) l = true -> bytes l.
Proof.
  intros Hb. apply Forall_forall. intros z Hz. rewrite forallb_forall in Hb.
  apply list_elem_of_In, Hb in Hz. unfold is_u8. lia.
Qed.

(** ** Packing fields into one word *)

Lemma lor_shiftl_add a b n : 0 <= n -> 0 <= b < 2 ^ n -> Z.lor (Z.shiftl a n) b = a * 2 ^ n + b.
Proof.
  intros Hn Hb. rewrite <- Z.shiftl_mul_pow2 by done. symmetry. apply Z.add_nocarry_lor.
  apply Z.bits_inj'. intros k Hk. rewrite Z.land_spec, Z.bits_0.
  destruct (decide (k < n)); [by rewrite Z.shiftl_spec_low|].
  rewrite <- (Z.mod_small b (2 ^ n)), Z.mod_pow2_bits_high by lia. apply andb_false_r.
Qed.

Lemma shiftr_pack a b n : 0 <= n -> 0 <= b < 2 ^ n -> Z.shiftr (a * 2 ^ n + b) n = a.
Proof.
  intros. rewrite Z.shiftr_div_pow2, Z.div_add_l, (Z.div_small b) by lia. lia.
Qed.

Lemma land_pack a b n : 0 <= n -> 0 <= b < 2 ^ n -> Z.land (a * 2 ^ n + b) (Z.ones n) = b.
Proof. intros. rewrite Z.land_ones, Z.add_comm, Z.mod_add, Z.mod_small; lia. Qed.
