(* ===== verification/Integers.v ===== *)
(** * [integer.h]: clamping, circular index arithmetic, rounding

    [int] and [size_t] arguments are [Z] in the range of their type; the range
    hypotheses appear in the lemmas.  A failed [ASSERT] and [index_verify]'s
    [M_FATAL] are [None]. *)
From S2P Require Import Prelude.

Definition INT_MAX : Z := 2147483647.

Definition clamp_size_to_int (size : Z) : option Z := ASSERT (size <=? INT_MAX);; Some (i32 size).

Definition max_uint (x y : Z) : Z := if y <? x then x else y.
Definition min_uint (x y : Z) : Z := if x <? y then x else y.
Definition min_size (x y : Z) : Z := if x <? y then x else y.
Definition max_int (x y : Z) : Z := if y <? x then x else y.
Definition min_int (x y : Z) : Z := if x <? y then x else y.

Definition constrain_int (x lo hi : Z) : Z :=
  if hi <? lo then lo
  else if x <? lo then lo
  else if hi <? x then hi
  else x.

Definition constrain_uint (x lo hi : Z) : Z :=
  if hi <? lo then lo
  else if x <? lo then lo
  else if hi <? x then hi
  else x.

Definition modulo_subtract (x y m : Z) : option Z :=
  let d1 := x - y in
  let d2 := (if y <? x then - m else m) + d1 in
  ASSERT ((0 <=? x) && (x <? m) && (0 <=? y) && (y <? m));;
  Some (if Z.abs d2 <? Z.abs d1 then d2 else d1).

Definition modulo_add (x y m : Z) : option Z :=
  let sum := x + y in
  ASSERT ((0 <=? x) && (x <? m) && (- m <=? y) && (y <=? m));;
  let sum := if m <=? sum then sum - m else sum in
  Some (if sum <? 0 then sum + m else sum).

Definition index_verify (index size : Z) : option Z :=
  if (index <? 0) || (size <=? index) then None else Some index.

Definition round_down_size (num multiple : Z) : Z := num / multiple * multiple.

(** The doubling loop of [adjust_power_of_2]; [size_t] is 64 bits wide and the
    shift drops the bits above. *)
Fixpoint adjust_power_of_2_loop (fuel : nat) (ret u : Z) : option Z :=
  if ret <? u then
    match fuel with
    | O => None
    | S fuel' =>
        let ret := u64 (Z.shiftl ret 1) in
        ASSERT (0 <? ret);; adjust_power_of_2_loop fuel' ret u
    end
  else Some ret.

(** After 64 doublings the value has left [size_t], and the [ASSERT] has fired. *)
Definition adjust_power_of_2 (u : Z) : option Z := adjust_power_of_2_loop 64 1 u.

(** ** Lemmas *)

Lemma min_int_spec x y : min_int x y = Z.min x y.
Proof. unfold min_int. crush_match. Qed.

Lemma max_int_spec x y : max_int x y = Z.max x y.
Proof. unfold max_int. crush_match. Qed.

Lemma constrain_int_range x lo hi : lo <= hi -> lo <= constrain_int x lo hi <= hi.
Proof. unfold constrain_int. crush_match. Qed.

(** [modulo_add] is addition on the circle, for the arguments it asserts. *)
Lemma modulo_add_spec x y m :
  0 <= x < m -> - m <= y <= m -> modulo_add x y m = Some ((x + y) mod m).
Proof.
  intros. unfold modulo_add. rewrite ASSERT_true by lia. simpl. f_equal. crush_match.
  - apply (Z.mod_unique _ _ (-1)); lia.
  - apply (Z.mod_unique _ _ 1); lia.
  - symmetry; apply Z.mod_small; lia.
Qed.

Lemma index_verify_spec i size : 0 <= i < size -> index_verify i size = Some i.
Proof. intros. unfold index_verify. crush_match. Qed.

Lemma adjust_loop_ok k : forall fuel u,
  (64 - k <= Z.of_nat fuel) -> 0 <= k < 64 -> 0 <= u < 2 ^ 64 -> (k = 0 \/ 2 ^ (k - 1) < u) ->
  (u <= 2 ^ 63 /\ exists j, adjust_power_of_2_loop fuel (2 ^ k) u = Some (2 ^ j) /\ 0 <= j < 64 /\ u <= 2 ^ j /\ (j = 0 \/ 2 ^ (j - 1) < u)) \/
  (2 ^ 63 < u /\ adjust_power_of_2_loop fuel (2 ^ k) u = None).
Proof.
  intros fuel. revert k. induction fuel as [|fuel IH]; intros k u Hf Hk Hu Hl; [lia|].
  pose proof (Z.pow_le_mono_r 2 k 63 ltac:(lia) ltac:(lia)).
  cbn [adjust_power_of_2_loop]. destruct (Z.ltb_spec (2 ^ k) u) as [Hlt|Hge].
  2: { left. split; [lia|]. exists k. auto. }
  rewrite Z.shiftl_mul_pow2 by lia. change (2 ^ 1) with 2. destruct (decide (k = 63)) as [->|Hne].
  { right. split; [lia|]. done. }
  replace (u64 (2 ^ k * 2)) with (2 ^ (k + 1)).
  2: { rewrite Z.pow_add_r by lia. change (2 ^ 1) with 2. symmetry. apply u64_small. unfold is_u64.
       pose proof (Z.pow_le_mono_r 2 k 62 ltac:(lia) ltac:(lia)). change (2 ^ 62) with 4611686018427387904 in *. lia. }
  pose proof (Z.pow_pos_nonneg 2 (k + 1) ltac:(lia) ltac:(lia)). rewrite ASSERT_true, Some_bind by lia.
  apply IH; [lia|lia|done|]. right. replace (k + 1 - 1) with k by lia. done.
Qed.

(** The doubling loop of [adjust_power_of_2] ends for every [size_t]: with the least power of
    two that is not below the argument, or, when there is none in 64 bits, in the [ASSERT]
    that catches the shift to zero. *)
Theorem adjust_power_of_2_ends u :
  is_u64 u ->
  (u <= 2 ^ 63 /\ exists j, adjust_power_of_2 u = Some (2 ^ j) /\ 0 <= j < 64 /\ u <= 2 ^ j /\
     (forall i, 0 <= i -> u <= 2 ^ i -> j <= i)) \/
  (2 ^ 63 < u /\ adjust_power_of_2 u = None).
Proof.
  intros Hu. unfold adjust_power_of_2.
  destruct (adjust_loop_ok 0 64 u) as [(Hle & j & E & Hj & Huj & Hleast)|[Hgt E]]; [lia|lia|exact Hu|by left| |by right].
  left. split; [done|]. exists j. split_and!; try done; try lia. intros i Hi Hui. destruct Hleast as [->|Hlt]; [lia|].
  destruct (decide (j <= i)); [done|]. pose proof (Z.pow_le_mono_r 2 i (j - 1) ltac:(lia) ltac:(lia)). lia.
Qed.

(** The capacity of a ring of at least [u] slots. *)
Lemma adjust_power_of_2_ok u :
  0 <= u <= 2 ^ 63 -> exists j, adjust_power_of_2 u = Some (2 ^ j) /\ 0 <= j < 64 /\ u <= 2 ^ j /\ (j = 0 \/ 2 ^ (j - 1) < u).
Proof.
  intros Hu. destruct (adjust_loop_ok 0 64 u) as [(_ & Hj)|[Hgt _]]; [lia|lia| |by left|done|lia].
  change (2 ^ 63) with 9223372036854775808 in *. lia.
Qed.

Lemma adjust_power_of_2_ends_witness :
  is_u64 100 /\
  ((100 <= 2 ^ 63 /\ exists j, adjust_power_of_2 100 = Some (2 ^ j) /\ 0 <= j < 64 /\ 100 <= 2 ^ j /\
     (forall i, 0 <= i -> 100 <= 2 ^ i -> j <= i)) \/
   (2 ^ 63 < 100 /\ adjust_power_of_2 100 = None)).
Proof. assert (H : is_u64 100) by (unfold is_u64; lia). split; [exact H|]. apply (adjust_power_of_2_ends 100 H). Defined.
