(* ===== verification/Buffer.v ===== *)
(** * [struct buffer]: the packet buffer of [buffer.h] and [buffer.c]

    A [struct buffer] is a block of memory with head room, content and tail room.
    The pointer [data] is [None] for [NULL] and otherwise the bytes of the block
    it points to (the block belongs to one buffer; [buf_sub], whose result points
    into its parent, is modelled with the position of the window and the write-back
    of the window into the parent).  A [uint8_t *] into the block is its position.
    Every operation is total and returns the new buffer; C's [int] fields are [Z]:
    capacities are below [BUF_SIZE_MAX], so the sums the code forms stay in [int] - but for
    [buf_copy_range], which adds its arguments before it looks at them: there [None] is a sum
    that is no [int], or an access outside a block.

    At the end: whatever sequence of operations is applied to a buffer, it stays well-formed
    and keeps its block ([buf_op], [buf_apply]). *)
From S2P Require Import Prelude Integers.

Definition BUF_SIZE_MAX : Z := 1000000.

Record buffer := mk_buffer {
  b_capacity : Z;
  b_offset : Z;
  b_len : Z;
  b_data : option (list Z)
}.

(** The bytes of memory behind [data] (none behind [NULL]). *)
Definition mem (b : buffer) : list Z := default [] (b_data b).

(** ** Field queries *)

Definition clear_buf : buffer := mk_buffer 0 0 0 None.

Definition buf_defined (b : buffer) : bool := bool_decide (is_Some (b_data b)).

Definition buf_valid (b : buffer) : bool := buf_defined b && (0 <=? b_len b).

Definition buf_bptr (b : buffer) : option Z :=
  if buf_valid b then Some (b_offset b) else None.

Definition buf_len (b : buffer) : Z := if buf_valid b then b_len b else 0.

Definition buf_bend (b : buffer) : option Z := (fun p => p + buf_len b) <$> buf_bptr b.

Definition buf_blast (b : buffer) : option Z :=
  if 0 <? buf_len b then (fun p => p + buf_len b - 1) <$> buf_bptr b else None.

Definition buf_size_valid (size : Z) : bool := size <? BUF_SIZE_MAX.

Definition buf_size_valid_signed (size : Z) : bool :=
  (- BUF_SIZE_MAX <=? size) && (size <? BUF_SIZE_MAX).

(** ** Initialisation *)

Definition buf_reset (b : buffer) : buffer := mk_buffer 0 0 0 None.

Definition buf_reset_len (b : buffer) : buffer := mk_buffer (b_capacity b) 0 0 (b_data b).

Definition buf_init (b : buffer) (off : Z) : bool * buffer :=
  if (off <? 0) || (b_capacity b <? off) || negb (buf_defined b) then (false, b)
  else (true, mk_buffer (b_capacity b) off 0 (b_data b)).

(** [buf_size_error] is [M_FATAL]: the process exits. *)
Definition buf_set_write (data : option (list Z)) (size : Z) : option buffer :=
  ASSERT (buf_size_valid (u64 size));;
  Some (mk_buffer size 0 0
          (if 0 <? size then (fun d => splice 0 [0] d) <$> data else data)).

Definition buf_set_read (data : option (list Z)) (size : Z) : option buffer :=
  ASSERT (buf_size_valid size);; Some (mk_buffer size 0 size data).

(** [alloc_buf]: [calloc], so the block is zeroed. *)
Definition alloc_buf (size : Z) : option buffer :=
  ASSERT (buf_size_valid size);;
  Some (mk_buffer size 0 0 (Some (replicate (Z.to_nat size) 0))).

(** [clone_buf]: the block is fresh [malloc]ed memory, [junk], and only the
    content is copied. *)
Definition clone_buf (junk : list Z) (b : buffer) : buffer :=
  mk_buffer (b_capacity b) (b_offset b) (b_len b)
    (Some (splice (b_offset b) (slice (b_offset b) (buf_len b) (mem b)) junk)).

(** [secure_memzero] of the whole block, then empty. *)
Definition buf_clear (b : buffer) : buffer :=
  mk_buffer (b_capacity b) 0 0
    (if 0 <? b_capacity b then (fun _ => replicate (Z.to_nat (b_capacity b)) 0) <$> b_data b
     else b_data b).

Definition free_buf (b : buffer) : buffer := clear_buf.

(** ** Room *)

Definition buf_safe (b : buffer) (n : Z) : bool :=
  buf_valid b && buf_size_valid n && (b_offset b + b_len b + n <=? b_capacity b).

Definition buf_safe_bidir (b : buffer) (n : Z) : bool :=
  if buf_valid b && buf_size_valid_signed n then
    let newlen := b_len b + n in
    (0 <=? newlen) && (b_offset b + newlen <=? b_capacity b)
  else false.

Definition buf_forward_capacity (b : buffer) : Z :=
  if buf_valid b then
    let ret := b_capacity b - (b_offset b + b_len b) in if ret <? 0 then 0 else ret
  else 0.

Definition buf_forward_capacity_total (b : buffer) : Z :=
  if buf_valid b then
    let ret := b_capacity b - b_offset b in if ret <? 0 then 0 else ret
  else 0.

Definition buf_reverse_capacity (b : buffer) : Z :=
  if buf_valid b then b_offset b else 0.

Definition buf_inc_len (b : buffer) (inc : Z) : bool * buffer :=
  if negb (buf_safe_bidir b inc) then (false, b)
  else (true, mk_buffer (b_capacity b) (b_offset b) (b_len b + inc) (b_data b)).

(** ** Moving the ends of the content *)

Definition buf_prepend (b : buffer) (size : Z) : option Z * buffer :=
  if negb (buf_valid b) || (size <? 0) || (b_offset b <? size) then (None, b)
  else
    let b' := mk_buffer (b_capacity b) (b_offset b - size) (b_len b + size) (b_data b) in
    (buf_bptr b', b').

Definition buf_advance (b : buffer) (size : Z) : bool * buffer :=
  if negb (buf_valid b) || (size <? 0) || (b_len b <? size) then (false, b)
  else (true, mk_buffer (b_capacity b) (b_offset b + size) (b_len b - size) (b_data b)).

Definition buf_write_alloc (b : buffer) (size : Z) : option Z * buffer :=
  if negb (buf_safe b size) then (None, b)
  else
    ((fun p => p + b_len b) <$> buf_bptr b,
     mk_buffer (b_capacity b) (b_offset b) (b_len b + size) (b_data b)).

Definition buf_read_alloc (b : buffer) (size : Z) : option Z * buffer :=
  if (size <? 0) || (b_len b <? size) then (None, b)
  else
    (buf_bptr b,
     mk_buffer (b_capacity b) (b_offset b + size) (b_len b - size) (b_data b)).

(** [memcpy] into the block at position [pos]. *)
Definition poke (b : buffer) (pos : Z) (src : list Z) : buffer :=
  mk_buffer (b_capacity b) (b_offset b) (b_len b) (splice pos src <$> b_data b).

(** ** Writing *)

Definition buf_write (dest : buffer) (src : list Z) : bool * buffer :=
  match buf_write_alloc dest (zlen src) with
  | (None, b) => (false, b)
  | (Some cp, b) => (true, poke b cp src)
  end.

Definition buf_write_prepend (dest : buffer) (src : list Z) : bool * buffer :=
  match buf_prepend dest (zlen src) with
  | (None, b) => (false, b)
  | (Some cp, b) => (true, poke b cp src)
  end.

Definition buf_write_u8 (dest : buffer) (d : Z) : bool * buffer := buf_write dest [u8 d].
Definition buf_write_u16 (dest : buffer) (d : Z) : bool * buffer := buf_write dest (be_bytes 2 d).
Definition buf_write_u32 (dest : buffer) (d : Z) : bool * buffer := buf_write dest (be_bytes 4 d).

(** The bytes a caller that holds [BPTR(b)] and [BLEN(b)] can see. *)
Definition content (b : buffer) : list Z := slice (b_offset b) (buf_len b) (mem b).

Definition buf_copy (dest src : buffer) : bool * buffer := buf_write dest (content src).

Definition buf_assign (dest src : buffer) : bool * buffer :=
  match buf_init dest (b_offset src) with
  | (false, b) => (false, b)
  | (true, b) => buf_write b (content src)
  end.

(** [buf_copy_n]: the result, the new destination and the new source. *)
Definition buf_copy_n (dest src : buffer) (n : Z) : bool * buffer * buffer :=
  match buf_read_alloc src n with
  | (None, src') => (false, dest, src')
  | (Some cp, src') => (buf_write dest (slice cp n (mem src)), src')
  end.

(** The [n] bytes at [pos] are in the block of [b]. *)
Definition in_block (b : buffer) (pos n : Z) : bool := (0 <=? pos) && (pos + n <=? zlen (mem b)).

Definition buf_copy_range (dest : buffer) (dest_index : Z) (src : buffer) (src_index src_len : Z)
  : option (bool * buffer) :=
  if (src_index <? 0) || (src_len <? 0) then Some (false, dest)
  else
    ASSERT (src_index + src_len <=? INT_MAX);;
    if (b_len src <? src_index + src_len) || (dest_index <? 0) then Some (false, dest)
    else
      ASSERT (b_offset dest + dest_index + src_len <=? INT_MAX);;
      if b_capacity dest <? b_offset dest + dest_index + src_len then Some (false, dest)
      else
        ASSERT (in_block src (b_offset src + src_index) src_len && in_block dest (b_offset dest + dest_index) src_len);;
        let d := poke dest (b_offset dest + dest_index)
                   (slice (b_offset src + src_index) src_len (mem src)) in
        Some (true,
              if b_len d <? dest_index + src_len
              then mk_buffer (b_capacity d) (b_offset d) (dest_index + src_len) (b_data d)
              else d).

(** Truncate [src] to [len], append the excess to [dest]. *)
Definition buf_copy_excess (dest src : buffer) (len : Z) : bool * buffer * buffer :=
  if len <? 0 then (false, dest, src)
  else if len <? b_len src then
    let src' := mk_buffer (b_capacity src) (b_offset src) len (b_data src) in
    match buf_advance src len with
    | (false, _) => (false, dest, src')
    | (true, b) => (buf_copy dest b, src')
    end
  else (true, dest, src).

(** ** Reading *)

(** [buf_read]: [None] for failure, else the bytes copied to [dest]. *)
Definition buf_read (src : buffer) (size : Z) : option (list Z) * buffer :=
  match buf_read_alloc src size with
  | (None, b) => (None, b)
  | (Some cp, b) => (Some (slice cp size (mem src)), b)
  end.

Definition buf_peek_u8 (b : buffer) : Z :=
  if buf_len b <? 1 then -1
  else default (-1) (buf_bptr b ≫= fun p => mem b !! Z.to_nat p).

Definition buf_read_u8 (b : buffer) : Z * buffer :=
  let ret := buf_peek_u8 b in
  (ret, if 0 <=? ret then (buf_advance b 1).2 else b).

Definition buf_read_u16 (b : buffer) : Z * buffer :=
  match buf_read b 2 with
  | (None, b') => (-1, b')
  | (Some l, b') => (be_val l, b')
  end.

(** The value and the flag left in [*good]. *)
Definition buf_read_u32 (b : buffer) : Z * bool * buffer :=
  match buf_read b 4 with
  | (None, b') => (0, false, b')
  | (Some l, b') => (be_val l, true, b')
  end.

(** ** Comparing *)

Definition buf_equal (a b : buffer) : bool :=
  (buf_len a =? buf_len b) && bool_decide (content a = content b).

Definition buf_string_match_head (src : buffer) (m : list Z) (size : Z) : bool :=
  if (size <? 0) || (b_len src <? size) then false
  else bool_decide (slice (b_offset src) size (mem src) = take (Z.to_nat size) m).

Definition buf_string_match (src : buffer) (m : list Z) (size : Z) : bool :=
  if negb (size =? b_len src) then false
  else bool_decide (slice (b_offset src) size (mem src) = take (Z.to_nat size) m).

(** ** Sub-buffers

    [buf_sub] returns a buffer for write whose memory is a window of its parent's.
    The window starts at the returned position; [buf_sub_commit] is the effect, on
    the parent's block, of the writes made through the sub-buffer. *)
Definition buf_sub (b : buffer) (size : Z) (prepend : bool) : buffer * option Z * buffer :=
  let '(data, b') := if prepend then buf_prepend b size else buf_write_alloc b (u64 size) in
  match data with
  | Some p => (mk_buffer size 0 0 (Some (slice p size (mem b'))), Some p, b')
  | None => (clear_buf, None, b')
  end.

Definition buf_sub_commit (b : buffer) (pos : option Z) (sub : buffer) : buffer :=
  match pos with
  | Some p => poke b p (mem sub)
  | None => b
  end.

(** ** The representation invariant *)

(** A well-formed buffer: the header describes the block, and the block holds bytes. *)
Record buf_wf (b : buffer) : Prop := {
  wf_cap : 0 <= b_capacity b < BUF_SIZE_MAX;
  wf_off : 0 <= b_offset b;
  wf_len : 0 <= b_len b;
  wf_fit : b_offset b + b_len b <= b_capacity b;
  wf_mem : zlen (mem b) = b_capacity b;
  wf_bytes : bytes (mem b)
}.

(** [b ~~ (h, c, t)]: [b] has a block, with head room [h], content [c] and tail room [t].
    It is the abstract view of a buffer: a byte deque with bounded room at both ends. *)
Record buf_rep (b : buffer) (h : Z) (c : list Z) (t : Z) : Prop := {
  rep_wf : buf_wf b;
  rep_def : buf_defined b = true;
  rep_head : b_offset b = h;
  rep_content : content b = c;
  rep_tail : b_capacity b - b_offset b - b_len b = t
}.

Lemma buf_valid_defined b : buf_wf b -> buf_valid b = buf_defined b.
Proof. intros []. unfold buf_valid. destruct (buf_defined b); simpl; lia. Qed.

Lemma buf_defined_mem b : buf_defined b = true -> b_data b = Some (mem b).
Proof. unfold buf_defined, mem. by destruct (b_data b). Qed.

Lemma buf_defined_false b : buf_defined b = false -> b_data b = None.
Proof. unfold buf_defined. by destruct (b_data b). Qed.

Lemma wf_undefined b :
  buf_wf b -> buf_defined b = false -> b = clear_buf.
Proof.
  intros [] Hd%buf_defined_false. unfold mem in *. destruct b; simpl in *; subst; simpl in *.
  unfold clear_buf. f_equal; lia.
Qed.

Lemma buf_len_wf b : buf_wf b -> buf_len b = b_len b.
Proof.
  intros Hwf. unfold buf_len. destruct (buf_valid b) eqn:E; [done|].
  rewrite buf_valid_defined in E by done. by rewrite (wf_undefined b Hwf E).
Qed.

Lemma content_wf b : buf_wf b -> content b = slice (b_offset b) (b_len b) (mem b).
Proof. intros. unfold content. by rewrite buf_len_wf. Qed.

Lemma length_content b : buf_wf b -> zlen (content b) = b_len b.
Proof.
  intros Hwf. rewrite content_wf by done. destruct Hwf. apply length_slice; lia.
Qed.

Lemma content_bytes b : buf_wf b -> bytes (content b).
Proof. intros []. unfold content. auto with bufdb. Qed.

Lemma rep_len b h c t : buf_rep b h c t -> b_len b = zlen c.
Proof. intros []. subst. by rewrite length_content. Qed.

Lemma rep_valid b h c t : buf_rep b h c t -> buf_valid b = true.
Proof. intros []. by rewrite buf_valid_defined. Qed.

Lemma rep_cap b h c t : buf_rep b h c t -> b_capacity b = h + zlen c + t.
Proof. intros H. pose proof (rep_len _ _ _ _ H). destruct H. lia. Qed.

Lemma rep_bounds b h c t :
  buf_rep b h c t -> 0 <= h /\ 0 <= t /\ h + zlen c + t < BUF_SIZE_MAX /\ bytes c.
Proof.
  intros H. pose proof (rep_len _ _ _ _ H). destruct H as [Hwf ? ? ? ?].
  pose proof (content_bytes _ Hwf). destruct Hwf. subst. split_and!; try lia. done.
Qed.

Lemma rep_slice b h c t : buf_rep b h c t -> slice h (zlen c) (mem b) = c.
Proof.
  intros H. pose proof (rep_len _ _ _ _ H) as <-. destruct H. subst.
  by rewrite content_wf.
Qed.

(** The same view, written differently. *)
Lemma rep_eq b h c t h' c' t' :
  buf_rep b h c t -> h = h' -> c = c' -> t = t' -> buf_rep b h' c' t'.
Proof. by intros ? -> -> ->. Qed.

(** How to establish a representation: give the block. *)
Lemma rep_intro cap off len d c t :
  0 <= off -> 0 <= t -> cap < BUF_SIZE_MAX -> cap = off + len + t ->
  zlen d = cap -> bytes d -> len = zlen c -> slice off len d = c ->
  buf_rep (mk_buffer cap off len (Some d)) off c t.
Proof.
  intros. subst. assert (buf_wf (mk_buffer (off + zlen c + t) off (zlen c) (Some d))).
  { split; simpl; unfold mem; simpl; try lia; try done. }
  split; simpl; try done; try lia. by rewrite content_wf.
Qed.

Lemma rep_unfold b h c t :
  buf_rep b h c t ->
  exists d, b = mk_buffer (h + zlen c + t) h (zlen c) (Some d) /\
            zlen d = h + zlen c + t /\ bytes d /\ slice h (zlen c) d = c.
Proof.
  intros H. pose proof (rep_len _ _ _ _ H). pose proof (rep_cap _ _ _ _ H).
  pose proof (rep_slice _ _ _ _ H). destruct H as [[] Hd ? ? ?].
  apply buf_defined_mem in Hd. exists (mem b). repeat split; try done; try lia.
  destruct b; simpl in *; subst; f_equal; lia || done.
Qed.

(** ** What the operations do to the abstract buffer *)

(** A buffer has one view. *)
Lemma rep_inj b h c t h' c' t' :
  buf_rep b h c t -> buf_rep b h' c' t' -> h = h' /\ c = c' /\ t = t'.
Proof. intros [] []. split_and!; congruence. Qed.

(** Solve the side conditions of a [rep] goal that gives a block. *)
Ltac solve_rep :=
  repeat match goal with
         | |- bytes (splice _ _ _) => apply Forall_splice
         | |- zlen (splice _ _ _) = _ => rewrite length_splice
         | |- _ => progress (rewrite ?length_app, ?Nat2Z.inj_add in *; simpl in *)
         end; try lia; try done; eauto with bufdb.

Lemma alloc_rep size b :
  0 <= size -> alloc_buf size = Some b -> buf_rep b 0 [] size.
Proof.
  unfold alloc_buf, ASSERT, buf_size_valid. intros ? H.
  destruct (size <? BUF_SIZE_MAX) eqn:E; simplify_eq/=.
  apply rep_intro; solve_rep; try by rewrite slice_0.
  - rewrite length_replicate. lia.
  - apply Forall_replicate. unfold is_u8. lia.
Qed.

Lemma alloc_some size :
  0 <= size < BUF_SIZE_MAX -> exists b, alloc_buf size = Some b /\ buf_rep b 0 [] size.
Proof.
  intros. destruct (alloc_buf size) as [b|] eqn:E.
  - exists b. split; [done|]. apply alloc_rep; [lia|done].
  - unfold alloc_buf, buf_size_valid in E. by rewrite ASSERT_true in E by lia.
Qed.

Lemma init_rep b h c t off :
  buf_rep b h c t -> 0 <= off <= h + zlen c + t ->
  exists b', buf_init b off = (true, b') /\ buf_rep b' off [] (h + zlen c + t - off).
Proof.
  intros H ?. pose proof (rep_bounds _ _ _ _ H).
  apply rep_unfold in H as (d & -> & ? & ? & ?). unfold buf_init; simpl.
  destruct (_ || _) eqn:E; [lia|]. eexists. split; [done|].
  apply rep_intro; solve_rep.
Qed.

Lemma write_alloc_rep b h c t n :
  buf_rep b h c t -> 0 <= n <= t ->
  buf_write_alloc b n =
    (Some (h + zlen c), mk_buffer (h + zlen c + t) h (zlen c + n) (b_data b)).
Proof.
  intros H ?. pose proof (rep_bounds _ _ _ _ H). pose proof (rep_valid _ _ _ _ H) as Hv.
  apply rep_unfold in H as (d & -> & ? & ? & ?).
  unfold buf_write_alloc, buf_safe, buf_bptr. rewrite Hv. simpl.
  unfold buf_size_valid. destruct (negb _) eqn:E; [lia|]. done.
Qed.

Lemma write_alloc_full b h c t n :
  buf_rep b h c t -> t < n -> buf_write_alloc b n = (None, b).
Proof.
  intros H ?. pose proof (rep_len _ _ _ _ H). pose proof (rep_cap _ _ _ _ H).
  unfold buf_write_alloc, buf_safe. destruct (negb _) eqn:E; [done|]. destruct H. lia.
Qed.

(** [buf_write] appends when there is room ... *)
Lemma write_rep b h c t src :
  buf_rep b h c t -> bytes src -> zlen src <= t ->
  exists b', buf_write b src = (true, b') /\ buf_rep b' h (c ++ src) (t - zlen src).
Proof.
  intros H ??. pose proof (rep_bounds _ _ _ _ H) as (?&?&?&?).
  unfold buf_write. rewrite (write_alloc_rep _ _ _ _ _ H) by lia.
  apply rep_unfold in H as (d & -> & ? & ? & Hd). unfold poke; simpl.
  eexists; split; [done|]. apply rep_intro; solve_rep.
  rewrite slice_split, slice_splice_eq, slice_splice_before by lia. by rewrite Hd.
Qed.

(** ... and does nothing when there is none. *)
Lemma write_full b h c t src :
  buf_rep b h c t -> t < zlen src -> buf_write b src = (false, b).
Proof. intros H ?. unfold buf_write. by rewrite (write_alloc_full _ _ _ _ _ H). Qed.

Lemma prepend_rep b h c t n :
  buf_rep b h c t -> 0 <= n <= h ->
  buf_prepend b n =
    (Some (h - n), mk_buffer (h + zlen c + t) (h - n) (zlen c + n) (b_data b)).
Proof.
  intros H ?. pose proof (rep_valid _ _ _ _ H) as Hv.
  apply rep_unfold in H as (d & -> & ? & ? & ?).
  unfold buf_prepend. rewrite Hv. simpl.
  destruct (_ || _) eqn:E; [lia|]. unfold buf_bptr, buf_valid; simpl.
  destruct (0 <=? _) eqn:E'; [done|lia].
Qed.

Lemma prepend_full b h c t n : buf_rep b h c t -> h < n -> buf_prepend b n = (None, b).
Proof.
  intros H ?. unfold buf_prepend. destruct H. subst.
  destruct (_ || _ || _) eqn:E; [done|lia].
Qed.

Lemma write_prepend_rep b h c t src :
  buf_rep b h c t -> bytes src -> zlen src <= h ->
  exists b', buf_write_prepend b src = (true, b') /\ buf_rep b' (h - zlen src) (src ++ c) t.
Proof.
  intros H ??. pose proof (rep_bounds _ _ _ _ H) as (?&?&?&?).
  unfold buf_write_prepend. rewrite (prepend_rep _ _ _ _ _ H) by lia.
  apply rep_unfold in H as (d & -> & ? & ? & Hd). unfold poke; simpl.
  eexists; split; [done|]. apply rep_intro; solve_rep.
  rewrite Z.add_comm, slice_split, slice_splice_eq, slice_splice_after by lia.
  f_equal. by replace (h - zlen src + zlen src) with h by lia.
Qed.

Lemma write_prepend_full b h c t src :
  buf_rep b h c t -> h < zlen src -> buf_write_prepend b src = (false, b).
Proof. intros H ?. unfold buf_write_prepend. by rewrite (prepend_full _ _ _ _ _ H). Qed.

Lemma advance_rep b h c1 c2 t :
  buf_rep b h (c1 ++ c2) t ->
  exists b', buf_advance b (zlen c1) = (true, b') /\ buf_rep b' (h + zlen c1) c2 t.
Proof.
  intros H. pose proof (rep_bounds _ _ _ _ H) as (?&?&?&?).
  pose proof (rep_valid _ _ _ _ H) as Hv.
  apply rep_unfold in H as (d & -> & ? & ? & Hd).
  apply slice_app_inv in Hd as [_ Hd]; [|lia..].
  unfold buf_advance. rewrite Hv; simpl. rewrite length_app, Nat2Z.inj_add in *.
  destruct (_ || _) eqn:E; [lia|]. eexists; split; [done|].
  replace (zlen c1 + zlen c2 - zlen c1) with (zlen c2) by lia.
  apply rep_intro; try lia; done.
Qed.

(** [buf_read] takes from the front ... *)
Lemma read_rep b h c1 c2 t :
  buf_rep b h (c1 ++ c2) t ->
  exists b', buf_read b (zlen c1) = (Some c1, b') /\ buf_rep b' (h + zlen c1) c2 t.
Proof.
  intros H. destruct (advance_rep _ _ _ _ _ H) as (b' & Ha & Hb').
  exists b'; split; [|done]. pose proof (rep_bounds _ _ _ _ H) as (?&?&?&?).
  pose proof (rep_valid _ _ _ _ H) as Hv.
  apply rep_unfold in H as (d & -> & ? & ? & Hd).
  unfold buf_advance in Ha. rewrite Hv in Ha; simpl in Ha.
  unfold buf_read, buf_read_alloc, buf_bptr. rewrite Hv; simpl.
  apply slice_app_inv in Hd as [Hd _]; [|lia..].
  destruct (_ || _) eqn:E; simplify_eq/=. unfold mem; simpl. by rewrite Hd.
Qed.

(** ... and fails, changing nothing, on a short buffer. *)
Lemma read_short b h c t n : buf_rep b h c t -> zlen c < n -> buf_read b n = (None, b).
Proof.
  intros H ?. pose proof (rep_len _ _ _ _ H). unfold buf_read, buf_read_alloc.
  destruct (_ || _) eqn:E; [done|lia].
Qed.

Lemma safe_rep b h c t n : buf_rep b h c t -> 0 <= n <= t -> buf_safe b n = true.
Proof.
  intros Hb Hn. pose proof (rep_bounds _ _ _ _ Hb). pose proof (rep_tail _ _ _ _ Hb).
  unfold buf_safe, buf_size_valid. rewrite (rep_valid _ _ _ _ Hb). lia.
Qed.

Lemma bend_rep b h c t : buf_rep b h c t -> buf_bend b = Some (h + zlen c).
Proof.
  intros Hb. unfold buf_bend, buf_bptr. rewrite (rep_valid _ _ _ _ Hb), (rep_head _ _ _ _ Hb).
  simpl. by rewrite (buf_len_wf _ (rep_wf _ _ _ _ Hb)), (rep_len _ _ _ _ Hb).
Qed.

(** Writing at the end of the content and then growing it is a write. *)
Lemma inc_len_poke_rep b h c t src :
  buf_rep b h c t -> bytes src -> zlen src <= t ->
  exists b', buf_inc_len (poke b (h + zlen c) src) (zlen src) = (true, b') /\
             buf_rep b' h (c ++ src) (t - zlen src).
Proof.
  intros Hb Hs Ht. destruct (write_rep _ _ _ _ _ Hb Hs Ht) as (b' & Hw & Hb').
  exists b'. split; [|done]. pose proof (rep_bounds _ _ _ _ Hb) as (? & ? & ? & _).
  pose proof (rep_valid _ _ _ _ Hb) as Hv.
  unfold buf_write in Hw. rewrite (write_alloc_rep _ _ _ _ _ Hb) in Hw by lia.
  apply rep_unfold in Hb as (d & -> & _). unfold buf_inc_len, buf_safe_bidir, poke in *.
  unfold buf_valid, buf_defined, buf_size_valid_signed in *. simpl in *. unfold BUF_SIZE_MAX in *.
  replace (0 <=? zlen c) with true by lia. cbn [andb].
  replace ((- (1000000) <=? zlen src) && (zlen src <? 1000000)) with true by lia.
  replace ((0 <=? zlen c + zlen src) && _) with true by lia. done.
Qed.

Lemma drop_wf b h c t : buf_rep b h c t -> buf_wf (mk_buffer (b_capacity b) (b_offset b) 0 (b_data b)).
Proof. intros [[]]. split; simpl; try done; lia. Qed.

(** A buffer header kept from before something was put in front of the content still
    describes the content. *)
Lemma rep_suffix b h x c t :
  buf_rep b h (x ++ c) t ->
  buf_rep (mk_buffer (b_capacity b) (h + zlen x) (zlen c) (b_data b)) (h + zlen x) c t.
Proof.
  intros Hb. destruct (advance_rep _ _ _ _ _ Hb) as (b' & Ha & Hb').
  pose proof (rep_unfold _ _ _ _ Hb) as (d & -> & _). pose proof (rep_bounds _ _ _ _ Hb) as (? & _).
  unfold buf_advance in Ha. rewrite (rep_valid _ _ _ _ Hb) in Ha. cbn in Ha |- *.
  rewrite length_app in *. destruct (_ || _) eqn:E; [lia|].
  match goal with |- buf_rep ?y _ _ _ => replace y with b' by (injection Ha as <-; f_equal; lia) end. done.
Qed.

(** A buffer header over another block of the same size. *)
Lemma rep_reheader b h c t b2 h2 c2 t2 :
  buf_rep b h c t -> buf_rep b2 h2 c2 t2 -> h2 + zlen c2 + t2 = h + zlen c + t ->
  exists c', zlen c' = zlen c /\
    buf_rep (mk_buffer (b_capacity b) (b_offset b) (b_len b) (b_data b2)) h c' t.
Proof.
  intros Hb Hb2 Hcap. pose proof (rep_bounds _ _ _ _ Hb) as (? & ? & ? & _).
  apply rep_unfold in Hb as (d & -> & Hd & _). apply rep_unfold in Hb2 as (d2 & -> & Hd2 & Hby2 & _).
  cbn. exists (slice h (zlen c) d2). assert (zlen (slice h (zlen c) d2) = zlen c) by (apply length_slice; lia).
  split; [done|]. apply rep_intro; try done; lia.
Qed.

Lemma copy_n_rep (b : buffer) h c t src sh c1 c2 st :
  buf_rep b h c t -> buf_rep src sh (c1 ++ c2) st -> zlen c1 <= t ->
  exists (b' src' : buffer), buf_copy_n b src (zlen c1) = (true, b', src') /\
    buf_rep b' h (c ++ c1) (t - zlen c1) /\ buf_rep src' (sh + zlen c1) c2 st.
Proof.
  intros Hb Hsrc Ht. destruct (read_rep _ _ _ _ _ Hsrc) as (src' & Hr & Hsrc').
  pose proof (rep_bounds _ _ _ _ Hsrc) as (_ & _ & _ & Hby). apply Forall_app in Hby as [Hby _].
  destruct (write_rep _ _ _ _ c1 Hb Hby Ht) as (b' & Hw & Hb').
  exists b', src'. split; [|done]. unfold buf_read in Hr. unfold buf_copy_n.
  destruct (buf_read_alloc src (zlen c1)) as [[cp|] s]; [|done]. injection Hr as Hc ->.
  by rewrite Hc, Hw.
Qed.

(** A packet as it comes from the network, without room around it. *)
Definition received (pkt : list Z) : buffer := mk_buffer (zlen pkt) 0 (zlen pkt) (Some pkt).

Lemma received_rep pkt : bytes pkt -> zlen pkt < BUF_SIZE_MAX -> buf_rep (received pkt) 0 pkt 0.
Proof. intros. apply rep_intro; try lia; try done. apply slice_all. Qed.

(** [buf_copy_range] of a whole packet into a buffer: it is refused when it does not fit;
    otherwise the bytes go to their place, and the content reaches as far as it did or as the copy. *)
Lemma copy_range_rep dest h c t idx src h' c' t' :
  buf_rep dest h c t -> buf_rep src h' c' t' -> 0 <= idx <= INT_MAX - BUF_SIZE_MAX - BUF_SIZE_MAX ->
  if h + idx + zlen c' <=? h + zlen c + t then
    let len := Z.max (zlen c) (idx + zlen c') in
    let d := splice (h + idx) c' (mem dest) in
    buf_copy_range dest idx src 0 (b_len src) = Some (true, mk_buffer (h + zlen c + t) h len (Some d)) /\
    buf_rep (mk_buffer (h + zlen c + t) h len (Some d)) h (slice h len d) (h + zlen c + t - h - len)
  else buf_copy_range dest idx src 0 (b_len src) = Some (false, dest).
Proof.
  intros Hd Hs Hi. pose proof (rep_bounds _ _ _ _ Hs) as (?&?&?&?). pose proof (rep_bounds _ _ _ _ Hd) as (?&?&?&?).
  apply rep_unfold in Hd as (m & -> & Hm & Hmb & Hmc). apply rep_unfold in Hs as (m' & -> & Hm' & Hmb' & Hmc').
  unfold buf_copy_range, in_block. cbn [b_len b_capacity b_offset b_data mem poke]. rewrite Z.add_0_r, Z.add_0_l.
  unfold mem. cbn [b_data default id]. unfold id, INT_MAX, BUF_SIZE_MAX in *.
  replace ((0 <? 0) || (zlen c' <? 0)) with false by lia. rewrite (ASSERT_true (zlen c' <=? _)), Some_bind by lia.
  replace ((zlen c' <? zlen c') || (idx <? 0)) with false by lia. rewrite (ASSERT_true (h + idx + zlen c' <=? _)), Some_bind by lia.
  destruct (Z.leb_spec (h + idx + zlen c') (h + zlen c + t)).
  - replace (_ <? h + idx + zlen c') with false by lia. rewrite ASSERT_true, Some_bind by lia. rewrite Hmc'. split.
    + do 2 f_equal. cbn. destruct (zlen c <? idx + zlen c') eqn:E; unfold poke; cbn; f_equal; lia.
    + apply rep_intro; try (unfold BUF_SIZE_MAX; lia).
      * rewrite length_splice; lia.
      * auto with bufdb.
      * rewrite length_slice; [done|lia|lia|]. rewrite length_splice; lia.
      * done.
  - replace (_ <? h + idx + zlen c') with true by lia. done.
Qed.

(** ** Every operation keeps a buffer well formed *)

(** The operations on a buffer, with their arguments; what is copied into it comes from a list
    or from another buffer. *)
Inductive buf_op :=
| Op_init (off : Z) | Op_reset_len | Op_clear
| Op_prepend (n : Z) | Op_advance (n : Z) | Op_write_alloc (n : Z) | Op_read_alloc (n : Z) | Op_inc_len (n : Z)
| Op_write (src : list Z) | Op_write_prepend (src : list Z) | Op_write_u8 (d : Z) | Op_write_u16 (d : Z) | Op_write_u32 (d : Z)
| Op_read (n : Z) | Op_read_u8 | Op_read_u16 | Op_read_u32
| Op_copy (src : buffer) | Op_assign (src : buffer) | Op_copy_n (src : buffer) (n : Z) | Op_copy_range (i : Z) (src : buffer) (j n : Z)
| Op_copy_excess (src : buffer) (n : Z).

(** The operations that always have a result, and the one that has not. *)
Definition buf_apply_total (b : buffer) (o : buf_op) : buffer :=
  match o with
  | Op_init off => (buf_init b off).2
  | Op_reset_len => buf_reset_len b
  | Op_clear => buf_clear b
  | Op_prepend n => (buf_prepend b n).2
  | Op_advance n => (buf_advance b n).2
  | Op_write_alloc n => (buf_write_alloc b n).2
  | Op_read_alloc n => (buf_read_alloc b n).2
  | Op_inc_len n => (buf_inc_len b n).2
  | Op_write src => (buf_write b src).2
  | Op_write_prepend src => (buf_write_prepend b src).2
  | Op_write_u8 d => (buf_write_u8 b d).2
  | Op_write_u16 d => (buf_write_u16 b d).2
  | Op_write_u32 d => (buf_write_u32 b d).2
  | Op_read n => (buf_read b n).2
  | Op_read_u8 => (buf_read_u8 b).2
  | Op_read_u16 => (buf_read_u16 b).2
  | Op_read_u32 => (buf_read_u32 b).2
  | Op_copy src => (buf_copy b src).2
  | Op_assign src => (buf_assign b src).2
  | Op_copy_n src n => (buf_copy_n b src n).1.2
  | Op_copy_excess src n => (buf_copy_excess b src n).1.2
  | Op_copy_range _ _ _ _ => b
  end.

Definition buf_apply (b : buffer) (o : buf_op) : option buffer :=
  match o with
  | Op_copy_range i src j n => snd <$> buf_copy_range b i src j n
  | o => Some (buf_apply_total b o)
  end.

(** A [size_t] is not negative, bytes are bytes, and a source is a buffer.  The arguments of
    [buf_copy_range] are such that the sums it forms are [int]s. *)
Definition buf_op_ok (o : buf_op) : Prop :=
  match o with
  | Op_write_alloc n => 0 <= n
  | Op_write src | Op_write_prepend src => bytes src
  | Op_copy src | Op_assign src | Op_copy_n src _ | Op_copy_excess src _ => buf_wf src
  | Op_copy_range i src j n => buf_wf src /\ j + n <= INT_MAX /\ BUF_SIZE_MAX + i + n <= INT_MAX
  | _ => True
  end.

(** A well-formed buffer of the same block. *)
Definition same_block (b b' : buffer) : Prop := buf_wf b' /\ b_capacity b' = b_capacity b /\ buf_defined b' = buf_defined b.

Lemma same_block_refl b : buf_wf b -> same_block b b.
Proof. done. Qed.

Lemma same_block_trans b b' b'' : same_block b b' -> same_block b' b'' -> same_block b b''.
Proof. intros (_ & ? & ?) (? & ? & ?). split_and!; congruence. Qed.

(** The header moves within the block. *)
Lemma move_keeps b off len : buf_wf b -> 0 <= off -> 0 <= len -> off + len <= b_capacity b -> same_block b (mk_buffer (b_capacity b) off len (b_data b)).
Proof. intros [] ???. split; [|done]. split; done. Qed.

Lemma poke_keeps b pos src : buf_wf b -> bytes src -> 0 <= pos -> pos + zlen src <= b_capacity b -> same_block b (poke b pos src).
Proof.
  intros [] Hs ??. unfold same_block, poke, buf_defined. cbn. split; [|by destruct (b_data b)]. unfold mem in *.
  split; cbn; try done; destruct (b_data b) as [d|]; cbn in *; try done.
  - rewrite length_splice; lia.
  - by apply Forall_splice.
Qed.

Lemma write_alloc_keeps b n : buf_wf b -> 0 <= n ->
  match buf_write_alloc b n with
  | (Some p, b') => same_block b b' /\ 0 <= p /\ p + n <= b_capacity b
  | (None, b') => same_block b b'
  end.
Proof.
  intros Hwf Hn. pose proof Hwf as []. unfold buf_write_alloc, buf_safe, buf_bptr.
  destruct (buf_valid b); cbn [andb negb]; [|done]. destruct (buf_size_valid n); cbn [andb negb]; [|done].
  destruct (_ <=? _) eqn:E; cbn [negb fmap option_fmap option_map]; [|done]. split; [apply move_keeps; done || lia|lia].
Qed.

Lemma prepend_keeps b n : buf_wf b ->
  match buf_prepend b n with
  | (Some p, b') => same_block b b' /\ 0 <= p /\ p + n <= b_capacity b
  | (None, b') => same_block b b'
  end.
Proof.
  intros Hwf. pose proof Hwf as []. unfold buf_prepend. destruct (_ || _) eqn:E; [done|].
  assert (Hs : same_block b (mk_buffer (b_capacity b) (b_offset b - n) (b_len b + n) (b_data b))) by (apply move_keeps; done || lia).
  unfold buf_bptr. cbn [b_offset]. destruct (buf_valid (mk_buffer _ _ _ _)); [|done]. cbv iota. split; [done|lia].
Qed.

Lemma write_keeps b src : buf_wf b -> bytes src -> same_block b (buf_write b src).2.
Proof.
  intros Hwf Hs. unfold buf_write. pose proof (write_alloc_keeps b (zlen src) Hwf ltac:(lia)) as H.
  destruct (buf_write_alloc b (zlen src)) as [[p|] b']; [|done]. destruct H as (Hb & Hp & Hc). cbn [snd].
  eapply same_block_trans; [exact Hb|]. destruct Hb as (Hb & Ec & _). apply poke_keeps; done || lia.
Qed.

Lemma write_prepend_keeps b src : buf_wf b -> bytes src -> same_block b (buf_write_prepend b src).2.
Proof.
  intros Hwf Hs. unfold buf_write_prepend. pose proof (prepend_keeps b (zlen src) Hwf) as H.
  destruct (buf_prepend b (zlen src)) as [[p|] b']; [|done]. destruct H as (Hb & Hp & Hc). cbn [snd].
  eapply same_block_trans; [exact Hb|]. destruct Hb as (Hb & Ec & _). apply poke_keeps; done || lia.
Qed.

Lemma read_alloc_keeps b n : buf_wf b -> same_block b (buf_read_alloc b n).2.
Proof.
  intros Hwf. pose proof Hwf as []. unfold buf_read_alloc. destruct (_ || _) eqn:E; [done|]. apply move_keeps; done || lia.
Qed.

Lemma read_keeps b n : buf_wf b -> same_block b (buf_read b n).2.
Proof. intros Hwf. pose proof (read_alloc_keeps b n Hwf) as H. unfold buf_read. by destruct (buf_read_alloc b n) as [[p|] b']. Qed.

Lemma advance_keeps b n : buf_wf b -> same_block b (buf_advance b n).2.
Proof. intros Hwf. pose proof Hwf as []. unfold buf_advance. destruct (_ || _) eqn:E; [done|]. apply move_keeps; done || lia. Qed.

Lemma init_keeps b off : buf_wf b -> same_block b (buf_init b off).2.
Proof. intros Hwf. pose proof Hwf as []. unfold buf_init. destruct (_ || _) eqn:E; [done|]. apply move_keeps; done || lia. Qed.

Lemma clear_keeps b : buf_wf b -> same_block b (buf_clear b).
Proof.
  intros Hwf. pose proof Hwf as []. unfold buf_clear, same_block, buf_defined, mem in *. destruct (0 <? b_capacity b) eqn:E; cbn.
  - split; [|by destruct (b_data b)]. destruct (b_data b); cbn in *; split; cbn; try done; try lia.
    + rewrite length_replicate. lia.
    + by apply Forall_replicate.
  - split; [|done]. split; cbn; try done; lia.
Qed.

Lemma copy_range_keeps b i src j n : buf_wf b -> buf_wf src -> j + n <= INT_MAX -> BUF_SIZE_MAX + i + n <= INT_MAX ->
  exists ok b', buf_copy_range b i src j n = Some (ok, b') /\ same_block b b'.
Proof.
  intros Hwf Hs Hj Hi. pose proof Hwf as []. pose proof Hs as []. unfold buf_copy_range. destruct ((j <? 0) || (n <? 0)) eqn:E; [by eexists _, _|].
  rewrite (ASSERT_true (j + n <=? INT_MAX)), Some_bind by lia. destruct ((b_len src <? j + n) || (i <? 0)) eqn:E1; [by eexists _, _|].
  rewrite (ASSERT_true (b_offset b + i + n <=? INT_MAX)), Some_bind by lia.
  destruct (b_capacity b <? b_offset b + i + n) eqn:E3; [by eexists _, _|]. unfold in_block. rewrite ASSERT_true, Some_bind by lia. eexists _, _. split; [done|].
  assert (Hl : zlen (slice (b_offset src + j) n (mem src)) = n) by (apply length_slice; lia).
  assert (Hp : same_block b (poke b (b_offset b + i) (slice (b_offset src + j) n (mem src)))) by (apply poke_keeps; [done|by apply Forall_slice|lia|lia]).
  destruct (b_len (poke b _ _) <? _) eqn:E2; [|exact Hp]. eapply same_block_trans; [exact Hp|]. destruct Hp as (Hpw & Ec & _). apply move_keeps; try done; cbn [poke b_offset b_capacity]; lia.
Qed.

Lemma apply_total_wf b o : buf_wf b -> buf_op_ok o -> same_block b (buf_apply_total b o).
Proof.
  intros Hwf Ho. destruct o; cbn [buf_apply_total buf_op_ok] in *.
  - by apply init_keeps.
  - destruct Hwf. apply move_keeps; done || lia.
  - by apply clear_keeps.
  - pose proof (prepend_keeps b n Hwf) as H. destruct (buf_prepend b n) as [[p|] b']; [by destruct H|done].
  - by apply advance_keeps.
  - pose proof (write_alloc_keeps b n Hwf Ho) as H. destruct (buf_write_alloc b n) as [[p|] b']; [by destruct H|done].
  - by apply read_alloc_keeps.
  - unfold buf_inc_len, buf_safe_bidir. destruct (buf_valid b && buf_size_valid_signed n); [|done]. destruct (_ && _) eqn:E; [|done].
    destruct Hwf. apply move_keeps; done || lia.
  - by apply write_keeps.
  - by apply write_prepend_keeps.
  - apply write_keeps; [done|]. constructor; [|done]. unfold is_u8, u8. apply Z.mod_pos_bound. lia.
  - apply write_keeps; [done|apply be_bytes_bytes].
  - apply write_keeps; [done|apply be_bytes_bytes].
  - by apply read_keeps.
  - unfold buf_read_u8. cbn [snd]. destruct (0 <=? _); [by apply advance_keeps|done].
  - pose proof (read_keeps b 2 Hwf) as H. unfold buf_read_u16. by destruct (buf_read b 2) as [[l|] b'].
  - pose proof (read_keeps b 4 Hwf) as H. unfold buf_read_u32. by destruct (buf_read b 4) as [[l|] b'].
  - apply write_keeps; [done|by apply content_bytes].
  - unfold buf_assign. pose proof (init_keeps b (b_offset src) Hwf) as H. destruct (buf_init b (b_offset src)) as [[] b']; [|done]. cbn [snd] in H.
    eapply same_block_trans; [exact H|]. apply write_keeps; [apply H|by apply content_bytes].
  - unfold buf_copy_n. destruct (buf_read_alloc src n) as [[p|] src']; [|done]. cbn [fst snd]. apply write_keeps; [done|]. apply Forall_slice, Ho.
  - done.
  - unfold buf_copy_excess. destruct (n <? 0) eqn:E; [done|]. destruct (n <? b_len src); [|done].
    pose proof (advance_keeps src n Ho) as H. destruct (buf_advance src n) as [[] s]; [|done]. cbn [fst snd] in *. apply write_keeps; [done|]. by apply content_bytes, H.
Qed.

Lemma buf_apply_wf b o : buf_wf b -> buf_op_ok o -> exists b', buf_apply b o = Some b' /\ same_block b b'.
Proof.
  intros Hwf Ho. destruct o; cbn [buf_apply]; try (eexists; split; [done|]; by apply apply_total_wf).
  destruct Ho as (Hs & Hj & Hi). destruct (copy_range_keeps b i src j n) as (ok & b' & -> & Hb); [done..|]. by exists b'.
Qed.

(** A run of operations. *)
Fixpoint buf_run (b : buffer) (ops : list buf_op) : option buffer :=
  match ops with [] => Some b | o :: ops => b ← buf_apply b o; buf_run b ops end.

(** C29: A buffer stays what its type says.  After any sequence of the operations of
    [buffer.h] - with sizes that do not fit, negative ones, sources that are empty or have no
    block; only of [buf_copy_range], which adds its arguments unchecked, the sums must be
    [int]s - there is a result, its header describes a part of the block, and the block is the
    same and holds bytes: nothing is written beyond it, and [buf_copy_range] reads nothing
    beyond its source. *)
Theorem buffer_always_well_formed b ops :
  buf_wf b -> Forall buf_op_ok ops ->
  exists b', buf_run b ops = Some b' /\
  buf_wf b' /\ b_capacity b' = b_capacity b /\ buf_defined b' = buf_defined b /\ zlen (mem b') = b_capacity b /\
  0 <= b_offset b' /\ zlen (content b') = b_len b' /\ b_offset b' + zlen (content b') <= b_capacity b /\ bytes (content b').
Proof.
  intros Hwf Ho. assert (H : exists b', buf_run b ops = Some b' /\ same_block b b').
  { revert b Hwf. induction Ho as [|o ops Ho _ IH]; intros b Hwf; [by exists b|]. cbn [buf_run].
    destruct (buf_apply_wf b o Hwf Ho) as (b1 & -> & H). rewrite Some_bind. destruct (IH b1) as (b' & -> & Hb'); [apply H|].
    exists b'. split; [done|]. by eapply same_block_trans. }
  destruct H as (b' & Er & Hw & Ec & Ed). exists b'. split; [done|]. pose proof (length_content _ Hw) as Hl. pose proof (content_bytes _ Hw).
  rewrite <- Ec. split_and!; try done; try apply Hw. rewrite Hl. apply Hw.
Qed.

Lemma buffer_always_well_formed_witness :
  let b := mk_buffer 6 2 1 (Some [0; 0; 7; 0; 0; 0]) in
  let ops := [Op_write [1; 2; 3]; Op_write [4]; Op_write_prepend [9]; Op_advance 40; Op_read 2; Op_inc_len (-3); Op_inc_len (-1); Op_copy b; Op_init 7; Op_copy_range 1 b 0 1; Op_copy_range 3 b 0 1] in
  buf_run b ops = Some (mk_buffer 6 3 2 (Some [0; 9; 7; 7; 7; 3])) /\
  exists b', buf_run b ops = Some b' /\ buf_wf b'.
Proof.
  split; [vm_compute; reflexivity|].
  assert (Hw : buf_wf (mk_buffer 6 2 1 (Some [0; 0; 7; 0; 0; 0]))) by (split; cbn; unfold BUF_SIZE_MAX; try lia; repeat constructor; unfold is_u8; lia).
  edestruct (buffer_always_well_formed (mk_buffer 6 2 1 (Some [0; 0; 7; 0; 0; 0]))
    [Op_write [1; 2; 3]; Op_write [4]; Op_write_prepend [9]; Op_advance 40; Op_read 2; Op_inc_len (-3); Op_inc_len (-1); Op_copy (mk_buffer 6 2 1 (Some [0; 0; 7; 0; 0; 0])); Op_init 7;
     Op_copy_range 1 (mk_buffer 6 2 1 (Some [0; 0; 7; 0; 0; 0])) 0 1; Op_copy_range 3 (mk_buffer 6 2 1 (Some [0; 0; 7; 0; 0; 0])) 0 1]) as (b' & E & Hb' & _).
  - exact Hw.
  - repeat constructor; cbn; try done; unfold is_u8; lia.
  - exists b'. by split.
Defined.
