(* ===== verification/Frame.v ===== *)
(** * Packet geometry: [struct frame] of [mtu.h]

    The sizes of the buffers packets are built in, shared by the control channel, the data
    channel and fragmentation. *)
From S2P Require Import Prelude Integers Buffer.

Record frame := mk_frame {
  f_payload_size : Z;
  f_headroom : Z;
  f_tailroom : Z;
  f_mss_fix : Z;
  f_max_fragment_size : Z;
  f_tun_mtu : Z;
  f_tun_max_mtu : Z;
  f_extra_tun : Z
}.

Definition frame_zero : frame := mk_frame 0 0 0 0 0 0 0 0.

Definition BUF_SIZE (f : frame) : Z := f_headroom f + f_payload_size f + f_tailroom f.

Definition alloc_buf_sock_tun (f : frame) : option buffer :=
  b ← alloc_buf (BUF_SIZE f);
  '(ok, b) ← Some (buf_init b (f_headroom f));
  ASSERT (ok : bool);;
  let b := mk_buffer (b_capacity b) (b_offset b) (f_payload_size f) (b_data b) in
  ASSERT (buf_safe b 0);; Some b.
