(* ===== verification/PacketId.v ===== *)
(** * Replay protection: [packet_id.c], [packet_id.h] and [circ_list.h]

    The receiver keeps, per key, the highest (time, id) it has accepted and a
    circular list with one arrival time per recent id.  The sender counts ids.
    [time_t] and [uint64_t] values are [Z]; [now] (the global clock of [otime.c])
    is an argument.  A failed [ASSERT] and a dereference of a [NULL] list are
    [None]. *)
From S2P Require Import Prelude Integers Buffer.

Definition PACKET_ID_MAX : Z := 4294967295.
Definition PACKET_ID_EPOCH_MAX : Z := 281474976710655.
Definition PACKET_ID_MASK : Z := 281474976710655.
Definition PACKET_ID_WRAP_TRIGGER : Z := 4278190080.
Definition MIN_SEQ_BACKTRACK : Z := 0.
Definition MAX_SEQ_BACKTRACK : Z := 65536.
Definition MIN_TIME_BACKTRACK : Z := 0.
Definition MAX_TIME_BACKTRACK : Z := 600.
Definition SEQ_REAP_INTERVAL : Z := 5.
Definition SEQ_UNSEEN : Z := 0.
Definition SEQ_EXPIRED : Z := 1.

(** ** [circ_list.h] *)

(** [CIRC_LIST(seq_list, time_t)]; [x_sizeof] only serves the debug print. *)
Record seq_list := mk_seq_list {
  x_head : Z;
  x_size : Z;
  x_cap : Z;
  x_list : list Z
}.

Definition CIRC_LIST_ALLOC (size : Z) : seq_list :=
  mk_seq_list 0 0 size (replicate (Z.to_nat size) 0).

Definition CIRC_LIST_PUSH (obj : seq_list) (item : Z) : option seq_list :=
  head ← modulo_add (x_head obj) (-1) (x_cap obj);
  Some (mk_seq_list head (min_int (x_size obj + 1) (x_cap obj)) (x_cap obj)
          (<[Z.to_nat head := item]> (x_list obj))).

Definition CIRC_LIST_SIZE (obj : seq_list) : Z := x_size obj.

Definition CIRC_LIST_INDEX (obj : seq_list) (index : Z) : option Z :=
  i ← index_verify index (x_size obj); modulo_add (x_head obj) i (x_cap obj).

Definition CIRC_LIST_ITEM (obj : seq_list) (index : Z) : option Z :=
  i ← CIRC_LIST_INDEX obj index; x_list obj !! Z.to_nat i.

(** [CIRC_LIST_ITEM(obj, index) = item]. *)
Definition CIRC_LIST_SET (obj : seq_list) (index item : Z) : option seq_list :=
  i ← CIRC_LIST_INDEX obj index;
  Some (mk_seq_list (x_head obj) (x_size obj) (x_cap obj) (<[Z.to_nat i := item]> (x_list obj))).

Definition CIRC_LIST_RESET (obj : seq_list) : seq_list :=
  mk_seq_list 0 0 (x_cap obj) (x_list obj).

(** ** Data *)

Record packet_id_rec := mk_rec {
  r_last_reap : Z;
  r_time : Z;
  r_id : Z;
  r_seq_backtrack : Z;
  r_time_backtrack : Z;
  r_max_backtrack_stat : Z;
  r_initialized : bool;
  r_seq_list : option seq_list;
  r_name : string;
  r_unit : Z
}.

Record packet_id_send := mk_send { s_id : Z; s_time : Z }.
Record packet_id_net := mk_net { n_id : Z; n_time : Z }.
Record packet_id := mk_pid { send : packet_id_send; rec : packet_id_rec }.

#[export] Instance packet_id_net_eq_dec : EqDecision packet_id_net.
Proof. solve_decision. Defined.

Definition rec_zero : packet_id_rec := mk_rec 0 0 0 0 0 0 false None "" 0.

(** ** Receiver *)

Definition packet_id_init_recv (rc : packet_id_rec) (seq_backtrack time_backtrack : Z)
    (name : string) (unit_ : Z) : option packet_id_rec :=
  if negb (seq_backtrack =? 0) then
    ASSERT ((MIN_SEQ_BACKTRACK <=? seq_backtrack) && (seq_backtrack <=? MAX_SEQ_BACKTRACK));;
    ASSERT ((MIN_TIME_BACKTRACK <=? time_backtrack) && (time_backtrack <=? MAX_TIME_BACKTRACK));;
    Some (mk_rec (r_last_reap rc) (r_time rc) (r_id rc) seq_backtrack time_backtrack
            (r_max_backtrack_stat rc) true (Some (CIRC_LIST_ALLOC seq_backtrack)) name unit_)
  else
    Some (mk_rec (r_last_reap rc) (r_time rc) (r_id rc) (r_seq_backtrack rc)
            (r_time_backtrack rc) (r_max_backtrack_stat rc) true (r_seq_list rc) name unit_).

Definition packet_id_init (seq_backtrack time_backtrack : Z) (name : string) (unit_ : Z)
  : option packet_id :=
  rc ← packet_id_init_recv rec_zero seq_backtrack time_backtrack name unit_;
  Some (mk_pid (mk_send 0 0) rc).

(** [packet_id_move_recv]: the new [dest] and the new [src]. *)
Definition packet_id_move_recv (dest src : packet_id_rec)
  : option (packet_id_rec * packet_id_rec) :=
  src' ← packet_id_init_recv rec_zero (r_seq_backtrack src) (r_time_backtrack src)
           (r_name src) (r_unit src);
  Some (src, src').

Definition packet_id_free (p : packet_id) : packet_id := mk_pid (mk_send 0 0) rec_zero.

(** [while (p->id < pin->id) { CIRC_LIST_PUSH(..., SEQ_UNSEEN); ++p->id; }], with
    as many rounds as the distance between the two ids. *)
Fixpoint packet_id_fill (fuel : nat) (l : seq_list) (id pin_id : Z) : option (seq_list * Z) :=
  if id <? pin_id then
    match fuel with
    | O => None
    | S fuel' => l' ← CIRC_LIST_PUSH l SEQ_UNSEEN; packet_id_fill fuel' l' (id + 1) pin_id
    end
  else Some (l, id).

Definition packet_id_add (now : Z) (p : packet_id_rec) (pin : packet_id_net)
  : option packet_id_rec :=
  match r_seq_list p with
  | Some l =>
      let fresh :=
        (CIRC_LIST_SIZE l =? 0) || (r_time p <? n_time pin)
        || ((r_seq_backtrack p <=? n_id pin) && (r_id p <? n_id pin - r_seq_backtrack p)) in
      let time := if fresh then n_time pin else r_time p in
      let id0 := if fresh then
                   (if r_seq_backtrack p <? n_id pin then n_id pin - r_seq_backtrack p else 0)
                 else r_id p in
      let l0 := if fresh then CIRC_LIST_RESET l else l in
      '(l1, id1) ← packet_id_fill (Z.to_nat (n_id pin - id0)) l0 id0 (n_id pin);
      let diff := id1 - n_id pin in
      l2 ← (if (diff <? CIRC_LIST_SIZE l1) && (SEQ_EXPIRED <? now)
            then CIRC_LIST_SET l1 diff now else Some l1);
      Some (mk_rec (r_last_reap p) time id1 (r_seq_backtrack p) (r_time_backtrack p)
              (r_max_backtrack_stat p) (r_initialized p) (Some l2) (r_name p) (r_unit p))
  | None =>
      Some (mk_rec (r_last_reap p) (n_time pin) (n_id pin) (r_seq_backtrack p)
              (r_time_backtrack p) (r_max_backtrack_stat p) (r_initialized p) None
              (r_name p) (r_unit p))
  end.

(** The [for] loop of [packet_id_reap] from index [i], [n] entries to go. *)
Fixpoint packet_id_reap_loop (n : nat) (i : Z) (expire : bool) (time_backtrack now : Z)
    (l : seq_list) : option seq_list :=
  match n with
  | O => Some l
  | S n' =>
      t ← CIRC_LIST_ITEM l i;
      if t =? SEQ_EXPIRED then Some l
      else
        let expire :=
          expire || (negb (t =? 0) && (t + time_backtrack <? now)) in
        l' ← (if expire then CIRC_LIST_SET l i SEQ_EXPIRED else Some l);
        packet_id_reap_loop n' (i + 1) expire time_backtrack now l'
  end.

Definition packet_id_reap (now : Z) (p : packet_id_rec) : option packet_id_rec :=
  l ← (if negb (r_time_backtrack p =? 0) then
         l ← r_seq_list p;
         Some <$> packet_id_reap_loop (Z.to_nat (CIRC_LIST_SIZE l)) 0 false
                    (r_time_backtrack p) now l
       else Some (r_seq_list p));
  Some (mk_rec now (r_time p) (r_id p) (r_seq_backtrack p) (r_time_backtrack p)
          (r_max_backtrack_stat p) (r_initialized p) l (r_name p) (r_unit p)).

Definition packet_id_reap_test (now : Z) (p : packet_id_rec) : option packet_id_rec :=
  if r_last_reap p + SEQ_REAP_INTERVAL <=? now then packet_id_reap now p else Some p.

Definition set_max_backtrack_stat (p : packet_id_rec) (v : Z) : packet_id_rec :=
  mk_rec (r_last_reap p) (r_time p) (r_id p) (r_seq_backtrack p) (r_time_backtrack p) v
    (r_initialized p) (r_seq_list p) (r_name p) (r_unit p).

(** The verdict and the record, whose statistics [packet_id_test] updates. *)
Definition packet_id_test (p : packet_id_rec) (pin : packet_id_net)
  : option (bool * packet_id_rec) :=
  ASSERT (r_initialized p);;
  if n_id pin =? 0 then Some (false, p)
  else if negb (r_seq_backtrack p =? 0) then
    if n_time pin =? r_time p then
      if r_id p <? n_id pin then Some (true, p)
      else
        let diff := r_id p - n_id pin in
        let p := if r_max_backtrack_stat p <? diff then set_max_backtrack_stat p diff else p in
        l ← r_seq_list p;
        if u32 (CIRC_LIST_SIZE l) <=? diff then Some (false, p)
        else
          v ← CIRC_LIST_ITEM l diff;
          Some (v =? 0, p)
    else if n_time pin <? r_time p then Some (false, p)
    else Some (true, p)
  else
    if n_time pin =? r_time p then
      Some ((r_id p =? 0) || (n_id pin =? u64 (r_id p + 1)), p)
    else if n_time pin <? r_time p then Some (false, p)
    else Some (n_id pin =? 1, p).

(** What [crypto_check_replay] does with the record it has chosen: expire, test,
    and record an accepted id. *)
Definition check_replay (now : Z) (p : packet_id_rec) (pin : packet_id_net)
  : option (bool * packet_id_rec) :=
  p ← packet_id_reap_test now p;
  '(ok, p) ← packet_id_test p pin;
  if (ok : bool) then p ← packet_id_add now p pin; Some (true, p)
  else Some (false, p).

(** ** Wire format *)

(** [packet_id_size] in bytes. *)
Definition packet_id_size (long_form : bool) : Z := 4 + (if long_form then 4 else 0).

(** [packet_id_read]: success, the id read so far, and the buffer. *)
Definition packet_id_read (b : buffer) (long_form : bool) : bool * packet_id_net * buffer :=
  match buf_read b 4 with
  | (None, b) => (false, mk_net 0 0, b)
  | (Some net_id, b) =>
      let id := be_val net_id in
      if long_form then
        match buf_read b 4 with
        | (None, b) => (false, mk_net id 0, b)
        | (Some net_time, b) => (true, mk_net id (be_val net_time), b)
        end
      else (true, mk_net id 0, b)
  end.

(** [packet_id_read_epoch]: the epoch (0 on failure), the id if one was read, the buffer. *)
Definition packet_id_read_epoch (b : buffer) : Z * option Z * buffer :=
  match buf_read b 8 with
  | (None, b) => (0, None, b)
  | (Some l, b) =>
      let id := be_val l in
      (u16 (Z.shiftr id 48), Some (Z.land id PACKET_ID_MASK), b)
  end.

(** ** Sender *)

Definition reset_packet_id_send (p : packet_id_send) : packet_id_send := mk_send 0 0.

Definition packet_id_close_to_wrapping (p : packet_id_send) : bool :=
  PACKET_ID_WRAP_TRIGGER <=? s_id p.

Definition packet_id_send_update (now : Z) (p : packet_id_send) (long_form : bool)
  : bool * packet_id_send :=
  let p := if s_time p =? 0 then mk_send (s_id p) now else p in
  if s_id p =? PACKET_ID_MAX then
    if negb long_form || (now <=? s_time p) then (false, p)
    else (true, mk_send (u64 (0 + 1)) now)
  else (true, mk_send (u64 (s_id p + 1)) (s_time p)).

Definition packet_id_send_update_epoch (now : Z) (p : packet_id_send) : bool * packet_id_send :=
  let p := if s_time p =? 0 then mk_send (s_id p) now else p in
  if s_id p =? PACKET_ID_EPOCH_MAX then (false, p)
  else (true, mk_send (u64 (s_id p + 1)) (s_time p)).

Definition packet_id_write (now : Z) (p : packet_id_send) (b : buffer) (long_form prepend : bool)
  : bool * packet_id_send * buffer :=
  match packet_id_send_update now p long_form with
  | (false, p) => (false, p, b)
  | (true, p) =>
      let net_id := be_bytes 4 (s_id p) in
      let net_time := be_bytes 4 (s_time p) in
      if prepend then
        let '(ok, b) := if long_form then buf_write_prepend b net_time else (true, b) in
        if ok then let '(ok, b) := buf_write_prepend b net_id in (ok, p, b)
        else (false, p, b)
      else
        match buf_write b net_id with
        | (false, b) => (false, p, b)
        | (true, b) =>
            if long_form then let '(ok, b) := buf_write b net_time in (ok, p, b)
            else (true, p, b)
        end
  end.

Definition packet_id_write_epoch (now : Z) (p : packet_id_send) (epoch : Z) (b : buffer)
  : bool * packet_id_send * buffer :=
  match packet_id_send_update_epoch now p with
  | (false, p) => (false, p, b)
  | (true, p) =>
      let net_id := Z.lor (u64 (Z.shiftl epoch 48)) (s_id p) in
      let '(ok, b) := buf_write b (be_bytes 8 net_id) in (ok, p, b)
  end.

(** ** Persistence across sessions *)

(** [struct packet_id_persist] less the file name; [fd] is -1 when disabled. *)
Record packet_id_persist := mk_persist {
  pp_fd : Z;
  pp_time : Z;
  pp_id : Z;
  pp_time_last_written : Z;
  pp_id_last_written : Z
}.

Definition packet_id_persist_init : packet_id_persist := mk_persist (-1) 0 0 0 0.

Definition packet_id_persist_enabled (p : packet_id_persist) : bool := 0 <=? pp_fd p.

(** Copy the highest accepted (time, id) out of the live record ... *)
Definition packet_id_persist_save_obj (p : packet_id_persist) (pid : packet_id)
  : packet_id_persist :=
  if packet_id_persist_enabled p && negb (r_time (rec pid) =? 0) then
    mk_persist (pp_fd p) (r_time (rec pid)) (u32 (r_id (rec pid)))
      (pp_time_last_written p) (pp_id_last_written p)
  else p.

(** ... and back into a fresh one. *)
Definition packet_id_persist_load_obj (p : packet_id_persist) (pid : packet_id) : packet_id :=
  if packet_id_persist_enabled p && negb (pp_time p =? 0) then
    let r := rec pid in
    mk_pid (send pid)
      (mk_rec (r_last_reap r) (pp_time p) (pp_id p) (r_seq_backtrack r) (r_time_backtrack r)
         (r_max_backtrack_stat r) (r_initialized r) (r_seq_list r) (r_name r) (r_unit r))
  else pid.

(** ** The circular list is a bounded list, newest entry first *)

Record circ_wf (l : seq_list) : Prop := {
  circ_cap : 0 < x_cap l;
  circ_head : 0 <= x_head l < x_cap l;
  circ_size : 0 <= x_size l <= x_cap l;
  circ_len : zlen (x_list l) = x_cap l
}.

Definition items (l : seq_list) : list Z :=
  (fun k => default 0 (x_list l !! Z.to_nat ((x_head l + Z.of_nat k) mod x_cap l)))
    <$> seq 0 (Z.to_nat (x_size l)).

Lemma length_items l : circ_wf l -> zlen (items l) = x_size l.
Proof. intros []. unfold items. rewrite length_fmap, length_seq. lia. Qed.

Lemma lookup_items l k :
  circ_wf l -> (k < Z.to_nat (x_size l))%nat ->
  items l !! k = x_list l !! Z.to_nat ((x_head l + Z.of_nat k) mod x_cap l).
Proof.
  intros [] ?. unfold items. rewrite list_lookup_fmap, lookup_seq_lt by done. simpl.
  assert (0 <= (x_head l + Z.of_nat k) mod x_cap l < x_cap l) by (apply Z.mod_pos_bound; lia).
  destruct (x_list l !! _) eqn:E; [done|]. apply lookup_ge_None in E. lia.
Qed.

Lemma circ_index_spec l i :
  circ_wf l -> 0 <= i < x_size l ->
  CIRC_LIST_INDEX l i = Some ((x_head l + i) mod x_cap l).
Proof.
  intros [] ?. unfold CIRC_LIST_INDEX. rewrite index_verify_spec by done. simpl.
  apply modulo_add_spec; lia.
Qed.

Lemma circ_item_spec l i :
  circ_wf l -> 0 <= i < x_size l -> CIRC_LIST_ITEM l i = items l !! Z.to_nat i.
Proof.
  intros Hwf ?. unfold CIRC_LIST_ITEM. rewrite circ_index_spec by done. simpl.
  rewrite lookup_items by (done || lia). by rewrite Z2Nat.id by lia.
Qed.

(** Positions of the ring that lie less than a lap apart are distinct. *)
Lemma circ_pos_inj h cap i j :
  0 < cap -> 0 <= i < cap -> 0 <= j < cap -> (h + i) mod cap = (h + j) mod cap -> i = j.
Proof.
  intros ??? H. assert (Hd : (i - j) mod cap = 0).
  { replace (i - j) with ((h + i) - (h + j)) by lia. rewrite Zminus_mod, H, Z.sub_diag.
    apply Z.mod_0_l; lia. }
  apply Z.mod_divide in Hd as [q ?]; [|lia].
  destruct (Z.lt_trichotomy q 0) as [|[->|]]; nia.
Qed.

Lemma circ_push_spec l x :
  circ_wf l ->
  exists l', CIRC_LIST_PUSH l x = Some l' /\ circ_wf l' /\ x_cap l' = x_cap l /\
             items l' = take (Z.to_nat (x_cap l)) (x :: items l).
Proof.
  intros Hwf. pose proof Hwf as []. unfold CIRC_LIST_PUSH.
  rewrite modulo_add_spec by lia. simpl.
  set (h := (x_head l + -1) mod x_cap l).
  assert (0 <= h < x_cap l) by (apply Z.mod_pos_bound; lia).
  assert (Hh : forall k, 1 <= k -> (h + k) mod x_cap l = (x_head l + (k - 1)) mod x_cap l).
  { intros k ?. unfold h. rewrite Z.add_mod_idemp_l by lia. f_equal. lia. }
  set (l' := mk_seq_list _ _ _ _).
  assert (Hwf' : circ_wf l').
  { split; simpl; rewrite ?min_int_spec, ?length_insert; lia. }
  exists l'. split_and!; [done..|].
  apply list_eq. intros k.
  destruct (decide (k < Z.to_nat (x_size l'))%nat) as [Hk|Hk]; simpl in Hk;
    rewrite min_int_spec in Hk.
  - rewrite lookup_take_lt by lia. rewrite lookup_items by (simpl; rewrite ?min_int_spec; done || lia).
    simpl. destruct k as [|k]; simpl.
    + rewrite Z.add_0_r, Z.mod_small by lia. rewrite list_lookup_insert_eq by lia. done.
    + rewrite Hh by lia. rewrite list_lookup_insert_ne.
      * rewrite lookup_items by (done || lia). f_equal. f_equal. f_equal. lia.
      * intros Heq%Z2Nat.inj; [|lia|apply Z.mod_pos_bound; lia].
        assert (Hc : (h + 0) mod x_cap l = (h + Z.of_nat (S k)) mod x_cap l).
        { rewrite (Hh (Z.of_nat (S k))) by lia. rewrite <- Heq, Z.add_0_r. apply Z.mod_small; lia. }
        apply circ_pos_inj in Hc; lia.
  - pose proof (length_items l' Hwf') as Hl'. simpl in Hl'. rewrite min_int_spec in Hl'.
    pose proof (length_items l Hwf) as Hl.
    rewrite !lookup_ge_None_2; [done|rewrite length_take; simpl; lia|lia].
Qed.

Lemma circ_set_spec l i x :
  circ_wf l -> 0 <= i < x_size l ->
  exists l', CIRC_LIST_SET l i x = Some l' /\ circ_wf l' /\ x_cap l' = x_cap l /\
             x_size l' = x_size l /\ items l' = <[Z.to_nat i := x]> (items l).
Proof.
  intros Hwf ?. pose proof Hwf as []. unfold CIRC_LIST_SET.
  rewrite circ_index_spec by done. simpl. set (l' := mk_seq_list _ _ _ _).
  assert (Hwf' : circ_wf l') by (split; simpl; rewrite ?length_insert; lia).
  exists l'. split_and!; [done..|]. apply list_eq. intros k.
  pose proof (length_items l Hwf) as Hl. pose proof (length_items l' Hwf') as Hl'.
  simpl in Hl'. destruct (decide (k < Z.to_nat (x_size l))%nat) as [Hk|Hk].
  - rewrite lookup_items by done. simpl.
    assert (0 <= (x_head l + i) mod x_cap l < x_cap l) by (apply Z.mod_pos_bound; lia).
    destruct (decide (k = Z.to_nat i)) as [->|Hne].
    + rewrite Z2Nat.id, !list_lookup_insert_eq by lia. done.
    + rewrite !list_lookup_insert_ne, lookup_items; try done; try lia.
      intros Heq%Z2Nat.inj; [|lia|apply Z.mod_pos_bound; lia].
      apply circ_pos_inj in Heq; lia.
  - rewrite !lookup_ge_None_2; rewrite ?length_insert; lia || done.
Qed.

Lemma circ_reset_spec l :
  circ_wf l -> circ_wf (CIRC_LIST_RESET l) /\ items (CIRC_LIST_RESET l) = [].
Proof. intros []. split; [split; simpl; lia|done]. Qed.

Lemma circ_alloc_spec n : 0 < n -> circ_wf (CIRC_LIST_ALLOC n) /\ items (CIRC_LIST_ALLOC n) = [].
Proof. intros. split; [split; simpl; rewrite ?length_replicate; lia|done]. Qed.

(** The fill loop always ends with the fuel it is given. *)
Lemma circ_fill_spec n l id :
  circ_wf l ->
  exists l', packet_id_fill n l id (id + Z.of_nat n) = Some (l', id + Z.of_nat n) /\
             circ_wf l' /\ x_cap l' = x_cap l /\
             items l' = take (Z.to_nat (x_cap l)) (replicate n SEQ_UNSEEN ++ items l).
Proof.
  revert l id. induction n as [|n IH]; intros l id Hwf; simpl.
  - change (Z.of_nat 0) with 0. rewrite Z.add_0_r, Z.ltb_irrefl. exists l. split_and!; try done.
    pose proof (length_items l Hwf). destruct Hwf. rewrite firstn_all2; [done|lia].
  - destruct (_ <? _) eqn:E; [|lia].
    destruct (circ_push_spec l SEQ_UNSEEN Hwf) as (l1 & -> & Hwf1 & Hcap1 & Hit1). simpl.
    destruct (IH l1 (id + 1) Hwf1) as (l2 & Hf & Hwf2 & Hcap2 & Hit2).
    exists l2. replace (id + Z.of_nat (S n)) with (id + 1 + Z.of_nat n) by lia.
    split_and!; [done|done|congruence|]. rewrite Hit2, Hcap1, Hit1.
    rewrite app_comm_cons, replicate_cons_app, <- app_assoc. simpl.
    generalize (SEQ_UNSEEN :: items l); intros r.
    rewrite !take_app, take_take. f_equal. f_equal. lia.
Qed.
