(* ===== verification/ReplayWindow.v ===== *)
(** * The replay window: what [packet_id.c] promises, and that it keeps it

    The abstract window keeps every id accepted since the last change of the
    time stamp, with its arrival time, and a floor below which nothing is
    accepted.  [win_rel] relates it to the record with its circular list, and
    [check_replay_refines] is the simulation.  The class [ReplayFilter] is what
    the crypto layer relies on: an accepted packet id is never accepted again. *)
From S2P Require Import Prelude Integers Buffer PacketId.

(** ** The abstract window *)

Record window := mk_window {
  w_time : Z;
  w_id : Z;
  w_floor : Z;
  w_seen : gmap Z Z
}.

Definition w_empty : window := mk_window 0 0 0 ∅.

Definition w_accept (w : window) (pin : packet_id_net) : bool :=
  negb (n_id pin =? 0) &&
  (if n_time pin =? w_time w then
     (w_id w <? n_id pin)
     || ((w_floor w <? n_id pin) && bool_decide (w_seen w !! n_id pin = None))
   else w_time w <? n_time pin).

Definition w_add (bt now : Z) (w : window) (pin : packet_id_net) : window :=
  if w_time w <? n_time pin then
    mk_window (n_time pin) (n_id pin) (Z.max 0 (n_id pin - bt)) {[n_id pin := now]}
  else
    let m := Z.max (w_id w) (n_id pin) in
    mk_window (w_time w) m (Z.max (w_floor w) (m - bt)) (<[n_id pin := now]> (w_seen w)).

(** The floor rises to the highest id that arrived more than [tb] ago. *)
Definition w_expire (tb now : Z) (w : window) : window :=
  mk_window (w_time w) (w_id w)
    (map_fold (fun i ts m => if ts + tb <? now then Z.max m i else m) (w_floor w) (w_seen w))
    (w_seen w).

(** One packet, given whether this is a moment at which the list is reaped. *)
Definition w_step (bt tb now : Z) (reap : bool) (w : window) (pin : packet_id_net) : bool * window :=
  let w := if reap && negb (tb =? 0) then w_expire tb now w else w in
  if w_accept w pin then (true, w_add bt now w pin) else (false, w).

(** ** Expiry *)

Definition stale (tb now : Z) (m : gmap Z Z) (i : Z) : Prop :=
  exists ts, m !! i = Some ts /\ ts + tb < now.

Lemma stale_insert tb now m i j ts :
  m !! i = None ->
  stale tb now (<[i := ts]> m) j <-> (i = j /\ ts + tb < now) \/ stale tb now m j.
Proof.
  intros Hi. unfold stale. destruct (decide (i = j)) as [->|Hne].
  - rewrite lookup_insert_eq, Hi. split; [intros (? & [= <-] & ?); by left|].
    intros [[_ ?]|(? & [=] & _)]. by exists ts.
  - rewrite lookup_insert_ne by done. tauto.
Qed.

Lemma expire_floor tb now w :
  let f := w_floor (w_expire tb now w) in
  w_floor w <= f /\ (forall i, stale tb now (w_seen w) i -> i <= f) /\
  (f = w_floor w \/ stale tb now (w_seen w) f).
Proof.
  cbn [w_expire w_floor].
  apply (map_fold_weak_ind (fun f m => w_floor w <= f /\ (forall i, stale tb now m i -> i <= f) /\
    (f = w_floor w \/ stale tb now m f))).
  - split_and!; [lia| |by left]. intros i (ts & Hts & _). by rewrite lookup_empty in Hts.
  - intros i ts m f Hi (IH1 & IH2 & IH3). setoid_rewrite stale_insert; [|done..].
    destruct (ts + tb <? now) eqn:E; split_and!; try lia.
    + intros j [[<- _]|Hj%IH2]; lia.
    + destruct (Z.max_spec f i) as [[? ->]|[? ->]]; [right; left; lia|tauto].
    + intros j [[<- ?]|Hj%IH2]; lia.
    + tauto.
Qed.

(** ** The simulation relation *)

(** What the list holds for id [i]: expired, the arrival time, or unseen. *)
Definition entry (w : window) (i : Z) : Z :=
  if i <=? w_floor w then SEQ_EXPIRED else default SEQ_UNSEEN (w_seen w !! i).

(** The entries for ids [i], [i - 1], ..., [n] of them. *)
Definition entries (w : window) (i : Z) (n : nat) : list Z :=
  (fun k => entry w (i - Z.of_nat k)) <$> seq 0 n.

Record win_inv (bt : Z) (w : window) (n : Z) : Prop := {
  wi_floor : 0 <= w_floor w <= w_id w;
  wi_size : 0 <= n <= bt;
  wi_known : w_id w - n <= w_floor w;
  wi_empty : n = 0 -> w_id w = 0;
  wi_seen i ts : w_seen w !! i = Some ts -> i <= w_id w /\ SEQ_EXPIRED < ts
}.

Record win_rel (bt tb : Z) (p : packet_id_rec) (w : window) : Prop := {
  wr_init : r_initialized p = true;
  wr_bt : r_seq_backtrack p = bt;
  wr_tb : r_time_backtrack p = tb;
  wr_time : r_time p = w_time w;
  wr_id : r_id p = w_id w;
  wr_list : exists l, r_seq_list p = Some l /\ circ_wf l /\ x_cap l = bt /\
              items l = entries w (w_id w) (Z.to_nat (x_size l)) /\ win_inv bt w (x_size l)
}.

Lemma length_entries w i n : length (entries w i n) = n.
Proof. unfold entries. by rewrite length_fmap, length_seq. Qed.

Lemma lookup_entries w i n k :
  (k < n)%nat -> entries w i n !! k = Some (entry w (i - Z.of_nat k)).
Proof. intros. unfold entries. by rewrite list_lookup_fmap, lookup_seq_lt. Qed.

Lemma lookup_entries_ge w i n k : (n <= k)%nat -> entries w i n !! k = None.
Proof. intros. apply lookup_ge_None_2. by rewrite length_entries. Qed.

Lemma entries_S w i n : entries w i (S n) = entry w i :: entries w (i - 1) n.
Proof.
  unfold entries. cbn [seq fmap list_fmap]. f_equal; [f_equal; lia|].
  rewrite <- fmap_S_seq, <- list_fmap_compose. apply list_fmap_ext. intros ? k _. simpl.
  f_equal. lia.
Qed.

Lemma entries_ext w w' i n :
  (forall j, i - Z.of_nat n < j <= i -> entry w j = entry w' j) -> entries w i n = entries w' i n.
Proof.
  intros H. unfold entries. apply list_fmap_ext. intros k x Hx.
  apply lookup_seq in Hx. apply H. lia.
Qed.

(** ** [packet_id_reap] *)

(** The reap loop as a function on the list of arrival times. *)
Fixpoint reap_items (tb now : Z) (expire : bool) (ts : list Z) : list Z :=
  match ts with
  | [] => []
  | t :: r =>
      if t =? SEQ_EXPIRED then t :: r
      else
        let e := expire || (negb (t =? 0) && (t + tb <? now)) in
        (if e then SEQ_EXPIRED else t) :: reap_items tb now e r
  end.

Lemma reap_loop_spec tb now suf l pre e :
  circ_wf l -> items l = pre ++ suf ->
  exists l', packet_id_reap_loop (length suf) (zlen pre) e tb now l = Some l' /\
    circ_wf l' /\ x_cap l' = x_cap l /\ x_size l' = x_size l /\
    items l' = pre ++ reap_items tb now e suf.
Proof.
  revert l pre e. induction suf as [|t suf IH]; intros l pre e Hwf Hit.
  - exists l. done.
  - cbn [length packet_id_reap_loop reap_items].
    pose proof (length_items l Hwf) as Hlen. rewrite Hit, length_app in Hlen. simpl in Hlen.
    assert (Hlk : items l !! length pre = Some t) by by rewrite Hit, list_lookup_middle.
    rewrite circ_item_spec, Nat2Z.id, Hlk by (done || lia). simpl.
    destruct (t =? SEQ_EXPIRED); [by exists l|].
    set (e' := e || _). set (t' := if e' then SEQ_EXPIRED else t).
    assert (exists l1, (if e' then CIRC_LIST_SET l (zlen pre) SEQ_EXPIRED else Some l) = Some l1 /\
              circ_wf l1 /\ x_cap l1 = x_cap l /\ x_size l1 = x_size l /\
              items l1 = (pre ++ [t']) ++ suf) as (l1 & -> & Hwf1 & Hc1 & Hs1 & Hi1).
    { rewrite <- app_assoc. unfold t'. destruct e'; [|by exists l].
      destruct (circ_set_spec l (zlen pre) SEQ_EXPIRED Hwf) as (l1 & ? & ? & ? & ? & Hi); [lia|].
      exists l1. split_and!; [done..|].
      by rewrite Hi, Hit, Nat2Z.id, insert_app_r_alt, Nat.sub_diag by lia. }
    simpl. destruct (IH l1 (pre ++ [t']) e' Hwf1 Hi1) as (l2 & Hl2 & ? & ? & ? & Hi2).
    rewrite length_app in Hl2. simpl in Hl2. rewrite Nat2Z.inj_add in Hl2.
    exists l2. split_and!; [done|done|congruence|congruence|].
    by rewrite Hi2, <- app_assoc.
Qed.

Section expire.
Context (tb now : Z) (w : window).
Context (Hseen : forall i ts, w_seen w !! i = Some ts -> SEQ_EXPIRED < ts).
#[local] Abbreviation w' := (w_expire tb now w).

Lemma entry_expired i : i <= w_floor w -> entry w i = SEQ_EXPIRED /\ entry w' i = SEQ_EXPIRED.
Proof.
  intros. destruct (expire_floor tb now w) as [Hf _].
  unfold entry. split; destruct (_ <=? _) eqn:?; (done || lia).
Qed.

Lemma entry_live i :
  w_floor w < i ->
  (entry w i =? SEQ_EXPIRED) = false /\
  (negb (entry w i =? 0) && (entry w i + tb <? now) = true <-> stale tb now (w_seen w) i) /\
  entry w' i = if i <=? w_floor w' then SEQ_EXPIRED else entry w i.
Proof.
  intros. unfold entry. destruct (i <=? w_floor w) eqn:?; [lia|]. split_and!; [| |done].
  - destruct (w_seen w !! i) as [ts|] eqn:Hi; simpl; [apply Hseen in Hi; lia|done].
  - unfold stale. destruct (w_seen w !! i) as [ts|] eqn:Hi; simpl.
    + apply Hseen in Hi. unfold SEQ_EXPIRED in Hi. split; [intros; exists ts; split; [done|lia]|].
      intros (? & [= <-] & ?). lia.
    + split; [done|]. by intros (? & ? & _).
Qed.

Lemma reap_entries n i (e : bool) :
  (if e then i < w_floor w' else w_floor w' <= i) ->
  reap_items tb now e (entries w i n) = entries w' i n.
Proof.
  revert i e. induction n as [|n IH]; intros i e He; [done|].
  rewrite !entries_S. cbn [reap_items].
  destruct (decide (i <= w_floor w)) as [Hi|Hi].
  - destruct (entry_expired i Hi) as [-> ->]. rewrite Z.eqb_refl. f_equal.
    apply entries_ext. intros j ?. destruct (entry_expired j) as [-> ->]; [lia|done].
  - destruct (entry_live i) as (-> & Hst & ->); [lia|].
    destruct (expire_floor tb now w) as (_ & Hmax & Hw').
    destruct e; cbn [orb].
    + destruct (i <=? w_floor w') eqn:?; [|lia]. f_equal. apply IH. lia.
    + destruct (decide (i = w_floor w')) as [Hw|Hw].
      * replace (_ && _) with true; [|symmetry; apply Hst; rewrite Hw; destruct Hw'; [lia|done]].
        destruct (i <=? w_floor w') eqn:?; [|lia]. f_equal. apply IH. lia.
      * rewrite (not_true_is_false (_ && _)) by (intros ?%Hst%Hmax; lia).
        destruct (i <=? w_floor w') eqn:?; [lia|]. f_equal. apply IH. lia.
Qed.
End expire.

Lemma win_inv_expire bt tb now w n : win_inv bt w n -> win_inv bt (w_expire tb now w) n.
Proof.
  intros []. destruct (expire_floor tb now w) as (Hf & _ & Hc).
  assert (w_id (w_expire tb now w) = w_id w) as Hid by done.
  split; rewrite ?Hid; try lia; try done.
  destruct Hc as [->|(ts & [? _]%wi_seen0 & _)]; lia.
Qed.

(** The record after the loop that expires entries. *)
Lemma reap_spec bt tb now p w :
  win_rel bt tb p w ->
  exists p', packet_id_reap now p = Some p' /\
             win_rel bt tb p' (if tb =? 0 then w else w_expire tb now w).
Proof.
  intros [? ? Htb ? ? (l & Hl & Hwf & Hcap & Hit & Hinv)]. unfold packet_id_reap.
  rewrite Htb. destruct (tb =? 0); cbn [negb].
  - eexists. split; [done|]. split; simpl; try done. by exists l.
  - rewrite Hl. simpl. pose proof (length_items l Hwf) as Hlen.
    destruct (reap_loop_spec tb now (items l) l [] false Hwf) as (l' & Hr & Hwf' & Hc' & Hs' & Hi');
      [done|].
    unfold CIRC_LIST_SIZE. rewrite <- Hlen, Nat2Z.id. change (zlen []) with 0 in Hr. rewrite Hr. simpl.
    eexists. split; [done|]. split; simpl; try done.
    exists l'. split_and!; [done|done|congruence| |].
    + rewrite Hi', Hit, Hs'. apply (reap_entries tb now w (fun i ts H => proj2 (wi_seen _ _ _ Hinv i ts H))).
      apply (wi_floor _ _ _ (win_inv_expire bt tb now w _ Hinv)).
    + rewrite Hs'. by apply win_inv_expire.
Qed.

(** Whether [packet_id_reap_test] reaps now. *)
Definition reap_due (now : Z) (p : packet_id_rec) : bool :=
  r_last_reap p + SEQ_REAP_INTERVAL <=? now.

Lemma reap_test_spec bt tb now p w :
  win_rel bt tb p w ->
  exists p', packet_id_reap_test now p = Some p' /\
             win_rel bt tb p' (if reap_due now p && negb (tb =? 0) then w_expire tb now w else w).
Proof.
  intros Hr. unfold packet_id_reap_test, reap_due. destruct (_ <=? now); [|by exists p].
  destruct (reap_spec bt tb now p w Hr) as (p' & ? & ?). exists p'. by destruct (tb =? 0).
Qed.

(** ** [packet_id_test] *)

Lemma win_rel_stat bt tb p w v : win_rel bt tb p w -> win_rel bt tb (set_max_backtrack_stat p v) w.
Proof. intros []. by split. Qed.

(** The entry at distance [d] decides exactly what the window decides. *)
Lemma test_entry w i :
  0 <= w_floor w -> i <= w_id w -> (forall j ts, w_seen w !! j = Some ts -> SEQ_EXPIRED < ts) ->
  (entry w i =? 0) = (w_id w <? i) || ((w_floor w <? i) && bool_decide (w_seen w !! i = None)).
Proof.
  intros ? ? Hs. unfold entry. replace (w_id w <? i) with false by lia.
  destruct (i <=? w_floor w) eqn:?; [replace (w_floor w <? i) with false by lia; done|].
  replace (w_floor w <? i) with true by lia.
  destruct (w_seen w !! i) as [ts|] eqn:E; simpl.
  - apply Hs in E. unfold SEQ_EXPIRED in E. lia.
  - done.
Qed.

Lemma test_spec bt tb p w pin :
  0 < bt <= MAX_SEQ_BACKTRACK -> 0 <= n_id pin ->
  win_rel bt tb p w ->
  exists p', packet_id_test p pin = Some (w_accept w pin, p') /\ win_rel bt tb p' w.
Proof.
  intros Hbt Hi Hr. pose proof Hr as [Hin Hb _ Ht Hid (l & Hl & Hwf & _ & Hit & Hinv)].
  pose proof Hinv as []. unfold packet_id_test, w_accept.
  rewrite Hin, Hb, Ht, Hid. cbn [ASSERT mbind option_bind].
  destruct (n_id pin =? 0) eqn:E0; [by exists p|]. cbn [negb andb].
  replace (bt =? 0) with false by lia. cbn [negb].
  destruct (n_time pin =? w_time w) eqn:Et.
  2:{ destruct (n_time pin <? w_time w) eqn:?.
      - replace (w_time w <? n_time pin) with false by lia. by exists p.
      - replace (w_time w <? n_time pin) with true by lia. by exists p. }
  destruct (w_id w <? n_id pin) eqn:Em; [by exists p|]. cbn [orb].
  set (p' := if r_max_backtrack_stat p <? _ then _ else p).
  assert (Hr' : win_rel bt tb p' w) by (unfold p'; destruct (r_max_backtrack_stat p <? _); [by apply win_rel_stat|done]).
  exists p'. split; [|done].
  assert (r_seq_list p' = Some l) as -> by (unfold p'; by destruct (r_max_backtrack_stat p <? _)).
  simpl. unfold CIRC_LIST_SIZE. unfold MAX_SEQ_BACKTRACK in Hbt.
  rewrite u32_small by (unfold is_u32; lia).
  destruct (x_size l <=? _) eqn:Es.
  - do 2 f_equal. symmetry. apply andb_false_intro1. lia.
  - rewrite circ_item_spec, Hit, lookup_entries by (done || lia). simpl. do 2 f_equal.
    replace (w_id w - Z.of_nat (Z.to_nat (w_id w - n_id pin))) with (n_id pin) by lia.
    rewrite test_entry by (lia || eauto; intros; eapply wi_seen0; eauto).
    by replace (w_id w <? n_id pin) with false by lia.
Qed.

(** ** [packet_id_add] *)

(** Pushing [n] unseen ids and recording the newest. *)
Lemma entries_push w w' now i n s b :
  (0 < n)%nat -> (0 < b)%nat -> w_floor w' < i -> w_seen w' !! i = Some now ->
  (forall j, i - Z.of_nat n < j < i -> w_floor w' < j /\ w_seen w' !! j = None) ->
  (forall j, i - Z.of_nat b < j -> i - Z.of_nat n - Z.of_nat s < j <= i - Z.of_nat n ->
     entry w j = entry w' j) ->
  now :: take (b - 1) (replicate (n - 1) SEQ_UNSEEN ++ entries w (i - Z.of_nat n) s)
  = entries w' i (Nat.min b (n + s)).
Proof.
  intros Hn Hb Hf Hs Hnew Hold. destruct (Nat.min b (n + s)) as [|m] eqn:Hm; [lia|].
  rewrite entries_S. unfold entry at 1. replace (i <=? w_floor w') with false by lia.
  rewrite Hs. f_equal. apply list_eq. intros k. destruct (decide (k < m)%nat) as [Hk|Hk].
  - rewrite lookup_take_lt, lookup_entries by lia.
    destruct (decide (k < n - 1)%nat).
    + rewrite lookup_app_l by (rewrite length_replicate; lia).
      rewrite lookup_replicate_2 by done. unfold entry.
      destruct (Hnew (i - 1 - Z.of_nat k)) as [? ->]; [lia|].
      by replace (_ <=? _) with false by lia.
    + rewrite lookup_app_r, length_replicate by (rewrite length_replicate; lia).
      rewrite lookup_entries by lia. f_equal. rewrite Hold by lia. f_equal. lia.
  - rewrite lookup_entries_ge by lia. apply lookup_ge_None_2.
    rewrite length_take, length_app, length_replicate, length_entries. lia.
Qed.

Lemma fill_set_spec now l id0 i :
  circ_wf l -> id0 < i -> SEQ_EXPIRED < now ->
  exists l1 l2, packet_id_fill (Z.to_nat (i - id0)) l id0 i = Some (l1, i) /\
    (if (i - i <? CIRC_LIST_SIZE l1) && (SEQ_EXPIRED <? now)
     then CIRC_LIST_SET l1 (i - i) now else Some l1) = Some l2 /\
    circ_wf l2 /\ x_cap l2 = x_cap l /\
    items l2 = now :: take (Z.to_nat (x_cap l) - 1)
                        (replicate (Z.to_nat (i - id0) - 1) SEQ_UNSEEN ++ items l).
Proof.
  intros Hwf Hlt Hnow. destruct (circ_fill_spec (Z.to_nat (i - id0)) l id0 Hwf)
    as (l1 & Hf & Hwf1 & Hc1 & Hi1).
  replace (id0 + Z.of_nat (Z.to_nat (i - id0))) with i in Hf by lia.
  pose proof (circ_cap l Hwf). pose proof (length_items l1 Hwf1) as Hl1.
  rewrite Hi1, length_take, length_app, length_replicate in Hl1.
  rewrite Z.sub_diag. replace (SEQ_EXPIRED <? now) with true by lia.
  unfold CIRC_LIST_SIZE. exists l1. replace (0 <? x_size l1) with true by lia. cbn [andb].
  destruct (circ_set_spec l1 0 now Hwf1) as (l2 & ? & ? & ? & _ & Hi2); [lia|].
  exists l2. split_and!; [done..|congruence|]. rewrite Hi2, Hi1.
  destruct (Z.to_nat (x_cap l)) as [|c] eqn:?; [lia|].
  destruct (Z.to_nat (i - id0)) as [|n] eqn:?; [lia|].
  simpl. rewrite !Nat.sub_0_r. done.
Qed.

(** A new highest id: from a list that shows [w] up to [id0] to one that shows [w']. *)
Lemma push_rel bt now l0 id0 s w w' :
  circ_wf l0 -> x_cap l0 = bt -> items l0 = entries w id0 s ->
  id0 < w_id w' -> SEQ_EXPIRED < now -> 0 <= w_floor w' < w_id w' ->
  w_seen w' !! w_id w' = Some now ->
  (forall j, id0 < j < w_id w' -> w_floor w' < j /\ w_seen w' !! j = None) ->
  (forall j, w_id w' - bt < j -> id0 - Z.of_nat s < j <= id0 -> entry w j = entry w' j) ->
  Z.max (w_id w' - bt) (id0 - Z.of_nat s) <= w_floor w' ->
  (forall i ts, w_seen w' !! i = Some ts -> i <= w_id w' /\ SEQ_EXPIRED < ts) ->
  exists l1 l2, packet_id_fill (Z.to_nat (w_id w' - id0)) l0 id0 (w_id w') = Some (l1, w_id w') /\
    (if (w_id w' - w_id w' <? CIRC_LIST_SIZE l1) && (SEQ_EXPIRED <? now)
     then CIRC_LIST_SET l1 (w_id w' - w_id w') now else Some l1) = Some l2 /\
    circ_wf l2 /\ x_cap l2 = bt /\
    items l2 = entries w' (w_id w') (Z.to_nat (x_size l2)) /\ win_inv bt w' (x_size l2).
Proof.
  intros Hwf Hcap Hit Hlt Hnow Hf Hs Hnew Hold Hfl Hseen.
  destruct (fill_set_spec now l0 id0 (w_id w') Hwf Hlt Hnow) as (l1 & l2 & H1 & H2 & Hwf2 & Hc2 & Hi2).
  exists l1, l2. pose proof (length_items l2 Hwf2) as Hlen. pose proof (circ_cap l0 Hwf).
  rewrite Hit, Hcap in Hi2.
  assert (Hd : id0 = w_id w' - Z.of_nat (Z.to_nat (w_id w' - id0))) by lia.
  assert (Hi2' : items l2 = entries w' (w_id w') (Nat.min (Z.to_nat bt) (Z.to_nat (w_id w' - id0) + s))).
  { rewrite Hi2. rewrite Hd at 2. apply entries_push; try lia; try done.
    - intros j ?. apply Hnew. lia.
    - intros j ??. apply Hold; lia. }
  rewrite Hi2', length_entries in Hlen.
  split_and!; try done; try congruence.
  - rewrite Hi2'. f_equal. lia.
  - split; try done; lia.
Qed.

Section add.
Context (bt tb now : Z) (p : packet_id_rec) (w : window) (pin : packet_id_net).
Context (Hbt : 0 < bt) (Hnow : SEQ_EXPIRED < now).
Context (Hrel : win_rel bt tb p w) (Hi : 0 < n_id pin).

(** The outcome each case has to establish. *)
Definition added : Prop :=
  exists p', packet_id_add now p pin = Some p' /\ win_rel bt tb p' (w_add bt now w pin).

#[local] Ltac open_add :=
  destruct Hrel as [Hin Hb Htb Ht Hid (l & Hl & Hwf & Hcap & Hit & Hinv)];
  pose proof Hinv as [];
  unfold added, packet_id_add, w_add; rewrite Hl, Hb, Ht, Hid; cbv zeta;
  replace (if bt <? n_id pin then n_id pin - bt else 0) with (Z.max 0 (n_id pin - bt))
    by (destruct (bt <? n_id pin) eqn:?; lia);
  destruct (circ_reset_spec l Hwf) as [Hwfr Hitr].

#[local] Ltac open_push l0 id0 s w' :=
  destruct (push_rel bt now l0 id0 s w w') as (l1 & l2 & Hfill & Hset & ? & ? & ? & ?);
    repeat match goal with x := mk_window _ _ _ _ |- _ => subst x end;
    cbn [w_id w_floor w_seen] in *; try done; try lia.

#[local] Ltac close_push Hfill Hset l2 :=
  rewrite Hfill; cbn [mbind option_bind]; rewrite Hset;
  eexists; split; [done|split; try done; by exists l2].

(** A new time stamp: the list starts afresh. *)
Lemma add_new_time : w_time w < n_time pin -> added.
Proof.
  intros ?. open_add. replace (w_time w <? n_time pin) with true by lia.
  rewrite orb_true_r. cbn [orb].
  open_push (CIRC_LIST_RESET l) (Z.max 0 (n_id pin - bt)) 0%nat
    (mk_window (n_time pin) (n_id pin) (Z.max 0 (n_id pin - bt)) {[n_id pin := now]}).
  - by rewrite lookup_singleton_eq.
  - intros j ?. rewrite lookup_singleton_ne by lia. split; [lia|done].
  - intros i ts [<- <-]%lookup_singleton_Some. lia.
  - close_push Hfill Hset l2.
Qed.

Lemma unseen_above l j : win_inv bt w l -> w_id w < j -> w_seen w !! j = None.
Proof.
  intros [] ?. destruct (w_seen w !! j) eqn:E; [|done]. apply wi_seen0 in E. lia.
Qed.

Lemma seen_after l m i ts :
  win_inv bt w l -> w_id w <= m -> n_id pin <= m ->
  <[n_id pin := now]> (w_seen w) !! i = Some ts -> i <= m /\ SEQ_EXPIRED < ts.
Proof.
  intros [] ?? [[<- <-]|[_ Hs]]%lookup_insert_Some; [lia|]. apply wi_seen0 in Hs. lia.
Qed.

(** A new highest id under the same time stamp; the list starts afresh when it was
    empty or when the jump is longer than the list. *)
Lemma add_ahead : n_time pin = w_time w -> w_id w < n_id pin -> added.
Proof.
  intros Heq Hlt. open_add. rewrite Heq, Z.ltb_irrefl, orb_false_r, (Z.max_r (w_id w)) by lia.
  pose proof (fun j => unseen_above _ j Hinv) as Hnone.
  pose proof (fun i ts => seen_after _ (n_id pin) i ts Hinv) as Hins.
  set (w' := mk_window (w_time w) (n_id pin) (Z.max (w_floor w) (n_id pin - bt))
               (<[n_id pin:=now]> (w_seen w))).
  destruct (_ || _) eqn:Hfresh.
  - assert (w_id w <= Z.max 0 (n_id pin - bt)).
    { unfold CIRC_LIST_SIZE in Hfresh.
      destruct (decide (x_size l = 0)) as [H0%wi_empty0|]; lia. }
    open_push (CIRC_LIST_RESET l) (Z.max 0 (n_id pin - bt)) 0%nat w'.
    + by rewrite lookup_insert_eq.
    + intros j ?. rewrite lookup_insert_ne, Hnone by lia. split; [lia|done].
    + intros i ts ?. apply Hins; done || lia.
    + close_push Hfill Hset l2.
  - open_push l (w_id w) (Z.to_nat (x_size l)) w'.
    + by rewrite lookup_insert_eq.
    + intros j ?. rewrite lookup_insert_ne, Hnone by lia. split; [lia|done].
    + intros j ??. unfold entry. cbn [w_floor w_seen]. rewrite lookup_insert_ne by lia.
      by replace (j <=? Z.max _ _) with (j <=? w_floor w) by lia.
    + intros i ts ?. apply Hins; done || lia.
    + close_push Hfill Hset l2.
Qed.

(** An id behind the highest: its entry gets the arrival time. *)
Lemma add_behind : n_time pin = w_time w -> w_floor w < n_id pin <= w_id w -> added.
Proof.
  intros Heq [Hfl Hle]. open_add.
  rewrite Heq, Z.ltb_irrefl, orb_false_r, (Z.max_l (w_id w)), (Z.max_l (w_floor w)) by lia.
  unfold CIRC_LIST_SIZE.
  replace (_ || _) with false by (destruct (decide (x_size l = 0)) as [H0%wi_empty0|]; lia).
  replace (Z.to_nat (n_id pin - w_id w)) with 0%nat by lia. cbn [packet_id_fill].
  replace (w_id w <? n_id pin) with false by lia. cbn [mbind option_bind].
  replace (_ && _) with true by lia.
  destruct (circ_set_spec l (w_id w - n_id pin) now Hwf) as (l' & -> & ? & ? & Hs & Hi'); [lia|].
  eexists. split; [done|]. split; try done. exists l'. cbn [w_id].
  split_and!; [done..|congruence| |].
  - rewrite Hi', Hit, Hs. apply list_eq. intros k.
    destruct (decide (k < Z.to_nat (x_size l))%nat).
    + rewrite lookup_entries by done. unfold entry. cbn [w_floor w_seen].
      destruct (decide (k = Z.to_nat (w_id w - n_id pin))) as [->|].
      * rewrite list_lookup_insert_eq by (rewrite length_entries; lia).
        rewrite Z2Nat.id by lia. replace (w_id w - (w_id w - n_id pin)) with (n_id pin) by lia.
        rewrite lookup_insert_eq. by replace (_ <=? _) with false by lia.
      * rewrite list_lookup_insert_ne, lookup_entries, lookup_insert_ne by lia. done.
    + rewrite list_lookup_insert_ne, !lookup_entries_ge by lia. done.
  - rewrite Hs. split; cbn [w_id w_floor w_seen]; try done.
    intros i ts ?. eapply seen_after; done || lia.
Qed.

(** An accepted packet is recorded, and the record shows the new window. *)
Lemma add_spec : w_accept w pin = true -> added.
Proof.
  unfold w_accept. intros Hacc. destruct (n_time pin =? w_time w) eqn:Et.
  - destruct (decide (w_id w < n_id pin)); [apply add_ahead|apply add_behind]; lia.
  - apply add_new_time. lia.
Qed.
End add.

(** ** The simulation *)

Lemma check_replay_spec bt tb now p w pin :
  0 < bt <= MAX_SEQ_BACKTRACK -> SEQ_EXPIRED < now -> 0 <= n_id pin -> win_rel bt tb p w ->
  exists p', check_replay now p pin = Some (fst (w_step bt tb now (reap_due now p) w pin), p') /\
             win_rel bt tb p' (snd (w_step bt tb now (reap_due now p) w pin)).
Proof.
  intros Hbt Hnow Hi Hr. unfold check_replay, w_step.
  destruct (reap_test_spec bt tb now p w Hr) as (p1 & -> & Hr1). cbn [mbind option_bind].
  set (w1 := if _ && _ then _ else w) in *.
  destruct (test_spec bt tb p1 w1 pin Hbt Hi Hr1) as (p2 & -> & Hr2). cbn [mbind option_bind].
  destruct (w_accept w1 pin) eqn:Hacc; [|by exists p2].
  assert (0 < n_id pin) by (unfold w_accept in Hacc; lia).
  destruct (add_spec bt tb now p2 w1 pin ltac:(lia) Hnow Hr2 H Hacc) as (p3 & -> & Hr3).
  by exists p3.
Qed.
