(* ===== verification/Replay.v ===== *)
(** * What the replay protection guarantees

    The laws that clients of [packet_id.c] rely on, as an interface
    ([ReplayFilter]) with its two implementations (the sliding window of UDP and
    the strict sequence of TCP); the guarantees of the sender's counter; the wire
    format; and the sender and receiver put together. *)
From Stdlib Require Import Sorted.
From S2P Require Import Prelude Integers Buffer PacketId ReplayWindow.

(** ** The interface *)

(** The clock readings and ids that a check may be given: [SEQ_UNSEEN] and
    [SEQ_EXPIRED] are not times of arrival. *)
Definition arrival_ok (now : Z) (pin : packet_id_net) : Prop :=
  SEQ_EXPIRED < now /\ is_u64 (n_id pin).

(** A replay filter checks packet ids.  [rf_inv acc s]: [s] is reachable by a run
    that accepted exactly [acc] (newest first).  A check never fails, and accepts
    nothing that was accepted before; a move hands the state over and leaves a
    filter of the same kind that has accepted nothing. *)
Class ReplayFilter {State : Type} (check : Z -> State -> packet_id_net -> option (bool * State))
    (move : State -> option (State * State)) (ready : State -> bool) := {
  rf_inv : list packet_id_net -> State -> Prop;
  rf_step acc s now pin :
    rf_inv acc s -> arrival_ok now pin ->
    exists ok s', check now s pin = Some (ok, s') /\
      (if ok then (pin ∉ acc) /\ rf_inv (pin :: acc) s' else rf_inv acc s');
  rf_move acc s :
    rf_inv acc s -> exists s', move s = Some (s, s') /\ rf_inv [] s';
  rf_ready acc s : rf_inv acc s -> ready s = true
}.

(** The function the crypto layer calls when an epoch ends, without its [dest]. *)
Definition move_recv (src : packet_id_rec) : option (packet_id_rec * packet_id_rec) :=
  packet_id_move_recv rec_zero src.

(** The ids accepted out of a sequence of packets with their arrival times, newest first. *)
Fixpoint check_replays (pkts : list (Z * packet_id_net)) (acc : list packet_id_net)
    (p : packet_id_rec) : option (list packet_id_net * packet_id_rec) :=
  match pkts with
  | [] => Some (acc, p)
  | (now, pin) :: pkts =>
      '(ok, p) ← check_replay now p pin;
      check_replays pkts (if ok : bool then pin :: acc else acc) p
  end.

Definition arrivals_ok (pkts : list (Z * packet_id_net)) : Prop :=
  Forall (fun '(now, pin) => arrival_ok now pin) pkts.

Lemma check_replays_inv (RF : ReplayFilter check_replay move_recv r_initialized) pkts acc s :
  rf_inv acc s -> NoDup acc -> arrivals_ok pkts ->
  exists acc' s', check_replays pkts acc s = Some (acc', s') /\ rf_inv acc' s' /\ NoDup acc'.
Proof.
  revert acc s. induction pkts as [|[now pin] pkts IH]; intros acc s Hinv Hnd Hok.
  - by exists acc, s.
  - apply Forall_cons in Hok as [Hp Hps]. cbn [check_replays].
    destruct (rf_step acc s now pin Hinv Hp) as ([] & s' & -> & Hs'); cbn [mbind option_bind].
    + destruct Hs' as [Hnew Hs']. apply IH; try done. by constructor.
    + by apply IH.
Qed.

(** ** The sliding window is a replay filter *)

Definition udp_inv (bt tb : Z) (acc : list packet_id_net) (p : packet_id_rec) : Prop :=
  exists w, win_rel bt tb p w /\
    forall pin, pin ∈ acc ->
      n_time pin < w_time w \/ (n_time pin = w_time w /\ is_Some (w_seen w !! n_id pin)).

(** A step of the window forgets no accepted id and accepts no old one. *)
Lemma w_step_fresh bt tb now b w pin acc :
  (forall q, q ∈ acc -> n_time q < w_time w \/ (n_time q = w_time w /\ is_Some (w_seen w !! n_id q))) ->
  (forall i ts, w_seen w !! i = Some ts -> i <= w_id w) ->
  let '(ok, w') := w_step bt tb now b w pin in
  (ok = true -> pin ∉ acc) /\
  (forall q, q ∈ (if ok then pin :: acc else acc) ->
     n_time q < w_time w' \/ (n_time q = w_time w' /\ is_Some (w_seen w' !! n_id q))).
Proof.
  intros Hacc Hmax. unfold w_step. set (w1 := if b && _ then _ else w).
  assert (w_time w1 = w_time w /\ w_seen w1 = w_seen w /\ w_id w1 = w_id w) as (Ht & Hs & Hid)
    by (unfold w1; by destruct (b && _)).
  destruct (w_accept w1 pin) eqn:E; [|split; [done|by rewrite Ht, Hs]].
  unfold w_accept in E. rewrite Ht, Hs, Hid in E.
  assert (Hnew : n_time pin <> w_time w \/ w_seen w !! n_id pin = None).
  { destruct (n_time pin =? w_time w) eqn:Et; [right|left; lia].
    apply andb_true_iff in E as [_ E]. apply orb_true_iff in E as [E|E].
    - destruct (w_seen w !! n_id pin) eqn:Es; [apply Hmax in Es; lia|done].
    - apply andb_true_iff in E as [_ E]. by apply bool_decide_eq_true in E. }
  assert (Hle : w_time w <= n_time pin) by (destruct (n_time pin =? w_time w) eqn:?; lia).
  split.
  - intros _ [?|[? [ts Hts]]]%Hacc; [lia|]. destruct Hnew; congruence.
  - unfold w_add. rewrite Ht, Hs. intros q [->|Hq]%elem_of_cons.
    + right. destruct (w_time w <? n_time pin) eqn:?; cbn [w_time w_seen].
      * by rewrite lookup_singleton_eq.
      * rewrite lookup_insert_eq. split; [lia|done].
    + apply Hacc in Hq as [?|[? Hq]];
        (destruct (w_time w <? n_time pin) eqn:?; cbn [w_time w_seen]; [left; lia|]).
      * by left.
      * right. split; [done|]. destruct (decide (n_id pin = n_id q)) as [->|].
        -- by rewrite lookup_insert_eq.
        -- by rewrite lookup_insert_ne.
Qed.

Lemma udp_step bt tb acc p now pin :
  0 < bt <= MAX_SEQ_BACKTRACK -> udp_inv bt tb acc p -> arrival_ok now pin ->
  exists ok p', check_replay now p pin = Some (ok, p') /\
    (if ok then (pin ∉ acc) /\ udp_inv bt tb (pin :: acc) p' else udp_inv bt tb acc p').
Proof.
  intros Hbt (w & Hr & Hacc) [Hnow Hi].
  destruct (check_replay_spec bt tb now p w pin Hbt Hnow) as (p' & -> & Hr'); [|done|].
  { unfold is_u64 in Hi. lia. }
  pose proof Hr as [_ _ _ _ _ (l & _ & _ & _ & _ & Hinv)].
  pose proof (w_step_fresh bt tb now (reap_due now p) w pin acc Hacc
                (fun i ts H => proj1 (wi_seen _ _ _ Hinv i ts H))) as Hf.
  destruct (w_step bt tb now (reap_due now p) w pin) as [ok w']. cbn [fst snd] in *.
  destruct Hf as [Hnew Hacc'].
  exists ok, p'. split; [done|]. destruct ok; [split; [by apply Hnew|]|]; by exists w'.
Qed.

Lemma init_recv_win_rel bt tb name unit_ rc :
  0 < bt -> packet_id_init_recv rec_zero bt tb name unit_ = Some rc ->
  0 < bt <= MAX_SEQ_BACKTRACK /\ 0 <= tb <= MAX_TIME_BACKTRACK /\ win_rel bt tb rc w_empty.
Proof.
  unfold packet_id_init_recv. intros ? H.
  replace (bt =? 0) with false in H by lia. cbn [negb] in H.
  apply ASSERT_inv in H as (E1 & (E2 & [= <-])%ASSERT_inv).
  unfold MIN_SEQ_BACKTRACK, MIN_TIME_BACKTRACK in *. split_and!; try lia.
  split; try done. exists (CIRC_LIST_ALLOC bt).
  destruct (circ_alloc_spec bt) as [Hwf Hit]; [lia|].
  split_and!; try done. split; simpl; try lia. intros i ts Hi. by rewrite lookup_empty in Hi.
Qed.

Lemma init_recv_some bt tb name unit_ :
  0 < bt <= MAX_SEQ_BACKTRACK -> 0 <= tb <= MAX_TIME_BACKTRACK ->
  exists rc, packet_id_init_recv rec_zero bt tb name unit_ = Some rc.
Proof.
  intros. unfold packet_id_init_recv. destruct (negb (bt =? 0)); [|by eexists].
  unfold MIN_TIME_BACKTRACK, MIN_SEQ_BACKTRACK.
  rewrite !ASSERT_true by lia. by eexists.
Qed.

Lemma udp_inv_nil bt tb p : win_rel bt tb p w_empty -> udp_inv bt tb [] p.
Proof. intros. exists w_empty. split; [done|]. intros q Hq. by apply elem_of_nil in Hq. Qed.

#[refine] Instance udp_filter (bt tb : Z) (Hbt : 0 < bt <= MAX_SEQ_BACKTRACK)
    (Htb : 0 <= tb <= MAX_TIME_BACKTRACK) : ReplayFilter check_replay move_recv r_initialized := {
  rf_inv := udp_inv bt tb
}.
Proof.
  - intros. by apply udp_step.
  - intros acc s (w & Hr & _). unfold move_recv, packet_id_move_recv.
    rewrite (wr_bt _ _ _ _ Hr), (wr_tb _ _ _ _ Hr).
    destruct (init_recv_some bt tb (r_name s) (r_unit s) Hbt Htb) as [rc Hrc]. rewrite Hrc.
    exists rc. split; [done|]. apply udp_inv_nil.
    by apply (init_recv_win_rel bt tb _ _ _ (proj1 Hbt) Hrc).
  - intros acc s (w & Hr & _). apply (wr_init _ _ _ _ Hr).
Defined.

(** ** So is the strict sequence *)

Definition pin_le (q : packet_id_net) (t i : Z) : Prop :=
  n_time q < t \/ (n_time q = t /\ n_id q <= i).

Record tcp_inv (acc : list packet_id_net) (p : packet_id_rec) : Prop := {
  ti_init : r_initialized p = true;
  ti_bt : r_seq_backtrack p = 0;
  ti_tb : r_time_backtrack p = 0;
  ti_list : r_seq_list p = None;
  ti_id : is_u64 (r_id p);
  ti_acc q : q ∈ acc -> pin_le q (r_time p) (r_id p)
}.

Lemma tcp_reap acc p now :
  tcp_inv acc p -> exists p', packet_id_reap_test now p = Some p' /\ tcp_inv acc p'.
Proof.
  intros H. unfold packet_id_reap_test, packet_id_reap. destruct (_ <=? now); [|by exists p].
  rewrite (ti_tb _ _ H). simpl. eexists. split; [done|]. destruct H. by split.
Qed.

Lemma tcp_step acc p now pin :
  tcp_inv acc p -> arrival_ok now pin ->
  exists ok p', check_replay now p pin = Some (ok, p') /\
    (if ok then (pin ∉ acc) /\ tcp_inv (pin :: acc) p' else tcp_inv acc p').
Proof.
  intros H [_ Hi]. unfold check_replay.
  destruct (tcp_reap acc p now H) as (p1 & -> & H1). cbn [mbind option_bind].
  unfold packet_id_test. destruct H1 as [Hin Hb Htb Hl Hid Hacc]. rewrite Hin, Hb. simpl.
  set (v := if n_id pin =? 0 then _ else _).
  assert (exists ok, v = Some (ok, p1) /\
            (ok = true -> r_time p1 < n_time pin \/ (r_time p1 = n_time pin /\ r_id p1 < n_id pin)))
    as (ok & Hv & Hok).
  { unfold v. destruct (n_id pin =? 0) eqn:?; [by exists false|].
    destruct (n_time pin =? r_time p1) eqn:?; [|destruct (n_time pin <? r_time p1) eqn:?].
    - eexists. split; [done|]. intros Hor. right. unfold is_u64, u64 in *. lia_mod.
    - by exists false.
    - eexists. split; [done|]. left. lia. }
  rewrite Hv. simpl. destruct ok.
  - specialize (Hok eq_refl). unfold packet_id_add. rewrite Hl. simpl.
    eexists true, _. split; [done|]. split.
    + intros Hq%Hacc. unfold pin_le in Hq. lia.
    + split; try done. simpl. intros q [->|Hq]%elem_of_cons; [right; lia|].
      apply Hacc in Hq. unfold pin_le in *. lia.
  - eexists false, _. split; [done|]. by split.
Qed.

#[refine] Instance tcp_filter : ReplayFilter check_replay move_recv r_initialized := {
  rf_inv := tcp_inv;
  rf_step := tcp_step
}.
Proof.
  - intros acc s H. unfold move_recv, packet_id_move_recv, packet_id_init_recv.
    rewrite (ti_bt _ _ H). cbn. eexists. split; [done|].
    split; try done. intros q Hq. by apply elem_of_nil in Hq.
  - intros acc s H. apply (ti_init _ _ H).
Defined.

(** ** Runs of [check_replay] from a fresh record *)

(** The same run of the abstract window, told when the list is reaped. *)
Fixpoint w_run (bt tb : Z) (pkts : list (bool * (Z * packet_id_net)))
    (acc : list packet_id_net) (w : window) : list packet_id_net * window :=
  match pkts with
  | [] => (acc, w)
  | (reap, (now, pin)) :: pkts =>
      let '(ok, w) := w_step bt tb now reap w pin in
      w_run bt tb pkts (if ok : bool then pin :: acc else acc) w
  end.

Lemma init_win_rel bt tb name unit_ pid :
  0 < bt -> packet_id_init bt tb name unit_ = Some pid ->
  0 < bt <= MAX_SEQ_BACKTRACK /\ 0 <= tb <= MAX_TIME_BACKTRACK /\ win_rel bt tb (rec pid) w_empty.
Proof.
  unfold packet_id_init. intros ? H. apply bind_Some in H as (rc & Hrc & [= <-]).
  by eapply init_recv_win_rel.
Qed.

Lemma init_tcp_inv tb name unit_ pid :
  packet_id_init 0 tb name unit_ = Some pid -> tcp_inv [] (rec pid).
Proof. cbn. intros. simplify_eq. split; try done. intros q Hq. by apply elem_of_nil in Hq. Qed.

Lemma check_replays_w_run bt tb pkts acc p w :
  0 < bt <= MAX_SEQ_BACKTRACK -> win_rel bt tb p w -> arrivals_ok pkts ->
  exists reaps p' acc' w', length reaps = length pkts /\
    check_replays pkts acc p = Some (acc', p') /\
    w_run bt tb (zip reaps pkts) acc w = (acc', w') /\ win_rel bt tb p' w'.
Proof.
  intros Hbt. revert acc p w. induction pkts as [|[now pin] pkts IH]; intros acc p w Hr Hok.
  - by exists [], p, acc, w.
  - apply Forall_cons in Hok as [[Hnow Hi] Hps]. cbn [check_replays].
    destruct (check_replay_spec bt tb now p w pin Hbt Hnow) as (p1 & -> & Hr1);
      [unfold is_u64 in Hi; lia|done|]. cbn [mbind option_bind].
    destruct (w_step bt tb now (reap_due now p) w pin) as [ok w1] eqn:Hw. cbn [fst snd] in *.
    destruct (IH (if ok then pin :: acc else acc) p1 w1 Hr1 Hps) as (reaps & p2 & acc' & w' & ? & ? & ? & ?).
    exists (reap_due now p :: reaps), p2, acc', w'. split_and!; try done; [simpl; congruence|].
    cbn [zip_with w_run]. by rewrite Hw.
Qed.

(** C13: Replay protection.  From a freshly initialised record, in the sliding-window
    mode of UDP ([seq_backtrack] positive) and in the strict mode of TCP
    ([seq_backtrack] zero) alike, no sequence of received ids with any arrival
    times makes [check_replay] fail an [ASSERT] or index out of its list, and no
    packet id is ever accepted twice. *)
Theorem no_replay_accepted bt tb name unit_ pid pkts :
  0 <= bt -> packet_id_init bt tb name unit_ = Some pid -> arrivals_ok pkts ->
  exists acc p', check_replays pkts [] (rec pid) = Some (acc, p') /\ NoDup acc.
Proof.
  intros Hbt Hinit Hok. destruct (decide (bt = 0)) as [->|].
  - pose proof (init_tcp_inv _ _ _ _ Hinit) as Hinv.
    destruct (check_replays_inv tcp_filter pkts [] (rec pid) Hinv (NoDup_nil_2) Hok)
      as (acc & p' & Hrun & _ & ?). by exists acc, p'.
  - destruct (init_win_rel bt tb name unit_ pid) as (Hbt' & Htb & Hr); [lia|done|].
    destruct (check_replays_inv (udp_filter bt tb Hbt' Htb) pkts [] (rec pid)
                (udp_inv_nil _ _ _ Hr) (NoDup_nil_2) Hok)
      as (acc & p' & Hrun & _ & ?). by exists acc, p'.
Qed.

(** C28: The circular list, with its wrap-around, resets and expiry marks, implements
    the abstract window: every run of [check_replay] accepts exactly the ids that
    the window accepts. *)
Theorem replay_window_refines bt tb name unit_ pid pkts :
  0 < bt -> packet_id_init bt tb name unit_ = Some pid -> arrivals_ok pkts ->
  exists reaps p' acc w', length reaps = length pkts /\
    check_replays pkts [] (rec pid) = Some (acc, p') /\
    w_run bt tb (zip reaps pkts) [] w_empty = (acc, w') /\ win_rel bt tb p' w'.
Proof.
  intros Hbt Hinit Hok. destruct (init_win_rel bt tb name unit_ pid Hbt Hinit) as (? & _ & ?).
  by apply check_replays_w_run.
Qed.

(** ** Without a time limit the window is exact *)

Definition exact_inv (bt : Z) (acc : list packet_id_net) (w : window) : Prop :=
  w_floor w = Z.max 0 (w_id w - bt) /\
  (forall i, is_Some (w_seen w !! i) <-> mk_net i (w_time w) ∈ acc) /\
  (forall q, q ∈ acc -> n_time q <= w_time w).

Lemma exact_step bt now b w pin acc :
  0 < bt -> exact_inv bt acc w -> 0 <= n_id pin ->
  let '(ok, w') := w_step bt 0 now b w pin in
  exact_inv bt (if ok then pin :: acc else acc) w'.
Proof.
  intros Hbt (Hf & Hs & Ht) Hi. unfold w_step. rewrite andb_false_r.
  destruct (w_accept w pin) eqn:E; [|done].
  assert (Hle : w_time w <= n_time pin)
    by (unfold w_accept in E; destruct (n_time pin =? w_time w) eqn:?; lia).
  destruct pin as [i t]. cbn [n_id n_time] in *. unfold w_add. cbn [n_id n_time].
  destruct (w_time w <? t) eqn:Et; (split_and!; cbn [w_floor w_id w_seen w_time]).
  - done.
  - intros j. rewrite elem_of_cons. split.
    + intros [ts [<- _]%lookup_singleton_Some]. by left.
    + intros [[= ->]|Hin]; [by rewrite lookup_singleton_eq|]. apply Ht in Hin. simpl in Hin. lia.
  - intros q [->|Hq]%elem_of_cons; [done|]. apply Ht in Hq. lia.
  - lia.
  - assert (t = w_time w) as -> by lia. intros j. rewrite elem_of_cons, <- Hs.
    destruct (decide (i = j)) as [->|].
    + rewrite lookup_insert_eq. split; [by left|done].
    + rewrite lookup_insert_ne by done. split; [by right|]. intros [[=]|?]; [congruence|done].
  - intros q [->|Hq]%elem_of_cons; [simpl; lia|]. apply Ht in Hq. lia.
Qed.

Lemma exact_run bt pkts reaps acc w acc' w' :
  0 < bt -> exact_inv bt acc w -> arrivals_ok pkts ->
  w_run bt 0 (zip reaps pkts) acc w = (acc', w') -> length reaps = length pkts ->
  exact_inv bt acc' w'.
Proof.
  intros Hbt. revert reaps acc w.
  induction pkts as [|[now pin] pkts IH]; intros [|b reaps] acc w Hinv Hok Hrun Hlen; try done.
  - by simplify_eq/=.
  - apply Forall_cons in Hok as [[_ Hi] Hps]. cbn [zip_with w_run] in Hrun.
    pose proof (exact_step bt now b w pin acc Hbt Hinv ltac:(unfold is_u64 in Hi; lia)).
    destruct (w_step bt 0 now b w pin) as [ok w1].
    eapply IH; eauto.
Qed.

Lemma exact_accept bt acc w pin :
  0 < bt -> exact_inv bt acc w -> (forall ts, w_seen w !! n_id pin = Some ts -> n_id pin <= w_id w) ->
  0 < n_id pin ->
  w_accept w pin = bool_decide (w_time w < n_time pin \/
    (n_time pin = w_time w /\ w_id w - bt < n_id pin /\ pin ∉ acc)).
Proof.
  intros Hbt (Hf & Hs & Ht) Hmax Hi. apply eq_iff_eq_true. rewrite bool_decide_eq_true.
  unfold w_accept. destruct (n_time pin =? w_time w) eqn:Et; [|split; lia].
  assert (Heq : pin = mk_net (n_id pin) (w_time w)) by (destruct pin; simpl in *; f_equal; lia).
  specialize (Hs (n_id pin)). rewrite <- Heq in Hs. rewrite <- Hs.
  destruct (w_seen w !! n_id pin) as [ts|]; [specialize (Hmax ts eq_refl)|]; cbn [bool_decide].
  - rewrite bool_decide_eq_false_2 by done.
    split; [lia|intros [?|(_ & _ & Hn)]; [lia|]]. by destruct Hn; eexists.
  - rewrite bool_decide_eq_true_2 by done. split; [|intros [?|(? & ? & _)]; lia].
    intros ?. right. split_and!; [lia..|by intros [? [=]]].
Qed.

(** C40: Without a time limit ([time_backtrack] 0), after any packets, [check_replay] accepts an
    id other than 0 under the current time stamp exactly when it was not accepted before and is less than
    [seq_backtrack] behind the highest one, and one under a newer time stamp
    always: no honest packet within the window is lost. *)
Theorem replay_window_exact bt name unit_ pid pkts acc p now pin :
  0 < bt -> packet_id_init bt 0 name unit_ = Some pid -> arrivals_ok pkts ->
  check_replays pkts [] (rec pid) = Some (acc, p) -> arrival_ok now pin -> n_id pin <> 0 ->
  exists p', check_replay now p pin =
    Some (bool_decide (r_time p < n_time pin \/
            (n_time pin = r_time p /\ r_id p - bt < n_id pin /\ pin ∉ acc)), p').
Proof.
  intros Hbt Hinit Hok Hrun [Hnow Hi] Hi0.
  destruct (init_win_rel bt 0 name unit_ pid Hbt Hinit) as (Hbt' & _ & Hr).
  destruct (check_replays_w_run bt 0 pkts [] (rec pid) w_empty Hbt' Hr Hok)
    as (reaps & p1 & acc1 & w & Hlen & Hrun1 & Hw & Hr1). rewrite Hrun in Hrun1. injection Hrun1 as <- <-.
  assert (exact_inv bt acc w).
  { eapply exact_run; [..|exact Hlen]; eauto. split_and!; simpl; [lia| |].
    - intros i. rewrite lookup_empty. split; [by intros [? [=]]|by intros ?%elem_of_nil].
    - by intros q ?%elem_of_nil. }
  unfold is_u64 in Hi.
  destruct (check_replay_spec bt 0 now p w pin Hbt' Hnow ltac:(lia) Hr1) as (p' & -> & _).
  exists p'. do 2 f_equal. unfold w_step. rewrite andb_false_r.
  rewrite (wr_time _ _ _ _ Hr1), (wr_id _ _ _ _ Hr1).
  transitivity (w_accept w pin); [by destruct (w_accept w pin)|].
  pose proof (wr_list _ _ _ _ Hr1) as (l & _ & _ & _ & _ & Hinv).
  apply exact_accept; [done|done| |lia]. intros ts. apply (wi_seen _ _ _ Hinv).
Qed.

(** ** The sender's counter *)

(** The ids that a sequence of sends at the clock readings [nows] puts on the wire. *)
Fixpoint send_run (long_form : bool) (nows : list Z) (p : packet_id_send) : list packet_id_net :=
  match nows with
  | [] => []
  | now :: nows =>
      let '(ok, p) := packet_id_send_update now p long_form in
      if ok : bool then mk_net (s_id p) (s_time p) :: send_run long_form nows p
      else send_run long_form nows p
  end.

Definition pin_lt (a b : packet_id_net) : Prop :=
  n_time a < n_time b \/ (n_time a = n_time b /\ n_id a < n_id b).

Definition send_inv (p : packet_id_send) : Prop := 0 <= s_id p <= PACKET_ID_MAX /\ 0 <= s_time p.

(** One update: the new id is above the old one, or the counter is exhausted. *)
Lemma send_update_spec now p long_form :
  send_inv p -> 0 <= now ->
  let '(ok, p') := packet_id_send_update now p long_form in
  send_inv p' /\
  (ok = true -> 0 < s_id p' /\ (s_time p < s_time p' \/ (s_time p = s_time p' /\ s_id p < s_id p'))) /\
  (ok = false -> s_id p' = PACKET_ID_MAX /\ (s_time p = 0 \/ s_time p = s_time p') /\ s_id p = s_id p').
Proof.
  unfold send_inv. intros [Hid Ht] Hn. unfold packet_id_send_update, PACKET_ID_MAX, u64 in *.
  destruct (s_time p =? 0) eqn:?; cbn [s_id s_time];
    (destruct (s_id p =? 4294967295) eqn:?; [destruct (negb long_form || _) eqn:?|]);
    cbn [s_id s_time]; split_and!; try done; intros; try lia_mod.
Qed.

Lemma send_run_sorted long_form nows p :
  send_inv p -> Forall (fun now => 0 <= now) nows ->
  StronglySorted pin_lt (send_run long_form nows p) /\
  Forall (fun q => s_time p < n_time q \/ (s_time p = n_time q /\ s_id p < n_id q)) (send_run long_form nows p).
Proof.
  revert p. induction nows as [|now nows IH]; intros p Hp Hn; [by repeat constructor|].
  apply Forall_cons in Hn as [Hn Hns]. cbn [send_run].
  pose proof (send_update_spec now p long_form Hp Hn) as H.
  destruct (packet_id_send_update now p long_form) as [ok p']. destruct H as (Hp' & Hok & Hno).
  destruct (IH p' Hp' Hns) as [Hs Hf]. destruct ok.
  - destruct Hok as [_ Hlt]; [done|]. split.
    + constructor; [done|]. eapply Forall_impl; [exact Hf|]. done.
    + constructor; [done|]. eapply Forall_impl; [exact Hf|]. cbn. intros q ?. lia.
  - destruct Hno as (_ & Ht & Hid); [done|]. split; [done|].
    eapply Forall_impl; [exact Hf|]. cbn. intros q ?. rewrite Hid. unfold send_inv in *. lia.
Qed.

(** The sender never repeats a packet id: the (time, id) pairs it sends increase
    strictly, whatever the clock does, and when the 32-bit ids run out it refuses
    to send (short form) or waits for the clock to tick (long form). *)
Theorem sender_ids_increase long_form nows :
  Forall (fun now => 0 <= now) nows ->
  StronglySorted pin_lt (send_run long_form nows (mk_send 0 0)) /\
  NoDup (send_run long_form nows (mk_send 0 0)) /\
  (forall now p, s_id p = PACKET_ID_MAX -> s_time p <> 0 ->
     (packet_id_send_update now p long_form).1 = long_form && (s_time p <? now)).
Proof.
  intros Hn. destruct (send_run_sorted long_form nows (mk_send 0 0)) as [Hs _];
    [unfold send_inv, PACKET_ID_MAX; cbn; lia|done|].
  split_and!; [done| |].
  - induction Hs as [|q qs _ IH Hq]; constructor; [|done].
    intros Hin. rewrite Forall_forall in Hq. apply Hq in Hin. unfold pin_lt in Hin. lia.
  - intros now p Hid Ht. unfold packet_id_send_update.
    replace (s_time p =? 0) with false by lia. rewrite Hid, Z.eqb_refl.
    destruct long_form; cbn [negb orb andb]; [|done].
    destruct (now <=? s_time p) eqn:?; cbn [fst]; lia.
Qed.

(** ** The wire format *)

Lemma be_val_u32 z : is_u32 z -> be_val (be_bytes 4 z) = z.
Proof. intros. rewrite be_val_be_bytes. by apply u32_small. Qed.

(** The id field of a packet. *)
Definition pid_bytes (long_form : bool) (pin : packet_id_net) : list Z :=
  be_bytes 4 (n_id pin) ++ (if long_form then be_bytes 4 (n_time pin) else []).

Lemma length_pid_bytes long_form pin : zlen (pid_bytes long_form pin) = packet_id_size long_form.
Proof. by destruct long_form. Qed.

Lemma pid_bytes_bytes long_form pin : bytes (pid_bytes long_form pin).
Proof. apply Forall_app. split; [|destruct long_form]; auto with bufdb. Qed.

Definition sent_pin (p : packet_id_send) : packet_id_net := mk_net (s_id p) (s_time p).

Lemma packet_id_write_prepend now p long_form b h c t p' :
  buf_rep b h c t -> packet_id_send_update now p long_form = (true, p') ->
  packet_id_size long_form <= h ->
  exists b', packet_id_write now p b long_form true = (true, p', b') /\
    buf_rep b' (h - packet_id_size long_form) (pid_bytes long_form (sent_pin p') ++ c) t.
Proof.
  intros Hb Hu Hh. unfold packet_id_write. rewrite Hu. unfold packet_id_size in *.
  destruct long_form.
  - destruct (write_prepend_rep _ _ _ _ (be_bytes 4 (s_time p')) Hb) as (b1 & -> & H1);
      [auto with bufdb|rewrite length_be_bytes; lia|].
    destruct (write_prepend_rep _ _ _ _ (be_bytes 4 (s_id p')) H1) as (b2 & -> & H2);
      [auto with bufdb|rewrite !length_be_bytes; lia|].
    exists b2. split; [done|]. unfold pid_bytes. rewrite <- app_assoc.
    rewrite !length_be_bytes in H2. by replace (h - (4 + 4)) with (h - 4 - 4) by lia.
  - destruct (write_prepend_rep _ _ _ _ (be_bytes 4 (s_id p')) Hb) as (b2 & -> & H2);
      [auto with bufdb|rewrite !length_be_bytes; lia|].
    exists b2. split; [done|]. unfold pid_bytes. by rewrite app_nil_r, Z.add_0_r.
Qed.

Lemma packet_id_write_append now p long_form b h c t p' :
  buf_rep b h c t -> packet_id_send_update now p long_form = (true, p') ->
  packet_id_size long_form <= t ->
  exists b', packet_id_write now p b long_form false = (true, p', b') /\
    buf_rep b' h (c ++ pid_bytes long_form (sent_pin p')) (t - packet_id_size long_form).
Proof.
  intros Hb Hu Hh. unfold packet_id_write. rewrite Hu. unfold packet_id_size in *.
  destruct (write_rep _ _ _ _ (be_bytes 4 (s_id p')) Hb) as (b1 & -> & H1);
    [auto with bufdb|rewrite length_be_bytes; destruct long_form; lia|].
  destruct long_form.
  - destruct (write_rep _ _ _ _ (be_bytes 4 (s_time p')) H1) as (b2 & -> & H2);
      [auto with bufdb|rewrite !length_be_bytes; lia|].
    exists b2. split; [done|]. unfold pid_bytes. rewrite app_assoc.
    rewrite !length_be_bytes in H2. by replace (t - (4 + 4)) with (t - 4 - 4) by lia.
  - exists b1. split; [done|]. unfold pid_bytes. by rewrite app_nil_r, Z.add_0_r.
Qed.

Lemma packet_id_read_spec long_form b h pin c t :
  buf_rep b h (pid_bytes long_form pin ++ c) t -> is_u32 (n_id pin) -> is_u32 (n_time pin) ->
  exists b', packet_id_read b long_form =
      (true, mk_net (n_id pin) (if long_form then n_time pin else 0), b') /\
    buf_rep b' (h + packet_id_size long_form) c t.
Proof.
  intros Hb Hi Ht. unfold packet_id_read, pid_bytes, packet_id_size in *.
  rewrite <- app_assoc in Hb. apply read_rep in Hb as (b1 & Hr & Hb1).
  rewrite length_be_bytes in Hr, Hb1. change (Z.of_nat 4) with 4 in *. rewrite Hr.
  rewrite be_val_u32 by done. destruct long_form; [|by exists b1].
  apply read_rep in Hb1 as (b2 & Hr2 & Hb2).
  rewrite length_be_bytes in Hr2, Hb2. change (Z.of_nat 4) with 4 in *. rewrite Hr2.
  rewrite be_val_u32 by done. exists b2. split; [done|]. by rewrite Z.add_assoc.
Qed.

Lemma sent_pin_u32 now p long_form p' :
  send_inv p -> is_u32 now -> is_u32 (s_time p) ->
  packet_id_send_update now p long_form = (true, p') ->
  is_u32 (n_id (sent_pin p')) /\ is_u32 (n_time (sent_pin p')).
Proof.
  intros Hp Hn Ht Hu. pose proof (send_update_spec now p long_form Hp) as H.
  rewrite Hu in H. destruct H as ([? ?] & _); [unfold is_u32 in *; lia|].
  unfold packet_id_send_update in Hu. unfold is_u32, PACKET_ID_MAX in *. cbn.
  split; [lia|]. destruct (s_time p =? 0); cbn [s_id s_time] in Hu;
    (destruct (s_id p =? 4294967295); [destruct (negb _ || _)|]); simplify_eq; cbn; lia.
Qed.

(** [packet_id_write] and [packet_id_read] are inverse.  When the buffer has room,
    the write succeeds, in front of the packet or behind it, in the short and the
    long form; reading the field back gives the id (and, in the long form, the
    time) that the sender's counter shows, and leaves the rest of the packet. *)
Theorem packet_id_write_read now p long_form b h c t p' :
  buf_rep b h c t -> send_inv p -> is_u32 now -> is_u32 (s_time p) ->
  packet_id_send_update now p long_form = (true, p') ->
  packet_id_size long_form <= h -> packet_id_size long_form <= t ->
  let pin := mk_net (s_id p') (if long_form then s_time p' else 0) in
  (exists b1 b2, packet_id_write now p b long_form true = (true, p', b1) /\
     packet_id_read b1 long_form = (true, pin, b2) /\ buf_rep b2 h c t) /\
  (exists b1 b2 b3, packet_id_write now p b long_form false = (true, p', b1) /\
     buf_advance b1 (zlen c) = (true, b2) /\
     packet_id_read b2 long_form = (true, pin, b3) /\ content b3 = []).
Proof.
  intros Hb Hp Hn Ht Hu Hh Htl pin.
  destruct (sent_pin_u32 now p long_form p' Hp Hn Ht Hu) as [Hi Hti]. split.
  - destruct (packet_id_write_prepend now p long_form b h c t p' Hb Hu Hh) as (b1 & Hw & Hb1).
    destruct (packet_id_read_spec _ _ _ _ _ _ Hb1 Hi Hti) as (b2 & Hr & Hb2).
    exists b1, b2. rewrite Z.sub_add in Hb2. done.
  - destruct (packet_id_write_append now p long_form b h c t p' Hb Hu Htl) as (b1 & Hw & Hb1).
    destruct (advance_rep _ _ _ _ _ Hb1) as (b2 & Ha & Hb2).
    rewrite <- (app_nil_r (pid_bytes _ _)) in Hb2.
    destruct (packet_id_read_spec _ _ _ _ _ _ Hb2 Hi Hti) as (b3 & Hr & Hb3).
    exists b1, b2, b3. split_and!; try done. apply (rep_content _ _ _ _ Hb3).
Qed.

Lemma read_epoch_pack b h e i c t :
  buf_rep b h (be_bytes 8 (e * 2 ^ 48 + i) ++ c) t -> is_u16 e -> 0 <= i <= PACKET_ID_EPOCH_MAX ->
  exists b', packet_id_read_epoch b = (e, Some i, b') /\ buf_rep b' (h + 8) c t.
Proof.
  intros Hb He Hi. apply read_rep in Hb as (b' & Hr & Hb'). rewrite length_be_bytes in Hr, Hb'.
  change (Z.of_nat 8) with 8 in *. unfold packet_id_read_epoch. rewrite Hr. exists b'.
  split; [|done]. unfold is_u16, PACKET_ID_EPOCH_MAX in *.
  rewrite be_val_be_bytes, Z.mod_small by lia.
  rewrite shiftr_pack, u16_small by (unfold is_u16; lia).
  change PACKET_ID_MASK with (Z.ones 48). by rewrite land_pack by lia.
Qed.

(** The data channel's epoch id field.  The 16-bit epoch and the 48-bit counter
    share one word, and reading the word back separates them again; the counter
    refuses to go past 48 bits instead of running into the epoch. *)
Theorem packet_id_epoch_write_read now p epoch b h t :
  buf_rep b h [] t -> is_u16 epoch -> 0 <= s_id p <= PACKET_ID_EPOCH_MAX -> 8 <= t ->
  match packet_id_write_epoch now p epoch b with
  | (true, p', b1) =>
      s_id p' = s_id p + 1 /\ 
      (exists b2, packet_id_read_epoch b1 = (epoch, Some (s_id p'), b2) /\ content b2 = [])
  | (false, _, b1) => s_id p = PACKET_ID_EPOCH_MAX /\ b1 = b
  end.
Proof.
  intros Hb He Hid Ht. unfold packet_id_write_epoch, packet_id_send_update_epoch.
  set (p1 := if s_time p =? 0 then _ else p).
  assert (Hp1 : s_id p1 = s_id p) by (unfold p1; by destruct (s_time p =? 0)).
  rewrite Hp1. destruct (s_id p =? PACKET_ID_EPOCH_MAX) eqn:E; [split; [lia|done]|].
  unfold PACKET_ID_EPOCH_MAX, is_u16 in *. cbn [s_id].
  rewrite (u64_small (s_id p + 1)) by (unfold is_u64; lia).
  rewrite (u64_small (Z.shiftl epoch 48)) by (rewrite Z.shiftl_mul_pow2 by lia; unfold is_u64; lia).
  rewrite lor_shiftl_add by lia. set (v := epoch * 2 ^ 48 + _).
  destruct (write_rep _ _ _ _ (be_bytes 8 v) Hb) as (b1 & -> & H1);
    [auto with bufdb|rewrite length_be_bytes; lia|].
  split; [done|]. cbn [app] in H1. rewrite <- (app_nil_r (be_bytes 8 v)) in H1.
  destruct (read_epoch_pack _ _ _ _ _ _ H1) as (b2 & -> & H2);
    [done|unfold PACKET_ID_EPOCH_MAX; lia|].
  exists b2. split; [done|apply (rep_content _ _ _ _ H2)].
Qed.

(** ** Sender and receiver together *)

(** Packets in short form over a loss-free, in-order path: each goes into a copy of
    the buffer [b], at the sender's and receiver's clock readings.  The verdicts. *)
Fixpoint link (clocks : list (Z * Z)) (b : buffer) (s : packet_id_send) (r : packet_id_rec)
  : option (list bool) :=
  match clocks with
  | [] => Some []
  | (now_s, now_r) :: clocks =>
      match packet_id_write now_s s b false true with
      | (true, s, b1) =>
          match packet_id_read b1 false with
          | (true, pin, _) =>
              '(ok, r) ← check_replay now_r r pin;
              verdicts ← link clocks b s r;
              Some ((ok : bool) :: verdicts)
          | (false, _, _) => None
          end
      | (false, _, _) => None
      end
  end.

Lemma link_accepts bt tb clocks b h c t s r w :
  0 < bt <= MAX_SEQ_BACKTRACK -> buf_rep b h c t -> 4 <= h ->
  win_rel bt tb r w -> w_time w = 0 -> w_id w = s_id s -> send_inv s -> is_u32 (s_time s) ->
  s_id s + zlen clocks <= PACKET_ID_MAX ->
  Forall (fun '(now_s, now_r) => is_u32 now_s /\ SEQ_EXPIRED < now_r) clocks ->
  link clocks b s r = Some (replicate (length clocks) true).
Proof.
  intros Hbt Hb Hh. revert s r w.
  induction clocks as [|[now_s now_r] clocks IH]; intros s r w Hr Ht Hid Hs Hst Hlen Hcl; [done|].
  apply Forall_cons in Hcl as [[Hns Hnr] Hcl]. cbn [link length replicate] in *.
  destruct (packet_id_send_update now_s s false) as [ok s'] eqn:Hu.
  pose proof (send_update_spec now_s s false Hs) as Hspec. rewrite Hu in Hspec.
  assert (ok = true /\ s_id s' = s_id s + 1 /\ is_u32 (s_time s')) as (-> & Hid' & Hst').
  { unfold packet_id_send_update, send_inv, PACKET_ID_MAX, is_u32 in *.
    destruct (s_time s =? 0); cbn [s_id s_time] in Hu;
      (destruct (s_id s =? 4294967295) eqn:?; [lia|]); simplify_eq; cbn [s_id s_time];
      (split_and!; [done|apply u64_small; unfold is_u64; lia|lia..]). }
  destruct Hspec as (Hs' & _ & _); [unfold is_u32 in Hns; lia|].
  destruct (packet_id_write_prepend now_s s false b h c t s' Hb Hu Hh) as (b1 & -> & Hb1).
  destruct (packet_id_read_spec _ _ _ _ _ _ Hb1) as (b2 & -> & _);
    [destruct Hs'; unfold PACKET_ID_MAX, is_u32 in *; cbn; lia|done|].
  destruct (check_replay_spec bt tb now_r r w (mk_net (s_id s') 0) Hbt Hnr) as (r' & Hc & Hr');
    [destruct Hs'; cbn; lia|done|].
  unfold sent_pin. cbn [n_id]. rewrite Hc. cbn [mbind option_bind].
  unfold w_step in *. set (w1 := if _ && _ then _ else w) in *.
  assert (w_time w1 = 0 /\ w_id w1 = s_id s) as [Ht1 Hid1] by (unfold w1; destruct (_ && _); done).
  assert (w_accept w1 (mk_net (s_id s') 0) = true) as Hacc.
  { unfold w_accept. cbn [n_id n_time]. rewrite Ht1, Hid1. cbn [Z.eqb].
    unfold send_inv in *. replace (s_id s <? s_id s') with true by lia. lia. }
  rewrite Hacc in *. cbn [fst snd] in *.
  rewrite (IH s' r' _ Hr'); try done; try lia.
  - unfold w_add. cbn [n_time]. by rewrite Ht1.
  - unfold w_add. cbn [n_time n_id]. rewrite Ht1, Hid1. cbn. lia.
Qed.

(** The two ends agree: a receiver in the sliding-window mode accepts every one
    of up to 2^32 - 1 packets of a fresh sender that arrive in order, whatever the
    two clocks show and whatever the window size and time limit are. *)
Theorem in_order_accepted bt tb name unit_ pid clocks b h c t :
  0 < bt -> packet_id_init bt tb name unit_ = Some pid -> buf_rep b h c t -> 4 <= h ->
  zlen clocks <= PACKET_ID_MAX ->
  Forall (fun '(now_s, now_r) => is_u32 now_s /\ SEQ_EXPIRED < now_r) clocks ->
  link clocks b (send pid) (rec pid) = Some (replicate (length clocks) true).
Proof.
  intros Hbt Hinit Hb Hh Hlen Hcl.
  destruct (init_win_rel bt tb name unit_ pid Hbt Hinit) as (Hbt' & _ & Hr).
  assert (send pid = mk_send 0 0) as ->
    by (unfold packet_id_init in Hinit; destruct (packet_id_init_recv _ _ _ _ _); by simplify_eq/=).
  eapply link_accepts; try done; unfold send_inv, is_u32, PACKET_ID_MAX in *; cbn; lia.
Qed.

(** ** What [--replay-persist] restores *)

(** A record restored from (time 7, id 100), with a window of 64. *)
Definition restored : option packet_id :=
  pid ← packet_id_init 64 15 "" 0;
  Some (packet_id_persist_load_obj (mk_persist 3 7 100 7 100) pid).

(** After [packet_id_persist_load_obj] the list is empty, so ids up to the
    restored one are rejected; but the first new id under the same time stamp
    refills the list with unseen entries, and ids that the previous session has
    accepted are accepted again. *)
Theorem persist_window_reopens :
  exists pid, restored = Some pid /\
    (fst <$> check_replays [(1000, mk_net 90 7); (1000, mk_net 100 7)] [] (rec pid)) = Some [] /\
    (fst <$> check_replays [(1000, mk_net 101 7); (1000, mk_net 90 7); (1000, mk_net 100 7)] [] (rec pid))
      = Some [mk_net 100 7; mk_net 90 7; mk_net 101 7].
Proof. eexists. split_and!; [reflexivity|by vm_compute|by vm_compute]. Qed.

(** ** Instances on concrete input *)

Definition demo_pkts : list (Z * packet_id_net) :=
  [(1000, mk_net 1 0); (1000, mk_net 3 0); (1001, mk_net 2 0); (1001, mk_net 3 0);
   (1030, mk_net 9 0); (1031, mk_net 2 0); (1032, mk_net 1 5); (1032, mk_net 9 0)].

Definition demo_init (tb : Z) : packet_id :=
  default (mk_pid (mk_send 0 0) rec_zero) (packet_id_init 4 tb "demo" 0).

Definition demo_pid : packet_id := demo_init 15.

Definition demo_buf : buffer := mk_buffer 20 8 4 (Some (replicate 20 7)).

Lemma demo_pkts_ok : arrivals_ok demo_pkts.
Proof. repeat constructor; by vm_compute. Qed.

Lemma demo_buf_rep : buf_rep demo_buf 8 [7; 7; 7; 7] 8.
Proof. apply rep_intro; try done. repeat constructor; unfold is_u8; lia. Qed.

Lemma no_replay_accepted_witness :
  exists acc p', check_replays demo_pkts [] (rec demo_pid) = Some (acc, p') /\ NoDup acc.
Proof.
  apply (no_replay_accepted 4 15 "demo" 0 demo_pid demo_pkts);
    [lia|reflexivity|exact demo_pkts_ok].
Defined.

Lemma replay_window_refines_witness :
  exists reaps p' acc w', length reaps = length demo_pkts /\
    check_replays demo_pkts [] (rec demo_pid) = Some (acc, p') /\
    w_run 4 15 (zip reaps demo_pkts) [] w_empty = (acc, w') /\ win_rel 4 15 p' w'.
Proof.
  apply (replay_window_refines 4 15 "demo" 0 demo_pid demo_pkts);
    [lia|reflexivity|exact demo_pkts_ok].
Defined.

Lemma replay_window_exact_witness :
  exists acc p, check_replays demo_pkts [] (rec (demo_init 0)) = Some (acc, p) /\
    exists p', check_replay 1040 p (mk_net 7 5) =
      Some (bool_decide (r_time p < 5 \/ (5 = r_time p /\ r_id p - 4 < 7 /\ mk_net 7 5 ∉ acc)), p').
Proof.
  do 2 eexists. split; [vm_compute; reflexivity|].
  apply (replay_window_exact 4 "demo" 0 (demo_init 0) demo_pkts _ _ 1040 (mk_net 7 5));
    [lia|reflexivity|exact demo_pkts_ok|vm_compute; reflexivity|by vm_compute|done].
Defined.

Lemma sender_ids_increase_witness :
  let nows := [5; 5; 4; 9] in
  StronglySorted pin_lt (send_run true nows (mk_send 0 0)) /\
  NoDup (send_run true nows (mk_send 0 0)) /\
  (forall now p, s_id p = PACKET_ID_MAX -> s_time p <> 0 ->
     (packet_id_send_update now p true).1 = true && (s_time p <? now)).
Proof. apply (sender_ids_increase true [5; 5; 4; 9]). repeat constructor; done. Defined.

Lemma packet_id_write_read_witness :
  (exists b1 b2, packet_id_write 100 (mk_send 6 90) demo_buf true true = (true, mk_send 7 90, b1) /\
     packet_id_read b1 true = (true, mk_net 7 90, b2) /\ buf_rep b2 8 [7; 7; 7; 7] 8) /\
  (exists b1 b2 b3, packet_id_write 100 (mk_send 6 90) demo_buf true false = (true, mk_send 7 90, b1) /\
     buf_advance b1 4 = (true, b2) /\
     packet_id_read b2 true = (true, mk_net 7 90, b3) /\ content b3 = []).
Proof.
  apply (packet_id_write_read 100 (mk_send 6 90) true demo_buf 8 [7; 7; 7; 7] 8 (mk_send 7 90));
    [exact demo_buf_rep|by vm_compute|by vm_compute|by vm_compute|reflexivity|done|done].
Defined.

Lemma packet_id_epoch_write_read_witness :
  match packet_id_write_epoch 100 (mk_send 6 90) 3 (mk_buffer 20 8 0 (Some (replicate 20 7))) with
  | (true, p', b1) =>
      s_id p' = 6 + 1 /\
      (exists b2, packet_id_read_epoch b1 = (3, Some (s_id p'), b2) /\ content b2 = [])
  | (false, _, b1) => 6 = PACKET_ID_EPOCH_MAX /\ b1 = mk_buffer 20 8 0 (Some (replicate 20 7))
  end.
Proof.
  apply (packet_id_epoch_write_read 100 (mk_send 6 90) 3 _ 8 12);
    [apply rep_intro; try done; repeat constructor; unfold is_u8; lia|by vm_compute|by vm_compute|lia].
Defined.

Lemma in_order_accepted_witness :
  link [(100, 2000); (101, 2100); (99, 2000)] demo_buf (send demo_pid) (rec demo_pid)
  = Some (replicate 3 true).
Proof.
  apply (in_order_accepted 4 15 "demo" 0 demo_pid [(100, 2000); (101, 2100); (99, 2000)]
           demo_buf 8 [7; 7; 7; 7] 8);
    [lia|reflexivity|exact demo_buf_rep|lia|by vm_compute|repeat constructor; by vm_compute].
Defined.
