(* ===== verification/EpochKeys.v ===== *)
(** * The data channel's epoch keys: [crypto_epoch.c] and the key contexts of [crypto.c]

    The cryptographic library that the code links against is a parameter
    ([CryptoLib]); what the code relies on is [CryptoLaws].  A [struct key_ctx *]
    that [epoch_lookup_decrypt_key] returns is a [key_slot], the place of the key in
    [struct crypto_options].  Failed [ASSERT]s and out-of-range accesses are [None]. *)
From S2P Require Import Prelude Integers Buffer PacketId.

(** ** The cryptographic library *)

Class CryptoLib := {
  (** HMAC-SHA256 of a message under a key *)
  hmac_sha256 : list Z -> list Z -> list Z;
  cipher_kt_iv_size : string -> Z;
  cipher_kt_key_size : string -> Z;
  cipher_kt_block_size : string -> Z;
  cipher_kt_mode_aead : string -> bool;
  cipher_kt_name : string -> string;
  md_kt_size : string -> Z;
  (** authenticated encryption: cipher name, key, IV, additional data, text *)
  aead_seal : string -> list Z -> list Z -> list Z -> list Z -> list Z * list Z;
  aead_open : string -> list Z -> list Z -> list Z -> list Z -> list Z -> option (list Z)
}.

Definition SHA256_DIGEST_LENGTH : Z := 32.
Definition OPENVPN_MAX_IV_LENGTH : Z := 16.
Definition OPENVPN_AEAD_MIN_IV_LEN : Z := 4 + 8.
Definition OPENVPN_AEAD_TAG_LENGTH : Z := 16.
Definition MAX_CIPHER_KEY_LENGTH : Z := 64.
Definition MAX_HMAC_KEY_LENGTH : Z := 64.
Definition UINT16_MAX : Z := 65535.

(** What the library documents: sizes, and that decryption undoes encryption. *)
Class CryptoLaws `{CryptoLib} := {
  hmac_length k m : zlen (hmac_sha256 k m) = SHA256_DIGEST_LENGTH;
  hmac_bytes k m : bytes (hmac_sha256 k m);
  iv_size_ok c : cipher_kt_mode_aead c = true ->
    OPENVPN_AEAD_MIN_IV_LEN <= cipher_kt_iv_size c <= OPENVPN_MAX_IV_LENGTH;
  key_size_ok c : 0 <= cipher_kt_key_size c <= MAX_CIPHER_KEY_LENGTH;
  block_size_ok c : 0 <= cipher_kt_block_size c <= 64;
  seal_length c k iv ad m :
    length (aead_seal c k iv ad m).1 = length m /\
    zlen (aead_seal c k iv ad m).2 = OPENVPN_AEAD_TAG_LENGTH;
  seal_bytes c k iv ad m : bytes m -> bytes (aead_seal c k iv ad m).1 /\ bytes (aead_seal c k iv ad m).2;
  open_length c k iv ad m tag m' : aead_open c k iv ad m tag = Some m' -> length m' = length m;
  open_bytes c k iv ad m tag m' : bytes m -> aead_open c k iv ad m tag = Some m' -> bytes m';
  open_seal c k iv ad m :
    aead_open c k iv ad (aead_seal c k iv ad m).1 (aead_seal c k iv ad m).2 = Some m
}.

(** ** Data *)

Record epoch_key := mk_ekey { ek_key : list Z; ek_epoch : Z }.

Record key_type := mk_kt { kt_cipher : string; kt_digest : string }.

Record key_parameters := mk_kp {
  kp_cipher : list Z;
  kp_cipher_size : Z;
  kp_hmac : list Z;
  kp_hmac_size : Z;
  kp_epoch : Z
}.

(** [struct key_ctx]: the cipher context is the cipher's name and key. *)
Record key_ctx := mk_ctx {
  kc_cipher : option (string * list Z);
  kc_hmac : option (string * list Z);
  kc_implicit_iv : list Z;
  kc_plaintext_blocks : Z;
  kc_failed_verifications : Z;
  kc_epoch : Z
}.

Definition zeros (n : Z) : list Z := replicate (Z.to_nat n) 0.

Definition key_ctx_zero : key_ctx := mk_ctx None None (zeros OPENVPN_MAX_IV_LENGTH) 0 0 0.

(** The fields of [struct crypto_options] that the data channel uses. *)
Record crypto_options := mk_co {
  co_encrypt : key_ctx;
  co_decrypt : key_ctx;
  co_initialized : bool;
  co_epoch_key_send : epoch_key;
  co_epoch_key_recv : epoch_key;
  co_epoch_key_type : key_type;
  co_aead_usage_limit : Z;
  co_future : list key_ctx;
  co_retiring : key_ctx;
  co_retiring_pid : packet_id_rec;
  co_packet_id : packet_id;
  co_pid_persist : option packet_id_persist;
  co_long_form : bool;
  co_epoch_format : bool
}.

Definition future_count (co : crypto_options) : Z := zlen (co_future co).

Definition set_encrypt (co : crypto_options) (c : key_ctx) : crypto_options :=
  mk_co c (co_decrypt co) (co_initialized co) (co_epoch_key_send co) (co_epoch_key_recv co)
    (co_epoch_key_type co) (co_aead_usage_limit co) (co_future co) (co_retiring co)
    (co_retiring_pid co) (co_packet_id co) (co_pid_persist co) (co_long_form co) (co_epoch_format co).

Definition set_decrypt (co : crypto_options) (c : key_ctx) : crypto_options :=
  mk_co (co_encrypt co) c (co_initialized co) (co_epoch_key_send co) (co_epoch_key_recv co)
    (co_epoch_key_type co) (co_aead_usage_limit co) (co_future co) (co_retiring co)
    (co_retiring_pid co) (co_packet_id co) (co_pid_persist co) (co_long_form co) (co_epoch_format co).

Definition set_send_key (co : crypto_options) (k : epoch_key) : crypto_options :=
  mk_co (co_encrypt co) (co_decrypt co) (co_initialized co) k (co_epoch_key_recv co)
    (co_epoch_key_type co) (co_aead_usage_limit co) (co_future co) (co_retiring co)
    (co_retiring_pid co) (co_packet_id co) (co_pid_persist co) (co_long_form co) (co_epoch_format co).

(** The receive chain and the array it fills. *)
Definition set_recv (co : crypto_options) (k : epoch_key) (future : list key_ctx) : crypto_options :=
  mk_co (co_encrypt co) (co_decrypt co) (co_initialized co) (co_epoch_key_send co) k
    (co_epoch_key_type co) (co_aead_usage_limit co) future (co_retiring co)
    (co_retiring_pid co) (co_packet_id co) (co_pid_persist co) (co_long_form co) (co_epoch_format co).

Definition set_retiring (co : crypto_options) (c : key_ctx) (p : packet_id_rec) : crypto_options :=
  mk_co (co_encrypt co) (co_decrypt co) (co_initialized co) (co_epoch_key_send co)
    (co_epoch_key_recv co) (co_epoch_key_type co) (co_aead_usage_limit co) (co_future co) c
    p (co_packet_id co) (co_pid_persist co) (co_long_form co) (co_epoch_format co).

Definition set_packet_id (co : crypto_options) (p : packet_id) (pp : option packet_id_persist)
  : crypto_options :=
  mk_co (co_encrypt co) (co_decrypt co) (co_initialized co) (co_epoch_key_send co)
    (co_epoch_key_recv co) (co_epoch_key_type co) (co_aead_usage_limit co) (co_future co)
    (co_retiring co) (co_retiring_pid co) p pp (co_long_form co) (co_epoch_format co).

Section epoch.
Context `{CryptoLib}.

(** ** Key derivation *)

(** The loop of [ovpn_hkdf_expand] at a block number, with the previous block. *)
Fixpoint hkdf_loop (fuel : nat) (secret info : list Z) (block : Z) (t_prev out : list Z)
  : option (list Z) :=
  let out_len := zlen out in
  let out_offset := u32 (u32 (block - 1) * SHA256_DIGEST_LENGTH) in
  if out_offset <? out_len then
    match fuel with
    | O => None
    | S fuel' =>
        let t := hmac_sha256 secret (t_prev ++ info ++ [block]) in
        let copylen := min_size SHA256_DIGEST_LENGTH (out_len - out_offset) in
        hkdf_loop fuel' secret info (u8 (block + 1)) t (splice out_offset (slice 0 copylen t) out)
    end
  else Some out.

(** [out] is filled; the 8-bit block number bounds the loop. *)
Definition ovpn_hkdf_expand (secret info out : list Z) : option (list Z) :=
  ASSERT (zlen info <=? INT_MAX);; hkdf_loop 256 secret info 1 [] out.

Definition label_prefix : list Z := [111; 118; 112; 110; 32]. (* "ovpn " *)

(** The buffer with the HkdfLabel structure, built with the checked writes of [buffer.h]. *)
Definition hkdf_label (out_len : Z) (label context : list Z) : option buffer :=
  let label_len := zlen label in
  let context_len := zlen context in
  let hkdf_label_len := 2 + zlen label_prefix + 1 + label_len + 1 + context_len in
  b ← alloc_buf hkdf_label_len;
  let b := (buf_write_u16 b out_len).2 in
  let b := (buf_write_u8 b (zlen label_prefix + label_len)).2 in
  let b := (buf_write b label_prefix).2 in
  let b := (buf_write b label).2 in
  let b := (buf_write_u8 b context_len).2 in
  let b := if 0 <? context_len then (buf_write b context).2 else b in
  ASSERT (buf_len b =? hkdf_label_len);;
  Some b.

(** The result and the new contents of [out]. *)
Definition ovpn_expand_label (secret label context out : list Z) : option (bool * list Z) :=
  if negb (zlen secret =? 32) || (250 <? zlen label) || (255 <? zlen context) || (zlen label <? 1)
  then Some (false, out)
  else
    ASSERT (zlen out <=? UINT16_MAX);;
    b ← hkdf_label (zlen out) label context;
    out ← ovpn_hkdf_expand secret (content b) out;
    Some (true, out).

Definition datakey_upd_label : list Z := [100; 97; 116; 97; 107; 101; 121; 32; 117; 112; 100].
Definition data_key_label : list Z := [100; 97; 116; 97; 95; 107; 101; 121].
Definition data_iv_label : list Z := [100; 97; 116; 97; 95; 105; 118].

Definition epoch_key_iterate (k : epoch_key) : option epoch_key :=
  '(_, key) ← ovpn_expand_label (ek_key k) datakey_upd_label [] (zeros SHA256_DIGEST_LENGTH);
  Some (mk_ekey key (u16 (ek_epoch k + 1))).

(** Into a zeroed [struct key_parameters], as both callers pass. *)
Definition epoch_data_key_derive (k : epoch_key) (kt : key_type) : option key_parameters :=
  let hmac_size := cipher_kt_iv_size (kt_cipher kt) in
  let cipher_size := cipher_kt_key_size (kt_cipher kt) in
  '(_, cipher) ← ovpn_expand_label (ek_key k) data_key_label [] (zeros cipher_size);
  '(_, hmac) ← ovpn_expand_label (ek_key k) data_iv_label [] (zeros hmac_size);
  Some (mk_kp (splice 0 cipher (zeros MAX_CIPHER_KEY_LENGTH)) cipher_size
          (splice 0 hmac (zeros MAX_HMAC_KEY_LENGTH)) hmac_size (ek_epoch k)).

(** ** Key contexts *)

Definition cipher_defined (name : string) : bool := negb (bool_decide (name = "none")).
Definition md_defined (name : string) : bool := negb (bool_decide (name = "none")).

Definition init_key_ctx (key : key_parameters) (kt : key_type) : option key_ctx :=
  cipher ← (if cipher_defined (kt_cipher kt) then
              ASSERT (cipher_kt_key_size (kt_cipher kt) <=? kp_cipher_size key);;
              Some (Some (kt_cipher kt, slice 0 (cipher_kt_key_size (kt_cipher kt)) (kp_cipher key)))
            else Some None);
  hmac ← (if md_defined (kt_digest kt) then
            ASSERT (md_kt_size (kt_digest kt) <=? kp_hmac_size key);;
            Some (Some (kt_digest kt, slice 0 (md_kt_size (kt_digest kt)) (kp_hmac key)))
          else Some None);
  Some (mk_ctx cipher hmac (zeros OPENVPN_MAX_IV_LENGTH) 0 0 (kp_epoch key)).

Definition key_ctx_update_implicit_iv (ctx : key_ctx) (key : key_parameters) : option key_ctx :=
  match kc_cipher ctx with
  | None => Some ctx
  | Some (name, _) =>
  if cipher_kt_mode_aead name then
    let iv_length := cipher_kt_iv_size name in
    ASSERT (OPENVPN_AEAD_MIN_IV_LEN <=? iv_length);;
    let '(impl_iv_len, impl_iv_offset) :=
      if negb (kp_epoch key =? 0) then (iv_length, 0) else (iv_length - 4, 4) in
    ASSERT (impl_iv_offset + impl_iv_len <=? OPENVPN_MAX_IV_LENGTH);;
    ASSERT (impl_iv_len <=? MAX_HMAC_KEY_LENGTH);;
    ASSERT (impl_iv_len <=? kp_hmac_size key);;
    Some (mk_ctx (kc_cipher ctx) (kc_hmac ctx)
            (splice impl_iv_offset (slice 0 impl_iv_len (kp_hmac key)) (zeros OPENVPN_MAX_IV_LENGTH))
            (kc_plaintext_blocks ctx) (kc_failed_verifications ctx) (kc_epoch ctx))
  else Some ctx
  end.

(** [init_key_bi_ctx_send] and [init_key_bi_ctx_recv] differ in the direction given to
    the cipher context and in the log prefix. *)
Definition init_key_bi_ctx (key : key_parameters) (kt : key_type) : option key_ctx :=
  ctx ← init_key_ctx key kt;
  ctx ← key_ctx_update_implicit_iv ctx key;
  Some (mk_ctx (kc_cipher ctx) (kc_hmac ctx) (kc_implicit_iv ctx) (kc_plaintext_blocks ctx)
          (kc_failed_verifications ctx) (kp_epoch key)).

Definition free_key_ctx (ctx : key_ctx) : key_ctx :=
  mk_ctx None None (zeros OPENVPN_MAX_IV_LENGTH) 0 (kc_failed_verifications ctx) 0.

Definition aead_usage_limit_reached (limit : Z) (ctx : key_ctx) (highest_pid : Z) : bool :=
  (0 <? limit) && (limit <? u64 (kc_plaintext_blocks ctx + highest_pid)).

Definition cipher_decrypt_verify_fail_exceeded (ctx : key_ctx) : bool :=
  2 ^ 36 <? kc_failed_verifications ctx.

Definition cipher_decrypt_verify_fail_warn (ctx : key_ctx) : bool :=
  2 ^ 35 <? kc_failed_verifications ctx.

Definition cipher_get_aead_limits (ciphername : string) : Z :=
  if negb (cipher_kt_mode_aead ciphername) then 0
  else if bool_decide (cipher_kt_name ciphername = cipher_kt_name "CHACHA20-POLY1305") then 0
  else 2 ^ 36 - 1.

(** ** Epochs *)

Definition epoch_init_send_key_ctx (co : crypto_options) : option crypto_options :=
  ASSERT (negb (kc_epoch (co_encrypt co) =? ek_epoch (co_epoch_key_send co)));;
  send_key ← epoch_data_key_derive (co_epoch_key_send co) (co_epoch_key_type co);
  ctx ← init_key_bi_ctx send_key (co_epoch_key_type co);
  let p := co_packet_id co in
  Some (set_packet_id (set_encrypt co ctx) (mk_pid (reset_packet_id_send (send p)) (rec p))
          (co_pid_persist co)).

Definition epoch_init_recv_key (recv : epoch_key) (kt : key_type) : option key_ctx :=
  recv_key ← epoch_data_key_derive recv kt;
  init_key_bi_ctx recv_key kt.

(** [ASSERT] that the first [n] keys are free. *)
Fixpoint assert_free (n : nat) (keys : list key_ctx) : option unit :=
  match n, keys with
  | O, _ => Some tt
  | S n', k :: keys' => ASSERT (kc_epoch k =? 0);; assert_free n' keys'
  | S _, [] => None
  end.

(** The loop that clears and regenerates the last [n] keys. *)
Fixpoint regenerate_keys (n : nat) (recv : epoch_key) (kt : key_type)
  : option (epoch_key * list key_ctx) :=
  match n with
  | O => Some (recv, [])
  | S n' =>
      recv ← epoch_key_iterate recv;
      k ← epoch_init_recv_key recv kt;
      '(recv, ks) ← regenerate_keys n' recv kt;
      Some (recv, k :: ks)
  end.

Definition epoch_generate_future_receive_keys (co : crypto_options) : option crypto_options :=
  ASSERT (co_initialized co);;
  let current_decrypt_epoch := kc_epoch (co_decrypt co) in
  let count := future_count co in
  ASSERT (0 <? count);;
  let last := Z.to_nat (count - 1) in
  highest ← co_future co !! last;
  ASSERT ((ek_epoch (co_epoch_key_recv co) =? 1)
          || (kc_epoch highest =? ek_epoch (co_epoch_key_recv co))
          || (current_decrypt_epoch =? ek_epoch (co_epoch_key_recv co)));;
  let keys := (fun k => if (0 <? kc_epoch k) && (kc_epoch k <? current_decrypt_epoch)
                        then free_key_ctx k else k) <$> co_future co in
  let current_highest_key := ek_epoch (co_epoch_key_recv co) in
  highest ← keys !! last;
  ASSERT ((current_highest_key =? kc_epoch highest)
          || (current_highest_key =? current_decrypt_epoch));;
  let desired_highest_key := u16 (current_decrypt_epoch + count) in
  let num := Z.to_nat (u16 (desired_highest_key - current_highest_key)) in
  assert_free num keys;;
  '(recv, fresh) ← regenerate_keys num (co_epoch_key_recv co) (co_epoch_key_type co);
  let keys := drop num keys ++ fresh in
  ASSERT (forallb (fun k => 0 <? kc_epoch k) keys);;
  Some (set_recv co recv keys).

Definition epoch_iterate_send_key (co : crypto_options) : option crypto_options :=
  ASSERT (ek_epoch (co_epoch_key_send co) <? UINT16_MAX);;
  k ← epoch_key_iterate (co_epoch_key_send co);
  epoch_init_send_key_ctx (set_encrypt (set_send_key co k) (free_key_ctx (co_encrypt co))).

(** [while (epoch_key_send.epoch < new_epoch) epoch_key_iterate(...)]. *)
Fixpoint iterate_send_to (fuel : nat) (k : epoch_key) (new_epoch : Z) : option epoch_key :=
  if ek_epoch k <? new_epoch then
    match fuel with
    | O => None
    | S fuel' => k ← epoch_key_iterate k; iterate_send_to fuel' k new_epoch
    end
  else Some k.

(** The search loop over the future keys. *)
Fixpoint find_epoch (keys : list key_ctx) (epoch : Z) : nat :=
  match keys with
  | [] => O
  | k :: keys => if kc_epoch k =? epoch then O else S (find_epoch keys epoch)
  end.

(** At most 65535 epochs lie ahead, the loop's fuel. *)
Definition epoch_replace_update_recv_key (co : crypto_options) (new_epoch : Z)
  : option crypto_options :=
  let fki := find_epoch (co_future co) new_epoch in
  new_ctx ← co_future co !! fki;
  ASSERT (kc_epoch new_ctx =? new_epoch);;
  co ← (if kc_epoch (co_encrypt co) <? new_epoch then
          k ← iterate_send_to (Z.to_nat (new_epoch - ek_epoch (co_epoch_key_send co)))
                (co_epoch_key_send co) new_epoch;
          epoch_init_send_key_ctx (set_encrypt (set_send_key co k) (free_key_ctx (co_encrypt co)))
        else Some co);
  '(retiring_pid, rec') ← packet_id_move_recv (co_retiring_pid co) (rec (co_packet_id co));
  let co := set_packet_id (set_retiring co (co_decrypt co) retiring_pid)
              (mk_pid (send (co_packet_id co)) rec') (co_pid_persist co) in
  let co := set_recv (set_decrypt co new_ctx) (co_epoch_key_recv co)
              (<[fki := key_ctx_zero]> (co_future co)) in
  epoch_generate_future_receive_keys co.

(** Into a zeroed [struct crypto_options] with an initialised [packet_id]. *)
Definition epoch_init_key_ctx (pid : packet_id) (kt : key_type) (e1_send e1_recv : epoch_key)
    (future_key_count : Z) (long_form : bool) (pp : option packet_id_persist)
  : option crypto_options :=
  ASSERT ((ek_epoch e1_send =? 1) && (ek_epoch e1_recv =? 1));;
  let co := mk_co key_ctx_zero key_ctx_zero false e1_send e1_recv kt
              (cipher_get_aead_limits (kt_cipher kt)) [] key_ctx_zero rec_zero pid pp long_form true in
  co ← epoch_init_send_key_ctx co;
  decrypt ← epoch_init_recv_key (co_epoch_key_recv co) kt;
  let co := set_decrypt co decrypt in
  let co := mk_co (co_encrypt co) (co_decrypt co) true (co_epoch_key_send co)
              (co_epoch_key_recv co) (co_epoch_key_type co) (co_aead_usage_limit co)
              (replicate (Z.to_nat future_key_count) key_ctx_zero) (co_retiring co)
              (co_retiring_pid co) (co_packet_id co) (co_pid_persist co) (co_long_form co)
              (co_epoch_format co) in
  epoch_generate_future_receive_keys co.

(** What [epoch_lookup_decrypt_key] points to. *)
Inductive key_slot := KDecrypt | KRetiring | KFuture (index : Z).

Definition get_key (co : crypto_options) (s : key_slot) : option key_ctx :=
  match s with
  | KDecrypt => Some (co_decrypt co)
  | KRetiring => Some (co_retiring co)
  | KFuture i => if 0 <=? i then co_future co !! Z.to_nat i else None
  end.

Definition put_key (co : crypto_options) (s : key_slot) (k : key_ctx) : crypto_options :=
  match s with
  | KDecrypt => set_decrypt co k
  | KRetiring => set_retiring co k (co_retiring_pid co)
  | KFuture i => set_recv co (co_epoch_key_recv co) (<[Z.to_nat i := k]> (co_future co))
  end.

Definition epoch_lookup_decrypt_key (opt : crypto_options) (epoch : Z) : option key_slot :=
  if kc_epoch (co_decrypt opt) =? epoch then Some KDecrypt
  else if negb (kc_epoch (co_retiring opt) =? 0) && (kc_epoch (co_retiring opt) =? epoch)
  then Some KRetiring
  else if (kc_epoch (co_decrypt opt) <? epoch)
          && (epoch <=? kc_epoch (co_decrypt opt) + future_count opt)
  then
    let index := epoch - (kc_epoch (co_decrypt opt) + 1) in
    if UINT16_MAX - future_count opt - 1 <? epoch then None else Some (KFuture index)
  else None.

Definition epoch_check_send_iterate (opt : crypto_options) : option crypto_options :=
  if ek_epoch (co_epoch_key_send opt) =? UINT16_MAX then Some opt
  else
    opt ← (if negb (co_aead_usage_limit opt =? 0) then
             if aead_usage_limit_reached (co_aead_usage_limit opt) (co_encrypt opt)
                  (s_id (send (co_packet_id opt)))
             then epoch_iterate_send_key opt
             else if (kc_epoch (co_encrypt opt) =? kc_epoch (co_decrypt opt))
                     && (aead_usage_limit_reached (co_aead_usage_limit opt) (co_decrypt opt)
                           (r_id (rec (co_packet_id opt)))
                         || cipher_decrypt_verify_fail_warn (co_decrypt opt))
             then epoch_iterate_send_key opt
             else Some opt
           else Some opt);
    if s_id (send (co_packet_id opt)) =? PACKET_ID_EPOCH_MAX
    then epoch_iterate_send_key opt
    else Some opt.
End epoch.
