(* ===== verification/EpochDerive.v ===== *)
(** * What the epoch key derivation computes

    A reference for HKDF-Expand (RFC 5869) and for the chain of epoch secrets, and
    that the code computes them; every [ASSERT] of the derivation holds. *)
From S2P Require Import Prelude Integers Buffer PacketId EpochKeys.

Section derive.
Context `{CL : CryptoLib} `{!CryptoLaws}.
Implicit Types (secret info t : list Z).

(** ** HKDF-Expand *)

(** T(i) | T(i+1) | ... , [n] blocks, after the block [t]. *)
Fixpoint hkdf_blocks (n : nat) secret info (i : Z) t : list Z :=
  match n with
  | O => []
  | S n' => let t := hmac_sha256 secret (t ++ info ++ [i]) in t ++ hkdf_blocks n' secret info (i + 1) t
  end.

Definition hkdf_expand_spec secret info (len : Z) : list Z :=
  take (Z.to_nat len) (hkdf_blocks 255 secret info 1 []).

Lemma hkdf_loop_done fuel secret info block t out :
  zlen out <= u32 (u32 (block - 1) * SHA256_DIGEST_LENGTH) ->
  hkdf_loop fuel secret info block t out = Some out.
Proof. intros. destruct fuel; cbn [hkdf_loop]; by destruct (_ <? _) eqn:?; [lia|]. Qed.

Lemma splice_app_r {A} (pre src rest : list A) :
  splice (zlen pre) src (pre ++ rest) = pre ++ src ++ drop (length src) rest.
Proof.
  unfold splice. rewrite Nat2Z.id, take_app_length, <- drop_drop, drop_app_length. done.
Qed.

Lemma hkdf_loop_spec n fuel secret info k t pre rest :
  zlen pre = 32 * k -> 0 <= k -> 32 * k + zlen rest <= 8160 -> zlen rest <= 32 * Z.of_nat n ->
  (n <= fuel)%nat ->
  hkdf_loop fuel secret info (k + 1) t (pre ++ rest)
  = Some (pre ++ take (length rest) (hkdf_blocks n secret info (k + 1) t)).
Proof.
  revert fuel k t pre rest.
  induction n as [|n IH]; intros fuel k t pre rest Hpre Hk Hmax Hn Hf;
    (destruct rest as [|x rest'] eqn:Hrest;
     [rewrite take_0, app_nil_r; apply hkdf_loop_done;
      unfold SHA256_DIGEST_LENGTH, u32; lia_mod|]); [simpl in Hn; lia|].
  destruct fuel as [|fuel]; [lia|]. rewrite <- Hrest in *.
  assert (0 < zlen rest) by (rewrite Hrest; simpl; lia). clear Hrest x rest'.
  cbn [hkdf_loop hkdf_blocks].
  set (t' := hmac_sha256 _ _). assert (Ht' : zlen t' = 32) by apply hmac_length.
  assert (Hoff : u32 (u32 (k + 1 - 1) * SHA256_DIGEST_LENGTH) = zlen pre)
    by (unfold SHA256_DIGEST_LENGTH, u32; lia_mod).
  rewrite Hoff, length_app. replace (_ <? _) with true by lia.
  rewrite splice_app_r. unfold slice, SHA256_DIGEST_LENGTH, min_size. rewrite drop_0.
  destruct (decide (zlen rest <= 32)).
  - replace (if _ : bool then _ else _) with (zlen rest) by (case_match; lia).
    rewrite Nat2Z.id, hkdf_loop_done.
    + rewrite drop_ge, app_nil_r, take_app_le by (rewrite ?length_take; lia). done.
    + rewrite !length_app, length_take, length_drop. unfold SHA256_DIGEST_LENGTH, u32, u8. lia_mod.
  - replace (if _ : bool then _ else _) with 32 by (case_match; lia).
    rewrite firstn_all2, app_assoc by lia. replace (u8 (k + 1 + 1)) with (k + 1 + 1) by (unfold u8; lia_mod).
    rewrite IH by (rewrite ?length_app, ?length_drop; lia).
    rewrite <- app_assoc, (take_app_ge t') by lia. do 4 f_equal. rewrite length_drop. lia.
Qed.

Lemma hkdf_loop_start n fuel secret info out :
  zlen out <= 8160 -> zlen out <= 32 * Z.of_nat n -> (n <= fuel)%nat ->
  hkdf_loop fuel secret info 1 [] out
  = Some (take (Z.to_nat (zlen out)) (hkdf_blocks n secret info 1 [])).
Proof.
  intros. rewrite Nat2Z.id.
  apply (hkdf_loop_spec n fuel secret info 0 [] [] out); done || lia.
Qed.

(** The loop ends for every output of up to 255 blocks, with what RFC 5869 defines. *)
Lemma hkdf_expand_ok secret info out :
  zlen info <= INT_MAX -> zlen out <= 8160 ->
  ovpn_hkdf_expand secret info out = Some (hkdf_expand_spec secret info (zlen out)).
Proof.
  intros. unfold ovpn_hkdf_expand, hkdf_expand_spec. rewrite ASSERT_true by lia. cbn [mbind option_bind].
  apply hkdf_loop_start; lia.
Qed.

Lemma length_hkdf_blocks n secret info i t : zlen (hkdf_blocks n secret info i t) = 32 * Z.of_nat n.
Proof.
  revert i t. induction n as [|n IH]; intros; cbn [hkdf_blocks]; [done|].
  rewrite length_app, Nat2Z.inj_add, IH, hmac_length. unfold SHA256_DIGEST_LENGTH. lia.
Qed.

Lemma hkdf_blocks_bytes n secret info i t : bytes (hkdf_blocks n secret info i t).
Proof.
  revert i t. induction n as [|n IH]; intros; cbn [hkdf_blocks]; [constructor|].
  apply Forall_app. split; [apply hmac_bytes|apply IH].
Qed.

Lemma length_hkdf_spec secret info n : 0 <= n <= 8160 -> zlen (hkdf_expand_spec secret info n) = n.
Proof.
  intros. unfold hkdf_expand_spec. rewrite length_take.
  pose proof (length_hkdf_blocks 255 secret info 1 []). lia.
Qed.

Lemma hkdf_spec_bytes secret info n : bytes (hkdf_expand_spec secret info n).
Proof. apply Forall_take, hkdf_blocks_bytes. Qed.

#[local] Opaque hkdf_expand_spec ovpn_hkdf_expand.

(** ** OVPN-Expand-Label *)

Definition expand_label_spec secret (label : list Z) (len : Z) : list Z :=
  hkdf_expand_spec secret
    (be_bytes 2 len ++ [5 + zlen label] ++ label_prefix ++ label ++ [0]) len.

(** Write [src] into the buffer of the hypothesis [Hb]. *)
#[local] Ltac write_step Hb src :=
  let b' := fresh "b" in let E := fresh "E" in let H' := fresh "H'" in
  destruct (write_rep _ _ _ _ src Hb) as (b' & E & H');
    [first [assumption|solve [auto with bufdb]|unfold label_prefix; repeat constructor; unfold is_u8; lia]
    |rewrite ?length_app, ?length_be_bytes; cbn [length label_prefix] in *; lia|];
  rewrite E; cbn [snd]; clear E; clear Hb; rename H' into Hb.

Definition label_ok (label : list Z) : Prop := bytes label /\ 1 <= zlen label <= 250.

Lemma labels_ok : label_ok datakey_upd_label /\ label_ok data_key_label /\ label_ok data_iv_label.
Proof.
  unfold label_ok, datakey_upd_label, data_key_label, data_iv_label, is_u8.
  split_and!; cbn [length]; try lia; repeat constructor; lia.
Qed.

Lemma hkdf_label_ok out_len label :
  label_ok label ->
  exists b, hkdf_label out_len label [] = Some b /\
    content b = be_bytes 2 out_len ++ [5 + zlen label] ++ label_prefix ++ label ++ [0].
Proof.
  intros [Hby Hl]. unfold hkdf_label.
  assert (zlen label_prefix = 5) as -> by done. assert (zlen (@nil Z) = 0) as -> by done.
  assert ((0 <? 0) = false) as -> by done.
  destruct (alloc_some (2 + 5 + 1 + zlen label + 1 + 0)) as (b & -> & Hb);
    [unfold BUF_SIZE_MAX; lia|]. rewrite Some_bind.
  unfold buf_write_u16, buf_write_u8. rewrite !u8_small by (unfold is_u8; lia).
  write_step Hb (be_bytes 2 out_len). write_step Hb [5 + zlen label].
  write_step Hb label_prefix. write_step Hb label. write_step Hb [0].
  rewrite (buf_len_wf _ (rep_wf _ _ _ _ Hb)), (rep_len _ _ _ _ Hb).
  rewrite ASSERT_true by (rewrite !length_app, length_be_bytes; cbn [length label_prefix]; lia).
  eexists. split; [done|]. rewrite (rep_content _ _ _ _ Hb). by rewrite <- !app_assoc, app_nil_l.
Qed.

Lemma expand_label_ok secret label out :
  zlen secret = 32 -> label_ok label -> zlen out <= 8160 ->
  ovpn_expand_label secret label [] out
  = Some (true, expand_label_spec secret label (zlen out)).
Proof.
  intros Hs Hlab Ho. pose proof Hlab as [_ Hl]. unfold ovpn_expand_label.
  replace (_ || _ || _ || _) with false by (cbn [length]; lia).
  rewrite ASSERT_true by (unfold UINT16_MAX; lia). cbn [mbind option_bind].
  destruct (hkdf_label_ok (zlen out) label Hlab) as (b & -> & Hc). cbn [mbind option_bind].
  rewrite Hc, hkdf_expand_ok; [done| |lia].
  unfold INT_MAX. rewrite !length_app, length_be_bytes. cbn [length label_prefix]. lia.
Qed.

(** ** The chain of epoch secrets and the keys derived from it *)

Definition ekey_ok (k : epoch_key) : Prop := zlen (ek_key k) = 32.

(** The secret of the next epoch, and of [n] epochs later. *)
Definition next_secret secret : list Z := expand_label_spec secret datakey_upd_label 32.

Fixpoint secret_at secret (n : nat) : list Z :=
  match n with O => secret | S n' => next_secret (secret_at secret n') end.

Lemma length_secret_at secret n : zlen secret = 32 -> zlen (secret_at secret n) = 32.
Proof. intros. destruct n; [done|]. by apply length_hkdf_spec. Qed.

Lemma epoch_key_iterate_ok secret e :
  zlen secret = 32 -> epoch_key_iterate (mk_ekey secret e) = Some (mk_ekey (next_secret secret) (u16 (e + 1))).
Proof.
  intros. unfold epoch_key_iterate. cbn [ek_key ek_epoch].
  rewrite expand_label_ok by (apply labels_ok || done).
  by change (zlen (zeros SHA256_DIGEST_LENGTH)) with 32.
Qed.

(** The key context of epoch [e] for the secret of that epoch: what a key is, but for
    its usage counters. *)
Definition data_key_spec (kt : key_type) secret : string * list Z :=
  (kt_cipher kt, expand_label_spec secret data_key_label (cipher_kt_key_size (kt_cipher kt))).

Definition data_iv_spec (kt : key_type) secret : list Z :=
  let n := cipher_kt_iv_size (kt_cipher kt) in
  expand_label_spec secret data_iv_label n ++ zeros (OPENVPN_MAX_IV_LENGTH - n).

Definition key_ctx_at (kt : key_type) secret (e : Z) : key_ctx :=
  mk_ctx (Some (data_key_spec kt secret)) None (data_iv_spec kt secret) 0 0 e.

(** An AEAD cipher and no separate digest, as the epoch format requires. *)
Record aead_kt (kt : key_type) : Prop := {
  ak_mode : cipher_kt_mode_aead (kt_cipher kt) = true;
  ak_cipher : kt_cipher kt <> "none";
  ak_digest : kt_digest kt = "none"
}.

Lemma length_zeros n : 0 <= n -> zlen (zeros n) = n.
Proof. intros. unfold zeros. rewrite length_replicate. lia. Qed.

Lemma splice_zeros src n :
  zlen src <= n -> splice 0 src (zeros n) = src ++ zeros (n - zlen src).
Proof.
  intros. unfold splice, zeros. simpl. f_equal. rewrite drop_replicate. f_equal. lia.
Qed.

Lemma slice_app_l {A} (l r : list A) n : n = zlen l -> slice 0 n (l ++ r) = l.
Proof. intros ->. unfold slice. rewrite Nat2Z.id, drop_0. by rewrite take_app_length. Qed.

Lemma init_recv_key_ok kt secret e :
  aead_kt kt -> zlen secret = 32 -> 0 < e ->
  (x ← epoch_data_key_derive (mk_ekey secret e) kt; init_key_bi_ctx x kt) = Some (key_ctx_at kt secret e).
Proof.
  intros [Hm Hc Hd] Hs He. unfold epoch_data_key_derive. cbn [ek_key ek_epoch].
  pose proof (key_size_ok (kt_cipher kt)) as Hks. pose proof (iv_size_ok _ Hm) as Hiv.
  unfold MAX_CIPHER_KEY_LENGTH, OPENVPN_AEAD_MIN_IV_LEN, OPENVPN_MAX_IV_LENGTH in *.
  rewrite !expand_label_ok by (apply labels_ok || done || (rewrite length_zeros; lia)).
  rewrite !length_zeros by lia.
  cbn [mbind option_bind].
  set (ck := expand_label_spec secret data_key_label _). set (iv := expand_label_spec secret data_iv_label _).
  assert (Hck : zlen ck = cipher_kt_key_size (kt_cipher kt)) by (apply length_hkdf_spec; lia).
  assert (Hivl : zlen iv = cipher_kt_iv_size (kt_cipher kt)) by (apply length_hkdf_spec; lia).
  unfold MAX_CIPHER_KEY_LENGTH, MAX_HMAC_KEY_LENGTH.
  rewrite !splice_zeros by lia.
  unfold init_key_bi_ctx, init_key_ctx, cipher_defined, md_defined. cbn [kp_cipher_size kp_hmac_size kp_cipher kp_hmac kp_epoch].
  rewrite (bool_decide_eq_false_2 (kt_cipher kt = _)), (bool_decide_eq_true_2 (kt_digest kt = _)) by done.
  cbn [negb].
  rewrite ASSERT_true by lia. cbn [mbind option_bind]. rewrite slice_app_l by done.
  unfold key_ctx_update_implicit_iv. cbn [kc_cipher mbind option_bind kp_epoch kp_hmac kp_hmac_size].
  rewrite Hm. replace (e =? 0) with false by lia. cbn [negb].
  unfold OPENVPN_AEAD_MIN_IV_LEN, OPENVPN_MAX_IV_LENGTH.
  rewrite !ASSERT_true by (unfold MAX_HMAC_KEY_LENGTH; lia). cbn [mbind option_bind].
  rewrite slice_app_l, splice_zeros by lia. rewrite Hivl. done.
Qed.
End derive.
