(* ===== verification/EpochInv.v ===== *)
(** * The invariant of the epoch keys

    Every key that [struct crypto_options] holds is the key of the epoch it is
    labelled with, on the right chain; the future keys are the epochs right after
    the current one; the send epoch never falls behind.  Every operation of
    [crypto_epoch.c] keeps this, and none of its [ASSERT]s can fail. *)
From S2P Require Import Prelude Integers Buffer PacketId Replay EpochKeys EpochDerive.

Section inv.
Context `{CL : CryptoLib} `{!CryptoLaws}.
(** The cipher, the initial secrets of the two directions, the number of future keys. *)
Context (kt : key_type) (s0 r0 : list Z) (n : Z).
Context (Hkt : aead_kt kt) (Hs0 : zlen s0 = 32) (Hr0 : zlen r0 = 32) (Hn : 0 < n <= 65533).

(** The secret of epoch [e >= 1]. *)
Definition sec (x : list Z) (e : Z) : list Z := secret_at x (Z.to_nat (e - 1)).

Definition ekey_at (x : list Z) (e : Z) : epoch_key := mk_ekey (sec x e) e.

(** [k] is the key of epoch [e] of the chain [x], whatever its usage counters. *)
Record is_key (x : list Z) (e : Z) (k : key_ctx) : Prop := {
  ik_cipher : kc_cipher k = Some (data_key_spec kt (sec x e));
  ik_iv : kc_implicit_iv k = data_iv_spec kt (sec x e);
  ik_epoch : kc_epoch k = e
}.

Record epoch_inv (co : crypto_options) : Prop := {
  ei_kt : co_epoch_key_type co = kt;
  ei_init : co_initialized co = true;
  ei_count : zlen (co_future co) = n;
  ei_epoch : 1 <= kc_epoch (co_decrypt co) /\ kc_epoch (co_decrypt co) + n < UINT16_MAX;
  ei_decrypt : is_key r0 (kc_epoch (co_decrypt co)) (co_decrypt co);
  ei_future i k : co_future co !! i = Some k ->
    is_key r0 (kc_epoch (co_decrypt co) + 1 + Z.of_nat i) k;
  ei_recv : co_epoch_key_recv co = ekey_at r0 (kc_epoch (co_decrypt co) + n);
  ei_send_epoch : kc_epoch (co_decrypt co) <= kc_epoch (co_encrypt co) <= UINT16_MAX;
  ei_send : co_epoch_key_send co = ekey_at s0 (kc_epoch (co_encrypt co));
  ei_encrypt : is_key s0 (kc_epoch (co_encrypt co)) (co_encrypt co);
  ei_retiring : kc_epoch (co_retiring co) = 0 \/
    (1 <= kc_epoch (co_retiring co) < kc_epoch (co_decrypt co) /\
     is_key r0 (kc_epoch (co_retiring co)) (co_retiring co))
}.

Lemma length_sec x e : zlen x = 32 -> zlen (sec x e) = 32.
Proof. apply length_secret_at. Qed.

Lemma sec_next x e : 1 <= e -> sec x (e + 1) = next_secret (sec x e).
Proof.
  intros. unfold sec. replace (Z.to_nat (e + 1 - 1)) with (S (Z.to_nat (e - 1))) by lia. reflexivity.
Qed.

#[local] Opaque sec data_key_spec data_iv_spec.

Lemma iterate_at x e :
  zlen x = 32 -> 1 <= e < UINT16_MAX -> epoch_key_iterate (ekey_at x e) = Some (ekey_at x (e + 1)).
Proof.
  intros Hx He. unfold ekey_at. rewrite epoch_key_iterate_ok by by apply length_sec.
  unfold UINT16_MAX in He. rewrite u16_small by (unfold is_u16; lia). by rewrite sec_next by lia.
Qed.

Lemma key_at_is_key x e : is_key x e (key_ctx_at kt (sec x e) e).
Proof. by split. Qed.

Lemma init_recv_key_at x e :
  zlen x = 32 -> 0 < e -> epoch_init_recv_key (ekey_at x e) kt = Some (key_ctx_at kt (sec x e) e).
Proof. intros. apply init_recv_key_ok; [done|by apply length_sec|done]. Qed.

(** ** Sending side *)

Lemma iterate_send_to_at fuel e e' :
  1 <= e <= UINT16_MAX -> e' <= UINT16_MAX -> e' - e <= Z.of_nat fuel ->
  iterate_send_to fuel (ekey_at s0 e) e' = Some (ekey_at s0 (Z.max e e')).
Proof.
  revert e. induction fuel as [|fuel IH]; intros e He He' Hf; cbn [iterate_send_to];
    change (ek_epoch (ekey_at s0 e)) with e; destruct (e <? e') eqn:E.
  - lia.
  - by rewrite Z.max_l by lia.
  - rewrite iterate_at by (done || lia). rewrite Some_bind, IH by lia. do 2 f_equal. lia.
  - by rewrite Z.max_l by lia.
Qed.

(** A new send key: the packet id counter restarts with it. *)
Lemma init_send_at co e :
  co_epoch_key_type co = kt -> co_epoch_key_send co = ekey_at s0 e -> 0 < e ->
  kc_epoch (co_encrypt co) <> e ->
  epoch_init_send_key_ctx co =
    Some (set_packet_id (set_encrypt co (key_ctx_at kt (sec s0 e) e))
            (mk_pid (mk_send 0 0) (rec (co_packet_id co))) (co_pid_persist co)).
Proof.
  intros Hk Hs He Hne. unfold epoch_init_send_key_ctx. rewrite Hk, Hs.
  change (ek_epoch (ekey_at s0 e)) with e. rewrite ASSERT_true by lia. rewrite Some_bind.
  pose proof (init_recv_key_ok kt (sec s0 e) e Hkt (length_sec _ _ Hs0) He) as Hd.
  apply bind_Some in Hd as (kp & Hkp & Hctx). unfold ekey_at. rewrite Hkp, Some_bind, Hctx, Some_bind.
  done.
Qed.

(** ** Receiving side *)

Definition fresh_keys (R : Z) (m : nat) : list key_ctx :=
  (fun i => key_ctx_at kt (sec r0 (R + 1 + Z.of_nat i)) (R + 1 + Z.of_nat i)) <$> seq 0 m.

Lemma regenerate_at m R :
  1 <= R -> R + Z.of_nat m <= UINT16_MAX ->
  regenerate_keys m (ekey_at r0 R) kt = Some (ekey_at r0 (R + Z.of_nat m), fresh_keys R m).
Proof.
  revert R. induction m as [|m IH]; intros R HR Hm; cbn [regenerate_keys].
  - by rewrite Z.add_0_r.
  - rewrite iterate_at by (done || lia). rewrite Some_bind, init_recv_key_at by (done || lia).
    rewrite Some_bind, IH by lia. rewrite Some_bind. do 2 f_equal; [f_equal; lia|].
    unfold fresh_keys. cbn [seq fmap list_fmap].
    replace (R + 1 + Z.of_nat 0) with (R + 1) by lia. apply (f_equal (cons _)).
    rewrite <- fmap_S_seq, <- list_fmap_compose. apply list_fmap_ext. intros ? i _. cbn.
    replace (R + 1 + 1 + Z.of_nat i) with (R + 1 + Z.of_nat (S i)) by lia. done.
Qed.

Lemma assert_free_ok m keys :
  (m <= length keys)%nat -> (forall i k, (i < m)%nat -> keys !! i = Some k -> kc_epoch k = 0) ->
  assert_free m keys = Some tt.
Proof.
  revert keys. induction m as [|m IH]; intros [|k keys] Hm Hk; simpl in *; try lia; try done.
  rewrite ASSERT_true by (rewrite (Hk O k) by (lia || done); done). rewrite Some_bind.
  apply IH; [lia|]. intros i k' ??. apply (Hk (S i)); [lia|done].
Qed.

(** Regeneration when the first [m] future keys are used up. *)
Lemma generate_ok co m :
  let d := kc_epoch (co_decrypt co) in
  co_epoch_key_type co = kt -> co_initialized co = true -> zlen (co_future co) = n ->
  1 <= d -> d + n <= UINT16_MAX -> 0 < Z.of_nat m <= n ->
  co_epoch_key_recv co = ekey_at r0 (d + n - Z.of_nat m) ->
  (forall i k, (i < m)%nat -> co_future co !! i = Some k -> 0 <= kc_epoch k < d) ->
  (forall i k, (m <= i)%nat -> co_future co !! i = Some k -> is_key r0 (d + 1 + Z.of_nat (i - m)) k) ->
  epoch_generate_future_receive_keys co =
    Some (set_recv co (ekey_at r0 (d + n)) (drop m (co_future co) ++ fresh_keys (d + n - Z.of_nat m) m)).
Proof.
  intros d Hk Hi Hlen Hd Hdn Hm Hrecv Hold Hnew.
  unfold epoch_generate_future_receive_keys. fold d. rewrite Hi, Hk, Hrecv.
  unfold future_count. rewrite Hlen. change (ek_epoch (ekey_at r0 ?x)) with x.
  cbn [ASSERT]. rewrite Some_bind, ASSERT_true, Some_bind by lia.
  destruct (lookup_lt_is_Some_2 (co_future co) (Z.to_nat (n - 1))) as [hk Hhk]; [lia|].
  rewrite Hhk, Some_bind.
  set (R := d + n - Z.of_nat m) in *.
  assert (Hlast : d = R \/ ((m <= Z.to_nat (n - 1))%nat /\ kc_epoch hk = R /\ d < R)).
  { destruct (decide (Z.of_nat m = n)); [left; lia|right].
    pose proof (ik_epoch _ _ _ (Hnew (Z.to_nat (n - 1)) hk ltac:(lia) Hhk)). lia. }
  rewrite ASSERT_true, Some_bind by lia.
  rewrite list_lookup_fmap, Hhk. cbn [fmap option_fmap option_map]. rewrite Some_bind.
  rewrite ASSERT_true, Some_bind by (destruct ((0 <? kc_epoch hk) && _) eqn:?; [|lia]; cbn; lia).
  unfold UINT16_MAX in *. rewrite (u16_small (d + n)), (u16_small (d + n - R)) by (unfold is_u16; lia).
  replace (Z.to_nat (d + n - R)) with m by lia.
  set (keys := _ <$> co_future co).
  assert (Hfree : assert_free m keys = Some tt).
  { apply assert_free_ok; [unfold keys; rewrite length_fmap; lia|].
    intros i k Hi' (k0 & -> & Hk0)%list_lookup_fmap_Some_1.
    specialize (Hold i k0 Hi' Hk0). destruct ((0 <? kc_epoch k0) && _) eqn:?; [done|lia]. }
  rewrite Hfree, Some_bind, regenerate_at by (unfold UINT16_MAX; lia). rewrite Some_bind.
  replace (R + Z.of_nat m) with (d + n) by lia.
  assert (Hdrop : drop m keys = drop m (co_future co)).
  { apply list_eq. intros i. unfold keys. rewrite !lookup_drop, list_lookup_fmap.
    destruct (co_future co !! (m + i)%nat) as [k|] eqn:E; [|done]. simpl.
    pose proof (ik_epoch _ _ _ (Hnew (m + i)%nat k ltac:(lia) E)).
    by replace (kc_epoch k <? d) with false by lia; rewrite andb_false_r. }
  rewrite Hdrop, ASSERT_true, Some_bind; [done|].
  apply forallb_forall. intros k [Hin|Hin]%in_app_iff.
  - apply list_elem_of_In, list_elem_of_lookup in Hin as [i Hl]. rewrite lookup_drop in Hl.
    pose proof (ik_epoch _ _ _ (Hnew (m + i)%nat k ltac:(lia) Hl)). lia.
  - apply list_elem_of_In in Hin. unfold fresh_keys in Hin.
    apply list_elem_of_fmap in Hin as (i & -> & _). cbn. lia.
Qed.

Lemma key_at_epoch x e : kc_epoch (key_ctx_at kt (sec x e) e) = e.
Proof. done. Qed.

Lemma lookup_fresh R m i k :
  fresh_keys R m !! i = Some k ->
  (i < m)%nat /\ k = key_ctx_at kt (sec r0 (R + 1 + Z.of_nat i)) (R + 1 + Z.of_nat i).
Proof.
  unfold fresh_keys. rewrite list_lookup_fmap. intros (j & Hj & ->)%fmap_Some.
  apply lookup_seq in Hj as [-> ?]. done.
Qed.

(** The future keys after a regeneration are consecutive. *)
Lemma future_after keys m d :
  zlen keys = n -> Z.of_nat m <= n ->
  (forall i k, (m <= i)%nat -> keys !! i = Some k -> is_key r0 (d + 1 + Z.of_nat (i - m)) k) ->
  let keys' := drop m keys ++ fresh_keys (d + n - Z.of_nat m) m in
  zlen keys' = n /\
  forall i k, keys' !! i = Some k -> is_key r0 (d + 1 + Z.of_nat i) k.
Proof.
  intros Hlen Hm Hnew keys'. split.
  - unfold keys', fresh_keys. rewrite length_app, length_drop, length_fmap, length_seq. lia.
  - intros i k [Hl|[Hge Hl]]%lookup_app_Some.
    + rewrite lookup_drop in Hl. apply Hnew in Hl; [|lia].
      by replace (m + i - m)%nat with i in Hl by lia.
    + rewrite length_drop in Hl, Hge. apply lookup_fresh in Hl as [Hi ->].
      replace (d + n - Z.of_nat m + 1 + Z.of_nat (i - (length keys - m)))
        with (d + 1 + Z.of_nat i) by lia. apply key_at_is_key.
Qed.

(** ** Initialisation *)

Lemma epoch_init_ok pid long_form pp :
  exists co, epoch_init_key_ctx pid kt (mk_ekey s0 1) (mk_ekey r0 1) n long_form pp = Some co /\
    epoch_inv co /\ kc_epoch (co_decrypt co) = 1 /\ kc_epoch (co_encrypt co) = 1 /\
    co_packet_id co = mk_pid (mk_send 0 0) (rec pid) /\
    kc_epoch (co_retiring co) = 0 /\ co_epoch_format co = true /\
    co_pid_persist co = pp /\ co_long_form co = long_form /\
    co_aead_usage_limit co = cipher_get_aead_limits (kt_cipher kt).
Proof.
  unfold epoch_init_key_ctx. change (mk_ekey s0 1) with (ekey_at s0 1).
  change (mk_ekey r0 1) with (ekey_at r0 1). rewrite ASSERT_true, Some_bind by done.
  rewrite (init_send_at _ 1) by done. rewrite Some_bind. cbv zeta.
  change (co_epoch_key_recv _) with (ekey_at r0 1).
  rewrite init_recv_key_at by done. rewrite Some_bind.
  set (co := mk_co _ _ _ _ _ _ _ _ _ _ _ _ _ _).
  assert (Hlen : zlen (co_future co) = n) by (unfold co; simpl; rewrite length_replicate; lia).
  assert (Hd : kc_epoch (co_decrypt co) = 1) by done.
  rewrite (generate_ok co (Z.to_nat n)); rewrite ?Hd; try done; try (unfold UINT16_MAX; lia).
  - eexists. split; [done|]. set (co' := set_recv _ _ _).
    destruct (future_after (co_future co) (Z.to_nat n) 1 Hlen) as [Hlen' Hfut]; [lia| |].
    { intros i k ? Hl%lookup_lt_Some. lia. }
    assert (Hd' : kc_epoch (co_decrypt co') = 1) by exact eq_refl.
    assert (He' : kc_epoch (co_encrypt co') = 1) by exact eq_refl.
    split; [|split_and!; exact eq_refl].
    split; rewrite ?Hd', ?He'; try exact eq_refl.
    + exact Hlen'.
    + unfold UINT16_MAX. lia.
    + exact (key_at_is_key r0 1).
    + exact Hfut.
    + unfold UINT16_MAX. lia.
    + exact (key_at_is_key s0 1).
    + left. exact eq_refl.
  - replace (1 + n - Z.of_nat (Z.to_nat n)) with 1 by lia. done.
  - intros i k ? Hl. unfold co in Hl. cbn [co_future] in Hl.
    apply lookup_replicate in Hl as [-> _]. cbn. lia.
  - intros i k ? Hl%lookup_lt_Some. lia.
Qed.

(** ** The next send key *)

Definition sent_with (co : crypto_options) (e : Z) : crypto_options :=
  set_packet_id (set_encrypt (set_send_key co (ekey_at s0 e)) (key_ctx_at kt (sec s0 e) e))
    (mk_pid (mk_send 0 0) (rec (co_packet_id co))) (co_pid_persist co).

Lemma sent_with_inv co e :
  epoch_inv co -> kc_epoch (co_encrypt co) < e <= UINT16_MAX -> epoch_inv (sent_with co e).
Proof.
  intros [] He. split; try done.
  cbn. lia.
Qed.

Lemma iterate_send_ok co :
  epoch_inv co -> kc_epoch (co_encrypt co) < UINT16_MAX ->
  epoch_iterate_send_key co = Some (sent_with co (kc_epoch (co_encrypt co) + 1)).
Proof.
  intros Hinv He. unfold epoch_iterate_send_key. rewrite (ei_send _ Hinv).
  change (ek_epoch (ekey_at s0 ?x)) with x. 
  pose proof (ei_send_epoch _ Hinv). pose proof (ei_epoch _ Hinv).
  rewrite ASSERT_true, Some_bind, iterate_at, Some_bind by (done || (cbn; lia)).
  rewrite (init_send_at _ (kc_epoch (co_encrypt co) + 1)); try done; cbn; try lia.
  apply (ei_kt _ Hinv).
Qed.

(** ** A packet of a new epoch *)

Lemma find_epoch_at co i :
  epoch_inv co -> (i < length (co_future co))%nat ->
  find_epoch (co_future co) (kc_epoch (co_decrypt co) + 1 + Z.of_nat i) = i.
Proof.
  intros Hinv. pose proof (ei_future _ Hinv) as Hf. revert Hf.
  generalize (kc_epoch (co_decrypt co) + 1) as d. generalize (co_future co) as keys.
  induction i as [|i IH]; intros [|k keys] d Hf Hi; simpl in Hi; try lia; cbn [find_epoch];
    rewrite (ik_epoch _ _ _ (Hf O k eq_refl)).
  - by rewrite Z.eqb_refl.
  - replace (_ =? _) with false by lia. f_equal.
    replace (d + Z.of_nat (S i)) with (d + 1 + Z.of_nat i) by lia. apply IH; [|lia].
    intros j k' Hj. specialize (Hf (S j) k' Hj). by replace (d + 1 + Z.of_nat j) with (d + Z.of_nat (S j)) by lia.
Qed.

(** [co'] is [co] after the switch to epoch [e], whose key was [k]. *)
Record switched (co co' : crypto_options) (e : Z) (k : key_ctx) (rec' : packet_id_rec) : Prop := {
  sw_inv : epoch_inv co';
  sw_decrypt : co_decrypt co' = k;
  sw_retiring : co_retiring co' = co_decrypt co;
  sw_retiring_pid : co_retiring_pid co' = rec (co_packet_id co);
  sw_rec : rec (co_packet_id co') = rec';
  sw_send : if kc_epoch (co_encrypt co) <? e
            then kc_epoch (co_encrypt co') = e /\ send (co_packet_id co') = mk_send 0 0
            else co_encrypt co' = co_encrypt co /\ send (co_packet_id co') = send (co_packet_id co);
  sw_persist : co_pid_persist co' = co_pid_persist co;
  sw_flags : co_epoch_format co' = co_epoch_format co /\ co_long_form co' = co_long_form co;
  sw_limit : co_aead_usage_limit co' = co_aead_usage_limit co
}.

(** The receiving half of the switch, once the send key is settled. *)
Lemma switch_recv_ok co i k rec' :
  epoch_inv co -> co_future co !! i = Some k ->
  let d' := kc_epoch (co_decrypt co) + 1 + Z.of_nat i in
  d' + n < UINT16_MAX -> d' <= kc_epoch (co_encrypt co) ->
  let co1 := set_recv (set_decrypt (set_packet_id (set_retiring co (co_decrypt co) (rec (co_packet_id co)))
               (mk_pid (send (co_packet_id co)) rec') (co_pid_persist co)) k) (co_epoch_key_recv co)
               (<[i := key_ctx_zero]> (co_future co)) in
  exists co', epoch_generate_future_receive_keys co1 = Some co' /\ epoch_inv co' /\
    co' = set_recv co1 (co_epoch_key_recv co') (co_future co').
Proof.
  intros Hinv Hk d' Hd' Hs co1. pose proof Hinv as [].
  pose proof (lookup_lt_Some _ _ _ Hk) as Hlt.
  pose proof (ei_future0 i k Hk) as Hkk. fold d' in Hkk.
  assert (Hlen1 : zlen (co_future co1) = n) by (unfold co1; cbn; by rewrite length_insert).
  assert (Hd1 : kc_epoch (co_decrypt co1) = d') by apply Hkk.
  assert (Hnew : forall j x, (S i <= j)%nat -> co_future co1 !! j = Some x ->
            is_key r0 (d' + 1 + Z.of_nat (j - S i)) x).
  { intros j x Hj Hx. unfold co1 in Hx. cbn [co_future set_recv] in Hx.
    rewrite list_lookup_insert_ne in Hx by lia. apply ei_future0 in Hx.
    by replace (d' + 1 + Z.of_nat (j - S i)) with (kc_epoch (co_decrypt co) + 1 + Z.of_nat j) by lia. }
  destruct (future_after (co_future co1) (S i) d' Hlen1) as [Hlen' Hfut]; [lia|done|].
  rewrite (generate_ok co1 (S i)); rewrite ?Hd1; try done; try lia.
  - eexists. split; [done|]. split; [|done]. split; cbn [co_decrypt co_encrypt set_recv set_decrypt
      set_packet_id set_retiring co_epoch_key_type co_initialized co_future co_epoch_key_recv
      co_epoch_key_send co_retiring co1]; rewrite ?(ik_epoch _ _ _ Hkk); try done; try lia.
    right. split; [lia|done].
  - cbn. rewrite ei_recv0. f_equal. lia.
  - intros j x Hj Hx. unfold co1 in Hx. cbn [co_future set_recv] in Hx.
    apply list_lookup_insert_Some in Hx as [(-> & <- & _)|[Hne Hx]]; [cbn; unfold d' in *; lia|].
    apply ei_future0, ik_epoch in Hx. unfold d' in *. lia.
Qed.

(** What the switch does after the send key is settled. *)
Lemma switch_body_ok co i k rec' :
  epoch_inv co -> co_future co !! i = Some k ->
  let e := kc_epoch (co_decrypt co) + 1 + Z.of_nat i in
  e + n < UINT16_MAX -> e <= kc_epoch (co_encrypt co) ->
  move_recv (rec (co_packet_id co)) = Some (rec (co_packet_id co), rec') ->
  exists co',
    ('(retiring_pid, rec'') ← packet_id_move_recv (co_retiring_pid co) (rec (co_packet_id co));
     epoch_generate_future_receive_keys
       (set_recv (set_decrypt (set_packet_id (set_retiring co (co_decrypt co) retiring_pid)
          (mk_pid (send (co_packet_id co)) rec'') (co_pid_persist co)) k) (co_epoch_key_recv co)
          (<[i := key_ctx_zero]> (co_future co)))) = Some co' /\
    epoch_inv co' /\ co_decrypt co' = k /\ co_retiring co' = co_decrypt co /\
    co_retiring_pid co' = rec (co_packet_id co) /\
    co_packet_id co' = mk_pid (send (co_packet_id co)) rec' /\
    co_encrypt co' = co_encrypt co /\ co_pid_persist co' = co_pid_persist co /\
    co_epoch_format co' = co_epoch_format co /\ co_long_form co' = co_long_form co /\
    co_aead_usage_limit co' = co_aead_usage_limit co.
Proof.
  intros Hinv Hk e He Hs Hmove. unfold move_recv in Hmove.
  change (packet_id_move_recv (co_retiring_pid co)) with (packet_id_move_recv rec_zero).
  rewrite Hmove, Some_bind.
  destruct (switch_recv_ok co i k rec' Hinv Hk He Hs) as (co' & Hgen & Hinv' & Heq).
  exists co'. split; [exact Hgen|]. split; [done|]. rewrite Heq. done.
Qed.

Lemma replace_recv_ok co i k rec' :
  epoch_inv co -> co_future co !! i = Some k ->
  let e := kc_epoch (co_decrypt co) + 1 + Z.of_nat i in
  e + n < UINT16_MAX ->
  move_recv (rec (co_packet_id co)) = Some (rec (co_packet_id co), rec') ->
  exists co', epoch_replace_update_recv_key co e = Some co' /\ switched co co' e k rec'.
Proof.
  intros Hinv Hk e He Hmove. unfold epoch_replace_update_recv_key.
  pose proof (lookup_lt_Some _ _ _ Hk) as Hlt.
  unfold e. rewrite (find_epoch_at co i Hinv Hlt), Hk, Some_bind. fold e.
  rewrite (ik_epoch _ _ _ (ei_future _ Hinv i k Hk)). fold e.
  rewrite ASSERT_true, Some_bind by lia.
  pose proof (ei_send_epoch _ Hinv). pose proof (ei_epoch _ Hinv).
  assert (1 <= e) by (unfold e; lia).
  destruct (kc_epoch (co_encrypt co) <? e) eqn:Es.
  - rewrite (ei_send _ Hinv). change (ek_epoch (ekey_at s0 ?x)) with x.
    rewrite iterate_send_to_at, Some_bind by lia.
    rewrite (init_send_at _ e); [|apply (ei_kt _ Hinv)|cbn; f_equal; lia|lia|cbn; lia].
    rewrite Some_bind. cbv zeta.
    replace (Z.max (kc_epoch (co_encrypt co)) e) with e by lia.
    change (set_packet_id (set_encrypt (set_encrypt (set_send_key co _) _) _) _ _) with (sent_with co e).
    assert (Hinv1 : epoch_inv (sent_with co e)) by (apply sent_with_inv; [done|lia]).
    destruct (switch_body_ok (sent_with co e) i k rec' Hinv1 Hk He ltac:(cbn; lia) Hmove)
      as (co' & Hb & Hinv' & ? & ? & ? & Hp & He' & ? & ? & ? & ?).
    exists co'. split; [exact Hb|]. split; try done; rewrite ?Hp; try done.
    rewrite Es, He'. done.
  - rewrite Some_bind. cbv zeta.
    destruct (switch_body_ok co i k rec' Hinv Hk He ltac:(lia) Hmove)
      as (co' & Hb & Hinv' & ? & ? & ? & Hp & He' & ? & ? & ? & ?).
    exists co'. split; [exact Hb|]. split; try done; rewrite ?Hp; try done.
    rewrite Es, He'. done.
Qed.

(** ** Lookup *)

(** Exactly the epochs for which the code keeps a key it may use. *)
Definition epoch_known (co : crypto_options) (e : Z) : Prop :=
  e = kc_epoch (co_decrypt co) \/ (e <> 0 /\ e = kc_epoch (co_retiring co)) \/
  (kc_epoch (co_decrypt co) < e <= kc_epoch (co_decrypt co) + n /\ e < UINT16_MAX - n).

Lemma lookup_ok co e :
  epoch_inv co ->
  match epoch_lookup_decrypt_key co e with
  | Some s => epoch_known co e /\ 1 <= e /\ (exists k, get_key co s = Some k /\ is_key r0 e k) /\
      match s with
      | KDecrypt => e = kc_epoch (co_decrypt co)
      | KRetiring => e = kc_epoch (co_retiring co) /\ e < kc_epoch (co_decrypt co)
      | KFuture i => i = e - (kc_epoch (co_decrypt co) + 1) /\ 0 <= i < n /\ e + n < UINT16_MAX
      end
  | None => ~ epoch_known co e
  end.
Proof.
  intros Hinv. pose proof Hinv as []. unfold epoch_lookup_decrypt_key, epoch_known, future_count.
  destruct (kc_epoch (co_decrypt co) =? e) eqn:Ed.
  { assert (e = kc_epoch (co_decrypt co)) as -> by lia.
    split_and!; [by left|lia| |done]. exists (co_decrypt co). done. }
  destruct (negb (kc_epoch (co_retiring co) =? 0) && (kc_epoch (co_retiring co) =? e)) eqn:Er.
  { destruct ei_retiring0 as [?|[? Hkey]]; [lia|].
    assert (e = kc_epoch (co_retiring co)) as -> by lia.
    split_and!; [right; left; lia|lia| |done|lia]. exists (co_retiring co). done. }
  rewrite ei_count0. destruct ((kc_epoch (co_decrypt co) <? e) && _) eqn:Ef; [|lia].
  destruct (_ - 1 <? e) eqn:El; [lia|].
  destruct (lookup_lt_is_Some_2 (co_future co) (Z.to_nat (e - (kc_epoch (co_decrypt co) + 1))))
    as [k Hk]; [lia|].
  split_and!; try lia. exists k. cbn [get_key]. replace (0 <=? _) with true by lia. split; [done|].
  apply ei_future0 in Hk.
  by replace (kc_epoch (co_decrypt co) + 1 + Z.of_nat (Z.to_nat (e - (kc_epoch (co_decrypt co) + 1))))
    with e in Hk by lia.
Qed.

(** ** The check before each packet is sent *)

(** The send key is unchanged, or a fresh one with the next epoch. *)
Lemma check_send_ok co :
  epoch_inv co -> 0 <= s_id (send (co_packet_id co)) <= PACKET_ID_EPOCH_MAX ->
  exists co', epoch_check_send_iterate co = Some co' /\ epoch_inv co' /\
    (co' = co \/ (kc_epoch (co_encrypt co) < UINT16_MAX /\
                  co' = sent_with co (kc_epoch (co_encrypt co) + 1))) /\
    (kc_epoch (co_encrypt co') = UINT16_MAX \/ s_id (send (co_packet_id co')) < PACKET_ID_EPOCH_MAX).
Proof.
  intros Hinv Hid. pose proof (ei_send_epoch _ Hinv) as Hse. unfold epoch_check_send_iterate.
  rewrite (ei_send _ Hinv). change (ek_epoch (ekey_at s0 ?x)) with x.
  destruct (_ =? UINT16_MAX) eqn:Em; [exists co; split_and!; try done; [by left|left; lia]|].
  assert (Hit : epoch_iterate_send_key co = Some (sent_with co (kc_epoch (co_encrypt co) + 1)))
    by (apply iterate_send_ok; [done|lia]).
  assert (Hinv' : epoch_inv (sent_with co (kc_epoch (co_encrypt co) + 1)))
    by (apply sent_with_inv; [done|lia]).
  set (opt := if negb _ then _ else _).
  assert (opt = Some co \/ opt = Some (sent_with co (kc_epoch (co_encrypt co) + 1))) as [Ho|Ho].
  { unfold opt. repeat case_match; rewrite ?Hit; auto. }
  - rewrite Ho, Some_bind. destruct (s_id _ =? _) eqn:Ei.
    + rewrite Hit. eexists. split_and!; [done|done|right; split; [lia|done]|right; by vm_compute].
    + exists co. split_and!; [done|done|by left|right; lia].
  - rewrite Ho, Some_bind.
    change (send (co_packet_id (sent_with _ _))) with (mk_send 0 0). cbn [s_id].
    eexists. split_and!; [done|done|right; split; [lia|done]|right; by vm_compute].
Qed.
End inv.
