(* ===== verification/DataChannel.v ===== *)
(** * The data channel: [openvpn_encrypt_aead], [openvpn_decrypt_aead] and
      [crypto_check_replay] of [crypto.c]

    Packets and work space are [struct buffer]s; the result of a call is the new
    buffer and the new [struct crypto_options].  [None] is a failed [ASSERT].  The
    [iv] array is the [iv_len] bytes of it that are used.  The cipher is a stream:
    [cipher_ctx_update] gives as many bytes as it takes and [cipher_ctx_final] none. *)
From S2P Require Import Prelude Integers Buffer PacketId EpochKeys.

Definition AEAD_LIMIT_BLOCKSIZE : Z := 16.

Section data_channel.
Context `{CryptoLib}.

(** ** Replay check *)

Definition set_rec (opt : crypto_options) (r : packet_id_rec) : crypto_options :=
  set_packet_id opt (mk_pid (send (co_packet_id opt)) r) (co_pid_persist opt).

Definition set_send (opt : crypto_options) (s : packet_id_send) : crypto_options :=
  set_packet_id opt (mk_pid s (rec (co_packet_id opt))) (co_pid_persist opt).

(** [packet_id_persist_save_obj] on an accepted packet. *)
Definition persist_accepted (opt : crypto_options) : crypto_options :=
  if co_long_form opt then
    set_packet_id opt (co_packet_id opt)
      ((fun pp => packet_id_persist_save_obj pp (co_packet_id opt)) <$> co_pid_persist opt)
  else opt.

Definition crypto_check_replay (now : Z) (opt : crypto_options) (pin : packet_id_net) (epoch : Z)
  : option (bool * crypto_options) :=
  let recv :=
    if (epoch =? 0) || (kc_epoch (co_decrypt opt) =? epoch) then Some (false, opt)
    else if epoch =? kc_epoch (co_retiring opt) then Some (true, opt)
    else opt ← epoch_replace_update_recv_key opt epoch; Some (false, opt) in
  match recv with
  | None => None
  | Some (retiring, opt) =>
      match check_replay now (if retiring : bool then co_retiring_pid opt
                              else rec (co_packet_id opt)) pin with
      | None => None
      | Some (ok, r) =>
          let opt := if retiring then set_retiring opt (co_retiring opt) r else set_rec opt r in
          Some (ok, if ok then persist_accepted opt else opt)
      end
  end.

(** ** Encryption *)

Definition xor_iv (iv implicit_iv : list Z) : list Z := zip_with Z.lxor iv implicit_iv.

Definition add_blocks (k : key_ctx) (len : Z) : key_ctx :=
  mk_ctx (kc_cipher k) (kc_hmac k) (kc_implicit_iv k)
    (u64 (kc_plaintext_blocks k + (len + (AEAD_LIMIT_BLOCKSIZE - 1)) / AEAD_LIMIT_BLOCKSIZE))
    (kc_failed_verifications k) (kc_epoch k).

Definition count_failure (k : key_ctx) : key_ctx :=
  mk_ctx (kc_cipher k) (kc_hmac k) (kc_implicit_iv k) (kc_plaintext_blocks k)
    (u64 (kc_failed_verifications k + 1)) (kc_epoch k).

(** [buf->len = 0]. *)
Definition buf_drop (b : buffer) : buffer := mk_buffer (b_capacity b) (b_offset b) 0 (b_data b).

(** The tag of the epoch format goes behind the ciphertext: allocate and fill it. *)
Definition append_tag (work : buffer) (tag : list Z) : option buffer :=
  match buf_write_alloc work OPENVPN_AEAD_TAG_LENGTH with
  | (Some p, work) => Some (poke work p tag)
  | (None, _) => None
  end.

(** [openvpn_encrypt_aead] after the epoch check: the new [*buf] and [*opt]. *)
Definition encrypt_body (now : Z) (buf work : buffer) (opt : crypto_options)
  : option (buffer * crypto_options) :=
  let epoch_format := co_epoch_format opt in
  let ctx := co_encrypt opt in
  '(name, key) ← kc_cipher ctx;
  ASSERT (r_initialized (rec (co_packet_id opt)));;
  let iv_len := cipher_kt_iv_size name in
  ASSERT ((OPENVPN_AEAD_MIN_IV_LEN <=? iv_len) && (iv_len <=? OPENVPN_MAX_IV_LENGTH));;
  iv_buffer ← buf_set_write (Some (zeros iv_len)) iv_len;
  let '(ok, snd', iv_buffer) :=
    if epoch_format then packet_id_write_epoch now (send (co_packet_id opt)) (kc_epoch ctx) iv_buffer
    else packet_id_write now (send (co_packet_id opt)) iv_buffer false false in
  let opt := set_send opt snd' in
  if negb (ok : bool) then Some (buf_drop buf, opt)
  else
    '(ok, work) ← Some (buf_write work (content iv_buffer));
    ASSERT (ok : bool);;
    let iv := xor_iv (mem iv_buffer) (slice 0 iv_len (kc_implicit_iv ctx)) in
    if negb (buf_safe work (u64 (b_len buf + OPENVPN_AEAD_TAG_LENGTH + cipher_kt_block_size name)))
    then Some (buf_drop buf, opt)
    else
      let '(ct, tag) := aead_seal name key iv (content work) (content buf) in
      if epoch_format then
        bend ← buf_bend work;
        '(ok, work) ← Some (buf_inc_len (poke work bend ct) (zlen ct));
        ASSERT (ok : bool);;
        let opt := set_encrypt opt (add_blocks (co_encrypt opt) (buf_len work)) in
        work ← append_tag work tag;
        Some (work, opt)
      else
        '(mac_out, work) ← Some (buf_write_alloc work OPENVPN_AEAD_TAG_LENGTH);
        mac_out ← mac_out;
        bend ← buf_bend work;
        '(ok, work) ← Some (buf_inc_len (poke work bend ct) (zlen ct));
        ASSERT (ok : bool);;
        let opt := set_encrypt opt (add_blocks (co_encrypt opt) (buf_len work)) in
        Some (poke work mac_out tag, opt).

Definition openvpn_encrypt_aead (now : Z) (buf work : buffer) (opt : crypto_options)
  : option (buffer * crypto_options) :=
  opt ← (if co_epoch_format opt then epoch_check_send_iterate opt else Some opt);
  encrypt_body now buf work opt.

(** ** Decryption *)

(** The explicit part of the IV: the epoch, the key's place, the id and the bytes
    copied to [iv], [None] for a packet that is dropped; and the rest of the packet. *)
Definition read_iv (buf : buffer) (opt : crypto_options)
  : option (Z * key_slot * packet_id_net * list Z) * buffer :=
  if co_epoch_format opt then
    let iv := slice (b_offset buf) 8 (mem buf) in
    let '(epoch, id, buf) := packet_id_read_epoch buf in
    (if epoch =? 0 then None
     else
       slot ← epoch_lookup_decrypt_key opt epoch;
       k ← get_key opt slot;
       if cipher_decrypt_verify_fail_exceeded k then None
       else Some (epoch, slot, mk_net (default 0 id) 0, iv), buf)
  else
    let iv := slice (b_offset buf) (packet_id_size false) (mem buf) in
    let '(ok, pin, buf) := packet_id_read buf false in
    (if ok then Some (0, KDecrypt, pin, iv) else None, buf).

(** The part after the IV has been read: authenticate, decrypt, check for replay. *)
Definition decrypt_body (now : Z) (buf work : buffer) (opt : crypto_options) (ad_start : Z)
    (epoch : Z) (slot : key_slot) (pin : packet_id_net) (explicit_iv : list Z)
  : option (bool * buffer * crypto_options) :=
  ctx ← get_key opt slot;
  '(name, key) ← kc_cipher ctx;
  let iv_len := cipher_kt_iv_size name in
  let iv := xor_iv (splice 0 explicit_iv (zeros iv_len)) (slice 0 iv_len (kc_implicit_iv ctx)) in
  let ad := slice ad_start (b_offset buf - ad_start) (mem buf) in
  '(buf, tag_ptr, data_len) ←
    (if co_epoch_format opt then
       let data_len := buf_len buf - OPENVPN_AEAD_TAG_LENGTH in
       Some (buf, b_offset buf + data_len, data_len)
     else
       '(ok, buf') ← Some (buf_advance buf OPENVPN_AEAD_TAG_LENGTH);
       ASSERT (ok : bool);; Some (buf', b_offset buf, buf_len buf'));
  if negb (buf_safe work (u64 (b_len buf + cipher_kt_block_size name)))
  then Some (false, buf_drop buf, opt)
  else
    match aead_open name key iv ad (slice (b_offset buf) data_len (mem buf))
            (slice tag_ptr OPENVPN_AEAD_TAG_LENGTH (mem buf)) with
    | None => Some (false, buf_drop buf, put_key opt slot (count_failure ctx))
    | Some plain =>
        '(ok, work) ← Some (buf_inc_len (poke work (b_offset work) plain) (zlen plain));
        ASSERT (ok : bool);;
        '(ok, opt) ← crypto_check_replay now opt pin epoch;
        if ok : bool then
          Some (true, work, set_decrypt opt (add_blocks (co_decrypt opt) (buf_len work)))
        else Some (false, buf_drop buf, opt)
    end.

Definition openvpn_decrypt_aead (now : Z) (buf work : buffer) (opt : crypto_options)
    (headroom ad_start : Z) : option (bool * buffer * crypto_options) :=
  let epoch_format := co_epoch_format opt in
  if negb epoch_format && cipher_decrypt_verify_fail_exceeded (co_decrypt opt)
  then Some (false, buf_drop buf, opt)
  else
    ASSERT (0 <? b_len buf);;
    ASSERT (bool_decide (is_Some (kc_cipher (co_decrypt opt))));;
    ASSERT ((0 <=? ad_start) && (ad_start <=? b_offset buf));;
    '(ok, work) ← Some (buf_init work headroom);
    ASSERT (ok : bool);;
    ASSERT (r_initialized (rec (co_packet_id opt)));;
    let min_packet_len := packet_id_size false + OPENVPN_AEAD_TAG_LENGTH + 1
                          + (if epoch_format then 4 else 0) in
    if b_len buf <? min_packet_len then Some (false, buf_drop buf, opt)
    else
      match read_iv buf opt with
      | (None, buf) => Some (false, buf_drop buf, opt)
      | (Some (epoch, slot, pin, iv), buf) => decrypt_body now buf work opt ad_start epoch slot pin iv
      end.
End data_channel.
