(* ===== verification/DataSafety.v ===== *)
(** * The data channel never delivers a packet twice and never reuses a nonce

    The receiving side is proved against the interface [ReplayFilter], so that the
    result holds for the sliding window and for the strict sequence alike. *)
From Stdlib Require Import Sorted.
From S2P Require Import Prelude Integers Buffer PacketId Replay EpochKeys EpochDerive EpochInv DataChannel.

(** The sender's position only moves forward: a higher epoch, or the same counter. *)
Definition tx_le (co co' : crypto_options) : Prop :=
  (kc_epoch (co_encrypt co) < kc_epoch (co_encrypt co') /\ s_id (send (co_packet_id co')) = 0) \/
  (kc_epoch (co_encrypt co) = kc_epoch (co_encrypt co') /\
   s_id (send (co_packet_id co)) = s_id (send (co_packet_id co'))).

Lemma tx_le_refl co : tx_le co co.
Proof. by right. Qed.

Lemma tx_le_same co co1 co2 :
  tx_le co co1 -> kc_epoch (co_encrypt co2) = kc_epoch (co_encrypt co1) ->
  send (co_packet_id co2) = send (co_packet_id co1) -> tx_le co co2.
Proof. intros [[? ?]|[? ?]] He Hs; rewrite <- Hs, <- He in *; [by left|by right]. Qed.

Section data.
Context `{CL : CryptoLib} `{!CryptoLaws}.
Context (kt : key_type) (s0 r0 : list Z) (n : Z).
Context (Hkt : aead_kt kt) (Hs0 : zlen s0 = 32) (Hr0 : zlen r0 = 32) (Hn : 0 < n <= 65533).
Context (RF : ReplayFilter check_replay move_recv r_initialized).

#[local] Abbreviation inv := (epoch_inv kt s0 r0 n).

(** ** Frame lemmas *)

Lemma inv_packet_id co p pp : inv co -> inv (set_packet_id co p pp).
Proof. intros []. split; assumption. Qed.

Lemma inv_retiring_pid co r : inv co -> inv (set_retiring co (co_retiring co) r).
Proof. intros []. split; assumption. Qed.

(** Two key contexts that differ in their usage counters only. *)
Definition same_key (k k' : key_ctx) : Prop :=
  kc_cipher k' = kc_cipher k /\ kc_implicit_iv k' = kc_implicit_iv k /\ kc_epoch k' = kc_epoch k.

Lemma is_key_same x e k k' : same_key k k' -> is_key kt x e k -> is_key kt x e k'.
Proof. intros (? & ? & ?) []. split; congruence. Qed.

Lemma inv_encrypt co k : inv co -> same_key (co_encrypt co) k -> inv (set_encrypt co k).
Proof.
  intros [] Hs. pose proof Hs as (_ & _ & He).
  split; cbn [co_encrypt set_encrypt]; rewrite ?He; try assumption. by eapply is_key_same.
Qed.

Lemma inv_decrypt co k : inv co -> same_key (co_decrypt co) k -> inv (set_decrypt co k).
Proof.
  intros [] Hs. pose proof Hs as (_ & _ & He).
  split; cbn [co_decrypt set_decrypt]; rewrite ?He; try assumption. by eapply is_key_same.
Qed.

Lemma inv_put_key co s k k' :
  inv co -> get_key co s = Some k -> same_key k k' -> inv (put_key co s k').
Proof.
  intros Hinv Hg Hs. destruct s as [| |i]; cbn [get_key put_key] in *.
  - injection Hg as <-. by apply inv_decrypt.
  - injection Hg as <-. destruct Hinv. pose proof Hs as (_ & _ & He). split; try assumption.
    cbn [co_retiring set_retiring]. rewrite He.
    destruct ei_retiring as [?|[? ?]]; [by left|right]. split; [done|]. by eapply is_key_same.
  - destruct (0 <=? i) eqn:Hi; [|done]. destruct Hinv. split; try assumption.
    + cbn [co_future set_recv]. by rewrite length_insert.
    + cbn [co_future set_recv]. intros j x [(<- & <- & _)|[_ Hx]]%list_lookup_insert_Some;
        [|by apply ei_future]. eapply is_key_same; [done|]. by apply ei_future.
Qed.

(** ** The receiver's invariant *)

(** The ids of the packets of epoch [e] among the delivered (epoch, id) pairs. *)
Definition ids_of (e : Z) (acc : list (Z * Z)) : list packet_id_net :=
  (fun p => mk_net p.2 0) <$> filter (fun p => p.1 = e) acc.

Lemma elem_ids_of e i acc : mk_net i 0 ∈ ids_of e acc <-> (e, i) ∈ acc.
Proof.
  unfold ids_of. rewrite list_elem_of_fmap. split.
  - intros ([e' i'] & [= ->] & [Heq Hin]%list_elem_of_filter). simpl in *. by subst.
  - intros Hin. exists (e, i). split; [done|]. by apply list_elem_of_filter.
Qed.

Lemma ids_of_cons e e' i acc :
  ids_of e ((e', i) :: acc) = if decide (e' = e) then mk_net i 0 :: ids_of e acc else ids_of e acc.
Proof. unfold ids_of. rewrite filter_cons. simpl. by case_decide. Qed.

Lemma ids_of_nil e acc : (forall p, p ∈ acc -> p.1 < e) -> ids_of e acc = [].
Proof.
  induction acc as [|[e' i] acc IH]; intros Hlt; [done|]. rewrite ids_of_cons.
  pose proof (Hlt (e', i) (list_elem_of_here _ _)). simpl in *.
  rewrite decide_False by lia. apply IH. intros p Hp. apply Hlt. by apply list_elem_of_further.
Qed.

(** [acc]: the (epoch, id) pairs of all packets delivered so far. *)
Record rx_inv (acc : list (Z * Z)) (co : crypto_options) : Prop := {
  rx_epoch : inv co;
  rx_format : co_epoch_format co = true;
  rx_current : rf_inv (ids_of (kc_epoch (co_decrypt co)) acc) (rec (co_packet_id co));
  rx_retiring : kc_epoch (co_retiring co) <> 0 ->
    rf_inv (ids_of (kc_epoch (co_retiring co)) acc) (co_retiring_pid co);
  rx_bound p : p ∈ acc -> p.1 <= kc_epoch (co_decrypt co)
}.

(** Steps that leave alone what the invariant speaks of, keys' counters apart. *)
Lemma rx_frame acc co co' :
  rx_inv acc co -> inv co' -> co_epoch_format co' = co_epoch_format co ->
  kc_epoch (co_decrypt co') = kc_epoch (co_decrypt co) ->
  kc_epoch (co_retiring co') = kc_epoch (co_retiring co) ->
  rec (co_packet_id co') = rec (co_packet_id co) -> co_retiring_pid co' = co_retiring_pid co ->
  rx_inv acc co'.
Proof. intros [] ? Hf Hd Hr Hp Hrp. split; rewrite ?Hf, ?Hd, ?Hr, ?Hp, ?Hrp; done. Qed.

Lemma rx_persist acc co : rx_inv acc co -> rx_inv acc (persist_accepted co).
Proof.
  intros Hrx. unfold persist_accepted. destruct (co_long_form co); [|done].
  apply (rx_frame acc co); try done. apply inv_packet_id, Hrx.
Qed.

Lemma rx_put_key acc co s k k' :
  rx_inv acc co -> get_key co s = Some k -> same_key k k' -> rx_inv acc (put_key co s k').
Proof.
  intros Hrx Hg Hs. pose proof Hs as (_ & _ & He).
  apply (rx_frame acc co); [done|eapply inv_put_key; [apply Hrx|done..]|..];
    destruct s; simpl in *; simplify_eq; done.
Qed.

Lemma tx_persist co co1 (ok : bool) :
  tx_le co co1 -> tx_le co (if ok then persist_accepted co1 else co1).
Proof. unfold persist_accepted. by destruct ok, (co_long_form co1). Qed.

Lemma tx_switched co co' e k rec' : switched kt s0 r0 n co co' e k rec' -> tx_le co co'.
Proof.
  intros []. destruct (kc_epoch (co_encrypt co) <? e) eqn:E; destruct sw_send as [He Hs].
  - left. rewrite He, Hs. cbn. lia.
  - right. by rewrite He, Hs.
Qed.

(** ** The replay check *)

Lemma check_current acc co now e i :
  rx_inv acc co -> arrival_ok now (mk_net i 0) -> e = kc_epoch (co_decrypt co) ->
  exists ok r, check_replay now (rec (co_packet_id co)) (mk_net i 0) = Some (ok, r) /\
    (ok = true -> (e, i) ∉ acc) /\ rx_inv (if ok then (e, i) :: acc else acc) (set_rec co r).
Proof.
  intros Hrx Harr ->. pose proof Hrx as [].
  destruct (rf_step _ _ now (mk_net i 0) rx_current0 Harr) as (ok & r & Hc & Hr).
  exists ok, r. split; [done|]. split.
  - intros ->. destruct Hr as [Hnew _]. by rewrite elem_ids_of in Hnew.
  - split; try done.
    + by apply inv_packet_id.
    + cbn. destruct ok; [|done]. rewrite ids_of_cons, decide_True by done. apply Hr.
    + cbn. intros Hne. destruct ok; [|by apply rx_retiring0]. rewrite ids_of_cons.
      destruct (ei_retiring _ _ _ _ _ rx_epoch0) as [?|[? _]]; [done|].
      rewrite decide_False by lia. by apply rx_retiring0.
    + cbn. intros p. destruct ok; [|apply rx_bound0]. intros [->|?]%elem_of_cons; [done|by apply rx_bound0].
Qed.

Lemma check_retiring acc co now e i :
  rx_inv acc co -> arrival_ok now (mk_net i 0) ->
  e = kc_epoch (co_retiring co) -> 1 <= e < kc_epoch (co_decrypt co) ->
  exists ok r, check_replay now (co_retiring_pid co) (mk_net i 0) = Some (ok, r) /\
    (ok = true -> (e, i) ∉ acc) /\
    rx_inv (if ok then (e, i) :: acc else acc) (set_retiring co (co_retiring co) r).
Proof.
  intros Hrx Harr -> He. pose proof Hrx as [].
  destruct (rf_step _ _ now (mk_net i 0) (rx_retiring0 ltac:(lia)) Harr) as (ok & r & Hc & Hr).
  exists ok, r. split; [done|]. split.
  - intros ->. destruct Hr as [Hnew _]. by rewrite elem_ids_of in Hnew.
  - split; try done.
    + by apply inv_retiring_pid.
    + cbn. destruct ok; [|done]. rewrite ids_of_cons, decide_False by lia. done.
    + cbn. intros _. destruct ok; [|done]. rewrite ids_of_cons, decide_True by done. apply Hr.
    + cbn. intros p. destruct ok; [|apply rx_bound0]. intros [->|?]%elem_of_cons; [simpl; lia|by apply rx_bound0].
Qed.

(** The switch to a new epoch starts an empty filter and retires the old one. *)
Lemma rx_switched acc co co' e k rec' :
  rx_inv acc co -> switched kt s0 r0 n co co' e k rec' -> is_key kt r0 e k ->
  kc_epoch (co_decrypt co) < e -> rf_inv [] rec' -> rx_inv acc co'.
Proof.
  intros [] [] Hk He Hrec'. destruct sw_flags as [Hf _].
  assert (Hd : kc_epoch (co_decrypt co') = e) by (rewrite sw_decrypt; apply Hk).
  split; try done.
  - by rewrite Hf.
  - rewrite Hd, sw_rec, ids_of_nil; [done|]. intros p Hp%rx_bound0. lia.
  - rewrite sw_retiring, sw_retiring_pid. done.
  - intros p Hp%rx_bound0. lia.
Qed.

Lemma crypto_check_replay_ok acc co now e s i :
  rx_inv acc co -> epoch_lookup_decrypt_key co e = Some s -> arrival_ok now (mk_net i 0) ->
  exists ok co', crypto_check_replay now co (mk_net i 0) e = Some (ok, co') /\
    (ok = true -> (e, i) ∉ acc) /\ rx_inv (if ok then (e, i) :: acc else acc) co' /\ tx_le co co'.
Proof.
  intros Hrx Hl Harr. pose proof (lookup_ok kt s0 r0 n Hn co e (rx_epoch _ _ Hrx)) as Hlk.
  rewrite Hl in Hlk. destruct Hlk as (_ & He & (k & Hg & Hk) & Hs).
  unfold crypto_check_replay. replace (e =? 0) with false by lia. cbn [orb].
  destruct s as [| |j].
  - replace (kc_epoch (co_decrypt co) =? e) with true by lia. cbv zeta.
    destruct (check_current acc co now e i Hrx Harr Hs) as (ok & r & -> & Hnew & Hrx').
    exists ok, (if ok then persist_accepted (set_rec co r) else set_rec co r).
    split; [done|]. split; [done|]. split; [destruct ok; [by apply rx_persist|done]|].
    apply tx_persist, (tx_le_same co co); [apply tx_le_refl|done..].
  - destruct Hs as [Hs Hlt]. replace (kc_epoch (co_decrypt co) =? e) with false by lia.
    replace (e =? kc_epoch (co_retiring co)) with true by lia. cbv zeta.
    destruct (check_retiring acc co now e i Hrx Harr Hs ltac:(lia)) as (ok & r & -> & Hnew & Hrx').
    exists ok, (if ok then persist_accepted (set_retiring co (co_retiring co) r) else set_retiring co (co_retiring co) r).
    split; [done|]. split; [done|]. split; [destruct ok; [by apply rx_persist|done]|].
    apply tx_persist, (tx_le_same co co); [apply tx_le_refl|done..].
  - destruct Hs as (Hj & Hjn & Hen). replace (kc_epoch (co_decrypt co) =? e) with false by lia.
    destruct (ei_retiring _ _ _ _ _ (rx_epoch _ _ Hrx)) as [Hr0'|[Hr0' _]];
      (replace (e =? kc_epoch (co_retiring co)) with false by lia).
    all: cbn [get_key] in Hg; replace (0 <=? j) with true in Hg by lia;
      destruct (rf_move _ _ (rx_current _ _ Hrx)) as (rec' & Hmv & Hrec');
      destruct (replace_recv_ok kt s0 r0 n Hkt Hs0 Hr0 Hn co (Z.to_nat j) k rec' (rx_epoch _ _ Hrx) Hg)
        as (co1 & Hrep & Hsw); [lia|done|];
      replace (kc_epoch (co_decrypt co) + 1 + Z.of_nat (Z.to_nat j)) with e in * by lia;
      rewrite Hrep, Some_bind; cbv zeta;
      pose proof (rx_switched acc co co1 e k rec' Hrx Hsw Hk ltac:(lia) Hrec') as Hrx1;
      assert (Hd1 : e = kc_epoch (co_decrypt co1))
        by (rewrite (sw_decrypt _ _ _ _ _ _ _ _ _ Hsw); symmetry; apply Hk);
      destruct (check_current acc co1 now e i Hrx1 Harr Hd1) as (ok & r & -> & Hnew & Hrx');
      exists ok, (if ok then persist_accepted (set_rec co1 r) else set_rec co1 r);
      (split; [done|]); (split; [done|]);
      (split; [destruct ok; [by apply rx_persist|done]|]);
      apply tx_persist, (tx_le_same co co1); [eapply tx_switched, Hsw|done..].
Qed.

(** ** Receiving packets *)

(** The epoch and the id that a packet claims. *)
Definition pkt_pair (pkt : buffer) : Z * Z :=
  let '(epoch, id, _) := packet_id_read_epoch pkt in (epoch, default 0 id).

Lemma read_epoch_rep pkt h c t :
  buf_rep pkt h c t -> 8 <= zlen c ->
  exists e i pkt', packet_id_read_epoch pkt = (e, Some i, pkt') /\ 0 <= i <= PACKET_ID_EPOCH_MAX /\
    buf_rep pkt' (h + 8) (drop 8 c) t.
Proof.
  intros Hb Hc. pose proof (rep_bounds _ _ _ _ Hb) as (_ & _ & _ & Hby).
  rewrite <- (take_drop 8 c) in Hb. assert (H8 : zlen (take 8 c) = 8) by (rewrite length_take; lia).
  apply read_rep in Hb as (b' & Hr & Hb'). rewrite H8 in *. unfold packet_id_read_epoch. rewrite Hr.
  eexists _, _, b'. split; [done|]. split; [|done].
  change PACKET_ID_MASK with (Z.ones 48). rewrite Z.land_ones by lia. unfold PACKET_ID_EPOCH_MAX.
  pose proof (Z.mod_pos_bound (be_val (take 8 c)) (2 ^ 48)). lia.
Qed.

(** Where a packet can go wrong before it is decrypted, nothing changes. *)
Definition rx_result (co : crypto_options) (acc : list (Z * Z)) (pair : Z * Z)
    (res : option (bool * buffer * crypto_options)) : Prop :=
  exists ok b co', res = Some (ok, b, co') /\
    (ok = true -> pair ∉ acc) /\ rx_inv (if ok then pair :: acc else acc) co' /\ tx_le co co'.

Lemma rx_result_drop acc pair co co' b :
  rx_inv acc co' -> tx_le co co' -> rx_result co acc pair (Some (false, b, co')).
Proof. intros. exists false, b, co'. done. Qed.

Lemma decrypt_body_ok acc co now e s i pkt h c t work wh wt ad iv :
  rx_inv acc co -> epoch_lookup_decrypt_key co e = Some s -> arrival_ok now (mk_net i 0) ->
  buf_rep pkt h c t -> OPENVPN_AEAD_TAG_LENGTH <= zlen c -> buf_rep work wh [] wt ->
  rx_result co acc (e, i) (decrypt_body now pkt work co ad e s (mk_net i 0) iv).
Proof.
  intros Hrx Hl Harr Hb Hc Hw.
  pose proof (lookup_ok kt s0 r0 n Hn co e (rx_epoch _ _ Hrx)) as Hlk. rewrite Hl in Hlk.
  destruct Hlk as (_ & He & (k & Hg & Hk) & _). unfold decrypt_body.
  rewrite Hg, Some_bind, (ik_cipher _ _ _ _ Hk), Some_bind. cbn [data_key_spec].
  rewrite (rx_format _ _ Hrx), Some_bind. cbv zeta.
  rewrite (buf_len_wf _ (rep_wf _ _ _ _ Hb)), (rep_len _ _ _ _ Hb).
  destruct (negb (buf_safe work _)) eqn:Hsafe; [by apply rx_result_drop; [|apply tx_le_refl]|].
  set (data := slice (b_offset pkt) _ _).
  assert (Hdata : zlen data = zlen c - OPENVPN_AEAD_TAG_LENGTH).
  { pose proof (rep_bounds _ _ _ _ Hb) as (? & ? & ? & _). unfold data, OPENVPN_AEAD_TAG_LENGTH in *.
    apply rep_unfold in Hb as (d & -> & Hd & _). cbn [b_offset mem b_data default id].
    apply length_slice; lia. }
  assert (Hroom : zlen c <= wt).
  { unfold buf_safe in Hsafe. pose proof (rep_tail _ _ _ _ Hw). pose proof (rep_bounds _ _ _ _ Hb).
    pose proof (block_size_ok (kt_cipher kt)). pose proof (rep_len _ _ _ _ Hw) as Hwl.
    change (zlen (@nil Z)) with 0 in Hwl. unfold BUF_SIZE_MAX in *.
    rewrite u64_small in Hsafe by (unfold is_u64; lia). lia. }
  destruct (aead_open _ _ _ _ data _) as [plain|] eqn:Ho.
  2:{ eexists false, _, _. split; [done|]. split; [done|]. split; [eapply rx_put_key; done|].
      apply (tx_le_same co co); [apply tx_le_refl|by destruct s..]. }
  assert (Hplain : zlen plain = zlen c - OPENVPN_AEAD_TAG_LENGTH).
  { rewrite <- Hdata. f_equal. by eapply open_length. }
  assert (Hpb : bytes plain).
  { eapply open_bytes; [|done]. apply Forall_slice. apply (wf_bytes _ (rep_wf _ _ _ _ Hb)). }
  destruct (inc_len_poke_rep work wh [] wt plain Hw Hpb) as (w' & Hinc & _);
    [unfold OPENVPN_AEAD_TAG_LENGTH in *; lia|].
  rewrite (rep_head _ _ _ _ Hw). change (zlen (@nil Z)) with 0 in Hinc. rewrite Z.add_0_r in Hinc.
  rewrite Hinc, Some_bind, ASSERT_true, Some_bind by done.
  destruct (crypto_check_replay_ok acc co now e s i Hrx Hl Harr) as (ok & co' & -> & Hnew & Hrx' & Htx).
  rewrite Some_bind. destruct ok; [|by apply rx_result_drop].
  eexists true, _, _. split; [done|]. split; [done|]. split; [|by apply (tx_le_same co co')].
  apply (rx_frame _ co'); try done. apply inv_decrypt; [apply Hrx'|done].
Qed.

Lemma decrypt_ok acc co now pkt h c t work wh wc wt headroom ad :
  rx_inv acc co -> SEQ_EXPIRED < now -> buf_rep pkt h c t -> 0 < zlen c -> 0 <= ad <= h ->
  buf_rep work wh wc wt -> 0 <= headroom <= b_capacity work ->
  rx_result co acc (pkt_pair pkt) (openvpn_decrypt_aead now pkt work co headroom ad).
Proof.
  intros Hrx Hnow Hb Hc Had Hw Hhr. pose proof (rx_epoch _ _ Hrx) as Hinv.
  unfold openvpn_decrypt_aead. rewrite (rx_format _ _ Hrx). cbn [negb andb].
  rewrite (rep_len _ _ _ _ Hb), (ASSERT_true (0 <? zlen c)), Some_bind by lia.
  rewrite (ik_cipher _ _ _ _ (ei_decrypt _ _ _ _ _ Hinv)).
  rewrite bool_decide_eq_true_2 by (by eexists). cbn [ASSERT]. rewrite Some_bind.
  rewrite (rep_head _ _ _ _ Hb), (ASSERT_true (_ && _)), Some_bind by lia.
  destruct (init_rep work wh wc wt headroom Hw) as (w' & -> & Hw');
    [rewrite <- (rep_cap _ _ _ _ Hw); lia|].
  rewrite Some_bind, (ASSERT_true true), Some_bind by done.
  rewrite ASSERT_true, Some_bind by (eapply rf_ready, (rx_current _ _ Hrx)). cbv zeta.
  destruct (zlen c <? _) eqn:Hmin; [by apply rx_result_drop; [|apply tx_le_refl]|].
  change (packet_id_size false + OPENVPN_AEAD_TAG_LENGTH + 1 + 4) with 25 in Hmin.
  destruct (read_epoch_rep pkt h c t Hb) as (e & i & pkt' & Hre & Hi & Hb'); [lia|].
  unfold read_iv, pkt_pair. rewrite (rx_format _ _ Hrx), Hre. cbn [default].
  destruct (e =? 0) eqn:He0; [by apply rx_result_drop; [|apply tx_le_refl]|].
  destruct (epoch_lookup_decrypt_key co e) as [s|] eqn:Hl; [|by apply rx_result_drop; [|apply tx_le_refl]].
  rewrite Some_bind. destruct (get_key co s) as [k|] eqn:Hg; [|by apply rx_result_drop; [|apply tx_le_refl]].
  rewrite Some_bind. destruct (cipher_decrypt_verify_fail_exceeded k); [by apply rx_result_drop; [|apply tx_le_refl]|].
  eapply decrypt_body_ok; try done.
  - split; [done|]. unfold PACKET_ID_EPOCH_MAX in Hi. unfold is_u64. simpl. lia.
  - rewrite length_drop. unfold OPENVPN_AEAD_TAG_LENGTH. lia.
Qed.

(** An arriving packet: the clock, the packet, the start of the additional data. *)
Record arrival := mk_arrival { a_now : Z; a_pkt : buffer; a_ad : Z }.

Definition arrival_wf (a : arrival) : Prop :=
  SEQ_EXPIRED < a_now a /\
  exists h c t, buf_rep (a_pkt a) h c t /\ 0 < zlen c /\ 0 <= a_ad a <= h.

(** A run of the receiver; the (epoch, id) pairs of the packets it delivers. *)
Fixpoint deliver (work : buffer) (headroom : Z) (arr : list arrival) (acc : list (Z * Z))
    (co : crypto_options) : option (list (Z * Z) * crypto_options) :=
  match arr with
  | [] => Some (acc, co)
  | a :: arr =>
      match openvpn_decrypt_aead (a_now a) (a_pkt a) work co headroom (a_ad a) with
      | None => None
      | Some (ok, _, co) => deliver work headroom arr (if ok then pkt_pair (a_pkt a) :: acc else acc) co
      end
  end.

Lemma deliver_ok work wh wc wt headroom arr acc co :
  buf_rep work wh wc wt -> 0 <= headroom <= b_capacity work -> Forall arrival_wf arr ->
  rx_inv acc co -> NoDup acc ->
  exists acc' co', deliver work headroom arr acc co = Some (acc', co') /\ rx_inv acc' co' /\ NoDup acc'.
Proof.
  intros Hw Hhr. revert acc co. induction arr as [|a arr IH]; intros acc co Harr Hrx Hnd.
  - by exists acc, co.
  - apply Forall_cons in Harr as [(Hnow & h & c & t & Hb & Hc & Had) Harr].
    destruct (decrypt_ok acc co (a_now a) (a_pkt a) h c t work wh wc wt headroom (a_ad a)
                Hrx Hnow Hb Hc Had Hw Hhr) as (ok & b & co' & Hd & Hnew & Hrx' & _).
    cbn [deliver]. rewrite Hd. apply IH; [done|done|]. destruct ok; [|done]. constructor; auto.
Qed.
End data.
