(* ===== verification/DataSend.v ===== *)
(** * What the data channel sends, and that the peer can read it

    The wire image of an encrypted packet, the order of the nonces, the round trip,
    and the run of both directions together. *)
From Stdlib Require Import Sorted.
From S2P Require Import Prelude Integers Buffer PacketId Replay EpochKeys EpochDerive EpochInv DataChannel DataSafety.

#[local] Opaque sec data_key_spec data_iv_spec.

Section send.
Context `{CL : CryptoLib} `{!CryptoLaws}.
Context (kt : key_type) (Hkt : aead_kt kt).

(** ** The wire image *)

Definition explicit_iv (e i : Z) : list Z := be_bytes 8 (e * 2 ^ 48 + i).

(** The nonce of packet [i] of epoch [e] of the chain [x]. *)
Definition nonce_iv (x : list Z) (e i : Z) : list Z :=
  let n := cipher_kt_iv_size (kt_cipher kt) in
  xor_iv (splice 0 (explicit_iv e i) (zeros n)) (slice 0 n (data_iv_spec kt (sec x e))).

Definition sealed (x : list Z) (e i : Z) (pre m : list Z) : list Z * list Z :=
  aead_seal (data_key_spec kt (sec x e)).1 (data_key_spec kt (sec x e)).2 (nonce_iv x e i)
    (pre ++ explicit_iv e i) m.

(** [pre] is the header that the caller has put into the work buffer. *)
Definition packet_spec (x : list Z) (e i : Z) (pre m : list Z) : list Z :=
  pre ++ explicit_iv e i ++ (sealed x e i pre m).1 ++ (sealed x e i pre m).2.

(** Writing the epoch id into the fresh [iv] buffer. *)
Lemma write_epoch_iv now p e iv_len :
  12 <= iv_len <= 16 -> is_u16 e -> 0 <= s_id p < PACKET_ID_EPOCH_MAX ->
  exists b0 p' b1, buf_set_write (Some (zeros iv_len)) iv_len = Some b0 /\
    packet_id_write_epoch now p e b0 = (true, p', b1) /\ s_id p' = s_id p + 1 /\
    content b1 = explicit_iv e (s_id p + 1) /\ mem b1 = splice 0 (explicit_iv e (s_id p + 1)) (zeros iv_len).
Proof.
  intros Hl He Hid. unfold buf_set_write, buf_size_valid.
  rewrite u64_small by (unfold is_u64; lia).
  rewrite ASSERT_true, Some_bind by (unfold BUF_SIZE_MAX; lia).
  replace (0 <? iv_len) with true by lia. cbn [fmap option_fmap option_map].
  assert (Hz : splice 0 [0] (zeros iv_len) = zeros iv_len).
  { rewrite splice_zeros by (cbn; lia). unfold zeros. change [0] with (replicate 1 0).
    rewrite <- replicate_add. f_equal. cbn [length replicate]. lia. }
  rewrite Hz. set (b0 := mk_buffer _ _ _ _).
  assert (Hb0 : buf_rep b0 0 [] iv_len).
  { apply rep_intro; try lia; try done; [unfold BUF_SIZE_MAX; lia|apply length_zeros; lia|].
    apply Forall_replicate. unfold is_u8. lia. }
  unfold packet_id_write_epoch, packet_id_send_update_epoch.
  set (p1 := if s_time p =? 0 then _ else p).
  assert (Hp1 : s_id p1 = s_id p) by (unfold p1; by destruct (s_time p =? 0)).
  rewrite Hp1. replace (s_id p =? PACKET_ID_EPOCH_MAX) with false by lia. cbn [s_id].
  unfold PACKET_ID_EPOCH_MAX, is_u16 in *.
  rewrite (u64_small (s_id p + 1)) by (unfold is_u64; lia).
  rewrite (u64_small (Z.shiftl e 48)) by (rewrite Z.shiftl_mul_pow2 by lia; unfold is_u64; lia).
  rewrite lor_shiftl_add by lia. fold (explicit_iv e (s_id p + 1)).
  destruct (write_rep _ _ _ _ (explicit_iv e (s_id p + 1)) Hb0) as (b1 & Hw & Hb1);
    [apply be_bytes_bytes|unfold explicit_iv; rewrite length_be_bytes; lia|].
  exists b0. rewrite Hw. eexists _, b1. split; [done|]. split; [done|]. split; [done|].
  split; [apply (rep_content _ _ _ _ Hb1)|].
  unfold buf_write in Hw. rewrite (write_alloc_rep _ _ _ _ _ Hb0) in Hw
    by (unfold explicit_iv; rewrite length_be_bytes; lia).
  by injection Hw as <-.
Qed.

(** ** Encryption *)

Section encrypt.
Context (s0 r0 : list Z) (n : Z) (Hs0 : zlen s0 = 32) (Hr0 : zlen r0 = 32) (Hn : 0 < n <= 65533).
#[local] Abbreviation inv := (epoch_inv kt s0 r0 n).

Definition send_ok (co : crypto_options) : Prop :=
  0 <= s_id (send (co_packet_id co)) <= PACKET_ID_EPOCH_MAX.

(** Nothing that the receiving side looks at has changed. *)
Record rx_same (co co' : crypto_options) : Prop := {
  rs_decrypt : co_decrypt co' = co_decrypt co;
  rs_retiring : co_retiring co' = co_retiring co;
  rs_retiring_pid : co_retiring_pid co' = co_retiring_pid co;
  rs_rec : rec (co_packet_id co') = rec (co_packet_id co);
  rs_format : co_epoch_format co' = co_epoch_format co
}.

(** The state the epoch check leaves is as good as the one it found. *)
Lemma check_send_frame co :
  inv co -> send_ok co ->
  exists co1, epoch_check_send_iterate co = Some co1 /\ inv co1 /\ send_ok co1 /\
    rx_same co co1 /\ tx_le co co1 /\
    (kc_epoch (co_encrypt co1) = UINT16_MAX \/ s_id (send (co_packet_id co1)) < PACKET_ID_EPOCH_MAX).
Proof.
  intros Hinv Hsend.
  destruct (check_send_ok kt s0 r0 n Hkt Hs0 co Hinv Hsend) as (co1 & Hc & Hinv1 & Hco1 & Hmax).
  exists co1. split; [done|]. split; [done|].
  destruct Hco1 as [->|[Hlt ->]]; [split; [done|]; split; [by split|split; [apply tx_le_refl|done]]|].
  split; [split; by vm_compute|]. split; [by split|]. split; [|done]. left. cbn. split; [lia|done].
Qed.

Lemma append_tag_ok w h c t tag :
  buf_rep w h c t -> bytes tag -> zlen tag = OPENVPN_AEAD_TAG_LENGTH -> OPENVPN_AEAD_TAG_LENGTH <= t ->
  exists w', append_tag w tag = Some w' /\ content w' = c ++ tag.
Proof.
  intros Hw Hb Hl Ht. destruct (write_rep _ _ _ _ tag Hw Hb) as (w' & Hwr & Hw'); [lia|].
  exists w'. split; [|apply (rep_content _ _ _ _ Hw')].
  unfold append_tag. unfold buf_write in Hwr. rewrite Hl in Hwr.
  destruct (buf_write_alloc w OPENVPN_AEAD_TAG_LENGTH) as [[q|] w1]; simplify_eq; done.
Qed.

(** The counter of the last epoch is used up: no packet leaves. *)
Lemma encrypt_exhausted now buf work co :
  inv co -> co_epoch_format co = true -> r_initialized (rec (co_packet_id co)) = true ->
  s_id (send (co_packet_id co)) = PACKET_ID_EPOCH_MAX ->
  exists p', encrypt_body now buf work co = Some (buf_drop buf, set_send co p') /\
    s_id p' = PACKET_ID_EPOCH_MAX.
Proof.
  intros Hinv Hf Hinit Hmax. unfold encrypt_body. rewrite Hf.
  rewrite (ik_cipher _ _ _ _ (ei_encrypt _ _ _ _ _ Hinv)), Some_bind.
  destruct (data_key_spec kt _) as [name key] eqn:Hdk.
  assert (name = kt_cipher kt) as -> by (change name with (name, key).1; by rewrite <- Hdk).
  rewrite Hinit. cbn [ASSERT]. rewrite Some_bind.
  pose proof (iv_size_ok _ (ak_mode _ Hkt)) as Hiv. rewrite ASSERT_true, Some_bind by lia.
  unfold OPENVPN_AEAD_MIN_IV_LEN, OPENVPN_MAX_IV_LENGTH in Hiv.
  unfold buf_set_write. rewrite (u64_small (cipher_kt_iv_size _)) by (unfold is_u64; lia).
  rewrite ASSERT_true, !Some_bind by (unfold buf_size_valid, BUF_SIZE_MAX; lia).
  unfold packet_id_write_epoch, packet_id_send_update_epoch.
  set (p1 := if s_time _ =? 0 then _ else _).
  assert (Hp1 : s_id p1 = PACKET_ID_EPOCH_MAX) by (unfold p1; by destruct (s_time _ =? 0)).
  rewrite Hp1, Z.eqb_refl. by exists p1.
Qed.

Lemma encrypt_fresh now buf work co bh m bt wh pre wt :
  let e := kc_epoch (co_encrypt co) in let i := s_id (send (co_packet_id co)) + 1 in
  inv co -> co_epoch_format co = true -> r_initialized (rec (co_packet_id co)) = true ->
  0 <= s_id (send (co_packet_id co)) < PACKET_ID_EPOCH_MAX ->
  buf_rep buf bh m bt -> buf_rep work wh pre wt ->
  zlen m + 24 + cipher_kt_block_size (kt_cipher kt) <= wt ->
  exists b' p' k', encrypt_body now buf work co = Some (b', set_encrypt (set_send co p') k') /\
    content b' = packet_spec s0 e i pre m /\ s_id p' = i /\ same_key (co_encrypt co) k'.
Proof.
  intros e i Hinv Hf Hinit Hid Hb Hw Hroom. unfold encrypt_body. rewrite Hf.
  pose proof (ei_encrypt _ _ _ _ _ Hinv) as Hk. fold e in Hk |- *.
  rewrite (ik_cipher _ _ _ _ Hk), Some_bind.
  destruct (data_key_spec kt (sec s0 e)) as [name key] eqn:Hdk.
  assert (name = kt_cipher kt) as -> by (change name with (name, key).1; by rewrite <- Hdk).
  rewrite Hinit. cbn [ASSERT]. rewrite Some_bind.
  pose proof (iv_size_ok _ (ak_mode _ Hkt)) as Hiv. rewrite ASSERT_true, Some_bind by lia.
  unfold OPENVPN_AEAD_MIN_IV_LEN, OPENVPN_MAX_IV_LENGTH in Hiv.
  pose proof (ei_send_epoch _ _ _ _ _ Hinv). pose proof (ei_epoch _ _ _ _ _ Hinv).
  destruct (write_epoch_iv now (send (co_packet_id co)) e (cipher_kt_iv_size (kt_cipher kt)))
    as (b0 & p' & b1 & -> & Hwr & Hp' & Hc1 & Hm1); [lia|unfold is_u16, UINT16_MAX, e in *; lia|done|].
  rewrite Some_bind, Hwr. cbn [negb]. rewrite Hc1, Hm1. fold i in Hp' |- *.
  pose proof (block_size_ok (kt_cipher kt)) as Hbs.
  destruct (write_rep _ _ _ _ (explicit_iv e i) Hw) as (w1 & -> & Hw1);
    [apply be_bytes_bytes|unfold explicit_iv; rewrite length_be_bytes; lia|].
  rewrite Some_bind, (ASSERT_true true), Some_bind by done. cbv zeta.
  change (zlen (explicit_iv e i)) with 8 in Hw1.
  assert (Hm : 0 <= zlen m < BUF_SIZE_MAX) by (pose proof (rep_bounds _ _ _ _ Hb); lia).
  unfold BUF_SIZE_MAX, OPENVPN_AEAD_TAG_LENGTH in *.
  rewrite (rep_len _ _ _ _ Hb), u64_small by (unfold is_u64; lia).
  rewrite (safe_rep _ _ _ _ _ Hw1) by lia. cbn [negb].
  rewrite (rep_content _ _ _ _ Hw1), (rep_content _ _ _ _ Hb), (ik_iv _ _ _ _ Hk).
  fold (nonce_iv s0 e i).
  assert (Hsl : aead_seal (kt_cipher kt) key (nonce_iv s0 e i) (pre ++ explicit_iv e i) m
                = sealed s0 e i pre m) by (unfold sealed; by rewrite Hdk).
  rewrite Hsl. pose proof (seal_length (kt_cipher kt) key (nonce_iv s0 e i) (pre ++ explicit_iv e i) m) as [Hl1 Hl2].
  pose proof (seal_bytes (kt_cipher kt) key (nonce_iv s0 e i) (pre ++ explicit_iv e i) m) as [Hb1 Hb2];
    [apply (rep_bounds _ _ _ _ Hb)|]. rewrite Hsl in Hl1, Hl2, Hb1, Hb2.
  destruct (sealed s0 e i pre m) as [ct tag] eqn:Hseal. cbn [fst snd] in *.
  rewrite (bend_rep _ _ _ _ Hw1), Some_bind.
  destruct (inc_len_poke_rep _ _ _ _ ct Hw1 Hb1) as (w2 & -> & Hw2); [lia|].
  rewrite Some_bind, (ASSERT_true true), Some_bind by done.
  destruct (append_tag_ok _ _ _ _ tag Hw2 Hb2) as (w3 & -> & Hw3);
    [done|unfold OPENVPN_AEAD_TAG_LENGTH; lia|].
  rewrite Some_bind. eexists w3, p', _. split; [done|]. split; [|split; [done|by split]].
  rewrite Hw3. unfold packet_spec. rewrite Hseal. cbn [fst snd]. by rewrite <- !app_assoc.
Qed.

Lemma encrypt_ok now buf work co bh m bt wh pre wt :
  inv co -> send_ok co -> co_epoch_format co = true -> r_initialized (rec (co_packet_id co)) = true ->
  buf_rep buf bh m bt -> buf_rep work wh pre wt ->
  zlen m + 24 + cipher_kt_block_size (kt_cipher kt) <= wt ->
  exists b' co', openvpn_encrypt_aead now buf work co = Some (b', co') /\
    inv co' /\ send_ok co' /\ rx_same co co' /\
    let e := kc_epoch (co_encrypt co) in let i := s_id (send (co_packet_id co)) in
    let e' := kc_epoch (co_encrypt co') in let i' := s_id (send (co_packet_id co')) in
    (b_len b' = 0 /\ tx_le co co' /\ e' = UINT16_MAX /\ i' = PACKET_ID_EPOCH_MAX) \/
    (content b' = packet_spec s0 e' i' pre m /\ (e < e' \/ (e = e' /\ i < i')) /\ 0 < i').
Proof.
  intros Hinv Hsend Hf Hinit Hb Hw Hroom. unfold openvpn_encrypt_aead. rewrite Hf.
  destruct (check_send_frame co Hinv Hsend) as (co1 & -> & Hinv1 & Hsend1 & Hs1 & Htx1 & Hmax).
  rewrite Some_bind. pose proof Hs1 as [_ _ _ Hrec1 Hf1]. rewrite Hf in Hf1. rewrite <- Hrec1 in Hinit.
  destruct (decide (s_id (send (co_packet_id co1)) = PACKET_ID_EPOCH_MAX)) as [Hfull|Hfull].
  - destruct (encrypt_exhausted now buf work co1 Hinv1 Hf1 Hinit Hfull) as (p' & -> & Hp').
    eexists _, _. split; [done|]. split; [by apply inv_packet_id|].
    split; [unfold send_ok; cbn; unfold PACKET_ID_EPOCH_MAX in *; lia|].
    split; [destruct Hs1; by split|]. left. split; [done|].
    split; [|split; [cbn; lia|done]]. destruct Htx1 as [[? ?]|[? ?]]; [|right; cbn; lia].
    unfold PACKET_ID_EPOCH_MAX in Hfull. lia.
  - destruct (encrypt_fresh now buf work co1 bh m bt wh pre wt Hinv1 Hf1 Hinit)
      as (b' & p' & k' & -> & Hc & Hp' & Hk'); [unfold send_ok in Hsend1; lia|done..|].
    eexists _, _. split; [done|].
    pose proof Hk' as (_ & _ & He'). unfold send_ok in Hsend1.
    split; [apply inv_encrypt; [by apply inv_packet_id|done]|].
    split; [unfold send_ok; cbn; lia|].
    split; [destruct Hs1; by split|]. right. cbn [co_encrypt set_encrypt co_packet_id send set_send].
    cbn. rewrite He', Hp'. split; [done|]. split; [|lia]. destruct Htx1 as [[? ?]|[? ?]]; lia.
Qed.
End encrypt.

(** ** The receiver can read it *)

Section roundtrip.
Context (s0 r0 : list Z) (n : Z) (Hs0 : zlen s0 = 32) (Hr0 : zlen r0 = 32) (Hn : 0 < n <= 65533).
#[local] Abbreviation inv := (epoch_inv kt s0 r0 n).

Lemma mem_advance b m b' : buf_advance b m = (true, b') -> mem b' = mem b.
Proof. unfold buf_advance. destruct (_ || _); [done|]. by intros [= <-]. Qed.

Lemma decrypt_body_seal now co e i s k pkt d pre m h t work wh wt :
  let P := packet_spec r0 e i pre m in
  inv co -> epoch_lookup_decrypt_key co e = Some s -> get_key co s = Some k ->
  co_epoch_format co = true ->
  mem pkt = d -> slice h (zlen P) d = P -> 0 <= h -> h + zlen P <= zlen d ->
  buf_rep pkt (h + zlen pre + 8) ((sealed r0 e i pre m).1 ++ (sealed r0 e i pre m).2) t ->
  buf_rep work wh [] wt -> zlen m + 16 + cipher_kt_block_size (kt_cipher kt) <= wt -> bytes m ->
  exists w', content w' = m /\
  decrypt_body now pkt work co h e s (mk_net i 0) (explicit_iv e i) =
    match crypto_check_replay now co (mk_net i 0) e with
    | None => None
    | Some (true, co') => Some (true, w', set_decrypt co' (add_blocks (co_decrypt co') (zlen m)))
    | Some (false, co') => Some (false, buf_drop pkt, co')
    end.
Proof.
  intros P Hinv Hl Hg Hf Hmem Hd Hh Hfit Hpkt Hw Hroom Hm.
  pose proof (lookup_ok kt s0 r0 n Hn co e Hinv) as Hlk. rewrite Hl in Hlk.
  destruct Hlk as (_ & He & (k' & Hg' & Hk) & _). rewrite Hg in Hg'. injection Hg' as <-.
  unfold decrypt_body. rewrite Hg, Some_bind, (ik_cipher _ _ _ _ Hk), Some_bind.
  destruct (data_key_spec kt (sec r0 e)) as [name key] eqn:Hdk.
  assert (name = kt_cipher kt) as -> by (change name with (name, key).1; by rewrite <- Hdk).
  rewrite Hf, Some_bind, (buf_len_wf _ (rep_wf _ _ _ _ Hpkt)), (rep_len _ _ _ _ Hpkt), (rep_head _ _ _ _ Hpkt).
  rewrite (ik_iv _ _ _ _ Hk). cbv zeta. fold (nonce_iv r0 e i).
  pose proof (seal_length (kt_cipher kt) key (nonce_iv r0 e i) (pre ++ explicit_iv e i) m) as [Hl1 Hl2].
  pose proof (open_seal (kt_cipher kt) key (nonce_iv r0 e i) (pre ++ explicit_iv e i) m) as Hopen.
  assert (Hsl : sealed r0 e i pre m = aead_seal (kt_cipher kt) key (nonce_iv r0 e i) (pre ++ explicit_iv e i) m)
    by (unfold sealed; by rewrite Hdk).
  rewrite <- Hsl in Hl1, Hl2, Hopen. unfold P, packet_spec in Hd, Hfit. 
  destruct (sealed r0 e i pre m) as [ct tag]. cbn [fst snd] in *.
  rewrite Hmem. rewrite (app_assoc pre) in Hd, Hfit.
  apply slice_app_inv in Hd as [Had Hd]; [|done|done].
  apply slice_app_inv in Hd as [Hct Htag];
    [|lia|rewrite length_app, Nat2Z.inj_add in Hfit; lia].
  assert (Hpl : zlen (pre ++ explicit_iv e i) = zlen pre + 8).
  { rewrite length_app. unfold explicit_iv. rewrite length_be_bytes. lia. }
  rewrite Hpl in Had, Hct, Htag. unfold OPENVPN_AEAD_TAG_LENGTH in *. rewrite length_app.
  replace (h + zlen pre + 8 - h) with (zlen pre + 8) by lia. rewrite Had.
  replace (Z.of_nat (length ct + length tag) - 16) with (zlen ct) by lia.
  replace (h + zlen pre + 8) with (h + (zlen pre + 8)) by lia. rewrite Hct.
  rewrite Hl2 in Htag. rewrite Htag, Hopen.
  pose proof (rep_bounds _ _ _ _ Hw) as (? & ? & ? & _). pose proof (block_size_ok (kt_cipher kt)).
  change (zlen (@nil Z)) with 0 in *. unfold BUF_SIZE_MAX in *.
  rewrite u64_small by (unfold is_u64; lia). rewrite (safe_rep _ _ _ _ _ Hw) by lia. cbn [negb].
  rewrite (rep_head _ _ _ _ Hw).
  destruct (inc_len_poke_rep work wh [] wt m Hw Hm) as (w' & Hinc & Hw'); [lia|].
  change (zlen (@nil Z)) with 0 in Hinc. rewrite Z.add_0_r in Hinc.
  rewrite Hinc, Some_bind, (ASSERT_true true), Some_bind by done.
  exists w'. split; [apply (rep_content _ _ _ _ Hw')|].
  destruct (crypto_check_replay now co (mk_net i 0) e) as [[[] co']|]; cbn [mbind option_bind]; [|done|done].
  by rewrite (buf_len_wf _ (rep_wf _ _ _ _ Hw')), (rep_len _ _ _ _ Hw').
Qed.

Lemma length_packet_spec x e i pre m : zlen (packet_spec x e i pre m) = zlen pre + 8 + zlen m + 16.
Proof.
  unfold packet_spec, sealed. rewrite !length_app.
  destruct (seal_length (data_key_spec kt (sec x e)).1 (data_key_spec kt (sec x e)).2
              (nonce_iv x e i) (pre ++ explicit_iv e i) m) as [Hl1 Hl2].
  rewrite Hl1. unfold explicit_iv, OPENVPN_AEAD_TAG_LENGTH in *. rewrite length_be_bytes. lia.
Qed.

Lemma decrypt_packet now co e i s k pkt0 pkt h pre m t work wh wc wt headroom :
  inv co -> co_epoch_format co = true -> r_initialized (rec (co_packet_id co)) = true ->
  epoch_lookup_decrypt_key co e = Some s -> get_key co s = Some k ->
  cipher_decrypt_verify_fail_exceeded k = false ->
  0 < i <= PACKET_ID_EPOCH_MAX -> e <= UINT16_MAX -> bytes m -> 0 < zlen m ->
  buf_rep pkt0 h (packet_spec r0 e i pre m) t -> buf_advance pkt0 (zlen pre) = (true, pkt) ->
  buf_rep work wh wc wt -> 0 <= headroom ->
  zlen m + 16 + cipher_kt_block_size (kt_cipher kt) <= b_capacity work - headroom ->
  exists w' b1, content w' = m /\
  openvpn_decrypt_aead now pkt work co headroom h =
    match crypto_check_replay now co (mk_net i 0) e with
    | None => None
    | Some (true, co') => Some (true, w', set_decrypt co' (add_blocks (co_decrypt co') (zlen m)))
    | Some (false, co') => Some (false, buf_drop b1, co')
    end.
Proof.
  intros Hinv Hf Hinit Hl Hg Hfail Hi He Hm Hm0 Hb0 Hadv Hw Hhr Hroom.
  pose proof (length_packet_spec r0 e i pre m) as HP. pose proof (rep_slice _ _ _ _ Hb0) as Hslice.
  pose proof (rep_bounds _ _ _ _ Hb0) as (Hh & Ht & _ & _).
  assert (Hfit : h + zlen (packet_spec r0 e i pre m) <= zlen (mem pkt0)).
  { rewrite (wf_mem _ (rep_wf _ _ _ _ Hb0)), (rep_cap _ _ _ _ Hb0). lia. }
  pose proof (lookup_ok kt s0 r0 n Hn co e Hinv) as Hlk. rewrite Hl in Hlk.
  destruct Hlk as (_ & He1 & _).
  pose proof Hb0 as Hb. unfold packet_spec in Hb.
  destruct (advance_rep _ _ _ _ _ Hb) as (pkt' & Hadv' & Hpkt). rewrite Hadv in Hadv'.
  injection Hadv' as <-. unfold openvpn_decrypt_aead. rewrite Hf. cbn [negb andb].
  rewrite (rep_len _ _ _ _ Hpkt), (rep_head _ _ _ _ Hpkt).
  assert (Hlen : zlen (explicit_iv e i ++ (sealed r0 e i pre m).1 ++ (sealed r0 e i pre m).2) = 8 + zlen m + 16).
  { unfold packet_spec in HP. rewrite length_app in HP. lia. }
  rewrite Hlen, (ASSERT_true (0 <? _)), Some_bind by lia.
  rewrite (ik_cipher _ _ _ _ (ei_decrypt _ _ _ _ _ Hinv)), bool_decide_eq_true_2 by (by eexists).
  cbn [ASSERT]. rewrite Some_bind, (ASSERT_true (_ && _)), Some_bind by lia.
  pose proof (block_size_ok (kt_cipher kt)).
  destruct (init_rep work wh wc wt headroom Hw) as (w1 & -> & Hw1);
    [rewrite <- (rep_cap _ _ _ _ Hw); lia|].
  rewrite <- (rep_cap _ _ _ _ Hw) in Hw1.
  rewrite Some_bind, (ASSERT_true true), Some_bind by done. rewrite Hinit. cbn [ASSERT].
  rewrite Some_bind. cbv zeta. change (packet_id_size false + OPENVPN_AEAD_TAG_LENGTH + 1 + 4) with 25.
  replace (8 + zlen m + 16 <? 25) with false by lia. unfold read_iv. rewrite Hf.
  destruct (read_epoch_pack _ _ _ _ _ _ Hpkt) as (pkt2 & Hre & Hpkt2);
    [unfold is_u16, UINT16_MAX in *; lia|lia|].
  assert (Hiv : slice (b_offset pkt) 8 (mem pkt) = explicit_iv e i).
  { rewrite (rep_head _ _ _ _ Hpkt). pose proof (rep_slice _ _ _ _ Hpkt) as Hs.
    apply slice_app_inv in Hs as [Hs _]; [exact Hs|lia|].
    rewrite Hlen, (mem_advance _ _ _ Hadv). lia. }
  rewrite Hiv, Hre. replace (e =? 0) with false by lia. rewrite Hl, Some_bind, Hg, Some_bind, Hfail.
  cbn [default].
  assert (Hmem2 : mem pkt2 = mem pkt0).
  { rewrite <- (mem_advance _ _ _ Hadv). unfold packet_id_read_epoch in Hre.
    destruct (buf_read pkt 8) as [[l|] b'] eqn:Hrd; simplify_eq.
    unfold buf_read, buf_read_alloc in Hrd. destruct (_ || _); [done|].
    destruct (buf_bptr pkt); simplify_eq. done. }
  destruct (decrypt_body_seal now co e i s k pkt2 (mem pkt0) pre m h t w1 headroom
              (b_capacity work - headroom) Hinv Hl Hg Hf Hmem2 Hslice Hh Hfit Hpkt2 Hw1)
    as (w' & Hc & Hd); [lia|done|].
  exists w', pkt2. done.
Qed.
End roundtrip.
End send.
