(* ===== verification/CryptoV1.v ===== *)
(** * Packets that are encrypted and authenticated one after the other: [crypto.c]

    [openvpn_encrypt_v1] and [openvpn_decrypt_v1]: the CBC, OFB and CFB modes of the data
    channel, and the authentication of control packets, which has no cipher.  The tag covers
    what follows it in the packet.

    What the library does with a cipher context between [cipher_ctx_reset] and
    [cipher_ctx_final] is a stream.  A buffer that is written in place - a packet id or a
    tag in front of its content - is given back with its new memory. *)
From S2P Require Import Prelude Integers Buffer PacketId EpochKeys DataChannel.

(** ** The library: message digests and the modes other than AEAD *)

Class ModeLib := {
  (** digest, key, message *)
  md_hmac : string -> list Z -> list Z -> list Z;
  cipher_kt_mode_cbc : string -> bool;
  cipher_kt_mode_ofb_cfb : string -> bool;
  cipher_stream : Type;
  (** to encrypt ([true]) or to decrypt: name, key, IV *)
  cipher_ctx_reset : bool -> string -> list Z -> list Z -> option cipher_stream;
  cipher_ctx_update : cipher_stream -> list Z -> option (list Z * cipher_stream);
  cipher_ctx_final : cipher_stream -> option (list Z)
}.

Section crypto_v1.
Context `{CryptoLib} `{ModeLib}.

(** [cipher_ctx_mode_aead] of a context: not without a cipher. *)
Definition cipher_ctx_mode_aead (ctx : key_ctx) : bool :=
  match kc_cipher ctx with Some (name, _) => cipher_kt_mode_aead name | None => false end.

Definition packet_id_initialized (p : packet_id) : bool := r_initialized (rec p).

(** [cipher_ctx_update] and [cipher_ctx_final] to encrypt the content of [buf] behind that of
    [work]: what comes out goes to its end, in two pieces. *)
Definition encrypt_into (name : string) (key iv : list Z) (buf work : buffer) : option buffer :=
  st ← cipher_ctx_reset true name key iv;
  bend ← buf_bend work;
  '(out, st) ← cipher_ctx_update st (content buf);
  '(ok, work) ← Some (buf_inc_len (poke work bend out) (zlen out));
  ASSERT (ok : bool);;
  bend ← buf_bend work;
  out ← cipher_ctx_final st;
  '(ok, work) ← Some (buf_inc_len (poke work bend out) (zlen out));
  ASSERT (ok : bool);;
  ASSERT (negb (cipher_kt_mode_cbc name) || (zlen out =? cipher_kt_iv_size name));;
  Some work.

(** The IV, and the packet id in it or in front of the payload.  [rnd]: what [prng_bytes]
    gives.  [None] in the result: the packet ids are used up. *)
Definition v1_iv (now : Z) (name : string) (buf : buffer) (opt : crypto_options) (rnd : list Z)
  : option (option (list Z) * buffer * crypto_options) :=
  let iv_size := cipher_kt_iv_size name in
  if cipher_kt_mode_cbc name then
    if packet_id_initialized (co_packet_id opt) then
      let '(ok, snd', buf) := packet_id_write now (send (co_packet_id opt)) buf (co_long_form opt) true in
      Some (if ok : bool then Some rnd else None, buf, set_send opt snd')
    else Some (Some rnd, buf, opt)
  else if cipher_kt_mode_ofb_cfb name then
    ASSERT (packet_id_initialized (co_packet_id opt));;
    b ← buf_set_write (Some (zeros iv_size)) iv_size;
    '(ok, snd', b) ← Some (packet_id_write now (send (co_packet_id opt)) b true false);
    ASSERT (ok : bool);;
    Some (Some (mem b), buf, set_send opt snd')
  else None.

(** [openvpn_encrypt_v1] with a cipher: [buf] goes to [work]. *)
Definition encrypt_cipher (now : Z) (name : string) (key : list Z) (buf work : buffer) (opt : crypto_options)
    (rnd : list Z) : option (option buffer * buffer * crypto_options) :=
  '(iv, buf, opt) ← v1_iv now name buf opt rnd;
  match iv with
  | None => Some (None, buf, opt)
  | Some iv =>
      '(ok, work) ← Some (buf_write work iv);
      ASSERT (ok : bool);;
      if negb (buf_safe work (b_len buf + cipher_kt_block_size name)) then Some (None, buf, opt)
      else work ← encrypt_into name key iv buf work; Some (Some work, buf, opt)
  end.

Definition openvpn_encrypt_v1 (now : Z) (buf work : buffer) (opt : crypto_options) (rnd : list Z)
  : option (buffer * crypto_options) :=
  if b_len buf <=? 0 then Some (buf, opt)
  else
    let ctx := co_encrypt opt in
    match kc_cipher ctx with
    | Some (name, key) =>
        '(mac_out, work) ← match kc_hmac ctx with
                           | Some (digest, _) =>
                               '(p, work) ← Some (buf_write_alloc work (md_kt_size digest));
                               p ← p; Some (p, work)
                           | None => Some (0, work)
                           end;
        hmac_start ← buf_bend work;
        '(res, buf, opt) ← encrypt_cipher now name key buf work opt rnd;
        match res with
        | None => Some (buf_drop buf, opt)
        | Some work =>
            bend ← buf_bend work;
            Some (match kc_hmac ctx with
                  | Some (digest, hkey) => poke work mac_out (md_hmac digest hkey (slice hmac_start (bend - hmac_start) (mem work)))
                  | None => work
                  end, opt)
        end
    | None =>
        '(ok, snd', buf) ← Some (if packet_id_initialized (co_packet_id opt)
                                 then packet_id_write now (send (co_packet_id opt)) buf (co_long_form opt) true
                                 else (true, send (co_packet_id opt), buf));
        let opt := set_send opt snd' in
        if negb (ok : bool) then Some (buf_drop buf, opt)
        else
          hmac_start ← buf_bptr buf;
          '(mac_out, buf) ← match kc_hmac ctx with
                            | Some (digest, _) => '(p, buf) ← Some (buf_prepend buf (md_kt_size digest)); p ← p; Some (p, buf)
                            | None => Some (0, buf)
                            end;
          let work' := if buf_len work =? 0 then buf else (buf_write_prepend buf (content work)).2 in
          bend ← buf_bend work';
          Some (match kc_hmac ctx with
                | Some (digest, hkey) => poke work' mac_out (md_hmac digest hkey (slice hmac_start (bend - hmac_start) (mem work')))
                | None => work'
                end, opt)
    end.

Definition openvpn_encrypt (now : Z) (buf work : buffer) (opt : crypto_options) (rnd : list Z)
  : option (buffer * crypto_options) :=
  if b_len buf <=? 0 then Some (buf, opt)
  else if cipher_ctx_mode_aead (co_encrypt opt) then openvpn_encrypt_aead now buf work opt
  else openvpn_encrypt_v1 now buf work opt rnd.

(** ** Decryption *)

(** The packet behind its tag, or nothing when it is not authentic. *)
Definition verify_hmac (ctx : key_ctx) (buf : buffer) : option (option buffer) :=
  match kc_hmac ctx with
  | None => Some (Some buf)
  | Some (digest, hkey) =>
      let hmac_len := md_kt_size digest in
      if b_len buf <? hmac_len then Some None
      else
        let p := b_offset buf in
        let local_hmac := md_hmac digest hkey (slice (p + hmac_len) (buf_len buf - hmac_len) (mem buf)) in
        if negb (bool_decide (slice 0 hmac_len local_hmac = slice p hmac_len (mem buf))) then Some None
        else
          '(ok, buf) ← Some (buf_advance buf hmac_len);
          ASSERT (ok : bool);; Some (Some buf)
  end.

(** The payload and the IV of a packet with a cipher, [None] when it is dropped; and what is
    left of [buf]. *)
Definition decrypt_cipher (name : string) (key : list Z) (buf work : buffer) (headroom : Z)
  : option (option (buffer * list Z) * buffer) :=
  let iv_size := cipher_kt_iv_size name in
  '(ok, work) ← Some (buf_init work headroom);
  ASSERT (ok : bool);;
  if b_len buf <? iv_size then Some (None, buf)
  else
    let iv := slice (b_offset buf) iv_size (mem buf) in
    '(ok, buf) ← Some (buf_advance buf iv_size);
    ASSERT (ok : bool);;
    if b_len buf <? 1 then Some (None, buf)
    else
      match cipher_ctx_reset false name key iv with
      | None => Some (None, buf)
      | Some st =>
          if negb (buf_safe work (b_len buf + cipher_kt_block_size name)) then Some (None, buf)
          else
            match cipher_ctx_update st (content buf) with
            | None => Some (None, buf)
            | Some (out, st) =>
                '(ok, work) ← Some (buf_inc_len (poke work (b_offset work) out) (zlen out));
                ASSERT (ok : bool);;
                match cipher_ctx_final st with
                | None => Some (None, buf)
                | Some out' =>
                    '(ok, work) ← Some (buf_inc_len (poke work (b_offset work + zlen out) out') (zlen out'));
                    ASSERT (ok : bool);; Some (Some (work, iv), buf)
                end
            end
      end.

(** The packet id: in front of the payload, in the IV, or not at all. *)
Definition v1_pin (ctx : key_ctx) (ignore_packet_id : bool) (opt : crypto_options) (work : buffer) (iv : list Z)
  : option (option (option packet_id_net * buffer)) :=
  let initialized := packet_id_initialized (co_packet_id opt) in
  match kc_cipher ctx with
  | Some (name, _) =>
      if cipher_kt_mode_cbc name then
        if initialized then
          let '(ok, pin, work) := packet_id_read work (co_long_form opt) in
          Some (if ok : bool then Some (Some pin, work) else None)
        else Some (Some (None, work))
      else if cipher_kt_mode_ofb_cfb name then
        ASSERT initialized;;
        b ← buf_set_read (Some iv) (cipher_kt_iv_size name);
        let '(ok, pin, _) := packet_id_read b true in
        Some (if ok : bool then Some (Some pin, work) else None)
      else None
  | None =>
      if initialized then
        let '(ok, pin, work) := packet_id_read work (co_long_form opt) in
        Some (if ok : bool then Some (if ignore_packet_id then None else Some pin, work) else None)
      else Some (Some (None, work))
  end.

(** [ignore_packet_id]: the flag [CO_IGNORE_PACKET_ID]; [headroom] is that of the frame, which
    may be absent ([NULL]) when there is no cipher. *)
Definition openvpn_decrypt_v1 (now : Z) (buf work : buffer) (opt : crypto_options) (ignore_packet_id : bool)
    (headroom : option Z) : option (bool * buffer * crypto_options) :=
  if b_len buf <=? 0 then Some (true, buf, opt)
  else
    let ctx := co_decrypt opt in
    verified ← verify_hmac ctx buf;
    match verified with
    | None => Some (false, buf_drop buf, opt)
    | Some buf =>
        '(plain, buf) ← match kc_cipher ctx with
                        | Some (name, key) => headroom ← headroom; decrypt_cipher name key buf work headroom
                        | None => Some (Some (buf, []), buf)
                        end;
        match plain with
        | None => Some (false, buf_drop buf, opt)
        | Some (work, iv) =>
            pin ← v1_pin ctx ignore_packet_id opt work iv;
            match pin with
            | None => Some (false, buf_drop buf, opt)
            | Some (None, work) => Some (true, work, opt)
            | Some (Some pin, work) =>
                '(ok, opt) ← crypto_check_replay now opt pin 0;
                Some (ok : bool, if ok then work else buf_drop buf, opt)
            end
        end
    end.

Definition openvpn_decrypt (now : Z) (buf work : buffer) (opt : crypto_options) (ignore_packet_id : bool)
    (headroom : option Z) (ad_start : Z) : option (bool * buffer * crypto_options) :=
  if b_len buf <=? 0 then Some (true, buf, opt)
  else if cipher_ctx_mode_aead (co_decrypt opt)
       then headroom ← headroom; openvpn_decrypt_aead now buf work opt headroom ad_start
  else openvpn_decrypt_v1 now buf work opt ignore_packet_id headroom.
End crypto_v1.
