(* ===== verification/CryptoModes.v ===== *)
(** * Packets under CBC, OFB and CFB, and packets that are only authenticated

    What the library documents of ciphers and digests, the packets that [openvpn_encrypt_v1]
    makes, and what [openvpn_decrypt_v1] makes of packets, authentic or not. *)
From S2P Require Import Prelude Integers Buffer PacketId Replay EpochKeys DataChannel CryptoV1.

(** ** The laws of the library *)

Section stream.
Context `{ModeLib}.

(** Several updates, one after the other. *)
Fixpoint stream_run (st : cipher_stream) (texts : list (list Z)) : option (list Z * cipher_stream) :=
  match texts with
  | [] => Some ([], st)
  | x :: texts =>
      '(out, st) ← cipher_ctx_update st x;
      '(out', st) ← stream_run st texts;
      Some (out ++ out', st)
  end.

(** The whole life of a stream. *)
Definition stream_out (encrypt : bool) (name : string) (key iv : list Z) (texts : list (list Z))
  : option (list Z * list Z) :=
  st ← cipher_ctx_reset encrypt name key iv;
  '(out, st) ← stream_run st texts;
  fin ← cipher_ctx_final st;
  Some (out, fin).
End stream.

(** Encryption succeeds; it gives no byte before it has been given one, and at most one
    block more than it is given - in CBC mode a last block of its own.  Decryption undoes it,
    and gives no more than it is given. *)
Class ModeLaws `{CryptoLib} `{ModeLib} := {
  mac_length d k m : zlen (md_hmac d k m) = md_kt_size d;
  mac_bytes d k m : bytes (md_hmac d k m);
  md_size_ok d : 0 <= md_kt_size d <= MAX_HMAC_KEY_LENGTH;
  legacy_iv_size c : cipher_kt_mode_cbc c = true \/ cipher_kt_mode_ofb_cfb c = true ->
    8 <= cipher_kt_iv_size c <= OPENVPN_MAX_IV_LENGTH;
  encrypt_some c k iv texts : zlen iv = cipher_kt_iv_size c -> is_Some (stream_out true c k iv texts);
  encrypt_length c k iv texts out fin : Forall bytes texts -> stream_out true c k iv texts = Some (out, fin) ->
    zlen out <= zlen (concat texts) /\ zlen out + zlen fin <= zlen (concat texts) + cipher_kt_block_size c /\
    zlen fin = (if cipher_kt_mode_cbc c then cipher_kt_iv_size c else 0) /\ bytes out /\ bytes fin;
  encrypt_not_empty c k iv texts out fin : concat texts <> [] -> stream_out true c k iv texts = Some (out, fin) -> out ++ fin <> [];
  decrypt_update_length c k iv st x out st' : bytes x -> cipher_ctx_reset false c k iv = Some st ->
    cipher_ctx_update st x = Some (out, st') -> zlen out <= zlen x /\ bytes out;
  decrypt_length c k iv x out fin : bytes x -> stream_out false c k iv [x] = Some (out, fin) ->
    zlen out + zlen fin <= zlen x /\ bytes fin;
  decrypt_encrypt c k iv texts out fin : stream_out true c k iv texts = Some (out, fin) ->
    exists out' fin', stream_out false c k iv [out ++ fin] = Some (out', fin') /\ out' ++ fin' = concat texts
}.

(** ** Writing inside of the content *)

Lemma poke_rep b h x old y t src :
  buf_rep b h (x ++ old ++ y) t -> zlen src = zlen old -> bytes src ->
  buf_rep (poke b (h + zlen x) src) h (x ++ src ++ y) t.
Proof.
  intros Hb Hl Hs. pose proof (rep_bounds _ _ _ _ Hb) as (Hh & Ht & Hcap & Hby).
  apply rep_unfold in Hb as (d & -> & Hd & Hbd & Hc). unfold poke. cbn [b_capacity b_offset b_len b_data fmap option_fmap option_map].
  rewrite !length_app in *. rewrite !Nat2Z.inj_add in *.
  assert (Hx : slice h (zlen x) d = x /\ slice (h + zlen x) (zlen old + zlen y) d = old ++ y).
  { pose proof (slice_app_inv h x (old ++ y) d) as Hi. rewrite !length_app, !Nat2Z.inj_add in Hi. apply Hi; lia || done. }
  destruct Hx as [Hx Hoy].
  assert (Hy : slice (h + zlen x + zlen old) (zlen y) d = y).
  { pose proof (slice_app_inv (h + zlen x) old y d) as Hi. rewrite !length_app, !Nat2Z.inj_add in Hi. apply Hi; lia || done. }
  apply rep_intro; try lia.
  - rewrite length_splice; lia.
  - apply Forall_splice; [done|done].
  - rewrite !length_app. lia.
  - rewrite (slice_split h (zlen x)), (slice_split (h + zlen x) (zlen old)) by lia. rewrite <- Hl.
    rewrite slice_splice_before, slice_splice_eq, slice_splice_after by lia. by rewrite Hx, Hl, Hy.
Qed.

(** A part of the content. *)
Lemma rep_part b h x y z t : buf_rep b h (x ++ y ++ z) t -> slice (h + zlen x) (zlen y) (mem b) = y.
Proof.
  intros Hb. pose proof (rep_bounds _ _ _ _ Hb) as (Hh & Ht & _). apply rep_unfold in Hb as (d & -> & Hd & _ & Hc).
  unfold mem. cbn [b_data default]. rewrite !length_app, !Nat2Z.inj_add in *.
  pose proof (slice_app_inv h x (y ++ z) d) as H1. rewrite !length_app, !Nat2Z.inj_add in H1. destruct H1 as [_ H1]; [lia|lia|done|].
  pose proof (slice_app_inv (h + zlen x) y z d) as H2. rewrite !length_app, !Nat2Z.inj_add in H2. apply H2; [lia|lia|done].
Qed.

Lemma rep_rest b h x y t : buf_rep b h (x ++ y) t -> slice (h + zlen x) (zlen y) (mem b) = y.
Proof. intros Hb. apply (rep_part b h x y [] t). by rewrite app_nil_r. Qed.

Lemma bptr_rep b h c t : buf_rep b h c t -> buf_bptr b = Some h.
Proof. intros Hb. unfold buf_bptr. by rewrite (rep_valid _ _ _ _ Hb), (rep_head _ _ _ _ Hb). Qed.

(** Room that is taken without being written holds some bytes. *)
Lemma prepend_old b h c t n :
  buf_rep b h c t -> 0 <= n <= h ->
  exists b' old, buf_prepend b n = (Some (h - n), b') /\ zlen old = n /\ buf_rep b' (h - n) (old ++ c) t.
Proof.
  intros Hb Hn. rewrite (prepend_rep _ _ _ _ _ Hb) by done. pose proof (rep_bounds _ _ _ _ Hb) as (? & ? & ? & _).
  apply rep_unfold in Hb as (d & -> & Hd & Hbd & Hc). cbn [b_data].
  eexists _, (slice (h - n) n d). split; [done|]. assert (zlen (slice (h - n) n d) = n) by (apply length_slice; lia).
  split; [done|]. apply rep_intro; try lia; try done.
  - rewrite length_app. lia.
  - replace (zlen c + n) with (n + zlen c) by lia. rewrite slice_split by lia. f_equal. by replace (h - n + n) with h by lia.
Qed.

Lemma write_alloc_old b h c t n :
  buf_rep b h c t -> 0 <= n <= t ->
  exists b' old, buf_write_alloc b n = (Some (h + zlen c), b') /\ zlen old = n /\ buf_rep b' h (c ++ old) (t - n).
Proof.
  intros Hb Hn. rewrite (write_alloc_rep _ _ _ _ _ Hb) by done. pose proof (rep_bounds _ _ _ _ Hb) as (? & ? & ? & _).
  apply rep_unfold in Hb as (d & -> & Hd & Hbd & Hc). cbn [b_data].
  eexists _, (slice (h + zlen c) n d). split; [done|]. assert (zlen (slice (h + zlen c) n d) = n) by (apply length_slice; lia).
  split; [done|]. apply rep_intro; try lia; try done.
  - rewrite length_app. lia.
  - rewrite slice_split by lia. by f_equal.
Qed.

Section modes.
Context `{CL : CryptoLib} `{ML : ModeLib} `{Mok : !ModeLaws}.

(** ** What is sent *)

(** The tag in front of the body. *)
Definition tagged (ctx : key_ctx) (body : list Z) : list Z :=
  match kc_hmac ctx with Some (digest, hkey) => md_hmac digest hkey body ++ body | None => body end.

Definition tag_size (ctx : key_ctx) : Z := match kc_hmac ctx with Some (digest, _) => md_kt_size digest | None => 0 end.

Lemma length_tagged ctx body : zlen (tagged ctx body) = tag_size ctx + zlen body.
Proof. unfold tagged, tag_size. destruct (kc_hmac ctx) as [[d k]|]; [|lia]. rewrite length_app, Nat2Z.inj_add, mac_length. done. Qed.

Lemma tagged_bytes ctx body : bytes body -> bytes (tagged ctx body).
Proof. intros. unfold tagged. destruct (kc_hmac ctx) as [[d k]|]; [|done]. apply Forall_app. split; [apply mac_bytes|done]. Qed.

(** The cipher of a context is none, or in one of the modes of this file. *)
Definition legacy (ctx : key_ctx) : Prop :=
  match kc_cipher ctx with
  | Some (name, _) => cipher_kt_mode_aead name = false /\ (cipher_kt_mode_cbc name = true \/ cipher_kt_mode_ofb_cfb name = true)
  | None => True
  end.

(** The id is in the IV. *)
Definition id_in_iv (ctx : key_ctx) : bool :=
  match kc_cipher ctx with Some (name, _) => negb (cipher_kt_mode_cbc name) | None => false end.

Definition id_form (ctx : key_ctx) (opt : crypto_options) : bool := id_in_iv ctx || co_long_form opt.

(** The packet id in front of the payload. *)
Definition id_field (ctx : key_ctx) (opt : crypto_options) (pin : packet_id_net) : list Z :=
  if packet_id_initialized (co_packet_id opt) && negb (id_in_iv ctx) then pid_bytes (co_long_form opt) pin else [].

Definition v1_iv_bytes (name : string) (pin : packet_id_net) (rnd : list Z) : list Z :=
  if cipher_kt_mode_cbc name then rnd else splice 0 (pid_bytes true pin) (zeros (cipher_kt_iv_size name)).

(** What the tag covers. *)
Definition v1_body (ctx : key_ctx) (opt : crypto_options) (pin : packet_id_net) (rnd m body : list Z) : Prop :=
  match kc_cipher ctx with
  | None => body = id_field ctx opt pin ++ m
  | Some (name, key) =>
      exists out fin, stream_out true name key (v1_iv_bytes name pin rnd) [id_field ctx opt pin ++ m] = Some (out, fin) /\
        body = v1_iv_bytes name pin rnd ++ out ++ fin
  end.

(** The id that the counter gives, and the counter that is left. *)
Definition next_id (now : Z) (ctx : key_ctx) (opt : crypto_options) (p' : packet_id_send) : Prop :=
  if packet_id_initialized (co_packet_id opt)
  then packet_id_send_update now (send (co_packet_id opt)) (id_form ctx opt) = (true, p')
  else p' = send (co_packet_id opt).

(** The room that a packet takes. *)
Definition v1_overhead (ctx : key_ctx) : Z :=
  match kc_cipher ctx with
  | Some (name, _) => tag_size ctx + cipher_kt_iv_size name + 8 + cipher_kt_block_size name
  | None => 0
  end.

Lemma set_send_same opt : set_send opt (send (co_packet_id opt)) = opt.
Proof. by destruct opt as [? ? ? ? ? ? ? ? ? ? [] ? ? ?]. Qed.

(** ** Encryption *)

Lemma stream_out_one encrypt name key iv x out fin :
  stream_out encrypt name key iv [x] = Some (out, fin) ->
  exists st st', cipher_ctx_reset encrypt name key iv = Some st /\ cipher_ctx_update st x = Some (out, st') /\
    cipher_ctx_final st' = Some fin.
Proof.
  unfold stream_out. cbn [stream_run].
  destruct (cipher_ctx_reset encrypt name key iv) as [st|] eqn:E1; [|done]. cbn [mbind option_bind].
  destruct (cipher_ctx_update st x) as [[o st']|] eqn:E2; [|done]. cbn [mbind option_bind].
  destruct (cipher_ctx_final st') as [f|] eqn:E3; [|done]. cbn [mbind option_bind]. rewrite app_nil_r.
  intros [= <- <-]. by exists st, st'.
Qed.

Lemma encrypt_into_ok name key iv buf h m t work wh pre wt out fin :
  buf_rep buf h m t -> buf_rep work wh pre wt -> stream_out true name key iv [m] = Some (out, fin) ->
  zlen m + cipher_kt_block_size name <= wt ->
  exists work', encrypt_into name key iv buf work = Some work' /\
    buf_rep work' wh (pre ++ out ++ fin) (wt - zlen (out ++ fin)).
Proof.
  intros Hb Hw Hs Ht. pose proof (rep_bounds _ _ _ _ Hb) as (_ & _ & _ & Hm).
  destruct (encrypt_length name key iv [m] out fin) as (Hl1 & Hl2 & Hfin & Ho & Hf); [by repeat constructor|done|].
  cbn [concat] in *. rewrite app_nil_r in *.
  destruct (stream_out_one _ _ _ _ _ _ _ Hs) as (st & st' & E1 & E2 & E3).
  unfold encrypt_into. rewrite E1, Some_bind, (bend_rep _ _ _ _ Hw), Some_bind, (rep_content _ _ _ _ Hb), E2, Some_bind.
  assert (zlen out <= wt) by (pose proof (Nat2Z.is_nonneg (length fin)); lia).
  destruct (inc_len_poke_rep _ _ _ _ _ Hw Ho) as (w1 & -> & Hw1); [done|].
  rewrite Some_bind, ASSERT_true, Some_bind, (bend_rep _ _ _ _ Hw1), Some_bind, E3, Some_bind by done.
  destruct (inc_len_poke_rep _ _ _ _ _ Hw1 Hf) as (w2 & -> & Hw2); [lia|].
  rewrite Some_bind, (ASSERT_true true), Some_bind by done. rewrite ASSERT_true, Some_bind.
  - exists w2. split; [done|]. eapply rep_eq; [done|done|by rewrite app_assoc|]. rewrite length_app. lia.
  - destruct (cipher_kt_mode_cbc name); [|done]. cbn [negb orb]. lia.
Qed.

(** Two copies, one behind the other. *)
Lemma splice_app (x y d : list Z) :
  zlen x + zlen y <= zlen d -> splice (zlen x) y (splice 0 x d) = splice 0 (x ++ y) d.
Proof.
  intros Hl. assert (Hx : zlen (splice 0 x d) = zlen d) by (rewrite length_splice; lia).
  apply list_eq. intros i. rewrite !lookup_splice by (rewrite ?length_app; lia). rewrite length_app.
  destruct (decide (zlen x <= Z.of_nat i < zlen x + zlen y)) as [?|?].
  - rewrite decide_True by lia. rewrite lookup_app_r by lia. f_equal. lia.
  - destruct (decide (0 <= Z.of_nat i < 0 + zlen x)) as [?|?].
    + rewrite decide_True by lia. rewrite lookup_app_l by lia. done.
    + rewrite decide_False by lia. done.
Qed.

Lemma iv_write_ok now p n p' :
  8 <= n <= OPENVPN_MAX_IV_LENGTH -> packet_id_send_update now p true = (true, p') ->
  exists b0 b1, buf_set_write (Some (zeros n)) n = Some b0 /\ packet_id_write now p b0 true false = (true, p', b1) /\
    mem b1 = splice 0 (pid_bytes true (sent_pin p')) (zeros n).
Proof.
  intros Hn Hu. unfold OPENVPN_MAX_IV_LENGTH in *.
  assert (Hz : zlen (zeros n) = n) by (unfold zeros; rewrite length_replicate; lia).
  unfold buf_set_write, buf_size_valid. rewrite u64_small by (unfold is_u64; lia).
  rewrite ASSERT_true, Some_bind by (unfold BUF_SIZE_MAX; lia).
  replace (0 <? n) with true by lia. cbn [fmap option_fmap option_map].
  assert (Hz0 : splice 0 [0] (zeros n) = zeros n).
  { unfold zeros. replace (Z.to_nat n) with (S (Z.to_nat n - 1)) by lia. reflexivity. }
  rewrite Hz0. eexists. eexists. split; [done|]. unfold packet_id_write. rewrite Hu.
  unfold buf_write, buf_write_alloc, buf_safe, buf_bptr, buf_valid, buf_defined, buf_size_valid, BUF_SIZE_MAX, poke.
  rewrite !length_be_bytes. cbn [b_data b_len b_offset b_capacity].
  replace (bool_decide (is_Some (Some (zeros n))) && (0 <=? 0)) with true by done.
  replace (true && (Z.of_nat 4 <? 1000000) && (0 + 0 + Z.of_nat 4 <=? n)) with true by lia. cbn [negb fmap option_fmap option_map b_data b_len b_offset b_capacity].
  replace (bool_decide (is_Some (Some (splice (0 + 0) (be_bytes 4 (s_id p')) (zeros n)))) && (0 <=? 0 + Z.of_nat 4)) with true by done.
  replace (true && (Z.of_nat 4 <? 1000000) && (0 + (0 + Z.of_nat 4) + Z.of_nat 4 <=? n)) with true by lia.
  cbn [negb fmap option_fmap option_map b_data b_len b_offset b_capacity]. split; [done|].
  unfold mem. cbn [b_data default]. unfold pid_bytes, sent_pin. cbn [n_id n_time].
  rewrite <- splice_app by (rewrite !length_be_bytes; lia). rewrite length_be_bytes. done.
Qed.

Lemma v1_iv_ok now ctx opt name key buf h m t rnd p' :
  buf_rep buf h m t -> kc_cipher ctx = Some (name, key) -> legacy ctx -> next_id now ctx opt p' ->
  (id_in_iv ctx = true -> packet_id_initialized (co_packet_id opt) = true) ->
  zlen rnd = cipher_kt_iv_size name -> bytes rnd -> 8 <= h ->
  let iv := v1_iv_bytes name (sent_pin p') rnd in
  exists buf' h', v1_iv now name buf opt rnd = Some (Some iv, buf', set_send opt p') /\
    buf_rep buf' h' (id_field ctx opt (sent_pin p') ++ m) t /\ zlen iv = cipher_kt_iv_size name /\ bytes iv.
Proof.
  intros Hb Ek Hl Hn Hiv Hrnd Hrb Hh iv. unfold legacy in Hl. rewrite Ek in Hl. destruct Hl as [_ Hmode].
  pose proof (legacy_iv_size name Hmode) as Hsz.
  unfold v1_iv, iv, v1_iv_bytes, id_field, next_id, id_form, id_in_iv in *. rewrite Ek in *.
  destruct (cipher_kt_mode_cbc name); cbn [negb orb andb] in *.
  - rewrite andb_true_r. destruct (packet_id_initialized _).
    + destruct (packet_id_write_prepend now _ _ _ _ _ _ _ Hb Hn) as (b' & -> & Hb'); [unfold packet_id_size; case_match; lia|].
      by eexists _, _.
    + rewrite Hn, set_send_same. by eexists _, _.
  - destruct Hmode as [?|Hmode]; [done|]. rewrite Hmode, (Hiv eq_refl) in *. rewrite ASSERT_true, Some_bind by done.
    destruct (iv_write_ok now (send (co_packet_id opt)) (cipher_kt_iv_size name) p' Hsz Hn) as (b0 & b1 & -> & E & Hm).
    rewrite Some_bind, E, Some_bind, ASSERT_true, Some_bind, Hm by done.
    eexists _, _. split; [done|]. split; [done|]. unfold zeros. split.
    + rewrite length_splice; [rewrite length_replicate; lia|lia|]. rewrite length_pid_bytes, length_replicate. unfold packet_id_size. lia.
    + apply Forall_splice; [|apply pid_bytes_bytes]. apply Forall_replicate. unfold is_u8. lia.
Qed.

(** The tag of a body that has been written: [old] is where it goes. *)
Lemma tag_ok ctx b h pre old body t digest hkey p start bend :
  kc_hmac ctx = Some (digest, hkey) -> zlen old = md_kt_size digest -> buf_rep b h (pre ++ old ++ body) t ->
  p = h + zlen pre -> start = p + zlen old -> bend = start + zlen body ->
  buf_rep (poke b p (md_hmac digest hkey (slice start (bend - start) (mem b)))) h (pre ++ tagged ctx body) t.
Proof.
  intros Eh Hold Hb -> -> ->. replace (_ - _) with (zlen body) by lia.
  pose proof (rep_rest b h (pre ++ old) body t) as Hr. rewrite <- app_assoc, length_app, Nat2Z.inj_add, Z.add_assoc in Hr.
  rewrite (Hr Hb). unfold tagged. rewrite Eh. apply poke_rep with old; [done|by rewrite mac_length|apply mac_bytes].
Qed.

Lemma work_prefix_ok work pre b h c t :
  content work = pre -> buf_len work = zlen pre -> bytes pre -> buf_rep b h c t -> zlen pre <= h ->
  let b' := if buf_len work =? 0 then b else (buf_write_prepend b (content work)).2 in
  buf_rep b' (h - zlen pre) (pre ++ c) t.
Proof.
  intros Hc Hl Hp Hb Hh. rewrite Hl, Hc. destruct (zlen pre =? 0) eqn:E0.
  - destruct pre; [|cbn in E0; lia]. cbn. by rewrite Z.sub_0_r.
  - destruct (write_prepend_rep _ _ _ _ pre Hb Hp Hh) as (b' & -> & Hb'). done.
Qed.

(** Authentication only: the packet stays where it is. *)
Lemma encrypt_auth_ok now buf h m t work pre opt rnd p' :
  let ctx := co_encrypt opt in
  buf_rep buf h m t -> m <> [] -> kc_cipher ctx = None -> next_id now ctx opt p' ->
  content work = pre -> buf_len work = zlen pre -> bytes pre -> zlen pre + tag_size ctx + 8 <= h ->
  exists out h', openvpn_encrypt_v1 now buf work opt rnd = Some (out, set_send opt p') /\
    buf_rep out h' (pre ++ tagged ctx (id_field ctx opt (sent_pin p') ++ m)) t /\
    h' = h - zlen pre - tag_size ctx - zlen (id_field ctx opt (sent_pin p')).
Proof.
  intros ctx Hb Hm Ek Hn Hwc Hwl Hpre Hh. unfold openvpn_encrypt_v1. rewrite (rep_len _ _ _ _ Hb).
  destruct (zlen m <=? 0) eqn:E0; [destruct m; cbn in E0; [done|lia]|]. fold ctx. rewrite Ek.
  assert (Hid : exists b1 h1, (if packet_id_initialized (co_packet_id opt)
            then packet_id_write now (send (co_packet_id opt)) buf (co_long_form opt) true
            else (true, send (co_packet_id opt), buf)) = (true, p', b1) /\
            h1 = h - zlen (id_field ctx opt (sent_pin p')) /\ 0 <= h - h1 <= 8 /\
            buf_rep b1 h1 (id_field ctx opt (sent_pin p') ++ m) t).
  { unfold next_id, id_form, id_field, id_in_iv in *. rewrite Ek in *. cbn [orb negb] in *. rewrite andb_true_r.
    destruct (packet_id_initialized _).
    - destruct (packet_id_write_prepend now _ _ _ _ _ _ _ Hb Hn) as (b' & -> & Hb').
      + unfold tag_size in Hh. pose proof (Nat2Z.is_nonneg (length pre)). unfold packet_id_size. destruct (kc_hmac ctx) as [[d k]|]; [pose proof (md_size_ok d)|]; case_match; lia.
      + exists b', (h - packet_id_size (co_long_form opt)). rewrite length_pid_bytes. split_and!; [done|lia|..|done]; unfold packet_id_size; case_match; lia.
    - rewrite <- Hn. exists buf, h. cbn [app length]. split_and!; [done|lia..|done]. }
  destruct Hid as (b1 & h1 & -> & Eh1 & Hh1 & Hb1). rewrite Some_bind. cbn [negb].
  rewrite (bptr_rep _ _ _ _ Hb1), Some_bind.
  set (body := id_field ctx opt (sent_pin p') ++ m) in *. unfold tag_size in *.
  destruct (kc_hmac ctx) as [[digest hkey]|] eqn:Eh.
  - pose proof (md_size_ok digest) as [Hsz _].
    destruct (prepend_old _ _ _ _ (md_kt_size digest) Hb1) as (b2 & old & E2 & Hold & Hb2); [lia|].
    rewrite E2, !Some_bind.
    pose proof (work_prefix_ok work pre b2 _ _ _ Hwc Hwl Hpre Hb2) as Hw. set (work' := if buf_len work =? 0 then _ else _) in *.
    cbn zeta in Hw. specialize (Hw ltac:(lia)). rewrite (bend_rep _ _ _ _ Hw), Some_bind.
    eexists _, (h1 - md_kt_size digest - zlen pre). split; [done|]. split; [|lia].
    apply tag_ok with old; [done|done|done|lia|lia|rewrite !length_app; lia].
  - rewrite Some_bind. pose proof (work_prefix_ok work pre b1 _ _ _ Hwc Hwl Hpre Hb1) as Hw. set (work' := if buf_len work =? 0 then _ else _) in *.
    cbn zeta in Hw. specialize (Hw ltac:(lia)). rewrite (bend_rep _ _ _ _ Hw), Some_bind.
    eexists _, (h1 - zlen pre). split; [done|]. unfold tagged. rewrite Eh. split; [done|lia].
Qed.

(** With a cipher: the packet is put together behind what is in [work]. *)
Lemma encrypt_legacy_ok now buf h m t work wh pre wt opt rnd p' name key :
  let ctx := co_encrypt opt in
  buf_rep buf h m t -> m <> [] -> kc_cipher ctx = Some (name, key) -> legacy ctx -> next_id now ctx opt p' ->
  (id_in_iv ctx = true -> packet_id_initialized (co_packet_id opt) = true) ->
  zlen rnd = cipher_kt_iv_size name -> bytes rnd -> 8 <= h ->
  buf_rep work wh pre wt -> zlen m + v1_overhead ctx <= wt ->
  exists out body, openvpn_encrypt_v1 now buf work opt rnd = Some (out, set_send opt p') /\
    v1_body ctx opt (sent_pin p') rnd m body /\ buf_rep out wh (pre ++ tagged ctx body) (wt - tag_size ctx - zlen body).
Proof.
  intros ctx Hb Hm Ek Hl Hn Hiv Hrnd Hrb Hh Hw Hroom. unfold openvpn_encrypt_v1. rewrite (rep_len _ _ _ _ Hb).
  destruct (zlen m <=? 0) eqn:E0; [destruct m; cbn in E0; [done|lia]|]. fold ctx. rewrite Ek.
  pose proof Hl as Hmode. unfold legacy in Hmode. rewrite Ek in Hmode. destruct Hmode as [_ Hmode].
  pose proof (legacy_iv_size name Hmode) as Hsz. unfold v1_overhead in Hroom. rewrite Ek in Hroom.
  destruct (v1_iv_ok now ctx opt name key buf h m t rnd p' Hb Ek Hl Hn Hiv Hrnd Hrb Hh) as (b1 & h1 & E1 & Hb1 & Hivl & Hivb).
  set (iv := v1_iv_bytes name (sent_pin p') rnd) in *. set (x := id_field ctx opt (sent_pin p') ++ m) in *.
  assert (Hx : zlen x <= zlen m + 8).
  { unfold x, id_field. rewrite length_app, Nat2Z.inj_add. case_match; [rewrite length_pid_bytes; unfold packet_id_size; case_match; lia|cbn; lia]. }
  assert (Hxb : bytes x) by apply (rep_bounds _ _ _ _ Hb1).
  destruct (encrypt_some name key iv [x] Hivl) as [[out fin] Hs].
  destruct (encrypt_length name key iv [x] out fin) as (Hl1 & Hl2 & _ & Ho & Hf); [by repeat constructor|done|].
  cbn [concat] in Hl1, Hl2. rewrite app_nil_r in Hl1, Hl2.
  assert (Hcipher : forall w pre' t', buf_rep w wh pre' t' -> wt - tag_size ctx <= t' ->
            exists w', encrypt_cipher now name key buf w opt rnd = Some (Some w', b1, set_send opt p') /\
              buf_rep w' wh (pre' ++ iv ++ out ++ fin) (t' - zlen (iv ++ out ++ fin))).
  { intros w pre' t' Hw' Ht'. unfold encrypt_cipher. rewrite E1, Some_bind.
    destruct (write_rep _ _ _ _ iv Hw' Hivb) as (w1 & -> & Hw1); [lia|]. rewrite Some_bind, ASSERT_true, Some_bind by done.
    rewrite (rep_len _ _ _ _ Hb1), (safe_rep _ _ _ _ _ Hw1) by lia. cbn [negb].
    destruct (encrypt_into_ok name key iv b1 h1 x t w1 wh (pre' ++ iv) (t' - zlen iv) out fin Hb1 Hw1 Hs) as (w2 & -> & Hw2); [lia|].
    rewrite Some_bind. exists w2. split; [done|]. eapply rep_eq; [done|done|by rewrite <- app_assoc|]. rewrite !length_app. lia. }
  assert (Hbody : v1_body ctx opt (sent_pin p') rnd m (iv ++ out ++ fin)).
  { unfold v1_body. rewrite Ek. by exists out, fin. }
  destruct (kc_hmac ctx) as [[digest hkey]|] eqn:Eh.
  - assert (Et : tag_size ctx = md_kt_size digest) by (unfold tag_size; by rewrite Eh). pose proof (md_size_ok digest) as [? _].
    destruct (write_alloc_old _ _ _ _ (md_kt_size digest) Hw) as (w1 & old & -> & Hold & Hw1); [lia|]. rewrite !Some_bind.
    rewrite (bend_rep _ _ _ _ Hw1), Some_bind. destruct (Hcipher _ _ _ Hw1) as (w2 & -> & Hw2); [lia|]. rewrite Some_bind.
    rewrite (bend_rep _ _ _ _ Hw2), Some_bind. eexists _, _. split; [done|]. split; [done|].
    rewrite <- (app_assoc pre) in Hw2. rewrite Et.
    apply tag_ok with old; [done|done|exact Hw2|lia|rewrite length_app; lia|rewrite !length_app; lia].
  - rewrite Some_bind, (bend_rep _ _ _ _ Hw), Some_bind.
    destruct (Hcipher _ _ _ Hw) as (w2 & -> & Hw2); [unfold tag_size; rewrite Eh; lia|]. rewrite Some_bind, (bend_rep _ _ _ _ Hw2), Some_bind.
    eexists _, _. split; [done|]. split; [done|]. unfold tagged, tag_size. rewrite Eh. eapply rep_eq; [done|done|done|lia].
Qed.

(** ** Decryption *)

Lemma tagged_inj ctx a b : tagged ctx a = tagged ctx b -> a = b.
Proof.
  unfold tagged. destruct (kc_hmac ctx) as [[d k]|]; [|done]. intros E. apply app_inj_1 in E as [_ E]; [done|].
  apply Nat2Z.inj. by rewrite !mac_length.
Qed.

(** A packet is taken exactly when it begins with the tag of its rest. *)
Lemma verify_hmac_ok ctx buf h c t :
  buf_rep buf h c t ->
  (exists body b', c = tagged ctx body /\ verify_hmac ctx buf = Some (Some b') /\ buf_rep b' (h + tag_size ctx) body t) \/
  ((forall body, c <> tagged ctx body) /\ verify_hmac ctx buf = Some None).
Proof.
  intros Hb. unfold verify_hmac, tagged, tag_size. destruct (kc_hmac ctx) as [[digest hkey]|].
  2: { left. exists c, buf. rewrite Z.add_0_r. done. }
  pose proof (md_size_ok digest) as [Hsz _]. rewrite (rep_len _ _ _ _ Hb), (rep_head _ _ _ _ Hb).
  rewrite (buf_len_wf _ (rep_wf _ _ _ _ Hb)), (rep_len _ _ _ _ Hb).
  destruct (zlen c <? md_kt_size digest) eqn:E0.
  { right. split; [|done]. intros body ->. rewrite length_app, Nat2Z.inj_add, mac_length in E0. lia. }
  set (n := Z.to_nat (md_kt_size digest)). assert (Hn : zlen (take n c) = md_kt_size digest) by (rewrite length_take; lia).
  pose proof Hb as Hb2. rewrite <- (take_drop n c) in Hb2.
  pose proof (rep_part buf h [] (take n c) (drop n c) t Hb2) as Hp. cbn [app length] in Hp. rewrite Z.add_0_r, Hn in Hp. rewrite Hp.
  pose proof (rep_rest buf h (take n c) (drop n c) t Hb2) as Hr. rewrite Hn, length_drop in Hr.
  replace (zlen c - md_kt_size digest) with (Z.of_nat (length c - n)) by lia. rewrite Hr.
  assert (Hs : forall m, slice 0 (md_kt_size digest) (md_hmac digest hkey m) = md_hmac digest hkey m).
  { intros m. rewrite <- (mac_length digest hkey m). apply slice_all. }
  rewrite Hs. case_bool_decide as Ht; cbn [negb].
  - left. destruct (advance_rep _ _ _ _ _ Hb2) as (b' & E & Hb'). rewrite Hn in E, Hb'. rewrite E.
    exists (drop n c), b'. rewrite Some_bind, ASSERT_true, Some_bind by done. split; [|done]. rewrite Ht. by rewrite take_drop.
  - right. split; [|done]. intros body ->. apply Ht. assert (Hln : length (md_hmac digest hkey body) = n).
    { unfold n. by rewrite <- (mac_length digest hkey body), Nat2Z.id. }
    by rewrite drop_app_length', take_app_length'.
Qed.

(** What is behind a tag, if it is the right one. *)
Definition strip_tag (ctx : key_ctx) (c : list Z) : option (list Z) :=
  match kc_hmac ctx with
  | None => Some c
  | Some (digest, hkey) =>
      let n := Z.to_nat (md_kt_size digest) in
      if bool_decide (take n c = md_hmac digest hkey (drop n c)) then Some (drop n c) else None
  end.

Lemma strip_tag_ok ctx c body : strip_tag ctx c = Some body <-> c = tagged ctx body.
Proof.
  unfold strip_tag, tagged. destruct (kc_hmac ctx) as [[digest hkey]|]; [|naive_solver].
  assert (Hn : forall m, length (md_hmac digest hkey m) = Z.to_nat (md_kt_size digest)) by (intros m; pose proof (mac_length digest hkey m); lia).
  split.
  - case_bool_decide as E; [|done]. intros [= <-]. by rewrite <- E, take_drop.
  - intros ->. rewrite take_app_length', drop_app_length' by (by rewrite Hn). by rewrite bool_decide_true.
Qed.

(** The IV and the plaintext of a body. *)
Definition v1_plain (ctx : key_ctx) (body : list Z) : option (list Z * list Z) :=
  match kc_cipher ctx with
  | None => Some ([], body)
  | Some (name, key) =>
      let n := Z.to_nat (cipher_kt_iv_size name) in
      if zlen body <=? cipher_kt_iv_size name then None
      else '(out, fin) ← stream_out false name key (take n body) [drop n body]; Some (take n body, out ++ fin)
  end.

Definition parse_pin (long_form : bool) (l : list Z) : packet_id_net :=
  mk_net (be_val (take 4 l)) (if long_form then be_val (take 4 (drop 4 l)) else 0).

(** The packet id, if the packet has one that counts, and the payload. *)
Definition v1_id (ctx : key_ctx) (opt : crypto_options) (ignore_packet_id : bool) (iv plain : list Z)
  : option (option packet_id_net * list Z) :=
  if id_in_iv ctx then Some (Some (parse_pin true iv), plain)
  else if packet_id_initialized (co_packet_id opt) then
    let n := packet_id_size (co_long_form opt) in
    if zlen plain <? n then None
    else Some (if ignore_packet_id && negb (bool_decide (is_Some (kc_cipher ctx))) then None
               else Some (parse_pin (co_long_form opt) plain), drop (Z.to_nat n) plain)
  else Some (None, plain).

(** What a packet says, [None] when it is not authentic or malformed. *)
Definition v1_open (opt : crypto_options) (ignore_packet_id : bool) (c : list Z) : option (option packet_id_net * list Z) :=
  body ← strip_tag (co_decrypt opt) c;
  '(iv, plain) ← v1_plain (co_decrypt opt) body;
  v1_id (co_decrypt opt) opt ignore_packet_id iv plain.

Lemma read_pin_ok b h c t long_form :
  buf_rep b h c t ->
  if zlen c <? packet_id_size long_form then (packet_id_read b long_form).1.1 = false
  else exists b', packet_id_read b long_form = (true, parse_pin long_form c, b') /\
         buf_rep b' (h + packet_id_size long_form) (drop (Z.to_nat (packet_id_size long_form)) c) t.
Proof.
  intros Hb. unfold packet_id_read, parse_pin, packet_id_size.
  destruct (zlen c <? 4) eqn:E0.
  { replace (zlen c <? 4 + (if long_form then 4 else 0)) with true by (destruct long_form; lia).
    by rewrite (read_short _ _ _ _ 4 Hb) by lia. }
  pose proof Hb as Hb1. rewrite <- (take_drop 4 c) in Hb1. apply read_rep in Hb1 as (b1 & E1 & Hb1).
  assert (Hl : zlen (take 4 c) = 4) by (rewrite length_take; lia). rewrite Hl in E1, Hb1. rewrite E1.
  destruct long_form.
  - destruct (zlen c <? 4 + 4) eqn:E2.
    { rewrite (read_short _ _ _ _ 4 Hb1) by (rewrite length_drop; lia). done. }
    rewrite <- (take_drop 4 (drop 4 c)) in Hb1. apply read_rep in Hb1 as (b2 & E3 & Hb2).
    assert (Hl2 : zlen (take 4 (drop 4 c)) = 4) by (rewrite length_take, length_drop; lia). rewrite Hl2 in E3, Hb2. rewrite E3.
    exists b2. split; [done|]. rewrite drop_drop in Hb2. eapply rep_eq; [done|lia|done|done].
  - replace (zlen c <? 4 + 0) with false by lia. exists b1. split; [done|]. by rewrite Z.add_0_r.
Qed.

Lemma stream_out_two encrypt name key iv x st st' out :
  cipher_ctx_reset encrypt name key iv = Some st -> cipher_ctx_update st x = Some (out, st') ->
  stream_out encrypt name key iv [x] = fin ← cipher_ctx_final st'; Some (out, fin).
Proof. intros E1 E2. unfold stream_out. rewrite E1. cbn [stream_run mbind option_bind]. rewrite E2. cbn [mbind option_bind]. by rewrite app_nil_r. Qed.

Lemma decrypt_cipher_ok ctx name key buf h c t work wh wc wt headroom :
  kc_cipher ctx = Some (name, key) -> legacy ctx -> buf_rep buf h c t -> buf_rep work wh wc wt ->
  0 <= headroom -> headroom + zlen c + cipher_kt_block_size name <= wh + zlen wc + wt -> 0 <= cipher_kt_block_size name ->
  exists res buf', decrypt_cipher name key buf work headroom = Some (res, buf') /\
    match v1_plain ctx c with
    | Some (iv, plain) => exists work' wt', res = Some (work', iv) /\ buf_rep work' headroom plain wt'
    | None => res = None
    end.
Proof.
  intros Ek Hl Hb Hw Hh Hroom Hbs. unfold legacy in Hl. rewrite Ek in Hl. destruct Hl as [_ Hmode].
  pose proof (legacy_iv_size name Hmode) as Hsz. unfold decrypt_cipher, v1_plain. rewrite Ek.
  pose proof (Nat2Z.is_nonneg (length c)).
  destruct (init_rep _ _ _ _ headroom Hw) as (w1 & -> & Hw1); [lia|]. rewrite Some_bind, ASSERT_true, Some_bind by done.
  rewrite (rep_len _ _ _ _ Hb), (rep_head _ _ _ _ Hb).
  destruct (zlen c <? cipher_kt_iv_size name) eqn:E0.
  { eexists _, _. split; [done|]. by replace (zlen c <=? cipher_kt_iv_size name) with true by lia. }
  set (n := Z.to_nat (cipher_kt_iv_size name)) in *. assert (Hn : zlen (take n c) = cipher_kt_iv_size name) by (rewrite length_take; lia).
  pose proof Hb as Hb2. rewrite <- (take_drop n c) in Hb2.
  pose proof (rep_part buf h [] (take n c) (drop n c) t Hb2) as Hp. cbn [app length] in Hp. rewrite Z.add_0_r, Hn in Hp. rewrite Hp.
  destruct (advance_rep _ _ _ _ _ Hb2) as (b' & E & Hb'). rewrite Hn in E, Hb'. rewrite E, Some_bind, ASSERT_true, Some_bind by done.
  rewrite (rep_len _ _ _ _ Hb'). assert (Hdl : zlen (drop n c) = zlen c - cipher_kt_iv_size name) by (rewrite length_drop; lia).
  destruct (zlen (drop n c) <? 1) eqn:E1.
  { eexists _, _. split; [done|]. by replace (zlen c <=? cipher_kt_iv_size name) with true by lia. }
  replace (zlen c <=? cipher_kt_iv_size name) with false by lia.
  destruct (cipher_ctx_reset false name key (take n c)) as [st|] eqn:E2.
  2: { unfold stream_out. rewrite E2. cbn [mbind option_bind]. by eexists _, _. }
  rewrite (safe_rep _ _ _ _ _ Hw1) by lia. cbn [negb]. rewrite (rep_content _ _ _ _ Hb').
  pose proof (rep_bounds _ _ _ _ Hb') as (_ & _ & _ & Hby).
  destruct (cipher_ctx_update st (drop n c)) as [[out st']|] eqn:E3.
  2: { unfold stream_out. rewrite E2. cbn [stream_run mbind option_bind]. rewrite E3. by eexists _, _. }
  destruct (decrypt_update_length _ _ _ _ _ _ _ Hby E2 E3) as [Hol Hob].
  rewrite (stream_out_two _ _ _ _ _ _ _ _ E2 E3).
  pose proof (inc_len_poke_rep _ _ _ _ out Hw1 Hob) as (w2 & Ei & Hw2); [lia|]. cbn [length] in Ei. rewrite Z.add_0_r in Ei.
  rewrite (rep_head _ _ _ _ Hw1), Ei, Some_bind, ASSERT_true, Some_bind by done.
  destruct (cipher_ctx_final st') as [fin|] eqn:E4; [|cbn [mbind option_bind]; by eexists _, _].
  destruct (decrypt_length name key (take n c) (drop n c) out fin Hby) as [Hfl Hfb].
  { rewrite (stream_out_two _ _ _ _ _ _ _ _ E2 E3), E4. done. }
  destruct (inc_len_poke_rep _ _ _ _ fin Hw2 Hfb) as (w3 & Ej & Hw3); [cbn [length]; lia|].
  rewrite (rep_head _ _ _ _ Hw2). cbn [app] in Ej. rewrite Ej, Some_bind, ASSERT_true, Some_bind by done.
  cbn [mbind option_bind]. eexists _, _. split; [done|]. eexists _, _. split; [done|exact Hw3].
Qed.

Lemma v1_pin_ok ctx opt ignore_packet_id work h plain t iv :
  legacy ctx -> (id_in_iv ctx = true -> packet_id_initialized (co_packet_id opt) = true) ->
  buf_rep work h plain t -> bytes iv -> (id_in_iv ctx = true -> 8 <= zlen iv < BUF_SIZE_MAX /\ Some (zlen iv) = (fun c => cipher_kt_iv_size c.1) <$> kc_cipher ctx) ->
  match v1_id ctx opt ignore_packet_id iv plain with
  | None => v1_pin ctx ignore_packet_id opt work iv = Some None
  | Some (pin, m) => exists work' h', v1_pin ctx ignore_packet_id opt work iv = Some (Some (pin, work')) /\ buf_rep work' h' m t
  end.
Proof.
  intros Hl Hinit Hw Hib Hiv. unfold v1_id, v1_pin, id_in_iv, legacy in *.
  pose proof (read_pin_ok work h plain t (co_long_form opt) Hw) as Hr.
  destruct (kc_cipher ctx) as [[name key]|].
  - destruct Hl as [_ Hmode]. destruct (cipher_kt_mode_cbc name); cbn [negb] in *.
    + rewrite bool_decide_true, andb_false_r by done.
      destruct (packet_id_initialized _); [|by eexists _, _]. destruct (zlen plain <? _).
      * destruct (packet_id_read work _) as [[ok pin] w]. cbn in Hr. by rewrite Hr.
      * destruct Hr as (w & -> & Hw'). by eexists _, _.
    + destruct Hmode as [?|Hmode]; [done|]. rewrite Hmode, Hinit, ASSERT_true, Some_bind by done.
      destruct (Hiv eq_refl) as [Hsz Hn]. injection Hn as Hn. rewrite <- Hn.
      unfold buf_set_read, buf_size_valid. rewrite ASSERT_true, Some_bind by lia.
      assert (Hb : buf_rep (mk_buffer (zlen iv) 0 (zlen iv) (Some iv)) 0 iv 0) by (apply rep_intro; try lia; try done; apply slice_all).
      pose proof (read_pin_ok _ _ _ _ true Hb) as Hr2. unfold packet_id_size in Hr2. replace (zlen iv <? 4 + 4) with false in Hr2 by lia.
      destruct Hr2 as (b' & Er & _). rewrite Some_bind, Er. by eexists _, _.
  - rewrite bool_decide_false by (intros [? ?]; done). rewrite andb_true_r.
    destruct (packet_id_initialized _); [|by eexists _, _]. destruct (zlen plain <? _).
    + destruct (packet_id_read work _) as [[ok pin] w]. cbn in Hr. by rewrite Hr.
    + destruct Hr as (w & -> & Hw'). by eexists _, _.
Qed.

(** The work buffer has room for what is decrypted. *)
Definition work_ready (ctx : key_ctx) (work : buffer) (headroom : option Z) (len : Z) : Prop :=
  match kc_cipher ctx with
  | None => True
  | Some (name, _) => exists hr h c t, headroom = Some hr /\ buf_rep work h c t /\ 0 <= hr /\
      hr + len + cipher_kt_block_size name <= h + zlen c + t
  end.

Lemma v1_plain_iv ctx body iv plain :
  v1_plain ctx body = Some (iv, plain) -> legacy ctx ->
  id_in_iv ctx = true -> 8 <= zlen iv < BUF_SIZE_MAX /\ Some (zlen iv) = (fun c => cipher_kt_iv_size c.1) <$> kc_cipher ctx.
Proof.
  unfold v1_plain, id_in_iv, legacy. destruct (kc_cipher ctx) as [[name key]|]; [|done]. intros E [_ Hmode] _.
  pose proof (legacy_iv_size name Hmode) as Hsz. unfold OPENVPN_MAX_IV_LENGTH, BUF_SIZE_MAX in *.
  destruct (_ <=? _) eqn:E0; [done|]. destruct (stream_out _ _ _ _ _) as [[o f]|]; [|done]. cbn [mbind option_bind] in E. injection E as <- _.
  assert (zlen (take (Z.to_nat (cipher_kt_iv_size name)) body) = cipher_kt_iv_size name) by (rewrite length_take; lia).
  cbn [fmap option_fmap option_map fst]. split; [lia|]. by f_equal.
Qed.

Lemma buf_drop_len b : b_len (buf_drop b) = 0.
Proof. done. Qed.

(** [openvpn_decrypt_v1] on any packet: it does not fail, and does what [v1_open] says. *)
Lemma decrypt_v1_ok `{Cok : !CryptoLaws} now buf h c t work opt ignore_packet_id headroom :
  buf_rep buf h c t -> c <> [] -> legacy (co_decrypt opt) ->
  (id_in_iv (co_decrypt opt) = true -> packet_id_initialized (co_packet_id opt) = true) ->
  work_ready (co_decrypt opt) work headroom (zlen c) ->
  exists dropped, b_len dropped = 0 /\
    match v1_open opt ignore_packet_id c with
    | None => openvpn_decrypt_v1 now buf work opt ignore_packet_id headroom = Some (false, dropped, opt)
    | Some (pin, m) => exists out ho to, buf_rep out ho m to /\
        openvpn_decrypt_v1 now buf work opt ignore_packet_id headroom =
          match pin with
          | None => Some (true, out, opt)
          | Some pin => '(ok, opt) ← crypto_check_replay now opt pin 0; Some (ok : bool, if ok then out else dropped, opt)
          end
    end.
Proof.
  intros Hb Hc Hl Hinit Hw. unfold openvpn_decrypt_v1, v1_open. rewrite (rep_len _ _ _ _ Hb).
  destruct (zlen c <=? 0) eqn:E0; [destruct c; cbn in E0; [done|lia]|]. set (ctx := co_decrypt opt) in *.
  destruct (verify_hmac_ok ctx buf h c t Hb) as [(body & b' & Ec & -> & Hb')|[Hno ->]].
  2: { rewrite Some_bind. exists (buf_drop buf). split; [apply buf_drop_len|].
       destruct (strip_tag ctx c) as [body|] eqn:E; [|done]. by apply strip_tag_ok, Hno in E. }
  rewrite Some_bind, (proj2 (strip_tag_ok ctx c body) Ec), Some_bind.
  assert (Hplain : exists res b2, match kc_cipher ctx with
             | Some (name, key) => headroom ← headroom; decrypt_cipher name key b' work headroom
             | None => Some (Some (b', []), b') end = Some (res, b2) /\
             match v1_plain ctx body with
             | Some (iv, plain) => exists work' wh' wt', res = Some (work', iv) /\ buf_rep work' wh' plain wt' /\ bytes iv
             | None => res = None
             end).
  { unfold work_ready in Hw. destruct (kc_cipher ctx) as [[name key]|] eqn:Ek.
    - destruct Hw as (hr & wh & wc & wt & -> & Hw & Hhr & Hroom). rewrite Some_bind.
      pose proof (block_size_ok name) as [Hbs _]. assert (zlen body <= zlen c) by (rewrite Ec, length_tagged; unfold tag_size; case_match; [case_match; pose proof (mac_length s [] [])|]; lia).
      destruct (decrypt_cipher_ok ctx name key b' _ body t work wh wc wt hr Ek Hl Hb' Hw Hhr) as (res & b2 & E & Hres); [lia|done|].
      exists res, b2. split; [done|]. destruct (v1_plain ctx body) as [[iv plain]|] eqn:Ep; [|done].
      destruct Hres as (work' & wt' & -> & Hw'). exists work', hr, wt'. split_and!; [done|done|].
      unfold v1_plain in Ep. rewrite Ek in Ep. destruct (zlen body <=? cipher_kt_iv_size name); [done|]. destruct (stream_out _ _ _ _ _) as [[o f]|]; [|by cbn in Ep].
      cbn [mbind option_bind] in Ep. injection Ep as <- _. apply Forall_take, (rep_bounds _ _ _ _ Hb').
    - unfold v1_plain. rewrite Ek. eexists _, _. split; [done|]. by eexists _, _, _. }
  destruct Hplain as (res & b2 & -> & Hres). rewrite Some_bind. exists (buf_drop b2). split; [apply buf_drop_len|].
  destruct (v1_plain ctx body) as [[iv plain]|] eqn:Ep; [|by rewrite Hres].
  destruct Hres as (work' & wh' & wt' & -> & Hw' & Hib). rewrite Some_bind.
  pose proof (v1_pin_ok ctx opt ignore_packet_id work' wh' plain wt' iv Hl Hinit Hw' Hib (v1_plain_iv _ _ _ _ Ep Hl)) as Hp.
  destruct (v1_id ctx opt ignore_packet_id iv plain) as [[pin m]|].
  - destruct Hp as (w & h' & -> & Hw2). rewrite Some_bind. exists w, h', wt'. split; [done|]. by destruct pin.
  - by rewrite Hp, Some_bind.
Qed.

(** ** Both together *)

(** What a sender needs: room in front of the payload, or behind what is in [work]. *)
Definition send_ready (ctx : key_ctx) (h : Z) (m : list Z) (work : buffer) (pre rnd : list Z) : Prop :=
  match kc_cipher ctx with
  | Some (name, _) => zlen rnd = cipher_kt_iv_size name /\ bytes rnd /\ 8 <= h /\
      exists wh wt, buf_rep work wh pre wt /\ zlen m + v1_overhead ctx <= wt
  | None => content work = pre /\ buf_len work = zlen pre /\ bytes pre /\ zlen pre + tag_size ctx + 8 <= h
  end.

Lemma encrypt_v1_ok now buf h m t work pre opt rnd p' :
  let ctx := co_encrypt opt in
  buf_rep buf h m t -> m <> [] -> legacy ctx -> next_id now ctx opt p' ->
  (id_in_iv ctx = true -> packet_id_initialized (co_packet_id opt) = true) ->
  send_ready ctx h m work pre rnd ->
  exists out oh ot body, openvpn_encrypt_v1 now buf work opt rnd = Some (out, set_send opt p') /\
    v1_body ctx opt (sent_pin p') rnd m body /\ buf_rep out oh (pre ++ tagged ctx body) ot.
Proof.
  intros ctx Hb Hm Hl Hn Hiv Hs. unfold send_ready in Hs. destruct (kc_cipher ctx) as [[name key]|] eqn:Ek.
  - destruct Hs as (Hr & Hrb & Hh & wh & wt & Hw & Hroom).
    destruct (encrypt_legacy_ok now buf h m t work wh pre wt opt rnd p' name key) as (out & body & E & Hbody & Ho); try done.
    by exists out, wh, (wt - tag_size ctx - zlen body), body.
  - destruct Hs as (Hc & Hlen & Hpre & Hh).
    destruct (encrypt_auth_ok now buf h m t work pre opt rnd p' Hb Hm Ek Hn Hc Hlen Hpre Hh) as (out & h' & E & Ho & _).
    exists out, h', t, (id_field ctx opt (sent_pin p') ++ m). split; [done|]. split; [|done]. unfold v1_body. fold ctx. by rewrite Ek.
Qed.

Definition same_keys (a b : key_ctx) : Prop := kc_cipher a = kc_cipher b /\ kc_hmac a = kc_hmac b.

Lemma same_keys_facts a b : same_keys a b ->
  (forall c, tagged a c = tagged b c) /\ tag_size a = tag_size b /\ id_in_iv a = id_in_iv b /\ (legacy a <-> legacy b).
Proof. intros [E1 E2]. unfold tagged, tag_size, id_in_iv, legacy. by rewrite E1, E2. Qed.

(** The id as the receiver sees it. *)
Definition seen_pin (ctx : key_ctx) (opt : crypto_options) (ignore_packet_id : bool) (pin : packet_id_net) : option packet_id_net :=
  if packet_id_initialized (co_packet_id opt) && negb (ignore_packet_id && negb (bool_decide (is_Some (kc_cipher ctx))))
  then Some (mk_net (n_id pin) (if id_form ctx opt then n_time pin else 0)) else None.

Lemma parse_pid_bytes form pin rest :
  is_u32 (n_id pin) -> is_u32 (n_time pin) ->
  parse_pin form (pid_bytes form pin ++ rest) = mk_net (n_id pin) (if form then n_time pin else 0).
Proof.
  intros Hi Ht. unfold parse_pin, pid_bytes. rewrite <- app_assoc.
  rewrite take_app_length' by (by rewrite length_be_bytes). rewrite drop_app_length' by (by rewrite length_be_bytes).
  rewrite be_val_u32 by done. destruct form; [|done].
  rewrite take_app_length' by (by rewrite length_be_bytes). by rewrite be_val_u32.
Qed.

(** Opening what has been sealed under the same keys. *)
Lemma v1_open_body opt opt_r ignore_packet_id pin rnd m body :
  let ctx := co_encrypt opt in
  same_keys ctx (co_decrypt opt_r) -> legacy ctx -> co_long_form opt_r = co_long_form opt ->
  packet_id_initialized (co_packet_id opt_r) = packet_id_initialized (co_packet_id opt) ->
  (id_in_iv ctx = true -> packet_id_initialized (co_packet_id opt) = true) ->
  is_u32 (n_id pin) -> is_u32 (n_time pin) -> m <> [] ->
  match kc_cipher ctx with Some (name, _) => zlen rnd = cipher_kt_iv_size name | None => True end ->
  v1_body ctx opt pin rnd m body ->
  v1_open opt_r ignore_packet_id (tagged ctx body) = Some (seen_pin ctx opt ignore_packet_id pin, m).
Proof.
  intros ctx Hk Hl Hlf Hi Hiv Hid Htm Hm Hrnd Hb. destruct (same_keys_facts _ _ Hk) as (Et & _ & Ei & _). unfold v1_open.
  rewrite Et, (proj2 (strip_tag_ok _ _ body) eq_refl), Some_bind. destruct Hk as [Ek Eh].
  unfold v1_plain, v1_id, v1_body, seen_pin, id_form, id_field in *. rewrite <- Ei, <- Ek, Hi, Hlf.
  destruct (kc_cipher ctx) as [[name key]|] eqn:Ekc.
  - destruct Hb as (out & fin & Hs & ->). unfold legacy in Hl. rewrite Ekc in Hl. destruct Hl as [_ Hmode].
    pose proof (legacy_iv_size name Hmode) as Hsz. set (iv := v1_iv_bytes name pin rnd) in *.
    assert (Hivl : zlen iv = cipher_kt_iv_size name).
    { unfold iv, v1_iv_bytes. destruct (cipher_kt_mode_cbc name); [done|]. unfold zeros. 
      rewrite length_splice; [rewrite length_replicate; lia|lia|]. rewrite length_pid_bytes, length_replicate. unfold packet_id_size. lia. }
    destruct (decrypt_encrypt _ _ _ _ _ _ Hs) as (out' & fin' & Hd & Hpt). cbn [concat] in Hpt. rewrite app_nil_r in Hpt.
    assert (Hne : out ++ fin <> []).
    { apply (encrypt_not_empty name key iv _ _ _) with (2 := Hs). cbn [concat]. rewrite app_nil_r. intros E. apply app_nil in E as [_ E]. done. }
    rewrite length_app. destruct (Z.of_nat (length iv + length (out ++ fin)) <=? cipher_kt_iv_size name) eqn:E0.
    { exfalso. apply Hne. apply length_zero_iff_nil. lia. }
    rewrite take_app_length', drop_app_length' by lia. rewrite Hd, !Some_bind, Hpt.
    rewrite (bool_decide_true (is_Some _)) by done. rewrite !andb_false_r. cbn [negb]. rewrite andb_true_r.
    unfold id_in_iv in *. rewrite Ekc in *. destruct (cipher_kt_mode_cbc name) eqn:Ecbc; cbn [negb orb andb] in *.
    + destruct (packet_id_initialized (co_packet_id opt)); cbn [andb]; [|done]. rewrite length_app, Nat2Z.inj_add, length_pid_bytes.
      destruct (_ + _ <? _) eqn:E1; [lia|]. rewrite parse_pid_bytes by done. do 2 f_equal.
      rewrite <- (length_pid_bytes (co_long_form opt) pin), Nat2Z.id. apply drop_app_length.
    + rewrite Hiv by done. rewrite andb_false_r. cbn [app]. do 3 f_equal. unfold iv, v1_iv_bytes. rewrite Ecbc.
      unfold splice. change (Z.to_nat 0) with 0%nat. cbn [take app]. by apply (parse_pid_bytes true).
  - rewrite Some_bind. rewrite bool_decide_false by (intros [? ?]; done). cbn [negb]. rewrite !andb_true_r.
    assert (Ein : id_in_iv ctx = false) by (unfold id_in_iv; by rewrite Ekc). rewrite Ein in *. cbn [negb orb] in *. rewrite andb_true_r in *. subst body.
    destruct (packet_id_initialized (co_packet_id opt)); [|done]. cbn [andb]. rewrite length_app, Nat2Z.inj_add, length_pid_bytes.
    destruct (_ + _ <? _) eqn:E1; [lia|]. rewrite parse_pid_bytes by done.
    replace (drop _ _) with m by (rewrite <- (length_pid_bytes (co_long_form opt) pin), Nat2Z.id; by rewrite drop_app_length).
    by destruct ignore_packet_id.
Qed.

Lemma legacy_not_aead ctx : legacy ctx -> cipher_ctx_mode_aead ctx = false.
Proof. unfold legacy, cipher_ctx_mode_aead. destruct (kc_cipher ctx) as [[name key]|]; [|done]. by intros [? _]. Qed.

Lemma tagged_not_empty ctx opt pin rnd m body : m <> [] -> v1_body ctx opt pin rnd m body -> tagged ctx body <> [].
Proof.
  intros Hm Hb Et. apply (f_equal length) in Et. cbn [length] in Et. unfold tagged in Et.
  assert (Hz : length body = 0%nat) by (destruct (kc_hmac ctx) as [[d k]|]; [rewrite length_app in Et|]; lia).
  apply length_zero_iff_nil in Hz as ->. unfold v1_body in Hb. destruct (kc_cipher ctx) as [[name key]|].
  - destruct Hb as (out & fin & Hs & Hx). symmetry in Hx. apply app_nil in Hx as [_ Hx]. revert Hx.
    apply (encrypt_not_empty _ _ _ _ _ _) with (2 := Hs). cbn [concat]. rewrite app_nil_r. intros Hy. apply app_nil in Hy as [_ Hy]. done.
  - symmetry in Hb. apply app_nil in Hb as [_ Hy]. done.
Qed.

(** C16: Packets of the older modes arrive.  Whatever the payload, the cipher (CBC, OFB, CFB or
    none), the digest (or none) and the form of the packet ids, the packet that
    [openvpn_encrypt] makes is put behind what is in the work buffer, and [openvpn_decrypt]
    under the same keys gives back the payload, or drops it when the id that it finds is not
    new - the id and the time of the sender's counter, or no id where they are not used. *)
Theorem data_v1_round_trip `{Cok : !CryptoLaws} now buf h m t work pre opt rnd p' :
  let ctx := co_encrypt opt in
  buf_rep buf h m t -> m <> [] -> legacy ctx -> next_id now ctx opt p' -> is_u32 (s_id p') -> is_u32 (s_time p') ->
  (id_in_iv ctx = true -> packet_id_initialized (co_packet_id opt) = true) ->
  send_ready ctx h m work pre rnd ->
  exists out oh ot pkt, openvpn_encrypt now buf work opt rnd = Some (out, set_send opt p') /\ buf_rep out oh (pre ++ pkt) ot /\
    forall now_r rb rh rt rwork opt_r ignore_packet_id headroom ad_start,
      buf_rep rb rh pkt rt -> same_keys ctx (co_decrypt opt_r) -> co_long_form opt_r = co_long_form opt ->
      packet_id_initialized (co_packet_id opt_r) = packet_id_initialized (co_packet_id opt) ->
      work_ready (co_decrypt opt_r) rwork headroom (zlen pkt) ->
      exists dropped out_r ho to, b_len dropped = 0 /\ buf_rep out_r ho m to /\
        openvpn_decrypt now_r rb rwork opt_r ignore_packet_id headroom ad_start =
          match seen_pin ctx opt ignore_packet_id (sent_pin p') with
          | None => Some (true, out_r, opt_r)
          | Some pin => '(ok, opt) ← crypto_check_replay now_r opt_r pin 0; Some (ok : bool, if ok then out_r else dropped, opt)
          end.
Proof.
  intros ctx Hb Hm Hl Hn Hi Ht Hiv Hs.
  destruct (encrypt_v1_ok now buf h m t work pre opt rnd p' Hb Hm Hl Hn Hiv Hs) as (out & oh & ot & body & E & Hbody & Ho).
  assert (Hrnd : match kc_cipher ctx with Some (name, _) => zlen rnd = cipher_kt_iv_size name | None => True end).
  { unfold send_ready in Hs. destruct (kc_cipher ctx) as [[? ?]|]; [apply Hs|done]. }
  exists out, oh, ot, (tagged ctx body). unfold openvpn_encrypt. rewrite (rep_len _ _ _ _ Hb), (legacy_not_aead (co_encrypt opt) Hl), E.
  destruct (zlen m <=? 0) eqn:E0; [destruct m; cbn in E0; [done|lia]|]. split; [done|]. split; [done|].
  intros now_r rb rh rt rwork opt_r ignore headroom ad_start Hrb Hk Hlf Hin Hw.
  destruct (same_keys_facts _ _ Hk) as (_ & _ & Ei & Hll).
  assert (Ho2 : v1_open opt_r ignore (tagged ctx body) = Some (seen_pin ctx opt ignore (sent_pin p'), m)) by by apply v1_open_body with rnd.
  pose proof (tagged_not_empty ctx opt _ rnd m body Hm Hbody) as Hne.
  unfold openvpn_decrypt. rewrite (rep_len _ _ _ _ Hrb).
  destruct (zlen (tagged ctx body) <=? 0) eqn:E1; [destruct (tagged ctx body); cbn in E1; [done|lia]|].
  rewrite legacy_not_aead by by apply Hll.
  destruct (decrypt_v1_ok now_r rb rh _ rt rwork opt_r ignore headroom Hrb Hne) as (dropped & Hd & Hx); [by apply Hll| |done|].
  { rewrite <- Ei, Hin. done. }
  rewrite Ho2 in Hx. destruct Hx as (out_r & ho & to & Hr & ->). by exists dropped, out_r, ho, to.
Qed.

End modes.
