(* ===== verification/Data.v ===== *)
(** * What the encrypted data channel guarantees

    Runs that send and receive in any order, over any network, from the initial
    epoch keys; the theorems about them; and a small concrete cipher on which the
    theorems are instantiated. *)
From Stdlib Require Import Sorted.
From S2P Require Import Prelude Integers Buffer PacketId Replay EpochKeys EpochDerive EpochInv DataChannel DataSafety DataSend.

#[local] Opaque sec data_key_spec data_iv_spec.

(** (epoch, counter) pairs in the order in which they may be used. *)
Definition nonce_lt (a b : Z * Z) : Prop := a.1 < b.1 \/ (a.1 = b.1 /\ a.2 < b.2).
Definition nonce_gt (a b : Z * Z) : Prop := nonce_lt b a.

Section runs.
Context `{CryptoLib}.

(** A packet to encrypt, or an arriving one. *)
Inductive event :=
  | ESend (now : Z) (buf : buffer)
  | ERecv (a : arrival).

(** The nonce that the last encryption used: the key's epoch and the counter. *)
Definition last_nonce (co : crypto_options) : Z * Z :=
  (kc_epoch (co_encrypt co), s_id (send (co_packet_id co))).

(** [tx]: the work buffer of the sender, with the packet header in it; [rx]: the
    receiver's.  The nonces used and the (epoch, id) pairs delivered, newest first. *)
Fixpoint dc_run (tx rx : buffer) (headroom : Z) (evs : list event) (sent got : list (Z * Z))
    (co : crypto_options) : option (list (Z * Z) * list (Z * Z) * crypto_options) :=
  match evs with
  | [] => Some (sent, got, co)
  | ESend now buf :: evs =>
      match openvpn_encrypt_aead now buf tx co with
      | None => None
      | Some (b', co) =>
          dc_run tx rx headroom evs (if 0 <? b_len b' then last_nonce co :: sent else sent) got co
      end
  | ERecv a :: evs =>
      match openvpn_decrypt_aead (a_now a) (a_pkt a) rx co headroom (a_ad a) with
      | None => None
      | Some (ok, _, co) =>
          dc_run tx rx headroom evs sent (if ok then pkt_pair (a_pkt a) :: got else got) co
      end
  end.

(** Packets that fit the work buffer; arrivals are arbitrary bytes. *)
Definition event_ok (kt : key_type) (room : Z) (ev : event) : Prop :=
  match ev with
  | ESend now buf => exists h m t, buf_rep buf h m t /\ 0 < zlen m /\
      zlen m + 24 + cipher_kt_block_size (kt_cipher kt) <= room
  | ERecv a => arrival_wf a
  end.
End runs.

(** The replay protection in either mode is a filter that has accepted nothing yet. *)
Lemma init_filter bt tb name unit_ pid :
  0 <= bt -> packet_id_init bt tb name unit_ = Some pid ->
  exists RF : ReplayFilter check_replay move_recv r_initialized, rf_inv [] (rec pid).
Proof.
  intros Hbt Hinit. destruct (decide (bt = 0)) as [->|].
  - exists tcp_filter. by apply (init_tcp_inv tb name unit_ pid).
  - destruct (init_win_rel bt tb name unit_ pid) as (Hbt' & Htb & Hr); [lia|done|].
    exists (udp_filter bt tb Hbt' Htb). by apply udp_inv_nil.
Qed.

Section guarantees.
Context `{CL : CryptoLib} `{!CryptoLaws}.
Context (kt : key_type) (Hkt : aead_kt kt).
Context (s0 r0 : list Z) (n : Z) (Hs0 : zlen s0 = 32) (Hr0 : zlen r0 = 32) (Hn : 0 < n <= 65533).

Section filter.
Context (RF : ReplayFilter check_replay move_recv r_initialized).
#[local] Abbreviation rx := (rx_inv kt s0 r0 n RF).

Record dc_inv (sent got : list (Z * Z)) (co : crypto_options) : Prop := {
  di_rx : rx got co;
  di_send : send_ok co;
  di_sent p : p ∈ sent -> p = last_nonce co \/ nonce_lt p (last_nonce co);
  di_sorted : StronglySorted nonce_gt sent;
  di_got : NoDup got
}.

Lemma sent_after (sent : list (Z * Z)) co co' p :
  (forall p, p ∈ sent -> p = last_nonce co \/ nonce_lt p (last_nonce co)) ->
  tx_le co co' \/ nonce_lt (last_nonce co) (last_nonce co') ->
  p ∈ sent -> p = last_nonce co' \/ nonce_lt p (last_nonce co').
Proof.
  intros Hs Htx [->|Hp]%Hs; unfold tx_le, nonce_lt, last_nonce in *; cbn [fst snd] in *.
  - destruct Htx as [[[? ?]|[-> ->]]|?]; [right; lia|by left|by right].
  - right. destruct Htx as [[[? ?]|[? ?]]|?]; lia.
Qed.

Lemma dc_recv_ok sent got co a rxw wh wc wt headroom :
  dc_inv sent got co -> arrival_wf a -> buf_rep rxw wh wc wt -> 0 <= headroom <= b_capacity rxw ->
  exists ok b co', openvpn_decrypt_aead (a_now a) (a_pkt a) rxw co headroom (a_ad a) = Some (ok, b, co') /\
    dc_inv sent (if ok then pkt_pair (a_pkt a) :: got else got) co'.
Proof.
  intros [] (Hnow & h & c & t & Hb & Hc & Had) Hw Hhr.
  destruct (decrypt_ok kt s0 r0 n Hkt Hs0 Hr0 Hn RF got co (a_now a) (a_pkt a) h c t rxw wh wc wt
              headroom (a_ad a) di_rx0 Hnow Hb Hc Had Hw Hhr)
    as (ok & b & co' & Hd & Hnew & Hrx' & Htx).
  exists ok, b, co'. split; [done|]. split; try done.
  - destruct Htx as [[_ Hs]|[_ Hs]]; unfold send_ok in *; [rewrite Hs; by vm_compute|by rewrite <- Hs].
  - intros p. apply (sent_after sent co co' p di_sent0). by left.
  - destruct ok; [|done]. constructor; auto.
Qed.

Lemma dc_send_ok sent got co now buf tx wh pre wt :
  dc_inv sent got co -> event_ok kt wt (ESend now buf) -> buf_rep tx wh pre wt ->
  exists b' co', openvpn_encrypt_aead now buf tx co = Some (b', co') /\
    dc_inv (if 0 <? b_len b' then last_nonce co' :: sent else sent) got co'.
Proof.
  intros [] (h & m & t & Hb & Hm & Hroom) Hw. pose proof di_rx0 as [].
  destruct (encrypt_ok kt Hkt s0 r0 n Hs0 now buf tx co h m t wh pre wt rx_epoch di_send0 rx_format
              (rf_ready _ _ rx_current) Hb Hw Hroom) as (b' & co' & Henc & Hinv' & Hsend' & Hsame & Hout).
  exists b', co'. split; [done|]. pose proof Hsame as [Hd Hr Hrp Hrec Hf].
  assert (Hrx' : rx got co').
  { apply (rx_frame kt s0 r0 n RF got co); try done; congruence. }
  destruct Hout as [(Hl & Htx & _)|(Hc & Hlt & Hpos)].
  - replace (0 <? b_len b') with false by lia. split; try done.
    intros p. apply (sent_after sent co co' p di_sent0). by left.
  - assert (Hlt' : nonce_lt (last_nonce co) (last_nonce co')) by exact Hlt.
    destruct (0 <? b_len b'); (split; try done).
    + intros p [->|Hp]%elem_of_cons; [by left|].
      apply (sent_after sent co co' p di_sent0); [by right|done].
    + constructor; [done|]. apply Forall_forall. intros p [->|Hp]%di_sent0; [exact Hlt'|].
      unfold nonce_gt, nonce_lt in *. lia.
    + intros p Hp. apply (sent_after sent co co' p di_sent0); [by right|done].
Qed.

Lemma dc_run_ok tx wh pre wt rxw wh' wc' wt' headroom evs sent got co :
  buf_rep tx wh pre wt -> buf_rep rxw wh' wc' wt' -> 0 <= headroom <= b_capacity rxw ->
  Forall (event_ok kt wt) evs -> dc_inv sent got co ->
  exists sent' got' co', dc_run tx rxw headroom evs sent got co = Some (sent', got', co') /\
    dc_inv sent' got' co'.
Proof.
  intros Htx Hrx Hhr. revert sent got co. induction evs as [|[now buf|a] evs IH];
    intros sent got co Hev Hinv; [by exists sent, got, co|..];
    apply Forall_cons in Hev as [Hok Hev]; cbn [dc_run].
  - destruct (dc_send_ok sent got co now buf tx wh pre wt Hinv Hok Htx) as (b' & co' & -> & Hinv').
    by apply IH.
  - destruct (dc_recv_ok sent got co a rxw wh' wc' wt' headroom Hinv Hok Hrx Hhr)
      as (ok & b & co' & -> & Hinv'). by apply IH.
Qed.

Lemma dc_inv_init pid long_form pp :
  rf_inv [] (rec pid) ->
  exists co, epoch_init_key_ctx pid kt (mk_ekey s0 1) (mk_ekey r0 1) n long_form pp = Some co /\
    dc_inv [] [] co.
Proof.
  intros Hrf.
  destruct (epoch_init_ok kt s0 r0 n Hkt Hs0 Hr0 Hn pid long_form pp)
    as (co & Hco & Hinv & Hd & He & Hp & Hr & Hf & _).
  exists co. split; [done|]. split.
  - split; try done.
    + by rewrite Hp.
    + intros p Hp'. by apply elem_of_nil in Hp'.
  - unfold send_ok. rewrite Hp. by vm_compute.
  - intros p Hp'. by apply elem_of_nil in Hp'.
  - constructor.
  - constructor.
Qed.
End filter.

Lemma run_from_init bt tb name unit_ pid long_form pp tx wh pre wt rxw wh' wc' wt' headroom evs :
  0 <= bt -> packet_id_init bt tb name unit_ = Some pid ->
  buf_rep tx wh pre wt -> buf_rep rxw wh' wc' wt' -> 0 <= headroom <= b_capacity rxw ->
  Forall (event_ok kt wt) evs ->
  exists RF co sent got co',
    epoch_init_key_ctx pid kt (mk_ekey s0 1) (mk_ekey r0 1) n long_form pp = Some co /\
    dc_run tx rxw headroom evs [] [] co = Some (sent, got, co') /\ dc_inv RF sent got co'.
Proof.
  intros Hbt Hinit Htx Hrx Hhr Hev.
  destruct (init_filter bt tb name unit_ pid Hbt Hinit) as [RF Hrf].
  destruct (dc_inv_init RF pid long_form pp Hrf) as (co & Hco & Hinv).
  destruct (dc_run_ok RF tx wh pre wt rxw wh' wc' wt' headroom evs [] [] co Htx Hrx Hhr Hev Hinv)
    as (sent & got & co' & Hrun & Hinv').
  by exists RF, co, sent, got, co'.
Qed.

(** C1: The data channel as a whole.  Start from the initial epoch keys, in either
    replay mode, and let it send packets and receive arbitrary bytes in any order
    and at any times: no [ASSERT] of the encryption, decryption, epoch or replay
    code ever fails, no (epoch, packet counter) nonce is used for two packets - they
    only increase - and no packet is delivered twice. *)
Theorem data_channel_safe bt tb name unit_ pid long_form pp tx wh pre wt rxw wh' wc' wt' headroom evs :
  0 <= bt -> packet_id_init bt tb name unit_ = Some pid ->
  buf_rep tx wh pre wt -> buf_rep rxw wh' wc' wt' -> 0 <= headroom <= b_capacity rxw ->
  Forall (event_ok kt wt) evs ->
  exists co sent got co',
    epoch_init_key_ctx pid kt (mk_ekey s0 1) (mk_ekey r0 1) n long_form pp = Some co /\
    dc_run tx rxw headroom evs [] [] co = Some (sent, got, co') /\
    StronglySorted nonce_gt sent /\ NoDup got.
Proof.
  intros Hbt Hinit Htx Hrx Hhr Hev.
  destruct (run_from_init bt tb name unit_ pid long_form pp tx wh pre wt rxw wh' wc' wt' headroom evs
              Hbt Hinit Htx Hrx Hhr Hev) as (RF & co & sent & got & co' & Hco & Hrun & []).
  by exists co, sent, got, co'.
Qed.

(** C31: In every state the data channel can reach, [epoch_lookup_decrypt_key] finds a
    key exactly for the current epoch, the retiring one and the future ones short of
    the limit, and the key it finds is the one derived from that epoch's secret on
    the peer's chain; the send epoch is never behind the receive epoch. *)
Theorem epoch_lookup_exact bt tb name unit_ pid long_form pp tx wh pre wt rxw wh' wc' wt' headroom evs co
    sent got co' e :
  0 <= bt -> packet_id_init bt tb name unit_ = Some pid ->
  buf_rep tx wh pre wt -> buf_rep rxw wh' wc' wt' -> 0 <= headroom <= b_capacity rxw ->
  Forall (event_ok kt wt) evs ->
  epoch_init_key_ctx pid kt (mk_ekey s0 1) (mk_ekey r0 1) n long_form pp = Some co ->
  dc_run tx rxw headroom evs [] [] co = Some (sent, got, co') ->
  kc_epoch (co_decrypt co') <= kc_epoch (co_encrypt co') /\
  match epoch_lookup_decrypt_key co' e with
  | Some s => epoch_known n co' e /\ exists k, get_key co' s = Some k /\ kc_epoch k = e /\
      kc_cipher k = Some (data_key_spec kt (secret_at r0 (Z.to_nat (e - 1)))) /\
      kc_implicit_iv k = data_iv_spec kt (secret_at r0 (Z.to_nat (e - 1)))
  | None => ~ epoch_known n co' e
  end.
Proof.
  intros Hbt Hinit Htx Hrx Hhr Hev Hco Hrun.
  destruct (run_from_init bt tb name unit_ pid long_form pp tx wh pre wt rxw wh' wc' wt' headroom evs
              Hbt Hinit Htx Hrx Hhr Hev) as (RF & co1 & sent1 & got1 & co1' & Hco1 & Hrun1 & Hdi).
  rewrite Hco in Hco1. injection Hco1 as <-. rewrite Hrun in Hrun1. injection Hrun1 as <- <- <-.
  pose proof (rx_epoch _ _ _ _ _ _ _ (di_rx _ _ _ _ Hdi)) as Hinv.
  split; [apply (ei_send_epoch _ _ _ _ _ Hinv)|].
  pose proof (lookup_ok kt s0 r0 n Hn co' e Hinv) as Hl.
  destruct (epoch_lookup_decrypt_key co' e) as [s|]; [|done].
  destruct Hl as (Hknown & _ & (k & Hg & []) & _). split; [done|]. by exists k.
Qed.
End guarantees.

(** A state of the data channel that a run can reach. *)
Definition channel_ok `{CL : CryptoLib} (kt : key_type) (s0 r0 : list Z) (n : Z) (co : crypto_options)
  : Prop :=
  exists RF sent got, dc_inv kt s0 r0 n RF sent got co.

(** C9: What one end encrypts the other end decrypts.  The sender's output, received
    anywhere in a buffer behind its header, decrypts at the peer to exactly the
    plaintext, provided that the peer holds the epoch's key, that key has not
    exceeded its failure limit, and the id passes the replay check. *)
Theorem data_round_trip `{CL : CryptoLib} `{!CryptoLaws} kt s0 r0 x n n' co_s co_r now buf bh m bt tx wh pre wt
    b' co_s' pkt0 h t pkt s k now' co_r' work wh' wc wt' headroom :
  aead_kt kt -> zlen s0 = 32 -> 0 < n' <= 65533 ->
  channel_ok kt s0 r0 n co_s -> channel_ok kt x s0 n' co_r ->
  buf_rep buf bh m bt -> 0 < zlen m -> buf_rep tx wh pre wt ->
  zlen m + 24 + cipher_kt_block_size (kt_cipher kt) <= wt ->
  openvpn_encrypt_aead now buf tx co_s = Some (b', co_s') -> 0 < b_len b' ->
  buf_rep pkt0 h (content b') t -> buf_advance pkt0 (zlen pre) = (true, pkt) ->
  epoch_lookup_decrypt_key co_r (last_nonce co_s').1 = Some s -> get_key co_r s = Some k ->
  cipher_decrypt_verify_fail_exceeded k = false ->
  crypto_check_replay now' co_r (mk_net (last_nonce co_s').2 0) (last_nonce co_s').1 = Some (true, co_r') ->
  buf_rep work wh' wc wt' -> 0 <= headroom ->
  zlen m + 16 + cipher_kt_block_size (kt_cipher kt) <= b_capacity work - headroom ->
  exists out co_r'', openvpn_decrypt_aead now' pkt work co_r headroom h = Some (true, out, co_r'') /\
    content out = m.
Proof.
  intros Hkt Hs0 Hn' (RF & sent & got & []) (RF' & sent' & got' & Hdr) Hbuf Hm Htx Hroom
    Henc Hb' Hpkt0 Hadv Hl Hg Hfail Hchk Hw Hhr Hroom'.
  destruct di_rx0. destruct Hdr as [[] _ _ _ _].
  destruct (encrypt_ok kt Hkt s0 r0 n Hs0 now buf tx co_s bh m bt wh pre wt rx_epoch di_send0
              rx_format (rf_ready _ _ rx_current) Hbuf Htx Hroom)
    as (b1 & co1 & Henc1 & Hinv1 & Hsend1 & _ & [(Hl0 & _)|(Hc & _ & Hpos)]);
    rewrite Henc in Henc1; injection Henc1 as <- <-; [lia|].
  rewrite Hc in Hpkt0. unfold send_ok in Hsend1. cbn [last_nonce fst snd] in *.
  destruct (decrypt_packet kt x s0 n' Hn' now' co_r _ (s_id (send (co_packet_id co_s'))) s k pkt0 pkt h pre m t work wh' wc wt'
              headroom rx_epoch0 rx_format0 (rf_ready _ _ rx_current0) Hl Hg Hfail)
    as (w' & b2 & Hout & Hdec); try done.
  - lia.
  - apply (ei_send_epoch _ _ _ _ _ Hinv1).
  - apply (rep_bounds _ _ _ _ Hbuf).
  - rewrite Hchk in Hdec. by eexists w', _.
Qed.

(** C32: [ovpn_hkdf_expand] ends for every output of up to 255 blocks and computes
    HKDF-Expand of RFC 5869 with HMAC-SHA256, although its block counter is 8 bits
    wide; [ovpn_expand_label] applies it to the structure of the label. *)
Theorem hkdf_expand_rfc5869 `{CL : CryptoLib} `{!CryptoLaws} secret info label out :
  zlen info <= INT_MAX -> zlen out <= 8160 -> zlen secret = 32 -> label_ok label ->
  ovpn_hkdf_expand secret info out = Some (hkdf_expand_spec secret info (zlen out)) /\
  ovpn_expand_label secret label [] out = Some (true, expand_label_spec secret label (zlen out)).
Proof.
  intros. split; [by apply hkdf_expand_ok|by apply expand_label_ok].
Qed.

(** ** A concrete cipher, and instances of the theorems *)

Module Demo.
(** A checksum in place of a MAC, the identity in place of a cipher: it meets the
    documented sizes and decryption undoes encryption, which is all the theorems ask. *)
#[export] Instance toy_crypto : CryptoLib := {
  hmac_sha256 k m := be_bytes 32 (be_val (k ++ m) * 1103515245 + 12345);
  cipher_kt_iv_size _ := 12;
  cipher_kt_key_size _ := 32;
  cipher_kt_block_size _ := 16;
  cipher_kt_mode_aead _ := true;
  cipher_kt_name c := c;
  md_kt_size _ := 0;
  aead_seal _ k iv ad m := (m, be_bytes 16 (be_val (k ++ iv ++ ad ++ m)));
  aead_open _ k iv ad m tag :=
    if bool_decide (tag = be_bytes 16 (be_val (k ++ iv ++ ad ++ m))) then Some m else None
}.

#[local] Arguments be_bytes : simpl never.

#[export] Instance toy_laws : CryptoLaws.
Proof.
  split; cbn; intros; try (unfold SHA256_DIGEST_LENGTH, OPENVPN_AEAD_MIN_IV_LEN,
    OPENVPN_MAX_IV_LENGTH, MAX_CIPHER_KEY_LENGTH, OPENVPN_AEAD_TAG_LENGTH; lia).
  - by rewrite length_be_bytes.
  - apply be_bytes_bytes.
  - split; [done|by rewrite length_be_bytes].
  - split; [done|apply be_bytes_bytes].
  - by case_bool_decide; simplify_eq.
  - by case_bool_decide; simplify_eq.
  - by rewrite bool_decide_eq_true_2.
Qed.

Definition kt : key_type := mk_kt "AES-256-GCM" "none".
Definition secret_a : list Z := replicate 32 5.
Definition secret_b : list Z := replicate 32 9.

Lemma kt_ok : aead_kt kt.
Proof. by split. Qed.

Definition pid : packet_id := demo_pid.
Definition co_zero : crypto_options :=
  mk_co key_ctx_zero key_ctx_zero false (mk_ekey [] 0) (mk_ekey [] 0) kt 0 [] key_ctx_zero rec_zero
    pid None false true.

(** The two ends of a channel. *)
Definition end_a : crypto_options :=
  default co_zero (epoch_init_key_ctx pid kt (mk_ekey secret_a 1) (mk_ekey secret_b 1) 2 false None).
Definition end_b : crypto_options :=
  default co_zero (epoch_init_key_ctx pid kt (mk_ekey secret_b 1) (mk_ekey secret_a 1) 2 false None).

Definition block (n off len : Z) : buffer := mk_buffer n off len (Some (replicate (Z.to_nat n) 1)).

Lemma block_rep n off len :
  0 <= off -> 0 <= len -> off + len <= n -> n < BUF_SIZE_MAX ->
  buf_rep (block n off len) off (replicate (Z.to_nat len) 1) (n - off - len).
Proof.
  intros. apply rep_intro; try lia.
  - rewrite length_replicate. lia.
  - apply Forall_replicate. unfold is_u8. lia.
  - rewrite length_replicate. lia.
  - unfold slice. rewrite drop_replicate, take_replicate. f_equal. lia.
Qed.

(** A header of four bytes in the sender's work buffer; a packet of ten. *)
Definition tx : buffer := block 100 10 4.
Definition rx : buffer := block 100 0 0.
Definition plain : buffer := block 30 10 10.

Definition events : list event :=
  [ESend 1000 plain; ERecv (mk_arrival 1000 plain 3); ESend 1001 plain].

Lemma events_ok : Forall (event_ok kt 86) events.
Proof.
  assert (Hp : buf_rep plain 10 (replicate 10 1) 10) by (apply (block_rep 30 10 10); done || lia).
  repeat constructor; cbn; try (exists 10, (replicate 10 1), 10; split; [exact Hp|cbn; lia]); done || lia.
Qed.

Lemma data_channel_safe_witness :
  exists co sent got co',
    epoch_init_key_ctx pid kt (mk_ekey secret_a 1) (mk_ekey secret_b 1) 2 false None = Some co /\
    dc_run tx rx 20 events [] [] co = Some (sent, got, co') /\
    StronglySorted nonce_gt sent /\ NoDup got.
Proof.
  apply (data_channel_safe kt kt_ok secret_a secret_b 2 eq_refl eq_refl ltac:(lia)
           4 15 "demo" 0 pid false None tx 10 (replicate 4 1) 86 rx 0 [] 100 20 events);
    [lia|reflexivity|apply (block_rep 100 10 4); done || lia|apply (block_rep 100 0 0); done || lia
    |cbn; lia|exact events_ok].
Defined.

Lemma end_a_init :
  epoch_init_key_ctx pid kt (mk_ekey secret_a 1) (mk_ekey secret_b 1) 2 false None = Some end_a.
Proof. vm_compute. reflexivity. Qed.

Lemma end_b_init :
  epoch_init_key_ctx pid kt (mk_ekey secret_b 1) (mk_ekey secret_a 1) 2 false None = Some end_b.
Proof. vm_compute. reflexivity. Qed.

Definition after_events : list (Z * Z) * list (Z * Z) * crypto_options :=
  default ([], [], co_zero) (dc_run tx rx 20 events [] [] end_a).

Lemma after_events_run :
  dc_run tx rx 20 events [] [] end_a = Some (after_events.1.1, after_events.1.2, after_events.2).
Proof. vm_compute. reflexivity. Qed.

Lemma epoch_lookup_exact_witness :
  let co' := after_events.2 in
  kc_epoch (co_decrypt co') <= kc_epoch (co_encrypt co') /\
  match epoch_lookup_decrypt_key co' 2 with
  | Some s => epoch_known 2 co' 2 /\ exists k, get_key co' s = Some k /\ kc_epoch k = 2 /\
      kc_cipher k = Some (data_key_spec kt (secret_at secret_b (Z.to_nat (2 - 1)))) /\
      kc_implicit_iv k = data_iv_spec kt (secret_at secret_b (Z.to_nat (2 - 1)))
  | None => ~ epoch_known 2 co' 2
  end.
Proof.
  apply (epoch_lookup_exact kt kt_ok secret_a secret_b 2 eq_refl eq_refl ltac:(lia)
           4 15 "demo" 0 pid false None tx 10 (replicate 4 1) 86 rx 0 [] 100 20 events
           end_a after_events.1.1 after_events.1.2 after_events.2 2);
    [lia|reflexivity|apply (block_rep 100 10 4); done || lia|apply (block_rep 100 0 0); done || lia
    |cbn; lia|exact events_ok|exact end_a_init|exact after_events_run].
Defined.

Lemma ends_ok : channel_ok kt secret_a secret_b 2 end_a /\ channel_ok kt secret_b secret_a 2 end_b.
Proof.
  destruct (init_filter 4 15 "demo" 0 pid) as [RF Hrf]; [lia|reflexivity|].
  destruct (dc_inv_init kt kt_ok secret_a secret_b 2 eq_refl eq_refl ltac:(lia) RF pid false None Hrf)
    as (a & Ha & Hia).
  pose proof (Some_inj _ _ (eq_trans (eq_sym end_a_init) Ha)) as Ea. clear Ha.
  destruct (dc_inv_init kt kt_ok secret_b secret_a 2 eq_refl eq_refl ltac:(lia) RF pid false None Hrf)
    as (b & Hb & Hib).
  pose proof (Some_inj _ _ (eq_trans (eq_sym end_b_init) Hb)) as Eb. clear Hb.
  rewrite Ea, Eb. split; exists RF, [], []; assumption.
Qed.

(** The encrypted packet, and the same bytes in the receiver's buffer. *)
Definition wire : buffer * crypto_options :=
  default (plain, co_zero) (openvpn_encrypt_aead 1000 plain tx end_a).
Definition arrived : buffer := mk_buffer 50 6 38 (Some (zeros 6 ++ content wire.1 ++ zeros 6)).

Lemma arrived_rep : buf_rep arrived 6 (content wire.1) 6.
Proof.
  apply rep_intro; try (vm_compute; reflexivity); try lia.
  apply bytes_dec. vm_compute. reflexivity.
Qed.

Definition checked : bool * crypto_options :=
  default (false, co_zero) (crypto_check_replay 1000 end_b (mk_net (last_nonce wire.2).2 0) (last_nonce wire.2).1).

Lemma wire_sent :
  openvpn_encrypt_aead 1000 plain tx end_a = Some (wire.1, wire.2) /\ 0 < b_len wire.1.
Proof. vm_compute. done. Qed.

Lemma arrived_known :
  buf_advance arrived (zlen (replicate 4 1)) = (true, (buf_advance arrived 4).2) /\
  epoch_lookup_decrypt_key end_b (last_nonce wire.2).1 = Some KDecrypt /\
  cipher_decrypt_verify_fail_exceeded (co_decrypt end_b) = false.
Proof. vm_compute. done. Qed.

Lemma arrived_fresh :
  crypto_check_replay 1000 end_b (mk_net (last_nonce wire.2).2 0) (last_nonce wire.2).1 = Some (true, checked.2).
Proof. vm_compute. reflexivity. Qed.

Lemma data_round_trip_witness :
  exists out co_r'', openvpn_decrypt_aead 1000 (buf_advance arrived 4).2 rx end_b 20 6 = Some (true, out, co_r'') /\
    content out = replicate 10 1.
Proof.
  apply (data_round_trip kt secret_a secret_b secret_b 2 2 end_a end_b 1000 plain 10 (replicate 10 1) 10
           tx 10 (replicate 4 1) 86 wire.1 wire.2 arrived 6 6 (buf_advance arrived 4).2 KDecrypt
           (co_decrypt end_b) 1000 checked.2 rx 0 [] 100 20
           kt_ok eq_refl ltac:(lia) (proj1 ends_ok) (proj2 ends_ok)).
  - apply (block_rep 30 10 10); done || lia.
  - done.
  - apply (block_rep 100 10 4); done || lia.
  - cbn; lia.
  - exact (proj1 wire_sent).
  - exact (proj2 wire_sent).
  - exact arrived_rep.
  - exact (proj1 arrived_known).
  - exact (proj1 (proj2 arrived_known)).
  - exact eq_refl.
  - exact (proj2 (proj2 arrived_known)).
  - exact arrived_fresh.
  - apply (block_rep 100 0 0); done || lia.
  - lia.
  - cbn; lia.
Defined.

Lemma hkdf_expand_rfc5869_witness :
  ovpn_hkdf_expand secret_a [1; 2] (zeros 40) = Some (hkdf_expand_spec secret_a [1; 2] 40) /\
  ovpn_expand_label secret_a data_key_label [] (zeros 40) = Some (true, expand_label_spec secret_a data_key_label 40).
Proof.
  apply (hkdf_expand_rfc5869 secret_a [1; 2] data_key_label (zeros 40));
    [by vm_compute|by vm_compute|reflexivity|apply labels_ok].
Defined.
End Demo.
