(* ===== verification/Reliable.v ===== *)
(** * The control channel's reliability layer: [reliable.c], [reliable.h], [session_id.h]

    A [struct reliable_ack] is the list of its first [len] packet ids.  A
    [struct reliable] has the [size] entries that are used; a [struct buffer *] or
    [struct reliable_entry *] into its array is the index of the entry.  The global
    [now] is an argument.  Failed [ASSERT]s are [None]. *)
From S2P Require Import Prelude Integers Buffer.

(** ** Session ids *)

Definition SID_SIZE : Z := 8.
Definition x_session_id_zero : list Z := replicate 8 0.

Definition session_id_equal (sid1 sid2 : list Z) : bool := bool_decide (sid1 = sid2).
Definition session_id_defined (sid1 : list Z) : bool := bool_decide (sid1 <> x_session_id_zero).
Definition session_id_read (buf : buffer) : option (list Z) * buffer := buf_read buf SID_SIZE.
Definition session_id_write_prepend (sid : list Z) (buf : buffer) : bool * buffer :=
  buf_write_prepend buf sid.
Definition session_id_write (sid : list Z) (buf : buffer) : bool * buffer := buf_write buf sid.

(** ** Packet id comparison *)

Definition subtract_pid (test base : Z) : Z := test -u base.

Definition reliable_pid_in_range1 (test base extent : Z) : bool := subtract_pid test base <? extent.

Definition reliable_pid_in_range2 (test base extent : Z) : bool :=
  if base <=? (base +u extent) then test <? (base +u extent)
  else (test +u 2147483648) <? ((base +u 2147483648) +u extent).

Definition reliable_pid_min (p1 p2 : Z) : bool := negb (reliable_pid_in_range1 p1 p2 2147483648).

(** ** Acknowledgements *)

Definition RELIABLE_ACK_SIZE : Z := 8.
Definition RELIABLE_CAPACITY : Z := 12.
Definition N_ACK_RETRANSMIT : Z := 3.
Definition BIG_TIMEOUT : Z := 60 * 60 * 24 * 7.

Definition reliable_ack : Type := list Z.

Definition ACK_SIZE (n : Z) : Z := 1 + (if n =? 0 then 0 else SID_SIZE) + 4 * n.

Definition reliable_ack_empty (ack : reliable_ack) : bool := zlen ack =? 0.
Definition reliable_ack_outstanding (ack : reliable_ack) : Z := zlen ack.

Fixpoint reliable_ack_packet_id_present (ack : reliable_ack) (pid : Z) : bool :=
  match ack with
  | [] => false
  | p :: ack => if p =? pid then true else reliable_ack_packet_id_present ack pid
  end.

Definition reliable_ack_read_packet_id (buf : buffer) : option Z * buffer :=
  match buf_read buf 4 with
  | (Some net_pid, buf) => (Some (be_val net_pid), buf)
  | (None, buf) => (None, buf)
  end.

Definition reliable_ack_acknowledge_packet_id (ack : reliable_ack) (pid : Z) : bool * reliable_ack :=
  if negb (reliable_ack_packet_id_present ack pid) && (zlen ack <? RELIABLE_ACK_SIZE)
  then (true, ack ++ [pid])
  else (false, ack).

(** The loop that reads [count] packet ids. *)
Fixpoint ack_parse_loop (count : nat) (buf : buffer) (ack : reliable_ack)
  : bool * buffer * reliable_ack :=
  match count with
  | O => (true, buf, ack)
  | S count =>
      match buf_read buf 4 with
      | (None, buf) => (false, buf, ack)
      | (Some net_pid, buf) =>
          if RELIABLE_ACK_SIZE <=? zlen ack then (false, buf, ack)
          else ack_parse_loop count buf (ack ++ [be_val net_pid])
      end
  end.

(** The result, the rest of the buffer, [*ack], and [*session_id_remote] where it is set. *)
Definition reliable_ack_parse (buf : buffer) : bool * buffer * reliable_ack * option (list Z) :=
  match buf_read buf 1 with
  | (None, buf) => (false, buf, [], None)
  | (Some c, buf) =>
      let count := be_val c in
      match ack_parse_loop (Z.to_nat count) buf [] with
      | (false, buf, ack) => (false, buf, ack, None)
      | (true, buf, ack) =>
          if negb (count =? 0) then
            match session_id_read buf with
            | (None, buf) => (false, buf, ack, None)
            | (Some sid, buf) => (true, buf, ack, Some sid)
            end
          else (true, buf, ack, None)
      end
  end.

(** [session_id_remote] is only read when it has been set. *)
Definition reliable_ack_read (buf : buffer) (sid : list Z) : bool * buffer * reliable_ack :=
  match reliable_ack_parse buf with
  | (false, buf, ack, _) => (false, buf, ack)
  | (true, buf, ack, sid_remote) =>
      if (1 <=? zlen ack)
         && match sid_remote with
            | Some r => negb (session_id_defined r) || negb (session_id_equal r sid)
            | None => false
            end
      then (false, buf, ack)
      else (true, buf, ack)
  end.

(** The inner loop of [copy_acks_to_mru]: every entry moves one place to the right,
    [move] is the id in hand; [None] is [idfound]. *)
Fixpoint mru_shift (id move : Z) (l : list Z) : list Z * option Z :=
  match l with
  | [] => ([], Some move)
  | tmp :: l =>
      if tmp =? id then (move :: l, None)
      else let '(l', m) := mru_shift id tmp l in (move :: l', m)
  end.

(** One round of the outer loop. *)
Definition mru_insert (ack_mru : reliable_ack) (id : Z) : reliable_ack :=
  let ack_mru := if zlen ack_mru =? 0 then [id] else ack_mru in
  match mru_shift id id ack_mru with
  | (l, Some move) => if zlen l <? RELIABLE_ACK_SIZE then l ++ [move] else l
  | (l, None) => l
  end.

Definition copy_acks_to_mru (ack ack_mru : reliable_ack) (n : Z) : option reliable_ack :=
  ASSERT (n <=? zlen ack);;
  Some (foldl mru_insert ack_mru (rev (take (Z.to_nat n) ack))).

(** The loop that writes the ids. *)
Fixpoint ack_write_loop (ids : list Z) (sub : buffer) : option buffer :=
  match ids with
  | [] => Some sub
  | pid :: ids =>
      '(ok, sub) ← Some (buf_write sub (be_bytes 4 pid));
      ASSERT (ok : bool);; ack_write_loop ids sub
  end.

(** The record in the sub-buffer: the count, the ids, and the session id. *)
Definition ack_write_record (ids sid : list Z) (sub : buffer) : option buffer :=
  '(ok, sub) ← Some (buf_write_u8 sub (zlen ids));
  ASSERT (ok : bool);;
  sub ← ack_write_loop ids sub;
  if negb (zlen ids =? 0) then
    ASSERT (session_id_defined sid);;
    '(ok, sub) ← Some (session_id_write sid sub);
    ASSERT (ok : bool);; Some sub
  else Some sub.

(** The result, [*ack], [*ack_mru] and [*buf].  The ids written are the first
    [total_acks] of [ack_mru]; to read or move ids outside the arrays is [None]. *)
Definition reliable_ack_write (ack ack_mru : reliable_ack) (buf : buffer) (sid : list Z) (max : Z)
    (prepend : bool) : option (bool * reliable_ack * reliable_ack * buffer) :=
  let n := if max <? zlen ack then max else zlen ack in
  ack_mru ← copy_acks_to_mru ack ack_mru n;
  let total_acks := u8 (min_int max (zlen ack_mru)) in
  ASSERT (total_acks <=? zlen ack_mru);;
  let '(sub, pos, buf) := buf_sub buf (ACK_SIZE total_acks) prepend in
  if negb (buf_defined sub) then Some (false, ack, ack_mru, buf)
  else
    sub ← ack_write_record (take (Z.to_nat total_acks) ack_mru) sid sub;
    ASSERT (0 <=? n);;
    Some (true, drop (Z.to_nat n) ack, ack_mru, buf_sub_commit buf pos sub).

(** ** The send and receive windows *)

Record reliable_entry := mk_entry {
  e_active : bool;
  e_timeout : Z;
  e_next_try : Z;
  e_packet_id : Z;
  e_n_acks : Z;
  e_opcode : Z;
  e_buf : buffer
}.

Record reliable := mk_rel {
  rl_initial_timeout : Z;
  rl_packet_id : Z;
  rl_offset : Z;
  rl_hold : bool;
  rl_array : list reliable_entry
}.

Definition rl_size (rel : reliable) : Z := zlen (rl_array rel).

Definition set_array (rel : reliable) (a : list reliable_entry) : reliable :=
  mk_rel (rl_initial_timeout rel) (rl_packet_id rel) (rl_offset rel) (rl_hold rel) a.
Definition set_rel_packet_id (rel : reliable) (pid : Z) : reliable :=
  mk_rel (rl_initial_timeout rel) pid (rl_offset rel) (rl_hold rel) (rl_array rel).
Definition set_entry (rel : reliable) (i : nat) (e : reliable_entry) : reliable :=
  set_array rel (<[i := e]> (rl_array rel)).
Definition set_active (e : reliable_entry) (a : bool) : reliable_entry :=
  mk_entry a (e_timeout e) (e_next_try e) (e_packet_id e) (e_n_acks e) (e_opcode e) (e_buf e).
Definition set_buf (e : reliable_entry) (b : buffer) : reliable_entry :=
  mk_entry (e_active e) (e_timeout e) (e_next_try e) (e_packet_id e) (e_n_acks e) (e_opcode e) b.

(** Into a zeroed structure. *)
Definition reliable_init (buf_size offset array_size : Z) (hold : bool) : option reliable :=
  ASSERT ((0 <? array_size) && (array_size <=? RELIABLE_CAPACITY));;
  b ← alloc_buf buf_size;
  '(ok, b) ← Some (buf_init b offset);
  ASSERT (ok : bool);;
  Some (mk_rel 0 0 offset hold (replicate (Z.to_nat array_size) (mk_entry false 0 0 0 0 0 b))).

Definition reliable_set_timeout (rel : reliable) (timeout : Z) : reliable :=
  mk_rel timeout (rl_packet_id rel) (rl_offset rel) (rl_hold rel) (rl_array rel).

Definition reliable_empty (rel : reliable) : bool := forallb (fun e => negb (e_active e)) (rl_array rel).

(** What one acknowledged id does to one entry. *)
Definition purge_entry (pid : Z) (e : reliable_entry) : reliable_entry :=
  if e_active e && (e_packet_id e =? pid) then set_active e false
  else if e_active e && (e_packet_id e <? pid)
  then mk_entry (e_active e) (e_timeout e) (e_next_try e) (e_packet_id e) (u64 (e_n_acks e + 1))
         (e_opcode e) (e_buf e)
  else e.

Definition reliable_send_purge (rel : reliable) (ack : reliable_ack) : reliable :=
  foldl (fun rel pid => set_array rel (purge_entry pid <$> rl_array rel)) rel ack.

Definition reliable_can_get (rel : reliable) : bool := existsb (fun e => negb (e_active e)) (rl_array rel).

Definition is_active_id (id : Z) (e : reliable_entry) : bool := e_active e && (e_packet_id e =? id).

Definition reliable_not_replay (rel : reliable) (id : Z) : bool :=
  if reliable_pid_min id (rl_packet_id rel) then false
  else negb (existsb (is_active_id id) (rl_array rel)).

Definition reliable_wont_break_sequentiality (rel : reliable) (id : Z) : bool :=
  reliable_pid_in_range2 id (rl_packet_id rel) (rl_size rel).

(** The index of the first element that satisfies [p]. *)
Fixpoint find_index {A} (p : A -> bool) (l : list A) : option nat :=
  match l with
  | [] => None
  | x :: l => if p x then Some O else S <$> find_index p l
  end.

Definition reliable_get_buf (rel : reliable) : option (option nat * reliable) :=
  match find_index (fun e => negb (e_active e)) (rl_array rel) with
  | None => Some (None, rel)
  | Some i =>
      e ← rl_array rel !! i;
      '(ok, b) ← Some (buf_init (e_buf e) (rl_offset rel));
      ASSERT (ok : bool);; Some (Some i, set_entry rel i (set_buf e b))
  end.

(** The loop that finds the minimum active packet id. *)
Fixpoint min_active (l : list reliable_entry) (min_id : option Z) : option Z :=
  match l with
  | [] => min_id
  | e :: l =>
      min_active l
        (if e_active e then
           match min_id with
           | None => Some (e_packet_id e)
           | Some m => if reliable_pid_min (e_packet_id e) m then Some (e_packet_id e) else Some m
           end
         else min_id)
  end.

Definition reliable_get_num_output_sequenced_available (rel : reliable) : Z :=
  match min_active (rl_array rel) None with
  | Some min_id => i32 (rl_size rel - subtract_pid (rl_packet_id rel) min_id)
  | None => rl_size rel
  end.

Definition reliable_get_buf_output_sequenced (rel : reliable) : option (option nat * reliable) :=
  match min_active (rl_array rel) None with
  | None => reliable_get_buf rel
  | Some min_id =>
      if reliable_pid_in_range1 (rl_packet_id rel) min_id (rl_size rel)
      then reliable_get_buf rel else Some (None, rel)
  end.

Definition reliable_get_entry_sequenced (rel : reliable) : option nat :=
  find_index (is_active_id (rl_packet_id rel)) (rl_array rel).

(** ** Timers *)

Definition is_current (now : Z) (e : reliable_entry) : bool :=
  e_active e && ((e_next_try e <=? now) || (N_ACK_RETRANSMIT <=? e_n_acks e)).

Definition reliable_can_send (now : Z) (rel : reliable) : bool :=
  (0 <? zlen (filter (fun e => is_current now e = true) (rl_array rel))) && negb (rl_hold rel).

(** The loop of [reliable_send] from index [i] on: the best entry and its place. *)
Fixpoint best_loop (now : Z) (l : list reliable_entry) (i : nat) (best : option (nat * reliable_entry))
  : option (nat * reliable_entry) :=
  match l with
  | [] => best
  | e :: l =>
      best_loop now l (S i)
        (if is_current now e then
           match best with
           | None => Some (i, e)
           | Some (_, b) => if reliable_pid_min (e_packet_id e) (e_packet_id b) then Some (i, e) else best
           end
         else best)
  end.

(** The index and opcode of the packet to send.  [timeout *= 2] is on [int]. *)
Definition reliable_send (now : Z) (rel : reliable) : option (nat * Z) * reliable :=
  match best_loop now (rl_array rel) O None with
  | Some (i, e) =>
      (Some (i, e_opcode e),
       set_entry rel i (mk_entry (e_active e) (i32 (e_timeout e * 2)) (now + e_timeout e)
                          (e_packet_id e) 0 (e_opcode e) (e_buf e)))
  | None => (None, rel)
  end.

Definition reliable_schedule_now (now : Z) (rel : reliable) : reliable :=
  mk_rel (rl_initial_timeout rel) (rl_packet_id rel) (rl_offset rel) false
    ((fun e => if e_active e
               then mk_entry true (rl_initial_timeout rel) now (e_packet_id e) (e_n_acks e)
                      (e_opcode e) (e_buf e)
               else e) <$> rl_array rel).

(** The loop of [reliable_send_timeout]; [break] when an entry is due. *)
Fixpoint timeout_loop (now : Z) (l : list reliable_entry) (ret : Z) : Z :=
  match l with
  | [] => ret
  | e :: l =>
      if e_active e then
        if e_next_try e <=? now then 0
        else timeout_loop now l (min_int ret (i32 (e_next_try e - now)))
      else timeout_loop now l ret
  end.

Definition reliable_send_timeout (now : Z) (rel : reliable) : Z :=
  timeout_loop now (rl_array rel) BIG_TIMEOUT.

(** ** Activating and releasing buffers *)

Definition reliable_mark_active_incoming (rel : reliable) (i : nat) (pid opcode : Z) : option reliable :=
  e ← rl_array rel !! i;
  ASSERT (negb (reliable_pid_min pid (rl_packet_id rel)));;
  Some (set_entry rel i (mk_entry true 0 0 pid 0 opcode (e_buf e))).

Definition reliable_mark_active_outgoing (rel : reliable) (i : nat) (opcode : Z) : option reliable :=
  e ← rl_array rel !! i;
  let pid := rl_packet_id rel in
  '(ok, b) ← Some (buf_write_prepend (e_buf e) (be_bytes 4 pid));
  ASSERT (ok : bool);;
  Some (set_entry (set_rel_packet_id rel (pid +u 1)) i
          (mk_entry true (rl_initial_timeout rel) 0 pid (e_n_acks e) opcode b)).

Definition reliable_mark_deleted (rel : reliable) (i : nat) : option reliable :=
  e ← rl_array rel !! i;
  Some (set_entry (set_rel_packet_id rel (e_packet_id e +u 1)) i (set_active e false)).
