(* ===== verification/AckList.v ===== *)
(** * Acknowledgement records: the most-recently-used list and the wire format

    What [copy_acks_to_mru], [reliable_ack_write] and [reliable_ack_parse] do, as
    facts about lists of ids and byte strings. *)
From S2P Require Import Prelude Integers Buffer Reliable.

(** ** Move to front *)

(** [id] first, then the others in their order, at most [RELIABLE_ACK_SIZE] in all. *)
Definition move_to_front (id : Z) (l : list Z) : list Z :=
  take (Z.to_nat RELIABLE_ACK_SIZE) (id :: filter (fun x => x <> id) l).

(** A list of ids as a [struct reliable_ack] holds it. *)
Definition ack_wf (l : list Z) : Prop := NoDup l /\ zlen l <= RELIABLE_ACK_SIZE /\ Forall is_u32 l.

Lemma filter_notin (id : Z) (l : list Z) : id ∉ l -> filter (fun x => x <> id) l = l.
Proof.
  induction l as [|x l IH]; intros Hi; [done|].
  apply not_elem_of_cons in Hi as [??]. rewrite filter_cons_True by congruence. by rewrite IH.
Qed.

Lemma mru_shift_absent id move l :
  id ∉ l -> exists l' m, mru_shift id move l = (l', Some m) /\ l' ++ [m] = move :: l.
Proof.
  revert move. induction l as [|x l IH]; intros move Hi; cbn [mru_shift].
  { by exists [], move. }
  apply not_elem_of_cons in Hi as [? Hi]. destruct (Z.eqb_spec x id); [congruence|].
  destruct (IH x Hi) as (l' & m & -> & E). exists (move :: l'), m. by rewrite <- E.
Qed.

Lemma mru_shift_present id move l1 l2 :
  id ∉ l1 -> mru_shift id move (l1 ++ id :: l2) = (move :: l1 ++ l2, None).
Proof.
  revert move. induction l1 as [|x l1 IH]; intros move Hi; cbn [mru_shift app].
  { by rewrite Z.eqb_refl. }
  apply not_elem_of_cons in Hi as [? Hi]. destruct (Z.eqb_spec x id); [congruence|].
  by rewrite IH.
Qed.

(** The shifting loop is move-to-front. *)
Lemma mru_insert_ok l id : ack_wf l -> mru_insert l id = move_to_front id l.
Proof.
  intros (Hnd & Hlen & _). unfold mru_insert, move_to_front, RELIABLE_ACK_SIZE in *.
  destruct l as [|x l0].
  { change (zlen [] =? 0) with true. cbn [mru_shift]. rewrite Z.eqb_refl. done. }
  replace (zlen (x :: l0) =? 0) with false by (cbn; lia).
  set (l := x :: l0) in *. destruct (decide (id ∈ l)) as [Hi|Hi].
  - apply list_elem_of_split in Hi as (l1 & l2 & E). rewrite E in *.
    apply NoDup_app in Hnd as (Hn1 & Hd & Hn2). apply NoDup_cons in Hn2 as [Hi2 Hn2].
    assert (id ∉ l1) as Hi1 by (intros ?; apply (Hd id); set_solver).
    rewrite mru_shift_present by done. rewrite filter_app, filter_cons_False by congruence.
    rewrite !filter_notin by done. rewrite take_ge; [done|].
    rewrite length_app in *. cbn [length] in *. rewrite length_app. lia.
  - destruct (mru_shift_absent id id l Hi) as (l' & m & -> & E).
    rewrite filter_notin by done. rewrite <- E in *.
    assert (length l' = length l) as Hl' by (apply (f_equal length) in E; rewrite length_app in E; cbn in *; lia).
    destruct (Z.ltb_spec (zlen l') 8).
    + rewrite take_ge; [done|]. rewrite length_app. cbn. lia.
    + rewrite take_app_le by lia. rewrite take_ge by lia. done.
Qed.

Lemma move_to_front_wf id l : is_u32 id -> ack_wf l -> ack_wf (move_to_front id l).
Proof.
  intros Hid (Hnd & Hlen & Hu). unfold move_to_front. split_and!.
  - eapply sublist_NoDup; [|apply sublist_take]. apply NoDup_cons. split.
    + rewrite list_elem_of_filter. tauto.
    + by apply NoDup_filter.
  - rewrite length_take. unfold RELIABLE_ACK_SIZE. lia.
  - apply Forall_take. constructor; [done|].
    rewrite Forall_forall in *. intros x [_ Hx]%list_elem_of_filter. auto.
Qed.

Lemma move_to_front_in x id l : x ∈ move_to_front id l -> x = id \/ x ∈ l.
Proof.
  intros Hx%(sublist_subseteq _ _ (sublist_take _ _)). apply elem_of_cons in Hx as [->|Hx]; [by left|].
  apply list_elem_of_filter in Hx. tauto.
Qed.

(** The whole loop puts the acknowledged ids in front, in their order. *)
Definition mru_merge (new old : list Z) : list Z :=
  take (Z.to_nat RELIABLE_ACK_SIZE) (new ++ filter (fun x => x ∉ new) old).

Lemma take_filter_take (id : Z) n (l : list Z) :
  NoDup l -> take n (filter (fun x => x <> id) (take (S n) l)) = take n (filter (fun x => x <> id) l).
Proof.
  revert l. induction n as [|n IH]; intros l Hl; [done|].
  destruct l as [|y l]; [done|]. apply NoDup_cons in Hl as [Hy Hl].
  rewrite (firstn_cons (S n) y l), !filter_cons. case_decide as Hd.
  - cbn [take]. f_equal. by apply IH.
  - destruct (decide (y = id)) as [->|]; [|tauto].
    assert (id ∉ take (S n) l) by (intros H%(sublist_subseteq _ _ (sublist_take _ _)); done).
    rewrite !filter_notin by done. by rewrite take_take, Nat.min_id.
Qed.

Lemma filter_notin_cons id new (old : list Z) :
  filter (fun x => x <> id) (filter (fun x => x ∉ new) old) = filter (fun x => x ∉ id :: new) old.
Proof.
  rewrite list_filter_filter. apply list_filter_iff. intros x. rewrite not_elem_of_cons. tauto.
Qed.

Lemma filter_notin_nil (old : list Z) : filter (fun x => x ∉ []) old = old.
Proof.
  induction old as [|x old IH]; [done|].
  rewrite filter_cons_True by apply not_elem_of_nil. by rewrite IH.
Qed.

Lemma NoDup_merge (new old : list Z) :
  NoDup new -> NoDup old -> NoDup (new ++ filter (fun x => x ∉ new) old).
Proof.
  intros. apply NoDup_app. split_and!; [done| |by apply NoDup_filter].
  intros x Hx. rewrite list_elem_of_filter. tauto.
Qed.

Lemma mru_fold_ok new old :
  NoDup new -> Forall is_u32 new -> ack_wf old ->
  foldl mru_insert old (rev new) = mru_merge new old /\ ack_wf (mru_merge new old).
Proof.
  intros Hn Hu Ho. induction new as [|x new IH]; cbn [rev].
  - unfold mru_merge. rewrite filter_notin_nil. destruct Ho as (? & Hl & ?). cbn [app foldl].
    rewrite take_ge by (unfold RELIABLE_ACK_SIZE in *; lia). by repeat split.
  - apply NoDup_cons in Hn as [Hx Hn]. apply Forall_cons in Hu as [Hxu Hu].
    destruct (IH Hn Hu) as [IH1 IH2]. rewrite foldl_app, IH1. cbn [foldl].
    rewrite mru_insert_ok by done.
    enough (move_to_front x (mru_merge new old) = mru_merge (x :: new) old) as E.
    { split; [done|]. rewrite <- E. by apply move_to_front_wf. }
    unfold move_to_front, mru_merge. change (Z.to_nat RELIABLE_ACK_SIZE) with 8%nat.
    destruct Ho as (? & _). rewrite firstn_cons, take_filter_take by by apply NoDup_merge.
    rewrite filter_app, filter_notin, filter_notin_cons by done. done.
Qed.

Lemma mru_merge_in x new old : x ∈ mru_merge new old -> x ∈ new \/ x ∈ old.
Proof.
  intros Hx%(sublist_subseteq _ _ (sublist_take _ _)). apply elem_of_app in Hx as [|Hx]; [by left|].
  apply list_elem_of_filter in Hx. tauto.
Qed.

Lemma ack_wf_take n l : ack_wf l -> ack_wf (take n l).
Proof.
  intros (? & ? & ?). split_and!.
  - by eapply sublist_NoDup; [|apply sublist_take].
  - rewrite length_take. lia.
  - by apply Forall_take.
Qed.

Lemma ack_wf_drop n l : ack_wf l -> ack_wf (drop n l).
Proof.
  intros (? & ? & ?). split_and!.
  - by eapply sublist_NoDup; [|apply sublist_drop].
  - rewrite length_drop. lia.
  - by apply Forall_drop.
Qed.

Lemma copy_acks_ok ack mru n :
  ack_wf ack -> ack_wf mru -> n <= zlen ack ->
  let new := take (Z.to_nat n) ack in
  copy_acks_to_mru ack mru n = Some (mru_merge new mru) /\ ack_wf (mru_merge new mru).
Proof.
  intros Ha Hm Hn new. destruct (ack_wf_take (Z.to_nat n) ack Ha) as (Hnd & _ & Hu).
  destruct (mru_fold_ok new mru Hnd Hu Hm) as [E ?]. split; [|done].
  unfold copy_acks_to_mru. rewrite ASSERT_true by lia. exact (f_equal Some E).
Qed.

(** Acknowledging an id keeps the list a set. *)
Lemma ack_present_ok ack pid : reliable_ack_packet_id_present ack pid = true <-> pid ∈ ack.
Proof.
  induction ack as [|p ack IH]; cbn; [by rewrite elem_of_nil|]. rewrite elem_of_cons.
  destruct (Z.eqb_spec p pid) as [->|]; [intuition|]. rewrite IH. intuition congruence.
Qed.

Lemma acknowledge_ok ack pid :
  ack_wf ack -> is_u32 pid ->
  ack_wf (reliable_ack_acknowledge_packet_id ack pid).2 /\
  forall x, x ∈ (reliable_ack_acknowledge_packet_id ack pid).2 -> x ∈ ack \/ x = pid.
Proof.
  intros (Hn & Hl & Hu) Hp. unfold reliable_ack_acknowledge_packet_id.
  destruct (reliable_ack_packet_id_present ack pid) eqn:E; cbn [negb andb snd].
  { split; [done|]. by left. }
  assert (pid ∉ ack) by (rewrite <- ack_present_ok; congruence).
  destruct (Z.ltb_spec (zlen ack) RELIABLE_ACK_SIZE); cbn [snd]; [|split; [done|by left]].
  split.
  - split_and!; [|rewrite length_app; cbn [length]; lia|apply Forall_app; split; [done|by constructor]].
    apply NoDup_app. split_and!; [done| |apply NoDup_singleton]. intros x Hx ->%list_elem_of_singleton. done.
  - intros x [Hx|Hx%list_elem_of_singleton]%elem_of_app; auto.
Qed.

(** ** The wire format *)

Definition ack_ids (ids : list Z) : list Z := mjoin (be_bytes 4 <$> ids).

(** The count, the ids, and the session id when there are any. *)
Definition ack_record (ids sid : list Z) : list Z :=
  [zlen ids] ++ ack_ids ids ++ (if zlen ids =? 0 then [] else sid).

Lemma ack_ids_cons i ids : ack_ids (i :: ids) = be_bytes 4 i ++ ack_ids ids.
Proof. done. Qed.

Lemma length_ack_ids ids : zlen (ack_ids ids) = 4 * zlen ids.
Proof.
  induction ids as [|i ids IH]; [done|].
  rewrite ack_ids_cons, length_app, length_be_bytes. cbn [length]. lia.
Qed.

Lemma ack_ids_inj l k :
  length l = length k -> Forall is_u32 l -> Forall is_u32 k -> ack_ids l = ack_ids k -> l = k.
Proof.
  revert k. induction l as [|x l IH]; intros [|y k] Hlen Hl Hk E; try done.
  rewrite !ack_ids_cons in E. apply app_inj_1 in E as [E E']; [|by rewrite !length_be_bytes].
  apply Forall_cons in Hl as [Hx Hl], Hk as [Hy Hk]. f_equal; [|by apply IH; [injection Hlen|..]].
  apply (f_equal be_val) in E. rewrite !be_val_be_bytes in E. change (256 ^ Z.of_nat 4) with 4294967296 in E.
  by rewrite !Z.mod_small in E by done.
Qed.

Lemma ack_ids_bytes ids : bytes (ack_ids ids).
Proof.
  induction ids as [|i ids IH]; [constructor|]. rewrite ack_ids_cons.
  apply Forall_app; split; [apply be_bytes_bytes|done].
Qed.

Lemma length_ack_record ids sid :
  zlen sid = SID_SIZE -> zlen (ack_record ids sid) = ACK_SIZE (zlen ids).
Proof.
  intros Hs. unfold ack_record, ACK_SIZE. rewrite !length_app, !Nat2Z.inj_add, length_ack_ids.
  destruct (zlen ids =? 0); cbn [length]; lia.
Qed.

Lemma ack_record_bytes ids sid :
  zlen ids < 256 -> bytes sid -> bytes (ack_record ids sid).
Proof.
  intros. unfold ack_record. apply Forall_app; split.
  { constructor; [|constructor]. unfold is_u8. lia. }
  apply Forall_app; split; [apply ack_ids_bytes|]. by destruct (_ =? _).
Qed.

(** *** Writing *)

Lemma ack_write_loop_ok ids b h c t :
  buf_rep b h c t -> 4 * zlen ids <= t ->
  exists b', ack_write_loop ids b = Some b' /\ buf_rep b' h (c ++ ack_ids ids) (t - 4 * zlen ids).
Proof.
  revert b c t. induction ids as [|i ids IH]; intros b c t Hb Ht; cbn [ack_write_loop].
  { exists b. split; [done|]. unfold ack_ids. cbn. rewrite app_nil_r, Z.sub_0_r. done. }
  cbn [length] in Ht.
  destruct (write_rep b h c t (be_bytes 4 i) Hb (be_bytes_bytes 4 i)) as (b1 & -> & Hb1).
  { rewrite length_be_bytes. lia. }
  rewrite length_be_bytes in Hb1. cbn [mbind option_bind ASSERT].
  destruct (IH b1 _ _ Hb1) as (b' & -> & Hb'); [lia|]. exists b'. split; [done|].
  rewrite ack_ids_cons, app_assoc. cbn [length]. replace (t - 4 * Z.of_nat (S (length ids))) with
    (t - Z.of_nat 4 - 4 * zlen ids) by lia. done.
Qed.

(** The acknowledgements that go out: the new ones, then older ones again. *)
Definition acks_out (ack mru : reliable_ack) (max : Z) : list Z :=
  let n := Z.to_nat (min_int max (zlen ack)) in
  take (Z.to_nat max) (mru_merge (take n ack) mru).

(** The head room, content and tail room after a write in front or behind. *)
Definition wrote (prepend : bool) (r : list Z) (b : buffer) (h : Z) (c : list Z) (t : Z) : Prop :=
  if prepend then buf_rep b (h - zlen r) (r ++ c) t else buf_rep b h (c ++ r) (t - zlen r).

(** A window of [n] bytes in front of or behind the content; filling it completely is
    a write. *)
Lemma buf_sub_ok b h c t n (prepend : bool) :
  buf_rep b h c t -> 0 <= n <= (if prepend then h else t) ->
  exists sub p b', buf_sub b n prepend = (sub, Some p, b') /\ buf_rep sub 0 [] n /\
    forall sub' r, buf_rep sub' 0 r 0 -> zlen r = n -> wrote prepend r (buf_sub_commit b' (Some p) sub') h c t.
Proof.
  intros Hb Hn. pose proof (rep_bounds _ _ _ _ Hb) as (? & ? & ? & _).
  assert (Hroom : forall p b', zlen (mem b') = h + zlen c + t -> bytes (mem b') -> 0 <= p -> p + n <= h + zlen c + t ->
            buf_rep (mk_buffer n 0 0 (Some (slice p n (mem b')))) 0 [] n).
  { intros p b' Hl Hby ? ?. apply rep_intro; try lia.
    - apply length_slice; lia.
    - auto with bufdb.
    - done.
    - by rewrite slice_0. }
  assert (Hmem : forall sub' r, buf_rep sub' 0 r 0 -> mem sub' = r).
  { intros sub' r Hs. apply rep_unfold in Hs as (d & -> & Hd & _ & E). unfold mem; cbn.
    replace (zlen r) with (zlen d) in E by lia. by rewrite slice_all in E. }
  pose proof (rep_wf _ _ _ _ Hb) as [_ _ _ _ Hml Hmb]. rewrite (rep_cap _ _ _ _ Hb) in Hml.
  unfold buf_sub, wrote. destruct prepend.
  - rewrite (prepend_rep _ _ _ _ n Hb) by lia. do 3 eexists. split; [done|]. split.
    { apply Hroom; try done; lia. }
    intros sub' r Hs Hr. cbn [buf_sub_commit]. rewrite (Hmem _ _ Hs).
    pose proof (rep_bounds _ _ _ _ Hs) as (_ & _ & _ & Hrb).
    destruct (write_prepend_rep b h c t r Hb Hrb) as (b2 & E & Hb2); [lia|].
    unfold buf_write_prepend in E. rewrite (prepend_rep _ _ _ _ (zlen r) Hb) in E by lia.
    rewrite Hr in E. injection E as <-. by rewrite Hr in *.
  - assert (u64 n = n) as -> by (apply u64_small; unfold is_u64, BUF_SIZE_MAX in *; lia).
    rewrite (write_alloc_rep _ _ _ _ n Hb) by lia. do 3 eexists. split; [done|]. split.
    { apply Hroom; try done; lia. }
    intros sub' r Hs Hr. cbn [buf_sub_commit]. rewrite (Hmem _ _ Hs).
    pose proof (rep_bounds _ _ _ _ Hs) as (_ & _ & _ & Hrb).
    destruct (write_rep b h c t r Hb Hrb) as (b2 & E & Hb2); [lia|].
    unfold buf_write in E. rewrite (write_alloc_rep _ _ _ _ (zlen r) Hb) in E by lia.
    rewrite Hr in E. injection E as <-. by rewrite Hr in *.
Qed.

Lemma acks_out_wf ack mru max : ack_wf ack -> ack_wf mru -> ack_wf (acks_out ack mru max).
Proof.
  intros Ha Hm. unfold acks_out. apply ack_wf_take.
  apply (copy_acks_ok ack mru (min_int max (zlen ack)) Ha Hm). unfold min_int. destruct (_ <? _) eqn:E; lia.
Qed.

Lemma acks_out_in x ack mru max : x ∈ acks_out ack mru max -> x ∈ ack \/ x ∈ mru.
Proof.
  unfold acks_out. intros Hx%(sublist_subseteq _ _ (sublist_take _ _)).
  apply mru_merge_in in Hx as [Hx|]; [|by right]. left.
  by apply (sublist_subseteq _ _ (sublist_take _ _)) in Hx.
Qed.

(** The sub-buffer ends up full. *)
Lemma ack_write_record_ok ids sid sub :
  buf_rep sub 0 [] (ACK_SIZE (zlen ids)) -> zlen ids < 256 -> zlen sid = SID_SIZE -> bytes sid ->
  (ids <> [] -> session_id_defined sid = true) ->
  exists sub', ack_write_record ids sid sub = Some sub' /\ buf_rep sub' 0 (ack_record ids sid) 0.
Proof.
  intros Hsub Hids Hsid Hsb Hdef. unfold ack_write_record, ack_record, ACK_SIZE, SID_SIZE in *.
  destruct (write_rep sub 0 [] _ [zlen ids] Hsub) as (s1 & Hw1 & Hs1).
  { repeat constructor; unfold is_u8; lia. }
  { cbn [length]. destruct (_ =? _); lia. }
  unfold buf_write_u8. rewrite u8_small, Hw1 by (unfold is_u8; lia). cbn [mbind option_bind ASSERT].
  destruct (ack_write_loop_ok ids s1 _ _ _ Hs1) as (s2 & -> & Hs2).
  { cbn [length]. destruct (_ =? _); lia. }
  cbn [mbind option_bind ASSERT length app] in *. destruct (Z.eqb_spec (zlen ids) 0) as [E0|E0]; cbn [negb].
  - exists s2. split; [done|]. eapply rep_eq; [exact Hs2|done|by rewrite app_nil_r|lia].
  - rewrite Hdef by (by intros ->). cbn [mbind option_bind ASSERT].
    destruct (write_rep s2 _ _ _ sid Hs2 Hsb) as (s3 & Hw3 & Hs3); [lia|].
    unfold session_id_write. rewrite Hw3. cbn [mbind option_bind ASSERT].
    exists s3. split; [done|]. eapply rep_eq; [exact Hs3|done|done|lia].
Qed.

(** [reliable_ack_write] writes one record, in front or behind, and takes the new ids
    off [ack]. *)
Lemma ack_write_ok ack mru b sid max prepend h c t :
  buf_rep b h c t -> ack_wf ack -> ack_wf mru -> 0 < max -> zlen sid = SID_SIZE -> bytes sid ->
  (acks_out ack mru max <> [] -> session_id_defined sid = true) -> 9 + 4 * Z.min max 8 <= (if prepend : bool then h else t) ->
  let n := Z.to_nat (min_int max (zlen ack)) in
  exists b', reliable_ack_write ack mru b sid max prepend =
    Some (true, drop n ack, mru_merge (take n ack) mru, b') /\
    wrote prepend (ack_record (acks_out ack mru max) sid) b' h c t.
Proof.
  intros Hb Ha Hm Hmax Hsid Hsb Hdef Hroom n.
  destruct (copy_acks_ok ack mru (min_int max (zlen ack)) Ha Hm) as [Hcopy (_ & Hlen & _)].
  { unfold min_int. destruct (_ <? _) eqn:E; lia. }
  fold n in Hcopy, Hlen. unfold RELIABLE_ACK_SIZE in Hlen. unfold reliable_ack_write, acks_out in *.
  change (if max <? zlen ack then max else zlen ack) with (min_int max (zlen ack)).
  fold n in Hdef |- *. rewrite Hcopy, Some_bind. clear Hcopy.
  generalize dependent (mru_merge (take n ack) mru). intros mru' Hdef Hlen.
  assert (u8 (min_int max (zlen mru')) = zlen (take (Z.to_nat max) mru')) as ->.
  { rewrite length_take, u8_small; unfold min_int, is_u8; destruct (_ <? _) eqn:E; lia. }
  rewrite (ASSERT_true (_ <=? zlen mru')), Some_bind by (rewrite length_take; lia).
  replace (take (Z.to_nat (zlen (take (Z.to_nat max) mru'))) mru') with (take (Z.to_nat max) mru').
  2: { rewrite Nat2Z.id, length_take, <- take_take, firstn_all. done. }
  assert (zlen (take (Z.to_nat max) mru') <= Z.min max 8) by (rewrite length_take; lia).
  generalize dependent (take (Z.to_nat max) mru'). intros out Hdef Hout.
  destruct (buf_sub_ok b h c t (ACK_SIZE (zlen out)) prepend Hb) as (sub & p & b1 & -> & Hsub & Hcommit).
  { unfold ACK_SIZE, SID_SIZE. destruct (_ =? _), prepend; lia. }
  rewrite (rep_def _ _ _ _ Hsub). cbn [negb].
  destruct (ack_write_record_ok out sid sub Hsub) as (s3 & -> & Hs3); [lia|done..|].
  rewrite Some_bind, (ASSERT_true (0 <=? _)), Some_bind by (unfold min_int; destruct (_ <? _); lia).
  eexists. split; [done|]. apply Hcommit; [done|]. by apply length_ack_record.
Qed.

(** *** Parsing *)

Lemma ack_parse_loop_ok ids b h rest t acc :
  buf_rep b h (ack_ids ids ++ rest) t -> Forall is_u32 ids -> zlen (acc ++ ids) <= RELIABLE_ACK_SIZE ->
  exists b', ack_parse_loop (length ids) b acc = (true, b', acc ++ ids) /\
             buf_rep b' (h + 4 * zlen ids) rest t.
Proof.
  revert b h acc. induction ids as [|i ids IH]; intros b h acc Hb Hu Hl; cbn [ack_parse_loop length].
  { exists b. rewrite app_nil_r. split; [done|]. by rewrite Z.mul_0_r, Z.add_0_r. }
  apply Forall_cons in Hu as [Hi Hu]. rewrite ack_ids_cons, <- app_assoc in Hb.
  destruct (read_rep _ _ _ _ _ Hb) as (b1 & Hr & Hb1). rewrite length_be_bytes in Hr, Hb1.
  change 4 with (Z.of_nat 4). rewrite Hr.
  rewrite length_app in Hl. cbn [length] in Hl.
  replace (RELIABLE_ACK_SIZE <=? zlen acc) with false by lia.
  rewrite be_val_be_bytes. change (256 ^ Z.of_nat 4) with 4294967296. rewrite Z.mod_small by done.
  destruct (IH b1 _ (acc ++ [i]) Hb1 Hu) as (b' & -> & Hb').
  { rewrite !length_app. cbn. lia. }
  exists b'. rewrite <- app_assoc. split; [done|].
  replace (h + Z.of_nat 4 * Z.of_nat (S (length ids))) with (h + Z.of_nat 4 + 4 * zlen ids) by lia. done.
Qed.

Lemma ack_parse_ok ids sid b h rest t :
  buf_rep b h (ack_record ids sid ++ rest) t -> ack_wf ids -> zlen sid = SID_SIZE ->
  exists b', reliable_ack_parse b = (true, b', ids, if zlen ids =? 0 then None else Some sid) /\
             buf_rep b' (h + ACK_SIZE (zlen ids)) rest t.
Proof.
  intros Hb (_ & Hl & Hu) Hsid. unfold ack_record in Hb. rewrite <- !app_assoc in Hb.
  destruct (read_rep _ _ _ _ _ Hb) as (b1 & Hr & Hb1). change (zlen [zlen ids]) with 1 in *.
  unfold reliable_ack_parse. rewrite Hr.
  change (be_val [zlen ids]) with (0 * 256 + zlen ids). rewrite Z.mul_0_l, Z.add_0_l, Nat2Z.id.
  destruct (ack_parse_loop_ok ids b1 _ _ _ [] Hb1 Hu) as (b2 & -> & Hb2); [done|].
  cbn [app]. unfold ACK_SIZE. destruct (zlen ids =? 0) eqn:E; cbn [negb].
  - exists b2. split; [done|]. cbn [app] in Hb2. by replace (h + (1 + 0 + 4 * zlen ids)) with (h + 1 + 4 * zlen ids) by lia.
  - unfold session_id_read. destruct (read_rep _ _ _ _ _ Hb2) as (b3 & Hr3 & Hb3).
    rewrite Hsid in Hr3, Hb3. rewrite Hr3. exists b3. split; [done|].
    by replace (h + (1 + SID_SIZE + 4 * zlen ids)) with (h + 1 + 4 * zlen ids + SID_SIZE) by lia.
Qed.

Lemma ack_read_ok ids sid b h rest t :
  buf_rep b h (ack_record ids sid ++ rest) t -> ack_wf ids -> zlen sid = SID_SIZE ->
  session_id_defined sid = true ->
  exists b', reliable_ack_read b sid = (true, b', ids) /\ buf_rep b' (h + ACK_SIZE (zlen ids)) rest t.
Proof.
  intros Hb Hi Hs Hd. destruct (ack_parse_ok _ _ _ _ _ _ Hb Hi Hs) as (b' & E & Hb').
  exists b'. split; [|done]. unfold reliable_ack_read. rewrite E.
  destruct (zlen ids =? 0) eqn:E0; [by rewrite andb_false_r|].
  rewrite Hd. unfold session_id_equal. rewrite bool_decide_eq_true_2 by done. cbn. by rewrite andb_false_r.
Qed.
