(* ===== verification/Windows.v ===== *)
(** * The reliability windows: facts about the arrays of [struct reliable]

    The ids of the active entries, the search loops, and the invariants of a send
    window and of a receive window with respect to the sequence of packets ([log])
    that the sending side has numbered: opcode and payload, by packet id. *)
From S2P Require Import Prelude Integers Buffer Reliable.

(** ** Ids without wrap-around *)

(** Packet ids below this bound do not meet the wrap-around of the comparisons. *)
Definition ID_BOUND : Z := 2147483648 - 16.

Ltac solve_id := unfold ID_BOUND, reliable_pid_min, reliable_pid_in_range1, reliable_pid_in_range2,
  subtract_pid, u32 in *; lia_mod.

Lemma pid_min_ok a b : 0 <= a <= ID_BOUND -> 0 <= b <= ID_BOUND -> reliable_pid_min a b = (a <? b).
Proof. intros. solve_id. Qed.

Lemma in_range1_ok a b n :
  0 <= b <= a -> a <= ID_BOUND -> 0 <= n < 16 -> reliable_pid_in_range1 a b n = (a - b <? n).
Proof. intros. solve_id. Qed.

Lemma in_range2_ok a b n :
  is_u32 a -> 0 <= b <= ID_BOUND -> 0 <= n < 16 -> reliable_pid_in_range2 a b n = (a <? b + n).
Proof.
  intros. unfold reliable_pid_in_range2, ID_BOUND in *. rewrite (u32_small (b + n)) by (unfold is_u32; lia).
  by replace (b <=? b + n) with true by lia.
Qed.

(** ** Searches *)

Lemma find_index_Some {A} (p : A -> bool) l i :
  find_index p l = Some i -> exists x, l !! i = Some x /\ p x = true.
Proof.
  revert i. induction l as [|x l IH]; intros i; cbn [find_index]; [done|].
  destruct (p x) eqn:E; [intros [= <-]; by exists x|].
  destruct (find_index p l) as [j|]; [|done]. intros [= <-]. by apply IH.
Qed.

Lemma find_index_None {A} (p : A -> bool) l : find_index p l = None -> forall x, x ∈ l -> p x = false.
Proof.
  induction l as [|x l IH]; cbn [find_index]; intros H y Hy; [by apply elem_of_nil in Hy|].
  destruct (p x) eqn:E; [done|]. apply fmap_None in H.
  apply elem_of_cons in Hy as [->|Hy]; auto.
Qed.

(** A list of distinct integers is no longer than the interval it lives in. *)
Lemma NoDup_interval (l : list Z) a b :
  NoDup l -> (forall x, x ∈ l -> a <= x < b) -> a <= b -> zlen l <= b - a.
Proof.
  intros Hnd Hin Hab. transitivity (zlen (seqZ a (b - a))); [|rewrite length_seqZ; lia].
  apply Nat2Z.inj_le, submseteq_length, NoDup_submseteq; [done|].
  intros x Hx. apply elem_of_seqZ. specialize (Hin x Hx). lia.
Qed.

(** ** The ids of the active entries *)

Definition active_ids (l : list reliable_entry) : list Z :=
  e_packet_id <$> filter (fun e => e_active e = true) l.

#[global] Arguments active_ids : simpl never.

Definition id_of (e : reliable_entry) : list Z := if e_active e then [e_packet_id e] else [].

Lemma active_ids_cons e l : active_ids (e :: l) = id_of e ++ active_ids l.
Proof. unfold active_ids, id_of. rewrite filter_cons. by destruct (e_active e). Qed.

Lemma active_ids_app l k : active_ids (l ++ k) = active_ids l ++ active_ids k.
Proof. induction l as [|e l IH]; [done|]. cbn [app]. by rewrite !active_ids_cons, IH, app_assoc. Qed.

Lemma active_ids_in x l : x ∈ active_ids l <-> exists e, e ∈ l /\ e_active e = true /\ e_packet_id e = x.
Proof.
  unfold active_ids. rewrite list_elem_of_fmap. setoid_rewrite list_elem_of_filter. naive_solver.
Qed.

(** What replacing one entry does. *)
Lemma active_split l i e0 :
  l !! i = Some e0 ->
  exists rest, active_ids l ≡ₚ id_of e0 ++ rest /\
               forall e, active_ids (<[i := e]> l) ≡ₚ id_of e ++ rest.
Proof.
  intros Hi. exists (active_ids (take i l) ++ active_ids (drop (S i) l)). split.
  - rewrite <- (take_drop_middle l i e0 Hi) at 1. rewrite active_ids_app, active_ids_cons.
    rewrite !app_assoc. f_equiv. apply Permutation_app_comm.
  - intros e. rewrite insert_take_drop by (by eapply lookup_lt_Some).
    rewrite active_ids_app, active_ids_cons. rewrite !app_assoc. f_equiv. apply Permutation_app_comm.
Qed.

Lemma active_same l i e0 e :
  l !! i = Some e0 -> id_of e = id_of e0 -> active_ids (<[i := e]> l) ≡ₚ active_ids l.
Proof. intros Hi E. destruct (active_split l i e0 Hi) as (r & -> & ->). by rewrite E. Qed.

Lemma active_fill l i e0 e :
  l !! i = Some e0 -> e_active e0 = false -> e_active e = true ->
  active_ids (<[i := e]> l) ≡ₚ e_packet_id e :: active_ids l.
Proof.
  intros Hi H0 H1. destruct (active_split l i e0 Hi) as (r & -> & ->). unfold id_of. by rewrite H0, H1.
Qed.

Lemma active_clear l i e0 e :
  l !! i = Some e0 -> e_active e0 = true -> e_active e = false ->
  active_ids l ≡ₚ e_packet_id e0 :: active_ids (<[i := e]> l).
Proof.
  intros Hi H0 H1. destruct (active_split l i e0 Hi) as (r & -> & ->). unfold id_of. by rewrite H0, H1.
Qed.

Lemma length_active_le l : (length (active_ids l) <= length l)%nat.
Proof. unfold active_ids. rewrite length_fmap. apply length_filter. Qed.

(** A free entry exists when there are fewer active ids than entries. *)
Lemma free_exists l :
  (length (active_ids l) < length l)%nat ->
  exists i e, find_index (fun e => negb (e_active e)) l = Some i /\ l !! i = Some e /\ e_active e = false.
Proof.
  intros Hlt. destruct (find_index _ l) as [i|] eqn:E.
  - destruct (find_index_Some _ _ _ E) as (e & ? & ?). exists i, e. split_and!; try done. by destruct (e_active e).
  - exfalso. pose proof (find_index_None _ _ E) as Hall. clear E. cbn in Hall.
    induction l as [|e l IH]; [cbn in Hlt; lia|]. rewrite active_ids_cons in Hlt. unfold id_of in Hlt.
    specialize (Hall e (list_elem_of_here _ _)) as He. destruct (e_active e); [|done]. cbn in Hlt.
    apply IH; [lia|]. intros x Hx. apply Hall. by apply list_elem_of_further.
Qed.

(** The loop over the active ids finds the least. *)
Lemma min_active_ok l acc :
  (forall x, x ∈ active_ids l -> 0 <= x <= ID_BOUND) -> (forall m, acc = Some m -> 0 <= m <= ID_BOUND) ->
  match min_active l acc with
  | None => active_ids l = [] /\ acc = None
  | Some m => (m ∈ active_ids l \/ acc = Some m) /\ (forall x, x ∈ active_ids l -> m <= x) /\
              (forall x, acc = Some x -> m <= x)
  end.
Proof.
  revert acc. induction l as [|e l IH]; intros acc Hl Hacc; cbn [min_active].
  { destruct acc as [m|]; [|done]. split_and!; [by right|by intros ? ?%elem_of_nil|intros x [= ->]; lia]. }
  rewrite active_ids_cons in *. unfold id_of in *. destruct (e_active e); cbn [app] in *; [|apply IH; done].
  set (x := e_packet_id e) in *. assert (Hx : 0 <= x <= ID_BOUND) by (apply Hl; set_solver).
  set (acc' := match acc with None => Some x | Some m => if reliable_pid_min x m then Some x else Some m end).
  assert (Hacc' : exists m, acc' = Some m /\ (m = x \/ acc = Some m) /\ m <= x /\ (forall y, acc = Some y -> m <= y)).
  { unfold acc'. destruct acc as [m|].
    - specialize (Hacc m eq_refl). rewrite pid_min_ok by done.
      destruct (Z.ltb_spec x m); [exists x|exists m]; (split_and!; [done|auto|lia|intros y [= <-]; lia]).
    - exists x. split_and!; [done|by left|lia|done]. }
  destruct Hacc' as (m & -> & Hm & Hmx & Hmacc).
  specialize (IH (Some m)). destruct (min_active l (Some m)) as [k|].
  - destruct IH as (Hk & Hk1 & Hk2); [set_solver| |].
    { intros y [= <-]. destruct Hm as [->|Hm]; [done|by apply Hacc]. }
    specialize (Hk2 m eq_refl). split_and!.
    + destruct Hk as [Hk|[= ->]]; [set_solver|]. destruct Hm as [->|Hm]; [set_solver|by right].
    + intros y [->|Hy]%elem_of_cons; [lia|auto].
    + intros y Hy. specialize (Hmacc y Hy). lia.
  - destruct IH as [_ ?]; [set_solver| |done].
    intros y [= <-]. destruct Hm as [->|Hm]; [done|by apply Hacc].
Qed.

Lemma lookup_set_entry rel i e : (i < length (rl_array rel))%nat -> rl_array (set_entry rel i e) !! i = Some e.
Proof. intros. cbn. by apply list_lookup_insert_eq. Qed.

(** ** Buffers of the entries *)

(** Every entry owns a block of [cap] bytes. *)
Definition slot (cap : Z) (e : reliable_entry) : Prop :=
  exists h c t, buf_rep (e_buf e) h c t /\ h + zlen c + t = cap.

Lemma slot_set_active cap e a : slot cap e -> slot cap (set_active e a).
Proof. done. Qed.

Lemma rep_slot cap e b h c t : buf_rep b h c t -> h + zlen c + t = cap -> slot cap (set_buf e b).
Proof. intros. by exists h, c, t. Qed.

(** [reliable_get_buf] gives an inactive entry with an emptied buffer. *)
Lemma get_buf_ok rel cap :
  Forall (slot cap) (rl_array rel) -> 0 <= rl_offset rel <= cap ->
  (length (active_ids (rl_array rel)) < length (rl_array rel))%nat ->
  exists i e b, reliable_get_buf rel = Some (Some i, set_entry rel i (set_buf e b)) /\
    rl_array rel !! i = Some e /\ e_active e = false /\ buf_rep b (rl_offset rel) [] (cap - rl_offset rel).
Proof.
  intros Hs Hoff Hlt. destruct (free_exists _ Hlt) as (i & e & Hf & He & Ha).
  destruct (Forall_lookup_1 _ _ _ _ Hs He) as (h & c & t & Hb & Hcap).
  destruct (init_rep _ _ _ _ (rl_offset rel) Hb) as (b & Hi & Hb'); [lia|].
  exists i, e, b. unfold reliable_get_buf. rewrite Hf, He. cbn. rewrite Hi. cbn.
  split_and!; [done..|]. by rewrite <- Hcap.
Qed.
