(* ===== verification/SendWindow.v ===== *)
(** * The send window: every operation of [struct reliable] on outgoing packets

    [send_inv rel log]: the window holds, of the packets numbered so far ([log]:
    opcode and payload by packet id), some of the last [rl_size], each with its id
    in front of its payload. *)
From S2P Require Import Prelude Integers Buffer Reliable Windows.

Section send_window.
Context (cap off : Z) (Hoff : 4 <= off <= cap).
Implicit Types (rel : reliable) (log : list (Z * list Z)).

(** An active entry: the packet of that number. *)
Definition sent_entry (n : Z) log (e : reliable_entry) : Prop :=
  0 <= e_packet_id e /\ zlen log - n <= e_packet_id e /\
  exists pl t, log !! Z.to_nat (e_packet_id e) = Some (e_opcode e, pl) /\
    buf_rep (e_buf e) (off - 4) (be_bytes 4 (e_packet_id e) ++ pl) t.

Record send_inv rel log : Prop := {
  si_offset : rl_offset rel = off;
  si_size : 0 < rl_size rel < 16;
  si_bound : zlen log <= ID_BOUND;
  si_packet_id : rl_packet_id rel = zlen log;
  si_slots : Forall (slot cap) (rl_array rel);
  si_nodup : NoDup (active_ids (rl_array rel));
  si_entries : forall e, e ∈ rl_array rel -> e_active e = true -> sent_entry (rl_size rel) log e
}.

(** The packet ids that may still be used before the oldest unacknowledged packet is
    out of the window. *)
Definition avail rel : Z := reliable_get_num_output_sequenced_available rel.

Lemma sent_entry_bounds n log e : sent_entry n log e -> 0 <= e_packet_id e < zlen log.
Proof. intros (? & _ & pl & t & Hl & _). apply lookup_lt_Some in Hl. lia. Qed.

Lemma send_ids rel log x :
  send_inv rel log -> x ∈ active_ids (rl_array rel) ->
  0 <= x < zlen log /\ zlen log - rl_size rel <= x.
Proof.
  intros Hs (e & He & Ha & <-)%active_ids_in. pose proof (si_entries _ _ Hs e He Ha) as Hse.
  pose proof (sent_entry_bounds _ _ _ Hse). destruct Hse as (_ & ? & _). lia.
Qed.

Lemma send_min rel log :
  send_inv rel log ->
  match min_active (rl_array rel) None with
  | None => active_ids (rl_array rel) = []
  | Some m => m ∈ active_ids (rl_array rel) /\ (forall x, x ∈ active_ids (rl_array rel) -> m <= x)
  end.
Proof.
  intros Hs. pose proof (si_bound _ _ Hs).
  pose proof (min_active_ok (rl_array rel) None) as Hm. destruct (min_active _ None).
  - destruct Hm as ([?|?] & ? & _); [| |done..|done]; [|done].
    intros x Hx. pose proof (send_ids _ _ _ Hs Hx). lia.
  - destruct Hm; [|done|done]. intros x Hx. pose proof (send_ids _ _ _ Hs Hx). lia.
Qed.

(** What the window offers, and what it asks of the ids in use. *)
Lemma avail_ok rel log :
  send_inv rel log ->
  0 <= avail rel <= rl_size rel /\
  (forall x, x ∈ active_ids (rl_array rel) -> zlen log - x <= rl_size rel - avail rel) /\
  (avail rel = rl_size rel \/ exists x, x ∈ active_ids (rl_array rel) /\ zlen log - x = rl_size rel - avail rel) /\
  zlen (active_ids (rl_array rel)) <= rl_size rel - avail rel.
Proof.
  intros Hs. pose proof (send_min _ _ Hs) as Hm. pose proof (si_size _ _ Hs). pose proof (si_bound _ _ Hs).
  unfold avail, reliable_get_num_output_sequenced_available.
  destruct (min_active _ None) as [m|].
  - destruct Hm as [Hm Hmin]. pose proof (send_ids _ _ _ Hs Hm) as Hmb. unfold ID_BOUND in *.
    rewrite (si_packet_id _ _ Hs). unfold subtract_pid. rewrite u32_small by (unfold is_u32; lia).
    assert (i32 (rl_size rel - (zlen log - m)) = rl_size rel - (zlen log - m)) as -> by (unfold i32; lia_mod).
    split; [lia|]. split; [intros x Hx; specialize (Hmin x Hx); lia|]. split; [right; exists m; split; [done|lia]|].
    transitivity (zlen log - m); [|lia]. apply NoDup_interval; [apply (si_nodup _ _ Hs)| |lia].
    intros x Hx. specialize (Hmin x Hx). pose proof (send_ids _ _ _ Hs Hx). lia.
  - rewrite Hm. split_and!; [lia|lia|intros x ?%elem_of_nil; done|by left|cbn; lia].
Qed.

(** [reliable_get_buf_output_sequenced] gives a buffer exactly when an id is available. *)
Lemma get_output_ok rel log :
  send_inv rel log ->
  if 0 <? avail rel then
    exists i e b, reliable_get_buf_output_sequenced rel = Some (Some i, set_entry rel i (set_buf e b)) /\
      rl_array rel !! i = Some e /\ e_active e = false /\ buf_rep b off [] (cap - off)
  else reliable_get_buf_output_sequenced rel = Some (None, rel).
Proof.
  intros Hs. pose proof (avail_ok _ _ Hs) as (Ha & _ & _ & Hlen). pose proof (si_size _ _ Hs).
  pose proof (si_bound _ _ Hs). pose proof (send_min _ _ Hs) as Hm.
  assert (Hget : 0 < avail rel -> exists i e b, reliable_get_buf rel = Some (Some i, set_entry rel i (set_buf e b)) /\
      rl_array rel !! i = Some e /\ e_active e = false /\ buf_rep b off [] (cap - off)).
  { intros. rewrite <- (si_offset _ _ Hs). apply get_buf_ok; [apply (si_slots _ _ Hs)| |].
    - rewrite (si_offset _ _ Hs). lia.
    - unfold rl_size in *. lia. }
  unfold reliable_get_buf_output_sequenced, avail, reliable_get_num_output_sequenced_available in *.
  destruct (min_active _ None) as [m|].
  - destruct Hm as [Hm Hmin]. pose proof (send_ids _ _ _ Hs Hm). unfold ID_BOUND in *.
    rewrite (si_packet_id _ _ Hs) in *. rewrite in_range1_ok by (unfold ID_BOUND; lia).
    unfold subtract_pid in *. rewrite u32_small in * by (unfold is_u32; lia).
    assert (i32 (rl_size rel - (zlen log - m)) = rl_size rel - (zlen log - m)) as E by (unfold i32; lia_mod).
    rewrite E in *. destruct (Z.ltb_spec 0 (rl_size rel - (zlen log - m))).
    + replace (zlen log - m <? rl_size rel) with true by lia. by apply Hget.
    + by replace (zlen log - m <? rl_size rel) with false by lia.
  - replace (0 <? rl_size rel) with true by lia. apply Hget. lia.
Qed.

(** Entries that are replaced by the same packet, or become free. *)
Lemma send_inv_update rel log i e0 e :
  send_inv rel log -> rl_array rel !! i = Some e0 -> slot cap e ->
  (e_active e = false \/ (id_of e = id_of e0 /\ sent_entry (rl_size rel) log e)) ->
  send_inv (set_entry rel i e) log.
Proof.
  intros Hs Hi Hslot He. destruct (active_split _ _ _ Hi) as (rest & Hold & Hnew). specialize (Hnew e).
  destruct Hs as [H1 H2 H3 H4 H5 H6 H7]. unfold set_entry, set_array, rl_size in *.
  split; unfold rl_size; cbn [rl_offset rl_packet_id rl_array]; rewrite ?length_insert; try done.
  - by apply Forall_insert.
  - rewrite Hnew. rewrite Hold in H6. apply NoDup_app in H6 as (Ha & Hb & Hc).
    destruct He as [He|[He _]]; [unfold id_of; by rewrite He|]. rewrite He. by apply NoDup_app.
  - intros x Hx Hxa. apply list_elem_of_lookup in Hx as [j Hx].
    destruct (decide (j = i)) as [->|].
    + rewrite list_lookup_insert_eq in Hx by (by eapply lookup_lt_Some). injection Hx as <-.
      destruct He as [He|[_ He]]; [congruence|done].
    + rewrite list_lookup_insert_ne in Hx by done. apply H7; [|done]. by eapply list_elem_of_lookup_2.
Qed.

(** The next id takes one from what is available. *)
Lemma avail_append rel rel' log p :
  send_inv rel log -> send_inv rel' (log ++ [p]) -> rl_size rel' = rl_size rel -> 0 < avail rel ->
  active_ids (rl_array rel') ≡ₚ zlen log :: active_ids (rl_array rel) -> avail rel' = avail rel - 1.
Proof.
  intros Hs Hs' Hsz Hav Hperm. pose proof (avail_ok _ _ Hs) as (Ha & Hids & Hcase & _).
  pose proof (avail_ok _ _ Hs') as (Ha' & Hids' & Hcase' & _).
  setoid_rewrite Hperm in Hids'. setoid_rewrite Hperm in Hcase'.
  rewrite Hsz, length_app in *. cbn [length] in *.
  pose proof (Hids' (zlen log) (list_elem_of_here _ _)).
  assert (Hold : forall x, x ∈ active_ids (rl_array rel) -> zlen log + 1 - x <= rl_size rel - avail rel').
  { intros x Hx. specialize (Hids' x (list_elem_of_further _ _ _ Hx)). lia. }
  destruct Hcase' as [|(x & [->|Hx]%elem_of_cons & Hxe)]; [lia| |].
  - destruct Hcase as [|(y & Hy & Hye)]; [lia|]. specialize (Hold y Hy). lia.
  - specialize (Hids x Hx). destruct Hcase as [E|(y & Hy & Hye)].
    + pose proof (send_ids _ _ _ Hs Hx). lia.
    + specialize (Hold y Hy). lia.
Qed.

(** A filled buffer becomes the next packet. *)
Lemma mark_outgoing_ok rel log i e op pl t :
  send_inv rel log -> rl_array rel !! i = Some e -> e_active e = false ->
  buf_rep (e_buf e) off pl t -> off + zlen pl + t = cap -> 0 < avail rel -> zlen log < ID_BOUND ->
  exists rel', reliable_mark_active_outgoing rel i op = Some rel' /\
    send_inv rel' (log ++ [(op, pl)]) /\ avail rel' = avail rel - 1 /\
    rl_size rel' = rl_size rel /\
    active_ids (rl_array rel') ≡ₚ zlen log :: active_ids (rl_array rel).
Proof.
  intros Hs Hi Hina Hb Hcap Hav Hlog. pose proof (avail_ok _ _ Hs) as (Ha & Hids & Hcase & _).
  destruct (write_prepend_rep _ _ _ _ (be_bytes 4 (zlen log)) Hb (be_bytes_bytes 4 _)) as (b & Hw & Hb').
  { rewrite length_be_bytes. lia. }
  rewrite length_be_bytes in Hb'. unfold reliable_mark_active_outgoing. rewrite Hi, (si_packet_id _ _ Hs).
  cbn [mbind option_bind]. rewrite Hw. cbn [mbind option_bind ASSERT].
  assert (Hu : zlen log +u 1 = zlen log + 1) by (apply u32_small; unfold is_u32, ID_BOUND in *; lia).
  rewrite Hu. set (e' := mk_entry true _ 0 (zlen log) _ op b).
  eexists. split; [done|].
  assert (Hperm : active_ids (<[i:=e']> (rl_array rel)) ≡ₚ zlen log :: active_ids (rl_array rel)).
  { by apply (active_fill _ _ e e'). }
  assert (Hnew : forall x, x ∈ active_ids (rl_array rel) -> x < zlen log).
  { intros x Hx. apply (send_ids _ _ _ Hs) in Hx. lia. }
  assert (Hinv : send_inv (set_entry (set_rel_packet_id rel (zlen log + 1)) i e') (log ++ [(op, pl)])).
  { destruct Hs as [H1 H2 H3 H4 H5 H6 H7]. unfold set_entry, set_array, set_rel_packet_id, rl_size in *.
    split; cbn [rl_offset rl_packet_id rl_array rl_size] in *; unfold rl_size; cbn [rl_array];
      rewrite ?length_insert, ?length_app; cbn [length]; try done; try lia.
    - apply Forall_insert; [done|]. exists (off - 4), (be_bytes 4 (zlen log) ++ pl), t. split; [exact Hb'|].
      rewrite length_app, length_be_bytes. lia.
    - rewrite Hperm. apply NoDup_cons. split; [intros Hx; specialize (Hnew _ Hx); lia|done].
    - intros x Hx Hxa. apply list_elem_of_lookup in Hx as [j Hx]. unfold sent_entry. rewrite length_app. cbn [length].
      destruct (decide (j = i)) as [->|].
      + rewrite list_lookup_insert_eq in Hx by (by eapply lookup_lt_Some). injection Hx as <-.
        cbn [e' e_packet_id e_opcode e_buf]. split_and!; [lia|lia|]. exists pl, t.
        rewrite Nat2Z.id, lookup_app_r, Nat.sub_diag by lia. done.
      + rewrite list_lookup_insert_ne in Hx by done. pose proof (list_elem_of_lookup_2 _ _ _ Hx) as Hin.
        destruct (H7 x Hin Hxa) as (? & ? & pl' & t' & Hl & Hr). split_and!; [done| |].
        * specialize (Hids (e_packet_id x)). rewrite active_ids_in in Hids. unfold avail in *.
          specialize (Hids ltac:(by exists x)). lia.
        * exists pl', t'. by rewrite lookup_app_l by (by eapply lookup_lt_Some). }
  split; [done|]. assert (rl_size (set_entry (set_rel_packet_id rel (zlen log + 1)) i e') = rl_size rel) as Hsz.
  { unfold rl_size. cbn. by rewrite length_insert. }
  split; [|done]. by eapply avail_append.
Qed.

(** What is available depends only on the ids in use. *)
Lemma avail_perm rel rel' log :
  send_inv rel log -> send_inv rel' log -> rl_size rel' = rl_size rel ->
  active_ids (rl_array rel') ≡ₚ active_ids (rl_array rel) -> avail rel' = avail rel.
Proof.
  intros Hs Hs' Hsz Hperm. pose proof (avail_ok _ _ Hs) as (Ha & Hids & Hcase & _).
  pose proof (avail_ok _ _ Hs') as (Ha' & Hids' & Hcase' & _).
  setoid_rewrite Hperm in Hids'. setoid_rewrite Hperm in Hcase'. rewrite Hsz in *.
  destruct Hcase as [|(x & Hx & Hxe)], Hcase' as [|(y & Hy & Hye)]; [lia| | |].
  - specialize (Hids y Hy). pose proof (send_ids _ _ _ Hs Hy). lia.
  - specialize (Hids' x Hx). pose proof (send_ids _ _ _ Hs Hx). lia.
  - specialize (Hids y Hy). specialize (Hids' x Hx). lia.
Qed.

(** Take a buffer, fill it, and make it the next packet. *)
Lemma fill_ok rel log :
  send_inv rel log -> 0 < avail rel -> zlen log < ID_BOUND ->
  exists i rel1 e1, reliable_get_buf_output_sequenced rel = Some (Some i, rel1) /\
    rl_array rel1 !! i = Some e1 /\ buf_rep (e_buf e1) off [] (cap - off) /\
    forall b pl op, buf_rep b off pl (cap - off - zlen pl) ->
      exists rel', reliable_mark_active_outgoing (set_entry rel1 i (set_buf e1 b)) i op = Some rel' /\
        send_inv rel' (log ++ [(op, pl)]) /\ avail rel' = avail rel - 1 /\ rl_size rel' = rl_size rel /\
        active_ids (rl_array rel') ≡ₚ zlen log :: active_ids (rl_array rel).
Proof.
  intros Hs Hav Hlog. pose proof (get_output_ok _ _ Hs) as Hg.
  destruct (0 <? avail rel) eqn:E; [|lia]. destruct Hg as (i & e & b0 & Hg & He & Hina & Hb0).
  pose proof (lookup_lt_Some _ _ _ He) as Hi.
  exists i, (set_entry rel i (set_buf e b0)), (set_buf e b0). split; [exact Hg|]. split; [cbn; by apply list_lookup_insert_eq|].
  split; [exact Hb0|]. intros b pl op Hb.
  assert (set_entry (set_entry rel i (set_buf e b0)) i (set_buf (set_buf e b0) b) = set_entry rel i (set_buf e b)) as ->.
  { unfold set_entry, set_array. cbn. by rewrite list_insert_insert_eq. }
  assert (Hs1 : send_inv (set_entry rel i (set_buf e b)) log).
  { eapply send_inv_update; [exact Hs|exact He| |by left]. exists off, pl, (cap - off - zlen pl). split; [done|lia]. }
  assert (Hsz : rl_size (set_entry rel i (set_buf e b)) = rl_size rel) by (unfold rl_size; cbn; by rewrite length_insert).
  assert (Hids : active_ids (rl_array (set_entry rel i (set_buf e b))) ≡ₚ active_ids (rl_array rel)).
  { cbn. by apply (active_same _ _ e). }
  pose proof (avail_perm _ _ _ Hs Hs1 Hsz Hids) as Hav1.
  destruct (mark_outgoing_ok (set_entry rel i (set_buf e b)) log i (set_buf e b) op pl (cap - off - zlen pl) Hs1)
    as (rel' & Hm & Hs' & Hav' & Hsz' & Hids'); try (done || lia).
  { cbn. by apply list_lookup_insert_eq. }
  exists rel'. split_and!; [done|done|lia|congruence|]. by rewrite Hids', Hids.
Qed.

(** *** Changes to many entries at once: acknowledgements and timers *)

Definition same_packet (f : reliable_entry -> reliable_entry) : Prop :=
  forall e, e_buf (f e) = e_buf e /\ e_packet_id (f e) = e_packet_id e /\
            e_opcode (f e) = e_opcode e /\ (e_active (f e) = true -> e_active e = true).

Lemma active_map_sublist f l : same_packet f -> active_ids (f <$> l) `sublist_of` active_ids l.
Proof.
  intros Hf. induction l as [|e l IH]; [done|]. rewrite fmap_cons, !active_ids_cons.
  destruct (Hf e) as (_ & Hp & _ & Ha). unfold id_of. rewrite Hp.
  destruct (e_active (f e)); [rewrite Ha by done; by constructor|].
  destruct (e_active e); [by constructor|done].
Qed.

Lemma send_inv_map rel rel' log f :
  send_inv rel log -> same_packet f -> rl_offset rel' = rl_offset rel ->
  rl_packet_id rel' = rl_packet_id rel -> rl_array rel' = f <$> rl_array rel -> send_inv rel' log.
Proof.
  intros [H1 H2 H3 H4 H5 H6 H7] Hf Ho Hp Harr. unfold rl_size in *.
  split; unfold rl_size; rewrite ?Harr, ?length_fmap; try congruence.
  - apply Forall_fmap. eapply Forall_impl; [exact H5|]. intros e Hs. unfold slot, compose in *.
    by rewrite (proj1 (Hf e)).
  - eapply sublist_NoDup; [exact H6|]. by apply active_map_sublist.
  - intros e (e0 & -> & He0)%list_elem_of_fmap Ha. destruct (Hf e0) as (Hb & Hid & Hop & Hact).
    specialize (H7 e0 He0 (Hact Ha)). unfold sent_entry in *. by rewrite Hb, Hid, Hop.
Qed.

Lemma purge_same_packet pid : same_packet (purge_entry pid).
Proof. intros e. unfold purge_entry. destruct (e_active e) eqn:E, (_ =? _), (_ <? _); cbn; naive_solver. Qed.

Lemma purge_ids pid l : active_ids (purge_entry pid <$> l) = filter (fun x => x <> pid) (active_ids l).
Proof.
  induction l as [|e l IH]; [done|]. rewrite fmap_cons, !active_ids_cons, filter_app, IH. f_equal.
  unfold id_of, purge_entry. destruct (e_active e) eqn:E; cbn [andb]; [|by rewrite E].
  destruct (Z.eqb_spec (e_packet_id e) pid) as [->|Hne]; cbn [andb].
  - cbn. by rewrite decide_False by tauto.
  - destruct (_ <? _); cbn; rewrite ?E; by rewrite decide_True.
Qed.

(** Acknowledged packets leave the window, the others stay. *)
Lemma purge_ok rel log ack :
  send_inv rel log ->
  send_inv (reliable_send_purge rel ack) log /\
  forall x, x ∈ active_ids (rl_array (reliable_send_purge rel ack)) <->
            x ∈ active_ids (rl_array rel) /\ x ∉ ack.
Proof.
  unfold reliable_send_purge. revert rel. induction ack as [|pid ack IH]; intros rel Hs; cbn [foldl].
  { split; [done|]. intros x. rewrite elem_of_nil. tauto. }
  destruct (IH (set_array rel (purge_entry pid <$> rl_array rel))) as [Hs' Hids].
  { eapply send_inv_map; [exact Hs|apply (purge_same_packet pid)|done..]. }
  split; [done|]. intros x. rewrite Hids. cbn [set_array rl_array].
  rewrite purge_ids, list_elem_of_filter, not_elem_of_cons. tauto.
Qed.

Lemma purge_size rel ack : rl_size (reliable_send_purge rel ack) = rl_size rel.
Proof.
  unfold reliable_send_purge. revert rel. induction ack as [|pid ack IH]; intros rel; [done|].
  cbn [foldl]. rewrite IH. unfold rl_size. cbn. by rewrite length_fmap.
Qed.

Lemma schedule_now_ok rel log now :
  send_inv rel log ->
  send_inv (reliable_schedule_now now rel) log /\
  active_ids (rl_array (reliable_schedule_now now rel)) = active_ids (rl_array rel).
Proof.
  intros Hs. split.
  - eapply send_inv_map; [exact Hs| |done..]. intros e. destruct (e_active e) eqn:E; cbn; naive_solver.
  - unfold reliable_schedule_now. cbn [rl_array]. clear Hs. generalize (rl_array rel) as l. intros l.
    induction l as [|e l IH]; [done|]. rewrite fmap_cons, !active_ids_cons, IH. f_equal. unfold id_of. by destruct (e_active e) eqn:E; cbn; rewrite ?E.
Qed.

(** *** Choosing what to send *)

Lemma best_loop_ok now l k best :
  (forall e, e ∈ l -> e_active e = true -> 0 <= e_packet_id e <= ID_BOUND) ->
  (forall j b, best = Some (j, b) -> 0 <= e_packet_id b <= ID_BOUND) ->
  match best_loop now l k best with
  | None => best = None /\ forall e, e ∈ l -> is_current now e = false
  | Some (i, b) =>
      (best = Some (i, b) \/ exists j, i = (k + j)%nat /\ l !! j = Some b /\ is_current now b = true) /\
      (forall e, e ∈ l -> is_current now e = true -> e_packet_id b <= e_packet_id e) /\
      (forall j c, best = Some (j, c) -> e_packet_id b <= e_packet_id c)
  end.
Proof.
  revert k best. induction l as [|e l IH]; intros k best Hl Hb; cbn [best_loop].
  { destruct best as [[i b]|]; split_and!; [by left|by intros ? ?%elem_of_nil|intros j c [= <- <-]; lia|done|].
    by intros ? ?%elem_of_nil. }
  assert (Hl' : forall x, x ∈ l -> e_active x = true -> 0 <= e_packet_id x <= ID_BOUND).
  { intros x Hx. apply Hl. by apply list_elem_of_further. }
  set (best' := if is_current now e then _ else _).
  assert (Hstep : (best' = best /\ (is_current now e = true -> exists j b, best = Some (j, b) /\ e_packet_id b <= e_packet_id e)) \/
                  (best' = Some (k, e) /\ is_current now e = true /\
                   forall j b, best = Some (j, b) -> e_packet_id e <= e_packet_id b)).
  { unfold best'. destruct (is_current now e) eqn:Ec; [|by left]. destruct best as [[j b]|]; [|by right].
    assert (e_active e = true) by (unfold is_current in Ec; by destruct (e_active e)).
    rewrite pid_min_ok by (auto using list_elem_of_here || by eapply Hb).
    destruct (Z.ltb_spec (e_packet_id e) (e_packet_id b)); [right|left]; (split; [done|]).
    - split; [done|]. intros ? ? [= <- <-]. lia.
    - intros _. by exists j, b. }
  specialize (IH (S k) best' Hl'). destruct Hstep as [[-> Hle]|(-> & Hc & Hle)].
  - specialize (IH Hb). destruct (best_loop _ _ _ _) as [[i b]|].
    + destruct IH as (Hw & Hmin & Hbest). split_and!; [|intros x [->|Hx]%elem_of_cons Hxc|done]; [|destruct (Hle Hxc) as (j & c & E & ?); specialize (Hbest _ _ E); lia|by apply Hmin].
      destruct Hw as [|(j & -> & ? & ?)]; [by left|right]. exists (S j). split_and!; [lia|done|done].
    + destruct IH as [-> Hno]. split; [done|]. intros x [->|Hx]%elem_of_cons; [|by apply Hno].
      destruct (is_current now e) eqn:E; [|done]. by destruct (Hle eq_refl) as (? & ? & ? & ?).
  - destruct (best_loop _ _ _ _) as [[i b]|].
    + destruct IH as (Hw & Hmin & Hbest).
      { intros j c [= <- <-]. apply Hl; [apply list_elem_of_here|]. unfold is_current in Hc. by destruct (e_active e). }
      specialize (Hbest _ _ eq_refl). split_and!.
      * right. destruct Hw as [[= <- <-]|(j & -> & ? & ?)]; [exists 0%nat|exists (S j)]; (split_and!; [lia|done|done]).
      * intros x [->|Hx]%elem_of_cons Hxc; [done|by apply Hmin].
      * intros j c E. specialize (Hle _ _ E). lia.
    + destruct IH as [? _]; [|done].
      intros j c [= <- <-]. apply Hl; [apply list_elem_of_here|]. unfold is_current in Hc. by destruct (e_active e).
Qed.

Lemma can_send_current now rel :
  reliable_can_send now rel = true <->
  rl_hold rel = false /\ exists e, e ∈ rl_array rel /\ is_current now e = true.
Proof.
  unfold reliable_can_send. split.
  - intros [Hl Hh]%andb_true_iff. split; [by destruct (rl_hold rel)|].
    destruct (filter _ _) as [|e l] eqn:E; [done|].
    assert (e ∈ filter (fun e => is_current now e = true) (rl_array rel)) as Hf by (rewrite E; apply list_elem_of_here).
    apply list_elem_of_filter in Hf as [? ?]. by exists e.
  - intros (-> & e & He & Hc). apply andb_true_iff. split; [|done].
    assert (e ∈ filter (fun e => is_current now e = true) (rl_array rel)) as Hf by by apply list_elem_of_filter.
    destruct (filter _ _); [by apply elem_of_nil in Hf|]. cbn. lia.
Qed.

(** The entry after it has been sent at [now]. *)
Definition resent (now : Z) (e : reliable_entry) : reliable_entry :=
  mk_entry (e_active e) (i32 (e_timeout e * 2)) (now + e_timeout e) (e_packet_id e) 0 (e_opcode e) (e_buf e).

(** [reliable_send] sends the lowest id that is due. *)
Lemma send_ok rel log now :
  send_inv rel log ->
  match reliable_send now rel with
  | (None, rel') => rel' = rel /\ forall e, e ∈ rl_array rel -> is_current now e = false
  | (Some (i, op), rel') =>
      exists e, rl_array rel !! i = Some e /\ is_current now e = true /\ op = e_opcode e /\
        rel' = set_entry rel i (resent now e) /\
        (forall x, x ∈ rl_array rel -> is_current now x = true -> e_packet_id e <= e_packet_id x)
  end.
Proof.
  intros Hs. unfold reliable_send. pose proof (best_loop_ok now (rl_array rel) 0 None) as Hb.
  destruct (best_loop _ _ _ _) as [[i e]|].
  - destruct Hb as ([?|(j & -> & ? & ?)] & Hmin & _); [| |done|]; [|done|by exists e].
    intros x Hx Ha. pose proof (sent_entry_bounds _ _ _ (si_entries _ _ Hs x Hx Ha)). pose proof (si_bound _ _ Hs). lia.
  - destruct Hb as [_ Hno]; [|done|done].
    intros x Hx Ha. pose proof (sent_entry_bounds _ _ _ (si_entries _ _ Hs x Hx Ha)). pose proof (si_bound _ _ Hs). lia.
Qed.

(** Sending, and writing the header into the head room of the entry's buffer, leave
    the packet as it is. *)
Lemma send_entry_ok rel log i e now b :
  send_inv rel log -> rl_array rel !! i = Some e -> e_active e = true ->
  (forall h c t, buf_rep (e_buf e) h c t -> buf_rep b h c t) ->
  send_inv (set_entry rel i (set_buf (resent now e) b)) log /\
  active_ids (rl_array (set_entry rel i (set_buf (resent now e) b))) ≡ₚ active_ids (rl_array rel).
Proof.
  intros Hs Hi Ha Hb. split.
  - eapply send_inv_update; [exact Hs|exact Hi| |right; split].
    + destruct (Forall_lookup_1 _ _ _ _ (si_slots _ _ Hs) Hi) as (h & c & t & Hr & ?). exists h, c, t. auto.
    + unfold id_of. done.
    + destruct (si_entries _ _ Hs e (list_elem_of_lookup_2 _ _ _ Hi) Ha) as (? & ? & pl & t & ? & Hr).
      split_and!; [done..|]. exists pl, t. auto.
  - cbn. by apply (active_same _ _ e).
Qed.
End send_window.
