(* ===== verification/ReliableSpec.v ===== *)
(** * The promises of the reliability layer

    What a user of [reliable.c] relies on, operation by operation: the record of
    acknowledgements survives the wire, the most-recently-used list, the choice of the
    packet to send and its next timeout, and the comparison of packet ids. *)
From S2P Require Import Prelude Integers Buffer Reliable AckList Windows SendWindow.

(** What [reliable_ack_write] puts in front of a packet (or behind a header), the
    peer's [reliable_ack_read] takes off again: the same ids, and the rest of the packet
    untouched.  The record holds the oldest pending acknowledgements, as many as fit,
    which leave the pending list, and then ids that were acknowledged before. *)
Theorem ack_record_round_trip ack mru b sid max (prepend : bool) h c t :
  buf_rep b h c t -> ack_wf ack -> ack_wf mru -> 0 < max -> zlen sid = SID_SIZE -> bytes sid ->
  session_id_defined sid = true -> 9 + 4 * Z.min max 8 <= (if prepend then h else t) ->
  let n := Z.to_nat (min_int max (zlen ack)) in
  exists mru' b' record,
    reliable_ack_write ack mru b sid max prepend = Some (true, drop n ack, mru', b') /\
    content b' = (if prepend then record ++ c else c ++ record) /\
    forall pkt h' t' rest, buf_rep pkt h' (record ++ rest) t' ->
      exists pkt' ids, reliable_ack_read pkt sid = (true, pkt', ids) /\ content pkt' = rest /\
        take n ids = take n ack /\
        (forall x, x ∈ ids -> x ∈ ack \/ x ∈ mru) /\ NoDup ids /\ zlen ids <= Z.min max 8.
Proof.
  intros Hb Hack Hmru Hmax Hsid Hsb Hdef Hroom n.
  destruct (ack_write_ok ack mru b sid max prepend h c t) as (b' & Hw & Hb'); [done..|by intros _|done|].
  pose proof (acks_out_wf ack mru max Hack Hmru) as Hwf.
  exists (mru_merge (take n ack) mru), b', (ack_record (acks_out ack mru max) sid). split; [done|]. split.
  { unfold wrote in Hb'. destruct prepend; apply (rep_content _ _ _ _ Hb'). }
  intros pkt h' t' rest Hp. destruct (ack_read_ok _ sid _ _ _ _ Hp Hwf Hsid Hdef) as (pkt' & -> & Hp').
  exists pkt', (acks_out ack mru max). split; [done|]. split; [apply (rep_content _ _ _ _ Hp')|]. split_and!.
  - unfold acks_out, mru_merge, n, min_int, RELIABLE_ACK_SIZE in *.
    destruct Hack as (_ & Hlen & _). unfold RELIABLE_ACK_SIZE in Hlen.
    assert (length (take n ack) <= 8)%nat by (rewrite length_take; lia).
    assert (n <= Z.to_nat max)%nat by (unfold n, min_int; destruct (max <? zlen ack) eqn:?; lia).
    assert (n <= length ack)%nat by (unfold n, min_int; destruct (max <? zlen ack) eqn:?; lia).
    fold n. rewrite !take_take, take_app_le, take_take by (rewrite length_take; lia).
    f_equal. rewrite length_take in *. lia.
  - intros x. apply acks_out_in.
  - apply Hwf.
  - destruct Hwf as (_ & Hl & _). unfold RELIABLE_ACK_SIZE in Hl.
    unfold acks_out. rewrite length_take. unfold mru_merge. rewrite length_take. unfold RELIABLE_ACK_SIZE. lia.
Qed.

(** [copy_acks_to_mru], which shifts arrays in place, is a merge: the acknowledgements
    that are sent now in their order, then those that were sent before and are not among them,
    eight at most, none twice. *)
Theorem copy_acks_is_merge ack mru n :
  ack_wf ack -> ack_wf mru -> n <= zlen ack ->
  let new := take (Z.to_nat n) ack in
  let merged := take 8 (new ++ filter (fun x => x ∉ new) mru) in
  copy_acks_to_mru ack mru n = Some merged /\ NoDup merged /\ Forall is_u32 merged.
Proof.
  intros Ha Hm Hn new merged. destruct (copy_acks_ok ack mru n Ha Hm Hn) as [E (? & _ & ?)]. done.
Qed.

(** The timer of the send window.  [reliable_can_send] holds exactly when transmission
    is not on hold and [reliable_send] has a packet; that packet is due (its timer has run
    out, or three later packets have been acknowledged), no packet that is due has a lower
    id, and only its own timer changes: it is next due after its timeout, which doubles. *)
Theorem reliable_send_exact now rel :
  (forall e, e ∈ rl_array rel -> e_active e = true -> 0 <= e_packet_id e <= ID_BOUND) ->
  (reliable_can_send now rel = true <-> rl_hold rel = false /\ (reliable_send now rel).1 <> None) /\
  match reliable_send now rel with
  | (None, rel') => rel' = rel
  | (Some (i, op), rel') =>
      exists e, rl_array rel !! i = Some e /\ e_active e = true /\ op = e_opcode e /\
        (e_next_try e <= now \/ 3 <= e_n_acks e) /\
        (forall x, x ∈ rl_array rel -> is_current now x = true -> e_packet_id e <= e_packet_id x) /\
        rel' = set_entry rel i (mk_entry true (i32 (e_timeout e * 2)) (now + e_timeout e) (e_packet_id e) 0 op (e_buf e))
  end.
Proof.
  intros Hids. pose proof (best_loop_ok now (rl_array rel) 0 None Hids ltac:(done)) as Hb. unfold reliable_send.
  destruct (best_loop _ _ _ _) as [[i e]|].
  - destruct Hb as ([?|(j & -> & Hj & Hc)] & Hmin & _); [done|]. split.
    + rewrite can_send_current. split; [intros [Hh _]; done|intros [Hh _]]. split; [done|].
      exists e. split; [by eapply list_elem_of_lookup_2|done].
    + exists e. cbn. unfold is_current, N_ACK_RETRANSMIT in Hc. destruct (e_active e) eqn:Ha; [|done].
      split_and!; try done; try lia.
  - destruct Hb as [_ Hno]. split; [|done]. rewrite can_send_current. cbn. split.
    + intros (_ & e & He & Hc). by rewrite Hno in Hc.
    + intros [_ H]; done.
Qed.

(** The comparison that guards the receive window is exact as long as the end of the
    window does not pass 2^32; there it accepts any id that has wrapped around, although it
    is meant to allow for that: an id that lies beyond the window is accepted. *)
Theorem pid_in_range2_wraps test base extent :
  is_u32 test -> is_u32 base -> 0 <= extent -> base + extent < 4294967296 ->
  (reliable_pid_in_range2 test base extent = true <-> test < base + extent) /\
  (test < base -> extent <= subtract_pid test base ->
   reliable_pid_in_range2 test base extent = true /\ reliable_pid_in_range1 test base extent = false).
Proof.
  unfold is_u32, reliable_pid_in_range2, reliable_pid_in_range1. intros Ht Hb He Hw.
  rewrite (u32_small (base + extent)) by (unfold is_u32; lia).
  replace (base <=? base + extent) with true by lia. lia.
Qed.

(** ** Concrete instances *)

Module AckDemo.
Definition demo_sid : list Z := [1; 2; 3; 4; 5; 6; 7; 8].
Definition ack_demo_buf : buffer := mk_buffer 100 60 3 (Some (replicate 100 7)).

Lemma ack_demo_buf_rep : buf_rep ack_demo_buf 60 [7; 7; 7] 37.
Proof. apply rep_intro; try (vm_compute; reflexivity); try lia. by apply bytes_dec. Qed.

Lemma demo_ack_wf : ack_wf [3; 4; 5].
Proof.
  split_and!; [|unfold RELIABLE_ACK_SIZE; cbn; lia|repeat constructor; unfold is_u32; lia].
  apply (bool_decide_unpack (NoDup [3; 4; 5])). vm_compute. done.
Qed.

Lemma ack_record_round_trip_witness :
  let n := Z.to_nat (min_int 4 (zlen [3; 4; 5])) in
  exists mru' b' record,
    reliable_ack_write [3; 4; 5] [3; 4; 5] ack_demo_buf demo_sid 4 true = Some (true, drop n [3; 4; 5], mru', b') /\
    content b' = record ++ [7; 7; 7] /\
    forall pkt h' t' rest, buf_rep pkt h' (record ++ rest) t' ->
      exists pkt' ids, reliable_ack_read pkt demo_sid = (true, pkt', ids) /\ content pkt' = rest /\
        take n ids = take n [3; 4; 5] /\
        (forall x, x ∈ ids -> x ∈ [3; 4; 5] \/ x ∈ [3; 4; 5]) /\ NoDup ids /\ zlen ids <= Z.min 4 8.
Proof.
  apply (ack_record_round_trip [3; 4; 5] [3; 4; 5] ack_demo_buf demo_sid 4 true 60 [7; 7; 7] 37);
    try exact ack_demo_buf_rep; try exact demo_ack_wf; try lia; try (vm_compute; reflexivity). by apply bytes_dec.
Defined.

Lemma copy_acks_is_merge_witness :
  let new := take (Z.to_nat 2) [3; 4; 5] in
  let merged := take 8 (new ++ filter (fun x => x ∉ new) [3; 4; 5]) in
  copy_acks_to_mru [3; 4; 5] [3; 4; 5] 2 = Some merged /\ NoDup merged /\ Forall is_u32 merged.
Proof. apply (copy_acks_is_merge [3; 4; 5] [3; 4; 5] 2 demo_ack_wf demo_ack_wf). cbn. lia. Defined.

Definition demo_entry (pid next_try n_acks : Z) : reliable_entry := mk_entry true 2 next_try pid n_acks 4 ack_demo_buf.
Definition demo_window : reliable := mk_rel 2 9 60 false [demo_entry 8 100 0; demo_entry 6 200 3; demo_entry 7 90 0].

Example demo_sends : (reliable_send 100 demo_window).1 = Some (1%nat, 4).
Proof. vm_compute. reflexivity. Qed.

Lemma reliable_send_exact_witness :
  (reliable_can_send 100 demo_window = true <-> rl_hold demo_window = false /\ (reliable_send 100 demo_window).1 <> None) /\
  match reliable_send 100 demo_window with
  | (None, rel') => rel' = demo_window
  | (Some (i, op), rel') =>
      exists e, rl_array demo_window !! i = Some e /\ e_active e = true /\ op = e_opcode e /\
        (e_next_try e <= 100 \/ 3 <= e_n_acks e) /\
        (forall x, x ∈ rl_array demo_window -> is_current 100 x = true -> e_packet_id e <= e_packet_id x) /\
        rel' = set_entry demo_window i (mk_entry true (i32 (e_timeout e * 2)) (100 + e_timeout e) (e_packet_id e) 0 op (e_buf e))
  end.
Proof.
  apply (reliable_send_exact 100 demo_window). intros e He _. unfold ID_BOUND.
  repeat (apply elem_of_cons in He as [->|He]; [cbn; lia|]). by apply elem_of_nil in He.
Defined.

Lemma pid_in_range2_wraps_witness :
  (reliable_pid_in_range2 5 4294967280 8 = true <-> 5 < 4294967280 + 8) /\
  (5 < 4294967280 -> 8 <= subtract_pid 5 4294967280 ->
   reliable_pid_in_range2 5 4294967280 8 = true /\ reliable_pid_in_range1 5 4294967280 8 = false).
Proof. apply (pid_in_range2_wraps 5 4294967280 8); unfold is_u32; lia. Defined.
End AckDemo.
