(* ===== verification/RecvWindow.v ===== *)
(** * The receive window: every operation of [struct reliable] on incoming packets

    [recv_inv rel log]: [rl_packet_id] packets of [log] have been delivered, and the
    active entries hold further packets of [log], each once, with ids less than
    [rl_size] ahead. *)
From S2P Require Import Prelude Integers Buffer Reliable Windows.

Section recv_window.
Context (cap off : Z) (Hoff : 0 <= off <= cap).
Implicit Types (rel : reliable) (log : list (Z * list Z)).

Definition held_entry (d n : Z) log (e : reliable_entry) : Prop :=
  d <= e_packet_id e < d + n /\
  log !! Z.to_nat (e_packet_id e) = Some (e_opcode e, content (e_buf e)).

Record recv_inv rel log : Prop := {
  ri_offset : rl_offset rel = off;
  ri_size : 0 < rl_size rel < 16;
  ri_bound : zlen log <= ID_BOUND;
  ri_delivered : 0 <= rl_packet_id rel <= zlen log;
  ri_slots : Forall (slot cap) (rl_array rel);
  ri_nodup : NoDup (active_ids (rl_array rel));
  ri_entries : forall e, e ∈ rl_array rel -> e_active e = true ->
    held_entry (rl_packet_id rel) (rl_size rel) log e
}.

(** The packet has arrived: it was delivered, or is waiting. *)
Definition stored rel (x : Z) : Prop := x < rl_packet_id rel \/ x ∈ active_ids (rl_array rel).

Lemma recv_ids rel log x :
  recv_inv rel log -> x ∈ active_ids (rl_array rel) ->
  rl_packet_id rel <= x < rl_packet_id rel + rl_size rel /\ x < zlen log.
Proof.
  intros Hr (e & He & Ha & <-)%active_ids_in. destruct (ri_entries _ _ Hr e He Ha) as [? Hl].
  apply lookup_lt_Some in Hl. pose proof (ri_delivered _ _ Hr). lia.
Qed.

Lemma stored_bound rel log x : recv_inv rel log -> stored rel x -> x < zlen log.
Proof. intros Hr [?|Hx]; [pose proof (ri_delivered _ _ Hr); lia|]. apply (recv_ids _ _ _ Hr) in Hx. lia. Qed.

Lemma recv_inv_log rel log p : recv_inv rel log -> zlen log < ID_BOUND -> recv_inv rel (log ++ [p]).
Proof.
  intros [] Hb. split; rewrite ?length_app; cbn [length]; try done; try lia.
  intros e He Ha. destruct (ri_entries0 e He Ha) as [? Hl]. split; [done|].
  rewrite lookup_app_l; [done|]. by eapply lookup_lt_Some.
Qed.

Lemma is_active_id_false rel x :
  (forall e, e ∈ rl_array rel -> is_active_id x e = false) <-> x ∉ active_ids (rl_array rel).
Proof.
  rewrite active_ids_in. unfold is_active_id. split.
  - intros Hf (e & He & Ha & E). specialize (Hf e He). rewrite Ha, E, Z.eqb_refl in Hf. done.
  - intros Hx e He. destruct (e_active e) eqn:Ha; [|done]. cbn. apply Z.eqb_neq. intros E.
    apply Hx. by exists e.
Qed.

#[export] Instance stored_dec rel x : Decision (stored rel x).
Proof. unfold stored. apply _. Defined.

(** A packet is new when it is neither delivered nor waiting. *)
Lemma not_replay_ok rel log x :
  recv_inv rel log -> 0 <= x <= ID_BOUND -> reliable_not_replay rel x = true <-> ~ stored rel x.
Proof.
  intros Hr Hx. pose proof (ri_delivered _ _ Hr). pose proof (ri_bound _ _ Hr).
  unfold reliable_not_replay, stored. rewrite pid_min_ok by lia.
  destruct (Z.ltb_spec x (rl_packet_id rel)); [intuition done|].
  destruct (existsb (is_active_id x) (rl_array rel)) eqn:E; cbn.
  - apply existsb_exists in E as (e & He%list_elem_of_In & Ha). split; [done|]. intros Hn. exfalso.
    apply Hn. right. apply active_ids_in. unfold is_active_id in Ha. exists e. split_and!; [done|lia|lia].
  - split; [|done]. intros _ [?|Hi]; [lia|]. apply active_ids_in in Hi as (e & He & Ha & Ei).
    enough (existsb (is_active_id x) (rl_array rel) = true) by congruence.
    apply existsb_exists. exists e. split; [by apply list_elem_of_In|]. unfold is_active_id. rewrite Ha. lia.
Qed.

Lemma wont_break_ok rel log x :
  recv_inv rel log -> is_u32 x ->
  reliable_wont_break_sequentiality rel x = (x <? rl_packet_id rel + rl_size rel).
Proof.
  intros Hr Hx. pose proof (ri_delivered _ _ Hr). pose proof (ri_bound _ _ Hr).
  pose proof (ri_size _ _ Hr). apply in_range2_ok; [done|lia|lia].
Qed.

Lemma can_get_ok rel : reliable_can_get rel = true <-> exists e, e ∈ rl_array rel /\ e_active e = false.
Proof.
  unfold reliable_can_get. rewrite existsb_exists. split.
  - intros (e & He%list_elem_of_In & Ha). exists e. split; [done|]. by destruct (e_active e).
  - intros (e & He & Ha). exists e. split; [by apply list_elem_of_In|]. by rewrite Ha.
Qed.

Lemma active_lt_free rel :
  (exists e, e ∈ rl_array rel /\ e_active e = false) ->
  (length (active_ids (rl_array rel)) < length (rl_array rel))%nat.
Proof.
  intros (e & [i He]%list_elem_of_lookup & Ha).
  rewrite <- (take_drop_middle _ _ _ He). rewrite active_ids_app, active_ids_cons. unfold id_of. rewrite Ha.
  rewrite !length_app. cbn [app length]. pose proof (length_active_le (take i (rl_array rel))).
  pose proof (length_active_le (drop (S i) (rl_array rel))). lia.
Qed.

(** The window never clogs: while the next packet is missing there is room for it. *)
Lemma room_for_next rel log :
  recv_inv rel log -> ~ stored rel (rl_packet_id rel) -> reliable_can_get rel = true.
Proof.
  intros Hr Hn. apply can_get_ok.
  assert (Hlt : (length (active_ids (rl_array rel)) < length (rl_array rel))%nat).
  { pose proof (ri_size _ _ Hr). enough (zlen (active_ids (rl_array rel)) <= rl_size rel - 1) by (unfold rl_size in *; lia).
    replace (rl_size rel - 1) with (rl_packet_id rel + rl_size rel - (rl_packet_id rel + 1)) by lia.
    apply NoDup_interval; [apply (ri_nodup _ _ Hr)| |lia].
    intros x Hx. pose proof (recv_ids _ _ _ Hr Hx). enough (x <> rl_packet_id rel) by lia.
    intros ->. apply Hn. by right. }
  destruct (free_exists _ Hlt) as (i & e & _ & He & Ha). exists e. split; [by eapply list_elem_of_lookup_2|done].
Qed.

(** Replacing an entry that is not active. *)
Lemma recv_inv_update rel log i e0 e :
  recv_inv rel log -> rl_array rel !! i = Some e0 -> e_active e0 = false -> slot cap e ->
  (e_active e = true -> held_entry (rl_packet_id rel) (rl_size rel) log e /\ e_packet_id e ∉ active_ids (rl_array rel)) ->
  recv_inv (set_entry rel i e) log /\
  active_ids (rl_array (set_entry rel i e)) ≡ₚ id_of e ++ active_ids (rl_array rel).
Proof.
  intros Hr Hi Hina Hslot He. destruct (active_split _ _ _ Hi) as (rest & Hold & Hnew). specialize (Hnew e).
  unfold id_of in Hold at 1. rewrite Hina in Hold. cbn [app] in Hold. rewrite <- Hold in Hnew. split; [|done].
  destruct Hr as [H1 H2 H3 H4 H5 H6 H7]. unfold set_entry, set_array, rl_size in *.
  split; unfold rl_size; cbn [rl_offset rl_packet_id rl_array]; rewrite ?length_insert; try done.
  - by apply Forall_insert.
  - rewrite Hnew. unfold id_of. destruct (e_active e); [|done]. cbn. apply NoDup_cons.
    split; [by apply He|done].
  - intros x Hx Hxa. apply list_elem_of_lookup in Hx as [j Hx]. destruct (decide (j = i)) as [->|].
    + rewrite list_lookup_insert_eq in Hx by (by eapply lookup_lt_Some). injection Hx as <-. by apply He.
    + rewrite list_lookup_insert_ne in Hx by done. apply H7; [|done]. by eapply list_elem_of_lookup_2.
Qed.

(** A new packet inside the window is stored, unless it does not fit the buffer. *)
Lemma store_ok rel log x op pkt h pl t :
  recv_inv rel log -> 0 <= x <= ID_BOUND -> reliable_can_get rel = true -> ~ stored rel x ->
  x < rl_packet_id rel + rl_size rel -> log !! Z.to_nat x = Some (op, pl) -> buf_rep pkt h pl t ->
  exists i e b, reliable_get_buf rel = Some (Some i, set_entry rel i (set_buf e b)) /\
    rl_array (set_entry rel i (set_buf e b)) !! i = Some (set_buf e b) /\
    let rel1 := set_entry (set_entry rel i (set_buf e b)) i (set_buf (set_buf e b) (buf_copy b pkt).2) in
    (buf_copy b pkt).1 = (zlen pl <=? cap - off) /\
    recv_inv rel1 log /\ active_ids (rl_array rel1) ≡ₚ active_ids (rl_array rel) /\
    ((buf_copy b pkt).1 = true -> exists rel', reliable_mark_active_incoming rel1 i x op = Some rel' /\
       recv_inv rel' log /\ rl_packet_id rel' = rl_packet_id rel /\ rl_size rel' = rl_size rel /\
       active_ids (rl_array rel') ≡ₚ x :: active_ids (rl_array rel)).
Proof.
  intros Hr Hx Hget Hns Hwin Hlog Hpkt. pose proof (ri_offset _ _ Hr) as Hro. pose proof (ri_bound _ _ Hr).
  pose proof (ri_delivered _ _ Hr).
  destruct (get_buf_ok rel cap) as (i & e & b & Hg & He & Hina & Hb);
    [apply (ri_slots _ _ Hr)|lia|by apply active_lt_free, can_get_ok|]. rewrite Hro in Hb.
  pose proof (lookup_lt_Some _ _ _ He) as Hi.
  exists i, e, b. split; [done|]. split; [cbn; by apply list_lookup_insert_eq|].
  intros rel1. assert (Hrel1 : rel1 = set_entry rel i (set_buf e (buf_copy b pkt).2)).
  { unfold rel1, set_entry, set_array. cbn. by rewrite list_insert_insert_eq. }
  clearbody rel1. subst rel1. unfold buf_copy. rewrite (rep_content _ _ _ _ Hpkt).
  pose proof (rep_bounds _ _ _ _ Hpkt) as (_ & _ & _ & Hpb).
  destruct (Z.leb_spec (zlen pl) (cap - off)) as [Hfit|Hfit].
  - destruct (write_rep _ _ _ _ pl Hb Hpb Hfit) as (b' & Hw & Hb'). rewrite Hw. cbn [fst snd app] in *.
    destruct (recv_inv_update rel log i e (set_buf e b') Hr He Hina) as [Hr1 Hids1].
    { eapply rep_slot; [exact Hb'|lia]. }
    { cbn. congruence. }
    unfold id_of in Hids1 at 1. cbn [set_buf e_active] in Hids1. rewrite Hina in Hids1.
    split_and!; [done..|]. intros _. unfold reliable_mark_active_incoming.
    cbn [set_entry set_array rl_array rl_packet_id]. rewrite list_lookup_insert_eq by done. cbn [mbind option_bind].
    rewrite pid_min_ok by lia. rewrite ASSERT_true; [|unfold stored in Hns; lia]. cbn [mbind option_bind].
    eexists. split; [done|].
    destruct (recv_inv_update (set_entry rel i (set_buf e b')) log i (set_buf e b')
                (mk_entry true 0 0 x 0 op (e_buf (set_buf e b'))) Hr1) as [Hr2 Hids2].
    + cbn. by apply list_lookup_insert_eq.
    + done.
    + eexists _, _, _. split; [exact Hb'|lia].
    + intros _. unfold stored, held_entry, rl_size in *. cbn [set_entry set_array rl_array rl_packet_id
        e_packet_id e_opcode e_buf set_buf] in *.
      rewrite length_insert, (rep_content _ _ _ _ Hb'), Hids1. split; [split; [lia|done]|tauto].
    + split; [done|]. split; [done|]. split; [unfold rl_size; cbn; by rewrite !length_insert|].
      etrans; [exact Hids2|]. unfold id_of; cbn [e_active e_packet_id app].
      by rewrite Hids1.
  - rewrite (write_full _ _ _ _ pl Hb) by lia. cbn [fst snd].
    destruct (recv_inv_update rel log i e (set_buf e b) Hr He Hina) as [Hr1 Hids1].
    { eapply rep_slot; [exact Hb|cbn; lia]. }
    { cbn. congruence. }
    unfold id_of in Hids1 at 1. cbn [set_buf e_active] in Hids1. rewrite Hina in Hids1.
    split_and!; done.
Qed.

(** Delivery takes the next packet in sequence, if it has arrived. *)
Lemma recv_deliver_ok rel log :
  recv_inv rel log ->
  match reliable_get_entry_sequenced rel with
  | None => rl_packet_id rel ∉ active_ids (rl_array rel)
  | Some i => exists e rel', rl_array rel !! i = Some e /\ e_active e = true /\
      e_packet_id e = rl_packet_id rel /\
      log !! Z.to_nat (rl_packet_id rel) = Some (e_opcode e, content (e_buf e)) /\
      reliable_mark_deleted rel i = Some rel' /\ recv_inv rel' log /\
      rl_packet_id rel' = rl_packet_id rel + 1 /\
      active_ids (rl_array rel) ≡ₚ rl_packet_id rel :: active_ids (rl_array rel')
  end.
Proof.
  intros Hr. unfold reliable_get_entry_sequenced. destruct (find_index _ _) as [i|] eqn:E.
  2: { apply is_active_id_false. by apply find_index_None. }
  apply find_index_Some in E as (e & He & Ha). unfold is_active_id in Ha.
  apply andb_true_iff in Ha as [Ha Hid%Z.eqb_eq]. pose proof (list_elem_of_lookup_2 _ _ _ He) as Hin.
  destruct (ri_entries _ _ Hr e Hin Ha) as [_ Hlog]. rewrite Hid in Hlog.
  pose proof (lookup_lt_Some _ _ _ Hlog) as Hlt. unfold reliable_mark_deleted. rewrite He. cbn [mbind option_bind].
  pose proof (ri_bound _ _ Hr) as Hbd. pose proof (ri_delivered _ _ Hr) as Hdl.
  rewrite Hid, u32_small by (unfold is_u32, ID_BOUND in *; lia).
  pose proof (active_clear _ _ e (set_active e false) He Ha eq_refl) as Hperm. rewrite Hid in Hperm.
  exists e. eexists. split_and!; try done.
  destruct Hr as [H1 H2 H3 H4 H5 H6 H7]. unfold set_entry, set_array, set_rel_packet_id, rl_size in *.
  split; unfold rl_size; cbn [rl_offset rl_packet_id rl_array]; rewrite ?length_insert; try done; [lia| | |].
  - apply Forall_insert; [done|]. by apply (Forall_lookup_1 _ _ _ _ H5 He).
  - rewrite Hperm in H6. by apply NoDup_cons in H6 as [_ ?].
  - intros x Hx Hxa.
    assert (e_packet_id x ∈ active_ids (<[i:=set_active e false]> (rl_array rel))) as Hxi by (apply active_ids_in; by exists x).
    assert (e_packet_id x <> rl_packet_id rel).
    { intros Ex. rewrite Hperm in H6. apply NoDup_cons in H6 as [Hn _]. apply Hn. by rewrite <- Ex. }
    apply list_elem_of_lookup in Hx as [j Hx]. destruct (decide (j = i)) as [->|].
    + rewrite list_lookup_insert_eq in Hx by (by eapply lookup_lt_Some). by injection Hx as <-.
    + rewrite list_lookup_insert_ne in Hx by done. destruct (H7 x) as [? ?]; [by eapply list_elem_of_lookup_2|done|].
      split; [lia|done].
Qed.
End recv_window.
