(* ===== verification/Control.v ===== *)
(** * The control channel's use of the reliability layer: [ssl.c], [ssl_pkt.c]

    One [struct key_state] of an established session, without a wrapping key
    ([TLS_WRAP_NONE]): cutting TLS output into packets, sending and resending them,
    acknowledging, taking packets from the network, and handing them to the TLS
    object in order.  The TLS object belongs to the library: what it has to say
    arrives as bytes, what it is given leaves as bytes. *)
From S2P Require Import Prelude Integers Buffer Frame Reliable.

Definition P_KEY_ID_MASK : Z := 7.
Definition P_OPCODE_SHIFT : Z := 3.
Definition P_CONTROL_SOFT_RESET_V1 : Z := 3.
Definition P_CONTROL_V1 : Z := 4.
Definition P_ACK_V1 : Z := 5.
Definition P_DATA_V1 : Z := 6.
Definition P_DATA_V2 : Z := 9.
Definition P_CONTROL_HARD_RESET_CLIENT_V2 : Z := 7.
Definition P_CONTROL_HARD_RESET_SERVER_V2 : Z := 8.
Definition P_CONTROL_HARD_RESET_CLIENT_V3 : Z := 10.
Definition P_CONTROL_WKC_V1 : Z := 11.
Definition P_FIRST_OPCODE : Z := 3.
Definition P_LAST_OPCODE : Z := 11.
Definition TLS_RELIABLE_N_SEND_BUFFERS : Z := 6.
Definition TLS_RELIABLE_N_REC_BUFFERS : Z := 12.
Definition CONTROL_SEND_ACK_MAX : Z := 4.
Definition TLS_CHANNEL_BUF_SIZE : Z := 2048.
Definition TLS_CHANNEL_MTU_MIN : Z := 154.
Definition OPENVPN_MAX_HMAC_SIZE : Z := 64.
Definition TLS_CRYPT_V2_MAX_WKC_LEN : Z := 1024.
Definition TLV_TYPE_EARLY_NEG_FLAGS : Z := 1.
Definition EARLY_NEG_FLAG_RESEND_WKC : Z := 1.

Definition is_hard_reset_method2 (op : Z) : bool :=
  (op =? P_CONTROL_HARD_RESET_CLIENT_V2) || (op =? P_CONTROL_HARD_RESET_SERVER_V2)
  || (op =? P_CONTROL_HARD_RESET_CLIENT_V3).

(** From server to server, or from client to client. *)
Definition wrong_direction (server : bool) (op : Z) : bool :=
  is_hard_reset_method2 op
  && (((op =? P_CONTROL_HARD_RESET_CLIENT_V2) || (op =? P_CONTROL_HARD_RESET_CLIENT_V3)) && negb server
      || (op =? P_CONTROL_HARD_RESET_SERVER_V2) && server).

(** What [tls_pre_decrypt] hands to [handle_data_channel_packet]. *)
Definition is_data_packet (op : Z) : bool := (op =? P_DATA_V1) || (op =? P_DATA_V2).

(** The packets that carry a client key, which [tls_crypt_v2_extract_client_key] refuses
    when there is no [tls-crypt-v2] server key. *)
Definition carries_client_key (op : Z) : bool :=
  (op =? P_CONTROL_HARD_RESET_CLIENT_V3) || (op =? P_CONTROL_WKC_V1).

(** ** Frame sizes *)

(** The packet id and the tag of [tls-crypt], the larger of the two wrappings. *)
Definition tls_crypt_buf_overhead : Z := 8 + 256 / 8 + 128 / 8.

Definition tls_init_control_channel_frame_parameters (f : frame) (tls_mtu : Z) : frame :=
  let overhead := 10 + max_int tls_crypt_buf_overhead (8 + OPENVPN_MAX_HMAC_SIZE) + 3
                  + ACK_SIZE RELIABLE_ACK_SIZE in
  mk_frame (max_int 1500 tls_mtu + 100) overhead overhead (f_mss_fix f) (f_max_fragment_size f)
    (max_int (min_int tls_mtu TLS_CHANNEL_BUF_SIZE) TLS_CHANNEL_MTU_MIN) (f_tun_max_mtu f) (f_extra_tun f).

Definition datagram_overhead (ipv4 udp : bool) : Z :=
  (if udp then 8 else 20) + (if ipv4 then 20 else 40).

(** ** Sessions *)

(** What does not change: ids, sizes, and [tls_crypt_v2_wkc] ([None] is [NULL], the
    value without [--tls-crypt-v2]). *)
Record session := mk_session {
  ss_session_id : list Z;
  ss_session_id_remote : list Z;
  ss_key_id : Z;
  ss_frame : frame;
  ss_ipv4 : bool;
  ss_server : bool;
  ss_key_material_export : bool;
  ss_wkc : option buffer
}.

Record key_state := mk_ks {
  ks_send_reliable : reliable;
  ks_rec_reliable : reliable;
  ks_rec_ack : reliable_ack;
  ks_lru_acks : reliable_ack;
  ks_ack_write_buf : buffer;
  ks_resend_wkc : bool
}.

Definition set_send_reliable (ks : key_state) (r : reliable) : key_state :=
  mk_ks r (ks_rec_reliable ks) (ks_rec_ack ks) (ks_lru_acks ks) (ks_ack_write_buf ks) (ks_resend_wkc ks).
Definition set_rec_reliable (ks : key_state) (r : reliable) : key_state :=
  mk_ks (ks_send_reliable ks) r (ks_rec_ack ks) (ks_lru_acks ks) (ks_ack_write_buf ks) (ks_resend_wkc ks).
Definition set_acks (ks : key_state) (ack mru : reliable_ack) : key_state :=
  mk_ks (ks_send_reliable ks) (ks_rec_reliable ks) ack mru (ks_ack_write_buf ks) (ks_resend_wkc ks).
Definition set_ack_write_buf (ks : key_state) (b : buffer) : key_state :=
  mk_ks (ks_send_reliable ks) (ks_rec_reliable ks) (ks_rec_ack ks) (ks_lru_acks ks) b (ks_resend_wkc ks).
Definition set_resend_wkc (ks : key_state) (f : bool) : key_state :=
  mk_ks (ks_send_reliable ks) (ks_rec_reliable ks) (ks_rec_ack ks) (ks_lru_acks ks) (ks_ack_write_buf ks) f.

Section control.
Context (ss : session).

(** The reliability part of [key_state_init]. *)
Definition key_state_init (packet_timeout : Z) (xmit_hold : bool) : option key_state :=
  let f := ss_frame ss in
  ack_write_buf ← alloc_buf (BUF_SIZE f);
  snd_rel ← reliable_init (BUF_SIZE f) (f_headroom f) TLS_RELIABLE_N_SEND_BUFFERS
              (if negb (ss_key_id ss =? 0) then false else xmit_hold);
  rec_rel ← reliable_init (BUF_SIZE f) (f_headroom f) TLS_RELIABLE_N_REC_BUFFERS false;
  Some (mk_ks (reliable_set_timeout snd_rel packet_timeout) rec_rel [] [] ack_write_buf false).

(** ** Filling the send window *)

(** [session_move_pre_start] without [skip_initial_send]: the empty first packet. *)
Definition session_move_pre_start (ks : key_state) (initial_opcode : Z) : option (bool * key_state) :=
  '(buf, rel) ← reliable_get_buf_output_sequenced (ks_send_reliable ks);
  match buf with
  | None => Some (false, set_send_reliable ks rel)
  | Some i =>
      rel ← reliable_mark_active_outgoing rel i initial_opcode;
      Some (true, set_send_reliable ks rel)
  end.

Definition control_packet_needs_wkc (ks : key_state) : bool :=
  ks_resend_wkc ks && (rl_packet_id (ks_send_reliable ks) =? 1).

(** [buf_len(session->tls_wrap.tls_crypt_v2_wkc)]: [NULL] is dereferenced. *)
Definition wkc_len : option Z := buf_len <$> ss_wkc ss.

Definition calc_control_channel_frame_overhead (ks : key_state) : Z :=
  let ackstosend := reliable_ack_outstanding (ks_rec_ack ks) + zlen (ks_lru_acks ks) in
  1 + SID_SIZE + ACK_SIZE (min_int ackstosend CONTROL_SEND_ACK_MAX) + 4
  + datagram_overhead (ss_ipv4 ss) true.

(** One round of the loop that splits the TLS ciphertext: the new state, and what is
    left in [tmp]. *)
Definition split_step (max_pkt_len : Z) (ks : key_state) (tmp : buffer) : option (key_state * buffer) :=
  '(len, opcode) ← (if control_packet_needs_wkc ks
                    then w ← wkc_len; Some (max_int 0 (max_pkt_len - w), P_CONTROL_WKC_V1)
                    else Some (max_pkt_len, P_CONTROL_V1));
  let len := min_int len (b_len tmp) in
  '(buf, rel) ← reliable_get_buf_output_sequenced (ks_send_reliable ks);
  i ← buf;
  e ← rl_array rel !! i;
  let '(_, b, tmp) := buf_copy_n (e_buf e) tmp len in
  rel ← reliable_mark_active_outgoing (set_entry rel i (set_buf e b)) i opcode;
  Some (set_send_reliable ks rel, tmp).

(** Each round takes at least one byte, or uses the one round with a wrapped key:
    [tmp->len + 1] rounds are enough. *)
Fixpoint split_loop (fuel : nat) (max_pkt_len : Z) (ks : key_state) (tmp : buffer) : option key_state :=
  if 0 <? b_len tmp then
    match fuel with
    | O => None
    | S fuel => '(ks, tmp) ← split_step max_pkt_len ks tmp; split_loop fuel max_pkt_len ks tmp
    end
  else Some ks.

(** How much may be taken from the TLS object, and the size of one packet. *)
Definition write_outgoing_sizes (ks : key_state) (rel_avail : Z) : option (Z * Z) :=
  let max_pkt_len := min_int TLS_CHANNEL_BUF_SIZE (f_tun_mtu (ss_frame ss))
                     - calc_control_channel_frame_overhead ks in
  let maxlen := max_pkt_len * rel_avail in
  maxlen ← (if control_packet_needs_wkc ks then w ← wkc_len; Some (maxlen - w) else Some maxlen);
  Some (if maxlen <? 16 then (16, TLS_CHANNEL_BUF_SIZE) else (maxlen, max_pkt_len)).

(** [read_ciphertext n]: what the TLS object puts into a buffer of [n] bytes.  The
    bytes taken from it, and the new state. *)
Definition write_outgoing_tls_ciphertext (ks : key_state) (read_ciphertext : Z -> list Z)
  : option (list Z * key_state) :=
  let rel_avail := reliable_get_num_output_sequenced_available (ks_send_reliable ks) in
  if rel_avail =? 0 then Some ([], ks)
  else
    '(maxlen, max_pkt_len) ← write_outgoing_sizes ks rel_avail;
    tmp ← alloc_buf maxlen;
    let tmp := (buf_write tmp (read_ciphertext maxlen)).2 in
    ks ← split_loop (S (Z.to_nat (b_len tmp))) max_pkt_len ks tmp;
    Some (content tmp, ks).

Definition check_outgoing_ciphertext (ks : key_state) (read_ciphertext : Z -> list Z)
  : option (list Z * key_state) :=
  '(buf, rel) ← reliable_get_buf_output_sequenced (ks_send_reliable ks);
  let ks := set_send_reliable ks rel in
  match buf with
  | Some _ => write_outgoing_tls_ciphertext ks read_ciphertext
  | None => Some ([], ks)
  end.

(** ** Packets *)

(** In mode [TLS_WRAP_NONE]. *)
Definition tls_wrap_control (header : Z) (buf : buffer) (session_id : list Z) : option buffer :=
  '(ok, buf) ← Some (session_id_write_prepend session_id buf);
  ASSERT (ok : bool);;
  '(ok, buf) ← Some (buf_write_prepend buf [header]);
  ASSERT (ok : bool);; Some buf.

Definition write_control_auth (ks : key_state) (buf : buffer) (opcode max_ack : Z) (prepend_ack : bool)
  : option (key_state * buffer) :=
  ASSERT ((0 <=? ss_key_id ss) && (ss_key_id ss <=? P_KEY_ID_MASK));;
  ASSERT ((0 <=? opcode) && (opcode <=? P_LAST_OPCODE));;
  let header := u8 (Z.lor (ss_key_id ss) (Z.shiftl opcode P_OPCODE_SHIFT)) in
  let max_ack := if negb (ss_server ss) && negb (ss_key_material_export ss)
                 then min_int max_ack 4 else max_ack in
  '(ok, ack, mru, buf) ← reliable_ack_write (ks_rec_ack ks) (ks_lru_acks ks) buf
                           (ss_session_id_remote ss) max_ack prepend_ack;
  ASSERT (ok : bool);;
  buf ← tls_wrap_control header buf (ss_session_id ss);
  Some (set_acks ks ack mru, buf).

(** "Reliable buffer to outgoing TCP/UDP" in [tls_process_state]: the packet on the
    wire.  [b = *buf] shares the entry's memory, the header goes into its head room. *)
Definition send_reliable_packet (now : Z) (ks : key_state) : option (option (list Z) * key_state) :=
  if reliable_can_send now (ks_send_reliable ks) then
    '(sent, rel) ← Some (reliable_send now (ks_send_reliable ks));
    '(i, opcode) ← sent;
    e ← rl_array rel !! i;
    '(ks, b) ← write_control_auth (set_send_reliable ks rel) (e_buf e) opcode CONTROL_SEND_ACK_MAX true;
    let shared := mk_buffer (b_capacity (e_buf e)) (b_offset (e_buf e)) (b_len (e_buf e)) (b_data b) in
    Some (Some (content b), set_send_reliable ks (set_entry rel i (set_buf e shared)))
  else Some (None, ks).

(** The acknowledgement packets at the end of [tls_process]. *)
Definition send_ack_packet (ks : key_state) : option (option (list Z) * key_state) :=
  if reliable_ack_empty (ks_rec_ack ks) then Some (None, ks)
  else if control_packet_needs_wkc ks then
    '(buf, rel) ← reliable_get_buf_output_sequenced (ks_send_reliable ks);
    match buf with
    | None => Some (None, set_send_reliable ks rel)
    | Some i =>
        rel ← reliable_mark_active_outgoing rel i P_CONTROL_WKC_V1;
        Some (None, set_send_reliable ks rel)
    end
  else
    let buf := ks_ack_write_buf ks in
    '(ok, b) ← Some (buf_init buf (f_headroom (ss_frame ss)));
    ASSERT (ok : bool);;
    '(ks, b) ← write_control_auth ks b P_ACK_V1 RELIABLE_ACK_SIZE false;
    Some (Some (content b),
          set_ack_write_buf ks (mk_buffer (b_capacity buf) (b_offset buf) (b_len buf) (b_data b))).

(** ** Receiving *)

(** "Save incoming ciphertext packet to reliable buffer", unless it is a replay: [false]
    if the packet is too big, which ends its processing. *)
Definition store_packet (ks : key_state) (buf : buffer) (id op : Z) : option (bool * key_state) :=
  if reliable_not_replay (ks_rec_reliable ks) id then
    '(i, rel) ← reliable_get_buf (ks_rec_reliable ks);
    i ← i;
    e ← rl_array rel !! i;
    let '(ok, b) := buf_copy (e_buf e) buf in
    let rel := set_entry rel i (set_buf e b) in
    if negb (ok : bool) then Some (false, set_rec_reliable ks rel)
    else
      rel ← reliable_mark_active_incoming rel i id op;
      Some (true, set_rec_reliable ks rel)
  else Some (true, ks).

(** The part of [tls_pre_decrypt] that stores a packet with an id, and acknowledges it. *)
Definition receive_data (ks : key_state) (buf : buffer) (op : Z) : option (bool * key_state) :=
  if negb (op =? P_ACK_V1) && reliable_can_get (ks_rec_reliable ks) then
    match reliable_ack_read_packet_id buf with
    | (None, _) => Some (true, ks)
    | (Some id, buf) =>
        if reliable_wont_break_sequentiality (ks_rec_reliable ks) id then
          '(stored, ks) ← store_packet ks buf id op;
          if stored : bool then
            Some (true, set_acks ks (reliable_ack_acknowledge_packet_id (ks_rec_ack ks) id).2
                          (ks_lru_acks ks))
          else Some (false, ks)
        else Some (true, ks)
    end
  else Some (true, ks).

(** The part that passes an accepted packet to the reliability layer. *)
Definition receive_reliable (ks : key_state) (buf : buffer) (op : Z) : option (bool * key_state) :=
  let '(ok, buf, send_ack) := reliable_ack_read buf (ss_session_id ss) in
  if negb (ok : bool) then Some (false, ks)
  else
    receive_data (set_send_reliable ks (reliable_send_purge (ks_send_reliable ks) send_ack)) buf op.

(** [read_control_auth] in mode [TLS_WRAP_NONE]. *)
Definition read_control_auth (buf : buffer) : bool * buffer :=
  if carries_client_key (Z.shiftr (buf_peek_u8 buf) P_OPCODE_SHIFT) then (false, buf)
  else (true, (buf_advance buf (SID_SIZE + 1)).2).

(** A packet from the peer of this session, from its first byte: opcode and key id,
    the peer's session id, then [read_control_auth] and the reliability layer.  Not here:
    a soft reset in a session with keys, which starts another [struct key_state], and the
    burst that follows a reset ([reliable_schedule_now], an operation of its own). *)
Definition receive_packet (ks : key_state) (buf : buffer) : option (bool * key_state) :=
  if b_len buf <=? 0 then Some (false, ks)
  else
    let pkt_firstbyte := buf_peek_u8 buf in
    let op := Z.shiftr pkt_firstbyte P_OPCODE_SHIFT in
    let key_id := Z.land pkt_firstbyte P_KEY_ID_MASK in
    if is_data_packet op then Some (false, ks)
    else if (op <? P_FIRST_OPCODE) || (P_LAST_OPCODE <? op) then Some (false, ks)
    else if wrong_direction (ss_server ss) op then Some (false, ks)
    else
      match session_id_read (buf_advance buf 1).2 with
      | (None, _) => Some (false, ks)
      | (Some sid, _) =>
          if negb (session_id_defined sid) then Some (false, ks)
          else if negb (session_id_equal (ss_session_id_remote ss) sid) then Some (false, ks)
          else
            let '(ok, buf) := read_control_auth buf in
            if negb (ok : bool) then Some (false, ks)
            else if negb (ss_key_id ss =? key_id) then Some (false, ks)
            else receive_reliable ks buf op
      end.

(** [parse_early_negotiation_tlvs]: whether the TLVs are well formed, and the flag. *)
Fixpoint parse_tlvs (fuel : nat) (buf : buffer) (resend_wkc : bool) : option (bool * bool) :=
  if 0 <? b_len buf then
    match fuel with
    | O => None
    | S fuel =>
        if buf_len buf <? 4 then Some (false, resend_wkc)
        else
          let '(type, buf) := buf_read_u16 buf in
          let '(len, buf) := buf_read_u16 buf in
          if (type <? 0) || (len <? 0) || (buf_len buf <? len) then Some (false, resend_wkc)
          else if type =? TLV_TYPE_EARLY_NEG_FLAGS then
            if negb (len =? 2) then Some (false, resend_wkc)
            else
              let '(flags, buf) := buf_read_u16 buf in
              parse_tlvs fuel buf
                (resend_wkc || negb (Z.land flags EARLY_NEG_FLAG_RESEND_WKC =? 0))
          else parse_tlvs fuel (buf_advance buf len).2 resend_wkc
    end
  else Some (true, resend_wkc).

(** "Write incoming ciphertext to TLS object": the bytes given to the TLS object and
    whether the session goes on.  The object takes all of a packet. *)
Definition deliver_sequenced (ks : key_state) : option (bool * list Z * key_state) :=
  let rel := ks_rec_reliable ks in
  match reliable_get_entry_sequenced rel with
  | None => Some (true, [], ks)
  | Some i =>
      e ← rl_array rel !! i;
      if (e_packet_id e =? 0) && is_hard_reset_method2 (e_opcode e) then
        '(ok, resend) ← parse_tlvs (Z.to_nat (b_len (e_buf e))) (e_buf e) (ks_resend_wkc ks);
        let ks := set_resend_wkc ks resend in
        if negb (ok : bool) then Some (false, [], ks)
        else rel ← reliable_mark_deleted rel i; Some (true, [], set_rec_reliable ks rel)
      else
        rel ← reliable_mark_deleted rel i;
        Some (true, content (e_buf e), set_rec_reliable ks rel)
  end.
End control.
