(* ===== verification/ControlNet.v ===== *)
(** * Two peers and a network: runs of the control channel

    A [side] is a [struct key_state] together with the packets that it has put on
    the wire and the TLS bytes that have passed through it.  The network keeps every
    packet: it may deliver any of them, at any time, in any order, any number of
    times or never.  [link] is the invariant of two sides that talk to each other. *)
From S2P Require Import Prelude Integers Buffer Frame Reliable AckList Windows SendWindow RecvWindow Control.

Record side := mk_side {
  sd_ks : key_state;
  sd_net : list (list Z);
  sd_out : list Z;
  sd_in : list Z
}.

(** What one side may do.  [EReceive k]: the [k]-th packet of the peer arrives. *)
Inductive ctl_event :=
  | EStart (opcode : Z)
  | EWrite (read_ciphertext : Z -> list Z)
  | ETransmit (now : Z)
  | EAck
  | EReceive (k : nat)
  | EDeliver
  | EBurst (now : Z).

Definition set_ks (s : side) (ks : key_state) : side := mk_side ks (sd_net s) (sd_out s) (sd_in s).

(** A packet that may have been produced. *)
Definition emit (s : side) (r : option (list Z) * key_state) : side :=
  mk_side r.2 (sd_net s ++ option_list r.1) (sd_out s) (sd_in s).

Definition side_step (ss : session) (net : list (list Z)) (s : side) (ev : ctl_event) : option side :=
  let ks := sd_ks s in
  match ev with
  | EStart op => '(_, ks) ← session_move_pre_start ks op; Some (set_ks s ks)
  | EWrite read =>
      '(out, ks) ← check_outgoing_ciphertext ss ks read;
      Some (mk_side ks (sd_net s) (sd_out s ++ out) (sd_in s))
  | ETransmit now => r ← send_reliable_packet ss now ks; Some (emit s r)
  | EAck => r ← send_ack_packet ss ks; Some (emit s r)
  | EReceive k =>
      match net !! k with
      | Some pkt => '(_, ks) ← receive_packet ss ks (received pkt); Some (set_ks s ks)
      | None => Some s
      end
  | EDeliver =>
      '(_, inp, ks) ← deliver_sequenced ks;
      Some (mk_side ks (sd_net s) (sd_out s) (sd_in s ++ inp))
  | EBurst now => Some (set_ks s (set_send_reliable ks (reliable_schedule_now now (ks_send_reliable ks))))
  end.

(** [true]: an event at [a]. *)
Fixpoint ctl_run (sa sb : session) (evs : list (bool * ctl_event)) (a b : side) : option (side * side) :=
  match evs with
  | [] => Some (a, b)
  | (true, ev) :: evs => a ← side_step sa (sd_net b) a ev; ctl_run sa sb evs a b
  | (false, ev) :: evs => b ← side_step sb (sd_net a) b ev; ctl_run sa sb evs a b
  end.

(** The library fills at most the buffer it is given; a session starts with one of the
    initial opcodes. *)
Definition ctl_event_ok (ss : session) (ev : ctl_event) : Prop :=
  match ev with
  | EStart op => op = (if ss_server ss then P_CONTROL_HARD_RESET_SERVER_V2 else P_CONTROL_HARD_RESET_CLIENT_V2)
                 \/ op = P_CONTROL_SOFT_RESET_V1
  | EWrite read => forall n, 0 <= n -> bytes (read n) /\ zlen (read n) <= n
  | _ => True
  end.

Record session_ok (ss : session) : Prop := {
  so_sid : zlen (ss_session_id ss) = SID_SIZE;
  so_sid_bytes : bytes (ss_session_id ss);
  so_sid_defined : session_id_defined (ss_session_id ss) = true;
  so_key_id : 0 <= ss_key_id ss <= P_KEY_ID_MASK;
  so_frame : exists f tls_mtu, TLS_CHANNEL_MTU_MIN <= tls_mtu <= TLS_CHANNEL_BUF_SIZE /\
    ss_frame ss = tls_init_control_channel_frame_parameters f tls_mtu
}.

(** The two ends of a session. *)
Record peers (sa sb : session) : Prop := {
  pe_a : session_ok sa;
  pe_b : session_ok sb;
  pe_ab : ss_session_id_remote sa = ss_session_id sb;
  pe_ba : ss_session_id_remote sb = ss_session_id sa;
  pe_key : ss_key_id sa = ss_key_id sb;
  pe_role : ss_server sa = negb (ss_server sb)
}.

Lemma peers_sym sa sb : peers sa sb -> peers sb sa.
Proof. intros []. split; try done. rewrite pe_role0. by rewrite negb_involutive. Qed.

(** ** The invariant *)

Definition payloads (log : list (Z * list Z)) : list Z := mjoin (snd <$> log).

(** What the peer of a client, or of a server, accepts. *)
Definition acceptable (server : bool) (op : Z) : bool :=
  negb (is_data_packet op) && negb (wrong_direction (negb server) op) && negb (carries_client_key op).

Definition log_entry_ok (ss : session) (p : Z * list Z) : Prop :=
  P_FIRST_OPCODE <= p.1 <= P_LAST_OPCODE /\ p.1 <> P_ACK_V1 /\
  (is_hard_reset_method2 p.1 = true -> p.2 = []) /\ zlen p.2 <= f_tun_mtu (ss_frame ss) /\
  acceptable (ss_server ss) p.1 = true.

Definition packet_header (ss : session) (op : Z) : Z :=
  u8 (Z.lor (ss_key_id ss) (Z.shiftl op P_OPCODE_SHIFT)).

(** A packet on the wire. *)
Definition control_packet (ss : session) (op : Z) (acks body : list Z) : list Z :=
  packet_header ss op :: ss_session_id ss ++ ack_record acks (ss_session_id_remote ss) ++ body.

(** A packet of the side with this [log], acknowledging packets in [st]. *)
Definition pkt_ok (ss : session) (log : list (Z * list Z)) (st : Z -> Prop) (pkt : list Z) : Prop :=
  exists op acks body, pkt = control_packet ss op acks body /\ bytes body /\
    P_FIRST_OPCODE <= op <= P_LAST_OPCODE /\ ack_wf acks /\ (forall x, x ∈ acks -> st x) /\
    ((op = P_ACK_V1 /\ body = []) \/
     (op <> P_ACK_V1 /\ exists pid pl, 0 <= pid <= ID_BOUND /\ log !! Z.to_nat pid = Some (op, pl) /\
        body = be_bytes 4 pid ++ pl)).

(** One side: [log], the packets it has numbered; [plog], those of its peer. *)
Record side_inv (ss : session) (s : side) (log plog : list (Z * list Z)) : Prop := {
  sv_send : send_inv (BUF_SIZE (ss_frame ss)) (f_headroom (ss_frame ss)) (ks_send_reliable (sd_ks s)) log;
  sv_send_size : rl_size (ks_send_reliable (sd_ks s)) = TLS_RELIABLE_N_SEND_BUFFERS;
  sv_recv : recv_inv (BUF_SIZE (ss_frame ss)) (f_headroom (ss_frame ss)) (ks_rec_reliable (sd_ks s)) plog;
  sv_recv_size : rl_size (ks_rec_reliable (sd_ks s)) = TLS_RELIABLE_N_REC_BUFFERS;
  sv_log : Forall (log_entry_ok ss) log;
  sv_ack : ack_wf (ks_rec_ack (sd_ks s));
  sv_lru : ack_wf (ks_lru_acks (sd_ks s));
  sv_acked : forall x, x ∈ ks_rec_ack (sd_ks s) ++ ks_lru_acks (sd_ks s) -> stored (ks_rec_reliable (sd_ks s)) x;
  sv_ackbuf : exists h c t, buf_rep (ks_ack_write_buf (sd_ks s)) h c t /\ h + zlen c + t = BUF_SIZE (ss_frame ss);
  sv_wkc : ks_resend_wkc (sd_ks s) = false;
  sv_out : sd_out s = payloads log;
  sv_in : sd_in s = payloads (take (Z.to_nat (rl_packet_id (ks_rec_reliable (sd_ks s)))) plog);
  sv_net : Forall (pkt_ok ss log (stored (ks_rec_reliable (sd_ks s)))) (sd_net s)
}.

(** Nothing is lost: what the sender has let go of has arrived. *)
Definition kept (s p : side) (log : list (Z * list Z)) : Prop :=
  forall x, 0 <= x < zlen log ->
    x ∈ active_ids (rl_array (ks_send_reliable (sd_ks s))) \/ stored (ks_rec_reliable (sd_ks p)) x.

Record link (sa sb : session) (a b : side) (la lb : list (Z * list Z)) : Prop := {
  lk_a : side_inv sa a la lb;
  lk_b : side_inv sb b lb la;
  lk_ab : kept a b la;
  lk_ba : kept b a lb
}.

Lemma link_sym sa sb a b la lb : link sa sb a b la lb -> link sb sa b a lb la.
Proof. intros []. by split. Qed.

(** ** Generic steps *)

Lemma payloads_app l k : payloads (l ++ k) = payloads l ++ payloads k.
Proof. unfold payloads. by rewrite fmap_app, join_app. Qed.

Lemma pkt_ok_mono ss log log' (st st' : Z -> Prop) pkt :
  log `prefix_of` log' -> (forall x, st x -> st' x) -> pkt_ok ss log st pkt -> pkt_ok ss log' st' pkt.
Proof.
  intros [k ->] Hst (op & acks & body & -> & Hb & Hop & Hwf & Hacks & Hbody).
  exists op, acks, body. do 5 (split; [by auto|]). destruct Hbody as [|(? & pid & pl & ? & Hl & ->)]; [by left|right].
  split; [done|]. exists pid, pl. do 2 (split; [try done|]); [|done].
  rewrite lookup_app_l; [done|]. by eapply lookup_lt_Some.
Qed.

(** The peer has numbered more packets. *)
Lemma side_inv_plog ss s log plog k :
  side_inv ss s log plog -> zlen (plog ++ k) <= ID_BOUND -> side_inv ss s log (plog ++ k).
Proof.
  intros [] Hk. pose proof (ri_delivered _ _ _ _ sv_recv0). split; try done.
  - clear -sv_recv0 Hk. revert plog sv_recv0 Hk. induction k as [|p k IH]; intros plog Hr Hk; [by rewrite app_nil_r|].
    rewrite cons_middle, app_assoc. rewrite cons_middle, app_assoc in Hk. apply IH; [|done].
    apply recv_inv_log; [done|]. rewrite !length_app in Hk. cbn in Hk. lia.
  - rewrite take_app_le by lia. done.
Qed.

(** What a step of [s] may change, for its peer [p] to keep its part of the bargain. *)
Record progress (s s' p : side) (log log' : list (Z * list Z)) : Prop := {
  pg_log : log `prefix_of` log';
  pg_short : zlen log' <= zlen log + TLS_RELIABLE_N_SEND_BUFFERS;
  pg_new : forall x, zlen log <= x < zlen log' -> x ∈ active_ids (rl_array (ks_send_reliable (sd_ks s')));
  pg_send : forall x, x ∈ active_ids (rl_array (ks_send_reliable (sd_ks s))) ->
    x ∈ active_ids (rl_array (ks_send_reliable (sd_ks s'))) \/ stored (ks_rec_reliable (sd_ks p)) x;
  pg_stored : forall x, stored (ks_rec_reliable (sd_ks s)) x -> stored (ks_rec_reliable (sd_ks s')) x
}.

Lemma link_step sa sb a a' b la la' lb :
  link sa sb a b la lb -> side_inv sa a' la' lb -> progress a a' b la la' -> link sa sb a' b la' lb.
Proof.
  intros [Ha Hb Hab Hba] Ha' [[k ->] _ Hnew Hsend Hst]. split; [done| | |].
  - apply side_inv_plog; [done|]. apply (si_bound _ _ _ _ (sv_send _ _ _ _ Ha')).
  - intros x Hx. destruct (decide (x < zlen la)); [|left; apply Hnew; lia].
    destruct (Hab x) as [Hin|]; [lia| |by right]. by apply Hsend.
  - intros x Hx. destruct (Hba x Hx) as [|]; [by left|right; auto].
Qed.
