(* ===== verification/ControlOne.v ===== *)
(** * One end of the control channel, whatever its peer does

    The operations of [Control] that the invariant of two peers ([ControlInv]) and that of a
    tunnel with an unknown peer share: sizes, headers, cutting TLS output into packets,
    sending and storing. *)
From S2P Require Import Prelude Integers Buffer Frame Reliable AckList Windows SendWindow RecvWindow Control ControlNet.

(** A session of this end; the id of the peer may not be known yet. *)
Record local_ok (ss : session) : Prop := {
  lo_session : session_ok ss;
  lo_remote : zlen (ss_session_id_remote ss) = SID_SIZE;
  lo_remote_bytes : bytes (ss_session_id_remote ss)
}.

(** Acknowledgements go to a peer whose id is known. *)
Definition acks_known (ss : session) (ks : key_state) : Prop :=
  session_id_defined (ss_session_id_remote ss) = true \/ (ks_rec_ack ks = [] /\ ks_lru_acks ks = []).

Lemma acks_out_nil max : acks_out [] [] max = [].
Proof.
  unfold acks_out. replace (mru_merge _ []) with (@nil Z); [by rewrite take_nil|]. by rewrite take_nil.
Qed.

Lemma peers_known sa sb ks : peers sa sb -> acks_known sa ks.
Proof. intros [_ Hb E _ _ _]. left. rewrite E. apply Hb. Qed.

Lemma peers_local sa sb : peers sa sb -> local_ok sa.
Proof. intros [Ha Hb E _ _ _]. split; [done|rewrite E; apply Hb..]. Qed.

(** What may be sent. *)
Definition sendable (p : Z * list Z) : Prop := P_FIRST_OPCODE <= p.1 <= P_LAST_OPCODE /\ p.1 <> P_ACK_V1.

Lemma log_sendable ss log : Forall (log_entry_ok ss) log -> Forall sendable log.
Proof. intros Hl. eapply Forall_impl; [exact Hl|]. intros p (? & ? & _). done. Qed.

(** ** Sizes and headers *)

Lemma frame_ok ss :
  session_ok ss ->
  f_headroom (ss_frame ss) = 126 /\ 1852 <= BUF_SIZE (ss_frame ss) <= 2500 /\
  TLS_CHANNEL_MTU_MIN <= f_tun_mtu (ss_frame ss) <= TLS_CHANNEL_BUF_SIZE /\
  f_tun_mtu (ss_frame ss) <= BUF_SIZE (ss_frame ss) - 226.
Proof.
  intros [_ _ _ _ (f & mtu & Hm & ->)].
  unfold tls_init_control_channel_frame_parameters, BUF_SIZE, TLS_CHANNEL_MTU_MIN, TLS_CHANNEL_BUF_SIZE in *.
  cbn. change (max_int tls_crypt_buf_overhead (8 + OPENVPN_MAX_HMAC_SIZE)) with 72.
  unfold max_int, min_int, TLS_CHANNEL_MTU_MIN, TLS_CHANNEL_BUF_SIZE, ACK_SIZE, SID_SIZE, RELIABLE_ACK_SIZE.
  cbn. repeat case_match; lia.
Qed.

Lemma packet_header_ok ss op :
  session_ok ss -> P_FIRST_OPCODE <= op <= P_LAST_OPCODE ->
  packet_header ss op = op * 8 + ss_key_id ss /\ is_u8 (packet_header ss op).
Proof.
  intros [_ _ _ Hk _] Hop. unfold packet_header, P_KEY_ID_MASK, P_FIRST_OPCODE, P_LAST_OPCODE, P_OPCODE_SHIFT in *.
  rewrite Z.lor_comm, lor_shiftl_add by lia. change (2 ^ 3) with 8.
  rewrite u8_small by (unfold is_u8; lia). unfold is_u8. lia.
Qed.

Lemma header_fields ss op :
  session_ok ss -> P_FIRST_OPCODE <= op <= P_LAST_OPCODE ->
  Z.shiftr (packet_header ss op) P_OPCODE_SHIFT = op /\ Z.land (packet_header ss op) P_KEY_ID_MASK = ss_key_id ss.
Proof.
  intros Hs Hop. destruct (packet_header_ok ss op Hs Hop) as [-> _]. destruct Hs as [_ _ _ Hk _].
  unfold P_KEY_ID_MASK, P_OPCODE_SHIFT in *. change 8 with (2 ^ 3). change 7 with (Z.ones 3).
  split; [apply shiftr_pack|apply land_pack]; lia.
Qed.

(** ** Building packets *)

Lemma tls_wrap_ok ss op b h c t :
  session_ok ss -> P_FIRST_OPCODE <= op <= P_LAST_OPCODE -> buf_rep b h c t -> 9 <= h ->
  exists b', tls_wrap_control (packet_header ss op) b (ss_session_id ss) = Some b' /\
    buf_rep b' (h - 9) (packet_header ss op :: ss_session_id ss ++ c) t.
Proof.
  intros Hs Hop Hb Hh. destruct (packet_header_ok ss op Hs Hop) as [_ Hu]. destruct Hs as [Hsid Hsb _ _ _].
  unfold SID_SIZE in *. unfold tls_wrap_control, session_id_write_prepend.
  destruct (write_prepend_rep _ _ _ _ (ss_session_id ss) Hb Hsb) as (b1 & -> & Hb1); [lia|].
  cbn [mbind option_bind ASSERT].
  destruct (write_prepend_rep _ _ _ _ [packet_header ss op] Hb1) as (b2 & -> & Hb2).
  { by constructor. } { cbn [length]. lia. }
  cbn [mbind option_bind ASSERT]. exists b2. split; [done|].
  eapply rep_eq; [exact Hb2|cbn [length]; lia|done|done].
Qed.

(** The acknowledgements that go out, from [ks], in a packet that may hold [max]. *)
Definition max_acks (ss : session) (max : Z) : Z :=
  if negb (ss_server ss) && negb (ss_key_material_export ss) then min_int max 4 else max.

Definition acked_ks (ss : session) (ks : key_state) (max : Z) : key_state :=
  let n := Z.to_nat (min_int (max_acks ss max) (zlen (ks_rec_ack ks))) in
  set_acks ks (drop n (ks_rec_ack ks)) (mru_merge (take n (ks_rec_ack ks)) (ks_lru_acks ks)).

Lemma write_control_auth_ok sa ks b op max (prepend : bool) h c t :
  local_ok sa -> acks_known sa ks -> P_FIRST_OPCODE <= op <= P_LAST_OPCODE -> ack_wf (ks_rec_ack ks) -> ack_wf (ks_lru_acks ks) ->
  buf_rep b h c t -> (prepend = true \/ c = []) -> 50 <= h -> 50 <= t \/ prepend = true -> 4 <= max <= 8 ->
  let acks := acks_out (ks_rec_ack ks) (ks_lru_acks ks) (max_acks sa max) in
  exists b' h' t', write_control_auth sa ks b op max prepend = Some (acked_ks sa ks max, b') /\
    buf_rep b' h' (control_packet sa op acks c) t' /\
    h' + zlen (control_packet sa op acks c) + t' = h + zlen c + t /\ (prepend = true -> t' = t).
Proof.
  intros [Hsa Hrl Hrb] Hkn Hop Hack Hlru Hb Hpre Hh Ht Hmax acks.
  assert (Hmx : 4 <= max_acks sa max <= 8).
  { unfold max_acks, min_int. destruct (_ && _); [destruct (_ <? _) eqn:E|]; lia. }
  destruct (ack_write_ok (ks_rec_ack ks) (ks_lru_acks ks) b (ss_session_id_remote sa) (max_acks sa max) prepend h c t)
    as (b1 & Hw & Hb1); try (done || lia).
  { intros Hne. destruct Hkn as [|[Ea El]]; [done|]. rewrite Ea, El, acks_out_nil in Hne. done. }
  fold acks in Hb1. unfold write_control_auth. pose proof (so_key_id _ Hsa) as Hk.
  rewrite (ASSERT_true ((0 <=? ss_key_id sa) && _)), Some_bind by lia.
  rewrite (ASSERT_true ((0 <=? op) && _)), Some_bind by (unfold P_FIRST_OPCODE in *; lia). fold (max_acks sa max).
  rewrite Hw. cbn [mbind option_bind ASSERT]. fold (packet_header sa op).
  set (rec := ack_record acks (ss_session_id_remote sa)) in *.
  assert (Hrec : zlen rec <= 41).
  { unfold rec. rewrite length_ack_record by done.
    pose proof (acks_out_wf (ks_rec_ack ks) (ks_lru_acks ks) (max_acks sa max) Hack Hlru) as (_ & Hl & _).
    fold acks in Hl. unfold ACK_SIZE, SID_SIZE, RELIABLE_ACK_SIZE in *. destruct (_ =? _); lia. }
  assert (Hb1' : buf_rep b1 (if prepend then h - zlen rec else h) (rec ++ c) (if prepend then t else t - zlen rec)).
  { unfold wrote in Hb1. destruct prepend; [done|]. destruct Hpre as [?| ->]; [done|]. by rewrite app_nil_r. }
  destruct (tls_wrap_ok sa op b1 _ _ _ Hsa Hop Hb1') as (b2 & -> & Hb2); [destruct prepend; lia|].
  rewrite Some_bind. do 3 eexists. split; [done|]. split; [exact Hb2|]. split; [|by intros ->].
  unfold control_packet. fold rec. cbn [length]. rewrite !length_app, !Nat2Z.inj_succ, !Nat2Z.inj_add.
  rewrite (so_sid _ Hsa). unfold SID_SIZE. destruct prepend; lia.
Qed.

(** The acknowledgements of a packet, and those still owed, are of stored packets. *)
Lemma acked_ks_ok sa ks max st :
  ack_wf (ks_rec_ack ks) -> ack_wf (ks_lru_acks ks) ->
  (forall x, x ∈ ks_rec_ack ks ++ ks_lru_acks ks -> (st : Z -> Prop) x) ->
  ack_wf (ks_rec_ack (acked_ks sa ks max)) /\ ack_wf (ks_lru_acks (acked_ks sa ks max)) /\
  (forall x, x ∈ ks_rec_ack (acked_ks sa ks max) ++ ks_lru_acks (acked_ks sa ks max) -> st x) /\
  (forall x, x ∈ acks_out (ks_rec_ack ks) (ks_lru_acks ks) (max_acks sa max) -> st x).
Proof.
  intros Ha Hl Hst. unfold acked_ks. set (n := Z.to_nat _). cbn.
  split; [by apply ack_wf_drop|]. split.
  { destruct (ack_wf_take n _ Ha) as (? & _ & ?). by apply mru_fold_ok. }
  split; intros x Hx; apply Hst, elem_of_app.
  - apply elem_of_app in Hx as [Hx|Hx].
    + left. by apply (sublist_subseteq _ _ (sublist_drop _ _)) in Hx.
    + apply mru_merge_in in Hx as [Hx|]; [left|by right].
      by apply (sublist_subseteq _ _ (sublist_take _ _)) in Hx.
  - by apply acks_out_in in Hx.
Qed.
(** ** The initial state *)

Lemma init_window cap off n :
  0 < n < 16 -> 0 <= off <= cap -> cap < BUF_SIZE_MAX -> n <= RELIABLE_CAPACITY ->
  forall hold, exists rel, reliable_init cap off n hold = Some rel /\ rl_offset rel = off /\ rl_packet_id rel = 0 /\
    rl_size rel = n /\ Forall (slot cap) (rl_array rel) /\ active_ids (rl_array rel) = [] /\
    (forall e, e ∈ rl_array rel -> e_active e = false).
Proof.
  intros Hn Hoff Hcap Hc hold. unfold reliable_init. rewrite (ASSERT_true ((0 <? n) && _)), Some_bind by lia.
  destruct (alloc_some cap) as (b & -> & Hb); [lia|]. rewrite Some_bind.
  destruct (init_rep _ _ _ _ off Hb) as (b1 & -> & Hb1); [cbn; lia|]. cbn [mbind option_bind ASSERT].
  eexists. split; [done|]. cbn. unfold rl_size. cbn. rewrite length_replicate.
  split_and!; try done; try lia.
  - apply Forall_replicate. eexists _, _, _. split; [exact Hb1|cbn; lia].
  - induction (Z.to_nat n) as [|k IH]; [done|]. by rewrite replicate_S, active_ids_cons.
  - by intros e [-> _]%elem_of_replicate.
Qed.

Lemma init_one ss timeout hold :
  session_ok ss ->
  exists ks, key_state_init ss timeout hold = Some ks /\
    send_inv (BUF_SIZE (ss_frame ss)) (f_headroom (ss_frame ss)) (ks_send_reliable ks) [] /\
    rl_size (ks_send_reliable ks) = TLS_RELIABLE_N_SEND_BUFFERS /\
    recv_inv (BUF_SIZE (ss_frame ss)) (f_headroom (ss_frame ss)) (ks_rec_reliable ks) [] /\
    rl_size (ks_rec_reliable ks) = TLS_RELIABLE_N_REC_BUFFERS /\
    ks_rec_ack ks = [] /\ ks_lru_acks ks = [] /\
    (exists h c t, buf_rep (ks_ack_write_buf ks) h c t /\ h + zlen c + t = BUF_SIZE (ss_frame ss)) /\
    ks_resend_wkc ks = false /\ rl_packet_id (ks_rec_reliable ks) = 0 /\
    active_ids (rl_array (ks_send_reliable ks)) = [] /\ active_ids (rl_array (ks_rec_reliable ks)) = [].
Proof.
  intros Hs. destruct (frame_ok ss Hs) as (Hh & Hbs & _).
  destruct (alloc_some (BUF_SIZE (ss_frame ss))) as (ab & Hab & Habr); [unfold BUF_SIZE_MAX; lia|].
  destruct (init_window (BUF_SIZE (ss_frame ss)) (f_headroom (ss_frame ss)) TLS_RELIABLE_N_SEND_BUFFERS)
    with (hold := if negb (ss_key_id ss =? 0) then false else hold)
    as (snd_rel & Hsr & Hs1 & Hs2 & Hs3 & Hs4 & Hs5 & Hs6); [done|lia|unfold BUF_SIZE_MAX; lia|done|].
  destruct (init_window (BUF_SIZE (ss_frame ss)) (f_headroom (ss_frame ss)) TLS_RELIABLE_N_REC_BUFFERS)
    with (hold := false)
    as (rec_rel & Hrr & Hr1 & Hr2 & Hr3 & Hr4 & Hr5 & Hr6); [done|lia|unfold BUF_SIZE_MAX; lia|done|].
  unfold key_state_init. rewrite Hab, Some_bind, Hsr, Some_bind, Hrr, !Some_bind.
  eexists. split; [done|]. cbn. unfold rl_size, ID_BOUND in *. cbn [reliable_set_timeout rl_offset rl_packet_id rl_array] in *.
  split_and!; try done.
  - split; unfold rl_size; cbn [reliable_set_timeout rl_offset rl_packet_id rl_array] in *; try done; try lia.
    + by rewrite Hs3.
    + rewrite Hs5. constructor.
    + intros e He Ha. by rewrite Hs6 in Ha.
  - split; unfold rl_size; try done.
    + by rewrite Hr3.
    + rewrite Hr2. cbn. lia.
    + rewrite Hr5. constructor.
    + intros e He Ha. by rewrite Hr6 in Ha.
  - exists 0, [], (BUF_SIZE (ss_frame ss)). split; [done|cbn; lia].
Qed.

(** ** One end *)

Section one.
Context (sa : session) (Hlo : local_ok sa).
Implicit Types (log : list (Z * list Z)).

Lemma sa_ok : session_ok sa.
Proof. apply Hlo. Qed.

(** The offset and size of the buffers, as numbers. *)
Lemma room_ok : 4 <= f_headroom (ss_frame sa) <= BUF_SIZE (ss_frame sa).
Proof. destruct (frame_ok sa sa_ok) as (-> & ? & _). lia. Qed.

Lemma room_ok0 : 0 <= f_headroom (ss_frame sa) <= BUF_SIZE (ss_frame sa).
Proof. pose proof room_ok. lia. Qed.
(** ** Cutting TLS output into packets *)

(** One round appends one packet and takes its bytes from [tmp]. *)
Lemma split_step_ok ks log mx tmp h c t :
  send_inv (BUF_SIZE (ss_frame sa)) (f_headroom (ss_frame sa)) (ks_send_reliable ks) log ->
  ks_resend_wkc ks = false -> 0 < avail (ks_send_reliable ks) -> zlen log < ID_BOUND ->
  buf_rep tmp h c t -> c <> [] -> 0 < mx <= BUF_SIZE (ss_frame sa) - f_headroom (ss_frame sa) ->
  let pl := take (Z.to_nat mx) c in
  exists rel' tmp', split_step sa mx ks tmp = Some (set_send_reliable ks rel', tmp') /\
    send_inv (BUF_SIZE (ss_frame sa)) (f_headroom (ss_frame sa)) rel' (log ++ [(P_CONTROL_V1, pl)]) /\
    avail rel' = avail (ks_send_reliable ks) - 1 /\ rl_size rel' = rl_size (ks_send_reliable ks) /\
    active_ids (rl_array rel') ≡ₚ zlen log :: active_ids (rl_array (ks_send_reliable ks)) /\
    buf_rep tmp' (h + zlen pl) (drop (Z.to_nat mx) c) t.
Proof.
  intros Hs Hw Hav Hlog Htmp Hc Hmx pl.
  destruct (fill_ok _ _ room_ok _ _ Hs Hav Hlog) as (i & rel1 & e1 & Hg & He1 & Hb1 & Hfill).
  assert (Hpl : min_int mx (b_len tmp) = zlen pl).
  { rewrite (rep_len _ _ _ _ Htmp). unfold pl, min_int. rewrite length_take. destruct (_ <? _) eqn:E; lia. }
  assert (Hple : zlen pl <= mx) by (unfold pl; rewrite length_take; lia).
  unfold split_step, control_packet_needs_wkc. rewrite Hw. cbn [andb]. rewrite Some_bind. rewrite Hg.
  cbn [mbind option_bind]. rewrite He1. cbn [mbind option_bind]. rewrite Hpl.
  rewrite <- (take_drop (Z.to_nat mx) c) in Htmp. fold pl in Htmp.
  destruct (copy_n_rep _ _ _ _ _ _ _ _ _ Hb1 Htmp) as (b' & tmp' & -> & Hb' & Htmp'); [lia|].
  destruct (Hfill b' pl P_CONTROL_V1 Hb') as (rel' & -> & Hs' & Hav' & Hsz' & Hids').
  cbn [mbind option_bind]. by exists rel', tmp'.
Qed.

(** The loop ends with everything cut into packets; its [ASSERT] does not fail as long
    as the bytes fit the packets that are available. *)
Lemma split_loop_ok fuel ks log mx tmp h c t :
  send_inv (BUF_SIZE (ss_frame sa)) (f_headroom (ss_frame sa)) (ks_send_reliable ks) log ->
  ks_resend_wkc ks = false -> zlen log + avail (ks_send_reliable ks) <= ID_BOUND ->
  buf_rep tmp h c t -> 0 < mx <= BUF_SIZE (ss_frame sa) - f_headroom (ss_frame sa) -> mx <= f_tun_mtu (ss_frame sa) ->
  zlen c <= mx * avail (ks_send_reliable ks) -> zlen c < Z.of_nat fuel ->
  exists rel' k, split_loop sa fuel mx ks tmp = Some (set_send_reliable ks rel') /\
    send_inv (BUF_SIZE (ss_frame sa)) (f_headroom (ss_frame sa)) rel' (log ++ k) /\
    zlen k <= avail (ks_send_reliable ks) /\ rl_size rel' = rl_size (ks_send_reliable ks) /\
    Forall (log_entry_ok sa) k /\ payloads k = c /\
    active_ids (rl_array rel') ≡ₚ seqZ (zlen log) (zlen k) ++ active_ids (rl_array (ks_send_reliable ks)).
Proof.
  revert ks log tmp h c t. induction fuel as [|fuel IH]; intros ks log tmp h c t Hs Hw Hlog Htmp Hmx Hmb Hc Hf; [lia|].
  cbn [split_loop]. rewrite (rep_len _ _ _ _ Htmp). pose proof (avail_ok _ _ _ _ Hs) as (Hav & _).
  destruct (Z.ltb_spec 0 (zlen c)) as [Hpos|Hpos].
  - assert (Hne : c <> []) by (by intros ->). assert (0 < avail (ks_send_reliable ks)) as Hav0 by nia.
    destruct (split_step_ok ks log mx tmp h c t Hs Hw Hav0) as (rel1 & tmp1 & -> & Hs1 & Ha1 & Hz1 & Hi1 & Ht1);
      [lia|done..|].
    rewrite Some_bind. set (pl := take (Z.to_nat mx) c) in *.
    assert (Hd : zlen (drop (Z.to_nat mx) c) <= zlen c - 1 /\ zlen (drop (Z.to_nat mx) c) <= mx * (avail (ks_send_reliable ks) - 1)).
    { rewrite length_drop. split; [lia|nia]. }
    destruct (IH (set_send_reliable ks rel1) (log ++ [(P_CONTROL_V1, pl)]) tmp1
                (h + zlen pl) (drop (Z.to_nat mx) c) t Hs1 Hw) as (rel' & k & -> & Hs' & Hk & Hz & Hl & Hp & Hi);
      cbn [ks_send_reliable set_send_reliable] in *; rewrite ?length_app; cbn [length]; [lia|exact Ht1|done|done|rewrite Ha1; lia|lia|].
    exists rel', ((P_CONTROL_V1, pl) :: k). split; [done|].
    rewrite <- app_assoc in Hs'. split; [exact Hs'|]. split; [cbn [length]; lia|]. split; [congruence|].
    split; [constructor; [|done]; split; [done|]; split; [done|]; split; [done|]; cbn; unfold pl; rewrite length_take; lia|].
    split; [change (payloads (?x :: k)) with (x.2 ++ payloads k); cbn; rewrite Hp; apply take_drop|].
    rewrite Hi, Hi1, length_app. cbn [length]. rewrite (seqZ_cons (zlen log)) by lia.
    replace (Z.of_nat (length log + 1)) with (Z.succ (zlen log)) by lia.
    replace (Z.pred (Z.of_nat (S (length k)))) with (zlen k) by lia. by rewrite <- Permutation_middle.
  - destruct c; [|cbn in Hpos; lia]. exists (ks_send_reliable ks), []. rewrite app_nil_r.
    split; [by destruct ks|]. split_and!; try done; cbn; lia.
Qed.

Lemma overhead_bounds ks :
  42 <= calc_control_channel_frame_overhead sa ks <= 86.
Proof.
  unfold calc_control_channel_frame_overhead, datagram_overhead, ACK_SIZE, SID_SIZE, CONTROL_SEND_ACK_MAX,
    min_int, reliable_ack_outstanding. destruct (ss_ipv4 sa); repeat case_match; lia.
Qed.

(** The sizes chosen leave room for at least one byte and at most the packets available. *)
Lemma outgoing_sizes_ok ks n :
  ks_resend_wkc ks = false -> 0 < n <= 6 ->
  exists mx, write_outgoing_sizes sa ks n = Some (mx * n, mx) /\ 68 <= mx /\
    mx <= BUF_SIZE (ss_frame sa) - f_headroom (ss_frame sa) /\ mx <= 2048 /\ mx <= f_tun_mtu (ss_frame sa).
Proof.
  intros Hw Hn. destruct (frame_ok sa sa_ok) as (Hh & Hbs & Hmtu & Hmtu').
  pose proof (overhead_bounds ks) as Hov. unfold write_outgoing_sizes, control_packet_needs_wkc. rewrite Hw.
  cbn [andb]. rewrite Some_bind. unfold TLS_CHANNEL_MTU_MIN, TLS_CHANNEL_BUF_SIZE in *.
  set (mx := min_int 2048 _ - _). assert (68 <= mx <= f_tun_mtu (ss_frame sa) - 42).
  { unfold mx, min_int. destruct (_ <? _) eqn:E; lia. }
  exists mx. replace (mx * n <? 16) with false by nia. split; [done|]. lia.
Qed.

(** ** Packets *)

Lemma sent_entry_packet n log e :
  Forall sendable log -> zlen log <= ID_BOUND -> sent_entry (f_headroom (ss_frame sa)) n log e ->
  exists pl t, buf_rep (e_buf e) (f_headroom (ss_frame sa) - 4) (be_bytes 4 (e_packet_id e) ++ pl) t /\
    log !! Z.to_nat (e_packet_id e) = Some (e_opcode e, pl) /\ 0 <= e_packet_id e <= ID_BOUND /\
    P_FIRST_OPCODE <= e_opcode e <= P_LAST_OPCODE /\ e_opcode e <> P_ACK_V1.
Proof.
  intros Hlog Hb Hse. pose proof (sent_entry_bounds _ _ _ _ Hse). destruct Hse as (? & _ & pl & t & Hl & Hr).
  destruct (Forall_lookup_1 _ _ _ _ Hlog Hl) as (Hop & Hna). cbn in Hop, Hna. exists pl, t. split_and!; try done; lia.
Qed.

(** The header that [reliable_send] leaves in the entry, over the memory that the
    packet's header was written to, still describes the packet. *)
Lemma shared_rep (eb b' : buffer) h c t x h' :
  buf_rep eb h c t -> buf_rep b' h' (x ++ c) t -> h' + zlen (x ++ c) = h + zlen c ->
  buf_rep (mk_buffer (b_capacity eb) (b_offset eb) (b_len eb) (b_data b')) h c t.
Proof.
  intros Hr Hb' Hh. pose proof (rep_suffix _ _ _ _ _ Hb') as Hsuf. rewrite length_app in Hh.
  rewrite (rep_head _ _ _ _ Hr), (rep_len _ _ _ _ Hr), (rep_cap _ _ _ _ Hr).
  rewrite (rep_cap _ _ _ _ Hb'), length_app in Hsuf.
  replace (h' + zlen x) with h in Hsuf by lia.
  by replace (h' + Z.of_nat (length x + length c) + t) with (h + zlen c + t) in Hsuf by lia.
Qed.

(** Storing a packet of the window: afterwards it is there, if it fits. *)
Lemma store_packet_ok ks lb buf h op pid pl t :
  recv_inv (BUF_SIZE (ss_frame sa)) (f_headroom (ss_frame sa)) (ks_rec_reliable ks) lb ->
  reliable_can_get (ks_rec_reliable ks) = true -> buf_rep buf h pl t -> 0 <= pid <= ID_BOUND ->
  lb !! Z.to_nat pid = Some (op, pl) ->
  pid < rl_packet_id (ks_rec_reliable ks) + rl_size (ks_rec_reliable ks) ->
  exists (ok : bool) rel', store_packet ks buf pid op = Some (ok, set_rec_reliable ks rel') /\
    recv_inv (BUF_SIZE (ss_frame sa)) (f_headroom (ss_frame sa)) rel' lb /\
    rl_size rel' = rl_size (ks_rec_reliable ks) /\ rl_packet_id rel' = rl_packet_id (ks_rec_reliable ks) /\
    (forall x, stored (ks_rec_reliable ks) x -> stored rel' x) /\
    (ok = true -> stored rel' pid) /\
    (zlen pl <= BUF_SIZE (ss_frame sa) - f_headroom (ss_frame sa) -> ok = true).
Proof.
  intros Hr Hget Hb Hpid Hl Hwin. pose proof (not_replay_ok _ _ room_ok0 _ _ pid Hr Hpid) as Hnr. unfold store_packet.
  destruct (reliable_not_replay (ks_rec_reliable ks) pid).
  - destruct (store_ok _ _ room_ok0 _ _ pid op buf h pl t Hr) as (i & e & b2 & -> & Hlk & Hfit & Hr1 & Hids1 & Hmark);
      try (done || by apply Hnr).
    rewrite !Some_bind, Hlk, Some_bind. cbn [set_buf e_buf].
    destruct (buf_copy b2 buf) as [ok b3]. cbn [fst snd] in *. destruct ok; cbn [negb].
    + destruct (Hmark eq_refl) as (rel' & -> & Hr' & Hp' & Hsz' & Hids'). rewrite !Some_bind.
      exists true, rel'. split_and!; try done; intros; [|right; rewrite Hids'; apply list_elem_of_here].
      destruct H as [Hx|Hx]; [left; lia|right]. rewrite Hids'. by apply list_elem_of_further.
    + eexists false, _. split; [done|]. split_and!; try done; [unfold rl_size; cbn; by rewrite !length_insert| |lia].
      intros x [Hx|Hx]; [by left|right]. by rewrite Hids1.
  - assert (Hst : stored (ks_rec_reliable ks) pid).
    { destruct (decide (stored (ks_rec_reliable ks) pid)); [done|]. exfalso. enough (false = true) by done. by apply Hnr. }
    exists true, (ks_rec_reliable ks). by destruct ks.
Qed.

(** What goes out when something is due: the packet of the lowest id that is. *)
Lemma transmit_one ks log now :
  send_inv (BUF_SIZE (ss_frame sa)) (f_headroom (ss_frame sa)) (ks_send_reliable ks) log -> Forall sendable log ->
  ack_wf (ks_rec_ack ks) -> ack_wf (ks_lru_acks ks) -> acks_known sa ks ->
  reliable_can_send now (ks_send_reliable ks) = true ->
  let rel := ks_send_reliable ks in
  exists i e pl t shared, rl_array rel !! i = Some e /\ is_current now e = true /\ e_active e = true /\
    log !! Z.to_nat (e_packet_id e) = Some (e_opcode e, pl) /\ 0 <= e_packet_id e <= ID_BOUND /\
    P_FIRST_OPCODE <= e_opcode e <= P_LAST_OPCODE /\ e_opcode e <> P_ACK_V1 /\
    buf_rep (e_buf e) (f_headroom (ss_frame sa) - 4) (be_bytes 4 (e_packet_id e) ++ pl) t /\
    buf_rep shared (f_headroom (ss_frame sa) - 4) (be_bytes 4 (e_packet_id e) ++ pl) t /\
    send_reliable_packet sa now ks =
      Some (Some (control_packet sa (e_opcode e)
                    (acks_out (ks_rec_ack ks) (ks_lru_acks ks) (max_acks sa CONTROL_SEND_ACK_MAX))
                    (be_bytes 4 (e_packet_id e) ++ pl)),
            set_send_reliable (acked_ks sa ks CONTROL_SEND_ACK_MAX)
              (set_entry rel i (set_buf (resent now e) shared))).
Proof.
  intros Hs Hlog Hack Hlru Hkn Hcan rel. unfold send_reliable_packet. rewrite Hcan.
  apply can_send_current in Hcan as (_ & e0 & He0 & Hc0). fold rel in Hs, He0 |- *.
  pose proof (send_ok _ _ _ _ now Hs) as Hsend. destruct (reliable_send now rel) as [[[i op]|] rel1].
  2: { destruct Hsend as [_ Hno]. by rewrite Hno in Hc0. }
  destruct Hsend as (e & He & Hcur & -> & -> & _). pose proof (lookup_lt_Some _ _ _ He) as Hi.
  assert (Hact : e_active e = true) by (unfold is_current in Hcur; by destruct (e_active e)).
  destruct (sent_entry_packet _ _ e Hlog (si_bound _ _ _ _ Hs)
              (si_entries _ _ _ _ Hs e (list_elem_of_lookup_2 _ _ _ He) Hact)) as (pl & t & Hr & Hl & Hid & Hop & Hna).
  destruct (frame_ok sa sa_ok) as (Hhead & _).
  rewrite !Some_bind. rewrite lookup_set_entry, Some_bind by done. cbn [resent e_buf]. fold (resent now e).
  destruct (write_control_auth_ok sa (set_send_reliable ks (set_entry rel i (resent now e)))
              (e_buf e) (e_opcode e) CONTROL_SEND_ACK_MAX true _ _ _ Hlo Hkn Hop Hack Hlru Hr)
    as (b' & h' & t' & Hw & Hb' & Hh' & Htail); [by left|lia|by right|unfold CONTROL_SEND_ACK_MAX; lia|].
  rewrite Hw, !Some_bind. clear Hw. cbn [ks_rec_ack ks_lru_acks set_send_reliable] in *.
  specialize (Htail eq_refl) as ->. rewrite (rep_content _ _ _ _ Hb').
  unfold control_packet in Hb', Hh'. rewrite app_comm_cons, app_assoc in Hb', Hh'.
  pose proof (shared_rep _ _ _ _ _ _ _ Hr Hb' ltac:(lia)) as Hshared.
  eexists i, e, pl, t, _. do 8 (split; [done|]). split; [exact Hshared|].
  do 2 f_equal. unfold set_send_reliable, acked_ks, set_acks, set_entry, set_array. cbn. do 2 f_equal.
  by rewrite list_insert_insert_eq.
Qed.

(** The packet of acknowledgements alone. *)
Lemma ack_one ks h c t :
  ks_resend_wkc ks = false -> ack_wf (ks_rec_ack ks) -> ack_wf (ks_lru_acks ks) -> acks_known sa ks ->
  buf_rep (ks_ack_write_buf ks) h c t -> h + zlen c + t = BUF_SIZE (ss_frame sa) -> ks_rec_ack ks <> [] ->
  exists ackbuf c' t', buf_rep ackbuf h c' t' /\ h + zlen c' + t' = BUF_SIZE (ss_frame sa) /\
    send_ack_packet sa ks =
      Some (Some (control_packet sa P_ACK_V1
                    (acks_out (ks_rec_ack ks) (ks_lru_acks ks) (max_acks sa RELIABLE_ACK_SIZE)) []),
            set_ack_write_buf (acked_ks sa ks RELIABLE_ACK_SIZE) ackbuf).
Proof.
  intros Hw Hack Hlru Hkn Hb Hcap Hne. unfold send_ack_packet, control_packet_needs_wkc. rewrite Hw. cbn [andb].
  replace (reliable_ack_empty (ks_rec_ack ks)) with false by (by destruct (ks_rec_ack ks)).
  destruct (frame_ok sa sa_ok) as (Hh & Hbs & _).
  destruct (init_rep _ _ _ _ (f_headroom (ss_frame sa)) Hb) as (b1 & Hi & Hb1); [lia|].
  rewrite Hi, Some_bind. cbn [ASSERT]. rewrite Some_bind.
  destruct (write_control_auth_ok sa ks b1 P_ACK_V1 RELIABLE_ACK_SIZE false _ _ _ Hlo Hkn
              ltac:(done) Hack Hlru Hb1) as (b2 & h' & t' & -> & Hb2 & Htot & _);
    [by right|lia|left; lia|done|].
  rewrite !Some_bind, (rep_content _ _ _ _ Hb2).
  destruct (rep_reheader _ _ _ _ _ _ _ _ Hb Hb2) as (c' & Hc' & Hr); [cbn [length] in *; lia|].
  do 3 eexists. split; [exact Hr|]. split; [lia|done].
Qed.
End one.

Lemma parse_tlvs_empty buf f : b_len buf = 0 -> parse_tlvs (Z.to_nat (b_len buf)) buf f = Some (true, f).
Proof. intros E. destruct buf as [? ? len ?]. cbn in E. by subst len. Qed.

