(* ===== verification/ControlAny.v ===== *)
(** * One end of the control channel with a peer that may send anything

    The control channel under an invariant that asks nothing of the peer ([rel_inv]): no
    operation of this end fails an assertion, whatever has arrived.  What it takes is that
    the packet ids stay below 2^31 and that nobody has asked for a wrapped client key
    ([calm]).  [backlog] is what the rounds of the state machine use up. *)
From S2P Require Import Prelude Integers Buffer Frame Reliable AckList Windows SendWindow RecvWindow Control ControlNet ControlOne.

(** ** Buffers with any content *)

Definition some_rep (b : buffer) : Prop := exists h c t, buf_rep b h c t.

Lemma some_read b n :
  some_rep b -> 0 <= n ->
  some_rep (buf_read b n).2 /\ forall x, (buf_read b n).1 = Some x -> bytes x /\ zlen x = n.
Proof.
  intros (h & c & t & Hb) Hn. destruct (Z.ltb_spec (zlen c) n) as [Hs|Hs].
  - rewrite (read_short _ _ _ _ n Hb Hs). split; [by exists h, c, t|done].
  - rewrite <- (take_drop (Z.to_nat n) c) in Hb. destruct (read_rep _ _ _ _ _ Hb) as (b' & Hr & Hb').
    pose proof (rep_bounds _ _ _ _ Hb) as (_ & _ & _ & [Hby _]%Forall_app).
    assert (zlen (take (Z.to_nat n) c) = n) as Hl by (rewrite length_take; lia). rewrite Hl in Hr. rewrite Hr.
    split; [by do 3 eexists|]. intros x [= <-]. done.
Qed.

Lemma some_advance b n : some_rep b -> some_rep (buf_advance b n).2.
Proof.
  intros (h & c & t & Hb). destruct (decide (0 <= n <= zlen c)) as [Hn|Hn].
  - rewrite <- (take_drop (Z.to_nat n) c) in Hb. destruct (advance_rep _ _ _ _ _ Hb) as (b' & Hr & Hb').
    assert (zlen (take (Z.to_nat n) c) = n) as Hl by (rewrite length_take; lia). rewrite Hl in Hr. rewrite Hr.
    by do 3 eexists.
  - unfold buf_advance. rewrite (rep_valid _ _ _ _ Hb), (rep_len _ _ _ _ Hb). cbn [negb orb].
    replace ((n <? 0) || (zlen c <? n)) with true by lia. by exists h, c, t.
Qed.

Lemma some_ack_parse_loop n b ack : some_rep b -> some_rep (ack_parse_loop n b ack).1.2.
Proof.
  revert b ack. induction n as [|n IH]; intros b ack Hb; cbn [ack_parse_loop]; [done|].
  destruct (some_read b 4 Hb) as [Hr _]; [lia|]. destruct (buf_read b 4) as [[x|] b']; [|done].
  destruct (_ <=? _); [done|by apply IH].
Qed.

Lemma some_ack_read b sid : some_rep b -> some_rep (reliable_ack_read b sid).1.2.
Proof.
  intros Hb. unfold reliable_ack_read, reliable_ack_parse.
  destruct (some_read b 1 Hb) as [H1 _]; [lia|]. destruct (buf_read b 1) as [[c|] b1]; [|done].
  pose proof (some_ack_parse_loop (Z.to_nat (be_val c)) b1 [] H1) as H2. cbn [snd] in *.
  destruct (ack_parse_loop _ b1 []) as [[[] b2] ack]; [|done]. cbn [fst snd] in *.
  destruct (negb _); [|by destruct (_ && _)].
  unfold session_id_read. destruct (some_read b2 SID_SIZE H2) as [H3 _]; [done|].
  destruct (buf_read b2 SID_SIZE) as [[s|] b3]; [|done]. by destruct (_ && _).
Qed.

(** The TLVs end before the buffer does. *)
Lemma parse_tlvs_total fuel b r : some_rep b -> b_len b <= Z.of_nat fuel -> is_Some (parse_tlvs fuel b r).
Proof.
  revert b r. induction fuel as [|fuel IH]; intros b r Hb Hl; cbn [parse_tlvs].
  { replace (0 <? b_len b) with false by lia. done. }
  destruct (0 <? b_len b); [|done]. destruct (buf_len b <? 4) eqn:E4; [done|].
  assert (Hread : forall b, some_rep b -> some_rep (buf_read_u16 b).2 /\ b_len (buf_read_u16 b).2 <= b_len b /\
                    (2 <= b_len b -> b_len (buf_read_u16 b).2 = b_len b - 2)).
  { clear. intros b (h & c & t & Hb). unfold buf_read_u16. destruct (Z.ltb_spec (zlen c) 2) as [Hs|Hs].
    - rewrite (read_short _ _ _ _ 2 Hb Hs). cbn [snd]. rewrite (rep_len _ _ _ _ Hb). split; [by exists h, c, t|lia].
    - rewrite <- (take_drop 2 c) in Hb. destruct (read_rep _ _ _ _ _ Hb) as (b' & Hr & Hb').
      assert (zlen (take 2 c) = 2) as Hz by (rewrite length_take; lia). rewrite Hz in Hr. rewrite Hr. cbn [snd].
      rewrite (rep_len _ _ _ _ Hb), (rep_len _ _ _ _ Hb'), length_app, Nat2Z.inj_add, Hz.
      split; [by do 3 eexists|lia]. }
  destruct Hb as (h & c & t & Hb). rewrite (buf_len_wf _ (rep_wf _ _ _ _ Hb)) in E4.
  destruct (Hread b) as (H1 & L1 & L1'); [by exists h, c, t|]. destruct (buf_read_u16 b) as [ty b1]. cbn [fst snd] in *.
  destruct (Hread b1 H1) as (H2 & L2 & L2'). destruct (buf_read_u16 b1) as [len b2]. cbn [fst snd] in *.
  destruct (_ || _) eqn:Elen; [done|]. destruct (ty =? TLV_TYPE_EARLY_NEG_FLAGS).
  - destruct (negb (len =? 2)); [done|]. destruct (Hread b2 H2) as (H3 & L3 & _). destruct (buf_read_u16 b2) as [fl b3].
    cbn [fst snd] in *. apply IH; [done|lia].
  - apply IH; [by apply some_advance|]. destruct H2 as (h2 & c2 & t2 & H2).
    enough (b_len (buf_advance b2 len).2 <= b_len b2) by lia.
    unfold buf_advance. destruct (negb (buf_valid b2) || (len <? 0) || (b_len b2 <? len)); cbn; lia.
Qed.

(** ** The invariant *)

Record rel_inv (f : frame) (ks : key_state) : Prop := {
  rv_send : exists log, send_inv (BUF_SIZE f) (f_headroom f) (ks_send_reliable ks) log /\ Forall sendable log;
  rv_send_size : rl_size (ks_send_reliable ks) = TLS_RELIABLE_N_SEND_BUFFERS;
  rv_recv : exists log, recv_inv (BUF_SIZE f) (f_headroom f) (ks_rec_reliable ks) log;
  rv_recv_size : rl_size (ks_rec_reliable ks) = TLS_RELIABLE_N_REC_BUFFERS;
  rv_ack : ack_wf (ks_rec_ack ks);
  rv_lru : ack_wf (ks_lru_acks ks);
  rv_ackbuf : exists h c t, buf_rep (ks_ack_write_buf ks) h c t /\ h + zlen c + t = BUF_SIZE f
}.

(** An entry that asks for the wrapped client key. *)
Definition quiet_entry (e : reliable_entry) : bool :=
  negb (e_active e && (e_packet_id e =? 0) && is_hard_reset_method2 (e_opcode e))
  || match parse_tlvs (Z.to_nat (b_len (e_buf e))) (e_buf e) false with Some (_, true) => false | _ => true end.

Definition calm (ks : key_state) : bool :=
  (rl_packet_id (ks_send_reliable ks) <=? ID_BOUND - 6) && (rl_packet_id (ks_rec_reliable ks) <=? ID_BOUND - 12)
  && negb (ks_resend_wkc ks) && forallb quiet_entry (rl_array (ks_rec_reliable ks)).

(** What stays of it while an event is handled. *)
Record rel_quiet (ks : key_state) : Prop := {
  rq_room : rl_packet_id (ks_send_reliable ks) + avail (ks_send_reliable ks) <= ID_BOUND;
  rq_wkc : ks_resend_wkc ks = false;
  rq_entries : Forall (fun e => quiet_entry e = true) (rl_array (ks_rec_reliable ks))
}.

(** Packets to take in, and places for packets to send. *)
Definition backlog (ks : key_state) : Z :=
  zlen (active_ids (rl_array (ks_rec_reliable ks))) + avail (ks_send_reliable ks).

Section any.
Context (ss : session) (Hlo : local_ok ss).
Notation f := (ss_frame ss).
Implicit Types (ks : key_state).

Lemma avail_bound ks : rel_inv f ks -> 0 <= avail (ks_send_reliable ks) <= 6.
Proof.
  intros []. destruct rv_send0 as (log & Hs & _). pose proof (avail_ok _ _ _ _ Hs) as (Ha & _).
  unfold TLS_RELIABLE_N_SEND_BUFFERS in *. lia.
Qed.

Lemma backlog_bound ks : rel_inv f ks -> 0 <= backlog ks <= 18.
Proof.
  intros Hi. pose proof (avail_bound _ Hi). destruct Hi. unfold backlog.
  pose proof (length_active_le (rl_array (ks_rec_reliable ks))) as Hl. unfold rl_size, TLS_RELIABLE_N_REC_BUFFERS in *. lia.
Qed.

Lemma calm_quiet ks : rel_inv f ks -> calm ks = true -> rel_quiet ks.
Proof.
  intros Hi Hc. unfold calm in Hc. apply andb_true_iff in Hc as [Hc He]. pose proof (avail_bound _ Hi).
  split; [lia|by destruct (ks_resend_wkc ks); cbn in Hc; lia|].
  apply Forall_forall. intros e Hin%list_elem_of_In. rewrite forallb_forall in He. by apply He.
Qed.

(** ** The send window *)

(** Another send window. *)
Lemma inv_send ks rel log :
  rel_inv f ks -> send_inv (BUF_SIZE f) (f_headroom f) rel log -> Forall sendable log ->
  rl_size rel = rl_size (ks_send_reliable ks) -> rel_inv f (set_send_reliable ks rel).
Proof. intros [] Hs Hl Hz. split; cbn; try done; [by exists log|congruence]. Qed.

Lemma quiet_send ks rel :
  rel_quiet ks -> rl_packet_id rel + avail rel <= rl_packet_id (ks_send_reliable ks) + avail (ks_send_reliable ks) ->
  rel_quiet (set_send_reliable ks rel).
Proof. intros [] Hp. split; cbn; [lia|done|done]. Qed.

(** Several packets at the end of the log. *)
Lemma avail_appends rel rel' log k :
  send_inv (BUF_SIZE f) (f_headroom f) rel log -> send_inv (BUF_SIZE f) (f_headroom f) rel' (log ++ k) ->
  rl_size rel' = rl_size rel -> zlen k <= avail rel ->
  active_ids (rl_array rel') ≡ₚ seqZ (zlen log) (zlen k) ++ active_ids (rl_array rel) -> avail rel' = avail rel - zlen k.
Proof.
  intros Hs Hs' Hsz Hk Hperm. pose proof (avail_ok _ _ _ _ Hs) as (Ha & Hids & Hcase & _).
  pose proof (avail_ok _ _ _ _ Hs') as (Ha' & Hids' & Hcase' & _).
  destruct k as [|p k].
  { rewrite app_nil_r in Hs'. cbn [length] in *. rewrite (avail_perm _ _ _ _ _ Hs Hs' Hsz); [lia|]. by rewrite Hperm. }
  assert (Hin : forall x, x ∈ active_ids (rl_array rel') <->
            zlen log <= x < zlen log + zlen (p :: k) \/ x ∈ active_ids (rl_array rel)).
  { intros x. rewrite Hperm, elem_of_app, elem_of_seqZ. done. }
  rewrite Hsz, length_app in *. destruct Hcase as [E|(x & Hx & Hxe)].
  - destruct Hcase' as [E'|(y & Hy & Hye)].
    + specialize (Hids' (zlen log) ltac:(apply Hin; left; cbn; lia)). cbn [length] in *. lia.
    + specialize (Hids' (zlen log) ltac:(apply Hin; left; cbn; lia)).
      apply Hin in Hy as [Hy|Hy]; [lia|]. specialize (Hids y Hy). lia.
  - specialize (Hids' x ltac:(apply Hin; by right)). destruct Hcase' as [E'|(y & Hy & Hye)]; [lia|].
    apply Hin in Hy as [Hy|Hy]; [lia|]. specialize (Hids y Hy). lia.
Qed.

(** A place in the window: none, or one that a packet without payload can take. *)
Lemma output_any ks :
  rel_inv f ks -> rel_quiet ks ->
  match reliable_get_buf_output_sequenced (ks_send_reliable ks) with
  | None => False
  | Some (None, rel) => rel = ks_send_reliable ks
  | Some (Some i, rel) =>
      (rel_inv f (set_send_reliable ks rel) /\ rel_quiet (set_send_reliable ks rel) /\
       backlog (set_send_reliable ks rel) = backlog ks /\ 0 < avail rel) /\
      forall op, P_FIRST_OPCODE <= op <= P_LAST_OPCODE -> op <> P_ACK_V1 ->
        exists rel', reliable_mark_active_outgoing rel i op = Some rel' /\
          rel_inv f (set_send_reliable ks rel') /\ rel_quiet (set_send_reliable ks rel') /\
          backlog (set_send_reliable ks rel') = backlog ks - 1
  end.
Proof.
  intros Hi Hq. destruct (rv_send _ _ Hi) as (log & Hs & Hl). pose proof (si_packet_id _ _ _ _ Hs) as Hpid.
  pose proof (get_output_ok _ _ (room_ok ss Hlo) _ _ Hs) as Hg. destruct (Z.ltb_spec 0 (avail (ks_send_reliable ks))) as [Hav|Hav].
  2: by rewrite Hg.
  destruct (fill_ok _ _ (room_ok ss Hlo) _ _ Hs Hav) as (i & rel1 & e1 & Hg1 & He1 & Hb1 & Hfill).
  { pose proof (rq_room _ Hq). lia. }
  destruct Hg as (i' & e & b & Hg & He & Hina & Hb). rewrite Hg in Hg1. injection Hg1 as <- <-. rewrite Hg.
  assert (Hs1 : send_inv (BUF_SIZE f) (f_headroom f) (set_entry (ks_send_reliable ks) i' (set_buf e b)) log).
  { eapply send_inv_update; [exact Hs|exact He| |by left]. eapply rep_slot; [exact Hb|cbn; lia]. }
  assert (Hsz : rl_size (set_entry (ks_send_reliable ks) i' (set_buf e b)) = rl_size (ks_send_reliable ks))
    by (unfold rl_size; cbn; by rewrite length_insert).
  assert (Hav1 : avail (set_entry (ks_send_reliable ks) i' (set_buf e b)) = avail (ks_send_reliable ks)).
  { apply (avail_perm _ _ _ _ _ Hs Hs1 Hsz). cbn. by apply (active_same _ _ e). }
  split.
  - split; [by eapply inv_send|]. split; [apply quiet_send; [done|rewrite Hav1; cbn [set_entry set_array rl_packet_id]; lia]|].
    split; [unfold backlog; cbn [set_send_reliable ks_send_reliable ks_rec_reliable]; lia|lia].
  - intros op Hop Hna. destruct (Hfill (e_buf e1) [] op) as (rel' & Hm & Hs' & Hav' & Hsz' & Hids').
    { eapply rep_eq; [exact Hb1|done|done|cbn; lia]. }
    replace (set_entry (set_entry _ _ _) i' (set_buf e1 (e_buf e1)))
      with (set_entry (ks_send_reliable ks) i' (set_buf e b)) in Hm.
    2: { cbn in He1. rewrite list_lookup_insert_eq in He1 by (by eapply lookup_lt_Some). injection He1 as <-.
         unfold set_entry, set_array, set_buf. cbn. by rewrite list_insert_insert_eq. }
    exists rel'. split; [done|]. pose proof (si_packet_id _ _ _ _ Hs') as Hpid'. rewrite length_app in Hpid'. cbn [length] in Hpid'.
    split; [eapply inv_send; [exact Hi|exact Hs'| |congruence]|].
    { apply Forall_app. split; [done|]. apply Forall_singleton. done. }
    split; [apply quiet_send; [done|lia]|]. unfold backlog. cbn [set_send_reliable ks_send_reliable ks_rec_reliable]. lia.
Qed.
(** ** Cutting TLS output into packets *)

Lemma write_any ks :
  rel_inv f ks -> rel_quiet ks -> 0 < avail (ks_send_reliable ks) ->
  exists maxlen mx tmp, write_outgoing_sizes ss ks (avail (ks_send_reliable ks)) = Some (maxlen, mx) /\
    alloc_buf maxlen = Some tmp /\ 0 < maxlen /\
    forall out, bytes out -> zlen out <= maxlen ->
    let tmp' := (buf_write tmp out).2 in
    b_len tmp' = zlen out /\
    exists rel', split_loop ss (S (Z.to_nat (b_len tmp'))) mx ks tmp' = Some (set_send_reliable ks rel') /\
      rel_inv f (set_send_reliable ks rel') /\ rel_quiet (set_send_reliable ks rel') /\
      backlog (set_send_reliable ks rel') <= backlog ks - (if 0 <? zlen out then 1 else 0).
Proof.
  intros Hi Hq Hav. destruct (rv_send _ _ Hi) as (log & Hs & Hl). pose proof (avail_bound _ Hi) as Hab.
  pose proof (si_packet_id _ _ _ _ Hs) as Hpid. pose proof (rq_room _ Hq) as Hroom.
  destruct (outgoing_sizes_ok ss Hlo ks (avail (ks_send_reliable ks)) (rq_wkc _ Hq)) as (mx & Hsz & H1 & H2 & H3 & H4); [lia|].
  destruct (alloc_some (mx * avail (ks_send_reliable ks))) as (tmp & Ha & Ht); [unfold BUF_SIZE_MAX; nia|].
  exists (mx * avail (ks_send_reliable ks)), mx, tmp. split; [done|]. split; [done|]. split; [nia|].
  intros out Hob Hol tmp'. destruct (write_rep _ _ _ _ _ Ht Hob Hol) as (b & E & Hb). unfold tmp'. rewrite E. cbn [snd].
  rewrite (rep_len _ _ _ _ Hb). split; [done|].
  destruct (split_loop_ok ss Hlo (S (Z.to_nat (zlen out))) ks log mx b 0 out (mx * avail (ks_send_reliable ks) - zlen out) Hs (rq_wkc _ Hq)) as
    (rel' & k & Hk & Hs' & Hkl & Hz & Hlk & Hp & Hids); [lia|exact Hb|lia|done|cbn; lia|cbn; lia|].
  exists rel'. split; [done|]. pose proof (avail_appends _ _ _ _ Hs Hs' Hz Hkl Hids) as Hav'.
  pose proof (si_packet_id _ _ _ _ Hs') as Hpid'. rewrite length_app in Hpid'.
  split; [eapply inv_send; [done|exact Hs'| |done]|].
  { apply Forall_app. split; [done|]. by eapply log_sendable. }
  split; [apply quiet_send; [done|lia]|]. unfold backlog. cbn [set_send_reliable ks_send_reliable ks_rec_reliable].
  assert (0 < zlen out -> 0 < zlen k); [|destruct (0 <? zlen out) eqn:?; lia].
  intros Ho. destruct k; [|cbn; lia]. cbn in Hp. subst out. cbn in Ho. lia.
Qed.

(** ** Packets out *)

Lemma acked_known ks max : acks_known ss ks -> acks_known ss (acked_ks ss ks max).
Proof.
  intros [|[E1 E2]]; [by left|right]. unfold acked_ks. cbn. rewrite E1, E2, take_nil, drop_nil.
  split; [done|]. unfold mru_merge. cbn. done.
Qed.

Lemma inv_acked ks max : rel_inv f ks -> rel_inv f (acked_ks ss ks max).
Proof.
  intros []. destruct (acked_ks_ok ss ks max (fun _ => True)) as (H1 & H2 & _); [done..|]. split; try done.
Qed.

Lemma quiet_same ks ks' :
  ks_send_reliable ks' = ks_send_reliable ks -> ks_rec_reliable ks' = ks_rec_reliable ks ->
  ks_resend_wkc ks' = ks_resend_wkc ks -> rel_quiet ks -> rel_quiet ks'.
Proof. intros E1 E2 E3 []. split; by rewrite ?E1, ?E2, ?E3. Qed.

Lemma transmit_any ks now :
  rel_inv f ks -> acks_known ss ks -> reliable_can_send now (ks_send_reliable ks) = true ->
  exists pkt ks', send_reliable_packet ss now ks = Some (Some pkt, ks') /\
    rel_inv f ks' /\ acks_known ss ks' /\ (rel_quiet ks -> rel_quiet ks') /\ backlog ks' = backlog ks.
Proof.
  intros Hi Hk Hc. destruct (rv_send _ _ Hi) as (log & Hs & Hl).
  destruct (transmit_one ss Hlo ks log now Hs Hl (rv_ack _ _ Hi) (rv_lru _ _ Hi) Hk Hc) as
    (i & e & pl & t & shared & He & _ & Hact & _ & _ & _ & _ & Hr & Hsh & Hstep).
  do 2 eexists. split; [exact Hstep|].
  destruct (send_entry_ok _ _ _ _ i e now shared Hs He Hact) as [Hs' Hids].
  { intros h2 c2 t2 Hr2. destruct (rep_inj _ _ _ _ _ _ _ Hr Hr2) as (<- & <- & <-). done. }
  assert (Hz : rl_size (set_entry (ks_send_reliable ks) i (set_buf (resent now e) shared)) = rl_size (ks_send_reliable ks))
    by (unfold rl_size; cbn; by rewrite length_insert).
  pose proof (avail_perm _ _ _ _ _ Hs Hs' Hz Hids) as Hav.
  split; [eapply inv_send; [by apply inv_acked|exact Hs'|done|done]|].
  split; [by apply (acked_known ks CONTROL_SEND_ACK_MAX)|].
  split; [|unfold backlog; cbn [set_send_reliable ks_send_reliable ks_rec_reliable]; unfold acked_ks; cbn [set_acks ks_rec_reliable]; lia].
  intros Hq. apply quiet_send; [by apply (quiet_same ks)|]. rewrite Hav. done.
Qed.

Lemma ack_any ks :
  rel_inv f ks -> acks_known ss ks -> rel_quiet ks -> ks_rec_ack ks <> [] ->
  exists pkt ks', send_ack_packet ss ks = Some (Some pkt, ks') /\
    rel_inv f ks' /\ acks_known ss ks' /\ rel_quiet ks' /\ backlog ks' = backlog ks.
Proof.
  intros Hi Hk Hq Hne. destruct (rv_ackbuf _ _ Hi) as (h & c & t & Hb & Hcap).
  destruct (ack_one ss Hlo ks h c t (rq_wkc _ Hq) (rv_ack _ _ Hi) (rv_lru _ _ Hi) Hk Hb Hcap Hne) as
    (ab & c' & t' & Hb' & Hcap' & E).
  do 2 eexists. split; [exact E|]. pose proof (inv_acked ks RELIABLE_ACK_SIZE Hi) as [].
  split; [split; cbn; try done; by exists h, c', t'|].
  split; [by apply (acked_known ks RELIABLE_ACK_SIZE)|]. split; [by apply (quiet_same ks)|done].
Qed.

(** ** Packets in *)

Lemma inv_recv ks rel log :
  rel_inv f ks -> recv_inv (BUF_SIZE f) (f_headroom f) rel log -> rl_size rel = rl_size (ks_rec_reliable ks) ->
  rel_inv f (set_rec_reliable ks rel).
Proof. intros [] Hr Hz. split; cbn; try done; [by exists log|congruence]. Qed.

(** The log that an unknown peer may have: what it sends next is written into it. *)
Lemma recv_inv_put rel log x p :
  recv_inv (BUF_SIZE f) (f_headroom f) rel log -> 0 <= x < ID_BOUND -> ~ x ∈ active_ids (rl_array rel) ->
  exists log', recv_inv (BUF_SIZE f) (f_headroom f) rel log' /\ log' !! Z.to_nat x = Some p.
Proof.
  intros [H1 H2 H3 H4 H5 H6 H7] Hx Hn.
  set (log1 := log ++ replicate (S (Z.to_nat x) - length log) p).
  assert (Hlen : (Z.to_nat x < length log1)%nat) by (unfold log1; rewrite length_app, length_replicate; lia).
  exists (<[Z.to_nat x := p]> log1). split; [|by apply list_lookup_insert_eq].
  assert (Hb : zlen log1 <= ID_BOUND /\ zlen log <= zlen log1).
  { unfold log1. rewrite length_app, length_replicate. unfold ID_BOUND in *. lia. }
  split; rewrite ?length_insert; try done; try lia.
  intros e He Ha. destruct (H7 e He Ha) as [Hr Hl]. split; [done|].
  rewrite list_lookup_insert_ne; [unfold log1; rewrite lookup_app_l; [done|]; by eapply lookup_lt_Some|].
  intros E. apply Hn, active_ids_in. exists e. split_and!; [done..|]. lia.
Qed.

Lemma store_any ks buf h pl t pid op :
  rel_inv f ks -> calm ks = true -> reliable_can_get (ks_rec_reliable ks) = true -> buf_rep buf h pl t ->
  0 <= pid < rl_packet_id (ks_rec_reliable ks) + rl_size (ks_rec_reliable ks) ->
  exists (ok : bool) rel', store_packet ks buf pid op = Some (ok, set_rec_reliable ks rel') /\
    rel_inv f (set_rec_reliable ks rel').
Proof.
  intros Hi Hc Hg Hb Hpid. destruct (rv_recv _ _ Hi) as (log & Hr). pose proof (rv_recv_size _ _ Hi) as Hz.
  unfold TLS_RELIABLE_N_REC_BUFFERS in Hz. unfold calm in Hc. assert (Hbd : 0 <= pid < ID_BOUND) by lia.
  destruct (decide (pid ∈ active_ids (rl_array (ks_rec_reliable ks)))) as [Hin|Hin].
  - unfold store_packet. assert (Hst : stored (ks_rec_reliable ks) pid) by (by right).
    pose proof (not_replay_ok _ _ (room_ok0 ss Hlo) _ _ pid Hr) as Hnr. destruct (reliable_not_replay _ _).
    { exfalso. apply Hnr; [lia|done|done]. }
    exists true, (ks_rec_reliable ks). destruct ks. split; [done|]. exact Hi.
  - destruct (recv_inv_put _ _ pid (op, pl) Hr Hbd Hin) as (log' & Hr' & Hl').
    destruct (store_packet_ok ss Hlo ks log' buf h op pid pl t Hr' Hg Hb) as (ok & rel' & E & Hr2 & Hz2 & _); [lia|done|lia|].
    exists ok, rel'. split; [done|]. by eapply inv_recv.
Qed.

Lemma receive_data_any ks buf op :
  rel_inv f ks -> calm ks = true -> some_rep buf ->
  exists (ok : bool) ks', receive_data ks buf op = Some (ok, ks') /\ rel_inv f ks'.
Proof.
  intros Hi Hc Hb. unfold receive_data. destruct (negb _ && _) eqn:Hg; [|by exists true, ks].
  apply andb_true_iff in Hg as [_ Hg]. unfold reliable_ack_read_packet_id.
  destruct (some_read buf 4 Hb) as [Hb1 Hx]; [lia|]. destruct (buf_read buf 4) as [[x|] b1]; [|by exists true, ks].
  destruct (Hx x eq_refl) as [Hxb Hxl]. cbn [snd] in Hb1. destruct (rv_recv _ _ Hi) as (log & Hr).
  assert (is_u32 (be_val x)) as Hu.
  { pose proof (be_val_range x Hxb) as Hv. rewrite Hxl in Hv. exact Hv. }
  rewrite (wont_break_ok _ _ _ _ _ Hr) by done. destruct (Z.ltb_spec (be_val x) (rl_packet_id (ks_rec_reliable ks) + rl_size (ks_rec_reliable ks))).
  2: by exists true, ks.
  destruct Hb1 as (h & pl & t & Hb1). destruct (store_any ks b1 h pl t (be_val x) op Hi Hc Hg Hb1) as (ok & rel' & -> & Hi'); [unfold is_u32 in Hu; lia|].
  rewrite Some_bind. destruct ok; [|by do 2 eexists]. do 2 eexists. split; [done|].
  destruct (acknowledge_ok (ks_rec_ack ks) (be_val x) (rv_ack _ _ Hi) Hu) as [Hw _]. destruct Hi'. split; done.
Qed.

Lemma receive_any ks buf op :
  rel_inv f ks -> calm ks = true -> some_rep buf ->
  exists (ok : bool) ks', receive_reliable ss ks buf op = Some (ok, ks') /\ rel_inv f ks'.
Proof.
  intros Hi Hc Hb. unfold receive_reliable. pose proof (some_ack_read buf (ss_session_id ss) Hb) as Hb'.
  destruct (reliable_ack_read buf _) as [[ok b1] acks]. cbn [fst snd] in Hb'. destruct ok; cbn [negb]; [|by do 2 eexists].
  destruct (rv_send _ _ Hi) as (log & Hs & Hl). destruct (purge_ok _ _ (room_ok ss Hlo) _ _ acks Hs) as [Hs' _].
  apply receive_data_any; [|unfold calm in *; cbn [set_send_reliable ks_send_reliable ks_rec_reliable ks_resend_wkc]|done].
  - eapply inv_send; [done|exact Hs'|done|apply purge_size].
  - by rewrite (si_packet_id _ _ _ _ Hs'), <- (si_packet_id _ _ _ _ Hs).
Qed.

Lemma schedule_any ks now : rel_inv f ks -> rel_inv f (set_send_reliable ks (reliable_schedule_now now (ks_send_reliable ks))).
Proof.
  intros Hi. destruct (rv_send _ _ Hi) as (log & Hs & Hl). destruct (schedule_now_ok _ _ (room_ok ss Hlo) _ _ now Hs) as [Hs' _].
  eapply inv_send; [done|exact Hs'|done|]. unfold rl_size. cbn. by rewrite length_fmap.
Qed.

(** ** Taking packets in order *)

Lemma incoming_any ks :
  rel_inv f ks -> rel_quiet ks ->
  match reliable_get_entry_sequenced (ks_rec_reliable ks) with
  | None => True
  | Some i => exists e rel', rl_array (ks_rec_reliable ks) !! i = Some e /\ bytes (content (e_buf e)) /\
      reliable_mark_deleted (ks_rec_reliable ks) i = Some rel' /\ rel_inv f (set_rec_reliable ks rel') /\
      rel_quiet (set_rec_reliable ks rel') /\ backlog (set_rec_reliable ks rel') = backlog ks - 1 /\
      ((e_packet_id e =? 0) && is_hard_reset_method2 (e_opcode e) = true ->
       exists ok, parse_tlvs (Z.to_nat (b_len (e_buf e))) (e_buf e) (ks_resend_wkc ks) = Some (ok, false))
  end.
Proof.
  intros Hi Hq. destruct (rv_recv _ _ Hi) as (log & Hr). pose proof (recv_deliver_ok _ _ _ _ Hr) as Hd.
  destruct (reliable_get_entry_sequenced _) as [i|]; [|done].
  destruct Hd as (e & rel' & He & Hact & Hid & Hl & Hm & Hr' & Hp' & Hids).
  pose proof (Forall_lookup_1 _ _ _ _ (ri_slots _ _ _ _ Hr) He) as (h & c & t & Hb & _).
  exists e, rel'. split; [done|]. split; [rewrite (rep_content _ _ _ _ Hb); apply (rep_bounds _ _ _ _ Hb)|]. split; [done|].
  assert (Hdel : rel' = set_entry (set_rel_packet_id (ks_rec_reliable ks) (e_packet_id e +u 1)) i (set_active e false)).
  { unfold reliable_mark_deleted in Hm. rewrite He in Hm. by injection Hm as <-. }
  split; [|split; [|split]].
  - eapply inv_recv; [done|exact Hr'|]. rewrite Hdel. unfold rl_size. cbn. by rewrite length_insert.
  - destruct Hq. split; cbn [set_rec_reliable ks_send_reliable ks_rec_reliable ks_resend_wkc]; [done|done|].
    rewrite Hdel. cbn. apply Forall_insert; [done|]. done.
  - unfold backlog. cbn [set_rec_reliable ks_send_reliable ks_rec_reliable]. rewrite Hids. cbn [length]. lia.
  - intros Hh. pose proof (Forall_lookup_1 _ _ _ _ (rq_entries _ Hq) He) as Hqe. unfold quiet_entry in Hqe.
    rewrite Hact in Hqe. cbn [andb] in Hqe. rewrite Hh in Hqe. cbn [negb orb] in Hqe. rewrite (rq_wkc _ Hq).
    destruct (parse_tlvs_total (Z.to_nat (b_len (e_buf e))) (e_buf e) false) as [[ok r] E]; [by exists h, c, t|rewrite (rep_len _ _ _ _ Hb); lia|].
    rewrite E in *. exists ok. destruct r; [done|]. done.
Qed.

(** ** A new key *)

Lemma init_any timeout hold :
  exists ks, key_state_init ss timeout hold = Some ks /\ rel_inv f ks /\ calm ks = true /\
    ks_rec_ack ks = [] /\ ks_lru_acks ks = [].
Proof.
  destruct (init_one ss timeout hold (sa_ok ss Hlo)) as (ks & E & H1 & H2 & H3 & H4 & H5 & H6 & H7 & H8 & H9 & H10 & H11).
  exists ks. split; [done|]. assert (Hnil : ack_wf []) by (split_and!; [constructor|done|constructor]).
  split; [split; rewrite ?H5, ?H6; try done; [by exists []|by exists []]|]. split; [|done].
  unfold calm. rewrite H8, H9, (si_packet_id _ _ _ _ H1). cbn [negb andb]. apply forallb_forall. intros e He%list_elem_of_In.
  unfold quiet_entry. destruct (e_active e) eqn:Ha; [|done]. exfalso.
  assert (e_packet_id e ∈ active_ids (rl_array (ks_rec_reliable ks))) as Hx by (apply active_ids_in; by exists e).
  rewrite H11 in Hx. by apply elem_of_nil in Hx.
Qed.
End any.
