(* ===== verification/ControlInv.v ===== *)
(** * Every step of the control channel keeps the invariant

    One lemma per operation of [Control]: it does not fail, it keeps [side_inv], and
    it makes [progress]. *)
From S2P Require Import Prelude Integers Buffer Frame Reliable AckList Windows SendWindow RecvWindow Control ControlNet ControlOne.

Lemma control_packet_bytes sa sb op acks body :
  peers sa sb -> P_FIRST_OPCODE <= op <= P_LAST_OPCODE -> ack_wf acks -> bytes body ->
  bytes (control_packet sa op acks body).
Proof.
  intros [Hsa Hsb Hab _ _ _] Hop (_ & Hl & _) Hbody. unfold control_packet, RELIABLE_ACK_SIZE in *.
  constructor; [by apply packet_header_ok|]. apply Forall_app; split; [apply Hsa|].
  apply Forall_app; split; [|done]. apply ack_record_bytes; [lia|]. rewrite Hab. apply Hsb.
Qed.

(** ** Steps of one side *)

Section steps.
Context (sa sb : session) (Hpe : peers sa sb).
Implicit Types (a b : side) (la lb log : list (Z * list Z)).
#[local] Abbreviation Hlo := (peers_local _ _ Hpe).
#[local] Abbreviation sa_ok := (ControlOne.sa_ok sa Hlo).
#[local] Abbreviation room_ok := (ControlOne.room_ok sa Hlo).
#[local] Abbreviation room_ok0 := (ControlOne.room_ok0 sa Hlo).

(** What every event has to do. *)
Definition step_ok (a b : side) (la lb : list (Z * list Z)) (r : option side) : Prop :=
  exists a' la', r = Some a' /\ side_inv sa a' la' lb /\ progress a a' b la la'.

(** An event that numbers no packet. *)
Definition step_same (a b : side) (la lb : list (Z * list Z)) (r : option side) : Prop :=
  exists a', r = Some a' /\ side_inv sa a' la lb /\ progress a a' b la la.

Lemma step_same_ok a b la lb r : step_same a b la lb r -> step_ok a b la lb r.
Proof. intros (a' & -> & ? & ?). by exists a', la. Qed.
(** Only the send window changes, and what it drops has arrived. *)
Lemma step_send a b la lb rel' :
  side_inv sa a la lb ->
  send_inv (BUF_SIZE (ss_frame sa)) (f_headroom (ss_frame sa)) rel' la ->
  rl_size rel' = rl_size (ks_send_reliable (sd_ks a)) ->
  (forall x, x ∈ active_ids (rl_array (ks_send_reliable (sd_ks a))) ->
     x ∈ active_ids (rl_array rel') \/ stored (ks_rec_reliable (sd_ks b)) x) ->
  step_same a b la lb (Some (set_ks a (set_send_reliable (sd_ks a) rel'))).
Proof.
  intros [] Hs Hsz Hids. eexists. split; [done|]. split; [split; cbn; try done; congruence|].
  split; cbn; try done; [unfold TLS_RELIABLE_N_SEND_BUFFERS; lia|intros; lia].
Qed.

Lemma burst_ok a b la lb now :
  side_inv sa a la lb -> step_same a b la lb (side_step sa (sd_net b) a (EBurst now)).
Proof.
  intros Ha. destruct (schedule_now_ok _ _ room_ok _ _ now (sv_send _ _ _ _ Ha)) as [Hs Hids].
  apply step_send; [done|done| |rewrite Hids; by left].
  unfold rl_size. cbn. by rewrite length_fmap.
Qed.

(** New packets at the end of the log. *)
Lemma step_append a b la lb rel' k out :
  side_inv sa a la lb ->
  send_inv (BUF_SIZE (ss_frame sa)) (f_headroom (ss_frame sa)) rel' (la ++ k) ->
  rl_size rel' = rl_size (ks_send_reliable (sd_ks a)) -> zlen k <= TLS_RELIABLE_N_SEND_BUFFERS ->
  Forall (log_entry_ok sa) k -> out = payloads k ->
  active_ids (rl_array rel') ≡ₚ seqZ (zlen la) (zlen k) ++ active_ids (rl_array (ks_send_reliable (sd_ks a))) ->
  step_ok a b la lb
    (Some (mk_side (set_send_reliable (sd_ks a) rel') (sd_net a) (sd_out a ++ out) (sd_in a))).
Proof.
  intros [] Hs Hsz Hk Hlog -> Hids. eexists _, (la ++ k). split; [done|]. split.
  - split; cbn; try done; [congruence|by apply Forall_app|by rewrite payloads_app, sv_out|].
    eapply Forall_impl; [exact sv_net|]. intros pkt. apply pkt_ok_mono; [by exists k|done].
  - split; cbn; [by exists k|rewrite length_app; lia| | |done].
    + intros x Hx. rewrite Hids. apply elem_of_app. left. apply elem_of_seqZ. rewrite length_app in Hx. lia.
    + intros x Hx. left. rewrite Hids. apply elem_of_app. by right.
Qed.

Lemma log_entry_start op :
  ctl_event_ok sa (EStart op) -> log_entry_ok sa (op, []).
Proof.
  intros Hop. unfold log_entry_ok. cbn in Hop |- *.
  destruct (frame_ok sa sa_ok) as (_ & _ & Hm & _). unfold TLS_CHANNEL_MTU_MIN in Hm.
  destruct Hop as [->| ->]; destruct (ss_server sa); (split; [unfold P_FIRST_OPCODE, P_LAST_OPCODE; done|]);
    (split; [done|]); (split; [done|]); (split; [lia|done]).
Qed.

Lemma start_ok a b la lb op :
  side_inv sa a la lb -> zlen la < ID_BOUND -> ctl_event_ok sa (EStart op) ->
  step_ok a b la lb (side_step sa (sd_net b) a (EStart op)).
Proof.
  intros Ha Hla Hop. pose proof (sv_send _ _ _ _ Ha) as Hs. cbn [side_step]. unfold session_move_pre_start.
  destruct (decide (0 < avail (ks_send_reliable (sd_ks a)))) as [Hav|Hav].
  - destruct (fill_ok _ _ room_ok _ _ Hs Hav Hla) as (i & rel1 & e1 & -> & He1 & Hb1 & Hfill).
    cbn [mbind option_bind]. destruct (Hfill (e_buf e1) [] op) as (rel' & Hm & Hs' & _ & Hsz & Hids).
    { eapply rep_eq; [exact Hb1|done|done|cbn; lia]. }
    assert (set_entry rel1 i (set_buf e1 (e_buf e1)) = rel1) as E.
    { destruct rel1, e1. unfold set_entry, set_array, set_buf. cbn in *. f_equal. by apply list_insert_id. }
    rewrite E in Hm. rewrite Hm. cbn [mbind option_bind].
    destruct (step_append a b la lb rel' [(op, [])] [] Ha Hs' Hsz) as (a' & la' & [= <-] & ? & ?); try done.
    + by repeat constructor; apply log_entry_start.
    + eexists _, la'. split; [done|]. rewrite app_nil_r in *. done.
  - pose proof (get_output_ok _ _ room_ok _ _ Hs) as Hg. replace (0 <? _) with false in Hg by lia. rewrite Hg.
    cbn [mbind option_bind]. apply step_same_ok, step_send; [done..|by left].
Qed.
(** ** Cutting TLS output into packets *)

Lemma write_ok a b la lb read :
  side_inv sa a la lb -> zlen la + 6 < ID_BOUND -> ctl_event_ok sa (EWrite read) ->
  step_ok a b la lb (side_step sa (sd_net b) a (EWrite read)).
Proof.
  intros Ha Hla Hread. pose proof (sv_send _ _ _ _ Ha) as Hs. cbn [side_step]. unfold check_outgoing_ciphertext.
  pose proof (get_output_ok _ _ room_ok _ _ Hs) as Hg. pose proof (avail_ok _ _ _ _ Hs) as (Hav & _).
  rewrite (sv_send_size _ _ _ _ Ha) in Hav. unfold TLS_RELIABLE_N_SEND_BUFFERS in Hav.
  destruct (Z.ltb_spec 0 (avail (ks_send_reliable (sd_ks a)))) as [Hpos|Hpos].
  - destruct Hg as (i & e & b0 & -> & He & Hina & Hb0). cbn [mbind option_bind].
    set (rel1 := set_entry (ks_send_reliable (sd_ks a)) i (set_buf e b0)).
    assert (Hs1 : send_inv (BUF_SIZE (ss_frame sa)) (f_headroom (ss_frame sa)) rel1 la).
    { eapply send_inv_update; [exact Hs|exact He| |by left]. eapply rep_slot; [exact Hb0|cbn; lia]. }
    assert (Hsz1 : rl_size rel1 = rl_size (ks_send_reliable (sd_ks a))) by (unfold rl_size; cbn; by rewrite length_insert).
    assert (Hi1 : active_ids (rl_array rel1) ≡ₚ active_ids (rl_array (ks_send_reliable (sd_ks a)))).
    { cbn. by apply (active_same _ _ e). }
    pose proof (avail_perm _ _ _ _ _ Hs Hs1 Hsz1 Hi1) as Hav1.
    set (ks1 := set_send_reliable (sd_ks a) rel1). pose proof (sv_wkc _ _ _ _ Ha) as Hwkc.
    destruct (outgoing_sizes_ok sa Hlo ks1 (avail rel1)) as (mx & Hsizes & Hmx1 & Hmx2 & Hmx3 & Hmx4); [done|lia|].
    unfold write_outgoing_tls_ciphertext. change (reliable_get_num_output_sequenced_available _) with (avail rel1).
    replace (avail rel1 =? 0) with false by lia. rewrite Hsizes, Some_bind.
    destruct (Hread (mx * avail rel1)) as [Hrb Hrl]; [nia|].
    destruct (alloc_some (mx * avail rel1)) as (tmp & -> & Htmp); [unfold BUF_SIZE_MAX; nia|].
    rewrite Some_bind.
    destruct (write_rep _ _ _ _ _ Htmp Hrb Hrl) as (tmp' & -> & Htmp'). cbn [snd app] in *.
    destruct (split_loop_ok sa Hlo (S (Z.to_nat (b_len tmp'))) ks1 la mx tmp' 0 (read (mx * avail rel1))
                (mx * avail rel1 - zlen (read (mx * avail rel1))) Hs1 Hwkc) as (rel' & k & -> & Hs' & Hk & Hz & Hl & Hp & Hi);
      cbn [ks1 ks_send_reliable set_send_reliable] in *; [lia|exact Htmp'|lia|done|lia|rewrite (rep_len _ _ _ _ Htmp'); lia|].
    rewrite (rep_content _ _ _ _ Htmp'). cbn [mbind option_bind].
    eapply (step_append a b la lb rel' k); try done; [congruence|unfold TLS_RELIABLE_N_SEND_BUFFERS; lia|].
    by rewrite Hi, Hi1.
  - rewrite Hg. cbn [mbind option_bind]. rewrite app_nil_r. apply step_same_ok, (step_send a b la lb (ks_send_reliable (sd_ks a))); [done..|by left].
Qed.

(** ** Transmission *)

(** A new packet on the wire; acknowledgements move from [rec_ack] to [lru_acks]. *)
Lemma step_emit a b la lb rel' ackbuf max op body :
  side_inv sa a la lb ->
  send_inv (BUF_SIZE (ss_frame sa)) (f_headroom (ss_frame sa)) rel' la ->
  rl_size rel' = rl_size (ks_send_reliable (sd_ks a)) ->
  active_ids (rl_array rel') ≡ₚ active_ids (rl_array (ks_send_reliable (sd_ks a))) ->
  (exists h c t, buf_rep ackbuf h c t /\ h + zlen c + t = BUF_SIZE (ss_frame sa)) ->
  P_FIRST_OPCODE <= op <= P_LAST_OPCODE -> bytes body ->
  ((op = P_ACK_V1 /\ body = []) \/
   (op <> P_ACK_V1 /\ exists pid pl, 0 <= pid <= ID_BOUND /\ la !! Z.to_nat pid = Some (op, pl) /\
      body = be_bytes 4 pid ++ pl)) ->
  let ks := sd_ks a in
  let acks := acks_out (ks_rec_ack ks) (ks_lru_acks ks) (max_acks sa max) in
  step_same a b la lb
    (Some (emit a (Some (control_packet sa op acks body),
                   set_ack_write_buf (set_send_reliable (acked_ks sa ks max) rel') ackbuf))).
Proof.
  intros [] Hs Hsz Hids Hab Hop Hby Hbody ks acks.
  destruct (acked_ks_ok sa ks max (stored (ks_rec_reliable ks)) sv_ack sv_lru sv_acked) as (H1 & H2 & H3 & H4).
  eexists. split; [done|]. split.
  - split; cbn; try done; [congruence|]. apply Forall_app. split; [done|]. repeat constructor.
    exists op, acks, body. split_and!; try done; try lia. by apply acks_out_wf.
  - split; cbn; try done; [unfold TLS_RELIABLE_N_SEND_BUFFERS; lia|intros; lia|].
    intros x Hx. left. by rewrite Hids.
Qed.
(** What goes out when something is due: the packet of the lowest id that is. *)
Lemma transmit_detail a la lb now :
  side_inv sa a la lb -> reliable_can_send now (ks_send_reliable (sd_ks a)) = true ->
  let rel := ks_send_reliable (sd_ks a) in
  exists i e pl t shared, rl_array rel !! i = Some e /\ is_current now e = true /\ e_active e = true /\
    la !! Z.to_nat (e_packet_id e) = Some (e_opcode e, pl) /\ 0 <= e_packet_id e <= ID_BOUND /\
    P_FIRST_OPCODE <= e_opcode e <= P_LAST_OPCODE /\ e_opcode e <> P_ACK_V1 /\
    buf_rep (e_buf e) (f_headroom (ss_frame sa) - 4) (be_bytes 4 (e_packet_id e) ++ pl) t /\
    buf_rep shared (f_headroom (ss_frame sa) - 4) (be_bytes 4 (e_packet_id e) ++ pl) t /\
    send_reliable_packet sa now (sd_ks a) =
      Some (Some (control_packet sa (e_opcode e)
                    (acks_out (ks_rec_ack (sd_ks a)) (ks_lru_acks (sd_ks a)) (max_acks sa CONTROL_SEND_ACK_MAX))
                    (be_bytes 4 (e_packet_id e) ++ pl)),
            set_send_reliable (acked_ks sa (sd_ks a) CONTROL_SEND_ACK_MAX)
              (set_entry rel i (set_buf (resent now e) shared))).
Proof.
  intros Ha Hcan. apply (transmit_one sa Hlo (sd_ks a) la now); try apply Ha; [|exact (peers_known _ _ _ Hpe)|done].
  eapply log_sendable, Ha.
Qed.

Lemma cannot_send_idle a now :
  reliable_can_send now (ks_send_reliable (sd_ks a)) = false -> side_step sa [] a (ETransmit now) = Some a.
Proof.
  intros Hc. cbn [side_step]. unfold send_reliable_packet. rewrite Hc. cbn [mbind option_bind].
  destruct a. unfold emit. cbn. by rewrite app_nil_r.
Qed.

Lemma step_idle a b la lb : side_inv sa a la lb -> step_same a b la lb (Some a).
Proof.
  intros Ha. exists a. split; [done|]. split; [done|].
  split; try done; [unfold TLS_RELIABLE_N_SEND_BUFFERS; lia|intros; lia|by left].
Qed.

Lemma transmit_ok a b la lb now :
  side_inv sa a la lb -> step_same a b la lb (side_step sa (sd_net b) a (ETransmit now)).
Proof.
  intros Ha. destruct (reliable_can_send now (ks_send_reliable (sd_ks a))) eqn:Hcan.
  2: { change (side_step sa (sd_net b) a (ETransmit now)) with (side_step sa [] a (ETransmit now)).
       rewrite cannot_send_idle by done. by apply step_idle. }
  pose proof (sv_send _ _ _ _ Ha) as Hs.
  destruct (transmit_detail a la lb now Ha Hcan) as (i & e & pl & t & shared & He & _ & Hact & Hl & Hid & Hop & Hna & Hr & Hshared & Hstep).
  cbn [side_step]. rewrite Hstep, Some_bind.
  destruct (send_entry_ok _ _ _ _ i e now shared Hs He Hact) as [Hs' Hids'].
  { intros h2 c2 t2 Hr2. destruct (rep_inj _ _ _ _ _ _ _ Hr Hr2) as (<- & <- & <-). done. }
  eapply (step_emit a b la lb _ (ks_ack_write_buf (sd_ks a)) CONTROL_SEND_ACK_MAX (e_opcode e)
            (be_bytes 4 (e_packet_id e) ++ pl) Ha Hs'); try done.
  - unfold rl_size. cbn. by rewrite length_insert.
  - apply (sv_ackbuf _ _ _ _ Ha).
  - by apply (rep_bounds _ _ _ _ Hr).
  - right. split; [done|]. by exists (e_packet_id e), pl.
Qed.

Lemma ack_ok a b la lb :
  side_inv sa a la lb -> step_same a b la lb (side_step sa (sd_net b) a EAck).
Proof.
  intros Ha. cbn [side_step]. destruct (sv_ackbuf _ _ _ _ Ha) as (h & c & t & Hb & Hcap).
  destruct (decide (ks_rec_ack (sd_ks a) = [])) as [E|E].
  { unfold send_ack_packet. rewrite E. change (reliable_ack_empty []) with true. cbv iota. rewrite Some_bind.
    replace (emit a (None, sd_ks a)) with a by (destruct a; unfold emit; cbn; by rewrite app_nil_r).
    by apply step_idle. }
  destruct (ack_one sa Hlo (sd_ks a) h c t) as (ackbuf & c' & t' & Hr & Hcap' & ->); try apply Ha; try done;
    [exact (peers_known _ _ _ Hpe)|]. rewrite Some_bind.
  destruct (step_emit a b la lb (ks_send_reliable (sd_ks a)) ackbuf RELIABLE_ACK_SIZE P_ACK_V1 [] Ha
              (sv_send _ _ _ _ Ha)) as (a' & E' & Hinv & Hpg); [done|done|by exists h, c', t'|done|constructor|by left|].
  exists a'. split; [|done]. rewrite <- E'. done.
Qed.

(** ** Reception *)

(** The receive window stores more, or the same; [rec_ack] may have grown by what it
    stores. *)
Lemma step_store a b la lb rel' ack :
  side_inv sa a la lb ->
  recv_inv (BUF_SIZE (ss_frame sa)) (f_headroom (ss_frame sa)) rel' lb ->
  rl_size rel' = rl_size (ks_rec_reliable (sd_ks a)) ->
  rl_packet_id rel' = rl_packet_id (ks_rec_reliable (sd_ks a)) ->
  (forall x, stored (ks_rec_reliable (sd_ks a)) x -> stored rel' x) ->
  ack_wf ack -> (forall x, x ∈ ack -> x ∈ ks_rec_ack (sd_ks a) \/ stored rel' x) ->
  step_same a b la lb (Some (set_ks a (set_acks (set_rec_reliable (sd_ks a) rel') ack (ks_lru_acks (sd_ks a))))).
Proof.
  intros [] Hr Hsz Hpid Hst Hack Hin. eexists. split; [done|]. split.
  - split; cbn; try done; [congruence| |by rewrite Hpid|].
    + intros x [Hx|Hx]%elem_of_app; [|apply Hst, sv_acked, elem_of_app; by right].
      destruct (Hin x Hx) as [|]; [|done]. apply Hst, sv_acked, elem_of_app. by left.
    + eapply Forall_impl; [exact sv_net|]. intros pkt. by apply pkt_ok_mono.
  - split; cbn; try done; [unfold TLS_RELIABLE_N_SEND_BUFFERS; lia|intros; lia|by left].
Qed.

Lemma set_ks_same a : set_ks a (sd_ks a) = a.
Proof. by destruct a. Qed.
(** A packet with an id: stored if it is new and in the window, and acknowledged.  The
    next packet in sequence is always stored. *)
Lemma receive_data_ok a b la lb buf h op pid pl t :
  side_inv sa a la lb -> buf_rep buf h (be_bytes 4 pid ++ pl) t ->
  0 <= pid <= ID_BOUND -> lb !! Z.to_nat pid = Some (op, pl) -> op <> P_ACK_V1 ->
  exists (ok : bool) ks', receive_data (sd_ks a) buf op = Some (ok, ks') /\
    step_same a b la lb (Some (set_ks a ks')) /\
    rl_packet_id (ks_rec_reliable ks') = rl_packet_id (ks_rec_reliable (sd_ks a)) /\
    (pid = rl_packet_id (ks_rec_reliable (sd_ks a)) ->
     zlen pl <= BUF_SIZE (ss_frame sa) - f_headroom (ss_frame sa) -> stored (ks_rec_reliable ks') pid).
Proof.
  intros Ha Hb Hpid Hl Hop. pose proof (sv_recv _ _ _ _ Ha) as Hr. set (ks := sd_ks a) in *.
  assert (Hidle : step_same a b la lb (Some (set_ks a ks))) by (unfold ks; rewrite set_ks_same; by apply step_idle).
  unfold receive_data. replace (op =? P_ACK_V1) with false by lia. cbn [negb andb].
  destruct (reliable_can_get (ks_rec_reliable ks)) eqn:Hget.
  2: { exists true, ks. split; [done|]. split; [done|]. split; [done|]. intros -> _.
       destruct (decide (stored (ks_rec_reliable ks) (rl_packet_id (ks_rec_reliable ks)))) as [|Hns]; [done|].
       apply (room_for_next _ _ _ _ Hr) in Hns. congruence. }
  destruct (read_rep _ _ _ _ _ Hb) as (b1 & Hrd & Hb1). rewrite length_be_bytes in Hrd, Hb1.
  unfold reliable_ack_read_packet_id. change 4 with (Z.of_nat 4). rewrite Hrd, be_val_be_bytes.
  change (256 ^ Z.of_nat 4) with 4294967296. rewrite Z.mod_small by (unfold ID_BOUND in *; lia).
  rewrite (wont_break_ok _ _ _ _ _ Hr) by (unfold is_u32, ID_BOUND in *; lia).
  destruct (Z.ltb_spec pid (rl_packet_id (ks_rec_reliable ks) + rl_size (ks_rec_reliable ks))).
  2: { exists true, ks. split; [done|]. split; [done|]. split; [done|]. intros ->. pose proof (ri_size _ _ _ _ Hr). lia. }
  destruct (acknowledge_ok (ks_rec_ack ks) pid (sv_ack _ _ _ _ Ha)) as [Hwf Hin]; [unfold is_u32, ID_BOUND in *; lia|].
  destruct (store_packet_ok sa Hlo ks lb b1 _ op pid pl t Hr Hget Hb1 Hpid Hl) as (ok & rel' & -> & Hr' & Hsz & Hp & Hmono & Hst & Hfit); [done|].
  rewrite Some_bind. destruct ok.
  - eexists true, _. split; [done|]. split; [|split; [done|intros _ _; by apply Hst]].
    apply step_store; try done. intros x Hx. destruct (Hin x Hx) as [| ->]; [by left|right; by apply Hst].
  - eexists false, _. split; [done|]. split; [|split; [done|intros _ Hf; by specialize (Hfit Hf)]].
    change (set_rec_reliable ks rel') with (set_acks (set_rec_reliable ks rel') (ks_rec_ack ks) (ks_lru_acks ks)).
    apply step_store; try done; [apply (sv_ack _ _ _ _ Ha)|by left].
Qed.

(** One step after another, the first of which numbers no packet. *)
Lemma progress_trans a a1 a2 b la la2 :
  progress a a1 b la la -> progress a1 a2 b la la2 -> progress a a2 b la la2.
Proof.
  intros [_ _ _ Hs1 Ht1] [Hp Hl Hn Hs2 Ht2]. split; try done; [|by auto].
  intros x Hx. destruct (Hs1 x Hx) as [Hx1|]; [by apply Hs2|by right].
Qed.

Lemma pid_body_inj p1 l1 p2 l2 :
  0 <= p1 <= ID_BOUND -> 0 <= p2 <= ID_BOUND -> be_bytes 4 p1 ++ l1 = be_bytes 4 p2 ++ l2 -> p1 = p2 /\ l1 = l2.
Proof.
  intros H1 H2 E. apply app_inj_1 in E as [E ->]; [|by rewrite !length_be_bytes]. split; [|done].
  apply (f_equal be_val) in E. rewrite !be_val_be_bytes in E. change (256 ^ Z.of_nat 4) with 4294967296 in E.
  unfold ID_BOUND in *. by rewrite !Z.mod_small in E by lia.
Qed.

(** An accepted packet: its acknowledgements, then its data. *)
Lemma receive_reliable_ok a b la lb buf h op acks body t :
  side_inv sa a la lb -> buf_rep buf h (ack_record acks (ss_session_id sa) ++ body) t -> ack_wf acks ->
  (forall x, x ∈ acks -> stored (ks_rec_reliable (sd_ks b)) x) ->
  ((op = P_ACK_V1 /\ body = []) \/
   (op <> P_ACK_V1 /\ exists pid pl, 0 <= pid <= ID_BOUND /\ lb !! Z.to_nat pid = Some (op, pl) /\
      body = be_bytes 4 pid ++ pl)) ->
  exists (ok : bool) ks', receive_reliable sa (sd_ks a) buf op = Some (ok, ks') /\
    step_same a b la lb (Some (set_ks a ks')) /\
    rl_packet_id (ks_rec_reliable ks') = rl_packet_id (ks_rec_reliable (sd_ks a)) /\
    (forall pid pl, body = be_bytes 4 pid ++ pl -> op <> P_ACK_V1 -> 0 <= pid <= ID_BOUND ->
     pid = rl_packet_id (ks_rec_reliable (sd_ks a)) ->
     zlen pl <= BUF_SIZE (ss_frame sa) - f_headroom (ss_frame sa) -> stored (ks_rec_reliable ks') pid).
Proof.
  intros Ha Hb Hwf Hst Hbody. pose proof sa_ok as Hs.
  destruct (ack_read_ok _ _ _ _ _ _ Hb Hwf (so_sid _ Hs) (so_sid_defined _ Hs)) as (b1 & Hrd & Hb1).
  unfold receive_reliable. rewrite Hrd. cbn [negb].
  destruct (purge_ok _ _ room_ok _ _ acks (sv_send _ _ _ _ Ha)) as [Hs1 Hids].
  destruct (step_send a b la lb _ Ha Hs1) as (a1 & [= <-] & Ha1 & Hp1).
  { apply purge_size. }
  { intros x Hx. destruct (decide (x ∈ acks)); [right; by apply Hst|left; by apply Hids]. }
  destruct Hbody as [[-> ->]|(Hop & pid & pl & Hpid & Hl & ->)].
  - unfold receive_data. cbn [negb andb]. change (P_ACK_V1 =? P_ACK_V1) with true. cbn [negb andb].
    eexists true, _. split; [done|]. split; [by eexists|done].
  - destruct (receive_data_ok _ b la lb b1 _ op pid pl t Ha1 Hb1 Hpid Hl Hop) as (ok & ks' & E & (a2 & E2 & Ha2 & Hp2) & Hsame & Hnext).
    exists ok, ks'. split; [exact E|]. injection E2 as <-. split; [|split; [exact Hsame|]].
    + eexists. split; [done|]. split; [exact Ha2|]. by eapply progress_trans.
    + intros pid2 pl2 Eb _ Hpid2. destruct (pid_body_inj _ _ _ _ Hpid Hpid2 Eb) as [<- <-]. exact Hnext.
Qed.

Lemma length_control_packet ss op acks body :
  session_ok ss -> zlen (ss_session_id_remote ss) = SID_SIZE -> ack_wf acks -> 
  zlen (control_packet ss op acks body) <= 9 + 41 + zlen body.
Proof.
  intros Hs Hr (_ & Hl & _). unfold control_packet. cbn [length].
  rewrite Nat2Z.inj_succ, !length_app, !Nat2Z.inj_add, length_ack_record by done. rewrite (so_sid _ Hs).
  unfold ACK_SIZE, SID_SIZE, RELIABLE_ACK_SIZE in *. destruct (_ =? _); lia.
Qed.

(** A packet can be read in one way only. *)
Lemma control_packet_inj ss op1 op2 acks1 acks2 body1 body2 :
  session_ok ss -> zlen (ss_session_id_remote ss) = SID_SIZE ->
  P_FIRST_OPCODE <= op1 <= P_LAST_OPCODE -> P_FIRST_OPCODE <= op2 <= P_LAST_OPCODE -> ack_wf acks1 -> ack_wf acks2 ->
  control_packet ss op1 acks1 body1 = control_packet ss op2 acks2 body2 -> op1 = op2 /\ acks1 = acks2 /\ body1 = body2.
Proof.
  intros Hs Hr H1 H2 Hw1 Hw2 E. unfold control_packet in E. injection E as Eh E.
  apply app_inv_head in E. destruct (packet_header_ok ss op1 Hs H1) as [E1 _], (packet_header_ok ss op2 Hs H2) as [E2 _].
  split; [lia|]. unfold ack_record in E. rewrite <- !app_assoc in E. injection E as En E.
  assert (length acks1 = length acks2) as El by lia.
  apply app_inj_1 in E as [Ei E]; [|apply Nat2Z.inj; rewrite !length_ack_ids; lia].
  rewrite En in E. apply app_inv_head in E. split; [|done].
  apply ack_ids_inj; [done|apply Hw1|apply Hw2|done].
Qed.

(** Any packet that the peer ever put on the wire. *)
Lemma receive_packet_ok a b la lb pkt :
  side_inv sa a la lb -> Forall (log_entry_ok sb) lb -> pkt_ok sb lb (stored (ks_rec_reliable (sd_ks b))) pkt ->
  exists (ok : bool) ks', receive_packet sa (sd_ks a) (received pkt) = Some (ok, ks') /\
    step_same a b la lb (Some (set_ks a ks')) /\
    rl_packet_id (ks_rec_reliable ks') = rl_packet_id (ks_rec_reliable (sd_ks a)) /\
    (forall op acks pid pl, pkt = control_packet sb op acks (be_bytes 4 pid ++ pl) -> op <> P_ACK_V1 ->
     P_FIRST_OPCODE <= op <= P_LAST_OPCODE -> ack_wf acks -> 0 <= pid <= ID_BOUND ->
     pid = rl_packet_id (ks_rec_reliable (sd_ks a)) ->
     zlen pl <= BUF_SIZE (ss_frame sa) - f_headroom (ss_frame sa) -> stored (ks_rec_reliable ks') pid).
Proof.
  intros Ha Hlog (op & acks & body & -> & Hby & Hop & Hwf & Hst & Hbody).
  pose proof Hpe as [Hsa Hsb Hab Hba Hkey Hrole]. pose proof (peers_sym _ _ Hpe) as Hpe'.
  assert (Hacc : acceptable (ss_server sb) op = true).
  { destruct Hbody as [[-> _]|(_ & pid & pl & _ & Hl & _)]; [by destruct (ss_server sb)|].
    by destruct (Forall_lookup_1 _ _ _ _ Hlog Hl) as (_ & _ & _ & _ & Hacc). }
  assert (Hlen : zlen body <= 2052).
  { destruct Hbody as [[_ ->]|(_ & pid & pl & _ & Hl & ->)]; [done|].
    destruct (Forall_lookup_1 _ _ _ _ Hlog Hl) as (_ & _ & _ & Hpl & _). cbn in Hpl.
    destruct (frame_ok sb Hsb) as (_ & _ & Hm & _). unfold TLS_CHANNEL_BUF_SIZE in Hm.
    rewrite length_app, length_be_bytes. lia. }
  pose proof (length_control_packet sb op acks body Hsb ltac:(rewrite Hba; apply Hsa) Hwf) as Hpl.
  pose proof (received_rep (control_packet sb op acks body) (control_packet_bytes sb sa op acks body Hpe' Hop Hwf Hby)
                ltac:(unfold BUF_SIZE_MAX; lia)) as Hr.
  unfold receive_packet. set (buf := received _) in *. rewrite (rep_len _ _ _ _ Hr).
  unfold control_packet in Hr at 1 |- *. destruct (zlen (_ :: _) <=? 0) eqn:E; [cbn in E; lia|]. clear E.
  assert (Hpeek : buf_peek_u8 buf = packet_header sb op).
  { unfold buf_peek_u8, buf_bptr. rewrite (rep_valid _ _ _ _ Hr), (buf_len_wf _ (rep_wf _ _ _ _ Hr)), (rep_len _ _ _ _ Hr).
    replace (_ <? 1) with false by (cbn [length]; lia). done. }
  rewrite Hpeek. destruct (header_fields sb op Hsb Hop) as [-> ->].
  unfold acceptable in Hacc. rewrite <- Hrole in Hacc.
  apply andb_true_iff in Hacc as [[Hdata Hdir]%andb_true_iff Hkeyless].
  apply negb_true_iff in Hdata, Hdir, Hkeyless. rewrite Hdata.
  replace ((op <? P_FIRST_OPCODE) || (P_LAST_OPCODE <? op)) with false by lia. rewrite Hdir.
  change (packet_header sb op :: ?l) with ([packet_header sb op] ++ l) in Hr.
  destruct (advance_rep _ _ _ _ _ Hr) as (b1 & E1 & Hr1). change (zlen [packet_header sb op]) with 1 in *. rewrite E1.
  cbn [snd]. destruct (read_rep _ _ _ _ _ Hr1) as (b2 & E2 & _). rewrite (so_sid _ Hsb) in E2.
  unfold session_id_read. rewrite E2, (so_sid_defined _ Hsb). cbn [negb].
  unfold session_id_equal. rewrite bool_decide_eq_true_2 by done. cbn [negb].
  rewrite app_assoc in Hr. destruct (advance_rep _ _ _ _ _ Hr) as (b3 & E3 & Hr3).
  assert (zlen ([packet_header sb op] ++ ss_session_id sb) = SID_SIZE + 1) as Hl9.
  { rewrite length_app, Nat2Z.inj_add, (so_sid _ Hsb). cbn. lia. }
  unfold read_control_auth. rewrite Hpeek. destruct (header_fields sb op Hsb Hop) as [-> _]. rewrite Hkeyless.
  rewrite Hl9 in *. rewrite E3. cbn [snd negb].
  replace (ss_key_id sa =? ss_key_id sb) with true by lia. cbn [negb]. rewrite Hba in Hr3.
  destruct (receive_reliable_ok a b la lb b3 _ op acks body _ Ha Hr3 Hwf Hst Hbody) as (ok & ks' & E & Hstep & Hsame & Hnext).
  exists ok, ks'. split; [done|]. split; [done|]. split; [done|]. intros op2 acks2 pid pl Ep Hop2 Hop2r Hwf2 Hpid.
  destruct (control_packet_inj sb _ _ _ _ _ _ Hsb ltac:(rewrite Hba; apply Hsa) Hop Hop2r Hwf Hwf2 Ep) as (<- & <- & ->).
  by apply Hnext.
Qed.

Lemma receive_ok a b la lb k :
  side_inv sa a la lb -> side_inv sb b lb la -> step_same a b la lb (side_step sa (sd_net b) a (EReceive k)).
Proof.
  intros Ha Hb. cbn [side_step]. destruct (sd_net b !! k) as [pkt|] eqn:Hk; [|by apply step_idle].
  pose proof (Forall_lookup_1 _ _ _ _ (sv_net _ _ _ _ Hb) Hk) as Hpkt.
  destruct (receive_packet_ok a b la lb pkt Ha (sv_log _ _ _ _ Hb) Hpkt) as (ok & ks' & -> & Hs & _). exact Hs.
Qed.

(** ** Delivery *)
Lemma ctl_deliver_ok a b la lb :
  side_inv sa a la lb -> Forall (log_entry_ok sb) lb -> 
  exists a', side_step sa (sd_net b) a EDeliver = Some a' /\ step_same a b la lb (Some a') /\
    (stored (ks_rec_reliable (sd_ks a)) (rl_packet_id (ks_rec_reliable (sd_ks a))) ->
     rl_packet_id (ks_rec_reliable (sd_ks a')) = rl_packet_id (ks_rec_reliable (sd_ks a)) + 1).
Proof.
  intros Ha Hlog. cbn [side_step]. unfold deliver_sequenced. pose proof (sv_recv _ _ _ _ Ha) as Hr.
  pose proof (recv_deliver_ok _ _ _ _ Hr) as Hd. destruct (reliable_get_entry_sequenced _) as [i|].
  2: { rewrite Some_bind, app_nil_r. replace (mk_side _ _ _ _) with a by by destruct a. exists a. split; [done|]. split; [by apply step_idle|].
       intros [?|?]; [lia|done]. }
  destruct Hd as (e & rel' & He & Hact & Hid & Hl & Hm & Hr' & Hp' & Hids). rewrite He, Some_bind.
  destruct (Forall_lookup_1 _ _ _ _ Hlog Hl) as (_ & _ & Hhard & _). cbn in Hhard.
  assert (Hgoal : step_same a b la lb (Some (mk_side (set_rec_reliable (sd_ks a) rel') (sd_net a) (sd_out a)
                    (sd_in a ++ content (e_buf e))))).
  { destruct Ha. eexists. split; [done|].
    assert (Hmono : forall x, stored (ks_rec_reliable (sd_ks a)) x -> stored rel' x).
    { intros x [Hx|Hx]; [left; lia|]. rewrite Hids in Hx. apply elem_of_cons in Hx as [->|Hx]; [left; lia|by right]. }
    assert (rl_size rel' = rl_size (ks_rec_reliable (sd_ks a))) as Hsz.
    { clear -Hm He. unfold reliable_mark_deleted in Hm. rewrite He in Hm. injection Hm as <-.
      unfold rl_size. cbn. by rewrite length_insert. }
    pose proof (ri_delivered _ _ _ _ Hr) as Hdel.
    split; [split; cbn; try done; [congruence|by intros x Hx; auto| |]|].
    - rewrite Hp', Z2Nat.inj_add by lia. change (Z.to_nat 1) with 1%nat. rewrite Nat.add_1_r.
      rewrite (take_S_r _ _ _ Hl), payloads_app, sv_in. f_equal. unfold payloads. cbn. by rewrite app_nil_r.
    - eapply Forall_impl; [exact sv_net|]. intros pkt. by apply pkt_ok_mono.
    - split; cbn; try done; [unfold TLS_RELIABLE_N_SEND_BUFFERS; lia|intros; lia|by left]. }
  eexists (mk_side (set_rec_reliable (sd_ks a) rel') (sd_net a) (sd_out a) (sd_in a ++ content (e_buf e))).
  split; [|split; [exact Hgoal|by intros _]].
  clear Hgoal. destruct (_ && _) eqn:Ehard.
  - apply andb_true_iff in Ehard as [_ Eh]. specialize (Hhard Eh).
    assert (Hlen0 : b_len (e_buf e) = 0).
    { destruct (Forall_lookup_1 _ _ _ _ (ri_slots _ _ _ _ Hr) He) as (h & c & t & Hb & _).
      rewrite (rep_len _ _ _ _ Hb). rewrite (rep_content _ _ _ _ Hb) in Hhard. by subst. }
    rewrite parse_tlvs_empty, Some_bind by done. cbn [negb]. rewrite Hm, !Some_bind, app_nil_r.
    rewrite (sv_wkc _ _ _ _ Ha).
    replace (set_resend_wkc (sd_ks a) false) with (sd_ks a); [by rewrite Hhard, app_nil_r|].
    pose proof (sv_wkc _ _ _ _ Ha) as Hw. clear -Hw. destruct (sd_ks a). cbn in Hw. by subst.
  - by rewrite Hm, !Some_bind.
Qed.
End steps.

(** Every event, at either side. *)
Lemma side_step_ok sa sb a b la lb ev :
  peers sa sb -> link sa sb a b la lb -> ctl_event_ok sa ev -> zlen la + 7 <= ID_BOUND ->
  exists a' la', side_step sa (sd_net b) a ev = Some a' /\ link sa sb a' b la' lb /\
    zlen la' <= zlen la + TLS_RELIABLE_N_SEND_BUFFERS.
Proof.
  intros Hpe Hl Hev Hla. pose proof Hl as [Ha Hb _ _].
  assert (Hs : step_ok sa a b la lb (side_step sa (sd_net b) a ev)).
  { destruct ev.
    - apply (start_ok sa sb Hpe); done || lia.
    - apply (write_ok sa sb Hpe); done || lia.
    - by apply step_same_ok, (transmit_ok sa sb Hpe).
    - by apply step_same_ok, (ack_ok sa sb Hpe).
    - by apply step_same_ok, (receive_ok sa sb Hpe).
    - destruct (ctl_deliver_ok sa sb a b la lb Ha (sv_log _ _ _ _ Hb)) as (a' & -> & Hs & _). by apply step_same_ok.
    - by apply step_same_ok, (burst_ok sa sb Hpe). }
  destruct Hs as (a' & la' & -> & Ha' & Hp). exists a', la'. split; [done|].
  split; [by eapply link_step|]. apply Hp.
Qed.

(** Receiving, delivering and transmitting number no packets. *)
Lemma same_step_ok sa sb a b la lb ev :
  peers sa sb -> link sa sb a b la lb ->
  match ev with ETransmit _ | EReceive _ | EDeliver => True | _ => False end ->
  exists a', side_step sa (sd_net b) a ev = Some a' /\ link sa sb a' b la lb /\
    (forall x, stored (ks_rec_reliable (sd_ks a)) x -> stored (ks_rec_reliable (sd_ks a')) x).
Proof.
  intros Hpe Hl Hev. pose proof Hl as [Ha Hb _ _].
  assert (Hs : step_same sa a b la lb (side_step sa (sd_net b) a ev)).
  { destruct ev; try done.
    - by apply (transmit_ok sa sb Hpe).
    - by apply (receive_ok sa sb Hpe).
    - by destruct (ctl_deliver_ok sa sb a b la lb Ha (sv_log _ _ _ _ Hb)) as (a' & -> & Hs & _). }
  destruct Hs as (a' & -> & Ha' & Hp). exists a'. split; [done|].
  split; [by eapply link_step|]. apply Hp.
Qed.
