(* ===== verification/ControlSafe.v ===== *)
(** * What the control channel guarantees

    Runs of two peers over a network that loses, repeats and reorders packets: no
    [ASSERT] fails, both byte streams arrive in order and without gaps, nothing that
    was sent is forgotten before it has arrived, and from every state the rest of the
    stream can still be delivered. *)
From Stdlib Require Import Sorted.
From S2P Require Import Prelude Integers Buffer Frame Reliable AckList Windows SendWindow RecvWindow Control ControlNet ControlOne ControlInv.

(** ** The initial state *)

(** A side that has just been set up. *)
Definition init_side (ss : session) (packet_timeout : Z) (xmit_hold : bool) : option side :=
  ks ← key_state_init ss packet_timeout xmit_hold; Some (mk_side ks [] [] []).

Lemma init_side_ok ss timeout hold :
  session_ok ss -> exists a, init_side ss timeout hold = Some a /\ side_inv ss a [] [].
Proof.
  intros Hs. destruct (init_one ss timeout hold Hs) as (ks & E & H1 & H2 & H3 & H4 & H5 & H6 & H7 & H8 & H9 & _).
  unfold init_side. rewrite E, Some_bind. eexists. split; [done|].
  assert (Hnil : ack_wf []) by (split_and!; [constructor|done|constructor]).
  split; cbn; try done; rewrite ?H5, ?H6, ?H9; try done. by intros x ?%elem_of_nil.
Qed.

Lemma link_init sa sb ta tb ha hb :
  peers sa sb -> exists a b, init_side sa ta ha = Some a /\ init_side sb tb hb = Some b /\ link sa sb a b [] [].
Proof.
  intros [Hsa Hsb _ _ _ _]. destruct (init_side_ok sa ta ha Hsa) as (a & Ha & Hia).
  destruct (init_side_ok sb tb hb Hsb) as (b & Hb & Hib). exists a, b. split; [done|]. split; [done|].
  split; try done; intros x Hx; cbn in Hx; lia.
Qed.

(** ** Runs *)

(** Each event numbers at most six packets, and the packet ids are not to wrap. *)
Definition events_ok (sa sb : session) (evs : list (bool * ctl_event)) : Prop :=
  Forall (fun e : bool * ctl_event => ctl_event_ok (if e.1 then sa else sb) e.2) evs /\ 6 * zlen evs + 7 <= ID_BOUND.

Lemma ctl_run_ok sa sb evs a b la lb :
  peers sa sb -> link sa sb a b la lb -> Forall (fun e : bool * ctl_event => ctl_event_ok (if e.1 then sa else sb) e.2) evs ->
  zlen la + 6 * zlen evs + 7 <= ID_BOUND -> zlen lb + 6 * zlen evs + 7 <= ID_BOUND ->
  exists a' b' la' lb', ctl_run sa sb evs a b = Some (a', b') /\ link sa sb a' b' la' lb' /\
    zlen la' <= zlen la + 6 * zlen evs /\ zlen lb' <= zlen lb + 6 * zlen evs.
Proof.
  intros Hpe. revert a b la lb. induction evs as [|[[] ev] evs IH]; intros a b la lb Hl Hev Ha Hb.
  - exists a, b, la, lb. split; [done|]. split; [done|]. lia.
  - apply Forall_cons in Hev as [He Hev]. cbn [length snd] in *. cbn [ctl_run].
    destruct (side_step_ok sa sb a b la lb ev Hpe Hl He) as (a1 & la1 & -> & Hl1 & Hlen); [lia|].
    rewrite Some_bind. unfold TLS_RELIABLE_N_SEND_BUFFERS in *.
    destruct (IH a1 b la1 lb Hl1 Hev) as (a' & b' & la' & lb' & E & Hl' & ? & ?); [lia..|].
    exists a', b', la', lb'. split; [done|]. split; [done|]. lia.
  - apply Forall_cons in Hev as [He Hev]. cbn [length snd] in *. cbn [ctl_run].
    destruct (side_step_ok sb sa b a lb la ev (peers_sym _ _ Hpe) (link_sym _ _ _ _ _ _ Hl) He) as (b1 & lb1 & -> & Hl1 & Hlen); [lia|].
    rewrite Some_bind. unfold TLS_RELIABLE_N_SEND_BUFFERS in *.
    destruct (IH a b1 la lb1 (link_sym _ _ _ _ _ _ Hl1) Hev) as (a' & b' & la' & lb' & E & Hl' & ? & ?); [lia..|].
    exists a', b', la', lb'. split; [done|]. split; [done|]. lia.
Qed.

Lemma ctl_run_app sa sb evs1 evs2 a b a1 b1 :
  ctl_run sa sb evs1 a b = Some (a1, b1) -> ctl_run sa sb (evs1 ++ evs2) a b = ctl_run sa sb evs2 a1 b1.
Proof.
  revert a b. induction evs1 as [|[[] ev] evs IH]; intros a b E; cbn [ctl_run app] in *.
  - by injection E as -> ->.
  - destruct (side_step sa (sd_net b) a ev); [|done]. by apply IH.
  - destruct (side_step sb (sd_net a) b ev); [|done]. by apply IH.
Qed.

Lemma run_from_start sa sb ta tb ha hb evs :
  peers sa sb -> events_ok sa sb evs ->
  exists a0 b0 a b la lb, init_side sa ta ha = Some a0 /\ init_side sb tb hb = Some b0 /\
    ctl_run sa sb evs a0 b0 = Some (a, b) /\ link sa sb a b la lb /\
    zlen la <= 6 * zlen evs /\ zlen lb <= 6 * zlen evs.
Proof.
  intros Hpe [Hev Hn]. destruct (link_init sa sb ta tb ha hb Hpe) as (a0 & b0 & Ha & Hb & Hl).
  destruct (ctl_run_ok sa sb evs a0 b0 [] [] Hpe Hl Hev) as (a & b & la & lb & E & Hl' & ? & ?); [cbn; lia..|].
  exists a0, b0, a, b, la, lb. do 3 (split; [done|]). split; [done|]. cbn in *. lia.
Qed.

Lemma payloads_prefix n log : payloads (take n log) `prefix_of` payloads log.
Proof. rewrite <- (take_drop n log) at 2. rewrite payloads_app. by eexists. Qed.

(** C3: The control channel is a reliable, ordered byte stream.  Two peers set up
    their windows and then start, cut TLS output into packets, send and resend,
    acknowledge, receive any packet that was ever on the wire, and deliver, in any
    interleaving, over a network that loses, repeats and reorders: no [ASSERT] or
    array bound of the reliability layer fails, and what a peer's TLS object has been
    given is always a prefix of what the other's has produced. *)
Theorem control_channel_reliable sa sb ta tb ha hb evs :
  peers sa sb -> events_ok sa sb evs ->
  exists a0 b0 a b, init_side sa ta ha = Some a0 /\ init_side sb tb hb = Some b0 /\
    ctl_run sa sb evs a0 b0 = Some (a, b) /\
    sd_in b `prefix_of` sd_out a /\ sd_in a `prefix_of` sd_out b.
Proof.
  intros Hpe Hev. destruct (run_from_start sa sb ta tb ha hb evs Hpe Hev) as (a0 & b0 & a & b & la & lb & Ha & Hb & E & Hl & _).
  exists a0, b0, a, b. do 3 (split; [done|]). destruct Hl as [Hia Hib _ _].
  rewrite (sv_in _ _ _ _ Hib), (sv_out _ _ _ _ Hia), (sv_in _ _ _ _ Hia), (sv_out _ _ _ _ Hib).
  split; apply payloads_prefix.
Qed.

(** C8: Nothing is lost, and nothing is sent too far ahead.  In every reachable state a
    packet that the sender has numbered is still in its send window or has arrived at
    the receiver; and the ids in the windows are distinct and never further ahead
    than the windows are wide, so that the receive window always has room for the next packet. *)
Theorem control_nothing_lost sa sb ta tb ha hb evs a0 b0 a b :
  peers sa sb -> events_ok sa sb evs ->
  init_side sa ta ha = Some a0 -> init_side sb tb hb = Some b0 -> ctl_run sa sb evs a0 b0 = Some (a, b) ->
  let snd := ks_send_reliable (sd_ks a) in
  let rcv := ks_rec_reliable (sd_ks b) in
  (forall x, 0 <= x < rl_packet_id snd -> x ∈ active_ids (rl_array snd) \/ stored rcv x) /\
  (forall x, x ∈ active_ids (rl_array snd) -> rl_packet_id snd - 6 <= x < rl_packet_id snd) /\
  (forall x, x ∈ active_ids (rl_array rcv) -> rl_packet_id rcv <= x < rl_packet_id rcv + 12) /\
  NoDup (active_ids (rl_array snd)) /\ NoDup (active_ids (rl_array rcv)) /\
  (~ stored rcv (rl_packet_id rcv) -> reliable_can_get rcv = true).
Proof.
  intros Hpe Hev Ha0 Hb0 Hrun.
  destruct (run_from_start sa sb ta tb ha hb evs Hpe Hev) as (a0' & b0' & a' & b' & la & lb & Ha & Hb & E & Hl & _).
  rewrite Ha0 in Ha. injection Ha as <-. rewrite Hb0 in Hb. injection Hb as <-. rewrite Hrun in E. injection E as <- <-.
  cbn zeta. destruct Hl as [Hia Hib Hkept _]. pose proof (sv_send _ _ _ _ Hia) as Hs. pose proof (sv_recv _ _ _ _ Hib) as Hr.
  rewrite (si_packet_id _ _ _ _ Hs). split_and!.
  - exact Hkept.
  - intros x Hx. pose proof (send_ids _ _ _ _ _ Hs Hx) as Hb. rewrite (sv_send_size _ _ _ _ Hia) in Hb.
    unfold TLS_RELIABLE_N_SEND_BUFFERS in Hb. lia.
  - intros x Hx. pose proof (recv_ids _ _ _ _ _ Hr Hx) as Hb. rewrite (sv_recv_size _ _ _ _ Hib) in Hb.
    unfold TLS_RELIABLE_N_REC_BUFFERS in Hb. lia.
  - apply (si_nodup _ _ _ _ Hs).
  - apply (ri_nodup _ _ _ _ Hr).
  - apply (room_for_next _ _ _ _ Hr).
Qed.

(** ** A concrete session *)

Module Demo.

Definition demo_frame : frame := tls_init_control_channel_frame_parameters frame_zero 1250.
Definition sid_a : list Z := [1; 2; 3; 4; 5; 6; 7; 8].
Definition sid_b : list Z := [9; 8; 7; 6; 5; 4; 3; 2].
Definition sa : session := mk_session sid_a sid_b 0 demo_frame true false false None.
Definition sb : session := mk_session sid_b sid_a 0 demo_frame true true false None.

(** TLS output of two bytes. *)
Definition hello (n : Z) : list Z := take (Z.to_nat n) [22; 3].

(** The client starts, writes, sends both packets; the server sees the second one first
    and twice, then the first, acknowledges and delivers; the client sees the acknowledgement. *)
Definition evs : list (bool * ctl_event) :=
  [(true, EStart P_CONTROL_HARD_RESET_CLIENT_V2); (true, EWrite hello); (true, ETransmit 100); (true, ETransmit 100);
   (false, EReceive 1); (false, EReceive 1); (false, EReceive 0); (false, EDeliver); (false, EDeliver); (false, EAck);
   (true, EReceive 0)].

Lemma demo_session_ok sid rsid srv :
  zlen sid = SID_SIZE -> forallb (fun z => (0 <=? z) && (z <? 256)) sid = true -> session_id_defined sid = true ->
  session_ok (mk_session sid rsid 0 demo_frame true srv false None).
Proof.
  intros. split; [done|by apply bytes_dec|done|cbn; unfold P_KEY_ID_MASK; lia|].
  exists frame_zero, 1250. split; [unfold TLS_CHANNEL_MTU_MIN, TLS_CHANNEL_BUF_SIZE; lia|done].
Qed.

Lemma demo_peers : peers sa sb.
Proof. by split; [apply demo_session_ok|apply demo_session_ok| | | |]. Qed.

Lemma demo_events_ok : events_ok sa sb evs.
Proof.
  split; [|cbn; unfold ID_BOUND; lia]. repeat constructor; cbn; auto; try (intros; vm_compute; done).
  - apply Forall_take. repeat constructor; unfold is_u8; lia.
  - unfold hello. rewrite length_take. cbn. lia.
Qed.

Definition start_of (ss : session) : side :=
  default (mk_side (mk_ks (mk_rel 0 0 0 false []) (mk_rel 0 0 0 false []) [] [] clear_buf false) [] [] [])
          (init_side ss 2 false).

Lemma demo_init_a : init_side sa 2 false = Some (start_of sa).
Proof. vm_compute. reflexivity. Qed.
Lemma demo_init_b : init_side sb 2 false = Some (start_of sb).
Proof. vm_compute. reflexivity. Qed.

Definition demo_end : side * side := default (start_of sa, start_of sb) (ctl_run sa sb evs (start_of sa) (start_of sb)).

Lemma demo_run : ctl_run sa sb evs (start_of sa) (start_of sb) = Some (demo_end.1, demo_end.2).
Proof. vm_compute. reflexivity. Qed.

(** The server's TLS object has been given the client's bytes; the client's send window is empty again. *)
Example demo_delivered :
  sd_in demo_end.2 = [22; 3] /\ active_ids (rl_array (ks_send_reliable (sd_ks demo_end.1))) = [] /\
  rl_packet_id (ks_send_reliable (sd_ks demo_end.1)) = 2.
Proof. vm_compute. done. Qed.

Lemma control_channel_reliable_witness :
  exists a0 b0 a b, init_side sa 2 false = Some a0 /\ init_side sb 2 false = Some b0 /\
    ctl_run sa sb evs a0 b0 = Some (a, b) /\ sd_in b `prefix_of` sd_out a /\ sd_in a `prefix_of` sd_out b.
Proof. exact (control_channel_reliable sa sb 2 2 false false evs demo_peers demo_events_ok). Defined.

Lemma control_nothing_lost_witness :
  let snd := ks_send_reliable (sd_ks demo_end.1) in
  let rcv := ks_rec_reliable (sd_ks demo_end.2) in
  (forall x, 0 <= x < rl_packet_id snd -> x ∈ active_ids (rl_array snd) \/ stored rcv x) /\
  (forall x, x ∈ active_ids (rl_array snd) -> rl_packet_id snd - 6 <= x < rl_packet_id snd) /\
  (forall x, x ∈ active_ids (rl_array rcv) -> rl_packet_id rcv <= x < rl_packet_id rcv + 12) /\
  NoDup (active_ids (rl_array snd)) /\ NoDup (active_ids (rl_array rcv)) /\
  (~ stored rcv (rl_packet_id rcv) -> reliable_can_get rcv = true).
Proof.
  exact (control_nothing_lost sa sb 2 2 false false evs (start_of sa) (start_of sb) demo_end.1 demo_end.2
    demo_peers demo_events_ok demo_init_a demo_init_b demo_run).
Defined.

End Demo.

(** ** Early negotiation: a flag that needs a key

    The peer's first packet may carry the flag [EARLY_NEG_FLAG_RESEND_WKC], which asks a client
    to send its [tls-crypt-v2] client key once more. *)

(** The peer's hard reset, with the flag as its only TLV. *)
Definition resend_wkc_reset (ss : session) : list Z :=
  control_packet ss P_CONTROL_HARD_RESET_SERVER_V2 []
    (be_bytes 4 0 ++ be_bytes 2 TLV_TYPE_EARLY_NEG_FLAGS ++ be_bytes 2 2 ++ be_bytes 2 EARLY_NEG_FLAG_RESEND_WKC).

(** A client that has started, has received this packet and has looked at it. *)
Definition after_reset (ss : session) (pkt : list Z) : option key_state :=
  ks ← key_state_init ss 2 false;
  '(_, ks) ← session_move_pre_start ks P_CONTROL_HARD_RESET_CLIENT_V2;
  '(_, ks) ← receive_packet ss ks (received pkt);
  '(ok, _, ks) ← deliver_sequenced ks;
  ASSERT (ok : bool);; Some ks.

(** A client with a wrapped key of three bytes. *)
Definition with_key (ss : session) : session :=
  mk_session (ss_session_id ss) (ss_session_id_remote ss) (ss_key_id ss) (ss_frame ss) (ss_ipv4 ss) (ss_server ss)
    (ss_key_material_export ss) (Some (mk_buffer 3 0 3 (Some [1; 2; 3]))).

(** A client that does not use [tls-crypt-v2] has no wrapped key
    ([tls_crypt_v2_wkc] is [NULL]), but it accepts the flag from whoever answers it; the
    next time it has TLS output, whatever that is, it takes the length of the key that is not
    there.  With a key, or without the flag, the same steps go on. *)
Theorem resend_wkc_without_key :
  let ss := Demo.sa in
  (exists ks, after_reset ss (resend_wkc_reset Demo.sb) = Some ks /\ ks_resend_wkc ks = true /\
     forall read, check_outgoing_ciphertext ss ks read = None) /\
  (exists ks out, after_reset (with_key ss) (resend_wkc_reset Demo.sb) = Some ks /\
     check_outgoing_ciphertext (with_key ss) ks Demo.hello = Some ([22; 3], out)) /\
  (exists ks out, after_reset ss (control_packet Demo.sb P_CONTROL_HARD_RESET_SERVER_V2 [] (be_bytes 4 0)) = Some ks /\
     check_outgoing_ciphertext ss ks Demo.hello = Some ([22; 3], out)).
Proof.
  cbn zeta. split_and!.
  - eexists. split; [vm_compute; reflexivity|]. split; [vm_compute; reflexivity|]. intros read. vm_compute. reflexivity.
  - do 2 eexists. split; [vm_compute; reflexivity|vm_compute; reflexivity].
  - do 2 eexists. split; [vm_compute; reflexivity|vm_compute; reflexivity].
Qed.
