(* ===== verification/ControlLive.v ===== *)
(** * The control channel does not deadlock

    From every reachable state there is a continuation after which the peer has been
    given everything: resend what is in the send window, let it arrive, deliver. *)
From S2P Require Import Prelude Integers Buffer Frame Reliable AckList Windows SendWindow RecvWindow Control ControlNet ControlOne ControlInv ControlSafe.

Section live.
Context (sa sb : session) (Hpe : peers sa sb).
Implicit Types (a b : side) (la lb : list (Z * list Z)).

(** A packet that carries id [x] of [la]. *)
Definition carries la (x : Z) (pkt : list Z) : Prop :=
  exists op acks pl, pkt = control_packet sa op acks (be_bytes 4 x ++ pl) /\
    P_FIRST_OPCODE <= op <= P_LAST_OPCODE /\ op <> P_ACK_V1 /\ ack_wf acks /\ 0 <= x <= ID_BOUND /\
    la !! Z.to_nat x = Some (op, pl).

(** The packets that are due at [now]. *)
Definition due (now : Z) (rel : reliable) : list reliable_entry :=
  filter (fun e => is_current now e = true) (rl_array rel).

Lemma in_due now rel e : e ∈ due now rel <-> is_current now e = true /\ e ∈ rl_array rel.
Proof. unfold due. by rewrite list_elem_of_filter. Qed.

(** What has been sent is not due again; the others are as they were. *)
Lemma due_resent now rel i e (shared : buffer) :
  rl_array rel !! i = Some e -> is_current now e = true -> 0 < e_timeout e ->
  let rel' := set_entry rel i (set_buf (resent now e) shared) in
  length (due now rel) = S (length (due now rel')) /\
  (forall x, x ∈ due now rel' -> x ∈ due now rel) /\
  (forall x, x ∈ due now rel -> x = e \/ x ∈ due now rel').
Proof.
  intros Hi Hc Ht rel'. pose proof (lookup_lt_Some _ _ _ Hi) as Hlt.
  assert (Hn : is_current now (set_buf (resent now e) shared) = false).
  { unfold is_current, N_ACK_RETRANSMIT. cbn. destruct (e_active e); cbn; lia. }
  unfold due, rel'. cbn [set_entry set_array rl_array]. rewrite insert_take_drop by done.
  assert (E : rl_array rel = take i (rl_array rel) ++ e :: drop (S i) (rl_array rel)) by by rewrite take_drop_middle.
  generalize dependent (take i (rl_array rel)). generalize dependent (drop (S i) (rl_array rel)). intros B A E.
  rewrite E. rewrite !filter_app, !filter_cons.
  rewrite decide_True by done. rewrite decide_False by congruence. rewrite !length_app. cbn [length].
  split; [lia|]. split; intros x; rewrite !elem_of_app, ?elem_of_cons; tauto.
Qed.

(** Transmitting at [now] until nothing is due puts all that was due on the wire. *)
Lemma flush n now a b la lb :
  link sa sb a b la lb -> rl_hold (ks_send_reliable (sd_ks a)) = false ->
  length (due now (ks_send_reliable (sd_ks a))) = n ->
  (forall e, e ∈ due now (ks_send_reliable (sd_ks a)) -> 0 < e_timeout e) ->
  exists a', ctl_run sa sb (replicate n (true, ETransmit now)) a b = Some (a', b) /\
    link sa sb a' b la lb /\ sd_net a `prefix_of` sd_net a' /\
    (forall e, e ∈ due now (ks_send_reliable (sd_ks a)) -> exists pkt, pkt ∈ sd_net a' /\ carries la (e_packet_id e) pkt).
Proof.
  revert a. induction n as [|n IH]; intros a Hl Hh Hn Ht; cbn [replicate ctl_run].
  { exists a. split_and!; try done. intros e He. destruct (due _ _); [by apply elem_of_nil in He|done]. }
  destruct (same_step_ok sa sb a b la lb (ETransmit now) Hpe Hl I) as (a1 & E1 & Hl1 & _). rewrite E1, Some_bind.
  assert (Hcan : reliable_can_send now (ks_send_reliable (sd_ks a)) = true).
  { apply can_send_current. split; [done|]. destruct (due now (ks_send_reliable (sd_ks a))) as [|e l] eqn:E; [done|].
    exists e. assert (e ∈ due now (ks_send_reliable (sd_ks a))) as He%in_due by (rewrite E; apply list_elem_of_here). tauto. }
  destruct (transmit_detail sa sb Hpe a la lb now (lk_a _ _ _ _ _ _ Hl) Hcan)
    as (i & e & pl & t & shared & He & Hc & Hact & Hlog & Hid & Hop & Hna & _ & _ & Hstep).
  cbn [side_step] in E1. rewrite Hstep, Some_bind in E1. injection E1 as E1.
  assert (Hed : e ∈ due now (ks_send_reliable (sd_ks a))) by (apply in_due; split; [done|by eapply list_elem_of_lookup_2]).
  destruct (due_resent now _ i e shared He Hc (Ht e Hed)) as (Hlen & Hsub & Hrest).
  destruct (IH a1 Hl1) as (a' & Hrun & Hl' & Hnet & Hall); [by subst a1|subst a1; rewrite Hn in Hlen; injection Hlen as Hlen; symmetry; exact Hlen| |].
  { subst a1. cbn. intros x Hx. by apply Ht, Hsub. }
  assert (Hnet1 : sd_net a `prefix_of` sd_net a1) by (subst a1; cbn; by eexists).
  exists a'. split; [done|]. split; [done|]. split; [by etrans|]. intros x Hx.
  destruct (Hrest x Hx) as [->|Hx1]; [|apply Hall; by subst a1].
  eexists. split.
  - destruct Hnet as [k Hk]. rewrite Hk. apply elem_of_app. left. subst a1. cbn. apply elem_of_app. right.
    apply list_elem_of_here.
  - eexists _, _, pl. split_and!; try done; try lia. apply acks_out_wf.
    + apply (sv_ack _ _ _ _ (lk_a _ _ _ _ _ _ Hl)).
    + apply (sv_lru _ _ _ _ (lk_a _ _ _ _ _ _ Hl)).
Qed.

(** The next packet in sequence has arrived, or can. *)
Lemma fetch_next a b la lb x :
  link sa sb a b la lb -> ss_frame sa = ss_frame sb -> x = rl_packet_id (ks_rec_reliable (sd_ks b)) ->
  (exists pkt, pkt ∈ sd_net a /\ carries la x pkt) ->
  exists k b', side_step sb (sd_net a) b (EReceive k) = Some b' /\ link sa sb a b' la lb /\
    stored (ks_rec_reliable (sd_ks b')) x /\
    rl_packet_id (ks_rec_reliable (sd_ks b')) = rl_packet_id (ks_rec_reliable (sd_ks b)) /\ (forall y, stored (ks_rec_reliable (sd_ks b)) y -> stored (ks_rec_reliable (sd_ks b')) y).
Proof.
  intros Hl Hf Hx (pkt & [k Hk]%list_elem_of_lookup & op & acks & pl & Hpkt & Hop & Hna & Hwf & Hxb & Hlog).
  pose proof (link_sym _ _ _ _ _ _ Hl) as Hl2. pose proof (peers_sym _ _ Hpe) as Hpe2.
  destruct (same_step_ok sb sa b a lb la (EReceive k) Hpe2 Hl2 I) as (b1 & E1 & Hl1 & Hmono).
  exists k, b1. split; [done|]. split; [by apply link_sym|]. 
  enough (stored (ks_rec_reliable (sd_ks b1)) x /\
    rl_packet_id (ks_rec_reliable (sd_ks b1)) = rl_packet_id (ks_rec_reliable (sd_ks b))) as [? ?] by done.
  pose proof (lk_a _ _ _ _ _ _ Hl) as Ha. pose proof (lk_b _ _ _ _ _ _ Hl) as Hb.
  pose proof (Forall_lookup_1 _ _ _ _ (sv_net _ _ _ _ Ha) Hk) as Hok.
  destruct (receive_packet_ok sb sa Hpe2 b a lb la pkt Hb (sv_log _ _ _ _ Ha) Hok) as (ok & ks' & E & _ & Hsame & Hnext).
  cbn [side_step] in E1. rewrite Hk, E, Some_bind in E1. injection E1 as <-. cbn. split; [|done].
  apply (Hnext op acks x pl); try done.
  destruct (Forall_lookup_1 _ _ _ _ (sv_log _ _ _ _ Ha) Hlog) as (_ & _ & _ & Hsz). cbn in Hsz.
  rewrite Hf in Hsz. destruct (frame_ok sb (pe_b _ _ Hpe)) as (-> & _ & _ & Hm). lia.
Qed.

(** Delivery moves on when the next packet has arrived. *)
Lemma deliver_next a b la lb :
  link sa sb a b la lb -> stored (ks_rec_reliable (sd_ks b)) (rl_packet_id (ks_rec_reliable (sd_ks b))) ->
  exists b', side_step sb (sd_net a) b EDeliver = Some b' /\ link sa sb a b' la lb /\
    rl_packet_id (ks_rec_reliable (sd_ks b')) = rl_packet_id (ks_rec_reliable (sd_ks b)) + 1 /\
    (forall y, stored (ks_rec_reliable (sd_ks b)) y -> stored (ks_rec_reliable (sd_ks b')) y).
Proof.
  intros Hl Hst. pose proof (link_sym _ _ _ _ _ _ Hl) as Hl2.
  destruct (same_step_ok sb sa b a lb la EDeliver (peers_sym _ _ Hpe) Hl2 I) as (b1 & E1 & Hl1 & Hmono).
  exists b1. split; [done|]. split; [by apply link_sym|]. split; [|done].
  destruct (ctl_deliver_ok sb sa b a lb la (lk_b _ _ _ _ _ _ Hl) (sv_log _ _ _ _ (lk_a _ _ _ _ _ _ Hl))) as (b2 & E2 & _ & Hp).
  rewrite E2 in E1. injection E1 as <-. by apply Hp.
Qed.

(** The events of the receiver that deliver everything. *)
Lemma catch_up n a b la lb :
  link sa sb a b la lb -> ss_frame sa = ss_frame sb ->
  zlen la - rl_packet_id (ks_rec_reliable (sd_ks b)) = Z.of_nat n ->
  (forall x, rl_packet_id (ks_rec_reliable (sd_ks b)) <= x < zlen la ->
     stored (ks_rec_reliable (sd_ks b)) x \/ exists pkt, pkt ∈ sd_net a /\ carries la x pkt) ->
  exists evs b', ctl_run sa sb evs a b = Some (a, b') /\ link sa sb a b' la lb /\
    rl_packet_id (ks_rec_reliable (sd_ks b')) = zlen la.
Proof.
  revert b. induction n as [|n IH]; intros b Hl Hf Hn Hall.
  { exists [], b. split_and!; [done|done|lia]. }
  set (d := rl_packet_id (ks_rec_reliable (sd_ks b))) in *.
  assert (exists evs b1, (forall rest, ctl_run sa sb (evs ++ rest) a b = ctl_run sa sb rest a b1) /\
            link sa sb a b1 la lb /\ rl_packet_id (ks_rec_reliable (sd_ks b1)) = d /\
            stored (ks_rec_reliable (sd_ks b1)) d /\
            (forall y, stored (ks_rec_reliable (sd_ks b)) y -> stored (ks_rec_reliable (sd_ks b1)) y))
    as (evs1 & b1 & Hrun1 & Hl1 & Hd1 & Hst1 & Hmono1).
  { destruct (Hall d) as [Hst|Hpkt]; [lia|by exists [], b|].
    destruct (fetch_next a b la lb d Hl Hf eq_refl Hpkt) as (k & b1 & E & Hl1 & Hst & Hsame & Hmono).
    destruct (decide (stored (ks_rec_reliable (sd_ks b)) d)) as [|Hns]; [by exists [], b|].
    exists [(false, EReceive k)], b1. split_and!; try done; intros rest; cbn [app ctl_run]; by rewrite E. }
  destruct (deliver_next a b1 la lb Hl1) as (b2 & E2 & Hl2 & Hd2 & Hmono2); [by rewrite Hd1|].
  destruct (IH b2 Hl2 Hf) as (evs & b' & Hrun & Hl' & Hd'); [lia| |].
  { intros x Hx. destruct (Hall x) as [Hst|Hpkt]; [lia|left; auto|by right]. }
  exists (evs1 ++ (false, EDeliver) :: evs), b'. split; [|done].
  rewrite Hrun1. cbn [ctl_run]. by rewrite E2.
Qed.
End live.

(** An instant by which everything is due. *)
Definition latest (l : list reliable_entry) : Z := foldr (fun e t => Z.max (e_next_try e) t) 0 l.

Lemma latest_ok l e : e ∈ l -> e_next_try e <= latest l.
Proof. induction 1; cbn; unfold latest in *; lia. Qed.

(** C7: The control channel does not deadlock.  Take any state that two peers can reach;
    if transmission is not on hold, the sender's retransmission timeouts are positive
    (they double with each resend) and both use the same frame sizes, then there is a continuation
    after which the receiver's TLS object has been given every byte that the
    sender's had produced - however many packets and acknowledgements the network has
    lost, repeated or reordered before. *)
Theorem control_channel_no_deadlock sa sb ta tb ha hb evs a0 b0 a b :
  peers sa sb -> ss_frame sa = ss_frame sb -> events_ok sa sb evs ->
  init_side sa ta ha = Some a0 -> init_side sb tb hb = Some b0 -> ctl_run sa sb evs a0 b0 = Some (a, b) ->
  rl_hold (ks_send_reliable (sd_ks a)) = false ->
  (forall e, e ∈ rl_array (ks_send_reliable (sd_ks a)) -> e_active e = true -> 0 < e_timeout e) ->
  exists evs' a' b', ctl_run sa sb (evs ++ evs') a0 b0 = Some (a', b') /\
    sd_out a' = sd_out a /\ sd_in b' = sd_out a.
Proof.
  intros Hpe Hf Hev Ha0 Hb0 Hrun Hhold Htime.
  destruct (run_from_start sa sb ta tb ha hb evs Hpe Hev) as (a0' & b0' & a2 & b2 & la & lb & Ha & Hb & E & Hl & _).
  rewrite Ha0 in Ha. injection Ha as <-. rewrite Hb0 in Hb. injection Hb as <-. rewrite Hrun in E. injection E as <- <-.
  set (now := latest (rl_array (ks_send_reliable (sd_ks a)))).
  destruct (flush sa sb Hpe _ now a b la lb Hl Hhold eq_refl) as (a1 & Hrun1 & Hl1 & Hnet & Hall).
  { intros e [Hc He]%in_due. apply Htime; [done|]. unfold is_current in Hc. by destruct (e_active e). }
  pose proof (ri_delivered _ _ _ _ (sv_recv _ _ _ _ (lk_b _ _ _ _ _ _ Hl1))) as Hd.
  destruct (catch_up sa sb Hpe (Z.to_nat (zlen la - rl_packet_id (ks_rec_reliable (sd_ks b)))) a1 b la lb Hl1 Hf)
    as (evs2 & b' & Hrun2 & Hl2 & Hd2); [lia| |].
  { intros x Hx. destruct (lk_ab _ _ _ _ _ _ Hl x) as [Hin|]; [lia|right|by left].
    apply active_ids_in in Hin as (e & He & Hact & <-). apply Hall, in_due. split; [|done].
    unfold is_current. rewrite Hact. pose proof (latest_ok _ _ He). fold now in H. lia. }
  exists (replicate (length (due now (ks_send_reliable (sd_ks a)))) (true, ETransmit now) ++ evs2), a1, b'.
  rewrite (ctl_run_app _ _ _ _ _ _ _ _ Hrun), (ctl_run_app _ _ _ _ _ _ _ _ Hrun1). split; [done|].
  pose proof (sv_out _ _ _ _ (lk_a _ _ _ _ _ _ Hl)) as Ho. pose proof (sv_out _ _ _ _ (lk_a _ _ _ _ _ _ Hl1)) as Ho1.
  pose proof (sv_in _ _ _ _ (lk_b _ _ _ _ _ _ Hl2)) as Hi. rewrite Hd2, take_ge in Hi by lia.
  split; congruence.
Qed.

(** The concrete session of [Demo], stopped when the server has only got the second packet. *)
Module LiveDemo.
Import Demo.

Definition stuck : list (bool * ctl_event) := take 5 evs.

Lemma stuck_ok : events_ok sa sb stuck.
Proof. destruct demo_events_ok as [He _]. split; [by apply Forall_take|cbn; unfold ID_BOUND; lia]. Qed.

Definition stuck_end : side * side :=
  default (start_of sa, start_of sb) (ctl_run sa sb stuck (start_of sa) (start_of sb)).

Lemma stuck_run : ctl_run sa sb stuck (start_of sa) (start_of sb) = Some (stuck_end.1, stuck_end.2).
Proof. vm_compute. reflexivity. Qed.

Lemma stuck_hold : rl_hold (ks_send_reliable (sd_ks stuck_end.1)) = false.
Proof. vm_compute. reflexivity. Qed.

Lemma stuck_timeouts e :
  e ∈ rl_array (ks_send_reliable (sd_ks stuck_end.1)) -> e_active e = true -> 0 < e_timeout e.
Proof.
  assert (H : forallb (fun e => negb (e_active e) || (0 <? e_timeout e))
                (rl_array (ks_send_reliable (sd_ks stuck_end.1))) = true) by by vm_compute.
  rewrite forallb_forall in H. intros He Ha. apply list_elem_of_In, H in He. rewrite Ha in He. cbn in He. lia.
Qed.

Lemma control_channel_no_deadlock_witness :
  exists evs' a' b', ctl_run sa sb (stuck ++ evs') (start_of sa) (start_of sb) = Some (a', b') /\
    sd_out a' = sd_out stuck_end.1 /\ sd_in b' = sd_out stuck_end.1.
Proof.
  exact (control_channel_no_deadlock sa sb 2 2 false false stuck (start_of sa) (start_of sb) stuck_end.1 stuck_end.2
    demo_peers eq_refl stuck_ok demo_init_a demo_init_b stuck_run stuck_hold stuck_timeouts).
Defined.
End LiveDemo.
