(* ===== verification/Fragment.v ===== *)
(** * Fragmentation and reassembly: [fragment.c], [fragment.h]

    A datagram that is larger than [max_fragment_size] is cut into fragments, each behind a
    header of 32 bits; the peer puts them together again in one of 25 reassembly buffers.
    Outside of the model: the random start value of [outgoing_seq_id] is an argument, and the
    timer that calls [fragment_wakeup] belongs to its caller. *)
From S2P Require Import Prelude Integers Buffer Frame.

Definition N_FRAG_BUF : Z := 25.
Definition FRAG_TTL_SEC : Z := 10.
Definition FRAG_MAP_MASK : Z := 4294967295.
Definition MAX_FRAGS : Z := 32.
Definition N_SEQ_ID : Z := 256.
Definition FRAG_TYPE_MASK : Z := 3.
Definition FRAG_TYPE_SHIFT : Z := 0.
Definition FRAG_WHOLE : Z := 0.
Definition FRAG_YES_NOTLAST : Z := 1.
Definition FRAG_YES_LAST : Z := 2.
Definition FRAG_SEQ_ID_MASK : Z := 255.
Definition FRAG_SEQ_ID_SHIFT : Z := 2.
Definition FRAG_ID_MASK : Z := 31.
Definition FRAG_ID_SHIFT : Z := 10.
Definition FRAG_SIZE_MASK : Z := 16383.
Definition FRAG_SIZE_SHIFT : Z := 15.
Definition FRAG_SIZE_ROUND_SHIFT : Z := 2.
Definition FRAG_SIZE_ROUND_MASK : Z := Z.shiftl 1 FRAG_SIZE_ROUND_SHIFT - 1.

Record fragment := mk_fragment {
  fr_defined : bool;
  fr_max_frag_size : Z;
  fr_map : Z;
  fr_timestamp : Z;
  fr_buf : buffer
}.

Record fragment_list := mk_flist {
  fl_seq_id : Z;
  fl_index : Z;
  fl_fragments : list fragment
}.

Record fragment_master := mk_fmaster {
  fm_outgoing_seq_id : Z;
  fm_outgoing_frag_size : Z;
  fm_outgoing_frag_id : Z;
  fm_outgoing : buffer;
  fm_outgoing_return : buffer;
  fm_incoming : fragment_list
}.

Definition set_defined (d : bool) (fr : fragment) : fragment :=
  mk_fragment d (fr_max_frag_size fr) (fr_map fr) (fr_timestamp fr) (fr_buf fr).

(** [fragment_init] and [fragment_frame_init]: [random] is [get_random()]. *)
Definition fragment_init (random : Z) : fragment_master :=
  mk_fmaster (Z.land random (N_SEQ_ID - 1)) 0 0 clear_buf clear_buf
    (mk_flist 0 0 (replicate (Z.to_nat N_FRAG_BUF) (mk_fragment false 0 0 0 clear_buf))).

Definition fragment_frame_init (fm : fragment_master) (f : frame) : option fragment_master :=
  b ← alloc_buf (BUF_SIZE f);
  let l := fm_incoming fm in
  Some (mk_fmaster (fm_outgoing_seq_id fm) (fm_outgoing_frag_size fm) (fm_outgoing_frag_id fm) b b
          (mk_flist (fl_seq_id l) (fl_index l)
             ((fun fr => mk_fragment (fr_defined fr) (fr_max_frag_size fr) (fr_map fr) (fr_timestamp fr) b)
                <$> fl_fragments l))).

(** ** Receiving *)

(** One round of the loop of [fragment_list_get_buf]: the next buffer is emptied.  An index
    outside the array is [None]. *)
Definition next_buf (l : fragment_list) : option fragment_list :=
  index ← modulo_add (fl_index l) 1 N_FRAG_BUF;
  fr ← fl_fragments l !! Z.to_nat index;
  seq_id ← modulo_add (fl_seq_id l) 1 N_SEQ_ID;
  Some (mk_flist seq_id index (<[Z.to_nat index := set_defined false fr]> (fl_fragments l))).

Fixpoint advance_bufs (diff : nat) (l : fragment_list) : option fragment_list :=
  match diff with
  | O => Some l
  | S diff => l ← next_buf l; advance_bufs diff l
  end.

(** The place of the reassembly buffer for [seq_id]. *)
Definition fragment_list_get_buf (l : fragment_list) (seq_id : Z) : option (nat * fragment_list) :=
  diff ← modulo_subtract seq_id (fl_seq_id l) N_SEQ_ID;
  let '(diff, l) :=
    if N_FRAG_BUF <=? Z.abs diff
    then (0, mk_flist seq_id 0 (set_defined false <$> fl_fragments l))
    else (diff, l) in
  l ← advance_bufs (Z.to_nat diff) l;
  let diff := if 0 <? diff then 0 else diff in
  i ← modulo_add (fl_index l) diff N_FRAG_BUF;
  Some (Z.to_nat i, l).

(** What a fragment does to the reassembly buffer at [i]: the datagram if it is complete,
    [None] inside when it is dropped or more is to come. *)
Definition store_fragment (now : Z) (f : frame) (l : fragment_list) (i : nat) (last : bool) (n size : Z)
    (buf : buffer) : option (option buffer * fragment_list) :=
  fr ← fl_fragments l !! i;
  let set fr := mk_flist (fl_seq_id l) (fl_index l) (<[i := fr]> (fl_fragments l)) in
  if negb (Z.land size FRAG_SIZE_ROUND_MASK =? 0) then Some (None, l)
  else
    fr ← (if negb (fr_defined fr) || negb (fr_max_frag_size fr =? size) then
            '(ok, b) ← Some (buf_init (fr_buf fr) (f_headroom f));
            ASSERT (ok : bool);; Some (mk_fragment true size 0 (fr_timestamp fr) b)
          else Some fr);
    '(ok, b) ← buf_copy_range (fr_buf fr) (n * size) buf 0 (b_len buf);
    if negb (ok : bool) then Some (None, set fr)
    else
      let map := Z.lor (fr_map fr) (u32 (Z.shiftl (if last then FRAG_MAP_MASK else 1) n)) in
      let fr := mk_fragment (fr_defined fr) (fr_max_frag_size fr) map now b in
      if Z.land map FRAG_MAP_MASK =? FRAG_MAP_MASK
      then Some (Some b, set (set_defined false fr))
      else Some (None, set fr).

(** The packet that goes on up the stack: empty ([len = 0]) when there is none. *)
Definition fragment_incoming (now : Z) (l : fragment_list) (buf : buffer) (f : frame)
  : option (buffer * fragment_list) :=
  let drop b := mk_buffer (b_capacity b) (b_offset b) 0 (b_data b) in
  if 0 <? b_len buf then
    match buf_read buf 4 with
    | (None, buf) => Some (drop buf, l)
    | (Some net_flags, buf) =>
        let flags := be_val net_flags in
        let frag_type := Z.land (Z.shiftr flags FRAG_TYPE_SHIFT) FRAG_TYPE_MASK in
        if frag_type =? FRAG_WHOLE then
          if negb (Z.land flags (Z.lor FRAG_SEQ_ID_MASK FRAG_ID_MASK) =? 0) then Some (drop buf, l)
          else Some (buf, l)
        else if (frag_type =? FRAG_YES_NOTLAST) || (frag_type =? FRAG_YES_LAST) then
          let seq_id := Z.land (Z.shiftr flags FRAG_SEQ_ID_SHIFT) FRAG_SEQ_ID_MASK in
          let n := Z.land (Z.shiftr flags FRAG_ID_SHIFT) FRAG_ID_MASK in
          let last := frag_type =? FRAG_YES_LAST in
          let size := if last
                      then Z.shiftl (Z.land (Z.shiftr flags FRAG_SIZE_SHIFT) FRAG_SIZE_MASK) FRAG_SIZE_ROUND_SHIFT
                      else b_len buf in
          '(i, l) ← fragment_list_get_buf l seq_id;
          '(out, l) ← store_fragment now f l i last n size buf;
          Some (default (drop buf) out, l)
        else Some (drop buf, l)
    end
  else Some (buf, l).

(** ** Sending *)

Definition fragment_outgoing_defined (fm : fragment_master) : bool := 0 <? b_len (fm_outgoing fm).

Definition fragment_prepend_flags (buf : buffer) (type seq_id frag_id frag_size : Z) : option buffer :=
  let flags := Z.lor (Z.lor (Z.shiftl (Z.land type FRAG_TYPE_MASK) FRAG_TYPE_SHIFT)
                            (Z.shiftl (Z.land seq_id FRAG_SEQ_ID_MASK) FRAG_SEQ_ID_SHIFT))
                     (Z.shiftl (Z.land frag_id FRAG_ID_MASK) FRAG_ID_SHIFT) in
  let flags := if (type =? FRAG_WHOLE) || (type =? FRAG_YES_NOTLAST) then flags
               else Z.lor flags (Z.shiftl (Z.land (Z.shiftr frag_size FRAG_SIZE_ROUND_SHIFT) FRAG_SIZE_MASK)
                                          FRAG_SIZE_SHIFT) in
  '(ok, buf) ← Some (buf_write_prepend buf (be_bytes 4 flags));
  ASSERT (ok : bool);; Some buf.

(** C's division truncates; a division by zero is [None]. *)
Definition optimal_fragment_size (len max_frag_size : Z) : option Z :=
  let mfs_aligned := Z.land max_frag_size (Z.lnot FRAG_SIZE_ROUND_MASK) in
  ASSERT (negb (mfs_aligned =? 0));;
  let div := Z.quot len mfs_aligned in
  let rest := Z.rem len mfs_aligned in
  Some (if (0 <? div) && (0 <? rest) && (rest <? Z.quot (mfs_aligned * 3) 4)
        then min_int mfs_aligned
               (Z.land (max_frag_size - Z.quot (max_frag_size - rest) (div + 1) + FRAG_SIZE_ROUND_MASK)
                       (Z.lnot FRAG_SIZE_ROUND_MASK))
        else mfs_aligned).

(** The packet, if there is one.  It is in the memory of [outgoing_return]. *)
Definition fragment_ready_to_send (fm : fragment_master) (f : frame) : option (option buffer * fragment_master) :=
  if fragment_outgoing_defined fm then
    let last := b_len (fm_outgoing fm) <=? fm_outgoing_frag_size fm in
    let size := if last then b_len (fm_outgoing fm) else fm_outgoing_frag_size fm in
    '(ok, buf) ← Some (buf_init (fm_outgoing_return fm) (f_headroom f));
    ASSERT (ok : bool);;
    '(ok, buf, outgoing) ← Some (buf_copy_n buf (fm_outgoing fm) size);
    ASSERT (ok : bool);;
    buf ← fragment_prepend_flags buf (if last then FRAG_YES_LAST else FRAG_YES_NOTLAST)
            (fm_outgoing_seq_id fm) (fm_outgoing_frag_id fm) (fm_outgoing_frag_size fm);
    ASSERT (negb last || (b_len outgoing =? 0));;
    let ret := fm_outgoing_return fm in
    Some (Some buf,
          mk_fmaster (fm_outgoing_seq_id fm) (fm_outgoing_frag_size fm) (fm_outgoing_frag_id fm + 1) outgoing
            (mk_buffer (b_capacity ret) (b_offset ret) (b_len ret) (b_data buf)) (fm_incoming fm))
  else Some (None, fm).

(** [*buf] afterwards: the datagram whole, its first fragment, or nothing. *)
Definition fragment_outgoing (fm : fragment_master) (buf : buffer) (f : frame) : option (buffer * fragment_master) :=
  let drop b := mk_buffer (b_capacity b) (b_offset b) 0 (b_data b) in
  if 0 <? b_len buf then
    if f_max_fragment_size f <? b_len buf then
      size ← optimal_fragment_size (b_len buf) (f_max_fragment_size f);
      let fm := mk_fmaster (fm_outgoing_seq_id fm) size (fm_outgoing_frag_id fm) (fm_outgoing fm)
                  (fm_outgoing_return fm) (fm_incoming fm) in
      if size * MAX_FRAGS <? b_len buf then Some (drop buf, fm)
      else
        '(ok, outgoing) ← Some (buf_init (fm_outgoing fm) (f_headroom f));
        ASSERT (ok : bool);;
        '(ok, outgoing) ← Some (buf_copy outgoing buf);
        ASSERT (ok : bool);;
        seq_id ← modulo_add (fm_outgoing_seq_id fm) 1 N_SEQ_ID;
        '(out, fm) ← fragment_ready_to_send
                       (mk_fmaster seq_id size 0 outgoing (fm_outgoing_return fm) (fm_incoming fm)) f;
        buf ← out; Some (buf, fm)
    else
      buf ← fragment_prepend_flags buf FRAG_WHOLE 0 0 0; Some (buf, fm)
  else Some (buf, fm).

(** ** Housekeeping *)

Definition fragment_ttl_reap (now : Z) (l : fragment_list) : fragment_list :=
  mk_flist (fl_seq_id l) (fl_index l)
    ((fun fr => if fr_defined fr && (fr_timestamp fr + FRAG_TTL_SEC <=? now) then set_defined false fr else fr)
       <$> fl_fragments l).

Definition fragment_wakeup (now : Z) (fm : fragment_master) : fragment_master :=
  mk_fmaster (fm_outgoing_seq_id fm) (fm_outgoing_frag_size fm) (fm_outgoing_frag_id fm) (fm_outgoing fm)
    (fm_outgoing_return fm) (fragment_ttl_reap now (fm_incoming fm)).
