(* ===== verification/FragmentWire.v ===== *)
(** * Fragment headers, the choice of the fragment size, reassembly

    The bit fields of [fragment_header_type], as arithmetic; [optimal_fragment_size]; the ring
    of reassembly buffers, which [fragment_list_get_buf] turns; and the invariant of one of
    them, by the set of the fragments that have arrived. *)
From S2P Require Import Prelude Integers Buffer Frame Fragment.

(** ** Headers *)

(** The header's value. *)
Definition flags_of (type seq_id frag_id size4 : Z) : Z := type + 4 * seq_id + 1024 * frag_id + 32768 * size4.

Lemma flags_range type seq_id frag_id size4 :
  0 <= type < 4 -> 0 <= seq_id < 256 -> 0 <= frag_id < 32 -> 0 <= size4 < 16384 ->
  0 <= flags_of type seq_id frag_id size4 < 536870912.
Proof. unfold flags_of. lia. Qed.

Lemma land_mask x n m : m = Z.ones n -> 0 <= n -> Z.land x m = x mod 2 ^ n.
Proof. intros -> ?. by apply Z.land_ones. Qed.

Lemma flags_fields type seq_id frag_id size4 :
  0 <= type < 4 -> 0 <= seq_id < 256 -> 0 <= frag_id < 32 -> 0 <= size4 < 16384 ->
  let flags := flags_of type seq_id frag_id size4 in
  Z.land (Z.shiftr flags FRAG_TYPE_SHIFT) FRAG_TYPE_MASK = type /\
  Z.land (Z.shiftr flags FRAG_SEQ_ID_SHIFT) FRAG_SEQ_ID_MASK = seq_id /\
  Z.land (Z.shiftr flags FRAG_ID_SHIFT) FRAG_ID_MASK = frag_id /\
  Z.shiftl (Z.land (Z.shiftr flags FRAG_SIZE_SHIFT) FRAG_SIZE_MASK) FRAG_SIZE_ROUND_SHIFT = 4 * size4.
Proof.
  intros Ht Hs Hi Hz flags. unfold flags, flags_of, FRAG_TYPE_SHIFT, FRAG_TYPE_MASK, FRAG_SEQ_ID_SHIFT, FRAG_SEQ_ID_MASK,
    FRAG_ID_SHIFT, FRAG_ID_MASK, FRAG_SIZE_SHIFT, FRAG_SIZE_MASK, FRAG_SIZE_ROUND_SHIFT.
  rewrite !Z.shiftr_div_pow2, Z.shiftl_mul_pow2 by lia.
  rewrite (land_mask _ 2 3), (land_mask _ 8 255), (land_mask _ 5 31), (land_mask _ 14 16383) by done.
  change (2 ^ 0) with 1. change (2 ^ 2) with 4. change (2 ^ 8) with 256. change (2 ^ 10) with 1024.
  change (2 ^ 5) with 32. change (2 ^ 15) with 32768. change (2 ^ 14) with 16384.
  split_and!; lia_mod.
Qed.

(** The size travels in the last fragment only. *)
Definition frag_header (type seq_id frag_id size : Z) : list Z :=
  be_bytes 4 (flags_of type seq_id frag_id (if type =? FRAG_YES_LAST then size / 4 else 0)).

Lemma prepend_flags_ok b h c t type seq_id frag_id size :
  buf_rep b h c t -> 4 <= h -> 0 <= type <= 2 -> 0 <= seq_id < 256 -> 0 <= frag_id < 32 -> 0 <= size < 65536 ->
  exists b', fragment_prepend_flags b type seq_id frag_id size = Some b' /\
    buf_rep b' (h - 4) (frag_header type seq_id frag_id size ++ c) t.
Proof.
  intros Hb Hh Ht Hs Hi Hz. unfold fragment_prepend_flags, frag_header.
  assert (Hl : Z.lor (Z.lor (Z.shiftl (Z.land type FRAG_TYPE_MASK) FRAG_TYPE_SHIFT)
                 (Z.shiftl (Z.land seq_id FRAG_SEQ_ID_MASK) FRAG_SEQ_ID_SHIFT))
                 (Z.shiftl (Z.land frag_id FRAG_ID_MASK) FRAG_ID_SHIFT) = flags_of type seq_id frag_id 0).
  { unfold FRAG_TYPE_SHIFT, FRAG_TYPE_MASK, FRAG_SEQ_ID_SHIFT, FRAG_SEQ_ID_MASK, FRAG_ID_SHIFT, FRAG_ID_MASK.
    rewrite (land_mask _ 2 3), (land_mask _ 8 255), (land_mask _ 5 31) by done.
    rewrite !Z.mod_small by (cbn; lia). rewrite Z.shiftl_0_r.
    rewrite (Z.lor_comm type), lor_shiftl_add by (cbn; lia).
    rewrite Z.lor_comm, lor_shiftl_add by (cbn; lia). unfold flags_of. cbn. lia. }
  rewrite Hl. clear Hl.
  assert (Hl : Z.lor (flags_of type seq_id frag_id 0)
            (Z.shiftl (Z.land (Z.shiftr size FRAG_SIZE_ROUND_SHIFT) FRAG_SIZE_MASK) FRAG_SIZE_SHIFT) =
          flags_of type seq_id frag_id (size / 4)).
  { unfold FRAG_SIZE_ROUND_SHIFT, FRAG_SIZE_MASK, FRAG_SIZE_SHIFT.
    rewrite (land_mask _ 14 16383) by done. rewrite Z.shiftr_div_pow2 by lia. change (2 ^ 2) with 4.
    rewrite Z.mod_small by (change (2 ^ 14) with 16384; lia_mod).
    rewrite Z.lor_comm, lor_shiftl_add by (unfold flags_of; cbn; lia). unfold flags_of. lia. }
  rewrite Hl. clear Hl.
  assert (E : (if (type =? FRAG_WHOLE) || (type =? FRAG_YES_NOTLAST) then flags_of type seq_id frag_id 0
               else flags_of type seq_id frag_id (size / 4)) =
              flags_of type seq_id frag_id (if type =? FRAG_YES_LAST then size / 4 else 0)).
  { unfold FRAG_WHOLE, FRAG_YES_NOTLAST, FRAG_YES_LAST. repeat case_match; done || lia. }
  rewrite E. set (hdr := be_bytes 4 _).
  destruct (write_prepend_rep b h c t hdr Hb (be_bytes_bytes 4 _)) as (b' & -> & Hb').
  { unfold hdr. rewrite length_be_bytes. lia. }
  exists b'. split; [done|]. unfold hdr in *. by rewrite length_be_bytes in Hb'.
Qed.

(** ** The fragment size *)

Lemma land_round x : Z.land x (Z.lnot FRAG_SIZE_ROUND_MASK) = 4 * (x / 4).
Proof.
  change FRAG_SIZE_ROUND_MASK with (Z.ones 2). rewrite <- Z.ldiff_land, Z.ldiff_ones_r by lia.
  rewrite Z.shiftl_mul_pow2, Z.shiftr_div_pow2 by lia. change (2 ^ 2) with 4. lia.
Qed.

Lemma land_round_mask x : Z.land x FRAG_SIZE_ROUND_MASK = x mod 4.
Proof. change FRAG_SIZE_ROUND_MASK with (Z.ones 2). by rewrite Z.land_ones by lia. Qed.

(** How many fragments of [size] bytes a datagram of [len] bytes needs. *)
Definition n_frags (len size : Z) : Z := (len + size - 1) / size.

Lemma n_frags_spec len size n :
  0 < size -> (n - 1) * size < len <= n * size -> n_frags len size = n.
Proof. intros. unfold n_frags. symmetry. apply (Z.div_unique_pos _ _ _ (len + size - 1 - n * size)); nia. Qed.

Lemma n_frags_bounds len size :
  0 < size -> (n_frags len size - 1) * size < len <= n_frags len size * size.
Proof.
  intros. unfold n_frags. pose proof (Z.div_mod (len + size - 1) size ltac:(lia)).
  pose proof (Z.mod_pos_bound (len + size - 1) size ltac:(lia)). nia.
Qed.

Lemma optimal_size_ok len m :
  0 < len -> 4 <= m -> exists s, optimal_fragment_size len m = Some s /\
    s mod 4 = 0 /\ 0 < s <= 4 * (m / 4) /\ n_frags len s = n_frags len (4 * (m / 4)).
Proof.
  intros Hlen Hm. unfold optimal_fragment_size. rewrite !land_round.
  set (a := 4 * (m / 4)). assert (Ha : 0 < a <= m /\ m < a + 4 /\ a mod 4 = 0) by (unfold a; lia_mod).
  clearbody a. rewrite ASSERT_true, Some_bind by lia.
  rewrite Z.quot_div_nonneg, Z.rem_mod_nonneg by lia.
  pose proof (Z.div_mod len a ltac:(lia)) as Hd. pose proof (Z.mod_pos_bound len a ltac:(lia)) as Hr.
  set (d := len / a) in *. set (r := len mod a) in *. clearbody d r.
  destruct (_ && _ && _) eqn:E; [|exists a; split_and!; done || lia].
  assert (0 < d /\ 0 < r) as [Hd0 Hr0] by lia.
  rewrite Z.quot_div_nonneg by lia. change FRAG_SIZE_ROUND_MASK with 3.
  pose proof (Z.div_mod (m - r) (d + 1) ltac:(lia)) as Hx. pose proof (Z.mod_pos_bound (m - r) (d + 1) ltac:(lia)) as Hy.
  set (x := (m - r) / (d + 1)) in *. set (y := (m - r) mod (d + 1)) in *. clearbody x y.
  set (s' := 4 * ((m - x + 3) / 4)). assert (Hs' : m - x <= s' /\ s' mod 4 = 0) by (unfold s'; lia_mod).
  clearbody s'. exists (min_int a s'). split; [done|]. unfold min_int.
  assert (x < m) by nia. assert (len <= (d + 1) * (m - x)) by nia.
  rewrite (n_frags_spec len a (d + 1)) by nia.
  destruct (a <? s') eqn:Ea.
  - split_and!; try lia. apply n_frags_spec; nia.
  - split_and!; try lia. apply n_frags_spec; nia.
Qed.

(** ** The ring of reassembly buffers

    [fragment_list_get_buf] slides a window of 25 sequence ids over a ring of 25 buffers.
    The invariant of the ring, and what a fragment does to one buffer: no copy leaves it. *)

(** A frame with room for a fragment header. *)
Record frame_wf (f : frame) : Prop := {
  fw_headroom : 4 <= f_headroom f;
  fw_payload : 0 <= f_payload_size f;
  fw_tailroom : 0 <= f_tailroom f;
  fw_size : BUF_SIZE f < BUF_SIZE_MAX
}.

Section ring.
Context (f : frame) (Hf : frame_wf f).

(** A buffer of the frame's size. *)
Definition frame_buf (b : buffer) : Prop := exists h c t, buf_rep b h c t /\ h + zlen c + t = BUF_SIZE f.

Record frag_wf (fr : fragment) : Prop := {
  fg_buf : frame_buf (fr_buf fr);
  fg_offset : fr_defined fr = true -> b_offset (fr_buf fr) = f_headroom f
}.

Record ring_wf (l : fragment_list) : Prop := {
  rg_seq_id : 0 <= fl_seq_id l < N_SEQ_ID;
  rg_index : 0 <= fl_index l < N_FRAG_BUF;
  rg_length : zlen (fl_fragments l) = N_FRAG_BUF;
  rg_frags : Forall frag_wf (fl_fragments l)
}.

Lemma set_defined_wf fr : frag_wf fr -> frag_wf (set_defined false fr).
Proof. intros []. by split. Qed.

Lemma ring_lookup l i : ring_wf l -> (i < 25)%nat -> exists fr, fl_fragments l !! i = Some fr /\ frag_wf fr.
Proof.
  intros [_ _ Hl Hw] Hi. destruct (lookup_lt_is_Some_2 (fl_fragments l) i) as [fr Hfr].
  { unfold N_FRAG_BUF in Hl. lia. }
  exists fr. split; [done|]. by eapply Forall_lookup_1.
Qed.

Lemma ring_insert l i fr :
  ring_wf l -> frag_wf fr -> ring_wf (mk_flist (fl_seq_id l) (fl_index l) (<[i := fr]> (fl_fragments l))).
Proof. intros [] ?. split; cbn; [done..|by rewrite length_insert|by apply Forall_insert]. Qed.

Lemma next_buf_ok l :
  ring_wf l -> exists l' fr, next_buf l = Some l' /\ ring_wf l' /\
    fl_seq_id l' = (fl_seq_id l + 1) mod 256 /\ fl_index l' = (fl_index l + 1) mod 25 /\
    fl_fragments l' !! Z.to_nat (fl_index l') = Some fr /\ fr_defined fr = false.
Proof.
  intros Hw. pose proof (rg_seq_id _ Hw). pose proof (rg_index _ Hw). unfold next_buf, N_FRAG_BUF, N_SEQ_ID in *.
  rewrite !modulo_add_spec, Some_bind by lia.
  set (i := (fl_index l + 1) mod 25). assert (0 <= i < 25) by (unfold i; lia_mod).
  destruct (ring_lookup l (Z.to_nat i) Hw) as (fr & Hfr & Hfw); [lia|]. rewrite Hfr, !Some_bind.
  eexists _, (set_defined false fr). split; [done|]. cbn [fl_seq_id fl_index fl_fragments]. split_and!; try done.
  - pose proof (ring_insert l (Z.to_nat i) _ Hw (set_defined_wf _ Hfw)) as [? _ ? ?].
    split; cbn in *; [unfold N_SEQ_ID; lia_mod|done..].
  - apply list_lookup_insert_eq. eauto using lookup_lt_Some.
Qed.

Lemma advance_bufs_ok n l :
  ring_wf l -> exists l', advance_bufs n l = Some l' /\ ring_wf l' /\
    fl_seq_id l' = (fl_seq_id l + Z.of_nat n) mod 256 /\
    ((0 < n)%nat -> exists fr, fl_fragments l' !! Z.to_nat (fl_index l') = Some fr /\ fr_defined fr = false) /\
    (n = O -> l' = l).
Proof.
  revert l. induction n as [|n IH]; intros l Hw; cbn [advance_bufs].
  { exists l. split_and!; try done; [|lia]. rewrite Z.add_0_r, Z.mod_small; [done|apply Hw]. }
  destruct (next_buf_ok l Hw) as (l1 & fr & -> & Hw1 & Hs & _ & Hfr & Hd). rewrite Some_bind.
  destruct (IH l1 Hw1) as (l' & -> & Hw' & Hs' & Hfr' & H0). exists l'. split_and!; try done.
  - rewrite Hs', Hs, Zplus_mod_idemp_l. f_equal. lia.
  - intros _. destruct n as [|n]; [|apply Hfr'; lia]. rewrite H0 by done. by exists fr.
Qed.

(** A sequence id that the ring has not seen: ahead of the newest, or too far behind it. *)
Definition seq_fresh (l : fragment_list) (seq_id : Z) : Prop :=
  exists diff, modulo_subtract seq_id (fl_seq_id l) N_SEQ_ID = Some diff /\ (0 < diff \/ N_FRAG_BUF <= Z.abs diff).

Lemma modulo_subtract_ok x y :
  0 <= x < 256 -> 0 <= y < 256 ->
  exists d, modulo_subtract x y 256 = Some d /\ Z.abs d <= 128 /\ (y + d) mod 256 = x /\ (d = 0 -> x = y) /\ (x = y -> d = 0).
Proof.
  intros. unfold modulo_subtract. rewrite ASSERT_true, Some_bind by lia. eexists. split; [done|].
  destruct (y <? x) eqn:?; cbv iota; destruct (Z.abs _ <? _) eqn:?; split_and!; try lia; lia_mod.
Qed.

(** The buffer of any sequence id is inside the ring; that of a fresh one is empty, and that
    of the newest is the current one. *)
Lemma get_buf_ring l seq_id :
  ring_wf l -> 0 <= seq_id < N_SEQ_ID ->
  exists i l', fragment_list_get_buf l seq_id = Some (i, l') /\ (i < 25)%nat /\ ring_wf l' /\
    (seq_fresh l seq_id -> fl_seq_id l' = seq_id /\ i = Z.to_nat (fl_index l') /\
       exists fr, fl_fragments l' !! i = Some fr /\ fr_defined fr = false) /\
    (seq_id = fl_seq_id l -> i = Z.to_nat (fl_index l) /\ l' = l).
Proof.
  intros Hw Hs. pose proof (rg_seq_id _ Hw) as Hq. unfold fragment_list_get_buf, N_SEQ_ID, N_FRAG_BUF in *.
  destruct (modulo_subtract_ok seq_id (fl_seq_id l) Hs Hq) as (d & Hd & Hd1 & Hd2 & Hd3 & Hd4). rewrite Hd, Some_bind.
  destruct (Z.leb_spec 25 (Z.abs d)) as [Hfar|Hnear].
  - cbv beta iota. change (Z.to_nat 0) with O. cbn [advance_bufs]. rewrite Some_bind. cbn [fl_index]. change (0 <? 0) with false. cbv iota.
    rewrite modulo_add_spec, Some_bind by lia. change (Z.to_nat ((0 + 0) mod 25)) with O.
    assert (ring_wf (mk_flist seq_id 0 (set_defined false <$> fl_fragments l))) as Hw'.
    { destruct Hw as [? ? Hl Hwf]. split; cbn; unfold N_SEQ_ID, N_FRAG_BUF in *; [lia|lia|by rewrite length_fmap|].
      apply Forall_fmap. eapply Forall_impl; [exact Hwf|]. apply set_defined_wf. }
    destruct (ring_lookup _ 0 Hw') as (fr & Hfr & _); [lia|].
    exists O, (mk_flist seq_id 0 (set_defined false <$> fl_fragments l)).
    split_and!; try done; try lia. intros _. split; [done|]. split; [done|]. exists fr. split; [done|].
    cbn in Hfr. rewrite list_lookup_fmap in Hfr. destruct (fl_fragments l !! O); [by injection Hfr as <-|done].
  - cbv beta iota. destruct (advance_bufs_ok (Z.to_nat d) l Hw) as (l' & -> & Hw' & Hs' & Hfr & H0). rewrite Some_bind.
    pose proof (rg_index _ Hw') as Hi'. unfold N_FRAG_BUF in Hi'.
    rewrite modulo_add_spec, Some_bind by (destruct (0 <? d); lia).
    set (i := (fl_index l' + (if 0 <? d then 0 else d)) mod 25). assert (0 <= i < 25) by (unfold i; lia_mod).
    exists (Z.to_nat i), l'. split; [done|]. split; [lia|]. split; [done|]. split.
    + intros (d' & Hd' & Hdd). unfold N_SEQ_ID, N_FRAG_BUF in *. rewrite Hd in Hd'. injection Hd' as <-.
      assert (0 < d) by lia. assert (i = fl_index l') as -> by (unfold i; replace (0 <? d) with true by lia; lia_mod).
      split; [rewrite Hs'; rewrite Z2Nat.id by lia; done|]. split; [done|]. apply Hfr. lia.
    + intros E. pose proof (Hd4 E) as ->. rewrite (H0 eq_refl) in *. split; [|done].
      unfold i. rewrite ?(H0 eq_refl). change (0 <? 0) with false. cbv iota. by rewrite Z.add_0_r, Z.mod_small by lia.
Qed.
End ring.

(** ** Reassembly

    The invariant of one reassembly buffer, by the set of the fragments that have arrived:
    the map has their bits, the memory their bytes. *)

(** ** The map of received fragments *)

Lemma map_full m :
  (Z.land m FRAG_MAP_MASK =? FRAG_MAP_MASK) = true <-> forall j, 0 <= j < 32 -> Z.testbit m j = true.
Proof.
  change FRAG_MAP_MASK with (Z.ones 32). rewrite Z.eqb_eq. split.
  - intros E j Hj. apply (f_equal (fun z => Z.testbit z j)) in E.
    rewrite Z.land_spec, Z.ones_spec_low, andb_true_r in E by lia. done.
  - intros Hm. apply Z.bits_inj'. intros j Hj. rewrite Z.land_spec. destruct (decide (j < 32)).
    + rewrite Hm, Z.ones_spec_low by lia. done.
    + rewrite Z.ones_spec_high by lia. apply andb_false_r.
Qed.

Lemma u32_testbit z j : 0 <= j < 32 -> Z.testbit (u32 z) j = Z.testbit z j.
Proof. intros. unfold u32. change 4294967296 with (2 ^ 32). by rewrite Z.mod_pow2_bits_low by lia. Qed.

Lemma bit_one n j : 0 <= n -> 0 <= j < 32 -> Z.testbit (u32 (Z.shiftl 1 n)) j = bool_decide (j = n).
Proof.
  intros. rewrite u32_testbit, Z.shiftl_mul_pow2, Z.mul_1_l by lia.
  case_bool_decide as E; [subst; by rewrite Z.pow2_bits_true by lia|]. by rewrite Z.pow2_bits_false by lia.
Qed.

Lemma bits_from n j : 0 <= n -> 0 <= j < 32 -> Z.testbit (u32 (Z.shiftl FRAG_MAP_MASK n)) j = bool_decide (n <= j).
Proof.
  intros. rewrite u32_testbit, Z.shiftl_spec by lia. change FRAG_MAP_MASK with (Z.ones 32).
  case_bool_decide as E; [by rewrite Z.ones_spec_low by lia|]. by rewrite Z.testbit_neg_r by lia.
Qed.

Section reasm.
Context (f : frame) (Hf : frame_wf f).

(** ** Any fragment *)

Lemma frame_buf_init b :
  frame_buf f b -> exists b', buf_init b (f_headroom f) = (true, b') /\
    buf_rep b' (f_headroom f) [] (BUF_SIZE f - f_headroom f).
Proof.
  intros (h & c & t & Hb & E). destruct Hf. destruct (init_rep b h c t (f_headroom f) Hb) as (b' & Hi & Hb').
  { unfold BUF_SIZE in E. lia. }
  exists b'. split; [done|]. eapply rep_eq; [exact Hb'|done|done|lia].
Qed.

Lemma frame_buf_content b : frame_buf f b -> exists h c t, buf_rep b h c t /\ zlen c <= BUF_SIZE f /\ h + zlen c + t = BUF_SIZE f.
Proof. intros (h & c & t & Hb & E). pose proof (rep_bounds _ _ _ _ Hb). exists h, c, t. split; [done|lia]. Qed.

(** A reassembly buffer that is in use. *)
Lemma reinit_ok fr size :
  frag_wf f fr -> exists fr1,
    (if negb (fr_defined fr) || negb (fr_max_frag_size fr =? size)
     then '(ok, b) ← Some (buf_init (fr_buf fr) (f_headroom f));
          ASSERT (ok : bool);; Some (mk_fragment true size 0 (fr_timestamp fr) b)
     else Some fr) = Some fr1 /\
    frag_wf f fr1 /\ fr_defined fr1 = true /\ fr_max_frag_size fr1 = size /\
    (fr_defined fr = true -> fr_max_frag_size fr = size -> fr1 = fr) /\
    (fr_defined fr = false -> fr_map fr1 = 0 /\ b_len (fr_buf fr1) = 0).
Proof.
  intros Hw. destruct (_ || _) eqn:E.
  - destruct (frame_buf_init (fr_buf fr) (fg_buf _ _ Hw)) as (b' & -> & Hb'). cbn [mbind option_bind ASSERT].
    eexists. split; [done|]. cbn. pose proof (rep_len _ _ _ _ Hb') as Hl. cbn in Hl.
    split_and!; try done.
    + split; cbn; [|intros _; apply Hb']. eexists _, _, _. split; [exact Hb'|cbn; lia].
    + intros Hd Hm. rewrite Hd, Hm, Z.eqb_refl in E. done.
  - exists fr. apply orb_false_iff in E as [Hd Hm]. split_and!; try done; destruct (fr_defined fr); try done. lia.
Qed.

Lemma fragment_store_ok now l i last n size buf h c t :
  ring_wf f l -> (i < 25)%nat -> 0 <= n <= FRAG_ID_MASK -> 0 <= size < BUF_SIZE_MAX -> buf_rep buf h c t ->
  exists out l', store_fragment now f l i last n size buf = Some (out, l') /\ ring_wf f l' /\
    (forall b, out = Some b -> frame_buf f b).
Proof.
  intros Hw Hi Hn Hs Hb. unfold store_fragment. destruct (ring_lookup f l i Hw Hi) as (fr & -> & Hfw). rewrite Some_bind.
  destruct (negb _); [by exists None, l|].
  destruct (reinit_ok fr size Hfw) as (fr1 & -> & [Hfb Hoff] & Hd1 & _). rewrite Some_bind.
  destruct Hfb as (h1 & c1 & t1 & Hr1 & E1). pose proof (rep_bounds _ _ _ _ Hr1).
  pose proof (copy_range_rep _ h1 c1 t1 (n * size) _ _ _ _ Hr1 Hb ltac:(unfold FRAG_ID_MASK, BUF_SIZE_MAX, INT_MAX in *; nia)) as Hc.
  destruct (_ <=? _) eqn:Ele.
  - destruct Hc as [-> Hr2]. cbn [negb].
    match goal with |- context [mk_buffer ?a ?b ?c (Some ?d)] => set (b2 := mk_buffer a b c (Some d)) in * end.
    assert (Hfb2 : frame_buf f b2).
    { pose proof (rep_cap _ _ _ _ Hr2) as Hcap. unfold b2 in Hcap at 1. cbn [b_capacity] in Hcap.
      eexists _, _, _. split; [exact Hr2|lia]. }
    destruct (_ =? _); eexists _, _; (split; [done|]); (split; [|intros b [= <-]; done || intros b [=]]);
      apply ring_insert; try done; (split; cbn; [done|]); intros; try done.
    rewrite <- Hoff by done. symmetry. apply Hr1.
  - rewrite Hc. cbn [negb]. eexists None, _. split; [done|]. split; [|done].
    apply ring_insert; [done|]. split; [by exists h1, c1, t1|done].
Qed.

(** ** The fragments of one datagram *)

Section datagram.
Context (D : list Z) (s : Z).
Abbreviation L := (zlen D).
Abbreviation k := (n_frags L s).
Context (Hs : 0 < s) (Hs4 : s mod 4 = 0) (HL : 0 < L) (Hk : k <= 32) (Hroom : f_headroom f + L <= BUF_SIZE f).

Definition piece (j : Z) : list Z := slice (j * s) s D.

Lemma k_bounds : (k - 1) * s < L <= k * s /\ 1 <= k.
Proof. pose proof (n_frags_bounds L s Hs). split; [lia|nia]. Qed.

Lemma length_piece j : 0 <= j < k -> zlen (piece j) = Z.min s (L - j * s) /\ 0 < L - j * s /\ 0 <= j * s.
Proof.
  intros Hj. pose proof k_bounds as [Hb _]. assert (0 <= j * s <= (k - 1) * s) by nia.
  unfold piece, slice. rewrite length_take, length_drop. lia.
Qed.

Lemma lookup_piece j x : 0 <= j -> j * s <= x < j * s + zlen (piece j) -> piece j !! Z.to_nat (x - j * s) = D !! Z.to_nat x.
Proof.
  intros Hj Hx. assert (0 <= j * s) by nia. unfold piece in *.
  assert (zlen (slice (j * s) s D) <= s) by (unfold slice; rewrite length_take; lia).
  rewrite lookup_slice by lia. rewrite decide_True by lia. f_equal. lia.
Qed.

(** [R]: the fragments that have arrived. *)
Record slot_inv (fr : fragment) (R : list Z) : Prop := {
  sl_defined : fr_defined fr = true;
  sl_size : fr_max_frag_size fr = s;
  sl_map : forall j, 0 <= j < 32 -> (Z.testbit (fr_map fr) j = true <-> j ∈ R \/ (k - 1 <= j /\ k - 1 ∈ R));
  sl_mem : forall j x, j ∈ R -> j * s <= x < j * s + zlen (piece j) ->
    mem (fr_buf fr) !! Z.to_nat (f_headroom f + x) = D !! Z.to_nat x;
  sl_len : 0 <= b_len (fr_buf fr) <= L;
  sl_full : k - 1 ∈ R -> b_len (fr_buf fr) = L
}.

Lemma slot_complete R fr b :
  slot_inv fr R -> (forall j, 0 <= j < k -> j ∈ R) ->
  b = fr_buf fr -> buf_rep b (f_headroom f) (content b) (BUF_SIZE f - f_headroom f - L) -> content b = D.
Proof.
  intros Hsl Hall -> Hr. pose proof k_bounds as [Hb Hk1].
  assert (b_len (fr_buf fr) = L) as Hlen by (apply (sl_full _ _ Hsl), Hall; lia).
  rewrite (content_wf _ (rep_wf _ _ _ _ Hr)), (rep_head _ _ _ _ Hr), Hlen.
  destruct Hf. apply list_eq. intros x. rewrite lookup_slice by lia.
  destruct (decide _) as [Hx|Hx]; [|symmetry; apply lookup_ge_None; lia].
  set (z := Z.of_nat x). assert (0 <= z < L) as Hz by (unfold z; lia).
  set (j := z / s). assert (0 <= j < k /\ j * s <= z < j * s + s) as [Hj Hjz].
  { unfold j. pose proof (Z.div_mod z s ltac:(lia)). pose proof (Z.mod_pos_bound z s ltac:(lia)). split; [|nia]. nia. }
  destruct (length_piece j Hj) as (Hl & _ & _).
  pose proof (sl_mem _ _ Hsl j z (Hall j Hj) ltac:(lia)) as Hm.
  replace (Z.to_nat (f_headroom f) + x)%nat with (Z.to_nat (f_headroom f + z)) by lia.
  rewrite Hm. f_equal. lia.
Qed.

(** Whether the map is full says whether every fragment has arrived. *)
Lemma slot_map_full fr R :
  slot_inv fr R ->
  if Z.land (fr_map fr) FRAG_MAP_MASK =? FRAG_MAP_MASK then forall x, 0 <= x < k -> x ∈ R
  else exists x, 0 <= x < k /\ x ∉ R.
Proof.
  intros Hsl. pose proof k_bounds as [_ Hk1]. destruct (_ =? _) eqn:Efull.
  - intros x Hx. rewrite map_full in Efull. assert (0 <= k - 1 < 32) as Hkk by lia.
    pose proof (proj1 (sl_map _ _ Hsl (k - 1) Hkk) (Efull _ Hkk)) as Hlast.
    destruct (decide (x = k - 1)) as [->|]; [tauto|].
    assert (0 <= x < 32) as Hx32 by lia. by destruct (proj1 (sl_map _ _ Hsl x Hx32) (Efull _ Hx32)) as [|[? _]]; [|lia].
  - destruct (decide (Forall (fun x => x ∈ R) (seqZ 0 k))) as [Hall|Hex].
    + exfalso. apply not_true_iff_false in Efull. apply Efull, map_full. intros x Hx. rewrite Forall_forall in Hall.
      apply (sl_map _ _ Hsl x Hx).
      destruct (decide (x < k)); [left; apply Hall, elem_of_seqZ; lia|right; split; [lia|apply Hall, elem_of_seqZ; lia]].
    + apply not_Forall_Exists, Exists_exists in Hex as (x & Hx%elem_of_seqZ & Hn); [|intros ?; apply _].
      exists x. split; [lia|done].
Qed.

(** The buffer after fragment [j] has been copied and marked. *)
Lemma slot_add now fr R j c t :
  slot_inv fr R -> (forall x, x ∈ R -> 0 <= x < k) -> 0 <= j < k ->
  buf_rep (fr_buf fr) (f_headroom f) c t -> f_headroom f + zlen c + t = BUF_SIZE f ->
  slot_inv
    (mk_fragment true s (Z.lor (fr_map fr) (u32 (Z.shiftl (if bool_decide (j = k - 1) then FRAG_MAP_MASK else 1) j))) now
       (mk_buffer (f_headroom f + zlen c + t) (f_headroom f) (Z.max (zlen c) (j * s + zlen (piece j)))
          (Some (splice (f_headroom f + j * s) (piece j) (mem (fr_buf fr))))))
    (j :: R).
Proof.
  intros Hsl HR Hj Hr E. destruct (length_piece j Hj) as (Hlp & Hjl & Hj0). pose proof k_bounds as [Hkb _].
  pose proof (rep_len _ _ _ _ Hr) as Hl. pose proof (sl_len _ _ Hsl) as Hl2. destruct Hf.
  split; cbn [fr_defined fr_max_frag_size fr_map fr_buf]; try done.
  - intros x Hx. rewrite Z.lor_spec, orb_true_iff, (sl_map _ _ Hsl x Hx), !elem_of_cons.
    case_bool_decide as Elast; [rewrite bits_from by lia|rewrite bit_one by lia]; rewrite bool_decide_eq_true.
    + subst j. intuition lia.
    + intuition lia.
  - intros x y Hx Hy. unfold mem at 1. cbn [b_data default]. unfold id at 1.
    assert (0 <= x < k) as Hxk by (apply elem_of_cons in Hx as [->|Hx]; auto).
    destruct (length_piece x Hxk) as (Hlx & _ & Hx0).
    rewrite lookup_splice; [|lia|rewrite (wf_mem _ (rep_wf _ _ _ _ Hr)), (rep_cap _ _ _ _ Hr); lia].
    destruct (decide _) as [Hin|Hout].
    + replace (Z.to_nat (f_headroom f + y) - Z.to_nat (f_headroom f + j * s))%nat with (Z.to_nat (y - j * s)) by lia.
      apply lookup_piece; lia.
    + apply elem_of_cons in Hx as [->|Hx]; [lia|]. by apply (sl_mem _ _ Hsl x).
  - cbn [b_len]. lia.
  - intros Hin. cbn [b_len]. apply elem_of_cons in Hin as [<-|Hin]; [nia|].
    pose proof (sl_full _ _ Hsl Hin). lia.
Qed.

(** What [store_fragment] does when fragment [j] arrives. *)
Lemma store_piece now l i fr R j last pkt h t :
  ring_wf f l -> fl_fragments l !! i = Some fr -> (fr_defined fr = false /\ R = [] \/ slot_inv fr R) ->
  0 <= j < k -> last = bool_decide (j = k - 1) -> buf_rep pkt h (piece j) t ->
  (forall x, x ∈ R -> 0 <= x < k) ->
  exists out l' fr', store_fragment now f l i last j s pkt = Some (out, l') /\ ring_wf f l' /\
    fl_seq_id l' = fl_seq_id l /\ fl_index l' = fl_index l /\ fl_fragments l' !! i = Some fr' /\
    ((exists b, out = Some b /\ content b = D /\ (forall x, 0 <= x < k -> x ∈ j :: R)) \/
     (out = None /\ slot_inv fr' (j :: R) /\ exists x, 0 <= x < k /\ x ∉ j :: R)).
Proof.
  intros Hw Hi Hslot Hj -> Hp HR. destruct (length_piece j Hj) as (Hlp & Hjl & Hj0).
  pose proof (Forall_lookup_1 _ _ _ _ (rg_frags _ _ Hw) Hi) as Hfw. pose proof (lookup_lt_Some _ _ _ Hi) as Hilt.
  unfold store_fragment. rewrite Hi, Some_bind, land_round_mask, Hs4. change (negb (0 =? 0)) with false. cbv iota.
  destruct (reinit_ok fr s Hfw) as (fr1 & -> & Hfw1 & Hd1 & Hm1 & Hsame & Hfresh). rewrite Some_bind.
  assert (Hsl : slot_inv fr1 R).
  { destruct Hslot as [[Hd ->]|Hsl]; [|by rewrite Hsame; [|apply Hsl..]].
    destruct (Hfresh Hd) as [Hmap Hlen]. split; try done; [|by intros ? ? ?%elem_of_nil|lia|by intros ?%elem_of_nil].
    intros x Hx. rewrite Hmap, Z.bits_0. split; [done|]. intros [?%elem_of_nil|[_ ?%elem_of_nil]]; done. }
  clear Hslot Hsame Hfresh. destruct Hfw1 as [(h1 & c1 & t1 & Hr1 & E1) Hoff].
  pose proof (rep_bounds _ _ _ _ Hr1). pose proof (rep_len _ _ _ _ Hr1) as Hl1. pose proof (sl_len _ _ Hsl) as Hl2.
  assert (h1 = f_headroom f) as -> by (rewrite <- (Hoff Hd1); symmetry; apply Hr1).
  assert (Hji : 0 <= j * s <= INT_MAX - BUF_SIZE_MAX - BUF_SIZE_MAX) by (destruct Hf; unfold INT_MAX, BUF_SIZE_MAX in *; lia).
  pose proof (copy_range_rep _ _ c1 t1 (j * s) _ _ _ _ Hr1 Hp Hji) as Hc.
  destruct (Z.leb_spec (f_headroom f + j * s + zlen (piece j)) (f_headroom f + zlen c1 + t1)) as [_|]; [|lia].
  destruct Hc as [-> Hr2]. cbn [negb]. pose proof (slot_add now fr1 R j c1 t1 Hsl HR Hj Hr1 E1) as Hsl2.
  rewrite Hd1, Hm1. pose proof (rep_cap _ _ _ _ Hr2) as Hcap. cbn [b_capacity] in Hcap.
  match type of Hsl2 with slot_inv ?fr _ => set (fr2 := fr) in * end.
  assert (Hfw2 : frag_wf f fr2) by (split; [by eexists _, _, _; split; [exact Hr2|lia]|done]).
  pose proof (slot_map_full fr2 _ Hsl2) as Hmap. cbn [fr2 fr_map] in Hmap.
  destruct (_ =? FRAG_MAP_MASK).
  - eexists (Some (fr_buf fr2)), _, _. split; [done|]. cbn [fl_seq_id fl_index fl_fragments].
    split; [by apply ring_insert, set_defined_wf|]. split; [done|]. split; [done|]. split; [by apply list_lookup_insert_eq|].
    left. eexists. split; [done|]. split; [|done]. apply (slot_complete (j :: R) fr2); try done.
    pose proof k_bounds. assert (b_len (fr_buf fr2) = L) as E by (apply (sl_full _ _ Hsl2), Hmap; lia).
    cbn [fr2 fr_buf b_len] in E. eapply rep_eq; [exact Hr2|done|symmetry; apply (rep_content _ _ _ _ Hr2)|lia].
  - eexists None, _, fr2. split; [done|]. cbn [fl_seq_id fl_index fl_fragments]. split; [by apply ring_insert|].
    split; [done|]. split; [done|]. split; [by apply list_lookup_insert_eq|]. by right.
Qed.
End datagram.
End reasm.
