(* ===== verification/Fragmentation.v ===== *)
(** * What fragmentation promises

    Reassembly is safe for any packet; what the sender cuts, the receiver puts together
    again, in whatever order the fragments arrive. *)
From S2P Require Import Prelude Integers Buffer Frame Fragment FragmentWire.

(** The header is dropped, the memory stays. *)
Lemma drop_rep b h c t :
  buf_rep b h c t -> buf_rep (mk_buffer (b_capacity b) (b_offset b) 0 (b_data b)) h [] (zlen c + t).
Proof.
  intros Hb. apply rep_unfold in Hb as Hd. destruct Hd as (d & -> & Hl & Hbd & _). pose proof (rep_bounds _ _ _ _ Hb).
  apply rep_intro; try lia; try done; cbn [b_capacity b_offset]; lia.
Qed.

Lemma flags_shift flags k n m : 0 <= k -> m = Z.ones n -> 0 <= n -> 0 <= Z.land (Z.shiftr flags k) m < 2 ^ n.
Proof. intros ? -> ?. rewrite Z.land_ones by done. by apply Z.mod_pos_bound, Z.pow_pos_nonneg. Qed.

(** C27: No packet makes reassembly fail.  Whatever the bytes of a packet, [fragment_incoming]
    returns: no [ASSERT] fails, no copy leaves a reassembly buffer, no index leaves the ring,
    and the ring keeps its invariant; the packet that goes on is the rest of the packet that
    came, empty, or a reassembled datagram no larger than a buffer of the frame. *)
Theorem fragment_incoming_safe now f l pkt h c t :
  frame_wf f -> ring_wf f l -> buf_rep pkt h c t ->
  exists out l' h' c' t', fragment_incoming now l pkt f = Some (out, l') /\ ring_wf f l' /\
    buf_rep out h' c' t' /\ (c' = c \/ c' = drop 4 c \/ c' = [] \/ zlen c' <= BUF_SIZE f).
Proof.
  intros Hf Hw Hp. unfold fragment_incoming. rewrite (rep_len _ _ _ _ Hp).
  destruct (0 <? zlen c) eqn:Hpos; [|by exists pkt, l, h, c, t; auto].
  destruct (decide (zlen c < 4)) as [Hshort|Hlong].
  { rewrite (read_short _ _ _ _ 4 Hp) by done. eexists _, l, _, _, _. split; [done|]. split; [done|]. split; [by eapply drop_rep|auto]. }
  assert (Hp4 : buf_rep pkt h (take 4 c ++ drop 4 c) t) by by rewrite take_drop.
  destruct (read_rep _ _ _ _ _ Hp4) as (b1 & Hr & Hb1). rewrite length_take in Hr, Hb1.
  replace (Z.of_nat (4 `min` length c)) with 4 in * by lia. rewrite Hr.
  set (flags := be_val (take 4 c)). pose proof (drop_rep _ _ _ _ Hb1) as Hdrop.
  assert (Hdropped : exists out l' h' c' t', Some (mk_buffer (b_capacity b1) (b_offset b1) 0 (b_data b1), l) = Some (out, l') /\
            ring_wf f l' /\ buf_rep out h' c' t' /\ (c' = c \/ c' = drop 4 c \/ c' = [] \/ zlen c' <= BUF_SIZE f)).
  { eexists _, l, _, _, _. split; [done|]. split; [done|]. split; [exact Hdrop|auto]. }
  destruct (_ =? FRAG_WHOLE).
  { destruct (negb _); [done|]. eexists _, l, _, _, _. split; [done|]. split; [done|]. split; [exact Hb1|auto]. }
  destruct (_ || _); [|done].
  pose proof (flags_shift flags FRAG_SEQ_ID_SHIFT 8 FRAG_SEQ_ID_MASK ltac:(done) eq_refl ltac:(done)) as Hseq.
  pose proof (flags_shift flags FRAG_ID_SHIFT 5 FRAG_ID_MASK ltac:(done) eq_refl ltac:(done)) as Hid.
  pose proof (flags_shift flags FRAG_SIZE_SHIFT 14 FRAG_SIZE_MASK ltac:(done) eq_refl ltac:(done)) as Hsz.
  destruct (get_buf_ring f l _ Hw Hseq) as (i & l1 & -> & Hi & Hw1 & _). rewrite Some_bind.
  assert (Hn : 0 <= Z.land (Z.shiftr flags FRAG_ID_SHIFT) FRAG_ID_MASK <= FRAG_ID_MASK) by (change (2 ^ 5) with (FRAG_ID_MASK + 1) in Hid; lia).
  match goal with |- context [store_fragment _ _ _ _ ?last _ ?size _] =>
    destruct (fragment_store_ok f Hf now l1 i last _ size b1 _ _ _ Hw1 Hi Hn
      ltac:(pose proof (rep_bounds _ _ _ _ Hb1); destruct last; [rewrite Z.shiftl_mul_pow2 by done; unfold FRAG_SIZE_MASK, FRAG_SIZE_ROUND_SHIFT, BUF_SIZE_MAX in *; lia|rewrite (rep_len _ _ _ _ Hb1); lia]) Hb1)
      as (out & l2 & -> & Hw2 & Hout) end.
  rewrite Some_bind. destruct out as [b|]; cbn [default].
  - destruct (frame_buf_content f b (Hout _ eq_refl)) as (h' & c' & t' & Hb & Hl & _).
    exists b, l2, h', c', t'. auto 10.
  - eexists _, l2, _, _, _. split; [done|]. split; [done|]. split; [exact Hdrop|auto].
Qed.

(** ** One datagram *)

Section datagram.
Context (f : frame) (Hf : frame_wf f) (D : list Z) (s q : Z).
Abbreviation L := (zlen D).
Abbreviation k := (n_frags L s).
Context (Hs : 0 < s < 65536) (Hs4 : s mod 4 = 0) (HL : 0 < L) (Hk : k <= 32) (HD : bytes D).
Context (Hroom : f_headroom f + L <= BUF_SIZE f) (Hq : 0 <= q < N_SEQ_ID).

(** Fragment [j] on the wire. *)
Definition frag_packet (j : Z) : list Z :=
  frag_header (if bool_decide (j = k - 1) then FRAG_YES_LAST else FRAG_YES_NOTLAST) q j s ++ piece D s j.

(** The receiver when the fragments in [R] have arrived. *)
Definition receiving (l : fragment_list) (R : list Z) : Prop :=
  ring_wf f l /\ (forall x, x ∈ R -> 0 <= x < k) /\
  (R = [] /\ seq_fresh l q \/
   fl_seq_id l = q /\ exists fr, fl_fragments l !! Z.to_nat (fl_index l) = Some fr /\ slot_inv f D s fr R).

Lemma incoming_piece now l R j pkt h t :
  receiving l R -> 0 <= j < k -> buf_rep pkt h (frag_packet j) t ->
  exists out l', fragment_incoming now l pkt f = Some (out, l') /\
    ((content out = D /\ forall x, 0 <= x < k -> x ∈ j :: R) \/
     (content out = [] /\ receiving l' (j :: R) /\ exists x, 0 <= x < k /\ x ∉ j :: R)).
Proof.
  intros (Hw & HR & Hst) Hj Hp. destruct (length_piece D s (proj1 Hs) HL Hk j Hj) as (Hlp & Hjl & Hj0).
  set (last := bool_decide (j = k - 1)). assert (0 <= (if last then s / 4 else 0) < 16384) as Hz by (destruct last; lia_mod).
  set (type := if last then FRAG_YES_LAST else FRAG_YES_NOTLAST).
  assert (Hty : 0 <= type < 4) by (unfold type; destruct last; done).
  assert (Hh : frag_header type q j s = be_bytes 4 (flags_of type q j (if last then s / 4 else 0))).
  { unfold frag_header, type. by destruct last. }
  unfold N_SEQ_ID in Hq. assert (0 <= j < 32) as Hj32 by lia.
  pose proof (flags_range type q j _ Hty Hq Hj32 Hz) as Hfr. pose proof (flags_fields type q j _ Hty Hq Hj32 Hz) as (E1 & E2 & E3 & E4).
  unfold frag_packet in Hp. fold last type in Hp. rewrite Hh in Hp. unfold fragment_incoming.
  rewrite (rep_len _ _ _ _ Hp). set (hdr := be_bytes 4 _) in *.
  assert (zlen hdr = 4) as Hl4 by (unfold hdr; by rewrite length_be_bytes).
  replace (0 <? _) with true by (rewrite length_app; lia).
  destruct (read_rep _ _ _ _ _ Hp) as (b1 & Hr & Hb1). rewrite Hl4 in Hr, Hb1. rewrite Hr. unfold hdr. clear Hr.
  rewrite be_val_be_bytes, Z.mod_small by (change (256 ^ Z.of_nat 4) with 4294967296; lia).
  rewrite E1, E2, E3, E4. replace (type =? FRAG_WHOLE) with false by (unfold type; by destruct last).
  replace ((type =? FRAG_YES_NOTLAST) || (type =? FRAG_YES_LAST)) with true by (unfold type; by destruct last).
  replace (type =? FRAG_YES_LAST) with last by (unfold type; by destruct last).
  destruct (get_buf_ring f l q Hw Hq) as (i & l1 & -> & Hi & Hw1 & Hfresh & Hsame). rewrite Some_bind.
  assert (exists fr, fl_seq_id l1 = q /\ i = Z.to_nat (fl_index l1) /\ fl_fragments l1 !! i = Some fr /\
            (fr_defined fr = false /\ R = [] \/ slot_inv f D s fr R)) as (fr & Hq1 & Hi1 & Hfrg & Hslot).
  { destruct Hst as [[-> Hfre]|(Eq & fr & Hl & Hsl)].
    - destruct (Hfresh Hfre) as (? & ? & fr & ? & ?). exists fr. auto 10.
    - destruct (Hsame (eq_sym Eq)) as [-> ->]. exists fr. auto. }
  assert (Hsize : (if last then 4 * (if last then s / 4 else 0) else b_len b1) = s).
  { rewrite (rep_len _ _ _ _ Hb1), Hlp. unfold last. case_bool_decide as E; [lia_mod|].
    pose proof (k_bounds D s (proj1 Hs) HL Hk) as [Hkb _]. nia. }
  rewrite Hsize.
  destruct (store_piece f Hf D s (proj1 Hs) Hs4 HL Hk Hroom now l1 i fr R j last b1 _ _ Hw1 Hfrg Hslot Hj eq_refl Hb1 HR)
    as (out & l2 & fr' & -> & Hw2 & Hq2 & Hi2 & Hf2 & [(b & -> & Hb & Hall)|(-> & Hsl & Hx)]); rewrite Some_bind.
  - exists b, l2. split; [done|]. by left.
  - eexists _, l2. split; [done|]. right. split; [|split; [|done]].
    + apply (rep_content _ _ _ _ (drop_rep _ _ _ _ Hb1)).
    + split; [done|]. split; [intros x [->|Hx']%elem_of_cons; auto|]. right. split; [congruence|].
      exists fr'. rewrite Hi2, <- Hi1. auto.
Qed.

(** ** Sending *)

(** The sender with fragment [j] next. *)
Definition sending (fm : fragment_master) (j : Z) : Prop :=
  fm_outgoing_seq_id fm = q /\ fm_outgoing_frag_size fm = s /\ fm_outgoing_frag_id fm = j /\
  frame_buf f (fm_outgoing_return fm) /\ exists h t, buf_rep (fm_outgoing fm) h (drop (Z.to_nat (j * s)) D) t.

Lemma ready_ok fm j :
  sending fm j -> 0 <= j < k ->
  exists b fm', fragment_ready_to_send fm f = Some (Some b, fm') /\ content b = frag_packet j /\ sending fm' (j + 1).
Proof.
  intros (Eq & Es & Ej & Hret & h & t & Ho) Hj. unfold fragment_ready_to_send, fragment_outgoing_defined.
  destruct (length_piece D s (proj1 Hs) HL Hk j Hj) as (Hlp & Hjl & Hj0). pose proof (k_bounds D s (proj1 Hs) HL Hk) as [Hkb _].
  assert (zlen (drop (Z.to_nat (j * s)) D) = L - j * s) as Hlr by (rewrite length_drop; lia).
  rewrite (rep_len _ _ _ _ Ho), Es, Eq, Ej, Hlr. replace (0 <? L - j * s) with true by lia.
  set (last := L - j * s <=? s). assert (last = bool_decide (j = k - 1)) as Elast.
  { unfold last. case_bool_decide; nia. }
  assert (Hsz : (if last then L - j * s else s) = zlen (piece D s j)) by (rewrite Hlp; unfold last; case_match; lia).
  rewrite Hsz. destruct (frame_buf_init f Hf _ Hret) as (b1 & -> & Hb1). cbn [mbind option_bind ASSERT].
  assert (Hsplit : drop (Z.to_nat (j * s)) D = piece D s j ++ drop (Z.to_nat ((j + 1) * s)) D).
  { unfold piece, slice. replace (Z.to_nat ((j + 1) * s)) with (Z.to_nat (j * s) + Z.to_nat s)%nat by nia.
    by rewrite <- drop_drop, take_drop. }
  rewrite Hsplit in Ho. destruct Hf as [Hh ? ? ?].
  destruct (copy_n_rep b1 _ [] _ _ _ _ _ _ Hb1 Ho) as (b2 & o2 & -> & Hb2 & Ho2); [lia|].
  cbn [mbind option_bind ASSERT app] in *.
  destruct (prepend_flags_ok b2 _ _ _ (if last then FRAG_YES_LAST else FRAG_YES_NOTLAST) q j s Hb2 Hh)
    as (b3 & -> & Hb3); [destruct last; unfold FRAG_YES_LAST, FRAG_YES_NOTLAST; lia|exact Hq|lia|lia|].
  rewrite Some_bind. rewrite ASSERT_true, Some_bind.
  2: { rewrite (rep_len _ _ _ _ Ho2), length_drop. unfold last. destruct (Z.leb_spec (L - j * s) s); [|done]. cbn. nia. }
  eexists _, _. split; [done|]. split; [|split; [done|]].
  - rewrite (rep_content _ _ _ _ Hb3). unfold frag_packet. by rewrite <- Elast.
  - cbn. split; [done|]. split; [done|]. split; [|eauto].
    destruct Hret as (h1 & c1 & t1 & Hr1 & E1).
    destruct (rep_reheader _ _ _ _ _ _ _ _ Hr1 Hb3) as (c1' & Hl1 & Hr1').
    { rewrite length_app. unfold frag_header. rewrite length_be_bytes. lia. }
    exists h1, c1', t1. split; [exact Hr1'|]. lia.
Qed.
End datagram.

(** ** The round trip *)

(** The fragments that are left, one after the other. *)
Fixpoint drain (fuel : nat) (fm : fragment_master) (f : frame) : option (list (list Z) * fragment_master) :=
  match fuel with
  | O => Some ([], fm)
  | S fuel =>
      '(out, fm) ← fragment_ready_to_send fm f;
      match out with
      | None => Some ([], fm)
      | Some b => '(pkts, fm) ← drain fuel fm f; Some (content b :: pkts, fm)
      end
  end.

(** The packets that a datagram goes out as. *)
Definition send_datagram (fm : fragment_master) (buf : buffer) (f : frame) : option (list (list Z) * fragment_master) :=
  '(b, fm) ← fragment_outgoing fm buf f;
  '(pkts, fm) ← drain (Z.to_nat MAX_FRAGS) fm f;
  Some (content b :: pkts, fm).

(** What comes of the packets, in the order in which they arrive. *)
Fixpoint receive_all (now : Z) (f : frame) (l : fragment_list) (pkts : list (list Z))
  : option (list (list Z) * fragment_list) :=
  match pkts with
  | [] => Some ([], l)
  | p :: pkts =>
      '(b, l) ← fragment_incoming now l (received p) f;
      '(outs, l) ← receive_all now f l pkts;
      Some (content b :: outs, l)
  end.

Section round_trip.
Context (f : frame) (Hf : frame_wf f) (D : list Z) (s q : Z).
Abbreviation k := (n_frags (zlen D) s).
Context (Hs : 0 < s < 65536) (Hs4 : s mod 4 = 0) (HL : 0 < zlen D) (Hk : k <= 32) (HD : bytes D).
Context (Hroom : f_headroom f + zlen D <= BUF_SIZE f) (Hq : 0 <= q < N_SEQ_ID).

Lemma drain_ok m fm j :
  sending f D s q fm j -> 0 <= j <= k -> k - j <= Z.of_nat m ->
  exists fm', drain m fm f = Some (frag_packet D s q <$> seqZ j (k - j), fm') /\ sending f D s q fm' k.
Proof.
  revert fm j. induction m as [|m IH]; intros fm j Hsd Hj Hm.
  { exists fm. replace j with k in * by lia. by rewrite Z.sub_diag. }
  cbn [drain]. destruct (decide (j = k)) as [->|].
  - pose proof Hsd as (_ & _ & _ & _ & h & t & Ho). pose proof (k_bounds D s (proj1 Hs) HL Hk).
    unfold fragment_ready_to_send, fragment_outgoing_defined. rewrite (rep_len _ _ _ _ Ho), drop_ge by lia.
    exists fm. by rewrite Z.sub_diag.
  - destruct (ready_ok f Hf D s q Hs HL Hk Hroom Hq fm j Hsd) as (b & fm1 & -> & Hb & Hsd1); [lia|].
    rewrite Some_bind. destruct (IH fm1 (j + 1) Hsd1) as (fm' & -> & Hsd'); [lia..|]. rewrite Some_bind.
    exists fm'. split; [|done]. rewrite Hb, (seqZ_cons j (k - j)) by lia. cbn [fmap list_fmap].
    replace (Z.succ j) with (j + 1) by lia. by replace (Z.pred (k - j)) with (k - (j + 1)) by lia.
Qed.

Lemma frag_packet_bytes j : bytes (frag_packet D s q j).
Proof. unfold frag_packet, frag_header, piece. apply Forall_app. split; [apply be_bytes_bytes|by apply Forall_slice]. Qed.

Lemma length_frag_packet j : 0 <= j < k -> zlen (frag_packet D s q j) <= 4 + s.
Proof.
  intros Hj. destruct (length_piece D s (proj1 Hs) HL Hk j Hj) as (Hl & _). unfold frag_packet, frag_header.
  rewrite length_app, length_be_bytes. lia.
Qed.

Lemma receive_incomplete now order : forall l R,
  receiving f D s q l R -> Forall (fun j => 0 <= j < k) order ->
  (exists x, 0 <= x < k /\ x ∉ order ++ R) ->
  exists l', (forall rest, receive_all now f l ((frag_packet D s q <$> order) ++ rest) =
                '(outs, l'') ← receive_all now f l' rest; Some (replicate (length order) [] ++ outs, l'')) /\
    receiving f D s q l' (rev order ++ R).
Proof.
  induction order as [|j order IH]; intros l R Hr Ho Hx.
  { exists l. split; [|done]. intros rest. cbn. by destruct (receive_all now f l rest) as [[]|]. }
  apply Forall_cons in Ho as [Hj Ho]. pose proof (length_frag_packet j Hj).
  destruct (incoming_piece f Hf D s q Hs Hs4 HL Hk Hroom Hq now l R j (received (frag_packet D s q j)) 0 0 Hr Hj)
    as (out & l1 & E & [[_ Hall]|(Hout & Hr1 & _)]).
  { apply received_rep; [apply frag_packet_bytes|unfold BUF_SIZE_MAX; lia]. }
  { destruct Hx as (x & Hx & Hn). destruct Hn. specialize (Hall x Hx). cbn. rewrite elem_of_cons, elem_of_app.
    apply elem_of_cons in Hall. tauto. }
  destruct (IH l1 (j :: R) Hr1 Ho) as (l' & Hl' & Hr').
  { destruct Hx as (x & Hx & Hn). exists x. split; [done|]. rewrite elem_of_app, elem_of_cons. cbn in Hn.
    rewrite elem_of_cons, elem_of_app in Hn. tauto. }
  exists l'. split.
  - intros rest. cbn [fmap list_fmap app receive_all]. rewrite E, Some_bind, Hl', Hout.
    destruct (receive_all now f l' rest) as [[]|]; done.
  - cbn [rev]. by rewrite <- app_assoc.
Qed.
End round_trip.

(** C23: Fragmentation and reassembly are inverse.  A datagram that is too big for one
    packet, but not for 32, goes out as at most 32 packets that respect the maximum size.
    The peer may get them in any order, and any of them more than once: as long as one is
    missing nothing comes out, and when the last of them arrives, the datagram does. *)
Theorem fragments_reassemble f fm buf h c t l now :
  frame_wf f -> 4 <= f_max_fragment_size f < 65536 ->
  frame_buf f (fm_outgoing fm) -> frame_buf f (fm_outgoing_return fm) -> 0 <= fm_outgoing_seq_id fm < N_SEQ_ID ->
  buf_rep buf h c t -> f_max_fragment_size f < zlen c -> f_headroom f + zlen c <= BUF_SIZE f ->
  n_frags (zlen c) (4 * (f_max_fragment_size f / 4)) <= 32 ->
  ring_wf f l -> seq_fresh l ((fm_outgoing_seq_id fm + 1) mod 256) ->
  exists pkts fm', send_datagram fm buf f = Some (pkts, fm') /\
    (length pkts <= 32)%nat /\ Forall (fun p => zlen p <= 4 + f_max_fragment_size f) pkts /\
    forall order last, Forall (fun i => i < length pkts)%nat (order ++ [last]) ->
      (exists i, (i < length pkts)%nat /\ i ∉ order) -> (forall i, (i < length pkts)%nat -> i ∈ order ++ [last]) ->
      exists l', receive_all now f l ((fun i => default [] (pkts !! i)) <$> order ++ [last]) =
        Some (replicate (length order) [] ++ [c], l').
Proof.
  intros Hf Hm (ho & co & to & Ho & Eo) Hret Hsq Hb Hbig Hroom Hn Hw Hfresh.
  pose proof (rep_bounds _ _ _ _ Hb) as (_ & _ & _ & Hby). pose proof Hf as [Hh ? ? ?].
  destruct (optimal_size_ok (zlen c) (f_max_fragment_size f)) as (s & Eopt & Hs4 & Hs & Hsn); [lia|lia|].
  rewrite <- Hsn in Hn. assert (Hs' : 0 < s < 65536) by lia_mod. assert (HL : 0 < zlen c) by lia.
  pose proof (k_bounds c s (proj1 Hs) HL Hn) as [Hkb Hk1]. set (q := (fm_outgoing_seq_id fm + 1) mod 256) in *.
  assert (Hq : 0 <= q < N_SEQ_ID) by (unfold q, N_SEQ_ID; lia_mod).
  unfold send_datagram, fragment_outgoing. rewrite (rep_len _ _ _ _ Hb).
  replace (0 <? zlen c) with true by lia. replace (_ <? zlen c) with true by lia. rewrite Eopt, Some_bind.
  unfold MAX_FRAGS. replace (s * 32 <? zlen c) with false by nia.
  cbn [fm_outgoing_seq_id fm_outgoing fm_outgoing_return fm_incoming].
  destruct (init_rep _ _ _ _ (f_headroom f) Ho) as (o1 & -> & Ho1); [unfold BUF_SIZE in Eo; lia|].
  cbn [mbind option_bind ASSERT]. unfold buf_copy. rewrite (rep_content _ _ _ _ Hb).
  destruct (write_rep _ _ _ _ c Ho1 Hby) as (o2 & -> & Ho2); [lia|]. cbn [mbind option_bind ASSERT app] in *.
  rewrite modulo_add_spec, Some_bind by (unfold N_SEQ_ID in *; lia). change ((_ + 1) mod N_SEQ_ID) with q.
  destruct (ready_ok f Hf c s q Hs' HL Hn Hroom Hq (mk_fmaster q s 0 o2 (fm_outgoing_return fm) (fm_incoming fm)) 0)
    as (b & fm1 & -> & Hbc & Hsd); [|lia|].
  { split_and!; try done. eexists _, _. exact Ho2. }
  rewrite !Some_bind. destruct (drain_ok f Hf c s q Hs' HL Hn Hroom Hq (Z.to_nat 32) fm1 1 Hsd) as (fm' & -> & _); [lia|lia|].
  rewrite Some_bind, Hbc. set (k := n_frags (zlen c) s) in *. set (pkts := _ :: _).
  assert (Epk : pkts = frag_packet c s q <$> seqZ 0 k) by by rewrite (seqZ_cons 0 k) by lia.
  assert (Hlen : length pkts = Z.to_nat k) by (rewrite Epk, length_fmap, length_seqZ; done).
  assert (Hat : forall i, (i < length pkts)%nat -> default [] (pkts !! i) = frag_packet c s q (Z.of_nat i)).
  { intros i Hi. rewrite Epk, list_lookup_fmap, lookup_seqZ_lt by lia. cbn. by f_equal; lia. }
  exists pkts, fm'. split; [done|]. split; [lia|]. split.
  { rewrite Epk. apply Forall_fmap, Forall_forall. intros j Hj%elem_of_seqZ.
    pose proof (length_frag_packet c s q Hs' HL Hn j ltac:(lia)). unfold compose. cbv beta. clear -H Hs. lia_mod. }
  intros order last Hin (i & Hi & Hni) Hall. rewrite Forall_app, Forall_singleton in Hin. destruct Hin as [Hin Hlast].
  destruct (receive_incomplete f Hf c s q Hs' Hs4 HL Hn Hby Hroom Hq now (Z.of_nat <$> order) l []) as (l' & Hrun & Hr).
  { split; [done|]. split; [by intros x ?%elem_of_nil|]. left. done. }
  { apply Forall_fmap. eapply Forall_impl; [exact Hin|]. intros n Hi'. unfold compose. cbv beta in *. lia. }
  { exists (Z.of_nat i). split; [lia|]. rewrite app_nil_r. intros (x & Ex & Hx)%list_elem_of_fmap. by replace i with x in Hni by lia. }
  rewrite app_nil_r in Hr. set (j := Z.of_nat last) in *. assert (Hj : 0 <= j < k) by (unfold j; lia).
  pose proof (length_frag_packet c s q Hs' HL Hn j Hj).
  destruct (incoming_piece f Hf c s q Hs' Hs4 HL Hn Hroom Hq now l' _ j (received (frag_packet c s q j)) 0 0 Hr Hj)
    as (out & l1 & E & [[Hout _]|(_ & _ & x & Hx & Hnx)]).
  { apply received_rep; [by apply frag_packet_bytes|unfold BUF_SIZE_MAX; lia]. }
  - exists l1. rewrite fmap_app. cbn [fmap list_fmap].
    replace ((fun i => default [] (pkts !! i)) <$> order) with (frag_packet c s q <$> (Z.of_nat <$> order)).
    2: { rewrite <- list_fmap_compose. apply list_fmap_ext. intros n x Hx. cbn. rewrite Hat; [done|].
         by eapply Forall_lookup_1 in Hin. }
    rewrite Hrun, Hat by done. cbn [receive_all]. fold j. rewrite E. by rewrite !Some_bind, Hout, length_fmap.
  - exfalso. apply Hnx. specialize (Hall (Z.to_nat x) ltac:(lia)). apply elem_of_app in Hall as [Hl|Hl%list_elem_of_singleton].
    + apply elem_of_cons. right. apply list_elem_of_In; rewrite <- in_rev; apply list_elem_of_In, list_elem_of_fmap. exists (Z.to_nat x). split; [lia|done].
    + apply elem_of_cons. left. lia.
Qed.

(** The fragment size is never larger than the maximum and a multiple of four, so that
    the header can carry it, and the datagram needs exactly as many fragments as it would
    with the largest aligned size; 32 of them are enough just when 32 of the largest are. *)
Theorem optimal_fragment_size_exact len m :
  0 < len -> 4 <= m ->
  exists s, optimal_fragment_size len m = Some s /\ s mod 4 = 0 /\ 0 < s <= m /\
    n_frags len s = n_frags len (4 * (m / 4)) /\ (n_frags len s - 1) * s < len <= n_frags len s * s /\
    ((s * MAX_FRAGS <? len) = true <-> MAX_FRAGS < n_frags len (4 * (m / 4))).
Proof.
  intros Hlen Hm. destruct (optimal_size_ok len m Hlen Hm) as (s & E & H4 & Hs & Hn). exists s.
  pose proof (n_frags_bounds len s ltac:(lia)) as Hb. rewrite <- Hn. split_and!; try done; try lia; [lia_mod|].
  unfold MAX_FRAGS. split; [|nia]. intros. destruct (decide (n_frags len s <= 32)); [nia|lia].
Qed.

(** ** A concrete pair *)

Module FragDemo.
Definition f : frame := mk_frame 100 20 20 0 10 0 0 0.
Definition fm : fragment_master := default (fragment_init 7) (fragment_frame_init (fragment_init 7) f).
Definition msg : buffer := mk_buffer 63 20 23 (Some (replicate 20 0 ++ seqZ 1 23 ++ replicate 20 0)).

Lemma f_wf : frame_wf f.
Proof. split; vm_compute; done. Qed.

Lemma fm_init : fragment_frame_init (fragment_init 7) f = Some fm.
Proof. vm_compute. reflexivity. Qed.

Definition empty_buf : buffer := mk_buffer 140 0 0 (Some (replicate 140 0)).

Lemma empty_buf_ok : frame_buf f empty_buf.
Proof.
  exists 0, [], 140. split; [|done]. apply rep_intro; try (vm_compute; reflexivity); try lia. by apply bytes_dec.
Qed.

Lemma fm_ring : ring_wf f (fm_incoming fm).
Proof.
  assert (E : fm_incoming fm = mk_flist 0 0 (replicate 25 (mk_fragment false 0 0 0 empty_buf))) by by vm_compute.
  rewrite E. split; [done|done|done|]. apply Forall_replicate. split; [apply empty_buf_ok|done].
Qed.

Lemma msg_rep : buf_rep msg 20 (seqZ 1 23) 20.
Proof. apply rep_intro; try (vm_compute; reflexivity); try lia. by apply bytes_dec. Qed.

Lemma fragment_incoming_safe_witness :
  exists out l' h' c' t', fragment_incoming 5 (fm_incoming fm) msg f = Some (out, l') /\ ring_wf f l' /\
    buf_rep out h' c' t' /\ (c' = seqZ 1 23 \/ c' = drop 4 (seqZ 1 23) \/ c' = [] \/ zlen c' <= BUF_SIZE f).
Proof. exact (fragment_incoming_safe 5 f (fm_incoming fm) msg 20 (seqZ 1 23) 20 f_wf fm_ring msg_rep). Defined.

Lemma fragments_reassemble_witness :
  exists pkts fm', send_datagram fm msg f = Some (pkts, fm') /\
    (length pkts <= 32)%nat /\ Forall (fun p => zlen p <= 4 + f_max_fragment_size f) pkts /\
    forall order last, Forall (fun i => i < length pkts)%nat (order ++ [last]) ->
      (exists i, (i < length pkts)%nat /\ i ∉ order) -> (forall i, (i < length pkts)%nat -> i ∈ order ++ [last]) ->
      exists l', receive_all 5 f (fm_incoming fm) ((fun i => default [] (pkts !! i)) <$> order ++ [last]) =
        Some (replicate (length order) [] ++ [seqZ 1 23], l').
Proof.
  apply (fragments_reassemble f fm msg 20 (seqZ 1 23) 20 (fm_incoming fm) 5);
    [exact f_wf|cbn; lia|exact empty_buf_ok|exact empty_buf_ok|vm_compute; done|exact msg_rep|vm_compute; done
    |vm_compute; done|vm_compute; done|exact fm_ring|].
  exists 8. split; [vm_compute; reflexivity|]. left. lia.
Defined.

Lemma optimal_fragment_size_exact_witness :
  exists s, optimal_fragment_size 2800 1401 = Some s /\ s mod 4 = 0 /\ 0 < s <= 1401 /\
    n_frags 2800 s = n_frags 2800 (4 * (1401 / 4)) /\ (n_frags 2800 s - 1) * s < 2800 <= n_frags 2800 s * s /\
    ((s * MAX_FRAGS <? 2800) = true <-> MAX_FRAGS < n_frags 2800 (4 * (1401 / 4))).
Proof. apply (optimal_fragment_size_exact 2800 1401); lia. Defined.

(** A peer that fragments wrongly: two last fragments, and nothing in between. *)
Definition holes : list (list Z) :=
  [frag_header FRAG_YES_LAST 1 1 4 ++ [5]; frag_header FRAG_YES_LAST 1 3 4 ++ [6];
   frag_header FRAG_YES_NOTLAST 1 0 4 ++ [1; 2; 3; 4]].

(** A datagram of twelve bytes, in three fragments. *)
Definition before : list (list Z) :=
  [frag_header FRAG_YES_NOTLAST 1 0 4 ++ [7; 7; 7; 7]; frag_header FRAG_YES_NOTLAST 1 1 4 ++ [7; 7; 7; 7];
   frag_header FRAG_YES_LAST 1 2 4 ++ [7; 7; 7; 7]].

(** A last fragment marks itself and everything behind it as received, wherever it is.
    Two of them leave a hole that no fragment has filled, and the datagram that comes out
    has the bytes that an earlier datagram left in the buffer. *)
Theorem reassembly_stale_bytes :
  fst <$> receive_all 5 f (fm_incoming fm) (before ++ holes) =
    Some [[]; []; replicate 12 7; []; []; [1; 2; 3; 4; 5; 7; 7; 7; 7; 7; 7; 7; 6]].
Proof. vm_compute. reflexivity. Qed.

(** The test for spurious flags of a whole packet uses the masks without their shifts: it
    looks at the low eight bits, and a fragment id of 31 passes. *)
Example whole_packet_flags :
  fst <$> receive_all 5 f (fm_incoming fm) [be_bytes 4 (flags_of FRAG_WHOLE 192 31 16383) ++ [8]] = Some [[8]].
Proof. vm_compute. reflexivity. Qed.
End FragDemo.
