(* ===== verification/PacketSize.v ===== *)
(** * The sizes of packets: [mtu.c], the limits of [mss.c]

    [--fragment] and [--mssfix] say how large a packet on the network may be; from the options
    and the cipher follow the size of fragments and the MSS of the connections in the tunnel.
    Here is this calculation, what encryption really adds to a packet, and that the two agree
    (but for the epoch format).  A [size_t] that goes below zero wraps ([u64]). *)
From S2P Require Import Prelude Integers Buffer Frame PacketId Replay EpochKeys EpochDerive EpochInv DataChannel DataSafety DataSend CryptoV1 CryptoModes Control.

(** ** What the calculation uses of the options *)

Definition PROTO_UDP : Z := 1.
Definition PROTO_TCP_SERVER : Z := 3.
Definition PROTO_TCP_CLIENT : Z := 4.
Definition PROTO_N : Z := 5.

Definition proto_is_udp (proto : Z) : option bool := ASSERT ((0 <=? proto) && (proto <? PROTO_N));; Some (proto =? PROTO_UDP).
Definition proto_is_tcp (proto : Z) : option bool :=
  ASSERT ((0 <=? proto) && (proto <? PROTO_N));; Some ((proto =? PROTO_TCP_CLIENT) || (proto =? PROTO_TCP_SERVER)).

Definition SOCKS_UDPv4_HEADROOM : Z := 10.
Definition COMP_ALG_STUB : Z := 1.
Definition COMP_ALG_LZO : Z := 2.
Definition COMP_ALG_LZ4 : Z := 4.

(** [mo_ce_ipv4]: [ce.af] is [AF_INET]; [mo_socks_proxy]: there is a [ce.socks_proxy_server]. *)
Record mtu_options := mk_mo {
  mo_tls_server : bool;
  mo_tls_client : bool;
  mo_shared_secret_file : bool;
  mo_use_peer_id : bool;
  mo_comp_alg : Z;
  mo_ciphername : string;
  mo_authname : string;
  mo_ce_proto : Z;
  mo_ce_ipv4 : bool;
  mo_ce_socks_proxy : bool;
  mo_ce_tun_mtu : Z;
  mo_ce_fragment : Z;
  mo_ce_fragment_encap : bool;
  mo_ce_mssfix : Z;
  mo_ce_mssfix_encap : bool;
  mo_ce_mssfix_fixed : bool
}.

Definition set_ce_mssfix (o : mtu_options) (mssfix : Z) (encap : bool) : mtu_options :=
  mk_mo (mo_tls_server o) (mo_tls_client o) (mo_shared_secret_file o) (mo_use_peer_id o) (mo_comp_alg o) (mo_ciphername o)
    (mo_authname o) (mo_ce_proto o) (mo_ce_ipv4 o) (mo_ce_socks_proxy o) (mo_ce_tun_mtu o) (mo_ce_fragment o)
    (mo_ce_fragment_encap o) mssfix encap (mo_ce_mssfix_fixed o).
Definition set_ce_fragment (o : mtu_options) (fragment : Z) (encap : bool) : mtu_options :=
  mk_mo (mo_tls_server o) (mo_tls_client o) (mo_shared_secret_file o) (mo_use_peer_id o) (mo_comp_alg o) (mo_ciphername o)
    (mo_authname o) (mo_ce_proto o) (mo_ce_ipv4 o) (mo_ce_socks_proxy o) (mo_ce_tun_mtu o) fragment
    encap (mo_ce_mssfix o) (mo_ce_mssfix_encap o) (mo_ce_mssfix_fixed o).

Definition set_max_fragment_size (f : frame) (x : Z) : frame :=
  mk_frame (f_payload_size f) (f_headroom f) (f_tailroom f) (f_mss_fix f) x (f_tun_mtu f) (f_tun_max_mtu f) (f_extra_tun f).
Definition set_mss_fix (f : frame) (x : Z) : frame :=
  mk_frame (f_payload_size f) (f_headroom f) (f_tailroom f) x (f_max_fragment_size f) (f_tun_mtu f) (f_tun_max_mtu f) (f_extra_tun f).

(** The address family (IPv4 or not) and the protocol of a connection, [None] before there is
    one: [lsi] and [lsi->lsa]. *)
Definition link_socket_info : Type := option (bool * Z).

Section sizes.
Context `{CL : CryptoLib} `{ML : ModeLib}.

(** ** Overheads *)

Definition tls_mode (o : mtu_options) : bool := mo_tls_server o || mo_tls_client o.

Definition calc_packet_id_size_dc (o : mtu_options) (kt : key_type) : Z :=
  packet_id_size (negb (tls_mode o) || cipher_kt_mode_ofb_cfb (kt_cipher kt)).

(** [occ]: as older versions compute it. *)
Definition calculate_crypto_overhead (kt : key_type) (pkt_id_size : Z) (occ : bool) : Z :=
  let c := kt_cipher kt in
  (if cipher_kt_mode_cbc c then 0 else pkt_id_size)
  + (if cipher_kt_mode_aead c then
       OPENVPN_AEAD_TAG_LENGTH + (if occ then cipher_kt_iv_size c + cipher_kt_block_size c else 0)
     else
       (if cipher_defined c then (if occ then cipher_kt_block_size c else 0) + cipher_kt_iv_size c else 0)
       + (if md_defined (kt_digest kt) then md_kt_size (kt_digest kt) else 0)).

Definition frame_calculate_protocol_header_size (kt : key_type) (o : mtu_options) (occ : bool) : option Z :=
  socks ← (if mo_ce_socks_proxy o then proto_is_udp (mo_ce_proto o) else Some false);
  tcp ← proto_is_tcp (mo_ce_proto o);
  Some ((if socks : bool then SOCKS_UDPv4_HEADROOM else 0)
        + (if tcp : bool then 2 else 0)
        + (if tls_mode o then if mo_use_peer_id o then 4 else 1 else 0)
        + calculate_crypto_overhead kt (calc_packet_id_size_dc o kt) occ).

Definition frame_calculate_payload_overhead (extra_tun : Z) (o : mtu_options) (kt : key_type) : Z :=
  extra_tun
  + (if (mo_comp_alg o =? COMP_ALG_LZ4) || (mo_comp_alg o =? COMP_ALG_STUB) || (mo_comp_alg o =? COMP_ALG_LZO) then 1 else 0)
  + (if negb (mo_ce_fragment o =? 0) then 4 else 0)
  + (if cipher_kt_mode_cbc (kt_cipher kt) then calc_packet_id_size_dc o kt else 0).

Definition frame_calculate_payload_size (f : frame) (o : mtu_options) (kt : key_type) : Z :=
  mo_ce_tun_mtu o + frame_calculate_payload_overhead (f_extra_tun f) o kt.

(** ** The MTU of the options string *)

Definition OPENVPN_MAX_CIPHER_BLOCK_SIZE : Z := 32.

(** [M_FATAL] is [None]. *)
Definition init_key_type (cipher_valid : string -> bool) (ciphername authname : string) (tls_mode : bool) : option key_type :=
  aead ← (if cipher_defined ciphername then
            ASSERT (cipher_valid ciphername);;
            let aead := cipher_kt_mode_aead ciphername in
            ASSERT (cipher_kt_mode_cbc ciphername || tls_mode && aead || tls_mode && cipher_kt_mode_ofb_cfb ciphername);;
            ASSERT (cipher_kt_block_size ciphername <=? OPENVPN_MAX_CIPHER_BLOCK_SIZE);;
            Some aead
          else Some false);
  if md_defined authname then
    if aead : bool then Some (mk_kt ciphername "none")
    else ASSERT (md_kt_size authname <=? OPENVPN_MAX_HMAC_SIZE);; Some (mk_kt ciphername authname)
  else Some (mk_kt ciphername authname).

Definition calc_options_string_link_mtu (cipher_valid : string -> bool) (o : mtu_options) (f : frame) : option Z :=
  if negb (mo_tls_client o) && negb (mo_tls_server o) && negb (mo_shared_secret_file o) then
    occ_kt ← init_key_type cipher_valid "none" "none" false;
    Some (frame_calculate_payload_size f o occ_kt)
  else
    let bf := bool_decide (mo_ciphername o = "BF-CBC"%string) in
    occ_kt ← init_key_type cipher_valid (if bf then "none"%string else mo_ciphername o) (mo_authname o) true;
    header ← frame_calculate_protocol_header_size occ_kt o true;
    Some (frame_calculate_payload_size f o occ_kt + ((if bf then 64 / 8 + 64 / 8 else 0) + header)).

(** ** The limits: [mss.c] *)

Definition adjust_payload_max_cbc (kt : key_type) (target : Z) : option Z :=
  if negb (cipher_kt_mode_cbc (kt_cipher kt)) then Some target
  else
    let block_size := cipher_kt_block_size (kt_cipher kt) in
    ASSERT (negb (block_size =? 0));; Some (u64 (round_down_size target block_size - 1)).

Definition get_ip_encap_overhead (o : mtu_options) (lsi : link_socket_info) : Z :=
  let '(ipv4, proto) := match lsi with Some p => p | None => (mo_ce_ipv4 o, mo_ce_proto o) end in
  datagram_overhead ipv4 (proto =? PROTO_UDP).

Definition frame_calculate_fragment (f : frame) (kt : key_type) (o : mtu_options) (lsi : link_socket_info) : option frame :=
  header ← frame_calculate_protocol_header_size kt o false;
  let overhead := header + (if mo_ce_fragment_encap o then get_ip_encap_overhead o lsi else 0) in
  let target := u64 (mo_ce_fragment o - overhead) in
  payload_max ← adjust_payload_max_cbc kt target;
  size ← clamp_size_to_int payload_max;
  let size := size - 4 in
  Some (set_max_fragment_size f
          (if cipher_kt_mode_cbc (kt_cipher kt) then i32 (size - calc_packet_id_size_dc o kt) else size)).

Definition frame_calculate_mssfix (f : frame) (kt : key_type) (o : mtu_options) (lsi : link_socket_info) : option frame :=
  if mo_ce_mssfix_fixed o then Some (set_mss_fix f (u16 (mo_ce_mssfix o - (20 + 20))))
  else
    header ← frame_calculate_protocol_header_size kt o false;
    let payload_overhead := frame_calculate_payload_overhead (f_extra_tun f) o kt in
    let overhead := header + (if mo_ce_mssfix_encap o then get_ip_encap_overhead o lsi else 0) in
    let payload_overhead := payload_overhead + (20 + 20) in
    let target := u64 (mo_ce_mssfix o - overhead) in
    payload_max ← adjust_payload_max_cbc kt target;
    Some (set_mss_fix f (u16 (payload_max - payload_overhead))).

Definition frame_calculate_dynamic (f : frame) (kt : key_type) (o : mtu_options) (lsi : link_socket_info) : option frame :=
  f ← (if 0 <? mo_ce_fragment o then frame_calculate_fragment f kt o lsi else Some f);
  if 0 <? mo_ce_mssfix o then frame_calculate_mssfix f kt o lsi else Some f.

(** The MTU that the path to the peer has ([pmtu]) lowers the limits; the results are the
    options, [c2.frame] and [c2.frame_fragment]. *)
Definition frame_adjust_path_mtu (pmtu : Z) (af_ipv4 : bool) (proto : Z) (kt : key_type) (o : mtu_options) (f f_fragment : frame)
  : option (mtu_options * frame * frame) :=
  let lsi := Some (af_ipv4, proto) in
  let encap_overhead := datagram_overhead af_ipv4 (proto =? PROTO_UDP) in
  '(o, f) ← (if (pmtu <? mo_ce_mssfix o) || mo_ce_mssfix_encap o && (pmtu <? mo_ce_mssfix o + encap_overhead) then
               let o := set_ce_mssfix o pmtu true in
               f ← frame_calculate_dynamic f kt o lsi; Some (o, f)
             else Some (o, f));
  if (pmtu <? mo_ce_fragment o) || mo_ce_fragment_encap o && (pmtu <? mo_ce_fragment o + encap_overhead) then
    let o := set_ce_fragment o pmtu true in
    f_fragment ← frame_calculate_dynamic f_fragment kt o lsi; Some (o, f, f_fragment)
  else Some (o, f, f_fragment).
End sizes.

(** ** What encryption adds *)

(** What libraries document of the sizes: CBC pads to the next multiple of the block size, OFB
    and CFB add nothing; a cipher has one mode, and [none] has none. *)
Class SizeLaws `{CryptoLib} `{ModeLib} := {
  cbc_length c k iv texts out fin : cipher_kt_mode_cbc c = true -> stream_out true c k iv texts = Some (out, fin) ->
    zlen out + zlen fin = cipher_kt_block_size c * (zlen (concat texts) / cipher_kt_block_size c + 1);
  cbc_block c : cipher_kt_mode_cbc c = true -> 0 < cipher_kt_block_size c;
  stream_length c k iv texts out fin : cipher_kt_mode_ofb_cfb c = true -> stream_out true c k iv texts = Some (out, fin) ->
    zlen out + zlen fin = zlen (concat texts);
  aead_alone c : cipher_kt_mode_aead c = true -> cipher_kt_mode_cbc c = false /\ cipher_kt_mode_ofb_cfb c = false;
  none_modes c : cipher_defined c = false ->
    cipher_kt_mode_aead c = false /\ cipher_kt_mode_cbc c = false /\ cipher_kt_mode_ofb_cfb c = false
}.

Section limits.
Context `{CL : CryptoLib} `{ML : ModeLib} `{Cok : !CryptoLaws} `{Mok : !ModeLaws} `{Sok : !SizeLaws}.

(** The size of a packet with [n] bytes of payload, without its opcode. *)
Definition body_size (kt : key_type) (o : mtu_options) (n : Z) : Z :=
  let c := kt_cipher kt in
  let bs := cipher_kt_block_size c in
  let pid := calc_packet_id_size_dc o kt in
  if cipher_kt_mode_aead c then packet_id_size false + OPENVPN_AEAD_TAG_LENGTH + n
  else (if md_defined (kt_digest kt) then md_kt_size (kt_digest kt) else 0)
       + (if cipher_defined c then cipher_kt_iv_size c + (if cipher_kt_mode_cbc c then bs * ((pid + n) / bs + 1) else n)
          else pid + n).

Definition opcode_size (o : mtu_options) : Z := if tls_mode o then if mo_use_peer_id o then 4 else 1 else 0.
Definition proxy_size (o : mtu_options) : Z :=
  (if mo_ce_socks_proxy o && (mo_ce_proto o =? PROTO_UDP) then SOCKS_UDPv4_HEADROOM else 0)
  + (if (mo_ce_proto o =? PROTO_TCP_CLIENT) || (mo_ce_proto o =? PROTO_TCP_SERVER) then 2 else 0).

(** The key context that is made for a key type in this mode. *)
Record keys_match (kt : key_type) (o : mtu_options) (opt : crypto_options) : Prop := {
  km_cipher : match kc_cipher (co_encrypt opt) with
              | Some (name, _) => cipher_defined (kt_cipher kt) = true /\ name = kt_cipher kt
              | None => cipher_defined (kt_cipher kt) = false
              end;
  km_mode : cipher_defined (kt_cipher kt) = true ->
    cipher_kt_mode_aead (kt_cipher kt) = true \/ cipher_kt_mode_cbc (kt_cipher kt) = true \/ cipher_kt_mode_ofb_cfb (kt_cipher kt) = true;
  km_hmac : cipher_kt_mode_aead (kt_cipher kt) = false ->
    match kc_hmac (co_encrypt opt) with
    | Some (digest, _) => md_defined (kt_digest kt) = true /\ digest = kt_digest kt
    | None => md_defined (kt_digest kt) = false
    end;
  km_ids : packet_id_initialized (co_packet_id opt) = true;
  km_form : co_long_form opt = negb (tls_mode o) || cipher_kt_mode_ofb_cfb (kt_cipher kt);
  km_epoch : co_epoch_format opt = false
}.

(** There is a next packet id, and room. *)
Definition ready_to_send (now : Z) (kt : key_type) (opt : crypto_options) (h : Z) (m : list Z) (work : buffer) (pre rnd : list Z)
    (p' : packet_id_send) : Prop :=
  if cipher_kt_mode_aead (kt_cipher kt) then
    packet_id_send_update now (send (co_packet_id opt)) false = (true, p') /\
    exists wh wt, buf_rep work wh pre wt /\ zlen m + 20 + cipher_kt_block_size (kt_cipher kt) <= wt
  else next_id now (co_encrypt opt) opt p' /\ send_ready (co_encrypt opt) h m work pre rnd.

Lemma fresh_iv n : 0 < n <= OPENVPN_MAX_IV_LENGTH ->
  exists b, buf_set_write (Some (zeros n)) n = Some b /\ buf_rep b 0 [] n.
Proof.
  intros Hn. unfold OPENVPN_MAX_IV_LENGTH, buf_set_write, buf_size_valid in *. rewrite u64_small by (unfold is_u64; lia).
  rewrite ASSERT_true, Some_bind by (unfold BUF_SIZE_MAX; lia).
  replace (0 <? n) with true by lia. cbn [fmap option_fmap option_map].
  assert (Hz : splice 0 [0] (zeros n) = zeros n).
  { unfold zeros. replace (Z.to_nat n) with (S (Z.to_nat n - 1)) by lia. reflexivity. }
  rewrite Hz. eexists. split; [done|].
  apply rep_intro; try lia; try done; [unfold BUF_SIZE_MAX; lia|apply length_zeros; lia|].
  apply Forall_replicate. unfold is_u8. lia.
Qed.

(** The AEAD format without epochs: id, tag, ciphertext. *)
Lemma encrypt_short_ok now buf h m t work wh pre wt opt name key p' :
  kc_cipher (co_encrypt opt) = Some (name, key) -> cipher_kt_mode_aead name = true -> co_epoch_format opt = false ->
  packet_id_initialized (co_packet_id opt) = true -> packet_id_send_update now (send (co_packet_id opt)) false = (true, p') ->
  buf_rep buf h m t -> buf_rep work wh pre wt -> zlen m + 20 + cipher_kt_block_size name <= wt ->
  let pid := pid_bytes false (sent_pin p') in
  exists iv k' out, let '(ct, tag) := aead_seal name key iv (pre ++ pid) m in
    openvpn_encrypt_aead now buf work opt = Some (out, set_encrypt (set_send opt p') k') /\
    buf_rep out wh (pre ++ pid ++ tag ++ ct) (wt - 20 - zlen m).
Proof.
  intros Ek Ha Hf Hinit Hu Hb Hw Hroom pid. unfold openvpn_encrypt_aead, encrypt_body. rewrite Hf. cbv zeta. rewrite Some_bind, Hf, Ek, Some_bind.
  unfold packet_id_initialized in Hinit. rewrite Hinit. cbn [ASSERT]. rewrite Some_bind.
  pose proof (iv_size_ok _ Ha) as Hiv. rewrite ASSERT_true, Some_bind by lia.
  unfold OPENVPN_AEAD_MIN_IV_LEN in Hiv. pose proof (block_size_ok name) as Hbs.
  destruct (fresh_iv (cipher_kt_iv_size name)) as (b0 & -> & Hb0); [lia|]. rewrite Some_bind.
  destruct (packet_id_write_append now _ false _ _ _ _ _ Hb0 Hu) as (b1 & -> & Hb1); [unfold packet_id_size; lia|].
  cbv iota beta. cbn [negb]. pose proof (rep_content _ _ _ _ Hb1) as Hc1. rewrite app_nil_l in Hc1. fold pid in Hc1. rewrite !Hc1.
  assert (Hpid : zlen pid = 4) by apply length_pid_bytes.
  destruct (write_rep _ _ _ _ pid Hw) as (w1 & -> & Hw1); [apply pid_bytes_bytes|lia|].
  rewrite Some_bind, (ASSERT_true true), Some_bind by done. cbv zeta.
  assert (Hm : 0 <= zlen m < BUF_SIZE_MAX) by (pose proof (rep_bounds _ _ _ _ Hb); lia).
  unfold BUF_SIZE_MAX in *. change OPENVPN_AEAD_TAG_LENGTH with 16.
  rewrite (rep_len _ _ _ _ Hb), u64_small, (safe_rep _ _ _ _ _ Hw1) by (unfold is_u64; lia). cbn [negb].
  rewrite (rep_content _ _ _ _ Hw1), (rep_content _ _ _ _ Hb).
  set (iv := xor_iv _ _). exists iv. pose proof (seal_length name key iv (pre ++ pid) m) as [Hl1 Hl2].
  pose proof (seal_bytes name key iv (pre ++ pid) m) as [Hb2 Hb3]; [apply (rep_bounds _ _ _ _ Hb)|].
  destruct (aead_seal name key iv (pre ++ pid) m) as [ct tag]. cbn [fst snd] in *. unfold OPENVPN_AEAD_TAG_LENGTH in Hl2.
  destruct (write_alloc_old _ _ _ _ 16 Hw1) as (w2 & old & -> & Hold & Hw2); [lia|]. rewrite !Some_bind.
  rewrite (bend_rep _ _ _ _ Hw2), Some_bind.
  destruct (inc_len_poke_rep _ _ _ _ ct Hw2 Hb2) as (w3 & -> & Hw3); [lia|].
  rewrite Some_bind, (ASSERT_true true), Some_bind by done. rewrite <- app_assoc in Hw3.
  eexists _, _. split; [done|].
  pose proof (poke_rep _ _ _ _ _ _ tag Hw3) as Hr. rewrite <- !app_assoc in Hr.
  replace (wt - 20 - zlen m) with (wt - zlen pid - 16 - zlen ct) by lia. apply Hr; [lia|done].
Qed.

Lemma body_v1_size kt o opt pin rnd m body :
  keys_match kt o opt -> cipher_kt_mode_aead (kt_cipher kt) = false ->
  match kc_cipher (co_encrypt opt) with Some (name, _) => zlen rnd = cipher_kt_iv_size name | None => True end ->
  legacy (co_encrypt opt) ->
  v1_body (co_encrypt opt) opt pin rnd m body -> zlen (tagged (co_encrypt opt) body) = body_size kt o (zlen m).
Proof.
  intros [Hc _ Hh Hids Hform _] Ha Hrnd Hl Hbody. rewrite length_tagged. unfold body_size, tag_size. rewrite Ha.
  specialize (Hh Ha). f_equal; [destruct (kc_hmac _) as [[d k]|]; [by destruct Hh as [-> ->]|by rewrite Hh]|].
  unfold v1_body, v1_iv_bytes, id_field, id_in_iv, legacy, calc_packet_id_size_dc in *. rewrite Hids, <- Hform in *.
  destruct (kc_cipher (co_encrypt opt)) as [[name key]|].
  - destruct Hc as [Hdef ->]. rewrite Hdef. destruct Hbody as (out & fin & Hs & ->). destruct Hl as [_ Hmode].
    destruct (cipher_kt_mode_cbc (kt_cipher kt)) eqn:Ec; cbn [negb andb] in *.
    + pose proof (cbc_length _ _ _ _ _ _ Ec Hs) as Hn. cbn [concat] in Hn.
      rewrite !length_app, !Nat2Z.inj_add, Hrnd in *. cbn [length] in Hn. rewrite length_pid_bytes in Hn.
      rewrite Z.add_0_r in Hn. rewrite <- Hn. lia.
    + destruct Hmode as [?|Ho]; [done|]. pose proof (stream_length _ _ _ _ _ _ Ho Hs) as Hn. cbn [concat] in Hn. rewrite !app_nil_r, app_nil_l in Hn.
      rewrite !length_app, !Nat2Z.inj_add, length_splice, Hn.
      * rewrite length_zeros; [lia|]. pose proof (legacy_iv_size _ (or_intror Ho)). lia.
      * done.
      * rewrite length_pid_bytes, length_zeros by (pose proof (legacy_iv_size _ (or_intror Ho)); lia). pose proof (legacy_iv_size _ (or_intror Ho)). unfold packet_id_size. lia.
  - rewrite Hc. subst body. cbn [negb andb]. by rewrite length_app, Nat2Z.inj_add, length_pid_bytes.
Qed.

Lemma match_legacy kt o opt : keys_match kt o opt -> cipher_kt_mode_aead (kt_cipher kt) = false -> legacy (co_encrypt opt).
Proof.
  intros [Hc Hm _ _ _ _] Ha. unfold legacy. destruct (kc_cipher _) as [[name key]|]; [|done]. destruct Hc as [Hd ->]. split; [done|].
  destruct (Hm Hd) as [?|?]; [congruence|done].
Qed.

(** What [openvpn_encrypt] sends has this size. *)
Lemma packet_size now kt o buf h m t work pre opt rnd p' :
  buf_rep buf h m t -> m <> [] -> keys_match kt o opt -> ready_to_send now kt opt h m work pre rnd p' ->
  exists out oh pkt ot opt', openvpn_encrypt now buf work opt rnd = Some (out, opt') /\
    buf_rep out oh (pre ++ pkt) ot /\ zlen pkt = body_size kt o (zlen m).
Proof.
  intros Hb Hm Hk Hr. unfold ready_to_send in Hr. unfold openvpn_encrypt. rewrite (rep_len _ _ _ _ Hb).
  destruct (zlen m <=? 0) eqn:E0; [destruct m; cbn in E0; [done|lia]|].
  pose proof Hk as [Hc Hmode _ Hids _ Hepoch]. destruct (cipher_kt_mode_aead (kt_cipher kt)) eqn:Ha.
  - destruct Hr as (Hu & wh & wt & Hw & Hroom). unfold cipher_ctx_mode_aead.
    destruct (kc_cipher (co_encrypt opt)) as [[name key]|] eqn:Ek; [|pose proof (none_modes _ Hc) as (? & _); congruence].
    destruct Hc as [_ ->]. rewrite Ha. destruct (encrypt_short_ok now buf h m t work wh pre wt opt _ key p' Ek Ha) as (iv & k' & out & Ho); try done.
    pose proof (seal_length (kt_cipher kt) key iv (pre ++ pid_bytes false (sent_pin p')) m) as [Hl1 Hl2].
    destruct (aead_seal _ _ _ _ _) as [ct tag]. cbn [fst snd] in *. destruct Ho as [-> Ho].
    eexists out, _, _, _, _. split; [done|]. split; [exact Ho|].
    unfold body_size. rewrite Ha, !length_app, !Nat2Z.inj_add, length_pid_bytes, Hl2, Hl1. lia.
  - destruct Hr as [Hn Hs]. pose proof (match_legacy _ _ _ Hk Ha) as Hl.
    assert (Hna : cipher_ctx_mode_aead (co_encrypt opt) = false) by by apply legacy_not_aead. rewrite Hna.
    destruct (encrypt_v1_ok now buf h m t work pre opt rnd p' Hb Hm Hl Hn) as (out & oh & ot & body & E & Hbody & Ho); [done|done|].
    exists out, oh, (tagged (co_encrypt opt) body), ot, (set_send opt p'). split; [done|]. split; [done|].
    apply (body_v1_size kt o opt (sent_pin p') rnd); try done. unfold send_ready in Hs. destruct (kc_cipher _) as [[? ?]|]; [apply Hs|done].
Qed.

(** ** The limits are kept *)

(** The calculation finds room in its target. *)
Definition target_ok (kt : key_type) (target : Z) : Prop :=
  0 <= target < 2 ^ 31 /\ (cipher_kt_mode_cbc (kt_cipher kt) = true -> cipher_kt_block_size (kt_cipher kt) <= target).

Definition payload_max (kt : key_type) (target : Z) : Z :=
  if cipher_kt_mode_cbc (kt_cipher kt) then round_down_size target (cipher_kt_block_size (kt_cipher kt)) - 1 else target.

Lemma adjust_ok kt target : target_ok kt target ->
  adjust_payload_max_cbc kt target = Some (payload_max kt target) /\ 0 <= payload_max kt target <= target.
Proof.
  intros [Ht Hbs]. unfold adjust_payload_max_cbc, payload_max, round_down_size. destruct (cipher_kt_mode_cbc _) eqn:Ec; cbn [negb]; [|split; [done|lia]].
  pose proof (cbc_block _ Ec) as Hb. specialize (Hbs eq_refl).
  assert (H1 : 1 <= target / cipher_kt_block_size (kt_cipher kt)) by (apply Z.div_le_lower_bound; lia).
  pose proof (Z.mul_div_le target _ Hb) as H2. assert (H3 : 1 * cipher_kt_block_size (kt_cipher kt) <= target / cipher_kt_block_size (kt_cipher kt) * cipher_kt_block_size (kt_cipher kt)) by (apply Z.mul_le_mono_nonneg_r; lia).
  rewrite ASSERT_true, Some_bind by lia. rewrite u64_small by (unfold is_u64; lia). split; [done|lia].
Qed.

(** A payload within that room makes a packet within the target and the overhead. *)
Lemma body_fits kt o n target :
  target_ok kt target -> n + (if cipher_kt_mode_cbc (kt_cipher kt) then calc_packet_id_size_dc o kt else 0) <= payload_max kt target -> 0 <= n ->
  (cipher_kt_mode_cbc (kt_cipher kt) = true -> cipher_defined (kt_cipher kt) = true) ->
  body_size kt o n <= target + calculate_crypto_overhead kt (calc_packet_id_size_dc o kt) false.
Proof.
  intros [Ht Hbs] Hn H0 Hdef. unfold body_size, payload_max, calculate_crypto_overhead, OPENVPN_AEAD_TAG_LENGTH, round_down_size in *.
  assert (Hp : packet_id_size false <= calc_packet_id_size_dc o kt) by (unfold calc_packet_id_size_dc; destruct (_ || _); unfold packet_id_size; lia).
  assert (Hp0 : 0 <= calc_packet_id_size_dc o kt) by (unfold calc_packet_id_size_dc; destruct (_ || _); unfold packet_id_size; lia).
  destruct (cipher_kt_mode_aead (kt_cipher kt)) eqn:Ha.
  { destruct (aead_alone _ Ha) as [Ec _]. rewrite Ec in *. lia. }
  destruct (cipher_kt_mode_cbc (kt_cipher kt)) eqn:Ec; [|destruct (cipher_defined _); lia].
  rewrite Hdef by done. pose proof (cbc_block _ Ec) as Hb.
  set (bs := cipher_kt_block_size (kt_cipher kt)) in *. set (x := calc_packet_id_size_dc o kt + n) in *.
  assert (H1 : x / bs + 1 <= target / bs) by (enough (x / bs < target / bs) by lia; apply Z.div_lt_upper_bound; lia).
  pose proof (Z.mul_div_le target _ Hb). assert (bs * (x / bs + 1) <= bs * (target / bs)) by (apply Z.mul_le_mono_nonneg_l; lia). lia.
Qed.

Lemma header_ok kt o occ : 0 <= mo_ce_proto o < PROTO_N ->
  frame_calculate_protocol_header_size kt o occ =
    Some (proxy_size o + opcode_size o + calculate_crypto_overhead kt (calc_packet_id_size_dc o kt) occ).
Proof.
  intros Hp. unfold frame_calculate_protocol_header_size, proto_is_udp, proto_is_tcp, proxy_size, opcode_size. rewrite !ASSERT_true, !Some_bind by lia.
  destruct (mo_ce_socks_proxy o); rewrite !Some_bind; cbn [andb]; f_equal; lia.
Qed.

Definition encap_size (o : mtu_options) (lsi : link_socket_info) (encap : bool) : Z := if encap then get_ip_encap_overhead o lsi else 0.

(** What is left of a limit for the payload. *)
Definition target_of (kt : key_type) (o : mtu_options) (lsi : link_socket_info) (limit : Z) (encap : bool) : Z :=
  limit - (proxy_size o + opcode_size o + calculate_crypto_overhead kt (calc_packet_id_size_dc o kt) false + encap_size o lsi encap).

(** What is in front of an IP packet when it is encrypted: Ethernet, compression, fragment
    headers. *)
Definition inner_headers (f : frame) (o : mtu_options) : Z :=
  f_extra_tun f
  + (if (mo_comp_alg o =? COMP_ALG_LZ4) || (mo_comp_alg o =? COMP_ALG_STUB) || (mo_comp_alg o =? COMP_ALG_LZO) then 1 else 0)
  + (if negb (mo_ce_fragment o =? 0) then 4 else 0).

Definition payload_id (kt : key_type) (o : mtu_options) : Z :=
  if cipher_kt_mode_cbc (kt_cipher kt) then calc_packet_id_size_dc o kt else 0.

(** The limits leave room; an MSS is a [uint16_t]. *)
Definition limits_ok (f : frame) (kt : key_type) (o : mtu_options) (lsi : link_socket_info) : Prop :=
  0 <= mo_ce_proto o < PROTO_N /\
  (0 < mo_ce_fragment o -> target_ok kt (target_of kt o lsi (mo_ce_fragment o) (mo_ce_fragment_encap o))) /\
  (0 < mo_ce_mssfix o -> mo_ce_mssfix_fixed o = false ->
     let target := target_of kt o lsi (mo_ce_mssfix o) (mo_ce_mssfix_encap o) in
     target_ok kt target /\ 0 <= payload_max kt target - (inner_headers f o + payload_id kt o + 40) < 2 ^ 16).

Lemma fragment_ok f kt o lsi :
  let target := target_of kt o lsi (mo_ce_fragment o) (mo_ce_fragment_encap o) in
  0 <= mo_ce_proto o < PROTO_N -> target_ok kt target ->
  frame_calculate_fragment f kt o lsi = Some (set_max_fragment_size f (payload_max kt target - 4 - payload_id kt o)).
Proof.
  intros target Hp Ht. unfold frame_calculate_fragment. rewrite (header_ok _ _ _ Hp), Some_bind. cbv zeta. fold (encap_size o lsi (mo_ce_fragment_encap o)).
  change (mo_ce_fragment o - _) with target. rewrite (u64_small target) by (unfold is_u64; destruct Ht; lia).
  destruct (adjust_ok kt target Ht) as [-> Hm]. rewrite Some_bind. unfold clamp_size_to_int, payload_id. destruct Ht as [Ht _].
  rewrite ASSERT_true, Some_bind by (unfold INT_MAX; lia). rewrite Some_bind, (i32_small (payload_max _ _)) by (unfold is_int; lia).
  destruct (cipher_kt_mode_cbc _); [|by rewrite Z.sub_0_r]. rewrite i32_small; [done|].
  unfold is_int, calc_packet_id_size_dc. destruct (_ || _); unfold packet_id_size; lia.
Qed.

Lemma mssfix_ok f kt o lsi :
  let target := target_of kt o lsi (mo_ce_mssfix o) (mo_ce_mssfix_encap o) in
  let room := payload_max kt target - (inner_headers f o + payload_id kt o + 40) in
  0 <= mo_ce_proto o < PROTO_N -> mo_ce_mssfix_fixed o = false -> target_ok kt target -> 0 <= room < 2 ^ 16 ->
  frame_calculate_mssfix f kt o lsi = Some (set_mss_fix f room).
Proof.
  intros target room Hp Hfix Ht Hr. unfold frame_calculate_mssfix. rewrite Hfix, (header_ok _ _ _ Hp), Some_bind. cbv zeta.
  fold (encap_size o lsi (mo_ce_mssfix_encap o)). change (mo_ce_mssfix o - _) with target.
  rewrite (u64_small target) by (unfold is_u64; destruct Ht; lia). destruct (adjust_ok kt target Ht) as [-> Hm]. rewrite Some_bind.
  replace (payload_max kt target - (frame_calculate_payload_overhead (f_extra_tun f) o kt + (20 + 20))) with room
    by (unfold room, frame_calculate_payload_overhead, inner_headers, payload_id; lia).
  by rewrite u16_small.
Qed.

Lemma dynamic_ok f kt o lsi : limits_ok f kt o lsi ->
  exists f', frame_calculate_dynamic f kt o lsi = Some f' /\
    (0 < mo_ce_fragment o -> f_max_fragment_size f' = payload_max kt (target_of kt o lsi (mo_ce_fragment o) (mo_ce_fragment_encap o)) - 4 - payload_id kt o) /\
    (0 < mo_ce_mssfix o -> mo_ce_mssfix_fixed o = false ->
       f_mss_fix f' = payload_max kt (target_of kt o lsi (mo_ce_mssfix o) (mo_ce_mssfix_encap o)) - (inner_headers f o + payload_id kt o + 40)).
Proof.
  intros (Hp & Hf & Hm). unfold frame_calculate_dynamic.
  set (f1 := if 0 <? mo_ce_fragment o then set_max_fragment_size f (payload_max kt (target_of kt o lsi (mo_ce_fragment o) (mo_ce_fragment_encap o)) - 4 - payload_id kt o) else f).
  assert (E1 : (if 0 <? mo_ce_fragment o then frame_calculate_fragment f kt o lsi else Some f) = Some f1).
  { unfold f1. destruct (0 <? mo_ce_fragment o) eqn:E; [|done]. apply fragment_ok; [done|apply Hf; lia]. }
  rewrite E1, Some_bind. assert (Hi : inner_headers f1 o = inner_headers f o) by (unfold f1; by destruct (0 <? _)).
  destruct (0 <? mo_ce_mssfix o) eqn:E2.
  - destruct (mo_ce_mssfix_fixed o) eqn:Ex.
    + unfold frame_calculate_mssfix. rewrite Ex. eexists. split; [done|]. split; [|done]. intros E. unfold f1. by replace (0 <? mo_ce_fragment o) with true by lia.
    + destruct (Hm ltac:(lia) eq_refl) as [Ht Hr]. rewrite (mssfix_ok f1 kt o lsi), Hi by (done || by rewrite Hi). eexists. split; [done|].
      split; [|done]. intros E. unfold f1. by replace (0 <? mo_ce_fragment o) with true by lia.
  - eexists. split; [done|]. split; [|lia]. intros E. unfold f1. by replace (0 <? mo_ce_fragment o) with true by lia.
Qed.

(** C26: The limits on packets are kept.  When [--fragment] and [--mssfix] leave room for
    something, [frame_calculate_dynamic] gives limits, and whatever the mode - AEAD, CBC, OFB,
    CFB, no cipher, with or without a digest, but not the epoch format, whose packets are 4 bytes
    larger ([epoch_fragment_too_large]) -, the framing and the proxy: a fragment of the calculated
    size with its header, and, unless [--mssfix] is [fixed], an IP packet whose TCP segment has
    the calculated size, are sent in packets that are not larger on the network than the options
    say. *)
Theorem packet_limits_kept f kt o lsi : limits_ok f kt o lsi ->
  exists f', frame_calculate_dynamic f kt o lsi = Some f' /\
  forall now buf h m t work pre opt rnd p' later,
    buf_rep buf h m t -> m <> [] -> keys_match kt o opt -> ready_to_send now kt opt h m work pre rnd p' ->
    zlen pre + later = opcode_size o ->
    exists out opt', openvpn_encrypt now buf work opt rnd = Some (out, opt') /\
      let wire encap := proxy_size o + (b_len out + later) + encap_size o lsi encap in
      (0 < mo_ce_fragment o -> zlen m <= 4 + f_max_fragment_size f' -> wire (mo_ce_fragment_encap o) <= mo_ce_fragment o) /\
      (0 < mo_ce_mssfix o -> mo_ce_mssfix_fixed o = false -> zlen m <= inner_headers f o + 20 + 20 + f_mss_fix f' ->
         wire (mo_ce_mssfix_encap o) <= mo_ce_mssfix o).
Proof.
  intros Hl. destruct (dynamic_ok _ _ _ _ Hl) as (f' & E & Ef & Em). exists f'. split; [done|].
  intros now buf h m t work pre opt rnd p' later Hb Hm Hk Hr Hpre.
  destruct (packet_size now kt o buf h m t work pre opt rnd p' Hb Hm Hk Hr) as (out & oh & pkt & ot & opt' & Ee & Ho & Hs).
  exists out, opt'. split; [done|]. cbv zeta. rewrite (rep_len _ _ _ _ Ho), length_app, Nat2Z.inj_add, Hs.
  destruct Hl as (Hp & Hf & Hx).
  assert (Hd : cipher_kt_mode_cbc (kt_cipher kt) = true -> cipher_defined (kt_cipher kt) = true).
  { intros Ec. destruct (cipher_defined _) eqn:Ed; [done|]. apply none_modes in Ed as (_ & ? & _). congruence. }
  assert (Hfit : forall limit encap, target_ok kt (target_of kt o lsi limit encap) ->
            zlen m + payload_id kt o <= payload_max kt (target_of kt o lsi limit encap) ->
            proxy_size o + (zlen pre + body_size kt o (zlen m) + later) + encap_size o lsi encap <= limit).
  { intros limit encap Ht Hn. pose proof (body_fits kt o (zlen m) _ Ht Hn ltac:(lia) Hd) as Hbf. unfold target_of in Hbf. lia. }
  split.
  - intros H0 Hn. apply Hfit; [by apply Hf|]. rewrite (Ef H0) in Hn. lia.
  - intros H0 Hfix Hn. destruct (Hx H0 Hfix) as [Ht _]. apply Hfit; [done|]. rewrite (Em H0 Hfix) in Hn. lia.
Qed.
End limits.

(** ** Where the limits are not kept *)

Section defects.
Context `{CL : CryptoLib} `{ML : ModeLib} `{Cok : !CryptoLaws} `{Mok : !ModeLaws} `{Sok : !SizeLaws}.

(** A limit on fragments that is smaller than the overhead stops the process: the difference
    wraps, and [clamp_size_to_int] does not take it.  [--fragment] is accepted from 68 on. *)
Lemma small_fragment_aborts f kt o lsi :
  0 <= mo_ce_proto o < PROTO_N -> 0 < mo_ce_fragment o -> cipher_kt_mode_cbc (kt_cipher kt) = false ->
  -2 ^ 31 < target_of kt o lsi (mo_ce_fragment o) (mo_ce_fragment_encap o) < 0 ->
  frame_calculate_dynamic f kt o lsi = None.
Proof.
  intros Hp Hf Hc Ht. unfold frame_calculate_dynamic. replace (0 <? mo_ce_fragment o) with true by lia.
  unfold frame_calculate_fragment. rewrite (header_ok _ _ _ Hp), Some_bind. cbv zeta. fold (encap_size o lsi (mo_ce_fragment_encap o)).
  change (mo_ce_fragment o - _) with (target_of kt o lsi (mo_ce_fragment o) (mo_ce_fragment_encap o)).
  unfold adjust_payload_max_cbc. rewrite Hc. cbn [negb]. rewrite Some_bind. unfold clamp_size_to_int.
  rewrite ASSERT_false; [done|]. unfold INT_MAX. assert (H : 2 ^ 63 <= u64 (target_of kt o lsi (mo_ce_fragment o) (mo_ce_fragment_encap o))) by (unfold u64; lia_mod). lia.
Qed.

(** The calculation does not know the ids of the epoch format, which have 8 bytes: the packet
    of a fragment of the calculated size is 4 bytes larger than [--fragment] allows. *)
Lemma epoch_fragment_too_large f f' kt o lsi x e i pre m :
  limits_ok f kt o lsi -> frame_calculate_dynamic f kt o lsi = Some f' ->
  0 < mo_ce_fragment o -> tls_mode o = true -> cipher_kt_mode_aead (kt_cipher kt) = true ->
  zlen pre = opcode_size o -> zlen m = 4 + f_max_fragment_size f' ->
  proxy_size o + zlen (packet_spec kt x e i pre m) + encap_size o lsi (mo_ce_fragment_encap o) = mo_ce_fragment o + 4.
Proof.
  intros Hl E Hf Ht Ha Hpre Hm. destruct (dynamic_ok _ _ _ _ Hl) as (f1 & E1 & Ef & _). rewrite E in E1. injection E1 as <-.
  rewrite (Ef Hf) in Hm. destruct (aead_alone _ Ha) as [Hc Ho]. unfold payload_max, payload_id in Hm. rewrite Hc in Hm.
  unfold target_of, calculate_crypto_overhead, calc_packet_id_size_dc in Hm. rewrite Hc, Ha, Ho, Ht in Hm. cbn [negb orb] in Hm. unfold packet_id_size in Hm.
  unfold packet_spec, sealed. destruct (data_key_spec kt _) as [name key].
  match goal with |- context[aead_seal ?a ?b ?c ?d ?e] => pose proof (seal_length a b c d e) as [Hl1 Hl2]; destruct (aead_seal a b c d e) as [ct tag] end.
  cbn [fst snd] in *. rewrite !length_app, !Nat2Z.inj_add. unfold explicit_iv. rewrite length_be_bytes. lia.
Qed.
End defects.

(** ** The calculation at concrete options *)

Module SizeDemo.

(** The sizes of some ciphers and digests; nothing is encrypted. *)
Definition one_of (l : list string) (c : string) : bool := existsb (String.eqb c) l.

#[local] Instance sizes_crypto : CryptoLib := {
  hmac_sha256 k m := [];
  cipher_kt_iv_size c := if String.eqb c "AES-256-GCM" then 12 else 16;
  cipher_kt_key_size _ := 32;
  cipher_kt_block_size _ := 16;
  cipher_kt_mode_aead c := String.eqb c "AES-256-GCM";
  cipher_kt_name c := c;
  md_kt_size d := if String.eqb d "SHA256" then 32 else if String.eqb d "SHA1" then 20 else 0;
  aead_seal _ _ _ _ m := (m, []);
  aead_open _ _ _ _ m _ := Some m
}.

#[local] Instance sizes_modes : ModeLib := {
  md_hmac _ _ m := m;
  cipher_kt_mode_cbc c := String.eqb c "AES-128-CBC";
  cipher_kt_mode_ofb_cfb c := String.eqb c "AES-128-CFB";
  cipher_stream := unit;
  cipher_ctx_reset _ _ _ _ := Some tt;
  cipher_ctx_update _ x := Some (x, tt);
  cipher_ctx_final _ := Some []
}.

Definition known : string -> bool := one_of ["AES-128-CBC"; "AES-128-CFB"; "AES-256-GCM"]%string.

(** Options of a tunnel over UDP with an MTU of 1400: without TLS and key ([plain]), with a
    static key ([secret]), and with TLS. *)
Definition plain (cipher auth : string) : mtu_options :=
  mk_mo false false false false 0 cipher auth PROTO_UDP false false 1400 0 false 0 false false.
Definition secret (cipher auth : string) (proto comp fragment : Z) : mtu_options :=
  mk_mo false false true false comp cipher auth proto false false 1400 fragment false 0 false false.
Definition tls (cipher auth : string) (comp fragment : Z) (socks : bool) : mtu_options :=
  mk_mo false true false false comp cipher auth PROTO_UDP false socks 1400 fragment false 0 false false.

Definition link_mtu (o : mtu_options) : option Z := calc_options_string_link_mtu known o frame_zero.

(** The values that the unit tests of the program expect (test_occ_mtu_calculation). *)
Example occ_mtu_calculation :
  [link_mtu (plain "none" "none");
   link_mtu (secret "none" "none" PROTO_UDP 0 0); link_mtu (secret "AES-128-CBC" "none" PROTO_UDP 0 0);
   link_mtu (secret "none" "SHA256" PROTO_UDP 0 0); link_mtu (secret "BF-CBC" "SHA1" PROTO_UDP 0 0);
   link_mtu (secret "BF-CBC" "SHA1" PROTO_TCP_CLIENT 0 0); link_mtu (secret "BF-CBC" "SHA1" PROTO_UDP COMP_ALG_LZO 0);
   link_mtu (secret "BF-CBC" "SHA1" PROTO_UDP COMP_ALG_LZO 1200);
   link_mtu (tls "AES-128-CBC" "SHA1" 0 0 false); link_mtu (tls "none" "none" 0 0 false);
   link_mtu (tls "AES-256-GCM" "SHA1" 0 0 false); link_mtu (tls "AES-256-GCM" "SHA1" COMP_ALG_LZO 1200 false);
   link_mtu (tls "AES-256-GCM" "SHA1" COMP_ALG_LZO 1200 true)] =
  Some <$> [1400; 1408; 1440; 1440; 1444; 1446; 1445; 1449; 1457; 1405; 1449; 1454; 1464].
Proof. reflexivity. Qed.

Definition with_mssfix (o : mtu_options) (mssfix : Z) : mtu_options := set_ce_mssfix o mssfix false.
Definition mss_of (o : mtu_options) (cipher auth : string) : option Z :=
  f_mss_fix <$> frame_calculate_dynamic frame_zero (mk_kt cipher auth) o None.

(** (test_mssfix_mtu_calculation) *)
Example mssfix_mtu_calculation :
  mss_of (with_mssfix (plain "none" "none") 1000) "none" "none" = Some 952 /\
  map (fun i => mss_of (with_mssfix (secret "AES-128-CBC" "none" PROTO_UDP 0 0) i) "AES-128-CBC" "none") [990; 991; 992; 1007; 1008; 1010]
    = Some <$> [911; 911; 927; 927; 943; 943] /\
  map (fun i => mss_of (with_mssfix (secret "AES-128-CBC" "none" PROTO_UDP COMP_ALG_LZO 0) i) "AES-128-CBC" "none") [990; 991; 992; 1007; 1008; 1010]
    = Some <$> [910; 910; 926; 926; 942; 942] /\
  map (fun i => mss_of (mk_mo false true true true 0 "AES-256-GCM" "SHA1" PROTO_UDP false false 1400 0 false i false false) "AES-256-GCM" "none")
      (seqZ 900 301) = (fun i => Some (i - 4 - 4 - 16 - 40)) <$> seqZ 900 301.
Proof. split_and!; reflexivity. Qed.

(** [--fragment 68 mtu] with AES-256-GCM over IPv6. *)
Example fragment_68_aborts :
  frame_calculate_dynamic frame_zero (mk_kt "AES-256-GCM" "none")
    (mk_mo false true false true 0 "AES-256-GCM" "SHA1" PROTO_UDP false false 1500 68 true 0 false false) None = None.
Proof. reflexivity. Qed.

(** The path MTU is to lower the limits.  When it is above the limit, but not by the headers
    of IP and UDP, it raises a limit that counts those headers already: from 1492 to 1500. *)
Example path_mtu_raises_limit :
  let kt := mk_kt "AES-256-GCM" "none" in
  let o := mk_mo false true false true 0 "AES-256-GCM" "SHA1" PROTO_UDP true false 1500 0 false 1492 true false in
  (f_mss_fix <$> frame_calculate_dynamic frame_zero kt o None) = Some 1400 /\
  ((fun r => (mo_ce_mssfix r.1.1, f_mss_fix r.1.2)) <$> frame_adjust_path_mtu 1500 true PROTO_UDP kt o frame_zero frame_zero) = Some (1500, 1408).
Proof. by vm_compute. Qed.
End SizeDemo.
