(* ===== verification/OTime.v ===== *)
(** * Time: [otime.h], [otime.c]

    Comparison and arithmetic of [struct timeval], the clock that never runs backwards, and
    the limit on the frequency of events.  [time_t] and the fields of a [timeval] are 64 bits
    wide and far from their ends; the results of [tv_subtract] are [int]. *)
From S2P Require Import Prelude Integers.

Record timeval := mk_tv { tv_sec : Z; tv_usec : Z }.

#[export] Instance timeval_eq_dec : EqDecision timeval.
Proof. solve_decision. Defined.

Definition tv_clear : timeval := mk_tv 0 0.
Definition tv_defined (tv : timeval) : bool := (0 <? tv_sec tv) && (0 <? tv_usec tv).

(** [tv1 - tv2] in microseconds, constrained by [max_seconds]. *)
Definition tv_subtract (tv1 tv2 : timeval) (max_seconds : Z) : Z :=
  let max_usec := i32 (max_seconds * 1000000) in
  let sec_diff := tv_sec tv1 - tv_sec tv2 in
  if (max_seconds + 10) <? sec_diff then max_usec
  else if sec_diff <? - (max_seconds + 10) then - max_usec
  else
    let complete_diff := sec_diff * 1000000 + (tv_usec tv1 - tv_usec tv2) in
    constrain_int (i32 complete_diff) (- max_usec) max_usec.

Definition tv_add (dest src : timeval) : timeval :=
  let sec := tv_sec dest + tv_sec src in
  let usec := tv_usec dest + tv_usec src in
  let sec := sec + Z.shiftr usec 20 in
  let usec := Z.land usec 1048575 in
  if 1000000 <=? usec then mk_tv (sec + 1) (usec - 1000000) else mk_tv sec usec.

Definition tv_lt (t1 t2 : timeval) : bool :=
  if tv_sec t1 <? tv_sec t2 then true
  else if tv_sec t2 <? tv_sec t1 then false
  else tv_usec t1 <? tv_usec t2.

Definition tv_le (t1 t2 : timeval) : bool :=
  if tv_sec t1 <? tv_sec t2 then true
  else if tv_sec t2 <? tv_sec t1 then false
  else tv_usec t1 <=? tv_usec t2.

Definition tv_ge (t1 t2 : timeval) : bool :=
  if tv_sec t2 <? tv_sec t1 then true
  else if tv_sec t1 <? tv_sec t2 then false
  else tv_usec t2 <=? tv_usec t1.

Definition tv_gt (t1 t2 : timeval) : bool :=
  if tv_sec t2 <? tv_sec t1 then true
  else if tv_sec t1 <? tv_sec t2 then false
  else tv_usec t2 <? tv_usec t1.

Definition tv_eq (t1 t2 : timeval) : bool := (tv_sec t1 =? tv_sec t2) && (tv_usec t1 =? tv_usec t2).

(** The loop of [tv_delta] that borrows seconds. *)
Fixpoint tv_borrow (fuel : nat) (sec usec : Z) : option (Z * Z) :=
  if usec <? 0 then
    match fuel with
    | O => None
    | S fuel => tv_borrow fuel (sec - 1) (usec + 1000000)
    end
  else Some (sec, usec).

(** [t2 - t1], or zero; [usec / 10^6] rounds are enough. *)
Definition tv_delta (t1 t2 : timeval) : option timeval :=
  let usec := tv_usec t2 - tv_usec t1 in
  '(sec, usec) ← tv_borrow (Z.to_nat (- usec)) (tv_sec t2 - tv_sec t1) usec;
  Some (if sec <? 0 then mk_tv 0 0 else mk_tv sec usec).

Definition TV_WITHIN_SIGMA_MAX_SEC : Z := 600.

Definition tv_within_sigma (t1 t2 : timeval) (sigma : Z) : bool :=
  let delta := tv_subtract t1 t2 TV_WITHIN_SIGMA_MAX_SEC in
  (- i32 sigma <=? delta) && (delta <=? i32 sigma).

(** ** The clock *)

(** [now], [now_usec] and the adjustment [now_adj]. *)
Record clock := mk_clock { ck_now : Z; ck_now_usec : Z; ck_now_adj : Z }.

Definition update_now (c : clock) (system_time : Z) : clock :=
  let forward_threshold := 86400 in
  let backward_trigger := 10 in
  let real_time := system_time + ck_now_adj c in
  if ck_now c <? real_time then
    let overshoot := real_time - ck_now c - 1 in
    if (forward_threshold <? overshoot) && (overshoot <=? ck_now_adj c)
    then mk_clock (real_time - overshoot) (ck_now_usec c) (ck_now_adj c - overshoot)
    else mk_clock real_time (ck_now_usec c) (ck_now_adj c)
  else if real_time <? ck_now c - backward_trigger
  then mk_clock (ck_now c) (ck_now_usec c) (ck_now_adj c + (ck_now c - real_time))
  else c.

Definition update_now_usec (c : clock) (tv : timeval) : clock :=
  let last := ck_now c in
  let c := update_now c (tv_sec tv) in
  if (last <? ck_now c) || ((ck_now c =? last) && (ck_now_usec c <? tv_usec tv))
  then mk_clock (ck_now c) (tv_usec tv) (ck_now_adj c)
  else c.

(** [time(NULL)] is the argument. *)
Definition update_time (c : clock) (system_time : Z) : clock :=
  let c := update_now c system_time in mk_clock (ck_now c) 0 (ck_now_adj c).

Definition interval_earliest_wakeup (wakeup at_ current : Z) : Z :=
  if current <? at_ then
    let delta := i32 (at_ - current) in
    let wakeup := if delta <? wakeup then delta else wakeup in
    if wakeup <? 0 then 0 else wakeup
  else wakeup.

(** ** Frequency limits *)

Record frequency_limit := mk_fl { fl_max : Z; fl_per : Z; fl_n : Z; fl_reset : Z }.

Definition frequency_limit_init (max per : Z) : option frequency_limit :=
  ASSERT ((0 <=? max) && (0 <=? per));; Some (mk_fl max per 0 0).

(** [++f->n] is on [int]. *)
Definition frequency_limit_event_allowed (now : Z) (f : frequency_limit) : bool * frequency_limit :=
  if negb (fl_per f =? 0) then
    let f := if fl_reset f + fl_per f <=? now then mk_fl (fl_max f) (fl_per f) 0 now else f in
    let f := mk_fl (fl_max f) (fl_per f) (i32 (fl_n f + 1)) (fl_reset f) in
    (fl_n f <=? fl_max f, f)
  else (true, f).

(** ** Order *)

(** A [timeval] as one number of microseconds. *)
Definition tv_total (t : timeval) : Z := tv_sec t * 1000000 + tv_usec t.
Definition tv_wf (t : timeval) : Prop := 0 <= tv_usec t < 1000000.

Lemma tv_compare_ok t1 t2 :
  tv_wf t1 -> tv_wf t2 ->
  tv_lt t1 t2 = (tv_total t1 <? tv_total t2) /\ tv_le t1 t2 = (tv_total t1 <=? tv_total t2) /\
  tv_gt t1 t2 = (tv_total t2 <? tv_total t1) /\ tv_ge t1 t2 = (tv_total t2 <=? tv_total t1) /\
  tv_eq t1 t2 = (tv_total t1 =? tv_total t2).
Proof. unfold tv_wf, tv_lt, tv_le, tv_gt, tv_ge, tv_eq, tv_total. intros. split_and!; repeat case_match; lia. Qed.

Lemma tv_borrow_ok fuel sec usec :
  - usec <= Z.of_nat fuel ->
  exists sec' usec', tv_borrow fuel sec usec = Some (sec', usec') /\ 0 <= usec' /\
    (usec < 1000000 -> usec' < 1000000) /\ sec' * 1000000 + usec' = sec * 1000000 + usec.
Proof.
  revert sec usec. induction fuel as [|fuel IH]; intros sec usec Hf; cbn [tv_borrow];
    (destruct (Z.ltb_spec usec 0); [|by exists sec, usec; split_and!; [done|lia|lia|lia]]); [lia|].
  destruct (IH (sec - 1) (usec + 1000000)) as (s' & u' & -> & ? & ? & ?); [lia|]. exists s', u'. split; [done|]. lia.
Qed.

(** [tv_add] normalises the sum of the microseconds with a shift by 20 and a mask, as
    if a second had 2^20 of them: it is exact while the sum is below 2^20, and loses 48576
    microseconds when it is not. *)
Theorem tv_add_exact t1 t2 :
  tv_wf t1 -> tv_wf t2 ->
  tv_wf (tv_add t1 t2) /\
  tv_total (tv_add t1 t2) = tv_total t1 + tv_total t2 - (if tv_usec t1 + tv_usec t2 <? 1048576 then 0 else 48576).
Proof.
  unfold tv_wf, tv_add, tv_total. intros H1 H2. change 1048575 with (Z.ones 20).
  rewrite Z.land_ones, Z.shiftr_div_pow2 by lia. change (2 ^ 20) with 1048576.
  destruct (_ <=? _) eqn:E1, (_ <? _) eqn:E2; cbn [tv_sec tv_usec]; lia_mod.
Qed.

(** The clock after a series of system times. *)
Definition clock_run (c : clock) (times : list Z) : clock := foldl update_now c times.

Lemma update_now_ok c s :
  0 <= ck_now_adj c ->
  let c' := update_now c s in
  ck_now c <= ck_now c' /\ 0 <= ck_now_adj c' /\ s + ck_now_adj c' <= ck_now c' <= s + ck_now_adj c' + 10 /\
  (ck_now_adj c = 0 -> ck_now c - 10 <= s -> ck_now_adj c' = 0 /\ ck_now c' = Z.max (ck_now c) s).
Proof. unfold update_now. intros Ha. repeat case_match; cbn [ck_now ck_now_adj] in *; lia. Qed.

(** The clock never runs backwards, whatever the system's does: it stays within ten
    seconds of the system time plus an adjustment that is never negative, and follows a
    system time that has not jumped back by more than ten seconds exactly. *)
Theorem clock_never_goes_back c times :
  0 <= ck_now_adj c ->
  ck_now c <= ck_now (clock_run c times) /\ 0 <= ck_now_adj (clock_run c times) /\
  (forall times' s, times = times' ++ [s] ->
     let c1 := clock_run c times' in
     let c' := clock_run c times in
     ck_now c1 <= ck_now c' /\ s + ck_now_adj c' <= ck_now c' <= s + ck_now_adj c' + 10 /\
     (ck_now_adj c1 = 0 -> ck_now c1 - 10 <= s -> ck_now c' = Z.max (ck_now c1) s)).
Proof.
  intros Ha. unfold clock_run.
  assert (Hrun : forall l, ck_now c <= ck_now (foldl update_now c l) /\ 0 <= ck_now_adj (foldl update_now c l)).
  { induction l as [|s l IH] using rev_ind; [done|]. rewrite foldl_app. cbn.
    pose proof (update_now_ok (foldl update_now c l) s (proj2 IH)). cbn in *. lia. }
  split; [apply Hrun|]. split; [apply Hrun|]. intros l s ->. rewrite foldl_app. cbn zeta. cbn [foldl].
  pose proof (update_now_ok (foldl update_now c l) s (proj2 (Hrun l))) as (? & ? & ? & Hex). cbn zeta in *.
  split_and!; try lia.
Qed.

(** How many of the events at these times are allowed. *)
Fixpoint count_allowed (f : frequency_limit) (times : list Z) : Z :=
  match times with
  | [] => 0
  | t :: times =>
      let '(ok, f) := frequency_limit_event_allowed t f in
      (if ok : bool then 1 else 0) + count_allowed f times
  end.

(** A frequency limit of [max] events per [per] seconds lets at most [2 * max] events
    pass in any [per] seconds, and at most [max] of them once its count has been reset in that time
    - whatever the order in which the times of that period come. *)
Theorem frequency_limit_bounds f t times :
  0 < fl_per f -> 0 <= fl_max f < 2147483647 -> 0 <= fl_n f -> fl_n f + zlen times < 2147483648 ->
  Forall (fun x => t <= x < t + fl_per f) times ->
  count_allowed f times <= 2 * fl_max f /\
  (t <= fl_reset f -> count_allowed f times <= Z.max 0 (fl_max f - fl_n f)).
Proof.
  intros Hp Hm Hn Hl Ht.
  enough (Hb : count_allowed f times <= Z.max 0 (fl_max f - fl_n f) + (if t <=? fl_reset f then 0 else fl_max f)).
  { destruct (t <=? fl_reset f) eqn:?; split; lia. }
  revert f Hp Hm Hn Hl Ht. induction times as [|x times IH]; intros f Hp Hm Hn Hl Ht.
  { cbn [count_allowed]. destruct (_ <=? _); lia. }
  apply Forall_cons in Ht as [Hx Ht]. cbn [length] in Hl. cbn [count_allowed].
  unfold frequency_limit_event_allowed. replace (negb (fl_per f =? 0)) with true by lia. cbn zeta.
  destruct (Z.leb_spec (fl_reset f + fl_per f) x); cbn [fl_max fl_per fl_n fl_reset].
  - pose proof (IH (mk_fl (fl_max f) (fl_per f) (i32 (0 + 1)) x)) as Hb. cbn [fl_max fl_per fl_n fl_reset] in Hb.
    change (i32 (0 + 1)) with 1 in *. replace (t <=? fl_reset f) with false by lia. replace (t <=? x) with true in Hb by lia.
    specialize (Hb Hp Hm ltac:(lia) ltac:(lia) Ht). destruct (1 <=? fl_max f) eqn:?; lia.
  - assert (i32 (fl_n f + 1) = fl_n f + 1) as -> by (unfold i32; lia_mod).
    pose proof (IH (mk_fl (fl_max f) (fl_per f) (fl_n f + 1) (fl_reset f))) as Hb. cbn [fl_max fl_per fl_n fl_reset] in Hb.
    specialize (Hb Hp Hm ltac:(lia) ltac:(lia) Ht). destruct (fl_n f + 1 <=? fl_max f) eqn:?, (t <=? fl_reset f); lia.
Qed.

Lemma tv_add_exact_witness :
  tv_wf (tv_add (mk_tv 1 600000) (mk_tv 2 600000)) /\
  tv_total (tv_add (mk_tv 1 600000) (mk_tv 2 600000)) =
    tv_total (mk_tv 1 600000) + tv_total (mk_tv 2 600000) - (if 600000 + 600000 <? 1048576 then 0 else 48576).
Proof. apply (tv_add_exact (mk_tv 1 600000) (mk_tv 2 600000)); unfold tv_wf; cbn; lia. Defined.

Lemma clock_never_goes_back_witness :
  let c := mk_clock 1000 0 0 in
  let times := [1005; 900; 910] in
  ck_now c <= ck_now (clock_run c times) /\ 0 <= ck_now_adj (clock_run c times) /\
  (forall times' s, times = times' ++ [s] ->
     let c1 := clock_run c times' in
     let c' := clock_run c times in
     ck_now c1 <= ck_now c' /\ s + ck_now_adj c' <= ck_now c' <= s + ck_now_adj c' + 10 /\
     (ck_now_adj c1 = 0 -> ck_now c1 - 10 <= s -> ck_now c' = Z.max (ck_now c1) s)).
Proof. apply (clock_never_goes_back (mk_clock 1000 0 0) [1005; 900; 910]). cbn. lia. Defined.

Lemma frequency_limit_bounds_witness :
  let f := mk_fl 2 10 1 95 in
  count_allowed f [100; 101; 106; 107; 108; 109] <= 2 * fl_max f /\
  (100 <= fl_reset f -> count_allowed f [100; 101; 106; 107; 108; 109] <= Z.max 0 (fl_max f - fl_n f)).
Proof.
  apply (frequency_limit_bounds (mk_fl 2 10 1 95) 100 [100; 101; 106; 107; 108; 109]); cbn; try lia.
  repeat constructor; lia.
Defined.
