(* ===== verification/Schedule.v ===== *)
(** * The scheduler: [schedule.c], [schedule.h]

    A randomised treap with parent links, as the code has it: [entries] is the memory of
    the [struct schedule_entry]s by address.  To follow a pointer that is [NULL], or does not
    point to an entry, is [None].  [random()] is a list of numbers that is consumed. *)
From S2P Require Import Prelude Integers OTime.

Record schedule_entry := mk_se {
  se_tv : timeval;
  se_pri : Z;
  se_parent : option nat;
  se_lt : option nat;
  se_gt : option nat
}.

Abbreviation entries := (gmap nat schedule_entry).

Record schedule := mk_sched {
  sc_earliest : option nat;
  sc_root : option nat;
  sc_entries : entries
}.

Definition with_parent (e : schedule_entry) (p : option nat) : schedule_entry :=
  mk_se (se_tv e) (se_pri e) p (se_lt e) (se_gt e).
Definition with_lt (e : schedule_entry) (p : option nat) : schedule_entry :=
  mk_se (se_tv e) (se_pri e) (se_parent e) p (se_gt e).
Definition with_gt (e : schedule_entry) (p : option nat) : schedule_entry :=
  mk_se (se_tv e) (se_pri e) (se_parent e) (se_lt e) p.
Definition with_pri (e : schedule_entry) (pri : Z) : schedule_entry :=
  mk_se (se_tv e) pri (se_parent e) (se_lt e) (se_gt e).
Definition with_tv (e : schedule_entry) (tv : timeval) : schedule_entry :=
  mk_se tv (se_pri e) (se_parent e) (se_lt e) (se_gt e).

Definition set_root (s : schedule) (r : option nat) : schedule := mk_sched (sc_earliest s) r (sc_entries s).
Definition set_earliest (s : schedule) (e : option nat) : schedule := mk_sched e (sc_root s) (sc_entries s).

(** Assignment to fields of the entry at [a]. *)
Definition upd (a : nat) (g : schedule_entry -> schedule_entry) (s : schedule) : option schedule :=
  e ← sc_entries s !! a;
  Some (mk_sched (sc_earliest s) (sc_root s) (<[a := g e]> (sc_entries s))).

(** [if (p) ...] on a pointer. *)
Definition upd_opt (p : option nat) (g : schedule_entry -> schedule_entry) (s : schedule) : option schedule :=
  match p with Some a => upd a g s | None => Some s end.

Definition schedule_init : schedule := mk_sched None None ∅.

Definition IN_TREE (e : schedule_entry) : bool := negb (se_pri e =? 0).

(** The priority and the rest of the random numbers; [unsigned int] has 32 bits. *)
Definition schedule_set_pri (rnd : list Z) : option (Z * list Z) :=
  match rnd with
  | [] => None
  | r :: rnd => Some (if u32 r <? 1 then 1 else u32 r, rnd)
  end.

Definition schedule_entry_compare (e1 e2 : schedule_entry) : Z :=
  if tv_sec (se_tv e1) <? tv_sec (se_tv e2) then -1
  else if tv_sec (se_tv e2) <? tv_sec (se_tv e1) then 1
  else if tv_usec (se_tv e1) <? tv_usec (se_tv e2) then -1
  else if tv_usec (se_tv e2) <? tv_usec (se_tv e1) then 1
  else if se_pri e1 <? se_pri e2 then -1
  else if se_pri e2 <? se_pri e1 then 1
  else 0.

Definition ptr_is (p : option nat) (a : nat) : bool := bool_decide (p = Some a).

Definition schedule_detach_parent (s : schedule) (a : nat) : option schedule :=
  e ← sc_entries s !! a;
  match se_parent e with
  | Some p =>
      pe ← sc_entries s !! p;
      s ← (if ptr_is (se_lt pe) a then upd p (fun pe => with_lt pe None) s
           else if ptr_is (se_gt pe) a then upd p (fun pe => with_gt pe None) s
           else None);
      upd a (fun e => with_parent e None) s
  | None => Some (if ptr_is (sc_root s) a then set_root s None else s)
  end.

(** [e && e->parent] *)
Definition schedule_rotate_up (s : schedule) (a : nat) : option schedule :=
  e ← sc_entries s !! a;
  match se_parent e with
  | None => Some s
  | Some p =>
      let lt := se_lt e in
      let gt := se_gt e in
      pe ← sc_entries s !! p;
      let gp := se_parent pe in
      s ← (match gp with
           | Some g =>
               ge ← sc_entries s !! g;
               if ptr_is (se_gt ge) p then upd g (fun ge => with_gt ge (Some a)) s
               else if ptr_is (se_lt ge) p then upd g (fun ge => with_lt ge (Some a)) s
               else None
           | None => Some (set_root s (Some a))
           end);
      s ← upd a (fun e => with_parent e gp) s;
      s ← upd p (fun pe => with_parent pe (Some a)) s;
      pe ← sc_entries s !! p;
      if ptr_is (se_gt pe) a then
        s ← upd a (fun e => with_lt e (Some p)) s;
        s ← upd p (fun pe => with_gt pe lt) s;
        upd_opt lt (fun c => with_parent c (Some p)) s
      else if ptr_is (se_lt pe) a then
        s ← upd a (fun e => with_gt e (Some p)) s;
        s ← upd p (fun pe => with_lt pe gt) s;
        upd_opt gt (fun c => with_parent c (Some p)) s
      else None
  end.

(** The child that the loop of [schedule_remove_node] rotates up. *)
Definition child_to_rotate (s : schedule) (e : schedule_entry) : option (option nat) :=
  match se_lt e, se_gt e with
  | Some l, Some g =>
      le ← sc_entries s !! l; ge ← sc_entries s !! g;
      Some (Some (if se_pri le <? se_pri ge then l else g))
  | Some l, None => Some (Some l)
  | None, Some g => Some (Some g)
  | None, None => Some None
  end.

(** Every round takes a node from below [a]. *)
Fixpoint remove_loop (fuel : nat) (s : schedule) (a : nat) : option schedule :=
  e ← sc_entries s !! a;
  c ← child_to_rotate s e;
  match c with
  | None => Some s
  | Some c =>
      match fuel with
      | O => None
      | S fuel => s ← schedule_rotate_up s c; remove_loop fuel s a
      end
  end.

Definition schedule_remove_node (s : schedule) (a : nat) : option schedule :=
  s ← remove_loop (size (sc_entries s)) s a;
  s ← schedule_detach_parent s a;
  upd a (fun e => with_pri e 0) s.

(** [c]: the node the descent has reached. *)
Fixpoint insert_loop (fuel : nat) (s : schedule) (a c : nat) (rnd : list Z) : option (schedule * list Z) :=
  match fuel with
  | O => None
  | S fuel =>
      e ← sc_entries s !! a; ce ← sc_entries s !! c;
      let comp := schedule_entry_compare e ce in
      if comp =? -1 then
        match se_lt ce with
        | Some c' => insert_loop fuel s a c' rnd
        | None =>
            s ← upd c (fun ce => with_lt ce (Some a)) s;
            s ← upd a (fun e => with_parent e (Some c)) s; Some (s, rnd)
        end
      else if comp =? 1 then
        match se_gt ce with
        | Some c' => insert_loop fuel s a c' rnd
        | None =>
            s ← upd c (fun ce => with_gt ce (Some a)) s;
            s ← upd a (fun e => with_parent e (Some c)) s; Some (s, rnd)
        end
      else
        '(pri, rnd) ← schedule_set_pri rnd;
        s ← upd a (fun e => with_pri e pri) s;
        r ← sc_root s; insert_loop fuel s a r rnd
  end.

(** Each descent visits every node at most once, and each restart takes a random number. *)
Definition schedule_insert (s : schedule) (a : nat) (rnd : list Z) : option (schedule * list Z) :=
  r ← sc_root s;
  insert_loop (S (length rnd) * S (size (sc_entries s))) s a r rnd.

(** The loop at the end of [schedule_add_modify]: up until the parent's priority is no
    longer greater. *)
Fixpoint sift_loop (fuel : nat) (s : schedule) (a : nat) : option schedule :=
  e ← sc_entries s !! a;
  match se_parent e with
  | None => Some s
  | Some p =>
      pe ← sc_entries s !! p;
      if se_pri e <? se_pri pe then
        match fuel with
        | O => None
        | S fuel => s ← schedule_rotate_up s a; sift_loop fuel s a
        end
      else Some s
  end.

Definition schedule_add_modify (s : schedule) (a : nat) (rnd : list Z) : option (schedule * list Z) :=
  e ← sc_entries s !! a;
  s ← (if IN_TREE e then schedule_remove_node s a else Some s);
  '(pri, rnd) ← schedule_set_pri rnd;
  s ← upd a (fun e => with_pri e pri) s;
  '(s, rnd) ← match sc_root s with
              | Some _ => schedule_insert s a rnd
              | None => Some (set_root s (Some a), rnd)
              end;
  s ← sift_loop (size (sc_entries s)) s a;
  Some (s, rnd).

Fixpoint least_loop (fuel : nat) (s : schedule) (a : nat) : option nat :=
  e ← sc_entries s !! a;
  match se_lt e with
  | None => Some a
  | Some l => match fuel with O => None | S fuel => least_loop fuel s l end
  end.

Definition schedule_find_least (s : schedule) (a : option nat) : option (option nat) :=
  match a with
  | None => Some None
  | Some a => l ← least_loop (size (sc_entries s)) s a; Some (Some l)
  end.

Definition schedule_remove_entry (s : schedule) (a : nat) : option schedule :=
  schedule_remove_node (set_earliest s None) a.

Definition schedule_add_entry (s : schedule) (a : nat) (tv : timeval) (sigma : Z) (rnd : list Z)
  : option (schedule * list Z) :=
  e ← sc_entries s !! a;
  if negb (IN_TREE e) || (sigma =? 0) || negb (tv_within_sigma tv (se_tv e) sigma) then
    s ← upd a (fun e => with_tv e tv) s;
    '(s, rnd) ← schedule_add_modify s a rnd;
    Some (set_earliest s None, rnd)
  else Some (s, rnd).

(** The entry and its wakeup time. *)
Definition schedule_get_earliest_wakeup (s : schedule) : option (option (nat * timeval) * schedule) :=
  s ← match sc_earliest s with
      | Some _ => Some s
      | None => l ← schedule_find_least s (sc_root s); Some (set_earliest s l)
      end;
  match sc_earliest s with
  | None => Some (None, s)
  | Some a => e ← sc_entries s !! a; Some (Some (a, se_tv e), s)
  end.
