(* ===== verification/ScheduleTree.v ===== *)
(** * Trees in memory

    A functional tree, the memory that represents it, and a hole in it: what
    [schedule_rotate_up] does to the pointers is a rotation of the tree. *)
From S2P Require Import Prelude Integers OTime Schedule.

(** A key: the wakeup time and the priority. *)
Abbreviation key := (timeval * Z)%type.

Inductive tree :=
  | Leaf
  | Node (l : tree) (a : nat) (k : key) (r : tree).

Definition root (t : tree) : option nat := match t with Leaf => None | Node _ a _ _ => Some a end.

Fixpoint inorder (t : tree) : list (nat * key) :=
  match t with
  | Leaf => []
  | Node l a k r => inorder l ++ (a, k) :: inorder r
  end.

Definition ids (t : tree) : list nat := (inorder t).*1.

Lemma ids_node l a k r : ids (Node l a k r) = ids l ++ a :: ids r.
Proof. unfold ids. cbn. by rewrite fmap_app. Qed.

Lemma root_in_ids t a : root t = Some a -> a ∈ ids t.
Proof. destruct t; [done|]. cbn [root]. intros [= ->]. rewrite ids_node. set_solver. Qed.

(** ** Holes *)

(** The hole is the left, or the right, child of [a]. *)
Inductive tframe :=
  | FL (a : nat) (k : key) (r : tree)
  | FR (l : tree) (a : nat) (k : key).

(** From the hole up to the root. *)
Abbreviation ctx := (list tframe).

Definition plug1 (fr : tframe) (t : tree) : tree :=
  match fr with FL a k r => Node t a k r | FR l a k => Node l a k t end.

Definition plug (c : ctx) (t : tree) : tree := foldl (fun t fr => plug1 fr t) t c.

Definition ctx_parent (c : ctx) : option nat :=
  match c with [] => None | FL a _ _ :: _ => Some a | FR _ a _ :: _ => Some a end.

(** What is before and behind the hole. *)
Fixpoint before (c : ctx) : list (nat * key) :=
  match c with [] => [] | FL _ _ _ :: c => before c | FR l a k :: c => before c ++ inorder l ++ [(a, k)] end.
Fixpoint behind (c : ctx) : list (nat * key) :=
  match c with [] => [] | FL a k r :: c => (a, k) :: inorder r ++ behind c | FR _ _ _ :: c => behind c end.

Lemma inorder_plug c t : inorder (plug c t) = before c ++ inorder t ++ behind c.
Proof.
  revert t. induction c as [|[a k r|l a k] c IH]; intros t; cbn [plug foldl before behind].
  - by rewrite app_nil_r.
  - change (foldl _ _ c) with (plug c (Node t a k r)). rewrite IH. cbn. by rewrite <- app_assoc.
  - change (foldl _ _ c) with (plug c (Node l a k t)). rewrite IH. cbn. by rewrite <- !app_assoc.
Qed.

Definition ctx_ids (c : ctx) : list nat := (before c).*1 ++ (behind c).*1.

Lemma ids_plug c t : ids (plug c t) = (before c).*1 ++ ids t ++ (behind c).*1.
Proof. unfold ids. by rewrite inorder_plug, !fmap_app. Qed.

Lemma in_plug c t a : a ∈ ids (plug c t) <-> a ∈ ctx_ids c \/ a ∈ ids t.
Proof. rewrite ids_plug. unfold ctx_ids. set_solver. Qed.

Lemma NoDup_plug c t :
  NoDup (ids (plug c t)) <-> NoDup (ctx_ids c) /\ NoDup (ids t) /\ (forall a, a ∈ ctx_ids c -> a ∉ ids t).
Proof.
  rewrite ids_plug. unfold ctx_ids. rewrite !NoDup_app. setoid_rewrite elem_of_app. intuition; naive_solver.
Qed.

(** ** Memory *)

Definition entry_of (k : key) (par lt gt : option nat) : schedule_entry := mk_se k.1 k.2 par lt gt.

Fixpoint rep (m : entries) (t : tree) (par : option nat) : Prop :=
  match t with
  | Leaf => True
  | Node l a k r => m !! a = Some (entry_of k par (root l) (root r)) /\ rep m l (Some a) /\ rep m r (Some a)
  end.

(** [h]: the root of what is in the hole. *)
Fixpoint rep_ctx (m : entries) (c : ctx) (h : option nat) : Prop :=
  match c with
  | [] => True
  | FL a k r :: c =>
      m !! a = Some (entry_of k (ctx_parent c) h (root r)) /\ rep m r (Some a) /\ rep_ctx m c (Some a)
  | FR l a k :: c =>
      m !! a = Some (entry_of k (ctx_parent c) (root l) h) /\ rep m l (Some a) /\ rep_ctx m c (Some a)
  end.

Lemma rep_plug m c t : rep m (plug c t) None <-> rep_ctx m c (root t) /\ rep m t (ctx_parent c).
Proof.
  revert t. induction c as [|[a k r|l a k] c IH]; intros t; cbn [plug foldl rep_ctx ctx_parent].
  - tauto.
  - change (foldl _ _ c) with (plug c (Node t a k r)). rewrite IH. cbn. tauto.
  - change (foldl _ _ c) with (plug c (Node l a k t)). rewrite IH. cbn. tauto.
Qed.

Lemma rep_mono m m' t par : rep m t par -> (forall a, a ∈ ids t -> m' !! a = m !! a) -> rep m' t par.
Proof.
  revert par. induction t as [|l IHl a k r IHr]; intros par; [done|]. cbn [rep]. rewrite ids_node. intros (Ha & Hl & Hr) Hm.
  split_and!; [rewrite Hm by set_solver; done|apply IHl; [done|set_solver]|apply IHr; [done|set_solver]].
Qed.

Lemma rep_ctx_mono m m' c h :
  rep_ctx m c h -> (forall a, a ∈ ctx_ids c -> m' !! a = m !! a) -> rep_ctx m' c h.
Proof.
  revert h. induction c as [|[a k r|l a k] c IH]; intros h; [done| |]; cbn [rep_ctx]; unfold ctx_ids in *;
    cbn [before behind]; rewrite ?fmap_app; cbn [fmap list_fmap fst]; rewrite ?fmap_app; intros (Ha & Hl & Hr) Hm;
    (split; [rewrite Hm by set_solver; done|]); (split; [eapply rep_mono; [done|]; unfold ids; set_solver|]);
    (apply IH; [done|]); set_solver.
Qed.

(** The parent of the root of a subtree. *)
Lemma rep_root m t par a : rep m t par -> root t = Some a ->
  exists l k r, t = Node l a k r /\ m !! a = Some (entry_of k par (root l) (root r)).
Proof. destruct t as [|l b k r]; [done|]. cbn. intros (Hb & _) [= ->]. eauto 10. Qed.

(** Another parent for a subtree. *)
Definition reparent (m : entries) (t : tree) (par : option nat) : entries :=
  match root t with
  | None => m
  | Some a => alter (fun e => with_parent e par) a m
  end.

Lemma rep_reparent m t par par' : NoDup (ids t) -> rep m t par -> rep (reparent m t par') t par'.
Proof.
  destruct t as [|l a k r]; [done|]. cbn [rep]. unfold reparent. cbn [root]. rewrite ids_node.
  intros Hnd (Ha & Hl & Hr). apply NoDup_app in Hnd as (_ & Hla & Hnd). apply NoDup_cons in Hnd as [Har _].
  split; [by rewrite lookup_alter_eq, Ha|].
  split; (eapply rep_mono; [done|]); intros b Hb; rewrite lookup_alter_ne; try done; set_solver.
Qed.

Lemma lookup_reparent_ne m t par b : b ∉ ids t -> reparent m t par !! b = m !! b.
Proof.
  intros Hb. unfold reparent. destruct (root t) eqn:E; [|done]. apply root_in_ids in E.
  apply lookup_alter_ne. congruence.
Qed.

(** ** Rotation

    [schedule_rotate_up] on the memory of a tree is a rotation of the tree, and changes
    nothing outside of it; [schedule_detach_parent] cuts a leaf off. *)

(** The scheduler holds the tree [t]. *)
Record holds (s : schedule) (t : tree) : Prop := {
  hd_rep : rep (sc_entries s) t None;
  hd_root : sc_root s = root t;
  hd_nodup : NoDup (ids t)
}.

(** The entries outside of the tree are as they were. *)
Definition same_outside (t : tree) (s s' : schedule) : Prop :=
  (forall b, b ∉ ids t -> sc_entries s' !! b = sc_entries s !! b) /\
  dom (sc_entries s') = dom (sc_entries s) /\ sc_earliest s' = sc_earliest s.

Definition set_entries (s : schedule) (m : entries) : schedule := mk_sched (sc_earliest s) (sc_root s) m.

Lemma upd_ok a g s e : sc_entries s !! a = Some e -> upd a g s = Some (set_entries s (alter g a (sc_entries s))).
Proof.
  intros E. unfold upd. rewrite E, Some_bind. unfold set_entries. do 2 f_equal.
  apply map_eq. intros b. destruct (decide (b = a)) as [->|].
  - by rewrite lookup_insert_eq, lookup_alter_eq, E.
  - by rewrite lookup_insert_ne, lookup_alter_ne by done.
Qed.

Lemma upd_opt_ok s t par par' :
  rep (sc_entries s) t par ->
  upd_opt (root t) (fun c => with_parent c par') s = Some (set_entries s (reparent (sc_entries s) t par')).
Proof.
  intros Hr. destruct t as [|l a k r]; [by destruct s|]. cbn [root upd_opt]. destruct Hr as (Ha & _).
  by rewrite (upd_ok _ _ _ _ Ha).
Qed.

Lemma upd_mk a g el rt m e : m !! a = Some e -> upd a g (mk_sched el rt m) = Some (mk_sched el rt (alter g a m)).
Proof. apply (upd_ok a g (mk_sched el rt m)). Qed.

Lemma upd_opt_mk el rt m t par par' :
  rep m t par -> upd_opt (root t) (fun c => with_parent c par') (mk_sched el rt m) = Some (mk_sched el rt (reparent m t par')).
Proof. apply (upd_opt_ok (mk_sched el rt m)). Qed.

(** The grandparent's link. *)
Definition relink (m : entries) (c : ctx) (a : nat) : entries :=
  match c with
  | [] => m
  | FL g _ _ :: _ => alter (fun ge => with_lt ge (Some a)) g m
  | FR _ g _ :: _ => alter (fun ge => with_gt ge (Some a)) g m
  end.

Definition frame_id (fr : tframe) : nat := match fr with FL a _ _ | FR _ a _ => a end.
Definition frame_sub (fr : tframe) : tree := match fr with FL _ _ r => r | FR l _ _ => l end.

Lemma ctx_ids_cons fr c : ctx_ids (fr :: c) ≡ₚ (frame_id fr :: ids (frame_sub fr) ++ ctx_ids c).
Proof.
  unfold ctx_ids, ids. destruct fr as [g k r|l g k]; cbn [before behind frame_id frame_sub].
  - rewrite fmap_cons, fmap_app. cbn [fst]. solve_Permutation.
  - rewrite !fmap_app. cbn [fmap list_fmap fst]. solve_Permutation.
Qed.

Lemma ctx_nodup fr c :
  NoDup (ctx_ids (fr :: c)) ->
  frame_id fr ∉ ids (frame_sub fr) /\ frame_id fr ∉ ctx_ids c /\ NoDup (ids (frame_sub fr)) /\ NoDup (ctx_ids c) /\
  (forall b, b ∈ ids (frame_sub fr) -> b ∉ ctx_ids c).
Proof.
  rewrite ctx_ids_cons, NoDup_cons, NoDup_app, not_elem_of_app. tauto.
Qed.

Lemma relink_ok m c h a : NoDup (ctx_ids c) -> rep_ctx m c h -> rep_ctx (relink m c a) c (Some a).
Proof.
  destruct c as [|fr c]; [done|]. intros (Hs & Hc & _)%ctx_nodup.
  destruct fr as [g k r|l g k]; cbn [rep_ctx relink frame_id frame_sub] in *; intros (Hg & Hsub & Hctx);
    (split; [by rewrite lookup_alter_eq, Hg|]);
    (split; [eapply rep_mono; [done|]|eapply rep_ctx_mono; [done|]]);
    intros b Hb; apply lookup_alter_ne; congruence.
Qed.

Lemma lookup_relink_ne m c a b : b ∉ ctx_ids c -> relink m c a !! b = m !! b.
Proof.
  destruct c as [|fr c]; [done|]. rewrite ctx_ids_cons. intros Hb.
  destruct fr as [g k r|l g k]; cbn [relink frame_id] in *; apply lookup_alter_ne; set_solver.
Qed.

(** Everything around a node, its parent and the rest is distinct. *)
Record apart (c : ctx) (p a : nat) (x y z : tree) : Prop := {
  ap_pa : p <> a;
  ap_p : p ∉ ctx_ids c /\ p ∉ ids x /\ p ∉ ids y /\ p ∉ ids z;
  ap_a : a ∉ ctx_ids c /\ a ∉ ids x /\ a ∉ ids y /\ a ∉ ids z;
  ap_c : forall b, b ∈ ctx_ids c -> b ∉ ids x /\ b ∉ ids y /\ b ∉ ids z;
  ap_y : forall b, b ∈ ids y -> b ∉ ids x /\ b ∉ ids z;
  ap_nd : NoDup (ctx_ids c) /\ NoDup (ids y)
}.

Lemma NoDup_node (l : tree) a k r :
  NoDup (ids (Node l a k r)) <-> a ∉ ids l /\ a ∉ ids r /\ NoDup (ids l) /\ NoDup (ids r) /\ (forall b, b ∈ ids l -> b ∉ ids r).
Proof.
  rewrite ids_node, <- Permutation_middle, NoDup_cons, NoDup_app, not_elem_of_app. tauto.
Qed.

(** [z] is the other subtree of the parent. *)
Lemma apart_ok fr c x a ka y :
  NoDup (ids (plug (fr :: c) (Node x a ka y))) ->
  apart c (frame_id fr) a x y (frame_sub fr) /\ apart c (frame_id fr) a y x (frame_sub fr).
Proof.
  rewrite NoDup_plug. intros (Hc & Hn & Hd). apply ctx_nodup in Hc as (H1 & H2 & H3 & H4 & H5).
  apply NoDup_node in Hn as (H6 & H7 & H8 & H9 & H10).
  assert (Hd' : forall b, b = frame_id fr \/ b ∈ ids (frame_sub fr) \/ b ∈ ctx_ids c -> b <> a /\ b ∉ ids x /\ b ∉ ids y).
  { intros b Hb. assert (b ∈ ctx_ids (fr :: c)) as Hin by (rewrite ctx_ids_cons, elem_of_cons, elem_of_app; tauto).
    specialize (Hd b Hin). rewrite ids_node, elem_of_app, elem_of_cons in Hd. tauto. }
  clear Hd. split; split; naive_solver.
Qed.

(** Read an entry through the updates. *)
Ltac look := repeat first
  [ rewrite lookup_alter_eq | rewrite lookup_alter_ne by congruence
  | rewrite lookup_reparent_ne by done | rewrite lookup_relink_ne by done ].

(** The final memory of a rotation. *)
Definition rotated (m : entries) (c : ctx) (p a : nat) (y : tree) (ge gp : schedule_entry -> schedule_entry) : entries :=
  reparent (alter gp p (alter ge a (alter (fun e => with_parent e (Some a)) p
    (alter (fun e => with_parent e (ctx_parent c)) a (relink m c a))))) y (Some p).

Lemma lookup_rotated_ne m c p a x y z ge gp b :
  apart c p a x y z -> b <> p -> b <> a -> b ∉ ctx_ids c -> b ∉ ids y -> rotated m c p a y ge gp !! b = m !! b.
Proof. intros Hap ????. unfold rotated. by look. Qed.

Lemma rotated_ctx m c p a x y z ge gp h :
  apart c p a x y z -> rep_ctx m c h -> rep_ctx (rotated m c p a y ge gp) c (Some a).
Proof.
  intros [Hpa (Hp & _) (Ha & _) Hc Hy (Hnc & _)] Hr. eapply rep_ctx_mono; [by eapply relink_ok|].
  intros b Hb. unfold rotated. destruct (Hc b Hb) as (_ & Hby & _). look. done.
Qed.

Lemma rotated_sub m c p a x y z ge gp par :
  apart c p a x y z -> rep m y par -> rep (rotated m c p a y ge gp) y (Some p).
Proof.
  intros [Hpa (Hp & _ & Hpy & _) (Ha & _ & Hay & _) Hc Hy (_ & Hny)] Hr. unfold rotated.
  apply rep_reparent with par; [done|]. eapply rep_mono; [exact Hr|].
  intros b Hb. assert (b ∉ ctx_ids c) by (intros Hbc; by destruct (Hc b Hbc) as (_ & ? & _)). look. done.
Qed.

Lemma rotated_other m c p a x y z ge gp t par :
  apart c p a x y z -> t = x \/ t = z -> rep m t par -> rep (rotated m c p a y ge gp) t par.
Proof.
  intros Hap Ht Hr. eapply rep_mono; [exact Hr|]. intros b Hb. eapply lookup_rotated_ne; [exact Hap|..];
    destruct Hap as [Hpa (Hp & Hpx & Hpy & Hpz) (Ha & Hax & Hay & Haz) Hc Hy _]; destruct Ht; subst t; try congruence;
    (intros Hb'; first [destruct (Hc b Hb') as (? & ? & ?); contradiction | destruct (Hy b Hb'); contradiction]).
Qed.


(** The grandparent takes the child. *)
Lemma relink_step s c p a h :
  rep_ctx (sc_entries s) c h -> h = Some p -> NoDup (ctx_ids c) -> p ∉ ctx_ids c ->
  (match ctx_parent c with
   | Some g =>
       ge ← sc_entries s !! g;
       if ptr_is (se_gt ge) p then upd g (fun ge => with_gt ge (Some a)) s
       else if ptr_is (se_lt ge) p then upd g (fun ge => with_lt ge (Some a)) s
       else None
   | None => Some (set_root s (Some a))
   end) = Some (mk_sched (sc_earliest s) (match c with [] => Some a | _ => sc_root s end) (relink (sc_entries s) c a)).
Proof.
  intros Hr -> Hnd Hp. destruct c as [|fr c]; [done|]. rewrite ctx_ids_cons in Hp.
  destruct fr as [g k r|l g k]; cbn [ctx_parent rep_ctx relink frame_id frame_sub] in *; destruct Hr as (Hg & Hsub & _);
    rewrite Hg, Some_bind; unfold entry_of, ptr_is; cbn [se_gt se_lt].
  - rewrite bool_decide_eq_false_2, bool_decide_eq_true_2; [|done|].
    + by rewrite (upd_ok _ _ _ _ Hg).
    + intros E%root_in_ids. set_solver.
  - rewrite bool_decide_eq_true_2 by done. by rewrite (upd_ok _ _ _ _ Hg).
Qed.

Lemma root_plug c t h : c <> [] -> root (plug c t) = root (plug c h).
Proof.
  revert t h. induction c as [|fr c IH]; intros t h Hc; [done|]. cbn [plug foldl].
  change (foldl (fun t fr => plug1 fr t) ?x c) with (plug c x).
  destruct c as [|fr' c]; [by destruct fr|]. by apply IH.
Qed.

(** A rotation to the right: [a] was the left child of [p]. *)
Lemma rotate_left_child s c p kp r x a ka y :
  holds s (plug (FL p kp r :: c) (Node x a ka y)) ->
  exists s', schedule_rotate_up s a = Some s' /\ holds s' (plug c (Node x a ka (Node y p kp r))) /\
    same_outside (plug (FL p kp r :: c) (Node x a ka y)) s s'.
Proof.
  intros [Hrep Hroot Hnd]. pose proof (apart_ok (FL p kp r) c x a ka y Hnd) as [Hap _]. cbn [frame_id frame_sub] in Hap.
  apply rep_plug in Hrep as [Hctx Hsub]. cbn [rep_ctx rep ctx_parent root] in Hctx, Hsub.
  destruct Hctx as (Hp & Hr & Hc), Hsub as (Ha & Hx & Hy).
  pose proof Hap as [Hpa (Hpc & Hpx & Hpy & Hpr) (Hac & Hax & Hay & Har) Hcd Hyd (Hndc & Hndy)].
  set (m := sc_entries s) in *. set (gp := ctx_parent c) in *.
  set (m' := rotated m c p a y (fun e => with_gt e (Some p)) (fun e => with_lt e (root y))).
  exists (mk_sched (sc_earliest s) (match c with [] => Some a | _ => sc_root s end) m').
  assert (Hpm : relink m c a !! p = Some (entry_of kp gp (Some a) (root r))) by by rewrite lookup_relink_ne.
  assert (Ham : relink m c a !! a = Some (entry_of ka (Some p) (root x) (root y))) by by rewrite lookup_relink_ne.
  split.
  - unfold schedule_rotate_up. fold m. rewrite Ha, Some_bind. cbn [entry_of se_parent se_lt se_gt]. rewrite Hp, Some_bind.
    cbn [entry_of se_parent]. unfold gp, m. rewrite (relink_step s c p a (Some p) Hc eq_refl Hndc Hpc), Some_bind. fold m gp.
    rewrite (upd_mk a _ _ _ _ _ Ham), Some_bind.
    set (m1 := alter _ a _). assert (Hp1 : m1 !! p = Some (entry_of kp gp (Some a) (root r))) by (unfold m1; rewrite lookup_alter_ne by done; done).
    assert (Ha1 : m1 !! a = Some (entry_of ka gp (root x) (root y))) by by unfold m1; rewrite lookup_alter_eq, Ham.
    rewrite (upd_mk p _ _ _ _ _ Hp1), Some_bind. cbn [sc_entries]. set (m2 := alter _ p _).
    assert (Hp2 : m2 !! p = Some (entry_of kp (Some a) (Some a) (root r))) by by unfold m2; rewrite lookup_alter_eq, Hp1.
    assert (Ha2 : m2 !! a = Some (entry_of ka gp (root x) (root y))) by (unfold m2; rewrite lookup_alter_ne by done; done).
    rewrite Hp2, Some_bind. unfold entry_of, ptr_is. cbn [se_gt se_lt].
    rewrite bool_decide_eq_false_2 by (intros E%root_in_ids; done). rewrite bool_decide_eq_true_2 by done.
    rewrite (upd_mk a _ _ _ _ _ Ha2), Some_bind. set (m3 := alter _ a _).
    assert (Hp3 : m3 !! p = Some (entry_of kp (Some a) (Some a) (root r))) by (unfold m3; rewrite lookup_alter_ne by done; done).
    rewrite (upd_mk p _ _ _ _ _ Hp3), Some_bind.
    rewrite (upd_opt_mk _ _ _ y (Some a)); [done|].
    eapply rep_mono; [exact Hy|]. intros b Hb. unfold m3, m2, m1.
    assert (b ∉ ctx_ids c) by (intros Hbc; by destruct (Hcd b Hbc) as (_ & ? & _)). look. done.
  - split; [split; cbn [sc_entries sc_root]|].
    + apply rep_plug. split; [by eapply rotated_ctx|]. cbn [rep root]. fold gp. split_and!.
      * unfold m', rotated. look. by rewrite Ha.
      * by eapply rotated_other; [exact Hap|left|].
      * unfold m', rotated. look. by rewrite Hp.
      * by eapply rotated_sub.
      * by eapply rotated_other; [exact Hap|right|].
    + destruct c as [|fr c]; [done|]. rewrite Hroot. cbn [plug foldl plug1]. by apply (root_plug (fr :: c)).
    + assert (ids (plug c (Node x a ka (Node y p kp r))) = ids (plug (FL p kp r :: c) (Node x a ka y))) as -> by
        (rewrite !ids_plug; cbn [before behind]; rewrite !ids_node, ?fmap_cons, ?fmap_app, <- ?app_assoc; cbn;
         by rewrite <- ?app_assoc). done.
    + split; [|split; [|done]]; cbn [sc_entries].
      * intros b Hb. rewrite in_plug, ctx_ids_cons, ids_node, !elem_of_app, !elem_of_cons, !elem_of_app in Hb.
        cbn [frame_id frame_sub] in Hb. eapply lookup_rotated_ne; [exact Hap|tauto..].
      * apply set_eq. intros b. rewrite !elem_of_dom. unfold m', rotated, reparent, relink.
        destruct (root y); destruct c as [|[] c]; rewrite ?lookup_alter_is_Some; done.
Qed.

(** A rotation to the left: [a] was the right child of [p]. *)
Lemma rotate_right_child s c p kp l x a ka y :
  holds s (plug (FR l p kp :: c) (Node x a ka y)) ->
  exists s', schedule_rotate_up s a = Some s' /\ holds s' (plug c (Node (Node l p kp x) a ka y)) /\
    same_outside (plug (FR l p kp :: c) (Node x a ka y)) s s'.
Proof.
  intros [Hrep Hroot Hnd]. pose proof (apart_ok (FR l p kp) c x a ka y Hnd) as [_ Hap]. cbn [frame_id frame_sub] in Hap.
  apply rep_plug in Hrep as [Hctx Hsub]. cbn [rep_ctx rep ctx_parent root] in Hctx, Hsub.
  destruct Hctx as (Hp & Hl & Hc), Hsub as (Ha & Hx & Hy).
  pose proof Hap as [Hpa (Hpc & Hpy & Hpx & Hpl) (Hac & Hay & Hax & Hal) Hcd Hxd (Hndc & Hndx)].
  set (m := sc_entries s) in *. set (gp := ctx_parent c) in *.
  set (m' := rotated m c p a x (fun e => with_lt e (Some p)) (fun e => with_gt e (root x))).
  exists (mk_sched (sc_earliest s) (match c with [] => Some a | _ => sc_root s end) m').
  assert (Hpm : relink m c a !! p = Some (entry_of kp gp (root l) (Some a))) by by rewrite lookup_relink_ne.
  assert (Ham : relink m c a !! a = Some (entry_of ka (Some p) (root x) (root y))) by by rewrite lookup_relink_ne.
  split.
  - unfold schedule_rotate_up. fold m. rewrite Ha, Some_bind. cbn [entry_of se_parent se_lt se_gt]. rewrite Hp, Some_bind.
    cbn [entry_of se_parent]. unfold gp, m. rewrite (relink_step s c p a (Some p) Hc eq_refl Hndc Hpc), Some_bind. fold m gp.
    rewrite (upd_mk a _ _ _ _ _ Ham), Some_bind.
    set (m1 := alter _ a _). assert (Hp1 : m1 !! p = Some (entry_of kp gp (root l) (Some a))) by (unfold m1; rewrite lookup_alter_ne by done; done).
    assert (Ha1 : m1 !! a = Some (entry_of ka gp (root x) (root y))) by by unfold m1; rewrite lookup_alter_eq, Ham.
    rewrite (upd_mk p _ _ _ _ _ Hp1), Some_bind. cbn [sc_entries]. set (m2 := alter _ p _).
    assert (Hp2 : m2 !! p = Some (entry_of kp (Some a) (root l) (Some a))) by by unfold m2; rewrite lookup_alter_eq, Hp1.
    assert (Ha2 : m2 !! a = Some (entry_of ka gp (root x) (root y))) by (unfold m2; rewrite lookup_alter_ne by done; done).
    rewrite Hp2, Some_bind. unfold entry_of, ptr_is. cbn [se_gt se_lt].
    rewrite bool_decide_eq_true_2 by done.
    rewrite (upd_mk a _ _ _ _ _ Ha2), Some_bind. set (m3 := alter _ a _).
    assert (Hp3 : m3 !! p = Some (entry_of kp (Some a) (root l) (Some a))) by (unfold m3; rewrite lookup_alter_ne by done; done).
    rewrite (upd_mk p _ _ _ _ _ Hp3), Some_bind.
    rewrite (upd_opt_mk _ _ _ x (Some a)); [done|].
    eapply rep_mono; [exact Hx|]. intros b Hb. unfold m3, m2, m1.
    assert (b ∉ ctx_ids c) by (intros Hbc; by destruct (Hcd b Hbc) as (_ & ? & _)). look. done.
  - split; [split; cbn [sc_entries sc_root]|].
    + apply rep_plug. split; [by eapply rotated_ctx|]. cbn [rep root]. fold gp. split_and!.
      * unfold m', rotated. look. by rewrite Ha.
      * unfold m', rotated. look. by rewrite Hp.
      * by eapply rotated_other; [exact Hap|right|].
      * by eapply rotated_sub.
      * by eapply rotated_other; [exact Hap|left|].
    + destruct c as [|fr c]; [done|]. rewrite Hroot. cbn [plug foldl plug1]. by apply (root_plug (fr :: c)).
    + assert (ids (plug c (Node (Node l p kp x) a ka y)) = ids (plug (FR l p kp :: c) (Node x a ka y))) as -> by
        (rewrite !ids_plug; cbn [before behind]; rewrite !ids_node, !fmap_app, <- !app_assoc; cbn;
         by rewrite <- ?app_assoc). done.
    + split; [|split; [|done]]; cbn [sc_entries].
      * intros b Hb. rewrite in_plug, ctx_ids_cons, ids_node, !elem_of_app, !elem_of_cons, !elem_of_app in Hb.
        cbn [frame_id frame_sub] in Hb. eapply lookup_rotated_ne; [exact Hap|tauto..].
      * apply set_eq. intros b. rewrite !elem_of_dom. unfold m', rotated, reparent, relink.
        destruct (root x); destruct c as [|[] c]; rewrite ?lookup_alter_is_Some; done.
Qed.
