(* ===== verification/ScheduleOps.v ===== *)
(** * Removing and inserting: the loops of the scheduler on trees

    The heap order and the search order of a treap; each loop over the pointers is followed by
    the tree that the memory holds, and shown to end within its fuel. *)
From Stdlib Require Import Sorted.
From stdpp Require Import sorting.
From S2P Require Import Prelude Integers OTime Schedule ScheduleTree.

(** ** Trees without pointers *)

Definition tsize (t : tree) : nat := length (ids t).

Fixpoint height (t : tree) : nat :=
  match t with Leaf => O | Node l _ _ r => S (Nat.max (height l) (height r)) end.

Lemma tsize_node l a k r : tsize (Node l a k r) = S (tsize l + tsize r).
Proof. unfold tsize. rewrite ids_node, length_app. cbn. lia. Qed.

Lemma height_le t : (height t <= tsize t)%nat.
Proof. induction t; [done|]. rewrite tsize_node. cbn [height]. lia. Qed.

(** What is left when a node with these children is removed. *)
Fixpoint merge (l : tree) : tree -> tree :=
  match l with
  | Leaf => fun r => r
  | Node ll la lk lr =>
      fix merge_l (r : tree) : tree :=
        match r with
        | Leaf => l
        | Node rl ra rk rr => if lk.2 <? rk.2 then Node ll la lk (merge lr r) else Node (merge_l rl) ra rk rr
        end
  end.

Lemma merge_leaf_r l : merge l Leaf = l.
Proof. by destruct l. Qed.

Lemma inorder_merge l r : inorder (merge l r) = inorder l ++ inorder r.
Proof.
  revert r. induction l as [|ll _ la lk lr IH]; intros r; [done|].
  induction r as [|rl IHr ra rk rr _]; [by rewrite app_nil_r|]. cbn [merge].
  destruct (lk.2 <? rk.2).
  - cbn [inorder]. rewrite IH. cbn [inorder]. by rewrite <- !app_assoc.
  - change (_ rl) with (merge (Node ll la lk lr) rl) at 1. cbn [inorder] in *. rewrite IHr. by rewrite <- !app_assoc.
Qed.

(** Every priority is at least [lo], and at least that of the parent. *)
Fixpoint heap (lo : Z) (t : tree) : Prop :=
  match t with
  | Leaf => True
  | Node l _ k r => lo <= k.2 /\ heap k.2 l /\ heap k.2 r
  end.

Lemma heap_mono lo lo' t : lo' <= lo -> heap lo t -> heap lo' t.
Proof. destruct t; [done|]. cbn. intros; split; [lia|tauto]. Qed.

Lemma heap_merge lo l r : heap lo l -> heap lo r -> heap lo (merge l r).
Proof.
  revert lo r. induction l as [|ll _ la lk lr IH]; intros lo r Hl Hr; [done|].
  revert lo Hl Hr. induction r as [|rl IHr ra rk rr _]; intros lo Hl Hr; [done|]. cbn [merge].
  cbn [heap] in Hl, Hr. destruct Hl as (? & ? & ?), Hr as (? & ? & ?). destruct (Z.ltb_spec lk.2 rk.2); cbn [heap].
  - split; [lia|]. split; [done|]. apply IH; [done|]. cbn. split; [lia|done].
  - split; [lia|]. split; [|done]. apply (IHr rk.2); [cbn; split; [lia|done]|done].
Qed.

Definition ctx_pri (c : ctx) : Z := match c with [] => 0 | FL _ k _ :: _ | FR _ _ k :: _ => k.2 end.

Fixpoint heap_ctx (c : ctx) : Prop :=
  match c with
  | [] => True
  | (FL _ k t | FR t _ k) :: c => ctx_pri c <= k.2 /\ heap k.2 t /\ heap_ctx c
  end.

Lemma heap_plug c t : heap 0 (plug c t) <-> heap_ctx c /\ heap (ctx_pri c) t.
Proof.
  revert t. induction c as [|[a k r|l a k] c IH]; intros t; cbn [plug foldl heap_ctx ctx_pri]; [tauto| |].
  - change (foldl _ _ c) with (plug c (Node t a k r)). rewrite IH. cbn [heap]. tauto.
  - change (foldl _ _ c) with (plug c (Node l a k t)). rewrite IH. cbn [heap]. tauto.
Qed.

(** A node of a tree is in a hole. *)
Lemma plug_of t a : a ∈ ids t -> exists c l k r, t = plug c (Node l a k r).
Proof.
  enough (H : forall c, a ∈ ids t -> exists c' l k r, plug c t = plug c' (Node l a k r)) by apply (H []).
  induction t as [|l IHl b k r IHr]; intros c; [by intros ?%elem_of_nil|]. rewrite ids_node, elem_of_app, elem_of_cons.
  intros [Hl|[->|Hr]].
  - apply (IHl (FL b k r :: c) Hl).
  - by exists c, l, k, r.
  - apply (IHr (FR l b k :: c) Hr).
Qed.

Lemma plug_cons fr c t : plug (fr :: c) t = plug c (plug1 fr t).
Proof. done. Qed.

(** ** Bounds on the loops *)

Lemma same_outside_trans t1 t2 s1 s2 s3 :
  same_outside t1 s1 s2 -> same_outside t2 s2 s3 -> (forall b, b ∈ ids t2 -> b ∈ ids t1) -> same_outside t1 s1 s3.
Proof.
  intros (A1 & B1 & C1) (A2 & B2 & C2) Hin. split_and!; [|congruence|congruence].
  intros b Hb. rewrite A2; [by apply A1|]. intros ?. by apply Hb, Hin.
Qed.

Lemma same_outside_refl t s : same_outside t s s.
Proof. by split_and!. Qed.

Lemma rep_dom m t par a : rep m t par -> a ∈ ids t -> a ∈ dom m.
Proof.
  revert par. induction t as [|l IHl b k r IHr]; intros par; [by intros ? ?%elem_of_nil|].
  cbn [rep]. rewrite ids_node, elem_of_app, elem_of_cons. intros (Hb & Hl & Hr) [?|[->|?]]; eauto.
  apply elem_of_dom. by rewrite Hb.
Qed.

Lemma holds_size s t : holds s t -> (tsize t <= size (sc_entries s))%nat.
Proof.
  intros [Hr _ Hnd]. unfold tsize. rewrite <- size_dom, <- (size_list_to_set (C := gset nat)) by done.
  apply subseteq_size. intros a Ha%elem_of_list_to_set. by eapply rep_dom.
Qed.

Lemma ctx_length_le c t : (length c + tsize t <= tsize (plug c t))%nat.
Proof.
  revert t. induction c as [|[a k r|l a k] c IH]; intros t; cbn [plug foldl length]; [done| |].
  - change (foldl _ _ c) with (plug c (Node t a k r)). pose proof (IH (Node t a k r)). rewrite tsize_node in H. lia.
  - change (foldl _ _ c) with (plug c (Node l a k t)). pose proof (IH (Node l a k t)). rewrite tsize_node in H. lia.
Qed.

(** ** Removing *)

Lemma hole_entry s c l a k r :
  holds s (plug c (Node l a k r)) -> sc_entries s !! a = Some (entry_of k (ctx_parent c) (root l) (root r)).
Proof. intros [Hr _ _]. apply rep_plug in Hr as (_ & Ha & _). done. Qed.

Lemma child_ok s c l a k r :
  holds s (plug c (Node l a k r)) ->
  child_to_rotate s (entry_of k (ctx_parent c) (root l) (root r)) =
    Some (match l, r with
          | Node _ la lk _, Node _ ra rk _ => Some (if lk.2 <? rk.2 then la else ra)
          | Node _ la _ _, Leaf => Some la
          | Leaf, Node _ ra _ _ => Some ra
          | Leaf, Leaf => None
          end).
Proof.
  intros Hh. unfold child_to_rotate, entry_of. cbn [se_lt se_gt].
  destruct l as [|ll la lk lr], r as [|rl ra rk rr]; cbn [root]; try done.
  pose proof (hole_entry s (FL a k (Node rl ra rk rr) :: c) ll la lk lr Hh) as ->.
  pose proof (hole_entry s (FR (Node ll la lk lr) a k :: c) rl ra rk rr Hh) as ->. done.
Qed.

Lemma remove_loop_ok fuel s c l a k r :
  holds s (plug c (Node l a k r)) -> (tsize l + tsize r <= fuel)%nat ->
  exists s' c', remove_loop fuel s a = Some s' /\ holds s' (plug c' (Node Leaf a k Leaf)) /\
    plug c' Leaf = plug c (merge l r) /\ same_outside (plug c (Node l a k r)) s s'.
Proof.
  revert s c l r. induction fuel as [|fuel IH]; intros s c l r Hh Hf.
  { destruct l, r; try (rewrite !tsize_node in Hf; lia). exists s, c. cbn [remove_loop].
    rewrite (hole_entry _ _ _ _ _ _ Hh), Some_bind, (child_ok _ _ _ _ _ _ Hh). split_and!; done. }
  cbn [remove_loop]. rewrite (hole_entry _ _ _ _ _ _ Hh), Some_bind, (child_ok _ _ _ _ _ _ Hh), Some_bind.
  assert (Hleft : forall ll la lk lr, l = Node ll la lk lr -> merge l r = Node ll la lk (merge lr r) ->
    exists s' c', (s ← schedule_rotate_up s la; remove_loop fuel s a) = Some s' /\
      holds s' (plug c' (Node Leaf a k Leaf)) /\ plug c' Leaf = plug c (merge l r) /\ same_outside (plug c (Node l a k r)) s s').
  { intros ll la lk lr -> Hm. rewrite tsize_node in Hf.
    destruct (rotate_left_child s c a k r ll la lk lr Hh) as (s1 & -> & Hh1 & Ho1). rewrite Some_bind.
    destruct (IH s1 (FR ll la lk :: c) lr r Hh1) as (s' & c' & -> & Hh' & Hp & Ho2); [lia|].
    exists s', c'. split; [done|]. split; [done|]. split; [by rewrite Hp, Hm|].
    eapply same_outside_trans; [exact Ho1|exact Ho2|]. intros b. rewrite !plug_cons. cbn [plug1].
    rewrite !in_plug, !ids_node. set_solver. }
  assert (Hright : forall rl ra rk rr, r = Node rl ra rk rr -> merge l r = Node (merge l rl) ra rk rr ->
    exists s' c', (s ← schedule_rotate_up s ra; remove_loop fuel s a) = Some s' /\
      holds s' (plug c' (Node Leaf a k Leaf)) /\ plug c' Leaf = plug c (merge l r) /\ same_outside (plug c (Node l a k r)) s s').
  { intros rl ra rk rr -> Hm. rewrite tsize_node in Hf.
    destruct (rotate_right_child s c a k l rl ra rk rr Hh) as (s1 & -> & Hh1 & Ho1). rewrite Some_bind.
    destruct (IH s1 (FL ra rk rr :: c) l rl Hh1) as (s' & c' & -> & Hh' & Hp & Ho2); [lia|].
    exists s', c'. split; [done|]. split; [done|]. split; [by rewrite Hp, Hm|].
    eapply same_outside_trans; [exact Ho1|exact Ho2|]. intros b. rewrite !plug_cons. cbn [plug1].
    rewrite !in_plug, !ids_node. set_solver. }
  destruct l as [|ll la lk lr], r as [|rl ra rk rr].
  - exists s, c. by split_and!.
  - by apply (Hright rl ra rk rr).
  - apply (Hleft ll la lk lr); [done|]. by rewrite !merge_leaf_r.
  - destruct (lk.2 <? rk.2) eqn:E; [apply (Hleft ll la lk lr)|apply (Hright rl ra rk rr)]; try done; cbn [merge]; by rewrite E.
Qed.

(** ** Inserting and the rest of removing

    A leaf is cut off its parent, or hung on; the descent that finds the place of a key. *)

(** ** Leaves *)

(** What is in the hole below this frame changes. *)
Definition set_hole (fr : tframe) (h : option nat) (e : schedule_entry) : schedule_entry :=
  match fr with FL _ _ _ => with_lt e h | FR _ _ _ => with_gt e h end.

Lemma rep_ctx_hole m fr c h h' :
  NoDup (ctx_ids (fr :: c)) -> rep_ctx m (fr :: c) h -> rep_ctx (alter (set_hole fr h') (frame_id fr) m) (fr :: c) h'.
Proof.
  intros (Hs & Hc & _)%ctx_nodup. destruct fr as [p k r|l p k]; cbn [rep_ctx frame_id frame_sub set_hole] in *; intros (Hp & Hsub & Hctx);
    (split; [by rewrite lookup_alter_eq, Hp|]);
    (split; [eapply rep_mono; [done|]|eapply rep_ctx_mono; [done|]]); intros b Hb; apply lookup_alter_ne; congruence.
Qed.

Lemma frame_entry m fr c h :
  rep_ctx m (fr :: c) h -> exists e, m !! frame_id fr = Some e /\
    match fr with FL _ _ _ => se_lt e = h | FR l _ _ => se_gt e = h /\ se_lt e = root l end.
Proof. destruct fr; intros (Hp & _); eexists; (split; [exact Hp|done]). Qed.

Lemma dom_alter' (m : entries) g a : dom (alter g a m) = dom m.
Proof. apply set_eq. intros b. rewrite !elem_of_dom. apply lookup_alter_is_Some. Qed.

(** The entry of a node that is in no tree. *)
Definition loose (m : entries) (a : nat) (k : key) : Prop := m !! a = Some (entry_of k None None None).

Lemma detach_ok s c a k :
  holds s (plug c (Node Leaf a k Leaf)) ->
  exists s', schedule_detach_parent s a = Some s' /\ holds s' (plug c Leaf) /\ loose (sc_entries s') a k /\
    same_outside (plug c (Node Leaf a k Leaf)) s s'.
Proof.
  intros Hh. pose proof (hole_entry _ _ _ _ _ _ Hh) as Ha. destruct Hh as [Hr Hroot Hnd].
  apply rep_plug in Hr as [Hctx _]. apply NoDup_plug in Hnd as (Hnc & _ & Hd).
  unfold schedule_detach_parent. rewrite Ha, Some_bind. cbn [entry_of se_parent root]. destruct c as [|fr c].
  { cbn [ctx_parent]. unfold ptr_is. rewrite Hroot, bool_decide_eq_true_2 by done. eexists. split; [done|].
    split; [by split; [| |constructor]|]. split; [done|]. by split_and!. }
  assert (Hna : a ∉ ctx_ids (fr :: c)) by (intros Hin; apply (Hd a Hin); rewrite ids_node; set_solver).
  assert (Hfa : frame_id fr <> a) by (intros <-; apply Hna; rewrite ctx_ids_cons; set_solver).
  destruct (frame_entry _ _ _ _ Hctx) as (pe & Hp & Hpe). cbn [root] in Hpe.
  replace (ctx_parent (fr :: c)) with (Some (frame_id fr)) by by destruct fr. rewrite Hp, Some_bind.
  assert (E : (if ptr_is (se_lt pe) a then upd (frame_id fr) (fun pe => with_lt pe None) s
               else if ptr_is (se_gt pe) a then upd (frame_id fr) (fun pe => with_gt pe None) s else None) =
              Some (set_entries s (alter (set_hole fr None) (frame_id fr) (sc_entries s)))).
  { unfold ptr_is. destruct fr as [p kp r|l p kp]; cbn [frame_id set_hole] in *.
    - rewrite Hpe, bool_decide_eq_true_2 by done. by rewrite (upd_ok _ _ _ _ Hp).
    - destruct Hpe as [-> ->]. rewrite bool_decide_eq_false_2, bool_decide_eq_true_2; [by rewrite (upd_ok _ _ _ _ Hp)|done|].
      intros E%root_in_ids. apply Hna. rewrite ctx_ids_cons. set_solver. }
  rewrite E, Some_bind. unfold set_entries.
  rewrite (upd_mk a _ _ _ _ (entry_of k (Some (frame_id fr)) None None)) by
    (rewrite lookup_alter_ne by done; rewrite Ha; by destruct fr).
  eexists. split; [done|]. split; [split; cbn [sc_entries sc_root]|].
  - apply rep_plug. split; [|done]. eapply rep_ctx_mono; [by eapply rep_ctx_hole|].
    intros b Hb. apply lookup_alter_ne. congruence.
  - rewrite Hroot. by apply root_plug.
  - rewrite NoDup_plug. split; [done|]. split; [constructor|]. intros b _ ?%elem_of_nil. done.
  - unfold loose. cbn [sc_entries]. split.
    + rewrite lookup_alter_eq, lookup_alter_ne by done. rewrite Ha. by destruct fr.
    + split_and!; [|by cbn; rewrite !dom_alter'|done]. intros b Hb. cbn [sc_entries].
      rewrite in_plug, ctx_ids_cons, ids_node in Hb. rewrite !lookup_alter_ne; [done|set_solver..].
Qed.

Lemma attach_ok s fr c a k :
  holds s (plug (fr :: c) Leaf) -> loose (sc_entries s) a k -> a ∉ ids (plug (fr :: c) Leaf) ->
  exists s1 s', upd (frame_id fr) (set_hole fr (Some a)) s = Some s1 /\
    upd a (fun e => with_parent e (Some (frame_id fr))) s1 = Some s' /\
    holds s' (plug (fr :: c) (Node Leaf a k Leaf)) /\
    (forall b, b ∉ ids (plug (fr :: c) Leaf) -> b <> a -> sc_entries s' !! b = sc_entries s !! b) /\
    dom (sc_entries s') = dom (sc_entries s) /\ sc_earliest s' = sc_earliest s.
Proof.
  intros [Hr Hroot Hnd] Ha Hna. unfold loose in Ha. apply rep_plug in Hr as [Hctx _]. rewrite NoDup_plug in Hnd.
  destruct Hnd as (Hnc & _). rewrite in_plug in Hna.
  assert (Hnc' : a ∉ ctx_ids (fr :: c)) by tauto.
  assert (Hfa : frame_id fr <> a) by (intros <-; apply Hnc'; rewrite ctx_ids_cons; set_solver).
  destruct (frame_entry _ _ _ _ Hctx) as (pe & Hp & _). rewrite (upd_ok _ _ _ _ Hp). unfold set_entries.
  eexists _, _. split; [done|]. rewrite (upd_mk a _ _ _ _ (entry_of k None None None)) by (by rewrite lookup_alter_ne).
  split; [done|]. split; [split; cbn [sc_entries sc_root]|].
  - apply rep_plug. split; [|split; [|done]].
    + eapply rep_ctx_mono; [by eapply rep_ctx_hole|]. intros b Hb. apply lookup_alter_ne. congruence.
    + rewrite lookup_alter_eq, lookup_alter_ne, Ha by done. by destruct fr.
  - rewrite Hroot. by apply root_plug.
  - rewrite NoDup_plug. split; [done|]. rewrite ids_node. split; [apply NoDup_singleton|]. intros b Hb ->%list_elem_of_singleton. done.
  - split_and!; [|by cbn; rewrite !dom_alter'|done]. intros b Hb Hba. cbn [sc_entries].
    rewrite in_plug, ctx_ids_cons in Hb. rewrite !lookup_alter_ne; [done|set_solver..].
Qed.

(** ** Keys *)

Definition key_lt (k1 k2 : key) : Prop :=
  tv_sec k1.1 < tv_sec k2.1 \/ tv_sec k1.1 = tv_sec k2.1 /\
  (tv_usec k1.1 < tv_usec k2.1 \/ tv_usec k1.1 = tv_usec k2.1 /\ k1.2 < k2.2).

Lemma key_eq (k1 k2 : key) :
  tv_sec k1.1 = tv_sec k2.1 -> tv_usec k1.1 = tv_usec k2.1 -> k1.2 = k2.2 -> k1 = k2.
Proof. destruct k1 as [[] ?], k2 as [[] ?]. cbn. congruence. Qed.

Lemma compare_ok k1 k2 p1 p2 l1 l2 g1 g2 :
  let comp := schedule_entry_compare (entry_of k1 p1 l1 g1) (entry_of k2 p2 l2 g2) in
  comp = -1 /\ key_lt k1 k2 \/ comp = 1 /\ key_lt k2 k1 \/ comp = 0 /\ k1 = k2.
Proof.
  unfold schedule_entry_compare, key_lt, entry_of. cbn [se_tv se_pri].
  pose proof (key_eq k1 k2). repeat case_match; [left|right; left|left|right; left|left|right; left|right; right];
    (split; [done|]); first [lia | apply H; lia].
Qed.

(** The key fits into the hole. *)
Definition between (c : ctx) (k : key) : Prop :=
  Forall (fun x => key_lt x.2 k) (before c) /\ Forall (fun x => key_lt k x.2) (behind c).

Definition keys (t : tree) : list key := (inorder t).*2.
Definition sorted (t : tree) : Prop := StronglySorted key_lt (keys t).

(** ** The descent *)

Lemma in_before x c t : x ∈ before c -> x.2 ∈ keys (plug c t).
Proof. intros Hx. unfold keys. rewrite inorder_plug, !fmap_app, !elem_of_app. left. by apply list_elem_of_fmap_2. Qed.

Lemma key_lt_trans k1 k2 k3 : key_lt k1 k2 -> key_lt k2 k3 -> key_lt k1 k3.
Proof. unfold key_lt. lia. Qed.

Lemma key_lt_irrefl k : ~ key_lt k k.
Proof. unfold key_lt. lia. Qed.

(** A node is behind its left subtree and before its right one. *)
Lemma sorted_plug c l a k r :
  sorted (plug c (Node l a k r)) -> Forall (fun x => key_lt x.2 k) (inorder l) /\ Forall (fun x => key_lt k x.2) (inorder r).
Proof.
  unfold sorted, keys. rewrite inorder_plug. cbn [inorder]. rewrite <- app_assoc, !fmap_app, fmap_cons.
  rewrite !StronglySorted_app. intros (_ & _ & Hlt & _ & _ & Hr & _). cbn [snd] in *. apply StronglySorted_inv in Hr as [_ Hr]. split.
  - apply Forall_forall. intros x Hx. apply (Hlt x.2 k); [by apply list_elem_of_fmap_2|apply list_elem_of_here].
  - rewrite Forall_fmap in Hr. exact Hr.
Qed.

Lemma between_left c k l cid ck r :
  sorted (plug c (Node l cid ck r)) -> between c k -> key_lt k ck -> between (FL cid ck r :: c) k.
Proof.
  intros [_ Hr]%sorted_plug [Hb Hh] Hk. split; [done|]. cbn [behind]. constructor; [done|]. apply Forall_app. split; [|done].
  eapply Forall_impl; [exact Hr|]. intros x Hx. eapply key_lt_trans; [exact Hk|exact Hx].
Qed.

Lemma between_right c k l cid ck r :
  sorted (plug c (Node l cid ck r)) -> between c k -> key_lt ck k -> between (FR l cid ck :: c) k.
Proof.
  intros [Hl _]%sorted_plug [Hb Hh] Hk. split; [|done]. cbn [before]. apply Forall_app. split; [done|]. apply Forall_app. split.
  - eapply Forall_impl; [exact Hl|]. intros x Hx. eapply key_lt_trans; [exact Hx|exact Hk].
  - by constructor.
Qed.

(** The priority made of a random number. *)
Definition pri_of (r : Z) : Z := if u32 r <? 1 then 1 else u32 r.

(** The key is free, or one of the random numbers makes it so. *)
Definition free_key (T : tree) (k : key) (rnd : list Z) : Prop :=
  k ∉ keys T \/ exists r, r ∈ rnd /\ (k.1, pri_of r) ∉ keys T.

(** Only the entry [a] and the tree have changed. *)
Definition same_but (T : tree) (a : nat) (s s' : schedule) : Prop :=
  (forall b, b ∉ ids T -> b <> a -> sc_entries s' !! b = sc_entries s !! b) /\
  dom (sc_entries s') = dom (sc_entries s) /\ sc_earliest s' = sc_earliest s.

Lemma same_but_trans T a s1 s2 s3 : same_but T a s1 s2 -> same_but T a s2 s3 -> same_but T a s1 s3.
Proof.
  intros (A1 & B1 & C1) (A2 & B2 & C2). split_and!; [|congruence|congruence]. intros b Hb Hba. rewrite A2; auto.
Qed.

(** Another priority for an entry that is not in the tree. *)
Lemma set_pri_ok s T a k pri :
  holds s T -> loose (sc_entries s) a k -> a ∉ ids T ->
  exists s', upd a (fun e => with_pri e pri) s = Some s' /\ holds s' T /\ loose (sc_entries s') a (k.1, pri) /\
    same_but T a s s' /\ sc_root s' = sc_root s.
Proof.
  intros [Hr Hroot Hnd] Ha Hna. rewrite (upd_ok _ _ _ _ Ha). eexists. split; [done|]. unfold set_entries, loose, same_but.
  cbn [sc_entries sc_root sc_earliest]. split; [split; cbn [sc_entries sc_root]; try done|].
  - eapply rep_mono; [exact Hr|]. intros b Hb. apply lookup_alter_ne. congruence.
  - rewrite lookup_alter_eq, Ha. split; [done|]. split; [|done]. split; [|by rewrite dom_alter'].
    intros b _ Hb. by rewrite lookup_alter_ne.
Qed.

Lemma insert_loop_ok T a n fuel : forall s c l cid ck r k rnd,
  sorted T -> (tsize T <= n)%nat -> a ∉ ids T ->
  holds s T -> plug c (Node l cid ck r) = T -> loose (sc_entries s) a k -> between c k -> free_key T k rnd ->
  (length rnd * S n + height (Node l cid ck r) <= fuel)%nat ->
  exists s' fr c' k' rnd', insert_loop fuel s a cid rnd = Some (s', rnd') /\
    holds s' (plug (fr :: c') (Node Leaf a k' Leaf)) /\ plug (fr :: c') Leaf = T /\ between (fr :: c') k' /\
    k'.1 = k.1 /\ (k' = k \/ 1 <= k'.2) /\ same_but T a s s'.
Proof.
  induction fuel as [|fuel IH]; intros s c l cid ck r k rnd HT Hn Hna Hh HP Ha Hbt Hfree Hfuel; [cbn [height] in Hfuel; lia|].
  cbn [insert_loop]. rewrite Ha, Some_bind. rewrite <- HP in Hh, HT. rewrite (hole_entry _ _ _ _ _ _ Hh), Some_bind.
  destruct (compare_ok k ck None (ctx_parent c) None (root l) None (root r)) as [[-> Hlt]|[[-> Hgt]|[-> ->]]]; cbn [entry_of se_lt se_gt].
  - change (-1 =? -1) with true. cbv iota. pose proof (between_left c k l cid ck r HT Hbt Hlt) as Hbt'.
    destruct l as [|ll lid lk lr]; cbn [root].
    + rewrite HP in *.
      destruct (attach_ok s (FL cid ck r) c a k) as (s1 & s' & E1 & E & Hh' & Ho); [by rewrite plug_cons; cbn [plug1]; rewrite HP|done|by rewrite plug_cons; cbn [plug1]; rewrite HP|].
      unfold set_hole in E1. cbn [frame_id] in E1, E. rewrite E1, Some_bind, E, Some_bind.
      exists s', (FL cid ck r), c, k, rnd. rewrite plug_cons in Ho. cbn [plug1] in Ho. rewrite HP in Ho.
      split_and!; try done; by left.
    + rewrite HP in HT, Hh. cbn [height] in Hfuel.
      apply (IH s (FL cid ck r :: c) ll lid lk lr k rnd); try done. cbn [height]. lia.
  - change (1 =? -1) with false. change (1 =? 1) with true. cbv iota. pose proof (between_right c k l cid ck r HT Hbt Hgt) as Hbt'.
    destruct r as [|rl rid rk rr]; cbn [root].
    + rewrite HP in *.
      destruct (attach_ok s (FR l cid ck) c a k) as (s1 & s' & E1 & E & Hh' & Ho); [by rewrite plug_cons; cbn [plug1]; rewrite HP|done|by rewrite plug_cons; cbn [plug1]; rewrite HP|].
      unfold set_hole in E1. cbn [frame_id] in E1, E. rewrite E1, Some_bind, E, Some_bind.
      exists s', (FR l cid ck), c, k, rnd. rewrite plug_cons in Ho. cbn [plug1] in Ho. rewrite HP in Ho.
      split_and!; try done; by left.
    + rewrite HP in HT, Hh. cbn [height] in Hfuel.
      apply (IH s (FR l cid ck :: c) rl rid rk rr k rnd); try done. cbn [height]. lia.
  - change (0 =? -1) with false. change (0 =? 1) with false. cbv iota. rewrite HP in *.
    destruct Hfree as [Hk|(r0 & Hr0 & Hfree)].
    { destruct Hk. unfold keys. rewrite <- HP, inorder_plug. cbn [inorder]. rewrite !fmap_app, fmap_cons. set_solver. }
    destruct rnd as [|r1 rnd]; [by apply elem_of_nil in Hr0|]. cbn [schedule_set_pri]. rewrite Some_bind. fold (pri_of r1).
    destruct (set_pri_ok s T a ck (pri_of r1) Hh Ha Hna) as (s1 & -> & Hh1 & Ha1 & Ho1 & Hroot). rewrite Some_bind.
    assert (Hcid : cid ∈ ids T) by (rewrite <- HP, in_plug, ids_node; set_solver).
    destruct T as [|tl tid tk tr]; [by apply elem_of_nil in Hcid|].
    rewrite (hd_root _ _ Hh1). cbn [root]. rewrite Some_bind.
    destruct (IH s1 [] tl tid tk tr (ck.1, pri_of r1) rnd) as (s' & fr & c' & k' & rnd' & E & Hh' & HP' & Hb' & Hk1 & Hk2 & Ho2); try done.
    + apply elem_of_cons in Hr0 as [->|Hr0]; [by left|right]. by exists r0.
    + cbn [length] in Hfuel. pose proof (height_le (Node tl tid tk tr)). lia.
    + exists s', fr, c', k', rnd'. split; [done|]. split; [done|]. split; [done|]. split; [done|]. split; [done|].
      split; [|by eapply same_but_trans]. right. destruct Hk2 as [->|]; [|done]. cbn. unfold pri_of. destruct (_ <? _) eqn:?; lia.
Qed.
