(* ===== verification/ScheduleMap.v ===== *)
(** * The scheduler is a map from entries to times with a minimum

    Sifting up, finding the least key, and the operations of the interface: on a treap they
    implement a finite map, and they always end.  Runs of the scheduler, and that they refine
    runs of the map. *)
From Stdlib Require Import Sorted.
From stdpp Require Import sorting.
From S2P Require Import Prelude Integers OTime Schedule ScheduleTree ScheduleOps.

Lemma in_leaf a : a ∈ ids Leaf <-> False.
Proof. split; [apply not_elem_of_nil|done]. Qed.

Lemma in_node a l b k r : a ∈ ids (Node l b k r) <-> a ∈ ids l \/ a = b \/ a ∈ ids r.
Proof. by rewrite ids_node, elem_of_app, elem_of_cons. Qed.

Lemma in_merge a l r : a ∈ ids (merge l r) <-> a ∈ ids l \/ a ∈ ids r.
Proof. unfold ids. by rewrite inorder_merge, fmap_app, elem_of_app. Qed.

(** ** Sifting up *)

Lemma sift_loop_ok fuel : forall s c x a k y,
  holds s (plug c (Node x a k y)) -> heap_ctx c -> 0 <= k.2 ->
  heap k.2 x -> heap k.2 y -> heap (ctx_pri c) x -> heap (ctx_pri c) y -> (length c <= fuel)%nat ->
  exists s' t', sift_loop fuel s a = Some s' /\ holds s' t' /\ heap 0 t' /\
    inorder t' = inorder (plug c (Node x a k y)) /\ same_outside (plug c (Node x a k y)) s s'.
Proof.
  induction fuel as [|fuel IH]; intros s c x a k y Hh Hc Hk Hx Hy Hcx Hcy Hf.
  all: assert (Hstop : ctx_pri c <= k.2 -> exists t', holds s t' /\ heap 0 t' /\
    inorder t' = inorder (plug c (Node x a k y)) /\ same_outside (plug c (Node x a k y)) s s)
    by (intros Hle; exists (plug c (Node x a k y)); split; [done|]; split; [by apply heap_plug|]; by split; [|apply same_outside_refl]).
  all: cbn [sift_loop]; rewrite (hole_entry _ _ _ _ _ _ Hh), Some_bind; cbn [entry_of se_parent se_pri];
    destruct c as [|fr c]; cbn [length] in Hf.
  1, 3: exists s; destruct (Hstop Hk) as (t' & ?); by exists t'.
  1: lia.
  destruct fr as [p kp r|l p kp]; cbn [ctx_parent ctx_pri heap_ctx] in *; destruct Hc as (Hp & Hsub & Hc);
    rewrite plug_cons in Hh; cbn [plug1] in Hh; rewrite (hole_entry _ _ _ _ _ _ Hh), Some_bind; cbn [entry_of se_pri];
    (destruct (Z.ltb_spec k.2 kp.2); [|exists s; destruct (Hstop ltac:(lia)) as (t' & ?); by exists t']).
  - destruct (rotate_left_child s c p kp r x a k y) as (s1 & -> & Hh1 & Ho1); [done|]. rewrite Some_bind.
    destruct (IH s1 c x a k (Node y p kp r)) as (s' & t' & -> & Hh' & Hhp & Hin & Ho); try done; try lia.
    + cbn [heap]. split; [lia|done].
    + eapply heap_mono; [|exact Hcx]. lia.
    + exists s', t'. split; [done|]. split; [done|]. split; [done|]. split.
      * rewrite Hin, plug_cons, !inorder_plug. cbn [plug1 inorder]. rewrite <- !app_assoc. cbn [app]. by rewrite <- ?app_assoc.
      * eapply same_outside_trans; [exact Ho1|exact Ho|]. intros b. rewrite plug_cons. cbn [plug1]. rewrite !in_plug, !in_node. tauto.
  - destruct (rotate_right_child s c p kp l x a k y) as (s1 & -> & Hh1 & Ho1); [done|]. rewrite Some_bind.
    destruct (IH s1 c (Node l p kp x) a k y) as (s' & t' & -> & Hh' & Hhp & Hin & Ho); try done; try lia.
    + cbn [heap]. split; [lia|done].
    + eapply heap_mono; [|exact Hcy]. lia.
    + exists s', t'. split; [done|]. split; [done|]. split; [done|]. split.
      * rewrite Hin, plug_cons, !inorder_plug. cbn [plug1 inorder]. rewrite <- !app_assoc. cbn [app]. by rewrite <- ?app_assoc.
      * eapply same_outside_trans; [exact Ho1|exact Ho|]. intros b. rewrite plug_cons. cbn [plug1]. rewrite !in_plug, !in_node. tauto.
Qed.

(** ** The least key *)

Lemma least_loop_ok fuel s c l a k r :
  holds s (plug c (Node l a k r)) -> (height l <= fuel)%nat ->
  exists b kb, least_loop fuel s a = Some b /\ head (inorder (Node l a k r)) = Some (b, kb).
Proof.
  revert c l a k r. induction fuel as [|fuel IH]; intros c l a k r Hh Hf; cbn [least_loop];
    rewrite (hole_entry _ _ _ _ _ _ Hh), Some_bind; cbn [entry_of se_lt];
    (destruct l as [|ll b kb lr]; cbn [root]; [by exists a, k|]); cbn [height] in Hf; [lia|].
  destruct (IH (FL a k r :: c) ll b kb lr) as (b' & kb' & -> & Hhd); [done|lia|]. exists b', kb'. split; [done|].
  cbn [inorder] in *. rewrite <- app_assoc. destruct (inorder ll); done.
Qed.

Lemma find_least_ok s t :
  holds s t -> schedule_find_least s (sc_root s) = Some (fst <$> head (inorder t)).
Proof.
  intros Hh. rewrite (hd_root _ _ Hh). destruct t as [|l a k r]; [done|]. cbn [root schedule_find_least].
  destruct (least_loop_ok (size (sc_entries s)) s [] l a k r Hh) as (b & kb & -> & ->); [|done].
  pose proof (holds_size _ _ Hh). pose proof (height_le l). rewrite tsize_node in *. lia.
Qed.

(** ** The invariant *)

(** The entries of a list, and their times. *)
Definition times (l : list (nat * key)) : gmap nat timeval := list_to_map ((fun x => (x.1, x.2.1)) <$> l).

(** A treap: in order, with the heap property. *)
Record treap (s : schedule) (t : tree) : Prop := {
  tr_holds : holds s t;
  tr_sorted : sorted t;
  tr_heap : heap 0 t;
  tr_pri : Forall (fun x => 1 <= x.2.2) (inorder t)
}.

(** The scheduler holds the treap; every other entry is out of the tree, without links; the
    cache is empty or right. *)
Record sched_tree (s : schedule) (t : tree) : Prop := {
  st_treap : treap s t;
  st_loose : forall a e, sc_entries s !! a = Some e -> a ∉ ids t -> loose (sc_entries s) a (se_tv e, 0);
  st_cache : sc_earliest s = None \/ sc_earliest s = fst <$> head (inorder t)
}.

(** The treap has exactly the entries and times of [M]. *)
Definition sched_inv (s : schedule) (M : gmap nat timeval) : Prop :=
  exists t, sched_tree s t /\ M = times (inorder t).

Lemma times_lookup l a tv :
  NoDup l.*1 -> times l !! a = Some tv <-> exists pri, (a, (tv, pri)) ∈ l.
Proof.
  intros Hnd. unfold times. rewrite <- elem_of_list_to_map by by rewrite <- list_fmap_compose.
  rewrite list_elem_of_fmap. split.
  - intros ([b [tv' pri]] & [= -> ->] & Hin). by exists pri.
  - intros (pri & Hin). by exists (a, (tv, pri)).
Qed.

Lemma times_none l a : a ∉ l.*1 -> times l !! a = None.
Proof. intros Ha. apply not_elem_of_list_to_map. by rewrite <- list_fmap_compose. Qed.

Lemma times_middle l1 a k l2 :
  a ∉ l1.*1 -> times (l1 ++ (a, k) :: l2) = <[a := k.1]> (times (l1 ++ l2)).
Proof.
  intros Ha. unfold times. rewrite !fmap_app, fmap_cons. cbn [fst snd].
  rewrite !list_to_map_app. cbn [list_to_map foldr]. rewrite insert_union_r; [done|]. by apply times_none.
Qed.

(** ** Removing *)

Lemma remove_node_ok s c l a k r :
  holds s (plug c (Node l a k r)) ->
  exists s', schedule_remove_node s a = Some s' /\ holds s' (plug c (merge l r)) /\ loose (sc_entries s') a (k.1, 0) /\
    same_outside (plug c (Node l a k r)) s s'.
Proof.
  intros Hh. unfold schedule_remove_node.
  destruct (remove_loop_ok (size (sc_entries s)) s c l a k r Hh) as (s1 & c1 & -> & Hh1 & Hp & Ho1).
  { pose proof (holds_size _ _ Hh). pose proof (ctx_length_le c (Node l a k r)). rewrite tsize_node in *. lia. }
  rewrite Some_bind. destruct (detach_ok s1 c1 a k Hh1) as (s2 & -> & Hh2 & Hl & Ho2). rewrite Some_bind.
  pose proof (hd_nodup _ _ Hh1) as Hnd. apply NoDup_plug in Hnd as (_ & _ & Hd).
  destruct (set_pri_ok s2 (plug c1 Leaf) a k 0 Hh2 Hl) as (s3 & -> & Hh3 & Hl3 & (Hs3 & Hd3 & He3) & _).
  { rewrite in_plug. intros [Ha|Ha%elem_of_nil]; [|done]. apply (Hd a Ha). rewrite in_node. tauto. }
  exists s3. rewrite Hp in *. split; [done|]. split; [done|]. split; [done|].
  assert (Hin : forall b, b ∈ ids (plug c1 (Node Leaf a k Leaf)) -> b ∈ ids (plug c (Node l a k r))).
  { intros b. pose proof (in_plug c1 Leaf b) as E. rewrite Hp, in_plug, in_merge, in_leaf in E.
    rewrite !in_plug, !in_node, in_leaf. tauto. }
  eapply same_outside_trans; [eapply same_outside_trans; [exact Ho1|exact Ho2|exact Hin]| |intros b Hb; exact Hb].
  split_and!; [|done|done]. intros b Hb. apply Hs3.
  - intros Hb'. apply Hb. rewrite in_plug in Hb' |- *. rewrite in_merge in Hb'. rewrite in_node. tauto.
  - intros ->. apply Hb. rewrite in_plug, in_node. tauto.
Qed.

(** ** Adding *)

(** A random number makes a key that is not in the tree. *)
Definition fresh_key (T : tree) (tv : timeval) (rnd : list Z) : Prop :=
  exists r, r ∈ rnd /\ (tv, pri_of r) ∉ keys T.

(** One entry more, in its place. *)
Definition one_more (T t : tree) (a : nat) (k : key) : Prop :=
  exists l1 l2, inorder T = l1 ++ l2 /\ inorder t = l1 ++ (a, k) :: l2.

Lemma plug_leaf_one_more c a k : one_more (plug c Leaf) (plug c (Node Leaf a k Leaf)) a k.
Proof. exists (before c), (behind c). by rewrite !inorder_plug. Qed.

Lemma sorted_one_more c a k : sorted (plug c Leaf) -> between c k -> sorted (plug c (Node Leaf a k Leaf)).
Proof.
  unfold sorted, keys, between. rewrite !inorder_plug. cbn [inorder app]. rewrite !fmap_app, fmap_cons. cbn [snd].
  rewrite !StronglySorted_app. intros (Hlt & H1 & H2) [Hb Hh]. split_and!; [|done|].
  - intros x1 x2 Hx1 [->|Hx2]%elem_of_cons; [|by apply Hlt].
    apply list_elem_of_fmap in Hx1 as (x & -> & Hx). rewrite Forall_forall in Hb. by apply Hb.
  - constructor; [done|]. apply Forall_forall. intros x Hx. apply list_elem_of_fmap in Hx as (y & -> & Hy).
    rewrite Forall_forall in Hh. by apply Hh.
Qed.

Lemma pri_of_pos r : 1 <= pri_of r.
Proof. unfold pri_of. destruct (u32 r <? 1) eqn:?; lia. Qed.

(** The place of the entry is found, before it is sifted up. *)
Lemma place_ok s T a tv p0 rnd :
  holds s T -> sorted T -> loose (sc_entries s) a (tv, p0) -> a ∉ ids T -> fresh_key T tv rnd ->
  exists p1 rnd1 s1 s' rnd' c pri, schedule_set_pri rnd = Some (p1, rnd1) /\
    upd a (fun e => with_pri e p1) s = Some s1 /\
    match sc_root s1 with Some _ => schedule_insert s1 a rnd1 | None => Some (set_root s1 (Some a), rnd1) end = Some (s', rnd') /\
    holds s' (plug c (Node Leaf a (tv, pri) Leaf)) /\ plug c Leaf = T /\ between c (tv, pri) /\ 1 <= pri /\ same_but T a s s'.
Proof.
  intros Hh Hs Hl Ha (r & Hr & Hk). destruct rnd as [|r0 rnd]; [by apply elem_of_nil in Hr|].
  cbn [schedule_set_pri]. fold (pri_of r0). pose proof (pri_of_pos r0).
  destruct (set_pri_ok s T a (tv, p0) (pri_of r0) Hh Hl Ha) as (s1 & E1 & Hh1 & Hl1 & Ho1 & Hroot).
  exists (pri_of r0), rnd, s1. rewrite (hd_root _ _ Hh1). destruct T as [|tl tid tk tr]; cbn [root].
  - exists (set_root s1 (Some a)), rnd, [], (pri_of r0). split; [done|]. split; [done|]. split; [done|].
    split; [|split_and!; try done; by apply Ho1].
    split; cbn [sc_entries sc_root set_root]; [by split; [|split]|done|]. apply (NoDup_singleton a).
  - unfold schedule_insert. rewrite (hd_root _ _ Hh1). cbn [root]. rewrite Some_bind.
    destruct (insert_loop_ok (Node tl tid tk tr) a (size (sc_entries s1)) (S (length rnd) * S (size (sc_entries s1)))
      s1 [] tl tid tk tr (tv, pri_of r0) rnd) as (s' & fr & c & [tv' pri] & rnd' & E & Hh' & Hp & Hb & Htv & Hpri & Ho); try done.
    + by apply holds_size.
    + apply elem_of_cons in Hr as [->|Hr]; [by left|right]. by exists r.
    + pose proof (height_le (Node tl tid tk tr)). pose proof (holds_size _ _ Hh1). lia.
    + cbn [fst snd] in *. subst tv'. exists s', rnd', (fr :: c), pri. split_and!; [done|done|done|done|done|done| |by eapply same_but_trans..].
      by destruct Hpri as [[= ->]|].
Qed.

(** What [schedule_add_modify] does with an entry that is not, or no longer, in the tree. *)
Lemma add_tail_ok s T a tv p0 rnd :
  treap s T -> loose (sc_entries s) a (tv, p0) -> a ∉ ids T -> fresh_key T tv rnd ->
  exists s' rnd' t pri, ('(pri, rnd) ← schedule_set_pri rnd;
      s ← upd a (fun e => with_pri e pri) s;
      '(s, rnd) ← match sc_root s with Some _ => schedule_insert s a rnd | None => Some (set_root s (Some a), rnd) end;
      s ← sift_loop (size (sc_entries s)) s a; Some (s, rnd)) = Some (s', rnd') /\
    treap s' t /\ one_more T t a (tv, pri) /\ same_but T a s s'.
Proof.
  intros [Hh Hs Hhp Hpri] Hl Ha Hfr.
  destruct (place_ok s T a tv p0 rnd Hh Hs Hl Ha Hfr) as (p1 & rnd1 & s1 & s2 & rnd2 & c & pri & -> & E1 & E2 & Hh2 & Hp & Hb & Hpos & Ho).
  rewrite Some_bind, E1, Some_bind, E2, Some_bind. subst T. apply heap_plug in Hhp as [Hc _].
  destruct (sift_loop_ok (size (sc_entries s2)) s2 c Leaf a (tv, pri) Leaf) as (s3 & t & -> & Hh3 & Hhp3 & Hin & Ho3); try done.
  { cbn. lia. }
  { pose proof (holds_size _ _ Hh2). pose proof (ctx_length_le c (Node Leaf a (tv, pri) Leaf)). lia. }
  rewrite Some_bind. exists s3, rnd2, t, pri. split; [done|]. split_and!.
  - split; [done| |done|].
    + unfold sorted, keys. rewrite Hin. by apply sorted_one_more.
    + rewrite Hin. rewrite inorder_plug in *. cbn [inorder app] in *. rewrite Forall_app, Forall_cons in *. tauto.
  - destruct (plug_leaf_one_more c a (tv, pri)) as (l1 & l2 & E3 & E4). exists l1, l2. by rewrite Hin.
  - destruct Ho as (A1 & B1 & C1), Ho3 as (A2 & B2 & C2). split_and!; [|congruence..].
    intros b Hb1 Hb2. rewrite A2; [by apply A1|]. rewrite in_plug, in_leaf in Hb1. rewrite in_plug, in_node, in_leaf. tauto.
Qed.

(** Another time for an entry, where it is. *)
Lemma set_tv_in s c l a k r tv :
  holds s (plug c (Node l a k r)) ->
  exists s', upd a (fun e => with_tv e tv) s = Some s' /\ holds s' (plug c (Node l a (tv, k.2) r)) /\
    same_outside (plug c (Node l a k r)) s s'.
Proof.
  intros Hh. rewrite (upd_ok _ _ _ _ (hole_entry _ _ _ _ _ _ Hh)). eexists. split; [done|].
  destruct Hh as [Hr Hroot Hnd]. pose proof Hr as [Hc Hn]%rep_plug. destruct Hn as (Ha & Hrl & Hrr). cbn [rep] in *.
  pose proof Hnd as (_ & Hndn & Hd)%NoDup_plug. rewrite ids_node in Hndn.
  apply NoDup_app in Hndn as (_ & Hla & Hndn). apply NoDup_cons in Hndn as [Har _]. unfold set_entries.
  split; [split; cbn [sc_entries sc_root]|].
  - apply rep_plug. split; [|split; [|split]].
    + eapply rep_ctx_mono; [exact Hc|]. intros b Hb. apply lookup_alter_ne. intros ->. apply (Hd b Hb). rewrite in_node. tauto.
    + by rewrite lookup_alter_eq, Ha.
    + eapply rep_mono; [exact Hrl|]. intros b Hb. apply lookup_alter_ne. intros ->. apply (Hla b Hb). apply list_elem_of_here.
    + eapply rep_mono; [exact Hrr|]. intros b Hb. apply lookup_alter_ne. intros ->. done.
  - rewrite Hroot. by destruct c as [|fr c] using rev_ind; [|unfold plug; rewrite !foldl_app; destruct fr].
  - rewrite ids_plug, ids_node in *. done.
  - split_and!; [|by cbn; rewrite dom_alter'|done]. intros b Hb. cbn [sc_entries]. rewrite in_plug, in_node in Hb.
    apply lookup_alter_ne. intros ->; tauto.
Qed.

(** ** One entry more or less *)

Lemma one_more_ids T t a k b : one_more T t a k -> b ∈ ids t <-> b = a \/ b ∈ ids T.
Proof. intros (l1 & l2 & E1 & E2). unfold ids. rewrite E1, E2, !fmap_app, fmap_cons, !elem_of_app, elem_of_cons. cbn. tauto. Qed.

Lemma one_more_times T t a k : NoDup (ids t) -> one_more T t a k -> times (inorder t) = <[a := k.1]> (times (inorder T)).
Proof.
  intros Hnd (l1 & l2 & E1 & E2). unfold ids in Hnd. rewrite E1, E2 in *. apply times_middle.
  rewrite fmap_app in Hnd. apply NoDup_app in Hnd as (_ & Hn & _). intros Ha. apply (Hn a Ha). rewrite fmap_cons. apply list_elem_of_here.
Qed.

Lemma one_more_merge c l a k r : one_more (plug c (merge l r)) (plug c (Node l a k r)) a k.
Proof.
  exists (before c ++ inorder l), (inorder r ++ behind c). rewrite !inorder_plug, inorder_merge. cbn [inorder].
  by rewrite <- !app_assoc.
Qed.

Lemma one_more_sorted T t a k : one_more T t a k -> sorted t -> sorted T.
Proof.
  intros (l1 & l2 & E1 & E2). unfold sorted, keys. rewrite E1, E2, !fmap_app, fmap_cons, !StronglySorted_app.
  intros (Hlt & H1 & H2). apply StronglySorted_inv in H2 as [H2 _]. split_and!; [|done|done].
  intros x1 x2 Hx1 Hx2. apply Hlt; [done|]. by right.
Qed.

Lemma one_more_not_in T t a k : NoDup (ids t) -> one_more T t a k -> a ∉ ids T.
Proof.
  intros Hnd (l1 & l2 & E1 & E2). unfold ids in *. rewrite E1, E2, !fmap_app, fmap_cons in *. cbn [fst] in Hnd.
  apply NoDup_app in Hnd as (_ & Hn & Hnd). apply NoDup_cons in Hnd as [Ha _]. rewrite elem_of_app. intros [Hb|]; [|done].
  apply (Hn a Hb). apply list_elem_of_here.
Qed.

(** An entry is taken out of the treap. *)
Lemma take_out_ok s c l a k r :
  holds s (plug c (Node l a k r)) -> heap 0 (plug c (Node l a k r)) ->
  Forall (fun x => 1 <= x.2.2) (inorder (plug c (Node l a k r))) -> sorted (plug c (merge l r)) ->
  exists s', schedule_remove_node s a = Some s' /\ treap s' (plug c (merge l r)) /\ loose (sc_entries s') a (k.1, 0) /\
    same_outside (plug c (Node l a k r)) s s'.
Proof.
  intros Hh Hhp Hpri Hs. destruct (remove_node_ok s c l a k r Hh) as (s' & -> & Hh' & Hl & Ho). exists s'.
  split; [done|]. split_and!; try done; try apply Ho. split; [done|done| |].
  - apply heap_plug in Hhp as (Hc & Hk & Hhl & Hhr). apply heap_plug. split; [done|].
    apply (heap_mono k.2); [done|]. by apply heap_merge.
  - destruct (one_more_merge c l a k r) as (l1 & l2 & E1 & E2). rewrite E1. rewrite E2 in Hpri.
    rewrite Forall_app, Forall_cons in *. tauto.
Qed.

(** ** The operations of the scheduler, and its runs

    The scheduler of [schedule.c] refines a finite map from entries to wakeup times. *)

(** One of the random numbers makes a key that no other entry has. *)
Definition new_key (s : schedule) (a : nat) (tv : timeval) (rnd : list Z) : Prop :=
  Exists (fun r => map_Forall (fun b e => b = a \/ se_tv e <> tv \/ se_pri e <> pri_of r) (sc_entries s)) rnd.

Lemma new_key_fresh s t T a tv rnd :
  holds s t -> (forall x, x ∈ inorder T -> x ∈ inorder t) -> a ∉ ids T -> new_key s a tv rnd -> fresh_key T tv rnd.
Proof.
  intros Hh Hsub Ha (r & Hr & Hnew)%Exists_exists. exists r. split; [done|]. intros (x & Ex & Hx)%list_elem_of_fmap.
  assert (Hb : x.1 ∈ ids t) by (apply list_elem_of_fmap; exists x; split; [done|by apply Hsub]).
  destruct (plug_of t x.1 Hb) as (c & l & k & r' & ->). pose proof (hole_entry _ _ _ _ _ _ Hh) as E.
  assert (k = x.2).
  { pose proof (hd_nodup _ _ Hh) as Hnd. apply Hsub in Hx. unfold ids in Hnd.
    assert (Hk : (x.1, k) ∈ inorder (plug c (Node l x.1 k r'))) by (rewrite inorder_plug; cbn [inorder]; set_solver).
    destruct x as [b k']. cbn [fst snd] in *. pose proof (elem_of_list_to_map_1 (M := gmap nat) _ _ _ Hnd Hk). pose proof (elem_of_list_to_map_1 (M := gmap nat) _ _ _ Hnd Hx). congruence. }
  subst k. destruct (Hnew _ _ E) as [<-|[H|H]]; cbn [entry_of se_tv se_pri] in *.
  - apply Ha, list_elem_of_fmap. by exists x.
  - by rewrite <- Ex in H.
  - by rewrite <- Ex in H.
Qed.

(** An entry whose new time is within [sigma] of its old one stays. *)
Definition map_add (M : gmap nat timeval) (a : nat) (tv : timeval) (sigma : Z) : gmap nat timeval :=
  match M !! a with
  | Some tv0 => if negb (sigma =? 0) && tv_within_sigma tv tv0 sigma then M else <[a := tv]> M
  | None => <[a := tv]> M
  end.

(** The wakeup time of an entry in the map and in memory. *)
Lemma in_tree_ok s t a e :
  sched_tree s t -> sc_entries s !! a = Some e ->
  (IN_TREE e = true /\ times (inorder t) !! a = Some (se_tv e) /\ exists c l r, t = plug c (Node l a (se_tv e, se_pri e) r)) \/
  (IN_TREE e = false /\ times (inorder t) !! a = None /\ a ∉ ids t /\ loose (sc_entries s) a (se_tv e, 0)).
Proof.
  intros [[Hh Hs Hhp Hpri] Hl _] He. unfold IN_TREE. destruct (decide (a ∈ ids t)) as [Ha|Ha].
  - left. destruct (plug_of t a Ha) as (c & l & k & r & ->). pose proof (hole_entry _ _ _ _ _ _ Hh) as E.
    rewrite He in E. injection E as ->. cbn [entry_of se_tv se_pri]. rewrite inorder_plug in *. cbn [inorder] in *.
    rewrite !Forall_app, Forall_cons in Hpri. cbn [snd] in Hpri. split; [lia|]. split; [|exists c, l, r; by destruct k].
    apply times_lookup; [|exists k.2; destruct k; set_solver].
    pose proof (hd_nodup _ _ Hh) as Hnd. unfold ids in Hnd. by rewrite inorder_plug in Hnd.
  - right. pose proof (Hl a e He Ha) as E. unfold loose in E. rewrite He in E. apply (inj Some) in E.
    assert (se_pri e = 0) as -> by by rewrite E. split; [done|]. split; [by apply times_none|]. split; [done|]. by apply Hl.
Qed.

(** An entry is put into the treap of the others: the invariant, and the map. *)
Lemma finish_add s0 s T t t0 a tv pri :
  sched_tree s0 t0 -> treap s t -> one_more T t a (tv, pri) ->
  (forall b, b <> a -> b ∈ ids t0 <-> b ∈ ids T) ->
  (forall b, b ∉ ids T -> b <> a -> sc_entries s !! b = sc_entries s0 !! b) ->
  dom (sc_entries s) = dom (sc_entries s0) ->
  sched_tree (set_earliest s None) t /\ times (inorder t) = <[a := tv]> (times (inorder T)) /\
  dom (sc_entries (set_earliest s None)) = dom (sc_entries s0).
Proof.
  intros [Ht0 Hl0 _] Ht Hone Hids Hsame Hd. split; [split|].
  - destruct Ht as [[Hr Hroot Hnd] Hs Hhp Hpri]. split; [split; done|done|done|done].
  - cbn [sc_entries set_earliest]. intros b e He Hb. rewrite (one_more_ids _ _ _ _ b Hone) in Hb.
    unfold loose in *. rewrite Hsame by tauto. rewrite Hsame in He by tauto. apply Hl0; [done|]. rewrite Hids by tauto. tauto.
  - by left.
  - split; [|done]. by apply (one_more_times T t a (tv, pri)); [apply Ht|].
Qed.

Lemma add_entry_ok s M a e tv sigma rnd :
  sched_inv s M -> sc_entries s !! a = Some e -> new_key s a tv rnd ->
  exists s' rnd', schedule_add_entry s a tv sigma rnd = Some (s', rnd') /\ sched_inv s' (map_add M a tv sigma) /\
    dom (sc_entries s') = dom (sc_entries s).
Proof.
  intros (t & Ht & ->) He Hnew. unfold schedule_add_entry, map_add. rewrite He, Some_bind.
  destruct (in_tree_ok s t a e Ht He) as [(HI & -> & c & l & r & Et)|(HI & -> & Ha & Hl)]; rewrite HI; cbn [negb orb].
  - replace ((sigma =? 0) || negb (tv_within_sigma tv (se_tv e) sigma))
      with (negb (negb (sigma =? 0) && tv_within_sigma tv (se_tv e) sigma)) by (by rewrite negb_andb, negb_involutive).
    destruct (negb (sigma =? 0) && _); cbn [negb]; [exists s, rnd; split; [done|]; split; [|done]; by exists t|].
    pose proof Ht as [[Hh Hs Hhp Hpri] Hlo _]. subst t. set (k := (se_tv e, se_pri e)) in *.
    destruct (set_tv_in s c l a k r tv Hh) as (s1 & -> & Hh1 & Ho1). rewrite Some_bind.
    pose proof (hole_entry _ _ _ _ _ _ Hh1) as E1. unfold schedule_add_modify. rewrite E1, Some_bind. change (IN_TREE _) with (IN_TREE e). rewrite HI.
    pose proof (one_more_merge c l a k r) as Hone. pose proof (one_more_not_in _ _ _ _ (hd_nodup _ _ Hh) Hone) as Hna.
    destruct (take_out_ok s1 c l a (tv, k.2) r Hh1) as (s2 & -> & Ht2 & Hl2 & Ho2).
    { apply heap_plug. by apply heap_plug in Hhp. }
    { rewrite inorder_plug in *. cbn [inorder] in *. rewrite !Forall_app, !Forall_cons in *. cbn [snd] in *. tauto. }
    { by eapply one_more_sorted. }
    rewrite Some_bind. destruct Ho1 as (A1 & B1 & C1), Ho2 as (A2 & B2 & C2).
    destruct (add_tail_ok s2 (plug c (merge l r)) a tv 0 rnd Ht2 Hl2 Hna) as (s3 & rnd3 & t & pri & -> & Ht3 & Hone3 & (A3 & B3 & C3)).
    { eapply new_key_fresh; [exact Hh| |exact Hna|exact Hnew]. destruct Hone as (l1 & l2 & -> & ->). set_solver. }
    rewrite Some_bind. exists (set_earliest s3 None), rnd3. split; [done|].
    destruct (finish_add s s3 (plug c (merge l r)) t _ a tv pri Ht Ht3 Hone3) as (Hf & Ef & Hdf).
    { intros b Hb. rewrite (one_more_ids _ _ _ _ b Hone). tauto. }
    { intros b Hb Hba. rewrite A3, A2, A1; try done; rewrite !in_plug, ?in_node, ?in_merge in *; tauto. }
    { by rewrite B3, B2. }
    split; [|done]. exists t. split; [done|]. rewrite Ef, (one_more_times _ _ _ _ (hd_nodup _ _ Hh) Hone). apply insert_insert_eq.
  - unfold loose in Hl. rewrite (upd_ok _ _ _ _ Hl), Some_bind. set (s1 := set_entries _ _).
    assert (Hl1 : loose (sc_entries s1) a (tv, 0)) by (unfold loose; subst s1; cbn; by rewrite lookup_alter_eq, Hl).
    unfold schedule_add_modify. rewrite Hl1, Some_bind. change (IN_TREE _) with false. cbv iota. rewrite Some_bind.
    pose proof Ht as [[[Hr Hroot Hndt] Hs Hhp Hpri] Hlo _].
    destruct (add_tail_ok s1 t a tv 0 rnd) as (s3 & rnd3 & t' & pri & E3 & Ht3 & Hone3 & (A3 & B3 & C3)); [|exact Hl1|exact Ha|..].
    + split; [split; cbn [sc_entries sc_root set_entries]|..]; try done. eapply rep_mono; [exact Hr|].
      intros b Hb. apply lookup_alter_ne. intros ->. done.
    + eapply new_key_fresh; [|done|exact Ha|exact Hnew]. by split.
    + rewrite E3, Some_bind. exists (set_earliest s3 None), rnd3. split; [done|].
      destruct (finish_add s s3 t t' t a tv pri Ht Ht3 Hone3) as (Hf & Ef & Hdf); [done| | |].
      { intros b Hb Hba. rewrite A3 by done. by apply lookup_alter_ne. }
      { rewrite B3. apply dom_alter'. }
      split; [|done]. exists t'. by rewrite Ef.
Qed.

Lemma set_earliest_holds s x t : holds s t -> holds (set_earliest s x) t.
Proof. intros [? ? ?]. by split. Qed.

Lemma remove_entry_ok s M a e :
  sched_inv s M -> sc_entries s !! a = Some e ->
  exists s', schedule_remove_entry s a = Some s' /\ sched_inv s' (delete a M) /\ dom (sc_entries s') = dom (sc_entries s).
Proof.
  intros (t & Ht & ->) He. unfold schedule_remove_entry. pose proof Ht as [[Hh Hs Hhp Hpri] Hlo _].
  pose proof (set_earliest_holds s None t Hh) as Hh1.
  destruct (in_tree_ok s t a e Ht He) as [(HI & EM & c & l & r & Et)|(HI & EM & Ha & Hl)].
  - subst t. set (k := (se_tv e, se_pri e)) in *. pose proof (one_more_merge c l a k r) as Hone.
    destruct (take_out_ok (set_earliest s None) c l a k r Hh1 Hhp Hpri) as (s' & -> & Ht' & Hl' & (A & B & C));
      [by eapply one_more_sorted|]. exists s'. split; [done|]. split; [|done]. exists (plug c (merge l r)). split.
    + split; [done| |by left]. intros b e' Hb Hnb. destruct (decide (b = a)) as [->|Hne].
      { unfold loose in *. rewrite Hb in Hl'. injection Hl' as ->. done. }
      assert (Hb' : b ∉ ids (plug c (Node l a k r))) by (rewrite (one_more_ids _ _ _ _ b Hone); tauto).
      unfold loose in *. rewrite A in Hb |- * by done. by apply Hlo.
    + rewrite (one_more_times _ _ _ _ (hd_nodup _ _ Hh) Hone). apply delete_insert_id. apply times_none.
      by apply (one_more_not_in _ _ _ _ (hd_nodup _ _ Hh)  Hone).
  - unfold schedule_remove_node, schedule_detach_parent. pose proof Hl as Hl1. unfold loose in Hl1.
    assert (E1 : forall fuel, remove_loop fuel (set_earliest s None) a = Some (set_earliest s None))
      by (intros [|fuel]; cbn [remove_loop set_earliest sc_entries]; by rewrite Hl1).
    rewrite E1, Some_bind. cbn [set_earliest sc_entries]. rewrite Hl1, Some_bind. cbn [entry_of se_parent].
    assert (Hroot : ptr_is (sc_root s) a = false).
    { unfold ptr_is. apply bool_decide_eq_false_2. rewrite (hd_root _ _ Hh). intros Hr. by apply Ha, root_in_ids. }
    cbn [sc_root set_earliest]. rewrite Hroot, Some_bind. rewrite (upd_ok a _ (set_earliest s None) _ Hl1). eexists. split; [done|].
    assert (Em : alter (fun e => with_pri e 0) a (sc_entries s) = sc_entries s)
      by (apply map_eq; intros b; destruct (decide (b = a)) as [->|]; [by rewrite lookup_alter_eq, Hl1|by rewrite lookup_alter_ne]).
    unfold set_entries, set_earliest. cbn [sc_entries sc_root sc_earliest]. rewrite Em. split; [|done]. exists t. split; [|by rewrite delete_id].
    destruct Hh as [? ? ?]. split; [by repeat split|done|by left].
Qed.

Lemma earliest_ok s M :
  sched_inv s M ->
  exists s' r, schedule_get_earliest_wakeup s = Some (r, s') /\ sched_inv s' M /\ dom (sc_entries s') = dom (sc_entries s) /\
    match r with
    | None => M = ∅
    | Some (a, tv) => M !! a = Some tv /\ forall b tv', M !! b = Some tv' -> tv_le tv tv' = true
    end.
Proof.
  intros (t & Ht & ->). pose proof Ht as [[Hh Hs Hhp Hpri] Hlo Hc]. set (h := fst <$> head (inorder t)).
  exists (set_earliest s h), ((fun x => (x.1, x.2.1)) <$> head (inorder t)).
  assert (Ec : match sc_earliest s with Some _ => Some s
               | None => l ← schedule_find_least s (sc_root s); Some (set_earliest s l) end = Some (set_earliest s h)).
  { destruct Hc as [->|E]; [by rewrite (find_least_ok s t Hh), Some_bind|]. fold h in E. destruct s as [er rt m]. cbn [sc_earliest] in *.
    subst er. destruct h eqn:Eh; [done|]. pose proof (find_least_ok _ t Hh) as ->. rewrite Some_bind. unfold h in Eh. by rewrite Eh. }
  split; [|split; [|split; [done|]]].
  - unfold schedule_get_earliest_wakeup. rewrite Ec, Some_bind. cbn [set_earliest sc_earliest sc_entries]. unfold h.
    destruct (inorder t) as [|[a k] l] eqn:Ei; [done|]. cbn [head fmap option_fmap option_map fst snd].
    destruct (plug_of t a) as (c & tl & k' & tr & ->); [unfold ids; rewrite Ei; apply list_elem_of_here|].
    rewrite (hole_entry _ _ _ _ _ _ Hh), Some_bind. cbn [entry_of se_tv].
    pose proof (hd_nodup _ _ Hh) as Hnd. unfold ids in Hnd. rewrite Ei in Hnd. apply NoDup_cons in Hnd as [Hna _].
    assert (Hin : (a, k') ∈ inorder (plug c (Node tl a k' tr))) by (rewrite inorder_plug; cbn [inorder]; set_solver).
    rewrite Ei in Hin. apply elem_of_cons in Hin as [[= ->]|Hin]; [done|].
    destruct Hna. by apply (list_elem_of_fmap_2 fst) in Hin.
  - exists t. split; [|done]. split; [|done|by right]. destruct Hh as [? ? ?]. by repeat split.
  - pose proof (hd_nodup _ _ Hh) as Hnd. unfold sorted, keys, ids in *. revert Hs Hnd. generalize (inorder t) as l.
    intros [|[a [tv pri]] l] Hs Hnd; [done|]. cbn [head fmap option_fmap option_map fst snd]. split.
    { apply times_lookup; [done|]. exists pri. apply list_elem_of_here. }
    intros b tv' (pri' & Hb)%times_lookup; [|done]. apply elem_of_cons in Hb as [[= -> -> ->]|Hb].
    { unfold tv_le. rewrite !Z.ltb_irrefl. apply Z.leb_refl. }
    cbn [fmap list_fmap snd] in Hs. apply StronglySorted_inv in Hs as [_ Hs]. rewrite Forall_forall in Hs.
    specialize (Hs (tv', pri') ltac:(by apply (list_elem_of_fmap_2 snd) in Hb)).
    unfold key_lt in Hs. cbn [fst snd] in Hs. unfold tv_le. repeat case_match; lia.
Qed.

(** ** Runs *)

Inductive sched_op :=
  | OpAdd (a : nat) (tv : timeval) (sigma : Z) (rnd : list Z)
  | OpRemove (a : nat)
  | OpEarliest.

(** An operation of the code; [schedule_get_earliest_wakeup] has a result. *)
Definition sched_do (s : schedule) (op : sched_op) : option (option (nat * timeval) * schedule) :=
  match op with
  | OpAdd a tv sigma rnd => '(s, _) ← schedule_add_entry s a tv sigma rnd; Some (None, s)
  | OpRemove a => s ← schedule_remove_entry s a; Some (None, s)
  | OpEarliest => schedule_get_earliest_wakeup s
  end.

Fixpoint sched_run (s : schedule) (ops : list sched_op) : option (list (option (nat * timeval)) * schedule) :=
  match ops with
  | [] => Some ([], s)
  | op :: ops => '(r, s) ← sched_do s op; '(rs, s) ← sched_run s ops; Some (r :: rs, s)
  end.

(** What a map from entries to times does. *)
Inductive map_do : gmap nat timeval -> sched_op -> option (nat * timeval) -> gmap nat timeval -> Prop :=
  | map_do_add M a tv sigma rnd : map_do M (OpAdd a tv sigma rnd) None (map_add M a tv sigma)
  | map_do_remove M a : map_do M (OpRemove a) None (delete a M)
  | map_do_none : map_do ∅ OpEarliest None ∅
  | map_do_earliest M a tv :
      M !! a = Some tv -> (forall b tv', M !! b = Some tv' -> tv_le tv tv' = true) ->
      map_do M OpEarliest (Some (a, tv)) M.

Inductive map_run : gmap nat timeval -> list sched_op -> list (option (nat * timeval)) -> gmap nat timeval -> Prop :=
  | map_run_nil M : map_run M [] [] M
  | map_run_cons M op r M1 ops rs M2 : map_do M op r M1 -> map_run M1 ops rs M2 -> map_run M (op :: ops) (r :: rs) M2.

(** The operation is on one of the entries, and [random()] gives a number with which the entry
    does not collide with another one. *)
Definition op_ok (s : schedule) (op : sched_op) : Prop :=
  match op with
  | OpAdd a tv _ rnd => is_Some (sc_entries s !! a) /\ new_key s a tv rnd
  | OpRemove a => is_Some (sc_entries s !! a)
  | OpEarliest => True
  end.

(** Every operation, in the state that the ones before it have left. *)
Fixpoint ops_ok (s : schedule) (ops : list sched_op) : Prop :=
  match ops with
  | [] => True
  | op :: ops => op_ok s op /\ match sched_do s op with Some (_, s') => ops_ok s' ops | None => True end
  end.

(** Entries that are in no scheduler yet. *)
Definition idle (m : entries) : Prop :=
  forall a e, m !! a = Some e -> e = mk_se (se_tv e) 0 None None None.

Lemma sched_init_ok m : idle m -> sched_inv (mk_sched None None m) ∅.
Proof.
  intros Hm. exists Leaf. split; [|done]. split; [|intros a e He _|by left].
  { split; [split; [done|done|constructor]|constructor|done|constructor]. }
  unfold loose. cbn [sc_entries] in *. by rewrite He, (Hm a e He).
Qed.

Lemma sched_do_ok s M op :
  sched_inv s M -> op_ok s op ->
  exists r s' M', sched_do s op = Some (r, s') /\ map_do M op r M' /\ sched_inv s' M' /\ dom (sc_entries s') = dom (sc_entries s).
Proof.
  intros Hs Hop. destruct op as [a tv sigma rnd|a|]; cbn [op_ok sched_do] in *.
  - destruct Hop as ([e He] & Hnew).
    destruct (add_entry_ok s M a e tv sigma rnd Hs He) as (s' & rnd' & -> & Hs' & Hd); [done|].
    exists None, s', (map_add M a tv sigma). split; [done|]. split; [constructor|done].
  - destruct Hop as [e He]. destruct (remove_entry_ok s M a e Hs He) as (s' & -> & Hs' & Hd).
    exists None, s', (delete a M). split; [done|]. split; [constructor|done].
  - destruct (earliest_ok s M Hs) as (s' & r & -> & Hs' & Hd & Hr). exists r, s', M. split; [done|]. split; [|done].
    destruct r as [[a tv]|]; [destruct Hr; by constructor|subst M; constructor].
Qed.

Lemma sched_run_ok ops s M :
  sched_inv s M -> ops_ok s ops ->
  exists rs s' M', sched_run s ops = Some (rs, s') /\ map_run M ops rs M' /\ sched_inv s' M'.
Proof.
  revert s M. induction ops as [|op ops IH]; intros s M Hs Hops; [exists [], s, M; split; [done|]; split; [constructor|done]|].
  destruct Hops as [Hop Hops]. cbn [sched_run].
  destruct (sched_do_ok s M op Hs Hop) as (r & s1 & M1 & E & Hdo & Hs1 & Hd). rewrite E in *. rewrite Some_bind. destruct (IH s1 M1 Hs1 Hops) as (rs & s' & M' & -> & Hrun & Hs'). rewrite Some_bind.
  exists (r :: rs), s', M'. split; [done|]. split; [by econstructor|done].
Qed.

(** C33: From entries that are in no scheduler, every sequence of additions, removals and queries -
    where, for an addition, [random()] gives sooner or later a number with which the entry has
    not both the wakeup time and the priority of another entry: [schedule_insert] draws again
    as long as it has ([same_numbers_never_end]) - comes to an end - all the loops of the
    treap do, no [NULL] is followed, no [ASSERT] fails - and gives the results of a finite map from entries to wakeup times, the query
    one with the least time; after it the pointers are a treap of exactly that map. *)
Theorem scheduler_refines_map m ops :
  idle m -> ops_ok (mk_sched None None m) ops ->
  exists rs s' M', sched_run (mk_sched None None m) ops = Some (rs, s') /\ map_run ∅ ops rs M' /\ sched_inv s' M'.
Proof. intros Hm Hops. apply sched_run_ok; [by apply sched_init_ok|done]. Qed.

(** A query of the scheduler gives an entry with the least wakeup time, or none when there
    is none, whether it is cached or has to be searched for; asked again, it gives the same. *)
Theorem earliest_wakeup_least s M :
  sched_inv s M ->
  exists r s', schedule_get_earliest_wakeup s = Some (r, s') /\ schedule_get_earliest_wakeup s' = Some (r, s') /\
    match r with
    | None => M = ∅
    | Some (a, tv) => M !! a = Some tv /\ forall b tv', M !! b = Some tv' -> tv_le tv tv' = true
    end.
Proof.
  intros Hs. destruct (earliest_ok s M Hs) as (s' & r & E & Hs' & _ & Hr). exists r, s'. split; [done|]. split; [|done].
  revert E. unfold schedule_get_earliest_wakeup. destruct (sc_earliest s) as [x|] eqn:Ex.
  - rewrite !Some_bind, Ex. destruct (sc_entries s !! x) as [e|] eqn:Ee; [rewrite Some_bind|done]. intros [= <- <-].
    by rewrite Ex, Some_bind, Ex, Ee.
  - destruct (schedule_find_least s (sc_root s)) as [l|] eqn:El; [rewrite !Some_bind|done].
    cbn [set_earliest sc_earliest sc_entries]. destruct l as [x|].
    + destruct (sc_entries s !! x) as [e|] eqn:Ee; [rewrite Some_bind|done]. intros [= <- <-].
      unfold set_earliest. cbn [sc_earliest]. rewrite Some_bind. cbn [sc_earliest sc_entries]. rewrite Ee. done.
    + intros [= <- <-]. unfold set_earliest. cbn [sc_earliest]. unfold schedule_find_least in El |- *. cbn [sc_root sc_entries].
      destruct (sc_root s) as [a|]; [|done]. by destruct (least_loop _ _ _).
Qed.

(** ** A run *)

Module SchedDemo.

Definition entry0 : schedule_entry := mk_se tv_clear 0 None None None.
Definition m : entries := <[0%nat := entry0]> (<[1%nat := entry0]> (<[2%nat := entry0]> (<[3%nat := entry0]> ∅))).

(** Four timers; the first is moved behind the others, and one that is not scheduled is moved by less than [sigma]. *)
Definition ops : list sched_op :=
  [ OpAdd 0 (mk_tv 10 0) 0 [5; 6; 7; 8];
    OpAdd 1 (mk_tv 20 0) 0 [3; 6; 7; 8];
    OpAdd 2 (mk_tv 10 0) 0 [5; 9; 0; 8];
    OpAdd 3 (mk_tv 5 500) 0 [4; 6; 7; 8];
    OpEarliest;
    OpAdd 3 (mk_tv 5 900) 1000 [4; 6; 7; 8];
    OpEarliest;
    OpAdd 3 (mk_tv 30 0) 1000 [2; 6; 7; 8];
    OpEarliest; OpRemove 0; OpEarliest; OpRemove 0; OpRemove 2; OpEarliest ].

(** [Some] of the least entry. *)
Lemma run_eval :
  fst <$> sched_run (mk_sched None None m) ops =
    Some [None; None; None; None; Some (3%nat, mk_tv 5 500); None; Some (3%nat, mk_tv 5 500); None;
      Some (0%nat, mk_tv 10 0); None; Some (2%nat, mk_tv 10 0); None; None; Some (1%nat, mk_tv 20 0)].
Proof. vm_compute. reflexivity. Qed.

Lemma m_idle : idle m.
Proof.
  intros a e. unfold m. intros H. repeat apply lookup_insert_Some in H as [[_ <-]|[_ H]]; done || (by rewrite lookup_empty in H).
Qed.

#[local] Instance op_ok_dec s op : Decision (op_ok s op).
Proof. destruct op; apply _. Defined.
#[local] Instance ops_ok_dec s ops : Decision (ops_ok s ops).
Proof. revert s. induction ops as [|op ops IH]; intros s; cbn [ops_ok]; [apply _|]. destruct (sched_do s op) as [[r s']|]; apply _. Defined.

Lemma demo_ops_ok n : (n <= 14)%nat -> ops_ok (mk_sched None None m) (take n ops).
Proof.
  intros Hn. assert (H : Forall (fun n => ops_ok (mk_sched None None m) (take n ops)) (seq 0 15)) by (by apply (bool_decide_unpack _); vm_compute).
  rewrite Forall_forall in H. apply H, elem_of_seq. lia.
Qed.

(** Two entries with the same wakeup time, and a source that always gives the same number. *)
Example same_numbers_never_end :
  sched_run (mk_sched None None m) [OpAdd 0 (mk_tv 10 0) 0 [7]; OpAdd 1 (mk_tv 10 0) 0 (replicate 100 7)] = None.
Proof. vm_compute. reflexivity. Qed.

Definition state (n : nat) : schedule :=
  match sched_run (mk_sched None None m) (take n ops) with Some (_, s) => s | None => schedule_init end.

Lemma state_inv n : (n <= 14)%nat -> exists M, sched_inv (state n) M.
Proof.
  intros Hn. unfold state. destruct (sched_run_ok (take n ops) (mk_sched None None m) ∅) as (rs & s' & M' & -> & _ & Hs').
  - apply sched_init_ok, m_idle.
  - by apply demo_ops_ok.
  - by exists M'.
Qed.

Lemma scheduler_refines_map_witness :
  exists rs s' M', sched_run (mk_sched None None m) ops = Some (rs, s') /\ map_run ∅ ops rs M' /\ sched_inv s' M'.
Proof. apply (scheduler_refines_map m ops); [apply m_idle|by apply (demo_ops_ok 14)]. Defined.

Lemma earliest_wakeup_least_witness :
  exists (M : gmap nat timeval) r s', schedule_get_earliest_wakeup (state 4) = Some (r, s') /\ schedule_get_earliest_wakeup s' = Some (r, s') /\
    match r with
    | None => M = ∅
    | Some (a, tv) => M !! a = Some tv /\ forall b tv', M !! b = Some tv' -> tv_le tv tv' = true
    end.
Proof. destruct (state_inv 4) as [M HM]; [lia|]. exists M. apply (earliest_wakeup_least (state 4) M HM). Defined.

End SchedDemo.
