(* ===== verification/Mbuf.v ===== *)
(** * Queues of shared packets: [mbuf.c], [mbuf.h]

    A broadcast packet is queued once for every client; the copies share one
    [struct mbuf_buffer] with a reference count.  [mheap] is the memory of those buffers by
    address: what is freed is not in it, and to touch it is [None], as following [NULL] is.

    Behind the code: the reference counts, the ring as a list of items, and the refinement of a
    bounded queue. *)
From S2P Require Import Prelude Integers Buffer.

(** [ALLOC_SIZE_MAX] is [1 << 32] where pointers have 64 bits, and an item two of them. *)
Definition ALLOC_SIZE_MAX : Z := 4294967296.
Definition MBUF_SIZE_MAX : Z := ALLOC_SIZE_MAX / 16.

Definition MBUF_INDEX (head offset size : Z) : Z := Z.land (head +u offset) (size -u 1).

Record mbuf_buffer := mk_mb { mb_buf : buffer; mb_refcount : Z; mb_flags : Z }.

Abbreviation mheap := (gmap nat mbuf_buffer).

(** [buffer] and [instance] are pointers. *)
Record mbuf_item := mk_item { it_buffer : option nat; it_instance : option nat }.

Record mbuf_set := mk_ms {
  ms_head : Z;
  ms_len : Z;
  ms_capacity : Z;
  ms_max_queued : Z;
  ms_array : list mbuf_item
}.

(** [junk]: what [malloc] leaves in the array. *)
Definition mbuf_init (size : Z) (junk : list mbuf_item) : option mbuf_set :=
  ASSERT (size <=? MBUF_SIZE_MAX);;
  cap ← adjust_power_of_2 size;
  Some (mk_ms 0 0 (u32 cap) 0 junk).

(** [p]: the address of the new object. *)
Definition mbuf_alloc_buf (h : mheap) (p : nat) (junk : list Z) (buf : buffer) : mheap :=
  <[p := mk_mb (clone_buf junk buf) 1 0]> h.

Definition mbuf_free_buf (h : mheap) (mb : option nat) : option mheap :=
  match mb with
  | None => Some h
  | Some a =>
      b ← h !! a;
      let r := mb_refcount b - 1 in
      Some (if r <=? 0 then delete a h else <[a := mk_mb (mb_buf b) r (mb_flags b)]> h)
  end.

(** Every round takes one item off the queue. *)
Fixpoint extract_loop (fuel : nat) (ms : mbuf_set) : option (option mbuf_item * mbuf_set) :=
  if ms_len ms =? 0 then Some (None, ms)
  else
    match fuel with
    | O => None
    | S fuel =>
        item ← ms_array ms !! Z.to_nat (ms_head ms);
        let ms := mk_ms (MBUF_INDEX (ms_head ms) 1 (ms_capacity ms)) (ms_len ms -u 1) (ms_capacity ms)
                    (ms_max_queued ms) (ms_array ms) in
        match it_instance item with
        | Some _ => Some (Some item, ms)
        | None => extract_loop fuel ms
        end
    end.

(** The item, where [true] is returned. *)
Definition mbuf_extract_item (ms : mbuf_set) : option (option mbuf_item * mbuf_set) :=
  extract_loop (Z.to_nat (ms_len ms)) ms.

Definition mbuf_add_item (h : mheap) (ms : mbuf_set) (item : mbuf_item) : option (mheap * mbuf_set) :=
  '(h, ms) ← (if ms_len ms =? ms_capacity ms then
                '(rm, ms) ← mbuf_extract_item ms;
                rm ← rm;
                h ← mbuf_free_buf h (it_buffer rm);
                Some (h, ms)
              else Some (h, ms));
  ASSERT (ms_len ms <? ms_capacity ms);;
  let i := MBUF_INDEX (ms_head ms) (ms_len ms) (ms_capacity ms) in
  ASSERT (i <? zlen (ms_array ms));;
  let len := ms_len ms +u 1 in
  let ms := mk_ms (ms_head ms) len (ms_capacity ms)
              (if ms_max_queued ms <? len then len else ms_max_queued ms) (<[Z.to_nat i := item]> (ms_array ms)) in
  a ← it_buffer item;
  b ← h !! a;
  Some (<[a := mk_mb (mb_buf b) (mb_refcount b + 1) (mb_flags b)]> h, ms).

(** [n]: the rounds that are left of [i = 0 .. len - 1]. *)
Fixpoint peek_loop (n : nat) (i : Z) (ms : mbuf_set) : option (option nat) :=
  match n with
  | O => Some None
  | S n =>
      item ← ms_array ms !! Z.to_nat (MBUF_INDEX (ms_head ms) i (ms_capacity ms));
      match it_instance item with
      | Some mi => Some (Some mi)
      | None => peek_loop n (i + 1) ms
      end
  end.

Definition mbuf_peek_dowork (ms : mbuf_set) : option (option nat) := peek_loop (Z.to_nat (ms_len ms)) 0 ms.

Definition mbuf_defined (ms : mbuf_set) : bool := negb (ms_len ms =? 0).
Definition mbuf_len (ms : mbuf_set) : Z := ms_len ms.
Definition mbuf_maximum_queued (ms : mbuf_set) : Z := i32 (ms_max_queued ms).

Definition mbuf_peek (ms : mbuf_set) : option (option nat) :=
  if mbuf_defined ms then mbuf_peek_dowork ms else Some None.

Fixpoint dereference_loop (n : nat) (i : Z) (h : mheap) (ms : mbuf_set) (mi : nat) : option (mheap * mbuf_set) :=
  match n with
  | O => Some (h, ms)
  | S n =>
      let k := Z.to_nat (MBUF_INDEX (ms_head ms) i (ms_capacity ms)) in
      item ← ms_array ms !! k;
      if bool_decide (it_instance item = Some mi) then
        h ← mbuf_free_buf h (it_buffer item);
        dereference_loop n (i + 1) h
          (mk_ms (ms_head ms) (ms_len ms) (ms_capacity ms) (ms_max_queued ms) (<[k := mk_item None None]> (ms_array ms))) mi
      else dereference_loop n (i + 1) h ms mi
  end.

Definition mbuf_dereference_instance (h : mheap) (ms : mbuf_set) (mi : nat) : option (mheap * mbuf_set) :=
  dereference_loop (Z.to_nat (ms_len ms)) 0 h ms mi.

(** The loop of [mbuf_free]; then the queue is gone. *)
Fixpoint free_loop (n : nat) (i : Z) (h : mheap) (ms : mbuf_set) : option mheap :=
  match n with
  | O => Some h
  | S n =>
      item ← ms_array ms !! Z.to_nat (MBUF_INDEX (ms_head ms) i (ms_capacity ms));
      h ← mbuf_free_buf h (it_buffer item);
      free_loop n (i + 1) h ms
  end.

Definition mbuf_free (h : mheap) (ms : mbuf_set) : option mheap := free_loop (Z.to_nat (ms_len ms)) 0 h ms.

(** ** The users of the queue in [multi.c] *)

Definition MF_UNICAST : Z := 1.

(** What is used of a client instance: its address, and the length of
    [tcp_link_out_deferred] where there is one. *)
Record multi_instance := mk_mi { mi_addr : nat; mi_halt : bool; mi_vlan_pvid : Z; mi_deferred : option Z }.

Definition multi_output_queue_ready (tcp_queue_limit : Z) (mi : multi_instance) : bool :=
  match mi_deferred mi with
  | Some len => len <=? tcp_queue_limit
  | None => true
  end.

Definition multi_add_mbuf (limit : Z) (h : mheap) (ms : mbuf_set) (mi : multi_instance) (mb : nat)
  : option (mheap * mbuf_set) :=
  if multi_output_queue_ready limit mi then mbuf_add_item h ms (mk_item (Some mb) (Some (mi_addr mi)))
  else Some (h, ms).

Definition multi_unicast (limit : Z) (h : mheap) (ms : mbuf_set) (p : nat) (junk : list Z) (buf : buffer)
    (mi : multi_instance) : option (mheap * mbuf_set) :=
  if 0 <? b_len buf then
    let h := alter (fun b => mk_mb (mb_buf b) (mb_refcount b) MF_UNICAST) p (mbuf_alloc_buf h p junk buf) in
    '(h, ms) ← multi_add_mbuf limit h ms mi p;
    h ← mbuf_free_buf h (Some p); Some (h, ms)
  else Some (h, ms).

(** The loop over [m->instances]. *)
Fixpoint bcast_loop (limit : Z) (h : mheap) (ms : mbuf_set) (p : nat) (sender : nat) (vid : Z)
    (instances : list (option multi_instance)) : option (mheap * mbuf_set) :=
  match instances with
  | [] => Some (h, ms)
  | None :: instances => bcast_loop limit h ms p sender vid instances
  | Some mi :: instances =>
      '(h, ms) ← (if negb (Nat.eqb (mi_addr mi) sender) && negb (mi_halt mi) &&
                     negb (negb (vid =? 0) && negb (vid =? mi_vlan_pvid mi))
                  then multi_add_mbuf limit h ms mi p else Some (h, ms));
      bcast_loop limit h ms p sender vid instances
  end.

Definition multi_bcast (limit : Z) (h : mheap) (ms : mbuf_set) (p : nat) (junk : list Z) (buf : buffer)
    (sender : nat) (vid : Z) (instances : list (option multi_instance)) : option (mheap * mbuf_set) :=
  if 0 <? b_len buf then
    '(h, ms) ← bcast_loop limit (mbuf_alloc_buf h p junk buf) ms p sender vid instances;
    h ← mbuf_free_buf h (Some p); Some (h, ms)
  else Some (h, ms).

(** ** The packet queue is a queue, and its reference counts count

    The ring of [mbuf.c] represents a list of items; the count of every buffer is the number
    of references to it, from the queue and from outside. *)

(** ** Reference counts *)

(** The references to [a] in a list of them. *)
Definition cnt (a : nat) (l : list nat) : nat := length (filter (fun b => b = a) l).

(** The live buffers are those of the list, with their number of references. *)
Definition heap_ok (h : mheap) (l : list nat) : Prop :=
  forall a, mb_refcount <$> h !! a = if decide (a ∈ l) then Some (Z.of_nat (cnt a l)) else None.

(** What stays in memory keeps its content. *)
Definition keeps (h h' : mheap) : Prop :=
  forall a b b', h !! a = Some b -> h' !! a = Some b' -> mb_buf b' = mb_buf b /\ mb_flags b' = mb_flags b.

Lemma cnt_cons a b l : cnt a (b :: l) = if decide (b = a) then S (cnt a l) else cnt a l.
Proof. unfold cnt. rewrite filter_cons. by destruct (decide (b = a)). Qed.

Lemma cnt_pos a l : a ∈ l <-> (0 < cnt a l)%nat.
Proof.
  induction l as [|b l IH]; [unfold cnt; cbn; split; [intros ?%elem_of_nil; done|lia]|].
  rewrite cnt_cons, elem_of_cons. destruct (decide (b = a)); [split; [lia|by left]|]. rewrite <- IH. naive_solver.
Qed.

Lemma heap_ok_perm h l l' : l ≡ₚ l' -> heap_ok h l -> heap_ok h l'.
Proof.
  intros Hp Hh a. rewrite (Hh a). assert (E : cnt a l = cnt a l') by (unfold cnt; by rewrite Hp).
  rewrite E. destruct (decide (a ∈ l)), (decide (a ∈ l')); try done; by rewrite Hp in *.
Qed.

Lemma heap_ok_lookup h l a : heap_ok h l -> a ∈ l -> exists b, h !! a = Some b /\ mb_refcount b = Z.of_nat (cnt a l).
Proof.
  intros Hh Ha. specialize (Hh a). rewrite decide_True in Hh by done.
  destruct (h !! a) as [b|]; [|done]. injection Hh as E. by exists b.
Qed.

(** The entry of [heap_ok] for another address. *)
Lemma refs_ne a b l :
  b <> a -> (if decide (b ∈ a :: l) then Some (Z.of_nat (cnt b (a :: l))) else None) =
  (if decide (b ∈ l) then Some (Z.of_nat (cnt b l)) else None).
Proof.
  intros Hne. rewrite cnt_cons, (decide_False (P := a = b)) by congruence. destruct (decide (b ∈ l)) as [Hb|Hb].
  - rewrite decide_True; [done|by right].
  - rewrite decide_False; [done|]. intros [?|?]%elem_of_cons; congruence.
Qed.

Lemma free_ok h a l : heap_ok h (a :: l) -> exists h', mbuf_free_buf h (Some a) = Some h' /\ heap_ok h' l /\ keeps h h'.
Proof.
  intros Hh. destruct (heap_ok_lookup h (a :: l) a Hh (list_elem_of_here _ _)) as (b & Hb & Hr).
  cbn [mbuf_free_buf]. rewrite Hb, Some_bind. eexists. split; [done|].
  rewrite cnt_cons, decide_True in Hr by done.
  destruct (Z.leb_spec (mb_refcount b - 1) 0) as [Hle|Hgt]; split.
  - intros a'. destruct (decide (a' = a)) as [->|Hne].
    + rewrite lookup_delete_eq, decide_False; [done|]. rewrite cnt_pos. lia.
    + rewrite lookup_delete_ne by done. rewrite (Hh a'). by apply refs_ne.
  - intros a' b1 b2 H1 [? H2]%lookup_delete_Some. rewrite H1 in H2. by injection H2 as ->.
  - intros a'. destruct (decide (a' = a)) as [->|Hne].
    + rewrite lookup_insert_eq, decide_True by (rewrite cnt_pos; lia). cbn. f_equal. lia.
    + rewrite lookup_insert_ne by done. rewrite (Hh a'). by apply refs_ne.
  - intros a' b1 b2 H1 H2. destruct (decide (a' = a)) as [->|Hne].
    + rewrite lookup_insert_eq in H2. rewrite Hb in H1. injection H1 as <-. by injection H2 as <-.
    + rewrite lookup_insert_ne, H1 in H2 by done. by injection H2 as ->.
Qed.

Lemma incr_ok h a l b :
  heap_ok h l -> a ∈ l -> h !! a = Some b ->
  heap_ok (<[a := mk_mb (mb_buf b) (mb_refcount b + 1) (mb_flags b)]> h) (a :: l) /\
  keeps h (<[a := mk_mb (mb_buf b) (mb_refcount b + 1) (mb_flags b)]> h).
Proof.
  intros Hh Ha Hb. destruct (heap_ok_lookup h l a Hh Ha) as (b' & Hb' & Hr). rewrite Hb in Hb'. injection Hb' as <-. split.
  - intros a'. destruct (decide (a' = a)) as [->|Hne].
    + rewrite lookup_insert_eq, decide_True, cnt_cons, decide_True by (done || apply list_elem_of_here). cbn. f_equal. lia.
    + rewrite lookup_insert_ne by done. rewrite (Hh a'). symmetry. by apply refs_ne.
  - intros a' b1 b2 H1 H2. destruct (decide (a' = a)) as [->|Hne].
    + rewrite lookup_insert_eq in H2. rewrite Hb in H1. injection H1 as <-. by injection H2 as <-.
    + rewrite lookup_insert_ne, H1 in H2 by done. by injection H2 as ->.
Qed.

Lemma alloc_ok h p l junk buf :
  heap_ok h l -> h !! p = None -> heap_ok (mbuf_alloc_buf h p junk buf) (p :: l) /\ keeps h (mbuf_alloc_buf h p junk buf).
Proof.
  intros Hh Hp. assert (Hl : p ∉ l).
  { intros Hin. destruct (heap_ok_lookup h l p Hh Hin) as (b & Hb & _). congruence. }
  unfold mbuf_alloc_buf. split.
  - intros a. destruct (decide (a = p)) as [->|Hne].
    + rewrite lookup_insert_eq, decide_True, cnt_cons, decide_True by (done || apply list_elem_of_here).
      cbn. f_equal. rewrite cnt_pos in Hl. lia.
    + rewrite lookup_insert_ne by done. rewrite (Hh a). symmetry. by apply refs_ne.
  - intros a b1 b2 H1 H2. rewrite lookup_insert_ne, H1 in H2 by congruence. by injection H2 as ->.
Qed.

Lemma keeps_trans h1 h2 h3 :
  keeps h1 h2 -> keeps h2 h3 -> (forall a, is_Some (h1 !! a) -> is_Some (h3 !! a) -> is_Some (h2 !! a)) -> keeps h1 h3.
Proof.
  intros H12 H23 Hd a b b' H1 H3. destruct (Hd a) as [b2 H2]; [by rewrite H1|by rewrite H3|].
  destruct (H12 a b b2 H1 H2), (H23 a b2 b' H2 H3). split; congruence.
Qed.

(** ** The ring *)

Lemma MBUF_INDEX_ok head off k :
  0 <= k <= 28 -> 0 <= head < 2 ^ k -> 0 <= off <= 2 ^ k -> MBUF_INDEX head off (2 ^ k) = (head + off) mod 2 ^ k.
Proof.
  intros Hk Hh Ho. pose proof (Z.pow_le_mono_r 2 k 28 ltac:(lia) ltac:(lia)). change (2 ^ 28) with 268435456 in *.
  unfold MBUF_INDEX. rewrite !u32_small by (unfold is_u32; lia). replace (2 ^ k - 1) with (Z.ones k) by (rewrite Z.ones_equiv; lia).
  apply Z.land_ones; lia.
Qed.

(** The slots that hold the queue [q]. *)
Record ring (ms : mbuf_set) (k : Z) (q : list mbuf_item) : Prop := {
  rg_k : 0 <= k <= 28;
  rg_cap : ms_capacity ms = 2 ^ k;
  rg_head : 0 <= ms_head ms < 2 ^ k;
  rg_len : ms_len ms = zlen q;
  rg_full : zlen q <= 2 ^ k;
  rg_array : zlen (ms_array ms) = 2 ^ k;
  rg_item : forall i x, q !! i = Some x -> ms_array ms !! Z.to_nat ((ms_head ms + Z.of_nat i) mod 2 ^ k) = Some x
}.

(** An item is a client's, with a buffer, or was dereferenced. *)
Definition item_ok (x : mbuf_item) : Prop :=
  (exists a mi, x = mk_item (Some a) (Some mi)) \/ x = mk_item None None.

(** What is in front of the first item that is still somebody's is skipped. *)
Fixpoint drop_dead (q : list mbuf_item) : list mbuf_item :=
  match q with
  | [] => []
  | x :: q' => match it_instance x with Some _ => q | None => drop_dead q' end
  end.

Lemma ring_pop ms k x q :
  ring ms k (x :: q) ->
  ring (mk_ms (MBUF_INDEX (ms_head ms) 1 (ms_capacity ms)) (ms_len ms -u 1) (ms_capacity ms) (ms_max_queued ms) (ms_array ms)) k q.
Proof.
  intros [Hk Hc Hh Hl Hf Ha Hi]. cbn [length] in *. pose proof (Z.pow_le_mono_r 2 k 28 ltac:(lia) ltac:(lia)).
  change (2 ^ 28) with 268435456 in *. rewrite Hc, MBUF_INDEX_ok by lia. split; cbn; try done; try lia.
  - apply Z.mod_pos_bound. lia.
  - rewrite Hl, u32_small by (unfold is_u32; lia). lia.
  - intros i y Hy. rewrite Zplus_mod_idemp_l. replace (ms_head ms + 1 + Z.of_nat i) with (ms_head ms + Z.of_nat (S i)) by lia.
    by apply Hi.
Qed.

Lemma ring_first ms k x q : ring ms k (x :: q) -> ms_array ms !! Z.to_nat (ms_head ms) = Some x.
Proof.
  intros [Hk Hc Hh Hl Hf Ha Hi]. specialize (Hi O x eq_refl). rewrite Z.add_0_r, Z.mod_small in Hi by lia. done.
Qed.

Lemma extract_ok ms k q :
  ring ms k q -> exists ms', mbuf_extract_item ms = Some (head (drop_dead q), ms') /\ ring ms' k (tail (drop_dead q)).
Proof.
  intros Hr. unfold mbuf_extract_item. pose proof (rg_len _ _ _ Hr) as El. replace (Z.to_nat (ms_len ms)) with (length q) by lia.
  clear El. revert ms Hr. induction q as [|x q IH]; intros ms Hr.
  - exists ms. cbn [length extract_loop]. pose proof (rg_len _ _ _ Hr) as ->. done.
  - cbn [length extract_loop]. pose proof (rg_len _ _ _ Hr) as El. cbn [length] in El.
    replace (ms_len ms =? 0) with false by lia. rewrite (ring_first _ _ _ _ Hr), Some_bind.
    pose proof (ring_pop _ _ _ _ Hr) as Hr'. cbn [drop_dead]. destruct (it_instance x).
    + eexists. split; [done|exact Hr'].
    + by apply IH.
Qed.

(** Different places of the ring. *)
Lemma place_inj k head i j :
  0 <= k -> 0 <= head -> 0 <= i < 2 ^ k -> 0 <= j < 2 ^ k ->
  Z.to_nat ((head + i) mod 2 ^ k) = Z.to_nat ((head + j) mod 2 ^ k) -> i = j.
Proof.
  intros Hk Hh Hi Hj E. pose proof (Z.mod_pos_bound (head + i) (2 ^ k) ltac:(lia)).
  pose proof (Z.mod_pos_bound (head + j) (2 ^ k) ltac:(lia)). apply Z2Nat.inj in E; [|lia..].
  assert (E' : (i - j) mod 2 ^ k = 0).
  { replace (i - j) with ((head + i) - (head + j)) by lia. rewrite Zminus_mod, E, Z.sub_diag. by apply Z.mod_0_l; lia. }
  rewrite Z.mod_divide in E' by lia. destruct E' as [z Ez]. clear E. generalize dependent (2 ^ k). intros P. intros. destruct (Z.lt_trichotomy z 0) as [|[->|]]; nia.
Qed.

(** The slot at position [i] of the queue is written. *)
Lemma ring_write ms k q i x len' max' (q' : list mbuf_item) :
  ring ms k q -> 0 <= i < 2 ^ k -> len' = zlen q' -> zlen q' <= 2 ^ k -> q' !! Z.to_nat i = Some x ->
  (forall j, j <> Z.to_nat i -> (j < length q')%nat -> q' !! j = q !! j) ->
  ring (mk_ms (ms_head ms) len' (2 ^ k) max' (<[Z.to_nat ((ms_head ms + i) mod 2 ^ k) := x]> (ms_array ms))) k q'.
Proof.
  intros [Hk Hc Hh Hl Hf Ha Hi] Hii El Hf' Hx Hj. split; cbn [ms_head ms_len ms_capacity ms_array]; try done.
  - rewrite length_insert. done.
  - intros j y Hy. pose proof (lookup_lt_Some _ _ _ Hy) as Hjl. pose proof (Z.mod_pos_bound (ms_head ms + i) (2 ^ k) ltac:(lia)).
    destruct (decide (j = Z.to_nat i)) as [->|Hne].
    + rewrite Hx in Hy. injection Hy as <-. rewrite Z2Nat.id by lia. rewrite list_lookup_insert_eq; [done|]. lia.
    + rewrite Hj in Hy by done. rewrite list_lookup_insert_ne; [by apply Hi|].
      intros E%place_inj; try lia.
Qed.

(** The references of a queue. *)
Fixpoint qrefs (q : list mbuf_item) : list nat :=
  match q with
  | [] => []
  | x :: q => match it_buffer x with Some a => a :: qrefs q | None => qrefs q end
  end.

Record state_ok (h : mheap) (ms : mbuf_set) (k : Z) (q : list mbuf_item) (ext : list nat) : Prop := {
  so_ring : ring ms k q;
  so_items : Forall item_ok q;
  so_heap : heap_ok h (qrefs q ++ ext)
}.

Lemma qrefs_app q1 q2 : qrefs (q1 ++ q2) = qrefs q1 ++ qrefs q2.
Proof. induction q1 as [|x q1 IH]; [done|]. cbn. rewrite IH. by destruct (it_buffer x). Qed.

Lemma drop_dead_ok q : Forall item_ok q -> qrefs (drop_dead q) = qrefs q /\ Forall item_ok (drop_dead q) /\ (length (drop_dead q) <= length q)%nat.
Proof.
  induction 1 as [|x q Hx Hq (IH1 & IH2 & IH3)]; [done|]. cbn [drop_dead].
  destruct Hx as [(a & mi & ->)| ->]; cbn [it_instance]; [split_and!; [done|by constructor; [left; eauto|]|done]|].
  split_and!; [done|done|cbn [length]; lia].
Qed.

Lemma drop_dead_head q x : Forall item_ok q -> head (drop_dead q) = Some x -> exists a mi, x = mk_item (Some a) (Some mi).
Proof.
  induction 1 as [|y q Hy Hq IH]; [done|]. cbn [drop_dead]. destruct Hy as [(a & mi & ->)| ->]; cbn [it_instance]; [|done].
  intros [= <-]. eauto.
Qed.

(** ** The operations *)

Lemma extract_state h ms k q ext :
  state_ok h ms k q ext ->
  exists ms', mbuf_extract_item ms = Some (head (drop_dead q), ms') /\
    match drop_dead q with
    | [] => state_ok h ms' k [] ext
    | x :: q' => exists a mi, x = mk_item (Some a) (Some mi) /\ state_ok h ms' k q' (a :: ext)
    end.
Proof.
  intros [Hr Hi Hh]. destruct (extract_ok ms k q Hr) as (ms' & E & Hr'). exists ms'. split; [done|].
  destruct (drop_dead_ok q Hi) as (Eq & Hi' & _). destruct (drop_dead q) as [|x q'] eqn:Ed.
  - split; [done|constructor|]. cbn. by rewrite <- Eq in Hh.
  - destruct (drop_dead_head q x Hi) as (a & mi & ->); [by rewrite Ed|]. exists a, mi. split; [done|].
    apply Forall_cons in Hi' as [_ Hi']. split; [done|done|]. rewrite <- Eq in Hh. cbn in Hh.
    eapply heap_ok_perm; [|exact Hh]. cbn. by rewrite Permutation_middle.
Qed.

(** What is left of a queue of [2 ^ k] slots when one is needed. *)
Definition make_room (k : Z) (q : list mbuf_item) : option (list mbuf_item) :=
  if zlen q =? 2 ^ k then
    match drop_dead q with [] => None | _ :: q' => Some q' end
  else Some q.

Lemma push_ok h ms k q ext a mi :
  state_ok h ms k q ext -> a ∈ ext -> zlen q < 2 ^ k ->
  exists h' ms', (ASSERT (ms_len ms <? ms_capacity ms);;
    let i := MBUF_INDEX (ms_head ms) (ms_len ms) (ms_capacity ms) in
    ASSERT (i <? zlen (ms_array ms));;
    let len := ms_len ms +u 1 in
    let ms := mk_ms (ms_head ms) len (ms_capacity ms)
                (if ms_max_queued ms <? len then len else ms_max_queued ms) (<[Z.to_nat i := mk_item (Some a) (Some mi)]> (ms_array ms)) in
    a ← Some a; b ← h !! a;
    Some (<[a := mk_mb (mb_buf b) (mb_refcount b + 1) (mb_flags b)]> h, ms)) = Some (h', ms') /\
    state_ok h' ms' k (q ++ [mk_item (Some a) (Some mi)]) ext /\ keeps h h'.
Proof.
  intros [Hr Hi Hh] Ha Hq. pose proof Hr as [Hk Hc Hhd Hl Hf Har _]. rewrite Hl, Hc, ASSERT_true, Some_bind by lia.
  pose proof (Z.pow_le_mono_r 2 k 28 ltac:(lia) ltac:(lia)). change (2 ^ 28) with 268435456 in *.
  cbn zeta. rewrite MBUF_INDEX_ok by lia. pose proof (Z.mod_pos_bound (ms_head ms + zlen q) (2 ^ k) ltac:(lia)).
  rewrite ASSERT_true, !Some_bind by lia.
  destruct (heap_ok_lookup h _ a Hh) as (b & Hb & _); [apply elem_of_app; by right|]. rewrite Hb, Some_bind.
  eexists _, _. split; [done|]. destruct (incr_ok h a (qrefs q ++ ext) b Hh) as [Hh' Hkeep]; [apply elem_of_app; by right|done|].
  split; [|done]. rewrite u32_small by (unfold is_u32; lia). split.
  - apply ring_write with q; try done; rewrite ?length_app; cbn [length]; try lia.
    + rewrite lookup_app_r by lia. by replace (Z.to_nat (zlen q) - length q)%nat with O by lia.
    + intros j Hj Hjl. apply lookup_app_l. lia.
  - apply Forall_app. split; [done|]. constructor; [left; eauto|constructor].
  - rewrite qrefs_app. cbn. rewrite <- app_assoc. cbn. eapply heap_ok_perm; [|exact Hh']. by rewrite Permutation_middle.
Qed.

Lemma add_ok h ms k q ext a mi :
  state_ok h ms k q ext -> a ∈ ext ->
  match make_room k q with
  | None => mbuf_add_item h ms (mk_item (Some a) (Some mi)) = None
  | Some q' => exists h' ms', mbuf_add_item h ms (mk_item (Some a) (Some mi)) = Some (h', ms') /\
      state_ok h' ms' k (q' ++ [mk_item (Some a) (Some mi)]) ext /\ keeps h h'
  end.
Proof.
  intros Hs Ha. pose proof Hs as [Hr Hi Hh]. unfold make_room, mbuf_add_item. cbn [it_buffer].
  rewrite (rg_len _ _ _ Hr), (rg_cap _ _ _ Hr). pose proof (rg_full _ _ _ Hr). destruct (Z.eqb_spec (zlen q) (2 ^ k)) as [Eq|Hne].
  - destruct (extract_state h ms k q ext Hs) as (ms1 & -> & Hx). rewrite Some_bind.
    pose proof (drop_dead_ok q Hi) as (_ & _ & Hlen). destruct (drop_dead q) as [|x q1]; [done|].
    destruct Hx as (a1 & mi1 & -> & Hs1). cbn [head it_buffer length] in *. rewrite Some_bind.
    pose proof Hs1 as [Hr1 Hi1 Hh1]. cbn [it_buffer]. destruct (free_ok h a1 (qrefs q1 ++ ext)) as (h1 & -> & Hh1' & Hk1).
    { eapply heap_ok_perm; [|exact Hh1]. by rewrite Permutation_middle. }
    rewrite !Some_bind. destruct (push_ok h1 ms1 k q1 ext a mi) as (h2 & ms2 & E & Hs2 & Hk2); [split; [done..|]; by destruct Hr1|done|lia|].
    exists h2, ms2. split; [exact E|]. split; [done|]. eapply keeps_trans; [exact Hk1|exact Hk2|].
    intros a' _ H2. pose proof (so_heap _ _ _ _ _ Hs2 a') as E2. destruct H2 as [b2 H2]. rewrite H2 in E2.
    rewrite qrefs_app in E2. cbn in E2. pose proof (Hh1' a') as E1. destruct (h1 !! a'); [done|].
    destruct (decide (a' ∈ qrefs q1 ++ ext)) as [Hin|Hin]; [done|]. destruct (decide _) as [Hin2|]; [|done].
    destruct Hin. rewrite !elem_of_app in *. destruct Hin2 as [[?| ->%list_elem_of_singleton]|?]; auto.
  - rewrite Some_bind. destruct (push_ok h ms k q ext a mi Hs Ha) as (h' & ms' & E & Hs' & Hk); [lia|].
    exists h', ms'. split; [exact E|done].
Qed.

Lemma queue_lookup ms k q1 x q2 :
  ring ms k (q1 ++ x :: q2) ->
  MBUF_INDEX (ms_head ms) (zlen q1) (ms_capacity ms) = (ms_head ms + zlen q1) mod 2 ^ k /\
  ms_array ms !! Z.to_nat (MBUF_INDEX (ms_head ms) (zlen q1) (ms_capacity ms)) = Some x.
Proof.
  intros [Hk Hc Hh Hl Hf Ha Hi]. rewrite length_app in *. cbn [length] in *. rewrite Hc.
  assert (E : MBUF_INDEX (ms_head ms) (zlen q1) (2 ^ k) = (ms_head ms + zlen q1) mod 2 ^ k) by (apply MBUF_INDEX_ok; lia).
  split; [exact E|]. rewrite E. apply Hi. rewrite lookup_app_r, Nat.sub_diag by lia. done.
Qed.

(** The items of a client become nobody's. *)
Definition kill (mi : nat) (x : mbuf_item) : mbuf_item :=
  if bool_decide (it_instance x = Some mi) then mk_item None None else x.

Lemma dereference_ok mi k ext q2 : forall q1 h ms,
  state_ok h ms k (q1 ++ q2) ext ->
  exists h' ms', dereference_loop (length q2) (zlen q1) h ms mi = Some (h', ms') /\
    state_ok h' ms' k (q1 ++ (kill mi <$> q2)) ext /\ keeps h h' /\ (forall a, is_Some (h' !! a) -> is_Some (h !! a)).
Proof.
  induction q2 as [|x q2 IH]; intros q1 h ms Hs.
  { exists h, ms. cbn. split; [done|]. split; [done|]. split; [|done]. intros a b b' H1 H2. rewrite H1 in H2. by injection H2 as ->. }
  cbn [length dereference_loop]. pose proof Hs as [Hr Hi Hh]. destruct (queue_lookup _ _ _ _ _ Hr) as [Ei Ex].
  rewrite Ex, Some_bind. replace (zlen q1 + 1) with (zlen (q1 ++ [x])) by (rewrite length_app; cbn; lia).
  cbn [fmap list_fmap]. unfold kill at 1. fold (kill mi). case_bool_decide as Em.
  - apply Forall_app in Hi as [Hi1 Hi2]. apply Forall_cons in Hi2 as [Hx Hi2].
    destruct Hx as [(a & mi' & ->)| ->]; [|done]. cbn [it_buffer it_instance] in *.
    destruct (free_ok h a (qrefs (q1 ++ q2) ++ ext)) as (h1 & -> & Hh1 & Hk1).
    { eapply heap_ok_perm; [|exact Hh]. rewrite !qrefs_app. cbn. by rewrite <- Permutation_middle. }
    rewrite Some_bind. destruct (IH (q1 ++ [mk_item None None]) h1
      (mk_ms (ms_head ms) (ms_len ms) (ms_capacity ms) (ms_max_queued ms)
        (<[Z.to_nat (MBUF_INDEX (ms_head ms) (zlen q1) (ms_capacity ms)) := mk_item None None]> (ms_array ms)))) as (h2 & ms2 & E & Hs2 & Hk2 & Hd2).
    { rewrite <- app_assoc. cbn [app]. split.
      - rewrite Ei, (rg_cap _ _ _ Hr). pose proof (rg_full _ _ _ Hr) as Hf. rewrite length_app in Hf. cbn [length] in Hf.
        apply ring_write with (q1 ++ mk_item (Some a) (Some mi') :: q2); rewrite ?length_app; cbn [length]; try lia; try done.
        + rewrite (rg_len _ _ _ Hr), length_app. done.
        + rewrite Nat2Z.id, lookup_app_r, Nat.sub_diag by lia. done.
        + intros j Hj Hjl. destruct (decide (j < length q1)%nat); [by rewrite !lookup_app_l by done|].
          rewrite !lookup_app_r by lia. destruct (j - length q1)%nat eqn:Ej; [lia|done].
      - apply Forall_app. split; [done|]. constructor; [by right|done].
      - eapply heap_ok_perm; [|exact Hh1]. by rewrite !qrefs_app. }
    exists h2, ms2. replace (zlen (q1 ++ [_])) with (zlen (q1 ++ [mk_item None None])) by (rewrite !length_app; done).
    split; [exact E|]. rewrite <- app_assoc in Hs2. split; [exact Hs2|].
    assert (Hd1 : forall b, is_Some (h1 !! b) -> is_Some (h !! b)).
    { intros b [b1 H1]. specialize (Hh1 b). rewrite H1 in Hh1. destruct (decide _) as [Hin|]; [|done].
      destruct (heap_ok_lookup h _ b Hh) as (b2 & -> & _); [|done]. rewrite qrefs_app in *. cbn. set_solver. }
    split; [|intros b Hb; by apply Hd1, Hd2]. eapply keeps_trans; [exact Hk1|exact Hk2|]. intros b _ Hb. by apply Hd2.
  - destruct (IH (q1 ++ [x]) h ms) as (h2 & ms2 & E & Hs2 & Hk2); [by rewrite <- app_assoc|].
    exists h2, ms2. split; [exact E|]. rewrite <- app_assoc in Hs2. done.
Qed.

Lemma mbuf_free_loop_ok k ext q2 : forall q1 h ms,
  ring ms k (q1 ++ q2) -> Forall item_ok q2 -> heap_ok h (qrefs q2 ++ ext) ->
  exists h', free_loop (length q2) (zlen q1) h ms = Some h' /\ heap_ok h' ext.
Proof.
  induction q2 as [|x q2 IH]; intros q1 h ms Hr Hi Hh; [by exists h|].
  cbn [length free_loop]. destruct (queue_lookup _ _ _ _ _ Hr) as [_ Ex]. rewrite Ex, Some_bind.
  apply Forall_cons in Hi as [Hx Hi]. replace (zlen q1 + 1) with (zlen (q1 ++ [x])) by (rewrite length_app; cbn; lia).
  assert (Hf : exists h1, mbuf_free_buf h (it_buffer x) = Some h1 /\ heap_ok h1 (qrefs q2 ++ ext)).
  { destruct Hx as [(a & mi & ->)| ->]; [|by exists h]. destruct (free_ok h a (qrefs q2 ++ ext) Hh) as (h1 & ? & ? & ?). eauto. }
  destruct Hf as (h1 & -> & Hh1). rewrite Some_bind. apply IH; [by rewrite <- app_assoc|done|done].
Qed.

(** ** The queue as a whole *)

(** One reference fewer. *)
Fixpoint remove_ref (a : nat) (l : list nat) : option (list nat) :=
  match l with
  | [] => None
  | b :: l => if decide (a = b) then Some l else l ← remove_ref a l; Some (b :: l)
  end.

Lemma remove_ref_ok a l : a ∈ l -> exists l', remove_ref a l = Some l' /\ l ≡ₚ a :: l'.
Proof.
  induction l as [|b l IH]; intros Ha; [by apply elem_of_nil in Ha|]. cbn [remove_ref].
  destruct (decide (a = b)) as [->|Hne]; [by exists l|]. apply elem_of_cons in Ha as [?|Ha]; [done|].
  destruct (IH Ha) as (l' & -> & Hp). exists (b :: l'). split; [done|]. rewrite Hp. apply Permutation_swap.
Qed.

(** Operations on a queue; [ext] are the references that its user holds. *)
Inductive mbuf_op :=
  | MAlloc (p : nat) (junk : list Z) (buf : buffer)
  | MRelease (a : nat)
  | MAdd (a mi : nat)
  | MExtract
  | MDereference (mi : nat).

Definition mbuf_do (h : mheap) (ms : mbuf_set) (op : mbuf_op) : option (mheap * mbuf_set * option mbuf_item) :=
  match op with
  | MAlloc p junk buf => Some (mbuf_alloc_buf h p junk buf, ms, None)
  | MRelease a => h ← mbuf_free_buf h (Some a); Some (h, ms, None)
  | MAdd a mi => '(h, ms) ← mbuf_add_item h ms (mk_item (Some a) (Some mi)); Some (h, ms, None)
  | MExtract => '(x, ms) ← mbuf_extract_item ms; Some (h, ms, x)
  | MDereference mi => '(h, ms) ← mbuf_dereference_instance h ms mi; Some (h, ms, None)
  end.

(** What its user has to keep to: a new address, references he holds. *)
Definition mbuf_legal (h : mheap) (ext : list nat) (op : mbuf_op) : Prop :=
  match op with
  | MAlloc p _ _ => h !! p = None
  | MRelease a | MAdd a _ => a ∈ ext
  | _ => True
  end.

(** The queue, the references outside of it and the result after the operation. *)
Definition queue_do (k : Z) (q : list mbuf_item) (ext : list nat) (op : mbuf_op)
  : option (list mbuf_item * list nat * option mbuf_item) :=
  match op with
  | MAlloc p _ _ => Some (q, p :: ext, None)
  | MRelease a => ext ← remove_ref a ext; Some (q, ext, None)
  | MAdd a mi => q ← make_room k q; Some (q ++ [mk_item (Some a) (Some mi)], ext, None)
  | MExtract =>
      match drop_dead q with
      | [] => Some ([], ext, None)
      | x :: q => a ← it_buffer x; Some (q, a :: ext, Some x)
      end
  | MDereference mi => Some (kill mi <$> q, ext, None)
  end.

Lemma mbuf_do_ok h ms k q ext op :
  state_ok h ms k q ext -> mbuf_legal h ext op ->
  match queue_do k q ext op with
  | None => mbuf_do h ms op = None
  | Some (q', ext', r) => exists h' ms', mbuf_do h ms op = Some (h', ms', r) /\ state_ok h' ms' k q' ext' /\ keeps h h'
  end.
Proof.
  intros Hs Hop. pose proof Hs as [Hr Hi Hh]. assert (Hkr : keeps h h) by (intros a b b' H1 H2; rewrite H1 in H2; by injection H2 as ->).
  destruct op as [p junk buf|a|a mi| |mi]; cbn [queue_do mbuf_do mbuf_legal] in *.
  - destruct (alloc_ok h p _ junk buf Hh Hop) as [Hh' Hk]. eexists _, _. split; [done|]. split; [|done]. split; [done|done|].
    eapply heap_ok_perm; [|exact Hh']. by rewrite Permutation_middle.
  - destruct (remove_ref_ok a ext Hop) as (ext' & -> & E). rewrite Some_bind.
    destruct (free_ok h a (qrefs q ++ ext')) as (h' & -> & Hh' & Hk).
    { eapply heap_ok_perm; [|exact Hh]. rewrite E. by rewrite Permutation_middle. }
    rewrite Some_bind. exists h', ms. split; [done|]. split; [by split|done].
  - pose proof (add_ok h ms k q ext a mi Hs Hop) as Hadd. destruct (make_room k q) as [q'|]; [|by rewrite Hadd].
    destruct Hadd as (h' & ms' & -> & Hs' & Hk). rewrite !Some_bind. by exists h', ms'.
  - destruct (extract_state h ms k q ext Hs) as (ms' & -> & Hx). rewrite Some_bind. destruct (drop_dead q) as [|x q']; [by exists h, ms'|].
    destruct Hx as (a & mi & -> & Hs'). cbn [it_buffer head]. rewrite Some_bind. by exists h, ms'.
  - unfold mbuf_dereference_instance. rewrite (rg_len _ _ _ Hr), Nat2Z.id.
    destruct (dereference_ok mi k ext q [] h ms Hs) as (h' & ms' & E & Hs' & Hk & _). change (zlen []) with 0 in E.
    rewrite E, Some_bind. by exists h', ms'.
Qed.

Lemma mbuf_init_ok size junk :
  0 <= size <= MBUF_SIZE_MAX -> zlen junk = default 0 (adjust_power_of_2 size) ->
  exists ms k, mbuf_init size junk = Some ms /\ state_ok ∅ ms k [] [] /\ size <= 2 ^ k.
Proof.
  unfold MBUF_SIZE_MAX, ALLOC_SIZE_MAX. change (4294967296 / 16) with 268435456. intros Hs Hj.
  destruct (adjust_power_of_2_ok size) as (k & E & Hk & Hu & Hl); [lia|]. rewrite E in Hj. change (zlen junk = 2 ^ k) in Hj.
  assert (Hk28 : k <= 28).
  { destruct (decide (k <= 28)); [done|]. pose proof (Z.pow_le_mono_r 2 28 (k - 1) ltac:(lia) ltac:(lia)).
    change (2 ^ 28) with 268435456 in *. lia. }
  pose proof (Z.pow_le_mono_r 2 k 28 ltac:(lia) ltac:(lia)). change (2 ^ 28) with 268435456 in *.
  unfold mbuf_init, MBUF_SIZE_MAX, ALLOC_SIZE_MAX. change (4294967296 / 16) with 268435456.
  rewrite ASSERT_true, Some_bind, E, Some_bind, u32_small by (unfold is_u32; lia).
  eexists _, k. split; [done|]. split; [|done]. split; [|constructor|by intros a; rewrite lookup_empty].
  split; cbn [length ms_capacity ms_head ms_len ms_array]; try done; lia.
Qed.

(** C38: The ring of reference-counted packets is a bounded queue: every operation, by a user who
    only uses references he holds, touches live buffers only and does what the queue does -
    skipping what dead clients left, dropping the oldest packet for a new one when full -
    unless a full queue holds nothing but the packets of dead clients, when adding fails; the
    buffers in memory are exactly those with a reference, with that number as their count,
    and keep their content; and freeing the queue leaves those that are held outside. *)
Theorem mbuf_refines_queue h ms k q ext op :
  state_ok h ms k q ext -> mbuf_legal h ext op ->
  match queue_do k q ext op with
  | None => mbuf_do h ms op = None
  | Some (q', ext', r) => exists h' ms', mbuf_do h ms op = Some (h', ms', r) /\ state_ok h' ms' k q' ext' /\ keeps h h'
  end /\
  exists h', mbuf_free h ms = Some h' /\ heap_ok h' ext.
Proof.
  intros Hs Hop. split; [by apply mbuf_do_ok|]. destruct Hs as [Hr Hi Hh]. unfold mbuf_free.
  rewrite (rg_len _ _ _ Hr), Nat2Z.id. by apply (mbuf_free_loop_ok k ext q []).
Qed.

(** Operations one after the other. *)
Fixpoint mbuf_run (h : mheap) (ms : mbuf_set) (ops : list mbuf_op) : option (mheap * mbuf_set) :=
  match ops with
  | [] => Some (h, ms)
  | op :: ops => '(h, ms, _) ← mbuf_do h ms op; mbuf_run h ms ops
  end.

Module MbufDemo.

Definition junk : list mbuf_item := [mk_item None None; mk_item None None].
Definition packet : buffer := mk_buffer 4 1 2 (Some [9; 1; 2; 9]).
Definition ms0 : mbuf_set := mk_ms 0 0 2 0 junk.

(** Two packets for one client, which then disconnects; a packet for another client. *)
Definition ops : list mbuf_op :=
  [MAlloc 1 [0; 0; 0; 0] packet; MAdd 1 7; MAdd 1 7; MRelease 1; MDereference 7; MAlloc 2 [0; 0; 0; 0] packet].

(** A queue that is full of the packets of clients that have gone cannot take another
    packet: [mbuf_extract_item], called to make room, skips them all and returns [false], and
    the [ASSERT] on its result ends the server - although the queue is now empty. *)
Theorem full_of_dead_aborts :
  mbuf_init 2 junk = Some ms0 /\
  exists h ms, mbuf_run ∅ ms0 ops = Some (h, ms) /\ mbuf_add_item h ms (mk_item (Some 2%nat) (Some 8%nat)) = None /\
    fmap snd (mbuf_extract_item ms) = Some (mk_ms 0 0 2 2 junk).
Proof.
  split; [reflexivity|]. destruct (mbuf_run ∅ ms0 ops) as [[h ms]|] eqn:E; [|by vm_compute in E].
  exists h, ms. split; [done|]. vm_compute in E. injection E as <- <-. split; vm_compute; reflexivity.
Qed.

Definition h1 : mheap := {[1%nat := mk_mb packet 3 0]}.
Definition ms1 : mbuf_set := mk_ms 1 2 2 2 [mk_item (Some 1%nat) (Some 8%nat); mk_item (Some 1%nat) (Some 7%nat)].
Definition q1 : list mbuf_item := [mk_item (Some 1%nat) (Some 7%nat); mk_item (Some 1%nat) (Some 8%nat)].

Lemma state1 : state_ok h1 ms1 1 q1 [1%nat].
Proof.
  split.
  - split; try (cbn; lia); try done. intros [|[|i]] x; try (intros [= <-]; reflexivity).
  - unfold q1. apply Forall_cons. split; [left; eauto|]. apply Forall_cons. split; [left; eauto|constructor].
  - intros a. unfold h1. destruct (decide (a = 1%nat)) as [->|Hne]; [reflexivity|].
    rewrite lookup_singleton_ne by done. rewrite decide_False; [done|]. cbn. set_solver.
Qed.

Lemma mbuf_refines_queue_witness :
  (exists h' ms', mbuf_do h1 ms1 (MAdd 1 9) = Some (h', ms', None) /\
    state_ok h' ms' 1 [mk_item (Some 1%nat) (Some 8%nat); mk_item (Some 1%nat) (Some 9%nat)] [1%nat] /\ keeps h1 h') /\
  exists h', mbuf_free h1 ms1 = Some h' /\ heap_ok h' [1%nat].
Proof. apply (mbuf_refines_queue h1 ms1 1 q1 [1%nat] (MAdd 1 9) state1). apply list_elem_of_here. Defined.

End MbufDemo.
