(* ===== verification/Base64.v ===== *)
(** * Base64: [base64.c]

    A C string is the list of its bytes with the terminating zero; to read behind it is [None].
    What is written is a list that grows. *)
From S2P Require Import Prelude Integers.

(** The bytes of a string. *)
Fixpoint chars (s : string) : list Z :=
  match s with
  | EmptyString => []
  | String c s => Z.of_N (Ascii.N_of_ascii c) :: chars s
  end.

Definition base64_chars : list Z := chars "ABCDEFGHIJKLMNOPQRSTUVWXYZabcdefghijklmnopqrstuvwxyz0123456789+/".

(** ['='] *)
Definition PAD : Z := 61.

(** [q[i]] where [i < size], and nothing where it is not. *)
Definition byte_at (data : list Z) (size i : Z) : option Z :=
  if i <? size then data !! Z.to_nat i else Some 0.

(** Four characters for the three bytes from [i] on. *)
Definition encode_group (data : list Z) (size i : Z) : option (list Z) :=
  c ← data !! Z.to_nat i;
  let c := Z.shiftl c 8 in
  b ← byte_at data size (i + 1);
  let c := Z.shiftl (c + b) 8 in
  b ← byte_at data size (i + 2);
  let c := c + b in
  p0 ← base64_chars !! Z.to_nat (Z.shiftr (Z.land c 16515072) 18);
  p1 ← base64_chars !! Z.to_nat (Z.shiftr (Z.land c 258048) 12);
  p2 ← base64_chars !! Z.to_nat (Z.shiftr (Z.land c 4032) 6);
  p3 ← base64_chars !! Z.to_nat (Z.shiftr (Z.land c 63) 0);
  let i := i + 3 in
  let p3 := if size <? i then PAD else p3 in
  let p2 := if size + 1 <? i then PAD else p2 in
  Some [p0; p1; p2; p3].

Fixpoint encode_loop (fuel : nat) (data : list Z) (size i : Z) (p : list Z) : option (list Z) :=
  if i <? size then
    match fuel with
    | O => None
    | S fuel => g ← encode_group data size i; encode_loop fuel data size (i + 3) (p ++ g)
    end
  else Some (p ++ [0]).

(** The length of a string. *)
Fixpoint strlen (p : list Z) : option Z :=
  match p with
  | [] => None
  | c :: p => if c =? 0 then Some 0 else n ← strlen p; Some (n + 1)
  end.

(** The room that is [malloc]ed for the result. *)
Definition encode_room (size : Z) : Z := u64 (u64 size * 4) / 3 + 4.

(** The result, and [*str]; [memory]: whether [malloc] succeeds. *)
Definition openvpn_base64_encode (memory : bool) (data : list Z) (size : Z) : option (Z * option (list Z)) :=
  if size <? 0 then Some (-1, None)
  else if INT_MAX <? encode_room size then Some (-1, None)
  else if negb memory then Some (-1, None)
  else
    p ← encode_loop (Z.to_nat size) data size 0 [];
    n ← strlen p;
    Some (i32 n, Some p).

Fixpoint pos_loop (p : list Z) (i c : Z) : Z :=
  match p with
  | [] => -1
  | x :: p => if x =? c then i else pos_loop p (i + 1) c
  end.

Definition pos (c : Z) : Z := pos_loop base64_chars 0 c.

Definition DECODE_ERROR : Z := 4294967295.

(** The loop over the four characters of a token. *)
Fixpoint token_loop (t : list Z) (val marker : Z) : Z :=
  match t with
  | [] => if 2 <? marker then DECODE_ERROR else Z.lor (u32 (Z.shiftl marker 24)) val
  | c :: t =>
      let val := u32 (Z.shiftl val 6) in
      if c =? PAD then token_loop t val (marker + 1)
      else if 0 <? marker then DECODE_ERROR
      else
        let char_pos := pos c in
        if char_pos <? 0 then DECODE_ERROR else token_loop t (val +u u32 char_pos) marker
  end.

(** [||] does not look at what is behind a zero. *)
Definition token_decode (token : list Z) : option Z :=
  c0 ← token !! 0%nat;
  if c0 =? 0 then Some DECODE_ERROR
  else
    c1 ← token !! 1%nat;
    if c1 =? 0 then Some DECODE_ERROR
    else
      c2 ← token !! 2%nat;
      if c2 =? 0 then Some DECODE_ERROR
      else
        c3 ← token !! 3%nat;
        if c3 =? 0 then Some DECODE_ERROR else Some (token_loop [c0; c1; c2; c3] 0 0).

(** [*p && ( *p == '=' || strchr(base64_chars, *p))]; [strchr] would also find the zero. *)
Definition starts_token (c : Z) : bool := negb (c =? 0) && ((c =? PAD) || bool_decide (c ∈ base64_chars)).

(** Where [size] is negative there is no bound. *)
Definition full (size : Z) (q : list Z) : bool := (0 <=? size) && (size <=? zlen q).

Fixpoint decode_loop (fuel : nat) (p : list Z) (size : Z) (q : list Z) : option (Z * list Z) :=
  c ← head p;
  if starts_token c then
    match fuel with
    | O => None
    | S fuel =>
        val ← token_decode p;
        let marker := Z.land (Z.shiftr val 24) 255 in
        if val =? DECODE_ERROR then Some (-1, q)
        else if full size q then Some (-1, q)
        else
          let q := q ++ [Z.land (Z.shiftr val 16) 255] in
          if (marker <? 2) && full size q then Some (-1, q)
          else
            let q := if marker <? 2 then q ++ [Z.land (Z.shiftr val 8) 255] else q in
            if (marker <? 1) && full size q then Some (-1, q)
            else
              let q := if marker <? 1 then q ++ [Z.land val 255] else q in
              decode_loop fuel (drop 4 p) size q
    end
  else Some (i32 (zlen q), q).

(** The result, and what has been written to [data]. *)
Definition openvpn_base64_decode (str : list Z) (size : Z) : option (Z * list Z) :=
  decode_loop (length str) str size [].

(** ** Characters *)

Lemma char_ok n :
  0 <= n < 64 -> exists c, base64_chars !! Z.to_nat n = Some c /\ pos c = n /\ c ∈ base64_chars /\ c <> 0 /\ c <> PAD.
Proof.
  intros Hn. assert (Hall : forallb (fun i => match base64_chars !! i with
    | Some c => (pos c =? Z.of_nat i) && negb (c =? 0) && negb (c =? PAD) | None => false end) (seq 0 64) = true) by (vm_compute; reflexivity).
  rewrite forallb_forall in Hall. specialize (Hall (Z.to_nat n)). rewrite <- list_elem_of_In, elem_of_seq in Hall.
  specialize (Hall ltac:(lia)). destruct (base64_chars !! Z.to_nat n) as [c|] eqn:E; [|done].
  exists c. split; [done|]. apply list_elem_of_lookup_2 in E. split; [lia|]. split; [done|]. lia.
Qed.

(** Six bits of a word. *)
Lemma sextet c k : 0 <= k -> Z.shiftr (Z.land c (63 * 2 ^ k)) k = (c / 2 ^ k) mod 64.
Proof.
  intros Hk. rewrite Z.shiftr_land, (Z.shiftr_div_pow2 (63 * _)), Z.div_mul, Z.shiftr_div_pow2 by lia.
  change 63 with (Z.ones 6). by rewrite Z.land_ones.
Qed.

(** ** The reference encoding *)

(** The same characters. *)
Ltac same_chars :=
  apply f_equal; repeat (apply (f_equal2 cons); [first [reflexivity | apply f_equal; lia_mod]|]); reflexivity.

Definition ch (n : Z) : Z := default 0 (base64_chars !! Z.to_nat n).

Fixpoint b64 (l : list Z) : list Z :=
  match l with
  | [] => []
  | [a] => [ch (a / 4); ch (a mod 4 * 16); PAD; PAD]
  | [a; b] => [ch (a / 4); ch (a mod 4 * 16 + b / 16); ch (b mod 16 * 4); PAD]
  | a :: b :: c :: l =>
      ch (a / 4) :: ch (a mod 4 * 16 + b / 16) :: ch (b mod 16 * 4 + c / 64) :: ch (c mod 64) :: b64 l
  end.

Lemma ch_ok n : 0 <= n < 64 -> base64_chars !! Z.to_nat n = Some (ch n) /\ pos (ch n) = n /\ ch n ∈ base64_chars /\ ch n <> 0 /\ ch n <> PAD.
Proof. intros Hn. destruct (char_ok n Hn) as (c & E & Hc). unfold ch. by rewrite E. Qed.

Lemma list_ind3 {A} (P : list A -> Prop) :
  P [] -> (forall a, P [a]) -> (forall a b, P [a; b]) -> (forall a b c l, P l -> P (a :: b :: c :: l)) -> forall l, P l.
Proof.
  intros H0 H1 H2 H3. assert (H : forall n l, (length l <= n)%nat -> P l).
  { induction n as [|n IH]; intros l Hl; [by destruct l; [|cbn in Hl; lia]|].
    destruct l as [|a [|b [|c l]]]; [done|done|done|]. apply H3, IH. cbn in Hl. lia. }
  intros l. by apply (H (length l)).
Qed.

(** The characters of a group, from the three bytes as one number. *)
Lemma chars_of (c : Z) :
  0 <= c < 16777216 ->
  base64_chars !! Z.to_nat (Z.shiftr (Z.land c 16515072) 18) = Some (ch (c / 262144)) /\
  base64_chars !! Z.to_nat (Z.shiftr (Z.land c 258048) 12) = Some (ch (c / 4096 mod 64)) /\
  base64_chars !! Z.to_nat (Z.shiftr (Z.land c 4032) 6) = Some (ch (c / 64 mod 64)) /\
  base64_chars !! Z.to_nat (Z.shiftr (Z.land c 63) 0) = Some (ch (c mod 64)).
Proof.
  intros Hc. change 16515072 with (63 * 2 ^ 18). change 258048 with (63 * 2 ^ 12). change 4032 with (63 * 2 ^ 6).
  pose proof (sextet c 0 ltac:(lia)) as E0. change (63 * 2 ^ 0) with 63 in E0. rewrite E0.
  rewrite !sextet by lia. change (2 ^ 18) with 262144. change (2 ^ 12) with 4096. change (2 ^ 6) with 64. change (2 ^ 0) with 1.
  rewrite Z.div_1_r. rewrite (Z.mod_small (c / 262144)) by lia_mod.
  split_and!; apply ch_ok; lia_mod.
Qed.

Lemma lookup_behind (l1 l2 : list Z) k i : i = zlen l1 + Z.of_nat k -> (l1 ++ l2) !! Z.to_nat i = l2 !! k.
Proof. intros ->. rewrite lookup_app_r by lia. f_equal. lia. Qed.

Lemma b64_take l : l <> [] -> bytes l -> exists r, b64 l = r ++ b64 (drop 3 l) /\ (length r = 4)%nat /\
  forall data, encode_group (data ++ l) (zlen (data ++ l)) (zlen data) = Some r.
Proof.
  intros Hne Hl. rewrite !Forall_forall in Hl. unfold is_u8 in Hl.
  assert (Hshape : (exists a, l = [a]) \/ (exists a b, l = [a; b]) \/ exists a b c l', l = a :: b :: c :: l')
    by (destruct l as [|a [|b [|c l]]]; [done|left|right; left|right; right]; eauto 10).
  destruct Hshape as [(a & ->)|[(a & b & ->)|(a & b & c & l' & ->)]];
    pose proof (Hl a ltac:(set_solver)) as Ha; try pose proof (Hl b ltac:(set_solver)) as Hb; try pose proof (Hl c ltac:(set_solver)) as Hc;
    cbn [b64 drop]; clear Hl Hne.
  - eexists [_; _; _; _]. split; [rewrite app_nil_r; reflexivity|]. split; [done|]. intros data.
    unfold encode_group, byte_at. rewrite length_app. cbn [length].
    rewrite (lookup_behind data [a] 0 (zlen data)) by lia. cbn [lookup list_lookup]. rewrite Some_bind.
    replace (zlen data + 1 <? _) with false by lia. rewrite Some_bind. replace (zlen data + 2 <? _) with false by lia. rewrite Some_bind.
    rewrite !Z.shiftl_mul_pow2 by lia. change (2 ^ 8) with 256.
    destruct (chars_of ((a * 256 + 0) * 256 + 0)) as (-> & -> & -> & ->); [lia|]. rewrite !Some_bind.
    replace (Z.of_nat (length data + 1) <? zlen data + 3) with true by lia.
    replace (Z.of_nat (length data + 1) + 1 <? zlen data + 3) with true by lia.
    same_chars.
  - eexists [_; _; _; _]. split; [rewrite app_nil_r; reflexivity|]. split; [done|]. intros data.
    unfold encode_group, byte_at. rewrite length_app. cbn [length].
    rewrite (lookup_behind data [a; b] 0 (zlen data)) by lia. cbn [lookup list_lookup]. rewrite Some_bind.
    replace (zlen data + 1 <? _) with true by lia. rewrite (lookup_behind data [a; b] 1 (zlen data + 1)) by lia. cbn [lookup list_lookup]. rewrite Some_bind.
    replace (zlen data + 2 <? _) with false by lia. rewrite Some_bind.
    rewrite !Z.shiftl_mul_pow2 by lia. change (2 ^ 8) with 256.
    destruct (chars_of ((a * 256 + b) * 256 + 0)) as (-> & -> & -> & ->); [lia|]. rewrite !Some_bind.
    replace (Z.of_nat (length data + 2) <? zlen data + 3) with true by lia.
    replace (Z.of_nat (length data + 2) + 1 <? zlen data + 3) with false by lia.
    same_chars.
  - eexists [_; _; _; _]. split; [reflexivity|]. split; [done|]. intros data.
    unfold encode_group, byte_at. rewrite length_app. cbn [length].
    rewrite (lookup_behind data _ 0 (zlen data)) by lia. cbn [lookup list_lookup]. rewrite Some_bind.
    replace (zlen data + 1 <? _) with true by lia. rewrite (lookup_behind data _ 1 (zlen data + 1)) by lia. cbn [lookup list_lookup]. rewrite Some_bind.
    replace (zlen data + 2 <? _) with true by lia. rewrite (lookup_behind data _ 2 (zlen data + 2)) by lia. cbn [lookup list_lookup]. rewrite Some_bind.
    rewrite !Z.shiftl_mul_pow2 by lia. change (2 ^ 8) with 256.
    destruct (chars_of ((a * 256 + b) * 256 + c)) as (-> & -> & -> & ->); [lia|]. rewrite !Some_bind.
    replace (Z.of_nat (length data + S (S (S (length l')))) <? zlen data + 3) with false by lia.
    replace (Z.of_nat (length data + S (S (S (length l')))) + 1 <? zlen data + 3) with false by lia.
    same_chars.
Qed.

(** ** Encoding *)

Lemma encode_done fuel data size i p : size <= i -> encode_loop fuel data size i p = Some (p ++ [0]).
Proof. intros Hi. destruct fuel; cbn [encode_loop]; by replace (i <? size) with false by lia. Qed.

Lemma encode_loop_ok fuel : forall d l p,
  bytes l -> (length l <= fuel)%nat ->
  encode_loop fuel (d ++ l) (zlen (d ++ l)) (zlen d) p = Some (p ++ b64 l ++ [0]).
Proof.
  induction fuel as [|fuel IH]; intros d l p Hl Hf.
  { destruct l; [|cbn in Hf; lia]. apply encode_done. rewrite app_nil_r. lia. }
  destruct (decide (l = [])) as [->|Hne]; [apply encode_done; rewrite app_nil_r; lia|].
  destruct (b64_take l Hne Hl) as (r & E & Hr & Hg). cbn [encode_loop].
  replace (zlen d <? zlen (d ++ l)) with true by (rewrite length_app; destruct l; [done|cbn; lia]).
  rewrite Hg, Some_bind, E. destruct (decide (length l < 3)%nat) as [Hlt|Hge].
  - rewrite encode_done by (rewrite length_app; lia). rewrite (drop_ge l 3) by lia. cbn [b64]. by rewrite <- !app_assoc.
  - pose proof (IH (d ++ take 3 l) (drop 3 l) (p ++ r)) as Hrec. rewrite <- (app_assoc d), take_drop in Hrec.
    replace (zlen (d ++ take 3 l)) with (zlen d + 3) in Hrec by (rewrite length_app, length_take; lia).
    rewrite Hrec; [by rewrite <- !app_assoc|by apply Forall_drop|rewrite length_drop; destruct l; [done|cbn [length] in *; lia]].
Qed.

Lemma strlen_ok s rest : Forall (fun c => c <> 0) s -> strlen (s ++ 0 :: rest) = Some (zlen s).
Proof.
  induction 1 as [|c s Hc _ IH]; [done|]. cbn [app strlen]. replace (c =? 0) with false by lia.
  rewrite IH, Some_bind. f_equal. cbn [length]. lia.
Qed.

Lemma b64_chars l : bytes l -> Forall (fun c => c <> 0) (b64 l) /\ zlen (b64 l) = 4 * ((zlen l + 2) / 3).
Proof.
  induction l as [|a|a b|a b c l IH] using list_ind3; intros Hl; rewrite ?Forall_cons in Hl; unfold is_u8 in Hl.
  - done.
  - split; [|reflexivity]. cbn [b64]. rewrite !Forall_cons. split_and!; try done; apply ch_ok; lia_mod.
  - split; [|reflexivity]. cbn [b64]. rewrite !Forall_cons. split_and!; try done; apply ch_ok; lia_mod.
  - destruct Hl as (Ha & Hb & Hc & Hl). destruct (IH Hl) as [IH1 IH2]. cbn [b64 length]. split.
    + rewrite !Forall_cons. split_and!; [apply ch_ok; lia_mod..|done].
    + cbn [length] in *. rewrite !Nat2Z.inj_succ. lia_mod.
Qed.

(** ** Decoding *)

Lemma token_char n t val :
  0 <= n < 64 -> 0 <= val < 262144 -> token_loop (ch n :: t) val 0 = token_loop t (val * 64 + n) 0.
Proof.
  intros Hn Hv. destruct (ch_ok n Hn) as (_ & Hp & _ & _ & Hpad). cbn [token_loop].
  replace (ch n =? PAD) with false by lia. cbn [Z.ltb Z.compare]. rewrite Hp. replace (n <? 0) with false by lia.
  rewrite Z.shiftl_mul_pow2 by lia. change (2 ^ 6) with 64. rewrite !u32_small by (unfold is_u32; rewrite ?u32_small; unfold is_u32; lia).
  done.
Qed.

Lemma token_pad t val m : 0 <= val < 262144 -> token_loop (PAD :: t) val m = token_loop t (val * 64) (m + 1).
Proof.
  intros Hv. cbn [token_loop]. change (PAD =? PAD) with true. cbv iota.
  rewrite Z.shiftl_mul_pow2, u32_small by (unfold is_u32; lia). done.
Qed.

(** What [openvpn_base64_decode] takes out of a token. *)
Lemma token_end val m :
  0 <= val < 16777216 -> 0 <= m <= 2 ->
  let v := token_loop [] val m in
  v <> DECODE_ERROR /\ Z.land (Z.shiftr v 24) 255 = m /\ Z.land (Z.shiftr v 16) 255 = val / 65536 /\
  Z.land (Z.shiftr v 8) 255 = val / 256 mod 256 /\ Z.land v 255 = val mod 256.
Proof.
  intros Hv Hm. cbn [token_loop]. replace (2 <? m) with false by lia.
  rewrite u32_small by (unfold is_u32; rewrite Z.shiftl_mul_pow2; lia). rewrite lor_shiftl_add by lia.
  cbn zeta. change 255 with (Z.ones 8). rewrite !Z.land_ones, !Z.shiftr_div_pow2 by lia. unfold DECODE_ERROR.
  change (2 ^ 24) with 16777216. change (2 ^ 16) with 65536. change (2 ^ 8) with 256. lia_mod.
Qed.

(** The token of a group of bytes. *)
Lemma token_ok l rest :
  l <> [] -> bytes l ->
  exists v, token_decode (b64 l ++ rest) = Some v /\ v <> DECODE_ERROR /\
    Z.land (Z.shiftr v 24) 255 = 3 - Z.min 3 (zlen l) /\
    Some (Z.land (Z.shiftr v 16) 255) = l !! 0%nat /\
    (1 < zlen l -> Some (Z.land (Z.shiftr v 8) 255) = l !! 1%nat) /\ (2 < zlen l -> Some (Z.land v 255) = l !! 2%nat).
Proof.
  intros Hne Hl. rewrite !Forall_forall in Hl. unfold is_u8 in Hl.
  assert (Hshape : (exists a, l = [a]) \/ (exists a b, l = [a; b]) \/ exists a b c l', l = a :: b :: c :: l')
    by (destruct l as [|a [|b [|c l]]]; [done|left|right; left|right; right]; eauto 10).
  destruct Hshape as [(a & ->)|[(a & b & ->)|(a & b & c & l' & ->)]];
    pose proof (Hl a ltac:(set_solver)) as Ha; try pose proof (Hl b ltac:(set_solver)) as Hb; try pose proof (Hl c ltac:(set_solver)) as Hc;
    cbn [b64 app length]; clear Hl Hne; eexists; unfold token_decode; cbn [lookup list_lookup].
  - destruct (ch_ok (a / 4) ltac:(lia_mod)) as (_ & _ & _ & H0 & _). destruct (ch_ok (a mod 4 * 16) ltac:(lia_mod)) as (_ & _ & _ & H1 & _).
    rewrite !Some_bind. replace (ch (a / 4) =? 0) with false by lia. replace (ch (a mod 4 * 16) =? 0) with false by lia.
    change (PAD =? 0) with false. cbv iota. split; [reflexivity|].
    rewrite !token_char, !token_pad by lia_mod. destruct (token_end (((0 * 64 + a / 4) * 64 + a mod 4 * 16) * 64 * 64) (0 + 1 + 1)) as (E0 & E1 & E2 & E3 & E4); [lia_mod|lia|].
    rewrite E1, E2. split; [done|]. split; [lia|]. split; [f_equal; lia_mod|]. split; lia.
  - destruct (ch_ok (a / 4) ltac:(lia_mod)) as (_ & _ & _ & H0 & _). destruct (ch_ok (a mod 4 * 16 + b / 16) ltac:(lia_mod)) as (_ & _ & _ & H1 & _).
    destruct (ch_ok (b mod 16 * 4) ltac:(lia_mod)) as (_ & _ & _ & H2 & _).
    rewrite !Some_bind. replace (ch (a / 4) =? 0) with false by lia. replace (ch (a mod 4 * 16 + b / 16) =? 0) with false by lia.
    replace (ch (b mod 16 * 4) =? 0) with false by lia. change (PAD =? 0) with false. cbv iota. split; [reflexivity|].
    rewrite !token_char, !token_pad by lia_mod. destruct (token_end ((((0 * 64 + a / 4) * 64 + (a mod 4 * 16 + b / 16)) * 64 + b mod 16 * 4) * 64) (0 + 1)) as (E0 & E1 & E2 & E3 & E4); [lia_mod|lia|].
    rewrite E1, E2, E3. split; [done|]. split; [lia|]. split; [f_equal; lia_mod|]. split; [intros _; cbn; f_equal; lia_mod|lia].
  - destruct (ch_ok (a / 4) ltac:(lia_mod)) as (_ & _ & _ & H0 & _). destruct (ch_ok (a mod 4 * 16 + b / 16) ltac:(lia_mod)) as (_ & _ & _ & H1 & _).
    destruct (ch_ok (b mod 16 * 4 + c / 64) ltac:(lia_mod)) as (_ & _ & _ & H2 & _). destruct (ch_ok (c mod 64) ltac:(lia_mod)) as (_ & _ & _ & H3 & _).
    rewrite !Some_bind. replace (ch (a / 4) =? 0) with false by lia. replace (ch (a mod 4 * 16 + b / 16) =? 0) with false by lia.
    replace (ch (b mod 16 * 4 + c / 64) =? 0) with false by lia. replace (ch (c mod 64) =? 0) with false by lia. split; [reflexivity|].
    rewrite !token_char by lia_mod. destruct (token_end ((((0 * 64 + a / 4) * 64 + (a mod 4 * 16 + b / 16)) * 64 + (b mod 16 * 4 + c / 64)) * 64 + c mod 64) 0) as (E0 & E1 & E2 & E3 & E4); [lia_mod|lia|].
    rewrite E1, E2, E3, E4. split; [done|]. split; [lia|]. split; [f_equal; lia_mod|]. split; intros _; cbn; f_equal; lia_mod.
Qed.

Lemma starts_b64 l rest : l <> [] -> bytes l -> exists c, head (b64 l ++ rest) = Some c /\ starts_token c = true.
Proof.
  intros Hne Hl. destruct l as [|a l]; [done|]. apply Forall_cons in Hl as [Ha _]. unfold is_u8 in Ha.
  destruct (ch_ok (a / 4) ltac:(lia_mod)) as (_ & _ & Hin & H0 & _).
  exists (ch (a / 4)). split; [destruct l as [|b [|c l]]; done|]. unfold starts_token.
  rewrite bool_decide_eq_true_2 by done. rewrite orb_true_r, andb_true_r. lia.
Qed.

Lemma take_three (l : list Z) x0 : l !! 0%nat = Some x0 ->
  take 3 l = [x0] ++ (if 1 <? zlen l then [default 0 (l !! 1%nat)] else []) ++ (if 2 <? zlen l then [default 0 (l !! 2%nat)] else []).
Proof.
  destruct l as [|a [|b [|c l]]]; [done| | |]; cbn [lookup list_lookup]; intros [= ->]; [reflexivity|reflexivity|].
  cbn [length]. replace (1 <? _) with true by lia. replace (2 <? _) with true by lia. reflexivity.
Qed.

(** One token, when there is room for its bytes. *)
Lemma decode_step l rest fuel size q :
  l <> [] -> bytes l -> (size < 0 \/ zlen q + Z.min 3 (zlen l) <= size) ->
  decode_loop (S fuel) (b64 l ++ rest) size q = decode_loop fuel (b64 (drop 3 l) ++ rest) size (q ++ take 3 l).
Proof.
  intros Hne Hl Hs. destruct (starts_b64 l rest Hne Hl) as (c & Hc & Hst). destruct (b64_take l Hne Hl) as (r & Er & Hr & _).
  destruct (token_ok l rest Hne Hl) as (v & Hv & Herr & Hm & H0 & H1 & H2).
  assert (Hlen : 0 < zlen l) by (destruct l; [done|cbn; lia]).
  cbn [decode_loop]. rewrite Hc, Some_bind, Hst, Hv, Some_bind, Hm. replace (v =? DECODE_ERROR) with false by lia.
  assert (E4 : drop 4 (b64 l ++ rest) = b64 (drop 3 l) ++ rest) by (rewrite Er, <- app_assoc, drop_app_length'; done). rewrite E4.
  rewrite (take_three l _ (eq_sym H0)).
  assert (Hf0 : full size q = false) by (unfold full; lia). rewrite Hf0.
  replace (3 - Z.min 3 (zlen l) <? 2) with (1 <? zlen l) by lia. replace (3 - Z.min 3 (zlen l) <? 1) with (2 <? zlen l) by lia.
  destruct (Z.ltb_spec 1 (zlen l)) as [Hl1|]; cbn [andb].
  - rewrite <- (H1 ltac:(lia)). assert (Hf1 : full size (q ++ [Z.land (Z.shiftr v 16) 255]) = false) by (unfold full; rewrite length_app; cbn [length]; lia).
    rewrite Hf1. destruct (Z.ltb_spec 2 (zlen l)) as [Hl2|]; cbn [andb].
    + rewrite <- (H2 ltac:(lia)).
      assert (Hf2 : full size ((q ++ [Z.land (Z.shiftr v 16) 255]) ++ [Z.land (Z.shiftr v 8) 255]) = false) by (unfold full; rewrite !length_app; cbn [length]; lia).
      rewrite Hf2. cbn [default from_option id]. by rewrite <- !app_assoc.
    + cbn [default from_option id app]. by rewrite <- !app_assoc.
  - replace (2 <? zlen l) with false by lia. cbn [andb app]. done.
Qed.

(** A token without room: as many of its bytes as there is room for are written. *)
Lemma decode_no_room l rest fuel size q :
  l <> [] -> bytes l -> zlen q <= size -> size < zlen q + Z.min 3 (zlen l) ->
  decode_loop (S fuel) (b64 l ++ rest) size q = Some (-1, q ++ take (Z.to_nat (size - zlen q)) l).
Proof.
  intros Hne Hl Hq Hs. destruct (starts_b64 l rest Hne Hl) as (c & Hc & Hst).
  destruct (token_ok l rest Hne Hl) as (v & Hv & Herr & Hm & H0 & H1 & H2).
  cbn [decode_loop]. rewrite Hc, Some_bind, Hst, Hv, Some_bind, Hm. replace (v =? DECODE_ERROR) with false by lia.
  replace (3 - Z.min 3 (zlen l) <? 2) with (1 <? zlen l) by lia. replace (3 - Z.min 3 (zlen l) <? 1) with (2 <? zlen l) by lia.
  unfold full at 1. destruct (Z.leb_spec size (zlen q)).
  { replace (0 <=? size) with true by lia. cbn [andb]. replace (Z.to_nat (size - zlen q)) with O by lia. by rewrite app_nil_r. }
  rewrite andb_false_r. replace (1 <? zlen l) with true by lia. specialize (H1 ltac:(lia)).
  assert (Hl2 : exists x0 x1 l', l = x0 :: x1 :: l') by (destruct l as [|x0 [|x1 l']]; [done|done|eauto]).
  destruct Hl2 as (x0 & x1 & l' & ->). cbn [lookup list_lookup] in H0, H1. injection H0 as ->. injection H1 as ->.
  unfold full at 1. rewrite length_app. cbn [length andb].
  destruct (Z.leb_spec size (Z.of_nat (length q + 1))).
  { replace (0 <=? size) with true by lia. cbn [andb]. replace (Z.to_nat (size - zlen q)) with 1%nat by lia. done. }
  rewrite andb_false_r. cbn [length] in *. replace (2 <? _) with true by lia. unfold full at 1. rewrite !length_app. cbn [length andb].
  replace (size <=? _) with true by lia. replace (0 <=? size) with true by lia. cbn [andb].
  replace (Z.to_nat (size - zlen q)) with 2%nat by lia. by rewrite <- app_assoc.
Qed.

Lemma decode_end fuel size q : zlen q <= INT_MAX -> decode_loop fuel [0] size q = Some (zlen q, q).
Proof.
  unfold INT_MAX. intros Hq. assert (E : i32 (zlen q) = zlen q) by (unfold i32; lia_mod).
  destruct fuel; cbn [decode_loop head]; rewrite Some_bind; change (starts_token 0) with false; cbv iota; by rewrite E.
Qed.

Lemma decode_loop_ok : forall fuel l size q,
  bytes l -> (length l <= fuel)%nat -> zlen q + zlen l <= INT_MAX -> (size < 0 \/ zlen q <= size) ->
  decode_loop fuel (b64 l ++ [0]) size q =
    if (0 <=? size) && (size <? zlen q + zlen l) then Some (-1, q ++ take (Z.to_nat (size - zlen q)) l)
    else Some (zlen q + zlen l, q ++ l).
Proof.
  assert (Hnil : forall fuel size q, zlen q <= INT_MAX -> size < 0 \/ zlen q <= size ->
    decode_loop fuel (b64 [] ++ [0]) size q =
      if (0 <=? size) && (size <? zlen q + 0) then Some (-1, q ++ take (Z.to_nat (size - zlen q)) [])
      else Some (zlen q + 0, q ++ [])).
  { intros fuel size q Hq Hs. replace ((0 <=? size) && _) with false by lia. rewrite Z.add_0_r, app_nil_r. by apply decode_end. }
  unfold INT_MAX in *. induction fuel as [|fuel IH]; intros l size q Hl Hf Hmax Hq.
  { destruct l; [|cbn in Hf; lia]. apply Hnil; [cbn in Hmax; lia|done]. }
  destruct (decide (l = [])) as [->|Hne]; [apply Hnil; [cbn in Hmax; lia|done]|].
  destruct (decide (0 <= size /\ size < zlen q + Z.min 3 (zlen l))) as [Hno|Hroom].
  - rewrite decode_no_room by (done || lia). replace ((0 <=? size) && _) with true by lia. done.
  - rewrite decode_step by (done || lia). rewrite IH.
    + rewrite length_app, length_take, length_drop.
      assert (E : Z.of_nat (length q + Nat.min 3 (length l)) + Z.of_nat (length l - 3) = zlen q + zlen l) by lia. rewrite E.
      rewrite <- !app_assoc, take_drop. destruct ((0 <=? size) && (size <? zlen q + zlen l)) eqn:Ec; [|done]. do 3 f_equal.
      replace (take (Z.to_nat (size - zlen q)) l) with (take (Z.to_nat (size - zlen q)) (take 3 l ++ drop 3 l)) by (by rewrite take_drop).
      rewrite take_app, length_take, (take_ge (take 3 l)) by (rewrite length_take; lia).
      f_equal. f_equal. lia.
    + by apply Forall_drop.
    + rewrite length_drop. destruct l; [done|cbn [length] in *; lia].
    + rewrite length_app, length_take, length_drop. lia.
    + rewrite length_app, length_take. lia.
Qed.

(** ** Theorems *)

Lemma encode_room_ok n : 0 <= n <= INT_MAX -> encode_room n = n * 4 / 3 + 4.
Proof. unfold INT_MAX, encode_room. intros Hn. rewrite (u64_small n), u64_small by (unfold is_u64; lia). done. Qed.

(** [openvpn_base64_encode] gives the encoding of RFC 4648, in the room it has allocated, and
    [openvpn_base64_decode] gives the data back: all of it when it fits, and an error, with no
    byte written behind the end, when it does not. *)
Theorem base64_round_trip data :
  bytes data -> zlen data <= INT_MAX -> encode_room (zlen data) <= INT_MAX ->
  openvpn_base64_encode true data (zlen data) = Some (zlen (b64 data), Some (b64 data ++ [0])) /\
  zlen (b64 data ++ [0]) <= encode_room (zlen data) /\
  forall size, openvpn_base64_decode (b64 data ++ [0]) size =
    if (0 <=? size) && (size <? zlen data) then Some (-1, take (Z.to_nat size) data) else Some (zlen data, data).
Proof.
  intros Hb Hmax Hroom. destruct (b64_chars data Hb) as [Hnz Hlen]. pose proof (encode_room_ok (zlen data) ltac:(lia)) as Eroom.
  split; [|split].
  - unfold openvpn_base64_encode. replace (zlen data <? 0) with false by lia. replace (INT_MAX <? encode_room (zlen data)) with false by lia.
    cbn [negb]. rewrite Nat2Z.id. pose proof (encode_loop_ok (length data) [] data [] Hb ltac:(done)) as E. cbn [app length] in E.
    change (Z.of_nat 0) with 0 in E. rewrite E, Some_bind, strlen_ok, Some_bind by done. unfold INT_MAX in *.
    do 3 f_equal. unfold i32. lia_mod.
  - rewrite length_app. cbn [length]. lia_mod.
  - intros size. unfold openvpn_base64_decode. rewrite decode_loop_ok; cbn [length app]; try done.
    + rewrite Z.sub_0_r. done.
    + rewrite length_app. lia_mod.
    + lia.
Qed.

Lemma token_decode_ok s rest :
  Forall (fun c => c <> 0) s -> exists v, token_decode (s ++ 0 :: rest) = Some v /\ (v <> DECODE_ERROR -> (4 <= length s)%nat).
Proof.
  intros Hs. unfold token_decode. assert (H0 : forall c (l : list Z), Forall (fun c => c <> 0) (c :: l) -> (c =? 0) = false /\ Forall (fun c => c <> 0) l)
    by (intros c l [? ?]%Forall_cons; split; [lia|done]).
  destruct s as [|c0 s]; cbn [app lookup list_lookup]; rewrite Some_bind; [by exists DECODE_ERROR|]. destruct (H0 _ _ Hs) as [-> Hs1].
  destruct s as [|c1 s]; cbn [app lookup list_lookup]; rewrite Some_bind; [by exists DECODE_ERROR|]. destruct (H0 _ _ Hs1) as [-> Hs2].
  destruct s as [|c2 s]; cbn [app lookup list_lookup]; rewrite Some_bind; [by exists DECODE_ERROR|]. destruct (H0 _ _ Hs2) as [-> Hs3].
  destruct s as [|c3 s]; cbn [app lookup list_lookup]; rewrite Some_bind; [by exists DECODE_ERROR|]. destruct (H0 _ _ Hs3) as [-> Hs4].
  eexists. split; [done|]. intros _. cbn. lia.
Qed.

Lemma decode_loop_safe fuel : forall s rest size q,
  Forall (fun c => c <> 0) s -> (length s <= fuel)%nat -> (size < 0 \/ zlen q <= size) ->
  exists ret out, decode_loop fuel (s ++ 0 :: rest) size q = Some (ret, out) /\
    (size < 0 \/ zlen out <= size) /\ (ret = -1 \/ ret = i32 (zlen out)) /\ zlen out <= zlen q + zlen s / 4 * 3.
Proof.
  induction fuel as [|fuel IH]; intros s rest size q Hs Hf Hq.
  { destruct s; [|cbn in Hf; lia]. exists (i32 (zlen q)), q. split; [done|]. split; [done|]. split; [by right|]. cbn [length]. lia_mod. }
  cbn [decode_loop]. assert (Hhd : exists c, head (s ++ 0 :: rest) = Some c) by (destruct s; cbn; eauto). destruct Hhd as (c & ->).
  rewrite Some_bind. destruct (starts_token c); [|exists (i32 (zlen q)), q; split; [done|]; split; [done|]; split; [by right|]; lia_mod].
  destruct (token_decode_ok s rest Hs) as (v & -> & Hv). rewrite Some_bind. destruct (Z.eqb_spec v DECODE_ERROR) as [|Hne].
  { exists (-1), q. split; [done|]. split; [done|]. split; [by left|]. lia_mod. }
  specialize (Hv Hne). assert (Hdrop : drop 4 (s ++ 0 :: rest) = drop 4 s ++ 0 :: rest) by (by rewrite drop_app_le). rewrite Hdrop.
  set (m := Z.land (Z.shiftr v 24) 255). assert (Hlen : zlen s / 4 * 3 = zlen (drop 4 s) / 4 * 3 + 3) by (rewrite length_drop; lia_mod).
  assert (Hpos : 0 <= zlen (drop 4 s) / 4 * 3) by lia_mod.
  assert (Hrec : forall q', (size < 0 \/ zlen q' <= size) -> zlen q' <= zlen q + 3 ->
    exists ret out, decode_loop fuel (drop 4 s ++ 0 :: rest) size q' = Some (ret, out) /\
      (size < 0 \/ zlen out <= size) /\ (ret = -1 \/ ret = i32 (zlen out)) /\ zlen out <= zlen q + zlen s / 4 * 3).
  { intros q' Hq' Hl'. destruct (IH (drop 4 s) rest size q') as (ret & out & E & H1 & H2 & H3); [by apply Forall_drop|rewrite length_drop; lia|done|].
    exists ret, out. split; [done|]. split; [done|]. split; [done|]. lia. }
  assert (Hstop : forall q' : list Z, (size < 0 \/ zlen q' <= size) -> zlen q' <= zlen q + 3 ->
    exists ret out, Some (-1, q') = Some (ret, out) /\
      (size < 0 \/ zlen out <= size) /\ (ret = -1 \/ ret = i32 (zlen out)) /\ zlen out <= zlen q + zlen s / 4 * 3).
  { intros q' Hq' Hl'. exists (-1), q'. split; [done|]. split; [done|]. split; [by left|]. lia. }
  cbn zeta. set (b0 := Z.land (Z.shiftr v 16) 255). set (b1 := Z.land (Z.shiftr v 8) 255). set (b2 := Z.land v 255).
  destruct (full size q) eqn:F0; [apply Hstop; [done|lia]|]. unfold full in F0.
  destruct (m <? 2); cbn [andb].
  - destruct (full size (q ++ [b0])) eqn:F1; unfold full in F1; rewrite length_app in F1; cbn [length] in F1;
      [apply Hstop; rewrite length_app; cbn [length]; lia|].
    destruct (m <? 1); cbn [andb].
    + destruct (full size ((q ++ [b0]) ++ [b1])) eqn:F2; unfold full in F2; rewrite !length_app in F2; cbn [length] in F2;
        [apply Hstop|apply Hrec]; rewrite !length_app; cbn [length]; lia.
    + apply Hrec; rewrite !length_app; cbn [length]; lia.
  - destruct (m <? 1); cbn [andb].
    + destruct (full size (q ++ [b0])) eqn:F1; unfold full in F1; rewrite length_app in F1; cbn [length] in F1;
        [apply Hstop|apply Hrec]; rewrite !length_app; cbn [length]; lia.
    + apply Hrec; rewrite !length_app; cbn [length]; lia.
Qed.

(** On any string whatever, [openvpn_base64_decode] comes to an end without reading behind the
    terminating zero, writes no more than [size] bytes, and no more than three for every four
    characters, and returns their number or an error. *)
Theorem base64_decode_safe s rest size :
  Forall (fun c => c <> 0) s ->
  exists ret out, openvpn_base64_decode (s ++ 0 :: rest) size = Some (ret, out) /\
    (0 <= size -> zlen out <= size) /\ zlen out <= zlen s / 4 * 3 /\
    (ret = -1 \/ (zlen s <= INT_MAX -> ret = zlen out)).
Proof.
  intros Hs. unfold openvpn_base64_decode.
  destruct (decode_loop_safe (length (s ++ 0 :: rest)) s rest size []) as (ret & out & E & H1 & H2 & H3);
    [done|rewrite length_app; lia|cbn; lia|].
  exists ret, out. split; [done|]. split; [lia|]. split; [cbn [length] in H3; lia|]. destruct H2 as [->|Hr]; [by left|right].
  unfold INT_MAX. intros Hm. cbn [length] in H3. rewrite Hr. unfold i32. lia_mod.
Qed.

Lemma base64_round_trip_witness :
  openvpn_base64_encode true [102; 111; 111; 98] (zlen [102; 111; 111; 98]) =
    Some (zlen (b64 [102; 111; 111; 98]), Some (b64 [102; 111; 111; 98] ++ [0])) /\
  zlen (b64 [102; 111; 111; 98] ++ [0]) <= encode_room (zlen [102; 111; 111; 98]) /\
  forall size, openvpn_base64_decode (b64 [102; 111; 111; 98] ++ [0]) size =
    if (0 <=? size) && (size <? zlen [102; 111; 111; 98]) then Some (-1, take (Z.to_nat size) [102; 111; 111; 98])
    else Some (zlen [102; 111; 111; 98], [102; 111; 111; 98]).
Proof. apply (base64_round_trip [102; 111; 111; 98]); [apply bytes_dec; reflexivity|by vm_compute|by vm_compute]. Defined.

(** "foob" *)
Example b64_foob : b64 [102; 111; 111; 98] = chars "Zm9vYg==".
Proof. reflexivity. Qed.

Lemma base64_decode_safe_witness :
  exists ret out, openvpn_base64_decode (chars "Zm9v=Yg" ++ 0 :: [65]) 4 = Some (ret, out) /\
    (0 <= 4 -> zlen out <= 4) /\ zlen out <= zlen (chars "Zm9v=Yg") / 4 * 3 /\
    (ret = -1 \/ (zlen (chars "Zm9v=Yg") <= INT_MAX -> ret = zlen out)).
Proof. apply (base64_decode_safe (chars "Zm9v=Yg") [65] 4). repeat constructor; done. Defined.
