(* ===== verification/Proto.v ===== *)
(** * Packet headers and checksums: [proto.h], [proto.c]

    The structs are packed, so their fields are bytes at fixed places behind [BPTR(buf)];
    [rd] is a byte of memory there.  [little] is the byte order of the machine, which shows where
    the code computes with a [uint16_t] that it has loaded from a packet. *)
From S2P Require Import Prelude Integers Buffer.

Definition OPENVPN_ETH_P_IPV4 : Z := 2048.
Definition OPENVPN_ETH_P_8021Q : Z := 33024.
Definition OPENVPN_ETH_P_IPV6 : Z := 34525.

(** [sizeof] of the packed structs. *)
Definition SIZEOF_ETHHDR : Z := 14.
Definition SIZEOF_8021QHDR : Z := 18.
Definition SIZEOF_IPHDR : Z := 20.
Definition SIZEOF_IPV6HDR : Z := 40.
Definition SIZEOF_TCPHDR : Z := 20.

Definition OPENVPN_IPH_GET_VER (v : Z) : Z := Z.land (Z.shiftr v 4) 15.
Definition OPENVPN_IPH_GET_LEN (v : Z) : Z := Z.shiftl (Z.land v 15) 2.
Definition OPENVPN_IP_OFFMASK : Z := 8191.
Definition OPENVPN_IPPROTO_TCP : Z := 6.
Definition OPENVPN_TCPH_GET_DOFF (d : Z) : Z := Z.shiftr (Z.land d 240) 2.
Definition OPENVPN_TCPH_SYN_MASK : Z := 2.
Definition OPENVPN_TCPOPT_EOL : Z := 0.
Definition OPENVPN_TCPOPT_NOP : Z := 1.
Definition OPENVPN_TCPOPT_MAXSEG : Z := 2.
Definition OPENVPN_TCPOLEN_MAXSEG : Z := 4.

(** [BPTR(buf)[i]]; what is not in the block of the buffer is [None]. *)
Definition rd (b : buffer) (i : Z) : option Z :=
  p ← buf_bptr b;
  ASSERT (0 <=? p + i);; mem b !! Z.to_nat (p + i).

(** [ntohs] of the field at [i]. *)
Definition rd_be16 (b : buffer) (i : Z) : option Z := x ← rd b i; y ← rd b (i + 1); Some (x * 256 + y).

Inductive dev_type := DEV_TYPE_TUN | DEV_TYPE_TAP | DEV_TYPE_OTHER.

Definition is_ipv_X (tunnel_type : dev_type) (buf : buffer) (ip_ver : Z) : option (bool * buffer) :=
  let at_offset (offset : Z) : option (bool * buffer) :=
    v ← rd buf offset;
    Some (if OPENVPN_IPH_GET_VER v =? ip_ver then buf_advance buf offset else (false, buf)) in
  match tunnel_type with
  | DEV_TYPE_TUN => if buf_len buf <? SIZEOF_IPHDR then Some (false, buf) else at_offset 0
  | DEV_TYPE_TAP =>
      if buf_len buf <? SIZEOF_ETHHDR + SIZEOF_IPHDR then Some (false, buf)
      else
        proto ← rd_be16 buf 12;
        if proto =? OPENVPN_ETH_P_8021Q then
          if buf_len buf <? SIZEOF_ETHHDR + SIZEOF_IPHDR then Some (false, buf)
          else
            proto ← rd_be16 buf 16;
            if proto =? (if ip_ver =? 6 then OPENVPN_ETH_P_IPV6 else OPENVPN_ETH_P_IPV4) then at_offset SIZEOF_8021QHDR
            else Some (false, buf)
        else if proto =? (if ip_ver =? 6 then OPENVPN_ETH_P_IPV6 else OPENVPN_ETH_P_IPV4) then at_offset SIZEOF_ETHHDR
        else Some (false, buf)
  | DEV_TYPE_OTHER => Some (false, buf)
  end.

Definition is_ipv4 (tunnel_type : dev_type) (buf : buffer) : option (bool * buffer) := is_ipv_X tunnel_type buf 4.
Definition is_ipv6 (tunnel_type : dev_type) (buf : buffer) : option (bool * buffer) := is_ipv_X tunnel_type buf 6.

(** The version, or -1, and the offset that is stored through [ip_hdr_offset]. *)
Definition get_tun_ip_ver (tunnel_type : dev_type) (buf : buffer) (ip_hdr_offset : Z) : option (Z * Z) :=
  match tunnel_type with
  | DEV_TYPE_TUN =>
      if SIZEOF_IPHDR <=? buf_len buf then v ← rd buf 0; Some (OPENVPN_IPH_GET_VER v, 0) else Some (-1, 0)
  | DEV_TYPE_TAP =>
      if SIZEOF_ETHHDR <=? buf_len buf then
        proto ← rd_be16 buf 12;
        Some (if proto =? OPENVPN_ETH_P_IPV6 then 6 else if proto =? OPENVPN_ETH_P_IPV4 then 4 else -1, SIZEOF_ETHHDR)
      else Some (-1, SIZEOF_ETHHDR)
  | DEV_TYPE_OTHER => Some (-1, ip_hdr_offset)
  end.

(** ** Checksums *)

Definition AF_INET : Z := 2.

(** The loops over 16-bit words; an odd last byte is the upper one of its word. *)
Fixpoint add_words (sum : Z) (l : list Z) : Z :=
  match l with
  | a :: b :: l => add_words (sum +u u16 (Z.land (Z.shiftl a 8) 65280 + Z.land b 255)) l
  | [a] => sum +u u16 (Z.land (Z.shiftl a 8) 65280 + 0)
  | [] => sum
  end.

(** [while (sum >> 16)] *)
Fixpoint fold_carries (fuel : nat) (sum : Z) : option Z :=
  if Z.shiftr sum 16 =? 0 then Some sum
  else match fuel with O => None | S fuel => fold_carries fuel (Z.land sum 65535 +u Z.shiftr sum 16) end.

(** [payload]: its [len_payload] bytes.  Two rounds of carries are enough. *)
Definition ip_checksum (af : Z) (payload src_addr dest_addr : list Z) (proto : Z) : option Z :=
  let addr_len := if af =? AF_INET then 4%nat else 16%nat in
  ASSERT ((zlen src_addr =? Z.of_nat addr_len) && (zlen dest_addr =? Z.of_nat addr_len));;
  let sum := add_words 0 payload in
  let sum := add_words sum src_addr in
  let sum := add_words sum dest_addr in
  let sum := sum +u u16 (zlen payload) in
  let sum := sum +u u16 proto in
  sum ← fold_carries 2 sum;
  Some (u16 (Z.lnot sum)).

(** A macro that assigns to its second argument. *)
Definition ADJUST_CHECKSUM (acc cksum : Z) : Z :=
  let acc := i32 (acc + cksum) in
  if acc <? 0 then
    let acc := - acc in
    let acc := Z.shiftr acc 16 + Z.land acc 65535 in
    let acc := acc + Z.shiftr acc 16 in
    u16 (Z.lnot acc)
  else
    let acc := Z.shiftr acc 16 + Z.land acc 65535 in
    let acc := acc + Z.shiftr acc 16 in
    u16 acc.

(** ** Lemmas *)

(** Numbers with the same remainder: sums in one's complement. *)
Definition congr (x y : Z) : Prop := exists z, x = y + 65535 * z.

Lemma congr_refl x : congr x x.
Proof. exists 0. lia. Qed.

Lemma congr_sym x y : congr x y -> congr y x.
Proof. intros [z ->]. exists (- z). lia. Qed.

Lemma congr_trans x y z : congr x y -> congr y z -> congr x z.
Proof. intros [a ->] [b ->]. exists (a + b). lia. Qed.

#[export] Instance congr_equiv : Equivalence congr.
Proof. split; [exact congr_refl|exact congr_sym|exact congr_trans]. Qed.

#[export] Instance congr_add : Proper (congr ==> congr ==> congr) Z.add.
Proof. intros x y [a ->] x' y' [b ->]. exists (a + b). lia. Qed.

#[export] Instance congr_sub : Proper (congr ==> congr ==> congr) Z.sub.
Proof. intros x y [a ->] x' y' [b ->]. exists (a - b). lia. Qed.

#[export] Instance congr_mul k : Proper (congr ==> congr) (Z.mul k).
Proof. intros x y [a ->]. exists (k * a). lia. Qed.

(** One round of carries, and the second. *)
Lemma fold_twice a :
  0 <= a <= 2147483648 -> let x := Z.shiftr a 16 + Z.land a 65535 in let y := u16 (x + Z.shiftr x 16) in
  0 <= y < 65536 /\ congr y a /\ x + Z.shiftr x 16 < 131072.
Proof.
  intros Ha. cbn zeta. change 65535 with (Z.ones 16). rewrite Z.land_ones, !Z.shiftr_div_pow2 by lia. change (2 ^ 16) with 65536.
  set (x := a / 65536 + a mod 65536). assert (Hx : 0 <= x < 98304) by (subst x; lia_mod).
  split; [unfold u16; lia_mod|]. split; [|lia_mod]. exists (- (a / 65536) - (if x <? 65536 then 0 else 1)).
  unfold u16. destruct (Z.ltb_spec x 65536).
  - rewrite (Z.div_small x), Z.add_0_r, Z.mod_small by lia. subst x. lia_mod.
  - assert (E : x / 65536 = 1) by lia_mod. rewrite E. subst x. lia_mod.
Qed.

Lemma ADJUST_CHECKSUM_ok acc cksum :
  -65536 < acc < 65536 -> is_u16 cksum -> is_u16 (ADJUST_CHECKSUM acc cksum) /\ congr (ADJUST_CHECKSUM acc cksum) (acc + cksum).
Proof.
  intros Ha Hc. unfold is_u16 in *. unfold ADJUST_CHECKSUM.
  assert (E : i32 (acc + cksum) = acc + cksum) by (unfold i32; lia_mod). rewrite E.
  destruct (Z.ltb_spec (acc + cksum) 0).
  - destruct (fold_twice (- (acc + cksum))) as (Hy & Hcg & Hlt); [lia|]. cbn zeta in *.
    set (w := Z.shiftr _ 16 + _) in *. set (v := w + Z.shiftr w 16) in *.
    assert (El : u16 (Z.lnot v) = 65535 - u16 v) by (rewrite Z.lnot_eq_pred_opp || unfold Z.lnot; unfold u16; lia_mod).
    rewrite El. split; [lia|]. destruct Hcg as [z Hz]. exists (1 - z). lia.
  - destruct (fold_twice (acc + cksum)) as (Hy & Hcg & _); [lia|]. split; [lia|done].
Qed.

(** The sum of the words of a packet. *)
Fixpoint wsum (l : list Z) : Z :=
  match l with
  | a :: b :: l => a * 256 + b + wsum l
  | [a] => a * 256
  | [] => 0
  end.

Lemma wsum_app l1 l2 : Z.even (zlen l1) = true -> wsum (l1 ++ l2) = wsum l1 + wsum l2.
Proof.
  assert (H : forall n l1, (length l1 <= n)%nat -> Z.even (zlen l1) = true -> wsum (l1 ++ l2) = wsum l1 + wsum l2).
  { clear l1. induction n as [|n IH]; intros l1 Hl He; [by destruct l1; [|cbn in Hl; lia]|].
    destruct l1 as [|a [|b l1]]; [done|done|]. cbn [app wsum]. rewrite IH; [lia|cbn in Hl; lia|].
    cbn [length] in He. rewrite !Nat2Z.inj_succ, !Z.even_succ, <- Z.negb_even, Z.even_succ, <- Z.negb_even, negb_involutive in He || (
    replace (Z.of_nat (S (S (length l1)))) with (zlen l1 + 2) in He by lia; rewrite Z.even_add in He; by destruct (Z.even (zlen l1))). done. }
  intros He. by apply (H (length l1)).
Qed.

Lemma wsum_bounds l : bytes l -> 0 <= wsum l <= 65535 * ((zlen l + 1) / 2).
Proof.
  assert (H : forall n l, (length l <= n)%nat -> bytes l -> 0 <= wsum l <= 65535 * ((zlen l + 1) / 2)).
  { clear l. induction n as [|n IH]; intros l Hl Hb; [destruct l; [cbn [wsum length]; lia_mod|cbn in Hl; lia]|].
    destruct l as [|a [|b l]]; rewrite ?Forall_cons in Hb; unfold is_u8 in Hb; [cbn [wsum length]; lia_mod|cbn [wsum length]; lia_mod|].
    destruct Hb as (Ha & Hbb & Hb). cbn [wsum length] in *. specialize (IH l ltac:(lia) Hb). lia_mod. }
  by apply (H (length l)).
Qed.

Lemma add_words_ok sum l : bytes l -> 0 <= sum -> sum + wsum l < 4294967296 -> add_words sum l = sum + wsum l.
Proof.
  assert (Hw : forall a b, is_u8 a -> is_u8 b -> u16 (Z.land (Z.shiftl a 8) 65280 + Z.land b 255) = a * 256 + b).
  { unfold is_u8. intros a b Ha Hb. change 65280 with (255 * 2 ^ 8). rewrite <- (Z.shiftl_mul_pow2 255), <- Z.shiftl_land by lia.
    change 255 with (Z.ones 8). rewrite !Z.land_ones, Z.shiftl_mul_pow2 by lia. change (2 ^ 8) with 256. unfold u16.
    rewrite !Z.mod_small; [done|lia|lia|rewrite !Z.mod_small; lia]. }
  assert (H : forall n l sum, (length l <= n)%nat -> bytes l -> 0 <= sum -> sum + wsum l < 4294967296 -> add_words sum l = sum + wsum l).
  { clear l sum. induction n as [|n IH]; intros l sum Hl Hb Hs Hlt; [destruct l; [cbn; lia|cbn in Hl; lia]|].
    destruct l as [|a [|b l]]; rewrite ?Forall_cons in Hb; [cbn; lia| |]; cbn [add_words wsum] in *.
    - destruct Hb as [Ha _]. pose proof (Hw a 0 Ha ltac:(unfold is_u8; lia)) as E. change (Z.land 0 255) with 0 in E. rewrite E, u32_small by (unfold is_u32, is_u8 in *; lia). lia.
    - destruct Hb as (Ha & Hbb & Hb). pose proof (wsum_bounds l Hb). rewrite Hw, u32_small by (done || (unfold is_u32, is_u8 in *; lia)).
      unfold is_u8 in *. rewrite IH; [lia|cbn in Hl; lia|done|lia|lia]. }
  by apply (H (length l)).
Qed.

Lemma fold_carries_ok sum :
  0 < sum < 4294967296 -> exists r, fold_carries 2 sum = Some r /\ 0 < r < 65536 /\ congr r sum.
Proof.
  intros Hs. change 65535 with (Z.ones 16).
  assert (Hstep : forall s, 0 < s < 4294967296 -> Z.shiftr s 16 = s / 65536 /\ Z.land s 65535 = s mod 65536).
  { intros s Hss. change 65535 with (Z.ones 16). rewrite Z.land_ones, Z.shiftr_div_pow2 by lia. done. }
  cbn [fold_carries]. destruct (Hstep sum Hs) as [-> ->]. destruct (Z.eqb_spec (sum / 65536) 0).
  { exists sum. split; [done|]. split; [lia_mod|reflexivity]. }
  rewrite u32_small by (unfold is_u32; lia_mod). set (s1 := sum mod 65536 + sum / 65536).
  assert (Hs1 : 0 < s1 < 131072) by (subst s1; lia_mod). assert (Hc1 : congr s1 sum) by (exists (- (sum / 65536)); subst s1; lia_mod).
  destruct (Hstep s1 ltac:(lia)) as [-> ->]. destruct (Z.eqb_spec (s1 / 65536) 0).
  { exists s1. split; [done|]. split; [lia_mod|done]. }
  rewrite u32_small by (unfold is_u32; lia_mod). set (s2 := s1 mod 65536 + s1 / 65536).
  assert (Hs2 : 0 < s2 < 65536).
  { assert (sum mod 65536 <= 65535 /\ sum / 65536 <= 65535) by lia_mod. subst s1 s2. lia_mod. }
  destruct (Hstep s2 ltac:(lia)) as [-> _]. replace (s2 / 65536 =? 0) with true by lia_mod.
  exists s2. split; [done|]. split; [done|]. transitivity s1; [exists (- (s1 / 65536)); subst s2; lia_mod|done].
Qed.

(** The words behind a checksum: the packet, the addresses, the length and the protocol. *)
Definition pseudo_sum (payload src_addr dest_addr : list Z) (proto : Z) : Z :=
  wsum payload + wsum src_addr + wsum dest_addr + zlen payload + proto.

(** A packet has a valid checksum when the sum of its words is a multiple of [0xffff]. *)
Lemma ip_checksum_ok af payload src_addr dest_addr proto :
  bytes payload -> bytes src_addr -> bytes dest_addr -> zlen payload < 65536 -> 0 < proto < 256 ->
  zlen src_addr = (if af =? AF_INET then 4 else 16) -> zlen dest_addr = zlen src_addr ->
  exists r, ip_checksum af payload src_addr dest_addr proto = Some r /\ is_u16 r /\
    (r = 0 <-> congr (pseudo_sum payload src_addr dest_addr proto) 0).
Proof.
  intros Hp Hs Hd Hl Hpr Hsl Hdl. unfold ip_checksum, pseudo_sum.
  assert (Ha : zlen src_addr = Z.of_nat (if af =? AF_INET then 4%nat else 16%nat)) by (rewrite Hsl; by destruct (af =? AF_INET)).
  rewrite ASSERT_true, Some_bind by (rewrite Hdl, Ha; lia).
  pose proof (wsum_bounds payload Hp). pose proof (wsum_bounds src_addr Hs). pose proof (wsum_bounds dest_addr Hd).
  assert (zlen src_addr <= 16) by (rewrite Hsl; destruct (af =? AF_INET); lia).
  rewrite Hdl in *. assert ((zlen payload + 1) / 2 <= 32768) by lia_mod. assert ((zlen src_addr + 1) / 2 <= 8) by lia_mod.
  rewrite (add_words_ok 0 payload) by (done || lia). rewrite (add_words_ok _ src_addr) by (done || lia).
  rewrite (add_words_ok _ dest_addr) by (done || lia). rewrite !u16_small by (unfold is_u16; lia).
  rewrite !u32_small by (unfold is_u32; rewrite ?u32_small; unfold is_u32; lia).
  set (S := _ + proto). assert (HS : 0 < S < 4294967296) by (subst S; lia).
  destruct (fold_carries_ok S HS) as (r & -> & Hr & Hc). rewrite Some_bind. exists (u16 (Z.lnot r)).
  assert (E : u16 (Z.lnot r) = 65535 - r) by (unfold Z.lnot, u16; lia_mod). rewrite E. split; [done|]. split; [unfold is_u16; lia|].
  replace (wsum payload + wsum src_addr + wsum dest_addr + zlen payload + proto) with S by (subst S; lia).
  split.
  - intros Hr0. destruct Hc as [z Hz]. exists (1 - z). lia.
  - intros [z Hz]. destruct Hc as [z' Hz']. assert (r = 65535 * (z + z')) by lia. assert (z + z' = 1) by nia. lia.
Qed.

(** A frame of 34 bytes with a VLAN tag: the length is compared with the header without the
    tag once more, and only 16 bytes of what should be an IPv4 header of 20 are left. *)
Definition vlan_frame : list Z := replicate 12 0 ++ [129; 0; 0; 1; 8; 0; 69; 0; 0; 16] ++ replicate 12 0.

Lemma vlan_header_short :
  exists buf, is_ipv4 DEV_TYPE_TAP (received vlan_frame) = Some (true, buf) /\ buf_len buf = 16.
Proof. eexists. split; [vm_compute; reflexivity|reflexivity]. Qed.
