(* ===== verification/Mss.v ===== *)
(** * Lowering the MSS of TCP connections: [mss.c]

    The struct copy [newbuf] points into the same block as [buf]; the changed memory is given
    back to [buf].  [little] is the byte order of the machine. *)
From S2P Require Import Prelude Integers Buffer Proto.

Section byte_order.
Variable little : bool.

Definition htons (x : Z) : Z := if little then x mod 256 * 256 + x / 256 else x.

(** Loading and storing a [uint16_t] as it lies in memory. *)
Definition load16 (b : buffer) (i : Z) : option Z :=
  x ← rd b i; y ← rd b (i + 1); Some (if little then y * 256 + x else x * 256 + y).
Definition store16 (v : Z) : list Z := if little then [v mod 256; v / 256] else [v / 256; v mod 256].

(** Writing behind [BPTR(buf)]. *)
Definition wr (b : buffer) (i : Z) (src : list Z) : option buffer :=
  p ← buf_bptr b;
  ASSERT ((0 <=? p + i) && (p + i + zlen src <=? zlen (mem b)));; Some (poke b (p + i) src).

(** The loop over the options; [opt] is counted from the start of the TCP header, whose
    checksum is at 16.  Every option takes a byte at least. *)
Fixpoint mss_loop (fuel : nat) (buf : buffer) (opt olen maxmss : Z) : option buffer :=
  if 1 <? olen then
    match fuel with
    | O => None
    | S fuel =>
        kind ← rd buf opt;
        if kind =? OPENVPN_TCPOPT_EOL then Some buf
        else if kind =? OPENVPN_TCPOPT_NOP then mss_loop fuel buf (opt + 1) (olen - 1) maxmss
        else
          optlen ← rd buf (opt + 1);
          if (optlen <=? 0) || (olen <? optlen) then Some buf
          else
            buf ← (if (kind =? OPENVPN_TCPOPT_MAXSEG) && (optlen =? OPENVPN_TCPOLEN_MAXSEG) then
                     hi ← rd buf (opt + 2); lo ← rd buf (opt + 3);
                     let mssval := u16 (u16 (Z.shiftl hi 8) + lo) in
                     if maxmss <? mssval then
                       buf ← wr buf (opt + 2) [u8 (Z.land (Z.shiftr maxmss 8) 255)];
                       buf ← wr buf (opt + 3) [u8 (Z.land maxmss 255)];
                       let accumulate := htons mssval in
                       let accumulate := i32 (accumulate - htons maxmss) in
                       check ← load16 buf 16;
                       wr buf 16 (store16 (ADJUST_CHECKSUM accumulate check))
                     else Some buf
                   else Some buf);
            mss_loop fuel buf (opt + optlen) (olen - optlen) maxmss
    end
  else Some buf.

Definition mss_fixup_dowork (buf : buffer) (maxmss : Z) : option buffer :=
  if buf_len buf <? SIZEOF_TCPHDR then Some buf
  else
    doff_res ← rd buf 12;
    let hlen := OPENVPN_TCPH_GET_DOFF doff_res in
    if (hlen <=? SIZEOF_TCPHDR) || (buf_len buf <? hlen) then Some buf
    else mss_loop (Z.to_nat hlen) buf SIZEOF_TCPHDR (hlen - SIZEOF_TCPHDR) maxmss.

(** [buf] sees what was written through [newbuf]. *)
Definition with_block (buf newbuf : buffer) : buffer :=
  mk_buffer (b_capacity buf) (b_offset buf) (b_len buf) (b_data newbuf).

Definition mss_fixup_ipv4 (buf : buffer) (maxmss : Z) : option buffer :=
  if buf_len buf <? SIZEOF_IPHDR then Some buf
  else
    version_len ← rd buf 0; protocol ← rd buf 9; tot_len ← rd_be16 buf 2; frag_off ← rd_be16 buf 6;
    let hlen := OPENVPN_IPH_GET_LEN version_len in
    if (protocol =? OPENVPN_IPPROTO_TCP) && (tot_len =? buf_len buf) && (Z.land frag_off OPENVPN_IP_OFFMASK =? 0)
       && (hlen <=? buf_len buf) && (SIZEOF_TCPHDR <=? buf_len buf - hlen)
    then
      match buf_advance buf hlen with
      | (true, newbuf) =>
          flags ← rd newbuf 13;
          if negb (Z.land flags OPENVPN_TCPH_SYN_MASK =? 0) then
            newbuf ← mss_fixup_dowork newbuf maxmss; Some (with_block buf newbuf)
          else Some buf
      | (false, _) => Some buf
      end
    else Some buf.

Definition mss_fixup_ipv6 (buf : buffer) (maxmss : Z) : option buffer :=
  if buf_len buf <? SIZEOF_IPV6HDR then Some buf
  else
    payload_len ← rd_be16 buf 4; nexthdr ← rd buf 6;
    if negb (buf_len buf =? payload_len + 40) then Some buf
    else if negb (nexthdr =? OPENVPN_IPPROTO_TCP) then Some buf
    else
      match buf_advance buf 40 with
      | (true, newbuf) =>
          if SIZEOF_TCPHDR <=? buf_len newbuf then
            flags ← rd newbuf 13;
            if negb (Z.land flags OPENVPN_TCPH_SYN_MASK =? 0) then
              newbuf ← mss_fixup_dowork newbuf (u16 (maxmss - 20)); Some (with_block buf newbuf)
            else Some buf
          else Some buf
      | (false, _) => Some buf
      end.

(** ** What is to come of it *)

(** The places of the MSS options in a list of options that starts at [i]. *)
Fixpoint mss_options (fuel : nat) (l : list Z) (i : Z) : list Z :=
  match fuel, l with
  | S fuel, kind :: len :: _ =>
      if kind =? 0 then []
      else if kind =? 1 then mss_options fuel (drop 1 l) (i + 1)
      else if (len <=? 0) || (zlen l <? len) then []
      else (if (kind =? 2) && (len =? 4) then [i] else []) ++ mss_options fuel (drop (Z.to_nat len) l) (i + len)
  | _, _ => []
  end.

(** The word at [i]. *)
Definition word (seg : list Z) (i : Z) : Z :=
  default 0 (seg !! Z.to_nat i) * 256 + default 0 (seg !! Z.to_nat (i + 1)).

(** The MSS options at [ps] are lowered to [maxmss], nothing else but the checksum changes,
    and the sum of the words is kept when every option that is lowered is at an even place. *)
Record clamped (maxmss : Z) (seg seg' : list Z) (ps : list Z) : Prop := {
  cl_length : length seg' = length seg;
  cl_mss : forall p, p ∈ ps -> word seg' (p + 2) = Z.min (word seg (p + 2)) maxmss;
  cl_other : forall k, 0 <= k -> (forall p, p ∈ ps -> k <> p + 2 /\ k <> p + 3) -> k <> 16 -> k <> 17 ->
    seg' !! Z.to_nat k = seg !! Z.to_nat k;
  cl_same : (forall p, p ∈ ps -> word seg (p + 2) <= maxmss) -> seg' = seg;
  cl_sum : (forall p, p ∈ ps -> word seg (p + 2) <= maxmss \/ Z.even p = true) -> congr (wsum seg') (wsum seg)
}.

Lemma clamped_nil maxmss seg : clamped maxmss seg seg [].
Proof. split; try done. by intros p ?%elem_of_nil. Qed.

(** ** Bytes of the packet *)

Lemma rd_rep b h c t i : buf_rep b h c t -> 0 <= i < zlen c -> rd b i = c !! Z.to_nat i.
Proof.
  intros Hb Hi. pose proof (rep_valid _ _ _ _ Hb) as Hv. unfold rd, buf_bptr. rewrite Hv, Some_bind.
  pose proof (rep_bounds _ _ _ _ Hb) as (? & ? & ? & _). rewrite (rep_head _ _ _ _ Hb), ASSERT_true, Some_bind by lia.
  pose proof (rep_slice _ _ _ _ Hb) as Hs. rewrite <- Hs. rewrite lookup_slice by lia.
  rewrite decide_True by lia. f_equal. lia.
Qed.

Lemma splice_splice (pos : Z) (src c d : list Z) h :
  0 <= pos -> pos + zlen src <= zlen c -> 0 <= h -> h + zlen c <= zlen d -> slice h (zlen c) d = c ->
  slice h (zlen c) (splice (h + pos) src d) = splice pos src c.
Proof.
  intros Hp Hs Hh Hd Hc. apply list_eq. intros k. rewrite lookup_slice by lia.
  destruct (decide (k < Z.to_nat (zlen c))%nat) as [Hk|Hk].
  - assert (E : c !! k = d !! (Z.to_nat h + k)%nat) by (rewrite <- Hc, lookup_slice, decide_True by lia; done).
    rewrite !lookup_splice, E by lia.
    destruct (decide (h + pos <= Z.of_nat (Z.to_nat h + k) < h + pos + zlen src)), (decide (pos <= Z.of_nat k < pos + zlen src)); try lia; [|done].
    f_equal. lia.
  - symmetry. apply lookup_ge_None. rewrite length_splice by lia. lia.
Qed.

(** A buffer with this content, and this memory in front of it. *)
Definition rep_of (base : list Z) (b : buffer) (h : Z) (c : list Z) (t : Z) : Prop :=
  buf_rep b h c t /\ take (Z.to_nat h) (mem b) = base.

Lemma wr_rep base b h c t i src :
  rep_of base b h c t -> bytes src -> 0 <= i -> i + zlen src <= zlen c ->
  exists b', wr b i src = Some b' /\ rep_of base b' h (splice i src c) t.
Proof.
  intros [Hb Hbase] Hs Hi Hl. pose proof (rep_valid _ _ _ _ Hb) as Hv. pose proof (rep_bounds _ _ _ _ Hb) as (Hh & Ht & Hcap & _).
  pose proof (rep_bounds _ _ _ _ Hb) as Hbd.
  apply rep_unfold in Hb as (d & -> & Hd & Hbytes & Hc). unfold wr, buf_bptr. rewrite Hv, Some_bind. cbn [b_offset]. unfold mem. cbn [b_data default from_option].
  unfold id. rewrite ASSERT_true, Some_bind by lia. eexists. split; [done|]. unfold poke. cbn [b_capacity b_offset b_len b_data fmap option_fmap option_map].
  split; [apply rep_intro; try lia|].
  - rewrite length_splice by lia. done.
  - by apply Forall_splice.
  - rewrite length_splice by lia. done.
  - apply splice_splice; first [lia|done].
  - unfold mem in *. cbn [b_data default from_option id] in *. rewrite <- Hbase. unfold splice. rewrite take_app_le by (rewrite length_take; lia).
    rewrite take_take. f_equal. lia.
Qed.

(** ** Sums *)

Lemma wsum_splice pos x y l :
  0 <= pos -> Z.even pos = true -> pos + 2 <= zlen l ->
  wsum (splice pos [x; y] l) = wsum l - word l pos + (x * 256 + y).
Proof.
  intros Hp He Hl. assert (Hsh : exists a b r, l = take (Z.to_nat pos) l ++ a :: b :: r).
  { assert (Hd : (2 <= length (drop (Z.to_nat pos) l))%nat) by (rewrite length_drop; lia).
    destruct (drop (Z.to_nat pos) l) as [|a [|b r]] eqn:E; [cbn in Hd; lia..|]. exists a, b, r. by rewrite <- E, take_drop. }
  destruct Hsh as (a & b & r & E). assert (Hlen : length (take (Z.to_nat pos) l) = Z.to_nat pos) by (rewrite length_take; lia).
  set (l1 := take (Z.to_nat pos) l) in *. clearbody l1. subst l. unfold splice, word. cbn [length].
  rewrite <- Hlen, take_app_length. rewrite lookup_app_r, Nat.sub_diag by lia. rewrite lookup_app_r by lia.
  replace (Z.to_nat (pos + 1) - length l1)%nat with 1%nat by lia.
  rewrite drop_app_ge by lia. replace (length l1 + 2 - length l1)%nat with 2%nat by lia. cbn [lookup list_lookup default from_option id drop app].
  rewrite !wsum_app by (rewrite Hlen, Z2Nat.id by lia; done). cbn [wsum]. rewrite drop_0. lia.
Qed.

(** The factor of a change of byte order. *)
Definition swap_factor : Z := if little then 256 else 1.

Lemma htons_congr x : is_u16 x -> congr (htons x) (swap_factor * x).
Proof.
  unfold is_u16, htons, swap_factor. intros Hx. destruct little; [|exists 0; lia]. exists (- (x / 256)). lia_mod.
Qed.

Lemma swap_twice x : congr (swap_factor * (swap_factor * x)) x.
Proof. unfold swap_factor. destruct little; [exists x|exists 0]; lia. Qed.

Lemma htons_range x : is_u16 x -> is_u16 (htons x).
Proof. unfold is_u16, htons. destruct little; [lia_mod|done]. Qed.

Lemma load16_word b h seg t i :
  buf_rep b h seg t -> 0 <= i -> i + 2 <= zlen seg -> load16 b i = Some (htons (word seg i)).
Proof.
  intros Hb Hi Hl. unfold load16. rewrite (rd_rep _ _ _ _ i Hb), (rd_rep _ _ _ _ (i + 1) Hb) by lia.
  destruct (lookup_lt_is_Some_2 seg (Z.to_nat i)) as [x Hx]; [lia|]. destruct (lookup_lt_is_Some_2 seg (Z.to_nat (i + 1))) as [y Hy]; [lia|].
  unfold word. rewrite Hx, Hy, !Some_bind. cbn [default from_option id]. f_equal.
  pose proof (rep_wf _ _ _ _ Hb) as Hwf. pose proof (content_bytes _ Hwf) as Hbytes. rewrite (rep_content _ _ _ _ Hb) in Hbytes.
  rewrite Forall_lookup in Hbytes. pose proof (Hbytes _ _ Hx). pose proof (Hbytes _ _ Hy). unfold is_u8, htons in *.
  destruct little; [lia_mod|done].
Qed.

Lemma store16_ok v : is_u16 v -> exists x y, store16 v = [x; y] /\ is_u8 x /\ is_u8 y /\ x * 256 + y = htons v.
Proof.
  unfold is_u16, is_u8, store16, htons. intros Hv.
  destruct little; eexists _, _; (split; [reflexivity|]); split_and!; lia_mod.
Qed.

Lemma word_range seg i : bytes seg -> is_u16 (word seg i).
Proof.
  intros Hb. unfold word, is_u16. rewrite Forall_lookup in Hb. unfold is_u8 in Hb.
  destruct (seg !! Z.to_nat i) as [x|] eqn:Ex; [pose proof (Hb _ _ Ex)|]; destruct (seg !! Z.to_nat (i + 1)) as [y|] eqn:Ey;
    try pose proof (Hb _ _ Ey); cbn [default from_option id]; lia.
Qed.

(** The bytes of a word that has been written, and another one. *)
Lemma word_splice_eq pos x y l : 0 <= pos -> pos + 2 <= zlen l -> word (splice pos [x; y] l) pos = x * 256 + y.
Proof.
  intros Hp Hl. unfold word. rewrite !lookup_splice by (cbn [length]; lia). cbn [length]. rewrite !decide_True by lia.
  rewrite Nat.sub_diag. replace (Z.to_nat (pos + 1) - Z.to_nat pos)%nat with 1%nat by lia. done.
Qed.

Lemma lookup_splice_ne pos x y (l : list Z) k : 0 <= pos -> pos + 2 <= zlen l -> 0 <= k -> k <> pos -> k <> pos + 1 ->
  splice pos [x; y] l !! Z.to_nat k = l !! Z.to_nat k.
Proof. intros. rewrite lookup_splice by (cbn [length]; lia). cbn [length]. rewrite decide_False by lia. done. Qed.

Lemma word_splice_ne pos x y l i : 0 <= pos -> pos + 2 <= zlen l -> 0 <= i -> (i + 2 <= pos \/ pos + 2 <= i) ->
  word (splice pos [x; y] l) i = word l i.
Proof. intros. unfold word. by rewrite !lookup_splice_ne by lia. Qed.

(** One option is lowered, and the checksum adjusted. *)
Lemma lower_ok maxmss seg i x y chk :
  bytes seg -> 20 <= i -> i + 4 <= zlen seg -> is_u16 maxmss -> maxmss < word seg (i + 2) ->
  x * 256 + y = maxmss -> is_u16 chk -> congr (swap_factor * chk) (word seg 16 + word seg (i + 2) - maxmss) ->
  exists c1 c2, store16 chk = [c1; c2] /\ clamped maxmss seg (splice 16 [c1; c2] (splice (i + 2) [x; y] seg)) [i].
Proof.
  intros Hb Hi Hl Hm Hlt Hxy Hchk Hcg. destruct (store16_ok chk Hchk) as (c1 & c2 & E & _ & _ & Hc). exists c1, c2. split; [done|].
  assert (Hlen1 : length (splice (i + 2) [x; y] seg) = length seg) by (apply length_splice; cbn [length]; lia).
  split.
  - rewrite length_splice; [done|lia|]. rewrite Hlen1. cbn [length]. lia.
  - intros p ->%list_elem_of_singleton. rewrite word_splice_ne by lia. rewrite word_splice_eq by lia. lia.
  - intros k Hk Hp H16 H17. specialize (Hp i ltac:(apply list_elem_of_here)). rewrite !lookup_splice_ne by lia. done.
  - intros Hle. specialize (Hle i ltac:(apply list_elem_of_here)). lia.
  - intros Hev. destruct (Hev i ltac:(apply list_elem_of_here)) as [?|He]; [lia|].
    rewrite wsum_splice, wsum_splice by (rewrite ?Z.even_add, ?He; done || lia). rewrite word_splice_ne by lia.
    pose proof (htons_congr chk Hchk) as Hh. rewrite Hc. rewrite Hh, Hcg. rewrite Hxy. exists 0. lia.
Qed.

(** ** The loop *)

Lemma word_other maxmss seg seg' ps i :
  clamped maxmss seg seg' ps -> 18 <= i -> (forall p, p ∈ ps -> i + 2 <= p + 2 \/ p + 4 <= i) -> word seg' i = word seg i.
Proof.
  intros Hc Hi Hp. unfold word.
  rewrite (cl_other _ _ _ _ Hc i), (cl_other _ _ _ _ Hc (i + 1)) by (lia || (intros p Hin; specialize (Hp p Hin); lia)). done.
Qed.

Lemma clamped_app maxmss seg1 seg2 seg3 ps1 ps2 i j :
  clamped maxmss seg1 seg2 ps1 -> clamped maxmss seg2 seg3 ps2 -> 20 <= i -> i <= j ->
  (forall p, p ∈ ps1 -> i <= p /\ p + 4 <= j) -> (forall p, p ∈ ps2 -> j <= p) ->
  clamped maxmss seg1 seg3 (ps1 ++ ps2).
Proof.
  intros H12 H23 Hi Hij Hp1 Hp2.
  assert (Hw2 : forall p, p ∈ ps2 -> word seg2 (p + 2) = word seg1 (p + 2)).
  { intros p Hp. specialize (Hp2 p Hp). eapply word_other; [exact H12|lia|]. intros p' Hp'. specialize (Hp1 p' Hp'). lia. }
  assert (Hw1 : forall p, p ∈ ps1 -> word seg3 (p + 2) = word seg2 (p + 2)).
  { intros p Hp. specialize (Hp1 p Hp). eapply word_other; [exact H23|lia|]. intros p' Hp'. specialize (Hp2 p' Hp'). lia. }
  split.
  - rewrite (cl_length _ _ _ _ H23). apply H12.
  - intros p [Hp|Hp]%elem_of_app; [rewrite Hw1 by done; by apply H12|]. rewrite <- Hw2 by done. by apply H23.
  - intros k Hk Hp H16 H17. rewrite (cl_other _ _ _ _ H23); try done; [apply (cl_other _ _ _ _ H12); try done|];
      intros p Hin; apply Hp, elem_of_app; auto.
  - intros Hle. rewrite (cl_same _ _ _ _ H23).
    + apply (cl_same _ _ _ _ H12). intros p Hp. apply Hle, elem_of_app. by left.
    + intros p Hp. rewrite Hw2 by done. apply Hle, elem_of_app. by right.
  - intros Hev. transitivity (wsum seg2).
    + apply (cl_sum _ _ _ _ H23). intros p Hp. rewrite Hw2 by done. apply Hev, elem_of_app. by right.
    + apply (cl_sum _ _ _ _ H12). intros p Hp. apply Hev, elem_of_app. by left.
Qed.

Lemma mss_options_ge fuel : forall l i p, p ∈ mss_options fuel l i -> i <= p.
Proof.
  induction fuel as [|fuel IH]; intros l i p Hp; [by apply elem_of_nil in Hp|].
  destruct l as [|k [|n l]]; [by apply elem_of_nil in Hp..|]. cbn [mss_options] in Hp.
  destruct (k =? 0); [by apply elem_of_nil in Hp|]. destruct (k =? 1); [apply IH in Hp; lia|].
  destruct (Z.leb_spec n 0); [by apply elem_of_nil in Hp|]. destruct (zlen (k :: n :: l) <? n); cbn [orb] in Hp; [by apply elem_of_nil in Hp|].
  apply elem_of_app in Hp as [Hp|Hp]; [|apply IH in Hp; lia]. destruct ((k =? 2) && (n =? 4)); [|by apply elem_of_nil in Hp].
  apply list_elem_of_singleton in Hp. lia.
Qed.

(** The option at [i] when it is an MSS option. *)
Lemma mss_step base b h seg t i maxmss :
  rep_of base b h seg t -> 20 <= i -> i + 4 <= zlen seg -> is_u16 maxmss ->
  exists b' seg', (hi ← rd b (i + 2); lo ← rd b (i + 3);
      let mssval := u16 (u16 (Z.shiftl hi 8) + lo) in
      if maxmss <? mssval then
        b ← wr b (i + 2) [u8 (Z.land (Z.shiftr maxmss 8) 255)];
        b ← wr b (i + 3) [u8 (Z.land maxmss 255)];
        let accumulate := htons mssval in
        let accumulate := i32 (accumulate - htons maxmss) in
        check ← load16 b 16;
        wr b 16 (store16 (ADJUST_CHECKSUM accumulate check))
      else Some b) = Some b' /\
    rep_of base b' h seg' t /\ clamped maxmss seg seg' [i].
Proof.
  intros Hb Hi Hl Hm. pose proof (proj1 Hb) as Hr0. pose proof (rep_wf _ _ _ _ Hr0) as Hwf. pose proof (content_bytes _ Hwf) as Hbytes.
  rewrite (rep_content _ _ _ _ Hr0) in Hbytes. pose proof (word_range seg (i + 2) Hbytes) as Hw.
  rewrite (rd_rep _ _ _ _ (i + 2) Hr0), (rd_rep _ _ _ _ (i + 3) Hr0) by lia.
  destruct (lookup_lt_is_Some_2 seg (Z.to_nat (i + 2))) as [x Hx]; [lia|]. destruct (lookup_lt_is_Some_2 seg (Z.to_nat (i + 3))) as [y Hy]; [lia|].
  assert (Ew : word seg (i + 2) = x * 256 + y) by (unfold word; replace (i + 2 + 1) with (i + 3) by lia; by rewrite Hx, Hy).
  rewrite Hx, Hy, !Some_bind. pose proof Hbytes as Hbb. rewrite Forall_lookup in Hbb. pose proof (Hbb _ _ Hx). pose proof (Hbb _ _ Hy). unfold is_u8, is_u16 in *.
  assert (Em : u16 (u16 (Z.shiftl x 8) + y) = word seg (i + 2)).
  { rewrite Ew, Z.shiftl_mul_pow2 by lia. change (2 ^ 8) with 256. unfold u16. rewrite (Z.mod_small (x * 256)), Z.mod_small by lia. done. }
  rewrite Em. cbn zeta. destruct (Z.ltb_spec maxmss (word seg (i + 2))) as [Hlt|Hge].
  2: { exists b, seg. split; [done|]. split; [done|]. split; try done.
       intros p ->%list_elem_of_singleton. lia. }
  set (mh := u8 (Z.land (Z.shiftr maxmss 8) 255)). set (ml := u8 (Z.land maxmss 255)).
  assert (Emh : mh = maxmss / 256 /\ ml = maxmss mod 256).
  { subst mh ml. change 255 with (Z.ones 8). rewrite !Z.land_ones, Z.shiftr_div_pow2 by lia. change (2 ^ 8) with 256. unfold u8. lia_mod. }
  destruct (wr_rep _ _ _ _ _ (i + 2) [mh] Hb) as (b1 & -> & Hb1); [repeat constructor; unfold is_u8; lia_mod|lia|cbn [length]; lia|]. rewrite Some_bind.
  assert (Hl1 : length (splice (i + 2) [mh] seg) = length seg) by (apply length_splice; cbn [length]; lia).
  destruct (wr_rep _ _ _ _ _ (i + 3) [ml] Hb1) as (b2 & -> & Hb2); [repeat constructor; unfold is_u8; lia_mod|lia|rewrite Hl1; cbn [length]; lia|]. rewrite Some_bind.
  assert (E2 : splice (i + 3) [ml] (splice (i + 2) [mh] seg) = splice (i + 2) [mh; ml] seg).
  { apply list_eq. intros k. rewrite !lookup_splice by (rewrite ?Hl1; cbn [length]; lia). cbn [length].
    repeat destruct (decide _); try lia; try done.
    - replace (k - Z.to_nat (i + 2))%nat with 1%nat by lia. by replace (k - Z.to_nat (i + 3))%nat with 0%nat by lia.
    - by replace (k - Z.to_nat (i + 2))%nat with 0%nat by lia. }
  rewrite E2 in Hb2. assert (Hl2 : length (splice (i + 2) [mh; ml] seg) = length seg) by (apply length_splice; cbn [length]; lia).
  rewrite (load16_word _ _ _ _ 16 (proj1 Hb2)), Some_bind by (rewrite ?Hl2; lia). rewrite word_splice_ne by lia.
  pose proof (word_range seg 16 Hbytes) as Hc. pose proof (htons_range _ Hw) as Hn1. pose proof (htons_range _ Hm) as Hn2. pose proof (htons_range _ Hc) as Hn3.
  unfold is_u16 in *. assert (Ei : i32 (htons (word seg (i + 2)) - htons maxmss) = htons (word seg (i + 2)) - htons maxmss) by (unfold i32; lia_mod).
  rewrite Ei. destruct (ADJUST_CHECKSUM_ok (htons (word seg (i + 2)) - htons maxmss) (htons (word seg 16))) as [Hr Hcg]; [lia|done|].
  set (chk := ADJUST_CHECKSUM _ _) in *.
  destruct (lower_ok maxmss seg i mh ml chk) as (c1 & c2 & Est & Hcl); try done; [lia_mod| |].
  { rewrite Hcg. rewrite (htons_congr (word seg 16)), (htons_congr (word seg (i + 2))), (htons_congr maxmss) by done.
    transitivity (swap_factor * (swap_factor * (word seg 16 + word seg (i + 2) - maxmss))); [exists 0; lia|apply swap_twice]. }
  destruct (store16_ok chk Hr) as (c1' & c2' & Est' & Hu1 & Hu2 & _). rewrite Est in Est'. injection Est' as <- <-. rewrite Est.
  destruct (wr_rep _ _ _ _ _ 16 [c1; c2] Hb2) as (b3 & -> & Hb3); [by constructor; [|constructor; [|constructor]]|lia|rewrite Hl2; cbn [length]; lia|].
  exists b3, (splice 16 [c1; c2] (splice (i + 2) [mh; ml] seg)). done.
Qed.

Lemma slice_cons i olen (seg : list Z) k n l :
  0 <= i -> slice i olen seg = k :: n :: l -> seg !! Z.to_nat i = Some k /\ seg !! Z.to_nat (i + 1) = Some n.
Proof.
  intros Hi E. pose proof (lookup_slice i olen seg 0 Hi) as E0. pose proof (lookup_slice i olen seg 1 Hi) as E1.
  assert (Hlen : (2 <= length (slice i olen seg))%nat) by (rewrite E; cbn; lia).
  unfold slice in Hlen. rewrite length_take in Hlen. rewrite E, decide_True in E0 by lia. rewrite E, decide_True in E1 by lia. cbn [lookup list_lookup] in E0, E1.
  rewrite E0, E1. split; f_equal; lia.
Qed.

Lemma mss_loop_ok base fuel : forall b h seg t i olen maxmss,
  rep_of base b h seg t -> 20 <= i -> 0 <= olen <= Z.of_nat fuel -> i + olen <= zlen seg -> is_u16 maxmss ->
  exists b' seg', mss_loop fuel b i olen maxmss = Some b' /\ rep_of base b' h seg' t /\
    clamped maxmss seg seg' (mss_options fuel (slice i olen seg) i).
Proof.
  induction fuel as [|fuel IH]; intros b h seg t i olen maxmss Hb Hi Hol Hl Hm.
  { exists b, seg. cbn [mss_loop mss_options]. replace (1 <? olen) with false by lia. split; [done|]. split; [done|]. apply clamped_nil. }
  assert (Hlen : zlen (slice i olen seg) = olen) by (apply length_slice; lia).
  cbn [mss_loop]. destruct (Z.ltb_spec 1 olen) as [Hgt|Hle].
  2: { exists b, seg. split; [done|]. split; [done|]. destruct (slice i olen seg) as [|k [|n l]]; [apply clamped_nil..|]. cbn [length] in Hlen. lia. }
  destruct (slice i olen seg) as [|k [|n l]] eqn:Es; [cbn [length] in Hlen; lia..|].
  destruct (slice_cons i olen seg k n l ltac:(lia) Es) as [Hk Hn].
  rewrite (rd_rep _ _ _ _ i (proj1 Hb)), Hk, Some_bind by lia. cbn [mss_options]. unfold OPENVPN_TCPOPT_EOL, OPENVPN_TCPOPT_NOP, OPENVPN_TCPOPT_MAXSEG, OPENVPN_TCPOLEN_MAXSEG.
  assert (Hstop : exists b' seg', Some b = Some b' /\ rep_of base b' h seg' t /\ clamped maxmss seg seg' []).
  { exists b, seg. split; [done|]. split; [done|]. apply clamped_nil. }
  assert (Hrest : forall j, 0 <= j <= olen -> drop (Z.to_nat j) (k :: n :: l) = slice (i + j) (olen - j) seg).
  { intros j Hj. rewrite <- Es. apply slice_drop; lia. }
  destruct (k =? 0); [exact Hstop|]. destruct (k =? 1).
  { pose proof (Hrest 1 ltac:(lia)) as E1. change (Z.to_nat 1) with 1%nat in E1. rewrite E1. apply IH; try done; lia. }
  rewrite (rd_rep _ _ _ _ (i + 1) (proj1 Hb)), Hn, Some_bind by lia. rewrite Hlen.
  destruct ((n <=? 0) || (olen <? n)) eqn:Eb; [exact Hstop|]. rewrite Hrest by lia.
  destruct ((k =? 2) && (n =? 4)) eqn:Eo.
  - assert (n = 4) as -> by lia. destruct (mss_step base b h seg t i maxmss Hb Hi ltac:(lia) Hm) as (b1 & seg1 & E1 & Hb1 & Hc1).
    cbn zeta in E1. rewrite E1, Some_bind. pose proof (cl_length _ _ _ _ Hc1) as Hl1.
    destruct (IH b1 h seg1 t (i + 4) (olen - 4) maxmss Hb1) as (b' & seg' & E' & Hb' & Hc'); [lia|lia|rewrite Hl1; lia|done|].
    rewrite E'. exists b', seg'. split; [done|]. split; [done|].
    assert (Esl : slice (i + 4) (olen - 4) seg1 = slice (i + 4) (olen - 4) seg).
    { apply list_eq. intros j. rewrite !lookup_slice by lia. destruct (decide _); [|done].
      pose proof (cl_other _ _ _ _ Hc1 (i + 4 + Z.of_nat j)) as Eo'.
      replace (Z.to_nat (i + 4) + j)%nat with (Z.to_nat (i + 4 + Z.of_nat j)) by lia. apply Eo'; [lia| |lia|lia].
      intros p ->%list_elem_of_singleton. lia. }
    rewrite Esl in Hc'. eapply (clamped_app _ _ _ _ [i] _ i (i + 4)); [exact Hc1|exact Hc'|lia|lia| |].
    + intros p ->%list_elem_of_singleton. lia.
    + intros p Hp. by apply mss_options_ge in Hp.
  - rewrite Some_bind. cbn [app]. apply IH; try done; lia.
Qed.

(** The data offset of a segment, and the MSS options in its header. *)
Definition data_offset (seg : list Z) : Z := OPENVPN_TCPH_GET_DOFF (default 0 (seg !! 12%nat)).
Definition mss_places (seg : list Z) : list Z :=
  if data_offset seg <=? zlen seg then mss_options (Z.to_nat (data_offset seg)) (slice 20 (data_offset seg - 20) seg) 20 else [].

Lemma dowork_ok base b h seg t maxmss :
  rep_of base b h seg t -> 20 <= zlen seg -> is_u16 maxmss ->
  exists b' seg', mss_fixup_dowork b maxmss = Some b' /\ rep_of base b' h seg' t /\ clamped maxmss seg seg' (mss_places seg).
Proof.
  intros Hb Hl Hm. pose proof (proj1 Hb) as Hr. pose proof (buf_len_wf _ (rep_wf _ _ _ _ Hr)) as El. rewrite (rep_len _ _ _ _ Hr) in El.
  unfold mss_fixup_dowork, SIZEOF_TCPHDR. rewrite El. replace (zlen seg <? 20) with false by lia.
  rewrite (rd_rep _ _ _ _ 12 Hr) by lia. destruct (lookup_lt_is_Some_2 seg (Z.to_nat 12)) as [d Hd]; [lia|]. rewrite Hd, Some_bind.
  assert (Ed : data_offset seg = OPENVPN_TCPH_GET_DOFF d) by (unfold data_offset; change 12%nat with (Z.to_nat 12); by rewrite Hd).
  unfold mss_places. rewrite <- Ed. cbn zeta. destruct (Z.leb_spec (data_offset seg) 20) as [Hs|Hs]; cbn [orb].
  - exists b, seg. split; [done|]. split; [done|]. destruct (_ <=? zlen seg); [|apply clamped_nil].
    assert (Esl : slice 20 (data_offset seg - 20) seg = []) by (unfold slice; replace (Z.to_nat (data_offset seg - 20)) with O by lia; done).
    rewrite Esl. destruct (Z.to_nat (data_offset seg)); apply clamped_nil.
  - destruct (Z.ltb_spec (zlen seg) (data_offset seg)) as [Hlt|Hge].
    + replace (data_offset seg <=? zlen seg) with false by lia. exists b, seg. split; [done|]. split; [done|]. apply clamped_nil.
    + replace (data_offset seg <=? zlen seg) with true by lia. apply mss_loop_ok; try done; lia.
Qed.

(** ** The packet around the segment *)

Lemma advance_of b h pkt t n :
  buf_rep b h pkt t -> 0 <= n <= zlen pkt ->
  exists nb, buf_advance b n = (true, nb) /\ rep_of (take (Z.to_nat (h + n)) (mem b)) nb (h + n) (drop (Z.to_nat n) pkt) t.
Proof.
  intros Hb Hn. pose proof (take_drop (Z.to_nat n) pkt) as E. rewrite <- E in Hb.
  destruct (advance_rep _ _ _ _ _ Hb) as (nb & Ea & Hnb). rewrite length_take in Ea, Hnb.
  replace (Z.of_nat (Nat.min (Z.to_nat n) (length pkt))) with n in Ea, Hnb by lia. exists nb. split; [done|]. split; [done|].
  unfold buf_advance in Ea. destruct (_ || _) in Ea; [done|]. injection Ea as <-. done.
Qed.

(** What was written behind [n] is seen in the whole packet. *)
Lemma with_block_ok b h pkt t n nb seg' :
  buf_rep b h pkt t -> 0 <= n <= zlen pkt ->
  rep_of (take (Z.to_nat (h + n)) (mem b)) nb (h + n) seg' t -> length seg' = length (drop (Z.to_nat n) pkt) ->
  buf_rep (with_block b nb) h (take (Z.to_nat n) pkt ++ seg') t.
Proof.
  intros Hb Hn [Hnb Hbase] Hl. rewrite length_drop in Hl. pose proof (rep_bounds _ _ _ _ Hb) as (Hh & Ht & Hcap & _).
  apply rep_unfold in Hb as (d & -> & Hd & Hbytes & Hc). apply rep_unfold in Hnb as (d' & -> & Hd' & Hbytes' & Hc').
  unfold with_block, mem in *. cbn [b_capacity b_offset b_len b_data default from_option id] in *.
  assert (Hlen : zlen (take (Z.to_nat n) pkt ++ seg') = zlen pkt) by (rewrite length_app, length_take; lia).
  rewrite <- Hlen. apply rep_intro; try lia; try done. rewrite Hlen.
  replace (zlen pkt) with (n + zlen seg') by lia. rewrite slice_split, Hc' by lia. f_equal. rewrite <- Hc.
  assert (E : forall m (l : list Z), 0 <= m -> slice h n l = drop (Z.to_nat h) (take (Z.to_nat (h + n)) l)).
  { intros m l _. unfold slice. rewrite skipn_firstn_comm. f_equal. lia. }
  rewrite (E 0 d') by lia. rewrite Hbase, <- (E 0 d) by lia. rewrite slice_take by lia. f_equal. lia.
Qed.

Definition byte (pkt : list Z) (i : Z) : Z := default 0 (pkt !! Z.to_nat i).

(** Where the TCP header of an unfragmented IPv4 packet with a SYN begins. *)
Definition ipv4_syn (pkt : list Z) : option Z :=
  let n := OPENVPN_IPH_GET_LEN (byte pkt 0) in
  if (20 <=? zlen pkt) && (byte pkt 9 =? 6) && (word pkt 2 =? zlen pkt) && (Z.land (word pkt 6) 8191 =? 0)
     && (n + 20 <=? zlen pkt) && negb (Z.land (byte pkt (n + 13)) 2 =? 0)
  then Some n else None.

Definition ipv6_syn (pkt : list Z) : option Z :=
  if (60 <=? zlen pkt) && (zlen pkt =? word pkt 4 + 40) && (byte pkt 6 =? 6) && negb (Z.land (byte pkt 53) 2 =? 0)
  then Some 40 else None.

Lemma rd_byte b h c t i : buf_rep b h c t -> 0 <= i < zlen c -> rd b i = Some (byte c i).
Proof.
  intros Hb Hi. rewrite (rd_rep _ _ _ _ _ Hb) by done. unfold byte.
  destruct (lookup_lt_is_Some_2 c (Z.to_nat i)) as [x ->]; [lia|done].
Qed.

Lemma rd_be16_word b h c t i : buf_rep b h c t -> 0 <= i -> i + 2 <= zlen c -> rd_be16 b i = Some (word c i).
Proof. intros Hb Hi Hl. unfold rd_be16. by rewrite (rd_byte _ _ _ _ i Hb), (rd_byte _ _ _ _ (i + 1) Hb), !Some_bind by lia. Qed.

(** The segment at [n] is clamped, or nothing is. *)
Definition fixed (maxmss : Z) (pkt pkt' : list Z) (at_ : option Z) : Prop :=
  match at_ with
  | None => pkt' = pkt
  | Some n => exists seg', pkt' = take (Z.to_nat n) pkt ++ seg' /\
      clamped maxmss (drop (Z.to_nat n) pkt) seg' (mss_places (drop (Z.to_nat n) pkt))
  end.

Lemma byte_drop pkt n i : 0 <= n -> 0 <= i -> byte (drop (Z.to_nat n) pkt) i = byte pkt (n + i).
Proof. intros. unfold byte. rewrite lookup_drop. do 2 f_equal. lia. Qed.

Lemma segment_ok b h pkt t n maxmss :
  buf_rep b h pkt t -> 0 <= n -> n + 20 <= zlen pkt -> is_u16 maxmss ->
  exists nb, buf_advance b n = (true, nb) /\ rd nb 13 = Some (byte pkt (n + 13)) /\ buf_len nb = zlen pkt - n /\
    exists nb' seg', mss_fixup_dowork nb maxmss = Some nb' /\ buf_rep (with_block b nb') h (take (Z.to_nat n) pkt ++ seg') t /\
      clamped maxmss (drop (Z.to_nat n) pkt) seg' (mss_places (drop (Z.to_nat n) pkt)).
Proof.
  intros Hb Hn Hl Hm. destruct (advance_of b h pkt t n Hb ltac:(lia)) as (nb & -> & Hnb). exists nb. split; [done|].
  assert (Hls : zlen (drop (Z.to_nat n) pkt) = zlen pkt - n) by (rewrite length_drop; lia).
  split; [rewrite (rd_byte _ _ _ _ _ (proj1 Hnb)), byte_drop by lia; done|].
  split; [rewrite (buf_len_wf _ (rep_wf _ _ _ _ (proj1 Hnb))), (rep_len _ _ _ _ (proj1 Hnb)); done|].
  destruct (dowork_ok _ nb (h + n) _ t maxmss Hnb) as (nb' & seg' & E & Hnb' & Hc); [lia|done|].
  exists nb', seg'. split; [done|]. split; [|done]. apply with_block_ok; try done; [lia|]. by rewrite (cl_length _ _ _ _ Hc).
Qed.

Lemma fixup_ipv4_ok b h pkt t maxmss :
  buf_rep b h pkt t -> is_u16 maxmss ->
  exists b' pkt', mss_fixup_ipv4 b maxmss = Some b' /\ buf_rep b' h pkt' t /\ fixed maxmss pkt pkt' (ipv4_syn pkt).
Proof.
  intros Hb Hm. assert (Hsame : exists b' pkt', Some b = Some b' /\ buf_rep b' h pkt' t /\ fixed maxmss pkt pkt' None) by (by exists b, pkt).
  unfold mss_fixup_ipv4, ipv4_syn, SIZEOF_IPHDR, SIZEOF_TCPHDR, OPENVPN_IPPROTO_TCP, OPENVPN_IP_OFFMASK, OPENVPN_TCPH_SYN_MASK.
  rewrite (buf_len_wf _ (rep_wf _ _ _ _ Hb)), (rep_len _ _ _ _ Hb).
  destruct (Z.ltb_spec (zlen pkt) 20) as [Hlt|Hge]; [replace (20 <=? zlen pkt) with false by lia; exact Hsame|].
  replace (20 <=? zlen pkt) with true by lia. rewrite (rd_byte _ _ _ _ 0 Hb), (rd_byte _ _ _ _ 9 Hb), (rd_be16_word _ _ _ _ 2 Hb), (rd_be16_word _ _ _ _ 6 Hb), !Some_bind by lia.
  set (n := OPENVPN_IPH_GET_LEN (byte pkt 0)). assert (Hn : 0 <= n).
  { subst n. unfold OPENVPN_IPH_GET_LEN. rewrite Z.shiftl_nonneg. change 15 with (Z.ones 4). rewrite Z.land_ones by lia. apply Z.mod_pos_bound. done. }
  cbn [andb]. destruct (byte pkt 9 =? 6), (word pkt 2 =? zlen pkt), (Z.land (word pkt 6) 8191 =? 0); cbn [andb]; try exact Hsame.
  destruct (Z.leb_spec n (zlen pkt)); cbn [andb]; [|replace (n + 20 <=? zlen pkt) with false by lia; exact Hsame].
  replace (n + 20 <=? zlen pkt) with (20 <=? zlen pkt - n) by lia.
  destruct (Z.leb_spec 20 (zlen pkt - n)); cbn [andb]; [|exact Hsame].
  destruct (segment_ok b h pkt t n maxmss Hb Hn ltac:(lia) Hm) as (nb & -> & -> & _ & nb' & seg' & E & Hb' & Hc). rewrite Some_bind.
  destruct (negb _); [|exact Hsame]. rewrite E, Some_bind. eexists _, _. split; [done|]. split; [exact Hb'|]. by exists seg'.
Qed.

Lemma fixup_ipv6_ok b h pkt t maxmss :
  buf_rep b h pkt t ->
  exists b' pkt', mss_fixup_ipv6 b maxmss = Some b' /\ buf_rep b' h pkt' t /\ fixed (u16 (maxmss - 20)) pkt pkt' (ipv6_syn pkt).
Proof.
  intros Hb. assert (Hsame : exists b' pkt', Some b = Some b' /\ buf_rep b' h pkt' t /\ fixed (u16 (maxmss - 20)) pkt pkt' None) by (by exists b, pkt).
  unfold mss_fixup_ipv6, ipv6_syn, SIZEOF_IPV6HDR, SIZEOF_TCPHDR, OPENVPN_IPPROTO_TCP, OPENVPN_TCPH_SYN_MASK.
  rewrite (buf_len_wf _ (rep_wf _ _ _ _ Hb)), (rep_len _ _ _ _ Hb).
  destruct (Z.ltb_spec (zlen pkt) 40); [replace (60 <=? zlen pkt) with false by lia; exact Hsame|].
  rewrite (rd_be16_word _ _ _ _ 4 Hb), (rd_byte _ _ _ _ 6 Hb), !Some_bind by lia.
  destruct (zlen pkt =? word pkt 4 + 40); cbn [negb andb]; [|rewrite andb_false_r; exact Hsame].
  destruct (byte pkt 6 =? 6); cbn [negb]; [|rewrite andb_false_r; exact Hsame]. rewrite !andb_true_r.
  destruct (Z.leb_spec 60 (zlen pkt)).
  - destruct (segment_ok b h pkt t 40 (u16 (maxmss - 20)) Hb ltac:(lia) ltac:(lia) (u16_range _)) as (nb & -> & -> & -> & nb' & seg' & E & Hb' & Hc).
    replace (20 <=? zlen pkt - 40) with true by lia. rewrite Some_bind. change (40 + 13) with 53. cbn [andb].
    destruct (negb _); [|exact Hsame]. rewrite E, Some_bind. eexists _, _. split; [done|]. split; [exact Hb'|]. by exists seg'.
  - destruct (advance_of b h pkt t 40 Hb ltac:(lia)) as (nb & -> & Hnb).
    rewrite (buf_len_wf _ (rep_wf _ _ _ _ (proj1 Hnb))), (rep_len _ _ _ _ (proj1 Hnb)), length_drop.
    replace (20 <=? Z.of_nat (length pkt - Z.to_nat 40)) with false by lia. exact Hsame.
Qed.

End byte_order.

(** ** Theorems *)

(** On any packet whatever, [mss_fixup_ipv4] and [mss_fixup_ipv6] come to an end, stay in the
    packet, and change only the segment of an unfragmented TCP SYN, where they lower exactly
    the MSS options above the limit - 20 less for IPv6 - to it, and touch nothing else but
    the checksum, on machines of either byte order. *)
Theorem mss_fixup_exact little b h pkt t maxmss :
  buf_rep b h pkt t -> is_u16 maxmss ->
  (exists b' pkt', mss_fixup_ipv4 little b maxmss = Some b' /\ buf_rep b' h pkt' t /\ fixed maxmss pkt pkt' (ipv4_syn pkt)) /\
  (exists b' pkt', mss_fixup_ipv6 little b maxmss = Some b' /\ buf_rep b' h pkt' t /\
     fixed (u16 (maxmss - 20)) pkt pkt' (ipv6_syn pkt)).
Proof. intros Hb Hm. split; [by apply fixup_ipv4_ok|by apply fixup_ipv6_ok]. Qed.

(** C39: The incremental update of the checksum is equivalent to computing it anew: if the
    checksum of a TCP segment, by [ip_checksum] of the same code, is valid before
    [mss_fixup_dowork], it is valid after it - provided that the options that are lowered are
    at even places, so that the MSS is one of the words of the checksum. *)
Theorem mss_fixup_keeps_checksum little b h seg t maxmss af src dst proto :
  buf_rep b h seg t -> 20 <= zlen seg < 65536 -> is_u16 maxmss ->
  bytes src -> bytes dst -> 0 < proto < 256 ->
  zlen src = (if af =? AF_INET then 4 else 16) -> zlen dst = zlen src ->
  (forall p, p ∈ mss_places seg -> word seg (p + 2) <= maxmss \/ Z.even p = true) ->
  ip_checksum af seg src dst proto = Some 0 ->
  exists b' seg', mss_fixup_dowork little b maxmss = Some b' /\ buf_rep b' h seg' t /\
    ip_checksum af seg' src dst proto = Some 0.
Proof.
  intros Hb Hl Hm Hs Hd Hp Hsl Hdl Hev Hck. assert (Hrep : rep_of (take (Z.to_nat h) (mem b)) b h seg t) by by split.
  destruct (dowork_ok little _ b h seg t maxmss Hrep ltac:(lia) Hm) as (b' & seg' & E & [Hb' _] & Hc).
  exists b', seg'. split; [done|]. split; [done|]. pose proof (cl_length _ _ _ _ Hc) as Hlen. pose proof (cl_sum _ _ _ _ Hc Hev) as Hsum.
  assert (Hby : forall b c, buf_rep b h c t -> bytes c).
  { intros b0 c Hr. rewrite <- (rep_content _ _ _ _ Hr). apply content_bytes. apply Hr. }
  destruct (ip_checksum_ok af seg src dst proto (Hby _ _ Hb) Hs Hd ltac:(lia) Hp Hsl Hdl) as (r & Er & _ & Hr).
  destruct (ip_checksum_ok af seg' src dst proto (Hby _ _ Hb') Hs Hd ltac:(lia) Hp Hsl Hdl) as (r' & Er' & _ & Hr').
  rewrite Er'. rewrite Er in Hck. injection Hck as ->. f_equal. apply Hr'. rewrite <- (proj1 Hr eq_refl). unfold pseudo_sum.
  rewrite Hsum, Hlen. done.
Qed.

Module MssDemo.

Definition seg (c1 c2 : Z) (options : list Z) : list Z :=
  [192; 0; 0; 80; 0; 0; 0; 1; 0; 0; 0; 0; 112; 2; 255; 255; c1; c2; 0; 0] ++ options.

(** A SYN with an MSS of 1460, at an even place, and behind a NOP at an odd one. *)
Definition even_syn : list Z := seg 177 205 [2; 4; 5; 180; 1; 1; 1; 0].
Definition odd_syn : list Z := seg 2 127 [1; 2; 4; 5; 180; 0; 0; 0].

Definition result (little : bool) (s : list Z) : list Z :=
  match mss_fixup_dowork little (received s) 1400 with Some b => content b | None => [] end.

(** The checksum of a segment whose MSS option is at an odd place is wrong when it has been
    lowered: [mss_fixup_dowork] takes the MSS for a word of the checksum, but its bytes are in
    two of them. *)
Lemma odd_option_breaks_checksum :
  ip_checksum AF_INET odd_syn [10; 0; 0; 1] [10; 0; 0; 2] 6 = Some 0 /\
  (forall little, word (result little odd_syn) 23 = 1400 /\
     exists c, ip_checksum AF_INET (result little odd_syn) [10; 0; 0; 1] [10; 0; 0; 2] 6 = Some c /\ c <> 0).
Proof.
  split; [vm_compute; reflexivity|]. intros [|]; (split; [vm_compute; reflexivity|]);
    (eexists; split; [vm_compute; reflexivity|done]).
Qed.

Lemma even_rep : buf_rep (received even_syn) 0 even_syn 0.
Proof. apply received_rep; [apply bytes_dec; reflexivity|]. unfold BUF_SIZE_MAX. cbn. lia. Qed.

Lemma even_places : mss_places even_syn = [20].
Proof. reflexivity. Qed.

Lemma mss_fixup_keeps_checksum_witness :
  ip_checksum AF_INET even_syn [10; 0; 0; 1] [10; 0; 0; 2] 6 = Some 0 /\
  exists b' seg', mss_fixup_dowork true (received even_syn) 1400 = Some b' /\ buf_rep b' 0 seg' 0 /\
    ip_checksum AF_INET seg' [10; 0; 0; 1] [10; 0; 0; 2] 6 = Some 0.
Proof.
  assert (Hv : ip_checksum AF_INET even_syn [10; 0; 0; 1] [10; 0; 0; 2] 6 = Some 0) by (vm_compute; reflexivity).
  split; [exact Hv|].
  apply (mss_fixup_keeps_checksum true (received even_syn) 0 even_syn 0 1400 AF_INET [10; 0; 0; 1] [10; 0; 0; 2] 6 even_rep);
    try exact Hv; try reflexivity; try (apply bytes_dec; reflexivity); try (unfold is_u16); try (cbn; lia).
  rewrite even_places. intros p ->%list_elem_of_singleton. by right.
Defined.

Definition packet : list Z :=
  [69; 0; 0; 48; 0; 0; 64; 0; 64; 6; 0; 0; 10; 0; 0; 1; 10; 0; 0; 2] ++ even_syn.

Lemma mss_fixup_exact_witness :
  ipv4_syn packet = Some 20 /\
  (exists b' pkt', mss_fixup_ipv4 true (received packet) 1400 = Some b' /\ buf_rep b' 0 pkt' 0 /\ fixed 1400 packet pkt' (ipv4_syn packet)) /\
  (exists b' pkt', mss_fixup_ipv6 true (received packet) 1400 = Some b' /\ buf_rep b' 0 pkt' 0 /\
     fixed (u16 (1400 - 20)) packet pkt' (ipv6_syn packet)).
Proof.
  split; [reflexivity|]. apply (mss_fixup_exact true (received packet) 0 packet 0 1400); [|unfold is_u16; lia].
  apply received_rep; [apply bytes_dec; reflexivity|]. unfold BUF_SIZE_MAX. cbn. lia.
Defined.

End MssDemo.
