(* ===== verification/HashTable.v ===== *)
(** * Hash tables: [list.c], [list.h]

    A bucket is the list of its elements.  The key and value types are parameters, as the
    functions to hash and to compare are in the code ([hash_function], [compare_function]);
    to compare with a key that is [NULL], as marked elements have, is [None].  An iterator's
    element pointers are positions in the bucket it holds: between its calls the table is not
    searched, which would reorder the bucket.

    Behind the code: the invariant of a table and the map it stands for, the operations on
    that map, and an iteration that deletes elements on its way. *)
From S2P Require Import Prelude Integers.

Section table.
Context {K V : Type} `{EqDecision V}.
Variable hash_function : K -> Z -> Z.
Variable compare_function : K -> K -> bool.

Record hash_element := mk_he { he_value : V; he_key : option K; he_hash_value : Z }.

Abbreviation bucket := (list hash_element).

Record hash := mk_hash {
  h_n_buckets : Z;
  h_n_elements : Z;
  h_mask : Z;
  h_iv : Z;
  h_buckets : list bucket
}.

Definition set_bucket (h : hash) (i : nat) (b : bucket) : hash :=
  mk_hash (h_n_buckets h) (h_n_elements h) (h_mask h) (h_iv h) (<[i := b]> (h_buckets h)).

Definition hash_init (n_buckets iv : Z) : option hash :=
  ASSERT (0 <? n_buckets);;
  n ← adjust_power_of_2 n_buckets;
  let n := u32 n in
  Some (mk_hash n 0 (n -u 1) iv (replicate (Z.to_nat n) [])).

Definition hash_value (h : hash) (key : K) : Z := u32 (hash_function key (h_iv h)).

(** [&hash->buckets[hv & hash->mask]] *)
Definition hash_bucket (h : hash) (hv : Z) : nat := Z.to_nat (Z.land hv (h_mask h)).

(** [hv == he->hash_value && compare_function(key, he->key)] *)
Definition matches (key : K) (hv : Z) (he : hash_element) : option bool :=
  if hv =? he_hash_value he then k ← he_key he; Some (compare_function key k) else Some false.

(** [prev]: what is before the loop's element, the last first.  An element that is found is
    moved to the head. *)
Fixpoint lookup_loop (prev l : bucket) (key : K) (hv : Z) : option (option hash_element * bucket) :=
  match l with
  | [] => Some (None, rev prev)
  | he :: l =>
      m ← matches key hv he;
      if m : bool then Some (Some he, he :: rev prev ++ l) else lookup_loop (he :: prev) l key hv
  end.

Definition hash_lookup_fast (h : hash) (i : nat) (key : K) (hv : Z) : option (option hash_element * hash) :=
  b ← h_buckets h !! i;
  '(he, b) ← lookup_loop [] b key hv;
  Some (he, set_bucket h i b).

Fixpoint hash_remove_loop (prev l : bucket) (key : K) (hv : Z) : option (bool * bucket) :=
  match l with
  | [] => Some (false, rev prev)
  | he :: l =>
      m ← matches key hv he;
      if m : bool then Some (true, rev prev ++ l) else hash_remove_loop (he :: prev) l key hv
  end.

Definition hash_remove_fast (h : hash) (i : nat) (key : K) (hv : Z) : option (bool * hash) :=
  b ← h_buckets h !! i;
  '(r, b) ← hash_remove_loop [] b key hv;
  let h := set_bucket h i b in
  Some (r, if r : bool then mk_hash (h_n_buckets h) (h_n_elements h -u 1) (h_mask h) (h_iv h) (h_buckets h) else h).

Definition hash_add_fast (h : hash) (i : nat) (key : K) (hv : Z) (value : V) : option hash :=
  b ← h_buckets h !! i;
  let h := set_bucket h i (mk_he value (Some key) hv :: b) in
  Some (mk_hash (h_n_buckets h) (h_n_elements h +u 1) (h_mask h) (h_iv h) (h_buckets h)).

(** [he->value = value]: the element is at the head of its bucket. *)
Definition set_head_value (h : hash) (i : nat) (value : V) : option hash :=
  b ← h_buckets h !! i;
  match b with
  | [] => None
  | he :: l => Some (set_bucket h i (mk_he value (he_key he) (he_hash_value he) :: l))
  end.

Definition hash_add (h : hash) (key : K) (value : V) (replace : bool) : option (bool * hash) :=
  let hv := hash_value h key in
  let i := hash_bucket h hv in
  '(he, h) ← hash_lookup_fast h i key hv;
  match he with
  | Some _ => if replace then h ← set_head_value h i value; Some (true, h) else Some (false, h)
  | None => h ← hash_add_fast h i key hv value; Some (true, h)
  end.

Definition hash_lookup (h : hash) (key : K) : option (option V * hash) :=
  let hv := hash_value h key in
  match hash_lookup_fast h (hash_bucket h hv) key hv with
  | Some (he, h) => Some (he_value <$> he, h)
  | None => None
  end.

Definition hash_remove (h : hash) (key : K) : option (bool * hash) :=
  let hv := hash_value h key in
  hash_remove_fast h (hash_bucket h hv) key hv.

(** ** Iterators *)

Record hash_iterator := mk_hi {
  hi_bucket_index : Z;
  hi_bucket : option nat;
  hi_elem : option nat;
  hi_last : option nat;
  hi_bucket_marked : bool;
  hi_bucket_index_start : Z;
  hi_bucket_index_end : Z
}.

Definition hash_iterator_init_range (h : hash) (start_bucket end_bucket : Z) : option hash_iterator :=
  let end_bucket := if h_n_buckets h <? end_bucket then h_n_buckets h else end_bucket in
  ASSERT (start_bucket <=? end_bucket);;
  Some (mk_hi (start_bucket -u 1) None None None false start_bucket end_bucket).

Definition hash_iterator_init (h : hash) : option hash_iterator := hash_iterator_init_range h 0 (h_n_buckets h).

(** Every marked element is taken out, and counted off. *)
Fixpoint remove_marked_loop (l : bucket) (n : Z) : bucket * Z :=
  match l with
  | [] => ([], n)
  | he :: l =>
      match he_key he with
      | None => remove_marked_loop l (n -u 1)
      | Some _ => let '(l, n) := remove_marked_loop l n in (he :: l, n)
      end
  end.

Definition hash_remove_marked (h : hash) (i : nat) : option hash :=
  b ← h_buckets h !! i;
  let '(b, n) := remove_marked_loop b (h_n_elements h) in
  Some (mk_hash (h_n_buckets h) n (h_mask h) (h_iv h) (<[i := b]> (h_buckets h))).

Definition hash_iterator_lock (hi : hash_iterator) (i : nat) : hash_iterator :=
  mk_hi (hi_bucket_index hi) (Some i) (hi_elem hi) None false (hi_bucket_index_start hi) (hi_bucket_index_end hi).

Definition hash_iterator_unlock (h : hash) (hi : hash_iterator) : option (hash * hash_iterator) :=
  match hi_bucket hi with
  | Some i =>
      h ← (if hi_bucket_marked hi then hash_remove_marked h i else Some h);
      Some (h, mk_hi (hi_bucket_index hi) None (hi_elem hi) None false (hi_bucket_index_start hi) (hi_bucket_index_end hi))
  | None => Some (h, hi)
  end.

(** The element that is returned; the iterator goes to the next. *)
Definition hash_iterator_advance (h : hash) (hi : hash_iterator) : option (hash_element * hash_iterator) :=
  i ← hi_bucket hi; p ← hi_elem hi; b ← h_buckets h !! i; he ← b !! p;
  Some (he, mk_hi (hi_bucket_index hi) (hi_bucket hi) (if bool_decide (S p < length b)%nat then Some (S p) else None)
              (Some p) (hi_bucket_marked hi) (hi_bucket_index_start hi) (hi_bucket_index_end hi)).

Definition hash_iterator_free (h : hash) (hi : hash_iterator) : option hash :=
  '(h, _) ← hash_iterator_unlock h hi; Some h.

(** The loop over the buckets, to one with elements. *)
Fixpoint next_loop (fuel : nat) (h : hash) (hi : hash_iterator) : option (option hash_element * hash * hash_iterator) :=
  let index := hi_bucket_index hi +u 1 in
  let hi := mk_hi index (hi_bucket hi) (hi_elem hi) (hi_last hi) (hi_bucket_marked hi) (hi_bucket_index_start hi) (hi_bucket_index_end hi) in
  if index <? hi_bucket_index_end hi then
    match fuel with
    | O => None
    | S fuel =>
        '(h, hi) ← hash_iterator_unlock h hi;
        b ← h_buckets h !! Z.to_nat index;
        match b with
        | [] => next_loop fuel h hi
        | _ :: _ =>
            let hi := hash_iterator_lock hi (Z.to_nat index) in
            let hi := mk_hi (hi_bucket_index hi) (hi_bucket hi) (Some O) (hi_last hi) (hi_bucket_marked hi)
                        (hi_bucket_index_start hi) (hi_bucket_index_end hi) in
            '(he, hi) ← hash_iterator_advance h hi; Some (Some he, h, hi)
        end
    end
  else Some (None, h, hi).

Definition hash_iterator_next (h : hash) (hi : hash_iterator) : option (option hash_element * hash * hash_iterator) :=
  match hi_elem hi with
  | Some _ => '(he, hi) ← hash_iterator_advance h hi; Some (Some he, h, hi)
  | None => next_loop (length (h_buckets h)) h hi
  end.

Definition hash_iterator_delete_element (h : hash) (hi : hash_iterator) : option (hash * hash_iterator) :=
  p ← hi_last hi; i ← hi_bucket hi; b ← h_buckets h !! i; he ← b !! p;
  Some (set_bucket h i (<[p := mk_he (he_value he) None (he_hash_value he)]> b),
        mk_hi (hi_bucket_index hi) (hi_bucket hi) (hi_elem hi) (hi_last hi) true (hi_bucket_index_start hi) (hi_bucket_index_end hi)).

(** [while ((he = hash_iterator_next(&hi))) { if (...) hash_iterator_delete_element(&hi); }]: the
    body of the loop changes a state of its own and says whether it deletes the element.  The
    elements that are visited, the table, the iterator and the state. *)
Fixpoint iterate {St} (fuel : nat) (h : hash) (hi : hash_iterator) (body : hash_element -> St -> option (bool * St)) (s : St)
  : option (list hash_element * hash * hash_iterator * St) :=
  match fuel with
  | O => None
  | S fuel =>
      '(he, h, hi) ← hash_iterator_next h hi;
      match he with
      | None => Some ([], h, hi, s)
      | Some he =>
          '(del, s) ← body he s;
          '(h, hi) ← (if del : bool then hash_iterator_delete_element h hi else Some (h, hi));
          '(l, h, hi, s) ← iterate fuel h hi body s; Some (he :: l, h, hi, s)
      end
  end.

(** As many rounds as there are elements, and the one that finds none. *)
Definition iterate_fuel (h : hash) : nat := S (length (concat (h_buckets h))).

Definition hash_remove_by_value (h : hash) (value : V) : option hash :=
  hi ← hash_iterator_init h;
  '(_, h, hi, _) ← iterate (iterate_fuel h) h hi (fun he _ => Some (bool_decide (he_value he = value), tt)) tt;
  hash_iterator_free h hi.

End table.

(** ** The hash function *)

Definition mix (a b c : Z) : Z * Z * Z :=
  let a := a -u b in let a := a -u c in let a := Z.lxor a (Z.shiftr c 13) in
  let b := b -u c in let b := b -u a in let b := Z.lxor b (u32 (Z.shiftl a 8)) in
  let c := c -u a in let c := c -u b in let c := Z.lxor c (Z.shiftr b 13) in
  let a := a -u b in let a := a -u c in let a := Z.lxor a (Z.shiftr c 12) in
  let b := b -u c in let b := b -u a in let b := Z.lxor b (u32 (Z.shiftl a 16)) in
  let c := c -u a in let c := c -u b in let c := Z.lxor c (Z.shiftr b 5) in
  let a := a -u b in let a := a -u c in let a := Z.lxor a (Z.shiftr c 3) in
  let b := b -u c in let b := b -u a in let b := Z.lxor b (u32 (Z.shiftl a 10)) in
  let c := c -u a in let c := c -u b in let c := Z.lxor c (Z.shiftr b 15) in
  (a, b, c).

(** [k[i] << s]; a byte that is not there is not added. *)
Definition key_byte (k : list Z) (i : nat) (s : Z) : Z := match k !! i with Some x => u32 (Z.shiftl x s) | None => 0 end.

(** [k[i] + (k[i + 1] << 8) + (k[i + 2] << 16) + (k[i + 3] << 24)] *)
Definition key_word (k : list Z) (i : nat) : Z :=
  ((key_byte k i 0 +u key_byte k (i + 1) 8) +u key_byte k (i + 2) 16) +u key_byte k (i + 3) 24.

Fixpoint hash_blocks (fuel : nat) (k : list Z) (a b c : Z) : Z * Z * Z * list Z :=
  match fuel with
  | O => (a, b, c, k)
  | S fuel =>
      if bool_decide (12 <= length k)%nat then
        let '(a, b, c) := mix (a +u key_word k 0) (b +u key_word k 4) (c +u key_word k 8) in
        hash_blocks fuel (drop 12 k) a b c
      else (a, b, c, k)
  end.

(** [k]: the [length] bytes of the key.  The [switch] falls through, so each of the bytes that
    are left is added, the last first. *)
Definition hash_func (k : list Z) (initval : Z) : Z :=
  let '(a, b, c, k') := hash_blocks (length k) k 2654435769 2654435769 initval in
  let c := c +u u32 (zlen k) in
  let c := ((c +u key_byte k' 10 24) +u key_byte k' 9 16) +u key_byte k' 8 8 in
  let b := (((b +u key_byte k' 7 24) +u key_byte k' 6 16) +u key_byte k' 5 8) +u key_byte k' 4 0 in
  let a := (((a +u key_byte k' 3 24) +u key_byte k' 2 16) +u key_byte k' 1 8) +u key_byte k' 0 0 in
  let '(_, _, c) := mix a b c in c.

(** ** The hash table is a finite map

    For a function to compare that is equality of some canonical form of the keys, and a
    function to hash that depends only on that, the table refines a finite map. *)

Section map.
Context {K V C : Type} `{EqDecision V} `{Countable C}.
Variable hash_function : K -> Z -> Z.
Variable compare_function : K -> K -> bool.
Variable canon : K -> C.
Hypothesis compare_ok : forall k1 k2, compare_function k1 k2 = bool_decide (canon k1 = canon k2).
Hypothesis hash_ok : forall k1 k2 iv, canon k1 = canon k2 -> hash_function k1 iv = hash_function k2 iv.

Abbreviation element := (@hash_element K V).
Abbreviation table := (@hash K V).
Abbreviation value_of h k := (hash_value (V := V) hash_function h k).
Abbreviation place_of h k := (hash_bucket h (value_of h k)).

(** The keys, in canonical form, and values of a list of elements. *)
Fixpoint pairs (l : list element) : list (C * V) :=
  match l with
  | [] => []
  | e :: l => match he_key e with Some k => (canon k, he_value e) :: pairs l | None => pairs l end
  end.

(** An element that is in the bucket [i] with right. *)
Definition elem_ok (h : table) (i : nat) (e : element) : Prop :=
  exists k, he_key e = Some k /\ he_hash_value e = value_of h k /\ place_of h k = i.

Record hash_inv (h : table) (M : gmap C V) : Prop := {
  hv_size : exists j, 0 <= j < 32 /\ h_n_buckets h = 2 ^ j /\ h_mask h = 2 ^ j - 1 /\ zlen (h_buckets h) = 2 ^ j;
  hv_elems : forall i b, h_buckets h !! i = Some b -> Forall (elem_ok h i) b;
  hv_nodup : NoDup (pairs (concat (h_buckets h))).*1;
  hv_map : M = list_to_map (pairs (concat (h_buckets h)));
  hv_count : h_n_elements h = u32 (zlen (concat (h_buckets h)))
}.

Lemma pairs_app l1 l2 : pairs (l1 ++ l2) = pairs l1 ++ pairs l2.
Proof. induction l1 as [|e l1 IH]; [done|]. cbn [app pairs]. rewrite IH. by destruct (he_key e). Qed.

Lemma pairs_perm l1 l2 : l1 ≡ₚ l2 -> pairs l1 ≡ₚ pairs l2.
Proof.
  induction 1 as [|e l1 l2 _ IH|e1 e2 l|l1 l2 l3 _ IH1 _ IH2]; cbn [pairs].
  - done.
  - destruct (he_key e); by rewrite IH.
  - destruct (he_key e1), (he_key e2); try done. apply Permutation_swap.
  - by rewrite IH1.
Qed.

Lemma in_pairs l c : c ∈ (pairs l).*1 -> exists e k, e ∈ l /\ he_key e = Some k /\ canon k = c.
Proof.
  induction l as [|e l IH]; cbn [pairs]; [by intros ?%elem_of_nil|]. destruct (he_key e) as [k|] eqn:E; cbn [fmap list_fmap].
  - intros [->|Hc]%elem_of_cons; [exists e, k; split; [apply list_elem_of_here|done]|].
    destruct (IH Hc) as (e' & k' & ? & ?). exists e', k'. split; [by right|done].
  - intros Hc. destruct (IH Hc) as (e' & k' & ? & ?). exists e', k'. split; [by right|done].
Qed.

(** ** Buckets *)

Lemma concat_insert {A} (bs : list (list A)) i b :
  bs !! i = Some b -> exists c1 c2, concat bs = c1 ++ b ++ c2 /\ forall b', concat (<[i := b']> bs) = c1 ++ b' ++ c2.
Proof.
  revert i. induction bs as [|b0 bs IH]; intros i Hi; [done|]. destruct i as [|i]; cbn in Hi.
  - injection Hi as ->. exists [], (concat bs). split; [done|]. done.
  - destruct (IH i Hi) as (c1 & c2 & E1 & E2). exists (b0 ++ c1), c2. cbn. rewrite E1. split; [by rewrite app_assoc|].
    intros b'. by rewrite E2, app_assoc.
Qed.

Lemma place_lt h M k : hash_inv h M -> exists b, h_buckets h !! place_of h k = Some b.
Proof.
  intros [(j & Hj & _ & Hm & Hl) _ _ _ _]. apply lookup_lt_is_Some_2. unfold hash_bucket. rewrite Hm.
  replace (2 ^ j - 1) with (Z.ones j) by (rewrite Z.ones_equiv; lia). rewrite Z.land_ones by lia.
  pose proof (Z.mod_pos_bound (value_of h k) (2 ^ j) ltac:(lia)). lia.
Qed.

Definition has_key (key : K) (e : element) : bool :=
  match he_key e with Some k => bool_decide (canon k = canon key) | None => false end.

Lemma has_key_true key e : has_key key e = true -> exists k, he_key e = Some k /\ canon k = canon key.
Proof. unfold has_key. destruct (he_key e) as [k|]; [|done]. intros E%bool_decide_eq_true_1. by exists k. Qed.

Lemma matches_ok (h : table) e i key :
  elem_ok h i e -> matches compare_function key (value_of h key) e = Some (has_key key e).
Proof.
  intros (k & Ek & Ev & Ep). unfold matches, has_key. rewrite Ev, Ek. unfold hash_value.
  destruct (Z.eqb_spec (u32 (hash_function key (h_iv h))) (u32 (hash_function k (h_iv h)))) as [Eh|Hne].
  - rewrite Some_bind, compare_ok. f_equal. by apply bool_decide_ext.
  - f_equal. symmetry. apply bool_decide_eq_false_2. intros E. apply Hne. by rewrite (hash_ok key k _ (eq_sym E)).
Qed.

Lemma hash_lookup_loop_ok (h : table) i key l : forall prev,
  Forall (elem_ok h i) l ->
  exists r b, lookup_loop compare_function prev l key (value_of h key) = Some (r, b) /\
    match r with
    | None => b = rev prev ++ l /\ canon key ∉ (pairs l).*1
    | Some e => exists l1 l2, l = l1 ++ e :: l2 /\ b = e :: rev prev ++ l1 ++ l2 /\ exists k, he_key e = Some k /\ canon k = canon key
    end.
Proof.
  induction l as [|e l IH]; intros prev Hl; cbn [lookup_loop].
  { eexists _, _. split; [done|]. cbn. rewrite app_nil_r. split; [done|]. apply not_elem_of_nil. }
  apply Forall_cons in Hl as [He Hl]. rewrite (matches_ok h e i key He), Some_bind.
  destruct (has_key key e) eqn:Hm.
  - eexists _, _. split; [done|]. exists [], l. split; [done|]. split; [done|]. by apply has_key_true.
  - destruct (IH (e :: prev) Hl) as (r & b & -> & Hr). exists r, b. split; [done|]. destruct r as [e'|].
    + destruct Hr as (l1 & l2 & -> & -> & Hk). exists (e :: l1), l2. split; [done|]. split; [|done].
      cbn [rev]. by rewrite <- app_assoc.
    + destruct Hr as [-> Hn]. cbn [rev]. rewrite <- app_assoc. split; [done|]. destruct He as (k & Ek & _). cbn [pairs]. rewrite Ek.
      cbn [fmap list_fmap fst]. intros [E|?]%elem_of_cons; [|done]. unfold has_key in Hm. rewrite Ek in Hm. apply bool_decide_eq_false_1 in Hm. done.
Qed.

Lemma hash_remove_loop_ok (h : table) i key l : forall prev,
  Forall (elem_ok h i) l ->
  exists r b, hash_remove_loop compare_function prev l key (value_of h key) = Some (r, b) /\
    if r : bool then exists l1 e l2 k, l = l1 ++ e :: l2 /\ b = rev prev ++ l1 ++ l2 /\ he_key e = Some k /\ canon k = canon key
    else b = rev prev ++ l /\ canon key ∉ (pairs l).*1.
Proof.
  induction l as [|e l IH]; intros prev Hl; cbn [hash_remove_loop].
  { eexists _, _. split; [done|]. cbn. rewrite app_nil_r. split; [done|]. apply not_elem_of_nil. }
  apply Forall_cons in Hl as [He Hl]. rewrite (matches_ok h e i key He), Some_bind.
  destruct (has_key key e) eqn:Hm.
  - apply has_key_true in Hm as (k & Hk). eexists _, _. split; [done|]. exists [], e, l, k. done.
  - destruct (IH (e :: prev) Hl) as (r & b & -> & Hr). exists r, b. split; [done|]. destruct r.
    + destruct Hr as (l1 & e' & l2 & k & -> & -> & Hk). exists (e :: l1), e', l2, k. split; [done|]. split; [|done].
      cbn [rev]. by rewrite <- app_assoc.
    + destruct Hr as [-> Hn]. cbn [rev]. rewrite <- app_assoc. split; [done|]. destruct He as (k & Ek & _). cbn [pairs]. rewrite Ek.
      cbn [fmap list_fmap fst]. intros [E|?]%elem_of_cons; [|done]. unfold has_key in Hm. rewrite Ek in Hm. apply bool_decide_eq_false_1 in Hm. done.
Qed.

(** What is not in its bucket is not in the table. *)
Lemma not_in_bucket h M key b :
  hash_inv h M -> h_buckets h !! place_of h key = Some b -> canon key ∉ (pairs b).*1 ->
  canon key ∉ (pairs (concat (h_buckets h))).*1.
Proof.
  intros Hi Hb Hn (e & k & He & Hk & Ec)%in_pairs. apply list_elem_of_In, in_concat in He as (b' & Hb' & He).
  apply list_elem_of_In, list_elem_of_lookup in Hb' as (i & Hi'). apply list_elem_of_In in He.
  pose proof (hv_elems _ _ Hi i b' Hi') as Hok. rewrite Forall_forall in Hok. destruct (Hok e He) as (k' & Hk' & _ & Hp).
  rewrite Hk in Hk'. injection Hk' as <-. assert (E : place_of h k = place_of h key) by (unfold hash_value; by rewrite (hash_ok k key _ Ec)).
  rewrite <- Hp, E, Hb in Hi'. injection Hi' as <-. apply Hn. apply list_elem_of_In in He. clear -He Hk Ec.
  induction b as [|e0 b IH]; [done|]. destruct He as [->|He]; cbn [pairs].
  - rewrite Hk. cbn. rewrite Ec. apply list_elem_of_here.
  - destruct (he_key e0); [right|]; by apply IH.
Qed.

(** Another bucket that has the same elements, or one more, or one less. *)
Lemma set_bucket_inv (h : table) M i b b' M' n :
  hash_inv h M -> h_buckets h !! i = Some b -> Forall (elem_ok h i) b' ->
  (forall c1 c2, concat (h_buckets h) = c1 ++ b ++ c2 ->
     NoDup (pairs (c1 ++ b' ++ c2)).*1 /\ M' = list_to_map (pairs (c1 ++ b' ++ c2)) /\ n = u32 (zlen (c1 ++ b' ++ c2))) ->
  hash_inv (mk_hash (h_n_buckets h) n (h_mask h) (h_iv h) (<[i := b']> (h_buckets h))) M'.
Proof.
  intros [Hs He Hn Hm Hc] Hb Hb' Hnew. destruct (concat_insert _ _ _ Hb) as (c1 & c2 & E1 & E2).
  destruct (Hnew c1 c2 E1) as (Hn' & Hm' & Hc'). specialize (E2 b').
  split; cbn [h_n_buckets h_n_elements h_mask h_buckets]; rewrite ?length_insert, ?E2; try done.
  intros j b0 Hj. apply list_lookup_insert_Some in Hj as [(-> & <- & _)|(_ & Hj)]; [exact Hb'|]. exact (He j b0 Hj).
Qed.
(** ** Operations *)

Abbreviation map_of l := (list_to_map (pairs l) : gmap C V).

Lemma map_of_perm l1 l2 : l1 ≡ₚ l2 -> NoDup (pairs l1).*1 -> map_of l1 = map_of l2 /\ NoDup (pairs l2).*1.
Proof.
  intros Hp%pairs_perm Hn. split; [by apply list_to_map_proper|]. by rewrite <- Hp.
Qed.

Lemma map_of_cons e k l : he_key e = Some k -> map_of (e :: l) = <[canon k := he_value e]> (map_of l).
Proof. intros E. cbn [pairs]. by rewrite E. Qed.

(** A bucket with the same elements in another order. *)
Lemma reorder_inv h M i b b' :
  hash_inv h M -> h_buckets h !! i = Some b -> b' ≡ₚ b -> hash_inv (set_bucket h i b') M.
Proof.
  intros Hi Hb Hp. apply (set_bucket_inv h M i b b' M (h_n_elements h) Hi Hb).
  - rewrite Hp. by apply (hv_elems _ _ Hi).
  - intros c1 c2 E. assert (Hperm : c1 ++ b ++ c2 ≡ₚ c1 ++ b' ++ c2) by (by rewrite Hp).
    pose proof (hv_nodup _ _ Hi) as Hn. rewrite E in Hn. destruct (map_of_perm _ _ Hperm Hn) as [Em Hn'].
    split; [done|]. split; [rewrite (hv_map _ _ Hi), E; done|]. rewrite (hv_count _ _ Hi), E. by rewrite (Permutation_length Hperm).
Qed.

Lemma lookup_fast_ok h M key :
  hash_inv h M -> exists he h', hash_lookup_fast compare_function h (place_of h key) key (value_of h key) = Some (he, h') /\
    hash_inv h' M /\ h_n_buckets h' = h_n_buckets h /\ h_mask h' = h_mask h /\ h_iv h' = h_iv h /\ h_n_elements h' = h_n_elements h /\
    he_value <$> he = M !! canon key /\
    match he with
    | None => exists b, h_buckets h' !! place_of h key = Some b
    | Some e => exists b k, h_buckets h' !! place_of h key = Some (e :: b) /\ he_key e = Some k /\ canon k = canon key
    end.
Proof.
  intros Hi. destruct (place_lt h M key Hi) as (b & Hb). unfold hash_lookup_fast. rewrite Hb, Some_bind.
  destruct (hash_lookup_loop_ok h (place_of h key) key b [] (hv_elems _ _ Hi _ _ Hb)) as (r & b' & -> & Hr). rewrite Some_bind.
  exists r, (set_bucket h (place_of h key) b'). split; [done|]. pose proof (lookup_lt_Some _ _ _ Hb) as Hlt. cbn [rev app] in Hr.
  assert (Hp : b' ≡ₚ b) by (destruct r; [destruct Hr as (l1 & l2 & -> & -> & _); by rewrite Permutation_middle|by destruct Hr as [-> _]]).
  pose proof (reorder_inv h M _ b b' Hi Hb Hp) as Hi'. split; [done|]. split_and!; try done.
  - rewrite (hv_map _ _ Hi). destruct r as [e|].
    + destruct Hr as (l1 & l2 & -> & -> & k & Hk & Ec). cbn. symmetry. apply elem_of_list_to_map; [apply Hi|].
      destruct (concat_insert _ _ _ Hb) as (c1 & c2 & -> & _). rewrite !pairs_app. cbn [pairs]. rewrite Hk, Ec. set_solver.
    + destruct Hr as [_ Hn]. cbn. symmetry. apply not_elem_of_list_to_map. by apply (not_in_bucket h M key b).
  - destruct r as [e|].
    + destruct Hr as (l1 & l2 & -> & -> & k & Hk). exists (l1 ++ l2), k. split; [|done]. by apply list_lookup_insert_eq.
    + exists b'. by apply list_lookup_insert_eq.
Qed.

Lemma hash_lookup_ok h M key :
  hash_inv h M -> exists h', hash_lookup hash_function compare_function h key = Some (M !! canon key, h') /\ hash_inv h' M.
Proof.
  intros Hi. unfold hash_lookup. destruct (lookup_fast_ok h M key Hi) as (he & h' & -> & Hi' & _ & _ & _ & _ & E & _).
  exists h'. by rewrite E.
Qed.

(** The place of a key depends on the fields that stay. *)
Lemma elem_ok_same (h h' : table) i e : h_iv h' = h_iv h -> h_mask h' = h_mask h -> elem_ok h i e -> elem_ok h' i e.
Proof. intros Ei Em (k & Hk & Hv & Hp). exists k. unfold hash_bucket, hash_value in *. by rewrite Ei, Em. Qed.

(** The value, and the key, of the element at the head of a bucket are replaced. *)
Lemma head_value_ok h M key e b k k' v :
  hash_inv h M -> h_buckets h !! place_of h key = Some (e :: b) -> he_key e = Some k -> canon k = canon key -> canon k' = canon key ->
  hash_inv (set_bucket h (place_of h key) (mk_he v (Some k') (he_hash_value e) :: b)) (<[canon key := v]> M).
Proof.
  intros Hi Hb Hk Ec Ec'. pose proof (hv_elems _ _ Hi _ _ Hb) as Hok. apply Forall_cons in Hok as [Hoe Hob].
  unfold set_bucket. apply (set_bucket_inv h M _ _ _ _ (h_n_elements h) Hi Hb).
  - constructor; [|done]. destruct Hoe as (k0 & Hk0 & Hv0 & Hp0). assert (k0 = k) as -> by congruence. exists k'. split; [done|].
    unfold hash_value in *. rewrite (hash_ok k' k) by congruence. done.
  - intros c1 c2 Ecc. pose proof (hv_nodup _ _ Hi) as Hn. pose proof (hv_map _ _ Hi) as Hmm. pose proof (hv_count _ _ Hi) as Hcc. rewrite Ecc in *.
    set (e' := mk_he v (Some k') (he_hash_value e)).
    assert (Hpm : c1 ++ (e :: b) ++ c2 ≡ₚ e :: c1 ++ b ++ c2) by (symmetry; apply Permutation_middle).
    assert (Hpm' : e' :: c1 ++ b ++ c2 ≡ₚ c1 ++ (e' :: b) ++ c2) by apply Permutation_middle.
    destruct (map_of_perm _ _ Hpm Hn) as [Eq1 Hn1].
    assert (Hn2 : NoDup (pairs (e' :: c1 ++ b ++ c2)).*1) by (cbn [pairs] in *; subst e'; cbn [he_key]; rewrite Hk, Ec in Hn1; by rewrite Ec').
    destruct (map_of_perm _ _ Hpm' Hn2) as [Eq2 Hn3]. split; [done|]. split.
    + rewrite <- Eq2, Hmm, Eq1. rewrite (map_of_cons e k), (map_of_cons e' k') by done. rewrite Ec, Ec', insert_insert_eq. done.
    + rewrite Hcc. do 2 f_equal. rewrite !length_app. done.
Qed.

(** A key that is not there is added. *)
Lemma add_fast_ok h M key v b :
  hash_inv h M -> h_buckets h !! place_of h key = Some b -> M !! canon key = None ->
  exists h', hash_add_fast h (place_of h key) key (value_of h key) v = Some h' /\ hash_inv h' (<[canon key := v]> M).
Proof.
  intros Hi Hb E. unfold hash_add_fast. rewrite Hb, !Some_bind. eexists. split; [done|].
  cbn [set_bucket h_n_buckets h_n_elements h_mask h_iv h_buckets]. apply (set_bucket_inv h M _ b _ _ _ Hi Hb).
  - constructor; [|by apply (hv_elems _ _ Hi)]. by exists key.
  - intros c1 c2 Ecc. pose proof (hv_nodup _ _ Hi) as Hn. pose proof (hv_map _ _ Hi) as Hmm. pose proof (hv_count _ _ Hi) as Hcc. rewrite Ecc in *.
    set (e' := mk_he v (Some key) (value_of h key)).
    assert (Hpm' : e' :: c1 ++ b ++ c2 ≡ₚ c1 ++ (e' :: b) ++ c2) by apply Permutation_middle.
    assert (Hn2 : NoDup (pairs (e' :: c1 ++ b ++ c2)).*1).
    { cbn [pairs he_key e' fmap list_fmap fst]. constructor; [|done]. rewrite Hmm in E. by apply not_elem_of_list_to_map in E. }
    destruct (map_of_perm _ _ Hpm' Hn2) as [Eq2 Hn3]. split; [done|]. split.
    + rewrite <- Eq2. by rewrite (map_of_cons e' key), Hmm.
    + rewrite Hcc. unfold u32. rewrite Zplus_mod_idemp_l. f_equal. rewrite !length_app. cbn [length]. lia.
Qed.

Lemma hash_add_ok h M key v replace :
  hash_inv h M -> exists h', hash_add hash_function compare_function h key v replace =
      Some (match M !! canon key with Some _ => replace | None => true end, h') /\
    hash_inv h' (match M !! canon key with Some _ => if replace then <[canon key := v]> M else M | None => <[canon key := v]> M end).
Proof.
  intros Hi. unfold hash_add. destruct (lookup_fast_ok h M key Hi) as (he & h1 & -> & Hi1 & En & Em & Ev & Ee & E & Hhe). rewrite Some_bind, <- E.
  assert (Epl : place_of h1 key = place_of h key) by (unfold hash_bucket, hash_value; by rewrite Em, Ev).
  assert (Evl : value_of h1 key = value_of h key) by (unfold hash_value; by rewrite Ev).
  destruct he as [e|]; cbn [fmap option_fmap option_map].
  - destruct replace; [|by exists h1]. destruct Hhe as (b & k & Hb & Hk & Ec). unfold set_head_value. rewrite Hb, !Some_bind.
    eexists. split; [done|]. rewrite <- Epl in Hb |- *. rewrite Hk. by apply (head_value_ok h1 M key e b k k v).
  - destruct Hhe as (b & Hb). rewrite <- Epl in Hb. destruct (add_fast_ok h1 M key v b Hi1 Hb) as (h' & E' & Hi'); [by rewrite <- E|].
    rewrite <- Epl, <- Evl, E', Some_bind. by exists h'.
Qed.

Lemma hash_remove_ok h M key :
  hash_inv h M -> exists h', hash_remove hash_function compare_function h key = Some (bool_decide (is_Some (M !! canon key)), h') /\
    hash_inv h' (delete (canon key) M).
Proof.
  intros Hi. unfold hash_remove, hash_remove_fast. destruct (place_lt h M key Hi) as (b & Hb). rewrite Hb, Some_bind.
  destruct (hash_remove_loop_ok h (place_of h key) key b [] (hv_elems _ _ Hi _ _ Hb)) as (r & b' & -> & Hr). rewrite Some_bind. cbn [rev app] in Hr.
  destruct r.
  - destruct Hr as (l1 & e & l2 & k & El & -> & Hk & Ec). pose proof (hv_elems _ _ Hi _ _ Hb) as Hok.
    pose proof (concat_insert _ _ _ Hb) as (d1 & d2 & Ed & _).
    assert (Hin : canon key ∈ (pairs (concat (h_buckets h))).*1) by (rewrite Ed, El, !pairs_app; cbn [pairs]; rewrite Hk, Ec, !fmap_app; set_solver).
    assert (Hsome : is_Some (M !! canon key)).
    { rewrite (hv_map _ _ Hi). destruct (list_to_map _ !! _) eqn:En; [done|]. by apply not_elem_of_list_to_map in En. }
    rewrite bool_decide_eq_true_2 by done. eexists. split; [done|]. cbn [set_bucket h_n_buckets h_n_elements h_mask h_iv h_buckets].
    apply (set_bucket_inv h M _ b _ _ _ Hi Hb).
    + rewrite El in Hok. rewrite Forall_app, Forall_cons in Hok. apply Forall_app. tauto.
    + intros c1 c2 Ecc. pose proof (hv_nodup _ _ Hi) as Hn. pose proof (hv_map _ _ Hi) as Hmm. pose proof (hv_count _ _ Hi) as Hcc.
      rewrite Ecc, El in *. assert (Hpm : c1 ++ (l1 ++ e :: l2) ++ c2 ≡ₚ e :: c1 ++ (l1 ++ l2) ++ c2).
      { rewrite <- !app_assoc. cbn. rewrite (app_assoc c1 l1). rewrite <- Permutation_middle. by rewrite <- !app_assoc. }
      destruct (map_of_perm _ _ Hpm Hn) as [Eq1 Hn1]. cbn [pairs] in Hn1. rewrite Hk in Hn1. cbn [fmap list_fmap fst] in Hn1. apply NoDup_cons in Hn1 as [Hni Hn1].
      split; [done|]. split.
      * rewrite Hmm, Eq1, (map_of_cons e k), Ec, delete_insert_id by done || (apply not_elem_of_list_to_map; by rewrite <- Ec). done.
      * rewrite Hcc, (Permutation_length Hpm). unfold u32. rewrite Zminus_mod_idemp_l. f_equal. cbn [length]. lia.
  - destruct Hr as [-> Hn]. pose proof (not_in_bucket h M key b Hi Hb Hn) as Hnot.
    assert (Hnone : M !! canon key = None) by (rewrite (hv_map _ _ Hi); by apply not_elem_of_list_to_map).
    rewrite bool_decide_eq_false_2 by (rewrite Hnone; by intros [? ?]). eexists. split; [done|]. rewrite delete_id by done.
    by apply (reorder_inv h M _ b b).
Qed.

End map.

(** ** Iterating over a hash table

    An iteration visits every element of its buckets once, in order, and deletes those that are
    marked on the way when it leaves their bucket. *)

Section iteration.
Context {K V : Type} `{EqDecision V}.
Variable del : @hash_element K V -> bool.

Abbreviation element := (@hash_element K V).
Abbreviation table := (@hash K V).

(** What the iteration marks, what it keeps, and how many it deletes. *)
Definition mark (e : element) : element := if del e then mk_he (he_value e) None (he_hash_value e) else e.
Definition keep (l : list element) : list element := filter (fun e => del e = false) l.
Definition deleted (l : list element) : Z := zlen l - zlen (keep l).

Definition keyed (l : list element) : Prop := Forall (fun e => is_Some (he_key e)) l.

Lemma keep_app l1 l2 : keep (l1 ++ l2) = keep l1 ++ keep l2.
Proof. apply filter_app. Qed.

Lemma keep_cons e l : keep (e :: l) = if del e then keep l else e :: keep l.
Proof. unfold keep. rewrite filter_cons. by destruct (del e). Qed.

Lemma deleted_cons e l : deleted (e :: l) = (if del e then 1 else 0) + deleted l.
Proof. unfold deleted. rewrite keep_cons. destruct (del e); cbn [length]; lia. Qed.

Lemma deleted_app l1 l2 : deleted (l1 ++ l2) = deleted l1 + deleted l2.
Proof. unfold deleted. rewrite keep_app, !length_app. lia. Qed.

Lemma remove_marked_ok l n : keyed l -> is_u32 n -> remove_marked_loop (mark <$> l) n = (keep l, n -u deleted l).
Proof.
  intros Hl. revert n. induction Hl as [|e l He Hl IH]; intros n Hn.
  - cbn. unfold deleted. cbn. by rewrite Z.sub_0_r, u32_small.
  - cbn [fmap list_fmap remove_marked_loop]. rewrite keep_cons, deleted_cons.
    destruct (del e) eqn:Ed; unfold mark at 1; rewrite Ed; cbn [he_key].
    + rewrite IH by apply u32_range. f_equal. unfold u32. rewrite Zminus_mod_idemp_l. by rewrite Z.sub_add_distr.
    + destruct He as [k ->]. rewrite IH by done. unfold mark at 1. rewrite Ed. by rewrite Z.add_0_l.
Qed.

Lemma mark_none l : existsb del l = false -> mark <$> l = l /\ keep l = l.
Proof.
  induction l as [|e l IH]; [done|]. cbn [existsb]. intros [He Hl]%orb_false_iff. destruct (IH Hl) as [E1 E2].
  cbn [fmap list_fmap]. rewrite keep_cons, E1, E2, He. unfold mark. by rewrite He.
Qed.

(** The table without the deleted elements of the bucket [i]. *)
Definition settle (h : table) (i : nat) (l : list element) : table :=
  mk_hash (h_n_buckets h) (h_n_elements h -u deleted l) (h_mask h) (h_iv h) (<[i := keep l]> (h_buckets h)).

(** The iterator holds the bucket [i]: [l1] has been visited, [l2] is still to be. *)
Record inside (h : table) (hi : hash_iterator) (i : nat) (l1 l2 : list element) : Prop := {
  in_bucket : hi_bucket hi = Some i;
  in_list : h_buckets h !! i = Some ((mark <$> l1) ++ l2);
  in_elem : hi_elem hi = match l2 with [] => None | _ => Some (length l1) end;
  in_marked : hi_bucket_marked hi = existsb del l1;
  in_index : hi_bucket_index hi = Z.of_nat i
}.

Lemma unlock_ok h hi i l :
  inside h hi i l [] -> keyed l -> is_u32 (h_n_elements h) ->
  exists hi', hash_iterator_unlock h hi = Some (settle h i l, hi') /\
    hi' = mk_hi (hi_bucket_index hi) None None None false (hi_bucket_index_start hi) (hi_bucket_index_end hi).
Proof.
  intros [Hb Hl He Hm _] Hk Hn. unfold hash_iterator_unlock. rewrite Hb, Hm, He. rewrite app_nil_r in Hl.
  destruct (existsb del l) eqn:Ed.
  - unfold hash_remove_marked. rewrite Hl, Some_bind, (remove_marked_ok l _ Hk Hn), Some_bind. eexists. split; [done|done].
  - destruct (mark_none l Ed) as [E1 E2]. rewrite Some_bind. eexists. split; [|done]. do 2 f_equal. unfold settle, deleted.
    rewrite E2, Z.sub_diag, Z.sub_0_r, u32_small by done. rewrite E1 in Hl. rewrite list_insert_id by done. by destruct h.
Qed.

(** The element that has just been returned is deleted, or not. *)
Lemma visit_ok h hi i l1 e l2 :
  hi_bucket hi = Some i -> h_buckets h !! i = Some ((mark <$> l1) ++ e :: l2) ->
  hi_elem hi = (if bool_decide (S (length l1) < length ((mark <$> l1) ++ e :: l2))%nat then Some (S (length l1)) else None) ->
  hi_last hi = Some (length l1) -> hi_bucket_marked hi = existsb del l1 -> hi_bucket_index hi = Z.of_nat i ->
  exists h' hi', (if del e then hash_iterator_delete_element h hi else Some (h, hi)) = Some (h', hi') /\
    inside h' hi' i (l1 ++ [e]) l2 /\
    h' = mk_hash (h_n_buckets h) (h_n_elements h) (h_mask h) (h_iv h) (<[i := (mark <$> l1 ++ [e]) ++ l2]> (h_buckets h)) /\
    hi_bucket_index_end hi' = hi_bucket_index_end hi.
Proof.
  intros Hb Hl He Hlast Hm Hi. pose proof (lookup_lt_Some _ _ _ Hl) as Hlt.
  assert (El : (mark <$> l1 ++ [e]) ++ l2 = (mark <$> l1) ++ mark e :: l2) by (rewrite fmap_app, <- app_assoc; done).
  assert (Eelem : hi_elem hi = match l2 with [] => None | _ => Some (length (l1 ++ [e])) end).
  { rewrite He, !length_app, length_fmap. cbn [length]. destruct l2 as [|e2 l2]; cbn [length].
    - by rewrite bool_decide_eq_false_2 by lia.
    - rewrite bool_decide_eq_true_2 by lia. f_equal. lia. }
  destruct (del e) eqn:Ed.
  - unfold hash_iterator_delete_element. rewrite Hlast, Hb, !Some_bind, Hl, Some_bind, lookup_app_r by (by rewrite length_fmap).
    rewrite length_fmap, Nat.sub_diag. cbn [lookup list_lookup]. rewrite Some_bind. eexists _, _. split; [done|].
    assert (Eins : <[length l1 := mk_he (he_value e) None (he_hash_value e)]> ((mark <$> l1) ++ e :: l2) = (mark <$> l1) ++ mark e :: l2).
    { rewrite insert_app_r_alt by (by rewrite length_fmap). rewrite length_fmap, Nat.sub_diag. unfold mark at 3. by rewrite Ed. }
    rewrite Eins, <- El. split; [|split; done]. split; cbn [hi_bucket hi_elem hi_bucket_marked hi_bucket_index]; try done.
    + unfold set_bucket. cbn [h_buckets]. by rewrite list_lookup_insert_eq.
    + rewrite existsb_app. cbn [existsb]. rewrite Ed. by rewrite orb_true_r.
  - exists h, hi. split; [done|]. assert (Ee : mark e = e) by (unfold mark; by rewrite Ed). rewrite El, Ee.
    split; [|split; [rewrite list_insert_id by done; by destruct h|done]]. split; try done.
    + by rewrite El, Ee.
    + rewrite existsb_app. cbn [existsb]. by rewrite Ed, !orb_false_r.
Qed.

(** The body of the loop visits [l]: it deletes the elements that [del] says. *)
Context {St : Type}.
Variable body : element -> St -> option (bool * St).

Inductive runs : list element -> St -> St -> Prop :=
| runs_nil s : runs [] s s
| runs_cons e l s s1 s2 : body e s = Some (del e, s1) -> runs l s1 s2 -> runs (e :: l) s s2.

Lemma runs_app l1 l2 s s' : runs (l1 ++ l2) s s' -> exists s1, runs l1 s s1 /\ runs l2 s1 s'.
Proof.
  revert s. induction l1 as [|e l1 IH]; intros s Hr.
  - exists s. by split; [constructor|].
  - inversion Hr as [|? ? ? s1 ? Hb Hl]; subst. destruct (IH s1 Hl) as (s2 & H1 & H2). exists s2. split; [by econstructor|done].
Qed.

(** The rest of a bucket is visited. *)
Lemma bucket_ok i l2 : forall h hi l1 fuel s s',
  inside h hi i l1 l2 -> runs l2 s s' ->
  exists h' hi', inside h' hi' i (l1 ++ l2) [] /\
    h' = mk_hash (h_n_buckets h) (h_n_elements h) (h_mask h) (h_iv h) (<[i := mark <$> l1 ++ l2]> (h_buckets h)) /\
    hi_bucket_index_end hi' = hi_bucket_index_end hi /\
    iterate (length l2 + fuel) h hi body s = '(l, h, hi, s) ← iterate fuel h' hi' body s'; Some (l2 ++ l, h, hi, s).
Proof.
  induction l2 as [|e l2 IH]; intros h hi l1 fuel s s' Hin Hr.
  - inversion Hr; subst. exists h, hi. rewrite app_nil_r. split; [done|]. split.
    { destruct Hin as [_ Hl _ _ _]. rewrite app_nil_r in Hl. rewrite list_insert_id by done. by destruct h. }
    split; [done|]. cbn [length Nat.add]. by destruct (iterate fuel h hi body s') as [[[[l h'] hi'] s0]|].
  - inversion Hr as [|? ? ? s1 ? Hbody Hr1]; subst. pose proof Hin as [Hb Hl He Hm Hi]. cbn [length Nat.add iterate]. unfold hash_iterator_next, hash_iterator_advance.
    rewrite He, Hb, !Some_bind, Hl, Some_bind, lookup_app_r by (by rewrite length_fmap).
    rewrite length_fmap, Nat.sub_diag. cbn [lookup list_lookup]. rewrite !Some_bind.
    set (hi1 := mk_hi _ _ _ _ _ _ _). rewrite Hbody, Some_bind.
    destruct (visit_ok h hi1 i l1 e l2) as (h2 & hi2 & -> & Hin2 & Eh & Een); try done. rewrite Some_bind.
    destruct (IH h2 hi2 (l1 ++ [e]) fuel s1 s' Hin2 Hr1) as (h3 & hi3 & Hin3 & Eh3 & Een3 & E). rewrite E.
    exists h3, hi3. rewrite <- app_assoc in Hin3, Eh3. split; [done|]. split.
    { rewrite Eh3, Eh. cbn [h_n_buckets h_n_elements h_mask h_iv h_buckets]. by rewrite list_insert_insert_eq. }
    split; [by rewrite Een3, Een|]. by destruct (iterate fuel h3 hi3 body s') as [[[[l h'] hi'] s0]|].
Qed.

(** Between two buckets: what unlocking leaves is [h1]. *)
Record between_buckets (h : table) (hi : hash_iterator) (h1 : table) (next : Z) : Prop := {
  bt_unlock : hash_iterator_unlock h hi = Some (h1, mk_hi (hi_bucket_index hi) None None None false (hi_bucket_index_start hi) (hi_bucket_index_end hi));
  bt_elem : hi_elem hi = None;
  bt_next : hi_bucket_index hi +u 1 = next
}.

(** The next element is in the first bucket that is not empty. *)
Lemma next_loop_ok todo : forall fuel h hi h1 pre post,
  between_buckets h hi h1 (zlen pre) -> h_buckets h1 = pre ++ todo ++ post ->
  hi_bucket_index_end hi = zlen (pre ++ todo) -> zlen (pre ++ todo) < 4294967296 -> (length todo <= fuel)%nat ->
  (concat todo = [] /\ exists hi', next_loop fuel h hi = Some (None, (if decide (todo = []) then h else h1), hi') /\
     between_buckets (if decide (todo = []) then h else h1) hi' h1 (zlen (pre ++ todo) +u 1)) \/
  exists e1 i e l todo' hi', todo = e1 ++ (e :: l) :: todo' /\ concat e1 = [] /\ i = (length pre + length e1)%nat /\
    next_loop fuel h hi = Some (Some e, h1, hi') /\
    hi' = mk_hi (Z.of_nat i) (Some i) (if bool_decide (1 < length (e :: l))%nat then Some 1%nat else None) (Some O) false
            (hi_bucket_index_start hi) (hi_bucket_index_end hi).
Proof.
  induction todo as [|b todo IH]; intros fuel h hi h1 pre post [Hu He Hn] Hbs Hend Hmax Hf.
  - left. split; [done|]. rewrite app_nil_r in *. rewrite decide_True by done.
    assert (El : next_loop fuel h hi = Some (None, h, mk_hi (hi_bucket_index hi +u 1) (hi_bucket hi) (hi_elem hi) (hi_last hi)
      (hi_bucket_marked hi) (hi_bucket_index_start hi) (hi_bucket_index_end hi))).
    { destruct fuel; cbn [next_loop hi_bucket_index_end]; rewrite Hn, Hend; by replace (zlen pre <? zlen pre) with false by lia. }
    rewrite El. eexists. split; [done|]. split; cbn [hi_bucket_index hi_elem]; [|done|by rewrite Hn].
    revert Hu. unfold hash_iterator_unlock. cbn [hi_bucket hi_bucket_marked hi_bucket_index hi_elem hi_bucket_index_start hi_bucket_index_end].
    destruct (hi_bucket hi) as [j|] eqn:Ej; cbn [mbind option_bind].
    + destruct (if hi_bucket_marked hi then _ else _) as [h2|]; [|done]. rewrite !Some_bind. intros [= -> ?]. by rewrite He.
    + intros [= -> Ehi]. destruct hi. cbn in *. injection Ehi as -> -> -> ->. done.
  - destruct fuel as [|fuel]; [cbn in Hf; lia|]. cbn [next_loop hi_bucket_index_end hi_bucket hi_elem hi_last hi_bucket_marked hi_bucket_index_start].
    rewrite Hn, Hend. rewrite length_app in Hend, Hmax |- *. cbn [length] in *. replace (zlen pre <? _) with true by lia.
    assert (Eu : hash_iterator_unlock h (mk_hi (zlen pre) (hi_bucket hi) (hi_elem hi) (hi_last hi) (hi_bucket_marked hi) (hi_bucket_index_start hi)
        (Z.of_nat (length pre + S (length todo)))) =
      Some (h1, mk_hi (zlen pre) None None None false (hi_bucket_index_start hi) (Z.of_nat (length pre + S (length todo))))).
    { revert Hu. unfold hash_iterator_unlock. cbn [hi_bucket hi_bucket_marked hi_bucket_index hi_elem hi_bucket_index_start hi_bucket_index_end].
      destruct (hi_bucket hi) as [j|] eqn:Ej.
      - destruct (if hi_bucket_marked hi then _ else _) as [h2|]; [|done]. rewrite !Some_bind. intros [= -> ?]. by rewrite He.
      - intros [= -> Ehi]. destruct hi. cbn in *. injection Ehi as -> -> -> ->. done. }
    rewrite Eu, Some_bind. rewrite Nat2Z.id, Hbs, lookup_app_r, Nat.sub_diag by lia. cbn [app lookup list_lookup]. rewrite Some_bind.
    destruct b as [|e l].
    + destruct (IH fuel h1 (mk_hi (zlen pre) None None None false (hi_bucket_index_start hi) (Z.of_nat (length pre + S (length todo)))) h1 (pre ++ [[]]) post)
        as [[Hc (hi' & E & Hbt)]|(e1 & i & e & l & todo' & hi' & -> & Hc & -> & E & ->)].
      * split; [done|done|]. cbn [hi_bucket_index]. rewrite length_app. cbn [length]. rewrite u32_small by (unfold is_u32; lia). lia.
      * rewrite <- app_assoc. done.
      * cbn [hi_bucket_index_end]. rewrite !length_app. cbn [length]. lia.
      * rewrite !length_app. cbn [length]. lia.
      * lia.
      * left. split; [done|]. rewrite (decide_False (P := [] :: todo = [])) by done.
        assert (Eif : (if decide (todo = []) then h1 else h1) = h1) by (by destruct (decide _)). rewrite Eif in E, Hbt.
        exists hi'. split; [done|]. rewrite <- app_assoc in Hbt. rewrite length_app in Hbt. done.
      * right. exists ([] :: e1), (length pre + length ([] :: e1))%nat, e, l, todo'. eexists. split; [done|]. split; [done|]. split; [done|].
        assert (El : (length (pre ++ [[]]) + length e1 = length pre + length ([] :: e1))%nat) by (rewrite length_app; cbn [length]; lia).
        rewrite El in E. split; [exact E|]. done.
    + right. exists [], (length pre), e, l, todo. eexists. split; [done|]. split; [done|]. split; [cbn; lia|].
      unfold hash_iterator_lock, hash_iterator_advance. cbn [hi_bucket hi_elem hi_bucket_index hi_last hi_bucket_marked hi_bucket_index_start hi_bucket_index_end].
      rewrite !Some_bind, Hbs, lookup_app_r, Nat.sub_diag by lia. cbn [app lookup list_lookup]. rewrite !Some_bind. split; [done|]. done.
Qed.

Lemma keep_nil todo : concat todo = [] -> keep <$> todo = todo.
Proof. induction todo as [|[|x b] todo IH]; [done| |done]. cbn [concat app]. intros E. cbn [fmap list_fmap]. by rewrite IH. Qed.

Lemma sub_sub a b c : (a -u b) -u c = a -u (b + c).
Proof. unfold u32. rewrite Zminus_mod_idemp_l. by rewrite Z.sub_add_distr. Qed.

(** When a bucket has been visited, unlocking settles it. *)
Lemma inside_between h hi i l :
  inside h hi i l [] -> keyed l -> is_u32 (h_n_elements h) -> Z.of_nat i + 1 < 4294967296 ->
  between_buckets h hi (settle h i l) (Z.of_nat i + 1).
Proof.
  intros Hin Hk Hn Hi. destruct (unlock_ok h hi i l Hin Hk Hn) as (hi' & E & ->). destruct Hin as [_ _ He _ Hix].
  split; [done|done|]. rewrite Hix. apply u32_small. unfold is_u32. lia.
Qed.

(** The buckets [todo] are visited, and settled. *)
Lemma scan_ok n : forall todo h hi h1 pre post fuel s s', length todo = n -> runs (concat todo) s s' ->
  between_buckets h hi h1 (zlen pre) -> h_buckets h1 = pre ++ todo ++ post -> length (h_buckets h) = length (h_buckets h1) ->
  hi_bucket_index_end hi = zlen (pre ++ todo) -> zlen (pre ++ todo) < 4294967296 -> keyed (concat todo) -> is_u32 (h_n_elements h1) ->
  exists h' hi', iterate (S (length (concat todo)) + fuel) h hi body s = Some (concat todo, h', hi', s') /\
    hash_iterator_free h' hi' = Some (mk_hash (h_n_buckets h1) (h_n_elements h1 -u deleted (concat todo)) (h_mask h1) (h_iv h1)
                                        (pre ++ (keep <$> todo) ++ post)).
Proof.
  induction (lt_wf n) as [n _ IH]. intros todo h hi h1 pre post fuel s s' Hlen Hr Hbt Hbs Hlb Hend Hmax Hk Hn.
  cbn [Nat.add iterate]. unfold hash_iterator_next. rewrite (bt_elem _ _ _ _ Hbt), Hlb, Hbs.
  destruct (next_loop_ok todo (length (pre ++ todo ++ post)) h hi h1 pre post Hbt Hbs Hend Hmax ltac:(rewrite !length_app; lia))
    as [[Hc (hi' & -> & Hbt')]|(e1 & i & e & l & todo' & hi' & -> & Hc & Ei & -> & Ehi)]; rewrite Some_bind.
  - rewrite Hc in Hr |- *. inversion Hr; subst. eexists _, _. split; [done|]. unfold hash_iterator_free. rewrite (bt_unlock _ _ _ _ Hbt'), Some_bind, (keep_nil todo Hc), <- Hbs.
    unfold deleted. cbn. rewrite Z.sub_0_r, u32_small by done. by destruct h1.
  - rewrite concat_app in Hk, Hr |- *. rewrite Hc in Hk, Hr |- *. cbn [concat app] in Hk, Hr |- *. unfold keyed in Hk. rewrite app_comm_cons in Hk.
    apply Forall_app in Hk as [Hk1 Hk2].
    assert (Hl0 : h_buckets h1 !! i = Some ((mark <$> []) ++ e :: l)).
    { rewrite Hbs, <- app_assoc, app_assoc. apply list_lookup_middle. by rewrite length_app. }
    inversion Hr as [|? ? ? s1 ? Hbody Hr1]; subst s0 s2 e0 l0. apply runs_app in Hr1 as (s2 & Hr1 & Hr2). rewrite Hbody, Some_bind.
    destruct (visit_ok h1 hi' i [] e l) as (h2 & hi2 & -> & Hin2 & Eh2 & Een2); [by rewrite Ehi|done|by rewrite Ehi|by rewrite Ehi|by rewrite Ehi|by rewrite Ehi|].
    rewrite Some_bind. change (e :: l ++ concat todo') with ((e :: l) ++ concat todo'). rewrite length_app. cbn [length Nat.add].
    replace (S (length l + length (concat todo') + fuel))%nat with (length l + (S (length (concat todo')) + fuel))%nat by lia.
    destruct (bucket_ok i l h2 hi2 ([] ++ [e]) (S (length (concat todo')) + fuel)%nat s1 s2 Hin2 Hr1) as (h3 & hi3 & Hin3 & Eh3 & Een3 & ->).
    cbn [app] in Hin3, Eh3. rewrite !length_app in Hmax. rewrite length_app in Hlen. cbn [length] in Hmax, Hlen.
    assert (Hn3 : is_u32 (h_n_elements h3)) by (by rewrite Eh3, Eh2).
    pose proof (inside_between h3 hi3 i (e :: l) Hin3 Hk1 Hn3 ltac:(lia)) as Hbt3.
    assert (Ebs : h_buckets (settle h3 i (e :: l)) = (pre ++ e1 ++ [keep (e :: l)]) ++ todo' ++ post).
    { unfold settle. rewrite Eh3, Eh2. cbn [h_buckets]. rewrite !list_insert_insert_eq, Hbs, Ei, insert_app_r. 
      rewrite <- (Nat.add_0_r (length e1)), <- !app_assoc, insert_app_r. done. }
    destruct (IH (length todo') ltac:(lia) todo' h3 hi3 (settle h3 i (e :: l)) (pre ++ e1 ++ [keep (e :: l)]) post fuel s2 s' eq_refl Hr2) as (h' & hi4 & -> & Ef).
    + rewrite !length_app. cbn [length]. by replace (Z.of_nat (length pre + (length e1 + 1))) with (Z.of_nat i + 1) by lia.
    + done.
    + unfold settle. cbn [h_buckets]. by rewrite length_insert.
    + rewrite Een3, Een2, Ehi. cbn [hi_bucket_index_end]. rewrite Hend, !length_app. cbn [length]. lia.
    + rewrite !length_app. cbn [length]. lia.
    + done.
    + apply u32_range.
    + rewrite Some_bind. eexists _, _. split; [done|]. rewrite Ef. f_equal. unfold settle. rewrite Eh3, Eh2. cbn [h_n_buckets h_n_elements h_mask h_iv].
      rewrite sub_sub, <- deleted_app, fmap_app, (keep_nil e1 Hc). cbn [fmap list_fmap]. by rewrite <- !app_assoc.
Qed.

(** A whole iteration over the buckets from [a] to [b]. *)
Lemma iterate_ok h a b pre todo post s s' :
  h_buckets h = pre ++ todo ++ post -> zlen (h_buckets h) = h_n_buckets h -> h_n_buckets h < 4294967296 ->
  a = zlen pre -> (if h_n_buckets h <? b then h_n_buckets h else b) = zlen (pre ++ todo) ->
  keyed (concat todo) -> is_u32 (h_n_elements h) -> runs (concat todo) s s' ->
  exists hi h' hi', hash_iterator_init_range h a b = Some hi /\
    iterate (iterate_fuel h) h hi body s = Some (concat todo, h', hi', s') /\
    hash_iterator_free h' hi' = Some (mk_hash (h_n_buckets h) (h_n_elements h -u deleted (concat todo)) (h_mask h) (h_iv h)
                                        (pre ++ (keep <$> todo) ++ post)).
Proof.
  intros Hbs Hlen Hmax -> Hb Hk Hn Hr. rewrite Hbs in Hlen. rewrite !length_app in Hlen. unfold hash_iterator_init_range.
  rewrite Hb, (ASSERT_true (_ <=? _)), Some_bind by (rewrite length_app; lia).
  destruct (scan_ok (length todo) todo h (mk_hi (zlen pre -u 1) None None None false (zlen pre) (zlen (pre ++ todo))) h pre post
    (length (concat pre) + length (concat post)) s s' eq_refl Hr) as (h' & hi' & E & Ef); try done.
  - split; [done|done|]. cbn [hi_bucket_index]. unfold u32. rewrite Zplus_mod_idemp_l. rewrite Z.mod_small; lia.
  - rewrite length_app. lia.
  - unfold iterate_fuel. rewrite Hbs, !concat_app, (length_app (concat pre)), (length_app (concat todo)).
    eexists _, _, _. split; [done|].
    replace (S (length (concat pre) + (length (concat todo) + length (concat post))))%nat with
      (S (length (concat todo)) + (length (concat pre) + length (concat post)))%nat by lia. split; [exact E|exact Ef].
Qed.

End iteration.
