(* ===== verification/Mroute.v ===== *)
(** * Addresses of the server's routing table: [mroute.c], [mroute.h]

    A [struct mroute_addr]: its union is the bytes of [raw_addr], the members of the other
    structs of the union are bytes at fixed places.  [in_addr_t] values in network order are four
    bytes, in host order a number.  [little] is the byte order of the machine. *)
From S2P Require Import Prelude Integers Buffer Proto Mss HashTable.

Definition MROUTE_EXTRACT_SUCCEEDED : Z := Z.shiftl 1 0.
Definition MROUTE_EXTRACT_BCAST : Z := Z.shiftl 1 1.
Definition MROUTE_EXTRACT_MCAST : Z := Z.shiftl 1 2.
Definition MROUTE_EXTRACT_IGMP : Z := Z.shiftl 1 3.
Definition MR_MAX_ADDR_LEN : nat := 20.
Definition MR_ADDR_NONE : Z := 0.
Definition MR_ADDR_ETHER : Z := 1.
Definition MR_ADDR_IPV4 : Z := 2.
Definition MR_ADDR_IPV6 : Z := 3.
Definition MR_ADDR_MASK : Z := 3.
Definition MR_WITH_PORT : Z := 4.
Definition MR_WITH_NETBITS : Z := 8.
Definition MR_WITH_PROTO : Z := 32.
Definition PROTO_NONE : Z := 0.
Definition OPENVPN_ETH_ALEN : Z := 6.
Definition OPENVPN_IPPROTO_IGMP : Z := 2.

Record mroute_addr := mk_ma {
  ma_len : Z;
  ma_proto : Z;
  ma_type : Z;
  ma_netbits : Z;
  ma_raw : list Z
}.

(** Stores into the union. *)
Definition set_raw (ma : mroute_addr) (off : Z) (src : list Z) : mroute_addr :=
  mk_ma (ma_len ma) (ma_proto ma) (ma_type ma) (ma_netbits ma) (splice off src (ma_raw ma)).
Definition set_netbits (ma : mroute_addr) (n : Z) : mroute_addr :=
  mk_ma (ma_len ma) (ma_proto ma) (ma_type ma) (u8 n) (ma_raw ma).
Definition set_type (ma : mroute_addr) (t : Z) : mroute_addr :=
  mk_ma (ma_len ma) (ma_proto ma) t (ma_netbits ma) (ma_raw ma).
Definition set_proto (ma : mroute_addr) (p : Z) : mroute_addr :=
  mk_ma (ma_len ma) p (ma_type ma) (ma_netbits ma) (ma_raw ma).

(** The [len] bytes of the address. *)
Definition addr_bytes (ma : mroute_addr) : list Z := take (Z.to_nat (ma_len ma)) (ma_raw ma).

Definition mroute_addr_init : mroute_addr := mk_ma 0 0 0 0 (replicate MR_MAX_ADDR_LEN 0).

Definition is_mac_mcast_addr (mac : list Z) : option bool := b ← mac !! 0%nat; Some (negb (Z.land b 1 =? 0)).

Definition is_mac_mcast_maddr (addr : mroute_addr) : option bool :=
  if Z.land (ma_type addr) MR_ADDR_MASK =? MR_ADDR_ETHER then is_mac_mcast_addr (ma_raw addr) else Some false.

Definition mroute_learnable_address (addr : mroute_addr) : option bool :=
  let all_zeros := forallb (fun b => b =? 0) (addr_bytes addr) in
  let all_ones := forallb (fun b => b =? 255) (addr_bytes addr) in
  if all_zeros && negb (negb (Z.land (ma_type addr) MR_WITH_NETBITS =? 0) && (ma_netbits addr <? 8)) then Some false
  else if all_ones then Some false
  else mcast ← is_mac_mcast_maddr addr; Some (negb mcast).

(** ** The addresses of packets *)

(** The [n] bytes at [BPTR(buf) + i]. *)
Fixpoint rd_bytes (b : buffer) (i : Z) (n : nat) : option (list Z) :=
  match n with
  | O => Some []
  | S n => x ← rd b i; l ← rd_bytes b (i + 1) n; Some (x :: l)
  end.

(** [ma->type], [netbits] and [len], and the address. *)
Definition set_addr (ma : mroute_addr) (type len : Z) (src : list Z) : mroute_addr :=
  set_raw (mk_ma len (ma_proto ma) type 0 (ma_raw ma)) 0 src.

Definition mroute_get_in_addr_t (ma : option mroute_addr) (src : list Z) : option mroute_addr :=
  (fun ma => set_addr ma MR_ADDR_IPV4 4 src) <$> ma.

Definition mroute_get_in6_addr (ma : option mroute_addr) (src : list Z) : option mroute_addr :=
  (fun ma => set_addr ma MR_ADDR_IPV6 16 src) <$> ma.

Definition IP_MCAST_SUBNET_MASK : Z := u32 (Z.shiftl 240 24).
Definition IP_MCAST_NETWORK : Z := u32 (Z.shiftl 224 24).

(** Both sides are in network order. *)
Definition mroute_is_mcast (addr : list Z) : bool :=
  bool_decide (zip_with Z.land addr (be_bytes 4 IP_MCAST_SUBNET_MASK) = be_bytes 4 IP_MCAST_NETWORK).

Definition mroute_is_mcast_ipv6 (addr : list Z) : option bool := b ← addr !! 0%nat; Some (b =? 255).

(** The flags, [*src] and [*dest]; an address that is [NULL] is not stored. *)
Definition mroute_extract_addr_ip (src dest : option mroute_addr) (buf : buffer)
  : option (Z * option mroute_addr * option mroute_addr) :=
  if 1 <=? buf_len buf then
    v ← rd buf 0;
    if OPENVPN_IPH_GET_VER v =? 4 then
      if SIZEOF_IPHDR <=? buf_len buf then
        saddr ← rd_bytes buf 12 4; daddr ← rd_bytes buf 16 4; protocol ← rd buf 9;
        let ret := if mroute_is_mcast daddr then MROUTE_EXTRACT_MCAST else 0 in
        let ret := if protocol =? OPENVPN_IPPROTO_IGMP then Z.lor ret MROUTE_EXTRACT_IGMP else ret in
        Some (Z.lor ret MROUTE_EXTRACT_SUCCEEDED, mroute_get_in_addr_t src saddr, mroute_get_in_addr_t dest daddr)
      else Some (0, src, dest)
    else if OPENVPN_IPH_GET_VER v =? 6 then
      if SIZEOF_IPV6HDR <=? buf_len buf then
        saddr ← rd_bytes buf 8 16; daddr ← rd_bytes buf 24 16;
        mcast ← mroute_is_mcast_ipv6 daddr;
        let ret := if mcast : bool then MROUTE_EXTRACT_MCAST else 0 in
        Some (Z.lor ret MROUTE_EXTRACT_SUCCEEDED, mroute_get_in6_addr src saddr, mroute_get_in6_addr dest daddr)
      else Some (0, src, dest)
    else Some (0, src, dest)
  else Some (0, src, dest).

Section byte_order.
Variable little : bool.

Definition mroute_copy_ether_to_addr (maddr : mroute_addr) (ether_addr : list Z) (vid : Z) : mroute_addr :=
  let maddr := set_addr maddr MR_ADDR_ETHER (OPENVPN_ETH_ALEN + 2) ether_addr in
  set_raw maddr OPENVPN_ETH_ALEN (store16 little vid).

Definition mroute_extract_addr_ether (src dest : option mroute_addr) (vid : Z) (buf : buffer)
  : option (Z * option mroute_addr * option mroute_addr) :=
  if SIZEOF_ETHHDR <=? buf_len buf then
    eth_dest ← rd_bytes buf 0 6; eth_source ← rd_bytes buf 6 6;
    let src := (fun src => mroute_copy_ether_to_addr src eth_source vid) <$> src in
    mcast ← is_mac_mcast_addr eth_dest;
    match dest with
    | Some dest =>
        let ret := if mcast : bool then MROUTE_EXTRACT_BCAST else 0 in
        Some (Z.lor ret MROUTE_EXTRACT_SUCCEEDED, src, Some (mroute_copy_ether_to_addr dest eth_dest vid))
    | None => Some (MROUTE_EXTRACT_SUCCEEDED, src, None)
    end
  else Some (0, src, dest).

Definition mroute_extract_addr_from_packet (src dest : mroute_addr) (vid : Z) (buf : buffer) (tunnel_type : dev_type)
  : option (Z * option mroute_addr * option mroute_addr) :=
  let src := set_proto src 0 in
  let dest := set_proto dest (ma_proto src) in
  match tunnel_type with
  | DEV_TYPE_TUN => mroute_extract_addr_ip (Some src) (Some dest) buf
  | DEV_TYPE_TAP => mroute_extract_addr_ether (Some src) (Some dest) vid buf
  | DEV_TYPE_OTHER => Some (0, Some src, Some dest)
  end.
End byte_order.

(** A [struct openvpn_sockaddr]: address and port in network order. *)
Inductive openvpn_sockaddr :=
| SockIn4 (addr port : list Z)
| SockIn6 (addr port : list Z)
| SockOther.

Definition with_proto (addr : mroute_addr) : mroute_addr :=
  if ma_proto addr =? PROTO_NONE then addr else set_type addr (Z.lor (ma_type addr) MR_WITH_PROTO).

Definition mroute_extract_openvpn_sockaddr (addr : mroute_addr) (osaddr : openvpn_sockaddr) (use_port : bool)
  : bool * mroute_addr :=
  match osaddr with
  | SockIn4 a port =>
      if use_port then (true, with_proto (set_raw (set_addr addr (Z.lor MR_ADDR_IPV4 MR_WITH_PORT) 6 a) 4 port))
      else (true, set_addr addr MR_ADDR_IPV4 4 a)
  | SockIn6 a port =>
      if use_port then (true, with_proto (set_raw (set_addr addr (Z.lor MR_ADDR_IPV6 MR_WITH_PORT) 18 a) 16 port))
      else (true, set_addr addr MR_ADDR_IPV6 16 a)
  | SockOther => (false, addr)
  end.

(** ** Networks *)

Definition IPV4_NETMASK_HOST : Z := 4294967295.

Definition netbits_to_netmask (netbits : Z) : Z :=
  let addrlen := 32 in
  if (0 <? netbits) && (netbits <=? addrlen) then u32 (Z.shiftl IPV4_NETMASK_HOST (addrlen - netbits)) else 0.

(** [byte] is one more than the variable of the code; the address and what is left to clear. *)
Fixpoint mask_loop (byte : nat) (bits_to_clear : Z) (addr : list Z) : option (list Z * Z) :=
  match byte with
  | O => Some (addr, bits_to_clear)
  | S byte =>
      if 0 <? bits_to_clear then
        if 8 <=? bits_to_clear then mask_loop byte (bits_to_clear - 8) (<[byte := 0]> addr)
        else
          x ← addr !! byte;
          mask_loop byte 0 (<[byte := Z.land x (u8 (Z.shiftl 255 bits_to_clear))]> addr)
      else Some (addr, bits_to_clear)
  end.

Definition mroute_addr_mask_host_bits (ma : mroute_addr) : option mroute_addr :=
  if Z.land (ma_type ma) MR_ADDR_MASK =? MR_ADDR_IPV4 then
    let addr := be_val (take 4 (ma_raw ma)) in
    let addr := Z.land addr (netbits_to_netmask (ma_netbits ma)) in
    Some (set_raw ma 0 (be_bytes 4 addr))
  else if Z.land (ma_type ma) MR_ADDR_MASK =? MR_ADDR_IPV6 then
    '(addr, bits_to_clear) ← mask_loop 16 (128 - ma_netbits ma) (take 16 (ma_raw ma));
    ASSERT (bits_to_clear =? 0);;
    Some (set_raw ma 0 addr)
  else None.

(** ** Keys of the hash tables *)

(** The bytes from [&a->proto] on: [proto], [type], [netbits] and the address. *)
Definition mroute_addr_hash_ptr (a : mroute_addr) : list Z := ma_proto a :: ma_type a :: ma_netbits a :: ma_raw a.
Definition mroute_addr_hash_len (a : mroute_addr) : Z := ma_len a + 3.

Definition mroute_addr_hash_function (key : mroute_addr) (iv : Z) : Z :=
  hash_func (take (Z.to_nat (mroute_addr_hash_len key)) (mroute_addr_hash_ptr key)) iv.

Definition mroute_addr_equal (a1 a2 : mroute_addr) : bool :=
  if negb (ma_type a1 =? ma_type a2) then false
  else if negb (ma_proto a1 =? ma_proto a2) then false
  else if negb (ma_netbits a1 =? ma_netbits a2) then false
  else if negb (ma_len a1 =? ma_len a2) then false
  else bool_decide (take (Z.to_nat (ma_len a1)) (ma_raw a1) = take (Z.to_nat (ma_len a1)) (ma_raw a2)).

Definition mroute_addr_compare_function (key1 key2 : mroute_addr) : bool := mroute_addr_equal key1 key2.

(** [src] in host order. *)
Definition mroute_extract_in_addr_t (dest : mroute_addr) (src : Z) : mroute_addr := set_addr dest MR_ADDR_IPV4 4 (be_bytes 4 src).

Definition in_addr_t_from_mroute_addr (addr : mroute_addr) : Z :=
  if (Z.land (ma_type addr) MR_ADDR_MASK =? MR_ADDR_IPV4) && (ma_netbits addr =? 0) && (ma_len addr =? 4)
  then be_val (take 4 (ma_raw addr)) else 0.

Definition mroute_addr_reset (ma : mroute_addr) : mroute_addr :=
  mk_ma 0 (ma_proto ma) MR_ADDR_NONE (ma_netbits ma) (ma_raw ma).

(** ** The prefix lengths in use *)

Definition MR_HELPER_NET_LEN : nat := 129.

Record mroute_helper := mk_mh {
  mh_cache_generation : Z;
  mh_ageable_ttl_secs : Z;
  mh_n_net_len : Z;
  mh_net_len : list Z;
  mh_net_len_refcount : list Z
}.

Definition mroute_helper_init (ageable_ttl_secs : Z) : mroute_helper :=
  mk_mh 0 ageable_ttl_secs 0 (replicate MR_HELPER_NET_LEN 0) (replicate MR_HELPER_NET_LEN 0).

(** [i] is one more than the variable of the code. *)
Fixpoint regenerate_loop (i : nat) (j : nat) (refcount net_len : list Z) : option (nat * list Z) :=
  match i with
  | O => Some (j, net_len)
  | S i =>
      c ← refcount !! i;
      if 0 <? c then regenerate_loop i (S j) refcount (<[j := u8 (Z.of_nat i)]> net_len)
      else regenerate_loop i j refcount net_len
  end.

Definition mroute_helper_regenerate (mh : mroute_helper) : option mroute_helper :=
  '(j, net_len) ← regenerate_loop MR_HELPER_NET_LEN 0 (mh_net_len_refcount mh) (mh_net_len mh);
  Some (mk_mh (mh_cache_generation mh) (mh_ageable_ttl_secs mh) (Z.of_nat j) net_len (mh_net_len_refcount mh)).

(** [++mh->cache_generation] and [mh->net_len_refcount[netbits] = c]. *)
Definition set_net_refcount (mh : mroute_helper) (netbits c : Z) : mroute_helper :=
  mk_mh (mh_cache_generation mh +u 1) (mh_ageable_ttl_secs mh) (mh_n_net_len mh) (mh_net_len mh)
    (<[Z.to_nat netbits := c]> (mh_net_len_refcount mh)).

Definition mroute_helper_add_iroute46 (mh : mroute_helper) (netbits : Z) : option mroute_helper :=
  if 0 <=? netbits then
    ASSERT (netbits <? Z.of_nat MR_HELPER_NET_LEN);;
    c ← mh_net_len_refcount mh !! Z.to_nat netbits;
    let mh := set_net_refcount mh netbits (c + 1) in
    if c + 1 =? 1 then mroute_helper_regenerate mh else Some mh
  else Some mh.

Definition mroute_helper_del_iroute46 (mh : mroute_helper) (netbits : Z) : option mroute_helper :=
  if 0 <=? netbits then
    ASSERT (netbits <? Z.of_nat MR_HELPER_NET_LEN);;
    c ← mh_net_len_refcount mh !! Z.to_nat netbits;
    let mh := set_net_refcount mh netbits (c - 1) in
    ASSERT (0 <=? c - 1);;
    if c - 1 =? 0 then mroute_helper_regenerate mh else Some mh
  else Some mh.
