(* ===== verification/Hash.v ===== *)
(** * Hash tables: what they promise

    The operations refine those of a finite map, and an iteration that deletes elements on its
    way takes out those and no others. *)
From S2P Require Import Prelude Integers HashTable Mroute.

Lemma elem_of_map {C V} `{Countable C} (l : list (C * V)) c v : NoDup l.*1 -> (list_to_map l : gmap C V) !! c = Some v <-> (c, v) ∈ l.
Proof. intros Hn. symmetry. by apply elem_of_list_to_map. Qed.

(** The buckets before, in and behind a range. *)
Lemma split_range {A} (l : list A) a b n :
  zlen l = n -> 0 <= a <= Z.min b n ->
  exists pre todo post, l = pre ++ todo ++ post /\ zlen pre = a /\ zlen (pre ++ todo) = Z.min b n /\ (if n <? b then n else b) = zlen (pre ++ todo).
Proof.
  intros Hn Hab. set (k := Z.to_nat (Z.min b n)). exists (take (Z.to_nat a) l), (drop (Z.to_nat a) (take k l)), (drop k l).
  assert (Hpt : take (Z.to_nat a) l ++ drop (Z.to_nat a) (take k l) = take k l).
  { replace (take (Z.to_nat a) l) with (take (Z.to_nat a) (take k l)); [apply take_drop|]. rewrite take_take. f_equal. lia. }
  rewrite app_assoc, Hpt, take_drop, !length_take. destruct (Z.ltb_spec n b); split_and!; try done; lia.
Qed.

Section iteration.
Context {K V C : Type} `{EqDecision V} `{Countable C}.
Variable hash_function : K -> Z -> Z.
Variable canon : K -> C.
Variable del : @hash_element K V -> bool.
Variable delv : V -> bool.

Abbreviation inv := (hash_inv hash_function canon).

Lemma in_pairs_iff (l : list (@hash_element K V)) c v :
  (c, v) ∈ pairs canon l <-> exists e k, e ∈ l /\ he_key e = Some k /\ canon k = c /\ he_value e = v.
Proof.
  induction l as [|e l IH]; cbn [pairs].
  - split; [by intros ?%elem_of_nil|]. intros (e & k & Hin & _). by apply elem_of_nil in Hin.
  - destruct (he_key e) as [k|] eqn:E; [rewrite elem_of_cons|]; rewrite IH; split.
    + intros [[= -> ->]|(e' & k' & Hin & Hk)]; [exists e, k; by split; [left|]|]. exists e', k'. by split; [right|].
    + intros (e' & k' & [->|Hin]%elem_of_cons & Hk & <- & <-); [left; congruence|]. right. by exists e', k'.
    + intros (e' & k' & Hin & Hk). exists e', k'. by split; [right|].
    + intros (e' & k' & [->|Hin]%elem_of_cons & Hk & Hc); [congruence|]. by exists e', k'.
Qed.

Lemma keep_in e l : e ∈ keep del l <-> e ∈ l /\ del e = false.
Proof. unfold keep. rewrite list_elem_of_filter. tauto. Qed.

Lemma concat_keep (todo : list (list (@hash_element K V))) : concat (keep del <$> todo) = keep del (concat todo).
Proof. induction todo as [|b todo IH]; [done|]. cbn [fmap list_fmap concat]. by rewrite keep_app, <- IH. Qed.

Lemma pairs_keep_sublist l : sublist (pairs canon (keep del l)).*1 (pairs canon l).*1.
Proof.
  induction l as [|e l IH]; [done|]. rewrite keep_cons. cbn [pairs]. destruct (del e); cbn [pairs]; destruct (he_key e); cbn [fmap list_fmap].
  - by constructor.
  - done.
  - by constructor.
  - done.
Qed.

Lemma inv_keyed (h : @hash K V) M l1 l2 l3 : inv h M -> concat (h_buckets h) = l1 ++ l2 ++ l3 -> keyed l2.
Proof.
  intros Hi E. unfold keyed. apply Forall_forall. intros e He.
  assert (Hin : e ∈ concat (h_buckets h)) by (rewrite E, !elem_of_app; tauto).
  apply list_elem_of_In, in_concat in Hin as (b & Hb & Hin). apply list_elem_of_In, list_elem_of_lookup in Hb as (i & Hi').
  pose proof (hv_elems _ _ _ _ Hi i b Hi') as Hok. rewrite Forall_forall in Hok. apply list_elem_of_In in Hin.
  destruct (Hok e Hin) as (k & -> & _). by exists k.
Qed.

(** The map after an iteration. *)
Lemma settled_map h M pre todo post :
  inv h M -> h_buckets h = pre ++ todo ++ post -> (forall e, e ∈ concat todo -> del e = delv (he_value e)) ->
  exists M', inv (mk_hash (h_n_buckets h) (h_n_elements h -u deleted del (concat todo)) (h_mask h) (h_iv h) (pre ++ (keep del <$> todo) ++ post)) M' /\
    M' ⊆ M /\
    (forall c v, M !! c = Some v -> M' !! c = None <-> delv v = true /\ (c, v) ∈ pairs canon (concat todo)).
Proof.
  intros Hi Hbs Hdel. pose proof Hi as [Hs He Hn Hm Hc]. rewrite Hbs, !concat_app in Hn, Hm, Hc.
  set (l' := concat pre ++ keep del (concat todo) ++ concat post).
  assert (Hn' : NoDup (pairs canon l').*1).
  { apply (sublist_NoDup _ (pairs canon (concat pre ++ concat todo ++ concat post)).*1); [done|]. unfold l'. rewrite !pairs_app, !fmap_app.
    repeat apply sublist_app; try done. apply pairs_keep_sublist. }
  exists (list_to_map (pairs canon l')). split_and!.
  - split; cbn [h_n_buckets h_n_elements h_mask h_buckets].
    + destruct Hs as (j & Hj & E1 & E2 & E3). exists j. split; [done|]. split; [done|]. split; [done|].
      rewrite Hbs, !length_app in E3. by rewrite !length_app, length_fmap.
    + intros i b Hb. assert (exists b0, h_buckets h !! i = Some b0 /\ (b = b0 \/ b = keep del b0)) as (b0 & Hb0 & Hbb).
      { rewrite Hbs. apply lookup_app_Some in Hb as [Hb|[Hlen Hb]]; [exists b; split; [by apply lookup_app_l_Some|by left]|].
        rewrite lookup_app_r by done. apply lookup_app_Some in Hb as [Hb|[Hlen2 Hb]].
        - apply list_lookup_fmap_Some in Hb as (b0 & -> & Hb). exists b0. split; [by apply lookup_app_l_Some|by right].
        - rewrite length_fmap in *. exists b. rewrite lookup_app_r by done. split; [done|by left]. }
      pose proof (He i b0 Hb0) as Hok. assert (Hok' : Forall (elem_ok hash_function h i) b).
      { destruct Hbb as [->| ->]; [done|]. apply Forall_forall. intros e [Hin _]%keep_in. rewrite Forall_forall in Hok. by apply Hok. }
      eapply Forall_impl; [exact Hok'|]. intros e. apply elem_ok_same; done.
    + rewrite !concat_app, concat_keep. exact Hn'.
    + by rewrite !concat_app, concat_keep.
    + rewrite !concat_app, concat_keep, Hc. unfold deleted, u32. rewrite Zminus_mod_idemp_l. f_equal. rewrite !length_app. lia.
  - apply map_subseteq_spec. intros c v Hcv. rewrite Hm. apply elem_of_map; [done|]. apply elem_of_map in Hcv; [|done].
    apply in_pairs_iff in Hcv as (e & k & Hin & Hk). apply in_pairs_iff. exists e, k. split; [|done]. revert Hin. unfold l'. rewrite !elem_of_app, keep_in. tauto.
  - intros c v Hcv. rewrite Hm in Hcv. apply elem_of_map in Hcv; [|done].
    assert (Hnone : (list_to_map (pairs canon l') : gmap C V) !! c = None <-> (c, v) ∉ pairs canon l').
    { split; [intros En Hin; apply elem_of_map in Hin; [congruence|done]|]. intros Hnot. apply not_elem_of_list_to_map. intros Hin.
      apply list_elem_of_fmap in Hin as ([c' v'] & -> & Hin). cbn [fst] in *. assert (Hin2 : (c', v') ∈ pairs canon (concat pre ++ concat todo ++ concat post)).
      { apply in_pairs_iff in Hin as (e & k & Hin & Hk). apply in_pairs_iff. exists e, k. split; [|done]. revert Hin. unfold l'. rewrite !elem_of_app, keep_in. tauto. }
      apply elem_of_map in Hin2; [|done]. apply elem_of_map in Hcv; [|done]. assert (v' = v) as -> by congruence. done. }
    rewrite Hnone. clear Hnone. rewrite in_pairs_iff in Hcv. destruct Hcv as (e & k & Hin & Hk & Ec & Ev).
    unfold l'. rewrite !pairs_app, !elem_of_app, !in_pairs_iff. setoid_rewrite keep_in. rewrite !elem_of_app in Hin. split.
    + intros Hnot. assert (Ht : e ∈ concat todo) by (destruct Hin as [Hin|[Hin|Hin]]; [|done|]; exfalso; apply Hnot; [left|right; right]; by exists e, k).
      split; [|by exists e, k]. rewrite <- Ev, <- Hdel by done. destruct (del e) eqn:Ed; [done|]. exfalso. apply Hnot. right. left. by exists e, k.
    + intros [Hv Ht]. assert (Hct : c ∈ (pairs canon (concat todo)).*1) by (apply list_elem_of_fmap; exists (c, v); split; [done|by apply in_pairs_iff]).
      rewrite !pairs_app, !fmap_app in Hn. apply NoDup_app in Hn as (_ & Hd1 & Hn). apply NoDup_app in Hn as (_ & Hd2 & _).
      intros [(e2 & k2 & Hin2 & Hk2)|[(e2 & k2 & [Hin2 Hd] & Hk2 & _ & Ev2)|(e2 & k2 & Hin2 & Hk2)]].
      * apply (Hd1 c); [|apply elem_of_app; by left]. apply list_elem_of_fmap. exists (c, v). split; [done|]. apply in_pairs_iff. by exists e2, k2.
      * rewrite (Hdel e2 Hin2), Ev2 in Hd. congruence.
      * apply (Hd2 c); [done|]. apply list_elem_of_fmap. exists (c, v). split; [done|]. apply in_pairs_iff. by exists e2, k2.
Qed.
End iteration.

Section refinement.
Context {K V C : Type} `{EqDecision V} `{Countable C}.
Variable hash_function : K -> Z -> Z.
Variable compare_function : K -> K -> bool.
Variable canon : K -> C.

(** What the functions to hash and to compare must promise. *)
Record key_laws : Prop := {
  compare_law : forall k1 k2, compare_function k1 k2 = bool_decide (canon k1 = canon k2);
  hash_law : forall k1 k2 iv, canon k1 = canon k2 -> hash_function k1 iv = hash_function k2 iv
}.

Inductive hash_op :=
| OpLookup (k : K)
| OpAdd (k : K) (v : V) (replace : bool)
| OpRemove (k : K)
| OpRemoveByValue (v : V).

Inductive hash_result := ResValue (v : option V) | ResBool (b : bool) | ResUnit.

Definition hash_do (h : @hash K V) (op : hash_op) : option (hash_result * hash) :=
  match op with
  | OpLookup k => '(v, h) ← hash_lookup hash_function compare_function h k; Some (ResValue v, h)
  | OpAdd k v replace => '(b, h) ← hash_add hash_function compare_function h k v replace; Some (ResBool b, h)
  | OpRemove k => '(b, h) ← hash_remove hash_function compare_function h k; Some (ResBool b, h)
  | OpRemoveByValue v => h ← hash_remove_by_value h v; Some (ResUnit, h)
  end.

Fixpoint hash_run (h : hash) (ops : list hash_op) : option (list hash_result) :=
  match ops with
  | [] => Some []
  | op :: ops => '(r, h) ← hash_do h op; l ← hash_run h ops; Some (r :: l)
  end.

(** The same operations on a finite map. *)
Definition map_do (M : gmap C V) (op : hash_op) : hash_result * gmap C V :=
  match op with
  | OpLookup k => (ResValue (M !! canon k), M)
  | OpAdd k v replace =>
      match M !! canon k with
      | Some _ => (ResBool replace, if replace then <[canon k := v]> M else M)
      | None => (ResBool true, <[canon k := v]> M)
      end
  | OpRemove k => (ResBool (bool_decide (is_Some (M !! canon k))), delete (canon k) M)
  | OpRemoveByValue v => (ResUnit, filter (fun kv => kv.2 <> v) M)
  end.

Fixpoint map_run (M : gmap C V) (ops : list hash_op) : list hash_result :=
  match ops with
  | [] => []
  | op :: ops => (map_do M op).1 :: map_run (map_do M op).2 ops
  end.

Abbreviation inv := (hash_inv hash_function canon).

Lemma init_inv n iv : 0 < n <= 2147483648 -> exists h : @hash K V, hash_init n iv = Some h /\ inv h ∅.
Proof.
  intros Hn. unfold hash_init. rewrite ASSERT_true, Some_bind by lia.
  destruct (adjust_power_of_2_ok n) as (j & -> & Hj & Hle & Hlt); [lia|]. rewrite Some_bind.
  assert (Hj' : 0 <= j < 32).
  { split; [lia|]. destruct (decide (j < 32)); [done|]. pose proof (Z.pow_le_mono_r 2 31 (j - 1) ltac:(lia) ltac:(lia)). lia. }
  pose proof (Z.pow_le_mono_r 2 j 31 ltac:(lia) ltac:(lia)). change (2 ^ 31) with 2147483648 in *.
  rewrite u32_small by (unfold is_u32; lia). eexists. split; [done|].
  assert (E : concat (replicate (Z.to_nat (2 ^ j)) ([] : list (@hash_element K V))) = []) by (by induction (Z.to_nat (2 ^ j))).
  split; cbn [h_n_buckets h_n_elements h_mask h_buckets]; rewrite ?E.
  - exists j. rewrite u32_small by (unfold is_u32; lia). rewrite length_replicate. split; [done|]. split; [done|]. split; [done|]. lia.
  - intros i b Hb. apply lookup_replicate in Hb as [-> _]. constructor.
  - constructor.
  - done.
  - done.
Qed.

Lemma runs_pure {del : @hash_element K V -> bool} l : runs del (fun e (_ : unit) => Some (del e, tt)) l tt tt.
Proof. induction l as [|e l IH]; [constructor|]. by econstructor. Qed.

Lemma hash_remove_by_value_ok (h : @hash K V) (M : gmap C V) (v : V) :
  inv h M -> exists h', hash_remove_by_value h v = Some h' /\ inv h' (filter (fun kv => kv.2 <> v) M).
Proof.
  intros Hi. pose proof Hi as [(j & Hj & En & Em & El) _ _ _ Hc].
  pose proof (Z.pow_lt_mono_r 2 j 32 ltac:(lia) ltac:(lia) ltac:(lia)) as Hmax. change (2 ^ 32) with 4294967296 in Hmax.
  set (del := fun e : @hash_element K V => bool_decide (he_value e = v)).
  assert (Hbs : h_buckets h = [] ++ h_buckets h ++ []) by (by rewrite app_nil_r).
  assert (Hk : keyed (concat (h_buckets h))) by (eapply (inv_keyed _ _ del h M [] _ []); [exact Hi|by rewrite app_nil_r]).
  unfold hash_remove_by_value, hash_iterator_init.
  destruct (iterate_ok del (fun e (_ : unit) => Some (del e, tt)) h 0 (h_n_buckets h) [] (h_buckets h) [] tt tt Hbs) as (hi & h' & hi' & -> & E & Ef);
    [lia|lia|done|by rewrite Z.ltb_irrefl; cbn [app]; lia|exact Hk|rewrite Hc; apply u32_range|apply runs_pure|].
  rewrite Some_bind. unfold del in E at 1. cbn beta in E. rewrite E, Some_bind, Ef. eexists. split; [done|].
  destruct (settled_map hash_function canon del (fun v' => bool_decide (v' = v)) h M [] (h_buckets h) [] Hi Hbs) as (M' & Hi' & Hsub & Hdel); [done|].
  replace (filter (fun kv : C * V => kv.2 <> v) M) with M'; [exact Hi'|]. apply map_eq. intros c. rewrite map_lookup_filter. cbn [snd].
  destruct (M !! c) as [v'|] eqn:EM; cbn [mbind option_bind].
  - destruct (M' !! c) as [v''|] eqn:EM'.
    + assert (v'' = v') as ->. { pose proof (lookup_weaken _ _ _ _ EM' Hsub). congruence. }
      rewrite option_guard_True; [done|]. intros ->. assert (Hnone : M' !! c = None); [|congruence]. apply (Hdel c v EM). split; [by apply bool_decide_eq_true_2|].
      rewrite (hv_map _ _ _ _ Hi) in EM. apply elem_of_map in EM; [done|apply Hi].
    + apply (Hdel c v' EM) in EM' as [Hv%bool_decide_eq_true_1 _]. rewrite option_guard_False; [done|]. intros Hne. by apply Hne.
  - destruct (M' !! c) as [v''|] eqn:EM'; [|done]. pose proof (lookup_weaken _ _ _ _ EM' Hsub). congruence.
Qed.

Lemma hash_do_ok h M op : key_laws -> inv h M -> exists h', hash_do h op = Some ((map_do M op).1, h') /\ inv h' (map_do M op).2.
Proof.
  intros [Hc Hh] Hi. destruct op as [k|k v replace|k|v]; cbn [hash_do map_do].
  - destruct (hash_lookup_ok hash_function compare_function canon Hc Hh h M k Hi) as (h' & -> & Hi'). by exists h'.
  - destruct (hash_add_ok hash_function compare_function canon Hc Hh h M k v replace Hi) as (h' & -> & Hi'). exists h'. rewrite Some_bind.
    by destruct (M !! canon k).
  - destruct (hash_remove_ok hash_function compare_function canon Hc Hh h M k Hi) as (h' & -> & Hi'). by exists h'.
  - destruct (hash_remove_by_value_ok h M v Hi) as (h' & -> & Hi'). by exists h'.
Qed.

Lemma hash_run_ok ops h M : key_laws -> inv h M -> hash_run h ops = Some (map_run M ops).
Proof.
  intros Hl. revert h M. induction ops as [|op ops IH]; intros h M Hi; [done|]. cbn [hash_run map_run].
  destruct (hash_do_ok h M op Hl Hi) as (h' & -> & Hi'). by rewrite Some_bind, (IH h' _ Hi').
Qed.

(** C37: From an empty table of any size, every sequence of lookups, additions, removals and
    removals by value gives the results that it gives on a finite map from keys to values, for
    all hash functions and comparisons that agree on which keys are the same: moving found
    elements to the front, chains, marks and the rounding of the size are not seen. *)
Theorem hash_refines_map n iv ops :
  key_laws -> 0 < n <= 2147483648 ->
  exists h : @hash K V, hash_init n iv = Some h /\ hash_run h ops = Some (map_run ∅ ops).
Proof. intros Hl Hn. destruct (init_inv n iv Hn) as (h & -> & Hi). exists h. split; [done|]. by apply hash_run_ok. Qed.

(** The bucket that a key belongs in. *)
Definition place (h : @hash K V) (k : K) : Z := Z.of_nat (hash_bucket h (hash_value hash_function h k)).

(** What is in the buckets between [a] and [b]. *)
Lemma in_range h M pre todo post c v :
  key_laws -> inv h M -> h_buckets h = pre ++ todo ++ post -> forall k, canon k = c -> M !! c = Some v ->
  (c, v) ∈ pairs canon (concat todo) <-> zlen pre <= place h k < zlen (pre ++ todo).
Proof.
  intros Hl Hi Hbs k Ek Hcv. rewrite (hv_map _ _ _ _ Hi) in Hcv. apply elem_of_map in Hcv; [|apply Hi]. rewrite in_pairs_iff.
  assert (Hplace : forall i b e k', h_buckets h !! i = Some b -> e ∈ b -> he_key e = Some k' -> canon k' = c -> place h k = Z.of_nat i).
  { intros i b e k' Hb He Hk' Ec. pose proof (hv_elems _ _ _ _ Hi i b Hb) as Hok. rewrite Forall_forall in Hok.
    destruct (Hok e He) as (k0 & Hk0 & _ & Hp). rewrite Hk' in Hk0. injection Hk0 as <-. unfold place. rewrite <- Hp. do 2 f_equal. unfold hash_value.
    by rewrite (hash_law Hl k k') by congruence. }
  split.
  - intros (e & k' & Hin & Hk' & Ec & Ev). apply list_elem_of_In, in_concat in Hin as (b & Hb & Hin). apply list_elem_of_In, list_elem_of_lookup in Hb as (i & Hb).
    assert (Hb' : h_buckets h !! (length pre + i)%nat = Some b).
    { rewrite Hbs, lookup_app_r by lia. replace (length pre + i - length pre)%nat with i by lia. by apply lookup_app_l_Some. }
    rewrite (Hplace _ b e k' Hb' ltac:(by apply list_elem_of_In) Hk' Ec). apply lookup_lt_Some in Hb. rewrite length_app. lia.
  - intros Hr. apply in_pairs_iff in Hcv as (e & k' & Hin & Hk' & Ec & Ev). exists e, k'. split; [|done].
    apply list_elem_of_In, in_concat in Hin as (b & Hb & Hin). apply list_elem_of_In, list_elem_of_lookup in Hb as (i & Hb).
    rewrite (Hplace _ b e k' Hb ltac:(by apply list_elem_of_In) Hk' Ec), length_app in Hr.
    rewrite Hbs, lookup_app_r in Hb by lia. rewrite lookup_app_l in Hb by lia. apply list_elem_of_In, in_concat. exists b.
    split; [|done]. apply list_elem_of_In. by apply list_elem_of_lookup_2 in Hb.
Qed.

(** An iteration over the buckets from [a] to [b] - the table's, when [b] is beyond them -
    that deletes elements while it goes comes to an end, visits the entries of those buckets
    and only them, each once, and leaves the table with exactly the entries that it has not
    deleted, its counter included.  The reaper of the server's routes is such an iteration. *)
Theorem hash_iteration_exact h M a b (del : V -> bool) :
  key_laws -> inv h M -> 0 <= a <= Z.min b (h_n_buckets h) ->
  exists hi l h1 hi1 h' M', hash_iterator_init_range h a b = Some hi /\
    iterate (iterate_fuel h) h hi (fun e _ => Some (del (he_value e), tt)) tt = Some (l, h1, hi1, tt) /\
    hash_iterator_free h1 hi1 = Some h' /\
    NoDup (pairs canon l) /\
    (forall k v, (canon k, v) ∈ pairs canon l <-> M !! canon k = Some v /\ a <= place h k < b) /\
    inv h' M' /\
    (forall k, M' !! canon k = v ← M !! canon k; if (a <=? place h k) && (place h k <? b) && del v then None else Some v).
Proof.
  intros Hl Hi Hab. pose proof Hi as [(j & Hj & En & Em & El) _ Hn HM Hc].
  pose proof (Z.pow_lt_mono_r 2 j 32 ltac:(lia) ltac:(lia) ltac:(lia)) as Hmax. change (2 ^ 32) with 4294967296 in Hmax.
  destruct (split_range (h_buckets h) a b (h_n_buckets h) ltac:(lia) Hab) as (pre & todo & post & Hbs & Hlp & Hlt & Hif).
  assert (Hk : keyed (concat todo)) by (eapply (inv_keyed _ _ (fun e => del (he_value e)) h M (concat pre) _ (concat post)); [exact Hi|by rewrite <- !concat_app, <- Hbs]).
  destruct (iterate_ok (fun e => del (he_value e)) (fun e (_ : unit) => Some (del (he_value e), tt)) h a b pre todo post tt tt Hbs)
    as (hi & h1 & hi1 & E1 & E2 & E3); [lia|lia|lia|exact Hif|exact Hk|rewrite Hc; apply u32_range|apply (runs_pure (del := fun e => del (he_value e)))|].
  destruct (settled_map hash_function canon (fun e => del (he_value e)) del h M pre todo post Hi Hbs) as (M' & Hi' & Hsub & Hdel); [done|].
  assert (Hin : forall k v, M !! canon k = Some v -> (canon k, v) ∈ pairs canon (concat todo) <-> a <= place h k < b).
  { intros k v Hkv. rewrite (in_range h M pre todo post (canon k) v Hl Hi Hbs k eq_refl Hkv), Hlp, Hlt.
    destruct (place_lt hash_function canon h M k Hi) as (b0 & Hb0%lookup_lt_Some). unfold place in *. lia. }
  exists hi, (concat todo), h1, hi1. do 2 eexists. split; [exact E1|]. split; [exact E2|]. split; [exact E3|]. split; [|split; [|split; [exact Hi'|]]].
  - apply (NoDup_fmap_1 fst). rewrite Hbs, !concat_app, !pairs_app, !fmap_app in Hn. apply NoDup_app in Hn as (_ & _ & Hn). by apply NoDup_app in Hn as (Hn & _ & _).
  - intros k v. split.
    + intros Hv. assert (Hkv : M !! canon k = Some v).
      { rewrite HM. apply elem_of_map; [done|]. rewrite Hbs, !concat_app, !pairs_app, !elem_of_app. tauto. }
      split; [done|]. by apply (Hin k v Hkv).
    + intros [Hkv Hr]. by apply (Hin k v Hkv).
  - intros k. destruct (M !! canon k) as [v|] eqn:EM; cbn [mbind option_bind].
    + destruct ((a <=? place h k) && (place h k <? b) && del v) eqn:Eb.
      * apply (Hdel _ v EM). split; [lia|]. apply (Hin k v EM). lia.
      * destruct (M' !! canon k) as [v'|] eqn:EM'; [pose proof (lookup_weaken _ _ _ _ EM' Hsub); congruence|].
        apply (Hdel _ v EM) in EM' as [Hdv Hv]. apply (Hin k v EM) in Hv. lia.
    + destruct (M' !! canon k) as [v'|] eqn:EM'; [pose proof (lookup_weaken _ _ _ _ EM' Hsub); congruence|done].
Qed.

End refinement.

(** ** What holds of the keys

    [P] relates a key and its value: an operation keeps it for all elements that it does not
    give a key or a value. *)

Section keys.
Context {K V : Type} `{EqDecision V}.
Variable compare_function : K -> K -> bool.
Variable P : K -> V -> Prop.

Definition key_all (e : @hash_element K V) : Prop := match he_key e with Some k => P k (he_value e) | None => True end.

Definition keys_all (h : @hash K V) : Prop := Forall (Forall key_all) (h_buckets h).

Lemma keys_init n iv h : hash_init n iv = Some h -> keys_all h.
Proof.
  unfold hash_init. destruct (0 <? n); [|done]. cbn [ASSERT mbind option_bind]. destruct (adjust_power_of_2 n) as [k|]; [|done].
  intros [= <-]. apply Forall_replicate. constructor.
Qed.

Lemma keys_bucket h i b : keys_all h -> h_buckets h !! i = Some b -> Forall key_all b.
Proof. apply Forall_lookup_1. Qed.

Lemma keys_set_bucket h i b : keys_all h -> Forall key_all b -> keys_all (set_bucket h i b).
Proof. apply Forall_insert. Qed.

Lemma keys_lookup_loop l key hv : forall prev r b,
  lookup_loop compare_function prev l key hv = Some (r, b) -> Forall key_all prev -> Forall key_all l -> Forall key_all b.
Proof.
  induction l as [|e l IH]; intros prev r b E Hp Hl; cbn [lookup_loop] in E.
  - injection E as <- <-. by apply Forall_rev.
  - apply Forall_cons in Hl as [He Hl]. destruct (matches _ _ _ _) as [[]|]; cbn [mbind option_bind] in E; [|by apply (IH (e :: prev) r b E); [constructor|]|done].
    injection E as <- <-. constructor; [done|]. apply Forall_app. split; [by apply Forall_rev|done].
Qed.

Lemma keys_lookup_fast h i key hv he h' : hash_lookup_fast compare_function h i key hv = Some (he, h') -> keys_all h -> keys_all h'.
Proof.
  unfold hash_lookup_fast. intros E Hk. destruct (h_buckets h !! i) as [b|] eqn:Eb; [|done]. cbn [mbind option_bind] in E.
  destruct (lookup_loop _ _ _ _ _) as [[r b']|] eqn:El; [|done]. injection E as <- <-. apply keys_set_bucket; [done|].
  by apply (keys_lookup_loop _ _ _ _ _ _ El); [|apply (keys_bucket h i)].
Qed.

Lemma keys_add_fast h i key hv v h' : hash_add_fast h i key hv v = Some h' -> P key v -> keys_all h -> keys_all h'.
Proof.
  unfold hash_add_fast. intros E Hv Hk. destruct (h_buckets h !! i) as [b|] eqn:Eb; [|done]. injection E as <-.
  apply Forall_insert; [done|]. constructor; [done|]. by apply (keys_bucket h i).
Qed.

Lemma keys_remove_marked l : forall n l' n', remove_marked_loop l n = (l', n') -> Forall key_all l -> Forall key_all l'.
Proof.
  induction l as [|e l IH]; intros n l' n' E Hl; cbn [remove_marked_loop] in E; [by injection E as <- <-|].
  apply Forall_cons in Hl as [He Hl]. destruct (he_key e); [|by apply (IH _ _ _ E)].
  destruct (remove_marked_loop l n) as [l0 n0] eqn:E0. injection E as <- <-. constructor; [done|]. by apply (IH _ _ _ E0).
Qed.

Lemma keys_unlock h hi h' hi' : hash_iterator_unlock h hi = Some (h', hi') -> keys_all h -> keys_all h'.
Proof.
  unfold hash_iterator_unlock. intros E Hk. destruct (hi_bucket hi) as [i|]; [|by injection E as <- <-].
  destruct (hi_bucket_marked hi); [|by injection E as <- <-]. unfold hash_remove_marked in E.
  destruct (h_buckets h !! i) as [b|] eqn:Eb; [|done]. cbn [mbind option_bind] in E. destruct (remove_marked_loop b _) as [b' n] eqn:Er.
  injection E as <- <-. apply Forall_insert; [done|]. by apply (keys_remove_marked _ _ _ _ Er), (keys_bucket h i).
Qed.

Lemma keys_next_loop fuel : forall h hi he h' hi', next_loop fuel h hi = Some (he, h', hi') -> keys_all h -> keys_all h'.
Proof.
  induction fuel as [|fuel IH]; intros h hi he h' hi' E Hk; cbn [next_loop] in E; (destruct (_ <? _) eqn:Elt; [|by injection E as <- <- <-]); [done|].
  destruct (hash_iterator_unlock h _) as [[h1 hi1]|] eqn:Eu; [|done]. cbn [mbind option_bind] in E. pose proof (keys_unlock _ _ _ _ Eu Hk) as Hk1.
  destruct (h_buckets h1 !! _) as [[|e b]|]; [by apply (IH _ _ _ _ _ E)| |done].
  cbn [mbind option_bind] in E. destruct (hash_iterator_advance h1 _) as [[? ?]|]; [|done]. by injection E as <- <- <-.
Qed.

Lemma keys_next h hi he h' hi' : hash_iterator_next h hi = Some (he, h', hi') -> keys_all h -> keys_all h'.
Proof.
  unfold hash_iterator_next. intros E Hk. destruct (hi_elem hi); [|by apply (keys_next_loop _ _ _ _ _ _ E)].
  destruct (hash_iterator_advance h hi) as [[? ?]|]; [|done]. by injection E as <- <- <-.
Qed.

Lemma keys_delete_element h hi h' hi' : hash_iterator_delete_element h hi = Some (h', hi') -> keys_all h -> keys_all h'.
Proof.
  unfold hash_iterator_delete_element. intros E Hk. destruct (hi_last hi) as [p|]; [|done]. destruct (hi_bucket hi) as [i|]; [|done]. cbn [mbind option_bind] in E.
  destruct (h_buckets h !! i) as [b|] eqn:Eb; [|done]. cbn [mbind option_bind] in E. destruct (b !! p) as [e|]; [|done]. injection E as <- <-.
  apply keys_set_bucket; [done|]. apply Forall_insert; [|done]. by apply (keys_bucket h i).
Qed.

Lemma keys_iterate {St} fuel (body : @hash_element K V -> St -> option (bool * St)) : forall h hi s l h' hi' s',
  iterate fuel h hi body s = Some (l, h', hi', s') -> keys_all h -> keys_all h'.
Proof.
  induction fuel as [|fuel IH]; intros h hi s l h' hi' s' E Hk; cbn [iterate] in E; [done|].
  destruct (hash_iterator_next h hi) as [[[he h1] hi1]|] eqn:En; [|done]. cbn [mbind option_bind] in E. pose proof (keys_next _ _ _ _ _ En Hk) as Hk1.
  destruct he as [he|]; [|by injection E as <- <- <- <-]. destruct (body he s) as [[d s1]|]; [|done]. cbn [mbind option_bind] in E.
  destruct (if d then hash_iterator_delete_element h1 hi1 else Some (h1, hi1)) as [[h2 hi2]|] eqn:Ed; [|done]. cbn [mbind option_bind] in E.
  assert (Hk2 : keys_all h2) by (destruct d; [by apply (keys_delete_element _ _ _ _ Ed)|by injection Ed as <- <-]).
  destruct (iterate fuel h2 hi2 body s1) as [[[[l0 h3] hi3] s3]|] eqn:Ei; [|done]. injection E as <- <- <- <-. by apply (IH _ _ _ _ _ _ _ Ei).
Qed.

Lemma keys_iterator_free h hi h' : hash_iterator_free h hi = Some h' -> keys_all h -> keys_all h'.
Proof.
  unfold hash_iterator_free. intros E Hk. destruct (hash_iterator_unlock h hi) as [[h1 hi1]|] eqn:Eu; [|done]. injection E as <-. by apply (keys_unlock _ _ _ _ Eu).
Qed.

Lemma keys_remove_by_value h v h' : hash_remove_by_value h v = Some h' -> keys_all h -> keys_all h'.
Proof.
  unfold hash_remove_by_value. intros E Hk. destruct (hash_iterator_init h) as [hi|]; [|done]. cbn [mbind option_bind] in E.
  destruct (iterate _ _ _ _ _) as [[[[l h1] hi1] s]|] eqn:Ei; [|done]. cbn [mbind option_bind] in E.
  by apply (keys_iterator_free _ _ _ E), (keys_iterate _ _ _ _ _ _ _ _ _ Ei).
Qed.

End keys.

(** ** Addresses as keys *)

(** What the comparison of addresses looks at. *)
Definition mroute_key (a : mroute_addr) : Z * Z * Z * Z * list Z :=
  (ma_type a, ma_proto a, ma_netbits a, ma_len a, addr_bytes a).

(** The comparison and the hash of addresses agree: the bytes that are hashed are compared. *)
Lemma mroute_key_laws : key_laws mroute_addr_hash_function mroute_addr_compare_function mroute_key.
Proof.
  split.
  - intros a1 a2. unfold mroute_addr_compare_function, mroute_addr_equal, mroute_key, addr_bytes.
    destruct (Z.eqb_spec (ma_type a1) (ma_type a2)), (Z.eqb_spec (ma_proto a1) (ma_proto a2)), (Z.eqb_spec (ma_netbits a1) (ma_netbits a2)),
      (Z.eqb_spec (ma_len a1) (ma_len a2)); cbn [negb]; try (symmetry; apply bool_decide_eq_false_2; congruence).
    apply bool_decide_ext. split; [intros ->; congruence|congruence].
  - intros a1 a2 iv [= Et Ep En El Eb]. unfold mroute_addr_hash_function. f_equal. unfold mroute_addr_hash_len, mroute_addr_hash_ptr.
    rewrite <- Ep, <- Et, <- En, <- El in *. unfold addr_bytes in Eb. rewrite <- El in Eb. destruct (Z.le_gt_cases 0 (ma_len a1)).
    + replace (Z.to_nat (ma_len a1 + 3)) with (3 + Z.to_nat (ma_len a1))%nat by lia. cbn [take Nat.add]. by rewrite Eb.
    + assert (Z.to_nat (ma_len a1 + 3) < 3)%nat by lia. destruct (Z.to_nat (ma_len a1 + 3)) as [|[|[|?]]]; done || lia.
Qed.

Module HashDemo.

Definition addr (x : Z) : mroute_addr := mk_ma 4 0 MR_ADDR_IPV4 0 (10 :: 8 :: 0 :: x :: replicate 16 0).

Definition ops : list (@hash_op mroute_addr nat) :=
  [OpAdd (addr 1) 11%nat false; OpAdd (addr 2) 12%nat false; OpAdd (addr 1) 13%nat false; OpLookup (addr 1); OpAdd (addr 1) 14%nat true;
   OpLookup (addr 1); OpLookup (addr 3); OpAdd (addr 3) 12%nat false; OpRemove (addr 1); OpRemove (addr 1); OpRemoveByValue 12%nat; OpLookup (addr 3)].

Example demo :
  (h ← hash_init 1 77; hash_run mroute_addr_hash_function mroute_addr_compare_function h ops) =
  Some [ResBool true; ResBool true; ResBool false; ResValue (Some 11%nat); ResBool true; ResValue (Some 14%nat); ResValue None; ResBool true;
    ResBool true; ResBool false; ResUnit; ResValue None].
Proof. vm_compute. reflexivity. Qed.

Lemma hash_refines_map_witness :
  exists h : @hash mroute_addr nat, hash_init 5 77 = Some h /\
    hash_run mroute_addr_hash_function mroute_addr_compare_function h ops = Some (map_run mroute_key ∅ ops).
Proof. apply (hash_refines_map _ _ _ 5 77 ops mroute_key_laws); lia. Defined.

Definition table : @hash mroute_addr nat :=
  match (h ← hash_init 5 77; hash_lookup mroute_addr_hash_function mroute_addr_compare_function h (addr 0)) with
  | Some (_, h) => h | None => mk_hash 0 0 0 0 []
  end.

Lemma table_inv : hash_inv mroute_addr_hash_function mroute_key table ∅.
Proof.
  destruct mroute_key_laws as [Hc Hh]. destruct (init_inv (V := nat) mroute_addr_hash_function mroute_key 5 77) as (h & E & Hi); [lia|].
  destruct (hash_lookup_ok _ _ _ Hc Hh h ∅ (addr 0) Hi) as (h' & E' & Hi'). unfold table. by rewrite E, Some_bind, E'.
Qed.

(** A table with two entries. *)
Definition table2 : option hash :=
  '(_, h) ← hash_add mroute_addr_hash_function mroute_addr_compare_function table (addr 1) 11%nat false;
  '(_, h) ← hash_add mroute_addr_hash_function mroute_addr_compare_function h (addr 2) 12%nat false; Some h.

Lemma table2_inv : exists h M, table2 = Some h /\ hash_inv mroute_addr_hash_function mroute_key h M /\ h_n_buckets h = 8.
Proof.
  destruct mroute_key_laws as [Hc Hh]. destruct (hash_add_ok _ _ _ Hc Hh _ _ (addr 1) 11%nat false table_inv) as (h1 & E1 & Hi1).
  destruct (hash_add_ok _ _ _ Hc Hh _ _ (addr 2) 12%nat false Hi1) as (h2 & E2 & Hi2).
  assert (E : table2 = Some h2) by (unfold table2; by rewrite E1, Some_bind, E2, Some_bind).
  exists h2. eexists. split; [exact E|]. split; [exact Hi2|]. assert (En : h_n_buckets <$> table2 = Some 8) by (vm_compute; reflexivity).
  rewrite E in En. by injection En.
Qed.

Lemma hash_iteration_exact_witness :
  exists h (M : gmap (Z * Z * Z * Z * list Z) nat) hi l h1 hi1 h' (M' : gmap (Z * Z * Z * Z * list Z) nat), table2 = Some h /\ hash_iterator_init_range h 0 100 = Some hi /\
    iterate (iterate_fuel h) h hi (fun e _ => Some (Nat.even (he_value e), tt)) tt = Some (l, h1, hi1, tt) /\
    hash_iterator_free h1 hi1 = Some h' /\ NoDup (pairs mroute_key l) /\
    (forall k v, (mroute_key k, v) ∈ pairs mroute_key l <-> M !! mroute_key k = Some v /\ 0 <= place mroute_addr_hash_function h k < 100) /\
    hash_inv mroute_addr_hash_function mroute_key h' M' /\
    (forall k, M' !! mroute_key k = v ← M !! mroute_key k;
       if (0 <=? place mroute_addr_hash_function h k) && (place mroute_addr_hash_function h k <? 100) && Nat.even v then None else Some v).
Proof.
  destruct table2_inv as (h & M & E & Hi & En). assert (Hr : 0 <= 0 <= Z.min 100 (h_n_buckets h)) by (rewrite En; lia).
  destruct (hash_iteration_exact _ _ _ h M 0 100 Nat.even mroute_key_laws Hi Hr) as (hi & l & h1 & hi1 & h' & M' & Hall).
  exists h, M, hi, l, h1, hi1, h', M'. split; [exact E|exact Hall].
Defined.

End HashDemo.
