(* ===== verification/Routes.v ===== *)
(** * Routes to clients: the virtual address table of [multi.c]

    The table maps addresses and networks to [struct multi_route]s, which are in a memory of
    their own ([m_routes]); a route points to an instance, which is counted and freed with its last
    reference.  An access to what has been freed is [None].  A new route gets a place that is not
    in use.  The keys of the table are pointers into the routes, and a search of the table reads
    what they point to.  [learn_ok] is what the plugin and the script for [learn-address] say. *)
From S2P Require Import Prelude Integers Buffer Proto HashTable Mroute.

Definition MULTI_ROUTE_CACHE : Z := Z.shiftl 1 0.
Definition MULTI_ROUTE_AGEABLE : Z := Z.shiftl 1 1.

(** A network, in host order, and its prefix length. *)
Record iroute := mk_ir { ir_network : Z; ir_netbits : Z }.
Record iroute_ipv6 := mk_ir6 { ir6_network : list Z; ir6_netbits : Z }.

Record multi_instance := mk_mi {
  mi_halt : bool;
  mi_refcount : Z;
  mi_route_count : Z;
  mi_max_routes_per_client : Z;
  mi_did_iroutes : bool;
  mi_iroutes : list iroute;
  mi_iroutes_ipv6 : list iroute_ipv6
}.

Record multi_route := mk_mr {
  mr_addr : mroute_addr;
  mr_instance : nat;
  mr_flags : Z;
  mr_cache_generation : Z;
  mr_last_reference : Z
}.

(** A pointer to an address: the route that it is a part of, [&route->addr], or [None] for one
    on the stack, and the address that was there when the pointer was taken. *)
Record addr_ptr := mk_ptr { pt_route : option nat; pt_addr : mroute_addr }.

Abbreviation vhash_element := (@hash_element addr_ptr nat).

Record multi_context := mk_m {
  m_vhash : @hash addr_ptr nat;
  m_routes : gmap nat multi_route;
  m_instances : gmap nat multi_instance;
  m_route_helper : mroute_helper;
  m_local : mroute_addr
}.

Definition set_vhash (m : multi_context) h := mk_m h (m_routes m) (m_instances m) (m_route_helper m) (m_local m).
Definition set_routes (m : multi_context) R := mk_m (m_vhash m) R (m_instances m) (m_route_helper m) (m_local m).
Definition set_instance (m : multi_context) i mi := mk_m (m_vhash m) (m_routes m) (<[i := mi]> (m_instances m)) (m_route_helper m) (m_local m).
Definition set_helper (m : multi_context) rh := mk_m (m_vhash m) (m_routes m) (m_instances m) rh (m_local m).

(** ** Reference counts and quotas *)

Definition route_quota_inc (mi : multi_instance) : multi_instance :=
  mk_mi (mi_halt mi) (mi_refcount mi) (mi_route_count mi + 1) (mi_max_routes_per_client mi) (mi_did_iroutes mi) (mi_iroutes mi) (mi_iroutes_ipv6 mi).
Definition route_quota_dec (mi : multi_instance) : multi_instance :=
  mk_mi (mi_halt mi) (mi_refcount mi) (mi_route_count mi - 1) (mi_max_routes_per_client mi) (mi_did_iroutes mi) (mi_iroutes mi) (mi_iroutes_ipv6 mi).
Definition route_quota_test (mi : multi_instance) : bool := negb (mi_max_routes_per_client mi <=? mi_route_count mi).

Definition set_refcount (mi : multi_instance) (n : Z) : multi_instance :=
  mk_mi (mi_halt mi) n (mi_route_count mi) (mi_max_routes_per_client mi) (mi_did_iroutes mi) (mi_iroutes mi) (mi_iroutes_ipv6 mi).
Definition multi_instance_inc_refcount (mi : multi_instance) : multi_instance := set_refcount mi (mi_refcount mi + 1).

(** The last reference frees the instance. *)
Definition multi_instance_dec_refcount (m : multi_context) (i : nat) : option multi_context :=
  mi ← m_instances m !! i;
  let mi := set_refcount mi (mi_refcount mi - 1) in
  Some (if mi_refcount mi <=? 0 then mk_m (m_vhash m) (m_routes m) (delete i (m_instances m)) (m_route_helper m) (m_local m)
        else set_instance m i mi).

Definition multi_route_del (m : multi_context) (route : nat) : option multi_context :=
  r ← m_routes m !! route;
  mi ← m_instances m !! mr_instance r;
  let m := set_instance m (mr_instance r) (route_quota_dec mi) in
  m ← multi_instance_dec_refcount m (mr_instance r);
  Some (set_routes m (delete route (m_routes m))).

Definition multi_route_defined (m : multi_context) (r : multi_route) (now : Z) : option bool :=
  mi ← m_instances m !! mr_instance r;
  Some (if mi_halt mi then false
        else if negb (Z.land (mr_flags r) MULTI_ROUTE_CACHE =? 0) && negb (mr_cache_generation r =? mh_cache_generation (m_route_helper m)) then false
        else if negb (Z.land (mr_flags r) MULTI_ROUTE_AGEABLE =? 0) && (mr_last_reference r + mh_ageable_ttl_secs (m_route_helper m) <? now) then false
        else true).

(** A route of the table and whether it is defined. *)
Definition defined_route (m : multi_context) (id : option nat) (now : Z) : option (option (nat * multi_route)) :=
  match id with
  | Some id =>
      r ← m_routes m !! id;
      d ← multi_route_defined m r now;
      Some (if d : bool then Some (id, r) else None)
  | None => Some None
  end.

(** ** The table

    A search compares with the keys of the bucket that have its hash value: the routes that they
    point into have to be there, with the address that the key was made of. *)

Definition vhash_hash_function (key : addr_ptr) (iv : Z) : Z := mroute_addr_hash_function (pt_addr key) iv.
Definition vhash_compare_function (key1 key2 : addr_ptr) : bool := mroute_addr_compare_function (pt_addr key1) (pt_addr key2).

Definition readable (m : multi_context) (key : addr_ptr) : bool :=
  match pt_route key with
  | Some route => match m_routes m !! route with Some r => mroute_addr_equal (mr_addr r) (pt_addr key) | None => false end
  | None => false
  end.

Definition vhash_lookup_fast (m : multi_context) (bucket : nat) (addr : mroute_addr) (hv : Z) : option (option vhash_element * multi_context) :=
  b ← h_buckets (m_vhash m) !! bucket;
  ASSERT (forallb (fun he => match he_key he with Some key => negb (hv =? he_hash_value he) || readable m key | None => true end) b);;
  '(he, h) ← hash_lookup_fast vhash_compare_function (m_vhash m) bucket (mk_ptr None addr) hv;
  Some (he, set_vhash m h).

Definition vhash_value (m : multi_context) (addr : mroute_addr) : Z := hash_value vhash_hash_function (m_vhash m) (mk_ptr None addr).

Definition vhash_lookup (m : multi_context) (addr : mroute_addr) : option (option nat * multi_context) :=
  let hv := vhash_value m addr in
  match vhash_lookup_fast m (hash_bucket (m_vhash m) hv) addr hv with
  | Some (he, m) => Some (he_value <$> he, m)
  | None => None
  end.

(** [&route->addr] *)
Definition route_addr (m : multi_context) (route : nat) : option addr_ptr :=
  r ← m_routes m !! route; Some (mk_ptr (Some route) (mr_addr r)).

(** ** Learning *)

(** [he->key = &newroute->addr; he->value = newroute] *)
Definition replace_head (h : @hash addr_ptr nat) (i : nat) (key : addr_ptr) (value : nat) : option hash :=
  b ← h_buckets h !! i;
  match b with
  | [] => None
  | he :: l => Some (set_bucket h i (mk_he value (Some key) (he_hash_value he) :: l))
  end.

Definition multi_learn_addr (m : multi_context) (mi : nat) (addr : mroute_addr) (flags now : Z) (learn_ok : mroute_addr -> bool)
  : option (option nat * multi_context) :=
  let hv := vhash_value m addr in
  let bucket := hash_bucket (m_vhash m) hv in
  '(he, m) ← vhash_lookup_fast m bucket addr hv;
  let oldroute := he_value <$> he in
  d ← defined_route m oldroute now;
  let owner := (fun ir => mr_instance ir.2) <$> d in
  if bool_decide (owner = Some mi) then Some (owner, m)
  else
    learnable ← mroute_learnable_address addr;
    if learnable && negb (mroute_addr_equal addr (m_local m)) then
      let newroute := mk_mr addr mi flags (if Z.land flags MULTI_ROUTE_CACHE =? 0 then 0 else mh_cache_generation (m_route_helper m)) now in
      inst ← m_instances m !! mi;
      if route_quota_test inst && learn_ok addr then
        let m := set_instance m mi (route_quota_inc (multi_instance_inc_refcount inst)) in
        let new := fresh (dom (m_routes m)) in
        let m := set_routes m (<[new := newroute]> (m_routes m)) in
        m ← (match oldroute with
             | Some old =>
                 m ← multi_route_del m old;
                 key ← route_addr m new;
                 h ← replace_head (m_vhash m) bucket key new; Some (set_vhash m h)
             | None =>
                 key ← route_addr m new;
                 h ← hash_add_fast (m_vhash m) bucket key hv new; Some (set_vhash m h)
             end);
        Some (Some mi, m)
      else Some (owner, m)
    else Some (owner, m).

(** ** Lookup *)

Fixpoint cidr_loop (net_len : list Z) (m : multi_context) (addr : mroute_addr) (now : Z) (learn_ok : mroute_addr -> bool)
  : option (option nat * multi_context) :=
  match net_len with
  | [] => Some (None, m)
  | n :: net_len =>
      let tryaddr := set_netbits (set_type addr (Z.lor (ma_type addr) MR_WITH_NETBITS)) n in
      tryaddr ← mroute_addr_mask_host_bits tryaddr;
      '(route, m) ← vhash_lookup m tryaddr;
      d ← defined_route m route now;
      match d with
      | Some (_, r) =>
          '(_, m) ← multi_learn_addr m (mr_instance r) addr (Z.lor MULTI_ROUTE_CACHE MULTI_ROUTE_AGEABLE) now learn_ok;
          Some (Some (mr_instance r), m)
      | None => cidr_loop net_len m addr now learn_ok
      end
  end.

Definition multi_get_instance_by_virtual_addr (m : multi_context) (addr : mroute_addr) (cidr_routing : bool) (now : Z) (learn_ok : mroute_addr -> bool)
  : option (option nat * multi_context) :=
  if mroute_addr_equal addr (m_local m) then Some (None, m)
  else
    '(route, m) ← vhash_lookup m addr;
    d ← defined_route m route now;
    '(ret, m) ← (match d with
                 | Some (id, r) =>
                     let r' := mk_mr (mr_addr r) (mr_instance r) (mr_flags r) (mr_cache_generation r) now in
                     Some (Some (mr_instance r), set_routes m (<[id := r']> (m_routes m)))
                 | None =>
                     if cidr_routing then
                       cidr_loop (take (Z.to_nat (mh_n_net_len (m_route_helper m))) (mh_net_len (m_route_helper m))) m addr now learn_ok
                     else Some (None, m)
                 end);
    match ret with
    | Some i => mi ← m_instances m !! i; ASSERT (negb (mi_halt mi));; Some (ret, m)
    | None => Some (None, m)
    end.

(** ** Routes of clients *)

(** [a] in host order; [netbits] is -1 for a host route.  The kernel's routes for data channel
    offload are not modelled. *)
Definition multi_learn_in_addr_t (m : multi_context) (mi : nat) (a netbits : Z) (primary : bool) (now : Z) (learn_ok : mroute_addr -> bool)
  : option (option nat * multi_context) :=
  let '(ok, addr) := mroute_extract_openvpn_sockaddr mroute_addr_init (SockIn4 (be_bytes 4 a) [0; 0]) false in
  ASSERT ok;;
  let addr := if 0 <=? netbits then set_netbits (set_type addr (Z.lor (ma_type addr) MR_WITH_NETBITS)) netbits else addr in
  '(owner, m) ← multi_learn_addr m mi addr 0 now learn_ok;
  ASSERT (primary || (0 <=? netbits));; Some (owner, m).

Definition multi_learn_in6_addr (m : multi_context) (mi : nat) (a6 : list Z) (netbits : Z) (primary : bool) (now : Z) (learn_ok : mroute_addr -> bool)
  : option (option nat * multi_context) :=
  let addr := set_addr mroute_addr_init MR_ADDR_IPV6 16 a6 in
  addr ← (if 0 <=? netbits then mroute_addr_mask_host_bits (set_netbits (set_type addr (Z.lor (ma_type addr) MR_WITH_NETBITS)) netbits)
          else Some addr);
  '(owner, m) ← multi_learn_addr m mi addr 0 now learn_ok;
  ASSERT (primary || (0 <=? netbits));; Some (owner, m).

Fixpoint add_iroutes_loop (l : list iroute) (m : multi_context) (mi : nat) (now : Z) (learn_ok : mroute_addr -> bool) : option multi_context :=
  match l with
  | [] => Some m
  | ir :: l =>
      rh ← mroute_helper_add_iroute46 (m_route_helper m) (ir_netbits ir);
      '(_, m) ← multi_learn_in_addr_t (set_helper m rh) mi (ir_network ir) (ir_netbits ir) false now learn_ok;
      add_iroutes_loop l m mi now learn_ok
  end.

Fixpoint add_iroutes6_loop (l : list iroute_ipv6) (m : multi_context) (mi : nat) (now : Z) (learn_ok : mroute_addr -> bool) : option multi_context :=
  match l with
  | [] => Some m
  | ir :: l =>
      rh ← mroute_helper_add_iroute46 (m_route_helper m) (ir6_netbits ir);
      '(_, m) ← multi_learn_in6_addr (set_helper m rh) mi (ir6_network ir) (ir6_netbits ir) false now learn_ok;
      add_iroutes6_loop l m mi now learn_ok
  end.

Definition set_did_iroutes (mi : multi_instance) (b : bool) : multi_instance :=
  mk_mi (mi_halt mi) (mi_refcount mi) (mi_route_count mi) (mi_max_routes_per_client mi) b (mi_iroutes mi) (mi_iroutes_ipv6 mi).

Definition multi_add_iroutes (m : multi_context) (mi : nat) (tunnel_type : dev_type) (now : Z) (learn_ok : mroute_addr -> bool) : option multi_context :=
  match tunnel_type with
  | DEV_TYPE_TUN =>
      inst ← m_instances m !! mi;
      let m := set_instance m mi (set_did_iroutes inst true) in
      m ← add_iroutes_loop (mi_iroutes inst) m mi now learn_ok;
      add_iroutes6_loop (mi_iroutes_ipv6 inst) m mi now learn_ok
  | _ => Some m
  end.

Fixpoint del_netbits_loop (l : list Z) (rh : mroute_helper) : option mroute_helper :=
  match l with
  | [] => Some rh
  | n :: l => rh ← mroute_helper_del_iroute46 rh n; del_netbits_loop l rh
  end.

Definition multi_del_iroutes (m : multi_context) (mi : nat) (tunnel_type : dev_type) : option multi_context :=
  match tunnel_type with
  | DEV_TYPE_TUN =>
      inst ← m_instances m !! mi;
      rh ← del_netbits_loop (ir_netbits <$> mi_iroutes inst) (m_route_helper m);
      rh ← del_netbits_loop (ir6_netbits <$> mi_iroutes_ipv6 inst) rh;
      Some (set_helper m rh)
  | _ => Some m
  end.

(** What the end of a client does to the routes. *)
Definition multi_close_instance (m : multi_context) (mi : nat) (tunnel_type : dev_type) : option multi_context :=
  inst ← m_instances m !! mi;
  ASSERT (negb (mi_halt inst));;
  let inst := mk_mi true (mi_refcount inst) (mi_route_count inst) (mi_max_routes_per_client inst) (mi_did_iroutes inst) (mi_iroutes inst) (mi_iroutes_ipv6 inst) in
  let m := set_instance m mi inst in
  m ← (if mi_did_iroutes inst then
         m ← multi_del_iroutes m mi tunnel_type;
         Some (set_instance m mi (set_did_iroutes inst false))
       else Some m);
  multi_instance_dec_refcount m mi.

(** ** Unlearning and reaping *)

Definition multi_unlearn_addr (m : multi_context) (mi : nat) (addr : mroute_addr) : option multi_context :=
  let hv := vhash_value m addr in
  let bucket := hash_bucket (m_vhash m) hv in
  '(he, m) ← vhash_lookup_fast m bucket addr hv;
  match he_value <$> he with
  | Some id =>
      r ← m_routes m !! id;
      if bool_decide (mr_instance r = mi) then
        h ← hash_remove_by_value (m_vhash m) id;
        multi_route_del (set_vhash m h) id
      else Some m
  | None => Some m
  end.

(** Undefined routes are deleted. *)
Definition reap_body (now : Z) (he : vhash_element) (m : multi_context) : option (bool * multi_context) :=
  r ← m_routes m !! he_value he;
  d ← multi_route_defined m r now;
  if d : bool then Some (false, m) else m ← multi_route_del m (he_value he); Some (true, m).

Definition multi_reap_range (m : multi_context) (start_bucket end_bucket now : Z) : option multi_context :=
  hi ← hash_iterator_init_range (m_vhash m) start_bucket end_bucket;
  '(_, h, hi, m) ← iterate (iterate_fuel (m_vhash m)) (m_vhash m) hi (reap_body now) m;
  h ← hash_iterator_free h hi;
  Some (set_vhash m h).

Definition multi_reap_all (m : multi_context) (now : Z) : option multi_context := multi_reap_range m 0 (h_n_buckets (m_vhash m)) now.

(** Routes that nobody has used for a time are deleted as well. *)
Definition stale_body (ageing_time now : Z) (he : vhash_element) (m : multi_context) : option (bool * multi_context) :=
  r ← m_routes m !! he_value he;
  d ← multi_route_defined m r now;
  if (d : bool) && (ageing_time <=? now - mr_last_reference r) then m ← multi_route_del m (he_value he); Some (true, m) else Some (false, m).

Definition check_stale_routes (m : multi_context) (ageing_time now : Z) : option multi_context :=
  hi ← hash_iterator_init_range (m_vhash m) 0 (h_n_buckets (m_vhash m));
  '(_, h, hi, m) ← iterate (iterate_fuel (m_vhash m)) (m_vhash m) hi (stale_body ageing_time now) m;
  h ← hash_iterator_free h hi;
  Some (set_vhash m h).

Record multi_reap := mk_reap { mre_bucket_base : Z; mre_buckets_per_pass : Z; mre_last_call : Z }.

Definition multi_reap_new (buckets_per_pass now : Z) : multi_reap := mk_reap 0 buckets_per_pass now.

Definition multi_reap_process_dowork (m : multi_context) (mr : multi_reap) (now : Z) : option (multi_context * multi_reap) :=
  let base := if h_n_buckets (m_vhash m) <=? mre_bucket_base mr then 0 else mre_bucket_base mr in
  m ← multi_reap_range m base (base +u mre_buckets_per_pass mr) now;
  Some (m, mk_reap (base +u mre_buckets_per_pass mr) (mre_buckets_per_pass mr) now).

Definition reap_buckets_per_pass (n_buckets : Z) : Z := constrain_uint (n_buckets / 256) 16 1024.

(** ** Packets of clients *)

(** The identifier in an 802.1Q header: the two bytes at [i] without the high four bits. *)
Definition vlanhdr_get_vid (b : buffer) (i : Z) : option Z :=
  x ← rd b i; y ← rd b (i + 1); Some (Z.land x 15 * 256 + y).

Definition SIZEOF_8021QHDR : Z := 18.

Definition vlan_is_tagged (b : buffer) : option bool :=
  if buf_len b <? SIZEOF_8021QHDR then Some false
  else
    tpid ← rd_bytes b 12 2;
    if be_val tpid =? OPENVPN_ETH_P_8021Q then vid ← vlanhdr_get_vid b 14; Some (negb (vid =? 0)) else Some false.

(** What becomes of a packet of a client: it is dropped, given to the tun or tap device with or
    without a copy for all other clients, or given to a client instead. *)
Inductive verdict := Drop | ToTun | ToTunAndClients | ToClient (i : nat).

(** [src] and [dest]: what the variables on the stack hold before.  [vlan_tagging]: [None] when the
    option is off, or the client's [vlan_pvid].  Emptying the buffer, [c->c2.to_tun.len = 0], is
    [Drop]; a tagged frame is emptied and so has no addresses to extract. *)
Definition multi_process_incoming_link (little : bool) (tunnel_type : dev_type) (m : multi_context) (pending : nat) (to_tun : buffer)
  (src dest : mroute_addr) (vlan_tagging : option Z) (enable_c2c : bool) (now : Z) (learn_ok : mroute_addr -> bool)
  : option (verdict * multi_context) :=
  match tunnel_type with
  | DEV_TYPE_TUN =>
      '(mroute_flags, src, dest) ← mroute_extract_addr_from_packet little src dest 0 to_tun DEV_TYPE_TUN;
      src ← src; dest ← dest;
      if Z.land mroute_flags MROUTE_EXTRACT_SUCCEEDED =? 0 then Some (Drop, m)
      else
        '(owner, m) ← multi_get_instance_by_virtual_addr m src true now learn_ok;
        if negb (bool_decide (owner = Some pending)) then Some (Drop, m)
        else if enable_c2c then
          if negb (Z.land mroute_flags MROUTE_EXTRACT_MCAST =? 0) then Some (ToTunAndClients, m)
          else
            ASSERT (Z.land mroute_flags MROUTE_EXTRACT_BCAST =? 0);;
            '(mi, m) ← multi_get_instance_by_virtual_addr m dest true now learn_ok;
            Some (match mi with Some i => ToClient i | None => ToTun end, m)
        else Some (ToTun, m)
  | DEV_TYPE_TAP =>
      '(to_tun, vid) ← (match vlan_tagging with
                        | Some pvid => tagged ← vlan_is_tagged to_tun; Some (if tagged : bool then (mk_buffer (b_capacity to_tun) (b_offset to_tun) 0 (b_data to_tun), 0) else (to_tun, pvid))
                        | None => Some (to_tun, 0)
                        end);
      '(mroute_flags, src, dest) ← mroute_extract_addr_from_packet little src dest vid to_tun DEV_TYPE_TAP;
      src ← src; dest ← dest;
      if Z.land mroute_flags MROUTE_EXTRACT_SUCCEEDED =? 0 then Some (Drop, m)
      else
        '(owner, m) ← multi_learn_addr m pending src 0 now learn_ok;
        if negb (bool_decide (owner = Some pending)) then Some (Drop, m)
        else if enable_c2c then
          if negb (Z.land mroute_flags (Z.lor MROUTE_EXTRACT_BCAST MROUTE_EXTRACT_MCAST) =? 0) then Some (ToTunAndClients, m)
          else
            '(mi, m) ← multi_get_instance_by_virtual_addr m dest false now learn_ok;
            Some (match mi with Some i => ToClient i | None => ToTun end, m)
        else Some (ToTun, m)
  | DEV_TYPE_OTHER => Some (ToTun, m)
  end.
