(* ===== verification/RouteNet.v ===== *)
(** * Networks, prefix lengths and the instances that own routes

    What the masks do to the numbers; the list of the prefix lengths in use; the references
    that instances have for their routes, and how adding and deleting a route moves them. *)
From S2P Require Import Prelude Integers Buffer Proto HashTable Mroute Hash Routes.

(** ** Masks *)

(** A number of [w] bits without those behind the first [n]. *)
Definition prefix (w n v : Z) : Z := v / 2 ^ (w - n) * 2 ^ (w - n).

Lemma prefix_range w n v : 0 <= v -> 0 <= prefix w n v <= v.
Proof.
  intros Hv. unfold prefix. destruct (Z.le_gt_cases 0 (w - n)) as [H|H].
  - pose proof (Z.pow_pos_nonneg 2 (w - n) ltac:(lia) H). pose proof (Z.mul_div_le v (2 ^ (w - n)) ltac:(lia)).
    pose proof (Z.div_pos v (2 ^ (w - n)) Hv ltac:(lia)). nia.
  - rewrite (Z.pow_neg_r 2 _ H), Z.mul_0_r. lia.
Qed.

Lemma prefix_idem w n v : prefix w n (prefix w n v) = prefix w n v.
Proof.
  unfold prefix. destruct (Z.le_gt_cases 0 (w - n)) as [H|H].
  - pose proof (Z.pow_pos_nonneg 2 (w - n) ltac:(lia) H). by rewrite Z.div_mul by lia.
  - by rewrite (Z.pow_neg_r 2 _ H), !Z.mul_0_r.
Qed.

(** Clearing the low bits with a mask. *)
Lemma land_prefix_mask w k v : 0 <= k <= w -> 0 <= v < 2 ^ w -> Z.land v ((2 ^ w - 1) * 2 ^ k mod 2 ^ w) = v / 2 ^ k * 2 ^ k.
Proof.
  intros Hk Hv. rewrite <- !Z.shiftl_mul_pow2, <- Z.shiftr_div_pow2 by lia. apply Z.bits_inj'. intros i Hi.
  rewrite Z.land_spec. rewrite <- Z.land_ones by lia. rewrite Z.land_spec, !Z.shiftl_spec by lia.
  replace (2 ^ w - 1) with (Z.ones w) by (rewrite Z.ones_equiv; lia). destruct (Z.ltb_spec i k).
  - rewrite !(Z.testbit_neg_r _ (i - k)) by lia. by rewrite andb_false_r.
  - rewrite Z.shiftr_spec by lia. replace (i - k + k) with i by lia. destruct (Z.ltb_spec i w).
    + rewrite !Z.ones_spec_low by lia. by rewrite !andb_true_r.
    + assert (Hb : Z.testbit v i = false); [|by rewrite Hb].
      destruct (Z.eq_dec v 0) as [->|]; [apply Z.bits_0|]. apply Z.bits_above_log2; [lia|].
      assert (Z.log2 v < w) by (apply Z.log2_lt_pow2; lia). lia.
Qed.

Lemma netmask_ok n v : 0 <= n -> 0 <= v < 2 ^ 32 -> Z.land v (netbits_to_netmask n) = prefix 32 n v.
Proof.
  intros Hn Hv. unfold netbits_to_netmask. destruct ((0 <? n) && (n <=? 32)) eqn:E.
  - unfold u32, IPV4_NETMASK_HOST. rewrite Z.shiftl_mul_pow2 by lia. apply (land_prefix_mask 32 (32 - n) v); [lia|exact Hv].
  - rewrite Z.land_0_r. unfold prefix. destruct (Z.eq_dec n 0) as [->|].
    + rewrite Z.div_small by (rewrite Z.sub_0_r; exact Hv). lia.
    + rewrite (Z.pow_neg_r 2 (32 - n)) by lia. lia.
Qed.

Lemma be_bytes_snoc n z : be_bytes (S n) z = be_bytes n (z / 256) ++ [z mod 256].
Proof.
  revert z. induction n as [|n IH]; intros z.
  - cbn. by rewrite Z.div_1_r.
  - change (be_bytes (S (S n)) z) with ((z / 256 ^ Z.of_nat (S n)) mod 256 :: be_bytes (S n) z). rewrite IH. cbn [be_bytes app]. f_equal.
    rewrite Nat2Z.inj_succ, Z.pow_succ_r, Z.div_div by (try apply Z.pow_pos_nonneg; lia). done.
Qed.

Lemma be_bytes_snoc_val n v x : is_u8 x -> be_bytes (S n) (v * 256 + x) = be_bytes n v ++ [x].
Proof.
  intros Hx. unfold is_u8 in Hx. rewrite be_bytes_snoc. rewrite Z.div_add_l, Z.div_small, Z.add_0_r by lia.
  by rewrite Z.add_comm, Z.mod_add, Z.mod_small by lia.
Qed.

(** Clearing the low bits of a byte. *)
Lemma byte_mask x k : is_u8 x -> 0 <= k < 8 -> Z.land x (u8 (Z.shiftl 255 k)) = x / 2 ^ k * 2 ^ k.
Proof. intros Hx Hk. unfold u8. rewrite Z.shiftl_mul_pow2 by lia. apply (land_prefix_mask 8 k x); [lia|exact Hx]. Qed.

(** The loop over the bytes of an address clears its last [bits] bits. *)
Lemma mask_loop_ok n : forall l z bits, length l = n -> bytes l -> 0 <= bits <= 8 * Z.of_nat n ->
  mask_loop n bits (l ++ z) = Some (be_bytes n (be_val l / 2 ^ bits * 2 ^ bits) ++ z, 0).
Proof.
  induction n as [|n IH]; intros l z bits Hl Hb Hbits.
  - apply nil_length_inv in Hl as ->. replace bits with 0 by lia. done.
  - destruct l as [|x l0 _] using rev_ind; [done|]. rewrite length_app in Hl. cbn [length] in Hl.
    apply Forall_app in Hb as [Hb0 Hx]. apply Forall_cons in Hx as [Hx _]. cbn [mask_loop].
    destruct (Z.ltb_spec 0 bits) as [Hpos|Hnon].
    2: { replace bits with 0 by lia. change (2 ^ 0) with 1. rewrite Z.div_1_r, Z.mul_1_r.
         do 3 f_equal. replace (S n) with (length (l0 ++ [x])) by (rewrite length_app; cbn; lia). symmetry. apply be_bytes_be_val.
         apply Forall_app. split; [done|by constructor]. }
    rewrite <- app_assoc. cbn [app]. rewrite be_val_app. cbn [length]. change (256 ^ Z.of_nat 1) with 256.
    replace (be_val [x]) with x by (unfold be_val; cbn [foldl]; lia).
    destruct (Z.leb_spec 8 bits) as [H8|H8].
    + rewrite insert_app_r_alt by lia. replace (n - length l0)%nat with 0%nat by lia. cbn [insert list_insert].
      rewrite (IH l0 (0 :: z)) by (lia || done). do 2 f_equal.
      assert (E : (be_val l0 * 256 + x) / 2 ^ bits * 2 ^ bits = (be_val l0 / 2 ^ (bits - 8) * 2 ^ (bits - 8)) * 256 + 0).
      { replace (2 ^ bits) with (256 * 2 ^ (bits - 8)) by (rewrite <- (Z.pow_add_r 2 8) by lia; f_equal; lia).
        unfold is_u8 in Hx. rewrite <- Z.div_div by lia. rewrite Z.div_add_l, (Z.div_small x), Z.add_0_r by lia. lia. }
      rewrite E, be_bytes_snoc_val by (unfold is_u8; lia). by rewrite <- app_assoc.
    + rewrite lookup_app_r by lia. replace (n - length l0)%nat with 0%nat by lia. cbn [lookup list_lookup]. rewrite Some_bind.
      rewrite insert_app_r_alt by lia. replace (n - length l0)%nat with 0%nat by lia. cbn [insert list_insert].
      rewrite (IH l0 _ 0) by (lia || done). do 2 f_equal. rewrite byte_mask by (done || lia). change (2 ^ 0) with 1. rewrite Z.div_1_r, Z.mul_1_r.
      pose proof (Z.pow_pos_nonneg 2 bits ltac:(lia) ltac:(lia)) as Hp. unfold is_u8 in Hx.
      assert (E : (be_val l0 * 256 + x) / 2 ^ bits * 2 ^ bits = be_val l0 * 256 + x / 2 ^ bits * 2 ^ bits).
      { replace 256 with (2 ^ (8 - bits) * 2 ^ bits) by (rewrite <- Z.pow_add_r by lia; replace (8 - bits + bits) with 8 by lia; done).
        rewrite Z.mul_assoc, Z.div_add_l by lia. lia. }
      rewrite E, be_bytes_snoc_val; [by rewrite <- app_assoc|]. pose proof (Z.mul_div_le x (2 ^ bits) Hp). pose proof (Z.div_pos x (2 ^ bits) ltac:(lia) Hp).
      unfold is_u8. nia.
Qed.

(** ** Keys of networks *)

(** The address of a host, as it is in packets. *)
Record host_addr (a : mroute_addr) : Prop := {
  ha_type : (ma_type a = MR_ADDR_IPV4 /\ ma_len a = 4) \/ (ma_type a = MR_ADDR_IPV6 /\ ma_len a = 16);
  ha_netbits : ma_netbits a = 0;
  ha_raw : length (ma_raw a) = MR_MAX_ADDR_LEN;
  ha_bytes : bytes (ma_raw a)
}.

(** The key of the network of the host [a] with a prefix of [n] bits. *)
Definition net_key (a : mroute_addr) (n : Z) : Z * Z * Z * Z * list Z :=
  (ma_type a + MR_WITH_NETBITS, ma_proto a, n, ma_len a,
   be_bytes (Z.to_nat (ma_len a)) (prefix (8 * ma_len a) n (be_val (addr_bytes a)))).

Lemma take_splice_0 (src d : list Z) n : length src = n -> take n (splice 0 src d) = src.
Proof. intros <-. unfold splice. change (Z.to_nat 0) with 0%nat. rewrite take_0, app_nil_l. apply take_app_length. Qed.

Lemma try_key a n :
  host_addr a -> 0 <= n <= 128 ->
  exists t, mroute_addr_mask_host_bits (set_netbits (set_type a (Z.lor (ma_type a) MR_WITH_NETBITS)) n) = Some t /\ mroute_key t = net_key a n.
Proof.
  intros [Ht Hnb Hl Hb] Hn. unfold mroute_addr_mask_host_bits, set_netbits, set_type, mroute_key, net_key, addr_bytes. cbn [ma_type ma_raw ma_netbits ma_proto ma_len].
  assert (En : u8 n = n) by (apply u8_small; unfold is_u8; lia). unfold MR_MAX_ADDR_LEN in Hl.
  destruct Ht as [[Et El]|[Et El]]; rewrite Et, El.
  - change (Z.land (Z.lor MR_ADDR_IPV4 MR_WITH_NETBITS) MR_ADDR_MASK =? MR_ADDR_IPV4) with true. cbv match. eexists. split; [done|].
    cbn [set_raw ma_type ma_raw ma_netbits ma_proto ma_len]. rewrite En, take_splice_0 by apply length_be_bytes. do 2 f_equal. apply netmask_ok; [lia|].
    pose proof (be_val_range (take 4 (ma_raw a)) (Forall_take _ _ _ Hb)) as Hr. rewrite length_take in Hr.
    replace (256 ^ Z.of_nat (4 `min` length (ma_raw a))) with (2 ^ 32) in Hr by (rewrite Hl; reflexivity). exact Hr.
  - change (Z.land (Z.lor MR_ADDR_IPV6 MR_WITH_NETBITS) MR_ADDR_MASK =? MR_ADDR_IPV4) with false.
    change (Z.land (Z.lor MR_ADDR_IPV6 MR_WITH_NETBITS) MR_ADDR_MASK =? MR_ADDR_IPV6) with true. cbv match. rewrite En.
    pose proof (mask_loop_ok 16 (take 16 (ma_raw a)) [] (128 - n)) as Hm. rewrite !app_nil_r in Hm.
    rewrite Hm; [|by rewrite length_take, Hl|by apply Forall_take|lia]. rewrite Some_bind. cbn [Z.eqb ASSERT]. rewrite Some_bind. eexists. split; [done|].
    cbn [set_raw ma_type ma_raw ma_netbits ma_proto ma_len]. change (Z.to_nat 16) with 16%nat. rewrite take_splice_0 by apply length_be_bytes. done.
Qed.

(** ** The prefix lengths in use *)

(** The lengths below [i] that are counted, the longest first. *)
Fixpoint used_lens (i : nat) (refcount : list Z) : list Z :=
  match i with
  | O => []
  | S i => (if 0 <? default 0 (refcount !! i) then [Z.of_nat i] else []) ++ used_lens i refcount
  end.

Record helper_ok (mh : mroute_helper) : Prop := {
  ho_refcount : length (mh_net_len_refcount mh) = MR_HELPER_NET_LEN;
  ho_net_len : length (mh_net_len mh) = MR_HELPER_NET_LEN;
  ho_used : take (Z.to_nat (mh_n_net_len mh)) (mh_net_len mh) = used_lens MR_HELPER_NET_LEN (mh_net_len_refcount mh)
}.

Lemma in_used_lens i rc n : n ∈ used_lens i rc <-> 0 <= n < Z.of_nat i /\ 0 < default 0 (rc !! Z.to_nat n).
Proof.
  induction i as [|i IH]; cbn [used_lens]; [split; [by intros ?%elem_of_nil|lia]|]. rewrite elem_of_app, IH.
  destruct (Z.ltb_spec 0 (default 0 (rc !! i))) as [Hp|Hp].
  - rewrite list_elem_of_singleton. split; [intros [->|?]; [rewrite Nat2Z.id; lia|lia]|]. intros [Hn Hd].
    destruct (decide (n = Z.of_nat i)); [by left|right; lia].
  - rewrite elem_of_nil. split; [lia|]. intros [Hn Hd]. right. split; [|done]. destruct (decide (n = Z.of_nat i)) as [->|]; [rewrite Nat2Z.id in Hd; lia|lia].
Qed.

(** The longest first. *)
Lemma used_lens_sorted i rc l1 n l2 : used_lens i rc = l1 ++ n :: l2 -> forall k, n < k -> k ∈ used_lens i rc -> k ∈ l1.
Proof.
  revert l1. induction i as [|i IH]; intros l1 E k Hk Hin; cbn [used_lens] in E; [by destruct l1|].
  destruct (0 <? default 0 (rc !! i)) eqn:Hp; cbn [app] in E.
  - destruct l1 as [|x l1].
    + injection E as <- _. apply in_used_lens in Hin. lia.
    + injection E as <- E. apply elem_of_cons. destruct (decide (k = Z.of_nat i)); [by left|right]. apply (IH l1 E k Hk).
      apply in_used_lens. apply in_used_lens in Hin. lia.
  - apply (IH l1 E k Hk). apply in_used_lens. apply in_used_lens in Hin as [Hr Hd]. split; [|done].
    destruct (decide (k = Z.of_nat i)) as [->|]; [rewrite Nat2Z.id in Hd; lia|lia].
Qed.

Lemma used_lens_ext i rc1 rc2 : (forall j, (j < i)%nat -> (0 <? default 0 (rc1 !! j)) = (0 <? default 0 (rc2 !! j))) -> used_lens i rc1 = used_lens i rc2.
Proof.
  induction i as [|i IH]; intros E; [done|]. cbn [used_lens]. rewrite E by lia. f_equal. apply IH. intros j Hj. apply E. lia.
Qed.

Lemma length_used_lens i rc : (length (used_lens i rc) <= i)%nat.
Proof. induction i as [|i IH]; [done|]. cbn [used_lens]. rewrite length_app. destruct (_ <? _); cbn [length]; lia. Qed.

Lemma regenerate_loop_ok i : forall j rc nl, (i <= length rc)%nat -> (i <= 129)%nat -> (i + j <= length nl)%nat ->
  exists nl', regenerate_loop i j rc nl = Some ((j + length (used_lens i rc))%nat, nl') /\ length nl' = length nl /\
    take (j + length (used_lens i rc)) nl' = take j nl ++ used_lens i rc.
Proof.
  induction i as [|i IH]; intros j rc nl Hrc Hi Hnl; cbn [regenerate_loop used_lens].
  - exists nl. by rewrite Nat.add_0_r, app_nil_r.
  - destruct (lookup_lt_is_Some_2 rc i) as [c Hc]; [lia|]. rewrite Hc, Some_bind. cbn [default from_option id].
    destruct (0 <? c).
    + destruct (IH (S j) rc (<[j := u8 (Z.of_nat i)]> nl)) as (nl' & E & El & Et); [lia|lia|rewrite length_insert; lia|].
      exists nl'. rewrite E. rewrite length_insert in El. cbn [app length]. rewrite Nat.add_succ_r. split; [done|]. split; [done|].
      cbn [Nat.add] in Et. rewrite Et. rewrite u8_small by (unfold is_u8; lia).
      rewrite (take_S_r _ _ (Z.of_nat i)) by (apply list_lookup_insert_eq; lia). rewrite take_insert_ge by lia. by rewrite <- app_assoc.
    + destruct (IH j rc nl) as (nl' & E & El & Et); [lia|lia|lia|]. by exists nl'.
Qed.

Lemma regenerate_ok mh :
  length (mh_net_len_refcount mh) = MR_HELPER_NET_LEN -> length (mh_net_len mh) = MR_HELPER_NET_LEN ->
  exists mh', mroute_helper_regenerate mh = Some mh' /\ helper_ok mh' /\ mh_net_len_refcount mh' = mh_net_len_refcount mh /\
    mh_cache_generation mh' = mh_cache_generation mh /\ mh_ageable_ttl_secs mh' = mh_ageable_ttl_secs mh.
Proof.
  intros Hr Hn. unfold mroute_helper_regenerate.
  destruct (regenerate_loop_ok MR_HELPER_NET_LEN 0 (mh_net_len_refcount mh) (mh_net_len mh)) as (nl' & -> & El & Et); [lia|unfold MR_HELPER_NET_LEN; lia|lia|].
  rewrite Some_bind. eexists. split; [done|]. split; [|done]. split; cbn [mh_net_len_refcount mh_net_len mh_n_net_len]; [done|congruence|].
  by rewrite Nat2Z.id.
Qed.

Lemma helper_init_ok ttl : helper_ok (mroute_helper_init ttl).
Proof. split; [done|done|]. vm_compute. reflexivity. Qed.

(** The counts are those of a list of lengths. *)
Definition counted (mh : mroute_helper) (L : list Z) : Prop :=
  helper_ok mh /\ forall n, (n < MR_HELPER_NET_LEN)%nat -> mh_net_len_refcount mh !! n = Some (zlen (filter (fun k => k = Z.of_nat n) L)).

Lemma counted_used mh L n : counted mh L -> 0 <= n < Z.of_nat MR_HELPER_NET_LEN -> n ∈ L -> n ∈ used_lens MR_HELPER_NET_LEN (mh_net_len_refcount mh).
Proof.
  intros [_ Hc] Hn Hin. apply in_used_lens. split; [done|]. rewrite Hc by lia. cbn [default from_option id]. rewrite Z2Nat.id by lia.
  assert (Hf : n ∈ filter (fun k => k = n) L) by (by apply list_elem_of_filter). destruct (filter _ L); [by apply elem_of_nil in Hf|]. cbn [length]. lia.
Qed.

(** Setting one count, and making the list again where it has to be. *)
Lemma set_count_ok mh L L' n c c' (b : bool) :
  counted mh L -> 0 <= n < Z.of_nat MR_HELPER_NET_LEN ->
  c = zlen (filter (fun k => k = n) L) -> c' = zlen (filter (fun k => k = n) L') ->
  (forall m, m <> n -> filter (fun k => k = m) L' = filter (fun k => k = m) L) ->
  (b = false -> (0 <? c) = (0 <? c')) ->
  exists mh', (if b then mroute_helper_regenerate (set_net_refcount mh n c') else Some (set_net_refcount mh n c')) = Some mh' /\ counted mh' L' /\
    mh_cache_generation mh' = mh_cache_generation mh +u 1 /\ mh_ageable_ttl_secs mh' = mh_ageable_ttl_secs mh.
Proof.
  intros [[Hr Hl Hu] Hc] Hn Ec Ec' Hother Hb.
  assert (Hcount : forall m, (m < MR_HELPER_NET_LEN)%nat -> mh_net_len_refcount (set_net_refcount mh n c') !! m = Some (zlen (filter (fun k => k = Z.of_nat m) L'))).
  { intros m Hm. cbn [set_net_refcount mh_net_len_refcount]. destruct (decide (m = Z.to_nat n)) as [->|Hne].
    - rewrite list_lookup_insert_eq by lia. rewrite Z2Nat.id by lia. by rewrite Ec'.
    - rewrite list_lookup_insert_ne by done. rewrite Hc by done. do 3 f_equal. symmetry. apply Hother. lia. }
  assert (Hr' : length (mh_net_len_refcount (set_net_refcount mh n c')) = MR_HELPER_NET_LEN) by (cbn [set_net_refcount mh_net_len_refcount]; by rewrite length_insert).
  destruct b.
  - destruct (regenerate_ok (set_net_refcount mh n c') Hr' Hl) as (mh' & -> & Hok & E1 & E2 & E3). exists mh'. split; [done|]. split; [|done].
    split; [done|]. by rewrite E1.
  - exists (set_net_refcount mh n c'). split; [done|]. split; [|done]. split; [|done]. split; [done|done|]. cbn [set_net_refcount mh_n_net_len mh_net_len]. rewrite Hu.
    apply used_lens_ext. intros j Hj. destruct (decide (j = Z.to_nat n)) as [->|Hne].
    + rewrite Hcount, Hc by done. cbn [default from_option id]. rewrite Z2Nat.id by lia. rewrite <- Ec, <- Ec'. by apply Hb.
    + cbn [set_net_refcount mh_net_len_refcount]. by rewrite list_lookup_insert_ne by done.
Qed.

Lemma filter_eq_cons (n m : Z) (L : list Z) : filter (fun k => k = m) (n :: L) = if decide (n = m) then n :: filter (fun k => k = m) L else filter (fun k => k = m) L.
Proof. rewrite filter_cons. done. Qed.

Lemma add_iroute_ok mh L n :
  counted mh L -> 0 <= n < Z.of_nat MR_HELPER_NET_LEN ->
  exists mh', mroute_helper_add_iroute46 mh n = Some mh' /\ counted mh' (n :: L) /\
    mh_cache_generation mh' = mh_cache_generation mh +u 1 /\ mh_ageable_ttl_secs mh' = mh_ageable_ttl_secs mh.
Proof.
  intros Hc Hn. unfold mroute_helper_add_iroute46. rewrite (proj2 (Z.leb_le 0 n)) by lia. rewrite ASSERT_true, Some_bind by lia.
  rewrite (proj2 Hc) by lia. rewrite Some_bind, Z2Nat.id by lia. apply (set_count_ok mh L (n :: L) n _ _ _ Hc Hn eq_refl).
  - rewrite filter_eq_cons, decide_True by done. cbn [length]. lia.
  - intros m Hm. rewrite filter_eq_cons, decide_False; done.
  - lia.
Qed.

Lemma del_iroute_ok mh L L' n :
  counted mh L -> 0 <= n < Z.of_nat MR_HELPER_NET_LEN -> L ≡ₚ n :: L' ->
  exists mh', mroute_helper_del_iroute46 mh n = Some mh' /\ counted mh' L' /\
    mh_cache_generation mh' = mh_cache_generation mh +u 1 /\ mh_ageable_ttl_secs mh' = mh_ageable_ttl_secs mh.
Proof.
  intros [Hok Hc] Hn Hp. assert (Hc' : counted mh (n :: L')).
  { split; [done|]. intros m Hm. rewrite Hc by done. by rewrite Hp. }
  clear L Hc Hp Hok. unfold mroute_helper_del_iroute46. rewrite (proj2 (Z.leb_le 0 n)) by lia. rewrite ASSERT_true, Some_bind by lia.
  rewrite (proj2 Hc') by lia. rewrite Some_bind, Z2Nat.id by lia. rewrite ASSERT_true, Some_bind by (rewrite filter_eq_cons, decide_True by done; cbn [length]; lia).
  apply (set_count_ok mh (n :: L') L' n _ _ _ Hc' Hn eq_refl).
  - rewrite filter_eq_cons, decide_True by done. cbn [length]. lia.
  - intros m Hm. rewrite filter_eq_cons, decide_False; done.
  - rewrite filter_eq_cons, decide_True by done. cbn [length]. lia.
Qed.

(** ** Routes and the instances they point to

    The reference count of an instance is the number of its routes, and one more while its client
    is there; so a route points to an instance that has not been freed. *)

Definition owned (R : gmap nat multi_route) (i : nat) : Z := Z.of_nat (size (filter (fun ir => mr_instance ir.2 = i) R)).

Record inst_ok (R : gmap nat multi_route) (i : nat) (mi : multi_instance) : Prop := {
  io_routes : mi_route_count mi = owned R i;
  io_refs : mi_refcount mi = owned R i + (if mi_halt mi then 0 else 1);
  io_alive : 0 < mi_refcount mi;
  io_quota : mi_route_count mi <= Z.max 0 (mi_max_routes_per_client mi)
}.

Record refs_ok (m : multi_context) : Prop := {
  ro_owner : forall id r, m_routes m !! id = Some r -> is_Some (m_instances m !! mr_instance r);
  ro_inst : forall i mi, m_instances m !! i = Some mi -> inst_ok (m_routes m) i mi
}.

Definition live (m : multi_context) (i : nat) : bool :=
  match m_instances m !! i with Some mi => negb (mi_halt mi) | None => false end.

(** What the counts do not touch. *)
Definition same_inst (mi mi' : multi_instance) : Prop :=
  mi_halt mi' = mi_halt mi /\ mi_did_iroutes mi' = mi_did_iroutes mi /\ mi_iroutes mi' = mi_iroutes mi /\
  mi_iroutes_ipv6 mi' = mi_iroutes_ipv6 mi /\ mi_max_routes_per_client mi' = mi_max_routes_per_client mi.

(** Instances stay what they are, but those that have ended may be freed. *)
Record inst_rel (m m' : multi_context) : Prop := {
  ir_back : forall i mi', m_instances m' !! i = Some mi' -> exists mi, m_instances m !! i = Some mi /\ same_inst mi mi';
  ir_forth : forall i mi, m_instances m !! i = Some mi -> mi_halt mi = false -> exists mi', m_instances m' !! i = Some mi' /\ same_inst mi mi'
}.

Lemma same_inst_refl mi : same_inst mi mi.
Proof. by repeat split. Qed.

Lemma same_inst_trans a b c : same_inst a b -> same_inst b c -> same_inst a c.
Proof. intros (E1 & E2 & E3 & E4 & E5) (F1 & F2 & F3 & F4 & F5). repeat split; congruence. Qed.

Lemma inst_rel_same m m' : m_instances m' = m_instances m -> inst_rel m m'.
Proof. intros E. split; rewrite E; eauto using same_inst_refl. Qed.

Lemma inst_rel_trans m1 m2 m3 : inst_rel m1 m2 -> inst_rel m2 m3 -> inst_rel m1 m3.
Proof.
  intros [B1 F1] [B2 F2]. split.
  - intros i mi3 H3. destruct (B2 i mi3 H3) as (mi2 & H2 & S2). destruct (B1 i mi2 H2) as (mi1 & H1 & S1). eauto using same_inst_trans.
  - intros i mi1 H1 Hh. destruct (F1 i mi1 H1 Hh) as (mi2 & H2 & S1). destruct (F2 i mi2 H2) as (mi3 & H3 & S2); [by rewrite (proj1 S1)|].
    eauto using same_inst_trans.
Qed.

Lemma inst_rel_live m m' i : inst_rel m m' -> live m' i = live m i.
Proof.
  intros [B F]. unfold live. destruct (m_instances m !! i) as [mi|] eqn:E.
  - destruct (mi_halt mi) eqn:Eh.
    + destruct (m_instances m' !! i) as [mi'|] eqn:E'; [|by rewrite ?Eh]. destruct (B i mi' E') as (mi0 & E0 & (Hh & _)).
      assert (mi0 = mi) as -> by congruence. by rewrite Hh, Eh.
    + destruct (F i mi E Eh) as (mi' & -> & (Hh & _)). by rewrite Hh, Eh.
  - destruct (m_instances m' !! i) as [mi'|] eqn:E'; [|done]. destruct (B i mi' E') as (mi0 & E0 & _). congruence.
Qed.

(** An instance is replaced by one with other counts. *)
Lemma inst_rel_set m m' i mi mi' :
  m_instances m !! i = Some mi -> same_inst mi mi' -> m_instances m' = <[i := mi']> (m_instances m) -> inst_rel m m'.
Proof.
  intros Hi Hs E. split; rewrite E; intros j mj.
  - intros [[<- <-]|[Hne H]]%lookup_insert_Some; eauto using same_inst_refl.
  - intros Hj Hh. destruct (decide (j = i)) as [->|Hne].
    + exists mi'. rewrite lookup_insert_eq. split; [done|]. congruence.
    + exists mj. rewrite lookup_insert_ne by done. eauto using same_inst_refl.
Qed.

(** An instance that has ended is freed. *)
Lemma inst_rel_delete m m' i mi :
  m_instances m !! i = Some mi -> mi_halt mi = true -> m_instances m' = delete i (m_instances m) -> inst_rel m m'.
Proof.
  intros Hi Hh E. split; rewrite E; intros j mj.
  - intros [_ Hj]%lookup_delete_Some. eauto using same_inst_refl.
  - intros Hj Hhj. exists mj. rewrite lookup_delete_ne by congruence. eauto using same_inst_refl.
Qed.

(** ** Counting *)

Lemma owned_nonneg R i : 0 <= owned R i.
Proof. unfold owned. lia. Qed.

Lemma owned_insert R id r i : R !! id = None -> owned (<[id := r]> R) i = owned R i + (if decide (mr_instance r = i) then 1 else 0).
Proof.
  intros Hn. unfold owned. rewrite map_filter_insert. cbn [snd]. destruct (decide (mr_instance r = i)) as [E|E].
  - rewrite map_size_insert_None; [lia|]. by apply map_lookup_filter_None_2; left.
  - rewrite map_filter_delete, delete_id by (by apply map_lookup_filter_None_2; left). lia.
Qed.

Lemma owned_delete R id r i : R !! id = Some r -> owned (delete id R) i = owned R i - (if decide (mr_instance r = i) then 1 else 0).
Proof.
  intros Hr. assert (E : owned (<[id := r]> (delete id R)) i = owned R i) by (by rewrite insert_delete_id).
  rewrite owned_insert in E by apply lookup_delete_eq. lia.
Qed.

Lemma owned_update R id r r' i : R !! id = Some r -> mr_instance r' = mr_instance r -> owned (<[id := r']> R) i = owned R i.
Proof.
  intros Hr E. rewrite <- (insert_delete_eq R), owned_insert by apply lookup_delete_eq. rewrite (owned_delete R id r i Hr), E. lia.
Qed.

Lemma owned_pos R id r : R !! id = Some r -> 0 < owned R (mr_instance r).
Proof.
  intros Hr. pose proof (owned_delete R id r (mr_instance r) Hr) as E. rewrite decide_True in E by done.
  pose proof (owned_nonneg (delete id R) (mr_instance r)). lia.
Qed.

(** ** The steps *)

(** A new route of [i]. *)
Lemma route_add_ok m i mi r new :
  refs_ok m -> m_instances m !! i = Some mi -> route_quota_test mi = true -> m_routes m !! new = None -> mr_instance r = i ->
  let m' := set_routes (set_instance m i (route_quota_inc (multi_instance_inc_refcount mi))) (<[new := r]> (m_routes m)) in
  refs_ok m' /\ inst_rel m m'.
Proof.
  intros [Ho Hi] Hmi Hq Hnew Er m'. unfold route_quota_test in Hq. split; [|by apply (inst_rel_set m m' i mi (route_quota_inc (multi_instance_inc_refcount mi)) Hmi)].
  split; cbn [m' set_routes set_instance m_routes m_instances].
  - intros id r' [[<- <-]|[Hne Hr]]%lookup_insert_Some; [rewrite Er; eexists; apply lookup_insert_eq|].
    apply lookup_insert_is_Some'. right. by apply (Ho id).
  - intros j mj [[<- <-]|[Hne Hj]]%lookup_insert_Some.
    + destruct (Hi i mi Hmi) as [H1 H2 H3 H4]. split; cbn [route_quota_inc multi_instance_inc_refcount set_refcount mi_route_count mi_refcount mi_halt mi_max_routes_per_client];
        rewrite ?(owned_insert _ _ _ _ Hnew), ?decide_True by done; lia.
    + destruct (Hi j mj Hj) as [H1 H2 H3 H4]. split; rewrite ?(owned_insert _ _ _ _ Hnew), ?decide_False by congruence; lia.
Qed.

Lemma route_del_ok m id r :
  refs_ok m -> m_routes m !! id = Some r ->
  exists m', multi_route_del m id = Some m' /\ refs_ok m' /\ inst_rel m m' /\ m_routes m' = delete id (m_routes m) /\
    m_vhash m' = m_vhash m /\ m_route_helper m' = m_route_helper m /\ m_local m' = m_local m.
Proof.
  intros [Ho Hi] Hr. destruct (Ho id r Hr) as [mi Hmi]. destruct (Hi _ mi Hmi) as [H1 H2 H3 H4].
  pose proof (owned_pos _ _ _ Hr) as Hpos. unfold multi_route_del. rewrite Hr, Some_bind, Hmi, Some_bind.
  unfold multi_instance_dec_refcount. cbn [set_instance m_instances]. rewrite lookup_insert_eq, Some_bind.
  cbn [route_quota_dec set_refcount mi_refcount]. destruct (Z.leb_spec (mi_refcount mi - 1) 0) as [Hz|Hz]; rewrite Some_bind; (eexists; split; [done|]).
  - destruct (mi_halt mi) eqn:Eh; [|lia]. split; [|split; [by apply (inst_rel_delete m _ (mr_instance r) mi Hmi Eh); cbn; rewrite delete_insert_eq|done]].
    split; cbn [set_routes m_routes m_instances]; rewrite delete_insert_eq.
    + intros id' r' [Hne Hr']%lookup_delete_Some. apply lookup_delete_is_Some. split; [|by apply (Ho id')].
      intros E. pose proof (owned_delete _ _ _ (mr_instance r) Hr) as Ed. rewrite decide_True in Ed by done.
      assert (Hr2 : delete id (m_routes m) !! id' = Some r') by (by rewrite lookup_delete_ne). apply owned_pos in Hr2. rewrite <- E in Hr2. lia.
    + intros j mj [Hne Hj]%lookup_delete_Some. destruct (Hi j mj Hj) as [G1 G2 G3 G4]. split; rewrite ?(owned_delete _ _ _ _ Hr), ?decide_False by congruence; lia.
  - split; [|split; [by apply (inst_rel_set m _ (mr_instance r) mi (set_refcount (route_quota_dec mi) (mi_refcount mi - 1)) Hmi); [|cbn; rewrite insert_insert_eq]|done]].
    split; cbn [set_routes set_instance m_routes m_instances]; rewrite insert_insert_eq.
    + intros id' r' [Hne Hr']%lookup_delete_Some. apply lookup_insert_is_Some'. right. by apply (Ho id').
    + intros j mj [[<- <-]|[Hne Hj]]%lookup_insert_Some.
      * split; cbn [set_refcount route_quota_dec mi_route_count mi_refcount mi_halt mi_max_routes_per_client]; rewrite ?(owned_delete _ _ _ _ Hr), ?decide_True by done; lia.
      * destruct (Hi j mj Hj) as [G1 G2 G3 G4]. split; rewrite ?(owned_delete _ _ _ _ Hr), ?decide_False by congruence; lia.
Qed.
