(* ===== verification/RouteInv.v ===== *)
(** * The invariant of the routing table

    The hash table and the memory of routes agree, every route is of one of two kinds - one that
    stands for itself, or a cached answer for a host -, and the lengths of the networks of
    connected clients are counted.  A lookup is the search for the longest prefix ([lpm]), with
    the cache [coherent]. *)
From S2P Require Import Prelude Integers Buffer Proto HashTable Mroute Hash Routes RouteNet.

Abbreviation key := (Z * Z * Z * Z * list Z)%type.

(** The key that a pointer stands for. *)
Definition ptr_key (p : addr_ptr) : key := mroute_key (pt_addr p).

Lemma ptr_key_laws : key_laws vhash_hash_function vhash_compare_function ptr_key.
Proof. destruct mroute_key_laws as [Hc Hh]. split; [intros p1 p2; apply Hc|intros p1 p2 iv; apply Hh]. Qed.

Abbreviation vinv := (hash_inv vhash_hash_function ptr_key).

(** The hash table as a map. *)
Definition hmap (h : @hash addr_ptr nat) : gmap key nat := list_to_map (pairs ptr_key (concat (h_buckets h))).

(** Every key points into the route that is its value. *)
Abbreviation own_keys := (keys_all (fun (p : addr_ptr) (id : nat) => pt_route p = Some id)).

Lemma hmap_inv h M : vinv h M -> hmap h = M.
Proof. intros Hi. symmetry. apply (hv_map _ _ _ _ Hi). Qed.

(** The route at a key. *)
Definition route_at (m : multi_context) (k : key) : option multi_route := id ← hmap (m_vhash m) !! k; m_routes m !! id.

Record table_ok (m : multi_context) : Prop := {
  to_hash : vinv (m_vhash m) (hmap (m_vhash m));
  to_route : forall k id, hmap (m_vhash m) !! k = Some id -> exists r, m_routes m !! id = Some r /\ mroute_key (mr_addr r) = k;
  to_used : forall id r, m_routes m !! id = Some r -> hmap (m_vhash m) !! mroute_key (mr_addr r) = Some id;
  to_keys : own_keys (m_vhash m)
}.

Definition CACHED : Z := Z.lor MULTI_ROUTE_CACHE MULTI_ROUTE_AGEABLE.

(** [L]: the prefix lengths that are counted, with the instances they are counted for. *)
Definition kind_ok (m : multi_context) (L : list (nat * Z)) (r : multi_route) : Prop :=
  (mr_flags r = CACHED /\ host_addr (mr_addr r) /\ 0 <= mr_cache_generation r <= mh_cache_generation (m_route_helper m)) \/
  (mr_flags r = 0 /\ (live m (mr_instance r) = true -> Z.land (ma_type (mr_addr r)) MR_WITH_NETBITS <> 0 -> (mr_instance r, ma_netbits (mr_addr r)) ∈ L)).

Record base (m : multi_context) (L : list (nat * Z)) : Prop := {
  ba_table : table_ok m;
  ba_refs : refs_ok m;
  ba_kind : forall id r, m_routes m !! id = Some r -> kind_ok m L r;
  ba_counted : counted (m_route_helper m) L.*2;
  ba_lens : Forall (fun n => 0 <= n < Z.of_nat MR_HELPER_NET_LEN) L.*2;
  ba_gen : is_u32 (mh_cache_generation (m_route_helper m))
}.

(** Only the order in the buckets changes. *)
Lemma base_vhash m L h : base m L -> vinv h (hmap (m_vhash m)) -> own_keys h -> base (set_vhash m h) L /\ forall k, route_at (set_vhash m h) k = route_at m k.
Proof.
  intros [[Hh Hr Hu _] [Ho Hi] Hk Hc Hl Hg] Hi' Hkeys. pose proof (hmap_inv _ _ Hi') as E. split.
  - split; cbn [set_vhash m_vhash m_routes m_instances m_route_helper]; try done. split; cbn [set_vhash m_vhash m_routes]; rewrite ?E; done.
  - intros k. unfold route_at. cbn [set_vhash m_vhash m_routes]. by rewrite E.
Qed.

(** ** Searching the table

    What the keys point to is there, so a search can read it. *)

Lemma keys_readable m i b : table_ok m -> h_buckets (m_vhash m) !! i = Some b ->
  forallb (fun he => match he_key he with Some k => readable m k | None => true end) b = true.
Proof.
  intros [Hh Hr _ Hk] Hb. pose proof (keys_bucket _ _ _ _ Hk Hb) as Hbk. apply forallb_forall. intros e He%list_elem_of_In.
  destruct (he_key e) as [k|] eqn:Ek; [|done]. rewrite Forall_forall in Hbk. specialize (Hbk e He). unfold key_all in Hbk. rewrite Ek in Hbk.
  destruct (Hr (ptr_key k) (he_value e)) as (r & Er & Ea).
  { apply elem_of_map; [apply Hh|]. apply (in_pairs_iff ptr_key). exists e, k. split; [|done]. apply list_elem_of_In, in_concat. exists b.
    split; [by apply list_elem_of_In, (list_elem_of_lookup_2 _ i)|by apply list_elem_of_In]. }
  unfold readable. rewrite Hbk, Er. destruct mroute_key_laws as [Hc _]. fold (mroute_addr_compare_function (mr_addr r) (pt_addr k)). rewrite Hc.
  by apply bool_decide_eq_true_2.
Qed.

Abbreviation vplace m a := (hash_bucket (m_vhash m) (vhash_value m a)).

Lemma vhash_lookup_fast_ok m a : table_ok m ->
  exists he h1, vhash_lookup_fast m (vplace m a) a (vhash_value m a) = Some (he, set_vhash m h1) /\ vinv h1 (hmap (m_vhash m)) /\ own_keys h1 /\
    h_n_buckets h1 = h_n_buckets (m_vhash m) /\ h_mask h1 = h_mask (m_vhash m) /\ h_iv h1 = h_iv (m_vhash m) /\ he_value <$> he = hmap (m_vhash m) !! mroute_key a /\
    match he with
    | None => exists b, h_buckets h1 !! vplace m a = Some b
    | Some e => exists b k, h_buckets h1 !! vplace m a = Some (e :: b) /\ he_key e = Some k /\ ptr_key k = mroute_key a
    end.
Proof.
  intros Ht. destruct ptr_key_laws as [Hcmp Hhash]. pose proof (to_hash _ Ht) as Hh.
  destruct (lookup_fast_ok _ _ _ Hcmp Hhash (m_vhash m) _ (mk_ptr None a) Hh) as (he & h1 & E & Hv1 & En & Em & Ev & _ & Ehe & Hhe).
  exists he, h1. unfold vhash_lookup_fast, vhash_value. destruct (place_lt _ _ _ _ (mk_ptr None a) Hh) as (b & Hb). rewrite Hb, Some_bind.
  assert (Hread : forallb (fun e => match he_key e with Some k => negb (hash_value vhash_hash_function (m_vhash m) (mk_ptr None a) =? he_hash_value e) || readable m k | None => true end) b = true).
  { pose proof (keys_readable m _ b Ht Hb) as Hk. rewrite forallb_forall in Hk |- *. intros e He. specialize (Hk e He). destruct (he_key e); [|done]. by rewrite Hk, orb_true_r. }
  rewrite Hread. cbn [ASSERT]. rewrite Some_bind, E, Some_bind. split; [done|]. split; [done|]. split; [by apply (keys_lookup_fast _ _ _ _ _ _ _ _ E), Ht|]. done.
Qed.

Lemma vhash_lookup_ok m a : table_ok m ->
  exists h1, vhash_lookup m a = Some (hmap (m_vhash m) !! mroute_key a, set_vhash m h1) /\ vinv h1 (hmap (m_vhash m)) /\ own_keys h1.
Proof.
  intros Ht. unfold vhash_lookup. destruct (vhash_lookup_fast_ok m a Ht) as (he & h1 & -> & Hv & Hk & _ & _ & _ & -> & _). by exists h1.
Qed.

(** ** Defined routes *)

Definition is_defined (m : multi_context) (r : multi_route) (now : Z) : bool :=
  live m (mr_instance r) &&
  negb (negb (Z.land (mr_flags r) MULTI_ROUTE_CACHE =? 0) && negb (mr_cache_generation r =? mh_cache_generation (m_route_helper m))) &&
  negb (negb (Z.land (mr_flags r) MULTI_ROUTE_AGEABLE =? 0) && (mr_last_reference r + mh_ageable_ttl_secs (m_route_helper m) <? now)).

Lemma route_defined_ok m r now : is_Some (m_instances m !! mr_instance r) -> multi_route_defined m r now = Some (is_defined m r now).
Proof.
  intros [mi Hmi]. unfold multi_route_defined, is_defined, live. rewrite Hmi, Some_bind. f_equal.
  destruct (mi_halt mi); [done|]. cbn [negb andb]. destruct (negb (_ =? 0) && negb (_ =? _)); [done|]. by destruct (negb (_ =? 0) && (_ <? _)).
Qed.

Lemma defined_route_ok m k now : table_ok m -> refs_ok m ->
  exists d, defined_route m (hmap (m_vhash m) !! k) now = Some d /\
    match d with
    | Some (id, r) => hmap (m_vhash m) !! k = Some id /\ m_routes m !! id = Some r /\ route_at m k = Some r /\ is_defined m r now = true
    | None => forall r, route_at m k = Some r -> is_defined m r now = false
    end.
Proof.
  intros [Hh Hr Hu _] [Ho _]. unfold defined_route, route_at. destruct (hmap (m_vhash m) !! k) as [id|] eqn:E.
  - destruct (Hr k id E) as (r & Er & _). rewrite Er, Some_bind, (route_defined_ok m r now (Ho id r Er)), Some_bind.
    destruct (is_defined m r now) eqn:Ed; eexists; (split; [done|]); cbn [mbind option_bind]; [done|]. intros r' E'. rewrite Er in E'. congruence.
  - exists None. split; [done|]. done.
Qed.

Lemma learnable_some a : length (ma_raw a) = MR_MAX_ADDR_LEN -> exists b, mroute_learnable_address a = Some b.
Proof.
  intros Hl. unfold mroute_learnable_address, is_mac_mcast_maddr, is_mac_mcast_addr.
  destruct (_ && _); [by eexists|]. destruct (forallb _ _); [by eexists|]. destruct (_ =? _); [|by eexists].
  destruct (lookup_lt_is_Some_2 (ma_raw a) 0) as [x ->]; [rewrite Hl; unfold MR_MAX_ADDR_LEN; lia|]. rewrite !Some_bind. by eexists.
Qed.

(** ** Learning *)

(** The table after a new route of [i] at [a]. *)
Lemma new_route_ok m L i mi a r new R h I' :
  base m L -> m_instances m !! i = Some mi -> new = fresh (dom (m_routes m)) -> mr_addr r = a -> kind_ok m L r ->
  R = (match hmap (m_vhash m) !! mroute_key a with Some old => delete old (<[new := r]> (m_routes m)) | None => <[new := r]> (m_routes m) end) ->
  vinv h (<[mroute_key a := new]> (hmap (m_vhash m))) -> own_keys h ->
  let m' := mk_m h R I' (m_route_helper m) (m_local m) in
  refs_ok m' -> inst_rel m m' ->
  base m' L /\ forall k, route_at m' k = if decide (k = mroute_key a) then Some r else route_at m k.
Proof.
  intros [[Hh Hr Hu _] _ Hk Hc Hl Hg] Hmi -> <- Hkind ER Hv Hown m' Hrefs Hrel. pose proof (hmap_inv _ _ Hv) as Eh. set (new := fresh (dom (m_routes m))) in *.
  assert (Hnew : m_routes m !! new = None) by (apply not_elem_of_dom; apply is_fresh).
  assert (Hnew_old : hmap (m_vhash m) !! mroute_key (mr_addr r) <> Some new).
  { intros E. destruct (Hr _ _ E) as (? & ? & _). congruence. }
  assert (HRnew : R !! new = Some r).
  { rewrite ER. destruct (hmap (m_vhash m) !! _) as [old|] eqn:Eold; [rewrite lookup_delete_ne by congruence|]; apply lookup_insert_eq. }
  assert (HRother : forall id r', id <> new -> R !! id = Some r' <-> m_routes m !! id = Some r' /\ mroute_key (mr_addr r') <> mroute_key (mr_addr r)).
  { intros id r' Hne. rewrite ER. destruct (hmap (m_vhash m) !! mroute_key (mr_addr r)) as [old|] eqn:Eold.
    - destruct (decide (id = old)) as [->|Hno].
      + rewrite lookup_delete_eq. split; [done|]. intros [Ho Hkk]. destruct (Hr _ _ Eold) as (r0 & E0 & Ek). congruence.
      + rewrite lookup_delete_ne, lookup_insert_ne by done. split; [|by intros [? _]]. intros E. split; [done|]. intros Ek. apply Hu in E. rewrite Ek in E. congruence.
    - rewrite lookup_insert_ne by done. split; [|by intros [? _]]. intros E. split; [done|]. intros Ek. apply Hu in E. rewrite Ek in E. congruence. }
  assert (Hat : forall k, route_at m' k = if decide (k = mroute_key (mr_addr r)) then Some r else route_at m k).
  { intros k. unfold route_at. cbn [m' m_vhash m_routes]. rewrite Eh. destruct (decide (k = mroute_key (mr_addr r))) as [->|Hne].
    - rewrite lookup_insert_eq. done.
    - rewrite lookup_insert_ne by done. destruct (hmap (m_vhash m) !! k) as [id|] eqn:E; [|done]. cbn [mbind option_bind].
      destruct (Hr k id E) as (r' & E' & Ek). rewrite E'. apply HRother; [congruence|]. split; [done|congruence]. }
  split; [|done]. split; cbn [m' m_vhash m_routes m_instances m_route_helper]; try done.
  - split; cbn [m' m_vhash m_routes]; rewrite ?Eh; [done| | |done].
    + intros k id. rewrite lookup_insert_Some. intros [[<- <-]|[Hne E]]; [by exists r|]. destruct (Hr k id E) as (r' & E' & Ek). exists r'. split; [|done].
      apply HRother; [congruence|]. split; [done|congruence].
    + intros id r' E. destruct (decide (id = new)) as [->|Hne].
      * assert (r' = r) as -> by congruence. apply lookup_insert_eq.
      * apply HRother in E as [E Ek]; [|done]. rewrite lookup_insert_ne by congruence. by apply Hu.
  - assert (Hsame : forall r', kind_ok m L r' -> kind_ok m' L r').
    { intros r' [Hc'|[Hf Hn]]; [by left|right]. split; [done|]. by rewrite (inst_rel_live m m' _ Hrel). }
    intros id r' E. apply Hsame. destruct (decide (id = new)) as [->|Hne]; [by assert (r' = r) as -> by congruence|].
    apply HRother in E as [E _]; [|done]. by apply (Hk id).
Qed.

(** The route that [multi_learn_addr] makes. *)
Definition learned (m : multi_context) (i : nat) (a : mroute_addr) (flags now : Z) : multi_route :=
  mk_mr a i flags (if Z.land flags MULTI_ROUTE_CACHE =? 0 then 0 else mh_cache_generation (m_route_helper m)) now.

Lemma learn_ok m L i a flags now ok :
  base m L -> is_Some (m_instances m !! i) -> length (ma_raw a) = MR_MAX_ADDR_LEN -> kind_ok m L (learned m i a flags now) ->
  exists owner m', multi_learn_addr m i a flags now ok = Some (owner, m') /\ base m' L /\ inst_rel m m' /\
    m_route_helper m' = m_route_helper m /\ m_local m' = m_local m /\
    (forall j, owner = Some j -> exists r, route_at m' (mroute_key a) = Some r /\ mr_instance r = j) /\
    ((forall k, route_at m' k = route_at m k) \/
     owner = Some i /\ forall k, route_at m' k = if decide (k = mroute_key a) then Some (learned m i a flags now) else route_at m k).
Proof.
  intros Hb [mi0 Hmi0] Hraw Hkind. destruct ptr_key_laws as [Hcmp Hhash]. unfold multi_learn_addr.
  destruct (vhash_lookup_fast_ok m a (ba_table _ _ Hb)) as (he & h1 & -> & Hv1 & Hown1 & En & Em & Ev & Ehe & Hhe).
  rewrite Some_bind. destruct (base_vhash m L h1 Hb Hv1 Hown1) as [Hb1 Hat1]. set (m1 := set_vhash m h1) in *.
  assert (Ehm : hmap (m_vhash m1) = hmap (m_vhash m)) by (apply hmap_inv; exact Hv1). rewrite Ehe.
  destruct (defined_route_ok m1 (mroute_key a) now (ba_table _ _ Hb1) (ba_refs _ _ Hb1)) as (d & Ed & Hd). rewrite Ehm in Ed. rewrite Ed, Some_bind.
  assert (Hstay : forall j, (fun ir => mr_instance ir.2) <$> d = Some j -> exists r, route_at m1 (mroute_key a) = Some r /\ mr_instance r = j).
  { intros j. destruct d as [[id r]|]; [|done]. intros [= <-]. exists r. split; [apply Hd|done]. }
  assert (Hrel1 : inst_rel m m1) by (by apply inst_rel_same).
  destruct (bool_decide _); [eexists _, m1; split; [done|]; split; [done|]; split; [done|]; split; [done|]; split; [done|]; split; [done|by left]|].
  destruct (learnable_some a Hraw) as [b ->]. rewrite Some_bind.
  destruct (b && _); [|eexists _, m1; split; [done|]; split; [done|]; split; [done|]; split; [done|]; split; [done|]; split; [done|by left]].
  cbn [m1 set_vhash m_instances]. rewrite Hmi0, Some_bind. fold m1.
  destruct (route_quota_test mi0 && ok a) eqn:Eq; [|eexists _, m1; split; [done|]; split; [done|]; split; [done|]; split; [done|]; split; [done|]; split; [done|by left]].
  apply andb_true_iff in Eq as [Eq _]. set (nr := mk_mr a i flags _ now). assert (Enr : nr = learned m i a flags now) by done.
  set (new := fresh (dom (m_routes (set_instance m1 i (route_quota_inc (multi_instance_inc_refcount mi0)))))).
  assert (Hnew : m_routes m1 !! new = None) by (apply not_elem_of_dom; apply is_fresh).
  destruct (route_add_ok m1 i mi0 nr new (ba_refs _ _ Hb1) Hmi0 Eq Hnew eq_refl) as [Hrefs2 Hrel2].
  change (m_routes (set_instance m1 i (route_quota_inc (multi_instance_inc_refcount mi0)))) with (m_routes m1) in *.
  set (m2 := set_routes (set_instance m1 i (route_quota_inc (multi_instance_inc_refcount mi0))) (<[new := nr]> (m_routes m1))) in *.
  set (pa := mk_ptr (Some new) a).
  assert (Evl : hash_value vhash_hash_function h1 pa = vhash_value m a) by (unfold vhash_value, hash_value; by rewrite Ev).
  assert (Epl : hash_bucket h1 (hash_value vhash_hash_function h1 pa) = vplace m a) by (rewrite Evl; unfold hash_bucket; by rewrite Em).
  rewrite <- Epl in Hhe |- *. rewrite <- Evl.
  assert (Hkind1 : kind_ok m1 L nr) by (rewrite Enr; exact Hkind).
  destruct (hmap (m_vhash m) !! mroute_key a) as [old|] eqn:Eold.
  - destruct he as [e|]; [|done]. destruct Hhe as (b' & k & Hbk & Hke & Ec).
    destruct (to_route _ (ba_table _ _ Hb) _ _ Eold) as (ro & Ero & _).
    assert (Ero2 : m_routes m2 !! old = Some ro).
    { cbn [m2 set_routes m_routes]. rewrite lookup_insert_ne; [exact Ero|]. intros E. rewrite E in Hnew. cbn [m1 set_vhash m_routes] in Hnew. congruence. }
    destruct (route_del_ok m2 old ro Hrefs2 Ero2) as (m3 & -> & Hrefs3 & Hrel3 & ER3 & Eh3 & Erh3 & Elo3). rewrite Some_bind, Eh3.
    assert (Ernew : m_routes m3 !! new = Some nr).
    { rewrite ER3, lookup_delete_ne; [apply lookup_insert_eq|]. intros E. rewrite E in Ero. cbn [m1 set_vhash m_routes] in Hnew. congruence. }
    cbn [m2 set_routes set_instance m_vhash m1 set_vhash]. unfold route_addr, replace_head. rewrite Ernew, Some_bind, Some_bind, Hbk, !Some_bind. cbn [nr mr_addr]. fold pa.
    pose proof (head_value_ok _ _ Hhash h1 _ pa e b' k pa new Hv1 Hbk Hke Ec eq_refl) as Hv4.
    set (h4 := set_bucket h1 (hash_bucket h1 (hash_value vhash_hash_function h1 pa)) (mk_he new (Some pa) (he_hash_value e) :: b')) in *.
    assert (Hown4 : own_keys h4).
    { apply keys_set_bucket; [done|]. pose proof (keys_bucket _ _ _ _ Hown1 Hbk) as Hf. apply Forall_cons in Hf as [_ Hf]. by constructor. }
    destruct (new_route_ok m1 L i mi0 a nr new (m_routes m3) h4 (m_instances m3) Hb1 Hmi0) as [Hb4 Hat4]; try done.
    + by rewrite Ehm, Eold, ER3.
    + by rewrite Ehm.
    + destruct Hrefs3. split; done.
    + eapply inst_rel_trans; [exact Hrel2|]. eapply inst_rel_trans; [exact Hrel3|]. by apply inst_rel_same.
    + eexists (Some i), _. split; [done|].
      assert (Em4 : set_vhash m3 h4 = mk_m h4 (m_routes m3) (m_instances m3) (m_route_helper m1) (m_local m1)).
      { unfold set_vhash. by rewrite Erh3, Elo3. }
      rewrite Em4. split; [exact Hb4|]. split.
      { eapply inst_rel_trans; [exact Hrel1|]. eapply inst_rel_trans; [exact Hrel2|]. eapply inst_rel_trans; [exact Hrel3|]. by apply inst_rel_same. }
      split; [done|]. split; [done|]. split; [intros j [= <-]; exists nr; split; [rewrite Hat4; by rewrite decide_True|done]|].
      right. split; [done|]. intros k'. rewrite Hat4. destruct (decide _); [done|apply Hat1].
  - destruct he as [e|]; [done|]. destruct Hhe as (b' & Hbk).
    assert (Hnone : hmap (m_vhash m) !! mroute_key a = None) by done.
    destruct (add_fast_ok _ _ h1 _ pa new b' Hv1 Hbk Hnone) as (h4 & Eh4 & Hv4).
    unfold route_addr. cbn [m2 set_routes set_instance m_routes m_vhash m1 set_vhash]. rewrite lookup_insert_eq, Some_bind. cbn [nr mr_addr]. fold pa m1. rewrite Some_bind, Eh4, !Some_bind.
    pose proof (keys_add_fast _ _ _ _ _ _ _ Eh4 eq_refl Hown1) as Hown4.
    destruct (new_route_ok m1 L i mi0 a nr new (m_routes m2) h4 (m_instances m2) Hb1 Hmi0) as [Hb4 Hat4]; try done.
    + by rewrite Ehm, Eold.
    + by rewrite Ehm.
    + destruct Hrefs2. split; done.
    + eapply inst_rel_trans; [exact Hrel2|]. by apply inst_rel_same.
    + eexists (Some i), _. split; [done|]. split; [exact Hb4|]. split; [eapply inst_rel_trans; [exact Hrel1|]; eapply inst_rel_trans; [exact Hrel2|]; by apply inst_rel_same|].
      split; [done|]. split; [done|]. split; [intros j [= <-]; exists nr; split; [rewrite Hat4; by rewrite decide_True|done]|].
      right. split; [done|]. intros k'. rewrite Hat4. destruct (decide _); [done|apply Hat1].
Qed.

(** ** Looking up the client of an address

    A cached answer is what the search through the networks would give, so a lookup gives the
    longest prefix that matches. *)

(** The connected client that a route that is not cached leads to. *)
Definition static_at (m : multi_context) (k : key) : option nat :=
  r ← route_at m k;
  if bool_decide (mr_flags r = 0) && live m (mr_instance r) then Some (mr_instance r) else None.

(** The answer for the longest length below [n] that has one. *)
Fixpoint longest (n : nat) (f : Z -> option nat) : option nat :=
  match n with
  | O => None
  | S n => match f (Z.of_nat n) with Some i => Some i | None => longest n f end
  end.

(** The client whose network is the longest prefix of the host [a]. *)
Definition lpm (m : multi_context) (a : mroute_addr) : option nat :=
  longest MR_HELPER_NET_LEN (fun n => static_at m (net_key a n)).

(** The client of the host [a]: its own, or that of its network. *)
Definition routed (m : multi_context) (a : mroute_addr) : option nat :=
  match static_at m (mroute_key a) with Some i => Some i | None => lpm m a end.

(** Stale routes are looked for ([--stale-routes-check]), and networks that are in use deleted. *)
Section stale_routes_check.
Context {stale_routes_check : bool}.

(** Cached answers are right, when they are not. *)
Definition coherent (m : multi_context) : Prop :=
  stale_routes_check = false -> forall k r, route_at m k = Some r -> mr_flags r = CACHED -> mr_cache_generation r = mh_cache_generation (m_route_helper m) ->
    live m (mr_instance r) = true -> lpm m (mr_addr r) = Some (mr_instance r).

Lemma longest_ext n f g : (forall k, 0 <= k < Z.of_nat n -> f k = g k) -> longest n f = longest n g.
Proof. induction n as [|n IH]; intros E; [done|]. cbn [longest]. rewrite E by lia. rewrite IH; [done|]. intros k Hk. apply E. lia. Qed.

(** Taking away the answers of another client. *)
Lemma longest_less n f g i : (forall k, g k = f k \/ g k = None /\ f k <> Some i) -> longest n f = Some i -> longest n g = Some i.
Proof.
  intros E. induction n as [|n IH]; [done|]. cbn [longest]. destruct (E (Z.of_nat n)) as [->|[-> Hne]].
  - destruct (f (Z.of_nat n)); [done|]. apply IH.
  - destruct (f (Z.of_nat n)) as [j|]; [intros [= ->]; done|]. apply IH.
Qed.

Lemma longest_spec n f i : longest n f = Some i <-> exists k, 0 <= k < Z.of_nat n /\ f k = Some i /\ forall k', k < k' < Z.of_nat n -> f k' = None.
Proof.
  induction n as [|n IH]; cbn [longest]; [split; [done|]; intros (k & Hk & _); lia|]. destruct (f (Z.of_nat n)) as [j|] eqn:Ef.
  - split.
    + intros [= <-]. exists (Z.of_nat n). split; [lia|]. split; [done|]. lia.
    + intros (k & Hk & E & Hlast). destruct (decide (k = Z.of_nat n)) as [->|Hne]; [congruence|]. rewrite Hlast in Ef by lia. done.
  - rewrite IH. split; intros (k & Hk & E & Hlast).
    + exists k. split; [lia|]. split; [done|]. intros k' Hk'. destruct (decide (k' = Z.of_nat n)) as [->|]; [done|]. apply Hlast. lia.
    + assert (k <> Z.of_nat n) by congruence. exists k. split; [lia|]. split; [done|]. intros k' Hk'. apply Hlast. lia.
Qed.

(** ** Keys of hosts and of networks *)

Lemma net_key_same a b n : mroute_key a = mroute_key b -> net_key a n = net_key b n.
Proof. intros [= Et Ep En El Eb]. unfold net_key. by rewrite Et, Ep, El, Eb. Qed.

Lemma lpm_same m a b : mroute_key a = mroute_key b -> lpm m a = lpm m b.
Proof. intros E. unfold lpm. apply longest_ext. intros k _. by rewrite (net_key_same a b k E). Qed.

(** Not the address of a network. *)
Definition single (a : mroute_addr) : Prop := Z.land (ma_type a) MR_WITH_NETBITS = 0.

Lemma host_type a : host_addr a -> single a.
Proof. intros [[[E _]|[E _]] _ _ _]; unfold single; by rewrite E. Qed.

Lemma host_not_net a b n : single a -> host_addr b -> mroute_key a <> net_key b n.
Proof. unfold single. intros Ha [Hb _ _ _] [= Et _]. rewrite Et in Ha. by destruct Hb as [[E _]|[E _]]; rewrite E in Ha. Qed.

Lemma net_type a n b : host_addr b -> mroute_key a = net_key b n -> Z.land (ma_type a) MR_WITH_NETBITS <> 0 /\ ma_netbits a = n.
Proof.
  intros [Hb _ _ _] [= Et _ En _ _]. split; [|done]. rewrite Et. by destruct Hb as [[-> _]|[-> _]].
Qed.

(** The routes of networks are not cached ones. *)
Lemma net_static m L a n r :
  base m L -> host_addr a -> route_at m (net_key a n) = Some r ->
  mr_flags r = 0 /\ (live m (mr_instance r) = true -> (mr_instance r, n) ∈ L).
Proof.
  intros Hb Ha Hr. unfold route_at in Hr. destruct (hmap (m_vhash m) !! net_key a n) as [id|] eqn:E; [|done]. cbn [mbind option_bind] in Hr.
  destruct (to_route _ (ba_table _ _ Hb) _ _ E) as (r' & Er' & Ek). assert (r' = r) as -> by congruence.
  destruct (net_type (mr_addr r) n a Ha Ek) as [Ht En]. destruct (ba_kind _ _ Hb id r Er') as [(_ & Hh & _)|[Hf Hin]].
  - by rewrite (host_type _ Hh) in Ht.
  - split; [done|]. intros Hl. rewrite <- En. by apply Hin.
Qed.

Lemma defined_static m r now : mr_flags r = 0 -> is_defined m r now = live m (mr_instance r).
Proof. intros E. unfold is_defined. rewrite E, !Z.land_0_l. cbn [Z.eqb negb andb]. by rewrite !andb_true_r. Qed.

Lemma defined_cached m r now : mr_flags r = CACHED -> is_defined m r now = true ->
  live m (mr_instance r) = true /\ mr_cache_generation r = mh_cache_generation (m_route_helper m).
Proof.
  intros E. unfold is_defined. rewrite E. change (Z.land CACHED MULTI_ROUTE_CACHE =? 0) with false.
  change (Z.land CACHED MULTI_ROUTE_AGEABLE =? 0) with false. cbn [negb andb]. destruct (Z.eqb_spec (mr_cache_generation r) (mh_cache_generation (m_route_helper m))); [|by rewrite andb_false_r].
  destruct (live m (mr_instance r)); done.
Qed.

Lemma route_kind m L k r : base m L -> route_at m k = Some r -> kind_ok m L r /\ mroute_key (mr_addr r) = k /\ exists id, hmap (m_vhash m) !! k = Some id /\ m_routes m !! id = Some r.
Proof.
  intros Hb Hr. unfold route_at in Hr. destruct (hmap (m_vhash m) !! k) as [id|] eqn:E; [|done]. cbn [mbind option_bind] in Hr.
  destruct (to_route _ (ba_table _ _ Hb) _ _ E) as (r' & Er' & Ek). assert (r' = r) as -> by congruence.
  split; [by apply (ba_kind _ _ Hb id)|]. split; [done|]. by exists id.
Qed.

(** ** The search *)

(** What the search depends on. *)
Lemma lpm_ext m m' a :
  (forall n, route_at m' (net_key a n) = route_at m (net_key a n)) -> (forall i, live m' i = live m i) -> lpm m' a = lpm m a.
Proof. intros Hr Hl. unfold lpm. apply longest_ext. intros k _. unfold static_at. rewrite Hr. destruct (route_at _ _); [|done]. cbn [mbind option_bind]. by rewrite Hl. Qed.

Lemma coherent_same m m' :
  (forall k, route_at m' k = route_at m k) -> (forall i, live m' i = live m i) -> m_route_helper m' = m_route_helper m -> coherent m -> coherent m'.
Proof.
  intros Hr Hl Eh Hc Hsc k r Hk Hf Hg Hlv. rewrite (lpm_ext m m') by auto. rewrite Hr in Hk. rewrite Hl in Hlv. rewrite Eh in Hg. by apply (Hc Hsc k r).
Qed.

(** A new route for a host. *)
Lemma coherent_host m m' a r :
  single a -> (forall k, route_at m' k = if decide (k = mroute_key a) then Some r else route_at m k) -> (forall i, live m' i = live m i) ->
  m_route_helper m' = m_route_helper m -> (mr_flags r = CACHED -> mr_addr r = a /\ host_addr a /\ lpm m a = Some (mr_instance r)) ->
  (forall k r', route_at m k = Some r' -> mr_flags r' = CACHED -> host_addr (mr_addr r')) ->
  coherent m -> coherent m'.
Proof.
  intros Ha Hr Hl Eh Hnew Hhosts Hc Hsc k r' Hk Hf Hg Hlv.
  assert (Hlpm : forall b, host_addr b -> lpm m' b = lpm m b).
  { intros b Hb. apply lpm_ext; [|done]. intros n. rewrite Hr. rewrite decide_False; [done|]. intros E. by apply (host_not_net a b n). }
  rewrite Hr in Hk. rewrite Hl in Hlv. rewrite Eh in Hg. destruct (decide _) as [->|Hne].
  - injection Hk as <-. destruct (Hnew Hf) as (-> & Hh & E). by rewrite Hlpm.
  - rewrite Hlpm by (by apply (Hhosts k)). by apply (Hc Hsc k r').
Qed.

Lemma cached_host m L k r : base m L -> route_at m k = Some r -> mr_flags r = CACHED -> host_addr (mr_addr r).
Proof. intros Hb Hr Hf. destruct (route_kind m L k r Hb Hr) as [[(_ & Hh & _)|[H0 _]] _]; [done|]. rewrite Hf in H0. done. Qed.

Lemma static_live m k i : static_at m k = Some i -> live m i = true.
Proof.
  unfold static_at. destruct (route_at m k) as [r|]; [|done]. cbn [mbind option_bind]. destruct (live m (mr_instance r)) eqn:E; [|by rewrite andb_false_r].
  destruct (bool_decide _); [|done]. by intros [= <-].
Qed.

(** A network with a connected client has its length in use. *)
Lemma static_used m L a n i :
  base m L -> host_addr a -> static_at m (net_key a n) = Some i -> n ∈ used_lens MR_HELPER_NET_LEN (mh_net_len_refcount (m_route_helper m)).
Proof.
  intros Hb Ha Hs. unfold static_at in Hs. destruct (route_at m (net_key a n)) as [r|] eqn:E; [|done]. cbn [mbind option_bind] in Hs.
  destruct (live m (mr_instance r)) eqn:El; [|by rewrite andb_false_r in Hs].
  destruct (net_static m L a n r Hb Ha E) as [_ Hin]. specialize (Hin El).
  assert (Hn : n ∈ L.*2) by (apply list_elem_of_fmap; by exists (mr_instance r, n)).
  apply (counted_used _ L.*2); [apply Hb| |done]. pose proof (ba_lens _ _ Hb) as Hl. rewrite Forall_forall in Hl. by apply Hl.
Qed.

(** The first answer among the lengths in use is the longest prefix. *)
Lemma first_is_longest m L a l1 n l2 i :
  base m L -> host_addr a -> used_lens MR_HELPER_NET_LEN (mh_net_len_refcount (m_route_helper m)) = l1 ++ n :: l2 ->
  Forall (fun n => static_at m (net_key a n) = None) l1 -> static_at m (net_key a n) = Some i -> lpm m a = Some i.
Proof.
  intros Hb Ha Hu H1 Hs. apply longest_spec. exists n.
  assert (Hin : n ∈ used_lens MR_HELPER_NET_LEN (mh_net_len_refcount (m_route_helper m))) by (rewrite Hu; apply elem_of_app; right; left).
  apply in_used_lens in Hin as [Hr _]. split; [done|]. split; [done|]. intros k Hk. destruct (static_at m (net_key a k)) as [j|] eqn:E; [|done].
  pose proof (used_lens_sorted _ _ _ _ _ Hu k ltac:(lia) (static_used m L a k j Hb Ha E)) as Hk1. rewrite Forall_forall in H1. by rewrite H1 in E.
Qed.

Lemma none_is_none m L a :
  base m L -> host_addr a -> Forall (fun n => static_at m (net_key a n) = None) (used_lens MR_HELPER_NET_LEN (mh_net_len_refcount (m_route_helper m))) ->
  lpm m a = None.
Proof.
  intros Hb Ha Hall. destruct (lpm m a) as [i|] eqn:E; [|done]. apply longest_spec in E as (k & Hk & E & _).
  rewrite Forall_forall in Hall. by rewrite (Hall k (static_used m L a k i Hb Ha E)) in E.
Qed.

(** The search through the lengths in use, the longest first, of which [l1] have no answer. *)
Lemma cidr_loop_ok L a now ok lens : forall m l1, base m L -> coherent m -> host_addr a ->
  used_lens MR_HELPER_NET_LEN (mh_net_len_refcount (m_route_helper m)) = l1 ++ lens ->
  Forall (fun n => static_at m (net_key a n) = None) l1 -> static_at m (mroute_key a) = None ->
  exists m', cidr_loop lens m a now ok = Some (lpm m a, m') /\ base m' L /\ coherent m' /\ inst_rel m m' /\
    m_route_helper m' = m_route_helper m /\ m_local m' = m_local m /\ forall k, static_at m' k = static_at m k.
Proof.
  induction lens as [|n lens IH]; intros m l1 Hb Hc Ha Hu H1 Hown; cbn [cidr_loop].
  - rewrite app_nil_r in Hu. exists m. rewrite (none_is_none m L a Hb Ha) by (by rewrite Hu). split_and!; try done. by apply inst_rel_same.
  - assert (Hn : 0 <= n <= 128).
    { assert (Hin : n ∈ l1 ++ n :: lens) by (apply elem_of_app; right; left). rewrite <- Hu in Hin. apply in_used_lens in Hin as [Hr _]. unfold MR_HELPER_NET_LEN in Hr. lia. }
    destruct (try_key a n Ha Hn) as (t & -> & Et). rewrite Some_bind.
    destruct (vhash_lookup_ok m t (ba_table _ _ Hb)) as (h1 & -> & Hv1 & Hown1). rewrite Some_bind, Et.
    destruct (base_vhash m L h1 Hb Hv1 Hown1) as [Hb1 Hat1]. set (m1 := set_vhash m h1) in *.
    assert (Ehm : hmap (m_vhash m1) = hmap (m_vhash m)) by (apply hmap_inv; exact Hv1).
    destruct (defined_route_ok m1 (net_key a n) now (ba_table _ _ Hb1) (ba_refs _ _ Hb1)) as (d & Ed & Hd). rewrite Ehm in Ed. rewrite Ed, Some_bind.
    assert (Hc1 : coherent m1) by (by apply (coherent_same m)). assert (Hl1 : lpm m1 a = lpm m a) by (by apply lpm_ext).
    assert (Hs1 : forall k, static_at m1 k = static_at m k) by (intros k; unfold static_at; by rewrite Hat1).
    destruct d as [[id r]|].
    + destruct Hd as (_ & Hr & Hrat & Hdef). destruct (net_static m1 L a n r Hb1 Ha Hrat) as [Hf _]. rewrite (defined_static m1 r now Hf) in Hdef.
      assert (Hst : static_at m (net_key a n) = Some (mr_instance r)).
      { rewrite Hat1 in Hrat. unfold static_at. rewrite Hrat. cbn [mbind option_bind]. rewrite bool_decide_eq_true_2 by done. by change (live m) with (live m1); rewrite Hdef. }
      pose proof (first_is_longest m L a l1 n lens _ Hb Ha Hu H1 Hst) as Hlpm.
      destruct (ro_owner _ (ba_refs _ _ Hb1) id r Hr) as [inst Hinst].
      destruct (learn_ok m1 L (mr_instance r) a CACHED now ok Hb1) as (owner & m2 & E2 & Hb2 & Hrel2 & Eh2 & El2 & _ & Hat2).
      { by exists inst. } { apply Ha. }
      { left. cbn [learned mr_flags mr_addr mr_cache_generation]. split; [done|]. split; [done|]. change (Z.land CACHED MULTI_ROUTE_CACHE =? 0) with false.
        pose proof (ba_gen _ _ Hb1) as Hg. unfold is_u32 in Hg. lia. }
      unfold CACHED in E2. rewrite E2, Some_bind, Hlpm. exists m2. split; [done|]. split; [done|]. split; [|split; [|split; [done|split; [done|]]]].
      * destruct Hat2 as [Hat2|[_ Hat2]]; [apply (coherent_same m1); [done|intros; by apply inst_rel_live|done|done]|].
        apply (coherent_host m1 m2 a (learned m1 (mr_instance r) a CACHED now)); try done.
        -- by apply host_type.
        -- intros; by apply inst_rel_live.
        -- intros _. split; [done|]. split; [done|]. by rewrite Hl1.
        -- intros k r'. by apply (cached_host m1 L).
      * eapply inst_rel_trans; [|exact Hrel2]. by apply inst_rel_same.
      * intros k. rewrite <- Hs1. unfold static_at. destruct Hat2 as [Hat2|[_ Hat2]]; rewrite Hat2; [destruct (route_at m1 k); [|done]; cbn [mbind option_bind]; by rewrite (inst_rel_live m1 m2 _ Hrel2)|].
        destruct (decide (k = mroute_key a)) as [->|_]; [|destruct (route_at m1 k); [|done]; cbn [mbind option_bind]; by rewrite (inst_rel_live m1 m2 _ Hrel2)].
        rewrite <- Hs1 in Hown. unfold static_at in Hown. rewrite Hown. reflexivity.
    + assert (Hst : static_at m (net_key a n) = None).
      { unfold static_at. rewrite <- Hat1. destruct (route_at m1 (net_key a n)) as [r|] eqn:Er; [|done]. cbn [mbind option_bind].
        destruct (net_static m1 L a n r Hb1 Ha Er) as [Hf _]. specialize (Hd r eq_refl). rewrite (defined_static m1 r now Hf) in Hd.
        change (live m) with (live m1). by rewrite Hd, andb_false_r. }
      destruct (IH m1 (l1 ++ [n]) Hb1 Hc1 Ha) as (m2 & E2 & Hb2 & Hc2 & Hrel2 & Eh2 & El2 & Hs2).
      { rewrite <- app_assoc. exact Hu. }
      { apply Forall_app. split; [|constructor; [|done]].
        - eapply Forall_impl; [exact H1|]. intros k Hk. unfold static_at in *. by rewrite Hat1.
        - unfold static_at in *. by rewrite Hat1. }
      { by rewrite Hs1. }
      rewrite E2, Hl1. exists m2. split; [done|]. split; [done|]. split; [done|]. split; [|split; [done|split; [done|intros k; by rewrite Hs2]]]. eapply inst_rel_trans; [|exact Hrel2]. by apply inst_rel_same.
Qed.

(** The route keeps everything but the time of its last use. *)
Lemma touch_ok m L id r now :
  base m L -> coherent m -> m_routes m !! id = Some r ->
  let m' := set_routes m (<[id := mk_mr (mr_addr r) (mr_instance r) (mr_flags r) (mr_cache_generation r) now]> (m_routes m)) in
  base m' L /\ coherent m' /\ inst_rel m m' /\ forall k, static_at m' k = static_at m k.
Proof.
  intros [[Hh Hr Hu Hown] [Ho Hi] Hk Hcn Hl Hg] Hc Hid m'.
  assert (Hat : forall k, exists f : multi_route -> multi_route, route_at m' k = f <$> route_at m k /\
     forall r', mr_addr (f r') = mr_addr r' /\ mr_instance (f r') = mr_instance r' /\ mr_flags (f r') = mr_flags r' /\ mr_cache_generation (f r') = mr_cache_generation r').
  { intros k. unfold route_at. cbn [m' set_routes m_vhash m_routes]. destruct (hmap (m_vhash m) !! k) as [id'|]; cbn [mbind option_bind]; [|by exists (fun x => x)].
    destruct (decide (id' = id)) as [->|Hne].
    - rewrite lookup_insert_eq, Hid. exists (fun x => mk_mr (mr_addr x) (mr_instance x) (mr_flags x) (mr_cache_generation x) now). done.
    - rewrite lookup_insert_ne by done. exists (fun x => x). split; [by destruct (m_routes m !! id')|done]. }
  assert (Hst : forall k, static_at m' k = static_at m k).
  { intros k. unfold static_at. destruct (Hat k) as (f & -> & Hf). destruct (route_at m k) as [r'|]; [|done]. cbn [fmap option_fmap option_map mbind option_bind].
    destruct (Hf r') as (_ & -> & -> & _). done. }
  assert (Hlk : forall id' r', m_routes m' !! id' = Some r' -> exists r0, m_routes m !! id' = Some r0 /\ mr_addr r' = mr_addr r0 /\ mr_instance r' = mr_instance r0 /\
     mr_flags r' = mr_flags r0 /\ mr_cache_generation r' = mr_cache_generation r0).
  { intros id' r'. cbn [m' set_routes m_routes]. intros [[<- <-]|[Hne E]]%lookup_insert_Some; [by exists r|by exists r']. }
  split; [|split; [|split; [by apply inst_rel_same|exact Hst]]].
  - split; try done.
    + split; [done| | |exact Hown].
      * intros k id' E. destruct (Hr k id' E) as (r' & E' & Ek). cbn [m' set_routes m_routes]. destruct (decide (id' = id)) as [->|Hne].
        -- rewrite lookup_insert_eq. eexists. split; [done|]. cbn [mr_addr]. congruence.
        -- rewrite lookup_insert_ne by done. by exists r'.
      * intros id' r' E. destruct (Hlk id' r' E) as (r0 & E0 & -> & _). by apply Hu.
    + split.
      * intros id' r' E. destruct (Hlk id' r' E) as (r0 & E0 & _ & -> & _). by apply (Ho id').
      * intros i mi E. destruct (Hi i mi E) as [H1 H2 H3 H4]. cbn [m' set_routes m_routes]. split; rewrite ?(owned_update _ _ r) by done; done.
    + intros id' r' E. destruct (Hlk id' r' E) as (r0 & E0 & Ea & Ei & Ef & Eg). unfold kind_ok. rewrite Ea, Ei, Ef, Eg. by apply (Hk id').
  - intros Hsc k r' Hk' Hf Hgen Hlv. destruct (Hat k) as (f & E & Hff). rewrite E in Hk'. destruct (route_at m k) as [r0|] eqn:E0; [|done]. injection Hk' as <-.
    destruct (Hff r0) as (Ea & Ei & Efl & Eg). rewrite Ea, Ei in *. rewrite Efl in Hf. rewrite Eg in Hgen. unfold lpm.
    rewrite (longest_ext _ _ (fun n => static_at m (net_key (mr_addr r0) n))) by (intros; apply Hst). by apply (Hc Hsc k r0).
Qed.

(** A lookup, with the networks ([cidr_routing]) or without. *)
Lemma lookup_route_ok m L a cidr_routing now ok :
  base m L -> coherent m -> (cidr_routing = true -> host_addr a) ->
  exists ret m', multi_get_instance_by_virtual_addr m a cidr_routing now ok = Some (ret, m') /\
    base m' L /\ coherent m' /\ inst_rel m m' /\ m_route_helper m' = m_route_helper m /\ m_local m' = m_local m /\
    (forall k, static_at m' k = static_at m k) /\
    (cidr_routing = true -> stale_routes_check = false -> ret = if mroute_addr_equal a (m_local m) then None else routed m a) /\
    (cidr_routing = false -> forall i, ret = Some i -> exists r, route_at m (mroute_key a) = Some r /\ is_defined m r now = true /\ mr_instance r = i).
Proof.
  intros Hb Hc Ha. unfold multi_get_instance_by_virtual_addr. destruct (mroute_addr_equal a (m_local m)).
  { exists None, m. split_and!; try done. by apply inst_rel_same. }
  destruct (vhash_lookup_ok m a (ba_table _ _ Hb)) as (h1 & -> & Hv1 & Hown1). rewrite Some_bind.
  destruct (base_vhash m L h1 Hb Hv1 Hown1) as [Hb1 Hat1]. set (m1 := set_vhash m h1) in *.
  assert (Ehm : hmap (m_vhash m1) = hmap (m_vhash m)) by (apply hmap_inv; exact Hv1).
  destruct (defined_route_ok m1 (mroute_key a) now (ba_table _ _ Hb1) (ba_refs _ _ Hb1)) as (d & Ed & Hd). rewrite Ehm in Ed. rewrite Ed, Some_bind.
  assert (Hc1 : coherent m1) by (by apply (coherent_same m)).
  assert (Hs1 : forall k, static_at m1 k = static_at m k) by (intros k; unfold static_at; by rewrite Hat1).
  assert (Hl1 : lpm m1 a = lpm m a) by (by apply lpm_ext).
  assert (Hout : exists ret m', (match d with
                 | Some (id, r) => Some (Some (mr_instance r), set_routes m1 (<[id := mk_mr (mr_addr r) (mr_instance r) (mr_flags r) (mr_cache_generation r) now]> (m_routes m1)))
                 | None => if cidr_routing then cidr_loop (take (Z.to_nat (mh_n_net_len (m_route_helper m1))) (mh_net_len (m_route_helper m1))) m1 a now ok else Some (None, m1) end) = Some (ret, m') /\
     base m' L /\ coherent m' /\ inst_rel m m' /\ m_route_helper m' = m_route_helper m /\ m_local m' = m_local m /\
     (forall k, static_at m' k = static_at m k) /\ (cidr_routing = true -> stale_routes_check = false -> ret = routed m a) /\
     (cidr_routing = false -> forall i, ret = Some i -> exists r, route_at m (mroute_key a) = Some r /\ is_defined m r now = true /\ mr_instance r = i) /\
     forall i, ret = Some i -> live m i = true).
  { destruct d as [[id r]|].
    - destruct Hd as (Hk & Hr & Hrat & Hdef). destruct (touch_ok m1 L id r now Hb1 Hc1 Hr) as (Hb2 & Hc2 & Hrel2 & Hs2).
      eexists _, _. split; [done|]. split; [exact Hb2|]. split; [exact Hc2|]. split; [eapply inst_rel_trans; [|exact Hrel2]; by apply inst_rel_same|].
      split; [done|]. split; [done|]. split; [intros k; by rewrite Hs2|]. split; [|split].
      + intros _ Hsc. symmetry. destruct (route_kind m1 L _ r Hb1 Hrat) as [Hkind [Ek _]]. unfold routed. rewrite <- Hs1. unfold static_at. rewrite Hrat. cbn [mbind option_bind].
        destruct Hkind as [(Hf & Hh & _)|[Hf _]].
        * rewrite bool_decide_eq_false_2 by (by rewrite Hf). cbn [andb]. rewrite <- Hl1. destruct (defined_cached m1 r now Hf Hdef) as [Hlv Hgen].
          rewrite (lpm_same m1 a (mr_addr r)) by done. by rewrite (Hc1 Hsc _ r Hrat Hf Hgen Hlv).
        * rewrite (defined_static m1 r now Hf) in Hdef. rewrite bool_decide_eq_true_2 by done. by rewrite Hdef.
      + intros _ i [= <-]. exists r. split; [by rewrite <- Hat1|done].
      + intros i [= <-]. unfold is_defined in Hdef. by apply andb_prop in Hdef as [[Hlv _]%andb_prop _].
    - destruct cidr_routing.
      2: { exists None, m1. split; [reflexivity|]. split; [exact Hb1|]. split; [exact Hc1|]. split; [by apply inst_rel_same|].
           split; [reflexivity|]. split; [reflexivity|]. split; [exact Hs1|]. split; [discriminate|]. split; discriminate. }
      rewrite (ho_used _ (proj1 (ba_counted _ _ Hb1))). assert (Es : static_at m (mroute_key a) = None).
      { destruct (static_at m (mroute_key a)) as [j|] eqn:Es; [|reflexivity]. exfalso. rewrite <- Hs1 in Es. unfold static_at in Es.
        destruct (route_at m1 (mroute_key a)) as [r|] eqn:Er; [|done]. cbn [mbind option_bind] in Es. destruct (bool_decide (mr_flags r = 0)) eqn:Ef; [|done].
        apply bool_decide_eq_true_1 in Ef. specialize (Hd r eq_refl). rewrite (defined_static m1 r now Ef) in Hd. rewrite Hd in Es. done. }
      destruct (cidr_loop_ok L a now ok _ m1 [] Hb1 Hc1 (Ha eq_refl) eq_refl) as (m2 & E & Hb2 & Hc2 & Hrel2 & Eh2 & El2 & Hs2); [constructor|by rewrite Hs1|].
      exists (lpm m a), m2. rewrite E, Hl1. split; [done|]. split; [done|]. split; [done|]. split; [eapply inst_rel_trans; [|exact Hrel2]; by apply inst_rel_same|].
      split; [done|]. split; [done|]. split; [intros k; by rewrite Hs2|]. split; [intros _ _; unfold routed; by rewrite Es|]. split; [done|].
      intros i (k & _ & Er & _)%longest_spec. by apply (static_live m _ i Er). }
  destruct Hout as (ret & m' & -> & Hb' & Hc' & Hrel' & Eh' & El' & Hs' & Hret & Hret' & Hlive). rewrite Some_bind. destruct ret as [i|].
  2: { exists None, m'. split; [reflexivity|]. do 6 (split; [assumption|]). split; [|exact Hret']. intros Hci Hsc. exact (Hret Hci Hsc). }
  specialize (Hlive i eq_refl). rewrite <- (inst_rel_live m m' i Hrel') in Hlive. unfold live in Hlive. destruct (m_instances m' !! i) as [mi|]; [|done].
  rewrite Some_bind, Hlive. exists (Some i), m'. split; [reflexivity|]. do 6 (split; [assumption|]). split; [|exact Hret']. intros Hci Hsc. exact (Hret Hci Hsc).
Qed.

End stale_routes_check.
