(* ===== verification/RouteSteps.v ===== *)
(** * What the operations on the routing table preserve

    One lemma per operation - learning hosts and networks, adding and deleting the networks of
    a client, closing a client, unlearning, the reaper, the check for stale routes -: it ends,
    it keeps the invariant [rinv], and it changes the routes the way its name says. *)
From S2P Require Import Prelude Integers Buffer Proto HashTable Mroute Hash Routes RouteNet RouteInv.

Definition lens (mi : multi_instance) : list Z := (ir_netbits <$> mi_iroutes mi) ++ (ir6_netbits <$> mi_iroutes_ipv6 mi).

(** The networks of a client's configuration. *)
Record conf_ok (mi : multi_instance) : Prop := {
  co_v4 : Forall (fun ir => is_u32 (ir_network ir) /\ 0 <= ir_netbits ir <= 32) (mi_iroutes mi);
  co_v6 : Forall (fun ir => bytes (ir6_network ir) /\ length (ir6_network ir) = 16%nat /\ 0 <= ir6_netbits ir <= 128) (mi_iroutes_ipv6 mi)
}.

(** What is counted for [i]. *)
Abbreviation counted_for L i := (filter (fun p : nat * Z => p.1 = i) L).

Record link (m : multi_context) (L : list (nat * Z)) : Prop := {
  li_conf : forall i mi, m_instances m !! i = Some mi -> conf_ok mi;
  li_some : forall i mi, m_instances m !! i = Some mi -> counted_for L i ≡ₚ if mi_did_iroutes mi then pair i <$> lens mi else [];
  li_none : forall i, m_instances m !! i = None -> counted_for L i = [];
  li_halt : forall i mi, m_instances m !! i = Some mi -> mi_halt mi = true -> mi_did_iroutes mi = false
}.

Section stale_routes_check.
Context {stale_routes_check : bool}.
Abbreviation coherent := (@coherent stale_routes_check).

Record rinv (m : multi_context) (L : list (nat * Z)) : Prop := {
  ri_base : base m L;
  ri_coherent : coherent m;
  ri_link : link m L
}.

Lemma link_rel m m' L : inst_rel m m' -> link m L -> link m' L.
Proof.
  intros [B F] [Hc Hs Hn Hh]. split.
  - intros i mi' E. destruct (B i mi' E) as (mi & E0 & (_ & _ & E1 & E2 & _)). destruct (Hc i mi E0). split; by rewrite ?E1, ?E2.
  - intros i mi' E. destruct (B i mi' E) as (mi & E0 & (_ & E1 & E2 & E3 & _)). rewrite E1. unfold lens. rewrite E2, E3. by apply Hs.
  - intros i E. destruct (m_instances m !! i) as [mi|] eqn:E0; [|by apply Hn]. destruct (mi_halt mi) eqn:Eh.
    + pose proof (Hs i mi E0) as Hp. rewrite (Hh i mi E0 Eh) in Hp. by apply Permutation_nil_r in Hp.
    + destruct (F i mi E0 Eh) as (mi' & E' & _). congruence.
  - intros i mi' E Eh. destruct (B i mi' E) as (mi & E0 & (E1 & E2 & _)). rewrite E2. apply (Hh i mi E0). congruence.
Qed.

(** ** Learning the address of a client *)

Lemma single_kind m L a i now : single a -> kind_ok m L (learned m i a 0 now).
Proof. intros Ha. right. split; [done|]. intros _ Hne. exfalso. apply Hne. exact Ha. Qed.

Lemma learn_single_ok m L i a now ok :
  rinv m L -> is_Some (m_instances m !! i) -> single a -> length (ma_raw a) = MR_MAX_ADDR_LEN ->
  exists owner m', multi_learn_addr m i a 0 now ok = Some (owner, m') /\ rinv m' L /\ inst_rel m m' /\
    (forall j, owner = Some j -> exists r, route_at m' (mroute_key a) = Some r /\ mr_instance r = j).
Proof.
  intros [Hb Hc Hl] Hi Ha Hraw.
  destruct (learn_ok m L i a 0 now ok Hb Hi Hraw (single_kind m L a i now Ha)) as (owner & m' & -> & Hb' & Hrel & Eh & El & Hown & Hat).
  exists owner, m'. split; [done|]. split; [|done]. split; [done| |by apply (link_rel m)].
  destruct Hat as [Hat|[_ Hat]]; [apply (coherent_same m); try done; intros; by apply inst_rel_live|].
  apply (coherent_host m m' a (learned m i a 0 now)); try done.
  - intros; by apply inst_rel_live.
  - intros k r'. by apply (cached_host m L).
Qed.

(** ** Learning the networks of a client *)

(** Nothing that is cached is current. *)
Definition stale (m : multi_context) : Prop :=
  forall k r, route_at m k = Some r -> mr_flags r = CACHED -> mr_cache_generation r < mh_cache_generation (m_route_helper m).

Lemma stale_coherent m : stale m -> coherent m.
Proof. intros Hs _ k r Hk Hf Hg. specialize (Hs k r Hk Hf). lia. Qed.

(** One more length is counted, for [i]. *)
Lemma add_len_ok m L i n :
  base m L -> 0 <= n < Z.of_nat MR_HELPER_NET_LEN -> mh_cache_generation (m_route_helper m) + 1 < 4294967296 ->
  exists rh, mroute_helper_add_iroute46 (m_route_helper m) n = Some rh /\ base (set_helper m rh) ((i, n) :: L) /\ stale (set_helper m rh) /\
    mh_cache_generation rh = mh_cache_generation (m_route_helper m) + 1.
Proof.
  intros [Ht Hr Hk Hc Hl Hg] Hn Hmax. unfold is_u32 in Hg. destruct (add_iroute_ok _ _ n Hc Hn) as (rh & -> & Hc' & Eg & _).
  rewrite u32_small in Eg by (unfold is_u32; lia). exists rh. split; [done|]. split; [|split; [|done]].
  - split; cbn [set_helper m_vhash m_routes m_instances m_route_helper]; try done.
    + destruct Ht. by split.
    + destruct Hr. by split.
    + intros id r E. destruct (Hk id r E) as [(Hf & Hh & Hgen)|[Hf Hin]]; [left; cbn [set_helper m_route_helper]; rewrite Eg; split; [done|]; split; [done|lia]|].
      right. split; [done|]. intros Hlv Hne. apply elem_of_cons. right. by apply Hin.
    + cbn [fmap list_fmap]. by constructor.
    + rewrite Eg. unfold is_u32. lia.
  - intros k r E Hf. cbn [set_helper m_route_helper]. rewrite Eg.
    destruct (route_kind m L k r) as [[(_ & _ & Hgen)|[H0 _]] _]; [by split|exact E|lia|]. rewrite Hf in H0. done.
Qed.

(** A network that is counted is learned. *)
Lemma learn_net_ok m L i a now ok :
  base m L -> stale m -> is_Some (m_instances m !! i) -> length (ma_raw a) = MR_MAX_ADDR_LEN -> (i, ma_netbits a) ∈ L ->
  exists owner m', multi_learn_addr m i a 0 now ok = Some (owner, m') /\ base m' L /\ stale m' /\ inst_rel m m' /\ m_route_helper m' = m_route_helper m.
Proof.
  intros Hb Hs Hi Hraw Hin.
  destruct (learn_ok m L i a 0 now ok Hb Hi Hraw) as (owner & m' & -> & Hb' & Hrel & Eh & El & _ & Hat); [by right|].
  exists owner, m'. split; [done|]. split; [done|]. split; [|done]. intros k r Hk Hf. rewrite Eh.
  destruct Hat as [Hat|[_ Hat]]; rewrite Hat in Hk; [by apply (Hs k)|]. destruct (decide _); [by injection Hk as <-|by apply (Hs k)].
Qed.

Lemma inst_rel_some m m' i mi : inst_rel m m' -> m_instances m !! i = Some mi -> mi_halt mi = false -> is_Some (m_instances m' !! i).
Proof. intros [_ F] E Eh. destruct (F i mi E Eh) as (mi' & -> & _). by eexists. Qed.

Lemma inst_rel_helper m rh : inst_rel m (set_helper m rh).
Proof. by apply inst_rel_same. Qed.

(** One network of [i]: it is counted, and learned. *)
Lemma iroute_step m L i mi n a now ok :
  base m L -> m_instances m !! i = Some mi -> mi_halt mi = false -> 0 <= n < Z.of_nat MR_HELPER_NET_LEN ->
  mh_cache_generation (m_route_helper m) + 1 < 4294967296 -> length (ma_raw a) = MR_MAX_ADDR_LEN -> ma_netbits a = n ->
  exists rh owner m', mroute_helper_add_iroute46 (m_route_helper m) n = Some rh /\ multi_learn_addr (set_helper m rh) i a 0 now ok = Some (owner, m') /\
    base m' ((i, n) :: L) /\ stale m' /\ inst_rel m m' /\ mh_cache_generation (m_route_helper m') = mh_cache_generation (m_route_helper m) + 1.
Proof.
  intros Hb Hmi Hh Hn Hmax Hraw Hna. destruct (add_len_ok m L i n Hb Hn Hmax) as (rh & Erh & Hb1 & Hs1 & Eg). exists rh.
  destruct (learn_net_ok (set_helper m rh) ((i, n) :: L) i a now ok Hb1 Hs1) as (owner & m' & -> & Hb' & Hs' & Hrel & Eh); [by exists mi|done|rewrite Hna; left|].
  exists owner, m'. split; [done|]. split; [done|]. split; [done|]. split; [done|]. split; [|by rewrite Eh].
  eapply inst_rel_trans; [apply (inst_rel_helper m rh)|done].
Qed.

Lemma length_splice_20 (a : list Z) n : length a = n -> (n <= 20)%nat -> length (splice 0 a (replicate MR_MAX_ADDR_LEN 0)) = MR_MAX_ADDR_LEN.
Proof. intros <- Hn. rewrite length_splice; rewrite ?length_replicate; unfold MR_MAX_ADDR_LEN; lia. Qed.

Lemma add_iroutes_loop_ok i now ok l : forall m L mi, base m L -> coherent m -> m_instances m !! i = Some mi -> mi_halt mi = false ->
  Forall (fun ir => is_u32 (ir_network ir) /\ 0 <= ir_netbits ir <= 32) l -> mh_cache_generation (m_route_helper m) + zlen l < 4294967296 ->
  exists m', add_iroutes_loop l m i now ok = Some m' /\ base m' (rev (pair i <$> (ir_netbits <$> l)) ++ L) /\ coherent m' /\ inst_rel m m' /\
    mh_cache_generation (m_route_helper m') = mh_cache_generation (m_route_helper m) + zlen l.
Proof.
  induction l as [|ir l IH]; intros m L mi Hb Hc Hmi Hh Hl Hg; cbn [add_iroutes_loop].
  - exists m. split; [done|]. split; [done|]. split; [done|]. split; [by apply inst_rel_same|]. cbn [length]. lia.
  - apply Forall_cons in Hl as [[Hir Hn] Hl]. cbn [length] in Hg.
    set (a := set_netbits (set_type (set_addr mroute_addr_init MR_ADDR_IPV4 4 (be_bytes 4 (ir_network ir))) (Z.lor MR_ADDR_IPV4 MR_WITH_NETBITS)) (ir_netbits ir)).
    destruct (iroute_step m L i mi (ir_netbits ir) a now ok Hb Hmi Hh) as (rh & owner & m1 & -> & E1 & Hb1 & Hs1 & Hrel1 & Eg1).
    { unfold MR_HELPER_NET_LEN. lia. } { lia. } { apply (length_splice_20 _ 4); [apply length_be_bytes|lia]. } { apply u8_small. unfold is_u8. lia. }
    rewrite Some_bind. unfold multi_learn_in_addr_t. cbn [mroute_extract_openvpn_sockaddr ASSERT]. rewrite Some_bind, (proj2 (Z.leb_le 0 (ir_netbits ir))) by lia.
    change (set_netbits _ _) with a. rewrite E1, Some_bind. cbn [orb ASSERT]. rewrite !Some_bind.
    destruct (ir_forth _ _ Hrel1 i mi Hmi Hh) as (mi1 & Hmi1 & (Eh1 & _)). rewrite Hh in Eh1.
    destruct (IH m1 _ mi1 Hb1 (stale_coherent m1 Hs1) Hmi1 Eh1 Hl ltac:(lia)) as (m' & -> & Hb' & Hc' & Hrel' & Eg'). exists m'. split; [done|].
    split; [|split; [done|split; [by eapply inst_rel_trans|]]].
    + cbn [fmap list_fmap rev]. rewrite <- app_assoc. exact Hb'.
    + cbn [length]. lia.
Qed.

Lemma add_iroutes6_loop_ok i now ok l : forall m L mi, base m L -> coherent m -> m_instances m !! i = Some mi -> mi_halt mi = false ->
  Forall (fun ir => bytes (ir6_network ir) /\ length (ir6_network ir) = 16%nat /\ 0 <= ir6_netbits ir <= 128) l -> mh_cache_generation (m_route_helper m) + zlen l < 4294967296 ->
  exists m', add_iroutes6_loop l m i now ok = Some m' /\ base m' (rev (pair i <$> (ir6_netbits <$> l)) ++ L) /\ coherent m' /\ inst_rel m m' /\
    mh_cache_generation (m_route_helper m') = mh_cache_generation (m_route_helper m) + zlen l.
Proof.
  induction l as [|ir l IH]; intros m L mi Hb Hc Hmi Hh Hl Hg; cbn [add_iroutes6_loop].
  - exists m. split; [done|]. split; [done|]. split; [done|]. split; [by apply inst_rel_same|]. cbn [length]. lia.
  - apply Forall_cons in Hl as [(Hir & Hlen & Hn) Hl]. cbn [length] in Hg.
    set (host := set_addr mroute_addr_init MR_ADDR_IPV6 16 (ir6_network ir)).
    assert (Hhost : host_addr host).
    { split; [by right|done|apply (length_splice_20 _ 16); [done|lia]|]. cbn [host set_addr set_raw ma_raw mroute_addr_init]. unfold splice. cbn [Z.to_nat take app].
      apply Forall_app. split; [done|]. apply Forall_app. split; [done|]. apply Forall_drop, Forall_replicate. unfold is_u8. lia. }
    destruct (try_key host (ir6_netbits ir) Hhost Hn) as (a & Ea & Ek).
    assert (Hraw : length (ma_raw a) = MR_MAX_ADDR_LEN /\ ma_netbits a = ir6_netbits ir).
    { split; [|by injection Ek]. revert Ea. unfold mroute_addr_mask_host_bits. cbn [set_netbits set_type ma_type ma_netbits host set_addr set_raw ma_raw mroute_addr_init].
      change (Z.land (Z.lor MR_ADDR_IPV6 MR_WITH_NETBITS) MR_ADDR_MASK =? MR_ADDR_IPV4) with false.
      change (Z.land (Z.lor MR_ADDR_IPV6 MR_WITH_NETBITS) MR_ADDR_MASK =? MR_ADDR_IPV6) with true. cbv match.
      set (w := splice 0 (ir6_network ir) (replicate MR_MAX_ADDR_LEN 0)).
      assert (Hw : length w = MR_MAX_ADDR_LEN) by (apply (length_splice_20 _ 16); [done|lia]).
      pose proof (mask_loop_ok 16 (take 16 w) [] (128 - ir6_netbits ir)) as Hm. rewrite !app_nil_r in Hm. rewrite u8_small by (unfold is_u8; lia).
      rewrite Hm; [|by rewrite length_take, Hw| |lia].
      - rewrite Some_bind. cbn [Z.eqb ASSERT]. rewrite Some_bind. intros E%(inj Some). rewrite <- E. cbn [ma_raw set_raw].
        rewrite length_splice; [exact Hw|lia|]. rewrite length_be_bytes. change (Z.of_nat (length (ma_raw _))) with (zlen w). rewrite Hw. unfold MR_MAX_ADDR_LEN. lia.
      - apply Forall_take. exact (ha_bytes _ Hhost). }
    destruct Hraw as [Hraw Hna].
    destruct (iroute_step m L i mi (ir6_netbits ir) a now ok Hb Hmi Hh) as (rh & owner & m1 & -> & E1 & Hb1 & Hs1 & Hrel1 & Eg1);
      [unfold MR_HELPER_NET_LEN; lia|lia|done|done|].
    rewrite Some_bind. unfold multi_learn_in6_addr. fold host. rewrite (proj2 (Z.leb_le 0 (ir6_netbits ir))) by lia.
    rewrite Ea, Some_bind, E1, Some_bind. cbn [orb ASSERT]. rewrite !Some_bind.
    destruct (ir_forth _ _ Hrel1 i mi Hmi Hh) as (mi1 & Hmi1 & (Eh1 & _)). rewrite Hh in Eh1.
    destruct (IH m1 _ mi1 Hb1 (stale_coherent m1 Hs1) Hmi1 Eh1 Hl ltac:(lia)) as (m' & -> & Hb' & Hc' & Hrel' & Eg'). exists m'. split; [done|].
    split; [|split; [done|split; [by eapply inst_rel_trans|]]].
    + cbn [fmap list_fmap rev]. rewrite <- app_assoc. exact Hb'.
    + cbn [length]. lia.
Qed.

(** Only what the configuration of an instance says is changed. *)
Lemma set_instance_ok m L i mi mi' :
  base m L -> coherent m -> m_instances m !! i = Some mi -> mi_halt mi' = mi_halt mi -> mi_refcount mi' = mi_refcount mi ->
  mi_route_count mi' = mi_route_count mi -> mi_max_routes_per_client mi' = mi_max_routes_per_client mi ->
  base (set_instance m i mi') L /\ coherent (set_instance m i mi').
Proof.
  intros [Ht [Ho Hi] Hk Hc Hl Hg] Hcoh Hmi E1 E2 E3 E4.
  assert (Hlive : forall j, live (set_instance m i mi') j = live m j).
  { intros j. unfold live. cbn [set_instance m_instances]. destruct (decide (j = i)) as [->|Hne]; [by rewrite lookup_insert_eq, Hmi, E1|by rewrite lookup_insert_ne]. }
  split; [split; cbn [set_instance m_vhash m_routes m_instances m_route_helper]; try done|].
  - destruct Ht. by split.
  - split; cbn [set_instance m_routes m_instances].
    + intros id r E. apply lookup_insert_is_Some'. right. by apply (Ho id).
    + intros j mj [[<- <-]|[Hne E]]%lookup_insert_Some; [|by apply Hi]. destruct (Hi i mi Hmi) as [H1 H2 H3 H4]. split; rewrite ?E1, ?E2, ?E3, ?E4; done.
  - intros id r E. destruct (Hk id r E) as [Hc'|[Hf Hin]]; [by left|right]. split; [done|]. by rewrite Hlive.
  - by apply (coherent_same m).
Qed.

Lemma filter_other {A} (L : list (nat * A)) l i j : i <> j -> filter (fun p : nat * A => p.1 = j) ((pair i <$> l) ++ L) = filter (fun p : nat * A => p.1 = j) L.
Proof.
  intros Hne. rewrite filter_app. replace (filter _ (pair i <$> l)) with (@nil (nat * A)); [done|]. symmetry.
  induction l as [|x l IH]; [done|]. cbn [fmap list_fmap]. rewrite filter_cons_False; done.
Qed.

Lemma filter_own {A} (L : list (nat * A)) l i : filter (fun p : nat * A => p.1 = i) ((pair i <$> l) ++ L) = (pair i <$> l) ++ filter (fun p : nat * A => p.1 = i) L.
Proof.
  rewrite filter_app. f_equal. induction l as [|x l IH]; [done|]. cbn [fmap list_fmap]. rewrite filter_cons_True by done. by rewrite IH.
Qed.

Lemma fmap_rev {A B} (f : A -> B) l : rev (f <$> l) = f <$> rev l.
Proof. induction l as [|x l IH]; [done|]. cbn [fmap list_fmap rev]. by rewrite fmap_app, IH. Qed.

Lemma add_iroutes_ok m L i mi now ok :
  rinv m L -> m_instances m !! i = Some mi -> mi_halt mi = false -> mi_did_iroutes mi = false ->
  mh_cache_generation (m_route_helper m) + zlen (lens mi) < 4294967296 ->
  exists m' L', multi_add_iroutes m i DEV_TYPE_TUN now ok = Some m' /\ rinv m' L'.
Proof.
  intros [Hb Hc Hl] Hmi Hh Hd Hg. unfold lens in Hg. rewrite length_app, !length_fmap in Hg.
  destruct (li_conf _ _ Hl i mi Hmi) as [Hv4 Hv6]. cbn [multi_add_iroutes]. rewrite Hmi, Some_bind.
  destruct (set_instance_ok m L i mi (set_did_iroutes mi true) Hb Hc Hmi) as [Hb0 Hc0]; try done. set (m0 := set_instance m i (set_did_iroutes mi true)) in *.
  assert (Hmi0 : m_instances m0 !! i = Some (set_did_iroutes mi true)) by (cbn; apply lookup_insert_eq).
  destruct (add_iroutes_loop_ok i now ok (mi_iroutes mi) m0 L _ Hb0 Hc0 Hmi0 Hh Hv4) as (m1 & -> & Hb1 & Hc1 & Hrel1 & Eg1); [cbn [m0 set_instance m_route_helper]; lia|].
  rewrite Some_bind. destruct (ir_forth _ _ Hrel1 i _ Hmi0 Hh) as (mi1 & Hmi1 & (Eh1 & Ed1 & Ei1 & Ei61 & _)). cbn [set_did_iroutes mi_halt] in Eh1. rewrite Hh in Eh1.
  destruct (add_iroutes6_loop_ok i now ok (mi_iroutes_ipv6 mi) m1 _ mi1 Hb1 Hc1 Hmi1 Eh1 Hv6) as (m2 & -> & Hb2 & Hc2 & Hrel2 & _).
  { rewrite Eg1. cbn [m0 set_instance m_route_helper]. lia. }
  exists m2. eexists. split; [done|]. split; [exact Hb2|exact Hc2|]. apply (link_rel m1); [exact Hrel2|]. apply (link_rel m0); [exact Hrel1|].
  assert (EL : rev (pair i <$> (ir6_netbits <$> mi_iroutes_ipv6 mi)) ++ rev (pair i <$> (ir_netbits <$> mi_iroutes mi)) ++ L =
    (pair i <$> rev (lens mi)) ++ L).
  { unfold lens. rewrite rev_app_distr, fmap_app, !fmap_rev, <- app_assoc. done. }
  rewrite EL. destruct Hl as [Hconf Hs Hn Hhalt]. split; cbn [m0 set_instance m_instances].
  - intros j mj [[<- <-]|[Hne E]]%lookup_insert_Some; [|by apply (Hconf j)]. destruct (Hconf i mi Hmi). by split.
  - intros j mj [[<- <-]|[Hne E]]%lookup_insert_Some.
    + cbn [set_did_iroutes mi_did_iroutes]. rewrite filter_own. pose proof (Hs i mi Hmi) as Hp. rewrite Hd in Hp. apply Permutation_nil_r in Hp. rewrite Hp, app_nil_r.
      change (lens (set_did_iroutes mi true)) with (lens mi). apply fmap_Permutation. symmetry. apply Permutation_rev.
    + rewrite filter_other by done. by apply Hs.
  - intros j [E Hne]%lookup_insert_None. rewrite filter_other by done. by apply Hn.
  - intros j mj [[<- <-]|[Hne E]]%lookup_insert_Some Hj; [cbn in Hj; congruence|by apply (Hhalt j mj)].
Qed.

(** ** The end of a client *)

Lemma del_netbits_loop_ok l : forall rh L L', counted rh L -> L ≡ₚ l ++ L' -> Forall (fun n => 0 <= n < Z.of_nat MR_HELPER_NET_LEN) l ->
  0 <= mh_cache_generation rh -> mh_cache_generation rh + zlen l < 4294967296 ->
  exists rh', del_netbits_loop l rh = Some rh' /\ counted rh' L' /\ mh_cache_generation rh' = mh_cache_generation rh + zlen l.
Proof.
  induction l as [|n l IH]; intros rh L L' Hc Hp Hl Hg0 Hg; cbn [del_netbits_loop].
  - exists rh. split; [done|]. split; [|cbn [length]; lia]. destruct Hc as [Hok Hc]. split; [done|]. intros k Hk. rewrite Hc by done. cbn [app] in Hp. by rewrite Hp.
  - apply Forall_cons in Hl as [Hn Hl]. cbn [length] in Hg. destruct (del_iroute_ok rh L (l ++ L') n Hc Hn Hp) as (rh1 & -> & Hc1 & Eg & _).
    rewrite u32_small in Eg by (unfold is_u32; lia). rewrite Some_bind.
    destruct (IH rh1 (l ++ L') L' Hc1 (reflexivity _) Hl) as (rh' & -> & Hc' & Eg'); [lia|lia|]. exists rh'. split; [done|]. split; [done|]. cbn [length]. lia.
Qed.

(** What is counted, without [i]. *)
Abbreviation counted_others L i := (filter (fun p : nat * Z => p.1 <> i) L).

Lemma split_counted (L : list (nat * Z)) i : L ≡ₚ counted_for L i ++ counted_others L i.
Proof.
  induction L as [|[j n] L IH]; [done|]. destruct (decide (j = i)) as [E|E].
  - rewrite filter_cons_True, filter_cons_False by (cbn; tauto). cbn [app]. by rewrite <- IH.
  - rewrite filter_cons_False, filter_cons_True by done. rewrite <- Permutation_middle. by rewrite <- IH.
Qed.

Lemma others_same (L : list (nat * Z)) i j : i <> j -> counted_for (counted_others L i) j = counted_for L j.
Proof.
  intros Hne. rewrite list_filter_filter. apply list_filter_iff. intros [k n]. cbn. split; [by intros [? _]|]. intros ->. split; [done|congruence].
Qed.

Lemma others_self (L : list (nat * Z)) i : counted_for (counted_others L i) i = [].
Proof.
  rewrite list_filter_filter. induction L as [|[k n] L IH]; [done|]. rewrite filter_cons_False; [done|]. cbn. intros [E Hne]. by apply Hne.
Qed.

(** The routes of the instances that are left. *)
Lemma closed_coherent m m' L i : base m L -> coherent m ->
  (forall k, route_at m' k = route_at m k) -> (forall j, live m' j = live m j && negb (bool_decide (j = i))) ->
  mh_cache_generation (m_route_helper m) <= mh_cache_generation (m_route_helper m') -> coherent m'.
Proof.
  intros Hb Hc Hat Hlive Hg Hsc k r Hk Hf Hgen Hlv. rewrite Hat in Hk. rewrite Hlive in Hlv. apply andb_true_iff in Hlv as [Hlv Hne].
  destruct (route_kind m L k r Hb Hk) as [[(_ & _ & Hle)|[H0 _]] _]; [|rewrite Hf in H0; done].
  apply (longest_less _ (fun n => static_at m (net_key (mr_addr r) n))); [|apply (Hc Hsc k r); try done; lia].
  intros n. unfold static_at. rewrite Hat. destruct (route_at m (net_key (mr_addr r) n)) as [r'|]; [|by left]. cbn [mbind option_bind]. rewrite Hlive.
  destruct (bool_decide (mr_flags r' = 0)); [|by left]. cbn [andb]. destruct (live m (mr_instance r')) eqn:El'; [|by left].
  destruct (bool_decide (mr_instance r' = i)) eqn:Ei; [|by left]. right. split; [done|]. apply bool_decide_eq_true_1 in Ei. apply negb_true_iff, bool_decide_eq_false_1 in Hne. congruence.
Qed.

Lemma snd_pairs {A} (i : nat) (l : list A) : (pair i <$> l).*2 = l.
Proof. induction l as [|x l IH]; [done|]. cbn [fmap list_fmap snd]. f_equal. exact IH. Qed.

(** The lengths that are left when [i] goes. *)
Definition left_lens (L : list (nat * Z)) (i : nat) (mi : multi_instance) : list (nat * Z) := if mi_did_iroutes mi then counted_others L i else L.

Lemma close_helper_ok m L i mi :
  base m L -> link m L -> m_instances m !! i = Some mi -> mh_cache_generation (m_route_helper m) + zlen (lens mi) < 4294967296 ->
  exists rh, (if mi_did_iroutes mi then rh ← del_netbits_loop (ir_netbits <$> mi_iroutes mi) (m_route_helper m); del_netbits_loop (ir6_netbits <$> mi_iroutes_ipv6 mi) rh
              else Some (m_route_helper m)) = Some rh /\
    counted rh (left_lens L i mi).*2 /\ mh_cache_generation (m_route_helper m) <= mh_cache_generation rh < 4294967296.
Proof.
  intros [_ _ _ Hcn Hlens Hgen] Hl Hmi Hg. unfold is_u32 in Hgen. unfold left_lens. destruct (mi_did_iroutes mi) eqn:Ed; [|exists (m_route_helper m); split; [done|]; split; [done|lia]].
  unfold lens in Hg. rewrite length_app in Hg. pose proof (li_some _ _ Hl i mi Hmi) as Hp. rewrite Ed in Hp.
  assert (HpL : L.*2 ≡ₚ (ir_netbits <$> mi_iroutes mi) ++ ((ir6_netbits <$> mi_iroutes_ipv6 mi) ++ (counted_others L i).*2)).
  { transitivity ((counted_for L i ++ counted_others L i).*2); [apply fmap_Permutation, split_counted|]. rewrite fmap_app, Hp, app_assoc. apply Permutation_app; [|done].
    by rewrite snd_pairs. }
  rewrite HpL in Hlens. apply Forall_app in Hlens as [Hl4 Hl6]. apply Forall_app in Hl6 as [Hl6 _].
  destruct (del_netbits_loop_ok _ (m_route_helper m) _ _ Hcn HpL Hl4) as (rh1 & -> & Hc1 & Eg1); [lia|lia|]. rewrite Some_bind.
  destruct (del_netbits_loop_ok _ rh1 _ _ Hc1 (reflexivity _) Hl6) as (rh2 & -> & Hc2 & Eg2); [lia|lia|].
  exists rh2. split; [done|]. split; [exact Hc2|]. lia.
Qed.

(** The instance when its client has gone. *)
Definition closed (mi : multi_instance) : multi_instance :=
  mk_mi true (mi_refcount mi - 1) (mi_route_count mi) (mi_max_routes_per_client mi) false (mi_iroutes mi) (mi_iroutes_ipv6 mi).

Definition close_instances (I : gmap nat multi_instance) (i : nat) (mi : multi_instance) : gmap nat multi_instance :=
  if mi_refcount mi - 1 <=? 0 then delete i I else <[i := closed mi]> I.

Lemma close_runs m i mi rh :
  m_instances m !! i = Some mi -> mi_halt mi = false ->
  (if mi_did_iroutes mi then rh ← del_netbits_loop (ir_netbits <$> mi_iroutes mi) (m_route_helper m); del_netbits_loop (ir6_netbits <$> mi_iroutes_ipv6 mi) rh
   else Some (m_route_helper m)) = Some rh ->
  multi_close_instance m i DEV_TYPE_TUN = Some (mk_m (m_vhash m) (m_routes m) (close_instances (m_instances m) i mi) rh (m_local m)).
Proof.
  intros Hmi Hh Hrh. unfold multi_close_instance, close_instances. rewrite Hmi, Some_bind, Hh. cbn [negb ASSERT]. rewrite Some_bind. cbn [mi_did_iroutes].
  destruct (mi_did_iroutes mi) eqn:Ed.
  - cbn [multi_del_iroutes set_instance m_instances m_route_helper]. rewrite lookup_insert_eq, Some_bind. cbn [mi_iroutes mi_iroutes_ipv6].
    destruct (del_netbits_loop (ir_netbits <$> mi_iroutes mi) (m_route_helper m)) as [rh1|]; [|done]. cbn [mbind option_bind] in Hrh. rewrite Some_bind, Hrh, !Some_bind.
    unfold multi_instance_dec_refcount. cbn [set_helper set_instance m_instances m_vhash m_routes m_local m_route_helper].
    rewrite lookup_insert_eq, Some_bind, insert_insert_eq. cbn [set_did_iroutes set_refcount mi_refcount].
    destruct (_ <=? 0); [by rewrite delete_insert_eq|]. unfold set_helper, set_instance. cbn [m_instances m_vhash m_routes m_local m_route_helper]. by rewrite !insert_insert_eq.
  - injection Hrh as <-. rewrite Some_bind. unfold multi_instance_dec_refcount. cbn [set_instance m_instances m_vhash m_routes m_local m_route_helper].
    rewrite lookup_insert_eq, Some_bind. cbn [set_refcount mi_refcount].
    destruct (_ <=? 0); [by rewrite delete_insert_eq|]. unfold set_instance. cbn [m_instances m_vhash m_routes m_local m_route_helper]. by rewrite insert_insert_eq.
Qed.

Lemma close_lookup I i mi j mj :
  close_instances I i mi !! j = Some mj -> (j = i /\ mj = closed mi /\ 0 < mi_refcount mi - 1) \/ (j <> i /\ I !! j = Some mj).
Proof.
  unfold close_instances. destruct (Z.leb_spec (mi_refcount mi - 1) 0); [intros [Hne E]%lookup_delete_Some; by right|].
  intros [[<- <-]|[Hne E]]%lookup_insert_Some; [by left|by right].
Qed.

Lemma close_lookup_ne I i mi j : j <> i -> close_instances I i mi !! j = I !! j.
Proof. intros Hne. unfold close_instances. destruct (_ <=? 0); [by apply lookup_delete_ne|by apply lookup_insert_ne]. Qed.

Lemma close_refs m i mi rh :
  refs_ok m -> m_instances m !! i = Some mi -> mi_halt mi = false ->
  refs_ok (mk_m (m_vhash m) (m_routes m) (close_instances (m_instances m) i mi) rh (m_local m)).
Proof.
  intros [Ho Hi] Hmi Hh. destruct (Hi i mi Hmi) as [H1 H2 H3 H4]. rewrite Hh in H2. split; cbn [m_routes m_instances].
  - intros id r E. destruct (decide (mr_instance r = i)) as [Er|Er]; [|rewrite close_lookup_ne by done; by apply (Ho id)].
    unfold close_instances. pose proof (owned_pos _ _ _ E). rewrite Er in *. destruct (Z.leb_spec (mi_refcount mi - 1) 0); [lia|]. rewrite lookup_insert_eq. by eexists.
  - intros j mj [(-> & -> & Hp)|[Hne E]]%close_lookup; [|by apply Hi]. split; cbn [closed mi_route_count mi_refcount mi_halt mi_max_routes_per_client]; lia.
Qed.

Lemma close_ok m L i mi :
  rinv m L -> m_instances m !! i = Some mi -> mi_halt mi = false -> mh_cache_generation (m_route_helper m) + zlen (lens mi) < 4294967296 ->
  exists m', multi_close_instance m i DEV_TYPE_TUN = Some m' /\ rinv m' (left_lens L i mi) /\ forall j, live m' j = live m j && negb (bool_decide (j = i)).
Proof.
  intros [Hb Hc Hl] Hmi Hh Hg. destruct (close_helper_ok m L i mi Hb Hl Hmi Hg) as (rh & Erh & Hcrh & Hgrh). rewrite (close_runs m i mi rh Hmi Hh Erh).
  set (m' := mk_m _ _ _ _ _). exists m'. split; [done|]. pose proof Hb as [[Hth Htr Htu Hown] Hrefs Hk Hcn Hlens Hgen]. unfold is_u32 in Hgen.
  assert (Hlive : forall j, live m' j = live m j && negb (bool_decide (j = i))).
  { intros j. unfold live. cbn [m' m_instances]. destruct (decide (j = i)) as [->|Hne].
    - rewrite (bool_decide_eq_true_2 (i = i)), andb_false_r by done. destruct (close_instances _ _ _ !! i) as [mj|] eqn:E; [|done].
      by apply close_lookup in E as [(_ & -> & _)|[? _]].
    - rewrite (bool_decide_eq_false_2 (j = i)), andb_true_r by done. by rewrite close_lookup_ne. }
  assert (Hin : forall j n, j <> i -> (j, n) ∈ L -> (j, n) ∈ left_lens L i mi).
  { intros j n Hne Hjn. unfold left_lens. destruct (mi_did_iroutes mi); [|done]. by apply list_elem_of_filter. }
  split; [split|exact Hlive].
  - split; cbn [m' m_vhash m_routes m_instances m_route_helper].
    + by split.
    + by apply close_refs.
    + intros id r E. destruct (Hk id r E) as [(Hf & Hh' & Hg')|[Hf Hn]]; [left; cbn [m' m_route_helper]; split; [done|]; split; [done|lia]|right].
      split; [done|]. rewrite Hlive. intros [Hlv Hne]%andb_true_iff Ht. apply negb_true_iff, bool_decide_eq_false_1 in Hne. apply Hin; [done|]. by apply Hn.
    + exact Hcrh.
    + unfold left_lens. destruct (mi_did_iroutes mi); [|done]. rewrite Forall_fmap in Hlens |- *. apply Forall_forall. intros p [_ Hp]%list_elem_of_filter.
      rewrite Forall_forall in Hlens. by apply Hlens.
    + unfold is_u32. lia.
  - apply (closed_coherent m m' L i Hb Hc); [done|exact Hlive|cbn [m' m_route_helper]; lia].
  - destruct Hl as [Hconf Hs Hn Hhalt]. assert (Hself : counted_for (left_lens L i mi) i = []).
    { unfold left_lens. destruct (mi_did_iroutes mi) eqn:Ed; [apply others_self|]. pose proof (Hs i mi Hmi) as Hp. rewrite Ed in Hp. by apply Permutation_nil_r in Hp. }
    assert (Hother : forall j, j <> i -> counted_for (left_lens L i mi) j = counted_for L j).
    { intros j Hne. unfold left_lens. destruct (mi_did_iroutes mi); [|done]. by apply others_same. }
    split; cbn [m' m_instances].
    + intros j mj [(-> & -> & _)|[_ E]]%close_lookup; [|by apply (Hconf j)]. destruct (Hconf i mi Hmi). by split.
    + intros j mj [(-> & -> & _)|[Hne E]]%close_lookup; [by rewrite Hself|]. rewrite Hother by done. by apply Hs.
    + intros j E. destruct (decide (j = i)) as [->|Hne]; [done|]. rewrite close_lookup_ne in E by done. rewrite Hother by done. by apply Hn.
    + intros j mj [(-> & -> & _)|[_ E]]%close_lookup; [done|]. by apply (Hhalt j).
Qed.

(** ** A new client *)

Lemma create_ok m L i mi :
  rinv m L -> m_instances m !! i = None -> conf_ok mi -> mi_halt mi = false -> mi_refcount mi = 1 -> mi_route_count mi = 0 -> mi_did_iroutes mi = false ->
  rinv (set_instance m i mi) L.
Proof.
  intros [Hb Hc Hl] Hi Hconf Hh Hrc Hrt Hd. pose proof Hb as [Ht [Ho Hio] Hk Hcn Hlens Hgen].
  assert (Hnone : forall id r, m_routes m !! id = Some r -> mr_instance r <> i).
  { intros id r E Er. destruct (Ho id r E) as [mj Hj]. congruence. }
  assert (Hlive : forall j, j <> i -> live (set_instance m i mi) j = live m j).
  { intros j Hne. unfold live. cbn [set_instance m_instances]. by rewrite lookup_insert_ne. }
  assert (Hown : owned (m_routes m) i = 0).
  { unfold owned. replace (filter _ (m_routes m)) with (∅ : gmap nat multi_route); [done|]. symmetry. apply map_empty. intros id.
    apply map_lookup_filter_None. right. intros r E. cbn [snd]. by apply (Hnone id). }
  assert (Hstatic : forall k, static_at (set_instance m i mi) k = static_at m k).
  { intros k. unfold static_at. change (route_at (set_instance m i mi) k) with (route_at m k). destruct (route_at m k) as [r|] eqn:E; [|done]. cbn [mbind option_bind].
    destruct (route_kind m L k r Hb E) as (_ & _ & id & _ & Er). by rewrite (Hlive _ (Hnone id r Er)). }
  split.
  - split; cbn [set_instance m_vhash m_routes m_instances m_route_helper]; try done.
    + destruct Ht. by split.
    + split; cbn [set_instance m_routes m_instances].
      * intros id r E. rewrite lookup_insert_ne by (apply not_eq_sym; by apply (Hnone id)). by apply (Ho id).
      * intros j mj [[<- <-]|[Hne E]]%lookup_insert_Some; [|by apply Hio]. split; rewrite ?Hown, ?Hh, ?Hrc, ?Hrt; lia.
    + intros id r E. destruct (Hk id r E) as [Hcd|[Hf Hn]]; [by left|right]. split; [done|]. by rewrite (Hlive _ (Hnone id r E)).
  - intros Hsc k r Hk' Hf Hg Hlv. change (route_at m k = Some r) in Hk'. destruct (route_kind m L k r Hb Hk') as (_ & _ & id & _ & Er).
    rewrite (Hlive _ (Hnone id r Er)) in Hlv. unfold lpm. rewrite (longest_ext _ _ (fun n => static_at m (net_key (mr_addr r) n))) by (intros; apply Hstatic). by apply (Hc Hsc k r).
  - destruct Hl as [Hcf Hs Hn Hhalt]. split; cbn [set_instance m_instances].
    + intros j mj [[<- <-]|[Hne E]]%lookup_insert_Some; [done|by apply (Hcf j)].
    + intros j mj [[<- <-]|[Hne E]]%lookup_insert_Some; [rewrite Hd; by rewrite (Hn i Hi)|by apply Hs].
    + intros j [E Hne]%lookup_insert_None. by apply Hn.
    + intros j mj [[<- <-]|[Hne E]]%lookup_insert_Some; [congruence|by apply (Hhalt j)].
Qed.

(** ** Unlearning and reaping *)

(** Routes are taken out: those of hosts, or that lead nowhere, or stale ones. *)
Record deleted_routes (m m' : multi_context) (dead : nat -> Prop) : Prop := {
  dr_hash : vinv (m_vhash m') (hmap (m_vhash m'));
  dr_map : forall k id, hmap (m_vhash m') !! k = Some id <-> hmap (m_vhash m) !! k = Some id /\ ~ dead id;
  dr_routes : forall id r, m_routes m' !! id = Some r <-> m_routes m !! id = Some r /\ ~ dead id;
  dr_refs : refs_ok m';
  dr_inst : inst_rel m m';
  dr_helper : m_route_helper m' = m_route_helper m;
  dr_keys : own_keys (m_vhash m');
  dr_dead : stale_routes_check = false -> forall id r, m_routes m !! id = Some r -> dead id -> Z.land (ma_type (mr_addr r)) MR_WITH_NETBITS = 0 \/ (mr_flags r = 0 -> live m (mr_instance r) = false)
}.

Lemma deleted_rinv m m' L dead : rinv m L -> deleted_routes m m' dead -> rinv m' L.
Proof.
  intros [Hb Hc Hl] [Hv Hm Hr Hrefs Hrel Eh Hkeys Hdead]. pose proof Hb as [[Hth Htr Htu _] _ Hk Hcn Hlens Hgen].
  assert (Hat : forall k r, route_at m' k = Some r -> route_at m k = Some r).
  { intros k r. unfold route_at. destruct (hmap (m_vhash m') !! k) as [id|] eqn:E; [|done]. cbn [mbind option_bind].
    apply Hm in E as [-> _]. cbn [mbind option_bind]. intros E. by apply Hr in E as [? _]. }
  assert (Hst : stale_routes_check = false -> forall a n, host_addr a -> static_at m' (net_key a n) = static_at m (net_key a n)).
  { intros Hsc a n Ha. destruct (route_at m' (net_key a n)) as [r|] eqn:E'.
    - unfold static_at. rewrite E', (Hat _ _ E'). cbn [mbind option_bind]. by rewrite (inst_rel_live m m' _ Hrel).
    - unfold static_at. rewrite E'. destruct (route_at m (net_key a n)) as [r|] eqn:E; [|done]. cbn [mbind option_bind].
      destruct (net_static m L a n r Hb Ha E) as [Hf _]. destruct (route_kind m L _ r Hb E) as (_ & Ek & id & Eid & Er).
      destruct (live m (mr_instance r)) eqn:El; [|by rewrite andb_false_r]. exfalso.
      assert (Hd : ~ dead id).
      { intros Hd. destruct (Hdead Hsc id r Er Hd) as [Hh|Hh]; [by apply (net_type (mr_addr r) n a Ha Ek)|]. specialize (Hh Hf). congruence. }
      unfold route_at in E'. rewrite (proj2 (Hm (net_key a n) id)) in E' by done. cbn [mbind option_bind] in E'. rewrite (proj2 (Hr id r)) in E' by done. done. }
  split; [split|..].
  - split; [exact Hv| | |exact Hkeys].
    + intros k id [E Hd]%Hm. destruct (Htr k id E) as (r & Er & Ek). exists r. split; [|done]. by apply Hr.
    + intros id r [E Hd]%Hr. apply Hm. split; [|done]. by apply Htu.
  - exact Hrefs.
  - intros id r [E _]%Hr. destruct (Hk id r E) as [Hcd|[Hf Hn]]; unfold kind_ok; rewrite Eh; [by left|right]. split; [done|]. by rewrite (inst_rel_live m m' _ Hrel).
  - by rewrite Eh.
  - done.
  - by rewrite Eh.
  - intros Hsc k r Hk' Hf Hg Hlv. rewrite Eh in Hg. rewrite (inst_rel_live m m' _ Hrel) in Hlv. apply Hat in Hk'.
    pose proof (cached_host m L k r Hb Hk' Hf) as Hh. unfold lpm. rewrite (longest_ext _ _ (fun n => static_at m (net_key (mr_addr r) n))) by (intros; by apply Hst).
    by apply (Hc Hsc k r).
  - by apply (link_rel m).
Qed.

(** ** Unlearning *)

Lemma unlearn_ok m L i a :
  rinv m L -> single a -> exists m', multi_unlearn_addr m i a = Some m' /\ rinv m' L.
Proof.
  intros Hi Ha. pose proof (ri_base _ _ Hi) as Hb. unfold multi_unlearn_addr.
  destruct (vhash_lookup_fast_ok m a (ba_table _ _ Hb)) as (he & h1 & -> & Hv1 & Hown1 & _ & _ & _ & Ehe & _).
  rewrite Some_bind, Ehe. destruct (base_vhash m L h1 Hb Hv1 Hown1) as [Hb1 Hat1]. set (m1 := set_vhash m h1) in *.
  assert (Ehm : hmap (m_vhash m1) = hmap (m_vhash m)) by (apply hmap_inv; exact Hv1).
  assert (Hi1 : rinv m1 L).
  { split; [done| |]; [by apply (coherent_same m); [..|apply Hi]|]. apply (link_rel m); [by apply inst_rel_same|apply Hi]. }
  destruct (hmap (m_vhash m) !! mroute_key a) as [id|] eqn:Eid; [|by exists m1].
  destruct (to_route _ (ba_table _ _ Hb) _ _ Eid) as (r & Er & Ek). change (m_routes m1) with (m_routes m). rewrite Er, Some_bind.
  destruct (bool_decide (mr_instance r = i)); [|by exists m1].
  destruct (hash_remove_by_value_ok _ ptr_key h1 _ id Hv1) as (h2 & E2 & Hv2). change (m_vhash m1) with h1. rewrite E2, Some_bind.
  set (m2 := set_vhash m1 h2).
  destruct (route_del_ok m2 id r) as (m' & -> & Hrefs & Hrel & ER & Evh & Eh & _); [destruct (ba_refs _ _ Hb1); by split|exact Er|].
  exists m'. split; [done|]. apply (deleted_rinv m1 m' L (fun j => j = id) Hi1). pose proof (hmap_inv _ _ Hv2) as Eh2.
  split.
  - rewrite Evh. change (m_vhash m2) with h2. by rewrite Eh2.
  - intros k j. rewrite Evh. change (m_vhash m2) with h2. rewrite Eh2, Ehm, map_lookup_filter_Some. done.
  - intros j r'. rewrite ER, lookup_delete_Some. change (m_routes m2) with (m_routes m1). split; [intros [? ?]; by split; [|apply not_eq_sym]|intros [? ?]; by split; [apply not_eq_sym|]].
  - exact Hrefs.
  - eapply inst_rel_trans; [|exact Hrel]. by apply inst_rel_same.
  - rewrite Eh. done.
  - rewrite Evh. by apply (keys_remove_by_value _ _ _ _ E2).
  - intros _ j r' Ej ->. left. assert (r' = r) as -> by (change (m_routes m1) with (m_routes m) in Ej; congruence).
    injection Ek as -> _ _ _ _. exact Ha.
Qed.

(** ** Reaping, and the check for stale routes

    A loop over a range of buckets that deletes the routes that are [dead] when it starts. *)

Abbreviation ids l := ((fun e : vhash_element => he_value e) <$> l).

(** Different elements are different routes. *)
Lemma ids_nodup m h M l :
  table_ok m -> vinv h M -> M = hmap (m_vhash m) -> NoDup (pairs ptr_key l).*1 -> (forall c v, (c, v) ∈ pairs ptr_key l -> M !! c = Some v) -> keyed l -> NoDup (ids l).
Proof.
  intros [_ Hr _] _ -> Hnd Hin Hk. induction Hk as [|e l [k Hek] Hk IH]; [constructor|]. cbn [pairs fmap list_fmap] in *. rewrite Hek in Hnd, Hin.
  cbn [fmap list_fmap fst] in Hnd. apply NoDup_cons in Hnd as [Hne Hnd]. constructor.
  - intros (e' & Ev & He')%list_elem_of_fmap. apply Hne. unfold keyed in Hk. rewrite Forall_forall in Hk. destruct (Hk e' He') as [k' Hk'].
    assert (Hp : (ptr_key k', he_value e') ∈ pairs ptr_key l) by (apply (in_pairs_iff ptr_key); by exists e', k').
    destruct (Hr _ _ (Hin (ptr_key k') _ ltac:(right; exact Hp))) as (r' & Er' & Ek').
    destruct (Hr _ _ (Hin (ptr_key k) (he_value e) ltac:(left))) as (r & Er & Ek). rewrite <- Ev in Er'. assert (r' = r) as -> by congruence.
    rewrite <- Ek, Ek'. apply list_elem_of_fmap. by exists (ptr_key k', he_value e').
  - apply IH; [done|]. intros c v Hcv. apply Hin. by right.
Qed.

Section sweep.
Variable m : multi_context.
Variable body : vhash_element -> multi_context -> option (bool * multi_context).
Variable dead : nat -> bool.

(** The body of the loop, in any state that the loop can be in. *)
Hypothesis body_ok : forall m1 e r, refs_ok m1 -> inst_rel m m1 -> m_route_helper m1 = m_route_helper m ->
  m_routes m !! he_value e = Some r -> m_routes m1 !! he_value e = Some r ->
  body e m1 = if dead (he_value e) then m2 ← multi_route_del m1 (he_value e); Some (true, m2) else Some (false, m1).

(** The body of the loop over the elements [l]; [m] is the state before the loop. *)
Lemma sweep_runs l : forall m1, refs_ok m1 -> inst_rel m m1 -> m_route_helper m1 = m_route_helper m -> NoDup (ids l) ->
  (forall e, e ∈ l -> exists r, m_routes m !! he_value e = Some r /\ m_routes m1 !! he_value e = Some r) ->
  exists m2, runs (fun e => dead (he_value e)) body l m1 m2 /\ refs_ok m2 /\ inst_rel m m2 /\
    m_vhash m2 = m_vhash m1 /\ m_route_helper m2 = m_route_helper m /\ m_local m2 = m_local m1 /\
    forall id r, m_routes m2 !! id = Some r <-> m_routes m1 !! id = Some r /\ ~ (id ∈ ids l /\ dead id = true).
Proof.
  induction l as [|e l IH]; intros m1 Hrefs Hrel Eh Hnd Hin.
  - exists m1. split; [constructor|]. split_and!; try done. intros id r. split; [|by intros [? _]]. intros E. split; [done|]. by intros [?%elem_of_nil _].
  - cbn [fmap list_fmap] in Hnd. apply NoDup_cons in Hnd as [Hne Hnd]. destruct (Hin e ltac:(apply list_elem_of_here)) as (r & Er & Er1).
    pose proof (body_ok m1 e r Hrefs Hrel Eh Er Er1) as Hbody. destruct (dead (he_value e)) eqn:Edead.
    + destruct (route_del_ok m1 (he_value e) r Hrefs Er1) as (m1' & Edel & Hrefs1 & Hrel1 & ER1 & Ev1 & Eh1 & El1).
      destruct (IH m1' Hrefs1) as (m2 & Hr2 & Hrefs2 & Hrel2 & Ev2 & Eh2 & El2 & ER2).
      { by eapply inst_rel_trans. } { congruence. } { done. }
      { intros e' He'. destruct (Hin e') as (r' & E1 & E2); [by right|]. exists r'. split; [done|]. rewrite ER1, lookup_delete_ne; [done|].
        intros E. apply Hne. rewrite E. by apply (list_elem_of_fmap_2 (fun e0 : hash_element => he_value e0)). }
      exists m2. split; [econstructor; [|exact Hr2]; by rewrite Hbody, Edel, Some_bind, Edead|].
      split_and!; try done; try congruence. intros id r'. rewrite ER2, ER1, lookup_delete_Some. cbn [fmap list_fmap]. rewrite elem_of_cons. split.
      * intros [[Hx E] Hnot]. split; [done|]. intros [[->|Hy] Hdy]; [done|]. by apply Hnot.
      * intros [E Hnot]. split; [split; [|done]|intros [Hy Hdy]; apply Hnot; tauto]. intros <-. apply Hnot. tauto.
    + destruct (IH m1 Hrefs Hrel Eh Hnd) as (m2 & Hr2 & Hrefs2 & Hrel2 & Ev2 & Eh2 & El2 & ER2); [intros e' He'; apply Hin; by right|].
      exists m2. split; [econstructor; [|exact Hr2]; by rewrite Hbody, Edead|].
      split_and!; try done. intros id r'. rewrite ER2. cbn [fmap list_fmap]. rewrite elem_of_cons. split; intros [E Hnot]; split; try done; intros Hx; apply Hnot; [|tauto].
      destruct Hx as [[->|Hx] Hdx]; [|done]. congruence.
Qed.

Lemma sweep_ok L a b :
  rinv m L -> 0 <= a <= Z.min b (h_n_buckets (m_vhash m)) ->
  (stale_routes_check = false -> forall id r, m_routes m !! id = Some r -> dead id = true -> mr_flags r = 0 -> live m (mr_instance r) = false) ->
  exists m', (hi ← hash_iterator_init_range (m_vhash m) a b; '(_, h, hi, m') ← iterate (iterate_fuel (m_vhash m)) (m_vhash m) hi body m;
    h ← hash_iterator_free h hi; Some (set_vhash m' h)) = Some m' /\ rinv m' L.
Proof.
  intros Hi Hab Hdead. pose proof (ri_base _ _ Hi) as Hb. pose proof (ba_table _ _ Hb) as Ht. pose proof (to_hash _ Ht) as Hv. set (h := m_vhash m) in *.
  pose proof Hv as [(j & Hj & En & Em & El) _ Hn HM Hc].
  pose proof (Z.pow_lt_mono_r 2 j 32 ltac:(lia) ltac:(lia) ltac:(lia)) as Hmax. change (2 ^ 32) with 4294967296 in Hmax.
  destruct (split_range (h_buckets h) a b (h_n_buckets h) ltac:(lia) Hab) as (pre & todo & post & Hbs & Hlp & Hlt & Hif).
  set (del := fun e : vhash_element => dead (he_value e)).
  assert (Hk : keyed (concat todo)) by (eapply (inv_keyed _ _ del h _ (concat pre) _ (concat post)); [exact Hv|by rewrite <- !concat_app, <- Hbs]).
  assert (Hin : forall c v, (c, v) ∈ pairs ptr_key (concat todo) -> hmap h !! c = Some v).
  { intros c v Hcv. unfold hmap. apply elem_of_map; [done|]. rewrite Hbs, !concat_app, !pairs_app, !elem_of_app. tauto. }
  assert (Hnd : NoDup (ids (concat todo))).
  { apply (ids_nodup m h (hmap h)); try done. rewrite Hbs, !concat_app, !pairs_app, !fmap_app in Hn. apply NoDup_app in Hn as (_ & _ & Hn). by apply NoDup_app in Hn as (Hn & _ & _). }
  assert (Hel : forall e, e ∈ concat todo -> exists k, he_key e = Some k /\ hmap h !! ptr_key k = Some (he_value e)).
  { intros e He. unfold keyed in Hk. rewrite Forall_forall in Hk. destruct (Hk e He) as [k Hek]. exists k. split; [done|]. apply Hin. apply (in_pairs_iff ptr_key). by exists e, k. }
  destruct (sweep_runs (concat todo) m (ba_refs _ _ Hb)) as (m2 & Hruns & Hrefs2 & Hrel2 & Ev2 & Eh2 & _ & ER2).
  { by apply inst_rel_same. } { done. } { exact Hnd. }
  { intros e He. destruct (Hel e He) as (k & _ & E). destruct (to_route _ Ht _ _ E) as (r & Er & _). by exists r. }
  destruct (iterate_ok del body h a b pre todo post m m2 Hbs) as (hi & h1 & hi1 & E1 & E2 & E3);
    [lia|lia|lia|exact Hif|exact Hk|rewrite Hc; apply u32_range|exact Hruns|].
  destruct (settled_map _ ptr_key del dead h _ pre todo post Hv Hbs) as (M' & Hv' & Hsub & Hdel); [done|].
  fold h. rewrite E1, Some_bind, E2, Some_bind, E3, Some_bind. eexists. split; [done|].
  apply (deleted_rinv m _ L (fun id => id ∈ ids (concat todo) /\ dead id = true) Hi). pose proof (hmap_inv _ _ Hv') as Eh'.
  split; cbn [set_vhash m_vhash m_routes m_route_helper].
  - by rewrite Eh'.
  - intros k id. rewrite Eh'. change (m_vhash m) with h. destruct (hmap h !! k) as [id0|] eqn:Ek.
    + assert (Hpair : (k, id0) ∈ pairs ptr_key (concat todo) <-> id0 ∈ ids (concat todo)).
      { rewrite (in_pairs_iff ptr_key). split.
        - intros (e & k' & He & _ & _ & <-). by apply (list_elem_of_fmap_2 (fun e0 : hash_element => he_value e0)).
        - intros (e & -> & He)%list_elem_of_fmap. destruct (Hel e He) as (k' & Hk' & E'). exists e, k'. split; [done|]. split; [done|]. split; [|done].
          destruct (to_route _ Ht _ _ E') as (r1 & Er1 & <-). destruct (to_route _ Ht _ _ Ek) as (r2 & Er2 & <-). congruence. }
      pose proof (Hdel k id0 Ek) as Hd. rewrite Hpair in Hd. destruct (M' !! k) as [id'|] eqn:Ek'.
      * pose proof (lookup_weaken _ _ _ _ Ek' Hsub) as Ew. assert (id' = id0) as -> by congruence. split; [|by intros [? _]]. intros [= <-]. split; [done|].
        intros [H1 H2]. assert (Some id0 = None) by (apply Hd; tauto). done.
      * split; [done|]. intros [[= <-] Hnot]. exfalso. apply Hnot. apply and_comm. by apply Hd.
    + destruct (M' !! k) as [id'|] eqn:Ek'; [pose proof (lookup_weaken _ _ _ _ Ek' Hsub); congruence|]. split; [done|by intros [? _]].
  - exact ER2.
  - destruct Hrefs2. by split.
  - eapply inst_rel_trans; [exact Hrel2|]. by apply inst_rel_same.
  - exact Eh2.
  - eapply keys_iterator_free; [exact E3|]. eapply keys_iterate; [exact E2|]. exact (to_keys _ Ht).
  - intros Hsc id r Er [_ Hd]. right. intros Hf. by apply (Hdead Hsc id r).
Qed.

End sweep.

(** What is reaped: routes that are not defined. *)
Definition dead_route (m : multi_context) (now : Z) (id : nat) : bool :=
  match m_routes m !! id with Some r => negb (is_defined m r now) | None => false end.

(** What is stale: routes that are defined and have not been used for the time [ageing]. *)
Definition stale_route (m : multi_context) (ageing now : Z) (id : nat) : bool :=
  match m_routes m !! id with Some r => is_defined m r now && (ageing <=? now - mr_last_reference r) | None => false end.

Lemma defined_in_loop m m1 r now id : refs_ok m1 -> inst_rel m m1 -> m_route_helper m1 = m_route_helper m -> m_routes m1 !! id = Some r ->
  multi_route_defined m1 r now = Some (is_defined m r now).
Proof.
  intros Hrefs Hrel Eh Er. rewrite route_defined_ok by (apply (ro_owner _ Hrefs _ _ Er)). f_equal. unfold is_defined. by rewrite (inst_rel_live m m1 _ Hrel), Eh.
Qed.

Lemma reap_ok m L a b now :
  rinv m L -> 0 <= a <= Z.min b (h_n_buckets (m_vhash m)) -> exists m', multi_reap_range m a b now = Some m' /\ rinv m' L.
Proof.
  intros Hi Hab. apply (sweep_ok m (reap_body now) (dead_route m now)); [|done|done|].
  - intros m1 e r Hrefs Hrel Eh Er Er1. unfold reap_body, dead_route. rewrite Er1, Er, Some_bind, (defined_in_loop m m1 r now _ Hrefs Hrel Eh Er1), Some_bind.
    by destruct (is_defined m r now).
  - intros _ id r Er Hd Hf. unfold dead_route in Hd. rewrite Er, (defined_static m r now Hf) in Hd. by destruct (live m (mr_instance r)).
Qed.

(** Networks that are in use can be among what is deleted. *)
Lemma stale_ok m L ageing now :
  stale_routes_check = true -> rinv m L -> exists m', check_stale_routes m ageing now = Some m' /\ rinv m' L.
Proof.
  intros Hsc Hi. pose proof (to_hash _ (ba_table _ _ (ri_base _ _ Hi))) as [(j & Hj & En & _) _ _ _ _].
  apply (sweep_ok m (stale_body ageing now) (stale_route m ageing now)); [|done| |by rewrite Hsc].
  - intros m1 e r Hrefs Hrel Eh Er Er1. unfold stale_body, stale_route. rewrite Er1, Er, Some_bind, (defined_in_loop m m1 r now _ Hrefs Hrel Eh Er1), Some_bind.
    by destruct (is_defined m r now && (ageing <=? now - mr_last_reference r)).
  - rewrite En. lia.
Qed.

End stale_routes_check.

Arguments rinv stale_routes_check m L : clear implicits.
