(* ===== verification/Routing.v ===== *)
(** * Routing to clients: what the table promises

    Clients connect, bring addresses and networks, send packets that are looked up, and leave,
    and the reaper and the check for stale routes run in between: the table stays sound; and
    without [--stale-routes-check], which deletes networks that are in use, a lookup gives the
    client with the longest prefix at every point. *)
From S2P Require Import Prelude Integers Buffer Proto Mss HashTable Mroute Hash Routes RouteNet RouteInv RouteSteps.

(** A client that has just connected, with a quota and its networks. *)
Definition new_client (max : Z) (v4 : list iroute) (v6 : list iroute_ipv6) : multi_instance := mk_mi false 1 0 max false v4 v6.

Inductive route_op :=
| OpConnect (i : nat) (max : Z) (v4 : list iroute) (v6 : list iroute_ipv6)
| OpAddress (i : nat) (a : mroute_addr) (now : Z) (learn_ok : mroute_addr -> bool)
| OpNetworks (i : nat) (now : Z) (learn_ok : mroute_addr -> bool)
| OpLookup (a : mroute_addr) (cidr_routing : bool) (now : Z) (learn_ok : mroute_addr -> bool)
| OpUnlearn (i : nat) (a : mroute_addr)
| OpClose (i : nat)
| OpReap (start_bucket end_bucket now : Z)
| OpStale (ageing_time now : Z).

Definition route_do (m : multi_context) (op : route_op) : option multi_context :=
  match op with
  | OpConnect i max v4 v6 => Some (set_instance m i (new_client max v4 v6))
  | OpAddress i a now ok => '(_, m) ← multi_learn_addr m i a 0 now ok; Some m
  | OpNetworks i now ok => multi_add_iroutes m i DEV_TYPE_TUN now ok
  | OpLookup a cidr now ok => '(_, m) ← multi_get_instance_by_virtual_addr m a cidr now ok; Some m
  | OpUnlearn i a => multi_unlearn_addr m i a
  | OpClose i => multi_close_instance m i DEV_TYPE_TUN
  | OpReap a b now => multi_reap_range m a b now
  | OpStale ageing now => check_stale_routes m ageing now
  end.

(** The generation counter of the cache has not come around, with another [n] changes. *)
Definition generations (m : multi_context) (n : Z) : Prop := mh_cache_generation (m_route_helper m) + n < 4294967296.

(** [stale_routes_check]: whether the option is on.  The addresses are of hosts or Ethernet
    stations; the networks are searched for hosts only. *)
Definition op_ok (stale_routes_check : bool) (m : multi_context) (op : route_op) : Prop :=
  match op with
  | OpConnect i max v4 v6 => m_instances m !! i = None /\ conf_ok (new_client max v4 v6)
  | OpAddress i a _ _ => live m i = true /\ single a /\ length (ma_raw a) = MR_MAX_ADDR_LEN
  | OpNetworks i _ _ => exists mi, m_instances m !! i = Some mi /\ mi_halt mi = false /\ mi_did_iroutes mi = false /\ generations m (zlen (lens mi))
  | OpLookup a cidr _ _ => cidr = true -> host_addr a
  | OpUnlearn _ a => single a
  | OpClose i => exists mi, m_instances m !! i = Some mi /\ mi_halt mi = false /\ generations m (zlen (lens mi))
  | OpReap a b _ => 0 <= a <= Z.min b (h_n_buckets (m_vhash m))
  | OpStale _ _ => stale_routes_check = true
  end.

(** The server's table at any time. *)
Inductive reach (stale_routes_check : bool) : multi_context -> Prop :=
| reach_init n iv ttl local h : 0 < n <= 2147483648 -> hash_init n iv = Some h -> reach stale_routes_check (mk_m h ∅ ∅ (mroute_helper_init ttl) local)
| reach_step m op m' : reach stale_routes_check m -> op_ok stale_routes_check m op -> route_do m op = Some m' -> reach stale_routes_check m'.

Lemma live_some m i : live m i = true -> is_Some (m_instances m !! i).
Proof. unfold live. destruct (m_instances m !! i); [by eexists|done]. Qed.

Lemma do_ok sc m L op : rinv sc m L -> op_ok sc m op -> exists m' L', route_do m op = Some m' /\ rinv sc m' L'.
Proof.
  intros Hi Hop. destruct op as [i max v4 v6|i a now ok|i now ok|a cidr now ok|i a|i|a b now|ageing now]; cbn [op_ok route_do] in *.
  - destruct Hop as [Hnone Hconf]. eexists _, L. split; [done|]. by apply create_ok.
  - destruct Hop as (Hl & Ha & Hraw). destruct (learn_single_ok m L i a now ok Hi (live_some m i Hl) Ha Hraw) as (owner & m' & -> & Hi' & _). by exists m', L.
  - destruct Hop as (mi & Hmi & Hh & Hd & Hg). by apply (add_iroutes_ok m L i mi).
  - destruct (lookup_route_ok m L a cidr now ok (ri_base _ _ Hi) (ri_coherent _ _ Hi) Hop) as (ret & m' & -> & Hb' & Hc' & Hrel & _).
    exists m', L. split; [done|]. split; [done|done|]. apply (link_rel m); [done|apply Hi].
  - destruct (unlearn_ok m L i a Hi Hop) as (m' & -> & Hi'). by exists m', L.
  - destruct Hop as (mi & Hmi & Hh & Hg). destruct (close_ok m L i mi Hi Hmi Hh Hg) as (m' & -> & Hi' & _). by eexists m', _.
  - destruct (reap_ok m L a b now Hi Hop) as (m' & -> & Hi'). by exists m', L.
  - destruct (stale_ok m L ageing now Hop Hi) as (m' & -> & Hi'). by exists m', L.
Qed.

Lemma init_rinv sc n iv ttl local h : 0 < n <= 2147483648 -> hash_init n iv = Some h -> rinv sc (mk_m h ∅ ∅ (mroute_helper_init ttl) local) [].
Proof.
  intros Hn Eh. destruct (init_inv (V := nat) vhash_hash_function ptr_key n iv Hn) as (h' & E & Hv). rewrite Eh in E. injection E as <-.
  pose proof (hmap_inv _ _ Hv) as Em. split.
  - constructor; cbn [m_vhash m_routes m_instances m_route_helper].
    + split; cbn [m_vhash m_routes]; rewrite ?Em; [done| | |by apply (keys_init _ n iv)]; intros ? ?; rewrite ?lookup_empty; done.
    + split; cbn [m_routes m_instances]; intros ? ?; rewrite lookup_empty; done.
    + intros ? ?. rewrite lookup_empty. done.
    + split; [apply helper_init_ok|]. intros k Hk. cbn [mroute_helper_init mh_net_len_refcount]. rewrite lookup_replicate_2; [done|]. exact Hk.
    + constructor.
    + done.
  - intros _ k r. unfold route_at. cbn [m_vhash m_routes]. rewrite Em, lookup_empty. done.
  - constructor; cbn [m_instances]; intros ? *; rewrite ?lookup_empty; done.
Qed.

Lemma reach_rinv sc m : reach sc m -> exists L, rinv sc m L.
Proof.
  induction 1 as [n iv ttl local h Hn Eh|m op m' _ [L Hi] Hop E]; [exists []; by apply (init_rinv sc n iv)|].
  destruct (do_ok sc m L op Hi Hop) as (m'' & L' & E' & Hi'). rewrite E in E'. injection E' as <-. by exists L'.
Qed.

(** C34: Whatever the clients have done before - connected, brought addresses and networks, taken
    over those of others, sent packets that left cached answers, gone - and whatever the reaper
    has taken out, a lookup comes to an end and gives the client that the address itself leads
    to, or else the connected client with the longest prefix that matches: the cache of host
    routes is never seen.  The option [--stale-routes-check] is off, and the generation counter
    of the cache has not come around. *)
Theorem routing_longest_prefix m a now learn_ok :
  reach false m -> host_addr a ->
  exists m', multi_get_instance_by_virtual_addr m a true now learn_ok = Some (if mroute_addr_equal a (m_local m) then None else routed m a, m') /\
    (forall i, routed m a = Some i <->
       static_at m (mroute_key a) = Some i \/
       static_at m (mroute_key a) = None /\
       exists n, 0 <= n <= 128 /\ static_at m (net_key a n) = Some i /\ forall k, n < k <= 128 -> static_at m (net_key a k) = None).
Proof.
  intros Hr Ha. destruct (reach_rinv false m Hr) as [L Hi].
  destruct (lookup_route_ok m L a true now learn_ok (ri_base _ _ Hi) (ri_coherent _ _ Hi) (fun _ => Ha)) as (ret & m' & -> & _ & _ & _ & _ & _ & _ & Hret & _).
  exists m'. rewrite (Hret eq_refl eq_refl). split; [done|].
  intros i. unfold routed, lpm. destruct (static_at m (mroute_key a)) as [j|]; [split; [by left|intros [?|[? _]]; done]|].
  rewrite longest_spec. split.
  - intros (k & Hk & E & Hlast). right. split; [done|]. exists k. unfold MR_HELPER_NET_LEN in *. split; [lia|]. split; [done|]. intros k' Hk'. apply Hlast. lia.
  - intros [?|(_ & k & Hk & E & Hlast)]; [done|]. exists k. unfold MR_HELPER_NET_LEN. split; [lia|]. split; [done|]. intros k' Hk'. apply Hlast. lia.
Qed.

(** C36: No operation on the routing table, in any order - clients that connect, learn, look up,
    unlearn and go, the reaper, the check for stale routes -, follows a pointer to an instance or
    a route that has been freed, fails an [ASSERT] or runs on.  The keys of the table are
    pointers into routes: each points into the route that is its value, which is there and has
    the address of the key.  An instance that is there has one reference for each of its routes
    and one for its client, is freed with the last of them, and never has more routes than its
    quota.  The networks have valid prefix lengths, and the generation counter of the cache has
    not come around. *)
Theorem route_table_safe stale_routes_check m op :
  reach stale_routes_check m -> op_ok stale_routes_check m op ->
  exists m', route_do m op = Some m' /\
    (forall b e k, b ∈ h_buckets (m_vhash m') -> e ∈ b -> he_key e = Some k -> pt_route k = Some (he_value e) /\ readable m' k = true) /\
    (forall id r, m_routes m' !! id = Some r -> is_Some (m_instances m' !! mr_instance r)) /\
    forall i mi, m_instances m' !! i = Some mi ->
      0 < mi_refcount mi /\ mi_refcount mi = mi_route_count mi + (if mi_halt mi then 0 else 1) /\
      mi_route_count mi = Z.of_nat (size (filter (fun ir => mr_instance ir.2 = i) (m_routes m'))) /\
      mi_route_count mi <= Z.max 0 (mi_max_routes_per_client mi).
Proof.
  intros Hr Hop. destruct (reach_rinv _ m Hr) as [L Hi]. destruct (do_ok _ m L op Hi Hop) as (m' & L' & -> & Hi').
  destruct (ba_refs _ _ (ri_base _ _ Hi')) as [Ho Hio]. exists m'. split; [done|]. split; [|split; [exact Ho|]].
  - intros b e k [i Hb]%list_elem_of_lookup He Hk. pose proof (ba_table _ _ (ri_base _ _ Hi')) as Ht. split.
    + pose proof (keys_bucket _ _ _ _ (to_keys _ Ht) Hb) as Hf. rewrite Forall_forall in Hf. specialize (Hf e He). unfold key_all in Hf. by rewrite Hk in Hf.
    + pose proof (keys_readable m' i b Ht Hb) as Hf. rewrite forallb_forall in Hf. specialize (Hf e ltac:(by apply list_elem_of_In)). by rewrite Hk in Hf.
  - intros i mi E. destruct (Hio i mi E) as [H1 H2 H3 H4]. unfold owned in *. lia.
Qed.

(** ** Packets of clients: where they may come from and where they go

    A tun server forwards a packet of a client only when the packet's source address is routed to
    that client, a tap server only when the table gives the frame's source address to it; and to
    another client only when the destination is that client's. *)























