(* ===== verification/RoutingDemo.v ===== *)
(** * Routing to clients: a run, and what the model has shown

    Two clients with nested networks, and three cases in which the table does not do what it is
    meant to. *)
From S2P Require Import Prelude Integers Buffer Proto Mss HashTable Mroute Hash Routes RouteNet RouteInv RouteSteps Routing.

Module RoutingDemo.

Definition yes (a : mroute_addr) : bool := true.

Definition host4 (a b c d : Z) : mroute_addr := mk_ma 4 0 MR_ADDR_IPV4 0 (a :: b :: c :: d :: replicate 16 0).

Definition start : multi_context :=
  mk_m (default (mk_hash 0 0 0 0 []) (hash_init 4 7)) ∅ ∅ (mroute_helper_init 600) (host4 10 8 0 1).

Fixpoint run (m : multi_context) (ops : list route_op) : multi_context :=
  match ops with
  | [] => m
  | op :: ops => match route_do m op with Some m => run m ops | None => m end
  end.

(** Client 1 has 10.0.0.0/8, client 2 has 10.1.0.0/16 and 2001:db8::/32. *)
Definition ops : list route_op :=
  [OpConnect 1 10 [mk_ir 167772160 8] []; OpNetworks 1 100 yes; OpLookup (host4 10 1 2 3) true 101 yes;
   OpConnect 2 10 [mk_ir 167837696 16] [mk_ir6 (32 :: 1 :: 13 :: 184 :: replicate 12 0) 32]; OpAddress 2 (host4 10 8 0 6) 102 yes; OpNetworks 2 103 yes;
   OpLookup (host4 10 1 2 3) true 104 yes].

Definition asks (m : multi_context) : list (option (option nat)) :=
  (fun a => fst <$> multi_get_instance_by_virtual_addr m a true 105 yes) <$> [host4 10 1 2 3; host4 10 2 2 3; host4 10 8 0 6; host4 11 0 0 1; host4 10 8 0 1].

Example answers : asks (run start ops) = [Some (Some 2%nat); Some (Some 1%nat); Some (Some 2%nat); Some None; Some None].
Proof. vm_compute. reflexivity. Qed.

(** The first answer was the other client, and has been cached. *)
Example answers_before : asks (run start (take 3 ops)) = [Some (Some 1%nat); Some (Some 1%nat); Some (Some 1%nat); Some None; Some None].
Proof. vm_compute. reflexivity. Qed.

Example answers_after_close : asks (run start (ops ++ [OpClose 2; OpReap 0 100 200])) = [Some (Some 1%nat); Some (Some 1%nat); Some (Some 1%nat); Some None; Some None].
Proof. vm_compute. reflexivity. Qed.

Lemma host4_ok a b c d : bytes [a; b; c; d] -> host_addr (host4 a b c d).
Proof.
  intros Hb. split; [by left|done|done|]. unfold host4. cbn [ma_raw]. change (a :: b :: c :: d :: replicate 16 0) with ([a; b; c; d] ++ replicate 16 0).
  apply Forall_app. split; [exact Hb|]. apply Forall_replicate. unfold is_u8. lia.
Qed.

Lemma conf1 : conf_ok (new_client 10 [mk_ir 167772160 8] []).
Proof. split; repeat constructor; cbn; unfold is_u32; lia. Qed.

Lemma conf2 : conf_ok (new_client 10 [mk_ir 167837696 16] [mk_ir6 (32 :: 1 :: 13 :: 184 :: replicate 12 0) 32]).
Proof. split; repeat constructor; cbn; unfold is_u32, is_u8; try lia. Qed.

Lemma step k op : ops !! k = Some op -> reach false (run start (take k ops)) -> op_ok false (run start (take k ops)) op ->
  route_do (run start (take k ops)) op = Some (run start (take (S k) ops)) -> reach false (run start (take (S k) ops)).
Proof. intros _ Hr Hop E. by apply (reach_step false (run start (take k ops)) op). Qed.

Lemma networks_ok m i mi : m_instances m !! i = Some mi -> mi_halt mi || mi_did_iroutes mi = false ->
  (mh_cache_generation (m_route_helper m) + zlen (lens mi) <? 4294967296) = true -> op_ok false m (OpNetworks i 0 yes).
Proof. intros E H Hg. exists mi. apply orb_false_iff in H as [H1 H2]. split; [done|]. split; [done|]. split; [done|]. unfold generations. lia. Qed.

Definition running : multi_context := run start ops.

Lemma running_reach : reach false running.
Proof.
  change running with (run start (take 7 ops)).
  apply (step 6 _ eq_refl); [|intros _; apply host4_ok; repeat constructor; unfold is_u8; lia|vm_compute; reflexivity].
  apply (step 5 _ eq_refl); [|eapply networks_ok; [vm_compute; reflexivity|reflexivity|reflexivity]|vm_compute; reflexivity].
  apply (step 4 _ eq_refl); [|split; [vm_compute; reflexivity|split; reflexivity]|vm_compute; reflexivity].
  apply (step 3 _ eq_refl); [|split; [vm_compute; reflexivity|apply conf2]|vm_compute; reflexivity].
  apply (step 2 _ eq_refl); [|intros _; apply host4_ok; repeat constructor; unfold is_u8; lia|vm_compute; reflexivity].
  apply (step 1 _ eq_refl); [|eapply networks_ok; [vm_compute; reflexivity|reflexivity|reflexivity]|vm_compute; reflexivity].
  apply (step 0 _ eq_refl); [|split; [vm_compute; reflexivity|apply conf1]|vm_compute; reflexivity].
  cbn [take run]. apply (reach_init false 4 7); [lia|vm_compute; reflexivity].
Qed.

Lemma routing_longest_prefix_witness :
  exists m', multi_get_instance_by_virtual_addr running (host4 10 1 2 3) true 105 yes =
      Some (if mroute_addr_equal (host4 10 1 2 3) (m_local running) then None else routed running (host4 10 1 2 3), m') /\
    (forall i, routed running (host4 10 1 2 3) = Some i <->
       static_at running (mroute_key (host4 10 1 2 3)) = Some i \/
       static_at running (mroute_key (host4 10 1 2 3)) = None /\
       exists n, 0 <= n <= 128 /\ static_at running (net_key (host4 10 1 2 3) n) = Some i /\
         forall k, n < k <= 128 -> static_at running (net_key (host4 10 1 2 3) k) = None).
Proof.
  assert (Ha : host_addr (host4 10 1 2 3)) by (apply host4_ok; repeat constructor; unfold is_u8; lia).
  apply (routing_longest_prefix running (host4 10 1 2 3) 105 yes running_reach Ha).
Defined.

Lemma reach_more m : reach false m -> reach true m.
Proof.
  induction 1 as [n iv ttl local h Hn Eh|m op m' _ IH Hop E]; [by apply (reach_init true n iv)|]. apply (reach_step true m op); [exact IH| |exact E].
  by destruct op.
Qed.

(** The networks go as stale, in use or not. *)
Lemma route_table_safe_witness :
  exists m', route_do running (OpStale 60 200) = Some m' /\
    (forall b e k, b ∈ h_buckets (m_vhash m') -> e ∈ b -> he_key e = Some k -> pt_route k = Some (he_value e) /\ readable m' k = true) /\
    (forall id r, m_routes m' !! id = Some r -> is_Some (m_instances m' !! mr_instance r)) /\
    forall i mi, m_instances m' !! i = Some mi ->
      0 < mi_refcount mi /\ mi_refcount mi = mi_route_count mi + (if mi_halt mi then 0 else 1) /\
      mi_route_count mi = Z.of_nat (size (filter (fun ir => mr_instance ir.2 = i) (m_routes m'))) /\
      mi_route_count mi <= Z.max 0 (mi_max_routes_per_client mi).
Proof. apply (route_table_safe true running (OpStale 60 200) (reach_more _ running_reach) eq_refl). Defined.

(** The route of an address is deleted and its key left in the table: the next search reads it,
    and with it freed memory. *)
Definition dangling : option multi_context :=
  '(route, m) ← vhash_lookup running (host4 10 8 0 6); route ← route; multi_route_del m route.

Example dangling_key_is_read :
  (fun _ => tt) <$> dangling = Some tt /\ (m ← dangling; vhash_lookup m (host4 10 8 0 6)) = None.
Proof. vm_compute. split; reflexivity. Qed.

(** A packet from 10.1.2.3 to 10.2.2.3. *)
Definition packet : list Z := [69; 0; 0; 20; 0; 0; 0; 0; 64; 17; 0; 0; 10; 1; 2; 3; 10; 2; 2; 3].

Definition handled (client : nat) : option verdict :=
  fst <$> multi_process_incoming_link true DEV_TYPE_TUN running client (received packet) mroute_addr_init mroute_addr_init None true 105 yes.

Example from_its_client : handled 2 = Some (ToClient 1).
Proof. vm_compute. reflexivity. Qed.

Example from_another : handled 1 = Some Drop.
Proof. vm_compute. reflexivity. Qed.





(** A frame from station 2 to station 4, of a client with VLAN 7. *)
Definition frame : list Z := [4; 0; 0; 0; 0; 4; 2; 0; 0; 0; 0; 2; 8; 0] ++ packet.

Definition frames (l : list (nat * list Z)) : list (option verdict) :=
  fst (fold_left (fun vm (cf : nat * list Z) =>
    match multi_process_incoming_link true DEV_TYPE_TAP vm.2 cf.1 (received cf.2) mroute_addr_init mroute_addr_init (Some 7) true 105 yes with
    | Some (v, m) => (vm.1 ++ [Some v], m) | None => (vm.1 ++ [None], vm.2) end) l ([], running)).

(** Station 4 is learned when it answers; a group address goes to all, a tagged frame nowhere. *)
Example stations :
  frames [(1%nat, frame); (2%nat, [2; 0; 0; 0; 0; 2; 4; 0; 0; 0; 0; 4; 8; 0] ++ packet); (1%nat, frame); (1%nat, 255 :: drop 1 frame);
    (1%nat, take 12 frame ++ [129; 0; 0; 7; 8; 0] ++ packet)] =
  [Some ToTun; Some (ToClient 1); Some (ToClient 2); Some ToTunAndClients; Some Drop].
Proof. vm_compute. reflexivity. Qed.

(** ** Cases in which the table does not do what it is meant to *)

(** [iroute 10.1.2.3 255.255.255.0]: the host bits of an IPv4 network stay in its key, which no lookup
    asks for; an IPv6 network is masked. *)
Example iroute_host_bits :
  let m := run start [OpConnect 1 10 [mk_ir 167838211 24] [mk_ir6 (32 :: 1 :: 13 :: 184 :: replicate 11 0 ++ [1]) 32]; OpNetworks 1 100 yes] in
  fst <$> multi_get_instance_by_virtual_addr m (host4 10 1 2 3) true 101 yes = Some None /\
  fst <$> multi_get_instance_by_virtual_addr m (mk_ma 16 0 MR_ADDR_IPV6 0 (32 :: 1 :: 13 :: 184 :: replicate 16 9)) true 101 yes = Some (Some 1%nat).
Proof. vm_compute. split; reflexivity. Qed.

(** A network that is in use is deleted as stale: only the cached route of the host is touched. *)
Example used_network_goes_stale :
  let m := run start [OpConnect 1 10 [mk_ir 167772160 8] []; OpNetworks 1 100 yes; OpLookup (host4 10 1 2 3) true 150 yes; OpLookup (host4 10 1 2 3) true 190 yes] in
  fst <$> multi_get_instance_by_virtual_addr m (host4 10 1 2 4) true 200 yes = Some (Some 1%nat) /\
  (m ← check_stale_routes m 60 200; fst <$> multi_get_instance_by_virtual_addr m (host4 10 1 2 4) true 200 yes) = Some None.
Proof. vm_compute. split; reflexivity. Qed.

(** A client is given an address for which the cache has a route to it: the address is not
    learned, and goes with the cache, here to the client that brings a longer prefix. *)
Example cached_address_not_learned :
  let m := run start [OpConnect 1 10 [mk_ir 167772160 8] []; OpNetworks 1 100 yes; OpLookup (host4 10 1 2 3) true 101 yes; OpAddress 1 (host4 10 1 2 3) 102 yes;
     OpConnect 2 10 [mk_ir 167837696 16] []; OpNetworks 2 103 yes] in
  fst <$> multi_get_instance_by_virtual_addr m (host4 10 1 2 3) true 104 yes = Some (Some 2%nat).
Proof. vm_compute. reflexivity. Qed.

End RoutingDemo.
