(* ===== verification/KeyMethod.v ===== *)
(** * The key exchange message: [key_method_2_write] and [key_method_2_read] of [ssl.c]

    Once the TLS handshake is done, each end sends one message through it: random key
    material, the options string, a username and password, and what it tells about
    itself.  A C string is the list of its bytes before the terminating zero; the
    random bytes and the texts that are composed elsewhere are arguments. *)
From S2P Require Import Prelude Integers Buffer EpochKeys.

Definition KEY_METHOD_2 : Z := 2.
Definition KEY_METHOD_MASK : Z := 15.
Definition TLS_OPTIONS_LEN : Z := 512.
Definition USER_PASS_LEN : Z := 128.

(** The C string in a block of memory. *)
Fixpoint c_string (l : list Z) : list Z :=
  match l with
  | [] => []
  | x :: l => if x =? 0 then [] else x :: c_string l
  end.

Definition is_c_string (l : list Z) : Prop := Forall (fun z => 0 < z < 256) l.

(** ** Strings with a length in front *)

Definition write_empty_string (buf : buffer) : bool * buffer := buf_write_u16 buf 0.

Definition write_string (buf : buffer) (str : list Z) (maxlen : Z) : bool * buffer :=
  let len := zlen str + 1 in
  let real_maxlen := if (0 <=? maxlen) && (maxlen <=? UINT16_MAX) then maxlen else UINT16_MAX in
  if real_maxlen <? len then (false, buf)
  else
    match buf_write_u16 buf len with
    | (false, buf) => (false, buf)
    | (true, buf) => buf_write buf (str ++ [0])
    end.

(** The result, the string that [str] holds afterwards ([None]: it is not touched), and
    the rest. *)
Definition read_string (buf : buffer) (capacity : Z) : Z * option (list Z) * buffer :=
  let '(len, buf) := buf_read_u16 buf in
  if (len <? 1) || (capacity <? len) then (- len, None, (buf_advance buf len).2)
  else
    match buf_read buf len with
    | (None, buf) => (- len, None, buf)
    | (Some s, buf) => (len, Some (c_string (take (Z.to_nat (len - 1)) s)), buf)
    end.

(** [None]: [NULL]. *)
Definition read_string_alloc (buf : buffer) : option (list Z) * buffer :=
  let '(len, buf) := buf_read_u16 buf in
  if len <? 1 then (None, buf)
  else
    match buf_read buf len with
    | (None, buf) => (None, buf)
    | (Some s, buf) => (Some (c_string (take (Z.to_nat (len - 1)) s)), buf)
    end.

(** ** Key material *)

Record key_source := mk_src { pre_master : list Z; random1 : list Z; random2 : list Z }.

Record key_source2 := mk_src2 { src_client : key_source; src_server : key_source }.

Definition key_source_zero : key_source := mk_src (zeros 48) (zeros 32) (zeros 32).

Definition key_source2_zero : key_source2 := mk_src2 key_source_zero key_source_zero.

(** The half that an end writes when it is ([server]) the server, or reads when it is not. *)
Definition set_half (k2 : key_source2) (server : bool) (k : key_source) : key_source2 :=
  if server then mk_src2 (src_client k2) k else mk_src2 k (src_server k2).

(** [rand_bytes] into [out], then into the buffer; without entropy the process ends. *)
Definition random_bytes_to_buf (buf : buffer) (rnd : list Z) : bool * buffer := buf_write buf rnd.

(** [rnd]: what [rand_bytes] gives. *)
Definition key_source2_randomize_write (k2 : key_source2) (buf : buffer) (server : bool) (rnd : key_source)
  : bool * key_source2 * buffer :=
  let k0 := key_source_zero in
  let '(ok, k, buf) :=
    if server then (true, k0, buf)
    else let '(ok, buf) := random_bytes_to_buf buf (pre_master rnd) in
         (ok, mk_src (pre_master rnd) (random1 k0) (random2 k0), buf) in
  if negb (ok : bool) then (false, set_half k2 server k, buf)
  else
    let '(ok, buf) := random_bytes_to_buf buf (random1 rnd) in
    let k := mk_src (pre_master k) (random1 rnd) (random2 k0) in
    if negb (ok : bool) then (false, set_half k2 server k, buf)
    else
      let '(ok, buf) := random_bytes_to_buf buf (random2 rnd) in
      let k := mk_src (pre_master k) (random1 rnd) (random2 rnd) in
      (ok, set_half k2 server k, buf).

Definition key_source2_read (k2 : key_source2) (buf : buffer) (server : bool) : bool * key_source2 * buffer :=
  let k0 := key_source_zero in
  let '(pre, buf) :=
    if server then buf_read buf 48 else (Some (pre_master k0), buf) in
  match pre with
  | None => (false, set_half k2 (negb server) k0, buf)
  | Some pre =>
      match buf_read buf 32 with
      | (None, buf) => (false, set_half k2 (negb server) (mk_src pre (random1 k0) (random2 k0)), buf)
      | (Some r1, buf) =>
          match buf_read buf 32 with
          | (None, buf) => (false, set_half k2 (negb server) (mk_src pre r1 (random2 k0)), buf)
          | (Some r2, buf) => (true, set_half k2 (negb server) (mk_src pre r1 r2), buf)
          end
      end
  end.

(** ** Writing the message *)

(** [local_options]: the options string, as [write_compat_local_options] changes it for a
    client that asks for compression.  [user_pass]: the username and password, or the
    token that replaces them, if there are any.  [peer_info]: the text that
    [push_peer_info] composes, if it is to be sent. *)
Definition write_user_pass (buf : buffer) (user_pass : option (list Z * list Z)) : bool * buffer :=
  match user_pass with
  | Some (username, password) =>
      match write_string buf username (-1) with
      | (false, buf) => (false, buf)
      | (true, buf) => write_string buf password (-1)
      end
  | None =>
      match write_empty_string buf with
      | (false, buf) => (false, buf)
      | (true, buf) => write_empty_string buf
      end
  end.

Definition push_peer_info (buf : buffer) (peer_info : option (list Z)) : bool * buffer :=
  match peer_info with
  | Some out => write_string buf out (-1)
  | None => write_empty_string buf
  end.

(** On failure the key material is erased. *)
Definition key_method_2_write (buf : buffer) (key_src : key_source2) (server : bool) (rnd : key_source)
    (local_options : list Z) (user_pass : option (list Z * list Z)) (peer_info : option (list Z))
  : option (bool * key_source2 * buffer) :=
  '(ok, buf) ← Some (buf_init buf 0);
  ASSERT (ok : bool);;
  Some
   (let '(ok, buf) := buf_write_u32 buf 0 in
    if negb (ok : bool) then (false, key_source2_zero, buf) else
    let '(ok, buf) := buf_write_u8 buf KEY_METHOD_2 in
    if negb (ok : bool) then (false, key_source2_zero, buf) else
    let '(ok, key_src, buf) := key_source2_randomize_write key_src buf server rnd in
    if negb (ok : bool) then (false, key_source2_zero, buf) else
    let '(ok, buf) := write_string buf local_options TLS_OPTIONS_LEN in
    if negb (ok : bool) then (false, key_source2_zero, buf) else
    let '(ok, buf) := write_user_pass buf user_pass in
    if negb (ok : bool) then (false, key_source2_zero, buf) else
    let '(ok, buf) := push_peer_info buf peer_info in
    if negb (ok : bool) then (false, key_source2_zero, buf) else
    (true, key_src, buf)).

(** ** Reading the message *)

(** The fields of a message, with the results of [read_string] for username and password. *)
Record key_message := mk_key_message {
  km_options : list Z;
  km_username : list Z;
  km_username_len : Z;
  km_password : list Z;
  km_password_len : Z;
  km_peer_info : option (list Z)
}.

(** The part of [key_method_2_read] that takes the message apart: [None] is its [goto error].
    The strings are read into zeroed arrays. *)
Definition read_key_message (buf : buffer) (key_src : key_source2) (server : bool)
  : option key_message * key_source2 :=
  let '(ok, buf) := buf_advance buf 4 in
  if negb (ok : bool) then (None, key_src) else
  let '(key_method_flags, buf) := buf_read_u8 buf in
  if negb (Z.land key_method_flags KEY_METHOD_MASK =? 2) then (None, key_src) else
  let '(ok, key_src, buf) := key_source2_read key_src buf server in
  if negb (ok : bool) then (None, key_src) else
  let '(options_len, options, buf) := read_string buf TLS_OPTIONS_LEN in
  if options_len <? 0 then (None, key_src) else
  let '(username_len, username, buf) := read_string buf USER_PASS_LEN in
  let '(password_len, password, buf) := read_string buf USER_PASS_LEN in
  let '(peer_info, _) := read_string_alloc buf in
  (Some (mk_key_message (default [] options) (default [] username) username_len
           (default [] password) password_len peer_info), key_src).

(** ** The message as a string of bytes *)

Definition string_bytes (s : list Z) : list Z := be_bytes 2 (zlen s + 1) ++ s ++ [0].

Definition opt_string_bytes (s : option (list Z)) : list Z :=
  match s with Some s => string_bytes s | None => [0; 0] end.

Definition source_bytes (server : bool) (k : key_source) : list Z :=
  (if server then [] else pre_master k) ++ random1 k ++ random2 k.

Definition message_bytes (server : bool) (rnd : key_source) (opts : list Z)
    (up : option (list Z * list Z)) (info : option (list Z)) : list Z :=
  be_bytes 4 0 ++ [KEY_METHOD_2] ++ source_bytes server rnd ++ string_bytes opts
  ++ opt_string_bytes (fst <$> up) ++ opt_string_bytes (snd <$> up) ++ opt_string_bytes info.

(** What [rand_bytes] gives. *)
Record source_ok (k : key_source) : Prop := {
  sk_pre : zlen (pre_master k) = 48;
  sk_r1 : zlen (random1 k) = 32;
  sk_r2 : zlen (random2 k) = 32;
  sk_bytes : bytes (pre_master k) /\ bytes (random1 k) /\ bytes (random2 k)
}.

(** What arrives: the server's half has no [pre_master]. *)
Definition sent_source (server : bool) (k : key_source) : key_source :=
  mk_src (if server then zeros 48 else pre_master k) (random1 k) (random2 k).

(** What becomes of a string that is read into an array of [cap] bytes. *)
Definition field_of (cap : Z) (s : option (list Z)) : Z * list Z :=
  match s with
  | None => (0, [])
  | Some s => if cap <? zlen s + 1 then (- (zlen s + 1), []) else (zlen s + 1, s)
  end.

(** ** Lemmas *)

Lemma c_string_bytes s : is_c_string s -> bytes s.
Proof. unfold is_c_string. intros Hs. eapply Forall_impl; [exact Hs|]. unfold is_u8. cbn. lia. Qed.

Lemma c_string_id s l : is_c_string s -> c_string (s ++ 0 :: l) = s.
Proof.
  unfold is_c_string. induction 1 as [|x s Hx _ IH]; [done|]. cbn. destruct (Z.eqb_spec x 0); [lia|]. by rewrite IH.
Qed.

Lemma c_string_all s : is_c_string s -> c_string s = s.
Proof. unfold is_c_string. induction 1 as [|x s Hx _ IH]; [done|]. cbn. destruct (Z.eqb_spec x 0); [lia|]. by rewrite IH. Qed.

Lemma string_bytes_ok s : is_c_string s -> bytes (string_bytes s).
Proof.
  intros Hs. unfold string_bytes. apply Forall_app; split; [auto with bufdb|].
  apply Forall_app; split; [by apply c_string_bytes|]. repeat constructor; unfold is_u8; lia.
Qed.

Lemma length_string_bytes s : zlen (string_bytes s) = zlen s + 3.
Proof. unfold string_bytes. rewrite !length_app, length_be_bytes. cbn. lia. Qed.

(** Writing a field. *)
Lemma write_field b h c t src :
  buf_rep b h c t -> bytes src ->
  if zlen src <=? t then exists b', buf_write b src = (true, b') /\ buf_rep b' h (c ++ src) (t - zlen src)
  else buf_write b src = (false, b).
Proof.
  intros Hb Hs. destruct (Z.leb_spec (zlen src) t); [by apply write_rep|by eapply write_full].
Qed.

Lemma write_string_ok b h c t s maxlen :
  buf_rep b h c t -> is_c_string s -> zlen s + 3 <= t ->
  (if (0 <=? maxlen) && (maxlen <=? UINT16_MAX) then zlen s + 1 <= maxlen else zlen s + 1 <= UINT16_MAX) ->
  exists b', write_string b s maxlen = (true, b') /\ buf_rep b' h (c ++ string_bytes s) (t - (zlen s + 3)).
Proof.
  intros Hb Hs Ht Hm. unfold write_string.
  replace ((if (0 <=? maxlen) && (maxlen <=? UINT16_MAX) then maxlen else UINT16_MAX) <? zlen s + 1) with false
    by (destruct (_ && _); lia).
  unfold buf_write_u16. destruct (write_rep b h c t (be_bytes 2 (zlen s + 1)) Hb) as (b1 & -> & Hb1);
    [auto with bufdb|rewrite length_be_bytes; lia|].
  rewrite length_be_bytes in Hb1.
  destruct (write_rep b1 _ _ _ (s ++ [0]) Hb1) as (b2 & -> & Hb2).
  { apply Forall_app; split; [by apply c_string_bytes|]. repeat constructor; unfold is_u8; lia. }
  { rewrite length_app. cbn. lia. }
  exists b2. split; [done|]. eapply rep_eq; [exact Hb2|done| |].
  - unfold string_bytes. by rewrite <- app_assoc.
  - rewrite length_app. cbn. lia.
Qed.

Lemma read_u16_ok b h x c t :
  buf_rep b h (be_bytes 2 x ++ c) t -> is_u16 x ->
  exists b', buf_read_u16 b = (x, b') /\ buf_rep b' (h + 2) c t.
Proof.
  intros Hb Hx. destruct (read_rep b h (be_bytes 2 x) c t Hb) as (b' & Hr & Hb').
  rewrite length_be_bytes in Hr, Hb'. change (Z.of_nat 2) with 2 in *. exists b'. split; [|done].
  unfold buf_read_u16. rewrite Hr, be_val_be_bytes. change (256 ^ Z.of_nat 2) with 65536.
  by rewrite Z.mod_small by done.
Qed.

Lemma read_u16_short b h c t : buf_rep b h c t -> zlen c < 2 -> buf_read_u16 b = (-1, b).
Proof. intros Hb Hc. unfold buf_read_u16. by rewrite (read_short _ _ _ _ 2 Hb Hc). Qed.

Lemma read_string_ok b h c t s cap :
  buf_rep b h (opt_string_bytes s ++ c) t -> 0 <= cap ->
  (forall s', s = Some s' -> is_c_string s' /\ zlen s' + 1 <= UINT16_MAX) ->
  exists str b' h', read_string b cap = ((field_of cap s).1, str, b') /\
    default [] str = (field_of cap s).2 /\ buf_rep b' h' c t.
Proof.
  intros Hb Hcap Hs. unfold read_string, UINT16_MAX in *. destruct s as [s|]; cbn [opt_string_bytes field_of] in *.
  - destruct (Hs s eq_refl) as [Hc Hl]. unfold string_bytes in Hb. rewrite <- app_assoc in Hb.
    destruct (read_u16_ok _ _ _ _ _ Hb) as (b1 & -> & Hb1); [unfold is_u16; lia|].
    rewrite (proj2 (Z.ltb_ge (zlen s + 1) 1)) by lia. cbn [orb].
    assert (E : zlen s + 1 = zlen (s ++ [0])) by (rewrite length_app; cbn; lia).
    destruct (cap <? zlen s + 1); cbn [fst snd].
    + destruct (advance_rep _ _ _ _ _ Hb1) as (b2 & Ha & Hb2). rewrite <- E in Ha, Hb2. rewrite Ha. eauto 10.
    + destruct (read_rep _ _ _ _ _ Hb1) as (b2 & Ha & Hb2). rewrite <- E in Ha, Hb2. rewrite Ha.
      do 3 eexists. split; [done|]. split; [|done]. cbn [default from_option id].
      replace (Z.to_nat (zlen s + 1 - 1)) with (length s) by lia.
      rewrite take_app_length. by apply c_string_all.
  - change [0; 0] with (be_bytes 2 0) in Hb.
    destruct (read_u16_ok _ _ _ _ _ Hb) as (b1 & -> & Hb1); [unfold is_u16; lia|]. cbn [Z.ltb Z.compare orb].
    destruct (advance_rep b1 _ [] _ _ Hb1) as (b2 & Ha & Hb2). cbn [length] in Ha. change (Z.of_nat 0) with 0 in Ha.
    rewrite Ha. eauto 10.
Qed.

Lemma read_string_alloc_ok b h c t s :
  buf_rep b h (opt_string_bytes s ++ c) t ->
  (forall s', s = Some s' -> is_c_string s' /\ zlen s' + 1 <= UINT16_MAX) ->
  exists b', read_string_alloc b = (s, b').
Proof.
  intros Hb Hs. unfold read_string_alloc, UINT16_MAX in *. destruct s as [s|]; cbn [opt_string_bytes] in *.
  - destruct (Hs s eq_refl) as [Hc Hl]. unfold string_bytes in Hb. rewrite <- app_assoc in Hb.
    destruct (read_u16_ok _ _ _ _ _ Hb) as (b1 & -> & Hb1); [unfold is_u16; lia|].
    rewrite (proj2 (Z.ltb_ge (zlen s + 1) 1)) by lia.
    assert (E : zlen s + 1 = zlen (s ++ [0])) by (rewrite length_app; cbn; lia).
    destruct (read_rep _ _ _ _ _ Hb1) as (b2 & Ha & Hb2). rewrite <- E in Ha, Hb2. rewrite Ha.
    eexists. f_equal. f_equal. replace (Z.to_nat (zlen s + 1 - 1)) with (length s) by lia.
    rewrite take_app_length. by apply c_string_all.
  - change [0; 0] with (be_bytes 2 0) in Hb.
    destruct (read_u16_ok _ _ _ _ _ Hb) as (b1 & -> & Hb1); [unfold is_u16; lia|]. by eexists.
Qed.

Lemma read_u8_rep b h x c t :
  buf_rep b h ([x] ++ c) t -> exists b', buf_read_u8 b = (x, b') /\ buf_rep b' (h + 1) c t.
Proof.
  intros Hb. destruct (advance_rep b h [x] c t Hb) as (b' & Ha & Hb'). exists b'. split; [|done].
  assert (E : buf_peek_u8 b = x).
  { unfold buf_peek_u8, buf_bptr. rewrite (buf_len_wf _ (rep_wf _ _ _ _ Hb)), (rep_len _ _ _ _ Hb), (rep_valid _ _ _ _ Hb).
    rewrite length_app. cbn [length Nat.add]. rewrite (proj2 (Z.ltb_ge _ 1)) by lia. cbn [mbind option_bind].
    pose proof (rep_slice _ _ _ _ Hb) as Hs. pose proof (rep_bounds _ _ _ _ Hb) as (Hh & _).
    rewrite (rep_head _ _ _ _ Hb). apply (f_equal (lookup 0%nat)) in Hs. rewrite lookup_slice in Hs by lia.
    rewrite length_app in Hs. cbn [length app] in Hs. rewrite decide_True in Hs by lia.
    rewrite Nat.add_0_r in Hs. rewrite Hs. done. }
  unfold buf_read_u8. rewrite E. cbn [length] in Ha. change (Z.of_nat 1) with 1 in Ha. rewrite Ha. cbn [snd].
  pose proof (rep_bounds _ _ _ _ Hb) as (_ & _ & _ & Hby). rewrite Forall_app, Forall_singleton in Hby. destruct Hby as [Hx _].
  by rewrite (proj2 (Z.leb_le 0 x)) by (unfold is_u8 in Hx; lia).
Qed.

(** A field that the message ends before. *)
Lemma read_string_absent b h c t cap :
  buf_rep b h c t -> zlen c < 2 -> 1 <= cap -> read_string b cap = (1, None, b).
Proof.
  intros Hb Hc Hcap. unfold read_string. rewrite (read_u16_short _ _ _ _ Hb Hc). cbn [Z.ltb Z.compare orb].
  unfold buf_advance. by destruct (_ || _) eqn:E; [|lia].
Qed.

Lemma opt_string_ok s :
  (forall s', s = Some s' -> is_c_string s' /\ zlen s' + 1 <= UINT16_MAX) -> bytes (opt_string_bytes s).
Proof.
  intros Hs. destruct s as [s|]; cbn; [by apply string_bytes_ok, Hs|]. repeat constructor; unfold is_u8; lia.
Qed.

(** ** The exchange *)

Lemma write_user_pass_ok b h c t up :
  buf_rep b h c t ->
  (forall u p, up = Some (u, p) -> (is_c_string u /\ zlen u + 1 <= UINT16_MAX) /\ (is_c_string p /\ zlen p + 1 <= UINT16_MAX)) ->
  let src := opt_string_bytes (fst <$> up) ++ opt_string_bytes (snd <$> up) in
  zlen src <= t ->
  exists b', write_user_pass b up = (true, b') /\ buf_rep b' h (c ++ src) (t - zlen src).
Proof.
  intros Hb Hup src Hlen. unfold src in *. clear src. destruct up as [[u p]|]; cbn [fmap option_fmap option_map fst snd opt_string_bytes] in *.
  - destruct (Hup u p eq_refl) as [[Hu Hul] [Hp Hpl]]. rewrite length_app, Nat2Z.inj_add, !length_string_bytes in Hlen.
    unfold write_user_pass.
    destruct (write_string_ok b h c t u (-1) Hb Hu) as (b1 & -> & Hb1); [lia|done|].
    destruct (write_string_ok b1 _ _ _ p (-1) Hb1 Hp) as (b2 & -> & Hb2); [lia|done|].
    exists b2. split; [done|]. eapply rep_eq; [exact Hb2|done|by rewrite app_assoc|].
    rewrite length_app, Nat2Z.inj_add, !length_string_bytes. lia.
  - change [0; 0] with (be_bytes 2 0) in *. rewrite length_app, Nat2Z.inj_add, length_be_bytes in Hlen.
    unfold write_user_pass, write_empty_string, buf_write_u16.
    destruct (write_rep b h c t (be_bytes 2 0) Hb) as (b1 & -> & Hb1); [auto with bufdb|rewrite length_be_bytes; lia|].
    rewrite length_be_bytes in Hb1.
    destruct (write_rep b1 _ _ _ (be_bytes 2 0) Hb1) as (b2 & -> & Hb2); [auto with bufdb|rewrite length_be_bytes; lia|].
    exists b2. split; [done|]. eapply rep_eq; [exact Hb2|done|by rewrite app_assoc|].
    rewrite length_app, !length_be_bytes. lia.
Qed.

Lemma push_peer_info_ok b h c t info :
  buf_rep b h c t -> (forall s, info = Some s -> is_c_string s /\ zlen s + 1 <= UINT16_MAX) ->
  zlen (opt_string_bytes info) <= t ->
  exists b', push_peer_info b info = (true, b') /\
    buf_rep b' h (c ++ opt_string_bytes info) (t - zlen (opt_string_bytes info)).
Proof.
  intros Hb Hi Hlen. destruct info as [s|]; cbn [opt_string_bytes push_peer_info] in *.
  - destruct (Hi s eq_refl) as [Hs Hl]. rewrite length_string_bytes in *. by apply write_string_ok.
  - by apply (write_rep b h c t [0; 0]); [|repeat constructor; unfold is_u8; lia|].
Qed.

Lemma source_write_ok b h c t src2 server rnd :
  buf_rep b h c t -> source_ok rnd -> zlen (source_bytes server rnd) <= t ->
  exists b', key_source2_randomize_write src2 b server rnd =
      (true, set_half src2 server (sent_source server rnd), b') /\
    buf_rep b' h (c ++ source_bytes server rnd) (t - zlen (source_bytes server rnd)).
Proof.
  intros Hb [H1 H2 H3 (B1 & B2 & B3)] Hlen. unfold key_source2_randomize_write, random_bytes_to_buf, source_bytes in *.
  rewrite !length_app, !Nat2Z.inj_add in *. destruct server; cbn [length] in *.
  - destruct (write_rep b h c t (random1 rnd) Hb) as (b1 & E1 & Hb1); [done|lia|].
    cbn [negb]. rewrite E1. cbn [negb].
    destruct (write_rep b1 _ _ _ (random2 rnd) Hb1) as (b2 & E2 & Hb2); [done|lia|]. rewrite E2.
    exists b2. split; [done|]. eapply rep_eq; [exact Hb2|done|by rewrite <- app_assoc|lia].
  - destruct (write_rep b h c t (pre_master rnd) Hb) as (b0 & E0 & Hb0); [done|lia|].
    rewrite E0. cbn [negb].
    destruct (write_rep b0 _ _ _ (random1 rnd) Hb0) as (b1 & E1 & Hb1); [done|lia|]. rewrite E1. cbn [negb].
    destruct (write_rep b1 _ _ _ (random2 rnd) Hb1) as (b2 & E2 & Hb2); [done|lia|]. rewrite E2.
    exists b2. split; [done|]. eapply rep_eq; [exact Hb2|done|by rewrite <- !app_assoc|lia].
Qed.

(** [server]: the reader; the writer is the other end. *)
Lemma source_read_ok b h c t src2 server rnd :
  buf_rep b h (source_bytes (negb server) rnd ++ c) t -> source_ok rnd ->
  exists b' h', key_source2_read src2 b server = (true, set_half src2 (negb server) (sent_source (negb server) rnd), b') /\
    buf_rep b' h' c t.
Proof.
  intros Hb [H1 H2 H3 _]. unfold key_source2_read, source_bytes in *. destruct server; cbn [negb] in *.
  - rewrite <- !app_assoc in Hb. destruct (read_rep _ _ _ _ _ Hb) as (b1 & E1 & Hb1). rewrite H1 in E1. rewrite E1.
    destruct (read_rep _ _ _ _ _ Hb1) as (b2 & E2 & Hb2). rewrite H2 in E2. rewrite E2.
    destruct (read_rep _ _ _ _ _ Hb2) as (b3 & E3 & Hb3). rewrite H3 in E3. rewrite E3.
    do 2 eexists. split; [done|exact Hb3].
  - cbn [app] in Hb. rewrite <- !app_assoc in Hb.
    destruct (read_rep _ _ _ _ _ Hb) as (b2 & E2 & Hb2). rewrite H2 in E2. rewrite E2.
    destruct (read_rep _ _ _ _ _ Hb2) as (b3 & E3 & Hb3). rewrite H3 in E3. rewrite E3.
    do 2 eexists. split; [done|exact Hb3].
Qed.

Definition string_ok (s : list Z) : Prop := is_c_string s /\ zlen s + 1 <= UINT16_MAX.

(** What may be sent: C strings, and an options string for an array of [TLS_OPTIONS_LEN]. *)
Record texts_ok (opts : list Z) (up : option (list Z * list Z)) (info : option (list Z)) : Prop := {
  tx_opts : is_c_string opts /\ zlen opts + 1 <= TLS_OPTIONS_LEN;
  tx_up : forall u p, up = Some (u, p) -> string_ok u /\ string_ok p;
  tx_info : forall s, info = Some s -> string_ok s
}.

(** What the reader makes of it. *)
Definition received_message (opts : list Z) (up : option (list Z * list Z)) (info : option (list Z)) : key_message :=
  let u := field_of USER_PASS_LEN (fst <$> up) in
  let p := field_of USER_PASS_LEN (snd <$> up) in
  mk_key_message opts u.2 u.1 p.2 p.1 info.

Lemma message_write_ok wb h c t src server rnd opts up info :
  buf_rep wb h c t -> source_ok rnd -> texts_ok opts up info ->
  zlen (message_bytes server rnd opts up info) <= b_capacity wb ->
  exists wb' t', key_method_2_write wb src server rnd opts up info =
      Some (true, set_half src server (sent_source server rnd), wb') /\
    buf_rep wb' 0 (message_bytes server rnd opts up info) t'.
Proof.
  intros Hb Hrnd [[Ho Hol] Hup Hi] Hlen. rewrite (rep_cap _ _ _ _ Hb) in Hlen.
  destruct (init_rep wb h c t 0 Hb) as (b0 & E0 & Hb0); [pose proof (rep_bounds _ _ _ _ Hb); lia|].
  rewrite Z.sub_0_r in Hb0. revert Hb0 Hlen. generalize (h + zlen c + t). intros n Hb0 Hlen.
  unfold message_bytes in *. rewrite !length_app, !Nat2Z.inj_add, length_be_bytes, length_string_bytes in Hlen.
  cbn [length] in Hlen. unfold key_method_2_write. rewrite E0, Some_bind. cbn [ASSERT]. rewrite Some_bind.
  unfold buf_write_u32, buf_write_u8.
  destruct (write_rep b0 _ _ _ (be_bytes 4 0) Hb0) as (b1 & -> & Hb1); [auto with bufdb|rewrite length_be_bytes; lia|].
  rewrite length_be_bytes in Hb1. cbn [negb].
  destruct (write_rep b1 _ _ _ [u8 KEY_METHOD_2] Hb1) as (b2 & -> & Hb2);
    [by repeat constructor; unfold KEY_METHOD_2, u8, is_u8|cbn [length]; lia|]. cbn [negb length] in *.
  destruct (source_write_ok b2 _ _ _ src server rnd Hb2 Hrnd) as (b3 & -> & Hb3); [lia|]. cbn [negb].
  destruct (write_string_ok b3 _ _ _ opts TLS_OPTIONS_LEN Hb3 Ho) as (b4 & -> & Hb4); [lia|done|]. cbn [negb].
  destruct (write_user_pass_ok b4 _ _ _ up Hb4) as (b5 & -> & Hb5);
    [exact Hup|rewrite !length_app, !Nat2Z.inj_add; lia|]. cbn [negb].
  rewrite !length_app, !Nat2Z.inj_add in Hb5.
  destruct (push_peer_info_ok b5 _ _ _ info Hb5 Hi) as (b6 & -> & Hb6); [lia|]. cbn [negb].
  do 2 eexists. split; [done|]. eapply rep_eq; [exact Hb6|done| |reflexivity].
  rewrite <- !app_assoc. done.
Qed.

Lemma message_read_ok rb h t src server rnd opts up info :
  buf_rep rb h (message_bytes (negb server) rnd opts up info) t -> source_ok rnd -> texts_ok opts up info ->
  read_key_message rb src server =
    (Some (received_message opts up info), set_half src (negb server) (sent_source (negb server) rnd)).
Proof.
  intros Hb Hrnd [[Ho Hol] Hup Hi]. unfold message_bytes in Hb. unfold read_key_message.
  destruct (advance_rep _ _ _ _ _ Hb) as (b1 & E1 & Hb1). rewrite length_be_bytes in E1. change (Z.of_nat 4) with 4 in E1.
  rewrite E1. cbn [negb]. destruct (read_u8_rep _ _ _ _ _ Hb1) as (b2 & -> & Hb2). change (Z.land KEY_METHOD_2 KEY_METHOD_MASK =? 2) with true.
  cbn [negb]. destruct (source_read_ok b2 _ _ _ src server rnd Hb2 Hrnd) as (b3 & h3 & -> & Hb3). cbn [negb].
  change (string_bytes opts) with (opt_string_bytes (Some opts)) in Hb3.
  destruct (read_string_ok b3 _ _ _ _ TLS_OPTIONS_LEN Hb3) as (s4 & b4 & h4 & -> & Es4 & Hb4);
    [done|intros ? [= <-]; unfold UINT16_MAX, TLS_OPTIONS_LEN in *; split; [done|lia]|].
  cbn [field_of fst snd] in *. rewrite (proj2 (Z.ltb_ge TLS_OPTIONS_LEN (zlen opts + 1))) in * by done. cbn [fst snd] in *.
  rewrite (proj2 (Z.ltb_ge (zlen opts + 1) 0)) by lia. rewrite Es4.
  destruct (read_string_ok b4 _ _ _ _ USER_PASS_LEN Hb4) as (s5 & b5 & h5 & -> & Es5 & Hb5);
    [done|intros s Hs; destruct up as [[u p]|]; simplify_eq/=; by apply (Hup _ _ eq_refl)|].
  destruct (read_string_ok b5 _ _ _ _ USER_PASS_LEN Hb5) as (s6 & b6 & h6 & -> & Es6 & Hb6);
    [done|intros s Hs; destruct up as [[u p]|]; simplify_eq/=; by apply (Hup _ _ eq_refl)|].
  rewrite Es5, Es6. rewrite <- (app_nil_r (opt_string_bytes info)) in Hb6.
  destruct (read_string_alloc_ok b6 _ _ _ _ Hb6) as (b7 & ->); [exact Hi|]. done.
Qed.

(** C22: The key exchange message, written by one end and read by the other.  Any options
    string, username, password and peer information that fit into the buffer arrive as they
    were sent, and so does the writer's half of the key material, whichever end it is; a
    username or password that is too long for the reader's array is reported as such, with
    its negated length, and what follows it is still read. *)
Theorem key_method_2_round_trip wb h c t src_w src_r server rnd opts up info :
  buf_rep wb h c t -> source_ok rnd -> texts_ok opts up info ->
  zlen (message_bytes server rnd opts up info) <= b_capacity wb ->
  exists wb', key_method_2_write wb src_w server rnd opts up info =
      Some (true, set_half src_w server (sent_source server rnd), wb') /\
    forall rb h' t', buf_rep rb h' (content wb') t' ->
      read_key_message rb src_r (negb server) =
        (Some (received_message opts up info), set_half src_r server (sent_source server rnd)).
Proof.
  intros Hb Hrnd Htx Hlen.
  destruct (message_write_ok wb h c t src_w server rnd opts up info Hb Hrnd Htx Hlen) as (wb' & tw & Hw & Hwb').
  exists wb'. split; [done|]. intros rb h' t' Hrb. rewrite (rep_content _ _ _ _ Hwb') in Hrb.
  rewrite <- (negb_involutive server) in Hrb at 1. rewrite (message_read_ok rb h' t' src_r _ rnd opts up info Hrb Hrnd Htx).
  by rewrite negb_involutive.
Qed.

(** A message that ends where a string should begin is not an error: the length that
    [read_string] does not find is -1, and it returns the negation.  A message of the key
    material alone is accepted, with an options string, a username and a password that are
    empty but count as sent, since their lengths are 1. *)
Theorem truncated_key_message_accepted rb h t src server rnd :
  buf_rep rb h (be_bytes 4 0 ++ [KEY_METHOD_2] ++ source_bytes (negb server) rnd) t -> source_ok rnd ->
  (read_key_message rb src server).1 = Some (mk_key_message [] [] 1 [] 1 None).
Proof.
  intros Hb Hrnd. unfold read_key_message.
  destruct (advance_rep _ _ _ _ _ Hb) as (b1 & E1 & Hb1). rewrite length_be_bytes in E1. change (Z.of_nat 4) with 4 in E1.
  rewrite E1. cbn [negb]. destruct (read_u8_rep _ _ _ _ _ Hb1) as (b2 & -> & Hb2). change (Z.land KEY_METHOD_2 KEY_METHOD_MASK =? 2) with true.
  cbn [negb]. rewrite <- (app_nil_r (source_bytes _ _)) in Hb2.
  destruct (source_read_ok b2 _ _ _ src server rnd Hb2 Hrnd) as (b3 & h3 & -> & Hb3). cbn [negb].
  rewrite (read_string_absent b3 h3 [] t TLS_OPTIONS_LEN Hb3) by done. cbn [Z.ltb Z.compare].
  rewrite !(read_string_absent b3 h3 [] t USER_PASS_LEN Hb3) by done.
  unfold read_string_alloc. by rewrite (read_u16_short _ _ _ _ Hb3).
Qed.
