(* ===== verification/KeyExpansion.v ===== *)
(** * Data channel keys from a finished key exchange: [ssl.c], [crypto.c]

    The key material comes from the TLS session, through the exporter or through the
    TLS 1.0 pseudo random function over both halves of [struct key_source2]; each end
    takes one part of it for sending and the other for receiving.  The exporter and the
    pseudo random function belong to the library. *)
From S2P Require Import Prelude Integers Buffer PacketId EpochKeys Reliable KeyMethod.

(** The bytes of a string literal. *)
Definition literal (s : string) : list Z := (fun a => Z.of_N (Ascii.N_of_ascii a)) <$> String.list_ascii_of_string s.

Definition EXPORT_KEY_DATA_LABEL : string := "EXPORTER-OpenVPN-datakeys".
Definition KEY_EXPANSION_ID : string := "OpenVPN".
Definition KEY_DIRECTION_BIDIRECTIONAL : Z := 0.
Definition KEY_DIRECTION_NORMAL : Z := 1.
Definition KEY_DIRECTION_INVERSE : Z := 2.

(** ** Key material *)

(** [struct key]. *)
Record key_material := mk_material { mat_cipher : list Z; mat_hmac : list Z }.

(** [struct key2] with both keys ([n] is 2). *)
Record key2 := mk_key2 { keys0 : key_material; keys1 : key_material }.

Definition key2_nth (k : key2) (i : Z) : key_material := if i =? 0 then keys0 k else keys1 k.

(** [sizeof(key2.keys)], and the two structures in that block. *)
Definition KEY2_SIZE : Z := 2 * (MAX_CIPHER_KEY_LENGTH + MAX_HMAC_KEY_LENGTH).

Definition key2_of_bytes (l : list Z) : key2 :=
  mk_key2 (mk_material (slice 0 64 l) (slice 64 64 l)) (mk_material (slice 128 64 l) (slice 192 64 l)).

Record key_direction_state := mk_kds { out_key : Z; in_key : Z; need_keys : Z }.

Definition key_direction_state_init (key_direction : Z) : option key_direction_state :=
  if key_direction =? KEY_DIRECTION_NORMAL then Some (mk_kds 0 1 2)
  else if key_direction =? KEY_DIRECTION_INVERSE then Some (mk_kds 1 0 2)
  else if key_direction =? KEY_DIRECTION_BIDIRECTIONAL then Some (mk_kds 0 0 1)
  else None.

Definition key_parameters_from_key (key : key_material) : key_parameters :=
  mk_kp (mat_cipher key) MAX_CIPHER_KEY_LENGTH (mat_hmac key) MAX_HMAC_KEY_LENGTH 0.

(** The functions of the TLS library. *)
Class PrfLib := {
  (** seed, secret and the length of the output *)
  ssl_tls1_PRF : list Z -> list Z -> Z -> option (list Z)
}.

Section expansion.
Context `{CryptoLib} `{PrfLib}.

Definition key_is_zero (key : key_material) (kt : key_type) : bool :=
  forallb (fun b => b =? 0) (slice 0 (cipher_kt_key_size (kt_cipher kt)) (mat_cipher key)).

Definition check_key (key : key_material) (kt : key_type) : bool :=
  if cipher_defined (kt_cipher kt) then negb (key_is_zero key kt) else true.

Definition openvpn_PRF (secret label client_seed server_seed : list Z) (client_sid server_sid : option (list Z))
    (output_len : Z) : option (option (list Z)) :=
  seed ← alloc_buf (zlen label + zlen client_seed + zlen server_seed + SID_SIZE * 2);
  '(ok, seed) ← Some (buf_write seed label);
  ASSERT (ok : bool);;
  '(ok, seed) ← Some (buf_write seed client_seed);
  ASSERT (ok : bool);;
  '(ok, seed) ← Some (buf_write seed server_seed);
  ASSERT (ok : bool);;
  '(ok, seed) ← Some (match client_sid with Some id => buf_write seed id | None => (true, seed) end);
  ASSERT (ok : bool);;
  '(ok, seed) ← Some (match server_sid with Some id => buf_write seed id | None => (true, seed) end);
  ASSERT (ok : bool);;
  Some (ssl_tls1_PRF (content seed) secret output_len).

Definition key2_from (keys : option (list Z)) : option key2 := key2_of_bytes <$> keys.

(** [exporter]: [key_state_export_keying_material] of this session: label and length. *)
Definition generate_key_expansion_tls_export (exporter : string -> Z -> option (list Z)) : option key2 :=
  key2_from (exporter EXPORT_KEY_DATA_LABEL KEY2_SIZE).

Definition generate_key_expansion_openvpn_prf (server : bool) (session_id session_id_remote : list Z)
    (key_src : key_source2) : option (option key2) :=
  let client_sid := if server then session_id_remote else session_id in
  let server_sid := if negb server then session_id_remote else session_id in
  master ← openvpn_PRF (pre_master (src_client key_src)) (literal (KEY_EXPANSION_ID ++ " master secret")%string)
             (random1 (src_client key_src)) (random1 (src_server key_src)) None None 48;
  match master with
  | None => Some None
  | Some master =>
      key2_from <$> openvpn_PRF master (literal (KEY_EXPANSION_ID ++ " key expansion")%string)
                      (random2 (src_client key_src)) (random2 (src_server key_src)) (Some client_sid)
                      (Some server_sid) KEY2_SIZE
  end.

(** ** Key contexts *)

Definition init_key_ctx_bi (co : crypto_options) (k2 : key2) (key_direction : Z) (kt : key_type)
  : option crypto_options :=
  kds ← key_direction_state_init key_direction;
  encrypt ← init_key_bi_ctx (key_parameters_from_key (key2_nth k2 (out_key kds))) kt;
  decrypt ← init_key_bi_ctx (key_parameters_from_key (key2_nth k2 (in_key kds))) kt;
  Some (mk_co encrypt decrypt true (co_epoch_key_send co) (co_epoch_key_recv co) (co_epoch_key_type co)
          (co_aead_usage_limit co) (co_future co) (co_retiring co) (co_retiring_pid co) (co_packet_id co)
          (co_pid_persist co) (co_long_form co) (co_epoch_format co)).

(** The first 32 bytes of each cipher key are the secrets of epoch 1. *)
Definition init_epoch_keys (co : crypto_options) (kt : key_type) (server : bool) (k2 : key2)
  : option crypto_options :=
  let future_key_count := 16 in
  kds ← key_direction_state_init (if server then KEY_DIRECTION_INVERSE else KEY_DIRECTION_NORMAL);
  epoch_init_key_ctx (co_packet_id co) kt
    (mk_ekey (slice 0 SHA256_DIGEST_LENGTH (mat_cipher (key2_nth k2 (out_key kds)))) 1)
    (mk_ekey (slice 0 SHA256_DIGEST_LENGTH (mat_cipher (key2_nth k2 (in_key kds)))) 1)
    future_key_count (co_long_form co) (co_pid_persist co).

(** Without data channel offload; [M_FATAL] ends the process. *)
Definition init_key_contexts (co : crypto_options) (epoch_format : bool) (kt : key_type) (server : bool) (k2 : key2)
  : option crypto_options :=
  if epoch_format then
    ASSERT (cipher_kt_mode_aead (kt_cipher kt));;
    init_epoch_keys co kt server k2
  else init_key_ctx_bi co k2 (if server then KEY_DIRECTION_INVERSE else KEY_DIRECTION_NORMAL) kt.

(** The options of the session that the expansion uses, and what it knows of the peer. *)
Record expansion := mk_expansion {
  xp_server : bool;
  xp_export : bool;                  (* CO_USE_TLS_KEY_MATERIAL_EXPORT *)
  xp_epoch_format : bool;            (* CO_EPOCH_DATA_KEY_FORMAT *)
  xp_key_type : key_type;
  xp_exporter : string -> Z -> option (list Z);
  xp_session_id : list Z;
  xp_session_id_remote : list Z;
  xp_key_src : key_source2
}.

Definition generate_key_expansion (xp : expansion) (co : crypto_options) : option (bool * crypto_options) :=
  if co_initialized co then Some (false, co)
  else
    k2 ← (if xp_export xp then Some (generate_key_expansion_tls_export (xp_exporter xp))
          else generate_key_expansion_openvpn_prf (xp_server xp) (xp_session_id xp) (xp_session_id_remote xp)
                 (xp_key_src xp));
    match k2 with
    | None => Some (false, co)
    | Some k2 =>
        if negb (check_key (keys0 k2) (xp_key_type xp) && check_key (keys1 k2) (xp_key_type xp)) then Some (false, co)
        else
          co ← init_key_contexts co (xp_epoch_format xp) (xp_key_type xp) (xp_server xp) k2;
          Some (true, co)
    end.
End expansion.
