(* ===== verification/Ncp.v ===== *)
(** * Negotiation of the data channel's cipher: [ssl_ncp.c], [ssl_util.c]

    Each end announces what it can do in its peer information, a text of [IV_...=...] lines
    ([push_peer_info] of [ssl.c]); the server chooses the cipher, or both ends find the same one
    for themselves when neither is a server ([p2p_mode_ncp]).

    A C string is the list of its bytes before the terminating zero, as in [KeyMethod]; [NULL]
    is [None].  The names of ciphers belong to the library. *)
From S2P Require Import Prelude Integers Buffer EpochKeys CryptoV1 KeyMethod KeyExpansion.

(** ** The string functions that are used *)

(** The list of bytes as a name of the library. *)
Definition name_of (s : list Z) : string :=
  String.string_of_list_ascii ((fun z => Ascii.ascii_of_N (Z.to_N z)) <$> s).

(** [strstr]: the rest of the text from the first place where [needle] is. *)
Fixpoint strstr (hay needle : list Z) : option (list Z) :=
  if bool_decide (take (length needle) hay = needle) then Some hay
  else match hay with [] => None | _ :: hay => strstr hay needle end.

(** The fields between separators, as repeated calls of [strsep] give them. *)
Fixpoint strsep_tokens (sep : Z) (s : list Z) : list (list Z) :=
  match s with
  | [] => [[]]
  | x :: s =>
      if x =? sep then [] :: strsep_tokens sep s
      else match strsep_tokens sep s with t :: ts => (x :: t) :: ts | [] => [[x]] end
  end.

(** [strtok] does not give empty fields. *)
Definition strtok_tokens (sep : Z) (s : list Z) : list (list Z) :=
  filter (fun t => t <> []) (strsep_tokens sep s).

Definition COLON : Z := 58.
Definition NEWLINE : Z := 10.

Definition is_digit (c : Z) : bool := (48 <=? c) && (c <=? 57).
Definition is_space (c : Z) : bool := (c =? 32) || (9 <=? c) && (c <=? 13).

Fixpoint digits_value (acc : Z) (s : list Z) : Z :=
  match s with
  | c :: s => if is_digit c then digits_value (acc * 10 + (c - 48)) s else acc
  | [] => acc
  end.

Fixpoint skip_space (s : list Z) : list Z :=
  match s with c :: s' => if is_space c then skip_space s' else s | [] => [] end.

(** [%d] of [sscanf].  The standard does not say what a number gives that does not fit; here it
    is what the usual implementation does: it stops at the ends of [long] and is cut to [int]. *)
Definition scan_int (s : list Z) : option Z :=
  let s := skip_space s in
  let '(negative, s) := match s with
                        | c :: s' => if c =? 45 then (true, s') else if c =? 43 then (false, s') else (false, s)
                        | [] => (false, [])
                        end in
  match s with
  | c :: _ =>
      if is_digit c then
        let v := digits_value 0 s in
        Some (i32 (if negative then Z.max (-(2 ^ 63)) (- v) else Z.min (2 ^ 63 - 1) v))
      else None
  | [] => None
  end.

(** [%d] of [printf], for a number of at most [fuel] digits. *)
Fixpoint digits (fuel : nat) (n : Z) : list Z :=
  match fuel with
  | O => []
  | S fuel => (if n <? 10 then [] else digits fuel (n / 10)) ++ [48 + n mod 10]
  end.
Definition print_int (n : Z) : list Z := if n <? 0 then 45 :: digits 10 (- n) else digits 10 n.

(** [buf_puts] and [buf_printf] on the text in a buffer of [cap] bytes: what does not fit is cut
    off. *)
Definition buf_puts (cap : Z) (text s : list Z) : list Z :=
  if 0 <? cap - zlen text then text ++ take (Z.to_nat (cap - zlen text - 1)) s else text.

(** ** Peer information: [ssl_util.c] *)

Definition extract_var_peer_info (peer_info : option (list Z)) (var : list Z) : option (list Z) :=
  info ← peer_info;
  at_var ← strstr info var;
  let value := drop (length var) at_var in
  Some (match strstr value [NEWLINE] with
        | Some rest => take (length value - length rest) value
        | None => value
        end).

Definition IV_PROTO_DATA_V2 : Z := Z.shiftl 1 1.
Definition IV_PROTO_REQUEST_PUSH : Z := Z.shiftl 1 2.
Definition IV_PROTO_TLS_KEY_EXPORT : Z := Z.shiftl 1 3.
Definition IV_PROTO_AUTH_PENDING_KW : Z := Z.shiftl 1 4.
Definition IV_PROTO_NCP_P2P : Z := Z.shiftl 1 5.
Definition IV_PROTO_CC_EXIT_NOTIFY : Z := Z.shiftl 1 7.
Definition IV_PROTO_AUTH_FAIL_TEMP : Z := Z.shiftl 1 8.
Definition IV_PROTO_DYN_TLS_CRYPT : Z := Z.shiftl 1 9.
Definition IV_PROTO_DATA_EPOCH : Z := Z.shiftl 1 10.
Definition IV_PROTO_DNS_OPTION_V2 : Z := Z.shiftl 1 11.
Definition IV_PROTO_PUSH_UPDATE : Z := Z.shiftl 1 12.

Definition has_bit (flags bit : Z) : bool := negb (Z.land flags bit =? 0).

(** The number behind a variable. *)
Definition scan_var (peer_info : option (list Z)) (var : string) : option Z :=
  info ← peer_info; at_var ← strstr info (literal var); scan_int (drop (length (literal var)) at_var).

Definition extract_iv_proto (peer_info : option (list Z)) : Z :=
  match scan_var peer_info "IV_PROTO=" with
  | Some proto => if 0 <? proto then proto else 0
  | None => 0
  end.

(** ** Lists of ciphers *)

Definition MAX_NCP_CIPHERS_LENGTH : Z := 127.

Definition CO_USE_TLS_KEY_MATERIAL_EXPORT : Z := Z.shiftl 1 3.
Definition CO_USE_CC_EXIT_NOTIFY : Z := Z.shiftl 1 6.
Definition CO_USE_DYNAMIC_TLS_CRYPT : Z := Z.shiftl 1 7.
Definition CO_EPOCH_DATA_KEY_FORMAT : Z := Z.shiftl 1 8.

Section ncp.
Context `{CL : CryptoLib} `{ML : ModeLib}.
Variable cipher_valid : string -> bool.

Definition tls_peer_info_ncp_ver (peer_info : option (list Z)) : Z := default 0 (scan_var peer_info "IV_NCP=").

Definition found_in (peer_info : option (list Z)) (var : string) : bool :=
  match peer_info with Some info => bool_decide (is_Some (strstr info (literal var))) | None => false end.

Definition tls_peer_supports_ncp (peer_info : option (list Z)) : bool :=
  match peer_info with
  | None => false
  | Some _ => (2 <=? tls_peer_info_ncp_ver peer_info) || found_in peer_info "IV_CIPHERS="
  end.

(** One cipher of a list: whether there is an error, and the new list. *)
Definition mutate_token (st : bool * list Z) (token : list Z) : bool * list Z :=
  let '(error_found, new_list) := st in
  let '(optional, token) := match token with c :: t => if c =? 63 then (true, t) else (false, token) | [] => (false, token) end in
  let nonecipher := bool_decide (token = literal "none") in
  let name := name_of token in
  if negb nonecipher && negb (cipher_valid name) then (error_found || negb optional, new_list)
  else if negb nonecipher && negb (cipher_kt_mode_aead name) && negb (cipher_kt_mode_cbc name) && negb (cipher_kt_mode_ofb_cfb name)
  then (error_found || negb optional, new_list)
  else
    let ovpn_cipher_name := if nonecipher then literal "none" else literal (cipher_kt_name name) in
    let new_list := if 0 <? zlen new_list then buf_puts MAX_NCP_CIPHERS_LENGTH new_list [COLON] else new_list in
    if MAX_NCP_CIPHERS_LENGTH - zlen new_list <? zlen ovpn_cipher_name + 2 then (true, new_list)
    else (error_found, buf_puts MAX_NCP_CIPHERS_LENGTH new_list ovpn_cipher_name).

Definition mutate_ncp_cipher_list (l : list Z) : option (list Z) :=
  let '(error_found, new_list) := foldl mutate_token (false, []) (strtok_tokens COLON l) in
  if negb error_found && (0 <? zlen new_list) then Some new_list else None.

Definition append_cipher_to_ncp_list (ncp_ciphers ciphername : list Z) : list Z := ncp_ciphers ++ [COLON] ++ ciphername.

Definition tls_item_in_cipher_list (item l : list Z) : bool :=
  existsb (fun token => bool_decide (token = item)) (strtok_tokens COLON l).

Definition tls_peer_ncp_list (peer_info : option (list Z)) : list Z :=
  match extract_var_peer_info peer_info (literal "IV_CIPHERS=") with
  | Some l => l
  | None => if 2 <=? tls_peer_info_ncp_ver peer_info then literal "AES-256-GCM:AES-128-GCM" else []
  end.

(** The first field of a list for which a test holds. *)
Definition first_token (l : list Z) (test : list Z -> bool) : option (list Z) :=
  List.find test (strsep_tokens COLON l).

Definition ncp_get_best_cipher (server_list : list Z) (peer_info remote_cipher : option (list Z)) : option (list Z) :=
  let peer_ncp_list := tls_peer_ncp_list peer_info in
  let remote_cipher := match remote_cipher with
                       | Some c => if found_in peer_info "IV_CIPHERS=" then [] else c
                       | None => []
                       end in
  first_token server_list (fun token => tls_item_in_cipher_list token peer_ncp_list || bool_decide (token = remote_cipher)).

(** ** What is pulled from a server *)

(** What is used of [struct options]. *)
Record ncp_options := mk_no {
  no_ncp_ciphers : list Z;
  no_ciphername : list Z;
  no_enable_ncp_fallback : bool;
  no_force_key_material_export : bool;
  no_dco : bool;
  no_use_peer_id : bool;
  no_imported_protocol_flags : Z
}.

Definition set_ciphername (o : ncp_options) (c : list Z) : ncp_options :=
  mk_no (no_ncp_ciphers o) c (no_enable_ncp_fallback o) (no_force_key_material_export o) (no_dco o) (no_use_peer_id o) (no_imported_protocol_flags o).
Definition set_protocol (o : ncp_options) (use_peer_id : bool) (flags : Z) : ncp_options :=
  mk_no (no_ncp_ciphers o) (no_ciphername o) (no_enable_ncp_fallback o) (no_force_key_material_export o) (no_dco o) use_peer_id flags.

Definition tls_poor_mans_ncp (o : ncp_options) (remote_ciphername : option (list Z)) : bool * ncp_options :=
  match remote_ciphername with
  | Some c => if tls_item_in_cipher_list c (no_ncp_ciphers o) then (true, set_ciphername o c) else (false, o)
  | None => (false, o)
  end.

(** [pushed]: the server has pushed a cipher ([found & OPT_P_NCP]). *)
Definition check_pull_client_ncp (o : ncp_options) (remote_ciphername : option (list Z)) (pushed : bool) : bool * ncp_options :=
  if pushed then (true, o)
  else
    let '(ok, o) := tls_poor_mans_ncp o remote_ciphername in
    if ok : bool then (true, o)
    else (match remote_ciphername with None => no_enable_ncp_fallback o | Some _ => false end, o).

Definition check_session_cipher (server : bool) (config_ciphername : list Z) (o : ncp_options) : bool * ncp_options :=
  let cipher_allowed_as_fallback := no_enable_ncp_fallback o && bool_decide (no_ciphername o = config_ciphername) in
  if negb server && negb cipher_allowed_as_fallback && negb (tls_item_in_cipher_list (no_ciphername o) (no_ncp_ciphers o))
  then (false, set_ciphername o config_ciphername)
  else (true, o).

(** ** What a server makes of a client: [multi_client_set_protocol_options] of [multi.c] *)

Record client_caps := mk_caps {
  cc_use_peer_id : bool;
  cc_push_request_received : bool;
  cc_options : ncp_options
}.

(** [generated]: there are keys of the data channel already.  The result is whether the client
    is let in. *)
Definition multi_client_set_protocol_options (c : client_caps) (peer_info remote_ciphername : option (list Z))
    (generated data_epoch_supported : bool) : bool * client_caps :=
  let proto := extract_iv_proto peer_info in
  let o := cc_options c in
  if negb (has_bit proto IV_PROTO_DATA_V2) && no_dco o then (false, c)
  else
    let v2 := has_bit proto IV_PROTO_DATA_V2 in
    let use_peer_id := v2 || cc_use_peer_id c in
    let o := set_protocol o (v2 || no_use_peer_id o) (no_imported_protocol_flags o) in
    let push := has_bit proto IV_PROTO_REQUEST_PUSH || cc_push_request_received c in
    let export := has_bit proto IV_PROTO_TLS_KEY_EXPORT in
    if negb export && no_force_key_material_export o then (false, mk_caps use_peer_id push o)
    else
      let flag (on : bool) (bit flags : Z) := if on then Z.lor flags bit else flags in
      let flags := flag export CO_USE_TLS_KEY_MATERIAL_EXPORT (no_imported_protocol_flags o) in
      let flags := flag (has_bit proto IV_PROTO_DYN_TLS_CRYPT) CO_USE_DYNAMIC_TLS_CRYPT flags in
      let flags := flag (has_bit proto IV_PROTO_CC_EXIT_NOTIFY) CO_USE_CC_EXIT_NOTIFY flags in
      let o := set_protocol o (no_use_peer_id o) flags in
      if generated then (true, mk_caps use_peer_id push o)
      else
        match ncp_get_best_cipher (no_ncp_ciphers o) peer_info remote_ciphername with
        | Some push_cipher =>
            let epoch := data_epoch_supported && has_bit proto IV_PROTO_DATA_EPOCH && cipher_kt_mode_aead (name_of push_cipher) in
            (true, mk_caps use_peer_id push (set_ciphername (set_protocol o (no_use_peer_id o) (flag epoch CO_EPOCH_DATA_KEY_FORMAT flags)) push_cipher))
        | None =>
            let ret := if 0 <? zlen (tls_peer_ncp_list peer_info) then false
                       else match remote_ciphername with Some _ => false | None => no_enable_ncp_fallback o end in
            (ret, mk_caps use_peer_id push o)
        end.

(** ** Between two peers *)

(** The first cipher of the server's list that the client has, whichever end this is. *)
Definition get_p2p_ncp_cipher (server : bool) (config_ncp_ciphers : list Z) (peer_info : option (list Z)) : option (list Z) :=
  peer_ciphers ← extract_var_peer_info peer_info (literal "IV_CIPHERS=");
  let '(server_ciphers, client_ciphers) := if server then (config_ncp_ciphers, peer_ciphers) else (peer_ciphers, config_ncp_ciphers) in
  first_token server_ciphers (fun token => tls_item_in_cipher_list token client_ciphers).

(** What changes: [use_peer_id] and [peer_id] of the tunnel, [crypto_flags] of the session. *)
Record p2p_state := mk_p2p { pp_use_peer_id : bool; pp_peer_id : Z; pp_crypto_flags : Z }.

(** [exporter]: 3 bytes of key material for [EXPORT_P2P_PEERID_LABEL], if the library has some. *)
Definition p2p_ncp_set_options (st : p2p_state) (peer_info : option (list Z)) (data_epoch_supported : bool)
    (exporter : option (list Z)) (common_cipher : option (list Z)) : p2p_state :=
  let iv_proto_peer := extract_iv_proto peer_info in
  if negb (has_bit iv_proto_peer IV_PROTO_NCP_P2P) then st
  else
    let '(use_peer_id, peer_id) := if has_bit iv_proto_peer IV_PROTO_DATA_V2 then (true, 7762030) else (pp_use_peer_id st, pp_peer_id st) in
    let flags := pp_crypto_flags st in
    let flags := if has_bit iv_proto_peer IV_PROTO_CC_EXIT_NOTIFY then Z.lor flags CO_USE_CC_EXIT_NOTIFY else flags in
    let epoch := data_epoch_supported && has_bit iv_proto_peer IV_PROTO_DATA_EPOCH &&
                 match common_cipher with Some c => cipher_kt_mode_aead (name_of c) | None => false end in
    let flags := if epoch then Z.lor flags CO_EPOCH_DATA_KEY_FORMAT else Z.ldiff flags CO_EPOCH_DATA_KEY_FORMAT in
    let '(peer_id, flags) :=
      if has_bit iv_proto_peer IV_PROTO_TLS_KEY_EXPORT then
        (match use_peer_id, exporter with
         | true, Some [a; b; c] => Z.shiftl a 16 + Z.shiftl b 8 + c
         | _, _ => peer_id
         end, Z.lor flags CO_USE_TLS_KEY_MATERIAL_EXPORT)
      else (peer_id, flags) in
    let flags := if has_bit iv_proto_peer IV_PROTO_DYN_TLS_CRYPT then Z.lor flags CO_USE_DYNAMIC_TLS_CRYPT else flags in
    mk_p2p use_peer_id peer_id flags.

(** The cipher is for the log only: [do_deferred_p2p_ncp] finds it again. *)
Definition p2p_mode_ncp (server : bool) (config_ncp_ciphers : list Z) (st : p2p_state) (peer_info : option (list Z))
    (data_epoch_supported : bool) (exporter : option (list Z)) : p2p_state :=
  p2p_ncp_set_options st peer_info data_epoch_supported exporter (get_p2p_ncp_cipher server config_ncp_ciphers peer_info).

(** ** The default list *)

Definition replace_default_in_ncp_ciphers_option (ncp_ciphers replace : list Z) : option (list Z) :=
  let search := literal "DEFAULT" in
  ASSERT (zlen ncp_ciphers + zlen replace - zlen search + 1 <=? INT_MAX);;
  def ← strstr ncp_ciphers search;
  Some (take (length ncp_ciphers - length def) ncp_ciphers ++ replace ++ drop (length search) def).

(** [dco_ciphers]: those of the data channel offload, when it is enabled.  The results are
    [ncp_ciphers] and [ncp_ciphers_conf]. *)
Definition options_postprocess_setdefault_ncpciphers (dco_ciphers ncp_ciphers : option (list Z)) : option (list Z * list Z) :=
  let can_do_chacha := cipher_valid "CHACHA20-POLY1305" &&
                       match dco_ciphers with Some l => tls_item_in_cipher_list (literal "CHACHA20-POLY1305") l | None => true end in
  let default_ciphers := if can_do_chacha then literal "AES-256-GCM:AES-128-GCM:CHACHA20-POLY1305"
                         else literal "AES-256-GCM:AES-128-GCM" in
  match ncp_ciphers with
  | None => Some (default_ciphers, literal "DEFAULT")
  | Some l =>
      if bool_decide (default_ciphers = l) then Some (default_ciphers, literal "DEFAULT")
      else if negb (tls_item_in_cipher_list (literal "DEFAULT") l) then Some (l, l)
      else l' ← replace_default_in_ncp_ciphers_option l default_ciphers; Some (l', l)
  end.

Definition ncp_expanded_ciphers (ncp_ciphers ncp_ciphers_conf : list Z) : list Z :=
  if bool_decide (ncp_ciphers = ncp_ciphers_conf) then [] else literal " (" ++ ncp_ciphers ++ literal ")".
End ncp.

(** ** The peer information that is sent: [push_peer_info] of [ssl.c] *)

(** [pi_detail]: [push_peer_info_detail]; [pi_comp]: what [comp_options] are, if there are any
    - only no compression, only stubs -; the texts of the system and the library, and the
    environment. *)
Record peer_info_options := mk_pio {
  pi_detail : Z;
  pi_dco : bool;
  pi_pull : bool;
  pi_mode_server : bool;
  pi_tun_max_mtu : Z;
  pi_ncp_ciphers : list Z;
  pi_data_epoch_supported : bool;
  pi_comp : option (bool * bool);
  pi_hwaddr : option (list Z);
  pi_ssl_version : list Z;
  pi_release : list Z;
  pi_env : list (list Z)
}.

Definition PEER_INFO_SIZE : Z := 512 * 3.

(** A [buf_printf] of a variable and its value. *)
Definition put_line (text : list Z) (var : string) (value : list Z) : list Z :=
  buf_puts PEER_INFO_SIZE text (literal var ++ value ++ [NEWLINE]).

Definition starts_with (prefix : string) (s : list Z) : bool := bool_decide (take (length (literal prefix)) s = literal prefix).

Definition iv_proto_of (o : peer_info_options) : Z :=
  let p := Z.lor (Z.lor IV_PROTO_DATA_V2 IV_PROTO_DNS_OPTION_V2) IV_PROTO_CC_EXIT_NOTIFY in
  let p := if pi_dco o then p else Z.lor p IV_PROTO_PUSH_UPDATE in
  let p := if pi_pull o then Z.lor (Z.lor (Z.lor p IV_PROTO_REQUEST_PUSH) IV_PROTO_AUTH_PENDING_KW) IV_PROTO_AUTH_FAIL_TEMP else p in
  let p := if pi_mode_server o || pi_pull o then p else Z.lor p IV_PROTO_NCP_P2P in
  let p := if pi_data_epoch_supported o then Z.lor p IV_PROTO_DATA_EPOCH else p in
  Z.lor (Z.lor p IV_PROTO_TLS_KEY_EXPORT) IV_PROTO_DYN_TLS_CRYPT.

(** Up to [IV_PROTO]. *)
Definition peer_info_head (o : peer_info_options) : list Z :=
  let t := if 1 <? pi_detail o then put_line (put_line (put_line [] "IV_VER=" (literal "2.7_master")) "IV_PLAT=" (literal "android")) "IV_TCPNL=" (literal "1")
           else [] in
  let t := if pi_pull o then put_line t "IV_MTU=" (print_int (pi_tun_max_mtu o)) else t in
  let t := if (pi_mode_server o || pi_pull o) && tls_item_in_cipher_list (literal "AES-128-GCM") (pi_ncp_ciphers o)
              && tls_item_in_cipher_list (literal "AES-256-GCM") (pi_ncp_ciphers o)
           then put_line t "IV_NCP=" (literal "2") else t in
  let t := put_line t "IV_CIPHERS=" (pi_ncp_ciphers o) in
  put_line t "IV_PROTO=" (print_int (iv_proto_of o)).

Definition comp_generate_peer_info_string (opt : option (bool * bool)) (t : list Z) : list Z :=
  match opt with
  | None | Some (true, _) => t
  | Some (false, stubs_only) =>
      let t := if stubs_only then put_line t "IV_LZO_STUB=" (literal "1")
               else put_line (put_line (put_line t "IV_LZ4=" (literal "1")) "IV_LZ4v2=" (literal "1")) "IV_LZO=" (literal "1") in
      put_line (put_line t "IV_COMP_STUB=" (literal "1")) "IV_COMP_STUBv2=" (literal "1")
  end.

Definition put_env (detail : Z) (t e : list Z) : list Z :=
  if ((starts_with "UV_" e || starts_with "IV_PLAT_VER=" e) && (2 <? detail) || starts_with "IV_GUI_VER=" e || starts_with "IV_SSO=" e)
     && (zlen t + (zlen e + 1) <=? PEER_INFO_SIZE)
  then buf_puts PEER_INFO_SIZE t (e ++ [NEWLINE]) else t.

(** The text that is sent, if any is. *)
Definition push_peer_info (o : peer_info_options) : option (list Z) :=
  if 0 <? pi_detail o then
    let t := peer_info_head o in
    let t := if 1 <? pi_detail o then comp_generate_peer_info_string (pi_comp o) t else t in
    let t := if 2 <? pi_detail o then
               let t := match pi_hwaddr o with Some a => put_line t "IV_HWADDR=" a | None => t end in
               put_line (put_line t "IV_SSL=" (pi_ssl_version o)) "IV_PLAT_VER=" (pi_release o)
             else t in
    Some (if 1 <? pi_detail o then foldl (put_env (pi_detail o)) t (pi_env o) else t)
  else None.

(** ** Texts of lines *)

Lemma strstr_hit (needle rest : list Z) : strstr (needle ++ rest) needle = Some (needle ++ rest).
Proof.
  assert (H : bool_decide (take (length needle) (needle ++ rest) = needle) = true) by (apply bool_decide_eq_true_2; by rewrite take_app_length).
  destruct (needle ++ rest); cbn [strstr]; by rewrite H.
Qed.

(** A prefix, as [strstr] looks for it. *)
Lemma not_here (hay needle : list Z) : (forall rest, hay <> needle ++ rest) -> bool_decide (take (length needle) hay = needle) = false.
Proof. intros Hn. apply bool_decide_eq_false_2. intros E. apply (Hn (drop (length needle) hay)). by rewrite <- E at 1; rewrite take_drop. Qed.

Definition EQUALS : Z := 61.

(** A line of a text: a variable and its value. *)
Definition line (key val : list Z) : list Z := key ++ EQUALS :: val ++ [NEWLINE].

Lemma skip_value (val rest n : list Z) : EQUALS ∉ val -> NEWLINE ∉ n -> n <> [] ->
  strstr (val ++ NEWLINE :: rest) (n ++ [EQUALS]) = strstr rest (n ++ [EQUALS]).
Proof.
  intros Hv Hn Hne. assert (Hh : forall val', EQUALS ∉ val' -> forall r, val' ++ NEWLINE :: rest <> (n ++ [EQUALS]) ++ r).
  { intros v He r E. rewrite <- app_assoc in E. cbn [app] in E.
    destruct (decide (length n < length v)%nat) as [Hl|Hl].
    - assert (E1 : v !! length n = Some EQUALS).
      { rewrite <- (lookup_app_l v (NEWLINE :: rest)) by done. rewrite E, lookup_app_r, Nat.sub_diag by lia. done. }
      by apply He, list_elem_of_lookup_2 with (length n).
    - destruct (decide (length n = length v)) as [El|El].
      + apply (f_equal (fun l => l !! length n)) in E. rewrite !lookup_app_r, El, !Nat.sub_diag in E by lia. done.
      + assert (E1 : n !! length v = Some NEWLINE).
        { rewrite <- (lookup_app_l n (EQUALS :: r)) by lia. rewrite <- E, lookup_app_r, Nat.sub_diag by lia. done. }
        by apply Hn, list_elem_of_lookup_2 with (length v). }
  induction val as [|x val IH]; cbn [app].
  - cbn [strstr]. rewrite (not_here (NEWLINE :: rest)); [done|]. apply (Hh [] Hv).
  - rewrite not_elem_of_cons in Hv. destruct Hv as [Hx Hv]. cbn [strstr].
    rewrite (not_here (x :: val ++ NEWLINE :: rest)); [by apply IH|]. apply (Hh (x :: val)). by rewrite not_elem_of_cons.
Qed.

Lemma first_equals (a b x y : list Z) : EQUALS ∉ a -> EQUALS ∉ b -> a ++ EQUALS :: x = b ++ EQUALS :: y -> a = b.
Proof.
  revert b. induction a as [|c a IH]; intros [|d b] Ha Hb; cbn [app].
  - done.
  - intros E. injection E as E _. apply not_elem_of_cons in Hb as [? _]. congruence.
  - intros E. injection E as E _. apply not_elem_of_cons in Ha as [? _]. congruence.
  - apply not_elem_of_cons in Ha as [_ Ha], Hb as [_ Hb]. intros E. injection E as -> E. f_equal. by apply IH.
Qed.

(** A line of another variable is passed over. *)
Lemma skip_line key val rest n :
  EQUALS ∉ key -> EQUALS ∉ val -> EQUALS ∉ n -> NEWLINE ∉ n -> n <> [] -> ~ n `suffix_of` key ->
  strstr (line key val ++ rest) (n ++ [EQUALS]) = strstr rest (n ++ [EQUALS]).
Proof.
  intros Hk Hv Hn1 Hn2 Hne Hs. unfold line. rewrite <- !app_assoc. cbn [app]. rewrite <- app_assoc. cbn [app].
  induction key as [|c key IH]; cbn [app].
  - cbn [strstr]. rewrite not_here; [by apply skip_value|]. intros r. destruct n as [|x n]; [done|]. cbn [app]. intros E. injection E as E _.
    apply not_elem_of_cons in Hn1 as [? _]. congruence.
  - cbn [strstr]. rewrite not_here.
    + rewrite not_elem_of_cons in Hk. apply IH; [apply Hk|]. intros Hs'. apply Hs. by apply suffix_cons_r.
    + intros r E. rewrite <- app_assoc in E. cbn [app] in E.
      apply (first_equals (c :: key)) in E; [|done|done]. apply Hs. by rewrite E.
Qed.

Lemma skip_lines ls rest n :
  EQUALS ∉ n -> NEWLINE ∉ n -> n <> [] ->
  Forall (fun l => EQUALS ∉ l.1 /\ EQUALS ∉ l.2 /\ ~ n `suffix_of` l.1) ls ->
  strstr (concat ((fun l => line l.1 l.2) <$> ls) ++ rest) (n ++ [EQUALS]) = strstr rest (n ++ [EQUALS]).
Proof.
  intros H1 H2 H3. induction 1 as [|[k v] ls (Hk & Hv & Hs) _ IH]; [done|]. cbn [fmap list_fmap concat]. rewrite <- app_assoc.
  by rewrite skip_line.
Qed.

Lemma strstr_newline val rest : NEWLINE ∉ val -> strstr (val ++ NEWLINE :: rest) [NEWLINE] = Some (NEWLINE :: rest).
Proof.
  induction val as [|x val IH]; intros Hv; cbn [app].
  - apply (strstr_hit [NEWLINE]).
  - apply not_elem_of_cons in Hv as [Hx Hv]. cbn [strstr]. rewrite not_here; [by apply IH|]. intros r E. injection E as E _. congruence.
Qed.

(** The value of a variable, whatever lines of other variables are in front of it and whatever
    comes behind it. *)
Lemma extract_line ls n val rest :
  EQUALS ∉ n -> NEWLINE ∉ n -> n <> [] -> NEWLINE ∉ val ->
  Forall (fun l => EQUALS ∉ l.1 /\ EQUALS ∉ l.2 /\ ~ n `suffix_of` l.1) ls ->
  extract_var_peer_info (Some (concat ((fun l => line l.1 l.2) <$> ls) ++ line n val ++ rest)) (n ++ [EQUALS]) = Some val.
Proof.
  intros H1 H2 H3 Hv Hls. unfold extract_var_peer_info. rewrite Some_bind, skip_lines by done.
  assert (E : line n val ++ rest = (n ++ [EQUALS]) ++ val ++ NEWLINE :: rest) by (unfold line; rewrite <- !app_assoc; cbn [app]; by rewrite <- app_assoc).
  rewrite E, strstr_hit, Some_bind, drop_app_length, strstr_newline by done. f_equal.
  rewrite length_app, take_app_length'; [done|]. lia.
Qed.

(** ** What is announced *)

Definition text_of (ls : list (list Z * list Z)) : list Z := concat ((fun l => line l.1 l.2) <$> ls).

Lemma text_of_snoc ls k v : text_of (ls ++ [(k, v)]) = text_of ls ++ line k v.
Proof. unfold text_of. by rewrite fmap_app, concat_app; cbn [fmap list_fmap concat fst snd]; rewrite app_nil_r. Qed.

Lemma length_line k v : zlen (line k v) = zlen k + zlen v + 2.
Proof. unfold line. rewrite length_app. cbn [length]. rewrite length_app. cbn [length]. lia. Qed.

Lemma put_on ls var k v : literal var = k ++ [EQUALS] -> zlen (text_of ls) + zlen k + zlen v + 2 < PEER_INFO_SIZE ->
  put_line (text_of ls) var v = text_of (ls ++ [(k, v)]).
Proof.
  intros E Hl. unfold put_line, buf_puts. rewrite E, text_of_snoc. replace ((k ++ [EQUALS]) ++ v ++ [NEWLINE]) with (line k v) by (unfold line; by rewrite <- app_assoc).
  replace (0 <? PEER_INFO_SIZE - zlen (text_of ls)) with true by lia. rewrite take_ge; [done|]. pose proof (length_line k v). lia.
Qed.

Lemma digits_ok fuel n : Forall (fun c => 48 <= c < 58) (digits fuel n) /\ (length (digits fuel n) <= fuel)%nat.
Proof.
  revert n. induction fuel as [|fuel IH]; intros n; cbn [digits]; [by split|]. destruct (IH (n / 10)) as [H1 H2]. rewrite length_app. cbn [length].
  split.
  - apply Forall_app. split; [by destruct (n <? 10)|]. constructor; [|constructor]. pose proof (Z.mod_pos_bound n 10). lia.
  - destruct (n <? 10); cbn [length]; lia.
Qed.

Lemma print_int_ok n : EQUALS ∉ print_int n /\ zlen (print_int n) <= 11.
Proof.
  assert (H : forall m, EQUALS ∉ digits 10 m).
  { intros m Hin. destruct (digits_ok 10 m) as [Hd _]. rewrite Forall_forall in Hd. apply Hd in Hin. unfold EQUALS in Hin. lia. }
  unfold print_int. destruct (n <? 0).
  - destruct (digits_ok 10 (- n)) as [_ Hl]. split; [|cbn [length]; lia]. intros Hin. apply elem_of_cons in Hin as [?|Hin]; [done|by apply (H (- n))].
  - destruct (digits_ok 10 n) as [_ Hl]. split; [apply H|lia].
Qed.

(** The variables in front of [IV_CIPHERS]. *)
Definition early_keys : list (list Z) := literal <$> ["IV_VER"; "IV_PLAT"; "IV_TCPNL"; "IV_MTU"; "IV_NCP"]%string.

Definition early (l : list Z * list Z) : Prop := l.1 ∈ early_keys /\ EQUALS ∉ l.2.

Lemma head_shape o : zlen (pi_ncp_ciphers o) <= 125 ->
  exists ls, Forall early ls /\
    peer_info_head o = text_of ls ++ line (literal "IV_CIPHERS") (pi_ncp_ciphers o) ++ line (literal "IV_PROTO") (print_int (iv_proto_of o)).
Proof.
  intros Hl. unfold peer_info_head.
  assert (Hstep : forall (on : bool) var k v ls, literal var = k ++ [EQUALS] -> k ∈ early_keys -> EQUALS ∉ v -> zlen k + zlen v <= 30 ->
            Forall early ls -> zlen (text_of ls) <= 200 ->
            exists ls', (if on then put_line (text_of ls) var v else text_of ls) = text_of ls' /\ Forall early ls' /\ zlen (text_of ls') <= zlen (text_of ls) + 32).
  { intros on var k v ls E Hk Hv Hs He Ht. destruct on; [|exists ls; split_and!; [done|done|lia]]. exists (ls ++ [(k, v)]). split_and!.
    - apply put_on; [done|unfold PEER_INFO_SIZE; lia].
    - apply Forall_app. split; [done|]. constructor; [by split|constructor].
    - rewrite text_of_snoc, length_app, Nat2Z.inj_add, length_line. lia. }
  set (d := 1 <? pi_detail o).
  destruct (Hstep d "IV_VER="%string (literal "IV_VER") (literal "2.7_master") []) as (l1 & E1 & F1 & S1); [done|by apply (bool_decide_eq_true_1 _)|by apply (bool_decide_eq_true_1 _)|done|constructor|done|].
  destruct (Hstep d "IV_PLAT="%string (literal "IV_PLAT") (literal "android") l1) as (l2 & E2 & F2 & S2); [done|by apply (bool_decide_eq_true_1 _)|by apply (bool_decide_eq_true_1 _)|done|done|cbn in S1; lia|].
  destruct (Hstep d "IV_TCPNL="%string (literal "IV_TCPNL") (literal "1") l2) as (l3 & E3 & F3 & S3); [done|by apply (bool_decide_eq_true_1 _)|by apply (bool_decide_eq_true_1 _)|done|done|cbn in S1; lia|].
  assert (E : (if d then put_line (put_line (put_line [] "IV_VER=" (literal "2.7_master")) "IV_PLAT=" (literal "android")) "IV_TCPNL=" (literal "1") else []) = text_of l3).
  { change [] with (text_of []) at 1 2. rewrite <- E3, <- E2, <- E1. by destruct d. }
  rewrite E. destruct (print_int_ok (pi_tun_max_mtu o)) as [Hm1 Hm2].
  destruct (Hstep (pi_pull o) "IV_MTU="%string (literal "IV_MTU") (print_int (pi_tun_max_mtu o)) l3) as (l4 & -> & F4 & S4); [done|by apply (bool_decide_eq_true_1 _)|done|cbn [length]; change (zlen (literal "IV_MTU")) with 6; lia|done|cbn in S1; lia|].
  destruct (Hstep ((pi_mode_server o || pi_pull o) && tls_item_in_cipher_list (literal "AES-128-GCM") (pi_ncp_ciphers o)
              && tls_item_in_cipher_list (literal "AES-256-GCM") (pi_ncp_ciphers o)) "IV_NCP="%string (literal "IV_NCP") (literal "2") l4) as (l5 & -> & F5 & S5);
    [done|by apply (bool_decide_eq_true_1 _)|by apply (bool_decide_eq_true_1 _)|done|done|cbn in S1; lia|].
  cbn in S1. rewrite (put_on l5 "IV_CIPHERS=" (literal "IV_CIPHERS")) by (done || (change (zlen (literal "IV_CIPHERS")) with 10; unfold PEER_INFO_SIZE; lia)).
  destruct (print_int_ok (iv_proto_of o)) as [_ Hp]. exists l5. split; [done|].
  rewrite (put_on _ "IV_PROTO=" (literal "IV_PROTO")); [by rewrite !text_of_snoc, <- app_assoc|done|].
  rewrite text_of_snoc, length_app, Nat2Z.inj_add, length_line. change (zlen (literal "IV_CIPHERS")) with 10. change (zlen (literal "IV_PROTO")) with 8. unfold PEER_INFO_SIZE. lia.
Qed.

Lemma puts_more cap t s : exists more, buf_puts cap t s = t ++ more.
Proof. unfold buf_puts. destruct (0 <? _); [by eexists|]. exists []. by rewrite app_nil_r. Qed.

(** The rest of the text comes behind. *)
Lemma push_shape o info : push_peer_info o = Some info -> exists more, info = peer_info_head o ++ more.
Proof.
  unfold push_peer_info. destruct (0 <? pi_detail o); [|done]. intros [= <-].
  set (more t' := exists m, t' = peer_info_head o ++ m). change (more (if 1 <? pi_detail o then
    foldl (put_env (pi_detail o)) (if 2 <? pi_detail o then
      put_line (put_line match pi_hwaddr o with Some a => put_line (if 1 <? pi_detail o then comp_generate_peer_info_string (pi_comp o) (peer_info_head o) else peer_info_head o) "IV_HWADDR=" a
        | None => if 1 <? pi_detail o then comp_generate_peer_info_string (pi_comp o) (peer_info_head o) else peer_info_head o end "IV_SSL=" (pi_ssl_version o)) "IV_PLAT_VER=" (pi_release o)
      else if 1 <? pi_detail o then comp_generate_peer_info_string (pi_comp o) (peer_info_head o) else peer_info_head o) (pi_env o)
    else if 2 <? pi_detail o then
      put_line (put_line match pi_hwaddr o with Some a => put_line (if 1 <? pi_detail o then comp_generate_peer_info_string (pi_comp o) (peer_info_head o) else peer_info_head o) "IV_HWADDR=" a
        | None => if 1 <? pi_detail o then comp_generate_peer_info_string (pi_comp o) (peer_info_head o) else peer_info_head o end "IV_SSL=" (pi_ssl_version o)) "IV_PLAT_VER=" (pi_release o)
      else if 1 <? pi_detail o then comp_generate_peer_info_string (pi_comp o) (peer_info_head o) else peer_info_head o)).
  assert (Hput : forall cap t s, more t -> more (buf_puts cap t s)).
  { intros cap t s [m ->]. destruct (puts_more cap (peer_info_head o ++ m) s) as [m' ->]. exists (m ++ m'). by rewrite app_assoc. }
  assert (Hline : forall t var v, more t -> more (put_line t var v)) by (intros; by apply Hput).
  assert (Hhead : more (peer_info_head o)) by (exists []; by rewrite app_nil_r).
  assert (Hcomp : more (if 1 <? pi_detail o then comp_generate_peer_info_string (pi_comp o) (peer_info_head o) else peer_info_head o)).
  { unfold comp_generate_peer_info_string. repeat case_match; auto 10. }
  revert Hcomp. generalize (if 1 <? pi_detail o then comp_generate_peer_info_string (pi_comp o) (peer_info_head o) else peer_info_head o). intros t Ht.
  assert (Hsys : more (if 2 <? pi_detail o then put_line (put_line match pi_hwaddr o with Some a => put_line t "IV_HWADDR=" a | None => t end "IV_SSL=" (pi_ssl_version o)) "IV_PLAT_VER=" (pi_release o) else t)).
  { repeat case_match; auto 10. }
  revert Hsys. generalize (if 2 <? pi_detail o then put_line (put_line match pi_hwaddr o with Some a => put_line t "IV_HWADDR=" a | None => t end "IV_SSL=" (pi_ssl_version o)) "IV_PLAT_VER=" (pi_release o) else t).
  intros t' Ht'. destruct (1 <? pi_detail o); [|done]. revert t' Ht'. induction (pi_env o) as [|e env IH]; intros t' Ht'; [done|]. cbn [foldl]. apply IH.
  unfold put_env. case_match; auto.
Qed.

(** ** Lists of names *)

Fixpoint join (cs : list (list Z)) : list Z :=
  match cs with [] => [] | [c] => c | c :: cs => c ++ COLON :: join cs end.

(** A name that can be in a list, and in a line of the peer information. *)
Definition good_name (c : list Z) : Prop := c <> [] /\ Forall (fun x => x <> COLON /\ x <> EQUALS /\ x <> NEWLINE) c.

(** A list as [mutate_ncp_cipher_list] leaves it: [mutate_list_ok]. *)
Definition list_of (cs : list (list Z)) (l : list Z) : Prop :=
  cs <> [] /\ Forall good_name cs /\ l = join cs /\ zlen l <= 125.

(** The first of the server's ciphers that the client has. *)
Definition first_common (server client : list (list Z)) : option (list Z) :=
  List.find (fun c => bool_decide (c ∈ client)) server.

Lemma strsep_name c : Forall (fun x => x <> COLON) c -> strsep_tokens COLON c = [c].
Proof. induction 1 as [|x c Hx _ IH]; [done|]. cbn [strsep_tokens]. rewrite IH. by replace (x =? COLON) with false by lia. Qed.

Lemma strsep_app c s : Forall (fun x => x <> COLON) c -> strsep_tokens COLON (c ++ COLON :: s) = c :: strsep_tokens COLON s.
Proof.
  induction 1 as [|x c Hx _ IH]; cbn [app strsep_tokens]; [by rewrite Z.eqb_refl|]. rewrite IH. by replace (x =? COLON) with false by lia.
Qed.

Lemma good_no_colon c : good_name c -> Forall (fun x => x <> COLON) c.
Proof. intros [_ H]. eapply Forall_impl; [exact H|]. by intros x [? _]. Qed.
#[local] Hint Resolve good_no_colon : core.

Lemma join_tokens cs : cs <> [] -> Forall good_name cs -> strsep_tokens COLON (join cs) = cs.
Proof.
  intros Hne H. induction H as [|c cs Hc Hcs IH]; [done|]. destruct cs as [|d cs]; cbn [join]; [apply strsep_name; auto|].
  rewrite strsep_app by auto. f_equal. by apply IH.
Qed.

Lemma list_tokens cs l : list_of cs l -> strsep_tokens COLON l = cs /\ strtok_tokens COLON l = cs.
Proof.
  intros (Hne & Hg & -> & _). unfold strtok_tokens. rewrite join_tokens by done. split; [done|].
  induction Hg as [|c cs [Hc _] _ IH]; [done|]. rewrite filter_cons_True by done. f_equal. destruct cs; [done|]. by apply IH.
Qed.

(** In a list that has no empty fields. *)
Lemma item_in_list cs l c : list_of cs l -> tls_item_in_cipher_list c l = bool_decide (c ∈ cs).
Proof.
  intros H. unfold tls_item_in_cipher_list. destruct (list_tokens cs l H) as [_ ->]. clear H. apply eq_iff_eq_true.
  rewrite existsb_exists, bool_decide_eq_true. setoid_rewrite bool_decide_eq_true. setoid_rewrite <- list_elem_of_In. naive_solver.
Qed.

Lemma find_ext {A} (p q : A -> bool) l : (forall x, x ∈ l -> p x = q x) -> List.find p l = List.find q l.
Proof.
  induction l as [|x l IH]; intros H; [done|]. cbn [List.find]. rewrite H, IH; [done| |constructor].
  intros y Hy. apply H. by constructor.
Qed.

Lemma first_in_list scs s ccs c : list_of scs s -> list_of ccs c ->
  first_token s (fun token => tls_item_in_cipher_list token c) = first_common scs ccs.
Proof.
  intros Hs Hc. unfold first_token, first_common. destruct (list_tokens scs s Hs) as [-> _]. apply find_ext.
  intros x _. by apply item_in_list.
Qed.

Lemma first_common_spec scs ccs :
  match first_common scs ccs with
  | Some c => exists before after, scs = before ++ c :: after /\ c ∈ ccs /\ (forall x, x ∈ before -> x ∉ ccs)
  | None => forall x, x ∈ scs -> x ∉ ccs
  end.
Proof.
  unfold first_common. induction scs as [|x scs IH]; cbn [List.find].
  - intros x Hx. by apply not_elem_of_nil in Hx.
  - case_bool_decide as E.
    + exists [], scs. split_and!; [done|done|]. intros y Hy. by apply not_elem_of_nil in Hy.
    + destruct (List.find _ scs) as [c|].
      * destruct IH as (before & after & -> & Hc & Hb). exists (x :: before), after. split_and!; [done|done|].
        intros y [->|Hy]%elem_of_cons; auto.
      * intros y [->|Hy]%elem_of_cons; auto.
Qed.

Lemma list_chars cs l x : list_of cs l -> x ∈ l -> x <> EQUALS /\ x <> NEWLINE.
Proof.
  intros (_ & Hg & -> & _). induction Hg as [|c cs [_ Hc] _ IH]; [intros Hx; by apply not_elem_of_nil in Hx|].
  assert (Hin : x ∈ c -> x <> EQUALS /\ x <> NEWLINE) by (intros Hx; rewrite Forall_forall in Hc; by destruct (Hc x Hx) as (_ & ? & ?)).
  destruct cs as [|d cs]; cbn [join]; [done|]. rewrite elem_of_app, elem_of_cons. intros [?|[->|?]]; auto.
Qed.

Lemma list_not_empty cs l : list_of cs l -> l <> [].
Proof.
  intros H E. destruct (list_tokens cs l H) as [Ht _]. rewrite E in Ht. destruct H as (_ & Hg & _). rewrite <- Ht in Hg.
  apply Forall_cons_1 in Hg as [[? _] _]. done.
Qed.

Lemma join_snoc cs c : cs <> [] -> join (cs ++ [c]) = join cs ++ COLON :: c.
Proof.
  induction cs as [|d cs IH]; [done|]. intros _. destruct cs as [|e cs]; [done|].
  change (join ((d :: e :: cs) ++ [c])) with (d ++ COLON :: join ((e :: cs) ++ [c])).
  change (join (d :: e :: cs)) with (d ++ COLON :: join (e :: cs)). rewrite IH by done. by rewrite <- app_assoc.
Qed.

(** ** What [mutate_ncp_cipher_list] gives *)

(** The names that the library gives can be put in a list. *)
Class NamesOk `{CL : CryptoLib} (cipher_valid : string -> bool) : Prop :=
  valid_name_good : forall name, cipher_valid name = true -> good_name (literal (cipher_kt_name name)).

Section mutate.
Context `{CL : CryptoLib} `{ML : ModeLib} (cipher_valid : string -> bool) `{NO : !NamesOk cipher_valid}.

Lemma puts_all cap t s : zlen t + zlen s < cap -> buf_puts cap t s = t ++ s.
Proof. intros H. unfold buf_puts. replace (0 <? cap - zlen t) with true by lia. rewrite take_ge; [done|lia]. Qed.

(** The list is one of good names, and leaves room for a colon, as long as there is no error. *)
Definition mutated (st : bool * list Z) : Prop :=
  st.1 = false -> exists cs, Forall good_name cs /\ st.2 = join cs /\ zlen st.2 <= 125 /\ (cs = [] -> st.2 = []).

Lemma mutate_token_ok st t : mutated st -> mutated (mutate_token cipher_valid st t).
Proof.
  destruct st as [err l]. unfold mutated. cbn [fst snd]. intros H. unfold mutate_token.
  destruct (match t with c :: t0 => if c =? 63 then (true, t0) else (false, t) | [] => (false, t) end) as [opt tok].
  assert (Herr : err || negb opt = false -> err = false) by (by destruct err).
  destruct (negb _ && negb (cipher_valid _)) eqn:E1; [cbn [fst snd]; auto|].
  destruct (negb _ && _ && _ && _); [cbn [fst snd]; auto|].
  set (nm := if bool_decide (tok = literal "none") then literal "none" else literal (cipher_kt_name (name_of tok))).
  assert (Hnm : good_name nm).
  { unfold nm. case_bool_decide as En.
    - split; [done|]. repeat (constructor; [done|]). constructor.
    - apply valid_name_good. rewrite ?(bool_decide_eq_false_2 _ En) in E1. by destruct (cipher_valid (name_of tok)). }
  destruct (MAX_NCP_CIPHERS_LENGTH - zlen _ <? zlen nm + 2) eqn:El; [done|]. cbn [fst snd]. intros Ee. destruct (H Ee) as (cs & Hg & -> & Hl & Hnil).
  unfold MAX_NCP_CIPHERS_LENGTH in *. exists (cs ++ [nm]). destruct (0 <? zlen (join cs)) eqn:Ez.
  - rewrite (puts_all 127 (join cs) [COLON]) in * by (cbn [length]; lia). rewrite length_app in El. cbn [length] in El.
    rewrite puts_all by (rewrite length_app; cbn [length]; lia). assert (cs <> []) by (intros ->; done).
    rewrite join_snoc by done. rewrite <- app_assoc. split_and!. 1:{ apply Forall_app. split; [done|]. constructor; [done|]. constructor. } 1:done. 2:{ intros Ec. by destruct cs. }
    rewrite !length_app. cbn [length app]. lia.
  - assert (E0 : join cs = []) by (destruct (join cs); [done|cbn [length] in Ez; lia]). rewrite E0 in *.
    assert (cs = []) as ->.
    { destruct cs as [|c [|d cs]]; [done| |]; apply Forall_cons_1 in Hg as [[Hc _] _]; [done|]. cbn [join] in E0. by destruct c. }
    cbn [app length] in *. rewrite puts_all by (cbn [length]; lia). cbn [app]. split_and!; [by constructor|done|lia|done].
Qed.

Lemma mutate_list_ok l l' : mutate_ncp_cipher_list cipher_valid l = Some l' -> exists cs, list_of cs l'.
Proof.
  unfold mutate_ncp_cipher_list. assert (H : mutated (foldl (mutate_token cipher_valid) (false, []) (strtok_tokens COLON l))).
  { generalize (strtok_tokens COLON l). intros ts. assert (H0 : mutated (false, [])) by (intros _; by exists []). revert H0.
    generalize (false, @nil Z). induction ts as [|t ts IH]; intros st H0; cbn [foldl]; [done|]. by apply IH, mutate_token_ok. }
  destruct (foldl _ _ _) as [err nl]. destruct (negb err && (0 <? zlen nl)) eqn:E; [|done]. intros [= ->]. destruct err; [done|].
  destruct (H eq_refl) as (cs & Hg & Ej & Hl & Hnil). cbn [fst snd] in *. exists cs. split_and!; [|done|done|done].
  intros Ec. rewrite (Hnil Ec) in E. done.
Qed.
End mutate.

(** ** What the other end reads *)

Lemma early_other n ls : bool_decide (Forall (fun k => EQUALS ∉ k /\ ~ n `suffix_of` k) early_keys) = true -> Forall early ls ->
  Forall (fun l => EQUALS ∉ l.1 /\ EQUALS ∉ l.2 /\ ~ n `suffix_of` l.1) ls.
Proof.
  intros Hn%bool_decide_eq_true_1 H. eapply Forall_impl; [exact H|]. intros [k v] [Hk Hv]. rewrite Forall_forall in Hn. by destruct (Hn k Hk).
Qed.

Lemma info_shape o info cs : list_of cs (pi_ncp_ciphers o) -> push_peer_info o = Some info ->
  exists ls more, Forall early ls /\
    info = text_of ls ++ line (literal "IV_CIPHERS") (pi_ncp_ciphers o) ++ line (literal "IV_PROTO") (print_int (iv_proto_of o)) ++ more.
Proof.
  intros Hcs Hi. destruct (push_shape o info Hi) as [more ->]. assert (Hl : zlen (pi_ncp_ciphers o) <= 125) by apply Hcs.
  destruct (head_shape o Hl) as (ls & Hls & ->). exists ls, more. split; [done|]. by rewrite <- !app_assoc.
Qed.

Lemma announced_ciphers o info cs : list_of cs (pi_ncp_ciphers o) -> push_peer_info o = Some info ->
  extract_var_peer_info (Some info) (literal "IV_CIPHERS=") = Some (pi_ncp_ciphers o).
Proof.
  intros Hcs Hi. destruct (info_shape o info cs Hcs Hi) as (ls & more & Hls & ->).
  change (literal "IV_CIPHERS=") with (literal "IV_CIPHERS" ++ [EQUALS]). apply extract_line.
  - by apply (bool_decide_eq_true_1 _).
  - by apply (bool_decide_eq_true_1 _).
  - done.
  - intros Hin. by destruct (list_chars cs _ _ Hcs Hin).
  - apply early_other; [by vm_compute|done].
Qed.

Lemma announced_list o info cs : list_of cs (pi_ncp_ciphers o) -> push_peer_info o = Some info ->
  tls_peer_ncp_list (Some info) = pi_ncp_ciphers o /\ found_in (Some info) "IV_CIPHERS=" = true.
Proof.
  intros Hcs Hi. pose proof (announced_ciphers o info cs Hcs Hi) as E. unfold tls_peer_ncp_list. rewrite E. split; [done|].
  unfold extract_var_peer_info in E. rewrite Some_bind in E. unfold found_in. apply bool_decide_eq_true_2.
  destruct (strstr info _); [by eexists|done].
Qed.

Lemma scan_proto o rest : scan_int (print_int (iv_proto_of o) ++ NEWLINE :: rest) = Some (iv_proto_of o) /\ 0 < iv_proto_of o.
Proof. unfold iv_proto_of. by destruct (pi_dco o), (pi_pull o), (pi_mode_server o), (pi_data_epoch_supported o). Qed.

Lemma announced_proto o info cs : list_of cs (pi_ncp_ciphers o) -> push_peer_info o = Some info -> extract_iv_proto (Some info) = iv_proto_of o.
Proof.
  intros Hcs Hi. destruct (info_shape o info cs Hcs Hi) as (ls & more & Hls & ->). unfold extract_iv_proto, scan_var. rewrite Some_bind.
  change (literal "IV_PROTO=") with (literal "IV_PROTO" ++ [EQUALS]). unfold text_of.
  rewrite skip_lines; [|by apply (bool_decide_eq_true_1 _)|by apply (bool_decide_eq_true_1 _)|done|apply early_other; [by vm_compute|done]].
  rewrite skip_line; [|by apply (bool_decide_eq_true_1 _)| |by apply (bool_decide_eq_true_1 _)|by apply (bool_decide_eq_true_1 _)|done|by apply (bool_decide_eq_true_1 _)].
  2:{ intros Hin. by destruct (list_chars cs _ _ Hcs Hin). }
  assert (E : line (literal "IV_PROTO") (print_int (iv_proto_of o)) ++ more
              = (literal "IV_PROTO" ++ [EQUALS]) ++ print_int (iv_proto_of o) ++ NEWLINE :: more).
  { unfold line. rewrite <- !app_assoc. cbn [app]. by rewrite <- app_assoc. }
  rewrite E, strstr_hit, Some_bind, drop_app_length. destruct (scan_proto o more) as [-> Hp]. by replace (0 <? iv_proto_of o) with true by lia.
Qed.

(** What every end announces, and what depends on its options. *)
Lemma iv_proto_bits o :
  has_bit (iv_proto_of o) IV_PROTO_DATA_V2 = true /\ has_bit (iv_proto_of o) IV_PROTO_CC_EXIT_NOTIFY = true /\
  has_bit (iv_proto_of o) IV_PROTO_TLS_KEY_EXPORT = true /\ has_bit (iv_proto_of o) IV_PROTO_DYN_TLS_CRYPT = true /\
  has_bit (iv_proto_of o) IV_PROTO_NCP_P2P = negb (pi_mode_server o || pi_pull o) /\
  has_bit (iv_proto_of o) IV_PROTO_REQUEST_PUSH = pi_pull o /\
  has_bit (iv_proto_of o) IV_PROTO_DATA_EPOCH = pi_data_epoch_supported o.
Proof. unfold iv_proto_of. by destruct (pi_dco o), (pi_pull o), (pi_mode_server o), (pi_data_epoch_supported o). Qed.

(** ** Flags *)

Lemma has_bit_testbit f k : 0 <= k -> has_bit f (Z.shiftl 1 k) = Z.testbit f k.
Proof.
  intros Hk. unfold has_bit. rewrite Z.shiftl_1_l. destruct (Z.testbit f k) eqn:E.
  - destruct (Z.land f (2 ^ k) =? 0) eqn:E0; [|done]. apply Z.eqb_eq in E0. apply (f_equal (fun z => Z.testbit z k)) in E0.
    rewrite Z.land_spec, Z.pow2_bits_true, E, Z.bits_0 in E0 by done. done.
  - replace (Z.land f (2 ^ k)) with 0; [done|]. symmetry. apply Z.bits_inj'. intros n Hn. rewrite Z.land_spec, Z.pow2_bits_eqb, Z.bits_0 by done.
    destruct (Z.eqb_spec k n) as [->|]; [by rewrite E|apply andb_false_r].
Qed.

Lemma has_bit_lor f j k : 0 <= j -> 0 <= k -> has_bit (Z.lor f (Z.shiftl 1 j)) (Z.shiftl 1 k) = has_bit f (Z.shiftl 1 k) || (j =? k).
Proof. intros Hj Hk. by rewrite !has_bit_testbit, Z.lor_spec, Z.shiftl_1_l, Z.pow2_bits_eqb by done. Qed.

Lemma has_bit_ldiff f j k : 0 <= j -> 0 <= k -> has_bit (Z.ldiff f (Z.shiftl 1 j)) (Z.shiftl 1 k) = has_bit f (Z.shiftl 1 k) && negb (j =? k).
Proof. intros Hj Hk. by rewrite !has_bit_testbit, Z.ldiff_spec, Z.shiftl_1_l, Z.pow2_bits_eqb by done. Qed.

(** ** Both ends come to the same *)

Section agree.
Context `{CL : CryptoLib} `{ML : ModeLib}.

(** An end that is neither a server nor pulls from one. *)
Definition p2p_end (o : peer_info_options) (cs : list (list Z)) : Prop :=
  pi_pull o = false /\ pi_mode_server o = false /\ list_of cs (pi_ncp_ciphers o).

(** What an end has negotiated. *)
Definition p2p_agreed (exporter : option (list Z)) (epoch : bool) (st : p2p_state) : Prop :=
  pp_use_peer_id st = true /\
  pp_peer_id st = match exporter with Some [a; b; c] => Z.shiftl a 16 + Z.shiftl b 8 + c | _ => 7762030 end /\
  has_bit (pp_crypto_flags st) CO_USE_TLS_KEY_MATERIAL_EXPORT = true /\
  has_bit (pp_crypto_flags st) CO_USE_CC_EXIT_NOTIFY = true /\
  has_bit (pp_crypto_flags st) CO_USE_DYNAMIC_TLS_CRYPT = true /\
  has_bit (pp_crypto_flags st) CO_EPOCH_DATA_KEY_FORMAT = epoch.

(** One end, given what the other one has sent. *)
Lemma p2p_one_end server (config : list Z) st other cs info own_epoch exporter common :
  p2p_end other cs -> push_peer_info other = Some info -> get_p2p_ncp_cipher server config (Some info) = common ->
  p2p_agreed exporter (own_epoch && pi_data_epoch_supported other && match common with Some c => cipher_kt_mode_aead (name_of c) | None => false end)
    (p2p_mode_ncp server config st (Some info) own_epoch exporter).
Proof.
  intros (Hp & Hs & Hcs) Hi E. unfold p2p_mode_ncp, p2p_ncp_set_options. rewrite E, (announced_proto other info cs) by done.
  destruct (iv_proto_bits other) as (-> & -> & -> & -> & -> & _ & ->). rewrite Hp, Hs. cbn [orb negb].
  unfold p2p_agreed, CO_USE_TLS_KEY_MATERIAL_EXPORT, CO_USE_CC_EXIT_NOTIFY, CO_USE_DYNAMIC_TLS_CRYPT, CO_EPOCH_DATA_KEY_FORMAT.
  cbn [pp_use_peer_id pp_peer_id pp_crypto_flags]. split; [done|]. split; [done|].
  destruct (own_epoch && pi_data_epoch_supported other && _);
    rewrite !has_bit_lor, ?has_bit_ldiff, ?has_bit_lor by done; cbn [Z.eqb Pos.eqb negb andb orb];
    rewrite ?orb_true_r, ?andb_false_r, ?andb_true_r, ?orb_false_r; split_and!; done.
Qed.

Lemma p2p_cipher (server : bool) config cfg other ocs info :
  list_of cfg config -> list_of ocs (pi_ncp_ciphers other) -> push_peer_info other = Some info ->
  get_p2p_ncp_cipher server config (Some info) = if server then first_common cfg ocs else first_common ocs cfg.
Proof.
  intros Hc Ho Hi. unfold get_p2p_ncp_cipher. rewrite (announced_ciphers other info ocs), Some_bind by done. by destruct server; apply first_in_list.
Qed.

(** C24: Two ends that negotiate without a server, each with what the other one has sent of itself,
    find the same cipher - the first of the TLS server's list that the TLS client has, or none
    when they have none in common - although only one of them puts its own list first; and they
    agree on the peer-id and on each of the flags: the exporter, the exit notification and the
    dynamic [tls-crypt] are in use, the epoch format is exactly if both have it and the cipher
    has a tag. *)
Theorem p2p_negotiation_agrees server client scs ccs infoS infoC stS stC exporter :
  p2p_end server scs -> p2p_end client ccs -> push_peer_info server = Some infoS -> push_peer_info client = Some infoC ->
  let epoch := pi_data_epoch_supported server && pi_data_epoch_supported client
               && match first_common scs ccs with Some c => cipher_kt_mode_aead (name_of c) | None => false end in
  get_p2p_ncp_cipher true (pi_ncp_ciphers server) (Some infoC) = first_common scs ccs /\
  get_p2p_ncp_cipher false (pi_ncp_ciphers client) (Some infoS) = first_common scs ccs /\
  p2p_agreed exporter epoch (p2p_mode_ncp true (pi_ncp_ciphers server) stS (Some infoC) (pi_data_epoch_supported server) exporter) /\
  p2p_agreed exporter epoch (p2p_mode_ncp false (pi_ncp_ciphers client) stC (Some infoS) (pi_data_epoch_supported client) exporter).
Proof.
  intros HS HC HiS HiC epoch.
  assert (ES : get_p2p_ncp_cipher true (pi_ncp_ciphers server) (Some infoC) = first_common scs ccs).
  { apply (p2p_cipher true _ scs client ccs); [apply HS|apply HC|done]. }
  assert (EC : get_p2p_ncp_cipher false (pi_ncp_ciphers client) (Some infoS) = first_common scs ccs).
  { apply (p2p_cipher false _ ccs server scs); [apply HC|apply HS|done]. }
  split_and!; [done|done|by eapply p2p_one_end|]. unfold epoch. rewrite (andb_comm (pi_data_epoch_supported server)). by eapply p2p_one_end.
Qed.

(** The server looks at the client's list alone, whatever cipher the client's options name. *)
Lemma best_common slist scs client ccs info remote :
  list_of scs slist -> list_of ccs (pi_ncp_ciphers client) -> push_peer_info client = Some info ->
  ncp_get_best_cipher slist (Some info) remote = first_common scs ccs.
Proof.
  intros Hs Hc Hi. unfold ncp_get_best_cipher. destruct (announced_list client info ccs Hc Hi) as [-> ->].
  rewrite <- (first_in_list scs slist ccs (pi_ncp_ciphers client)) by done. unfold first_token. apply find_ext.
  intros x Hx. destruct (list_tokens scs slist Hs) as [Ht _]. rewrite Ht in Hx. destruct Hs as (_ & Hg & _).
  rewrite Forall_forall in Hg. destruct (Hg x Hx) as [Hne _]. rewrite bool_decide_eq_false_2; [by rewrite orb_false_r|]. by destruct remote.
Qed.

Lemma check_member conf o c cs : list_of cs (no_ncp_ciphers o) ->
  check_session_cipher false conf (set_ciphername o c) =
  if no_enable_ncp_fallback o && bool_decide (c = conf) || bool_decide (c ∈ cs) then (true, set_ciphername o c) else (false, set_ciphername o conf).
Proof.
  intros H. unfold check_session_cipher. cbn [set_ciphername no_enable_ncp_fallback no_ciphername no_ncp_ciphers negb andb].
  rewrite (item_in_list cs) by done. by destruct (no_enable_ncp_fallback o && bool_decide (c = conf)), (bool_decide (c ∈ cs)).
Qed.

(** C25: A server that has no keys yet gives a client the first cipher of its own list that the
    client has announced, with the epoch format added if both have it and the cipher has a tag,
    and the client takes the cipher when it is pushed; when there is none in common the client
    is not let in and the server's cipher stays.  A cipher that the client has not announced,
    and that is not its fallback, the client does not take. *)
Theorem server_choice_accepted client ccs info caps scs remote data_epoch oc conf :
  list_of ccs (pi_ncp_ciphers client) -> push_peer_info client = Some info ->
  list_of scs (no_ncp_ciphers (cc_options caps)) -> no_ncp_ciphers oc = pi_ncp_ciphers client ->
  (let '(ok, caps') := multi_client_set_protocol_options caps (Some info) remote false data_epoch in
   let old := no_imported_protocol_flags (cc_options caps) in
   let new := no_imported_protocol_flags (cc_options caps') in
   cc_use_peer_id caps' = true /\ cc_push_request_received caps' = pi_pull client || cc_push_request_received caps /\
   match first_common scs ccs with
   | Some c =>
       ok = true /\ no_ciphername (cc_options caps') = c /\
       has_bit new CO_EPOCH_DATA_KEY_FORMAT
       = has_bit old CO_EPOCH_DATA_KEY_FORMAT || data_epoch && pi_data_epoch_supported client && cipher_kt_mode_aead (name_of c) /\
       check_session_cipher false conf (set_ciphername oc c) = (true, set_ciphername oc c)
   | None => ok = false /\ no_ciphername (cc_options caps') = no_ciphername (cc_options caps)
   end) /\
  (forall c, c ∉ ccs -> no_enable_ncp_fallback oc && bool_decide (c = conf) = false ->
     check_session_cipher false conf (set_ciphername oc c) = (false, set_ciphername oc conf)).
Proof.
  intros Hc Hi Hs Ho. assert (Ho' : list_of ccs (no_ncp_ciphers oc)) by by rewrite Ho. split.
  - unfold multi_client_set_protocol_options. rewrite (announced_proto client info ccs) by done.
    destruct (iv_proto_bits client) as (-> & -> & -> & -> & _ & -> & ->). cbn [negb andb orb set_protocol no_ncp_ciphers].
    rewrite (best_common _ scs client ccs) by done. pose proof (first_common_spec scs ccs) as Hf. destruct (first_common scs ccs) as [c|].
    + destruct Hf as (before & after & _ & Hin & _). cbn [cc_use_peer_id cc_push_request_received cc_options set_ciphername set_protocol no_ciphername no_imported_protocol_flags].
      rewrite (check_member conf oc c ccs), (bool_decide_eq_true_2 (c ∈ ccs)), orb_true_r by done. split_and!; [done|done|done|done| |done].
      unfold CO_USE_TLS_KEY_MATERIAL_EXPORT, CO_USE_CC_EXIT_NOTIFY, CO_USE_DYNAMIC_TLS_CRYPT, CO_EPOCH_DATA_KEY_FORMAT.
      destruct (data_epoch && pi_data_epoch_supported client && _); rewrite !has_bit_lor by done; cbn [Z.eqb Pos.eqb]; by rewrite ?orb_false_r.
    + destruct (announced_list client info ccs Hc Hi) as [-> _]. pose proof (list_not_empty _ _ Hc) as Hne.
      replace (0 <? zlen (pi_ncp_ciphers client)) with true by (destruct (pi_ncp_ciphers client); [done|cbn [length]; lia]). done.
  - intros c Hc' Hfb. rewrite (check_member conf oc c ccs), Hfb, (bool_decide_eq_false_2 (c ∈ ccs)) by done. done.
Qed.
End agree.

(** ** The unit test of the source, and runs of both kinds *)

Module NcpDemo.
(** A library with the ciphers of the unit test; the names are the only thing that is used. *)
Definition aead_names : list string := ["AES-256-GCM"; "AES-128-GCM"; "CHACHA20-POLY1305"]%string.
Definition cbc_names : list string := ["AES-128-CBC"; "BF-CBC"]%string.
Definition demo_valid (name : string) : bool :=
  bool_decide (name ∈ ["id-aes128-GCM"; "id-aes256-GCM"; "AES-128-CCM"]%string ++ aead_names ++ cbc_names).

#[local] Instance names_crypto : CryptoLib := {
  hmac_sha256 _ _ := [];
  cipher_kt_iv_size _ := 12;
  cipher_kt_key_size _ := 32;
  cipher_kt_block_size _ := 1;
  cipher_kt_mode_aead name := bool_decide (name ∈ ["id-aes128-GCM"; "id-aes256-GCM"]%string ++ aead_names);
  cipher_kt_name name := if bool_decide (name = "id-aes128-GCM") then "AES-128-GCM"
                         else if bool_decide (name = "id-aes256-GCM") then "AES-256-GCM" else name;
  md_kt_size _ := 32;
  aead_seal _ _ _ _ text := (text, []);
  aead_open _ _ _ _ text _ := Some text
}.
#[local] Instance names_modes : ModeLib := {
  md_hmac _ _ _ := [];
  cipher_kt_mode_cbc name := bool_decide (name ∈ cbc_names);
  cipher_kt_mode_ofb_cfb _ := false;
  cipher_stream := unit;
  cipher_ctx_reset _ _ _ _ := None;
  cipher_ctx_update _ _ := None;
  cipher_ctx_final _ := None
}.

#[local] Instance good_name_dec c : Decision (good_name c).
Proof. unfold good_name. apply _. Defined.

#[local] Instance names_ok : NamesOk demo_valid.
Proof.
  intros name Hn. apply bool_decide_eq_true_1 in Hn. revert name Hn. apply Forall_forall. by apply (bool_decide_eq_true_1 _).
Qed.

#[local] Instance list_of_dec cs l : Decision (list_of cs l).
Proof. unfold list_of. apply _. Defined.

Definition mutate (l : string) : option (list Z) := mutate_ncp_cipher_list demo_valid (literal l).
Definition gives (l l' : string) : Prop := mutate l = Some (literal l').

(** [test_check_ncp_ciphers_list] *)
Example list_none : gives "none" "none". Proof. reflexivity. Qed.
Example list_gcm_none : gives "AES-256-GCM:none" "AES-256-GCM:none". Proof. reflexivity. Qed.
Example list_bf_chacha : gives "BF-CBC:CHACHA20-POLY1305" "BF-CBC:CHACHA20-POLY1305". Proof. reflexivity. Qed.
Example list_optional : gives "AES-256-GCM:?vollbit:AES-128-GCM" "AES-256-GCM:AES-128-GCM". Proof. reflexivity. Qed.
Example list_all_optional : gives "?AES-256-GCM:?AES-128-GCM" "AES-256-GCM:AES-128-GCM". Proof. reflexivity. Qed.
Example list_nothing_left : mutate "?kugelfisch:?grasshopper" = None. Proof. reflexivity. Qed.
Example list_invalid_stays : mutate "Vollbit:Littlebit:AES-128-CBC:BF-CBC:?nixbit" = None. Proof. reflexivity. Qed.
Example list_no_ccm : mutate "AES-256-GCM:AES-128-CCM" = None. Proof. reflexivity. Qed.
Example list_optional_ccm : gives "AES-256-GCM:?AES-128-CCM:AES-128-GCM" "AES-256-GCM:AES-128-GCM". Proof. reflexivity. Qed.
Example list_unknown : mutate "AES-256-GCM:vollbit" = None. Proof. reflexivity. Qed.
Example list_empty : mutate "" = None. Proof. reflexivity. Qed.
Example list_other_names : gives "id-aes128-GCM:id-aes256-GCM" "AES-128-GCM:AES-256-GCM". Proof. reflexivity. Qed.

(** The same name [n] times, with colons between. *)
Definition chachas (n : nat) : list Z := join (replicate n (literal "CHACHA20-POLY1305")).

Example list_long : mutate_ncp_cipher_list demo_valid (chachas 7) = Some (chachas 7) /\ zlen (chachas 7) = 125.
Proof. by split. Qed.
Example list_longer : mutate_ncp_cipher_list demo_valid (chachas 7 ++ [COLON]) = Some (chachas 7). Proof. reflexivity. Qed.

(** A list of 126 is over the limit, which the message calls 127. *)
Example list_126 : let l := chachas 6 ++ literal ":AES-128-GCM:BF-CBC" in zlen l = 126 /\ mutate_ncp_cipher_list demo_valid l = None.
Proof. by split. Qed.

(** [test_extract_client_ciphers] *)
Definition info_of (ls : list string) : list Z := take (length (concat ((fun l => literal l ++ [NEWLINE]) <$> ls)) - 1) (concat ((fun l => literal l ++ [NEWLINE]) <$> ls)).

Example client_ncp2 : let i := Some (info_of ["foo=bar"; "IV_foo=y"; "IV_NCP=2"]%string) in
  tls_peer_ncp_list i = literal "AES-256-GCM:AES-128-GCM" /\ tls_peer_supports_ncp i = true.
Proof. by vm_compute. Qed.
Example client_list : let i := Some (info_of ["IV_NCP=2"; "IV_CIPHERS=BF-CBC:FOO-BAR"; "IV_BAR=7"]%string) in
  tls_peer_ncp_list i = literal "BF-CBC:FOO-BAR" /\ tls_peer_supports_ncp i = true.
Proof. by vm_compute. Qed.
Example client_old : let i := Some (info_of ["IV_YOLO=NO"; "IV_BAR=7"]%string) in tls_peer_ncp_list i = [] /\ tls_peer_supports_ncp i = false.
Proof. by vm_compute. Qed.
Example client_silent : tls_peer_ncp_list None = [] /\ tls_peer_supports_ncp None = false.
Proof. done. Qed.

(** [test_poor_man] and [test_ncp_best] *)
Definition best (l : string) (i : option (list string)) (c : option string) : option (list Z) :=
  ncp_get_best_cipher (literal l) (info_of <$> i) (literal <$> c).
Definition with_bf : string := "CHACHA20_POLY1305:AES-128-GCM:BF-CBC:none".

Example poor_no : best "CHACHA20_POLY1305:AES-128-GCM" (Some ["IV_YOLO=NO"; "IV_BAR=7"]%string) (Some "BF-CBC") = None. Proof. reflexivity. Qed.
Example poor_bf : best with_bf (Some ["IV_YOLO=NO"; "IV_BAR=7"]%string) (Some "BF-CBC") = Some (literal "BF-CBC"). Proof. reflexivity. Qed.
Example poor_old_ncp : best with_bf (Some ["IV_NCP=1"; "IV_BAR=7"]%string) (Some "AES-128-GCM") = Some (literal "AES-128-GCM"). Proof. reflexivity. Qed.
Example poor_none : best with_bf None (Some "none") = Some (literal "none"). Proof. reflexivity. Qed.
Example poor_unknown : best "CHACHA20_POLY1305:AES-128-GCM" None None = None. Proof. reflexivity. Qed.
Example best_own : best "CHACHA20_POLY1305:AES-128-GCM:AES-256-GCM" (Some ["IV_NCP=2"; "IV_BAR=7"]%string) (Some "CHACHA20_POLY1305")
  = Some (literal "CHACHA20_POLY1305").
Proof. reflexivity. Qed.
Example best_list_only : best "CHACHA20_POLY1305:AES-128-GCM:AES-256-GCM" (Some ["IV_FOO=7"; "IV_CIPHERS=AES-256-GCM"; "IV_NCP=2"]%string) (Some "AES-256-CBC")
  = Some (literal "AES-256-GCM").
Proof. reflexivity. Qed.

(** [test_ncp_default] *)
Definition setdefault (l : option string) : option (list Z * list Z) :=
  options_postprocess_setdefault_ncpciphers demo_valid None (literal <$> l).

Example default_all : setdefault None = Some (literal "AES-256-GCM:AES-128-GCM:CHACHA20-POLY1305", literal "DEFAULT"). Proof. reflexivity. Qed.
Example default_middle : setdefault (Some "BF-CBC:DEFAULT:AES-128-CBC:AES-256-CBC")
  = Some (literal "BF-CBC:AES-256-GCM:AES-128-GCM:CHACHA20-POLY1305:AES-128-CBC:AES-256-CBC", literal "BF-CBC:DEFAULT:AES-128-CBC:AES-256-CBC").
Proof. reflexivity. Qed.
Example default_lonely : setdefault (Some "DEFAULT") = Some (literal "AES-256-GCM:AES-128-GCM:CHACHA20-POLY1305", literal "DEFAULT"). Proof. reflexivity. Qed.

(** What is replaced is the first place where the text is, which need not be the item. *)
Example default_elsewhere : setdefault (Some "?NODEFAULT:DEFAULT")
  = Some (literal "?NOAES-256-GCM:AES-128-GCM:CHACHA20-POLY1305:DEFAULT", literal "?NODEFAULT:DEFAULT").
Proof. reflexivity. Qed.

(** ** Two ends *)

Definition end_of (pull epoch : bool) (ciphers : string) : peer_info_options :=
  mk_pio 2 false pull false 1500 (literal ciphers) epoch (Some (false, true)) None [] [] [literal "IV_GUI_VER=demo"].

Definition sent (o : peer_info_options) : list Z := default [] (push_peer_info o).

Example sent_example : sent (end_of false true "AES-128-GCM")
  = concat ((fun l => literal l ++ [NEWLINE]) <$>
      ["IV_VER=2.7_master"; "IV_PLAT=android"; "IV_TCPNL=1"; "IV_CIPHERS=AES-128-GCM"; "IV_PROTO=7850"; "IV_LZO_STUB=1"; "IV_COMP_STUB=1"; "IV_COMP_STUBv2=1"; "IV_GUI_VER=demo"]%string).
Proof. by vm_compute. Qed.

Definition names (l : list string) : list (list Z) := literal <$> l.
Definition gcm_first : peer_info_options := end_of false true "AES-256-GCM:AES-128-GCM".
Definition bf_first : peer_info_options := end_of false true "BF-CBC:AES-128-GCM:AES-256-GCM".
Definition fresh : p2p_state := mk_p2p false 0 0.

Lemma p2p_negotiation_agrees_witness :
  get_p2p_ncp_cipher true (pi_ncp_ciphers bf_first) (Some (sent gcm_first)) = Some (literal "AES-128-GCM") /\
  get_p2p_ncp_cipher false (pi_ncp_ciphers gcm_first) (Some (sent bf_first)) = Some (literal "AES-128-GCM") /\
  p2p_agreed (Some [1; 2; 3]) true (p2p_mode_ncp true (pi_ncp_ciphers bf_first) fresh (Some (sent gcm_first)) true (Some [1; 2; 3])) /\
  p2p_agreed (Some [1; 2; 3]) true (p2p_mode_ncp false (pi_ncp_ciphers gcm_first) fresh (Some (sent bf_first)) true (Some [1; 2; 3])).
Proof.
  assert (E : first_common (names ["BF-CBC"; "AES-128-GCM"; "AES-256-GCM"]) (names ["AES-256-GCM"; "AES-128-GCM"]) = Some (literal "AES-128-GCM")) by by vm_compute.
  destruct (p2p_negotiation_agrees bf_first gcm_first (names ["BF-CBC"; "AES-128-GCM"; "AES-256-GCM"]) (names ["AES-256-GCM"; "AES-128-GCM"])
           (sent bf_first) (sent gcm_first) fresh fresh (Some [1; 2; 3])) as (H1 & H2 & H3 & H4).
  - split_and!; [done|done|]. by apply (bool_decide_eq_true_1 _).
  - split_and!; [done|done|]. by apply (bool_decide_eq_true_1 _).
  - by vm_compute.
  - by vm_compute.
  - rewrite E in H1, H2, H3, H4. split_and!; [exact H1|exact H2|exact H3|exact H4].
Defined.

Definition client : peer_info_options := end_of true true "AES-256-GCM:AES-128-GCM".
Definition options_with (ciphers : string) : ncp_options := mk_no (literal ciphers) (literal "BF-CBC") false false false false 0.
Definition server_side (ciphers : string) : client_caps := mk_caps false false (options_with ciphers).

Lemma server_choice_accepted_witness :
  (let '(ok, caps') := multi_client_set_protocol_options (server_side "BF-CBC:AES-128-GCM") (Some (sent client)) (Some (literal "BF-CBC")) false true in
   cc_use_peer_id caps' = true /\ cc_push_request_received caps' = true /\
   ok = true /\ no_ciphername (cc_options caps') = literal "AES-128-GCM" /\
   has_bit (no_imported_protocol_flags (cc_options caps')) CO_EPOCH_DATA_KEY_FORMAT = true /\
   check_session_cipher false [] (set_ciphername (options_with "AES-256-GCM:AES-128-GCM") (literal "AES-128-GCM"))
   = (true, set_ciphername (options_with "AES-256-GCM:AES-128-GCM") (literal "AES-128-GCM"))) /\
  (forall c, c ∉ names ["AES-256-GCM"; "AES-128-GCM"] -> false && bool_decide (c = []) = false ->
     check_session_cipher false [] (set_ciphername (options_with "AES-256-GCM:AES-128-GCM") c)
     = (false, set_ciphername (options_with "AES-256-GCM:AES-128-GCM") [])).
Proof.
  assert (E : first_common (names ["BF-CBC"; "AES-128-GCM"]) (names ["AES-256-GCM"; "AES-128-GCM"]) = Some (literal "AES-128-GCM")) by by vm_compute.
  pose proof (fun H1 H2 H3 H4 => server_choice_accepted client (names ["AES-256-GCM"; "AES-128-GCM"]) (sent client) (server_side "BF-CBC:AES-128-GCM")
           (names ["BF-CBC"; "AES-128-GCM"]) (Some (literal "BF-CBC")) true (options_with "AES-256-GCM:AES-128-GCM") [] H1 H2 H3 H4) as H.
  rewrite E in H. apply H.
  - by apply (bool_decide_eq_true_1 _).
  - by vm_compute.
  - by apply (bool_decide_eq_true_1 _).
  - done.
Defined.
End NcpDemo.
