(* ===== verification/TlsCrypt.v ===== *)
(** * Control channel encryption: [tls_crypt.c]

    [tls-crypt] encrypts and authenticates control packets with a key that is shared in
    advance; with [tls-crypt-v2] each client has a key of its own and sends it along,
    wrapped under a key of the server.  The renegotiations of a session may use a key that
    is derived from the session.

    The tag of a packet is also the IV it is encrypted with. *)
From S2P Require Import Prelude Integers Buffer Frame PacketId EpochKeys DataChannel CryptoV1 Reliable Control KeyExpansion.

Definition TLS_CRYPT_TAG_SIZE : Z := 256 / 8.
Definition TLS_CRYPT_PID_SIZE : Z := 4 + 4.
Definition TLS_CRYPT_BLOCK_SIZE : Z := 128 / 8.
Definition TLS_CRYPT_OFF_PID : Z := 1 + SID_SIZE.
Definition TLS_CRYPT_OFF_TAG : Z := TLS_CRYPT_OFF_PID + TLS_CRYPT_PID_SIZE.
Definition TLS_CRYPT_OFF_CT : Z := TLS_CRYPT_OFF_TAG + TLS_CRYPT_TAG_SIZE.
Definition TLS_CRYPT_V2_CLIENT_KEY_LEN : Z := 2048 / 8.
Definition TLS_CRYPT_V2_MAX_METADATA_LEN : Z :=
  TLS_CRYPT_V2_MAX_WKC_LEN - (TLS_CRYPT_V2_CLIENT_KEY_LEN + TLS_CRYPT_TAG_SIZE + 2).
Definition TLS_CRYPT_METADATA_TYPE_TIMESTAMP : Z := 1.
Definition EXPORT_DYNAMIC_TLS_CRYPT_LABEL : string := "EXPORTER-OpenVPN-dynamic-tls-crypt".

Definition tls_crypt_kt : key_type := mk_kt "AES-256-CTR" "SHA256".

(** The bytes of [key2.keys]. *)
Definition key2_bytes (k : key2) : list Z :=
  mat_cipher (keys0 k) ++ mat_hmac (keys0 k) ++ mat_cipher (keys1 k) ++ mat_hmac (keys1 k).

Definition key2_zero : key2 := key2_of_bytes (zeros KEY2_SIZE).

Definition xor_material (k other : key_material) : key_material :=
  mk_material (zip_with Z.lxor (mat_cipher k) (mat_cipher other)) (zip_with Z.lxor (mat_hmac k) (mat_hmac other)).

Definition xor_key2 (key other : key2) : key2 :=
  mk_key2 (xor_material (keys0 key) (keys0 other)) (xor_material (keys1 key) (keys1 other)).

(** ** Wrapping contexts *)

Inductive tls_wrap_mode := TLS_WRAP_NONE | TLS_WRAP_AUTH | TLS_WRAP_CRYPT.

(** [tw_ignore_packet_id] and [tw_force_cookie] are the flags [CO_IGNORE_PACKET_ID] and
    [CO_FORCE_TLSCRYPTV2_COOKIE] of [opt]; [tw_wkc] is [NULL] or points to the client key. *)
Record tls_wrap_ctx := mk_wrap {
  tw_mode : tls_wrap_mode;
  tw_opt : crypto_options;
  tw_ignore_packet_id : bool;
  tw_force_cookie : bool;
  tw_work : buffer;
  tw_server_key : key_ctx;
  tw_wkc : option buffer;
  tw_metadata : buffer;
  tw_cleanup_key_ctx : bool;
  tw_original_wrap_keydata : key2
}.

Definition set_tw_opt (c : tls_wrap_ctx) (o : crypto_options) : tls_wrap_ctx :=
  mk_wrap (tw_mode c) o (tw_ignore_packet_id c) (tw_force_cookie c) (tw_work c) (tw_server_key c) (tw_wkc c)
    (tw_metadata c) (tw_cleanup_key_ctx c) (tw_original_wrap_keydata c).
Definition set_tw_work (c : tls_wrap_ctx) (b : buffer) : tls_wrap_ctx :=
  mk_wrap (tw_mode c) (tw_opt c) (tw_ignore_packet_id c) (tw_force_cookie c) b (tw_server_key c) (tw_wkc c)
    (tw_metadata c) (tw_cleanup_key_ctx c) (tw_original_wrap_keydata c).
Definition set_tw_client_key (c : tls_wrap_ctx) (md : buffer) (k : key2) : tls_wrap_ctx :=
  mk_wrap (tw_mode c) (tw_opt c) (tw_ignore_packet_id c) (tw_force_cookie c) (tw_work c) (tw_server_key c) (tw_wkc c)
    md (tw_cleanup_key_ctx c) k.

Section tls_crypt.
Context `{CryptoLib} `{ModeLib}.

(** ** Packets *)

(** What the library makes of the content of [src], behind the content of [dst]; what
    [cipher_ctx_final] gives, nothing in this mode, goes to its beginning. *)
Definition crypt_into (st : cipher_stream) (src dst : buffer) : option buffer :=
  bend ← buf_bend dst;
  '(out, st) ← cipher_ctx_update st (content src);
  '(ok, dst) ← Some (buf_inc_len (poke dst bend out) (zlen out));
  ASSERT (ok : bool);;
  out ← cipher_ctx_final st;
  '(ok, dst) ← Some (buf_inc_len (poke dst (b_offset dst) out) (zlen out));
  ASSERT (ok : bool);; Some dst.

Definition tls_crypt_wrap (now : Z) (src dst : buffer) (opt : crypto_options)
  : option (bool * buffer * crypto_options) :=
  let ctx := co_encrypt opt in
  '(name, key) ← kc_cipher ctx;
  '(digest, hkey) ← kc_hmac ctx;
  ASSERT (packet_id_initialized (co_packet_id opt));;
  ASSERT (md_kt_size digest =? 256 / 8);;
  '(ok, snd', dst) ← Some (packet_id_write now (send (co_packet_id opt)) dst true false);
  let opt := set_send opt snd' in
  if negb (ok : bool) then Some (false, buf_drop dst, opt)
  else if negb (buf_safe dst (buf_len src + TLS_CRYPT_BLOCK_SIZE + TLS_CRYPT_TAG_SIZE))
  then Some (false, buf_drop dst, opt)
  else
    let tag := md_hmac digest hkey (content dst ++ content src) in
    '(p, dst) ← Some (buf_write_alloc dst TLS_CRYPT_TAG_SIZE);
    p ← p;
    let dst := poke dst p tag in
    st ← cipher_ctx_reset true name key (slice 0 (cipher_kt_iv_size name) tag);
    dst ← crypt_into st src dst;
    Some (true, dst, opt).

(** The packet's tag is that of its header and of what has been decrypted. *)
Definition tls_crypt_authentic (digest : string) (hkey : list Z) (src dst : buffer) : bool :=
  bool_decide (slice (b_offset src + TLS_CRYPT_OFF_TAG) TLS_CRYPT_TAG_SIZE (mem src) =
               slice 0 TLS_CRYPT_TAG_SIZE
                 (md_hmac digest hkey (slice (b_offset src) TLS_CRYPT_OFF_TAG (mem src) ++ content dst))).

(** [None] in the result: the library refuses. *)
Definition tls_crypt_decrypt (name : string) (key : list Z) (src dst : buffer) : option (option buffer) :=
  let p := b_offset src in
  match cipher_ctx_reset false name key (slice (p + TLS_CRYPT_OFF_TAG) (cipher_kt_iv_size name) (mem src)) with
  | None => Some None
  | Some st =>
      match cipher_ctx_update st (slice (p + TLS_CRYPT_OFF_CT) (buf_len src - TLS_CRYPT_OFF_CT) (mem src)) with
      | None => Some None
      | Some (out, st) =>
          '(ok, dst) ← Some (buf_inc_len (poke dst (b_offset dst) out) (zlen out));
          ASSERT (ok : bool);;
          match cipher_ctx_final st with
          | None => Some None
          | Some out =>
              '(ok, dst) ← Some (buf_inc_len (poke dst (b_offset dst) out) (zlen out));
              ASSERT (ok : bool);; Some (Some dst)
          end
      end
  end.

(** [None] in the result: dropped; the length of [dst] is 0 then. *)
Definition tls_crypt_unwrap (now : Z) (src dst : buffer) (opt : crypto_options) (ignore_packet_id : bool)
  : option (option buffer * crypto_options) :=
  let ctx := co_decrypt opt in
  '(name, key) ← kc_cipher ctx;
  ASSERT (packet_id_initialized (co_packet_id opt) || ignore_packet_id);;
  if buf_len src <? TLS_CRYPT_OFF_CT then Some (None, opt)
  else if negb (buf_safe dst (buf_len src - TLS_CRYPT_OFF_CT + TLS_CRYPT_BLOCK_SIZE)) then Some (None, opt)
  else
    plain ← tls_crypt_decrypt name key src dst;
    match plain with
    | None => Some (None, opt)
    | Some dst =>
        '(digest, hkey) ← kc_hmac ctx;
        if negb (tls_crypt_authentic digest hkey src dst) then Some (None, opt)
        else if ignore_packet_id then Some (Some dst, opt)
        else
          '(ok, tmp) ← Some (buf_advance src TLS_CRYPT_OFF_PID);
          ASSERT (ok : bool);;
          '(ok, pin, _) ← Some (packet_id_read tmp true);
          ASSERT (ok : bool);;
          '(ok, opt) ← crypto_check_replay now opt pin 0;
          Some (if ok : bool then Some dst else None, opt)
    end.

(** ** The keys of clients *)

Definition tls_crypt_v2_load_client_key (co : crypto_options) (k2 : key2) (tls_server : bool) : option crypto_options :=
  ASSERT (cipher_defined (kt_cipher tls_crypt_kt) && md_defined (kt_digest tls_crypt_kt));;
  init_key_ctx_bi co k2 (if tls_server then KEY_DIRECTION_NORMAL else KEY_DIRECTION_INVERSE) tls_crypt_kt.

(** [server_key] without a cipher is a [NULL] that the library is given. *)
Definition tls_crypt_v2_wrap_client_key (wkc : buffer) (src_key : key2) (src_metadata : buffer) (server_key : key_ctx)
  : option (bool * buffer) :=
  '(name, key) ← kc_cipher server_key;
  '(digest, hkey) ← kc_hmac server_key;
  work ← alloc_buf (TLS_CRYPT_V2_MAX_WKC_LEN + cipher_kt_block_size name);
  let '(tag_ptr, work) := buf_write_alloc work TLS_CRYPT_TAG_SIZE in
  match tag_ptr with
  | None => Some (false, wkc)
  | Some p =>
      let data_len := buf_len src_metadata + KEY2_SIZE + 2 in
      let net_len := be_bytes 2 (data_len + TLS_CRYPT_TAG_SIZE) in
      let tag := md_hmac digest hkey (net_len ++ key2_bytes src_key ++ content src_metadata) in
      let work := poke work p tag in
      st ← cipher_ctx_reset true name key (slice 0 (cipher_kt_iv_size name) tag);
      if buf_forward_capacity work <? data_len + cipher_kt_block_size name then Some (false, wkc)
      else
        bend ← buf_bend work;
        '(out, st) ← cipher_ctx_update st (key2_bytes src_key);
        '(ok, work) ← Some (buf_inc_len (poke work bend out) (zlen out));
        ASSERT (ok : bool);;
        bend ← buf_bend work;
        '(out, st) ← cipher_ctx_update st (content src_metadata);
        '(ok, work) ← Some (buf_inc_len (poke work bend out) (zlen out));
        ASSERT (ok : bool);;
        bend ← buf_bend work;
        out ← cipher_ctx_final st;
        '(ok, work) ← Some (buf_inc_len (poke work bend out) (zlen out));
        ASSERT (ok : bool);;
        '(ok, work) ← Some (buf_write work net_len);
        ASSERT (ok : bool);;
        Some (buf_copy wkc work)
  end.

(** The plaintext of a wrapped key whose length field has been taken off. *)
Definition client_key_plaintext (wrapped : buffer) (tag : list Z) (name : string) (key : list Z) : option (option buffer) :=
  match cipher_ctx_reset false name key (slice 0 (cipher_kt_iv_size name) tag) with
  | None => Some None
  | Some st =>
      plaintext ← buf_set_write (Some (zeros TLS_CRYPT_V2_MAX_WKC_LEN)) TLS_CRYPT_V2_MAX_WKC_LEN;
      match cipher_ctx_update st (content wrapped) with
      | None => Some None
      | Some (out, st) =>
          '(ok, plaintext) ← Some (buf_inc_len (poke plaintext (b_offset plaintext) out) (zlen out));
          ASSERT (ok : bool);;
          match cipher_ctx_final st with
          | None => Some None
          | Some out =>
              bend ← buf_bend plaintext;
              '(ok, plaintext) ← Some (buf_inc_len (poke plaintext bend out) (zlen out));
              ASSERT (ok : bool);; Some (Some plaintext)
          end
      end
  end.

(** [None] in the result: not a key of this server; [client_key] is erased then. *)
Definition tls_crypt_v2_unwrap_client_key (metadata wrapped : buffer) (server_key : key_ctx)
  : option (option key2 * buffer) :=
  if TLS_CRYPT_V2_MAX_WKC_LEN <? buf_len wrapped then Some (None, metadata)
  else if buf_len wrapped <? 2 then Some (None, metadata)
  else
    let tag_ptr := b_offset wrapped in
    let net_len := slice (b_offset wrapped + buf_len wrapped - 2) 2 (mem wrapped) in
    if negb (be_val net_len =? buf_len wrapped) then Some (None, metadata)
    else
      let '(_, wrapped) := buf_inc_len wrapped (-2) in
      let '(ok, wrapped) := buf_advance wrapped TLS_CRYPT_TAG_SIZE in
      if negb ok then Some (None, metadata)
      else
        '(name, key) ← kc_cipher server_key;
        let tag := slice tag_ptr TLS_CRYPT_TAG_SIZE (mem wrapped) in
        plain ← client_key_plaintext wrapped tag name key;
        match plain with
        | None => Some (None, metadata)
        | Some plaintext =>
            '(digest, hkey) ← kc_hmac server_key;
            if negb (bool_decide (tag = slice 0 TLS_CRYPT_TAG_SIZE (md_hmac digest hkey (net_len ++ content plaintext))))
            then Some (None, metadata)
            else if buf_len plaintext <? KEY2_SIZE then Some (None, metadata)
            else
              let keys := key2_of_bytes (slice (b_offset plaintext) KEY2_SIZE (mem plaintext)) in
              '(ok, plaintext) ← Some (buf_advance plaintext KEY2_SIZE);
              ASSERT (ok : bool);;
              let '(ok, metadata) := buf_copy metadata plaintext in
              Some (if ok then Some keys else None, metadata)
        end.

(** [int64_t]: the two's complement value of eight bytes. *)
Definition int64_of (l : list Z) : Z :=
  let v := be_val l in if v <? 2 ^ 63 then v else v - 2 ^ 64.

Definition tls_crypt_v2_check_client_key_age (now : Z) (metadata : buffer) (max_days : Z) : bool :=
  if buf_len metadata <? 1 + 8 then false
  else if negb (nth 0 (mem metadata) 0 =? TLS_CRYPT_METADATA_TYPE_TIMESTAMP) then false
  else now - int64_of (slice 1 8 (mem metadata)) <=? max_days * 24 * 60 * 60.

(** [script]: what [--tls-crypt-v2-verify] says to a type and the rest of the metadata (and
    whether they can be written to a file). *)
Definition tls_crypt_v2_verify_metadata (metadata : buffer) (script : Z -> list Z -> bool) : bool :=
  let '(metadata_type, metadata) := buf_read_u8 metadata in
  if metadata_type <? 0 then false else script metadata_type (content metadata).

(** The options of a client instance: [tls_crypt_v2_max_age] and [tls_crypt_v2_verify_script]. *)
Record v2_options := mk_v2opt { v2_max_age : Z; v2_verify_script : option (Z -> list Z -> bool) }.

(** [opt] is [NULL] before there is an instance. *)
Definition client_key_welcome (now : Z) (opt : option v2_options) (metadata : buffer) : bool :=
  match opt with
  | None => true
  | Some o =>
      (negb (0 <? v2_max_age o) || tls_crypt_v2_check_client_key_age now metadata (v2_max_age o))
      && match v2_verify_script o with Some s => tls_crypt_v2_verify_metadata metadata s | None => true end
  end.

Definition long_form_on (co : crypto_options) : crypto_options :=
  mk_co (co_encrypt co) (co_decrypt co) (co_initialized co) (co_epoch_key_send co) (co_epoch_key_recv co)
    (co_epoch_key_type co) (co_aead_usage_limit co) (co_future co) (co_retiring co) (co_retiring_pid co)
    (co_packet_id co) (co_pid_persist co) true (co_epoch_format co).

(** Where the client key is in a packet. *)
Definition locate_client_key (buf : buffer) : option buffer :=
  let '(ok, wkc) := buf_advance buf 1 in
  if negb ok || (buf_len wkc <? 1 + 2) then None
  else
    let wkc_len := be_val (slice (b_offset wkc + buf_len wkc - 2) 2 (mem wkc)) in
    let '(ok, wkc) := buf_advance wkc (buf_len wkc - wkc_len) in
    if ok then Some wkc else None.

Definition tls_crypt_v2_extract_client_key (now : Z) (buf : buffer) (ctx : tls_wrap_ctx) (opt : option v2_options)
    (initial_packet : bool) : option (bool * buffer * tls_wrap_ctx) :=
  match kc_cipher (tw_server_key ctx), locate_client_key buf with
  | None, _ | _, None => Some (false, buf, ctx)
  | Some _, Some wkc =>
      if negb initial_packet then
        '(ok, buf) ← Some (buf_inc_len buf (- buf_len wkc));
        ASSERT (ok : bool);; Some (true, buf, ctx)
      else
        metadata ← alloc_buf TLS_CRYPT_V2_MAX_METADATA_LEN;
        '(key, metadata) ← tls_crypt_v2_unwrap_client_key metadata wkc (tw_server_key ctx);
        match key with
        | None => Some (false, buf, set_tw_client_key ctx metadata key2_zero)
        | Some key =>
            if negb (client_key_welcome now opt metadata) then Some (false, buf, set_tw_client_key ctx metadata key2_zero)
            else
              co ← tls_crypt_v2_load_client_key (long_form_on (tw_opt ctx)) key true;
              '(ok, buf) ← Some (buf_inc_len buf (- buf_len wkc));
              ASSERT (ok : bool);;
              Some (true, buf, mk_wrap TLS_WRAP_CRYPT co (tw_ignore_packet_id ctx) (tw_force_cookie ctx) (tw_work ctx)
                                 (tw_server_key ctx) (tw_wkc ctx) metadata true key)
        end
  end.

(** ** Keys that are derived from a session *)

(** What [tls_session_generate_dynamic_tls_crypt_key] uses of the session and its options. *)
Record dynamic_options := mk_dyn {
  dy_server : bool;
  dy_buf_size : Z;                   (* BUF_SIZE(&opt->frame) *)
  dy_replay_window : Z;
  dy_replay_time : Z;
  dy_key_id : Z;
  dy_exporter : string -> Z -> option (list Z)
}.

(** The new [tls_wrap_reneg], [None] when the library has no key material. *)
Definition tls_session_generate_dynamic_tls_crypt_key (o : dynamic_options) (tls_wrap : tls_wrap_ctx)
  : option (option tls_wrap_ctx) :=
  match dy_exporter o EXPORT_DYNAMIC_TLS_CRYPT_LABEL KEY2_SIZE with
  | None => Some None
  | Some keys =>
      let rengokeys := key2_of_bytes keys in
      work ← alloc_buf (dy_buf_size o);
      pid ← packet_id_init (dy_replay_window o) (dy_replay_time o) "TLS_WRAP_RENEG" (dy_key_id o);
      let rengokeys := match tw_mode tls_wrap with
                       | TLS_WRAP_NONE => rengokeys
                       | _ => xor_key2 rengokeys (tw_original_wrap_keydata tls_wrap)
                       end in
      co ← init_key_ctx_bi (set_packet_id (tw_opt tls_wrap) pid None) rengokeys
             (if dy_server o then KEY_DIRECTION_NORMAL else KEY_DIRECTION_INVERSE) tls_crypt_kt;
      Some (Some (mk_wrap TLS_WRAP_CRYPT co (tw_ignore_packet_id tls_wrap) (tw_force_cookie tls_wrap) work key_ctx_zero None
                    clear_buf true key2_zero))
  end.
End tls_crypt.
