(* ===== verification/TlsCryptSpec.v ===== *)
(** * Control packets under [tls-crypt], and the keys of clients

    What [tls_crypt_wrap] writes and what [tls_crypt_unwrap] makes of any packet; the wrapped
    client keys of [tls-crypt-v2], made and opened. *)
From S2P Require Import Prelude Integers Buffer Frame PacketId Replay EpochKeys DataChannel CryptoV1 CryptoModes Reliable Control KeyExpansion TlsCrypt.

(** What the library documents of the cipher and the digest that are always used. *)
Class CtrLaws `{CryptoLib} `{ModeLib} := {
  ctr_iv_size : cipher_kt_iv_size "AES-256-CTR" = 16;
  ctr_block_size : 0 <= cipher_kt_block_size "AES-256-CTR" <= 16;
  ctr_not_aead : cipher_kt_mode_aead "AES-256-CTR" = false;
  sha256_size : md_kt_size "SHA256" = 32;
  ctr_length encrypt k iv texts out fin : stream_out encrypt "AES-256-CTR" k iv texts = Some (out, fin) ->
    zlen out = zlen (concat texts) /\ fin = []
}.

Section spec.
Context `{CL : CryptoLib} `{Cok : !CryptoLaws} `{ML : ModeLib} `{Mok : !ModeLaws} `{Ctr : !CtrLaws}.

(** A context with these keys. *)
Definition crypt_keys (ctx : key_ctx) (key hkey : list Z) : Prop :=
  kc_cipher ctx = Some ("AES-256-CTR"%string, key) /\ kc_hmac ctx = Some ("SHA256"%string, hkey).

Definition crypt_tag (hkey hdr m : list Z) : list Z := md_hmac "SHA256" hkey (hdr ++ m).

Lemma length_crypt_tag hkey hdr m : zlen (crypt_tag hkey hdr m) = TLS_CRYPT_TAG_SIZE.
Proof. unfold crypt_tag. rewrite mac_length. apply sha256_size. Qed.

(** A wrapped packet: the header - opcode, session id and packet id -, the tag, the text. *)
Definition crypt_packet (key hkey hdr m pkt : list Z) : Prop :=
  exists ct, stream_out true "AES-256-CTR" key (slice 0 16 (crypt_tag hkey hdr m)) [m] = Some (ct, []) /\
    pkt = hdr ++ crypt_tag hkey hdr m ++ ct.

(** ** Wrapping *)

Lemma stream_some key hkey hdr m :
  exists ct, stream_out true "AES-256-CTR" key (slice 0 16 (crypt_tag hkey hdr m)) [m] = Some (ct, []) /\ zlen ct = zlen m.
Proof.
  pose proof (length_crypt_tag hkey hdr m) as Hl. change TLS_CRYPT_TAG_SIZE with 32 in Hl.
  destruct (encrypt_some "AES-256-CTR" key (slice 0 16 (crypt_tag hkey hdr m)) [m]) as [[ct fin] E].
  { rewrite ctr_iv_size. apply length_slice; lia. }
  destruct (ctr_length _ _ _ _ _ _ E) as [Hc ->]. cbn [concat] in Hc. rewrite app_nil_r in Hc. by exists ct.
Qed.

Lemma crypt_into_ok encrypt key iv st src h m t dst dh pre dt out :
  cipher_ctx_reset encrypt "AES-256-CTR" key iv = Some st -> buf_rep src h m t -> buf_rep dst dh pre dt ->
  stream_out encrypt "AES-256-CTR" key iv [m] = Some (out, []) -> bytes out -> zlen m <= dt ->
  exists dst', crypt_into st src dst = Some dst' /\ buf_rep dst' dh (pre ++ out) (dt - zlen out).
Proof.
  intros E1 Hs Hd Hst Hob Hroom. destruct (ctr_length _ _ _ _ _ _ Hst) as [Hl _]. cbn [concat] in Hl. rewrite app_nil_r in Hl.
  destruct (stream_out_one _ _ _ _ _ _ _ Hst) as (st1 & st2 & E1' & E2 & E3). rewrite E1 in E1'. injection E1' as <-.
  unfold crypt_into. rewrite (bend_rep _ _ _ _ Hd), Some_bind, (rep_content _ _ _ _ Hs), E2, Some_bind.
  destruct (inc_len_poke_rep _ _ _ _ out Hd Hob) as (d1 & -> & Hd1); [lia|].
  rewrite Some_bind, ASSERT_true, Some_bind, E3, Some_bind by done.
  pose proof (rep_bounds _ _ _ _ Hd1) as (Hh & Ht & Hcap & _).
  assert (Hp : buf_inc_len (poke d1 (b_offset d1) []) (zlen (@nil Z)) = (true, d1)).
  { pose proof (rep_unfold _ _ _ _ Hd1) as (d & -> & Hdl & _). unfold poke, buf_inc_len, buf_safe_bidir, buf_valid, buf_defined, buf_size_valid_signed, splice, BUF_SIZE_MAX.
    cbn [b_offset b_data b_len b_capacity fmap option_fmap option_map length app]. rewrite Nat.add_0_r, take_drop.
    rewrite bool_decide_true by done. replace (0 <=? zlen (pre ++ out)) with true by lia. cbn [andb].
    replace (- (1000000) <=? Z.of_nat 0) with true by lia. replace (Z.of_nat 0 <? 1000000) with true by lia. cbn [andb].
    rewrite Z.add_0_r. destruct (_ && _) eqn:E0; [done|lia]. }
  rewrite Hp, Some_bind, ASSERT_true, Some_bind by done. by exists d1.
Qed.

Lemma tls_crypt_wrap_ok now src h m t dst dh pre dt opt key hkey p' :
  buf_rep src h m t -> buf_rep dst dh pre dt -> crypt_keys (co_encrypt opt) key hkey ->
  packet_id_initialized (co_packet_id opt) = true ->
  packet_id_send_update now (send (co_packet_id opt)) true = (true, p') ->
  8 + zlen m + 16 + 32 <= dt ->
  exists dst' pkt, tls_crypt_wrap now src dst opt = Some (true, dst', set_send opt p') /\
    buf_rep dst' dh pkt (dt - 40 - zlen m) /\ crypt_packet key hkey (pre ++ pid_bytes true (sent_pin p')) m pkt.
Proof.
  intros Hs Hd [Ek Eh] Hi Hn Hroom. unfold tls_crypt_wrap.
  rewrite Ek, Some_bind, Eh, Some_bind, (ASSERT_true _ Hi), Some_bind. rewrite ASSERT_true, Some_bind by (rewrite sha256_size; done).
  destruct (packet_id_write_append now _ true _ _ _ _ _ Hd Hn) as (d1 & -> & Hd1); [unfold packet_id_size; lia|].
  rewrite Some_bind. cbn [negb]. change (packet_id_size true) with 8 in Hd1. set (hdr := pre ++ _) in *.
  rewrite (buf_len_wf _ (rep_wf _ _ _ _ Hs)), (rep_len _ _ _ _ Hs). change TLS_CRYPT_BLOCK_SIZE with 16. change TLS_CRYPT_TAG_SIZE with 32.
  rewrite (safe_rep _ _ _ _ _ Hd1) by lia. cbn [negb].
  rewrite (rep_content _ _ _ _ Hd1), (rep_content _ _ _ _ Hs). fold (crypt_tag hkey hdr m).
  destruct (write_alloc_old _ _ _ _ 32 Hd1) as (d2 & old & -> & Hold & Hd2); [lia|]. rewrite !Some_bind.
  pose proof (length_crypt_tag hkey hdr m) as Htl. change TLS_CRYPT_TAG_SIZE with 32 in Htl.
  assert (Hd3 : buf_rep (poke d2 (dh + zlen hdr) (crypt_tag hkey hdr m)) dh (hdr ++ crypt_tag hkey hdr m) (dt - 8 - 32)).
  { rewrite <- (app_nil_r (crypt_tag _ _ _)) at 2. apply poke_rep with old; [by rewrite app_nil_r|lia|apply mac_bytes]. }
  destruct (stream_some key hkey hdr m) as (ct & Hst & Hcl).
  destruct (stream_out_one _ _ _ _ _ _ _ Hst) as (st & _ & E1 & _). rewrite ctr_iv_size, E1, Some_bind.
  destruct (encrypt_length _ _ _ _ _ _ (Forall_cons_2 _ _ _ (proj2 (proj2 (proj2 (rep_bounds _ _ _ _ Hs)))) (Forall_nil_2 _)) Hst) as (_ & _ & _ & Hcb & _).
  destruct (crypt_into_ok true key _ st src h m t _ dh _ _ ct E1 Hs Hd3 Hst Hcb) as (d4 & -> & Hd4); [lia|]. rewrite Some_bind.
  eexists _, _. split; [done|]. split; [eapply rep_eq; [exact Hd4|done|done|lia]|]. exists ct. by rewrite <- app_assoc.
Qed.
(** ** Unwrapping *)

(** What a packet under these keys says, [None] when it is not authentic. *)
Definition crypt_open (key hkey c : list Z) : option (packet_id_net * list Z) :=
  if zlen c <? TLS_CRYPT_OFF_CT then None
  else
    let hdr := take 17 c in
    let tag := take 32 (drop 17 c) in
    '(out, _) ← stream_out false "AES-256-CTR" key (slice 0 16 tag) [drop 49 c];
    if bool_decide (tag = crypt_tag hkey hdr out) then Some (parse_pin true (drop 9 hdr), out) else None.

Lemma crypt_packet_authentic key hkey c pin m :
  crypt_open key hkey c = Some (pin, m) ->
  TLS_CRYPT_OFF_CT <= zlen c /\ take 32 (drop 17 c) = md_hmac "SHA256" hkey (take 17 c ++ m).
Proof.
  unfold crypt_open. destruct (zlen c <? TLS_CRYPT_OFF_CT) eqn:E0; [done|].
  destruct (stream_out _ _ _ _ _) as [[o f]|]; [|done]. cbn [mbind option_bind].
  case_bool_decide as E; [|done]. intros [= <- <-]. split; [lia|done].
Qed.

Lemma crypt_open_packet key hkey hdr m pkt :
  crypt_packet key hkey hdr m pkt -> zlen hdr = 17 -> crypt_open key hkey pkt = Some (parse_pin true (drop 9 hdr), m).
Proof.
  intros (ct & Hst & ->) Hh. pose proof (length_crypt_tag hkey hdr m) as Hl. change TLS_CRYPT_TAG_SIZE with 32 in Hl.
  unfold crypt_open. rewrite !length_app. change TLS_CRYPT_OFF_CT with 49.
  destruct (_ <? 49) eqn:E0; [lia|]. rewrite take_app_length', drop_app_length' by lia.
  rewrite take_app_length' by lia. rewrite app_assoc, drop_app_length' by (rewrite length_app; lia).
  destruct (decrypt_encrypt _ _ _ _ _ _ Hst) as (o & f & Hd & Ho). rewrite app_nil_r in Hd. rewrite Hd. cbn [mbind option_bind].
  destruct (ctr_length _ _ _ _ _ _ Hd) as [_ ->]. cbn [concat] in Ho. rewrite !app_nil_r in Ho. subst o. by rewrite bool_decide_true.
Qed.

(** The decryption goes through, or the library refuses. *)
Lemma tls_crypt_decrypt_ok key src h c t dst dh dt :
  buf_rep src h c t -> buf_rep dst dh [] dt -> TLS_CRYPT_OFF_CT <= zlen c -> zlen c <= dt ->
  match stream_out false "AES-256-CTR" key (slice 0 16 (take 32 (drop 17 c))) [drop 49 c] with
  | Some (out, _) => exists dst', tls_crypt_decrypt "AES-256-CTR" key src dst = Some (Some dst') /\ buf_rep dst' dh out (dt - zlen out)
  | None => tls_crypt_decrypt "AES-256-CTR" key src dst = Some None
  end.
Proof.
  intros Hs Hd Hlen Hroom. change TLS_CRYPT_OFF_CT with 49 in *. unfold tls_crypt_decrypt.
  rewrite (rep_head _ _ _ _ Hs), (buf_len_wf _ (rep_wf _ _ _ _ Hs)), (rep_len _ _ _ _ Hs), ctr_iv_size.
  change TLS_CRYPT_OFF_CT with 49. change TLS_CRYPT_OFF_TAG with 17.
  assert (Ec : c = take 17 c ++ take 32 (drop 17 c) ++ drop 49 c).
  { rewrite <- (take_drop 17 c) at 1. f_equal. rewrite <- (take_drop 32 (drop 17 c)) at 1. by rewrite drop_drop. }
  assert (L1 : zlen (take 17 c) = 17) by (rewrite length_take; lia).
  assert (L2 : zlen (take 32 (drop 17 c)) = 32) by (rewrite length_take, length_drop; lia).
  assert (L3 : zlen (drop 49 c) = zlen c - 49) by (rewrite length_drop; lia).
  pose proof (rep_bounds _ _ _ _ Hs) as (Hh0 & _).
  assert (Etag : slice (h + 17) 16 (mem src) = slice 0 16 (take 32 (drop 17 c))).
  { pose proof Hs as Hs2. rewrite Ec in Hs2. apply rep_part in Hs2. rewrite L1, L2 in Hs2. rewrite <- Hs2.
    symmetry. unfold slice at 1. change (Z.to_nat 0) with 0%nat. rewrite drop_0, slice_take by lia. done. }
  assert (Ect : slice (h + 49) (zlen c - 49) (mem src) = drop 49 c).
  { pose proof Hs as Hs2. rewrite Ec, app_assoc in Hs2. apply rep_rest in Hs2. rewrite length_app, L3 in Hs2. rewrite <- Hs2. f_equal. lia. }
  rewrite Etag, Ect. set (iv := slice 0 16 _). set (ct := drop 49 c) in *.
  assert (Hctb : bytes ct) by apply Forall_drop, (rep_bounds _ _ _ _ Hs).
  destruct (cipher_ctx_reset false "AES-256-CTR" key iv) as [st|] eqn:E1; [|unfold stream_out; by rewrite E1].
  destruct (cipher_ctx_update st ct) as [[out st']|] eqn:E2.
  2: { unfold stream_out. rewrite E1. cbn [stream_run mbind option_bind]. by rewrite E2. }
  destruct (decrypt_update_length _ _ _ _ _ _ _ Hctb E1 E2) as [Hol Hob]. rewrite (stream_out_two _ _ _ _ _ _ _ _ E1 E2).
  destruct (inc_len_poke_rep _ _ _ _ out Hd Hob) as (d1 & Ei & Hd1); [lia|]. cbn [length] in Ei. rewrite Z.add_0_r in Ei.
  rewrite (rep_head _ _ _ _ Hd), Ei, Some_bind, (ASSERT_true true), Some_bind by done.
  destruct (cipher_ctx_final st') as [fin|] eqn:E3; [|done]. rewrite Some_bind.
  assert (Hst : stream_out false "AES-256-CTR" key iv [ct] = Some (out, fin)) by (rewrite (stream_out_two _ _ _ _ _ _ _ _ E1 E2), E3; done).
  destruct (ctr_length _ _ _ _ _ _ Hst) as [_ ->].
  pose proof (inc_len_poke_rep _ _ _ _ [] Hd1 (Forall_nil_2 _)) as (d2 & Ej & Hd2); [cbn; lia|].
  assert (Ep : forall a, poke d1 a [] = d1).
  { intros a. pose proof (rep_unfold _ _ _ _ Hd1) as (d & -> & _). unfold poke, splice. cbn [b_data b_offset b_len b_capacity fmap option_fmap option_map length app].
    by rewrite Nat.add_0_r, take_drop. }
  rewrite Ep in Ej |- *. rewrite Ej, Some_bind, (ASSERT_true true), Some_bind by done. exists d2. split; [done|].
  eapply rep_eq; [done|done|by rewrite app_nil_r|cbn; lia].
Qed.

Lemma tls_crypt_unwrap_ok now src h c t dst dh dt opt key hkey ignore_packet_id :
  buf_rep src h c t -> buf_rep dst dh [] dt -> zlen c <= dt -> crypt_keys (co_decrypt opt) key hkey ->
  packet_id_initialized (co_packet_id opt) || ignore_packet_id = true ->
  match crypt_open key hkey c with
  | None => tls_crypt_unwrap now src dst opt ignore_packet_id = Some (None, opt)
  | Some (pin, m) => exists dst' t', buf_rep dst' dh m t' /\
      tls_crypt_unwrap now src dst opt ignore_packet_id =
        if ignore_packet_id then Some (Some dst', opt)
        else '(ok, opt) ← crypto_check_replay now opt pin 0; Some (if ok : bool then Some dst' else None, opt)
  end.
Proof.
  intros Hs Hd Hroom [Ek Eh] Hi. unfold tls_crypt_unwrap, crypt_open.
  rewrite Ek, Some_bind, (ASSERT_true _ Hi), Some_bind, (buf_len_wf _ (rep_wf _ _ _ _ Hs)), (rep_len _ _ _ _ Hs).
  destruct (zlen c <? TLS_CRYPT_OFF_CT) eqn:E0; [done|]. change TLS_CRYPT_OFF_CT with 49 in *.
  rewrite (safe_rep _ _ _ _ _ Hd) by (change TLS_CRYPT_BLOCK_SIZE with 16; lia). cbn [negb].
  pose proof (tls_crypt_decrypt_ok key src h c t dst dh dt Hs Hd) as Hdec. change TLS_CRYPT_OFF_CT with 49 in Hdec. specialize (Hdec ltac:(lia) Hroom).
  destruct (stream_out _ _ _ _ _) as [[out f]|]; [|by rewrite Hdec]. cbn [mbind option_bind].
  destruct Hdec as (d1 & -> & Hd1). cbn [mbind option_bind]. rewrite Eh. cbn [mbind option_bind].
  assert (Ec : c = take 17 c ++ take 32 (drop 17 c) ++ drop 49 c).
  { rewrite <- (take_drop 17 c) at 1. f_equal. rewrite <- (take_drop 32 (drop 17 c)) at 1. by rewrite drop_drop. }
  assert (L1 : zlen (take 17 c) = 17) by (rewrite length_take; lia).
  assert (L2 : zlen (take 32 (drop 17 c)) = 32) by (rewrite length_take, length_drop; lia).
  assert (Hauth : tls_crypt_authentic "SHA256" hkey src d1 = bool_decide (take 32 (drop 17 c) = crypt_tag hkey (take 17 c) out)).
  { unfold tls_crypt_authentic. rewrite (rep_head _ _ _ _ Hs), (rep_content _ _ _ _ Hd1).
    pose proof Hs as Hs2. rewrite Ec in Hs2. pose proof (rep_part src h (take 17 c) _ _ t Hs2) as Hp1. rewrite L1, L2 in Hp1.
    pose proof (rep_part src h [] (take 17 c) _ t Hs2) as Hp2. cbn [length] in Hp2. rewrite L1, Z.add_0_r in Hp2.
    change TLS_CRYPT_OFF_TAG with 17. change TLS_CRYPT_TAG_SIZE with 32. rewrite Hp1, Hp2.
    replace (slice 0 32 (md_hmac _ _ _)) with (crypt_tag hkey (take 17 c) out); [done|].
    rewrite <- (slice_all (crypt_tag _ _ _)). by rewrite length_crypt_tag. }
  rewrite Hauth. case_bool_decide; cbn [negb]; [|done]. destruct ignore_packet_id; [by exists d1, (dt - zlen out)|].
  change TLS_CRYPT_OFF_PID with 9. pose proof Hs as Hs3. rewrite <- (take_drop 9 c) in Hs3.
  destruct (advance_rep _ _ _ _ _ Hs3) as (tmp & Ea & Htmp). replace (zlen (take 9 c)) with 9 in Ea by (rewrite length_take; lia).
  rewrite Ea. cbn [mbind option_bind ASSERT].
  pose proof (read_pin_ok _ _ _ _ true Htmp) as Hr. unfold packet_id_size in Hr. rewrite length_drop in Hr.
  destruct (_ <? 4 + 4) eqn:E1; [lia|]. destruct Hr as (b' & -> & _). cbn [mbind option_bind ASSERT].
  exists d1, (dt - zlen out). split; [done|]. 
  assert (Epin : parse_pin true (drop 9 c) = parse_pin true (drop 9 (take 17 c))).
  { rewrite skipn_firstn_comm. cbn [Nat.sub]. unfold parse_pin. rewrite skipn_firstn_comm, !take_take. done. }
  by rewrite Epin.
Qed.
(** ** Client keys *)

Definition material_ok (k : key_material) : Prop :=
  zlen (mat_cipher k) = 64 /\ zlen (mat_hmac k) = 64 /\ bytes (mat_cipher k) /\ bytes (mat_hmac k).

Definition key2_ok (k : key2) : Prop := material_ok (keys0 k) /\ material_ok (keys1 k).

Lemma key2_bytes_ok k : key2_ok k -> zlen (key2_bytes k) = KEY2_SIZE /\ bytes (key2_bytes k) /\ key2_of_bytes (key2_bytes k) = k.
Proof.
  intros [(A1 & A2 & A3 & A4) (B1 & B2 & B3 & B4)]. unfold key2_bytes. destruct k as [[a b] [c d]]. cbn [keys0 keys1 mat_cipher mat_hmac] in *.
  split_and!.
  - rewrite !length_app. change KEY2_SIZE with 256. lia.
  - by repeat (apply Forall_app; split).
  - unfold key2_of_bytes, slice. change (Z.to_nat 64) with 64%nat. change (Z.to_nat 0) with 0%nat. rewrite drop_0.
    rewrite take_app_length' by lia. f_equal; f_equal.
    + rewrite drop_app_length' by lia. by rewrite take_app_length' by lia.
    + rewrite app_assoc, drop_app_length' by (rewrite length_app; lia). by rewrite take_app_length' by lia.
    + rewrite !app_assoc, drop_app_length' by (rewrite !length_app; lia). rewrite firstn_all2; [done|lia].
Qed.

Definition wkc_tag (hkey net m : list Z) : list Z := md_hmac "SHA256" hkey (net ++ m).

(** A wrapped key: the tag, the encrypted key and metadata, and the length of it all. *)
Definition wkc_packet (key hkey : list Z) (ck : key2) (md w : list Z) : Prop :=
  exists ct, let net := be_bytes 2 (zlen md + KEY2_SIZE + 2 + TLS_CRYPT_TAG_SIZE) in
    let tag := wkc_tag hkey net (key2_bytes ck ++ md) in
    stream_out true "AES-256-CTR" key (slice 0 16 tag) [key2_bytes ck; md] = Some (ct, []) /\ w = tag ++ ct ++ net.

(** What a wrapped key says to the server whose key it is. *)
Definition wkc_open (key hkey w : list Z) : option (key2 * list Z) :=
  if (TLS_CRYPT_V2_MAX_WKC_LEN <? zlen w) || (zlen w <? 2 + TLS_CRYPT_TAG_SIZE) then None
  else
    let net := drop (length w - 2) w in
    let tag := take 32 w in
    if negb (be_val net =? zlen w) then None
    else
      '(out, _) ← stream_out false "AES-256-CTR" key (slice 0 16 tag) [take (length w - 34) (drop 32 w)];
      if bool_decide (tag = wkc_tag hkey net out) && (KEY2_SIZE <=? zlen out)
      then Some (key2_of_bytes (take 256 out), drop 256 out) else None.

(** The cipher's stream does not depend on what comes later. *)
Lemma stream_two_ok key iv a b out :
  zlen iv = 16 -> bytes a -> bytes b -> stream_out true "AES-256-CTR" key iv [a; b] = Some (out, []) ->
  exists st o1 st1 o2 st2, cipher_ctx_reset true "AES-256-CTR" key iv = Some st /\ cipher_ctx_update st a = Some (o1, st1) /\
    cipher_ctx_update st1 b = Some (o2, st2) /\ cipher_ctx_final st2 = Some [] /\ out = o1 ++ o2 /\
    zlen o1 = zlen a /\ zlen o2 = zlen b /\ bytes o1 /\ bytes o2.
Proof.
  intros Hiv Ha Hb Hst. pose proof (encrypt_length _ _ _ _ _ _ (Forall_cons_2 _ _ _ Ha (Forall_cons_2 _ _ _ Hb (Forall_nil_2 _))) Hst) as (_ & _ & _ & Hob & _).
  pose proof (ctr_length _ _ _ _ _ _ Hst) as [Hl _]. cbn [concat] in Hl. rewrite app_nil_r, length_app in Hl.
  destruct (encrypt_some "AES-256-CTR" key iv [a]) as [[oa fa] Hsa]; [by rewrite ctr_iv_size|].
  pose proof (ctr_length _ _ _ _ _ _ Hsa) as [Hla _]. cbn [concat] in Hla. rewrite app_nil_r in Hla.
  destruct (stream_out_one _ _ _ _ _ _ _ Hsa) as (st & st1 & E1 & E2 & _).
  unfold stream_out in Hst. rewrite E1 in Hst. cbn [stream_run mbind option_bind] in Hst. rewrite E2 in Hst. cbn [mbind option_bind] in Hst.
  destruct (cipher_ctx_update st1 b) as [[o2 st2]|] eqn:E3; [|done]. cbn [mbind option_bind] in Hst.
  destruct (cipher_ctx_final st2) as [f|] eqn:E4; [|done]. cbn [mbind option_bind] in Hst. rewrite app_nil_r in Hst. injection Hst as <- ->.
  apply Forall_app in Hob as [? ?]. exists st, oa, st1, o2, st2. rewrite length_app in Hl. split_and!; try done; lia.
Qed.

Lemma tls_crypt_v2_wrap_client_key_ok wkc wh wc wt ck md mh mc mt server_key key hkey :
  buf_rep wkc wh wc wt -> buf_rep md mh mc mt -> key2_ok ck -> crypt_keys server_key key hkey ->
  zlen mc <= TLS_CRYPT_V2_MAX_METADATA_LEN -> zlen mc + 290 <= wt ->
  exists wkc' w, tls_crypt_v2_wrap_client_key wkc ck md server_key = Some (true, wkc') /\
    wkc_packet key hkey ck mc w /\ buf_rep wkc' wh (wc ++ w) (wt - zlen w) /\ zlen w = zlen mc + 290.
Proof.
  intros Hw Hm Hck [Ek Eh] Hmc Hroom. destruct (key2_bytes_ok ck Hck) as (Hkl & Hkb & _). change KEY2_SIZE with 256 in *.
  change TLS_CRYPT_V2_MAX_METADATA_LEN with 734 in *. pose proof ctr_block_size as Hbs. pose proof (rep_bounds _ _ _ _ Hm) as (_ & _ & _ & Hmb).
  unfold tls_crypt_v2_wrap_client_key. rewrite Ek, Some_bind, Eh, Some_bind. change TLS_CRYPT_V2_MAX_WKC_LEN with 1024.
  destruct (alloc_some (1024 + cipher_kt_block_size "AES-256-CTR")) as (work & -> & Hwork); [unfold BUF_SIZE_MAX; lia|]. rewrite Some_bind.
  change TLS_CRYPT_TAG_SIZE with 32. destruct (write_alloc_old _ _ _ _ 32 Hwork) as (w1 & old & -> & Hold & Hw1); [lia|].
  rewrite (buf_len_wf _ (rep_wf _ _ _ _ Hm)), (rep_len _ _ _ _ Hm), (rep_content _ _ _ _ Hm). change KEY2_SIZE with 256.
  set (net := be_bytes 2 _). set (tag := md_hmac _ _ _). assert (Htl : zlen tag = 32) by (unfold tag; rewrite mac_length; apply sha256_size).
  assert (Hw2 : buf_rep (poke w1 (0 + zlen (@nil Z)) tag) 0 tag (1024 + cipher_kt_block_size "AES-256-CTR" - 32)).
  { rewrite <- (app_nil_r tag) at 2. apply (poke_rep w1 0 [] old []); [by rewrite app_nil_r|lia|apply mac_bytes]. }
  rewrite ctr_iv_size. assert (Hivl : zlen (slice 0 16 tag) = 16) by (apply length_slice; lia).
  destruct (encrypt_some "AES-256-CTR" key (slice 0 16 tag) [key2_bytes ck; mc]) as [[ct fin] Hst]; [by rewrite ctr_iv_size|].
  pose proof (ctr_length _ _ _ _ _ _ Hst) as [_ ->].
  destruct (stream_two_ok _ _ _ _ _ Hivl Hkb Hmb Hst) as (st & o1 & st1 & o2 & st2 & E1 & E2 & E3 & E4 & Ect & L1 & L2 & B1 & B2).
  rewrite E1, Some_bind.
  assert (Hfc : buf_forward_capacity (poke w1 (0 + zlen (@nil Z)) tag) = 1024 + cipher_kt_block_size "AES-256-CTR" - 32).
  { unfold buf_forward_capacity. rewrite (rep_valid _ _ _ _ Hw2), (rep_head _ _ _ _ Hw2), (rep_len _ _ _ _ Hw2), (rep_cap _ _ _ _ Hw2). destruct (Z.ltb_spec (0 + zlen tag + (1024 + cipher_kt_block_size "AES-256-CTR" - 32) - (0 + zlen tag)) 0); lia. }
  rewrite Hfc. destruct (_ <? _) eqn:E0; [lia|]. clear E0.
  rewrite (bend_rep _ _ _ _ Hw2), Some_bind, E2, Some_bind. destruct (inc_len_poke_rep _ _ _ _ o1 Hw2 B1) as (w3 & -> & Hw3); [lia|]. rewrite Some_bind, (ASSERT_true true), Some_bind by done.
  rewrite (bend_rep _ _ _ _ Hw3), Some_bind, E3, Some_bind. destruct (inc_len_poke_rep _ _ _ _ o2 Hw3 B2) as (w4 & -> & Hw4); [lia|]. rewrite Some_bind, (ASSERT_true true), Some_bind by done.
  rewrite (bend_rep _ _ _ _ Hw4), Some_bind, E4, Some_bind. destruct (inc_len_poke_rep _ _ _ _ [] Hw4 (Forall_nil_2 _)) as (w5 & -> & Hw5); [cbn; lia|]. rewrite Some_bind, (ASSERT_true true), Some_bind by done.
  destruct (write_rep _ _ _ _ net Hw5) as (w6 & -> & Hw6); [apply be_bytes_bytes|unfold net; rewrite length_be_bytes; cbn [length]; lia|]. rewrite Some_bind, (ASSERT_true true), Some_bind by done.
  unfold buf_copy. rewrite (rep_content _ _ _ _ Hw6).
  assert (Ew : (((tag ++ o1) ++ o2) ++ []) ++ net = tag ++ ct ++ net) by (by rewrite app_nil_r, Ect, <- !app_assoc). rewrite Ew.
  assert (Lw : zlen (tag ++ ct ++ net) = zlen mc + 290) by (rewrite Ect, !length_app; unfold net; rewrite length_be_bytes; lia).
  destruct (write_rep _ _ _ _ (tag ++ ct ++ net) Hw) as (wkc' & -> & Hwkc); [rewrite <- Ew; apply (rep_bounds _ _ _ _ Hw6)|lia|].
  exists wkc', (tag ++ ct ++ net). split; [done|]. split; [by exists ct|]. done.
Qed.

(** The last bytes of the content are dropped. *)
Lemma shorten_rep b h c x t :
  buf_rep b h (c ++ x) t -> exists b', buf_inc_len b (- zlen x) = (true, b') /\ buf_rep b' h c (t + zlen x) /\ mem b' = mem b.
Proof.
  intros Hb. pose proof (rep_bounds _ _ _ _ Hb) as (Hh & Ht & Hcap & Hby). pose proof (rep_unfold _ _ _ _ Hb) as (d & -> & Hd & Hbd & Hc).
  rewrite length_app, Nat2Z.inj_add in *. change BUF_SIZE_MAX with 1000000 in *.
  unfold buf_inc_len, buf_safe_bidir. rewrite (rep_valid _ _ _ _ Hb). unfold buf_size_valid_signed, BUF_SIZE_MAX. cbn [b_len b_offset b_capacity b_data].
  assert (E : (- (1000000) <=? - zlen x) && (- zlen x <? 1000000) && ((0 <=? zlen c + zlen x + - zlen x) &&
    (h + (zlen c + zlen x + - zlen x) <=? h + (zlen c + zlen x) + t)) = true) by lia.
  destruct (andb (_ <=? _) (_ <? _)); [|done]. cbn [andb] in E |- *. rewrite E. cbn [negb]. eexists. split; [done|]. split; [|done].
  apply Forall_app in Hby as [Hcb _].
  assert (Hx : slice h (zlen c) d = c).
  { pose proof (slice_app_inv h c x d) as Hi. rewrite !length_app, !Nat2Z.inj_add in Hi. apply Hi; lia || done. }
  apply rep_intro; try done; try lia. by replace (zlen c + zlen x + - zlen x) with (zlen c) by lia.
Qed.

Lemma advance_mem b n b' : buf_advance b n = (true, b') -> mem b' = mem b.
Proof. unfold buf_advance. destruct (_ || _); [done|]. by intros [= <-]. Qed.

Lemma buf_advance_short b h c t n : buf_rep b h c t -> zlen c < n -> buf_advance b n = (false, b).
Proof. intros Hb Hn. unfold buf_advance. rewrite (rep_len _ _ _ _ Hb). replace (zlen c <? n) with true by lia. by rewrite orb_true_r. Qed.

(** The decryption of a client key without its length. *)
Lemma client_key_plaintext_ok w h c t tag key :
  buf_rep w h c t -> zlen c <= TLS_CRYPT_V2_MAX_WKC_LEN ->
  match stream_out false "AES-256-CTR" key (slice 0 16 tag) [c] with
  | Some (out, _) => exists p, client_key_plaintext w tag "AES-256-CTR" key = Some (Some p) /\ buf_rep p 0 out (TLS_CRYPT_V2_MAX_WKC_LEN - zlen out)
  | None => client_key_plaintext w tag "AES-256-CTR" key = Some None
  end.
Proof.
  intros Hw Hlen. change TLS_CRYPT_V2_MAX_WKC_LEN with 1024 in *. unfold client_key_plaintext. rewrite ctr_iv_size, (rep_content _ _ _ _ Hw).
  pose proof (rep_bounds _ _ _ _ Hw) as (_ & _ & _ & Hcb). change TLS_CRYPT_V2_MAX_WKC_LEN with 1024. set (iv := slice 0 16 tag).
  destruct (cipher_ctx_reset false "AES-256-CTR" key iv) as [st|] eqn:E1; [|unfold stream_out; by rewrite E1].
  set (p0 := mk_buffer 1024 0 0 (Some (splice 0 [0] (zeros 1024)))).
  assert (Hs : buf_set_write (Some (zeros 1024)) 1024 = Some p0) by done. rewrite Hs, Some_bind.
  assert (Hp0 : buf_rep p0 0 [] 1024).
  { apply rep_intro; try done; try lia; apply Forall_splice; [by apply Forall_replicate|by apply Forall_singleton]. }
  clearbody p0. clear Hs.
  destruct (cipher_ctx_update st c) as [[out st']|] eqn:E2.
  2: { unfold stream_out. rewrite E1. cbn [stream_run mbind option_bind]. by rewrite E2. }
  destruct (decrypt_update_length _ _ _ _ _ _ _ Hcb E1 E2) as [Hol Hob]. rewrite (stream_out_two _ _ _ _ _ _ _ _ E1 E2).
  destruct (inc_len_poke_rep _ _ _ _ out Hp0 Hob) as (p1 & Ei & Hp1); [lia|]. cbn [length] in Ei. rewrite Z.add_0_r in Ei.
  rewrite (rep_head _ _ _ _ Hp0), Ei, Some_bind, (ASSERT_true true), Some_bind by done.
  destruct (cipher_ctx_final st') as [fin|] eqn:E3; [|done]. cbn [mbind option_bind].
  assert (Hst : stream_out false "AES-256-CTR" key iv [c] = Some (out, fin)) by (rewrite (stream_out_two _ _ _ _ _ _ _ _ E1 E2), E3; done).
  destruct (ctr_length _ _ _ _ _ _ Hst) as [_ ->].
  rewrite (bend_rep _ _ _ _ Hp1). cbn [mbind option_bind].
  destruct (inc_len_poke_rep _ _ _ _ [] Hp1 (Forall_nil_2 _)) as (p2 & Ej & Hp2); [cbn; lia|].
  rewrite Ej. cbn [mbind option_bind ASSERT]. exists p2. split; [done|].
  eapply rep_eq; [done|done|by rewrite app_nil_r|cbn; lia].
Qed.

Lemma tls_crypt_v2_unwrap_client_key_ok md mh mc mt w h c t server_key key hkey :
  buf_rep md mh mc mt -> buf_rep w h c t -> crypt_keys server_key key hkey -> TLS_CRYPT_V2_MAX_WKC_LEN - 34 - KEY2_SIZE <= mt ->
  exists md', match wkc_open key hkey c with
              | Some (k, m) => tls_crypt_v2_unwrap_client_key md w server_key = Some (Some k, md') /\ buf_rep md' mh (mc ++ m) (mt - zlen m)
              | None => tls_crypt_v2_unwrap_client_key md w server_key = Some (None, md')
              end.
Proof.
  intros Hm Hw [Ek Eh] Hroom. unfold tls_crypt_v2_unwrap_client_key, wkc_open.
  rewrite (buf_len_wf _ (rep_wf _ _ _ _ Hw)), (rep_len _ _ _ _ Hw), (rep_head _ _ _ _ Hw). change TLS_CRYPT_V2_MAX_WKC_LEN with 1024 in *.
  change TLS_CRYPT_TAG_SIZE with 32. change KEY2_SIZE with 256 in *.
  destruct (1024 <? zlen c) eqn:E1; [by exists md|]. cbn [orb].
  destruct (zlen c <? 2) eqn:E2; [replace (zlen c <? 2 + 32) with true by lia; by exists md|].
  set (n := (length c - 2)%nat). assert (Ec : c = take n c ++ drop n c) by by rewrite take_drop.
  assert (Ln : zlen (drop n c) = 2) by (rewrite length_drop; lia).
  assert (Hnet : slice (h + zlen c - 2) 2 (mem w) = drop n c).
  { pose proof Hw as Hw2. rewrite Ec in Hw2. apply rep_rest in Hw2. rewrite Ln in Hw2. rewrite <- Hw2. f_equal. rewrite length_take. lia. }
  rewrite Hnet. pose proof Hw as Hw2. rewrite Ec in Hw2. destruct (shorten_rep _ _ _ _ _ Hw2) as (w1 & E3 & Hw1 & Hmem).
  rewrite Ln in E3, Hw1. change (- (2)) with (-2) in E3. rewrite E3.
  destruct (zlen c <? 2 + 32) eqn:E4.
  { destruct (be_val (drop n c) =? zlen c); cbn [negb]; [|by exists md].
    rewrite (buf_advance_short _ _ _ _ 32 Hw1) by (rewrite length_take; lia). by exists md. }
  destruct (be_val (drop n c) =? zlen c); cbn [negb]; [|by exists md].
  assert (Et : take n c = take 32 c ++ take (length c - 34) (drop 32 c)).
  { replace n with (32 + (length c - 34))%nat by lia. symmetry. apply take_take_drop. }
  rewrite Et in Hw1. destruct (advance_rep _ _ _ _ _ Hw1) as (w2 & Ea & Hw2').
  replace (zlen (take 32 c)) with 32 in Ea, Hw2' by (rewrite length_take; lia). rewrite Ea. cbn [negb].
  rewrite Ek, Some_bind.
  assert (Htag : slice h 32 (mem w2) = take 32 c).
  { rewrite (advance_mem _ _ _ Ea), Hmem. pose proof Hw as Hw3. rewrite <- (take_drop 32 c) in Hw3.
    pose proof (rep_part w h [] (take 32 c) _ t Hw3) as Hp. cbn [length] in Hp. rewrite length_take, Z.add_0_r in Hp. rewrite <- Hp. f_equal. lia. }
  rewrite Htag. set (tag := take 32 c). set (ct := take (length c - 34) (drop 32 c)) in *.
  pose proof (client_key_plaintext_ok w2 _ ct _ tag key Hw2') as Hpt. change TLS_CRYPT_V2_MAX_WKC_LEN with 1024 in Hpt.
  assert (Lct : zlen ct = zlen c - 34) by (unfold ct; rewrite length_take, length_drop; lia). specialize (Hpt ltac:(lia)).
  destruct (stream_out _ _ _ _ _) as [[out f]|] eqn:E5; [|rewrite Hpt; by exists md].
  destruct Hpt as (p & -> & Hp). destruct (ctr_length _ _ _ _ _ _ E5) as [Lout _]. cbn [concat] in Lout. rewrite app_nil_r in Lout.
  cbn [mbind option_bind]. rewrite Eh, (rep_content _ _ _ _ Hp), (buf_len_wf _ (rep_wf _ _ _ _ Hp)), (rep_len _ _ _ _ Hp). cbn [mbind option_bind].
  replace (slice 0 32 _) with (wkc_tag hkey (drop n c) out).
  2: { rewrite <- (slice_all (wkc_tag _ _ _)). unfold wkc_tag. by rewrite mac_length, sha256_size. }
  case_bool_decide; cbn [negb andb]; [|by exists md].
  destruct (256 <=? zlen out) eqn:E6; [replace (zlen out <? 256) with false by lia|replace (zlen out <? 256) with true by lia; by exists md].
  pose proof Hp as Hp'. rewrite <- (take_drop 256 out) in Hp'. destruct (advance_rep _ _ _ _ _ Hp') as (p' & Eb & Hp2).
  assert (L256 : zlen (take 256 out) = 256) by (rewrite length_take; lia). rewrite L256 in Eb, Hp2. rewrite Eb. cbn [mbind option_bind ASSERT].
  pose proof (rep_part p 0 [] (take 256 out) _ _ Hp') as Hk. cbn [length] in Hk. rewrite L256, Z.add_0_r in Hk. rewrite (rep_head _ _ _ _ Hp), Hk.
  unfold buf_copy. rewrite (rep_content _ _ _ _ Hp2).
  destruct (write_rep _ _ _ _ (drop 256 out) Hm) as (md' & -> & Hmd); [apply (rep_bounds _ _ _ _ Hp2)|rewrite length_drop; lia|].
  by exists md'.
Qed.

(** A client key that a server has wrapped is the one that it finds in the packet. *)
Lemma wkc_open_packet key hkey ck md w :
  key2_ok ck -> bytes md -> zlen md <= TLS_CRYPT_V2_MAX_METADATA_LEN -> wkc_packet key hkey ck md w ->
  wkc_open key hkey w = Some (ck, md).
Proof.
  intros Hck Hmd Hlen (ct & Hst & ->). destruct (key2_bytes_ok ck Hck) as (Hkl & Hkb & Hk).
  change TLS_CRYPT_V2_MAX_METADATA_LEN with 734 in *. change KEY2_SIZE with 256 in *. change TLS_CRYPT_TAG_SIZE with 32 in *.
  set (net := be_bytes 2 _) in *. set (tag := wkc_tag _ _ _) in *.
  assert (Lt : zlen tag = 32) by (unfold tag, wkc_tag; rewrite mac_length; apply sha256_size).
  assert (Ln : zlen net = 2) by (unfold net; by rewrite length_be_bytes).
  destruct (ctr_length _ _ _ _ _ _ Hst) as [Lc _]. cbn [concat] in Lc. rewrite app_nil_r, length_app in Lc.
  assert (Lw : zlen (tag ++ ct ++ net) = zlen md + 290) by (rewrite !length_app; lia).
  unfold wkc_open. change TLS_CRYPT_V2_MAX_WKC_LEN with 1024. change TLS_CRYPT_TAG_SIZE with 32. change KEY2_SIZE with 256.
  destruct (1024 <? zlen (tag ++ ct ++ net)) eqn:E1; [lia|]. destruct (zlen (tag ++ ct ++ net) <? 2 + 32) eqn:E2; [lia|]. cbn [orb].
  assert (Hd : drop (length (tag ++ ct ++ net) - 2) (tag ++ ct ++ net) = net).
  { rewrite !app_assoc, drop_app_length'; [done|]. rewrite !length_app in *. lia. }
  assert (Ht : take 32 (tag ++ ct ++ net) = tag) by (apply take_app_length'; lia).
  assert (Hc : take (length (tag ++ ct ++ net) - 34) (drop 32 (tag ++ ct ++ net)) = ct).
  { rewrite drop_app_length' by lia; apply take_app_length'. rewrite !length_app in *. lia. }
  rewrite Hd, Ht, Hc. unfold net at 1. rewrite be_val_be_bytes, Lw, Z.mod_small by lia.
  replace (zlen md + 256 + 2 + 32 =? zlen md + 290) with true by lia. cbn [negb].
  destruct (decrypt_encrypt _ _ _ _ _ _ Hst) as (out & fin & Hdec & Eout). rewrite app_nil_r in Hdec. rewrite Hdec. cbn [mbind option_bind].
  destruct (ctr_length _ _ _ _ _ _ Hdec) as [_ ->]. cbn [concat] in Eout. rewrite !app_nil_r in Eout. subst out.
  rewrite bool_decide_true by done. replace (256 <=? zlen (key2_bytes ck ++ md)) with true by (rewrite length_app; lia). cbn [andb].
  rewrite take_app_length', drop_app_length', Hk by lia. done.
Qed.
End spec.
