(* ===== verification/TlsWrap.v ===== *)
(** * Wrapping of control packets, and packets from unknown clients: [ssl_pkt.c]

    A control packet leaves with the tag of [tls-auth] or encrypted by [tls-crypt], and is
    authenticated when it arrives.  A server answers the first packet of a client without
    keeping anything about it: the session id in its reply is a MAC of the client's address
    and session id and of the time, and the client proves with its next packet that it has
    got the reply. *)
From S2P Require Import Prelude Integers Buffer Frame PacketId EpochKeys DataChannel CryptoV1 Reliable Control Mroute KeyExpansion TlsCrypt.

(** ** The order of the fields with [tls-auth] *)

Definition SWAP_BUF_SIZE : Z := 256.

Section wrap.
Context `{CryptoLib} `{ModeLib}.

Definition swap_hmac (buf : buffer) (co : crypto_options) (incoming : bool) : option (bool * buffer) :=
  '(digest, _) ← kc_hmac (if incoming then co_decrypt co else co_encrypt co);
  let hmac_size := md_kt_size digest + packet_id_size true in
  let osid_size := 1 + SID_SIZE in
  let '(e1, e2) := if incoming then (osid_size, hmac_size) else (hmac_size, osid_size) in
  ASSERT ((e1 <=? SWAP_BUF_SIZE) && (e2 <=? SWAP_BUF_SIZE));;
  if e1 + e2 <=? b_len buf then
    let b := b_offset buf in
    let buf1 := slice b e1 (mem buf) in
    let buf2 := slice (b + e1) e2 (mem buf) in
    Some (true, poke (poke buf b buf2) (b + e2) buf1)
  else Some (false, buf).

(** ** Outgoing *)

(** [P_CONTROL_HARD_RESET_CLIENT_V3] and [P_CONTROL_WKC_V1] carry the wrapped client key. *)
Definition append_wkc (header : Z) (ctx : tls_wrap_ctx) : option (bool * tls_wrap_ctx) :=
  if carries_client_key (Z.shiftr header P_OPCODE_SHIFT) then
    wkc ← tw_wkc ctx;
    let '(ok, work) := buf_copy (tw_work ctx) wkc in
    Some (ok, set_tw_work ctx work)
  else Some (true, ctx).

(** The new [*buf], whose length is 0 when the packet cannot be wrapped. *)
Definition tls_wrap_control (now : Z) (ctx : tls_wrap_ctx) (header : Z) (buf : buffer) (session_id : list Z)
  : option (buffer * tls_wrap_ctx) :=
  match tw_mode ctx with
  | TLS_WRAP_CRYPT =>
      '(ok, work) ← Some (buf_init (tw_work ctx) (b_offset buf));
      ASSERT (ok : bool);;
      '(ok, work) ← Some (buf_write work [header]);
      ASSERT (ok : bool);;
      '(ok, work) ← Some (session_id_write session_id work);
      ASSERT (ok : bool);;
      '(ok, work, opt) ← tls_crypt_wrap now buf work (tw_opt ctx);
      let ctx := set_tw_opt (set_tw_work ctx work) opt in
      if negb (ok : bool) then Some (buf_drop buf, ctx)
      else
        '(ok, ctx) ← append_wkc header ctx;
        Some (if ok : bool then tw_work ctx else buf_drop buf, ctx)
  | mode =>
      '(ok, buf) ← Some (session_id_write_prepend session_id buf);
      ASSERT (ok : bool);;
      '(ok, buf) ← Some (buf_write_prepend buf [header]);
      ASSERT (ok : bool);;
      match mode with
      | TLS_WRAP_AUTH =>
          '(buf, opt) ← openvpn_encrypt now buf clear_buf (tw_opt ctx) [];
          '(ok, buf) ← swap_hmac buf opt false;
          ASSERT (ok : bool);; Some (buf, set_tw_opt ctx opt)
      | _ => Some (buf, ctx)
      end
  end.

(** ** Incoming *)

(** [openvpn_decrypt] is given no frame, and no work buffer. *)
Definition read_tls_auth (now : Z) (buf : buffer) (ctx : tls_wrap_ctx) : option (bool * buffer * tls_wrap_ctx) :=
  '(ok, buf) ← swap_hmac buf (tw_opt ctx) true;
  if negb (ok : bool) then Some (false, buf, ctx)
  else
    '(_, buf, opt) ← openvpn_decrypt now buf clear_buf (tw_opt ctx) (tw_ignore_packet_id ctx) None (b_offset buf);
    Some (negb (b_len buf =? 0), buf, set_tw_opt ctx opt).

Definition read_tls_crypt (now : Z) (buf : buffer) (ctx : tls_wrap_ctx) : option (bool * buffer * tls_wrap_ctx) :=
  tmp ← alloc_buf (buf_forward_capacity_total buf);
  '(tmp, opt) ← tls_crypt_unwrap now buf tmp (tw_opt ctx) (tw_ignore_packet_id ctx);
  let ctx := set_tw_opt ctx opt in
  match tmp with
  | None => Some (false, buf, ctx)
  | Some tmp =>
      '(ok, buf) ← Some (buf_init buf (b_offset buf));
      ASSERT (ok : bool);;
      '(ok, buf) ← Some (buf_copy buf tmp);
      ASSERT (ok : bool);; Some (true, buf, ctx)
  end.

Definition is_wrap_crypt (ctx : tls_wrap_ctx) : bool :=
  match tw_mode ctx with TLS_WRAP_CRYPT => true | _ => false end.

(** What [read_control_auth] does after the client key. *)
Definition read_wrapped (now : Z) (buf : buffer) (ctx : tls_wrap_ctx) : option (bool * buffer * tls_wrap_ctx) :=
  '(ok, buf, ctx) ← match tw_mode ctx with
                    | TLS_WRAP_AUTH => read_tls_auth now buf ctx
                    | TLS_WRAP_CRYPT => read_tls_crypt now buf ctx
                    | TLS_WRAP_NONE => Some (negb (bool_decide (is_Some (kc_cipher (tw_server_key ctx)))), buf, ctx)
                    end;
  if negb (ok : bool) then Some (false, buf, ctx)
  else Some (true, if is_wrap_crypt ctx then buf else (buf_advance buf (SID_SIZE + 1)).2, ctx).

(** The mode is that of [ctx] after a client key has been taken out of the packet. *)
Definition read_control_auth (now : Z) (buf : buffer) (ctx : tls_wrap_ctx) (opt : option v2_options) (initial_packet : bool)
  : option (bool * buffer * tls_wrap_ctx) :=
  let opcode := Z.shiftr (buf_peek_u8 buf) P_OPCODE_SHIFT in
  '(ok, buf, ctx) ← (if carries_client_key opcode then tls_crypt_v2_extract_client_key now buf ctx opt initial_packet
                     else Some (true, buf, ctx));
  if negb (ok : bool) then Some (false, buf, ctx) else read_wrapped now buf ctx.

(** ** Packets from unknown clients *)

Record tls_auth_standalone := mk_tas {
  tas_tls_wrap : tls_wrap_ctx;
  tas_workbuf : buffer;
  tas_frame : frame
}.

Inductive first_packet_verdict :=
| VERDICT_VALID_RESET_V2
| VERDICT_VALID_RESET_V3
| VERDICT_VALID_CONTROL_V1
| VERDICT_VALID_ACK_V1
| VERDICT_VALID_WKC_V1
| VERDICT_INVALID.

Record tls_pre_decrypt_state := mk_pds {
  pds_tls_wrap_tmp : tls_wrap_ctx;
  pds_newbuf : buffer;
  pds_peer_session_id : list Z;
  pds_server_session_id : list Z
}.

Definition set_peer_sid (st : tls_pre_decrypt_state) (sid : list Z) : tls_pre_decrypt_state :=
  mk_pds (pds_tls_wrap_tmp st) (pds_newbuf st) sid (pds_server_session_id st).
Definition set_server_sid (st : tls_pre_decrypt_state) (sid : list Z) : tls_pre_decrypt_state :=
  mk_pds (pds_tls_wrap_tmp st) (pds_newbuf st) (pds_peer_session_id st) sid.
Definition set_wrap_tmp (st : tls_pre_decrypt_state) (ctx : tls_wrap_ctx) : tls_pre_decrypt_state :=
  mk_pds ctx (pds_newbuf st) (pds_peer_session_id st) (pds_server_session_id st).

(** The opcodes of a three-way handshake that has not been completed. *)
Definition first_packet_opcode (op : Z) : bool :=
  (op =? P_CONTROL_HARD_RESET_CLIENT_V2) || (op =? P_CONTROL_HARD_RESET_CLIENT_V3) || (op =? P_CONTROL_V1)
  || (op =? P_CONTROL_WKC_V1) || (op =? P_ACK_V1).

Definition verdict_of (op : Z) : first_packet_verdict :=
  if op =? P_CONTROL_V1 then VERDICT_VALID_CONTROL_V1
  else if op =? P_ACK_V1 then VERDICT_VALID_ACK_V1
  else if op =? P_CONTROL_HARD_RESET_CLIENT_V3 then VERDICT_VALID_RESET_V3
  else if op =? P_CONTROL_WKC_V1 then VERDICT_VALID_WKC_V1
  else VERDICT_VALID_RESET_V2.

(** [junk]: what [clone_buf] finds in the memory it gets. *)
Definition tls_pre_decrypt_lite (now : Z) (tas : tls_auth_standalone) (st : tls_pre_decrypt_state) (junk : list Z)
    (buf : buffer) : option (first_packet_verdict * tls_pre_decrypt_state) :=
  if buf_len buf <? 1 + SID_SIZE then Some (VERDICT_INVALID, st)
  else
    let pkt_firstbyte := buf_peek_u8 buf in
    let op := Z.shiftr pkt_firstbyte P_OPCODE_SHIFT in
    let key_id := Z.land pkt_firstbyte P_KEY_ID_MASK in
    if negb (first_packet_opcode op) then Some (VERDICT_INVALID, st)
    else if negb (key_id =? 0) then Some (VERDICT_INVALID, st)
    else
      match session_id_read (buf_advance buf 1).2 with
      | (None, _) => Some (VERDICT_INVALID, st)
      | (Some sid, _) =>
          let st := set_peer_sid st sid in
          if negb (session_id_defined sid) then Some (VERDICT_INVALID, st)
          else
            '(status, newbuf, ctx) ← read_control_auth now (clone_buf junk buf) (tas_tls_wrap tas) None true;
            Some (if status : bool then verdict_of op else VERDICT_INVALID,
                  mk_pds ctx newbuf sid (pds_server_session_id st))
      end.

(** A hard reset, with id 0, that acknowledges packet 0: the results of the writes that have
    one are not looked at but for the id of the packet. *)
Definition tls_reset_standalone (now : Z) (ctx : tls_wrap_ctx) (tas : tls_auth_standalone) (own_sid remote_sid : list Z)
    (header : Z) (request_resend_wkc : bool) : option (buffer * tls_wrap_ctx) :=
  '(ok, buf) ← Some (buf_init (tas_workbuf tas) (f_headroom (tas_frame tas)));
  ASSERT (ok : bool);;
  let buf := (buf_write_u8 buf 1).2 in
  let buf := (buf_write_u32 buf 0).2 in
  let buf := (buf_write buf remote_sid).2 in
  '(ok, buf) ← Some (buf_write buf (be_bytes 4 0));
  ASSERT (ok : bool);;
  let buf := if request_resend_wkc then
               let buf := (buf_write_u16 buf TLV_TYPE_EARLY_NEG_FLAGS).2 in
               let buf := (buf_write_u16 buf 2).2 in
               (buf_write_u16 buf EARLY_NEG_FLAG_RESEND_WKC).2
             else buf in
  tls_wrap_control now ctx header buf own_sid.

(** ** The session id of a reply *)

(** [sockaddr_image]: the bytes of a [struct sockaddr_in] or [struct sockaddr_in6] on this
    machine; nothing is hashed for another family. *)
Definition address_image (sockaddr_image : openvpn_sockaddr -> list Z) (from : openvpn_sockaddr) : list Z :=
  match from with SockOther => [] | _ => sockaddr_image from end.

(** [hmac]: the key of the MAC.  A [handwindow] of 0 is a division by zero. *)
Definition calculate_session_id_hmac (sockaddr_image : openvpn_sockaddr -> list Z) (now : Z) (client_sid : list Z)
    (from : openvpn_sockaddr) (hmac : list Z) (handwindow offset : Z) : option (list Z) :=
  let quantum := (handwindow + 1) / 2 in
  ASSERT (negb (quantum =? 0));;
  let session_id_time := be_bytes 4 (u32 (now / quantum + offset)) in
  Some (slice 0 SID_SIZE (hmac_sha256 hmac (session_id_time ++ address_image sockaddr_image from ++ client_sid))).

(** The loop over the time slots, the oldest first. *)
Fixpoint check_slots (sockaddr_image : openvpn_sockaddr -> list Z) (now : Z) (st : tls_pre_decrypt_state)
    (from : openvpn_sockaddr) (hmac : list Z) (handwindow : Z) (offsets : list Z) : option bool :=
  match offsets with
  | [] => Some false
  | offset :: offsets =>
      expected_id ← calculate_session_id_hmac sockaddr_image now (pds_peer_session_id st) from hmac handwindow offset;
      if bool_decide (expected_id = pds_server_session_id st) then Some true
      else check_slots sockaddr_image now st from hmac handwindow offsets
  end.

(** Without acknowledgements the server's session id stays what it was. *)
Definition check_session_hmac_and_pkt_id (sockaddr_image : openvpn_sockaddr -> list Z) (now : Z)
    (st : tls_pre_decrypt_state) (from : openvpn_sockaddr) (hmac : list Z) (handwindow : Z) (pkt_is_ack : bool)
  : option (bool * tls_pre_decrypt_state) :=
  let '(ok, buf, ack, sid) := reliable_ack_parse (pds_newbuf st) in
  let st := match sid with Some sid => set_server_sid st sid | None => st end in
  if negb ok then Some (false, st)
  else if existsb (fun id => 1 <? id) ack then Some (false, st)
  else
    let message_id := if pkt_is_ack then Some 0 else (reliable_ack_read_packet_id buf).1 in
    match message_id with
    | None => Some (false, st)
    | Some message_id =>
        if 1 <? message_id then Some (false, st)
        else
          ok ← check_slots sockaddr_image now st from hmac handwindow [-2; -1; 0];
          Some (ok, st)
    end.
End wrap.
