(* ===== verification/WrapSpec.v ===== *)
(** * What is accepted of the control channel

    [control_open] says which packets [read_control_auth] accepts and what they carry, with
    and without authentication and encryption; [tls_wrap_control] makes such packets. *)
From S2P Require Import Prelude Integers Buffer Frame PacketId Replay EpochKeys DataChannel CryptoV1 CryptoModes Reliable Control Mroute KeyExpansion TlsCrypt TlsCryptSpec TlsWrap.

Section control.
Context `{CL : CryptoLib} `{Cok : !CryptoLaws} `{ML : ModeLib} `{Mok : !ModeLaws} `{Ctr : !CtrLaws}.

(** ** The order of the fields *)

(** The first [n] bytes and the next [m], the other way round. *)
Definition swap_at (n m : nat) (c : list Z) : list Z := take m (drop n c) ++ take n c ++ drop (n + m) c.

Lemma swap_at_app x y z : swap_at (length x) (length y) (x ++ y ++ z) = y ++ x ++ z.
Proof.
  unfold swap_at. rewrite drop_app_length, !take_app_length. do 2 f_equal.
  rewrite app_assoc, <- length_app. apply drop_app_length.
Qed.

Lemma poke_swap b h x y z t :
  buf_rep b h (x ++ y ++ z) t ->
  buf_rep (poke (poke b h y) (h + zlen y) x) h (y ++ x ++ z) t.
Proof.
  intros Hb. pose proof (rep_bounds _ _ _ _ Hb) as (_ & _ & _ & Hby). apply Forall_app in Hby as [Hx [Hy Hz]%Forall_app].
  rewrite app_assoc in Hb. set (l := x ++ y) in *. assert (Hl : length l = (length y + length x)%nat) by (unfold l; rewrite length_app; lia).
  rewrite <- (take_drop (length y) l), <- app_assoc in Hb.
  pose proof (poke_rep b h [] _ _ t y Hb) as H1. cbn [length app] in H1. rewrite Z.add_0_r in H1.
  apply (poke_rep (poke b h y) h y (drop (length y) l) z t x); [apply H1|..]; try done.
  - rewrite length_take. lia.
  - rewrite length_drop. lia.
Qed.

(** The digest of [tls-auth], whose context has no cipher. *)
Definition auth_keys (ctx : key_ctx) (digest : string) (hkey : list Z) : Prop :=
  kc_cipher ctx = None /\ kc_hmac ctx = Some (digest, hkey).

Lemma swap_hmac_ok buf h c t co (incoming : bool) digest hkey :
  buf_rep buf h c t -> kc_hmac (if incoming then co_decrypt co else co_encrypt co) = Some (digest, hkey) ->
  let e1 := if incoming then 9 else md_kt_size digest + 8 in
  let e2 := if incoming then md_kt_size digest + 8 else 9 in
  exists buf', swap_hmac buf co incoming = Some (e1 + e2 <=? zlen c, buf') /\
    buf_rep buf' h (if e1 + e2 <=? zlen c then swap_at (Z.to_nat e1) (Z.to_nat e2) c else c) t.
Proof.
  intros Hb Hk e1 e2. unfold swap_hmac. rewrite Hk, Some_bind. pose proof (md_size_ok digest) as Hd. change MAX_HMAC_KEY_LENGTH with 64 in Hd.
  change (packet_id_size true) with 8. change (1 + SID_SIZE) with 9. change SWAP_BUF_SIZE with 256.
  replace (if incoming then (9, md_kt_size digest + 8) else (md_kt_size digest + 8, 9)) with (e1, e2) by by destruct incoming.
  assert (He : 0 <= e1 <= 256 /\ 0 <= e2 <= 256) by (subst e1 e2; destruct incoming; lia). clearbody e1 e2.
  rewrite ASSERT_true, Some_bind, (rep_len _ _ _ _ Hb), (rep_head _ _ _ _ Hb) by lia.
  destruct (e1 + e2 <=? zlen c) eqn:E; [|by exists buf]. eexists. split; [done|].
  set (x := take (Z.to_nat e1) c). set (y := take (Z.to_nat e2) (drop (Z.to_nat e1) c)). set (z := drop (Z.to_nat e1 + Z.to_nat e2) c).
  assert (Ec : c = x ++ y ++ z) by (unfold x, y, z; rewrite app_assoc, take_take_drop, take_drop; done).
  assert (Lx : zlen x = e1) by (unfold x; rewrite length_take; lia). assert (Ly : zlen y = e2) by (unfold y; rewrite length_take, length_drop; lia).
  pose proof Hb as Hb2. rewrite Ec in Hb2. pose proof (rep_part buf h x y z t Hb2) as Hy. pose proof (rep_part buf h [] x _ t Hb2) as Hx.
  rewrite Lx, Ly in *. cbn [length] in Hx. rewrite Z.add_0_r in Hx. rewrite Hx, Hy.
  rewrite Ec. pose proof (swap_at_app x y z) as Hs. replace (length x) with (Z.to_nat e1) in Hs by lia. replace (length y) with (Z.to_nat e2) in Hs by lia.
  rewrite Hs, <- Ly. by apply poke_swap.
Qed.

(** ** One packet *)

(** A context that can open packets. *)
Definition wrap_ready (ctx : tls_wrap_ctx) : Prop :=
  match tw_mode ctx with
  | TLS_WRAP_NONE => True
  | TLS_WRAP_AUTH => (exists digest hkey, auth_keys (co_decrypt (tw_opt ctx)) digest hkey) /\
      packet_id_initialized (co_packet_id (tw_opt ctx)) = true /\ co_long_form (tw_opt ctx) = true
  | TLS_WRAP_CRYPT => (exists key hkey, crypt_keys (co_decrypt (tw_opt ctx)) key hkey) /\
      packet_id_initialized (co_packet_id (tw_opt ctx)) || tw_ignore_packet_id ctx = true
  end.

(** Behind opcode and session id: the tag, the packet id and the rest. *)
Definition auth_open (digest : string) (hkey c : list Z) : option (packet_id_net * list Z) :=
  let n := md_kt_size digest in
  if zlen c <? 9 + (n + 8) then None
  else
    let pid := slice (9 + n) 8 c in
    let m := drop (Z.to_nat (9 + (n + 8))) c in
    if bool_decide (slice 9 n c = md_hmac digest hkey (pid ++ take 9 c ++ m)) then Some (parse_pin true pid, m) else None.

(** The id of a packet, if it is looked at, and what it carries; [None] when it is dropped. *)
Definition control_open (ctx : tls_wrap_ctx) (c : list Z) : option (option packet_id_net * list Z) :=
  let seen (pin : packet_id_net) := if tw_ignore_packet_id ctx then None else Some pin in
  match tw_mode ctx with
  | TLS_WRAP_NONE => if bool_decide (is_Some (kc_cipher (tw_server_key ctx))) then None else Some (None, drop 9 c)
  | TLS_WRAP_AUTH =>
      '(digest, hkey) ← kc_hmac (co_decrypt (tw_opt ctx));
      '(pin, m) ← auth_open digest hkey c; Some (seen pin, m)
  | TLS_WRAP_CRYPT =>
      '(_, key) ← kc_cipher (co_decrypt (tw_opt ctx));
      '(_, hkey) ← kc_hmac (co_decrypt (tw_opt ctx));
      '(pin, m) ← crypt_open key hkey c; Some (seen pin, m)
  end.

Lemma set_tw_opt_same ctx : set_tw_opt ctx (tw_opt ctx) = ctx.
Proof. by destruct ctx. Qed.

(** What [read_control_auth] makes of a packet that says this. *)
Definition verdict (now : Z) (ctx : tls_wrap_ctx) (o : option (option packet_id_net * list Z))
    (res : option (bool * buffer * tls_wrap_ctx)) : Prop :=
  exists bad, match o with
              | None => res = Some (false, bad, ctx)
              | Some (pin, m) => exists out ho to, buf_rep out ho m to /\
                  res = match pin with
                        | None => Some (true, out, ctx)
                        | Some pin => '(ok, opt) ← crypto_check_replay now (tw_opt ctx) pin 0;
                                      Some (ok : bool, if ok then out else bad, set_tw_opt ctx opt)
                        end
              end.

Lemma parse_pin_app (x y : list Z) : (8 <= length x)%nat -> parse_pin true (x ++ y) = parse_pin true x.
Proof.
  intros. unfold parse_pin. rewrite take_app_le, drop_app_le, take_app_le by (rewrite ?length_drop; lia). done.
Qed.

Lemma auth_open_v1 ctx c digest hkey :
  auth_keys (co_decrypt (tw_opt ctx)) digest hkey ->
  packet_id_initialized (co_packet_id (tw_opt ctx)) = true -> co_long_form (tw_opt ctx) = true ->
  9 + (md_kt_size digest + 8) <= zlen c ->
  v1_open (tw_opt ctx) (tw_ignore_packet_id ctx) (swap_at 9 (Z.to_nat (md_kt_size digest + 8)) c) =
  '(pin, m) ← auth_open digest hkey c; Some (if tw_ignore_packet_id ctx then None else Some pin, take 9 c ++ m).
Proof.
  intros [Ek Eh] Hi Hlf Hc. pose proof (md_size_ok digest) as [Hn _]. unfold v1_open, auth_open. set (n := md_kt_size digest) in *.
  destruct (zlen c <? 9 + (n + 8)) eqn:E0; [lia|]. set (pid := slice (9 + n) 8 c). set (m := drop (Z.to_nat (9 + (n + 8))) c). set (tag := slice 9 n c).
  assert (Es : swap_at 9 (Z.to_nat (n + 8)) c = tag ++ pid ++ take 9 c ++ m).
  { rewrite (app_assoc tag). unfold tag, pid. rewrite <- (slice_split 9 n 8 c) by lia. unfold swap_at, m, slice.
    f_equal. f_equal. f_equal. lia. }
  assert (Lt : zlen tag = n) by (apply length_slice; lia). assert (Lp : zlen pid = 8) by (apply length_slice; lia).
  rewrite Es. unfold strip_tag. rewrite Eh. fold n.
  rewrite take_app_length', drop_app_length' by lia. case_bool_decide as Et; [|done].
  unfold v1_plain. rewrite Ek. cbn [mbind option_bind]. unfold v1_id, id_in_iv. rewrite Ek, Hi, Hlf. change (packet_id_size true) with 8.
  rewrite (bool_decide_false (is_Some None)) by (intros [? ?]; done). cbn [negb]. rewrite andb_true_r.
  destruct (_ <? 8) eqn:E1; [rewrite length_app in E1; lia|]. change (Z.to_nat 8) with 8%nat.
  rewrite drop_app_length' by lia. do 2 f_equal. destruct (tw_ignore_packet_id ctx); [done|]. f_equal.
  by apply parse_pin_app; lia.
Qed.

Lemma read_tls_auth_ok now buf h c t ctx :
  buf_rep buf h c t -> tw_mode ctx = TLS_WRAP_AUTH -> wrap_ready ctx -> verdict now ctx (control_open ctx c) (read_wrapped now buf ctx).
Proof.
  intros Hb Hmode Hr. unfold verdict, control_open, read_wrapped, wrap_ready in *. rewrite Hmode in *.
  destruct Hr as ((digest & hkey & Hk) & Hi & Hlf). pose proof Hk as [Ek Eh]. pose proof (md_size_ok digest) as [Hn _].
  unfold read_tls_auth. destruct (swap_hmac_ok buf h c t (tw_opt ctx) true digest hkey Hb Eh) as (b1 & -> & Hb1).
  rewrite Eh, !Some_bind. destruct (9 + (md_kt_size digest + 8) <=? zlen c) eqn:E0; cbn [negb].
  2: { unfold auth_open. replace (zlen c <? 9 + (md_kt_size digest + 8)) with true by lia. cbn [mbind option_bind negb]. by exists b1. }
  pose proof (auth_open_v1 ctx c digest hkey Hk Hi Hlf ltac:(lia)) as Hv. change (Z.to_nat 9) with 9%nat in Hb1. set (sc := swap_at 9 _ c) in *.
  assert (Lsc : zlen sc = zlen c) by (unfold sc, swap_at; rewrite !length_app, !length_take, !length_drop; lia).
  unfold openvpn_decrypt. rewrite (rep_len _ _ _ _ Hb1). destruct (zlen sc <=? 0) eqn:E1; [lia|].
  unfold cipher_ctx_mode_aead. rewrite Ek.
  destruct (decrypt_v1_ok now b1 h sc t clear_buf (tw_opt ctx) (tw_ignore_packet_id ctx) None Hb1) as (dropped & Hd & Hx).
  - intros ->. cbn [length] in Lsc. lia.
  - unfold legacy. by rewrite Ek.
  - done.
  - unfold work_ready. by rewrite Ek.
  - rewrite Hv in Hx. destruct (auth_open digest hkey c) as [[pin m]|]; cbn [mbind option_bind] in Hx |- *.
    2: { rewrite Hx, !Some_bind, Hd, Z.eqb_refl. cbn [negb]. exists dropped. by rewrite set_tw_opt_same. }
    destruct Hx as (out & ho & to & Hout & Hx). destruct (advance_rep out ho (take 9 c) m to Hout) as (out' & Ha & Hout').
    replace (zlen (take 9 c)) with 9 in Ha, Hout' by (rewrite length_take; lia).
    assert (Hne : b_len out =? 0 = false).
    { rewrite (rep_len _ _ _ _ Hout), length_app, length_take. lia. }
    exists dropped, out', (ho + 9), to. split; [done|]. rewrite Hx. destruct (tw_ignore_packet_id ctx); cbn [mbind option_bind].
    + unfold is_wrap_crypt. rewrite Hne, set_tw_opt_same, Hmode. cbn [negb]. change (SID_SIZE + 1) with 9. by rewrite Ha.
    + destruct (crypto_check_replay _ _ _ _) as [[[] o]|]; [|..|done]; cbn [mbind option_bind].
      * unfold is_wrap_crypt. rewrite Hne. cbn [negb tw_mode set_tw_opt]. rewrite Hmode. change (SID_SIZE + 1) with 9. by rewrite Ha.
      * by rewrite Hd, Z.eqb_refl.
Qed.

Lemma crypt_open_length key hkey c pin m : crypt_open key hkey c = Some (pin, m) -> zlen m <= zlen c.
Proof.
  unfold crypt_open. destruct (zlen c <? TLS_CRYPT_OFF_CT) eqn:E0; [done|]. destruct (stream_out _ _ _ _ _) as [[out f]|] eqn:E; [|done].
  cbn [mbind option_bind]. case_bool_decide; [|done]. intros [= _ <-]. apply ctr_length in E as [El _].
  cbn [concat] in El. rewrite app_nil_r, length_drop in El. lia.
Qed.

Lemma read_tls_crypt_ok now buf h c t ctx :
  buf_rep buf h c t -> tw_mode ctx = TLS_WRAP_CRYPT -> wrap_ready ctx -> verdict now ctx (control_open ctx c) (read_wrapped now buf ctx).
Proof.
  intros Hb Hmode Hr. unfold verdict, control_open, read_wrapped, wrap_ready in *. rewrite Hmode in *.
  destruct Hr as ((key & hkey & Hk) & Hi). pose proof Hk as [Ek Eh]. rewrite Ek, Eh, !Some_bind. unfold read_tls_crypt.
  pose proof (rep_bounds _ _ _ _ Hb) as (Hh & Ht & Hcap & _). change BUF_SIZE_MAX with 1000000 in *.
  unfold buf_forward_capacity_total. rewrite (rep_valid _ _ _ _ Hb), (rep_cap _ _ _ _ Hb), (rep_head _ _ _ _ Hb).
  destruct (Z.ltb_spec (h + zlen c + t - h) 0); [lia|].
  destruct (alloc_some (h + zlen c + t - h)) as (tmp & -> & Htmp); [unfold BUF_SIZE_MAX; lia|]. rewrite Some_bind.
  pose proof (tls_crypt_unwrap_ok now buf h c t tmp 0 _ (tw_opt ctx) key hkey (tw_ignore_packet_id ctx) Hb Htmp ltac:(lia) Hk Hi) as Hu.
  pose proof (crypt_open_length key hkey c) as Hlen.
  destruct (crypt_open key hkey c) as [[pin m]|]; cbn [mbind option_bind].
  2: { rewrite Hu. cbn [mbind option_bind negb]. exists buf. by rewrite set_tw_opt_same. }
  destruct Hu as (d & dt & Hd & ->). specialize (Hlen pin m eq_refl).
  destruct (init_rep _ _ _ _ h Hb) as (b1 & Hi1 & Hb1); [lia|].
  destruct (write_rep _ _ _ _ m Hb1) as (b2 & Hw2 & Hb2); [apply (rep_bounds _ _ _ _ Hd)|lia|].
  exists buf, b2, h. eexists. split; [done|]. unfold is_wrap_crypt, buf_copy.
  destruct (tw_ignore_packet_id ctx); cbn [mbind option_bind].
  - rewrite Hi1. cbn [mbind option_bind ASSERT]. rewrite (rep_content _ _ _ _ Hd), Hw2. cbn [mbind option_bind ASSERT negb]. by rewrite set_tw_opt_same, Hmode.
  - destruct (crypto_check_replay _ _ _ _) as [[[] o]|]; [|done..]. cbn [mbind option_bind].
    rewrite Hi1. cbn [mbind option_bind ASSERT]. rewrite (rep_content _ _ _ _ Hd), Hw2. cbn [mbind option_bind ASSERT negb tw_mode set_tw_opt]. by rewrite Hmode.
Qed.

Lemma read_wrapped_ok now buf h c t ctx :
  buf_rep buf h c t -> wrap_ready ctx ->
  (tw_mode ctx = TLS_WRAP_NONE -> 9 <= zlen c \/ is_Some (kc_cipher (tw_server_key ctx))) ->
  verdict now ctx (control_open ctx c) (read_wrapped now buf ctx).
Proof.
  intros Hb Hr Hc. destruct (tw_mode ctx) eqn:Hmode; [|by apply read_tls_auth_ok with h t|by apply read_tls_crypt_ok with h t].
  unfold verdict, control_open, read_wrapped, is_wrap_crypt. rewrite Hmode, Some_bind. exists buf.
  case_bool_decide as E; cbn [negb]; [done|]. destruct (Hc eq_refl) as [Hlen|]; [|done].
  rewrite <- (take_drop 9 c) in Hb. destruct (advance_rep _ _ _ _ _ Hb) as (out & Ha & Hout).
  replace (zlen (take 9 c)) with 9 in Ha, Hout by (rewrite length_take; lia). change (SID_SIZE + 1) with 9. rewrite Ha.
  exists out, (h + 9), t. by rewrite Hmode.
Qed.

(** ** Packets that are sent *)

(** What a context needs to send a packet of [n] bytes: its keys, the room in front of the
    packet, or a work buffer. *)
Definition wrap_room (ctx : tls_wrap_ctx) (h n : Z) : Prop :=
  match tw_mode ctx with
  | TLS_WRAP_NONE => 9 <= h
  | TLS_WRAP_AUTH => exists digest hkey, auth_keys (co_encrypt (tw_opt ctx)) digest hkey /\ 9 + md_kt_size digest + 8 <= h
  | TLS_WRAP_CRYPT => (exists key hkey, crypt_keys (co_encrypt (tw_opt ctx)) key hkey) /\
      exists wh wc wt, buf_rep (tw_work ctx) wh wc wt /\ h + 9 + 8 + n + 16 + 32 <= wh + zlen wc + wt
  end.

(** The packet ids that a context with keys uses. *)
Definition wrap_next (now : Z) (ctx : tls_wrap_ctx) (p' : packet_id_send) : Prop :=
  match tw_mode ctx with
  | TLS_WRAP_NONE => p' = send (co_packet_id (tw_opt ctx))
  | _ => packet_id_initialized (co_packet_id (tw_opt ctx)) = true /\ co_long_form (tw_opt ctx) = true /\
         packet_id_send_update now (send (co_packet_id (tw_opt ctx))) true = (true, p') /\ is_u32 (s_id p') /\ is_u32 (s_time p')
  end.

(** The key of the client, where the packet carries it. *)
Definition wrap_extra (ctx : tls_wrap_ctx) (header : Z) : list Z :=
  match tw_mode ctx with
  | TLS_WRAP_CRYPT => if carries_client_key (Z.shiftr header P_OPCODE_SHIFT)
                      then match tw_wkc ctx with Some w => content w | None => [] end else []
  | _ => []
  end.

(** The two ends of the channel have the same keys. *)
Definition same_wrap (s r : tls_wrap_ctx) : Prop :=
  tw_mode s = tw_mode r /\
  match tw_mode s with
  | TLS_WRAP_NONE => kc_cipher (tw_server_key r) = None
  | _ => same_keys (co_encrypt (tw_opt s)) (co_decrypt (tw_opt r))
  end.

Definition wrap_seen (r : tls_wrap_ctx) (p' : packet_id_send) : option packet_id_net :=
  match tw_mode r with
  | TLS_WRAP_NONE => None
  | _ => if tw_ignore_packet_id r then None else Some (sent_pin p')
  end.

Lemma wrap_none_ok buf h m t header sid :
  buf_rep buf h m t -> 9 <= h -> is_u8 header -> bytes sid -> zlen sid = 8 ->
  exists b1 b2, session_id_write_prepend sid buf = (true, b1) /\ buf_write_prepend b1 [header] = (true, b2) /\
    buf_rep b2 (h - 9) ((header :: sid) ++ m) t.
Proof.
  intros Hb Hh Hhd Hsid Hl. destruct (write_prepend_rep _ _ _ _ sid Hb Hsid) as (b1 & E1 & Hb1); [lia|].
  destruct (write_prepend_rep _ _ _ _ [header] Hb1) as (b2 & E2 & Hb2); [by constructor|cbn [length]; lia|].
  exists b1, b2. split; [done|]. split; [done|]. eapply rep_eq; [exact Hb2|cbn [length]; lia|done|done].
Qed.

Lemma auth_open_packet digest hkey pin hdr m :
  is_u32 (n_id pin) -> is_u32 (n_time pin) -> zlen hdr = 9 ->
  auth_open digest hkey (hdr ++ (md_hmac digest hkey (pid_bytes true pin ++ hdr ++ m) ++ pid_bytes true pin) ++ m) = Some (pin, m).
Proof.
  intros Hi Ht Hh. set (tag := md_hmac _ _ _). pose proof (mac_length digest hkey (pid_bytes true pin ++ hdr ++ m)) as Lt. fold tag in Lt.
  assert (Lp : zlen (pid_bytes true pin) = 8) by apply (length_pid_bytes true). set (pid := pid_bytes true pin) in *.
  unfold auth_open. set (n := md_kt_size digest) in *. set (c := hdr ++ _).
  destruct (zlen c <? 9 + (n + 8)) eqn:E; [unfold c in E; rewrite !length_app in E; lia|].
  assert (E1 : slice 9 n c = tag).
  { unfold slice, c. rewrite drop_app_length' by lia. rewrite <- app_assoc. apply take_app_length'. lia. }
  assert (E2 : slice (9 + n) 8 c = pid).
  { unfold slice, c. rewrite <- app_assoc, app_assoc, drop_app_length' by (rewrite length_app; lia). apply take_app_length'. lia. }
  assert (E3 : drop (Z.to_nat (9 + (n + 8))) c = m).
  { unfold c. rewrite app_assoc. apply drop_app_length'. rewrite !length_app. lia. }
  assert (E4 : take 9 c = hdr) by (unfold c; apply take_app_length'; lia).
  rewrite E1, E2, E3, E4. rewrite bool_decide_true by done. do 2 f_equal. rewrite <- (app_nil_r pid). unfold pid.
  rewrite parse_pid_bytes by done. by destruct pin.
Qed.

Lemma wrap_auth_ok now ctx buf h m t header sid p' :
  tw_mode ctx = TLS_WRAP_AUTH -> buf_rep buf h m t -> wrap_room ctx h (zlen m) -> wrap_next now ctx p' ->
  is_u8 header -> bytes sid -> zlen sid = 8 ->
  exists out oh ot pkt, tls_wrap_control now ctx header buf sid = Some (out, set_tw_opt ctx (set_send (tw_opt ctx) p')) /\
    buf_rep out oh pkt ot /\ (oh <= h /\ oh + zlen pkt <= h + zlen m + 49) /\ take 9 pkt = header :: sid /\
    forall r, same_wrap ctx r -> control_open r pkt = Some (wrap_seen r p', m).
Proof.
  unfold wrap_room, wrap_next, tls_wrap_control, same_wrap, control_open, wrap_seen. intros Hmode Hb Hroom Hn Hhd Hsid Hl. rewrite Hmode in *.
  destruct Hroom as (digest & hkey & [Ek Eh] & Hroom). destruct Hn as (Hi & Hlf & Hn & Hu1 & Hu2). pose proof (md_size_ok digest) as [Hds _].
  destruct (wrap_none_ok buf h m t header sid Hb) as (b1 & b2 & -> & E & Hb2); [lia|done..|].
  rewrite Some_bind, (ASSERT_true true), Some_bind, E, Some_bind, (ASSERT_true true), Some_bind by done. set (hdr := header :: sid) in *.
  assert (Lh : zlen hdr = 9) by (unfold hdr; cbn [length]; lia).
  destruct (encrypt_auth_ok now b2 (h - 9) (hdr ++ m) t clear_buf [] (tw_opt ctx) [] p' Hb2) as (out & oh & He & Hout & Hoh); try done.
  { unfold next_id, id_form, id_in_iv. by rewrite Hi, Ek, Hlf. }
  { unfold tag_size. rewrite Eh. cbn [length]. lia. }
  unfold openvpn_encrypt, cipher_ctx_mode_aead. rewrite (rep_len _ _ _ _ Hb2), Ek, He.
  destruct (zlen (hdr ++ m) <=? 0) eqn:E0; [rewrite length_app in E0; lia|]. rewrite Some_bind.
  unfold id_field, tagged, id_in_iv in Hout. rewrite Hi, Ek, Hlf, Eh in Hout. cbn [negb andb app] in Hout.
  set (pid := pid_bytes true (sent_pin p')) in *. set (tag := md_hmac _ _ _) in *.
  assert (Eh2 : kc_hmac (co_encrypt (set_send (tw_opt ctx) p')) = Some (digest, hkey)) by (by destruct (tw_opt ctx)).
  destruct (swap_hmac_ok out oh _ t (set_send (tw_opt ctx) p') false digest hkey Hout Eh2) as (o2 & -> & Ho2).
  assert (Lt : zlen tag = md_kt_size digest) by apply mac_length. assert (Lp : zlen pid = 8) by apply (length_pid_bytes true).
  assert (Lc : md_kt_size digest + 8 + 9 <=? zlen (tag ++ pid ++ hdr ++ m) = true) by (rewrite !length_app; lia).
  rewrite Lc in Ho2 |- *. cbn [mbind option_bind ASSERT].
  assert (Es : swap_at (Z.to_nat (md_kt_size digest + 8)) (Z.to_nat 9) (tag ++ pid ++ hdr ++ m) = hdr ++ (tag ++ pid) ++ m).
  { rewrite (app_assoc tag). replace (Z.to_nat (md_kt_size digest + 8)) with (length (tag ++ pid)) by (rewrite length_app; lia).
    replace (Z.to_nat 9) with (length hdr) by lia. apply swap_at_app. }
  rewrite Es in Ho2. exists o2, oh, t. eexists. split; [done|]. split; [exact Ho2|]. split; [pose proof (length_pid_bytes true (sent_pin p')); unfold tag_size, id_field, id_in_iv in Hoh; rewrite Eh, Hi, Ek, Hlf in Hoh; cbn [length negb andb] in Hoh; fold pid in Hoh; rewrite !length_app; lia|]. split; [apply take_app_length'; lia|].
  intros r [Hm [_ Hk]]. rewrite <- Hm, <- Hk, Eh, Some_bind.
  pose proof (auth_open_packet digest hkey (sent_pin p') hdr m) as Ho. fold pid tag in Ho. rewrite Ho by done. done.
Qed.

Lemma wrap_none_packet now ctx buf h m t header sid :
  tw_mode ctx = TLS_WRAP_NONE -> buf_rep buf h m t -> 9 <= h -> is_u8 header -> bytes sid -> zlen sid = 8 ->
  exists out oh ot pkt, tls_wrap_control now ctx header buf sid = Some (out, ctx) /\
    buf_rep out oh pkt ot /\ (oh <= h /\ oh + zlen pkt <= h + zlen m + 49) /\ take 9 pkt = header :: sid /\
    forall r, same_wrap ctx r -> control_open r pkt = Some (None, m).
Proof.
  unfold tls_wrap_control, same_wrap, control_open. intros Hmode Hb Hroom Hhd Hsid Hl. rewrite Hmode.
  destruct (wrap_none_ok buf h m t header sid Hb) as (b1 & b2 & -> & E & Hb2); [lia|done..|].
  rewrite Some_bind, (ASSERT_true true), Some_bind, E, Some_bind, (ASSERT_true true), Some_bind by done.
  assert (Lh : zlen (header :: sid) = 9) by (cbn [length]; lia).
  exists b2, (h - 9), t. eexists. split; [done|]. split; [exact Hb2|]. split; [rewrite length_app; lia|]. split; [apply take_app_length'; lia|].
  intros r [<- ->]. rewrite bool_decide_false by (intros [? ?]; done). do 2 f_equal. apply drop_app_length'. lia.
Qed.

(** The work buffer takes the header, the packet under [tls-crypt] and the client's key. *)
Lemma wrap_crypt_ok now ctx buf h m t header sid p' :
  tw_mode ctx = TLS_WRAP_CRYPT -> buf_rep buf h m t -> wrap_room ctx h (zlen m + zlen (wrap_extra ctx header)) -> wrap_next now ctx p' ->
  is_u8 header -> bytes sid -> zlen sid = 8 ->
  (carries_client_key (Z.shiftr header P_OPCODE_SHIFT) = true -> exists w wh wc wt, tw_wkc ctx = Some w /\ buf_rep w wh wc wt) ->
  exists out oh ot pkt, tls_wrap_control now ctx header buf sid = Some (out, set_tw_opt (set_tw_work ctx out) (set_send (tw_opt ctx) p')) /\
    buf_rep out oh (pkt ++ wrap_extra ctx header) ot /\ (oh <= h /\ oh + zlen pkt <= h + zlen m + 49) /\ take 9 pkt = header :: sid /\ 49 <= zlen pkt /\
    forall r, same_wrap ctx r -> control_open r pkt = Some (wrap_seen r p', m).
Proof.
  unfold wrap_room, wrap_next, tls_wrap_control, same_wrap, control_open, wrap_seen, wrap_extra. intros Hmode Hb Hroom Hn Hhd Hsid Hl Hwkc. rewrite Hmode in *.
  destruct Hroom as ((key & hkey & Hk) & wh & wc & wt & Hw & Hroom). destruct Hn as (Hi & Hlf & Hn & Hu1 & Hu2).
  pose proof (rep_bounds _ _ _ _ Hb) as (Hh & _). rewrite (rep_head _ _ _ _ Hb).
  destruct (init_rep _ _ _ _ h Hw) as (w1 & -> & Hw1); [lia|]. rewrite Some_bind, (ASSERT_true true), Some_bind by done.
  destruct (write_rep _ _ _ _ [header] Hw1) as (w2 & -> & Hw2); [by constructor|cbn [length]; lia|]. rewrite Some_bind, (ASSERT_true true), Some_bind by done.
  unfold session_id_write. destruct (write_rep _ _ _ _ sid Hw2 Hsid) as (w3 & -> & Hw3); [cbn [length]; lia|]. rewrite Some_bind, (ASSERT_true true), Some_bind by done.
  change (([] ++ [header]) ++ sid) with (header :: sid) in Hw3. set (hdr := header :: sid) in *. assert (Lh : zlen hdr = 9) by (unfold hdr; cbn [length]; lia).
  destruct (tls_crypt_wrap_ok now buf h m t w3 h hdr _ (tw_opt ctx) key hkey p' Hb Hw3 Hk Hi Hn) as (w4 & pkt & -> & Hw4 & Hp).
  { cbn [length] in *. destruct (carries_client_key _); [|cbn [length] in Hroom]; lia. }
  rewrite Some_bind. cbn [negb].
  assert (Ho : forall r, TLS_WRAP_CRYPT = tw_mode r /\ same_keys (co_encrypt (tw_opt ctx)) (co_decrypt (tw_opt r)) ->
    match tw_mode r with
    | TLS_WRAP_NONE => if bool_decide (is_Some (kc_cipher (tw_server_key r))) then None else Some (None, drop 9 pkt)
    | TLS_WRAP_AUTH => '(digest, hkey) ← kc_hmac (co_decrypt (tw_opt r)); '(pin, m) ← auth_open digest hkey pkt;
        Some (if tw_ignore_packet_id r then None else Some pin, m)
    | TLS_WRAP_CRYPT => '(_, key) ← kc_cipher (co_decrypt (tw_opt r)); '(_, hkey) ← kc_hmac (co_decrypt (tw_opt r));
        '(pin, m) ← crypt_open key hkey pkt; Some (if tw_ignore_packet_id r then None else Some pin, m)
    end = Some (match tw_mode r with TLS_WRAP_NONE => None | _ => if tw_ignore_packet_id r then None else Some (sent_pin p') end, m)).
  { intros r [<- [Ek Eh]]. destruct Hk as [Ek1 Eh1]. rewrite <- Ek, <- Eh, Ek1, Eh1, !Some_bind.
    assert (Lpid : zlen (pid_bytes true (sent_pin p')) = 8) by apply (length_pid_bytes true).
    rewrite (crypt_open_packet _ _ _ _ _ Hp) by (rewrite length_app; lia). rewrite Some_bind.
    replace (parse_pin true _) with (sent_pin p'); [done|]. rewrite drop_app_length' by lia. rewrite <- (app_nil_r (pid_bytes _ _)).
    by rewrite parse_pid_bytes. }
  assert (Lp : zlen pkt = 49 + zlen m /\ take 9 pkt = hdr).
  { destruct Hp as (ct & Hct & ->). apply ctr_length in Hct as [Hct _]. cbn [concat] in Hct. rewrite app_nil_r in Hct.
    pose proof (length_crypt_tag hkey (hdr ++ pid_bytes true (sent_pin p')) m) as Htl. change TLS_CRYPT_TAG_SIZE with 32 in Htl.
    assert (Lpid : zlen (pid_bytes true (sent_pin p')) = 8) by apply (length_pid_bytes true).
    split; [rewrite !length_app; lia|]. rewrite <- app_assoc. apply take_app_length'. lia. }
  destruct Lp as [Lp Lp2]. unfold append_wkc. cbn [tw_wkc tw_work set_tw_opt set_tw_work].
  destruct (carries_client_key _) eqn:Ecar; cbn [mbind option_bind].
  - destruct (Hwkc eq_refl) as (w & vh & vc & vt & Ew & Hv). rewrite Ew in *. cbn [mbind option_bind]. unfold buf_copy. pose proof (rep_content _ _ _ _ Hv) as Hvc. rewrite Hvc in Hroom |- *.
    destruct (write_rep _ _ _ _ vc Hw4) as (w5 & -> & Hw5); [apply (rep_bounds _ _ _ _ Hv)|cbn [length] in *; lia|].
    exists w5, h. eexists _, pkt. split; [reflexivity|]. split; [exact Hw5|]. split; [lia|]. split; [done|]. split; [lia|done].
  - exists w4, h. eexists _, pkt. split; [reflexivity|]. split; [rewrite app_nil_r; exact Hw4|]. split; [lia|]. split; [done|]. split; [lia|done].
Qed.

(** ** What arrives *)

Lemma peek_rep b h x c t : buf_rep b h (x :: c) t -> buf_peek_u8 b = x.
Proof.
  intros Hb. unfold buf_peek_u8. rewrite (buf_len_wf _ (rep_wf _ _ _ _ Hb)), (rep_len _ _ _ _ Hb).
  destruct (zlen (x :: c) <? 1) eqn:E; [cbn [length] in E; lia|]. rewrite (bptr_rep _ _ _ _ Hb). cbn [mbind option_bind].
  pose proof (rep_slice _ _ _ _ Hb) as Hs. apply (f_equal (lookup 0%nat)) in Hs. unfold slice in Hs. cbn [length] in Hs.
  rewrite lookup_take_lt, lookup_drop, Nat.add_0_r in Hs by lia. by rewrite Hs.
Qed.

(** The opcode of a packet. *)
Definition packet_opcode (c : list Z) : Z := Z.shiftr (default (-1) (head c)) P_OPCODE_SHIFT.

Lemma read_control_auth_ok now buf h c t ctx opt initial :
  buf_rep buf h c t -> wrap_ready ctx -> 9 <= zlen c -> carries_client_key (packet_opcode c) = false ->
  verdict now ctx (control_open ctx c) (read_control_auth now buf ctx opt initial).
Proof.
  intros Hb Hr Hc Hop. unfold read_control_auth. destruct c as [|x c]; [cbn in Hc; lia|]. change (packet_opcode (x :: c)) with (Z.shiftr x P_OPCODE_SHIFT) in Hop.
  rewrite (peek_rep _ _ _ _ _ Hb), Hop, Some_bind. cbn [negb]. apply read_wrapped_ok with h t; [done|done|]. intros _. by left.
Qed.

Lemma packet_opcode_header pkt header sid : take 9 pkt = header :: sid -> packet_opcode pkt = Z.shiftr header P_OPCODE_SHIFT.
Proof. intros E. destruct pkt; [done|]. by injection E as -> _. Qed.

(** What [tls_wrap_control] makes is what the other end opens. *)
Lemma tls_wrap_control_ok now ctx buf h m t header sid p' :
  buf_rep buf h m t -> wrap_room ctx h (zlen m) -> wrap_next now ctx p' ->
  is_u8 header -> bytes sid -> zlen sid = 8 -> carries_client_key (Z.shiftr header P_OPCODE_SHIFT) = false ->
  exists out ctx' oh ot pkt, tls_wrap_control now ctx header buf sid = Some (out, ctx') /\
  tw_opt ctx' = set_send (tw_opt ctx) p' /\ buf_rep out oh pkt ot /\ (oh <= h /\ oh + zlen pkt <= h + zlen m + 49) /\ take 9 pkt = header :: sid /\
  forall r, same_wrap ctx r -> control_open r pkt = Some (wrap_seen r p', m).
Proof.
  intros Hb Hroom Hn Hhd Hsid Hl Hcar. destruct (tw_mode ctx) eqn:Hmode.
  - unfold wrap_room, wrap_next in *. rewrite Hmode in *. subst p'.
    destruct (wrap_none_packet now ctx buf h m t header sid) as (out & oh & ot & pkt & E & Ho & [Hoh1 Hoh2] & Ht & Hr); try done.
    exists out, ctx, oh, ot, pkt. rewrite set_send_same. split_and!; try done. intros r Hs. rewrite (Hr r Hs). unfold wrap_seen. destruct Hs as [<- _]. by rewrite Hmode.
  - destruct (wrap_auth_ok now ctx buf h m t header sid p') as (out & oh & ot & pkt & E & Ho & [Hoh1 Hoh2] & Ht & Hr); try done.
    by exists out, (set_tw_opt ctx (set_send (tw_opt ctx) p')), oh, ot, pkt.
  - assert (Hx : wrap_extra ctx header = []) by (unfold wrap_extra; by rewrite Hmode, Hcar).
    destruct (wrap_crypt_ok now ctx buf h m t header sid p') as (out & oh & ot & pkt & E & Ho & [Hoh1 Hoh2] & Ht & _ & Hr); try done.
    { rewrite Hx. cbn [length]. by rewrite Z.add_0_r. }
    { by rewrite Hcar. }
    rewrite Hx, app_nil_r in Ho. eexists out, _, oh, ot, pkt. by split_and!.
Qed.

(** C14: Wrapping is transparent.  In each of the three modes of the control channel - plain,
    [tls-auth] and [tls-crypt] - [tls_wrap_control] puts opcode and session id in front of the
    message, and [read_control_auth] with the same keys gives the message back; it drops it
    only if the id of the packet, which the sender took from its counter, is not new. *)
Theorem control_wrapping_transparent now ctx buf h m t header sid p' :
  buf_rep buf h m t -> wrap_room ctx h (zlen m) -> wrap_next now ctx p' ->
  is_u8 header -> bytes sid -> zlen sid = 8 -> carries_client_key (Z.shiftr header P_OPCODE_SHIFT) = false ->
  exists out ctx' oh ot pkt, tls_wrap_control now ctx header buf sid = Some (out, ctx') /\
    tw_opt ctx' = set_send (tw_opt ctx) p' /\ buf_rep out oh pkt ot /\ take 9 pkt = header :: sid /\
    forall now_r rb rh rt r opt initial, buf_rep rb rh pkt rt -> same_wrap ctx r -> wrap_ready r ->
      exists dropped out_r ho to, buf_rep out_r ho m to /\
        read_control_auth now_r rb r opt initial =
          match wrap_seen r p' with
          | None => Some (true, out_r, r)
          | Some pin => '(ok, o) ← crypto_check_replay now_r (tw_opt r) pin 0;
                        Some (ok : bool, if ok then out_r else dropped, set_tw_opt r o)
          end.
Proof.
  intros Hb Hroom Hn Hhd Hsid Hl Hcar.
  destruct (tls_wrap_control_ok now ctx buf h m t header sid p' Hb Hroom Hn Hhd Hsid Hl Hcar) as (out & ctx' & oh & ot & pkt & E & Eo & Ho & _ & Ht & Hr). exists out, ctx', oh, ot, pkt. split_and!; try done.
  intros now_r rb rh rt r opt initial Hrb Hs Hrr.
  assert (Lp : 9 <= zlen pkt) by (apply (f_equal length) in Ht; rewrite length_take in Ht; cbn [length] in Ht; lia).
  destruct (read_control_auth_ok now_r rb rh pkt rt r opt initial Hrb Hrr Lp) as (bad & Hv); [by rewrite (packet_opcode_header _ _ _ Ht)|].
  rewrite (Hr r Hs) in Hv. destruct Hv as (out_r & ho & to & Hout & ->). by exists bad, out_r, ho, to.
Qed.

(** ** The wrapped key in a packet *)

(** The last bytes of a packet, as many as its last two say. *)
Definition client_key_at (c : list Z) : option (list Z) :=
  let n := be_val (drop (length c - 2) c) in
  if (zlen c <? 1 + 3) || (zlen c - 1 <? n) then None else Some (drop (Z.to_nat (zlen c - n)) c).

Lemma locate_client_key_ok buf h c t :
  buf_rep buf h c t ->
  match client_key_at c with
  | Some w => exists wkc h', locate_client_key buf = Some wkc /\ buf_rep wkc h' w t /\ exists p, c = p ++ w /\ p <> []
  | None => locate_client_key buf = None
  end.
Proof.
  intros Hb. unfold locate_client_key. pose proof (rep_bounds _ _ _ _ Hb) as (Hh & _ & _ & Hby).
  destruct c as [|x c].
  { rewrite (buf_advance_short _ _ _ _ 1 Hb) by (cbn; lia). done. }
  unfold client_key_at.
  destruct (advance_rep buf h [x] c t Hb) as (b1 & Ha & Hb1). change (zlen [x]) with 1 in *. rewrite Ha. cbn [negb orb].
  rewrite (buf_len_wf _ (rep_wf _ _ _ _ Hb1)), (rep_len _ _ _ _ Hb1), (rep_head _ _ _ _ Hb1).
  replace (zlen (x :: c)) with (zlen c + 1) by (cbn [length]; lia).
  destruct (zlen c <? 1 + 2) eqn:E0; [replace (zlen c + 1 <? 1 + 3) with true by lia; done|].
  replace (zlen c + 1 <? 1 + 3) with false by lia. cbn [orb].
  set (n := (length (x :: c) - 2)%nat). assert (Hn : n = S (length c - 2)) by (unfold n; cbn [length]; lia).
  assert (Hnet : slice (h + 1 + zlen c - 2) 2 (mem b1) = drop n (x :: c)).
  { rewrite Hn. cbn [drop]. pose proof Hb1 as Hb2. rewrite <- (take_drop (length c - 2) c) in Hb2. apply rep_rest in Hb2.
    rewrite <- Hb2. rewrite length_take, length_drop. f_equal; lia. }
  rewrite Hnet. set (k := be_val (drop n (x :: c))). replace (zlen c + 1 - 1) with (zlen c) by lia.
  assert (Hk : 0 <= k) by (apply be_val_range, Forall_drop, Hby).
  destruct (zlen c <? k) eqn:E1.
  { unfold buf_advance. replace (zlen c - k <? 0) with true by lia. by rewrite orb_true_r. }
  pose proof Hb1 as Hb2. rewrite <- (take_drop (Z.to_nat (zlen c - k)) c) in Hb2. destruct (advance_rep _ _ _ _ _ Hb2) as (b2 & Ha2 & Hb3).
  replace (zlen (take _ c)) with (zlen c - k) in Ha2, Hb3 by (rewrite length_take; lia). rewrite Ha2.
  assert (Ed : drop (Z.to_nat (zlen c + 1 - k)) (x :: c) = drop (Z.to_nat (zlen c - k)) c).
  { replace (Z.to_nat (zlen c + 1 - k)) with (S (Z.to_nat (zlen c - k))) by lia. done. }
  rewrite Ed. exists b2. eexists. split; [done|]. split; [exact Hb3|].
  exists (x :: take (Z.to_nat (zlen c - k)) c). split; [|done]. cbn [app]. by rewrite take_drop.
Qed.

(** A wrapped key behind a packet of a running connection is cut off before the packet is
    opened. *)
Definition signed_part (c : list Z) : list Z :=
  if carries_client_key (packet_opcode c)
  then match client_key_at c with Some w => take (length c - length w) c | None => c end
  else c.

Lemma bytes_signed c : bytes c -> bytes (signed_part c).
Proof. intros Hc. unfold signed_part. destruct (carries_client_key _); [|done]. destruct (client_key_at c); [by apply Forall_take|done]. Qed.

Lemma shrink_rep b h c1 c2 t : buf_rep b h (c1 ++ c2) t ->
  exists b', buf_inc_len b (- zlen c2) = (true, b') /\ buf_rep b' h c1 (t + zlen c2).
Proof.
  intros Hb. pose proof (rep_bounds _ _ _ _ Hb) as (Hh & Ht & Hc & Hby). pose proof (rep_valid _ _ _ _ Hb) as Hv.
  apply rep_unfold in Hb as (d & -> & Hd). rewrite length_app, Nat2Z.inj_add in *. unfold buf_inc_len, buf_safe_bidir, buf_valid, buf_defined, buf_size_valid_signed in *.
  cbn [b_capacity b_offset b_len b_data] in *. unfold BUF_SIZE_MAX in *.
  rewrite (bool_decide_eq_true_2 (is_Some (Some d))) by by eexists. cbn [andb].
  assert (E1 : (0 <=? zlen c1 + zlen c2) && ((- (1000000) <=? - zlen c2) && (- zlen c2 <? 1000000)) = true) by lia.
  rewrite E1. replace (zlen c1 + zlen c2 + - zlen c2) with (zlen c1) by lia. replace ((0 <=? zlen c1) && _) with true by lia. cbn [negb].
  eexists. split; [done|]. destruct Hd as (Hd1 & Hd2 & Hd3). apply rep_intro; try lia; try done.
  apply (f_equal (take (length c1))) in Hd3. rewrite take_app_length in Hd3. etransitivity; [|exact Hd3]. unfold slice. rewrite take_take. f_equal. lia.
Qed.

(** A packet of any length and opcode in a connection that has keys. *)
Lemma read_connection_ok now buf h c t ctx opt :
  buf_rep buf h c t -> wrap_ready ctx -> tw_mode ctx <> TLS_WRAP_NONE -> c <> [] ->
  (exists bad, read_control_auth now buf ctx opt false = Some (false, bad, ctx)) \/
  verdict now ctx (control_open ctx (signed_part c)) (read_control_auth now buf ctx opt false).
Proof.
  intros Hb Hr Hm Hne. unfold read_control_auth, signed_part. destruct c as [|x c]; [done|].
  change (packet_opcode (x :: c)) with (Z.shiftr x P_OPCODE_SHIFT). rewrite (peek_rep _ _ _ _ _ Hb).
  destruct (carries_client_key _).
  - unfold tls_crypt_v2_extract_client_key. pose proof (locate_client_key_ok buf h (x :: c) t Hb) as Hloc.
    destruct (kc_cipher (tw_server_key ctx)) as [srv|]; [|left; by eexists]. destruct (client_key_at (x :: c)) as [w|].
    + destruct Hloc as (wkc & h' & -> & Hw & p & Ep & Hp). cbn [negb]. rewrite (buf_len_wf _ (rep_wf _ _ _ _ Hw)), (rep_len _ _ _ _ Hw).
      rewrite Ep in Hb |- *. destruct (shrink_rep _ _ _ _ _ Hb) as (b' & -> & Hb'). rewrite !Some_bind. cbn [ASSERT]. rewrite !Some_bind. cbn [negb].
      right. rewrite length_app. replace (length p + length w - length w)%nat with (length p) by lia. rewrite take_app_length.
      by apply read_wrapped_ok with h (t + zlen w).
    + rewrite Hloc, Some_bind. left. by eexists.
  - rewrite Some_bind. cbn [negb]. right. by apply read_wrapped_ok with h t.
Qed.

(** The control packets of a connection one after the other, with the times of their arrival:
    those that are accepted and what they carry, newest first. *)
Fixpoint read_controls (pkts : list (Z * buffer)) (opt : option v2_options) (accepted : list (list Z * list Z))
    (ctx : tls_wrap_ctx) : option (list (list Z * list Z) * tls_wrap_ctx) :=
  match pkts with
  | [] => Some (accepted, ctx)
  | (now, buf) :: pkts =>
      '(ok, out, ctx) ← read_control_auth now buf ctx opt false;
      read_controls pkts opt (if ok : bool then (content buf, content out) :: accepted else accepted) ctx
  end.

(** The packet [c] has the tag of its id and message under the keys of the context. *)
Definition authentic (ctx : tls_wrap_ctx) (c : list Z) (pin : packet_id_net) (m : list Z) : Prop :=
  match tw_mode ctx with
  | TLS_WRAP_NONE => False
  | TLS_WRAP_AUTH => exists digest hkey, let n := md_kt_size digest in
      kc_hmac (co_decrypt (tw_opt ctx)) = Some (digest, hkey) /\ pin = parse_pin true (slice (9 + n) 8 c) /\
      slice 9 n c = md_hmac digest hkey (slice (9 + n) 8 c ++ take 9 c ++ m)
  | TLS_WRAP_CRYPT => exists hkey, kc_hmac (co_decrypt (tw_opt ctx)) = Some ("SHA256"%string, hkey) /\
      pin = parse_pin true (slice 9 8 c) /\ take 32 (drop 17 c) = md_hmac "SHA256" hkey (take 17 c ++ m)
  end.

Lemma open_authentic ctx c pin m :
  wrap_ready ctx -> tw_mode ctx <> TLS_WRAP_NONE -> tw_ignore_packet_id ctx = false ->
  control_open ctx c = Some (pin, m) -> exists p, pin = Some p /\ authentic ctx c p m.
Proof.
  unfold control_open, authentic, wrap_ready. intros Hr Hm ->. destruct (tw_mode ctx); [done|..].
  - destruct Hr as ((digest & hkey & _ & Eh) & _). rewrite Eh. cbn [mbind option_bind]. unfold auth_open.
    destruct (_ <? _); [done|]. case_bool_decide as E; [|done]. intros [= <- <-]. eexists. split; [done|]. by exists digest, hkey.
  - destruct Hr as ((key & hkey & Ek & Eh) & _). rewrite Ek, Eh. cbn [mbind option_bind].
    destruct (crypt_open key hkey c) as [[p m']|] eqn:E; [|done]. intros [= <- <-]. exists p. split; [done|]. exists hkey. split; [done|].
    split; [|by apply crypt_packet_authentic in E as [_ ?]].
    unfold crypt_open in E. destruct (_ <? _); [done|]. destruct (stream_out _ _ _ _ _) as [[out f]|]; [|done]. cbn [mbind option_bind] in E.
    case_bool_decide; [|done]. injection E as <- _. unfold slice. f_equal. rewrite skipn_firstn_comm. done.
Qed.

(** A context after a replay check: the same keys. *)
Lemma after_check ctx now pin (RF : ReplayFilter check_replay move_recv r_initialized) acc :
  rf_inv acc (rec (co_packet_id (tw_opt ctx))) -> arrival_ok now pin ->
  exists ok o, crypto_check_replay now (tw_opt ctx) pin 0 = Some (ok, o) /\
    (if ok then (pin ∉ acc) /\ rf_inv (pin :: acc) (rec (co_packet_id o)) else rf_inv acc (rec (co_packet_id o))) /\
    co_decrypt o = co_decrypt (tw_opt ctx) /\ co_long_form o = co_long_form (tw_opt ctx) /\ packet_id_initialized (co_packet_id o) = true.
Proof.
  intros Hi Ha. destruct (rf_step _ _ _ _ Hi Ha) as (ok & s' & E & Hs). unfold crypto_check_replay. cbn [Z.eqb orb]. rewrite E.
  exists ok. eexists. split; [done|].
  assert (Hr : r_initialized s' = true) by (destruct ok; [destruct Hs as [_ Hs]|]; by apply rf_ready in Hs).
  destruct (tw_opt ctx) as [? ? ? ? ? ? ? ? ? ? [] pp lf ef]. unfold persist_accepted, set_rec, packet_id_initialized. cbn. by destruct ok, lf.
Qed.

Lemma parse_pin_u64 c : bytes c -> is_u64 (n_id (parse_pin true c)).
Proof.
  intros Hc. unfold parse_pin, is_u64. cbn [n_id]. pose proof (be_val_range (take 4 c) (Forall_take _ _ _ Hc)) as Hr.
  assert (256 ^ zlen (take 4 c) <= 256 ^ 4) by (apply Z.pow_le_mono_r; rewrite ?length_take; lia). lia.
Qed.

Lemma authentic_arrival ctx c pin m now : authentic ctx c pin m -> bytes c -> SEQ_EXPIRED < now -> arrival_ok now pin.
Proof.
  intros Ha Hc Hnow. split; [done|]. unfold authentic in Ha. destruct (tw_mode ctx); [done|..].
  - destruct Ha as (? & ? & _ & -> & _). apply parse_pin_u64. by apply Forall_slice.
  - destruct Ha as (? & _ & -> & _). apply parse_pin_u64. by apply Forall_slice.
Qed.

(** What is true of the packets that have been accepted, with their ids. *)
Definition accepted_ok (ctx : tls_wrap_ctx) (pkts : list (Z * buffer)) (accepted : list (list Z * list Z))
    (pins : list packet_id_net) : Prop :=
  Forall2 (fun '(c, m) pin => authentic ctx (signed_part c) pin m /\ exists now buf, (now, buf) ∈ pkts /\ content buf = c) accepted pins /\
  NoDup pins.

(** A context as [ctx] is, after packets with the ids [pins]. *)
Definition after_packets (RF : ReplayFilter check_replay move_recv r_initialized) (ctx ctx1 : tls_wrap_ctx)
    (pins : list packet_id_net) : Prop :=
  wrap_ready ctx1 /\ tw_ignore_packet_id ctx1 = false /\ tw_mode ctx1 = tw_mode ctx /\
  co_decrypt (tw_opt ctx1) = co_decrypt (tw_opt ctx) /\ rf_inv pins (rec (co_packet_id (tw_opt ctx1))).

Definition control_arrival : Z * buffer -> Prop := fun '(now, buf) =>
  SEQ_EXPIRED < now /\ exists h c t, buf_rep buf h c t /\ c <> [].

Lemma read_control_step (RF : ReplayFilter check_replay move_recv r_initialized) ctx ctx1 pins now buf opt :
  tw_mode ctx <> TLS_WRAP_NONE -> after_packets RF ctx ctx1 pins -> control_arrival (now, buf) ->
  exists ok out ctx2, read_control_auth now buf ctx1 opt false = Some (ok, out, ctx2) /\
    if ok then exists p, authentic ctx (signed_part (content buf)) p (content out) /\ p ∉ pins /\ after_packets RF ctx ctx2 (p :: pins)
    else after_packets RF ctx ctx2 pins.
Proof.
  intros Hm (Hr & Hig & Hmode & Hdec & Hinv) (Hnow & h & c & t & Hb & Hne). rewrite (rep_content _ _ _ _ Hb).
  destruct (read_connection_ok now buf h c t ctx1 opt Hb Hr) as [[bad E]|(bad & Hv)]; [by rewrite Hmode|done|by eexists false, bad, ctx1|].
  destruct (control_open ctx1 (signed_part c)) as [[pin m]|] eqn:Eo; [|by eexists false, bad, ctx1].
  destruct Hv as (out & ho & to & Hout & ->). destruct (open_authentic ctx1 (signed_part c) pin m Hr) as (p & -> & Ha); [by rewrite Hmode|done..|].
  pose proof (authentic_arrival _ _ _ _ now Ha (bytes_signed c (proj2 (proj2 (proj2 (rep_bounds _ _ _ _ Hb))))) Hnow) as Harr.
  destruct (after_check ctx1 now p RF pins Hinv Harr) as (ok & o & -> & Hok & Hd & Hlf & Hini). cbn [mbind option_bind].
  assert (Hr' : forall q, rf_inv q (rec (co_packet_id o)) -> after_packets RF ctx (set_tw_opt ctx1 o) q).
  { intros q Hq. split_and!; try done; [|exact (eq_trans Hd Hdec)].
    unfold wrap_ready in *. cbn [tw_mode set_tw_opt tw_opt tw_ignore_packet_id]. rewrite Hd, Hlf, Hini. destruct (tw_mode ctx1); naive_solver. }
  assert (Ha' : authentic ctx (signed_part c) p m) by (unfold authentic in *; by rewrite Hmode, Hdec in Ha).
  eexists ok, _, _. split; [done|]. destruct ok; [|by apply Hr']. destruct Hok as [Hnew Hinv']. exists p. rewrite (rep_content _ _ _ _ Hout).
  split_and!; [done|done|by apply Hr'].
Qed.

Lemma read_controls_ok (RF : ReplayFilter check_replay move_recv r_initialized) ctx pkts opt :
  tw_mode ctx <> TLS_WRAP_NONE ->
  forall pkts2 accepted pins ctx1, Forall control_arrival pkts2 -> (forall x, x ∈ pkts2 -> x ∈ pkts) ->
    after_packets RF ctx ctx1 pins -> accepted_ok ctx pkts accepted pins ->
    exists accepted' ctx' pins', read_controls pkts2 opt accepted ctx1 = Some (accepted', ctx') /\ accepted_ok ctx pkts accepted' pins'.
Proof.
  intros Hm. induction pkts2 as [|[now buf] pkts2 IH]; intros accepted pins ctx1 Hp Hin Hc Hacc.
  { by exists accepted, ctx1, pins. }
  apply Forall_cons in Hp as [Hx Hp]. cbn [read_controls].
  destruct (read_control_step RF ctx ctx1 pins now buf opt Hm Hc Hx) as (ok & out & ctx2 & -> & Hok). cbn [mbind option_bind].
  assert (Hin2 : forall x, x ∈ pkts2 -> x ∈ pkts) by (intros; apply Hin; by right).
  destruct ok; [|by apply IH with pins]. destruct Hok as (p & Ha & Hnew & Hc2). apply IH with (p :: pins); try done.
  destruct Hacc as [Hf Hnd]. split; [|by constructor]. constructor; [|done]. split; [done|]. exists now, buf. split; [apply Hin; left|done].
Qed.

(** C12: Control packets are authentic and not replayed.  Whatever packets arrive in a
    connection under [tls-auth] or [tls-crypt] - of one byte or more, with any opcode and
    content, in any order -, [read_control_auth] does not fail, and each packet that it accepts
    carries the tag, under the keys of the context, of its header, its packet id and the
    message; no two of them have the same id.  (A wrapped client key at the end of a packet
    whose opcode says so is cut off first and is not covered by the tag.) *)
Theorem control_packets_authentic (RF : ReplayFilter check_replay move_recv r_initialized) pkts opt ctx :
  wrap_ready ctx -> tw_mode ctx <> TLS_WRAP_NONE -> tw_ignore_packet_id ctx = false ->
  rf_inv [] (rec (co_packet_id (tw_opt ctx))) -> Forall control_arrival pkts ->
  exists accepted ctx' pins, read_controls pkts opt [] ctx = Some (accepted, ctx') /\ NoDup pins /\
    Forall2 (fun '(c, m) pin => authentic ctx (signed_part c) pin m /\ exists now buf, (now, buf) ∈ pkts /\ content buf = c) accepted pins.
Proof.
  intros Hr Hm Hig Hinv Hp. destruct (read_controls_ok RF ctx pkts opt Hm pkts [] [] ctx) as (accepted & ctx' & pins & E & Ha & Hnd); try done.
  { split; [constructor|apply NoDup_nil_2]. }
  by exists accepted, ctx', pins.
Qed.
(** C30: The sessions of [Control] are those of a channel without keys.  The wrapping that the
    reliability layer is proved with - [Control.tls_wrap_control] and
    [Control.read_control_auth] - is what [tls_wrap_control] and [read_control_auth] do in mode
    [TLS_WRAP_NONE] without a server key, for every buffer and every packet, the short and the
    foreign ones included. *)
Theorem plain_control_is_control now ctx header buf session_id opt initial_packet :
  tw_mode ctx = TLS_WRAP_NONE -> kc_cipher (tw_server_key ctx) = None ->
  tls_wrap_control now ctx header buf session_id = (fun b => (b, ctx)) <$> Control.tls_wrap_control header buf session_id /\
  read_control_auth now buf ctx opt initial_packet =
    let '(ok, b) := Control.read_control_auth buf in Some (ok, b, ctx).
Proof.
  intros Hm Hk. split.
  - unfold tls_wrap_control, Control.tls_wrap_control. rewrite Hm.
    destruct (session_id_write_prepend session_id buf) as [[] b]; [|done]. cbn [mbind option_bind ASSERT].
    destruct (buf_write_prepend b [header]) as [[] b']; cbn; done.
  - unfold read_control_auth, Control.read_control_auth. destruct (carries_client_key _).
    + unfold tls_crypt_v2_extract_client_key. by rewrite Hk.
    + rewrite Some_bind. unfold read_wrapped, is_wrap_crypt. rewrite Hm, Hk. rewrite bool_decide_false by (by intros [? ?]). cbn. by rewrite Hm.
Qed.
End control.
