(* ===== verification/ClientKey.v ===== *)
(** * The keys of clients, and the first packets

    With [tls-crypt-v2] the first packet of a client brings the client's key, wrapped under a
    key of the server; the server takes it out and opens the packet with it. *)
From S2P Require Import Prelude Integers Buffer Frame PacketId Replay EpochKeys DataChannel CryptoV1 CryptoModes Reliable Control KeyExpansion TlsCrypt TlsCryptSpec TlsWrap WrapSpec.

Section client_key.
Context `{CL : CryptoLib} `{Cok : !CryptoLaws} `{ML : ModeLib} `{Mok : !ModeLaws} `{Ctr : !CtrLaws}.

(** ** Loading a key *)

(** The keys of one direction of a client key. *)
Definition v2_cipher_key (k : key2) (i : Z) : list Z := slice 0 (cipher_kt_key_size "AES-256-CTR") (mat_cipher (key2_nth k i)).
Definition v2_hmac_key (k : key2) (i : Z) : list Z := slice 0 32 (mat_hmac (key2_nth k i)).

Lemma load_client_key_ok co k srv :
  let o := if srv : bool then 0 else 1 in let i := if srv then 1 else 0 in
  exists co', tls_crypt_v2_load_client_key co k srv = Some co' /\
    crypt_keys (co_encrypt co') (v2_cipher_key k o) (v2_hmac_key k o) /\ crypt_keys (co_decrypt co') (v2_cipher_key k i) (v2_hmac_key k i) /\
    co_packet_id co' = co_packet_id co /\ co_long_form co' = co_long_form co.
Proof.
  assert (Hk : forall key, exists c, init_key_bi_ctx (key_parameters_from_key key) tls_crypt_kt = Some c /\
    crypt_keys c (slice 0 (cipher_kt_key_size "AES-256-CTR") (mat_cipher key)) (slice 0 32 (mat_hmac key))).
  { intros key. unfold init_key_bi_ctx.
    assert (Hi : init_key_ctx (key_parameters_from_key key) tls_crypt_kt =
      Some (mk_ctx (Some ("AES-256-CTR"%string, slice 0 (cipher_kt_key_size "AES-256-CTR") (mat_cipher key)))
              (Some ("SHA256"%string, slice 0 32 (mat_hmac key))) (zeros OPENVPN_MAX_IV_LENGTH) 0 0 0)).
    { unfold init_key_ctx. cbn [kt_cipher kt_digest tls_crypt_kt]. pose proof (key_size_ok "AES-256-CTR") as Hs.
      rewrite sha256_size, (ASSERT_true (cipher_kt_key_size _ <=? _)) by (cbn [kp_cipher_size key_parameters_from_key]; lia). done. }
    rewrite Hi, Some_bind. unfold key_ctx_update_implicit_iv. cbn [kc_cipher]. rewrite ctr_not_aead, Some_bind. by eexists. }
  unfold tls_crypt_v2_load_client_key, init_key_ctx_bi. change (cipher_defined (kt_cipher tls_crypt_kt) && md_defined (kt_digest tls_crypt_kt)) with true.
  cbn [ASSERT mbind option_bind]. destruct srv; cbn [key_direction_state_init KEY_DIRECTION_NORMAL KEY_DIRECTION_INVERSE Z.eqb mbind option_bind out_key in_key];
    unfold key_direction_state_init, KEY_DIRECTION_NORMAL, KEY_DIRECTION_INVERSE; cbn [Z.eqb Pos.eqb mbind option_bind out_key in_key].
  - destruct (Hk (key2_nth k 0)) as (e & -> & He). destruct (Hk (key2_nth k 1)) as (d & -> & Hd). cbn [mbind option_bind]. by eexists.
  - destruct (Hk (key2_nth k 1)) as (e & -> & He). destruct (Hk (key2_nth k 0)) as (d & -> & Hd). cbn [mbind option_bind]. by eexists.
Qed.

(** ** Taking the key out *)

(** The server key of a context: none, or one of [tls-crypt-v2]. *)
Definition server_key_ok (ctx : tls_wrap_ctx) : Prop :=
  kc_cipher (tw_server_key ctx) = None \/ exists key hkey, crypt_keys (tw_server_key ctx) key hkey.

(** The rest of a packet with a client key, the key and its metadata. *)
Definition client_open (ctx : tls_wrap_ctx) (c : list Z) : option (list Z * key2 * list Z) :=
  '(_, key) ← kc_cipher (tw_server_key ctx);
  '(_, hkey) ← kc_hmac (tw_server_key ctx);
  w ← client_key_at c;
  '(k, md) ← wkc_open key hkey w;
  Some (take (length c - length w) c, k, md).

(** A context with the key of a client. *)
Definition has_client_key (ctx ctx' : tls_wrap_ctx) (k : key2) (mdb : buffer) : Prop :=
  tw_mode ctx' = TLS_WRAP_CRYPT /\ tls_crypt_v2_load_client_key (long_form_on (tw_opt ctx)) k true = Some (tw_opt ctx') /\
  tw_original_wrap_keydata ctx' = k /\ tw_metadata ctx' = mdb /\ tw_ignore_packet_id ctx' = tw_ignore_packet_id ctx /\
  tw_work ctx' = tw_work ctx /\ tw_server_key ctx' = tw_server_key ctx /\ tw_force_cookie ctx' = tw_force_cookie ctx.

Lemma extract_client_key_ok now buf h c t ctx opt :
  buf_rep buf h c t -> server_key_ok ctx ->
  match client_open ctx c with
  | None => exists ctx', tls_crypt_v2_extract_client_key now buf ctx opt true = Some (false, buf, ctx')
  | Some (p, k, md) => exists mdb mt, buf_rep mdb 0 md mt /\
      if client_key_welcome now opt mdb
      then exists buf' t' ctx', tls_crypt_v2_extract_client_key now buf ctx opt true = Some (true, buf', ctx') /\ buf_rep buf' h p t' /\
             has_client_key ctx ctx' k mdb
      else exists ctx', tls_crypt_v2_extract_client_key now buf ctx opt true = Some (false, buf, ctx')
  end.
Proof.
  intros Hb Hs. unfold tls_crypt_v2_extract_client_key, client_open. pose proof (locate_client_key_ok buf h c t Hb) as Hloc.
  destruct Hs as [->|(key & hkey & Hk)]; [by exists ctx|]. pose proof Hk as [Ek Eh]. rewrite Ek, Eh. cbn [mbind option_bind].
  destruct (client_key_at c) as [w|] eqn:Ew; [|rewrite Hloc; by exists ctx]. cbn [mbind option_bind].
  destruct Hloc as (wkc & h' & -> & Hw & p & Ec & Hp). cbn [negb].
  destruct (alloc_some TLS_CRYPT_V2_MAX_METADATA_LEN) as (m0 & -> & Hm0); [done|]. cbn [mbind option_bind].
  destruct (tls_crypt_v2_unwrap_client_key_ok m0 0 [] _ wkc h' w t (tw_server_key ctx) key hkey Hm0 Hw Hk) as (mdb & Hu); [done|].
  destruct (wkc_open key hkey w) as [[k md]|]; [|rewrite Hu; cbn [mbind option_bind]; by eexists]. cbn [mbind option_bind].
  destruct Hu as [-> Hmd]. cbn [mbind option_bind]. exists mdb. eexists. split; [exact Hmd|].
  destruct (client_key_welcome now opt mdb); cbn [negb]; [|by eexists].
  destruct (load_client_key_ok (long_form_on (tw_opt ctx)) k true) as (co & El & _). rewrite El. cbn [mbind option_bind].
  rewrite Ec in Hb. destruct (shorten_rep _ _ _ _ _ Hb) as (b' & Hi & Hb' & _). rewrite (buf_len_wf _ (rep_wf _ _ _ _ Hw)), (rep_len _ _ _ _ Hw), Hi.
  cbn [mbind option_bind ASSERT]. assert (Ep : take (length c - length w) c = p) by (rewrite Ec, length_app; apply take_app_length'; lia).
  rewrite Ep. eexists b', _, _. split; [done|]. split; [exact Hb'|]. unfold has_client_key. by split_and!.
Qed.

(** ** A key from the server to its client and back *)

Lemma client_key_at_app key hkey ck md w pkt :
  key2_ok ck -> zlen md <= TLS_CRYPT_V2_MAX_METADATA_LEN -> wkc_packet key hkey ck md w -> pkt <> [] -> client_key_at (pkt ++ w) = Some w.
Proof.
  intros Hck Hmd (ct & Hst & ->) Hp. destruct (key2_bytes_ok ck Hck) as (Hkl & _).
  change TLS_CRYPT_V2_MAX_METADATA_LEN with 734 in *. change KEY2_SIZE with 256 in *. change TLS_CRYPT_TAG_SIZE with 32 in *.
  set (net := be_bytes 2 _) in *. set (tag := wkc_tag _ _ _) in *.
  assert (Lt : zlen tag = 32) by (unfold tag, wkc_tag; rewrite mac_length; apply sha256_size).
  assert (Ln : zlen net = 2) by (unfold net; by rewrite length_be_bytes).
  destruct (ctr_length _ _ _ _ _ _ Hst) as [Lc _]. cbn [concat] in Lc. rewrite app_nil_r, length_app in Lc.
  set (w := tag ++ ct ++ net). assert (Lw : zlen w = zlen md + 290) by (unfold w; rewrite !length_app; lia).
  assert (Lp : (0 < length pkt)%nat) by (destruct pkt; [done|cbn; lia]).
  unfold client_key_at. rewrite length_app.
  assert (Hd : drop (length pkt + length w - 2) (pkt ++ w) = net).
  { unfold w. rewrite !app_assoc. apply drop_app_length'. unfold w in Lw. rewrite !length_app in *. lia. }
  rewrite Hd. unfold net. rewrite be_val_be_bytes, Z.mod_small by (change (256 ^ Z.of_nat 2) with 65536; lia).
  replace (zlen md + 256 + 2 + 32) with (zlen w) by lia.
  destruct (_ <? 1 + 3) eqn:E1; [lia|]. destruct (_ - 1 <? _) eqn:E2; [lia|]. cbn [orb].
  f_equal. apply drop_app_length'. lia.
Qed.

(** C15: The key of a client comes back to the server with the first packet.  The server
    wraps the key and its metadata under its own key and gives the result away; when a client
    that has loaded the key sends a packet with an opcode that carries it, the server - which
    has kept nothing - takes the key and the metadata out of the packet, and if it still
    welcomes the client (by the age of the key and the script) opens the packet with the key. *)
Theorem client_key_round_trip server_key key hkey ck wkc0 wh wt mdb mh md mt :
  crypt_keys server_key key hkey -> key2_ok ck -> buf_rep mdb mh md mt -> zlen md <= TLS_CRYPT_V2_MAX_METADATA_LEN ->
  buf_rep wkc0 wh [] wt -> zlen md + 290 <= wt ->
  exists wkc, tls_crypt_v2_wrap_client_key wkc0 ck mdb server_key = Some (true, wkc) /\
    forall now s co buf h m t header sid p',
      tw_mode s = TLS_WRAP_CRYPT -> tls_crypt_v2_load_client_key co ck false = Some (tw_opt s) -> tw_wkc s = Some wkc ->
      buf_rep buf h m t -> wrap_room s h (zlen m + zlen md + 290) -> wrap_next now s p' ->
      is_u8 header -> carries_client_key (Z.shiftr header P_OPCODE_SHIFT) = true -> bytes sid -> zlen sid = 8 ->
      exists out s', tls_wrap_control now s header buf sid = Some (out, s') /\
        forall now_r rb rh rt r opt, buf_rep rb rh (content out) rt -> tw_server_key r = server_key ->
          packet_id_initialized (co_packet_id (tw_opt r)) || tw_ignore_packet_id r = true ->
          exists mdb' mt', buf_rep mdb' 0 md mt' /\
            if client_key_welcome now_r opt mdb'
            then exists r' out_r ho to dropped, has_client_key r r' ck mdb' /\ buf_rep out_r ho m to /\
                   read_control_auth now_r rb r opt true =
                     match wrap_seen r' p' with
                     | None => Some (true, out_r, r')
                     | Some pin => '(ok, o) ← crypto_check_replay now_r (tw_opt r') pin 0;
                                   Some (ok : bool, if ok then out_r else dropped, set_tw_opt r' o)
                     end
            else exists b r', read_control_auth now_r rb r opt true = Some (false, b, r').
Proof.
  intros Hk Hck Hm Hmd Hw Hroom. pose proof (rep_bounds _ _ _ _ Hm) as (_ & _ & _ & Hmb).
  destruct (tls_crypt_v2_wrap_client_key_ok wkc0 wh [] wt ck mdb mh md mt server_key key hkey Hw Hm Hck Hk Hmd Hroom) as (wkc & w & E & Hp & Hwkc & Lw).
  exists wkc. split; [done|]. intros now s co buf h m t header sid p' Hmode Hload Ew Hb Hr Hn Hhd Hcar Hsid Hl.
  assert (Hx : wrap_extra s header = w) by (unfold wrap_extra; rewrite Hmode, Hcar, Ew; by rewrite (rep_content _ _ _ _ Hwkc)).
  destruct (wrap_crypt_ok now s buf h m t header sid p' Hmode Hb) as (out & oh & ot & pkt & Ewrap & Hout & _ & Ht & Lpkt & Hopen); try done.
  { rewrite Hx, Lw. by rewrite Z.add_assoc. }
  { intros _. by eexists _, _, _, _. }
  eexists out, _. split; [exact Ewrap|]. rewrite Hx in Hout. rewrite (rep_content _ _ _ _ Hout).
  intros now_r rb rh rt r opt Hrb Hsk Hir. assert (Hne : pkt <> []) by (intros ->; cbn in Lpkt; lia).
  pose proof (extract_client_key_ok now_r rb rh _ rt r opt Hrb) as Hext. specialize (Hext ltac:(right; rewrite Hsk; by exists key, hkey)).
  unfold client_open in Hext. rewrite Hsk in Hext. destruct Hk as [Ek Eh]. rewrite Ek, Eh in Hext. cbn [mbind option_bind] in Hext.
  rewrite (client_key_at_app key hkey ck md w pkt), (Some_bind w), (wkc_open_packet key hkey ck md w) in Hext by done. cbn [mbind option_bind] in Hext.
  destruct Hext as (mdb' & mt' & Hmdb & Hext). exists mdb', mt'. split; [done|]. unfold read_control_auth.
  assert (Hpk : buf_peek_u8 rb = header).
  { destruct pkt as [|x pkt]; [done|]. rewrite (peek_rep _ _ _ _ _ Hrb). by injection Ht as ->. }
  rewrite Hpk, Hcar. destruct (client_key_welcome now_r opt mdb').
  2: { destruct Hext as (ctx' & ->). cbn [mbind option_bind negb]. by eexists _, _. }
  destruct Hext as (b' & t' & r' & -> & Hb' & Hck'). cbn [mbind option_bind negb].
  assert (Ep : take (length (pkt ++ w) - length w) (pkt ++ w) = pkt) by (rewrite length_app; apply take_app_length'; lia). rewrite Ep in Hb'.
  pose proof Hck' as (Hmode' & Hload' & _ & _ & Hig & _).
  destruct (load_client_key_ok co ck false) as (co1 & Hl1 & [Ee1 Ee2] & _). rewrite Hload in Hl1. injection Hl1 as <-.
  destruct (load_client_key_ok (long_form_on (tw_opt r)) ck true) as (co2 & Hl2 & _ & Hdec & Hpid & _). rewrite Hload' in Hl2. injection Hl2 as <-.
  destruct (read_wrapped_ok now_r b' rh pkt t' r' Hb') as (bad & Hv).
  { unfold wrap_ready. rewrite Hmode', Hig, Hpid. split; [by eexists _, _|done]. }
  { by rewrite Hmode'. }
  rewrite (Hopen r') in Hv. 2: { split; [by rewrite Hmode, Hmode'|]. rewrite Hmode. destruct Hdec as [Ed1 Ed2]. split; congruence. }
  destruct Hv as (out_r & ho & to & Hor & ->). by exists r', out_r, ho, to, bad.
Qed.

(** ** Packets from unknown clients *)

Lemma clone_rep junk b h c t : buf_rep b h c t -> zlen junk = b_capacity b -> bytes junk -> buf_rep (clone_buf junk b) h c t.
Proof.
  intros Hb Hj Hjb. pose proof (rep_bounds _ _ _ _ Hb) as (Hh & Ht & Hcap & Hby). pose proof (rep_unfold _ _ _ _ Hb) as (d & Eb & Hd & Hbd & Hc).
  unfold clone_buf. rewrite (buf_len_wf _ (rep_wf _ _ _ _ Hb)), (rep_len _ _ _ _ Hb), (rep_head _ _ _ _ Hb), (rep_slice _ _ _ _ Hb).
  rewrite (rep_cap _ _ _ _ Hb) in *. apply rep_intro; try done; try lia.
  - rewrite length_splice; lia.
  - by apply Forall_splice.
  - apply slice_splice_eq. lia.
Qed.

(** What a server needs that looks at first packets: [tls_auth_standalone_init] sets the flag. *)
Definition tas_ready (tas : tls_auth_standalone) : Prop :=
  wrap_ready (tas_tls_wrap tas) /\ server_key_ok (tas_tls_wrap tas) /\ tw_ignore_packet_id (tas_tls_wrap tas) = true.

(** The context of a packet: that of the server, or with the key that was in the packet. *)
Definition first_ctx (ctx ctx' : tls_wrap_ctx) : Prop := ctx' = ctx \/ exists k mdb, has_client_key ctx ctx' k mdb.

Lemma open_seen ctx c pin m : tw_ignore_packet_id ctx = true -> control_open ctx c = Some (pin, m) -> pin = None.
Proof.
  unfold control_open. intros ->. destruct (tw_mode ctx).
  - case_bool_decide; [done|]. by intros [= <- _].
  - destruct (kc_hmac _) as [[d k]|]; [|done]. cbn [mbind option_bind]. destruct (auth_open d k c) as [[p x]|]; [|done]. by intros [= <- _].
  - destruct (kc_cipher _) as [[? key]|]; [|done]. destruct (kc_hmac _) as [[? hkey]|]; [|done]. cbn [mbind option_bind].
    destruct (crypt_open key hkey c) as [[p x]|]; [|done]. by intros [= <- _].
Qed.

Lemma client_key_ready ctx ctx' k mdb :
  has_client_key ctx ctx' k mdb -> tw_ignore_packet_id ctx = true ->
  wrap_ready ctx' /\ tw_mode ctx' = TLS_WRAP_CRYPT /\ tw_ignore_packet_id ctx' = true /\
  (exists key hkey, crypt_keys (co_encrypt (tw_opt ctx')) key hkey) /\ co_long_form (tw_opt ctx') = true.
Proof.
  intros (Hm & Hl & _ & _ & Hi & _) Hig. destruct (load_client_key_ok (long_form_on (tw_opt ctx)) k true) as (co & El & He & Hd & _ & Hlf).
  rewrite Hl in El. injection El as <-. rewrite Hig in Hi. split_and!; [|done|done|by eexists _, _|by rewrite Hlf].
  unfold wrap_ready. rewrite Hm, Hi. split; [by eexists _, _|by rewrite orb_true_r].
Qed.

Lemma crypt_open_min key hkey c r : crypt_open key hkey c = Some r -> 49 <= zlen c.
Proof. unfold crypt_open. change TLS_CRYPT_OFF_CT with 49. destruct (zlen c <? 49) eqn:E; [done|]. intros _. lia. Qed.

Lemma read_first_ok now buf h c t ctx :
  buf_rep buf h c t -> 9 <= zlen c -> wrap_ready ctx -> server_key_ok ctx -> tw_ignore_packet_id ctx = true ->
  exists ok out ctx', read_control_auth now buf ctx None true = Some (ok, out, ctx') /\
    (ok = true -> first_ctx ctx ctx' /\ (exists m ho to, buf_rep out ho m to) /\
                  (carries_client_key (packet_opcode c) = true -> 49 <= zlen c)).
Proof.
  intros Hb Hc Hr Hs Hig. destruct (carries_client_key (packet_opcode c)) eqn:Hcar.
  2: { destruct (read_control_auth_ok now buf h c t ctx None true Hb Hr Hc Hcar) as (bad & Hv).
       destruct (control_open ctx c) as [[pin m]|] eqn:Eo; [|by exists false, bad, ctx].
       pose proof (open_seen _ _ _ _ Hig Eo) as ->. destruct Hv as (out & ho & to & Hout & ->). exists true, out, ctx. split; [done|].
       intros _. split_and!; [by left|by exists m, ho, to|done]. }
  destruct c as [|x c]; [cbn in Hc; lia|]. unfold read_control_auth. change (packet_opcode (x :: c)) with (Z.shiftr x P_OPCODE_SHIFT) in Hcar.
  rewrite (peek_rep _ _ _ _ _ Hb), Hcar. pose proof (extract_client_key_ok now buf h _ t ctx None Hb Hs) as Hext.
  destruct (client_open ctx (x :: c)) as [[[p k] md]|] eqn:Eo.
  2: { destruct Hext as (ctx' & ->). cbn [mbind option_bind negb]. by eexists _, _, _. }
  destruct Hext as (mdb & mt & _ & Hext). cbn [client_key_welcome] in Hext. destruct Hext as (b' & t' & ctx' & -> & Hb' & Hck).
  cbn [mbind option_bind negb]. destruct (client_key_ready _ _ _ _ Hck Hig) as (Hr' & Hm' & Hig' & _).
  destruct (read_wrapped_ok now b' h p t' ctx' Hb' Hr') as (bad & Hv); [by rewrite Hm'|].
  destruct (control_open ctx' p) as [[pin m]|] eqn:Eo'; [|by exists false, bad, ctx'].
  pose proof (open_seen _ _ _ _ Hig' Eo') as ->. destruct Hv as (out & ho & to & Hout & ->). exists true, out, ctx'. split; [done|].
  intros _. split; [right; by exists k, mdb|]. split; [by exists m, ho, to|]. intros _.
  unfold control_open in Eo'. rewrite Hm' in Eo'. destruct (kc_cipher _) as [[? key]|]; [|done]. destruct (kc_hmac _) as [[? hkey]|]; [|done].
  cbn [mbind option_bind] in Eo'. destruct (crypt_open key hkey p) as [r|] eqn:Ec; [|done]. apply crypt_open_min in Ec.
  unfold client_open in Eo. destruct (kc_cipher _) as [[? key2]|]; [|done]. destruct (kc_hmac _) as [[? hkey2]|]; [|done]. cbn [mbind option_bind] in Eo.
  destruct (client_key_at _) as [w|]; [|done]. cbn [mbind option_bind] in Eo. destruct (wkc_open _ _ _) as [[? ?]|]; [|done]. injection Eo as <- _ _.
  rewrite length_take in Ec. lia.
Qed.
End client_key.
