(* ===== verification/Handshake.v ===== *)
(** * From the key exchange to the data channel

    Both ends of a handshake compute the same key material and open the two directions of
    a data channel with it. *)
From S2P Require Import Prelude Integers Buffer PacketId Replay EpochKeys EpochDerive EpochInv DataChannel DataSafety DataSend Data Reliable KeyMethod KeyExpansion.

#[local] Opaque sec data_key_spec data_iv_spec.

(** What the pseudo random function promises: as many bytes as it is asked for. *)
Class PrfLaws `{PrfLib} := {
  prf_length seed secret n out : ssl_tls1_PRF seed secret n = Some out -> zlen out = n
}.

(** Both ends of one TLS session: same options, opposite roles, the same exported key
    material (RFC 5705), and session ids that they have told each other. *)
Record same_session (c s : expansion) : Prop := {
  hs_client : xp_server c = false;
  hs_server : xp_server s = true;
  hs_export : xp_export c = xp_export s;
  hs_format : xp_epoch_format c = xp_epoch_format s;
  hs_type : xp_key_type c = xp_key_type s;
  hs_exporter l n : xp_exporter c l n = xp_exporter s l n;
  hs_exported l n out : xp_exporter c l n = Some out -> zlen out = n;
  hs_sid : xp_session_id c = xp_session_id_remote s;
  hs_sid' : xp_session_id s = xp_session_id_remote c;
  hs_sid_ok : zlen (xp_session_id c) = SID_SIZE /\ bytes (xp_session_id c);
  hs_sid_ok' : zlen (xp_session_id s) = SID_SIZE /\ bytes (xp_session_id s);
  hs_src : xp_key_src c = xp_key_src s
}.

(** A [struct crypto_options] before its keys: zeroed, with an initialised replay window. *)
Definition fresh_options (co : crypto_options) : Prop :=
  co_initialized co = false /\
  exists bt tb name unit_, 0 <= bt /\ packet_id_init bt tb name unit_ = Some (co_packet_id co).

(** Each end sends with the key with which the other receives. *)
Record mirrored (c s : crypto_options) : Prop := {
  mi_out : co_encrypt c = co_decrypt s;
  mi_in : co_decrypt c = co_encrypt s;
  mi_initialized : co_initialized c = true /\ co_initialized s = true
}.

(** A key type as [init_key_type] makes it: any cipher or none, any digest of a size that it
    accepts or none.  The epoch format is for AEAD ciphers. *)
Record key_type_ok `{CryptoLib} (epoch_format : bool) (kt : key_type) : Prop := {
  ko_digest : md_defined (kt_digest kt) = true -> md_kt_size (kt_digest kt) <= MAX_HMAC_KEY_LENGTH;
  ko_epoch : epoch_format = true -> aead_kt kt
}.

Section handshake.
Context `{CL : CryptoLib} `{!CryptoLaws} `{PL : PrfLib} `{!PrfLaws}.

Lemma opt_write_ok b h c t o :
  buf_rep b h c t -> (forall id, o = Some id -> zlen id = SID_SIZE /\ bytes id) -> SID_SIZE <= t ->
  exists b', match o with Some id => buf_write b id | None => (true, b) end = (true, b') /\
    buf_rep b' h (c ++ default [] o) (t - zlen (default [] o)).
Proof.
  intros Hb Ho Ht. destruct o as [x|]; cbn [default from_option id].
  - destruct (Ho x eq_refl) as [Hl Hbs]. apply write_rep; [done|done|lia].
  - exists b. split; [done|]. eapply rep_eq; [exact Hb|done|by rewrite app_nil_r|cbn; lia].
Qed.

Lemma PRF_ok secret label cs ss csid ssid n :
  bytes label -> bytes cs -> bytes ss -> zlen label + zlen cs + zlen ss + SID_SIZE * 2 < BUF_SIZE_MAX ->
  (forall id, csid = Some id -> zlen id = SID_SIZE /\ bytes id) ->
  (forall id, ssid = Some id -> zlen id = SID_SIZE /\ bytes id) ->
  openvpn_PRF secret label cs ss csid ssid n =
    Some (ssl_tls1_PRF (label ++ cs ++ ss ++ default [] csid ++ default [] ssid) secret n).
Proof.
  intros Hl Hc Hs Hlen H1 H2. unfold openvpn_PRF, SID_SIZE in *.
  assert (Hd : forall o, (forall id, o = Some id -> zlen id = 8 /\ bytes id) -> zlen (default [] o) <= 8).
  { intros [x|] Ho; cbn; [destruct (Ho x eq_refl); lia|lia]. }
  pose proof (Hd _ H1). pose proof (Hd _ H2).
  destruct (alloc_some (zlen label + zlen cs + zlen ss + 8 * 2)) as (b & -> & Hb); [lia|].
  rewrite Some_bind. destruct (write_rep b _ _ _ label Hb Hl) as (b1 & -> & Hb1); [lia|]. cbn [mbind option_bind ASSERT].
  destruct (write_rep b1 _ _ _ cs Hb1 Hc) as (b2 & -> & Hb2); [lia|]. cbn [mbind option_bind ASSERT].
  destruct (write_rep b2 _ _ _ ss Hb2 Hs) as (b3 & -> & Hb3); [lia|]. cbn [mbind option_bind ASSERT].
  destruct (opt_write_ok b3 _ _ _ csid Hb3 H1) as (b4 & -> & Hb4); [unfold SID_SIZE; lia|]. cbn [mbind option_bind ASSERT].
  destruct (opt_write_ok b4 _ _ _ ssid Hb4 H2) as (b5 & -> & Hb5); [unfold SID_SIZE; lia|]. cbn [mbind option_bind ASSERT].
  do 2 f_equal. rewrite (rep_content _ _ _ _ Hb5). cbn [app]. by rewrite <- !app_assoc.
Qed.

Lemma literal_ok : bytes (literal (KEY_EXPANSION_ID ++ " master secret")%string) /\
  bytes (literal (KEY_EXPANSION_ID ++ " key expansion")%string) /\
  zlen (literal (KEY_EXPANSION_ID ++ " master secret")%string) = 21 /\
  zlen (literal (KEY_EXPANSION_ID ++ " key expansion")%string) = 21.
Proof. split_and!; [apply bytes_dec|apply bytes_dec| |]; vm_compute; reflexivity. Qed.

(** Both ends expand the same material. *)
Lemma prf_same c s src :
  same_session c s -> source_ok (src_client src) -> bytes (random1 (src_server src)) -> bytes (random2 (src_server src)) ->
  zlen (random1 (src_server src)) = 32 -> zlen (random2 (src_server src)) = 32 ->
  exists r, generate_key_expansion_openvpn_prf false (xp_session_id c) (xp_session_id_remote c) src = Some r /\
    generate_key_expansion_openvpn_prf true (xp_session_id s) (xp_session_id_remote s) src = Some r /\
    forall k, r = Some k -> zlen (mat_cipher (keys0 k)) = 64 /\ zlen (mat_cipher (keys1 k)) = 64.
Proof.
  intros Hss [Hp1 Hp2 Hp3 (B1 & B2 & B3)] B4 B5 L4 L5. destruct literal_ok as (Hl1 & Hl2 & E1 & E2).
  unfold generate_key_expansion_openvpn_prf. cbn [negb]. rewrite <- (hs_sid _ _ Hss), <- (hs_sid' _ _ Hss).
  rewrite PRF_ok; [|done..|rewrite E1, Hp2, L4; done|done|done].
  rewrite !Some_bind. destruct (ssl_tls1_PRF _ _ 48) as [master|]; [|by exists None].
  rewrite !PRF_ok; try done;
    [|rewrite E2, Hp3, L5; done
     |by intros ? [= <-]; apply Hss|by intros ? [= <-]; apply Hss].
  cbn [fmap option_fmap option_map]. eexists. split; [done|]. split; [done|].
  intros k Hk. unfold key2_from in Hk. destruct (ssl_tls1_PRF _ _ KEY2_SIZE) as [out|] eqn:E; [|done].
  apply prf_length in E. unfold KEY2_SIZE, MAX_CIPHER_KEY_LENGTH, MAX_HMAC_KEY_LENGTH in E. injection Hk as <-.
  cbn [key2_of_bytes keys0 keys1 mat_cipher]. split; apply length_slice; lia.
Qed.

Lemma export_same c s :
  same_session c s ->
  generate_key_expansion_tls_export (xp_exporter c) = generate_key_expansion_tls_export (xp_exporter s) /\
  forall k, generate_key_expansion_tls_export (xp_exporter c) = Some k ->
    zlen (mat_cipher (keys0 k)) = 64 /\ zlen (mat_cipher (keys1 k)) = 64.
Proof.
  intros Hss. unfold generate_key_expansion_tls_export. rewrite (hs_exporter _ _ Hss). split; [done|].
  intros k Hk. rewrite <- (hs_exporter _ _ Hss) in Hk. unfold key2_from in Hk.
  destruct (xp_exporter c _ _) as [out|] eqn:E; [|done]. apply (hs_exported _ _ Hss) in E.
  unfold KEY2_SIZE, MAX_CIPHER_KEY_LENGTH, MAX_HMAC_KEY_LENGTH in E. injection Hk as <-.
  cbn [key2_of_bytes keys0 keys1 mat_cipher]. split; apply length_slice; lia.
Qed.

(** ** Key contexts *)

Lemma material_ctx_ok epoch_format kt m : key_type_ok epoch_format kt -> exists k, init_key_bi_ctx (key_parameters_from_key m) kt = Some k.
Proof.
  intros [Hd _]. pose proof (key_size_ok (kt_cipher kt)) as Hks. unfold init_key_bi_ctx, init_key_ctx, key_parameters_from_key.
  cbn [kp_cipher_size kp_hmac_size kp_cipher kp_hmac kp_epoch]. rewrite (ASSERT_true (cipher_kt_key_size _ <=? _)) by lia. rewrite Some_bind.
  assert (Hh : exists hmac, (if md_defined (kt_digest kt) then ASSERT (md_kt_size (kt_digest kt) <=? MAX_HMAC_KEY_LENGTH);;
                             Some (Some (kt_digest kt, slice 0 (md_kt_size (kt_digest kt)) (mat_hmac m))) else Some None) = Some hmac).
  { destruct (md_defined _); [|by eexists]. specialize (Hd eq_refl). rewrite ASSERT_true, Some_bind by lia. by eexists. }
  destruct Hh as [hmac ->]. unfold key_ctx_update_implicit_iv. destruct (cipher_defined _); rewrite !Some_bind; cbn [kc_cipher]; [|by eexists].
  destruct (cipher_kt_mode_aead _) eqn:Hm; [|by eexists]. pose proof (iv_size_ok _ Hm) as Hiv. cbn [kp_epoch kp_hmac_size negb Z.eqb].
  unfold OPENVPN_AEAD_MIN_IV_LEN, OPENVPN_MAX_IV_LENGTH, MAX_HMAC_KEY_LENGTH in *. rewrite !ASSERT_true by lia. rewrite !Some_bind. by eexists.
Qed.

(** What the contexts of the two ends have to do with each other. *)
Definition opened (kt : key_type) (epoch_format : bool) (c s : crypto_options) : Prop :=
  if epoch_format then exists a b, zlen a = 32 /\ zlen b = 32 /\ channel_ok kt a b 16 c /\ channel_ok kt b a 16 s
  else mirrored c s.

Lemma contexts_ok kt epoch_format k2 c s :
  key_type_ok epoch_format kt -> zlen (mat_cipher (keys0 k2)) = 64 -> zlen (mat_cipher (keys1 k2)) = 64 ->
  fresh_options c -> fresh_options s ->
  exists c' s', init_key_contexts c epoch_format kt false k2 = Some c' /\
    init_key_contexts s epoch_format kt true k2 = Some s' /\ opened kt epoch_format c' s'.
Proof.
  intros Hkt L0 L1 (_ & bt & tb & nm & u & Hbt & Hc) (_ & bt' & tb' & nm' & u' & Hbt' & Hs).
  unfold init_key_contexts, opened. destruct epoch_format.
  - pose proof (ko_epoch _ _ Hkt eq_refl) as Ha. rewrite ASSERT_true by apply Ha. rewrite !Some_bind. unfold init_epoch_keys.
    destruct (init_filter _ _ _ _ _ Hbt Hc) as [RFc Hrfc]. destruct (init_filter _ _ _ _ _ Hbt' Hs) as [RFs Hrfs].
    set (a := slice 0 SHA256_DIGEST_LENGTH (mat_cipher (keys0 k2))).
    set (b := slice 0 SHA256_DIGEST_LENGTH (mat_cipher (keys1 k2))).
    assert (Hla : zlen a = 32) by (apply length_slice; unfold SHA256_DIGEST_LENGTH; lia).
    assert (Hlb : zlen b = 32) by (apply length_slice; unfold SHA256_DIGEST_LENGTH; lia).
    destruct (dc_inv_init kt Ha a b 16 Hla Hlb ltac:(lia) RFc _ (co_long_form c) (co_pid_persist c) Hrfc) as (c' & Ec & Ic).
    destruct (dc_inv_init kt Ha b a 16 Hlb Hla ltac:(lia) RFs _ (co_long_form s) (co_pid_persist s) Hrfs) as (s' & Es & Is).
    exists c', s'. split; [exact Ec|]. split; [exact Es|]. exists a, b.
    split; [done|]. split; [done|]. split; [exists RFc, [], []; exact Ic|exists RFs, [], []; exact Is].
  - destruct (material_ctx_ok _ kt (keys0 k2) Hkt) as [k0 E0]. destruct (material_ctx_ok _ kt (keys1 k2) Hkt) as [k1 E1].
    unfold init_key_ctx_bi. change (key_direction_state_init KEY_DIRECTION_NORMAL) with (Some (mk_kds 0 1 2)).
    change (key_direction_state_init KEY_DIRECTION_INVERSE) with (Some (mk_kds 1 0 2)). rewrite !Some_bind.
    change (key2_nth k2 (out_key (mk_kds 0 1 2))) with (keys0 k2). change (key2_nth k2 (in_key (mk_kds 0 1 2))) with (keys1 k2).
    change (key2_nth k2 (out_key (mk_kds 1 0 2))) with (keys1 k2). change (key2_nth k2 (in_key (mk_kds 1 0 2))) with (keys0 k2).
    rewrite E0, E1. cbn [mbind option_bind]. by do 2 eexists.
Qed.

Lemma expansion_ok c s co_c co_s :
  same_session c s -> key_type_ok (xp_epoch_format c) (xp_key_type c) -> fresh_options co_c -> fresh_options co_s ->
  source_ok (src_client (xp_key_src c)) ->
  bytes (random1 (src_server (xp_key_src c))) -> bytes (random2 (src_server (xp_key_src c))) ->
  zlen (random1 (src_server (xp_key_src c))) = 32 -> zlen (random2 (src_server (xp_key_src c))) = 32 ->
  exists ok co_c' co_s', generate_key_expansion c co_c = Some (ok, co_c') /\
    generate_key_expansion s co_s = Some (ok, co_s') /\
    (ok = true -> opened (xp_key_type c) (xp_epoch_format c) co_c' co_s').
Proof.
  intros Hss Hkt Hc Hs Hsrc B1 B2 L1 L2. unfold generate_key_expansion.
  rewrite (proj1 Hc), (proj1 Hs), <- (hs_src _ _ Hss), <- (hs_export _ _ Hss), <- (hs_format _ _ Hss), <- (hs_type _ _ Hss).
  rewrite (hs_client _ _ Hss), (hs_server _ _ Hss).
  assert (exists r, (if xp_export c then Some (generate_key_expansion_tls_export (xp_exporter c))
      else generate_key_expansion_openvpn_prf false (xp_session_id c) (xp_session_id_remote c) (xp_key_src c)) = Some r /\
    (if xp_export c then Some (generate_key_expansion_tls_export (xp_exporter s))
      else generate_key_expansion_openvpn_prf true (xp_session_id s) (xp_session_id_remote s) (xp_key_src c)) = Some r /\
    forall k, r = Some k -> zlen (mat_cipher (keys0 k)) = 64 /\ zlen (mat_cipher (keys1 k)) = 64) as (r & -> & -> & Hr).
  { destruct (xp_export c).
    - destruct (export_same c s Hss) as [-> Hk]. eexists. split; [done|]. split; [done|exact Hk].
    - destruct (prf_same c s _ Hss Hsrc B1 B2 L1 L2) as (r & -> & -> & Hr). by exists r. }
  rewrite !Some_bind. destruct r as [k2|]; [|do 3 eexists; split; [done|split; [done|done]]].
  destruct (negb _); [do 3 eexists; split; [done|split; [done|done]]|].
  destruct (Hr k2 eq_refl) as [K0 K1].
  destruct (contexts_ok _ (xp_epoch_format c) k2 co_c co_s Hkt K0 K1 Hc Hs) as (c' & s' & -> & -> & Ho).
  exists true, c', s'. by rewrite !Some_bind.
Qed.
End handshake.

(** The options strings, passwords and peer information of the two messages. *)
Record texts := mk_texts {
  tx_options : list Z;
  tx_user_pass : option (list Z * list Z);
  tx_peer_info : option (list Z)
}.

(** C4: The handshake opens the data channel.  The client writes its message of the key
    exchange, with texts that fit their fields, and the server reads it; the server writes and
    the client reads.  Then both hold the same key material, and when both expand it - through the exporter or through
    the pseudo random function, for any cipher or none and any digest or none - either both
    fail or both get keys: in the epoch format, which needs an AEAD cipher, two ends of a data
    channel with two secrets, each sending under what the other receives under, otherwise
    contexts that mirror each other: cipher key, digest key and implicit IV for sending are
    those of the other end for receiving. *)
Theorem handshake_opens_data_channel `{CL : CryptoLib} `{!CryptoLaws} `{PL : PrfLib} `{!PrfLaws}
    cb ch cc ct sb sh sc st rnd_c rnd_s tc ts :
  buf_rep cb ch cc ct -> buf_rep sb sh sc st -> source_ok rnd_c -> source_ok rnd_s ->
  texts_ok (tx_options tc) (tx_user_pass tc) (tx_peer_info tc) ->
  texts_ok (tx_options ts) (tx_user_pass ts) (tx_peer_info ts) ->
  zlen (message_bytes false rnd_c (tx_options tc) (tx_user_pass tc) (tx_peer_info tc)) <= b_capacity cb ->
  zlen (message_bytes true rnd_s (tx_options ts) (tx_user_pass ts) (tx_peer_info ts)) <= b_capacity sb ->
  exists cb' src_c, key_method_2_write cb key_source2_zero false rnd_c (tx_options tc) (tx_user_pass tc) (tx_peer_info tc)
      = Some (true, src_c, cb') /\
  forall rb h t, buf_rep rb h (content cb') t ->
  exists m src_s sb' src, read_key_message rb key_source2_zero true = (Some m, src_s) /\
    key_method_2_write sb src_s true rnd_s (tx_options ts) (tx_user_pass ts) (tx_peer_info ts) = Some (true, src, sb') /\
  forall rb' h' t', buf_rep rb' h' (content sb') t' ->
  exists m', read_key_message rb' src_c false = (Some m', src) /\
  forall c s co_c co_s, same_session c s -> xp_key_src c = src -> key_type_ok (xp_epoch_format c) (xp_key_type c) ->
    fresh_options co_c -> fresh_options co_s ->
  exists ok co_c' co_s', generate_key_expansion c co_c = Some (ok, co_c') /\
    generate_key_expansion s co_s = Some (ok, co_s') /\
    (ok = true -> opened (xp_key_type c) (xp_epoch_format c) co_c' co_s').
Proof.
  intros Hcb Hsb Hc Hs Htc Hts Hlc Hls.
  destruct (message_write_ok cb _ _ _ key_source2_zero false rnd_c _ _ _ Hcb Hc Htc Hlc) as (cb' & tw & Hw & Hcb').
  do 2 eexists. split; [exact Hw|]. intros rb h t Hrb. rewrite (rep_content _ _ _ _ Hcb') in Hrb.
  pose proof (message_read_ok rb h t key_source2_zero true rnd_c _ _ _ Hrb Hc Htc) as Hr. cbn [negb] in Hr.
  set (src_s := set_half key_source2_zero false (sent_source false rnd_c)) in Hr.
  destruct (message_write_ok sb _ _ _ src_s true rnd_s _ _ _ Hsb Hs Hts Hls) as (sb' & tw' & Hw' & Hsb').
  do 4 eexists. split; [exact Hr|]. split; [exact Hw'|]. intros rb' h' t' Hrb'. rewrite (rep_content _ _ _ _ Hsb') in Hrb'.
  eexists. split; [exact (message_read_ok rb' h' t' _ false rnd_s _ _ _ Hrb' Hs Hts)|].
  intros c s co_c co_s Hss Hsrc Hkt Hfc Hfs. destruct Hc as [P1 P2 P3 P4]. destruct Hs as [Q1 Q2 Q3 Q4].
  apply expansion_ok; try done; rewrite Hsrc; cbn; try done; apply Q4.
Qed.
