(* ===== verification/TlsSession.v ===== *)
(** * The state of a tunnel's TLS sessions: [ssl_common.h], [ssl.c]

    A [struct tls_multi] holds three sessions - the active one, one that is being
    negotiated, and one that is kept for its retiring key - and each session two
    [struct key_state]s, the primary one and the one that retires.  Here is this state,
    how it is made and freed, and how sessions and keys move from place to place.  The TLS
    object of a key belongs to the library and is reached through [TlsLib]; a pointer to
    an object that has been freed and cleared is [None].  Control packets are not wrapped
    ([TLS_WRAP_NONE]). *)
From S2P Require Import Prelude Integers Buffer Frame PacketId EpochKeys Reliable Control Mroute KeyMethod KeyExpansion.

(** ** The TLS library *)

(** What the certificate callback has found out about the peer. *)
Inductive cert_event :=
| CertVerified (common_name : list Z) (cert_hashes : list (option (list Z)))
| CertRefused.

(** The result 1 means that all is done, 0 that there is nothing to do yet, -1 an error. *)
Class TlsLib := {
  tls_object : Type;
  key_state_ssl_init : bool -> tls_object;
  key_state_write_ciphertext : tls_object -> list Z -> Z * tls_object;
  (** at most so many bytes *)
  key_state_read_ciphertext : tls_object -> Z -> Z * list Z * tls_object;
  key_state_write_plaintext : tls_object -> list Z -> Z * tls_object * option cert_event;
  key_state_read_plaintext : tls_object -> Z -> Z * list Z * tls_object * option cert_event;
  key_state_ssl_shutdown : tls_object -> tls_object;
  key_state_export_keying_material : tls_object -> string -> Z -> option (list Z);
  cipher_kt_insecure : string -> bool;
  (** the [n]-th session id that is drawn *)
  session_id_random : nat -> list Z
}.

(** ** Constants *)

Definition S_ERROR : Z := -2.
Definition S_ERROR_PRE : Z := -1.
Definition S_UNDEF : Z := 0.
Definition S_INITIAL : Z := 1.
Definition S_PRE_START_SKIP : Z := 2.
Definition S_PRE_START : Z := 3.
Definition S_START : Z := 4.
Definition S_SENT_KEY : Z := 5.
Definition S_GOT_KEY : Z := 6.
Definition S_ACTIVE : Z := 7.
Definition S_GENERATED_KEYS : Z := 8.
Definition MAX_PEER_ID : Z := 16777215.

Inductive ks_auth_state := KS_AUTH_FALSE | KS_AUTH_DEFERRED | KS_AUTH_TRUE.
Inductive auth_deferred_result := ACF_PENDING | ACF_SUCCEEDED | ACF_DISABLED | ACF_FAILED.
Inductive multi_status :=
| CAS_NOT_CONNECTED | CAS_WAITING_AUTH | CAS_PENDING | CAS_PENDING_DEFERRED | CAS_PENDING_DEFERRED_PARTIAL
| CAS_FAILED | CAS_WAITING_OPTIONS_IMPORT | CAS_RECONNECT_PENDING | CAS_CONNECT_DONE.

#[global] Instance ks_auth_state_eq : EqDecision ks_auth_state.
Proof. solve_decision. Defined.
#[global] Instance auth_deferred_result_eq : EqDecision auth_deferred_result.
Proof. solve_decision. Defined.
#[global] Instance multi_status_eq : EqDecision multi_status.
Proof. solve_decision. Defined.

(** The elements of [tls_multi.session] and of [tls_session.key]. *)
Inductive tm_index := TM_ACTIVE | TM_INITIAL | TM_LAME_DUCK.
Inductive ks_index := KS_PRIMARY | KS_LAME_DUCK.

#[global] Instance tm_index_eq : EqDecision tm_index.
Proof. solve_decision. Defined.
#[global] Instance ks_index_eq : EqDecision ks_index.
Proof. solve_decision. Defined.

Definition key_index : Type := tm_index * ks_index.

(** [get_key_scan]: the keys that the data channel looks at, in this order. *)
Definition key_scan : list key_index :=
  [(TM_ACTIVE, KS_PRIMARY); (TM_ACTIVE, KS_LAME_DUCK); (TM_LAME_DUCK, KS_LAME_DUCK)].

(** ** Addresses *)

Definition addr_defined (addr : openvpn_sockaddr) : bool :=
  match addr with
  | SockIn4 a _ | SockIn6 a _ => negb (forallb (fun b => b =? 0) a)
  | SockOther => false
  end.

Definition link_socket_actual_defined (addr : openvpn_sockaddr) : bool := addr_defined addr.

(** [addr_port_match]: of an address of no family it asserts that there is none. *)
Definition link_socket_actual_match (a1 a2 : openvpn_sockaddr) : option bool :=
  match a1, a2 with
  | SockIn4 a p, SockIn4 b q => Some (bool_decide (a = b) && bool_decide (p = q))
  | SockIn6 a p, SockIn6 b q => Some (bool_decide (a = b) && bool_decide (p = q))
  | SockOther, _ => None
  | _, _ => Some false
  end.

(** ** The state *)

(** The fields of [struct tls_options] that the sessions use; of the flags,
    [SSLF_AUTH_USER_PASS_OPTIONAL], [SSLF_USERNAME_AS_COMMON_NAME],
    [CO_USE_TLS_KEY_MATERIAL_EXPORT], [CO_EPOCH_DATA_KEY_FORMAT] and
    [CO_PACKET_ID_LONG_FORM]. *)
Record tls_options := mk_tls_options {
  to_server : bool;
  to_xmit_hold : bool;
  to_single_session : bool;
  to_mode_server : bool;
  to_tls_crypt_v2 : bool;
  to_transition_window : Z;
  to_handshake_window : Z;
  to_packet_timeout : Z;
  to_renegotiate_bytes : Z;
  to_renegotiate_packets : Z;
  to_aead_usage_limit : Z;
  to_renegotiate_seconds : Z;
  to_replay_window : Z;
  to_replay_time : Z;
  to_key_type : key_type;
  to_frame : frame;
  to_local_options : list Z;
  to_user_pass_optional : bool;
  to_username_as_common_name : bool;
  to_export : bool;
  to_epoch_format : bool;
  to_long_form : bool;
  to_auth_token_generate : bool;
  to_auth_token_call_auth : bool;
  to_ccd_exclusive : bool
}.

Section state.
Context `{TlsLib}.

Record tls_key := mk_tls_key {
  tk_state : Z;
  tk_auth_token_state_flags : Z;
  tk_key_id : Z;
  tk_ks_ssl : option tls_object;
  tk_initial : Z;
  tk_established : Z;
  tk_must_negotiate : Z;
  tk_must_die : Z;
  tk_peer_last_packet : Z;
  tk_initial_opcode : Z;
  tk_session_id_remote : list Z;
  tk_remote_addr : openvpn_sockaddr;
  tk_crypto : crypto_options;
  tk_key_src : key_source2;
  tk_plaintext_read_buf : buffer;
  tk_plaintext_write_buf : buffer;
  tk_rel : option key_state;
  tk_paybuf : list (list Z);
  tk_n_bytes : Z;
  tk_n_packets : Z;
  tk_authenticated : ks_auth_state;
  tk_auth_deferred_expire : Z;
  tk_mda_key_id : Z;
  tk_mda_status : auth_deferred_result;
  tk_plugin_auth : option auth_deferred_result;
  tk_script_auth : option auth_deferred_result
}.

Definition set_tk_state (k : tls_key) (x : Z) : tls_key :=
  mk_tls_key x (tk_auth_token_state_flags k) (tk_key_id k) (tk_ks_ssl k) (tk_initial k) (tk_established k)
    (tk_must_negotiate k) (tk_must_die k) (tk_peer_last_packet k) (tk_initial_opcode k) (tk_session_id_remote k)
    (tk_remote_addr k) (tk_crypto k) (tk_key_src k) (tk_plaintext_read_buf k) (tk_plaintext_write_buf k)
    (tk_rel k) (tk_paybuf k) (tk_n_bytes k) (tk_n_packets k) (tk_authenticated k) (tk_auth_deferred_expire k)
    (tk_mda_key_id k) (tk_mda_status k) (tk_plugin_auth k) (tk_script_auth k).

Definition set_tk_auth_token_state_flags (k : tls_key) (x : Z) : tls_key :=
  mk_tls_key (tk_state k) x (tk_key_id k) (tk_ks_ssl k) (tk_initial k) (tk_established k) (tk_must_negotiate k)
    (tk_must_die k) (tk_peer_last_packet k) (tk_initial_opcode k) (tk_session_id_remote k) (tk_remote_addr k)
    (tk_crypto k) (tk_key_src k) (tk_plaintext_read_buf k) (tk_plaintext_write_buf k) (tk_rel k) (tk_paybuf k)
    (tk_n_bytes k) (tk_n_packets k) (tk_authenticated k) (tk_auth_deferred_expire k) (tk_mda_key_id k)
    (tk_mda_status k) (tk_plugin_auth k) (tk_script_auth k).

Definition set_tk_ks_ssl (k : tls_key) (x : option tls_object) : tls_key :=
  mk_tls_key (tk_state k) (tk_auth_token_state_flags k) (tk_key_id k) x (tk_initial k) (tk_established k)
    (tk_must_negotiate k) (tk_must_die k) (tk_peer_last_packet k) (tk_initial_opcode k) (tk_session_id_remote k)
    (tk_remote_addr k) (tk_crypto k) (tk_key_src k) (tk_plaintext_read_buf k) (tk_plaintext_write_buf k)
    (tk_rel k) (tk_paybuf k) (tk_n_bytes k) (tk_n_packets k) (tk_authenticated k) (tk_auth_deferred_expire k)
    (tk_mda_key_id k) (tk_mda_status k) (tk_plugin_auth k) (tk_script_auth k).

Definition set_tk_established (k : tls_key) (x : Z) : tls_key :=
  mk_tls_key (tk_state k) (tk_auth_token_state_flags k) (tk_key_id k) (tk_ks_ssl k) (tk_initial k) x
    (tk_must_negotiate k) (tk_must_die k) (tk_peer_last_packet k) (tk_initial_opcode k) (tk_session_id_remote k)
    (tk_remote_addr k) (tk_crypto k) (tk_key_src k) (tk_plaintext_read_buf k) (tk_plaintext_write_buf k)
    (tk_rel k) (tk_paybuf k) (tk_n_bytes k) (tk_n_packets k) (tk_authenticated k) (tk_auth_deferred_expire k)
    (tk_mda_key_id k) (tk_mda_status k) (tk_plugin_auth k) (tk_script_auth k).

Definition set_tk_must_negotiate (k : tls_key) (x : Z) : tls_key :=
  mk_tls_key (tk_state k) (tk_auth_token_state_flags k) (tk_key_id k) (tk_ks_ssl k) (tk_initial k)
    (tk_established k) x (tk_must_die k) (tk_peer_last_packet k) (tk_initial_opcode k) (tk_session_id_remote k)
    (tk_remote_addr k) (tk_crypto k) (tk_key_src k) (tk_plaintext_read_buf k) (tk_plaintext_write_buf k)
    (tk_rel k) (tk_paybuf k) (tk_n_bytes k) (tk_n_packets k) (tk_authenticated k) (tk_auth_deferred_expire k)
    (tk_mda_key_id k) (tk_mda_status k) (tk_plugin_auth k) (tk_script_auth k).

Definition set_tk_must_die (k : tls_key) (x : Z) : tls_key :=
  mk_tls_key (tk_state k) (tk_auth_token_state_flags k) (tk_key_id k) (tk_ks_ssl k) (tk_initial k)
    (tk_established k) (tk_must_negotiate k) x (tk_peer_last_packet k) (tk_initial_opcode k)
    (tk_session_id_remote k) (tk_remote_addr k) (tk_crypto k) (tk_key_src k) (tk_plaintext_read_buf k)
    (tk_plaintext_write_buf k) (tk_rel k) (tk_paybuf k) (tk_n_bytes k) (tk_n_packets k) (tk_authenticated k)
    (tk_auth_deferred_expire k) (tk_mda_key_id k) (tk_mda_status k) (tk_plugin_auth k) (tk_script_auth k).

Definition set_tk_peer_last_packet (k : tls_key) (x : Z) : tls_key :=
  mk_tls_key (tk_state k) (tk_auth_token_state_flags k) (tk_key_id k) (tk_ks_ssl k) (tk_initial k)
    (tk_established k) (tk_must_negotiate k) (tk_must_die k) x (tk_initial_opcode k) (tk_session_id_remote k)
    (tk_remote_addr k) (tk_crypto k) (tk_key_src k) (tk_plaintext_read_buf k) (tk_plaintext_write_buf k)
    (tk_rel k) (tk_paybuf k) (tk_n_bytes k) (tk_n_packets k) (tk_authenticated k) (tk_auth_deferred_expire k)
    (tk_mda_key_id k) (tk_mda_status k) (tk_plugin_auth k) (tk_script_auth k).

Definition set_tk_session_id_remote (k : tls_key) (x : list Z) : tls_key :=
  mk_tls_key (tk_state k) (tk_auth_token_state_flags k) (tk_key_id k) (tk_ks_ssl k) (tk_initial k)
    (tk_established k) (tk_must_negotiate k) (tk_must_die k) (tk_peer_last_packet k) (tk_initial_opcode k) x
    (tk_remote_addr k) (tk_crypto k) (tk_key_src k) (tk_plaintext_read_buf k) (tk_plaintext_write_buf k)
    (tk_rel k) (tk_paybuf k) (tk_n_bytes k) (tk_n_packets k) (tk_authenticated k) (tk_auth_deferred_expire k)
    (tk_mda_key_id k) (tk_mda_status k) (tk_plugin_auth k) (tk_script_auth k).

Definition set_tk_remote_addr (k : tls_key) (x : openvpn_sockaddr) : tls_key :=
  mk_tls_key (tk_state k) (tk_auth_token_state_flags k) (tk_key_id k) (tk_ks_ssl k) (tk_initial k)
    (tk_established k) (tk_must_negotiate k) (tk_must_die k) (tk_peer_last_packet k) (tk_initial_opcode k)
    (tk_session_id_remote k) x (tk_crypto k) (tk_key_src k) (tk_plaintext_read_buf k) (tk_plaintext_write_buf k)
    (tk_rel k) (tk_paybuf k) (tk_n_bytes k) (tk_n_packets k) (tk_authenticated k) (tk_auth_deferred_expire k)
    (tk_mda_key_id k) (tk_mda_status k) (tk_plugin_auth k) (tk_script_auth k).

Definition set_tk_crypto (k : tls_key) (x : crypto_options) : tls_key :=
  mk_tls_key (tk_state k) (tk_auth_token_state_flags k) (tk_key_id k) (tk_ks_ssl k) (tk_initial k)
    (tk_established k) (tk_must_negotiate k) (tk_must_die k) (tk_peer_last_packet k) (tk_initial_opcode k)
    (tk_session_id_remote k) (tk_remote_addr k) x (tk_key_src k) (tk_plaintext_read_buf k)
    (tk_plaintext_write_buf k) (tk_rel k) (tk_paybuf k) (tk_n_bytes k) (tk_n_packets k) (tk_authenticated k)
    (tk_auth_deferred_expire k) (tk_mda_key_id k) (tk_mda_status k) (tk_plugin_auth k) (tk_script_auth k).

Definition set_tk_key_src (k : tls_key) (x : key_source2) : tls_key :=
  mk_tls_key (tk_state k) (tk_auth_token_state_flags k) (tk_key_id k) (tk_ks_ssl k) (tk_initial k)
    (tk_established k) (tk_must_negotiate k) (tk_must_die k) (tk_peer_last_packet k) (tk_initial_opcode k)
    (tk_session_id_remote k) (tk_remote_addr k) (tk_crypto k) x (tk_plaintext_read_buf k)
    (tk_plaintext_write_buf k) (tk_rel k) (tk_paybuf k) (tk_n_bytes k) (tk_n_packets k) (tk_authenticated k)
    (tk_auth_deferred_expire k) (tk_mda_key_id k) (tk_mda_status k) (tk_plugin_auth k) (tk_script_auth k).

Definition set_tk_plaintext_read_buf (k : tls_key) (x : buffer) : tls_key :=
  mk_tls_key (tk_state k) (tk_auth_token_state_flags k) (tk_key_id k) (tk_ks_ssl k) (tk_initial k)
    (tk_established k) (tk_must_negotiate k) (tk_must_die k) (tk_peer_last_packet k) (tk_initial_opcode k)
    (tk_session_id_remote k) (tk_remote_addr k) (tk_crypto k) (tk_key_src k) x (tk_plaintext_write_buf k)
    (tk_rel k) (tk_paybuf k) (tk_n_bytes k) (tk_n_packets k) (tk_authenticated k) (tk_auth_deferred_expire k)
    (tk_mda_key_id k) (tk_mda_status k) (tk_plugin_auth k) (tk_script_auth k).

Definition set_tk_plaintext_write_buf (k : tls_key) (x : buffer) : tls_key :=
  mk_tls_key (tk_state k) (tk_auth_token_state_flags k) (tk_key_id k) (tk_ks_ssl k) (tk_initial k)
    (tk_established k) (tk_must_negotiate k) (tk_must_die k) (tk_peer_last_packet k) (tk_initial_opcode k)
    (tk_session_id_remote k) (tk_remote_addr k) (tk_crypto k) (tk_key_src k) (tk_plaintext_read_buf k) x
    (tk_rel k) (tk_paybuf k) (tk_n_bytes k) (tk_n_packets k) (tk_authenticated k) (tk_auth_deferred_expire k)
    (tk_mda_key_id k) (tk_mda_status k) (tk_plugin_auth k) (tk_script_auth k).

Definition set_tk_rel (k : tls_key) (x : option key_state) : tls_key :=
  mk_tls_key (tk_state k) (tk_auth_token_state_flags k) (tk_key_id k) (tk_ks_ssl k) (tk_initial k)
    (tk_established k) (tk_must_negotiate k) (tk_must_die k) (tk_peer_last_packet k) (tk_initial_opcode k)
    (tk_session_id_remote k) (tk_remote_addr k) (tk_crypto k) (tk_key_src k) (tk_plaintext_read_buf k)
    (tk_plaintext_write_buf k) x (tk_paybuf k) (tk_n_bytes k) (tk_n_packets k) (tk_authenticated k)
    (tk_auth_deferred_expire k) (tk_mda_key_id k) (tk_mda_status k) (tk_plugin_auth k) (tk_script_auth k).

Definition set_tk_paybuf (k : tls_key) (x : list (list Z)) : tls_key :=
  mk_tls_key (tk_state k) (tk_auth_token_state_flags k) (tk_key_id k) (tk_ks_ssl k) (tk_initial k)
    (tk_established k) (tk_must_negotiate k) (tk_must_die k) (tk_peer_last_packet k) (tk_initial_opcode k)
    (tk_session_id_remote k) (tk_remote_addr k) (tk_crypto k) (tk_key_src k) (tk_plaintext_read_buf k)
    (tk_plaintext_write_buf k) (tk_rel k) x (tk_n_bytes k) (tk_n_packets k) (tk_authenticated k)
    (tk_auth_deferred_expire k) (tk_mda_key_id k) (tk_mda_status k) (tk_plugin_auth k) (tk_script_auth k).

Definition set_tk_authenticated (k : tls_key) (x : ks_auth_state) : tls_key :=
  mk_tls_key (tk_state k) (tk_auth_token_state_flags k) (tk_key_id k) (tk_ks_ssl k) (tk_initial k)
    (tk_established k) (tk_must_negotiate k) (tk_must_die k) (tk_peer_last_packet k) (tk_initial_opcode k)
    (tk_session_id_remote k) (tk_remote_addr k) (tk_crypto k) (tk_key_src k) (tk_plaintext_read_buf k)
    (tk_plaintext_write_buf k) (tk_rel k) (tk_paybuf k) (tk_n_bytes k) (tk_n_packets k) x
    (tk_auth_deferred_expire k) (tk_mda_key_id k) (tk_mda_status k) (tk_plugin_auth k) (tk_script_auth k).

Definition set_tk_mda_status (k : tls_key) (x : auth_deferred_result) : tls_key :=
  mk_tls_key (tk_state k) (tk_auth_token_state_flags k) (tk_key_id k) (tk_ks_ssl k) (tk_initial k)
    (tk_established k) (tk_must_negotiate k) (tk_must_die k) (tk_peer_last_packet k) (tk_initial_opcode k)
    (tk_session_id_remote k) (tk_remote_addr k) (tk_crypto k) (tk_key_src k) (tk_plaintext_read_buf k)
    (tk_plaintext_write_buf k) (tk_rel k) (tk_paybuf k) (tk_n_bytes k) (tk_n_packets k) (tk_authenticated k)
    (tk_auth_deferred_expire k) (tk_mda_key_id k) x (tk_plugin_auth k) (tk_script_auth k).

Definition set_tk_plugin_auth (k : tls_key) (x : option auth_deferred_result) : tls_key :=
  mk_tls_key (tk_state k) (tk_auth_token_state_flags k) (tk_key_id k) (tk_ks_ssl k) (tk_initial k)
    (tk_established k) (tk_must_negotiate k) (tk_must_die k) (tk_peer_last_packet k) (tk_initial_opcode k)
    (tk_session_id_remote k) (tk_remote_addr k) (tk_crypto k) (tk_key_src k) (tk_plaintext_read_buf k)
    (tk_plaintext_write_buf k) (tk_rel k) (tk_paybuf k) (tk_n_bytes k) (tk_n_packets k) (tk_authenticated k)
    (tk_auth_deferred_expire k) (tk_mda_key_id k) (tk_mda_status k) x (tk_script_auth k).

Definition set_tk_script_auth (k : tls_key) (x : option auth_deferred_result) : tls_key :=
  mk_tls_key (tk_state k) (tk_auth_token_state_flags k) (tk_key_id k) (tk_ks_ssl k) (tk_initial k)
    (tk_established k) (tk_must_negotiate k) (tk_must_die k) (tk_peer_last_packet k) (tk_initial_opcode k)
    (tk_session_id_remote k) (tk_remote_addr k) (tk_crypto k) (tk_key_src k) (tk_plaintext_read_buf k)
    (tk_plaintext_write_buf k) (tk_rel k) (tk_paybuf k) (tk_n_bytes k) (tk_n_packets k) (tk_authenticated k)
    (tk_auth_deferred_expire k) (tk_mda_key_id k) (tk_mda_status k) (tk_plugin_auth k) x.

Definition set_tk_initial (k : tls_key) (x : Z) : tls_key :=
  mk_tls_key (tk_state k) (tk_auth_token_state_flags k) (tk_key_id k) (tk_ks_ssl k) x (tk_established k)
    (tk_must_negotiate k) (tk_must_die k) (tk_peer_last_packet k) (tk_initial_opcode k) (tk_session_id_remote k)
    (tk_remote_addr k) (tk_crypto k) (tk_key_src k) (tk_plaintext_read_buf k) (tk_plaintext_write_buf k)
    (tk_rel k) (tk_paybuf k) (tk_n_bytes k) (tk_n_packets k) (tk_authenticated k) (tk_auth_deferred_expire k)
    (tk_mda_key_id k) (tk_mda_status k) (tk_plugin_auth k) (tk_script_auth k).

Definition set_tk_auth_deferred_expire (k : tls_key) (x : Z) : tls_key :=
  mk_tls_key (tk_state k) (tk_auth_token_state_flags k) (tk_key_id k) (tk_ks_ssl k) (tk_initial k)
    (tk_established k) (tk_must_negotiate k) (tk_must_die k) (tk_peer_last_packet k) (tk_initial_opcode k)
    (tk_session_id_remote k) (tk_remote_addr k) (tk_crypto k) (tk_key_src k) (tk_plaintext_read_buf k)
    (tk_plaintext_write_buf k) (tk_rel k) (tk_paybuf k) (tk_n_bytes k) (tk_n_packets k) (tk_authenticated k) x
    (tk_mda_key_id k) (tk_mda_status k) (tk_plugin_auth k) (tk_script_auth k).

Definition set_tk_n_bytes (k : tls_key) (x : Z) : tls_key :=
  mk_tls_key (tk_state k) (tk_auth_token_state_flags k) (tk_key_id k) (tk_ks_ssl k) (tk_initial k)
    (tk_established k) (tk_must_negotiate k) (tk_must_die k) (tk_peer_last_packet k) (tk_initial_opcode k)
    (tk_session_id_remote k) (tk_remote_addr k) (tk_crypto k) (tk_key_src k) (tk_plaintext_read_buf k)
    (tk_plaintext_write_buf k) (tk_rel k) (tk_paybuf k) x (tk_n_packets k) (tk_authenticated k)
    (tk_auth_deferred_expire k) (tk_mda_key_id k) (tk_mda_status k) (tk_plugin_auth k) (tk_script_auth k).

Definition set_tk_n_packets (k : tls_key) (x : Z) : tls_key :=
  mk_tls_key (tk_state k) (tk_auth_token_state_flags k) (tk_key_id k) (tk_ks_ssl k) (tk_initial k)
    (tk_established k) (tk_must_negotiate k) (tk_must_die k) (tk_peer_last_packet k) (tk_initial_opcode k)
    (tk_session_id_remote k) (tk_remote_addr k) (tk_crypto k) (tk_key_src k) (tk_plaintext_read_buf k)
    (tk_plaintext_write_buf k) (tk_rel k) (tk_paybuf k) (tk_n_bytes k) x (tk_authenticated k)
    (tk_auth_deferred_expire k) (tk_mda_key_id k) (tk_mda_status k) (tk_plugin_auth k) (tk_script_auth k).

Record tls_session := mk_tls_session {
  ts_burst : bool;
  ts_initial_opcode : Z;
  ts_session_id : list Z;
  ts_key_id : Z;
  ts_common_name : option (list Z);
  ts_cert_hash_set : option (list (option (list Z)));
  ts_verified : bool;
  ts_untrusted_addr : openvpn_sockaddr;
  ts_primary : tls_key;
  ts_lame : tls_key
}.

Definition set_ts_burst (s : tls_session) (x : bool) : tls_session :=
  mk_tls_session x (ts_initial_opcode s) (ts_session_id s) (ts_key_id s) (ts_common_name s) (ts_cert_hash_set s)
    (ts_verified s) (ts_untrusted_addr s) (ts_primary s) (ts_lame s).

Definition set_ts_initial_opcode (s : tls_session) (x : Z) : tls_session :=
  mk_tls_session (ts_burst s) x (ts_session_id s) (ts_key_id s) (ts_common_name s) (ts_cert_hash_set s)
    (ts_verified s) (ts_untrusted_addr s) (ts_primary s) (ts_lame s).

Definition set_ts_session_id (s : tls_session) (x : list Z) : tls_session :=
  mk_tls_session (ts_burst s) (ts_initial_opcode s) x (ts_key_id s) (ts_common_name s) (ts_cert_hash_set s)
    (ts_verified s) (ts_untrusted_addr s) (ts_primary s) (ts_lame s).

Definition set_ts_key_id (s : tls_session) (x : Z) : tls_session :=
  mk_tls_session (ts_burst s) (ts_initial_opcode s) (ts_session_id s) x (ts_common_name s) (ts_cert_hash_set s)
    (ts_verified s) (ts_untrusted_addr s) (ts_primary s) (ts_lame s).

Definition set_ts_common_name (s : tls_session) (x : option (list Z)) : tls_session :=
  mk_tls_session (ts_burst s) (ts_initial_opcode s) (ts_session_id s) (ts_key_id s) x (ts_cert_hash_set s)
    (ts_verified s) (ts_untrusted_addr s) (ts_primary s) (ts_lame s).

Definition set_ts_cert_hash_set (s : tls_session) (x : option (list (option (list Z)))) : tls_session :=
  mk_tls_session (ts_burst s) (ts_initial_opcode s) (ts_session_id s) (ts_key_id s) (ts_common_name s) x
    (ts_verified s) (ts_untrusted_addr s) (ts_primary s) (ts_lame s).

Definition set_ts_verified (s : tls_session) (x : bool) : tls_session :=
  mk_tls_session (ts_burst s) (ts_initial_opcode s) (ts_session_id s) (ts_key_id s) (ts_common_name s)
    (ts_cert_hash_set s) x (ts_untrusted_addr s) (ts_primary s) (ts_lame s).

Definition set_ts_untrusted_addr (s : tls_session) (x : openvpn_sockaddr) : tls_session :=
  mk_tls_session (ts_burst s) (ts_initial_opcode s) (ts_session_id s) (ts_key_id s) (ts_common_name s)
    (ts_cert_hash_set s) (ts_verified s) x (ts_primary s) (ts_lame s).

Definition set_ts_primary (s : tls_session) (x : tls_key) : tls_session :=
  mk_tls_session (ts_burst s) (ts_initial_opcode s) (ts_session_id s) (ts_key_id s) (ts_common_name s)
    (ts_cert_hash_set s) (ts_verified s) (ts_untrusted_addr s) x (ts_lame s).

Definition set_ts_lame (s : tls_session) (x : tls_key) : tls_session :=
  mk_tls_session (ts_burst s) (ts_initial_opcode s) (ts_session_id s) (ts_key_id s) (ts_common_name s)
    (ts_cert_hash_set s) (ts_verified s) (ts_untrusted_addr s) (ts_primary s) x.

Record tls_multi := mk_tls_multi {
  tm_opt : tls_options;
  tm_n_sessions : Z;
  tm_multi_state : multi_status;
  tm_n_hard_errors : Z;
  tm_n_soft_errors : Z;
  tm_locked_cn : option (list Z);
  tm_locked_username : option (list Z);
  tm_locked_original_username : option (list Z);
  tm_locked_cert_hash_set : option (list (option (list Z)));
  tm_tas_cache_last_update : Z;
  tm_tas_cache_num_updates : Z;
  tm_peer_info : option (list Z);
  tm_auth_token : option (list Z);
  tm_auth_token_initial : option (list Z);
  tm_peer_id : Z;
  tm_save_ks : option key_index;
  tm_active : tls_session;
  tm_initial : tls_session;
  tm_lame_duck : tls_session;
  tm_drawn : nat;
  tm_mda_key_id_counter : Z
}.

Definition set_tm_opt (m : tls_multi) (x : tls_options) : tls_multi :=
  mk_tls_multi x (tm_n_sessions m) (tm_multi_state m) (tm_n_hard_errors m) (tm_n_soft_errors m) (tm_locked_cn m)
    (tm_locked_username m) (tm_locked_original_username m) (tm_locked_cert_hash_set m)
    (tm_tas_cache_last_update m) (tm_tas_cache_num_updates m) (tm_peer_info m) (tm_auth_token m)
    (tm_auth_token_initial m) (tm_peer_id m) (tm_save_ks m) (tm_active m) (tm_initial m) (tm_lame_duck m)
    (tm_drawn m) (tm_mda_key_id_counter m).

Definition set_tm_n_sessions (m : tls_multi) (x : Z) : tls_multi :=
  mk_tls_multi (tm_opt m) x (tm_multi_state m) (tm_n_hard_errors m) (tm_n_soft_errors m) (tm_locked_cn m)
    (tm_locked_username m) (tm_locked_original_username m) (tm_locked_cert_hash_set m)
    (tm_tas_cache_last_update m) (tm_tas_cache_num_updates m) (tm_peer_info m) (tm_auth_token m)
    (tm_auth_token_initial m) (tm_peer_id m) (tm_save_ks m) (tm_active m) (tm_initial m) (tm_lame_duck m)
    (tm_drawn m) (tm_mda_key_id_counter m).

Definition set_tm_multi_state (m : tls_multi) (x : multi_status) : tls_multi :=
  mk_tls_multi (tm_opt m) (tm_n_sessions m) x (tm_n_hard_errors m) (tm_n_soft_errors m) (tm_locked_cn m)
    (tm_locked_username m) (tm_locked_original_username m) (tm_locked_cert_hash_set m)
    (tm_tas_cache_last_update m) (tm_tas_cache_num_updates m) (tm_peer_info m) (tm_auth_token m)
    (tm_auth_token_initial m) (tm_peer_id m) (tm_save_ks m) (tm_active m) (tm_initial m) (tm_lame_duck m)
    (tm_drawn m) (tm_mda_key_id_counter m).

Definition set_tm_n_hard_errors (m : tls_multi) (x : Z) : tls_multi :=
  mk_tls_multi (tm_opt m) (tm_n_sessions m) (tm_multi_state m) x (tm_n_soft_errors m) (tm_locked_cn m)
    (tm_locked_username m) (tm_locked_original_username m) (tm_locked_cert_hash_set m)
    (tm_tas_cache_last_update m) (tm_tas_cache_num_updates m) (tm_peer_info m) (tm_auth_token m)
    (tm_auth_token_initial m) (tm_peer_id m) (tm_save_ks m) (tm_active m) (tm_initial m) (tm_lame_duck m)
    (tm_drawn m) (tm_mda_key_id_counter m).

Definition set_tm_n_soft_errors (m : tls_multi) (x : Z) : tls_multi :=
  mk_tls_multi (tm_opt m) (tm_n_sessions m) (tm_multi_state m) (tm_n_hard_errors m) x (tm_locked_cn m)
    (tm_locked_username m) (tm_locked_original_username m) (tm_locked_cert_hash_set m)
    (tm_tas_cache_last_update m) (tm_tas_cache_num_updates m) (tm_peer_info m) (tm_auth_token m)
    (tm_auth_token_initial m) (tm_peer_id m) (tm_save_ks m) (tm_active m) (tm_initial m) (tm_lame_duck m)
    (tm_drawn m) (tm_mda_key_id_counter m).

Definition set_tm_locked_cn (m : tls_multi) (x : option (list Z)) : tls_multi :=
  mk_tls_multi (tm_opt m) (tm_n_sessions m) (tm_multi_state m) (tm_n_hard_errors m) (tm_n_soft_errors m) x
    (tm_locked_username m) (tm_locked_original_username m) (tm_locked_cert_hash_set m)
    (tm_tas_cache_last_update m) (tm_tas_cache_num_updates m) (tm_peer_info m) (tm_auth_token m)
    (tm_auth_token_initial m) (tm_peer_id m) (tm_save_ks m) (tm_active m) (tm_initial m) (tm_lame_duck m)
    (tm_drawn m) (tm_mda_key_id_counter m).

Definition set_tm_locked_username (m : tls_multi) (x : option (list Z)) : tls_multi :=
  mk_tls_multi (tm_opt m) (tm_n_sessions m) (tm_multi_state m) (tm_n_hard_errors m) (tm_n_soft_errors m)
    (tm_locked_cn m) x (tm_locked_original_username m) (tm_locked_cert_hash_set m) (tm_tas_cache_last_update m)
    (tm_tas_cache_num_updates m) (tm_peer_info m) (tm_auth_token m) (tm_auth_token_initial m) (tm_peer_id m)
    (tm_save_ks m) (tm_active m) (tm_initial m) (tm_lame_duck m) (tm_drawn m) (tm_mda_key_id_counter m).

Definition set_tm_locked_original_username (m : tls_multi) (x : option (list Z)) : tls_multi :=
  mk_tls_multi (tm_opt m) (tm_n_sessions m) (tm_multi_state m) (tm_n_hard_errors m) (tm_n_soft_errors m)
    (tm_locked_cn m) (tm_locked_username m) x (tm_locked_cert_hash_set m) (tm_tas_cache_last_update m)
    (tm_tas_cache_num_updates m) (tm_peer_info m) (tm_auth_token m) (tm_auth_token_initial m) (tm_peer_id m)
    (tm_save_ks m) (tm_active m) (tm_initial m) (tm_lame_duck m) (tm_drawn m) (tm_mda_key_id_counter m).

Definition set_tm_locked_cert_hash_set (m : tls_multi) (x : option (list (option (list Z)))) : tls_multi :=
  mk_tls_multi (tm_opt m) (tm_n_sessions m) (tm_multi_state m) (tm_n_hard_errors m) (tm_n_soft_errors m)
    (tm_locked_cn m) (tm_locked_username m) (tm_locked_original_username m) x (tm_tas_cache_last_update m)
    (tm_tas_cache_num_updates m) (tm_peer_info m) (tm_auth_token m) (tm_auth_token_initial m) (tm_peer_id m)
    (tm_save_ks m) (tm_active m) (tm_initial m) (tm_lame_duck m) (tm_drawn m) (tm_mda_key_id_counter m).

Definition set_tm_peer_info (m : tls_multi) (x : option (list Z)) : tls_multi :=
  mk_tls_multi (tm_opt m) (tm_n_sessions m) (tm_multi_state m) (tm_n_hard_errors m) (tm_n_soft_errors m)
    (tm_locked_cn m) (tm_locked_username m) (tm_locked_original_username m) (tm_locked_cert_hash_set m)
    (tm_tas_cache_last_update m) (tm_tas_cache_num_updates m) x (tm_auth_token m) (tm_auth_token_initial m)
    (tm_peer_id m) (tm_save_ks m) (tm_active m) (tm_initial m) (tm_lame_duck m) (tm_drawn m)
    (tm_mda_key_id_counter m).

Definition set_tm_auth_token (m : tls_multi) (x : option (list Z)) : tls_multi :=
  mk_tls_multi (tm_opt m) (tm_n_sessions m) (tm_multi_state m) (tm_n_hard_errors m) (tm_n_soft_errors m)
    (tm_locked_cn m) (tm_locked_username m) (tm_locked_original_username m) (tm_locked_cert_hash_set m)
    (tm_tas_cache_last_update m) (tm_tas_cache_num_updates m) (tm_peer_info m) x (tm_auth_token_initial m)
    (tm_peer_id m) (tm_save_ks m) (tm_active m) (tm_initial m) (tm_lame_duck m) (tm_drawn m)
    (tm_mda_key_id_counter m).

Definition set_tm_auth_token_initial (m : tls_multi) (x : option (list Z)) : tls_multi :=
  mk_tls_multi (tm_opt m) (tm_n_sessions m) (tm_multi_state m) (tm_n_hard_errors m) (tm_n_soft_errors m)
    (tm_locked_cn m) (tm_locked_username m) (tm_locked_original_username m) (tm_locked_cert_hash_set m)
    (tm_tas_cache_last_update m) (tm_tas_cache_num_updates m) (tm_peer_info m) (tm_auth_token m) x (tm_peer_id m)
    (tm_save_ks m) (tm_active m) (tm_initial m) (tm_lame_duck m) (tm_drawn m) (tm_mda_key_id_counter m).

Definition set_tm_save_ks (m : tls_multi) (x : option key_index) : tls_multi :=
  mk_tls_multi (tm_opt m) (tm_n_sessions m) (tm_multi_state m) (tm_n_hard_errors m) (tm_n_soft_errors m)
    (tm_locked_cn m) (tm_locked_username m) (tm_locked_original_username m) (tm_locked_cert_hash_set m)
    (tm_tas_cache_last_update m) (tm_tas_cache_num_updates m) (tm_peer_info m) (tm_auth_token m)
    (tm_auth_token_initial m) (tm_peer_id m) x (tm_active m) (tm_initial m) (tm_lame_duck m) (tm_drawn m)
    (tm_mda_key_id_counter m).

Definition set_tm_active (m : tls_multi) (x : tls_session) : tls_multi :=
  mk_tls_multi (tm_opt m) (tm_n_sessions m) (tm_multi_state m) (tm_n_hard_errors m) (tm_n_soft_errors m)
    (tm_locked_cn m) (tm_locked_username m) (tm_locked_original_username m) (tm_locked_cert_hash_set m)
    (tm_tas_cache_last_update m) (tm_tas_cache_num_updates m) (tm_peer_info m) (tm_auth_token m)
    (tm_auth_token_initial m) (tm_peer_id m) (tm_save_ks m) x (tm_initial m) (tm_lame_duck m) (tm_drawn m)
    (tm_mda_key_id_counter m).

Definition set_tm_initial (m : tls_multi) (x : tls_session) : tls_multi :=
  mk_tls_multi (tm_opt m) (tm_n_sessions m) (tm_multi_state m) (tm_n_hard_errors m) (tm_n_soft_errors m)
    (tm_locked_cn m) (tm_locked_username m) (tm_locked_original_username m) (tm_locked_cert_hash_set m)
    (tm_tas_cache_last_update m) (tm_tas_cache_num_updates m) (tm_peer_info m) (tm_auth_token m)
    (tm_auth_token_initial m) (tm_peer_id m) (tm_save_ks m) (tm_active m) x (tm_lame_duck m) (tm_drawn m)
    (tm_mda_key_id_counter m).

Definition set_tm_lame_duck (m : tls_multi) (x : tls_session) : tls_multi :=
  mk_tls_multi (tm_opt m) (tm_n_sessions m) (tm_multi_state m) (tm_n_hard_errors m) (tm_n_soft_errors m)
    (tm_locked_cn m) (tm_locked_username m) (tm_locked_original_username m) (tm_locked_cert_hash_set m)
    (tm_tas_cache_last_update m) (tm_tas_cache_num_updates m) (tm_peer_info m) (tm_auth_token m)
    (tm_auth_token_initial m) (tm_peer_id m) (tm_save_ks m) (tm_active m) (tm_initial m) x (tm_drawn m)
    (tm_mda_key_id_counter m).

Definition set_tm_drawn (m : tls_multi) (x : nat) : tls_multi :=
  mk_tls_multi (tm_opt m) (tm_n_sessions m) (tm_multi_state m) (tm_n_hard_errors m) (tm_n_soft_errors m)
    (tm_locked_cn m) (tm_locked_username m) (tm_locked_original_username m) (tm_locked_cert_hash_set m)
    (tm_tas_cache_last_update m) (tm_tas_cache_num_updates m) (tm_peer_info m) (tm_auth_token m)
    (tm_auth_token_initial m) (tm_peer_id m) (tm_save_ks m) (tm_active m) (tm_initial m) (tm_lame_duck m) x
    (tm_mda_key_id_counter m).

Definition set_tm_mda_key_id_counter (m : tls_multi) (x : Z) : tls_multi :=
  mk_tls_multi (tm_opt m) (tm_n_sessions m) (tm_multi_state m) (tm_n_hard_errors m) (tm_n_soft_errors m)
    (tm_locked_cn m) (tm_locked_username m) (tm_locked_original_username m) (tm_locked_cert_hash_set m)
    (tm_tas_cache_last_update m) (tm_tas_cache_num_updates m) (tm_peer_info m) (tm_auth_token m)
    (tm_auth_token_initial m) (tm_peer_id m) (tm_save_ks m) (tm_active m) (tm_initial m) (tm_lame_duck m)
    (tm_drawn m) x.

Definition set_tas_cache (m : tls_multi) (last_update num_updates : Z) : tls_multi :=
  mk_tls_multi (tm_opt m) (tm_n_sessions m) (tm_multi_state m) (tm_n_hard_errors m) (tm_n_soft_errors m) (tm_locked_cn m)
  (tm_locked_username m) (tm_locked_original_username m) (tm_locked_cert_hash_set m) last_update num_updates (tm_peer_info m)
  (tm_auth_token m) (tm_auth_token_initial m) (tm_peer_id m) (tm_save_ks m) (tm_active m) (tm_initial m) (tm_lame_duck m)
  (tm_drawn m) (tm_mda_key_id_counter m).

Definition get_session (m : tls_multi) (i : tm_index) : tls_session :=
  match i with TM_ACTIVE => tm_active m | TM_INITIAL => tm_initial m | TM_LAME_DUCK => tm_lame_duck m end.

Definition set_session (m : tls_multi) (i : tm_index) (s : tls_session) : tls_multi :=
  match i with TM_ACTIVE => set_tm_active m s | TM_INITIAL => set_tm_initial m s | TM_LAME_DUCK => set_tm_lame_duck m s end.

Definition get_ks (s : tls_session) (j : ks_index) : tls_key :=
  match j with KS_PRIMARY => ts_primary s | KS_LAME_DUCK => ts_lame s end.

Definition set_ks_of (s : tls_session) (j : ks_index) (k : tls_key) : tls_session :=
  match j with KS_PRIMARY => set_ts_primary s k | KS_LAME_DUCK => set_ts_lame s k end.

Definition get_key_at (m : tls_multi) (x : key_index) : tls_key := get_ks (get_session m x.1) x.2.

Definition set_key_at (m : tls_multi) (x : key_index) (k : tls_key) : tls_multi :=
  set_session m x.1 (set_ks_of (get_session m x.1) x.2 k).

Definition get_primary_key (m : tls_multi) : tls_key := ts_primary (tm_active m).
End state.
