(* ===== verification/TlsLife.v ===== *)
(** * The life of sessions and keys: [ssl.c]

    How a [struct key_state] and a [struct tls_session] are made, freed, reset and moved,
    and when a retiring key has to die.  A failed [ASSERT] is [None]. *)
From S2P Require Import Prelude Integers Buffer Frame PacketId EpochKeys Reliable Control Mroute KeyMethod KeyExpansion TlsSession.

Section life.
Context `{TlsLib}.

(** ** Cleared and freed *)

Definition crypto_options_zero : crypto_options :=
  mk_co key_ctx_zero key_ctx_zero false (mk_ekey (zeros SHA256_DIGEST_LENGTH) 0) (mk_ekey (zeros SHA256_DIGEST_LENGTH) 0)
    (mk_kt "" "") 0 [] key_ctx_zero rec_zero (mk_pid (mk_send 0 0) rec_zero) None false false.

(** Every byte of a [struct key_state] is 0. *)
Definition tls_key_zero : tls_key :=
  mk_tls_key S_UNDEF 0 0 None 0 0 0 0 0 0 x_session_id_zero SockOther crypto_options_zero key_source2_zero
    clear_buf clear_buf None [] 0 0 KS_AUTH_FALSE 0 0 ACF_PENDING None None.

(** Every byte of a [struct tls_session] is 0. *)
Definition tls_session_zero : tls_session :=
  mk_tls_session false 0 x_session_id_zero 0 None None false SockOther tls_key_zero tls_key_zero.

Definition free_epoch_key_ctx (co : crypto_options) : crypto_options :=
  mk_co (co_encrypt co) (co_decrypt co) (co_initialized co) (mk_ekey (zeros SHA256_DIGEST_LENGTH) 0)
    (mk_ekey (zeros SHA256_DIGEST_LENGTH) 0) (co_epoch_key_type co) (co_aead_usage_limit co) []
    (free_key_ctx (co_retiring co)) rec_zero (co_packet_id co) (co_pid_persist co) (co_long_form co) (co_epoch_format co).

Definition free_key_ctx_bi (co : crypto_options) : crypto_options :=
  mk_co (free_key_ctx (co_encrypt co)) (free_key_ctx (co_decrypt co)) false (co_epoch_key_send co)
    (co_epoch_key_recv co) (co_epoch_key_type co) (co_aead_usage_limit co) (co_future co) (co_retiring co)
    (co_retiring_pid co) (co_packet_id co) (co_pid_persist co) (co_long_form co) (co_epoch_format co).

Definition key_state_free (k : tls_key) (clear : bool) : tls_key :=
  if clear then tls_key_zero
  else
    let co := free_epoch_key_ctx (free_key_ctx_bi (tk_crypto k)) in
    let co := set_packet_id co (packet_id_free (co_packet_id co)) (co_pid_persist co) in
    let k := set_tk_crypto (set_tk_ks_ssl (set_tk_state k S_UNDEF) None) co in
    let k := set_tk_plaintext_write_buf (set_tk_plaintext_read_buf k clear_buf) clear_buf in
    set_tk_script_auth (set_tk_plugin_auth (set_tk_paybuf (set_tk_rel k None) []) None) None.

Definition tls_session_free (s : tls_session) (clear : bool) : tls_session :=
  if clear then tls_session_zero
  else set_ts_cert_hash_set (set_ts_common_name
         (set_ts_lame (set_ts_primary s (key_state_free (ts_primary s) false)) (key_state_free (ts_lame s) false)) None) None.

(** ** Made *)

(** The session as the control channel of one of its keys sees it. *)
Definition ctl_session (opt : tls_options) (s : tls_session) (k : tls_key) : session :=
  mk_session (ts_session_id s) (tk_session_id_remote k) (tk_key_id k) (to_frame opt)
    (match ts_untrusted_addr s with SockIn4 _ _ => true | _ => false end) (to_server opt) (to_export opt) None.

(** The id of the next key: from [P_KEY_ID_MASK] on to 1. *)
Definition next_key_id (key_id : Z) : Z :=
  let n := Z.land (key_id + 1) P_KEY_ID_MASK in if n =? 0 then 1 else n.

(** [key_state_init] of the session's primary key. *)
Definition new_key_state (m : tls_multi) (s : tls_session) : option (tls_multi * tls_session) :=
  let opt := tm_opt m in
  let k := mk_tls_key S_INITIAL 0 (ts_key_id s) (Some (key_state_ssl_init (to_server opt))) 0 0 0 0 0 (ts_initial_opcode s)
             x_session_id_zero SockOther crypto_options_zero key_source2_zero clear_buf clear_buf None [] 0 0
             KS_AUTH_FALSE 0 (tm_mda_key_id_counter m) ACF_PENDING None None in
  rd ← alloc_buf TLS_CHANNEL_BUF_SIZE;
  wr ← alloc_buf TLS_CHANNEL_BUF_SIZE;
  rel ← Control.key_state_init (ctl_session opt s k) (to_packet_timeout opt) (to_xmit_hold opt);
  pid ← packet_id_init (to_replay_window opt) (to_replay_time opt) "SSL" (ts_key_id s);
  let k := set_tk_plaintext_write_buf (set_tk_plaintext_read_buf k rd) wr in
  let k := set_tk_crypto (set_tk_rel k (Some rel)) (set_packet_id (tk_crypto k) pid None) in
  Some (set_tm_mda_key_id_counter m (u32 (tm_mda_key_id_counter m + 1)),
        set_ts_primary (set_ts_key_id (set_ts_initial_opcode s P_CONTROL_SOFT_RESET_V1) (next_key_id (ts_key_id s))) k).

(** [while (!session_id_defined(...)) session_id_random(...)]: the chance that an id is
    not defined is one in 2^64; so many draws are made at most. *)
Definition SID_DRAWS : nat := 64.

Fixpoint draw_session_id (fuel n : nat) : option (list Z * nat) :=
  match fuel with
  | O => None
  | S fuel =>
      let id := session_id_random n in
      if session_id_defined id then Some (id, S n) else draw_session_id fuel (S n)
  end.

(** Without wrapping, there is no replay window for it. *)
Definition tls_session_init (m : tls_multi) : option (tls_multi * tls_session) :=
  '(id, drawn) ← draw_session_id SID_DRAWS (tm_drawn m);
  let opcode := if to_server (tm_opt m) then P_CONTROL_HARD_RESET_SERVER_V2
                else if to_tls_crypt_v2 (tm_opt m) then P_CONTROL_HARD_RESET_CLIENT_V3
                else P_CONTROL_HARD_RESET_CLIENT_V2 in
  new_key_state (set_tm_drawn m drawn) (set_ts_initial_opcode (set_ts_session_id tls_session_zero id) opcode).

Definition tls_multi_init (opt : tls_options) : tls_multi :=
  mk_tls_multi opt 0 CAS_NOT_CONNECTED 0 0 None None None None 0 0 None None None MAX_PEER_ID None
    tls_session_zero tls_session_zero tls_session_zero 0 0.

Definition set_frame (opt : tls_options) (f : frame) : tls_options :=
  mk_tls_options (to_server opt) (to_xmit_hold opt) (to_single_session opt) (to_mode_server opt) (to_tls_crypt_v2 opt)
    (to_transition_window opt) (to_handshake_window opt) (to_packet_timeout opt) (to_renegotiate_bytes opt)
    (to_renegotiate_packets opt) (to_aead_usage_limit opt) (to_renegotiate_seconds opt) (to_replay_window opt)
    (to_replay_time opt) (to_key_type opt) f (to_local_options opt) (to_user_pass_optional opt)
    (to_username_as_common_name opt) (to_export opt) (to_epoch_format opt) (to_long_form opt)
    (to_auth_token_generate opt) (to_auth_token_call_auth opt) (to_ccd_exclusive opt).

Definition tls_multi_init_finalize (m : tls_multi) (tls_mtu : Z) : option tls_multi :=
  let m := set_tm_opt m (set_frame (tm_opt m) (tls_init_control_channel_frame_parameters (to_frame (tm_opt m)) tls_mtu)) in
  '(m, a) ← tls_session_init m;
  let m := set_session m TM_ACTIVE a in
  '(m, i) ← tls_session_init m;
  Some (set_session m TM_INITIAL i).

(** ** Moved and reset *)

Definition move_session (m : tls_multi) (dest src : tm_index) (reinit_src : bool) : option tls_multi :=
  ASSERT (negb (bool_decide (src = dest)));;
  let m := set_session m dest (tls_session_free (get_session m dest) false) in
  let m := set_session m dest (get_session m src) in
  if reinit_src then
    '(m, s) ← tls_session_init m;
    Some (set_session m src s)
  else Some (set_session m src tls_session_zero).

Definition reset_session (m : tls_multi) (i : tm_index) : option tls_multi :=
  let m := set_session m i (tls_session_free (get_session m i) false) in
  '(m, s) ← tls_session_init m;
  Some (set_session m i s).

(** The primary key becomes the retiring one, for [transition_window] seconds. *)
Definition key_state_soft_reset (now : Z) (m : tls_multi) (i : tm_index) : option tls_multi :=
  let s := get_session m i in
  let lame := set_tk_must_die (ts_primary s) (now + to_transition_window (tm_opt m)) in
  let s := set_ts_lame s (key_state_free (ts_lame s) false) in
  '(m, s) ← new_key_state m (set_ts_lame s lame);
  let k := set_tk_session_id_remote (ts_primary s) (tk_session_id_remote lame) in
  Some (set_session m i (set_ts_primary s (set_tk_remote_addr k (tk_remote_addr lame)))).

(** ** Wakeups *)

Definition compute_earliest_wakeup (earliest seconds_from_now : Z) : Z :=
  let e := if seconds_from_now <? earliest then i32 seconds_from_now else earliest in
  if e <? 0 then 0 else e.

(** Whether it must die, and the time of the next wakeup. *)
Definition lame_duck_must_die (now : Z) (s : tls_session) (wakeup : Z) : option (bool * Z) :=
  let lame := ts_lame s in
  if S_INITIAL <=? tk_state lame then
    ASSERT (negb (tk_must_die lame =? 0));;
    if now <? tk_must_die lame then Some (false, compute_earliest_wakeup wakeup (tk_must_die lame - now))
    else Some (true, wakeup)
  else if tk_state lame =? S_ERROR then Some (true, wakeup)
  else Some (false, wakeup).
End life.
