(* ===== verification/TlsAuth.v ===== *)
(** * Whether a key is authenticated: [ssl_verify.c]

    The check of username and password, the identities that may not change while a tunnel
    lives, and the state of keys whose check takes its time.  What plugins, scripts, the
    management interface and the file system answer is a [world]; the tokens of
    [auth_token.c] are a class of their own. *)
From S2P Require Import Prelude Integers Buffer Frame EpochKeys Reliable Control Mroute KeyMethod KeyExpansion TlsSession TlsLife.

Definition OPENVPN_PLUGIN_FUNC_SUCCESS : Z := 0.
Definition OPENVPN_PLUGIN_FUNC_ERROR : Z := 1.
Definition OPENVPN_PLUGIN_FUNC_DEFERRED : Z := 2.
Definition TLS_USERNAME_LEN : Z := 64.
Definition AUTH_TOKEN_HMAC_OK : Z := 1.
Definition AUTH_TOKEN_EXPIRED : Z := 2.

Inductive kmda := KMDA_ERROR | KMDA_SUCCESS | KMDA_UNDEF | KMDA_DEF.

#[global] Instance kmda_eq : EqDecision kmda.
Proof. solve_decision. Defined.

(** What the environment answers while one event is handled.  The plugin and the script
    for usernames and passwords: their answer, if there are any (deferred: they left a
    control file), and the first character of their control files. *)
Record world := mk_world {
  w_now : Z;
  w_key_source : key_source;
  w_user_pass : option (list Z * list Z);
  w_peer_info : option (list Z);
  w_management : bool;
  w_plugin : option Z;
  w_script : option Z;
  w_plugin_file : option Z;
  w_script_file : option Z;
  w_ccd_file : list Z -> bool;
  w_plugin_final : option Z
}.

(** Usernames that may be replaced: [string_mod_remap_name], and what is done to a password. *)
Class NameLib := {
  string_mod_remap_name : list Z -> list Z;
  string_mod_password : list Z -> list Z
}.

(** [auth_token.c]: recognising a token, checking it (flags), and making one. *)
Class TokenLib := {
  is_auth_token : list Z -> bool;
  verify_auth_token : list Z -> list Z -> Z;
  generate_auth_token : list Z -> option (list Z) -> option (list Z)
}.

Section auth.
Context `{TlsLib} `{NameLib} `{TokenLib}.

(** ** Identities *)

Definition wipe_auth_token (m : tls_multi) : tls_multi := set_tm_auth_token_initial (set_tm_auth_token m None) None.

Definition deauthenticate_session (s : tls_session) : tls_session :=
  set_ts_lame (set_ts_primary s (set_tk_authenticated (ts_primary s) KS_AUTH_FALSE))
    (set_tk_authenticated (ts_lame s) KS_AUTH_FALSE).

(** Of all keys of the tunnel. *)
Definition tls_deauthenticate (m : tls_multi) : tls_multi :=
  let m := wipe_auth_token m in
  let m := set_tm_active m (deauthenticate_session (tm_active m)) in
  let m := set_tm_initial m (deauthenticate_session (tm_initial m)) in
  set_tm_lame_duck m (deauthenticate_session (tm_lame_duck m)).

Definition tls_lock_username (m : tls_multi) (username : list Z) : bool * tls_multi :=
  match tm_locked_username m with
  | Some locked =>
      if bool_decide (username <> locked)
         && (match tm_locked_original_username m with
             | None => true
             | Some original => bool_decide (username <> original)
             end)
      then (false, tls_deauthenticate m)
      else (true, m)
  | None => (true, set_tm_locked_username m (Some username))
  end.

Definition tls_lock_common_name (m : tls_multi) : tls_multi :=
  match ts_common_name (tm_active m), tm_locked_cn m with
  | Some cn, None => set_tm_locked_cn m (Some cn)
  | _, _ => m
  end.

Definition tls_lock_cert_hash_set (m : tls_multi) : tls_multi :=
  match ts_cert_hash_set (tm_active m), tm_locked_cert_hash_set m with
  | Some chs, None => set_tm_locked_cert_hash_set m (Some chs)
  | _, _ => m
  end.

(** Of two sets of hashes, one for each depth of the chain, if they are there. *)
Definition cert_hash_compare (chs1 chs2 : option (list (option (list Z)))) : bool := bool_decide (chs1 = chs2).

Definition ssl_verify_username_length (opt : tls_options) (username : list Z) : bool :=
  negb (to_username_as_common_name opt && (TLS_USERNAME_LEN <? zlen username)).

Definition set_verify_user_pass_env (opt : tls_options) (username : list Z) : bool :=
  to_user_pass_optional opt || negb (bool_decide (username = [])).

(** ** Username and password *)

(** [verify_user_pass_plugin] and [verify_user_pass_script]: the control file is kept for a
    deferred answer only. *)
Definition control_file_after (status : Z) : option auth_deferred_result :=
  if status =? OPENVPN_PLUGIN_FUNC_DEFERRED then Some ACF_PENDING else None.

Definition verify_user_pass_plugin (m : tls_multi) (i : tm_index) (status : Z) : Z * tls_multi :=
  (status, set_key_at m (i, KS_PRIMARY) (set_tk_plugin_auth (get_key_at m (i, KS_PRIMARY)) (control_file_after status))).

Definition verify_user_pass_script (m : tls_multi) (i : tm_index) (status : Z) : Z * tls_multi :=
  (status, set_key_at m (i, KS_PRIMARY) (set_tk_script_auth (get_key_at m (i, KS_PRIMARY)) (control_file_after status))).

Definition set_authenticated (m : tls_multi) (i : tm_index) (a : ks_auth_state) : tls_multi :=
  set_key_at m (i, KS_PRIMARY) (set_tk_authenticated (get_key_at m (i, KS_PRIMARY)) a).

Definition status_ok (status : Z) : bool :=
  (status =? OPENVPN_PLUGIN_FUNC_SUCCESS) || (status =? OPENVPN_PLUGIN_FUNC_DEFERRED).

(** [None]: the token was refused, and the check ends; else whether the other methods are
    skipped. *)
Definition verify_token (m : tls_multi) (i : tm_index) (username password : list Z) : option bool * tls_multi :=
  if to_auth_token_generate (tm_opt m) && is_auth_token password then
    let flags := verify_auth_token username password in
    let k := get_key_at m (i, KS_PRIMARY) in
    let m := set_key_at m (i, KS_PRIMARY) (set_tk_auth_token_state_flags k flags) in
    let m := match tm_auth_token_initial m with None => set_tm_auth_token_initial m (Some password) | Some _ => m end in
    if to_auth_token_call_auth (tm_opt m) then (Some false, m)
    else if flags =? AUTH_TOKEN_HMAC_OK then (Some true, m)
    else (None, set_authenticated (wipe_auth_token m) i KS_AUTH_FALSE)
  else (Some false, m).

(** The tokens of a user who has been accepted. *)
Definition renew_token (m : tls_multi) (i : tm_index) (username password : list Z) : tls_multi :=
  if to_auth_token_generate (tm_opt m) then
    let flags := tk_auth_token_state_flags (get_key_at m (i, KS_PRIMARY)) in
    let m := match tm_auth_token m with
             | None => if negb (Z.land flags AUTH_TOKEN_HMAC_OK =? 0) && (Z.land flags AUTH_TOKEN_EXPIRED =? 0)
                       then set_tm_auth_token m (Some password) else m
             | Some _ => m
             end in
    match generate_auth_token username (tm_auth_token_initial m) with
    | Some token =>
        let m := set_tm_auth_token m (Some token) in
        match tm_auth_token_initial m with None => set_tm_auth_token_initial m (Some token) | Some _ => m end
    | None => m
    end
  else m.

(** The methods that are asked: the results of management, plugin and script. *)
Definition ask_methods (w : world) (m : tls_multi) (i : tm_index) : kmda * Z * Z * tls_multi :=
  let man_def_auth := if w_management w then KMDA_SUCCESS else KMDA_UNDEF in
  let '(plugin_status, m) := match w_plugin w with
                             | Some st => verify_user_pass_plugin m i st
                             | None => (OPENVPN_PLUGIN_FUNC_SUCCESS, m) end in
  let '(script_status, m) := match w_script w with
                             | Some st => verify_user_pass_script m i st
                             | None => (OPENVPN_PLUGIN_FUNC_SUCCESS, m) end in
  (man_def_auth, plugin_status, script_status, m).

(** The last part: what becomes of the key. *)
Definition user_pass_verdict (m : tls_multi) (i : tm_index) (username password : list Z) (skip_auth : bool)
    (man_def_auth : kmda) (plugin_status script_status : Z) : tls_multi :=
  let '(ok, m) := if status_ok script_status && status_ok plugin_status
                  then tls_lock_username m username else (false, m) in
  if ok && negb (bool_decide (man_def_auth = KMDA_ERROR)) then
    let deferred := (plugin_status =? OPENVPN_PLUGIN_FUNC_DEFERRED) || (script_status =? OPENVPN_PLUGIN_FUNC_DEFERRED) in
    let m := set_authenticated m i (if deferred then KS_AUTH_DEFERRED else KS_AUTH_TRUE) in
    let m := if bool_decide (man_def_auth = KMDA_UNDEF) then m
             else if skip_auth then
               set_key_at m (i, KS_PRIMARY) (set_tk_mda_status (get_key_at m (i, KS_PRIMARY)) ACF_DISABLED)
             else set_authenticated m i KS_AUTH_DEFERRED in
    let m := if to_username_as_common_name (tm_opt m)
             then set_session m i (set_ts_common_name (get_session m i) (Some username)) else m in
    renew_token m i username password
  else set_authenticated m i KS_AUTH_FALSE.

Definition verify_user_pass (w : world) (m : tls_multi) (i : tm_index) (username password : list Z) : tls_multi :=
  let username := string_mod_remap_name username in
  let password := string_mod_password password in
  let username := match tm_locked_original_username m, tm_locked_username m with
                  | Some original, Some locked => if bool_decide (username = original) then locked else username
                  | _, _ => username
                  end in
  match verify_token m i username password with
  | (None, m) => m
  | (Some skip_auth, m) =>
      let env_ok := set_verify_user_pass_env (tm_opt m) username in
      let man_def_auth := if w_management w then KMDA_DEF else KMDA_UNDEF in
      let '(man_def_auth, plugin_status, script_status, m) :=
        if negb env_ok then (man_def_auth, OPENVPN_PLUGIN_FUNC_ERROR, OPENVPN_PLUGIN_FUNC_SUCCESS, m)
        else if skip_auth then (man_def_auth, OPENVPN_PLUGIN_FUNC_SUCCESS, OPENVPN_PLUGIN_FUNC_SUCCESS, m)
        else ask_methods w m i in
      let '(plugin_status, script_status) :=
        if ssl_verify_username_length (tm_opt m) username then (plugin_status, script_status)
        else (OPENVPN_PLUGIN_FUNC_ERROR, OPENVPN_PLUGIN_FUNC_ERROR) in
      user_pass_verdict m i username password (negb env_ok || skip_auth) man_def_auth plugin_status script_status
  end.

(** ** The final checks *)

Definition primary_auth (m : tls_multi) (i : tm_index) : ks_auth_state := tk_authenticated (get_key_at m (i, KS_PRIMARY)).

Definition is_authenticated (m : tls_multi) (i : tm_index) : bool := negb (bool_decide (primary_auth m i = KS_AUTH_FALSE)).

(** "While it shouldn't really happen, don't allow the common name to be NULL". *)
Definition some_common_name (m : tls_multi) (i : tm_index) : tls_multi :=
  match ts_common_name (get_session m i) with
  | None => set_session m i (set_ts_common_name (get_session m i) (Some []))
  | Some _ => m
  end.

(** "Don't allow the CN to change once it's been locked". *)
Definition check_locked_cn (m : tls_multi) (i : tm_index) : tls_multi :=
  match tm_locked_cn m, ts_common_name (get_session m i) with
  | Some locked, Some cn =>
      if is_authenticated m i && bool_decide (cn <> locked)
      then tls_deauthenticate (set_session m i (set_ts_common_name (get_session m i) (Some locked)))
      else m
  | _, _ => m
  end.

(** "Don't allow the cert hashes to change once they have been locked". *)
Definition check_locked_cert_hash_set (m : tls_multi) (i : tm_index) : tls_multi :=
  match tm_locked_cert_hash_set m, ts_cert_hash_set (get_session m i) with
  | Some locked, Some chs =>
      if is_authenticated m i && negb (cert_hash_compare (Some chs) (Some locked)) then tls_deauthenticate m else m
  | _, _ => m
  end.

(** "verify --client-config-dir based authentication". *)
Definition check_ccd (w : world) (m : tls_multi) (i : tm_index) : tls_multi :=
  if is_authenticated m i && to_ccd_exclusive (tm_opt m)
     && (let cn := default [] (ts_common_name (get_session m i)) in
         bool_decide (cn = literal "DEFAULT") || negb (w_ccd_file w cn))
  then wipe_auth_token (set_authenticated m i KS_AUTH_FALSE)
  else m.

Definition verify_final_auth_checks (w : world) (m : tls_multi) (i : tm_index) : tls_multi :=
  check_ccd w (check_locked_cert_hash_set (check_locked_cn (some_common_name m i) i) i) i.

(** ** Deferred authentication *)

(** The result, and the status that is remembered. *)
Definition key_state_test_auth_control_file (ads : option auth_deferred_result) (file : option Z) (cached : bool)
  : auth_deferred_result * option auth_deferred_result :=
  match ads with
  | None => (ACF_DISABLED, None)
  | Some ret =>
      if bool_decide (ret = ACF_PENDING) && negb cached then
        let ret := match file with
                   | Some c => if c =? 49 then ACF_SUCCEEDED else if c =? 48 then ACF_FAILED else ret
                   | None => ret
                   end in
        (ret, Some ret)
      else (ret, Some ret)
  end.

Definition man_def_auth_test (w : world) (k : tls_key) : auth_deferred_result :=
  if w_management w then tk_mda_status k else ACF_DISABLED.

Definition update_key_auth_status (w : world) (cached : bool) (k : tls_key) : tls_key :=
  if bool_decide (tk_authenticated k = KS_AUTH_FALSE) then k
  else
    let '(auth_plugin, pst) := key_state_test_auth_control_file (tk_plugin_auth k) (w_plugin_file w) cached in
    let '(auth_script, sst) := key_state_test_auth_control_file (tk_script_auth k) (w_script_file w) cached in
    let k := set_tk_script_auth (set_tk_plugin_auth k pst) sst in
    let auth := [auth_plugin; auth_script; man_def_auth_test w k] in
    if bool_decide (ACF_FAILED ∈ auth) then set_tk_authenticated k KS_AUTH_FALSE
    else if bool_decide (ACF_PENDING ∈ auth) then
      if tk_auth_deferred_expire k <=? w_now w then set_tk_authenticated k KS_AUTH_FALSE else k
    else set_tk_authenticated k KS_AUTH_TRUE.

Definition cache_intervals : list Z := [0; 0; 0; 0; 0; 1; 1; 2; 2; 4; 8].

Definition tls_authentication_status_use_cache (w : world) (m : tls_multi) : bool :=
  let idx := Z.min (tm_tas_cache_num_updates m) (zlen cache_intervals - 1) in
  let latency := default 0 (cache_intervals !! Z.to_nat idx) in
  w_now w <=? tm_tas_cache_last_update m + latency.

Inductive tls_auth_status := TLS_AUTHENTICATION_SUCCEEDED | TLS_AUTHENTICATION_FAILED | TLS_AUTHENTICATION_DEFERRED.

#[global] Instance tls_auth_status_eq : EqDecision tls_auth_status.
Proof. solve_decision. Defined.

Definition TLS_AUTHENTICATED (m : tls_multi) (k : tls_key) : bool :=
  S_GOT_KEY - (if to_server (tm_opt m) then 1 else 0) <=? tk_state k.

(** The loop over the keys: the states of those that are far enough. *)
Fixpoint scan_status (w : world) (cached : bool) (scan : list key_index) (m : tls_multi) : list ks_auth_state * tls_multi :=
  match scan with
  | [] => ([], m)
  | x :: scan =>
      if TLS_AUTHENTICATED m (get_key_at m x) then
        let k := update_key_auth_status w cached (get_key_at m x) in
        let '(l, m) := scan_status w cached scan (set_key_at m x k) in
        (tk_authenticated k :: l, m)
      else scan_status w cached scan m
  end.

Definition tls_authentication_status (w : world) (m : tls_multi) : tls_auth_status * tls_multi :=
  let cached := tls_authentication_status_use_cache w m in
  let '(auth, m) := scan_status w cached key_scan m in
  let m := if cached then m else set_tas_cache m (w_now w) (u32 (tm_tas_cache_num_updates m + 1)) in
  (if bool_decide (KS_AUTH_FALSE ∈ auth) then TLS_AUTHENTICATION_FAILED
   else if bool_decide (KS_AUTH_TRUE ∈ auth) then TLS_AUTHENTICATION_SUCCEEDED
   else if bool_decide (auth = []) || bool_decide (KS_AUTH_DEFERRED ∈ auth) then TLS_AUTHENTICATION_DEFERRED
   else TLS_AUTHENTICATION_FAILED, m).

(** The answer of the management interface about one key. *)
Definition authenticate_at (mda_key_id : Z) (auth : bool) (m : tls_multi) (x : key_index) : tls_multi :=
  if tk_mda_key_id (get_key_at m x) =? mda_key_id
  then set_key_at m x (set_tk_mda_status (get_key_at m x) (if auth then ACF_SUCCEEDED else ACF_FAILED)) else m.

Definition tls_authenticate_key (m : tls_multi) (mda_key_id : Z) (auth : bool) : bool * tls_multi :=
  (existsb (fun x => tk_mda_key_id (get_key_at m x) =? mda_key_id) key_scan,
   foldl (authenticate_at mda_key_id auth) m key_scan).
End auth.
