(* ===== verification/TlsProcess.v ===== *)
(** * The state machine of a key: [tls_process_state] and [tls_process] of [ssl.c]

    One round of the state machine moves the primary key of a session along, passes what
    has arrived in order to the TLS object, exchanges the key material, and cuts what the
    TLS object has to say into packets.  [tls_process] runs rounds until nothing changes.

    [to_link] is the packet for the network.  Its bytes stay in the memory where they were
    put together, a buffer of the send window or the [ack_write_buf] of a key, and the
    packet tells whose memory that is: a key is known by its [mda_key_id], the number of
    its initialisation.  The time does not change while an event is handled. *)
From S2P Require Import Prelude Integers Buffer Frame PacketId EpochKeys Reliable Control Mroute KeyMethod KeyExpansion TlsSession TlsLife TlsAuth.

(** ** The packet for the network *)

Inductive block :=
| BOther
| BSend (serial : Z)
| BAck (serial : Z).

Record out_packet := mk_out { op_bytes : list Z; op_block : block; op_addr : openvpn_sockaddr }.

(** What [to_link] is: nothing to send, a packet, or a pointer to memory that has been
    freed. *)
Inductive to_link :=
| LinkEmpty
| LinkPacket (p : out_packet)
| LinkDangling.

Definition link_free (l : to_link) : bool := match l with LinkEmpty => true | _ => false end.

Section process.
Context `{CryptoLib} `{PrfLib} `{TlsLib} `{NameLib} `{TokenLib}.

Definition primary (m : tls_multi) (i : tm_index) : tls_key := ts_primary (get_session m i).

Definition set_primary (m : tls_multi) (i : tm_index) (k : tls_key) : tls_multi :=
  set_session m i (set_ts_primary (get_session m i) k).

Definition set_state (m : tls_multi) (i : tm_index) (st : Z) : tls_multi := set_primary m i (set_tk_state (primary m i) st).

(** The session of the primary key, for the functions of the control channel. *)
Definition ctl (m : tls_multi) (i : tm_index) : session := ctl_session (tm_opt m) (get_session m i) (primary m i).

(** What the certificate callback does. *)
Definition apply_cert_event (m : tls_multi) (i : tm_index) (ev : option cert_event) : tls_multi :=
  match ev with
  | None => m
  | Some (CertVerified cn hashes) =>
      set_session m i (set_ts_verified (set_ts_cert_hash_set (set_ts_common_name (get_session m i) (Some cn)) (Some hashes)) true)
  | Some CertRefused => set_session m i (set_ts_verified (get_session m i) false)
  end.

(** ** Handshake *)

Definition auth_deferred_expire_window (o : tls_options) : Z :=
  let r2 := Z.quot (to_renegotiate_seconds o) 2 in
  if negb (to_renegotiate_seconds o =? 0) && (r2 <? to_handshake_window o) then r2 else to_handshake_window o.

(** [session_move_pre_start], with or without the initial packet. *)
Definition move_pre_start (now : Z) (o : tls_options) (k : tls_key) (skip_initial_send : bool) : option (bool * tls_key) :=
  rel ← tk_rel k;
  '(buf, snd) ← reliable_get_buf_output_sequenced (ks_send_reliable rel);
  match buf with
  | None => Some (false, set_tk_rel k (Some (set_send_reliable rel snd)))
  | Some i =>
      let k := set_tk_must_negotiate (set_tk_initial k now) (now + to_handshake_window o) in
      let k := set_tk_auth_deferred_expire k (now + auth_deferred_expire_window o) in
      snd ← reliable_mark_active_outgoing snd i (tk_initial_opcode k);
      snd ← (if skip_initial_send then reliable_mark_deleted snd i else Some snd);
      Some (true, set_tk_rel (set_tk_state k (if skip_initial_send then S_PRE_START_SKIP else S_PRE_START))
                    (Some (set_send_reliable rel snd)))
  end.

(** [flush_payload_buffer]. *)
Fixpoint flush_payload (m : tls_multi) (i : tm_index) (payloads : list (list Z)) : option tls_multi :=
  match payloads with
  | [] => Some (set_primary m i (set_tk_paybuf (primary m i) []))
  | b :: payloads =>
      obj ← tk_ks_ssl (primary m i);
      let '(_, obj, ev) := key_state_write_plaintext obj b in
      flush_payload (apply_cert_event (set_primary m i (set_tk_ks_ssl (primary m i) (Some obj))) i ev) i payloads
  end.

Definition session_move_active (w : world) (m : tls_multi) (i : tm_index) : option tls_multi :=
  let k := set_tk_must_negotiate (set_tk_state (set_tk_established (primary m i) (w_now w)) S_ACTIVE) 0 in
  let m := set_primary m i k in
  let m := if bool_decide (tm_multi_state m = CAS_NOT_CONNECTED)
           then set_tm_multi_state m (if to_mode_server (tm_opt m) then CAS_WAITING_AUTH else CAS_WAITING_OPTIONS_IMPORT)
           else m in
  flush_payload m i (tk_paybuf k).

Definition send_empty (k : tls_key) : option bool :=
  rel ← tk_rel k; Some (reliable_empty (ks_send_reliable rel)).

(** "Initial handshake". *)
Definition ps_start (w : world) (m : tls_multi) (i : tm_index) : option (bool * tls_multi) :=
  if tk_state (primary m i) =? S_INITIAL then
    '(started, k) ← move_pre_start (w_now w) (tm_opt m) (primary m i) false;
    Some (started, set_primary m i k)
  else Some (false, m).

(** "Are we timed out on receive?" *)
Definition timed_out (w : world) (k : tls_key) : bool :=
  (tk_must_negotiate k <=? w_now w) && (S_UNDEF <=? tk_state k) && (tk_state k <? S_ACTIVE).

(** The three-way handshake is complete; then "Wait for ACK". *)
Definition ps_acknowledged (w : world) (m : tls_multi) (i : tm_index) : option (bool * tls_multi) :=
  let server := to_server (tm_opt m) in
  '(empty : bool) ← send_empty (primary m i);
  let '(started, m) := if (tk_state (primary m i) =? S_PRE_START) && empty
                       then (true, set_state m i S_START) else (false, m) in
  let st := tk_state (primary m i) in
  if (((st =? S_GOT_KEY) && negb server) || ((st =? S_SENT_KEY) && server)) && empty then
    m ← session_move_active w m i;
    Some (true, m)
  else Some (started, m).

(** ** Packets out *)

(** "Reliable buffer to outgoing TCP/UDP". *)
Definition ps_transmit (w : world) (m : tls_multi) (i : tm_index) (l : to_link) : option (option out_packet * tls_multi) :=
  rel ← tk_rel (primary m i);
  if link_free l && reliable_can_send (w_now w) (ks_send_reliable rel) then
    ASSERT (link_socket_actual_defined (tk_remote_addr (primary m i)));;
    '(pkt, rel) ← send_reliable_packet (ctl m i) (w_now w) rel;
    let k := primary m i in
    let m := set_primary m i (set_tk_rel k (Some rel)) in
    match pkt with
    | Some bytes => Some (Some (mk_out bytes (BSend (tk_mda_key_id k)) (tk_remote_addr k)), m)
    | None => Some (None, m)
    end
  else Some (None, m).

(** ** TLS *)

(** [write_outgoing_tls_ciphertext]: whether there was no error, and whether to go on. *)
Definition write_outgoing (m : tls_multi) (i : tm_index) : option (bool * bool * tls_multi) :=
  let k := primary m i in
  rel ← tk_rel k;
  obj ← tk_ks_ssl k;
  let rel_avail := reliable_get_num_output_sequenced_available (ks_send_reliable rel) in
  if rel_avail =? 0 then Some (true, false, m)
  else
    '(maxlen, max_pkt_len) ← write_outgoing_sizes (ctl m i) rel rel_avail;
    tmp ← alloc_buf maxlen;
    let '(status, bytes, obj) := key_state_read_ciphertext obj maxlen in
    let m := set_primary m i (set_tk_ks_ssl k (Some obj)) in
    if status =? -1 then Some (false, false, m)
    else if status =? 1 then
      let tmp := (buf_write tmp bytes).2 in
      rel ← split_loop (ctl m i) (S (Z.to_nat (b_len tmp))) max_pkt_len rel tmp;
      Some (true, 0 <? b_len tmp, set_primary m i (set_tk_rel (primary m i) (Some rel)))
    else Some (true, false, m).

(** [check_outgoing_ciphertext]. *)
Definition check_outgoing (m : tls_multi) (i : tm_index) : option (bool * bool * tls_multi) :=
  let k := primary m i in
  if S_START <=? tk_state k then
    rel ← tk_rel k;
    '(buf, snd) ← reliable_get_buf_output_sequenced (ks_send_reliable rel);
    let m := set_primary m i (set_tk_rel k (Some (set_send_reliable rel snd))) in
    match buf with
    | Some _ => write_outgoing m i
    | None => Some (true, false, m)
    end
  else Some (true, false, m).

(** "Write incoming ciphertext to TLS object", with [parse_early_negotiation_tlvs] and
    [read_incoming_tls_ciphertext]. *)
Definition ps_incoming (m : tls_multi) (i : tm_index) : option (bool * bool * tls_multi) :=
  let k := primary m i in
  rel ← tk_rel k;
  match reliable_get_entry_sequenced (ks_rec_reliable rel) with
  | None => Some (true, false, m)
  | Some j =>
      e ← rl_array (ks_rec_reliable rel) !! j;
      if (e_packet_id e =? 0) && is_hard_reset_method2 (e_opcode e) then
        '(ok, resend) ← parse_tlvs (Z.to_nat (b_len (e_buf e))) (e_buf e) (ks_resend_wkc rel);
        let rel := set_resend_wkc rel resend in
        if negb (ok : bool) then Some (false, false, set_primary m i (set_tk_rel k (Some rel)))
        else
          rec ← reliable_mark_deleted (ks_rec_reliable rel) j;
          Some (true, false, set_primary m i (set_tk_rel k (Some (set_rec_reliable rel rec))))
      else
        obj ← tk_ks_ssl k;
        let '(status, obj) := if b_len (e_buf e) =? 0 then (1, obj) else key_state_write_ciphertext obj (content (e_buf e)) in
        let k := set_tk_ks_ssl k (Some obj) in
        if status =? -1 then Some (false, false, set_primary m i k)
        else if status =? 1 then
          rec ← reliable_mark_deleted (ks_rec_reliable rel) j;
          Some (true, true, set_primary m i (set_tk_rel k (Some (set_rec_reliable rel rec))))
        else Some (true, false, set_primary m i k)
  end.

(** [read_incoming_tls_plaintext]. *)
Definition ps_plaintext (m : tls_multi) (i : tm_index) (wakeup : Z) : option (bool * bool * tls_multi * Z) :=
  let k := primary m i in
  if b_len (tk_plaintext_read_buf k) =? 0 then
    obj ← tk_ks_ssl k;
    '(ok, buf) ← Some (buf_init (tk_plaintext_read_buf k) 0);
    ASSERT (ok : bool);;
    let '(status, bytes, obj, ev) := key_state_read_plaintext obj (buf_forward_capacity buf) in
    let k := set_tk_ks_ssl k (Some obj) in
    if status =? -1 then
      Some (false, false, apply_cert_event (set_primary m i (set_tk_plaintext_read_buf k buf)) i ev, wakeup)
    else if status =? 1 then
      Some (true, true, apply_cert_event (set_primary m i (set_tk_plaintext_read_buf k (buf_write buf bytes).2)) i ev, 0)
    else Some (true, false, apply_cert_event (set_primary m i (set_tk_plaintext_read_buf k buf)) i ev, wakeup)
  else Some (true, false, m, wakeup).

(** ** The key exchange *)

(** "Send Key". *)
Definition ps_send_key (w : world) (m : tls_multi) (i : tm_index) : option (bool * bool * tls_multi) :=
  let k := primary m i in
  let server := to_server (tm_opt m) in
  if (b_len (tk_plaintext_write_buf k) =? 0)
     && (((tk_state k =? S_START) && negb server) || ((tk_state k =? S_GOT_KEY) && server))
  then
    '(ok, src, buf) ← key_method_2_write (tk_plaintext_write_buf k) (tk_key_src k) server (w_key_source w)
                        (to_local_options (tm_opt m)) (w_user_pass w) (w_peer_info w);
    let k := set_tk_key_src (set_tk_plaintext_write_buf k buf) src in
    if ok : bool then Some (true, true, set_primary m i (set_tk_state k S_SENT_KEY))
    else Some (false, false, set_primary m i k)
  else Some (true, false, m).

Definition tls_session_user_pass_enabled (w : world) : bool :=
  bool_decide (is_Some (w_script w)) || bool_decide (is_Some (w_plugin w)) || w_management w.

(** [key_method_2_read] once the message has been taken apart: who the peer is.
    [false]: an error. *)
Definition authenticate_peer (w : world) (m : tls_multi) (i : tm_index) (msg : key_message) : bool * tls_multi :=
  if (km_username_len msg <? 0) || (km_password_len msg <? 0) then (true, set_authenticated m i KS_AUTH_FALSE)
  else if tls_session_user_pass_enabled w then
    if (km_username_len msg =? 0) || (km_password_len msg =? 0) then
      if negb (to_user_pass_optional (tm_opt m)) then (false, m) else (true, verify_user_pass w m i [] [])
    else (true, verify_user_pass w m i (km_username msg) (km_password msg))
  else if negb (ts_verified (get_session m i)) then (false, m)
  else (true, set_authenticated m i KS_AUTH_TRUE).

(** The whole of [key_method_2_read]; the options of the peer are only compared, and with
    [p2p_mode_ncp] they are left out. *)
Definition key_method_2_read (w : world) (m : tls_multi) (i : tm_index) : bool * tls_multi :=
  let k := primary m i in
  let fail (m : tls_multi) :=
    let k := set_tk_key_src (set_tk_authenticated (primary m i) KS_AUTH_FALSE) key_source2_zero in
    (false, set_primary m i (set_tk_plaintext_read_buf k (buf_clear (tk_plaintext_read_buf k)))) in
  let '(msg, src) := read_key_message (tk_plaintext_read_buf k) (tk_key_src k) (to_server (tm_opt m)) in
  let m := set_primary m i (set_tk_key_src k src) in
  match msg with
  | None => fail m
  | Some msg =>
      let m := set_tm_peer_info (set_authenticated m i KS_AUTH_FALSE) (km_peer_info msg) in
      let '(ok, m) := authenticate_peer w m i msg in
      if negb ok then fail m
      else
        let m := if is_authenticated m i then verify_final_auth_checks w m i else m in
        let k := primary m i in
        let m := set_primary m i (set_tk_plaintext_read_buf k (buf_clear (tk_plaintext_read_buf k))) in
        (true, match w_plugin_final w with
               | Some r => if is_authenticated m i && negb (r =? OPENVPN_PLUGIN_FUNC_SUCCESS)
                           then set_authenticated m i KS_AUTH_FALSE else m
               | None => m
               end)
  end.

(** "Receive Key". *)
Definition ps_receive_key (w : world) (m : tls_multi) (i : tm_index) : bool * bool * tls_multi :=
  let k := primary m i in
  let server := to_server (tm_opt m) in
  if negb (b_len (tk_plaintext_read_buf k) =? 0)
     && (((tk_state k =? S_SENT_KEY) && negb server) || ((tk_state k =? S_START) && server))
  then
    let '(ok, m) := key_method_2_read w m i in
    if ok : bool then (true, true, set_state m i S_GOT_KEY) else (false, false, m)
  else (true, false, m).

(** "Write outgoing plaintext to TLS object": when all is written, the buffer is emptied. *)
Definition ps_write_plaintext (m : tls_multi) (i : tm_index) : option (bool * bool * tls_multi) :=
  let k := primary m i in
  let buf := tk_plaintext_write_buf k in
  if negb (b_len buf =? 0) then
    obj ← tk_ks_ssl k;
    let '(status, obj, ev) := key_state_write_plaintext obj (content buf) in
    let k := set_tk_ks_ssl k (Some obj) in
    if status =? -1 then Some (false, false, apply_cert_event (set_primary m i k) i ev)
    else if status =? 1 then
      Some (true, true, apply_cert_event (set_primary m i
        (set_tk_plaintext_write_buf k (mk_buffer (b_capacity buf) (b_offset buf) 0 (b_data buf)))) i ev)
    else Some (true, false, apply_cert_event (set_primary m i k) i ev)
  else Some (true, false, m).
End process.
