(* ===== verification/TlsMulti.v ===== *)
(** * The rounds of the state machine and the three sessions: [ssl.c]

    [tls_process] serves one session, [tls_multi_process] all of them: it generates the
    data channel keys of an authenticated key, lets a new session take the place of the
    active one, and keeps the retiring keys of a session that has failed.  When a key is
    freed, a packet that lies in its memory is gone with it. *)
From S2P Require Import Prelude Integers Buffer Frame PacketId EpochKeys Reliable Control Mroute KeyMethod KeyExpansion TlsSession TlsLife TlsAuth TlsProcess.

Inductive tlsmp := TLSMP_INACTIVE | TLSMP_ACTIVE | TLSMP_RECONNECT | TLSMP_KILL.

Section multi.
Context `{CryptoLib} `{PrfLib} `{TlsLib} `{NameLib} `{TokenLib}.

(** ** One round *)

(** The label [error]: the TLS object may still have an alert to send. *)
Definition tls_error (m : tls_multi) (i : tm_index) : option tls_multi :=
  obj ← tk_ks_ssl (primary m i);
  let m := set_primary m i (set_tk_ks_ssl (primary m i) (Some (key_state_ssl_shutdown obj))) in
  '(_, _, m) ← check_outgoing m i;
  Some (set_state m i S_ERROR_PRE).

(** From "Write incoming ciphertext" on: whether to go on, the state, and the wakeup. *)
Definition tls_exchange (w : world) (m : tls_multi) (i : tm_index) (go : bool) (wakeup : Z)
  : option (bool * tls_multi * Z) :=
  '(ok, c1, m) ← ps_incoming m i;
  if negb (ok : bool) then m ← tls_error m i; Some (true, m, wakeup) else
  '(ok, c2, m, wakeup) ← ps_plaintext m i wakeup;
  if negb (ok : bool) then m ← tls_error m i; Some (true, m, wakeup) else
  '(ok, c3, m) ← ps_send_key w m i;
  if negb (ok : bool) then m ← tls_error m i; Some (true, m, wakeup) else
  '(ok, c4, m) ← Some (ps_receive_key w m i);
  if negb (ok : bool) then m ← tls_error m i; Some (true, m, wakeup) else
  '(ok, c5, m) ← ps_write_plaintext m i;
  if negb (ok : bool) then m ← tls_error m i; Some (true, m, wakeup) else
  '(ok, c6, m) ← check_outgoing m i;
  if negb (ok : bool) then m ← tls_error m i; Some (true, m, wakeup) else
  Some (go || c1 || c2 || c3 || c4 || c5 || c6, m, wakeup).

Definition tls_process_state (w : world) (m : tls_multi) (i : tm_index) (l : to_link) (wakeup : Z)
  : option (bool * tls_multi * to_link * Z) :=
  '(c0, m) ← ps_start w m i;
  if timed_out w (primary m i) then m ← tls_error m i; Some (true, m, l, wakeup)
  else
    '(c1, m) ← ps_acknowledged w m i;
    '(pkt, m) ← ps_transmit w m i l;
    match pkt with
    | Some p => Some (false, m, LinkPacket p, wakeup)
    | None =>
        if tk_state (primary m i) =? S_ERROR_PRE then Some (false, set_state m i S_ERROR, l, wakeup)
        else
          '(go, m, wakeup) ← tls_exchange w m i (c0 || c1) wakeup;
          Some (go, m, l, wakeup)
    end.

(** [while (continue_tls_process)]: each round that goes on has brought the key closer to
    its last state, used a packet or a free place of the windows, or filled or emptied a
    buffer. *)
Definition TLS_ROUNDS : nat := 64.

Fixpoint tls_rounds (fuel : nat) (w : world) (m : tls_multi) (i : tm_index) (l : to_link) (wakeup : Z)
  : option (tls_multi * to_link * Z) :=
  match fuel with
  | O => None
  | S fuel =>
      '(go, m, l, wakeup) ← tls_process_state w m i l wakeup;
      if (tk_state (primary m i) =? S_ERROR) || negb (go : bool) then Some (m, l, wakeup)
      else tls_rounds fuel w m i l wakeup
  end.

(** ** Renegotiation *)

Definition should_trigger_renegotiation (now : Z) (o : tls_options) (k : tls_key) : bool :=
  let co := tk_crypto k in
  if negb (to_renegotiate_seconds o =? 0) && (tk_established k + to_renegotiate_seconds o <=? now) then true
  else if (0 <? to_renegotiate_bytes o) && (to_renegotiate_bytes o <=? tk_n_bytes k) then true
  else if negb (to_renegotiate_packets o =? 0) && (u64 (to_renegotiate_packets o) <=? tk_n_packets k) then true
  else if co_epoch_format co then 61440 <=? ek_epoch (co_epoch_key_send co)
  else if packet_id_close_to_wrapping (send (co_packet_id co)) then true
  else if aead_usage_limit_reached (to_aead_usage_limit o) (co_encrypt co) (s_id (send (co_packet_id co)))
          || aead_usage_limit_reached (to_aead_usage_limit o) (co_decrypt co) (r_id (rec (co_packet_id co))) then true
  else cipher_decrypt_verify_fail_warn (co_decrypt co).

(** ** Memory that is given back *)

Definition owns (k : tls_key) (b : block) : bool :=
  bool_decide (is_Some (tk_rel k)) &&
  match b with BSend n | BAck n => n =? tk_mda_key_id k | BOther => false end.

(** The keys [ks] are freed. *)
Definition release (ks : list tls_key) (l : to_link) : to_link :=
  match l with
  | LinkPacket p => if existsb (fun k => owns k (op_block p)) ks then LinkDangling else l
  | _ => l
  end.

Definition keys_of (s : tls_session) : list tls_key := [ts_primary s; ts_lame s].

(** It looks at the buffers of the send windows. *)
Definition check_session_buf_not_used (l : to_link) (s : tls_session) : to_link :=
  match l with
  | LinkPacket p =>
      match op_block p with
      | BSend n => if existsb (fun k => negb (tk_state k =? S_UNDEF) && (n =? tk_mda_key_id k)) (keys_of s)
                   then LinkEmpty else l
      | _ => l
      end
  | _ => l
  end.

(** ** One session *)

(** The acknowledgements at the end: [false] when a packet that has to carry them, with the
    client's wrapped key, has no room. *)
Definition tp_acknowledge (m : tls_multi) (i : tm_index) (l : to_link) : option (bool * tls_multi * to_link) :=
  let k := primary m i in
  rel ← tk_rel k;
  if link_free l && negb (reliable_ack_empty (ks_rec_ack rel)) then
    if control_packet_needs_wkc rel then
      '(buf, snd) ← reliable_get_buf_output_sequenced (ks_send_reliable rel);
      match buf with
      | None => Some (false, set_primary m i (set_tk_rel k (Some (set_send_reliable rel snd))), l)
      | Some j =>
          snd ← reliable_mark_active_outgoing snd j P_CONTROL_WKC_V1;
          Some (true, set_primary m i (set_tk_rel k (Some (set_send_reliable rel snd))), l)
      end
    else
      ASSERT (link_socket_actual_defined (tk_remote_addr k));;
      '(pkt, rel) ← send_ack_packet (ctl m i) rel;
      bytes ← pkt;
      Some (true, set_primary m i (set_tk_rel k (Some rel)),
            LinkPacket (mk_out bytes (BAck (tk_mda_key_id k)) (tk_remote_addr k)))
  else Some (true, m, l).

Definition tp_wakeup (w : world) (m : tls_multi) (i : tm_index) (wakeup : Z) : option Z :=
  let k := primary m i in
  let now := w_now w in
  rel ← tk_rel k;
  let wakeup := if (S_INITIAL <=? tk_state k) || (tk_state k =? S_ERROR_PRE) then
                  let wakeup := compute_earliest_wakeup wakeup (reliable_send_timeout now (ks_send_reliable rel)) in
                  if negb (tk_must_negotiate k =? 0) then compute_earliest_wakeup wakeup (tk_must_negotiate k - now)
                  else wakeup
                else wakeup in
  Some (if negb (tk_established k =? 0) && negb (to_renegotiate_seconds (tm_opt m) =? 0)
        then compute_earliest_wakeup wakeup (tk_established k + to_renegotiate_seconds (tm_opt m) - now) else wakeup).

Definition tls_process (w : world) (m : tls_multi) (i : tm_index) (l : to_link) (wakeup : Z)
  : option (bool * tls_multi * to_link * Z) :=
  ASSERT (negb (tk_state (primary m i) =? S_UNDEF));;
  ASSERT (negb (tk_state (primary m i) =? S_ERROR));;
  ASSERT (session_id_defined (ts_session_id (get_session m i)));;
  '(m, l) ← (if (S_GENERATED_KEYS <=? tk_state (primary m i))
                && should_trigger_renegotiation (w_now w) (tm_opt m) (primary m i)
             then
               let l := release [ts_lame (get_session m i)] l in
               m ← key_state_soft_reset (w_now w) m i; Some (m, l)
             else Some (m, l));
  '(die, wakeup) ← lame_duck_must_die (w_now w) (get_session m i) wakeup;
  let l := if die : bool then release [ts_lame (get_session m i)] l else l in
  let m := if die then set_session m i (set_ts_lame (get_session m i) (key_state_free (ts_lame (get_session m i)) true)) else m in
  '(m, l, wakeup) ← tls_rounds TLS_ROUNDS w m i l wakeup;
  if tk_state (primary m i) =? S_ERROR then Some (false, m, l, wakeup)
  else
    '(ok, m, l) ← tp_acknowledge m i l;
    if negb (ok : bool) then Some (false, m, l, wakeup)
    else
      wakeup ← tp_wakeup w m i wakeup;
      if wakeup <=? 0 then Some (true, m, l, 1)
      else Some (negb (link_free l), m, l, wakeup).

(** ** Data channel keys *)

Definition with_flags (o : tls_options) (co : crypto_options) : crypto_options :=
  mk_co (co_encrypt co) (co_decrypt co) (co_initialized co) (co_epoch_key_send co) (co_epoch_key_recv co)
    (co_epoch_key_type co) (co_aead_usage_limit co) (co_future co) (co_retiring co) (co_retiring_pid co)
    (co_packet_id co) (co_pid_persist co) (to_long_form o) (to_epoch_format o).

(** What the expansion of the key material gets. *)
Definition expansion_of (m : tls_multi) (i : tm_index) (obj : tls_object) : expansion :=
  let o := tm_opt m in
  let k := primary m i in
  mk_expansion (to_server o) (to_export o) (to_epoch_format o) (to_key_type o)
    (key_state_export_keying_material obj) (ts_session_id (get_session m i)) (tk_session_id_remote k) (tk_key_src k).

Definition tls_limit_reneg_bytes (ciphername : string) (reneg_bytes : Z) : Z :=
  if cipher_kt_insecure ciphername && (reneg_bytes =? -1) then 64 * 1024 * 1024 else reneg_bytes.

Definition tls_get_limit_aead (ciphername : string) : Z :=
  let limit := cipher_get_aead_limits ciphername in
  if limit =? 0 then 0 else limit / 8 * 7.

Definition set_limits (o : tls_options) (reneg_bytes aead_usage_limit : Z) : tls_options :=
  mk_tls_options (to_server o) (to_xmit_hold o) (to_single_session o) (to_mode_server o) (to_tls_crypt_v2 o)
    (to_transition_window o) (to_handshake_window o) (to_packet_timeout o) reneg_bytes
    (to_renegotiate_packets o) aead_usage_limit (to_renegotiate_seconds o) (to_replay_window o)
    (to_replay_time o) (to_key_type o) (to_frame o) (to_local_options o) (to_user_pass_optional o)
    (to_username_as_common_name o) (to_export o) (to_epoch_format o) (to_long_form o)
    (to_auth_token_generate o) (to_auth_token_call_auth o) (to_ccd_exclusive o).

(** The flags are those of the session: a request to send the wrapped key again is gone. *)
Definition clear_resend (k : tls_key) : tls_key :=
  match tk_rel k with Some rel => set_tk_rel k (Some (set_resend_wkc rel false)) | None => k end.

Definition tls_session_generate_data_channel_keys (m : tls_multi) (i : tm_index) : option (bool * tls_multi) :=
  let erase (m : tls_multi) := set_primary m i (set_tk_key_src (primary m i) key_source2_zero) in
  if bool_decide (tk_authenticated (primary m i) = KS_AUTH_FALSE) then Some (false, erase m)
  else
    let m := set_primary m i (clear_resend (set_tk_crypto (primary m i) (with_flags (tm_opt m) (tk_crypto (primary m i))))) in
    obj ← tk_ks_ssl (primary m i);
    '(ok, co) ← generate_key_expansion (expansion_of m i obj) (tk_crypto (primary m i));
    let m := set_primary m i (set_tk_crypto (primary m i) co) in
    if negb (ok : bool) then Some (false, erase m)
    else
      let cipher := kt_cipher (to_key_type (tm_opt m)) in
      let m := set_tm_opt m (set_limits (tm_opt m) (tls_limit_reneg_bytes cipher (to_renegotiate_bytes (tm_opt m)))
                               (tls_get_limit_aead cipher)) in
      Some (true, erase (set_state m i S_GENERATED_KEYS)).

(** ** All sessions *)

Definition add_soft_error (m : tls_multi) : tls_multi := set_tm_n_soft_errors m (tm_n_soft_errors m + 1).
Definition add_hard_error (m : tls_multi) : tls_multi := set_tm_n_hard_errors m (tm_n_hard_errors m + 1).

(** "If tls_process hits an error": the state, the packet, and whether it is an error of
    the tunnel. *)
Definition handle_error (m : tls_multi) (i : tm_index) (l : to_link) : option (tls_multi * to_link * bool) :=
  let m := add_soft_error m in
  let error := bool_decide (i = TM_ACTIVE)
               || (bool_decide (i = TM_INITIAL) && (tk_state (get_primary_key m) <? S_ACTIVE)) in
  let s := get_session m i in
  let l := check_session_buf_not_used l s in
  if bool_decide (i = TM_ACTIVE) && (S_GENERATED_KEYS <=? tk_state (ts_lame s)) && negb (to_single_session (tm_opt m)) then
    let l := release (keys_of (tm_lame_duck m)) l in
    m ← move_session m TM_LAME_DUCK TM_ACTIVE true;
    Some (m, l, error)
  else
    let l := release (keys_of s) l in
    m ← reset_session m i;
    Some (m, l, error).

(** The state that the loop over the sessions carries along. *)
Record mp_state := mk_mp {
  mp_m : tls_multi;
  mp_link : to_link;
  mp_wakeup : Z;
  mp_active : bool;
  mp_error : bool
}.

(** [actual]: the address of the link. *)
Definition process_one (w : world) (actual : openvpn_sockaddr) (i : tm_index) (st : mp_state) : option mp_state :=
  let m := mp_m st in
  let k := primary m i in
  let m := if bool_decide (i = TM_INITIAL) && (tk_state k =? S_INITIAL) && (tk_state (get_primary_key m) <=? S_INITIAL)
              && link_socket_actual_defined actual
           then set_primary m i (set_tk_remote_addr k actual) else m in
  let k := primary m i in
  if ((S_INITIAL <=? tk_state k) || (tk_state k =? S_ERROR_PRE)) && link_socket_actual_defined (tk_remote_addr k) then
    '(active, m, l, wakeup) ← tls_process w m i (mp_link st) (mp_wakeup st);
    let active := mp_active st || active in
    if tk_state (primary m i) =? S_ERROR then
      '(m, l, error) ← handle_error m i l;
      Some (mk_mp m l wakeup active (mp_error st || error))
    else Some (mk_mp m l wakeup active (mp_error st))
  else Some (mk_mp m (mp_link st) (mp_wakeup st) (mp_active st) (mp_error st)).

(** "Only generate keys for the TM_ACTIVE session."  The token that is sent again after a
    renegotiation is left out. *)
Definition mp_generate (m : tls_multi) : option tls_multi :=
  let k := primary m TM_ACTIVE in
  if bool_decide (tm_multi_state m = CAS_CONNECT_DONE) && (tk_state k =? S_ACTIVE)
     && bool_decide (tk_authenticated k = KS_AUTH_TRUE) then
    '(ok, m) ← tls_session_generate_data_channel_keys m TM_ACTIVE;
    if ok : bool then Some m
    else
      obj ← tk_ks_ssl (primary m TM_ACTIVE);
      let k := set_tk_ks_ssl (set_tk_authenticated (primary m TM_ACTIVE) KS_AUTH_FALSE) (Some (key_state_ssl_shutdown obj)) in
      Some (set_primary m TM_ACTIVE (set_tk_state k S_ERROR_PRE))
  else Some m.

(** "If untrusted session achieves TLS authentication, move it to active session": the
    session it replaces is freed. *)
Definition mp_promote (w : world) (m : tls_multi) (l : to_link) (tas : tls_auth_status) (active : tlsmp)
  : option (tls_multi * to_link * tls_auth_status * tlsmp) :=
  if TLS_AUTHENTICATED m (primary m TM_INITIAL) then
    let l := check_session_buf_not_used l (tm_active m) in
    let l := release (keys_of (tm_active m)) l in
    m ← move_session m TM_ACTIVE TM_INITIAL true;
    let '(tas, m) := tls_authentication_status w m in
    if bool_decide (tm_multi_state m = CAS_CONNECT_DONE)
    then Some (set_tm_multi_state m CAS_RECONNECT_PENDING, l, tas, TLSMP_RECONNECT)
    else Some (m, l, tas, active)
  else Some (m, l, tas, active).

Definition tls_multi_process (w : world) (m : tls_multi) (l : to_link) (actual : openvpn_sockaddr) (wakeup : Z)
  : option (tlsmp * tls_multi * to_link * Z) :=
  st ← process_one w actual TM_ACTIVE (mk_mp m l wakeup false false);
  st ← process_one w actual TM_INITIAL st;
  st ← process_one w actual TM_LAME_DUCK st;
  let active := if mp_active st then TLSMP_ACTIVE else TLSMP_INACTIVE in
  let '(tas, m) := tls_authentication_status w (mp_m st) in
  m ← mp_generate m;
  let m := if bool_decide (tm_multi_state m = CAS_WAITING_AUTH) && bool_decide (tas = TLS_AUTHENTICATION_SUCCEEDED)
           then set_tm_multi_state m CAS_PENDING else m in
  '(die, wakeup) ← lame_duck_must_die (w_now w) (tm_lame_duck m) (mp_wakeup st);
  let l := if die : bool then release (keys_of (tm_lame_duck m)) (mp_link st) else mp_link st in
  let m := if die then set_tm_lame_duck m (tls_session_free (tm_lame_duck m) true) else m in
  '(m, l, tas, active) ← mp_promote w m l tas active;
  let m := if mp_error st && forallb (fun x => tk_state (get_key_at m x) <? S_ACTIVE) key_scan
           then add_hard_error m else m in
  Some (if bool_decide (tas = TLS_AUTHENTICATION_FAILED) then TLSMP_KILL else active, m, l, wakeup).
End multi.
