(* ===== verification/TlsReceive.v ===== *)
(** * Packets of the tunnel and the sessions: [ssl.c]

    [tls_pre_decrypt] sees every packet from the network first: it finds the key of a data
    packet, and brings a control packet to the session it belongs to, which may be a new
    one.  [tls_pre_encrypt] and its companions choose the key of an outgoing data packet and
    count what is sent.  Packets are taken from the network when nothing waits for it, so
    the memory that is given back here is not that of a waiting packet. *)
From S2P Require Import Prelude Integers Buffer Frame PacketId EpochKeys Reliable Control Mroute KeyMethod KeyExpansion TlsSession TlsLife TlsAuth TlsProcess TlsMulti.

Section receive.
Context `{CryptoLib} `{PrfLib} `{TlsLib} `{NameLib} `{TokenLib}.

(** What [tls_pre_decrypt] leaves in its arguments: the packet, empty unless it is a data
    packet with a key; the key; where the authenticated data starts. *)
Record pre_decrypt := mk_pd {
  pd_ret : bool;
  pd_buf : buffer;
  pd_opt : option key_index;
  pd_ad_start : option Z
}.

(** [buf->len = 0]. *)
Definition buf_no_len (b : buffer) : buffer := mk_buffer (b_capacity b) (b_offset b) 0 (b_data b).

Definition drop_packet (ret : bool) (buf : buffer) : pre_decrypt := mk_pd ret (buf_no_len buf) None None.

(** ** Data packets *)

Definition count_packet (k : tls_key) (len : Z) : tls_key :=
  set_tk_n_bytes (set_tk_n_packets k (u64 (tk_n_packets k + 1))) (u64 (tk_n_bytes k + len)).

(** The test of a key: its generation is complete, it is the one that the packet names,
    the peer is accepted, and the packet is from the peer. *)
Definition usable_key (k : tls_key) : bool :=
  (S_GENERATED_KEYS <=? tk_state k) && bool_decide (tk_authenticated k = KS_AUTH_TRUE).

Definition key_matches (from : openvpn_sockaddr) (floated : bool) (key_id : Z) (k : tls_key) : option bool :=
  if (S_GENERATED_KEYS <=? tk_state k) && (key_id =? tk_key_id k) && bool_decide (tk_authenticated k = KS_AUTH_TRUE)
  then if floated then Some true else link_socket_actual_match from (tk_remote_addr k)
  else Some false.

Fixpoint find_data_key (m : tls_multi) (from : openvpn_sockaddr) (floated : bool) (key_id : Z) (scan : list key_index)
  : option (option key_index) :=
  match scan with
  | [] => Some None
  | x :: scan =>
      '(found : bool) ← key_matches from floated key_id (get_key_at m x);
      if found then Some (Some x) else find_data_key m from floated key_id scan
  end.

Definition handle_data_channel_packet (m : tls_multi) (from : openvpn_sockaddr) (buf : buffer) (floated : bool)
  : option (pre_decrypt * tls_multi) :=
  let c := buf_peek_u8 buf in
  let op := Z.shiftr c P_OPCODE_SHIFT in
  let key_id := Z.land c P_KEY_ID_MASK in
  found ← find_data_key m from floated key_id key_scan;
  match found with
  | None => Some (drop_packet false buf, m)
  | Some x =>
      ASSERT (co_initialized (tk_crypto (get_key_at m x)));;
      let start := b_offset buf in
      '(ok, buf) ← Some (buf_advance buf 1);
      ASSERT (ok : bool);;
      if op =? P_DATA_V2 then
        if b_len buf <? 4 then Some (drop_packet false buf, add_soft_error m)
        else
          '(ok, buf) ← Some (buf_advance buf 3);
          ASSERT (ok : bool);;
          Some (mk_pd false buf (Some x) (Some start), set_key_at m x (count_packet (get_key_at m x) (b_len buf)))
      else
        Some (mk_pd false buf (Some x) (Some (b_offset buf)), set_key_at m x (count_packet (get_key_at m x) (b_len buf)))
  end.

(** ** Control packets *)

Definition tm_scan : list tm_index := [TM_ACTIVE; TM_INITIAL; TM_LAME_DUCK].

(** The session whose peer has this id. *)
Definition match_session (m : tls_multi) (sid : list Z) : option tm_index :=
  find (fun i => session_id_equal (tk_session_id_remote (primary m i)) sid) tm_scan.

(** A packet that starts a session: [None] if it is refused. *)
Definition accept_new_session (m : tls_multi) (from : openvpn_sockaddr) (buf : buffer) : option (tls_multi * buffer) :=
  if to_single_session (tm_opt m) && negb (tm_n_sessions m =? 0) then None
  else
    let '(ok, buf) := read_control_auth buf in
    if ok then Some (set_tm_initial m (set_ts_untrusted_addr (tm_initial m) from), buf) else None.

(** What becomes of a packet for a session: refused, or accepted with its bytes, and
    whether all that waits is to be sent again. *)
Inductive admitted :=
| Refused (m : tls_multi)
| Accepted (m : tls_multi) (buf : buffer) (do_burst : bool).

(** A packet of a session that exists. *)
Definition accept_existing (now : Z) (m : tls_multi) (i : tm_index) (from : openvpn_sockaddr) (buf : buffer) (op : Z)
  : option admitted :=
  let k := primary m i in
  '(same : bool) ← link_socket_actual_match (tk_remote_addr k) from;
  if negb same then Some (Refused m)
  else if (op =? P_CONTROL_SOFT_RESET_V1) && (S_GENERATED_KEYS <=? tk_state k) then
    let '(ok, buf) := read_control_auth buf in
    if negb ok then Some (Refused m)
    else
      m ← key_state_soft_reset now m i;
      Some (Accepted m buf false)
  else
    let initial_packet := tk_state k =? S_PRE_START_SKIP in
    let m := if initial_packet then set_state m i S_PRE_START else m in
    let '(ok, buf) := read_control_auth buf in
    if ok then Some (Accepted m buf (op =? P_CONTROL_SOFT_RESET_V1))
    else Some (Refused (if initial_packet then add_hard_error m else m)).

(** The peer of a session that starts. *)
Definition set_peer (m : tls_multi) (i : tm_index) (sid : list Z) (from : openvpn_sockaddr) : tls_multi :=
  let m := set_primary m i (set_tk_remote_addr (set_tk_session_id_remote (primary m i) sid) from) in
  set_tm_n_sessions m (tm_n_sessions m + 1).

(** "Should we do a retransmit of all unacknowledged packets in the send buffer?" *)
Definition burst (now : Z) (m : tls_multi) (i : tm_index) : option tls_multi :=
  if ts_burst (get_session m i) then Some m
  else
    rel ← tk_rel (primary m i);
    let rel := set_send_reliable rel (reliable_schedule_now now (ks_send_reliable rel)) in
    let m := set_primary m i (set_tk_rel (primary m i) (Some rel)) in
    Some (set_session m i (set_ts_burst (get_session m i) true)).

(** From "We have an authenticated control channel packet" on: whether the packet was
    processed to its end. *)
Definition receive_control (now : Z) (m : tls_multi) (i : tm_index) (new_link : option (list Z)) (do_burst : bool)
    (from : openvpn_sockaddr) (buf : buffer) (op key_id : Z) : option (bool * tls_multi) :=
  ASSERT (negb (tk_state (primary m i) =? S_UNDEF));;
  ASSERT (negb (tk_state (primary m i) =? S_ERROR));;
  ASSERT (session_id_defined (ts_session_id (get_session m i)));;
  '(known, m) ← (match new_link with
                 | Some sid => Some (true, set_peer m i sid from)
                 | None => same ← link_socket_actual_match (tk_remote_addr (primary m i)) from; Some (same, m)
                 end);
  if negb (known : bool) then Some (false, m)
  else
    m ← (if do_burst then burst now m i else Some m);
    let k := primary m i in
    if negb (tk_key_id k =? key_id) then Some (false, m)
    else
      rel ← tk_rel k;
      '(ok, rel) ← receive_reliable (ctl m i) rel buf op;
      let k := set_tk_rel k (Some rel) in
      Some (ok, set_primary m i (if ok : bool then set_tk_peer_last_packet k now else k)).

(** The checks of the first bytes: the peer's session id, if the packet may go on. *)
Definition control_packet_sid (m : tls_multi) (buf : buffer) (op : Z) : option (list Z) :=
  if (op <? P_FIRST_OPCODE) || (P_LAST_OPCODE <? op) then None
  else if wrong_direction (to_server (tm_opt m)) op then None
  else
    match session_id_read (buf_advance buf 1).2 with
    | (Some sid, _) => if session_id_defined sid then Some sid else None
    | (None, _) => None
    end.

Definition pre_decrypt_control (now : Z) (m : tls_multi) (from : openvpn_sockaddr) (buf : buffer) (op key_id : Z)
  : option (pre_decrypt * tls_multi) :=
  let error (m : tls_multi) := Some (drop_packet false buf, add_soft_error m) in
  let finish (r : bool * tls_multi) := Some (drop_packet true buf, if r.1 then r.2 else add_soft_error r.2) in
  match control_packet_sid m buf op with
  | None => error m
  | Some sid =>
      match match_session m sid with
      | Some TM_LAME_DUCK => error m
      | Some i =>
          adm ← accept_existing now m i from buf op;
          match adm with
          | Refused m => error m
          | Accepted m rest do_burst => r ← receive_control now m i None do_burst from rest op key_id; finish r
          end
      | None =>
          if is_hard_reset_method2 op then
            match accept_new_session m from buf with
            | None => error m
            | Some (m, rest) => r ← receive_control now m TM_INITIAL (Some sid) true from rest op key_id; finish r
            end
          else error m
      end
  end.

Definition tls_pre_decrypt (now : Z) (m : tls_multi) (from : openvpn_sockaddr) (buf : buffer) (floated : bool)
  : option (pre_decrypt * tls_multi) :=
  if b_len buf <=? 0 then Some (drop_packet false buf, m)
  else
    let pkt_firstbyte := buf_peek_u8 buf in
    let op := Z.shiftr pkt_firstbyte P_OPCODE_SHIFT in
    if is_data_packet op then handle_data_channel_packet m from buf floated
    else pre_decrypt_control now m from buf op (Z.land pkt_firstbyte P_KEY_ID_MASK).

(** ** The way out *)

Fixpoint select_key (now : Z) (m : tls_multi) (scan : list key_index) (ks_select : option key_index)
  : option (option key_index) :=
  match scan with
  | [] => Some ks_select
  | x :: scan =>
      let k := get_key_at m x in
      if usable_key k then
        ASSERT (co_initialized (tk_crypto k));;
        if tk_auth_deferred_expire k <=? now then Some (Some x)
        else select_key now m scan (match ks_select with None => Some x | Some _ => ks_select end)
      else select_key now m scan ks_select
  end.

Definition tls_select_encryption_key (now : Z) (m : tls_multi) : option (option key_index) := select_key now m key_scan None.

Definition tls_pre_encrypt (now : Z) (m : tls_multi) (buf : buffer) : option (buffer * option key_index * tls_multi) :=
  let m := set_tm_save_ks m None in
  if b_len buf <=? 0 then Some (buf_no_len buf, None, m)
  else
    sel ← tls_select_encryption_key now m;
    match sel with
    | Some x => Some (buf, Some x, set_tm_save_ks m (Some x))
    | None => Some (buf_no_len buf, None, m)
    end.

Definition tls_prepend_opcode_v1 (m : tls_multi) (buf : buffer) : option buffer :=
  x ← tm_save_ks m;
  let k := get_key_at m x in
  ASSERT (tk_key_id k <=? P_KEY_ID_MASK);;
  '(ok, buf) ← Some (buf_write_prepend buf [Z.lor (Z.shiftl P_DATA_V1 P_OPCODE_SHIFT) (u8 (tk_key_id k))]);
  ASSERT (ok : bool);; Some buf.

Definition tls_prepend_opcode_v2 (m : tls_multi) (buf : buffer) : option buffer :=
  x ← tm_save_ks m;
  let peer := Z.lor (Z.shiftl (Z.lor (Z.shiftl P_DATA_V2 P_OPCODE_SHIFT) (tk_key_id (get_key_at m x))) 24)
                    (Z.land (tm_peer_id m) 16777215) in
  '(ok, buf) ← Some (buf_write_prepend buf (be_bytes 4 peer));
  ASSERT (ok : bool);; Some buf.

Definition tls_post_encrypt (m : tls_multi) (buf : buffer) : option tls_multi :=
  let saved := tm_save_ks m in
  let m := set_tm_save_ks m None in
  if 0 <? b_len buf then
    x ← saved;
    Some (set_key_at m x (count_packet (get_key_at m x) (b_len buf)))
  else Some m.

(** ** Payload for the control channel *)

Definition tls_send_payload (m : tls_multi) (x : key_index) (data : list Z) : option (bool * tls_multi) :=
  let k := get_key_at m x in
  if S_ACTIVE <=? tk_state k then
    obj ← tk_ks_ssl k;
    let '(status, obj, ev) := key_state_write_plaintext obj data in
    Some (status =? 1, apply_cert_event (set_key_at m x (set_tk_ks_ssl k (Some obj))) x.1 ev)
  else Some (true, set_key_at m x (set_tk_paybuf k (tk_paybuf k ++ [data]))).

Definition tls_test_payload_len (m : tls_multi) : Z :=
  if S_ACTIVE <=? tk_state (get_primary_key m) then buf_len (tk_plaintext_read_buf (get_primary_key m)) else 0.

Definition tls_rec_payload (m : tls_multi) (buf : buffer) : bool * buffer * tls_multi :=
  let k := get_key_at m (TM_ACTIVE, KS_PRIMARY) in
  if (S_ACTIVE <=? tk_state k) && negb (buf_len (tk_plaintext_read_buf k) =? 0) then
    let '(ret, buf) := buf_copy buf (tk_plaintext_read_buf k) in
    (ret, buf, set_primary m TM_ACTIVE (set_tk_plaintext_read_buf k (buf_no_len (tk_plaintext_read_buf k))))
  else (false, buf, m).

(** ** The sessions as a whole *)

Definition tls_initial_packet_received (m : tls_multi) : bool := 0 <? tm_n_sessions m.

Definition tls_session_soft_reset (now : Z) (m : tls_multi) : option tls_multi := key_state_soft_reset now m TM_ACTIVE.

Definition update_remote_addr_of (addr : openvpn_sockaddr) (k : tls_key) : option tls_key :=
  if negb (link_socket_actual_defined (tk_remote_addr k)) then Some k
  else
    '(same : bool) ← link_socket_actual_match addr (tk_remote_addr k);
    Some (if same then k else set_tk_remote_addr k addr).

Fixpoint update_remote_addrs (addr : openvpn_sockaddr) (m : tls_multi) (keys : list key_index) : option tls_multi :=
  match keys with
  | [] => Some m
  | x :: keys =>
      k ← update_remote_addr_of addr (get_key_at m x);
      update_remote_addrs addr (set_key_at m x k) keys
  end.

Definition all_keys : list key_index := i ← tm_scan; [(i, KS_PRIMARY); (i, KS_LAME_DUCK)].

Definition tls_update_remote_addr (m : tls_multi) (addr : openvpn_sockaddr) : option tls_multi :=
  update_remote_addrs addr m all_keys.

(** A server that has answered the first packet without keeping a state: the session
    starts with the second one. *)
Definition session_skip_to_pre_start (now : Z) (m : tls_multi) (i : tm_index) (peer_session_id server_session_id : list Z)
    (from : openvpn_sockaddr) : option (bool * tls_multi) :=
  let k := set_tk_remote_addr (set_tk_session_id_remote (primary m i) peer_session_id) from in
  rel ← tk_rel k;
  let rec := ks_rec_reliable rel in
  let rec := mk_rel (rl_initial_timeout rec) 1 (rl_offset rec) (rl_hold rec) (rl_array rec) in
  let s := set_ts_burst (set_ts_untrusted_addr (set_ts_session_id (get_session m i) server_session_id) from) true in
  '(ok, k) ← move_pre_start now (tm_opt m) (set_tk_rel k (Some (set_rec_reliable rel rec))) true;
  Some (ok, set_session m i (set_ts_primary s k)).
End receive.
