(* ===== verification/Mudp.v ===== *)
(** * The first packets of clients: [mudp.c], [reflect_filter.c]

    What a server does with a packet from an address that it has no instance for.  A reset is
    answered, at most so many times per period; an instance is made only when the client has
    shown that it got the answer, or when it is too old a client for that.

    [udp_context] is what these functions use of [struct multi_context].  The old bytes of the
    work buffers are never read, so the buffers are as they were after a packet. *)
From S2P Require Import Prelude Integers Buffer Frame PacketId EpochKeys DataChannel CryptoV1 OTime Reliable Control HashTable Mroute KeyExpansion TlsCrypt TlsWrap TlsSession TlsLife TlsProcess TlsMulti TlsReceive.

Definition EARLY_NEG_MASK : Z := 4278190080.
Definition EARLY_NEG_START : Z := 251658240.

(** ** The limit on replies: [reflect_filter.c] *)

Record initial_packet_rate_limit := mk_irl {
  irl_max_per_period : Z;
  irl_period_length : Z;
  irl_curr_period_counter : Z;
  irl_last_period_reset : Z
}.

Definition initial_rate_limit_init (max_per_period period_length : Z) : initial_packet_rate_limit :=
  mk_irl max_per_period period_length 0 0.

Definition reflect_filter_rate_limit_check (now : Z) (irl : initial_packet_rate_limit) : bool * initial_packet_rate_limit :=
  let irl := if irl_last_period_reset irl + irl_period_length irl <? now
             then mk_irl (irl_max_per_period irl) (irl_period_length irl) 0 now else irl in
  let irl := mk_irl (irl_max_per_period irl) (irl_period_length irl) (irl_curr_period_counter irl + 1)
               (irl_last_period_reset irl) in
  (negb (irl_max_per_period irl <? irl_curr_period_counter irl), irl).

Definition reflect_filter_rate_limit_decrease (irl : initial_packet_rate_limit) : initial_packet_rate_limit :=
  if 0 <? irl_curr_period_counter irl
  then mk_irl (irl_max_per_period irl) (irl_period_length irl) (irl_curr_period_counter irl - 1) (irl_last_period_reset irl)
  else irl.

(** ** Answers without state *)

Record udp_context := mk_udp {
  uc_tas : tls_auth_standalone;
  uc_session_id_hmac : list Z;
  uc_handshake_window : Z;
  uc_aux_buf : buffer;
  uc_initial_rate_limiter : initial_packet_rate_limit;
  uc_hmac_reply : option (buffer * openvpn_sockaddr)
}.

Definition set_limiter (m : udp_context) (irl : initial_packet_rate_limit) : udp_context :=
  mk_udp (uc_tas m) (uc_session_id_hmac m) (uc_handshake_window m) (uc_aux_buf m) irl (uc_hmac_reply m).
Definition set_reply (m : udp_context) (reply : buffer) (dest : openvpn_sockaddr) : udp_context :=
  mk_udp (uc_tas m) (uc_session_id_hmac m) (uc_handshake_window m) (uc_aux_buf m) (uc_initial_rate_limiter m)
    (Some (reply, dest)).

Section first_packet.
Context `{CryptoLib} `{ModeLib}.
Variable sockaddr_image : openvpn_sockaddr -> list Z.

(** A packet id state that has sent nothing and counts as initialised. *)
Definition fresh_ids (p : packet_id) : packet_id :=
  let r := rec p in
  mk_pid (reset_packet_id_send (send p))
    (mk_rec (r_last_reap r) (r_time r) (r_id r) (r_seq_backtrack r) (r_time_backtrack r) (r_max_backtrack_stat r) true
       (r_seq_list r) (r_name r) (r_unit r)).

(** [aux_buf] is the buffer of the reply; what does not fit is not copied. *)
Definition send_hmac_reset_packet (now : Z) (m : udp_context) (st : tls_pre_decrypt_state) (from : openvpn_sockaddr)
    (sid : list Z) (request_resend_wkc : bool) : option (udp_context * tls_pre_decrypt_state) :=
  let ctx := pds_tls_wrap_tmp st in
  let ctx := set_tw_opt ctx (set_packet_id (tw_opt ctx) (fresh_ids (co_packet_id (tw_opt ctx))) (co_pid_persist (tw_opt ctx))) in
  let header := Z.lor 0 (Z.shiftl P_CONTROL_HARD_RESET_SERVER_V2 P_OPCODE_SHIFT) in
  '(buf, ctx) ← tls_reset_standalone now ctx (uc_tas m) sid (pds_peer_session_id st) header request_resend_wkc;
  '(ok, aux) ← Some (buf_init (uc_aux_buf m) (b_offset buf));
  ASSERT (ok : bool);;
  let '(_, aux) := buf_copy aux buf in
  Some (set_reply m aux from, set_wrap_tmp st ctx).

(** The reply to a reset. *)
Definition answer_reset (now : Z) (m : udp_context) (st : tls_pre_decrypt_state) (from : openvpn_sockaddr)
    (request_resend_wkc : bool) : option (udp_context * tls_pre_decrypt_state) :=
  sid ← calculate_session_id_hmac sockaddr_image now (pds_peer_session_id st) from (uc_session_id_hmac m)
          (uc_handshake_window m) 0;
  send_hmac_reset_packet now m st from sid request_resend_wkc.

Definition is_reset (v : first_packet_verdict) : bool :=
  match v with VERDICT_VALID_RESET_V2 | VERDICT_VALID_RESET_V3 => true | _ => false end.

(** Whether to make an instance. *)
Definition do_pre_decrypt_check (now : Z) (m : udp_context) (st : tls_pre_decrypt_state) (junk : list Z)
    (from : openvpn_sockaddr) (buf : buffer) : option (bool * udp_context * tls_pre_decrypt_state) :=
  '(verdict, st) ← tls_pre_decrypt_lite now (uc_tas m) st junk buf;
  '(below_limit, irl) ← Some (if is_reset verdict then reflect_filter_rate_limit_check now (uc_initial_rate_limiter m)
                              else (true, uc_initial_rate_limiter m));
  let m := set_limiter m irl in
  if negb (below_limit : bool) then Some (false, m, st)
  else
    match verdict with
    | VERDICT_VALID_RESET_V3 =>
        '(ok, tmp) ← Some (buf_advance buf (1 + SID_SIZE));
        ASSERT (ok : bool);;
        '(ok, pin, _) ← Some (packet_id_read tmp true);
        ASSERT (ok : bool);;
        if Z.land (Z.land (n_id pin) EARLY_NEG_MASK) EARLY_NEG_START =? EARLY_NEG_START then
          '(m, st) ← answer_reset now m st from true;
          Some (false, m, st)
        else Some (negb (tw_force_cookie (tas_tls_wrap (uc_tas m))), m, st)
    | VERDICT_VALID_RESET_V2 =>
        '(m, st) ← answer_reset now m st from false;
        Some (false, m, st)
    | VERDICT_VALID_CONTROL_V1 | VERDICT_VALID_ACK_V1 | VERDICT_VALID_WKC_V1 =>
        let pkt_is_ack := match verdict with VERDICT_VALID_ACK_V1 => true | _ => false end in
        '(ok, st) ← check_session_hmac_and_pkt_id sockaddr_image now st from (uc_session_id_hmac m)
                      (uc_handshake_window m) pkt_is_ack;
        Some (ok : bool, m, st)
    | VERDICT_INVALID => Some (false, m, st)
    end.

Definition wrap_zero : tls_wrap_ctx :=
  mk_wrap TLS_WRAP_NONE crypto_options_zero false false clear_buf key_ctx_zero None clear_buf false key2_zero.

(** [struct tls_pre_decrypt_state state = { 0 }] *)
Definition pds_zero : tls_pre_decrypt_state := mk_pds wrap_zero clear_buf x_session_id_zero x_session_id_zero.

(** ** Instances by address *)

Context `{TL : TlsLib} `{PrfLib}.

(** [ui_from] is [context.c2.from], [ui_proto] the protocol of its first socket. *)
Record udp_instance := mk_ui {
  ui_from : openvpn_sockaddr;
  ui_proto : Z;
  ui_halt : bool;
  ui_tls_multi : tls_multi
}.

(** An instance pointer is its place in [un_memory]. *)
Record udp_net := mk_udpnet {
  un_context : udp_context;
  un_hash : hash (K := mroute_addr) (V := nat);
  un_instances : list (option nat);       (* max_clients of them *)
  un_max_peerid : Z;
  un_memory : gmap nat udp_instance;
  un_new_connection_limiter : frequency_limit;
  un_shutting_down : bool
}.

Definition set_un_context (m : udp_net) (c : udp_context) : udp_net :=
  mk_udpnet c (un_hash m) (un_instances m) (un_max_peerid m) (un_memory m) (un_new_connection_limiter m) (un_shutting_down m).
Definition set_un_hash (m : udp_net) (h : hash) : udp_net :=
  mk_udpnet (un_context m) h (un_instances m) (un_max_peerid m) (un_memory m) (un_new_connection_limiter m) (un_shutting_down m).
Definition set_un_memory (m : udp_net) (mem : gmap nat udp_instance) : udp_net :=
  mk_udpnet (un_context m) (un_hash m) (un_instances m) (un_max_peerid m) mem (un_new_connection_limiter m) (un_shutting_down m).
Definition set_un_limiter (m : udp_net) (f : frequency_limit) : udp_net :=
  mk_udpnet (un_context m) (un_hash m) (un_instances m) (un_max_peerid m) (un_memory m) f (un_shutting_down m).

Definition set_tm_peer_id (m : tls_multi) (x : Z) : tls_multi :=
  mk_tls_multi (tm_opt m) (tm_n_sessions m) (tm_multi_state m) (tm_n_hard_errors m) (tm_n_soft_errors m) (tm_locked_cn m)
    (tm_locked_username m) (tm_locked_original_username m) (tm_locked_cert_hash_set m)
    (tm_tas_cache_last_update m) (tm_tas_cache_num_updates m) (tm_peer_info m) (tm_auth_token m)
    (tm_auth_token_initial m) x (tm_save_ks m) (tm_active m) (tm_initial m) (tm_lame_duck m)
    (tm_drawn m) (tm_mda_key_id_counter m).

Definition set_ui_tls (i : udp_instance) (t : tls_multi) : udp_instance := mk_ui (ui_from i) (ui_proto i) (ui_halt i) t.

(** The first free slot. *)
Fixpoint free_slot (l : list (option nat)) (i : nat) : option nat :=
  match l with
  | [] => None
  | None :: _ => Some i
  | Some _ :: l => free_slot l (S i)
  end.

Definition multi_assign_peer_id (m : udp_net) (mi : nat) : option udp_net :=
  ASSERT (zlen (un_instances m) <? MAX_PEER_ID);;
  i ← un_memory m !! mi;
  let '(peer_id, instances) := match free_slot (un_instances m) 0 with
                               | Some s => (Z.of_nat s, <[s := Some mi]> (un_instances m))
                               | None => (tm_peer_id (ui_tls_multi i), un_instances m)
                               end in
  ASSERT (peer_id <? zlen (un_instances m));;
  let t := set_tm_peer_id (ui_tls_multi i) peer_id in
  Some (mk_udpnet (un_context m) (un_hash m) instances (Z.max (un_max_peerid m) peer_id) (<[mi := set_ui_tls i t]> (un_memory m))
          (un_new_connection_limiter m) (un_shutting_down m)).

(** The instance that a packet with a peer id names, if it is of the same protocol; and
    whether the packet comes from another address than the instance's. *)
Definition instance_by_peer_id (m : udp_net) (from : openvpn_sockaddr) (proto peer_id : Z) : option (option nat * bool) :=
  if negb (peer_id <? zlen (un_instances m)) then Some (None, false)
  else
    slot ← un_instances m !! Z.to_nat peer_id;
    match slot with
    | None => Some (None, false)
    | Some mi =>
        i ← un_memory m !! mi;
        if ui_proto i =? proto then
          same ← link_socket_actual_match (ui_from i) from;
          Some (Some mi, negb (same : bool))
        else Some (None, false)
    end.

(** [multi_create_instance], which may refuse: [created] is what it makes, with its place. *)
Definition add_instance (now : Z) (m : udp_net) (st : tls_pre_decrypt_state) (real : mroute_addr) (bucket : nat) (hv : Z)
    (from : openvpn_sockaddr) (created : option (nat * udp_instance)) : option (option nat * udp_net) :=
  match created with
  | None => Some (None, m)
  | Some (mi, i) =>
      let m := set_un_memory m (<[mi := i]> (un_memory m)) in
      h ← hash_add_fast (un_hash m) bucket real hv mi;
      m ← multi_assign_peer_id (set_un_hash m h) mi;
      if session_id_defined (pds_server_session_id st) && session_id_defined (pds_peer_session_id st) then
        i ← un_memory m !! mi;
        let t := set_tm_n_sessions (ui_tls_multi i) (tm_n_sessions (ui_tls_multi i) + 1) in
        '(_, t) ← session_skip_to_pre_start now t TM_INITIAL (pds_peer_session_id st) (pds_server_session_id st) from;
        Some (Some mi, set_un_memory m (<[mi := set_ui_tls i t]> (un_memory m)))
      else Some (Some mi, m)
  end.

(** A packet from an address without instance. *)
Definition new_instance (now : Z) (m : udp_net) (junk : list Z) (real : mroute_addr) (bucket : nat) (hv : Z)
    (from : openvpn_sockaddr) (buf : buffer) (created : option (nat * udp_instance)) : option (option nat * udp_net) :=
  if un_shutting_down m then Some (None, m)
  else
    '(ok, c, st) ← do_pre_decrypt_check now (un_context m) pds_zero junk from buf;
    let m := set_un_context m c in
    if negb (ok : bool) then Some (None, m)
    else
      let '(allowed, f) := frequency_limit_event_allowed now (un_new_connection_limiter m) in
      let m := set_un_limiter m f in
      if negb allowed then Some (None, m)
      else
        let irl := reflect_filter_rate_limit_decrease (uc_initial_rate_limiter (un_context m)) in
        add_instance now (set_un_context m (set_limiter (un_context m) irl)) st real bucket hv from created.

(** The instance that a packet belongs to: by its peer id, or by the address it comes from. *)
Definition find_instance (m : udp_net) (real : mroute_addr) (bucket : nat) (hv : Z) (from : openvpn_sockaddr) (proto : Z)
    (buf : buffer) : option (option nat * bool * udp_net) :=
  let op := Z.shiftr (buf_peek_u8 buf) P_OPCODE_SHIFT in
  let v2 := (op =? P_DATA_V2) && (1 + 3 <=? b_len buf) in
  let peer_id := be_val (slice (b_offset buf + 1) 3 (mem buf)) in
  if v2 && negb (peer_id =? MAX_PEER_ID) then
    '(mi, floated) ← instance_by_peer_id m from proto peer_id;
    Some (mi, floated, m)
  else
    '(he, h) ← hash_lookup_fast mroute_addr_compare_function (un_hash m) bucket real hv;
    Some (match he with Some he => Some (he_value he) | None => None end, false, set_un_hash m h).

Definition is_halted (m : udp_net) (mi : nat) : bool :=
  match un_memory m !! mi with Some i => ui_halt i | None => true end.

(** The instance, and whether its address may have changed. *)
Definition multi_get_create_instance_udp (now : Z) (m : udp_net) (junk : list Z) (from : openvpn_sockaddr) (proto : Z)
    (buf : buffer) (created : option (nat * udp_instance)) : option (option nat * bool * udp_net) :=
  let '(ok, real) := mroute_extract_openvpn_sockaddr (set_proto mroute_addr_init proto) from true in
  if negb (ok && (0 <? b_len buf)) then Some (None, false, m)
  else
    let hv := hash_value mroute_addr_hash_function (un_hash m) real in
    let bucket := hash_bucket (un_hash m) hv in
    '(mi, floated, m) ← find_instance m real bucket hv from proto buf;
    match mi with
    | Some mi => ASSERT (negb (is_halted m mi));; Some (Some mi, floated, m)
    | None =>
        '(mi, m) ← new_instance now m junk real bucket hv from buf created;
        ASSERT (match mi with Some mi => negb (is_halted m mi) | None => true end);;
        Some (mi, floated, m)
    end.
End first_packet.
