(* ===== verification/FirstPacket.v ===== *)
(** * What a server does for a packet of an unknown client

    Every first packet is dealt with; an instance is made for a client that has shown a valid
    cookie, and for old clients where they are let in; the three-way handshake goes through
    within the hand window, and the number of answers is limited. *)
From S2P Require Import Prelude Integers Buffer Frame PacketId Replay EpochKeys DataChannel CryptoV1 CryptoModes OTime Reliable AckList Control HashTable Mroute KeyExpansion TlsCrypt TlsCryptSpec TlsWrap WrapSpec ClientKey TlsSession TlsLife TlsProcess TlsMulti TlsReceive Mudp.

Section first.
Context `{CL : CryptoLib} `{Cok : !CryptoLaws} `{ML : ModeLib} `{Mok : !ModeLaws} `{Ctr : !CtrLaws}.
Variable sockaddr_image : openvpn_sockaddr -> list Z.

(** ** Cookies *)

(** The length of a time slot, and the slot of a time. *)
Definition quantum (handwindow : Z) : Z := (handwindow + 1) / 2.
Definition slot_of (now handwindow : Z) : Z := now / quantum handwindow.

(** The session id that the server answers with, for a client and a time slot. *)
Definition cookie (hmac : list Z) (from : openvpn_sockaddr) (csid : list Z) (slot : Z) : list Z :=
  slice 0 SID_SIZE (hmac_sha256 hmac (be_bytes 4 (u32 slot) ++ address_image sockaddr_image from ++ csid)).

Lemma quantum_pos hw : 0 < hw -> 0 < quantum hw /\ hw <= 2 * quantum hw /\ quantum hw <= hw.
Proof. unfold quantum. intros. pose proof (Z.div_mod (hw + 1) 2 ltac:(lia)). pose proof (Z.mod_pos_bound (hw + 1) 2 ltac:(lia)). lia. Qed.

Lemma calculate_ok now csid from hmac hw offset :
  0 < hw -> calculate_session_id_hmac sockaddr_image now csid from hmac hw offset = Some (cookie hmac from csid (slot_of now hw + offset)).
Proof.
  intros Hhw. destruct (quantum_pos hw Hhw) as [Hq _]. unfold calculate_session_id_hmac, cookie, slot_of. fold (quantum hw).
  by rewrite (ASSERT_true (negb (quantum hw =? 0))) by lia.
Qed.

Lemma check_slots_ok now st from hmac hw offsets :
  0 < hw -> check_slots sockaddr_image now st from hmac hw offsets =
    Some (existsb (fun o => bool_decide (cookie hmac from (pds_peer_session_id st) (slot_of now hw + o) = pds_server_session_id st)) offsets).
Proof.
  intros Hhw. induction offsets as [|o offsets IH]; [done|]. cbn [check_slots existsb]. rewrite calculate_ok, Some_bind by done.
  by destruct (bool_decide _).
Qed.

Lemma cookie_sid hmac from csid slot : zlen (cookie hmac from csid slot) = SID_SIZE /\ bytes (cookie hmac from csid slot).
Proof.
  unfold cookie. split; [|apply Forall_slice, hmac_bytes]. apply length_slice; try done.
  rewrite hmac_length. done.
Qed.

(** The session id in a packet is a cookie of one of the last three slots. *)
Definition cookie_shown (now : Z) (hmac : list Z) (hw : Z) (from : openvpn_sockaddr) (st : tls_pre_decrypt_state) : Prop :=
  exists o, o ∈ [-2; -1; 0] /\ pds_server_session_id st = cookie hmac from (pds_peer_session_id st) (slot_of now hw + o).

Lemma check_session_ok now st from hmac hw pkt_is_ack :
  0 < hw -> exists ok sid, check_session_hmac_and_pkt_id sockaddr_image now st from hmac hw pkt_is_ack = Some (ok, set_server_sid st sid) /\
    (ok = true -> cookie_shown now hmac hw from (set_server_sid st sid)).
Proof.
  intros Hhw. unfold check_session_hmac_and_pkt_id. destruct (reliable_ack_parse (pds_newbuf st)) as [[[ok buf] ack] sid].
  assert (Hst : (match sid with Some sid => set_server_sid st sid | None => st end) =
                set_server_sid st (default (pds_server_session_id st) sid)) by (by destruct sid, st).
  rewrite Hst. set (s := default _ sid). destruct ok; cbn [negb]; [|by exists false, s].
  destruct (existsb _ ack); [by exists false, s|].
  destruct (if pkt_is_ack then Some 0 else _) as [mid|]; [|by exists false, s].
  destruct (1 <? mid); [by exists false, s|]. rewrite check_slots_ok, Some_bind by done. eexists _, s. split; [done|].
  intros (o & Ho & E)%existsb_exists. apply bool_decide_eq_true in E. exists o. split; [by apply list_elem_of_In|done].
Qed.

(** ** The verdict on a packet *)

Lemma lite_ok now tas st junk buf h c t :
  buf_rep buf h c t -> zlen junk = b_capacity buf -> bytes junk -> tas_ready tas ->
  exists v st', tls_pre_decrypt_lite now tas st junk buf = Some (v, st') /\
    pds_server_session_id st' = pds_server_session_id st /\
    (v <> VERDICT_INVALID ->
       first_ctx (tas_tls_wrap tas) (pds_tls_wrap_tmp st') /\ v = verdict_of (packet_opcode c) /\ first_packet_opcode (packet_opcode c) = true /\
       pds_peer_session_id st' = slice 1 8 c /\ zlen (slice 1 8 c) = 8 /\
       (carries_client_key (packet_opcode c) = true -> 49 <= zlen c)).
Proof.
  intros Hb Hj Hjb (Hr & Hs & Hig). unfold tls_pre_decrypt_lite. rewrite (buf_len_wf _ (rep_wf _ _ _ _ Hb)), (rep_len _ _ _ _ Hb). change (1 + SID_SIZE) with 9.
  destruct (zlen c <? 9) eqn:E0; [by eexists _, st|]. destruct c as [|x c]; [cbn in E0; lia|].
  rewrite (peek_rep _ _ _ _ _ Hb). change (Z.shiftr x P_OPCODE_SHIFT) with (packet_opcode (x :: c)). set (op := packet_opcode (x :: c)).
  destruct (first_packet_opcode op) eqn:Eop; cbn [negb]; [|by eexists _, st]. destruct (Z.land x P_KEY_ID_MASK =? 0); cbn [negb]; [|by eexists _, st].
  pose proof Hb as Hb1. change (x :: c) with ([x] ++ c) in Hb1. destruct (advance_rep _ _ _ _ _ Hb1) as (b1 & Ha & Hb2). change (zlen [x]) with 1 in *. rewrite Ha. cbn [snd].
  assert (Lsid : zlen (take 8 c) = 8) by (rewrite length_take; cbn [length] in E0; lia).
  rewrite <- (take_drop 8 c) in Hb2. destruct (read_rep _ _ _ _ _ Hb2) as (b2 & Hrd & _). rewrite Lsid in Hrd.
  unfold session_id_read. change SID_SIZE with 8. rewrite Hrd. destruct (session_id_defined (take 8 c)); cbn [negb]; [|by eexists _, (set_peer_sid st (take 8 c))].
  destruct (read_first_ok now (clone_buf junk buf) h (x :: c) t (tas_tls_wrap tas)) as (ok & out & ctx' & -> & Hok); try done.
  { by apply clone_rep. }
  { lia. }
  rewrite Some_bind. eexists _, _. split; [done|]. split; [done|]. destruct ok; [|done]. intros _. destruct (Hok eq_refl) as (Hf & _ & Hc).
  by split_and!.
Qed.

(** ** The answer to a reset *)

(** An acknowledgement of packet 0, the packet id 0, and whether the key is to be sent again. *)
Definition reset_body (csid : list Z) (resend_wkc : bool) : list Z :=
  [1] ++ be_bytes 4 0 ++ csid ++ be_bytes 4 0 ++
  (if resend_wkc then be_bytes 2 TLV_TYPE_EARLY_NEG_FLAGS ++ be_bytes 2 2 ++ be_bytes 2 EARLY_NEG_FLAG_RESEND_WKC else []).

Lemma length_reset_body csid (resend : bool) : zlen csid = 8 -> zlen (reset_body csid resend) = if resend then 23 else 17.
Proof. intros. unfold reset_body. destruct resend; rewrite !length_app, ?length_be_bytes; cbn [length]; lia. Qed.

Definition reset_header : Z := Z.lor 0 (Z.shiftl P_CONTROL_HARD_RESET_SERVER_V2 P_OPCODE_SHIFT).

(** The buffers of the server, and the keys that it sends with. *)
Definition reply_ready (tas : tls_auth_standalone) (aux : buffer) : Prop :=
  let ctx := tas_tls_wrap tas in let hr := f_headroom (tas_frame tas) in
  0 <= hr /\
  (exists h c t, buf_rep (tas_workbuf tas) h c t /\ hr + 23 <= h + zlen c + t) /\
  (exists h c t, buf_rep (tw_work ctx) h c t /\ hr + 9 + 8 + 23 + 16 + 32 <= h + zlen c + t) /\
  (exists h c t, buf_rep aux h c t /\ hr + 23 + 49 <= h + zlen c + t) /\
  match tw_mode ctx with
  | TLS_WRAP_NONE => 9 <= hr
  | TLS_WRAP_AUTH => co_long_form (tw_opt ctx) = true /\
      exists digest hkey, auth_keys (co_encrypt (tw_opt ctx)) digest hkey /\ 9 + md_kt_size digest + 8 <= hr
  | TLS_WRAP_CRYPT => co_long_form (tw_opt ctx) = true /\ exists key hkey, crypt_keys (co_encrypt (tw_opt ctx)) key hkey
  end.

(** The counter of a fresh sender after one packet. *)
Definition first_id (now : Z) : packet_id_send := mk_send 1 now.

Lemma fresh_wrap tas aux ctx now (resend : bool) :
  reply_ready tas aux -> tas_ready tas -> first_ctx (tas_tls_wrap tas) ctx -> is_u32 now ->
  let ctx := set_tw_opt ctx (set_packet_id (tw_opt ctx) (fresh_ids (co_packet_id (tw_opt ctx))) (co_pid_persist (tw_opt ctx))) in
  wrap_room ctx (f_headroom (tas_frame tas)) (if resend then 23 else 17) /\
  wrap_next now ctx (match tw_mode ctx with TLS_WRAP_NONE => mk_send 0 0 | _ => first_id now end).
Proof.
  intros (Hhr & _ & (wh & wc & wt & Hw & Hroom) & _ & Hm) (_ & _ & Hig) Hf Hnow ctx'.
  assert (Hnext : co_long_form (tw_opt ctx) = true -> packet_id_initialized (co_packet_id (tw_opt ctx')) = true /\ co_long_form (tw_opt ctx') = true /\
    packet_id_send_update now (send (co_packet_id (tw_opt ctx'))) true = (true, first_id now) /\ is_u32 (s_id (first_id now)) /\ is_u32 (s_time (first_id now))).
  { intros Hlf. subst ctx'. cbn. destruct (tw_opt ctx). cbn in *. subst. by split_and!. }
  unfold wrap_room, wrap_next. assert (Em : tw_mode ctx' = tw_mode ctx) by done. assert (Ew : tw_work ctx' = tw_work ctx) by done.
  assert (Ee : co_encrypt (tw_opt ctx') = co_encrypt (tw_opt ctx)) by (subst ctx'; by destruct (tw_opt ctx)).
  rewrite Em, Ew, Ee. destruct Hf as [->|(k & mdb & Hck)].
  - destruct (tw_mode (tas_tls_wrap tas)).
    + split; [done|]. subst ctx'. by destruct (tw_opt (tas_tls_wrap tas)).
    + destruct Hm as [Hlf Hm]. split; [done|by apply Hnext].
    + destruct Hm as [Hlf Hm]. split; [|by apply Hnext]. split; [done|]. exists wh, wc, wt. split; [done|]. destruct resend; lia.
  - destruct (client_key_ready _ _ _ _ Hck Hig) as (_ & -> & _ & Hk & Hlf). split; [|by apply Hnext]. split; [done|].
    destruct Hck as (_ & _ & _ & _ & _ & -> & _). exists wh, wc, wt. split; [done|]. destruct resend; lia.
Qed.

Lemma reset_standalone_ok now tas aux ctx own csid resend p' :
  reply_ready tas aux -> wrap_room ctx (f_headroom (tas_frame tas)) (if resend : bool then 23 else 17) -> wrap_next now ctx p' ->
  bytes own -> zlen own = 8 -> bytes csid -> zlen csid = 8 ->
  exists out ctx' oh ot pkt, tls_reset_standalone now ctx tas own csid reset_header resend = Some (out, ctx') /\
    buf_rep out oh pkt ot /\ (oh <= f_headroom (tas_frame tas) /\ oh + zlen pkt <= f_headroom (tas_frame tas) + 23 + 49) /\ take 9 pkt = reset_header :: own /\
    forall r, same_wrap ctx r -> control_open r pkt = Some (wrap_seen r p', reset_body csid resend).
Proof.
  intros (Hhr & (wh & wc & wt & Hw & Hroom) & _) Hr Hn Hob Hol Hcb Hcl. unfold tls_reset_standalone. set (hr := f_headroom _) in *.
  destruct (init_rep _ _ _ _ hr Hw) as (b0 & -> & H0); [lia|]. rewrite Some_bind, (ASSERT_true true), Some_bind by done.
  assert (Hz : forall n z, bytes (be_bytes n z)) by (intros; apply be_bytes_bytes).
  unfold buf_write_u8, buf_write_u32, buf_write_u16. change (u8 1) with 1.
  destruct (write_rep _ _ _ _ [1] H0) as (b1 & -> & H1); [by constructor|cbn [length]; lia|]. cbn [snd].
  destruct (write_rep _ _ _ _ (be_bytes 4 0) H1) as (b2 & -> & H2); [done|rewrite ?length_be_bytes; cbn [length]; lia|]. cbn [snd].
  destruct (write_rep _ _ _ _ csid H2) as (b3 & -> & H3); [done|rewrite ?length_be_bytes; cbn [length]; lia|]. cbn [snd].
  destruct (write_rep _ _ _ _ (be_bytes 4 0) H3) as (b4 & -> & H4); [done|rewrite ?length_be_bytes; cbn [length]; lia|]. rewrite Some_bind, (ASSERT_true true), Some_bind by done.
  assert (Hbody : exists b t, (if resend then (buf_write (buf_write (buf_write b4 (be_bytes 2 TLV_TYPE_EARLY_NEG_FLAGS)).2 (be_bytes 2 2)).2
                      (be_bytes 2 EARLY_NEG_FLAG_RESEND_WKC)).2 else b4) = b /\ buf_rep b hr (reset_body csid resend) t).
  { destruct resend.
    - destruct (write_rep _ _ _ _ (be_bytes 2 TLV_TYPE_EARLY_NEG_FLAGS) H4) as (b5 & -> & H5); [done|rewrite ?length_be_bytes; cbn [length]; lia|]. cbn [snd].
      destruct (write_rep _ _ _ _ (be_bytes 2 2) H5) as (b6 & -> & H6); [done|rewrite ?length_be_bytes; cbn [length]; lia|]. cbn [snd].
      destruct (write_rep _ _ _ _ (be_bytes 2 EARLY_NEG_FLAG_RESEND_WKC) H6) as (b7 & -> & H7); [done|rewrite ?length_be_bytes; cbn [length]; lia|]. cbn [snd].
      exists b7. eexists. split; [done|]. unfold reset_body. eapply rep_eq; [exact H7|done|by rewrite app_nil_l, <- !app_assoc|done].
    - exists b4. eexists. split; [done|]. unfold reset_body. eapply rep_eq; [exact H4|done|by rewrite app_nil_l, app_nil_r, <- !app_assoc|done]. }
  destruct Hbody as (b & t & -> & Hb).
  destruct (tls_wrap_control_ok now ctx b hr (reset_body csid resend) t reset_header own p' Hb) as (out & ctx' & oh & ot & pkt & E & _ & Ho & [Hoh1 Hoh2] & Ht & Hopen); try done.
  { by rewrite length_reset_body. }
  rewrite length_reset_body in Hoh2 by done. exists out, ctx', oh, ot, pkt. split_and!; try done. destruct resend; lia.
Qed.

(** ** What is done with a packet *)

Definition server_ok (m : udp_context) : Prop :=
  tas_ready (uc_tas m) /\ reply_ready (uc_tas m) (uc_aux_buf m) /\ 0 < uc_handshake_window m.

(** [m'] is [m] with an answer to the client: its session id is the cookie of the time slot,
    and whoever has the keys of [ctx] finds the acknowledgement in it. *)
Definition answered (now : Z) (m m' : udp_context) (ctx : tls_wrap_ctx) (from : openvpn_sockaddr) (csid : list Z) (resend : bool) : Prop :=
  exists reply oh ot pkt p', m' = set_reply m reply from /\ buf_rep reply oh pkt ot /\
    take 9 pkt = reset_header :: cookie (uc_session_id_hmac m) from csid (slot_of now (uc_handshake_window m)) /\
    forall r, same_wrap ctx r -> control_open r pkt = Some (wrap_seen r p', reset_body csid resend).

Lemma answer_reset_ok now m st from resend :
  server_ok m -> is_u32 now -> first_ctx (tas_tls_wrap (uc_tas m)) (pds_tls_wrap_tmp st) ->
  zlen (pds_peer_session_id st) = 8 -> bytes (pds_peer_session_id st) ->
  exists m' ctx', answer_reset sockaddr_image now m st from resend = Some (m', set_wrap_tmp st ctx') /\
    answered now m m' (pds_tls_wrap_tmp st) from (pds_peer_session_id st) resend.
Proof.
  intros (Htas & Hrep & Hhw) Hnow Hf Hl Hby. unfold answer_reset. rewrite calculate_ok, Some_bind, Z.add_0_r by done.
  set (own := cookie _ _ _ _). destruct (cookie_sid (uc_session_id_hmac m) from (pds_peer_session_id st) (slot_of now (uc_handshake_window m))) as [Hol Hob]. fold own in Hol, Hob.
  unfold send_hmac_reset_packet. set (ctx := pds_tls_wrap_tmp st) in *.
  destruct (fresh_wrap _ _ ctx now resend Hrep Htas Hf Hnow) as [Hroom Hn]. set (ctx' := set_tw_opt ctx _) in *.
  destruct (reset_standalone_ok now (uc_tas m) _ ctx' own (pds_peer_session_id st) resend _ Hrep Hroom Hn Hob Hol Hby Hl) as (out & c2 & oh & ot & pkt & E & Ho & [Ho1 Ho2] & Ht & Hopen).
  fold reset_header. rewrite E, Some_bind, (rep_head _ _ _ _ Ho). destruct Hrep as (Hhr & _ & _ & (ah & ac & at_ & Ha & Har) & _).
  pose proof (rep_bounds _ _ _ _ Ho) as (Hoh & _ & _ & Hpb).
  destruct (init_rep _ _ _ _ oh Ha) as (a1 & -> & Ha1); [lia|]. rewrite Some_bind, (ASSERT_true true), Some_bind by done.
  unfold buf_copy. rewrite (rep_content _ _ _ _ Ho). destruct (write_rep _ _ _ _ pkt Ha1 Hpb) as (a2 & -> & Ha2); [lia|].
  eexists _, c2. split; [done|]. eexists a2, oh, _, pkt, _. split; [done|]. split; [exact Ha2|]. split; [exact Ht|].
  intros r [Hm Hs]. rewrite (Hopen r); [done|]. split; [done|].
  assert (Ee : co_encrypt (tw_opt ctx') = co_encrypt (tw_opt ctx)) by (subst ctx'; by destruct (tw_opt ctx)). by rewrite Ee.
Qed.

(** An old client, which has to be let in before it has shown that it gets the answers. *)
Definition old_client (m : udp_context) (c : list Z) : Prop :=
  packet_opcode c = P_CONTROL_HARD_RESET_CLIENT_V3 /\ tw_force_cookie (tas_tls_wrap (uc_tas m)) = false /\
  Z.land (Z.land (be_val (slice 9 4 c)) EARLY_NEG_MASK) EARLY_NEG_START <> EARLY_NEG_START.

(** The limit, without the counting. *)
Definition within_limit (now : Z) (m : udp_context) : Prop :=
  (reflect_filter_rate_limit_check now (uc_initial_rate_limiter m)).1 = true.

(** The server after a packet that made no instance: at most the counter has moved, and
    there may be an answer if the limit allows it. *)
Definition unmoved (now : Z) (m m' : udp_context) (from : openvpn_sockaddr) (c : list Z) : Prop :=
  let counted := set_limiter m (reflect_filter_rate_limit_check now (uc_initial_rate_limiter m)).2 in
  m' = m \/ m' = counted \/
  (within_limit now m /\ exists ctx resend, first_ctx (tas_tls_wrap (uc_tas m)) ctx /\ answered now counted m' ctx from (slice 1 8 c) resend).

Lemma set_limiter_same m : set_limiter m (uc_initial_rate_limiter m) = m.
Proof. by destruct m. Qed.

Lemma verdict_cases op :
  first_packet_opcode op = true ->
  (verdict_of op = VERDICT_VALID_RESET_V3 <-> op = P_CONTROL_HARD_RESET_CLIENT_V3) /\
  (verdict_of op = VERDICT_VALID_RESET_V2 <-> op = P_CONTROL_HARD_RESET_CLIENT_V2).
Proof.
  unfold first_packet_opcode, verdict_of, P_CONTROL_HARD_RESET_CLIENT_V2, P_CONTROL_HARD_RESET_CLIENT_V3, P_CONTROL_V1, P_CONTROL_WKC_V1, P_ACK_V1.
  destruct (Z.eqb_spec op 4), (Z.eqb_spec op 5), (Z.eqb_spec op 10), (Z.eqb_spec op 11), (Z.eqb_spec op 7); cbn [orb]; try done; subst; try done; intros _; split; split; (done || lia).
Qed.

Lemma pre_decrypt_ok now m st junk from buf h c t :
  server_ok m -> is_u32 now -> buf_rep buf h c t -> zlen junk = b_capacity buf -> bytes junk ->
  exists go m' st', do_pre_decrypt_check sockaddr_image now m st junk from buf = Some (go, m', st') /\
    if go
    then (old_client m c \/ cookie_shown now (uc_session_id_hmac m) (uc_handshake_window m) from st') /\
         pds_peer_session_id st' = slice 1 8 c /\ exists irl, m' = set_limiter m irl
    else unmoved now m m' from c.
Proof.
  intros Hok Hnow Hb Hj Hjb. pose proof Hok as (Htas & Hrep & Hhw). unfold do_pre_decrypt_check.
  destruct (lite_ok now (uc_tas m) st junk buf h c t Hb Hj Hjb Htas) as (v & st1 & -> & _ & Hv). rewrite Some_bind.
  pose proof (rep_bounds _ _ _ _ Hb) as (_ & _ & _ & Hcb).
  assert (Hsid : bytes (slice 1 8 c)) by by apply Forall_slice.
  destruct (is_reset v) eqn:Ev.
  - destruct (reflect_filter_rate_limit_check now (uc_initial_rate_limiter m)) as [below irl] eqn:El. rewrite Some_bind.
    assert (Hcount : set_limiter m (reflect_filter_rate_limit_check now (uc_initial_rate_limiter m)).2 = set_limiter m irl) by by rewrite El.
    set (m1 := set_limiter m irl) in *. assert (Hok1 : server_ok m1) by done.
    destruct below; cbn [negb]; [|eexists false, m1, st1; split; [done|]; right; left; by rewrite Hcount].
    assert (Hlim : within_limit now m) by (unfold within_limit; by rewrite El).
    assert (Hval : v <> VERDICT_INVALID) by by destruct v. destruct (Hv Hval) as (Hf & Hvd & Hop & Hpeer & Hpl & Hlen).
    destruct (verdict_cases _ Hop) as [H3 H2]. rewrite <- Hvd in H2, H3.
    assert (Hans : forall resend, exists m' ctx', answer_reset sockaddr_image now m1 st1 from resend = Some (m', set_wrap_tmp st1 ctx') /\ unmoved now m m' from c).
    { intros resend. destruct (answer_reset_ok now m1 st1 from resend Hok1 Hnow Hf) as (m' & ctx' & E & Ha); [by rewrite Hpeer|by rewrite Hpeer|].
      exists m', ctx'. split; [done|]. right. right. split; [done|]. exists (pds_tls_wrap_tmp st1), resend. split; [done|]. rewrite <- Hpeer, Hcount. done. }
    destruct v; try done.
    + destruct (Hans false) as (m' & ctx' & -> & Hu). rewrite Some_bind. by exists false, m', (set_wrap_tmp st1 ctx').
    + assert (Hcar : carries_client_key (packet_opcode c) = true) by (rewrite (proj1 H3 eq_refl); done). specialize (Hlen Hcar).
      pose proof Hb as Hb1. rewrite <- (take_drop 9 c) in Hb1. destruct (advance_rep _ _ _ _ _ Hb1) as (b1 & Ha & Hb2).
      replace (zlen (take 9 c)) with 9 in Ha, Hb2 by (rewrite length_take; lia). change (1 + SID_SIZE) with 9. rewrite Ha, Some_bind, (ASSERT_true true), Some_bind by done.
      pose proof (read_pin_ok _ _ _ _ true Hb2) as Hr. change (packet_id_size true) with 8 in Hr. rewrite length_drop in Hr.
      destruct (_ <? 8) eqn:E8; [lia|]. destruct Hr as (b' & -> & _). rewrite Some_bind, (ASSERT_true true), Some_bind by done.
      assert (Hid : n_id (parse_pin true (drop 9 c)) = be_val (slice 9 4 c)) by done. rewrite Hid.
      destruct (Z.eqb_spec (Z.land (Z.land (be_val (slice 9 4 c)) EARLY_NEG_MASK) EARLY_NEG_START) EARLY_NEG_START) as [E|E].
      * destruct (Hans true) as (m' & ctx' & -> & Hu). rewrite Some_bind. by exists false, m', (set_wrap_tmp st1 ctx').
      * eexists _, m1, st1. split; [done|]. change (uc_tas m1) with (uc_tas m). destruct (tw_force_cookie (tas_tls_wrap (uc_tas m))) eqn:Ef; cbn [negb].
        -- right. left. by rewrite Hcount.
        -- split; [left; split; [by apply H3|done]|]. split; [done|by exists irl].
  - rewrite Some_bind. cbn [negb]. rewrite set_limiter_same. assert (Hinv : unmoved now m m from c) by by left.
    destruct v; try done; [| | |by exists false, m, st1];
      destruct (Hv ltac:(done)) as (_ & _ & _ & Hpeer & _);
      (match goal with |- context [check_session_hmac_and_pkt_id _ _ _ _ _ _ ?a] =>
         destruct (check_session_ok now st1 from (uc_session_id_hmac m) (uc_handshake_window m) a Hhw) as (ok & sid & -> & Hc) end);
      rewrite Some_bind; exists ok, m, (set_server_sid st1 sid); (split; [done|]); destruct ok; try done;
      (split; [right; by apply Hc|]); (split; [done|]); exists (uc_initial_rate_limiter m); by rewrite set_limiter_same.
Qed.

(** ** The three-way handshake *)

(** The message of a packet that the server can open, with the key in the packet if there is one. *)
Definition first_open (ctx : tls_wrap_ctx) (c m : list Z) : Prop :=
  if carries_client_key (packet_opcode c)
  then exists p k md, client_open ctx c = Some (p, k, md) /\
         forall ctx' mdb, has_client_key ctx ctx' k mdb -> exists pin, control_open ctx' p = Some (pin, m)
  else exists pin, control_open ctx c = Some (pin, m).

Lemma read_first_open now buf h c t ctx m :
  buf_rep buf h c t -> 9 <= zlen c -> wrap_ready ctx -> server_key_ok ctx -> tw_ignore_packet_id ctx = true -> first_open ctx c m ->
  exists out ctx' ho to, read_control_auth now buf ctx None true = Some (true, out, ctx') /\ buf_rep out ho m to.
Proof.
  intros Hb Hc Hr Hs Hig Ho. unfold first_open in Ho. destruct (carries_client_key (packet_opcode c)) eqn:Hcar.
  - destruct Ho as (p & k & md & Eo & Ho). destruct c as [|x c]; [cbn in Hc; lia|]. unfold read_control_auth.
    change (packet_opcode (x :: c)) with (Z.shiftr x P_OPCODE_SHIFT) in Hcar. rewrite (peek_rep _ _ _ _ _ Hb), Hcar.
    pose proof (extract_client_key_ok now buf h _ t ctx None Hb Hs) as Hext. rewrite Eo in Hext.
    destruct Hext as (mdb & mt & _ & b' & t' & ctx' & -> & Hb' & Hck). cbn [mbind option_bind negb].
    destruct (client_key_ready _ _ _ _ Hck Hig) as (Hr' & Hm' & Hig' & _).
    destruct (read_wrapped_ok now b' h p t' ctx' Hb' Hr') as (bad & Hv); [by rewrite Hm'|].
    destruct (Ho _ _ Hck) as (pin & Epin). rewrite Epin in Hv. pose proof (open_seen _ _ _ _ Hig' Epin) as ->.
    destruct Hv as (out & ho & to & Hout & ->). by exists out, ctx', ho, to.
  - destruct Ho as (pin & Epin). destruct (read_control_auth_ok now buf h c t ctx None true Hb Hr Hc Hcar) as (bad & Hv).
    rewrite Epin in Hv. pose proof (open_seen _ _ _ _ Hig Epin) as ->. destruct Hv as (out & ho & to & Hout & ->). by exists out, ctx, ho, to.
Qed.

(** A packet of a client that has no instance: opcode, key id 0, its session id, and a
    message [m] that the server can open. *)
Definition first_packet (tas : tls_auth_standalone) (buf : buffer) (junk c csid : list Z) (op : Z) (m : list Z) : Prop :=
  (exists h t, buf_rep buf h c t) /\ zlen junk = b_capacity buf /\ bytes junk /\
  take 9 c = Z.shiftl op P_OPCODE_SHIFT :: csid /\ 9 <= zlen c /\ session_id_defined csid = true /\
  first_packet_opcode op = true /\ first_open (tas_tls_wrap tas) c m.

Lemma lite_open now tas st junk buf c csid op m :
  tas_ready tas -> first_packet tas buf junk c csid op m ->
  exists newbuf ctx' ho to, tls_pre_decrypt_lite now tas st junk buf =
    Some (verdict_of op, mk_pds ctx' newbuf csid (pds_server_session_id st)) /\ buf_rep newbuf ho m to /\ packet_opcode c = op.
Proof.
  intros (Hr & Hs & Hig) ((h & t & Hb) & Hj & Hjb & Ht & Hc & Hd & Hop & Ho). unfold tls_pre_decrypt_lite.
  assert (Epo : packet_opcode c = op).
  { rewrite (packet_opcode_header _ _ _ Ht). apply Z.shiftr_shiftl_l. done. }
  rewrite (buf_len_wf _ (rep_wf _ _ _ _ Hb)), (rep_len _ _ _ _ Hb). change (1 + SID_SIZE) with 9.
  destruct (zlen c <? 9) eqn:E0; [lia|]. destruct c as [|x c]; [cbn in Hc; lia|].
  injection Ht as Ex Et. rewrite (peek_rep _ _ _ _ _ Hb). change (Z.shiftr x P_OPCODE_SHIFT) with (packet_opcode (x :: c)). rewrite Epo, Hop. cbn [negb].
  assert (Hkid : Z.land x P_KEY_ID_MASK = 0).
  { rewrite Ex. change P_KEY_ID_MASK with (Z.ones 3). change P_OPCODE_SHIFT with 3. rewrite Z.land_ones by done. rewrite Z.shiftl_mul_pow2 by done. by apply Z.mod_mul. }
  rewrite Hkid, Z.eqb_refl. cbn [negb]. pose proof Hb as Hb1. change (x :: c) with ([x] ++ c) in Hb1.
  destruct (advance_rep _ _ _ _ _ Hb1) as (b1 & Ha & Hb2). change (zlen [x]) with 1 in *. rewrite Ha. cbn [snd].
  assert (Lsid : zlen csid = 8) by (rewrite <- Et, length_take; cbn [length] in Hc; lia).
  rewrite <- (take_drop 8 c), Et in Hb2. destruct (read_rep _ _ _ _ _ Hb2) as (b2 & Hrd & _). rewrite Lsid in Hrd.
  unfold session_id_read. change SID_SIZE with 8. rewrite Hrd, Hd. cbn [negb].
  destruct (read_first_open now (clone_buf junk buf) h (x :: c) t (tas_tls_wrap tas) m) as (out & ctx' & ho & to & -> & Hout); try done.
  { by apply clone_rep. }
  rewrite Some_bind. by exists out, ctx', ho, to.
Qed.

Lemma check_session_shown now st h t ids rest from hmac hw (pkt_is_ack : bool) slot o :
  0 < hw -> buf_rep (pds_newbuf st) h (ack_record ids (cookie hmac from (pds_peer_session_id st) slot) ++ rest) t -> ack_wf ids -> ids <> [] ->
  Forall (fun id => id <= 1) ids ->
  (pkt_is_ack = false -> exists mid rest', rest = be_bytes 4 mid ++ rest' /\ 0 <= mid <= 1) ->
  o ∈ [-2; -1; 0] -> slot = slot_of now hw + o ->
  check_session_hmac_and_pkt_id sockaddr_image now st from hmac hw pkt_is_ack =
    Some (true, set_server_sid st (cookie hmac from (pds_peer_session_id st) slot)).
Proof.
  intros Hhw Hb Hw Hne Hids Hmid Ho Hslot. destruct (cookie_sid hmac from (pds_peer_session_id st) slot) as [Hl _].
  unfold check_session_hmac_and_pkt_id. destruct (ack_parse_ok _ _ _ _ _ _ Hb Hw Hl) as (b' & -> & Hb').
  destruct (zlen ids =? 0) eqn:E0; [destruct ids; [done|cbn in E0; lia]|]. cbn [negb].
  assert (Ex : existsb (fun id => 1 <? id) ids = false).
  { apply not_true_iff_false. intros (i & Hi & E)%existsb_exists. apply list_elem_of_In in Hi. rewrite Forall_forall in Hids. specialize (Hids i Hi). lia. }
  rewrite Ex. assert (Em : exists mid, (if pkt_is_ack then Some 0 else (reliable_ack_read_packet_id b').1) = Some mid /\ mid <= 1).
  { destruct pkt_is_ack; [by exists 0|]. destruct (Hmid eq_refl) as (mid & rest' & -> & Hm). exists mid. split; [|lia].
    destruct (read_rep _ _ _ _ _ Hb') as (b2 & Hr & _). rewrite length_be_bytes in Hr. unfold reliable_ack_read_packet_id. change 4 with (Z.of_nat 4). rewrite Hr. cbn [fst].
    f_equal. rewrite be_val_be_bytes. apply Z.mod_small. change (256 ^ Z.of_nat 4) with 4294967296. lia. }
  destruct Em as (mid & -> & Hm). destruct (1 <? mid) eqn:E1; [lia|]. rewrite check_slots_ok by done. cbn [mbind option_bind].
  do 2 f_equal. apply existsb_exists. exists o. split; [by apply list_elem_of_In|]. apply bool_decide_eq_true. destruct st. cbn. by rewrite Hslot.
Qed.

(** The slots of times that are at most the hand window apart. *)
Lemma slots_near hw now now2 : 0 < hw -> now <= now2 <= now + hw -> exists o, o ∈ [-2; -1; 0] /\ slot_of now hw = slot_of now2 hw + o.
Proof.
  intros Hhw Hn. destruct (quantum_pos hw Hhw) as (Hq & Hq2 & _). unfold slot_of. set (q := quantum hw) in *.
  pose proof (Z.div_le_mono now now2 q Hq ltac:(lia)). pose proof (Z.div_le_mono now2 (now + 2 * q) q Hq ltac:(lia)) as Hle.
  rewrite Z.div_add in Hle by lia. exists (now / q - now2 / q). split; [|lia].
  assert (now / q - now2 / q = -2 \/ now / q - now2 / q = -1 \/ now / q - now2 / q = 0) as [-> | [-> | ->]] by lia; set_solver.
Qed.

(** A reset is answered. *)
Lemma reset_answered now m st junk from buf c csid op msg :
  server_ok m -> is_u32 now -> first_packet (uc_tas m) buf junk c csid op msg -> within_limit now m ->
  op = P_CONTROL_HARD_RESET_CLIENT_V2 \/
    op = P_CONTROL_HARD_RESET_CLIENT_V3 /\ Z.land (Z.land (be_val (slice 9 4 c)) EARLY_NEG_MASK) EARLY_NEG_START = EARLY_NEG_START ->
  exists m' st' ctx, do_pre_decrypt_check sockaddr_image now m st junk from buf = Some (false, m', st') /\
    first_ctx (tas_tls_wrap (uc_tas m)) ctx /\
    answered now (set_limiter m (reflect_filter_rate_limit_check now (uc_initial_rate_limiter m)).2) m' ctx from csid (op =? P_CONTROL_HARD_RESET_CLIENT_V3).
Proof.
  intros Hok Hnow Hp Hlim Hcase. pose proof Hok as (Htas & _ & _). pose proof Hp as ((h & t & Hb) & Hj & Hjb & Ht & Hlen & _ & _ & _).
  destruct (lite_open now (uc_tas m) st junk buf c csid op msg Htas Hp) as (nb & ctx' & ho & to & El & _ & Epo).
  destruct (lite_ok now (uc_tas m) st junk buf h c t Hb Hj Hjb Htas) as (v & st1 & El' & _ & Hv). rewrite El in El'. injection El' as <- <-.
  unfold do_pre_decrypt_check. rewrite El, Some_bind. cbn [pds_tls_wrap_tmp pds_peer_session_id] in Hv. set (st1 := mk_pds ctx' nb csid _).
  unfold within_limit in Hlim. destruct (reflect_filter_rate_limit_check now (uc_initial_rate_limiter m)) as [below irl]. cbn [fst snd] in *. subst below.
  assert (Hr : is_reset (verdict_of op) = true) by (by destruct Hcase as [->|[-> _]]). rewrite Hr, Some_bind. cbn [negb].
  assert (Hvv : verdict_of op <> VERDICT_INVALID) by by destruct (verdict_of op). destruct (Hv Hvv) as (Hf & _ & _ & Hpeer & Hpl & Hl49).
  set (m1 := set_limiter m irl). assert (Hsid : zlen csid = 8 /\ bytes csid) by (rewrite Hpeer; split; [done|by apply Forall_slice, (rep_bounds _ _ _ _ Hb)]).
  assert (Hans : forall resend, exists m' c2, answer_reset sockaddr_image now m1 st1 from resend = Some (m', set_wrap_tmp st1 c2) /\ answered now m1 m' ctx' from csid resend).
  { intros resend. by destruct (answer_reset_ok now m1 st1 from resend Hok Hnow Hf (proj1 Hsid) (proj2 Hsid)) as (m' & c2 & E & Ha); exists m', c2. }
  destruct Hcase as [->|[-> Hneg]].
  - destruct (Hans false) as (m' & c2 & E & Ha). change (verdict_of P_CONTROL_HARD_RESET_CLIENT_V2) with VERDICT_VALID_RESET_V2. rewrite E, Some_bind.
    by exists m', (set_wrap_tmp st1 c2), ctx'.
  - change (verdict_of P_CONTROL_HARD_RESET_CLIENT_V3) with VERDICT_VALID_RESET_V3.
    assert (L49 : 49 <= zlen c) by (apply Hl49; by rewrite Epo). pose proof Hb as Hb1. rewrite <- (take_drop 9 c) in Hb1. destruct (advance_rep _ _ _ _ _ Hb1) as (b1 & Ha & Hb2).
    replace (zlen (take 9 c)) with 9 in Ha, Hb2 by (rewrite length_take; lia). change (1 + SID_SIZE) with 9. rewrite Ha, Some_bind, (ASSERT_true true), Some_bind by done.
    pose proof (read_pin_ok _ _ _ _ true Hb2) as Hrd. change (packet_id_size true) with 8 in Hrd. rewrite length_drop in Hrd.
    destruct (_ <? 8) eqn:E8; [lia|]. destruct Hrd as (b' & -> & _). rewrite Some_bind, (ASSERT_true true), Some_bind by done.
    assert (Hid : n_id (parse_pin true (drop 9 c)) = be_val (slice 9 4 c)) by done. rewrite Hid, Hneg, Z.eqb_refl.
    destruct (Hans true) as (m' & c2 & E & Ha2). rewrite E, Some_bind. by exists m', (set_wrap_tmp st1 c2), ctx'.
Qed.

(** C10: The three-way handshake goes through, and the server keeps nothing for it.  A reset
    that the server can open - a [P_CONTROL_HARD_RESET_CLIENT_V2], or a
    [P_CONTROL_HARD_RESET_CLIENT_V3] whose packet id announces early negotiation; for another V3
    reset the server does not ask for a cookie -, from any address and within the limit, is
    answered and no instance is made; the answer, which the peer with the same keys opens, acknowledges the
    reset, and its session id is the cookie.  When the client comes back from that address
    with its session id, at any time within the hand window, in a packet that the server can
    open and that acknowledges packets up to 1 under that session id, an instance is made -
    for that client and that session id of the server. *)
Theorem three_way_handshake now m st junk from buf c csid op msg :
  server_ok m -> is_u32 now -> first_packet (uc_tas m) buf junk c csid op msg -> within_limit now m ->
  op = P_CONTROL_HARD_RESET_CLIENT_V2 \/
    op = P_CONTROL_HARD_RESET_CLIENT_V3 /\ Z.land (Z.land (be_val (slice 9 4 c)) EARLY_NEG_MASK) EARLY_NEG_START = EARLY_NEG_START ->
  let own := cookie (uc_session_id_hmac m) from csid (slot_of now (uc_handshake_window m)) in
  exists m' st' reply oh ot pkt p' ctx, do_pre_decrypt_check sockaddr_image now m st junk from buf = Some (false, m', st') /\
    uc_hmac_reply m' = Some (reply, from) /\ buf_rep reply oh pkt ot /\ take 9 pkt = reset_header :: own /\
    first_ctx (tas_tls_wrap (uc_tas m)) ctx /\
    (forall r, same_wrap ctx r -> control_open r pkt = Some (wrap_seen r p', reset_body csid (op =? P_CONTROL_HARD_RESET_CLIENT_V3))) /\
    forall now2 st0 junk2 buf2 c2 op2 ids rest,
      now <= now2 <= now + uc_handshake_window m -> op2 ∈ [P_CONTROL_V1; P_ACK_V1; P_CONTROL_WKC_V1] ->
      first_packet (uc_tas m) buf2 junk2 c2 csid op2 (ack_record ids own ++ rest) ->
      ack_wf ids -> ids <> [] -> Forall (fun id => id <= 1) ids ->
      (op2 <> P_ACK_V1 -> exists mid rest', rest = be_bytes 4 mid ++ rest' /\ 0 <= mid <= 1) ->
      exists st2, do_pre_decrypt_check sockaddr_image now2 m' st0 junk2 from buf2 = Some (true, m', st2) /\
        pds_peer_session_id st2 = csid /\ pds_server_session_id st2 = own.
Proof.
  intros Hok Hnow Hp Hlim Hcase own. pose proof Hok as (Htas & _ & Hhw).
  destruct (reset_answered now m st junk from buf c csid op msg Hok Hnow Hp Hlim Hcase) as (m' & st' & ctx & E & Hf & reply & oh & ot & pkt & p' & Em & Hrep & Ht & Hopen).
  exists m', st', reply, oh, ot, pkt, p', ctx. subst m'. split_and!; try done.
  intros now2 st0 junk2 buf2 c2 op2 ids rest Hn2 Hop2 Hp2 Hw Hne Hids Hmid. set (m' := set_reply _ reply from).
  destruct (lite_open now2 (uc_tas m) st0 junk2 buf2 c2 csid op2 _ Htas Hp2) as (nb & ctx2 & ho & to & El & Hnb & _).
  destruct (slots_near _ now now2 Hhw Hn2) as (o & Ho & Hslot).
  unfold do_pre_decrypt_check. change (uc_tas m') with (uc_tas m). rewrite El, Some_bind. set (st1 := mk_pds ctx2 nb csid _).
  change (uc_session_id_hmac m') with (uc_session_id_hmac m). change (uc_handshake_window m') with (uc_handshake_window m).
  assert (Hchk : check_session_hmac_and_pkt_id sockaddr_image now2 st1 from (uc_session_id_hmac m) (uc_handshake_window m) (op2 =? P_ACK_V1) =
    Some (true, set_server_sid st1 own)).
  { apply check_session_shown with (h := ho) (t := to) (ids := ids) (rest := rest) (o := o); try done. intros Hx. apply Hmid. intros ->. by rewrite Z.eqb_refl in Hx. }
  exists (set_server_sid st1 own). split; [|done].
  rewrite !elem_of_cons in Hop2. destruct Hop2 as [-> | [-> | [-> | Hx]]]; [..|by apply elem_of_nil in Hx];
    cbn [verdict_of is_reset Z.eqb P_CONTROL_V1 P_ACK_V1 P_CONTROL_WKC_V1 P_CONTROL_HARD_RESET_CLIENT_V3 Pos.eqb] in *;
    rewrite Some_bind; cbn [negb]; rewrite set_limiter_same;
    change (uc_session_id_hmac m') with (uc_session_id_hmac m); change (uc_handshake_window m') with (uc_handshake_window m); rewrite Hchk; by rewrite Some_bind.
Qed.

(** ** Instances *)

Context `{TL : TlsLib} `{PRF : PrfLib}.

(** C11: A server keeps nothing for a client that has not shown a cookie.  Whatever packet
    comes from an address that has no instance, and whatever would be made for it:
    [do_pre_decrypt_check] fails no assertion.  Either nothing has changed but the counter of
    the limit and - within the limit - the answer to that address, or the packet shows the
    cookie of one of the last three time slots for its address and session id, or comes from
    a client without early negotiation where those are not forced to show cookies. *)
Theorem server_stateless now m junk real bucket hv from buf created h c t :
  server_ok (un_context m) -> is_u32 now -> buf_rep buf h c t -> zlen junk = b_capacity buf -> bytes junk -> un_shutting_down m = false ->
  exists go uc st, do_pre_decrypt_check sockaddr_image now (un_context m) pds_zero junk from buf = Some (go, uc, st) /\
    if go
    then (old_client (un_context m) c \/
          cookie_shown now (uc_session_id_hmac (un_context m)) (uc_handshake_window (un_context m)) from st) /\
         pds_peer_session_id st = slice 1 8 c /\
         new_instance sockaddr_image now m junk real bucket hv from buf created =
           let '(allowed, f) := frequency_limit_event_allowed now (un_new_connection_limiter m) in
           let m := set_un_limiter (set_un_context m uc) f in
           if allowed
           then add_instance now (set_un_context m (set_limiter uc (reflect_filter_rate_limit_decrease (uc_initial_rate_limiter uc))))
                  st real bucket hv from created
           else Some (None, m)
    else unmoved now (un_context m) uc from c /\
         new_instance sockaddr_image now m junk real bucket hv from buf created = Some (None, set_un_context m uc).
Proof.
  intros Hok Hnow Hb Hj Hjb Hsd.
  destruct (pre_decrypt_ok now (un_context m) pds_zero junk from buf h c t Hok Hnow Hb Hj Hjb) as (go & uc & st & E & Hgo).
  exists go, uc, st. split; [done|]. unfold new_instance. rewrite Hsd, E. cbn [mbind option_bind].
  destruct go; cbn [negb]; [|done]. destruct Hgo as (Hc & Hp & _). split; [done|]. split; [done|].
  change (un_new_connection_limiter (set_un_context m uc)) with (un_new_connection_limiter m).
  destruct (frequency_limit_event_allowed now (un_new_connection_limiter m)) as [[] f]; cbn [negb]; done.
Qed.

(** C17: Cookies last for the hand window, and not much longer.  The cookie that a client got
    at a time is accepted, from its address and with its session id, at every later time up to
    the end of the hand window; three half windows later it is accepted only if the MACs of
    two different times agree in their first eight bytes. *)
Theorem cookie_window now0 now csid from hmac handwindow sid st :
  0 < handwindow -> 0 <= now0 <= now -> is_u32 now ->
  calculate_session_id_hmac sockaddr_image now0 csid from hmac handwindow 0 = Some sid ->
  pds_peer_session_id st = csid -> pds_server_session_id st = sid ->
  exists ok, check_slots sockaddr_image now st from hmac handwindow [-2; -1; 0] = Some ok /\
    (now <= now0 + handwindow -> ok = true) /\
    (now0 + 3 * quantum handwindow <= now -> ok = true ->
       exists time time' : list Z, time <> time' /\ length time = 4%nat /\ length time' = 4%nat /\
         let mac t := slice 0 SID_SIZE (hmac_sha256 hmac (t ++ address_image sockaddr_image from ++ csid)) in
         mac time = mac time' /\ mac time = sid).
Proof.
  intros Hhw Hn Hu Hc <- Hs. rewrite calculate_ok, Z.add_0_r in Hc by done. injection Hc as <-.
  rewrite check_slots_ok by done. eexists. split; [done|]. split.
  - intros Hle. destruct (slots_near _ now0 now Hhw ltac:(lia)) as (o & Ho & Hslot). apply existsb_exists. exists o.
    split; [by apply list_elem_of_In|]. apply bool_decide_eq_true. by rewrite Hs, Hslot.
  - intros Hge (o & Ho & Heq)%existsb_exists. apply bool_decide_eq_true in Heq. rewrite Hs in Heq.
    destruct (quantum_pos handwindow Hhw) as (Hq & _ & _). set (s0 := slot_of now0 handwindow) in *. set (s := slot_of now handwindow) in *.
    assert (Hss : 0 <= s0 /\ s0 + 3 <= s /\ s < 2 ^ 32).
    { unfold s0, s, slot_of. set (q := quantum handwindow) in *. pose proof (Z.div_le_mono (now0 + 3 * q) now q Hq Hge) as H3. rewrite Z.div_add in H3 by lia.
      pose proof (Z.div_pos now0 q ltac:(lia) Hq). pose proof (Z.div_le_upper_bound now q now Hq ltac:(nia)). unfold is_u32 in Hu. lia. }
    exists (be_bytes 4 (u32 (s + o))), (be_bytes 4 (u32 s0)). split_and!; try done.
    assert (Hoo : -2 <= o <= 0) by (cbn in Ho; lia).
    intros E. apply (f_equal be_val) in E. rewrite !be_val_be_bytes in E. change (256 ^ Z.of_nat 4) with (2 ^ 32) in E. unfold u32 in E.
    rewrite !Z.mod_mod in E by done. rewrite !Z.mod_small in E by lia. lia.
Qed.

(** A hand window of 0 seconds stops the server.  [--hand-window 0] passes the check of
    the option; the first reset that a client sends divides by zero. *)
Theorem zero_hand_window_aborts now m st junk from buf c csid msg :
  tas_ready (uc_tas m) -> uc_handshake_window m = 0 -> within_limit now m ->
  first_packet (uc_tas m) buf junk c csid P_CONTROL_HARD_RESET_CLIENT_V2 msg ->
  do_pre_decrypt_check sockaddr_image now m st junk from buf = None.
Proof.
  intros Htas Hhw Hlim Hp. destruct (lite_open now (uc_tas m) st junk buf c csid _ msg Htas Hp) as (nb & ctx' & ho & to & El & _ & _).
  unfold do_pre_decrypt_check. rewrite El, Some_bind. unfold within_limit in Hlim.
  destruct (reflect_filter_rate_limit_check now (uc_initial_rate_limiter m)) as [below irl]. cbn [fst] in Hlim. subst below.
  cbn [verdict_of is_reset Z.eqb P_CONTROL_V1 P_ACK_V1 P_CONTROL_WKC_V1 P_CONTROL_HARD_RESET_CLIENT_V3 P_CONTROL_HARD_RESET_CLIENT_V2 Pos.eqb].
  rewrite Some_bind. cbn [negb]. unfold answer_reset, calculate_session_id_hmac. change (uc_handshake_window (set_limiter m irl)) with (uc_handshake_window m).
  by rewrite Hhw.
Qed.

(** ** The limit on answers *)

(** What happens to the limiter: a reset arrives at a time, or a handshake is completed. *)
Inductive limiter_event := ResetAt (t : Z) | Completed.

Local Ltac irl_simpl := cbn [irl_max_per_period irl_period_length irl_curr_period_counter irl_last_period_reset] in *.

(** The resets that may be answered, and the handshakes that are completed. *)
Fixpoint limiter_run (l : list limiter_event) (irl : initial_packet_rate_limit) : Z * Z :=
  match l with
  | [] => (0, 0)
  | ResetAt t :: l =>
      let '(ok, irl) := reflect_filter_rate_limit_check t irl in
      let '(n, k) := limiter_run l irl in (if ok then n + 1 else n, k)
  | Completed :: l => let '(n, k) := limiter_run l (reflect_filter_rate_limit_decrease irl) in (n, k + 1)
  end.

Definition within (a b : Z) (l : list limiter_event) : Prop :=
  Forall (fun e => match e with ResetAt t => a <= t <= b | Completed => True end) l.

(** The period has begun within the interval: it does not end in it. *)
Lemma limiter_run_late l a irl n k :
  within a (a + irl_period_length irl) l -> a <= irl_last_period_reset irl -> 0 <= irl_curr_period_counter irl -> 0 <= irl_max_per_period irl ->
  limiter_run l irl = (n, k) -> 0 <= k /\ n <= Z.max 0 (irl_max_per_period irl - irl_curr_period_counter irl) + k.
Proof.
  revert irl n k. induction l as [|e l IH]; intros [mx per cnt last] n k Hw Hl Hc Hmx; cbn [limiter_run irl_max_per_period irl_period_length irl_curr_period_counter irl_last_period_reset] in *.
  { intros [= <- <-]. lia. }
  apply Forall_cons in Hw as [He Hw]. destruct e as [t|]; cbn in He.
  - unfold reflect_filter_rate_limit_check. cbn [irl_max_per_period irl_period_length irl_curr_period_counter irl_last_period_reset].
    destruct (last + per <? t) eqn:E; [lia|]. cbn [irl_max_per_period irl_period_length irl_curr_period_counter irl_last_period_reset].
    destruct (limiter_run l _) as [n' k'] eqn:Er. apply IH in Er; cbn [irl_max_per_period irl_period_length irl_curr_period_counter irl_last_period_reset] in *; try done; try lia.
    destruct (mx <? cnt + 1) eqn:E2; cbn [negb]; intros [= <- <-]; lia.
  - unfold reflect_filter_rate_limit_decrease. cbn [irl_max_per_period irl_period_length irl_curr_period_counter irl_last_period_reset].
    destruct (limiter_run l _) as [n' k'] eqn:Er. apply IH in Er; destruct (0 <? cnt) eqn:E; cbn [irl_max_per_period irl_period_length irl_curr_period_counter irl_last_period_reset] in *; try done; try lia; intros [= <- <-]; lia.
Qed.

Lemma limiter_run_bound l a irl n k :
  within a (a + irl_period_length irl) l -> 0 <= irl_curr_period_counter irl -> 0 <= irl_max_per_period irl ->
  limiter_run l irl = (n, k) ->
  0 <= k /\ n <= Z.max 0 (irl_max_per_period irl - irl_curr_period_counter irl) + irl_max_per_period irl + k.
Proof.
  revert irl n k. induction l as [|e l IH]; intros [mx per cnt last] n k Hw Hc Hmx; irl_simpl; cbn [limiter_run].
  { intros [= <- <-]. lia. }
  apply Forall_cons in Hw as [He Hw]. destruct e as [t|]; cbn in He.
  - unfold reflect_filter_rate_limit_check. irl_simpl. destruct (last + per <? t) eqn:E; irl_simpl.
    + destruct (limiter_run l _) as [n' k'] eqn:Er. apply (limiter_run_late l a) in Er; irl_simpl; try done; try lia.
      destruct (mx <? 0 + 1) eqn:E2; cbn [negb]; intros [= <- <-]; lia.
    + destruct (limiter_run l _) as [n' k'] eqn:Er. apply IH in Er; irl_simpl; try done; try lia.
      destruct (mx <? cnt + 1) eqn:E2; cbn [negb]; intros [= <- <-]; lia.
  - unfold reflect_filter_rate_limit_decrease. irl_simpl.
    destruct (limiter_run l _) as [n' k'] eqn:Er. apply IH in Er; destruct (0 <? cnt) eqn:E; irl_simpl; try done; try lia; intros [= <- <-]; lia.
Qed.

(** As long as the limit is not reached, the resets of a period are answered. *)
Lemma limiter_run_free l mx per cnt last :
  Forall (fun e => match e with ResetAt t => t <= last + per | Completed => True end) l -> 0 <= cnt -> cnt + zlen l <= mx ->
  exists k, limiter_run l (mk_irl mx per cnt last) = (zlen l - k, k).
Proof.
  revert cnt. induction l as [|e l IH]; intros cnt Hw Hc Hl; [by exists 0|].
  apply Forall_cons in Hw as [He Hw]. cbn [length limiter_run] in *. destruct e as [t|].
  - unfold reflect_filter_rate_limit_check. irl_simpl. destruct (last + per <? t) eqn:E; [lia|]. irl_simpl.
    destruct (IH (cnt + 1) Hw) as (k' & ->); [lia..|]. exists k'. destruct (mx <? cnt + 1) eqn:E2; [lia|]. cbn [negb]. f_equal. lia.
  - unfold reflect_filter_rate_limit_decrease. irl_simpl.
    assert (Hk : exists k', limiter_run l (if 0 <? cnt then mk_irl mx per (cnt - 1) last else mk_irl mx per cnt last) = (zlen l - k', k')).
    { destruct (0 <? cnt) eqn:E; apply IH; try done; lia. }
    destruct Hk as (k' & ->). exists (k' + 1). f_equal. lia.
Qed.

(** C18: The server cannot be used to flood others.  In any interval as long as a period, the
    resets that it answers are at most twice the limit, not counting as many as there are
    handshakes that are completed in it; and when a period begins, no reset is refused before
    the limit is reached. *)
Theorem answers_limited l a irl :
  0 <= irl_curr_period_counter irl -> 0 <= irl_max_per_period irl -> within a (a + irl_period_length irl) l ->
  (exists n k, limiter_run l irl = (n, k) /\ n <= 2 * irl_max_per_period irl + k) /\
  (forall t l', l = ResetAt t :: l' -> irl_last_period_reset irl + irl_period_length irl < t -> within t (t + irl_period_length irl) l' ->
     zlen l <= irl_max_per_period irl -> exists k, limiter_run l irl = (zlen l - k, k)).
Proof.
  intros Hc Hmx Hw. split.
  - destruct (limiter_run l irl) as [n k] eqn:E. exists n, k. split; [done|]. apply (limiter_run_bound l a) in E; try done. lia.
  - intros t l' -> Ht Hw' Hl. destruct irl as [mx per cnt last]. irl_simpl. cbn [length limiter_run] in *. unfold reflect_filter_rate_limit_check. irl_simpl.
    destruct (last + per <? t) eqn:E; [|lia]. irl_simpl. destruct (limiter_run_free l' mx per (0 + 1) t) as (k & ->); [|lia..|].
    { eapply Forall_impl; [exact Hw'|]. intros []; cbn; lia. }
    exists k. destruct (mx <? 0 + 1) eqn:E2; [lia|]. cbn [negb]. f_equal. lia.
Qed.
End first.
