(* ===== verification/TlsRun.v ===== *)
(** * A tunnel and what happens to it: [ssl.c], [forward.c], [multi.c], [push.c]

    The events by which the rest of the program and the network act on a
    [struct tls_multi]: packets that arrive, the timer, packets that leave, payload for the
    control channel, the answer of an authentication that took its time, and the end of the
    configuration of a connection ([CAS_CONNECT_DONE]).  A run is a sequence of events; it
    has no result when an assertion fails, and when memory that has been freed is read. *)
From S2P Require Import Prelude Integers Buffer Frame PacketId EpochKeys Reliable Control Mroute KeyMethod KeyExpansion TlsSession TlsLife TlsAuth TlsProcess TlsMulti TlsReceive.

Inductive tls_event :=
| EvProcess (w : world) (actual : openvpn_sockaddr)
| EvPacket (now : Z) (from : openvpn_sockaddr) (pkt : list Z) (floated : bool)
| EvSent
| EvState (s : multi_status)
| EvPayload (data : list Z)
| EvTakePayload
| EvSoftReset (now : Z)
| EvAuthenticate (mda_key_id : Z) (auth : bool)
| EvFloat (addr : openvpn_sockaddr).

(** What leaves: [Freed] stands for the bytes of a packet whose memory has been given back. *)
Inductive sent := Packet (p : out_packet) | Freed.

Section run.
Context `{CryptoLib} `{PrfLib} `{TlsLib} `{NameLib} `{TokenLib}.

Record tunnel := mk_tunnel { tn_multi : tls_multi; tn_link : to_link }.

Definition tunnel_init (opt : tls_options) (tls_mtu : Z) : option tunnel :=
  m ← tls_multi_init_finalize (tls_multi_init opt) tls_mtu;
  Some (mk_tunnel m LinkEmpty).

Definition with_multi (t : tunnel) (m : tls_multi) : tunnel := mk_tunnel m (tn_link t).

(** The buffer for incoming control channel messages. *)
Definition payload_buf : buffer := mk_buffer TLS_CHANNEL_BUF_SIZE 0 0 (Some (zeros TLS_CHANNEL_BUF_SIZE)).

(** [EvProcess] is the call in [check_tls], which starts with a wakeup of [BIG_TIMEOUT]. *)
Definition tunnel_step (t : tunnel) (ev : tls_event) : option (list sent * tunnel) :=
  let m := tn_multi t in
  match ev with
  | EvProcess w actual =>
      '(_, m, l, _) ← tls_multi_process w m (tn_link t) actual BIG_TIMEOUT;
      Some ([], mk_tunnel m l)
  | EvPacket now from pkt floated =>
      '(_, m) ← tls_pre_decrypt now m from (received pkt) floated;
      Some ([], with_multi t m)
  | EvSent =>
      Some (match tn_link t with LinkEmpty => [] | LinkPacket p => [Packet p] | LinkDangling => [Freed] end,
            mk_tunnel m LinkEmpty)
  | EvState s => Some ([], with_multi t (set_tm_multi_state m s))
  | EvPayload data => '(_, m) ← tls_send_payload m (TM_ACTIVE, KS_PRIMARY) data; Some ([], with_multi t m)
  | EvTakePayload => let '(_, _, m) := tls_rec_payload m payload_buf in Some ([], with_multi t m)
  | EvSoftReset now => m ← tls_session_soft_reset now m; Some ([], with_multi t m)
  | EvAuthenticate id auth => Some ([], with_multi t (tls_authenticate_key m id auth).2)
  | EvFloat addr => m ← tls_update_remote_addr m addr; Some ([], with_multi t m)
  end.

Fixpoint tunnel_run (t : tunnel) (evs : list tls_event) : option (list sent * tunnel) :=
  match evs with
  | [] => Some ([], t)
  | ev :: evs =>
      '(out, t) ← tunnel_step t ev;
      '(out', t) ← tunnel_run t evs;
      Some (out ++ out', t)
  end.
End run.
