(* ===== verification/TlsDemo.v ===== *)
(** * Two tunnels that talk to each other

    A concrete instance of every library: bytes instead of TLS records, a first record
    that stands for the handshake, a sum instead of a pseudo random function.  A client and
    a server run against each other; [pump] carries the packets. *)
From S2P Require Import Prelude Integers Buffer Frame PacketId EpochKeys Data Reliable Control Mroute KeyMethod KeyExpansion TlsSession TlsLife TlsAuth TlsProcess TlsMulti TlsReceive TlsRun.

Import Data.Demo.

Module TlsDemo.

(** What waits for the peer, what has come from it, and whether the certificate has been
    looked at. *)
Record toy_tls := mk_toy { toy_out : list Z; toy_in : list Z; toy_seen : bool }.

(** [n] bytes that depend on all bytes of [l]. *)
Definition mix (l : list Z) (n : Z) : list Z :=
  let s := foldl (fun a b => (a * 31 + b) mod 65521) 7 l in
  (fun i => (s + 37 * i + s * i / 7) mod 256) <$> seqZ 1 n.

Definition good_cert : cert_event := CertVerified [99; 110] [Some [1]; None].

#[export] Instance toy_tls_lib : TlsLib := {
  tls_object := toy_tls;
  key_state_ssl_init server := mk_toy [] [] false;
  key_state_write_ciphertext o l := (1, mk_toy (toy_out o) (toy_in o ++ l) (toy_seen o));
  key_state_read_ciphertext o n :=
    match toy_out o with
    | [] => (0, [], o)
    | out => if n <=? 0 then (0, [], o)
             else (1, u8 <$> take (Z.to_nat n) out, mk_toy (drop (Z.to_nat n) out) (toy_in o) (toy_seen o))
    end;
  key_state_write_plaintext o l := (1, mk_toy (toy_out o ++ l) (toy_in o) (toy_seen o), None);
  key_state_read_plaintext o n :=
    match toy_in o with
    | [] => (0, [], o, None)
    | l => if n <=? 0 then (0, [], o, None)
           else (1, u8 <$> take (Z.to_nat n) l, mk_toy (toy_out o) (drop (Z.to_nat n) l) true,
                 if toy_seen o then None else Some good_cert)
    end;
  key_state_ssl_shutdown o := o;
  key_state_export_keying_material o label n := if n <? 0 then None else Some (mix (literal label) n);
  cipher_kt_insecure name := false;
  session_id_random n := 1 :: be_bytes 7 (Z.of_nat n)
}.

#[export] Instance toy_prf : PrfLib := {
  ssl_tls1_PRF seed secret n := if n <? 0 then None else Some (mix (secret ++ seed) n)
}.

#[export] Instance toy_names : NameLib := { string_mod_remap_name s := s; string_mod_password s := s }.

#[export] Instance toy_tokens : TokenLib := {
  is_auth_token _ := false;
  verify_auth_token _ _ := 0;
  generate_auth_token _ _ := None
}.

Definition options (server export epoch : bool) : tls_options :=
  mk_tls_options server false false server false 3600 60 2 0 0 0 3600 64 15 Demo.kt frame_zero [86; 52] false false
    export epoch false false false false.

Definition rnd (x : Z) : key_source := mk_src (replicate 48 x) (replicate 32 (x + 1)) (replicate 32 (x + 2)).

Definition world_of (now x : Z) : world := mk_world now (rnd x) None None false None None None None (fun _ => true) None.

Definition client_addr : openvpn_sockaddr := SockIn4 [192; 0; 2; 1] (be_bytes 2 1194).
Definition server_addr : openvpn_sockaddr := SockIn4 [198; 51; 100; 1] (be_bytes 2 1194).

(** The client's first, then the server's. *)
Definition start (export epoch : bool) : option (tunnel * tunnel) :=
  c ← tunnel_init (options false export epoch) 1250;
  s ← tunnel_init (options true export epoch) 1250;
  Some (c, s).

Definition state_of (t : tunnel) : Z := tk_state (get_primary_key (tn_multi t)).

Definition bytes_of (out : list sent) : list (list Z) :=
  omap (fun x => match x with Packet p => Some (op_bytes p) | Freed => None end) out.

(** [n] times: an end is served, its packet leaves and arrives. *)
Definition serve (now x : Z) (own peer : openvpn_sockaddr) (t : tunnel) : option (list sent * tunnel) :=
  tunnel_run t [EvProcess (world_of now x) peer; EvSent].

Definition arrive (now : Z) (from : openvpn_sockaddr) (pkts : list (list Z)) (t : tunnel) : option tunnel :=
  '(_, t) ← tunnel_run t ((fun p => EvPacket now from p false) <$> pkts); Some t.

Fixpoint pump (n : nat) (now : Z) (c s : tunnel) : option (tunnel * tunnel) :=
  match n with
  | O => Some (c, s)
  | S n =>
      '(out, c) ← serve now 10 client_addr server_addr c;
      s ← arrive now client_addr (bytes_of out) s;
      '(out, s) ← serve now 20 server_addr (SockOther) s;
      c ← arrive now server_addr (bytes_of out) c;
      pump n (now + 0) c s
  end.
(** ** Scenarios *)

Definition step (t : tunnel) (ev : tls_event) : option tunnel := snd <$> tunnel_step t ev.

(** A client and a server whose data channel is open. *)
Definition connected (export epoch : bool) : option (tunnel * tunnel) :=
  '(c, s) ← start export epoch;
  '(c, s) ← pump 6 100 c s;
  c ← step c (EvState CAS_CONNECT_DONE);
  s ← step s (EvState CAS_CONNECT_DONE);
  pump 1 101 c s.

(** The client is started anew, at another address, while the server still has its session. *)
Definition new_addr : openvpn_sockaddr := SockIn4 [203; 0; 113; 5] (be_bytes 2 5000).

Definition again : option tunnel :=
  m ← tls_multi_init_finalize (set_tm_drawn (tls_multi_init (options false false false)) 10) 1250;
  Some (mk_tunnel m LinkEmpty).

(** A packet of [t], if it has one, to [peer]. *)
Definition to_server_from (now : Z) (from : openvpn_sockaddr) (x : Z) (c s : tunnel) : option (tunnel * tunnel) :=
  '(out, c) ← serve now x from server_addr c;
  s ← arrive now from (bytes_of out) s;
  Some (c, s).

Definition to_client (now : Z) (c s : tunnel) : option (tunnel * tunnel) :=
  '(out, s) ← serve now 20 server_addr SockOther s;
  c ← arrive now server_addr (bytes_of out) c;
  Some (c, s).

(** The new client has come so far that its key message is the next that it sends; then the
    old client sends a message, so that the server owes it an acknowledgement, and the key
    message of the new one arrives with it.  What the server sends next: *)
Definition race : option (list sent) :=
  '(c, s) ← connected false false;
  c2 ← again;
  '(c2, s) ← to_server_from 200 new_addr 30 c2 s;
  '(c2, s) ← to_client 200 c2 s;
  '(c2, s) ← to_server_from 200 new_addr 30 c2 s;
  c ← step c (EvPayload [72; 105; 0]);
  '(c2, s) ← to_server_from 200 new_addr 30 c2 s;
  '(c, s) ← to_server_from 200 client_addr 10 c s;
  '(out, _) ← tunnel_run s [EvProcess (world_of 200 20) SockOther; EvSent];
  Some out.
(** A peer of a server without [tls-crypt-v2] that sets [EARLY_NEG_FLAG_RESEND_WKC], or not,
    in its hard reset, acknowledges the answer, and sends three bytes. *)
Definition peer_sid : list Z := [9; 9; 9; 9; 9; 9; 9; 9].

Definition hard_reset (flags : Z) : list Z :=
  [Z.shiftl P_CONTROL_HARD_RESET_CLIENT_V2 P_OPCODE_SHIFT] ++ peer_sid ++ [0] ++ be_bytes 4 0
  ++ be_bytes 2 TLV_TYPE_EARLY_NEG_FLAGS ++ be_bytes 2 2 ++ be_bytes 2 flags.

Definition first_data : list Z :=
  [Z.shiftl P_CONTROL_V1 P_OPCODE_SHIFT] ++ peer_sid ++ [1] ++ be_bytes 4 0 ++ (1 :: be_bytes 7 1) ++ be_bytes 4 1 ++ [1; 2; 3].

Definition two_packets (flags : Z) : option (list sent) :=
  s ← tunnel_init (options true false false) 1250;
  let serve := EvProcess (world_of 100 20) SockOther in
  fst <$> tunnel_run s [EvPacket 100 client_addr (hard_reset flags) false; serve; EvSent; serve;
                        EvPacket 100 client_addr first_data false; serve].
End TlsDemo.

(** A peer ends a server with two packets.  [parse_early_negotiation_tlvs] accepts the
    request to send the wrapped client key again from anyone, also on a server that does not
    use [tls-crypt-v2] and has no such key; the next control packet dereferences [NULL].
    Without the flag the same two packets are handled. *)
Theorem server_without_key_aborts :
  TlsDemo.two_packets EARLY_NEG_FLAG_RESEND_WKC = None /\ is_Some (TlsDemo.two_packets 0).
Proof. split; [vm_compute; reflexivity|vm_compute; by eexists]. Qed.

(** A packet is sent from memory that has been given back.  When a new session takes the
    place of the active one, [check_session_buf_not_used] takes back a waiting packet that
    lies in a send window of the old session, but not one that lies in its [ack_write_buf]:
    an acknowledgement that the server owes the old session, and that waits when the key
    message of the new one has been read, is read after its key has been freed. *)
Theorem freed_acknowledgement_sent : TlsDemo.race = Some [Freed].
Proof. vm_compute. reflexivity. Qed.
