(* ===== verification/TlsInv.v ===== *)
(** * What holds of a tunnel between any two events

    The invariant of the three sessions and their keys, for any TLS library and any peer:
    which parts a key has, that its windows and buffers are well formed, that its data
    channel keys exist exactly from [S_GENERATED_KEYS] on, that the ids of the keys of a
    session follow each other.  Most of what authentication changes is not looked at:
    [multi_core] is the rest. *)
From S2P Require Import Prelude Integers Buffer Frame PacketId EpochKeys EpochDerive Reliable AckList Windows SendWindow RecvWindow Control ControlNet ControlOne ControlAny Mroute KeyMethod KeyExpansion Handshake TlsSession TlsLife TlsAuth TlsProcess TlsMulti TlsReceive TlsRun.

(** What the TLS library promises: it fills at most the buffer that it is given, an object
    that has read something has read at least one byte, exported keys have the length that
    was asked for, and of 64 random session ids one is not zero. *)
Class TlsLaws `{TlsLib} := {
  tl_ciphertext o n st out o' :
    key_state_read_ciphertext o n = (st, out, o') -> st = 1 -> bytes out /\ zlen out <= n;
  tl_plaintext o n st out o' ev :
    key_state_read_plaintext o n = (st, out, o', ev) -> st = 1 -> bytes out /\ 0 < zlen out <= n;
  tl_export o l n out : key_state_export_keying_material o l n = Some out -> zlen out = n;
  tl_sid n : zlen (session_id_random n) = SID_SIZE /\ bytes (session_id_random n);
  tl_sid_defined n : exists k, (k < SID_DRAWS)%nat /\ session_id_defined (session_id_random (n + k)) = true
}.

Definition known_addr (addr : openvpn_sockaddr) : Prop := addr <> SockOther.

(** ** Configuration and events *)

(** What one event may bring. *)
Record world_ok (w : world) : Prop := {
  wo_now : 0 < w_now w;
  wo_source : source_ok (w_key_source w);
  wo_user_pass : forall u p, w_user_pass w = Some (u, p) -> is_c_string u /\ is_c_string p;
  wo_peer_info : forall s, w_peer_info w = Some s -> is_c_string s
}.

Section inv.
Context `{CL : CryptoLib} `{TL : TlsLib}.

Record opts_ok (o : tls_options) : Prop := {
  oo_frame : exists f tls_mtu, TLS_CHANNEL_MTU_MIN <= tls_mtu <= TLS_CHANNEL_BUF_SIZE /\
    to_frame o = tls_init_control_channel_frame_parameters f tls_mtu;
  oo_type : key_type_ok (to_epoch_format o) (to_key_type o);
  oo_local : is_c_string (to_local_options o);
  oo_window : 0 <= to_transition_window o;
  oo_replay : 0 <= to_replay_window o /\ forall name unit_, is_Some (packet_id_init (to_replay_window o) (to_replay_time o) name unit_)
}.

(** ** Keys *)

Definition text_buf (b : buffer) : Prop := exists h c t, buf_rep b h c t /\ h + zlen c + t = TLS_CHANNEL_BUF_SIZE.

(** The peer's part: its id, and an address as soon as there is one; what is owed to it. *)
Record peer_ok (k : tls_key) (rel : key_state) : Prop := {
  po_sid : zlen (tk_session_id_remote k) = SID_SIZE /\ bytes (tk_session_id_remote k);
  po_addr : session_id_defined (tk_session_id_remote k) = true -> known_addr (tk_remote_addr k);
  po_acks : session_id_defined (tk_session_id_remote k) = true \/ (ks_rec_ack rel = [] /\ ks_lru_acks rel = [])
}.

(** [q]: while an event is handled. *)
Definition rel_ok (q : bool) (f : frame) (rel : key_state) : Prop := rel_inv f rel /\ (q = true -> rel_quiet rel).

Record key_live (q : bool) (f : frame) (k : tls_key) : Prop := {
  kl_ssl : is_Some (tk_ks_ssl k);
  kl_rel : exists rel, tk_rel k = Some rel /\ rel_ok q f rel /\ peer_ok k rel;
  kl_read : text_buf (tk_plaintext_read_buf k);
  kl_write : text_buf (tk_plaintext_write_buf k);
  kl_id : 0 <= tk_key_id k <= P_KEY_ID_MASK;
  kl_src : source_ok (src_client (tk_key_src k)) /\ source_ok (src_server (tk_key_src k));
  kl_fresh : S_INITIAL <= tk_state k <= S_ACTIVE -> fresh_options (tk_crypto k);
  kl_keys : S_GENERATED_KEYS <= tk_state k -> co_initialized (tk_crypto k) = true;
  kl_opcode : P_FIRST_OPCODE <= tk_initial_opcode k <= P_LAST_OPCODE /\ tk_initial_opcode k <> P_ACK_V1
}.

Definition key_inv (q : bool) (f : frame) (k : tls_key) : Prop := tk_state k <> S_UNDEF -> key_live q f k.

(** ** Sessions *)

Record session_inv (q : bool) (f : frame) (s : tls_session) : Prop := {
  sn_sid : zlen (ts_session_id s) = SID_SIZE /\ bytes (ts_session_id s);
  sn_defined : tk_state (ts_primary s) <> S_UNDEF -> session_id_defined (ts_session_id s) = true;
  sn_primary : key_inv q f (ts_primary s);
  sn_lame : key_inv false f (ts_lame s);
  sn_die : tk_state (ts_lame s) <> S_UNDEF -> tk_must_die (ts_lame s) <> 0;
  sn_next : tk_state (ts_primary s) <> S_UNDEF -> ts_key_id s = next_key_id (tk_key_id (ts_primary s));
  sn_ids : tk_state (ts_lame s) <> S_UNDEF -> tk_key_id (ts_primary s) = next_key_id (tk_key_id (ts_lame s));
  sn_pair : tk_state (ts_lame s) <> S_UNDEF -> tk_state (ts_primary s) <> S_UNDEF;
  sn_opcode : tk_state (ts_primary s) <> S_UNDEF -> ts_initial_opcode s = P_CONTROL_SOFT_RESET_V1
}.

Definition multi_inv (q : bool) (m : tls_multi) : Prop :=
  opts_ok (tm_opt m) /\ forall i, session_inv q (to_frame (tm_opt m)) (get_session m i).

(** Neither [S_UNDEF] nor [S_ERROR]. *)
Definition running (st : Z) : Prop := st <> S_UNDEF /\ st <> S_ERROR.

(** Between two events. *)
Definition settled (m : tls_multi) : Prop :=
  running (tk_state (primary m TM_ACTIVE)) /\ running (tk_state (primary m TM_INITIAL)).

(** ** What authentication leaves alone *)

Definition key_core (k : tls_key) :=
  (tk_state k, tk_key_id k, tk_ks_ssl k, tk_must_die k, tk_initial_opcode k, tk_session_id_remote k, tk_remote_addr k,
   tk_crypto k, tk_key_src k, tk_plaintext_read_buf k, tk_plaintext_write_buf k, tk_rel k, tk_must_negotiate k).

Definition session_core (s : tls_session) :=
  (ts_initial_opcode s, ts_session_id s, ts_key_id s, key_core (ts_primary s), key_core (ts_lame s)).

Definition multi_core (m : tls_multi) :=
  (tm_opt m, session_core (tm_active m), session_core (tm_initial m), session_core (tm_lame_duck m)).

(** The part of a key that [key_live] looks at. *)
Definition key_parts (k : tls_key) :=
  (tk_state k, tk_key_id k, tk_ks_ssl k, tk_initial_opcode k, tk_session_id_remote k, tk_remote_addr k,
   tk_crypto k, tk_key_src k, tk_plaintext_read_buf k, tk_plaintext_write_buf k, tk_rel k).

Lemma key_live_parts q f k k' : key_parts k = key_parts k' -> key_live q f k -> key_live q f k'.
Proof.
  unfold key_parts. intros E [H1 (rel & H2 & H2' & [H2a H2b H2c]) H3 H4 H5 H6 H7 H8 H9].
  injection E as E1 E2 E3 E5 E6 E7 E8 E9 E10 E11 E12.
  split; rewrite <- ?E1, <- ?E2, <- ?E3, <- ?E5, <- ?E8, <- ?E9, <- ?E10, <- ?E11, <- ?E12; try done.
  exists rel. split; [done|]. split; [done|]. split; by rewrite <- ?E6, <- ?E7.
Qed.

Lemma key_live_core q f k k' : key_core k = key_core k' -> key_live q f k -> key_live q f k'.
Proof. intros E. apply key_live_parts. unfold key_core, key_parts in *. congruence. Qed.

Lemma session_inv_core q f s s' : session_core s = session_core s' -> session_inv q f s -> session_inv q f s'.
Proof.
  intros E [H1 H2 H3 H4 H5 H6 H7 H8 H9]. unfold session_core in E. injection E as E0 E1 E2
    P1 P2 P3 P4 P5 P6 P7 P8 P9 P10 P11 P12 P13 L1 L2 L3 L4 L5 L6 L7 L8 L9 L10 L11 L12 L13.
  split; rewrite <- ?P1, <- ?L1, <- ?L4, <- ?P2, <- ?L2, <- ?E0, <- ?E1, <- ?E2; try done.
  - intros Hn. eapply key_live_core; [|apply H3; congruence]. unfold key_core. congruence.
  - intros Hn. eapply key_live_core; [|apply H4; congruence]. unfold key_core. congruence.
Qed.

Lemma multi_inv_core q m m' : multi_core m = multi_core m' -> multi_inv q m -> multi_inv q m'.
Proof.
  intros E [Ho Hs]. assert (tm_opt m = tm_opt m') as Eo by (unfold multi_core in E; congruence).
  split; [by rewrite <- Eo|]. intros i. rewrite <- Eo. eapply session_inv_core; [|apply (Hs i)].
  unfold multi_core in E. destruct i; cbn; congruence.
Qed.

(** ** Replacing a session or a key *)

Lemma get_set_session m i s j : get_session (set_session m i s) j = if decide (i = j) then s else get_session m j.
Proof. by destruct i, j. Qed.

Lemma get_set_eq m i s : get_session (set_session m i s) i = s.
Proof. by destruct i. Qed.

Lemma opt_set_session m i s : tm_opt (set_session m i s) = tm_opt m.
Proof. by destruct i. Qed.

Lemma primary_set m i k : primary (set_primary m i k) i = k.
Proof. by destruct i. Qed.

Lemma set_set_primary m i k k' : set_primary (set_primary m i k) i k' = set_primary m i k'.
Proof. by destruct i. Qed.

Lemma inv_set_session q m i s :
  multi_inv q m -> session_inv q (to_frame (tm_opt m)) s -> multi_inv q (set_session m i s).
Proof.
  intros [Ho Hs] Hn. split; [by rewrite opt_set_session|]. intros j. rewrite opt_set_session, get_set_session.
  by case_decide.
Qed.

Lemma inv_set_primary q m i k :
  multi_inv q m -> tk_state (primary m i) <> S_UNDEF -> tk_state k <> S_UNDEF ->
  key_live q (to_frame (tm_opt m)) k -> tk_key_id k = tk_key_id (primary m i) -> multi_inv q (set_primary m i k).
Proof.
  intros Hi Hu Hk Hl Hid. apply inv_set_session; [done|]. destruct (proj2 Hi i) as [H1 H2 H3 H4 H5 H6 H7 H8 H9].
  unfold primary in *. split; cbn [set_ts_primary ts_session_id ts_primary ts_lame ts_key_id ts_initial_opcode]; auto.
  - intros _. by apply Hl.
  - intros _. rewrite Hid. auto.
  - intros Hn. rewrite Hid. auto.
Qed.

Lemma inv_primary q m i :
  multi_inv q m -> tk_state (primary m i) <> S_UNDEF -> key_live q (to_frame (tm_opt m)) (primary m i).
Proof. intros [_ Hs] Hu. by apply (sn_primary _ _ _ (Hs i)). Qed.

(** The session of a running key, as the control channel sees it. *)
Lemma ctl_local q m i :
  multi_inv q m -> tk_state (primary m i) <> S_UNDEF -> local_ok (ctl m i).
Proof.
  intros Hi Hu. pose proof (inv_primary _ _ _ Hi Hu) as Hl. destruct Hi as [Ho Hs].
  destruct (sn_sid _ _ _ (Hs i)) as [H1 H2]. destruct (kl_rel _ _ _ Hl) as (rel & _ & _ & [[H3 H4] _ _]).
  split; [split; cbn; try done|done|done].
  - by apply (sn_defined _ _ _ (Hs i)).
  - apply (kl_id _ _ _ Hl).
  - apply (oo_frame _ Ho).
Qed.

Lemma ctl_frame m i : ss_frame (ctl m i) = to_frame (tm_opt m).
Proof. done. Qed.

(** ** New keys and sessions *)

Lemma next_key_id_range k : 0 <= k <= P_KEY_ID_MASK -> 1 <= next_key_id k <= P_KEY_ID_MASK /\ next_key_id k <> k.
Proof.
  intros Hk. unfold next_key_id, P_KEY_ID_MASK in *. change 7 with (Z.ones 3) in *. rewrite Z.land_ones by lia.
  change (2 ^ 3) with 8. change (Z.ones 3) with 7 in *. destruct (Z.eqb_spec ((k + 1) mod 8) 0); lia_mod.
Qed.

Lemma zero_source : source_ok key_source_zero.
Proof. split; [done..|]. split_and!; apply bytes_dec; vm_compute; reflexivity. Qed.

Lemma text_alloc : exists b, alloc_buf TLS_CHANNEL_BUF_SIZE = Some b /\ text_buf b.
Proof.
  destruct (alloc_some TLS_CHANNEL_BUF_SIZE) as (b & E & Hb); [done|]. exists b. split; [done|].
  exists 0, [], TLS_CHANNEL_BUF_SIZE. done.
Qed.

(** What [new_key_state] is given. *)
Record key_request (o : tls_options) (s : tls_session) : Prop := {
  kr_opts : opts_ok o;
  kr_sid : zlen (ts_session_id s) = SID_SIZE /\ bytes (ts_session_id s);
  kr_defined : session_id_defined (ts_session_id s) = true;
  kr_id : 0 <= ts_key_id s <= P_KEY_ID_MASK;
  kr_opcode : P_FIRST_OPCODE <= ts_initial_opcode s <= P_LAST_OPCODE /\ ts_initial_opcode s <> P_ACK_V1
}.

(** A key that has just been made. *)
Record key_fresh (k : tls_key) : Prop := {
  kf_state : tk_state k = S_INITIAL;
  kf_calm : exists rel, tk_rel k = Some rel /\ calm rel = true /\ ks_rec_ack rel = [] /\ ks_lru_acks rel = []
}.

Lemma new_key_ok m s :
  key_request (tm_opt m) s ->
  exists s', new_key_state m s = Some (set_tm_mda_key_id_counter m (u32 (tm_mda_key_id_counter m + 1)), s') /\
    key_live true (to_frame (tm_opt m)) (ts_primary s') /\ key_fresh (ts_primary s') /\
    tk_key_id (ts_primary s') = ts_key_id s /\ ts_key_id s' = next_key_id (ts_key_id s) /\
    ts_lame s' = ts_lame s /\ ts_session_id s' = ts_session_id s /\ ts_initial_opcode s' = P_CONTROL_SOFT_RESET_V1.
Proof.
  intros [Ho [H1 H2] H3 H4 H5]. unfold new_key_state.
  set (k := mk_tls_key S_INITIAL 0 (ts_key_id s) _ 0 0 0 0 0 _ x_session_id_zero SockOther crypto_options_zero _ _ _ _ _ _ _ _ _ _ _ _ _).
  destruct text_alloc as (b & -> & Hb). rewrite !Some_bind.
  assert (Hlo : local_ok (ctl_session (tm_opt m) s k)).
  { split; [|done|by apply bytes_dec; vm_compute]. split; cbn; try done. apply (oo_frame _ Ho). }
  destruct (init_any _ Hlo (to_packet_timeout (tm_opt m)) (to_xmit_hold (tm_opt m))) as (rel & -> & Hr & Hc & Ha & Hl).
  rewrite Some_bind. destruct (oo_replay _ Ho) as [Hrw Hrp]. destruct (Hrp "SSL" (ts_key_id s)) as [pid Hpid].
  rewrite Hpid, Some_bind. eexists. split; [done|]. cbn. split; [|split; [|done]].
  - split; cbn; try done.
    + exists rel. split; [done|]. split; [split; [done|intros _; by eapply calm_quiet]|].
      split; [split; [done|by apply bytes_dec; vm_compute]|done|by right].
    + split; apply zero_source.
    + split; [done|]. by do 4 eexists.
  - split; [done|]. by exists rel.
Qed.

Lemma draw_ok fuel n :
  (exists k, (k < fuel)%nat /\ session_id_defined (session_id_random (n + k)) = true) ->
  exists id n', draw_session_id fuel n = Some (id, n') /\ session_id_defined id = true /\ exists j, id = session_id_random j.
Proof.
  revert n. induction fuel as [|fuel IH]; intros n (k & Hk & Hd); [lia|]. cbn [draw_session_id].
  destruct (session_id_defined (session_id_random n)) eqn:E; [by eauto 6|].
  destruct k as [|k]; [rewrite Nat.add_0_r in Hd; congruence|]. apply IH. exists k.
  split; [lia|]. by rewrite Nat.add_succ_l, <- Nat.add_succ_r.
Qed.

Lemma zero_key_inv q f : key_inv q f tls_key_zero.
Proof. done. Qed.

Lemma session_zero_inv q f : session_inv q f tls_session_zero.
Proof. split; try done. split; [done|by apply bytes_dec; vm_compute]. Qed.

(** A session that has just been made. *)
Lemma session_init_ok `{!TlsLaws} m :
  opts_ok (tm_opt m) ->
  exists m' s, tls_session_init m = Some (m', s) /\ multi_core m' = multi_core m /\
    session_inv true (to_frame (tm_opt m)) s /\ key_fresh (ts_primary s).
Proof.
  intros Ho. unfold tls_session_init. destruct (draw_ok SID_DRAWS (tm_drawn m) (tl_sid_defined _)) as (id & n' & -> & Hd & j & Hj).
  rewrite Some_bind. set (opcode := if to_server (tm_opt m) then _ else _).
  destruct (new_key_ok (set_tm_drawn m n') (set_ts_initial_opcode (set_ts_session_id tls_session_zero id) opcode))
    as (s' & -> & Hl & Hf & Hid & Hn & Hlm & Hs & Hop).
  { destruct (tl_sid j) as [Hj1 Hj2]. rewrite <- Hj in Hj1, Hj2. split; cbn; try done.
    unfold opcode. destruct (to_server _); [|destruct (to_tls_crypt_v2 _)]; done. }
  do 2 eexists. split; [done|]. split; [done|]. split; [|done]. cbn in Hs, Hn, Hid.
  destruct (tl_sid j) as [Hj1 Hj2]. rewrite <- Hj in Hj1, Hj2. cbn in Hl.
  split; rewrite ?Hs, ?Hlm, ?Hn, ?Hid, ?Hop; try done. by intros _.
Qed.

Lemma opt_core m m' : multi_core m = multi_core m' -> tm_opt m = tm_opt m'.
Proof. unfold multi_core. congruence. Qed.

(** ** Moving and resetting sessions *)

Lemma session_lift q f s : session_inv true f s -> session_inv q f s.
Proof.
  intros [H1 H2 H3 H4 H5 H6 H7 H8 H9]. split; try done. intros Hu. destruct (H3 Hu) as [K1 (rel & K2 & [K3 K3'] & K4)]. split; try done.
  exists rel. split; [done|]. split; [|done]. split; [done|]. intros _. by apply K3'.
Qed.

Lemma reset_session_ok `{!TlsLaws} q m i :
  multi_inv q m ->
  exists m', reset_session m i = Some m' /\ multi_inv q m' /\ tm_opt m' = tm_opt m /\
    key_fresh (primary m' i) /\ forall j, j <> i -> session_core (get_session m' j) = session_core (get_session m j).
Proof.
  intros [Ho Hs]. unfold reset_session.
  set (m1 := set_session m i (tls_session_free (get_session m i) false)).
  destruct (session_init_ok m1) as (m2 & s & -> & Hc & Hn & Hf); [unfold m1; by rewrite opt_set_session|].
  assert (Eo : tm_opt m2 = tm_opt m) by (rewrite (opt_core _ _ Hc); unfold m1; by rewrite opt_set_session).
  rewrite Some_bind. eexists. split; [done|].
  assert (Eo1 : tm_opt m1 = tm_opt m) by (unfold m1; by rewrite opt_set_session).
  rewrite Eo1 in Hn. unfold m1, multi_core in Hc.
  assert (Hoth : forall j, j <> i -> session_core (get_session (set_session m2 i s) j) = session_core (get_session m j)).
  { intros j Hj. rewrite get_set_session, decide_False by done. destruct i, j; cbn in *; congruence. }
  split; [|split; [by rewrite opt_set_session|split; [unfold primary; by rewrite get_set_eq|done]]].
  split; [by rewrite opt_set_session, Eo|]. intros j. rewrite opt_set_session, Eo. destruct (decide (j = i)) as [->|Hj].
  - rewrite get_set_eq. by apply session_lift.
  - eapply session_inv_core; [symmetry; by apply Hoth|apply Hs].
Qed.

Lemma move_session_ok `{!TlsLaws} q m dest src :
  multi_inv q m -> dest <> src ->
  exists m', move_session m dest src true = Some m' /\ multi_inv q m' /\ tm_opt m' = tm_opt m /\
    session_core (get_session m' dest) = session_core (get_session m src) /\ key_fresh (primary m' src) /\
    forall j, j <> dest -> j <> src -> session_core (get_session m' j) = session_core (get_session m j).
Proof.
  intros [Ho Hs] Hne. unfold move_session. rewrite bool_decide_eq_false_2 by congruence. cbn [negb ASSERT]. rewrite Some_bind.
  set (m0 := set_session m dest _). set (m1 := set_session m0 dest (get_session m0 src)).
  assert (Eo1 : tm_opt m1 = tm_opt m) by (unfold m1, m0; by rewrite !opt_set_session).
  assert (E1 : forall j, get_session m1 j = if decide (dest = j) then get_session m src else get_session m j).
  { intros j. unfold m1, m0. rewrite !get_set_session. repeat case_decide; congruence. }
  clearbody m1. clear m0.
  destruct (session_init_ok m1) as (m2 & s & -> & Hc & Hn & Hf); [by rewrite Eo1|].
  assert (Eo : tm_opt m2 = tm_opt m) by (rewrite (opt_core _ _ Hc); done).
  rewrite Some_bind. eexists. split; [done|]. rewrite Eo1 in Hn.
  assert (Hget : forall j, j <> src -> session_core (get_session (set_session m2 src s) j) = session_core (get_session m1 j)).
  { intros j Hj. rewrite get_set_session, decide_False by done. unfold multi_core in Hc. destruct j; cbn in *; congruence. }
  split; [|split; [by rewrite opt_set_session|split; [|split; [unfold primary; by rewrite get_set_eq|]]]].
  - split; [by rewrite opt_set_session, Eo|]. intros j. rewrite opt_set_session, Eo. destruct (decide (j = src)) as [->|Hj].
    + rewrite get_set_eq. by apply session_lift.
    + eapply session_inv_core; [symmetry; by apply Hget|]. rewrite E1. case_decide; apply Hs.
  - rewrite Hget by done. by rewrite E1, decide_True.
  - intros j Hj1 Hj2. rewrite Hget by done. by rewrite E1, decide_False.
Qed.

Lemma key_lower q f k : key_live q f k -> key_live false f k.
Proof. intros [K1 (rel & K2 & [K3 _] & K4)]. split; try done. by exists rel. Qed.

Lemma key_raise q f k : key_live true f k -> key_live q f k.
Proof. intros [K1 (rel & K2 & [K3 K3'] & K4)]. split; try done. exists rel. split; [done|]. split; [|done]. split; [done|]. intros _. by apply K3'. Qed.

Lemma soft_reset_ok q m i now :
  multi_inv q m -> tk_state (primary m i) <> S_UNDEF -> 0 < now ->
  exists m', key_state_soft_reset now m i = Some m' /\ multi_inv q m' /\ tm_opt m' = tm_opt m /\ key_fresh (primary m' i) /\
    tk_session_id_remote (primary m' i) = tk_session_id_remote (primary m i) /\
    tk_remote_addr (primary m' i) = tk_remote_addr (primary m i) /\
    forall j, j <> i -> session_core (get_session m' j) = session_core (get_session m j).
Proof.
  intros Hi Hu Hnow. pose proof (inv_primary _ _ _ Hi Hu) as Hl. destruct Hi as [Ho Hs]. pose proof (Hs i) as [H1 H2 H3 H4 H5 H6 H7 H8 H9].
  unfold key_state_soft_reset. set (s := get_session m i) in *. set (lame := set_tk_must_die _ _).
  assert (Hlame : key_live false (to_frame (tm_opt m)) lame).
  { apply key_lower in Hl. destruct Hl as [K1 (rel & K2 & K3 & [K4 K5 K6])]. split; try done.
    exists rel. split; [done|]. split; [done|]. by split. }
  set (s0 := set_ts_lame (set_ts_lame s _) lame).
  destruct (new_key_ok m s0) as (s' & -> & Hl' & Hf & Hid & Hn & Hlm & Hsid & Hop).
  { split; cbn; try done; [by apply H2| |].
    - rewrite H6 by done. pose proof (next_key_id_range _ (kl_id _ _ _ Hl)) as Hr. unfold primary in Hr. fold s in Hr. lia.
    - by rewrite H9. }
  rewrite Some_bind. eexists. split; [done|]. cbn in Hid, Hn, Hlm, Hsid.
  set (k1 := set_tk_remote_addr _ _).
  assert (Hk1 : key_live true (to_frame (tm_opt m)) k1).
  { destruct Hl' as [K1 (rel & K2 & K3 & [K4 K5 K6])]. split; try done. destruct Hf as [_ (rel' & F1 & F2 & F3)].
    rewrite K2 in F1. injection F1 as <-. exists rel. split; [done|]. split; [done|].
    destruct (kl_rel _ _ _ Hl) as (rl & _ & _ & [P1 P2 P3]). split; [done|done|by right]. }
  assert (Hu1 : tk_state k1 <> S_UNDEF) by (change (tk_state (ts_primary s') <> S_UNDEF); by rewrite (kf_state _ Hf)).
  assert (Hn1 : session_inv q (to_frame (tm_opt m)) (set_ts_primary s' k1)).
  { split; cbn [set_ts_primary ts_session_id ts_primary ts_lame ts_key_id ts_initial_opcode]; rewrite ?Hsid, ?Hlm, ?Hn; try done.
    - intros _. by apply H2.
    - intros _. by apply key_raise.
    - by intros _.
    - intros _. change (now + to_transition_window (tm_opt m) <> 0). pose proof (oo_window _ Ho). lia.
    - intros _. change (tk_key_id k1) with (tk_key_id (ts_primary s')). by rewrite Hid.
    - intros _. change (tk_key_id k1) with (tk_key_id (ts_primary s')). rewrite Hid. by apply H6. }
  split; [|split; [by rewrite opt_set_session|split; [|split; [|split]]]].
  - apply inv_set_session; [|done]. by split.
  - unfold primary. rewrite get_set_eq. destruct Hf as [F1 F2]. split; done.
  - unfold primary at 1. by rewrite get_set_eq.
  - unfold primary at 1. by rewrite get_set_eq.
  - intros j Hj. rewrite get_set_session, decide_False by done. by destruct j.
Qed.

(** ** What keeps a key alive *)

Lemma live_state q f k st :
  key_live q f k -> (S_INITIAL <= st <= S_ACTIVE -> fresh_options (tk_crypto k)) ->
  (S_GENERATED_KEYS <= st -> co_initialized (tk_crypto k) = true) -> key_live q f (set_tk_state k st).
Proof. intros [K1 (rel & K2 & K3 & [P1 P2 P3])] Hf Hk. split; try done. exists rel. split; [done|]. split; [done|]. by split. Qed.

Lemma live_ssl q f k o : key_live q f k -> key_live q f (set_tk_ks_ssl k (Some o)).
Proof. intros [K1 (rel & K2 & K3 & [P1 P2 P3])]. split; try done. exists rel. split; [done|]. split; [done|]. by split. Qed.

Lemma live_rel q f k rel :
  key_live q f k -> rel_ok q f rel ->
  session_id_defined (tk_session_id_remote k) = true \/ (ks_rec_ack rel = [] /\ ks_lru_acks rel = []) ->
  key_live q f (set_tk_rel k (Some rel)).
Proof. intros [K1 (rel0 & K2 & K3 & [P1 P2 P3])] Hr Ha. split; try done. exists rel. split; [done|]. split; [done|]. by split. Qed.

Lemma live_read q f k b : key_live q f k -> text_buf b -> key_live q f (set_tk_plaintext_read_buf k b).
Proof. intros [K1 (rel & K2 & K3 & [P1 P2 P3])] Hb. split; try done. exists rel. split; [done|]. split; [done|]. by split. Qed.

Lemma live_write q f k b : key_live q f k -> text_buf b -> key_live q f (set_tk_plaintext_write_buf k b).
Proof. intros [K1 (rel & K2 & K3 & [P1 P2 P3])] Hb. split; try done. exists rel. split; [done|]. split; [done|]. by split. Qed.

Lemma live_src q f k src :
  key_live q f k -> source_ok (src_client src) /\ source_ok (src_server src) -> key_live q f (set_tk_key_src k src).
Proof. intros [K1 (rel & K2 & K3 & [P1 P2 P3])] Hb. split; try done. exists rel. split; [done|]. split; [done|]. by split. Qed.

(** The acknowledgements of a key may go out. *)
Lemma live_known q m i rel :
  multi_inv q m -> tk_state (primary m i) <> S_UNDEF -> tk_rel (primary m i) = Some rel -> acks_known (ctl m i) rel.
Proof.
  intros Hi Hu Hr. destruct (kl_rel _ _ _ (inv_primary _ _ _ Hi Hu)) as (rel' & E & _ & [_ _ Ha]).
  rewrite Hr in E. by injection E as <-.
Qed.

(** ** What changes nothing but names and verdicts *)

Lemma core_session m i s : session_core s = session_core (get_session m i) -> multi_core (set_session m i s) = multi_core m.
Proof. intros E. unfold multi_core. destruct i; cbn in *; by rewrite ?E. Qed.

Lemma core_key m x k : key_core k = key_core (get_key_at m x) -> multi_core (set_key_at m x k) = multi_core m.
Proof.
  intros E. unfold set_key_at. apply core_session. unfold session_core. destruct x as [i []]; cbn in *; by rewrite E.
Qed.

Lemma primary_core m m' i : multi_core m = multi_core m' -> key_core (primary m i) = key_core (primary m' i).
Proof. intros E. unfold multi_core, session_core in E. unfold primary. destruct i; cbn [get_session]; congruence. Qed.

Lemma get_session_core m m' i : multi_core m = multi_core m' -> session_core (get_session m i) = session_core (get_session m' i).
Proof. intros E. unfold multi_core in E. destruct i; cbn [get_session]; congruence. Qed.
End inv.

(** ** Authentication changes no more than that *)

Section sim.
Context `{TL : TlsLib} `{NL : NameLib} `{TK : TokenLib}.

Lemma set_authenticated_core m i a : multi_core (set_authenticated m i a) = multi_core m.
Proof. by apply core_key. Qed.

Lemma set_names_core m i s :
  session_core s = session_core (get_session m i) -> multi_core (set_session m i s) = multi_core m.
Proof. apply core_session. Qed.

Lemma apply_cert_event_core m i ev : multi_core (apply_cert_event m i ev) = multi_core m.
Proof. destruct ev as [[]|]; [by apply core_session..|done]. Qed.

Lemma deauthenticate_core m : multi_core (tls_deauthenticate m) = multi_core m.
Proof. done. Qed.

Lemma lock_username_core m u : multi_core (tls_lock_username m u).2 = multi_core m.
Proof.
  unfold tls_lock_username. destruct (tm_locked_username m); [|done]. destruct (_ && _); [|done]. apply deauthenticate_core.
Qed.

Lemma verify_token_core m i u p : multi_core (verify_token m i u p).2 = multi_core m.
Proof.
  unfold verify_token. destruct (_ && _); [|done]. set (m1 := set_key_at m _ _).
  assert (E1 : multi_core m1 = multi_core m) by by apply core_key. clearbody m1.
  destruct (to_auth_token_call_auth _); [by destruct (tm_auth_token_initial m1)|].
  destruct (_ =? _); [by destruct (tm_auth_token_initial m1)|]. cbn [snd]. rewrite set_authenticated_core.
  by destruct (tm_auth_token_initial m1).
Qed.

Lemma renew_token_core m i u p : multi_core (renew_token m i u p) = multi_core m.
Proof.
  unfold renew_token. destruct (to_auth_token_generate _); [|done].
  destruct (tm_auth_token m); [|destruct (_ && _)]; destruct (generate_auth_token _ _); try done; cbn;
    by destruct (tm_auth_token_initial m).
Qed.

Lemma ask_methods_core w m i : multi_core (ask_methods w m i).2 = multi_core m.
Proof.
  unfold ask_methods. destruct (w_plugin w), (w_script w); cbn; unfold verify_user_pass_plugin, verify_user_pass_script; cbn;
    rewrite ?core_key; done.
Qed.

Lemma user_pass_verdict_core m i u p skip man ps ss : multi_core (user_pass_verdict m i u p skip man ps ss) = multi_core m.
Proof.
  unfold user_pass_verdict. destruct (status_ok ss && status_ok ps).
  2: { cbn [andb]. apply set_authenticated_core. }
  pose proof (lock_username_core m u) as E. destruct (tls_lock_username m u) as [ok m1]. cbn [snd] in E.
  destruct (ok && _); [|by rewrite set_authenticated_core]. rewrite renew_token_core.
  set (m2 := set_authenticated m1 i _). assert (E2 : multi_core m2 = multi_core m) by (unfold m2; by rewrite set_authenticated_core).
  clearbody m2. destruct (bool_decide _); [|destruct skip]; rewrite ?core_key by done;
    (destruct (to_username_as_common_name _); [rewrite core_session by done|]); rewrite ?set_authenticated_core, ?core_key; done.
Qed.

Lemma verify_user_pass_core w m i u p : multi_core (verify_user_pass w m i u p) = multi_core m.
Proof.
  unfold verify_user_pass. match goal with |- context [verify_token m i ?v _] => generalize v end. intros u'.
  pose proof (verify_token_core m i u' (string_mod_password p)) as E. destruct (verify_token _ _ _ _) as [[skip|] m1]; [|done].
  cbn [snd] in E. set (env := set_verify_user_pass_env _ _). clearbody env.
  assert (Hgo : forall x : kmda * Z * Z * tls_multi, multi_core x.2 = multi_core m ->
    multi_core (let '(man, ps, ss, m2) := x in
      let '(ps, ss) := if ssl_verify_username_length (tm_opt m2) u' then (ps, ss)
        else (OPENVPN_PLUGIN_FUNC_ERROR, OPENVPN_PLUGIN_FUNC_ERROR) in
      user_pass_verdict m2 i u' (string_mod_password p) (negb env || skip) man ps ss) = multi_core m).
  { intros [[[man ps] ss] m2] E2. cbn [snd] in E2. destruct (ssl_verify_username_length _ _); by rewrite user_pass_verdict_core. }
  apply Hgo. destruct (negb env); [done|]. destruct skip; [done|]. by rewrite ask_methods_core.
Qed.

Lemma final_checks_core w m i : multi_core (verify_final_auth_checks w m i) = multi_core m.
Proof.
  unfold verify_final_auth_checks. transitivity (multi_core (check_locked_cert_hash_set (check_locked_cn (some_common_name m i) i) i)).
  { unfold check_ccd. destruct (_ && _); [|done]. change (multi_core (wipe_auth_token ?x)) with (multi_core x). apply set_authenticated_core. }
  transitivity (multi_core (check_locked_cn (some_common_name m i) i)).
  { unfold check_locked_cert_hash_set. by repeat case_match. }
  transitivity (multi_core (some_common_name m i)).
  { unfold check_locked_cn. repeat case_match; try done. rewrite deauthenticate_core. by apply core_session. }
  unfold some_common_name. case_match; [done|]. by apply core_session.
Qed.

Lemma update_key_core w c k : key_core (update_key_auth_status w c k) = key_core k.
Proof.
  unfold update_key_auth_status. case_bool_decide; [done|]. destruct (key_state_test_auth_control_file _ _ _), (key_state_test_auth_control_file _ _ _).
  destruct (bool_decide _); [done|]. destruct (bool_decide _); [|done]. by destruct (_ <=? _).
Qed.

Lemma scan_status_core w c scan m : multi_core (scan_status w c scan m).2 = multi_core m.
Proof.
  revert m. induction scan as [|x scan IH]; intros m; cbn [scan_status]; [done|].
  destruct (TLS_AUTHENTICATED _ _); [|apply IH]. set (k := update_key_auth_status w c _).
  pose proof (IH (set_key_at m x k)) as E. destruct (scan_status w c scan (set_key_at m x k)) as [l m1]. cbn [snd] in *.
  rewrite E. apply core_key, update_key_core.
Qed.

Lemma authentication_status_core w m : multi_core (tls_authentication_status w m).2 = multi_core m.
Proof.
  unfold tls_authentication_status. pose proof (scan_status_core w (tls_authentication_status_use_cache w m) key_scan m) as E.
  destruct (scan_status _ _ _ _) as [l m1]. cbn [snd] in *. by destruct (tls_authentication_status_use_cache w m).
Qed.

Lemma authenticate_key_core m id auth : multi_core (tls_authenticate_key m id auth).2 = multi_core m.
Proof.
  unfold tls_authenticate_key. cbn [snd]. generalize key_scan. intros scan. revert m.
  induction scan as [|x scan IH]; intros m; cbn [foldl]; [done|]. rewrite IH. unfold authenticate_at.
  destruct (_ =? _); [by apply core_key|done].
Qed.
End sim.
