(* ===== verification/TlsText.v ===== *)
(** * The plaintext buffers of a key

    Whatever is written to them and read from them, they stay what they are: a block of
    [TLS_CHANNEL_BUF_SIZE] bytes and a header that describes it.  The message of the key
    exchange that does not fit, or that is malformed, is an error and nothing worse. *)
From S2P Require Import Prelude Integers Buffer Frame EpochKeys Reliable Control Mroute KeyMethod KeyExpansion Handshake TlsSession TlsLife TlsReceive ControlAny TlsInv.

(** ** Texts *)

Lemma no_len_rep b h c t : buf_rep b h c t -> buf_rep (buf_no_len b) h [] (zlen c + t).
Proof.
  intros Hb. pose proof (rep_bounds _ _ _ _ Hb) as (? & ? & ? & _).
  apply rep_unfold in Hb as (d & -> & Hd & Hby & _). unfold buf_no_len. cbn.
  apply rep_intro; cbn; try done; try lia.
Qed.

Lemma text_no_len b : text_buf b -> text_buf (buf_no_len b) /\ b_len (buf_no_len b) = 0.
Proof.
  intros (h & c & t & Hb & E). split; [|done]. exists h, [], (zlen c + t). split; [by apply no_len_rep|cbn; lia].
Qed.

Lemma text_init b : text_buf b -> exists b', buf_init b 0 = (true, b') /\ buf_rep b' 0 [] TLS_CHANNEL_BUF_SIZE.
Proof.
  intros (h & c & t & Hb & E). pose proof (rep_bounds _ _ _ _ Hb). destruct (init_rep _ _ _ _ 0 Hb) as (b' & Hi & Hb'); [lia|].
  exists b'. split; [done|]. by rewrite Z.sub_0_r, E in Hb'.
Qed.

Lemma rep_text b c t : buf_rep b 0 c t -> zlen c + t = TLS_CHANNEL_BUF_SIZE -> text_buf b.
Proof. intros. exists 0, c, t. split; [done|lia]. Qed.

Lemma text_clear b : text_buf b -> text_buf (buf_clear b) /\ b_len (buf_clear b) = 0.
Proof.
  intros (h & c & t & Hb & E). split; [|done]. apply rep_unfold in Hb as (d & -> & Hd & _). rewrite E in *.
  apply (rep_text _ [] TLS_CHANNEL_BUF_SIZE); [|done]. unfold buf_clear. cbn [b_capacity b_data].
  apply rep_intro; try done. by apply Forall_replicate.
Qed.

Lemma text_write b src : text_buf b -> bytes src -> text_buf (buf_write b src).2.
Proof.
  intros (h & c & t & Hb & E) Hs. destruct (decide (zlen src <= t)) as [Hl|Hl].
  - destruct (write_rep _ _ _ _ src Hb Hs Hl) as (b' & -> & Hb'). exists h, (c ++ src), (t - zlen src).
    split; [done|]. rewrite length_app. lia.
  - rewrite (write_full _ _ _ _ src Hb) by lia. by exists h, c, t.
Qed.

Lemma text_write_string b s maxlen : text_buf b -> is_c_string s -> text_buf (write_string b s maxlen).2.
Proof.
  intros Hb Hs. unfold write_string, buf_write_u16. destruct (_ <? _); [done|].
  pose proof (text_write b (be_bytes 2 (zlen s + 1)) Hb) as H1. destruct (buf_write b _) as [[] b1]; [|apply H1; auto with bufdb].
  apply text_write; [apply H1; auto with bufdb|]. apply Forall_app. split; [by apply c_string_bytes|].
  repeat constructor; unfold is_u8; lia.
Qed.

Lemma text_write_empty b : text_buf b -> text_buf (write_empty_string b).2.
Proof. intros Hb. apply text_write; [done|auto with bufdb]. Qed.

Lemma text_write_user_pass b up :
  text_buf b -> (forall u p, up = Some (u, p) -> is_c_string u /\ is_c_string p) -> text_buf (write_user_pass b up).2.
Proof.
  intros Hb Hup. unfold write_user_pass. destruct up as [[u p]|].
  - destruct (Hup u p eq_refl) as [Hu Hp]. pose proof (text_write_string b u (-1) Hb Hu) as H1.
    destruct (write_string b u (-1)) as [[] b1]; [by apply text_write_string|done].
  - pose proof (text_write_empty b Hb) as H1. destruct (write_empty_string b) as [[] b1]; [by apply text_write_empty|done].
Qed.

Lemma text_peer_info b info :
  text_buf b -> (forall s, info = Some s -> is_c_string s) -> text_buf (push_peer_info b info).2.
Proof. intros Hb Hi. destruct info as [s|]; [apply text_write_string; auto|by apply text_write_empty]. Qed.

(** ** Key material *)

Definition sources_ok (src : key_source2) : Prop := source_ok (src_client src) /\ source_ok (src_server src).

Lemma zero_sources : sources_ok key_source2_zero.
Proof. split; apply zero_source. Qed.

Lemma sources_half src server k : sources_ok src -> source_ok k -> sources_ok (set_half src server k).
Proof. intros [H1 H2] Hk. by destruct server. Qed.

Lemma zero_parts : bytes (zeros 48) /\ bytes (zeros 32).
Proof. split; apply bytes_dec; vm_compute; reflexivity. Qed.

Lemma source_mk p r1 r2 :
  zlen p = 48 -> zlen r1 = 32 -> zlen r2 = 32 -> bytes p -> bytes r1 -> bytes r2 -> source_ok (mk_src p r1 r2).
Proof. by split. Qed.

Lemma text_randomize b src server rnd :
  text_buf b -> sources_ok src -> source_ok rnd ->
  exists ok src' b', key_source2_randomize_write src b server rnd = (ok, src', b') /\ sources_ok src' /\ text_buf b'.
Proof.
  intros Hb Hsrc [R1 R2 R3 (B1 & B2 & B3)]. destruct zero_parts as [Z1 Z2].
  unfold key_source2_randomize_write, random_bytes_to_buf.
  assert (exists ok p b1, (if server then (true, key_source_zero, b)
      else let '(ok, buf) := buf_write b (pre_master rnd) in
           (ok, mk_src (pre_master rnd) (random1 key_source_zero) (random2 key_source_zero), buf))
      = (ok, mk_src p (zeros 32) (zeros 32), b1) /\ zlen p = 48 /\ bytes p /\ text_buf b1) as (ok & p & b1 & -> & Hp & Hpb & Hb1).
  { destruct server; [by do 3 eexists|]. pose proof (text_write b (pre_master rnd) Hb B1) as H1.
    destruct (buf_write b (pre_master rnd)) as [ok b1]. by do 3 eexists. }
  destruct ok; cbn [negb]; [|do 3 eexists; split; [done|split; [by apply sources_half, source_mk|done]]].
  pose proof (text_write b1 (random1 rnd) Hb1 B2) as H2. destruct (buf_write b1 (random1 rnd)) as [ok b2]. cbn [snd] in H2.
  destruct ok; cbn [negb]; [|do 3 eexists; split; [done|split; [by apply sources_half, source_mk|done]]].
  pose proof (text_write b2 (random2 rnd) H2 B3) as H3. destruct (buf_write b2 (random2 rnd)) as [ok b3]. cbn [snd] in H3.
  do 3 eexists. split; [done|]. split; [by apply sources_half, source_mk|done].
Qed.

(** ** The messages *)

(** Writing the message never fails an assertion. *)
Lemma text_key_message b src server rnd opts up info :
  text_buf b -> sources_ok src -> source_ok rnd -> is_c_string opts ->
  (forall u p, up = Some (u, p) -> is_c_string u /\ is_c_string p) -> (forall s, info = Some s -> is_c_string s) ->
  exists ok src' b', key_method_2_write b src server rnd opts up info = Some (ok, src', b') /\ sources_ok src' /\ text_buf b'.
Proof.
  intros Hb Hsrc Hrnd Ho Hup Hi. unfold key_method_2_write. destruct (text_init b Hb) as (b0 & -> & Hb0%rep_text); [|done].
  rewrite Some_bind. cbn [ASSERT]. rewrite Some_bind.
  unfold buf_write_u32, buf_write_u8. pose proof zero_sources as Hz.
  pose proof (text_write b0 (be_bytes 4 0) Hb0) as H1. destruct (buf_write b0 _) as [[] b1]; cbn [negb snd] in *;
    [|do 3 eexists; split; [done|split; [done|apply H1; auto with bufdb]]].
  pose proof (text_write b1 [u8 KEY_METHOD_2] ltac:(apply H1; auto with bufdb)) as H2.
  assert (bytes [u8 KEY_METHOD_2]) as Hu by by repeat constructor.
  destruct (buf_write b1 _) as [[] b2]; cbn [negb snd] in *; [|do 3 eexists; split; [done|by split; [|apply H2]]].
  destruct (text_randomize b2 src server rnd (H2 Hu) Hsrc Hrnd) as ([] & src' & b3 & -> & Hs' & Hb3); cbn [negb];
    [|by do 3 eexists].
  pose proof (text_write_string b3 opts TLS_OPTIONS_LEN Hb3 Ho) as H4. destruct (write_string b3 _ _) as [[] b4]; cbn [negb snd] in *;
    [|by do 3 eexists].
  pose proof (text_write_user_pass b4 up H4 Hup) as H5. destruct (write_user_pass b4 up) as [[] b5]; cbn [negb snd] in *;
    [|by do 3 eexists].
  pose proof (text_peer_info b5 info H5 Hi) as H6. destruct (push_peer_info b5 info) as [[] b6]; cbn [negb snd] in *; by do 3 eexists.
Qed.

(** Reading one leaves key material of the right sizes. *)
Lemma text_source_read b src server :
  some_rep b -> sources_ok src -> sources_ok (key_source2_read src b server).1.2.
Proof.
  intros Hb Hsrc. destruct zero_parts as [Z1 Z2]. unfold key_source2_read.
  assert (H1 : some_rep (if server then buf_read b 48 else (Some (pre_master key_source_zero), b)).2 /\
    forall p, (if server then buf_read b 48 else (Some (pre_master key_source_zero), b)).1 = Some p -> bytes p /\ zlen p = 48).
  { destruct server; [by apply some_read|]. split; [done|]. by intros p [= <-]. }
  destruct (if server then _ else _) as [[p|] b1]; cbn [fst snd] in *; destruct H1 as [Hb1 Hp];
    [|by apply sources_half, source_mk].
  destruct (Hp p eq_refl) as [Hpb Hpl]. clear Hp.
  destruct (some_read b1 32 Hb1) as [Hb2 H2]; [done|]. destruct (buf_read b1 32) as [[r1|] b2]; cbn [fst snd] in *;
    [|by apply sources_half, source_mk]. destruct (H2 r1 eq_refl) as [Hrb Hrl].
  destruct (some_read b2 32 Hb2) as [Hb3 H3]; [done|]. destruct (buf_read b2 32) as [[r2|] b3]; cbn [fst snd] in *;
    [|by apply sources_half, source_mk]. destruct (H3 r2 eq_refl) as [Hsb Hsl]. by apply sources_half, source_mk.
Qed.

Lemma text_some b : text_buf b -> some_rep b.
Proof. intros (h & c & t & Hb & _). by exists h, c, t. Qed.

Lemma text_read_message b src server :
  text_buf b -> sources_ok src -> exists msg src', read_key_message b src server = (msg, src') /\ sources_ok src'.
Proof.
  intros Hb%text_some Hsrc. unfold read_key_message. pose proof (some_advance b 4 Hb) as H1.
  destruct (buf_advance b 4) as [[] b1]; cbn [negb snd] in *; [|by do 2 eexists].
  assert (some_rep (buf_read_u8 b1).2) as H2.
  { unfold buf_read_u8. destruct (_ <=? _); cbn [snd]; [by apply some_advance|done]. }
  destruct (buf_read_u8 b1) as [flags b2]. cbn [snd] in H2. destruct (negb _); [by do 2 eexists|].
  pose proof (text_source_read b2 src server H2 Hsrc) as H3. destruct (key_source2_read src b2 server) as [[[] src'] b3]; cbn [negb fst snd] in *;
    [|by do 2 eexists]. destruct (read_string b3 _) as [[len s] b4]. destruct (_ <? _); [by do 2 eexists|].
  destruct (read_string b4 _) as [[ul us] b5]. destruct (read_string b5 _) as [[pl ps] b6].
  destruct (read_string_alloc b6) as [pi b7]. by do 2 eexists.
Qed.
