(* ===== verification/TlsSteps.v ===== *)
(** * Every step of the state machine of a key

    One lemma per step of [tls_process_state]: for any TLS library and whatever has arrived,
    it does not fail an assertion, it keeps the invariant, and [work] - the states that are
    still to come, the packets to take in, the places for packets, the buffers to fill and to
    empty - does not grow, and shrinks when the step asks for another round. *)
From S2P Require Import Prelude Integers Buffer Frame PacketId EpochKeys EpochDerive Reliable AckList Windows SendWindow RecvWindow Control ControlNet ControlOne ControlAny Mroute KeyMethod KeyExpansion Handshake TlsSession TlsLife TlsAuth TlsProcess TlsMulti TlsReceive TlsRun TlsInv TlsText.

Section steps.
Context `{CL : CryptoLib} `{PL : PrfLib} `{TL : TlsLib} `{!TlsLaws} `{NL : NameLib} `{TK : TokenLib}.
Implicit Types (m : tls_multi) (i : tm_index).

(** ** What is left to do *)

Definition rank (server : bool) (st : Z) : Z :=
  if st =? S_INITIAL then 6
  else if (st =? S_PRE_START_SKIP) || (st =? S_PRE_START) then 5
  else if st =? S_START then 4
  else if st =? S_SENT_KEY then (if server then 2 else 3)
  else if st =? S_GOT_KEY then (if server then 3 else 2)
  else if st =? S_ERROR_PRE then 0
  else 1.

Definition key_work (server : bool) (k : tls_key) : Z :=
  2 * rank server (tk_state k)
  + match tk_rel k with Some rel => backlog rel | None => 0 end
  + (if b_len (tk_plaintext_read_buf k) =? 0 then 1 else 0)
  + (if b_len (tk_plaintext_write_buf k) =? 0 then 0 else 1).

Definition work m i : Z := key_work (to_server (tm_opt m)) (primary m i).

Lemma rank_bound server st : 0 <= rank server st <= 6.
Proof. unfold rank. repeat case_match; lia. Qed.

Lemma work_bound q f k server : key_live q f k -> (exists ss, local_ok ss /\ ss_frame ss = f) -> 0 <= key_work server k <= 32.
Proof.
  intros Hl (ss & Hlo & <-). destruct (kl_rel _ _ _ Hl) as (rel & Hr & [Hi _] & _). unfold key_work. rewrite Hr.
  pose proof (rank_bound server (tk_state k)). pose proof (backlog_bound ss rel Hi). repeat case_match; lia.
Qed.

(** ** One step *)

(** A run that may still go on. *)
Definition live_at m i : Prop := multi_inv true m /\ running (tk_state (primary m i)).

(** The session of [i] may have changed, nothing else that matters; [c] is what it took. *)
Record moved (m m' : tls_multi) (i : tm_index) (c : Z) : Prop := {
  mv_inv : multi_inv true m';
  mv_opt : tm_opt m' = tm_opt m;
  mv_addr : tk_remote_addr (primary m' i) = tk_remote_addr (primary m i);
  mv_run : running (tk_state (primary m' i));
  mv_other : forall j, j <> i -> session_core (get_session m' j) = session_core (get_session m j);
  mv_work : work m' i <= work m i - c
}.

(** Without an error. *)
Record stepped (m m' : tls_multi) (i : tm_index) (c : Z) : Prop := {
  sp_moved : moved m m' i c;
  sp_pre : tk_state (primary m i) <> S_ERROR_PRE -> tk_state (primary m' i) <> S_ERROR_PRE
}.

Lemma moved_trans m m1 m2 i c d : moved m m1 i c -> moved m1 m2 i d -> moved m m2 i (c + d).
Proof.
  intros [A1 A2 A3 A4 A5 A6] [B1 B2 B3 B4 B5 B6]. split; try done; try congruence; try lia.
  intros j Hj. by rewrite B5, A5.
Qed.

Lemma moved_le m m' i c d : moved m m' i c -> d <= c -> moved m m' i d.
Proof. intros [A1 A2 A3 A4 A5 A6] Hd. split; try done. lia. Qed.

Lemma moved_core m m' m2 i c : moved m m' i c -> multi_core m2 = multi_core m' -> moved m m2 i c.
Proof.
  intros [A1 A2 A3 A4 A5 A6] E. pose proof (primary_core _ _ i E) as Ep. pose proof (opt_core _ _ E) as Eo.
  unfold key_core in Ep. injection Ep as E1 E2 E3 E4 E5 E6 E7 E8 E9 E10 E11 E12 E13.
  split; try congruence; [by eapply multi_inv_core| |].
  - intros j Hj. rewrite <- A5 by done. by apply get_session_core.
  - unfold work, key_work in *. rewrite Eo, E1, E10, E11, E12. done.
Qed.

Lemma stepped_refl m i : multi_inv true m -> running (tk_state (primary m i)) -> stepped m m i 0.
Proof. intros. split; [|done]. split; try done. lia. Qed.

Lemma stepped_trans m m1 m2 i c d : stepped m m1 i c -> stepped m1 m2 i d -> stepped m m2 i (c + d).
Proof. intros [A1 A2] [B1 B2]. split; [by eapply moved_trans|auto]. Qed.

Lemma stepped_le m m' i c d : stepped m m' i c -> d <= c -> stepped m m' i d.
Proof. intros [A1 A2] Hd. split; [by eapply moved_le|done]. Qed.

Lemma stepped_core m m' m2 i c : stepped m m' i c -> multi_core m2 = multi_core m' -> stepped m m2 i c.
Proof.
  intros [A1 A2] E. split; [by eapply moved_core|]. intros Hp. pose proof (primary_core _ _ i E) as Ep.
  unfold key_core in Ep. injection Ep as -> _. auto.
Qed.

Lemma moved_live m m' i c : moved m m' i c -> live_at m' i.
Proof. intros []. done. Qed.

Lemma stepped_live m m' i c : stepped m m' i c -> live_at m' i.
Proof. intros [Hm _]. by eapply moved_live. Qed.

(** A step that only replaces the primary key. *)
Lemma stepped_set m i k c :
  live_at m i -> running (tk_state k) -> (tk_state (primary m i) <> S_ERROR_PRE -> tk_state k <> S_ERROR_PRE) ->
  key_live true (to_frame (tm_opt m)) k -> tk_key_id k = tk_key_id (primary m i) ->
  tk_remote_addr k = tk_remote_addr (primary m i) ->
  key_work (to_server (tm_opt m)) k <= key_work (to_server (tm_opt m)) (primary m i) - c ->
  stepped m (set_primary m i k) i c.
Proof.
  intros [Hi [Hu _]] Hk Hp Hl Hid Ha Hw. split; [split|]; rewrite ?primary_set; try done.
  - apply inv_set_primary; try done. apply Hk.
  - apply opt_set_session.
  - intros j Hj. unfold set_primary. rewrite get_set_session. by rewrite decide_False.
  - unfold work. rewrite primary_set. unfold set_primary. by rewrite opt_set_session.
Qed.

(** What a step needs: the invariant, and the primary key's parts. *)
Lemma parts m i :
  multi_inv true m -> tk_state (primary m i) <> S_UNDEF ->
  exists rel obj, tk_rel (primary m i) = Some rel /\ tk_ks_ssl (primary m i) = Some obj /\
    rel_inv (ss_frame (ctl m i)) rel /\ rel_quiet rel /\ acks_known (ctl m i) rel /\ local_ok (ctl m i) /\
    key_live true (to_frame (tm_opt m)) (primary m i).
Proof.
  intros Hi Hu. pose proof (inv_primary _ _ _ Hi Hu) as Hl. destruct (kl_rel _ _ _ Hl) as (rel & Hr & [Hv Hq] & Hp).
  destruct (kl_ssl _ _ _ Hl) as [obj Ho]. exists rel, obj. split_and!; try done.
  - by apply Hq.
  - by eapply live_known.
  - by eapply ctl_local.
Qed.

(** Another reliability part for the key. *)
Lemma stepped_rel m i rel rel' c :
  multi_inv true m -> running (tk_state (primary m i)) -> tk_rel (primary m i) = Some rel ->
  rel_inv (to_frame (tm_opt m)) rel' -> rel_quiet rel' -> acks_known (ctl m i) rel' ->
  backlog rel' <= backlog rel - c -> stepped m (set_primary m i (set_tk_rel (primary m i) (Some rel'))) i c.
Proof.
  intros Hi Hu Hr Hv Hq Hk Hb. apply stepped_set; [done|done|done| |done|done|].
  - apply live_rel; [apply (inv_primary true); [done|apply Hu]|split; [done|by intros _]|exact Hk].
  - unfold key_work. cbn [set_tk_rel tk_rel tk_state tk_plaintext_read_buf tk_plaintext_write_buf]. rewrite Hr. lia.
Qed.

Lemma same_send rel : set_send_reliable rel (ks_send_reliable rel) = rel.
Proof. by destruct rel. Qed.

(** Another state, in the same range of states. *)
Lemma stepped_state m i st c :
  live_at m i -> running st -> st <> S_ERROR_PRE ->
  (S_INITIAL <= st <= S_ACTIVE -> S_INITIAL <= tk_state (primary m i) <= S_ACTIVE) ->
  (S_GENERATED_KEYS <= st -> S_GENERATED_KEYS <= tk_state (primary m i)) ->
  2 * rank (to_server (tm_opt m)) st <= 2 * rank (to_server (tm_opt m)) (tk_state (primary m i)) - c ->
  stepped m (set_state m i st) i c.
Proof.
  intros Hi Hst Hp H1 H2 Hr. pose proof (inv_primary _ _ _ (proj1 Hi) (proj1 (proj2 Hi))) as Hl. unfold set_state.
  apply stepped_set; [done|done|done| |done|done|].
  - apply live_state; [done| |]; intros Hs; [apply Hl; auto|apply Hl; auto].
  - unfold key_work. cbn. lia.
Qed.

(** The result of a step: whether it asks for another round. *)
Definition round_ok (m : tls_multi) (i : tm_index) (r : option (bool * tls_multi)) : Prop :=
  exists go m', r = Some (go, m') /\ stepped m m' i (if go : bool then 1 else 0).

(** With errors: [ok] is false, and what has been read may have been thrown away. *)
Definition cost (ok go : bool) : Z := if ok then if go then 1 else 0 else -1.

Definition step_ok (m : tls_multi) (i : tm_index) (r : option (bool * bool * tls_multi)) : Prop :=
  exists ok go m', r = Some (ok, go, m') /\ stepped m m' i (cost ok go).

Lemma step_intro m i ok go m' c : stepped m m' i c -> cost ok go <= c -> step_ok m i (Some (ok, go, m')).
Proof. intros Hs Hc. do 3 eexists. split; [done|]. by eapply stepped_le. Qed.

Lemma step_waits m i : live_at m i -> step_ok m i (Some (true, false, m)).
Proof. intros [Hi Hr]. do 3 eexists. split; [done|]. by apply stepped_refl. Qed.

(** ** Handshake *)

Lemma ps_start_ok w m i : live_at m i -> round_ok m i (ps_start w m i).
Proof.
  intros [Hi Hr]. unfold ps_start. destruct (Z.eqb_spec (tk_state (primary m i)) S_INITIAL) as [E|E].
  2: { do 2 eexists. split; [done|]. by apply stepped_refl. }
  destruct (parts m i Hi (proj1 Hr)) as (rel & obj & E1 & E2 & Hv & Hq & Hk & Hlo & Hl). unfold move_pre_start.
  rewrite E1, Some_bind. pose proof (output_any _ Hlo rel Hv Hq) as Ho.
  destruct (reliable_get_buf_output_sequenced _) as [[[j|] snd]|]; [| |done]; rewrite Some_bind.
  - destruct Ho as [_ Ho]. destruct (Ho (tk_initial_opcode (primary m i))) as (rel' & Hm & Hv' & Hq' & Hb'); [apply Hl..|].
    cbn [set_tk_auth_deferred_expire set_tk_must_negotiate set_tk_initial tk_initial_opcode]. rewrite Hm, !Some_bind.
    do 2 eexists. split; [done|]. apply stepped_set; [done|by split|done| |done|done|].
    + apply live_rel; [|split; [done|by intros _]|exact Hk]. apply live_state; [by eapply key_live_parts; [|exact Hl]| |done].
      intros _. apply Hl. by rewrite E.
    + unfold key_work. cbn [set_tk_rel set_tk_state set_tk_auth_deferred_expire set_tk_must_negotiate set_tk_initial tk_state tk_rel
        tk_plaintext_read_buf tk_plaintext_write_buf]. rewrite E1, E, Hb'. change (rank _ S_INITIAL) with 6.
      change (rank _ S_PRE_START) with 5. lia.
  - do 2 eexists. split; [done|]. subst snd. rewrite same_send. apply (stepped_rel m i rel); try done. lia.
Qed.

Lemma flush_ok m i payloads : live_at m i -> exists m', flush_payload m i payloads = Some m' /\ stepped m m' i 0.
Proof.
  revert m. induction payloads as [|b payloads IH]; intros m [Hi Hr]; cbn [flush_payload].
  - eexists. split; [done|]. apply stepped_set; [done|apply Hr|done| |done|done|unfold key_work; cbn; lia].
    eapply key_live_parts; [|apply (inv_primary true); [done|apply Hr]]. done.
  - destruct (parts m i Hi (proj1 Hr)) as (rel & obj & E1 & E2 & Hv & Hq & Hk & Hlo & Hl). rewrite E2, Some_bind.
    destruct (key_state_write_plaintext obj b) as [[st obj'] ev].
    set (m1 := set_primary m i _). assert (H1 : stepped m m1 i 0).
    { apply stepped_set; [done|apply Hr|done|by apply live_ssl|done|done|unfold key_work; cbn; lia]. }
    pose proof (stepped_core _ _ _ _ _ H1 (apply_cert_event_core m1 i ev)) as H2.
    destruct (IH _ (stepped_live _ _ _ _ H2)) as (m' & -> & H3). exists m'. split; [done|].
    by apply (stepped_trans _ _ _ _ _ _ H2 H3).
Qed.

Lemma active_ok w m i :
  live_at m i -> S_INITIAL <= tk_state (primary m i) <= S_ACTIVE -> 2 <= rank (to_server (tm_opt m)) (tk_state (primary m i)) ->
  exists m', session_move_active w m i = Some m' /\ stepped m m' i 2.
Proof.
  intros [Hi Hr] Hst Hrk. pose proof (inv_primary _ _ _ Hi (proj1 Hr)) as Hl. unfold session_move_active.
  set (k := set_tk_must_negotiate _ 0). assert (H1 : stepped m (set_primary m i k) i 2).
  { apply stepped_set; [done|by split|done| |done|done|].
    - assert (key_live true (to_frame (tm_opt m)) (set_tk_state (primary m i) S_ACTIVE)) as Hl2.
      { apply live_state; [done| |done]. intros _. by apply Hl. }
      eapply key_live_parts; [|exact Hl2]. done.
    - unfold key_work. cbn [k set_tk_must_negotiate set_tk_state set_tk_established tk_state tk_rel tk_plaintext_read_buf
        tk_plaintext_write_buf]. change (rank _ S_ACTIVE) with 1. lia. }
  set (m2 := if bool_decide _ then _ else _).
  assert (Ec : multi_core m2 = multi_core (set_primary m i k)) by (unfold m2; by destruct (bool_decide _)).
  pose proof (stepped_core _ _ _ _ _ H1 Ec) as H2. destruct (flush_ok m2 i (tk_paybuf k) (stepped_live _ _ _ _ H2)) as (m' & -> & H3).
  exists m'. split; [done|]. by apply (stepped_trans _ _ _ _ _ _ H2 H3).
Qed.

Lemma ps_acknowledged_ok w m i : live_at m i -> round_ok m i (ps_acknowledged w m i).
Proof.
  intros [Hi Hr]. destruct (parts m i Hi (proj1 Hr)) as (rel & obj & E1 & _). unfold ps_acknowledged, send_empty.
  rewrite E1, !Some_bind. set (empty := reliable_empty _). clearbody empty.
  set (p := if _ && empty then _ else _).
  assert (exists (go : bool) m1, p = (go, m1) /\ stepped m m1 i (if go then 1 else 0) /\ tm_opt m1 = tm_opt m /\
            (go = true -> tk_state (primary m1 i) = S_START)) as (go & m1 & -> & H1 & Eo & Hgo).
  { unfold p. destruct (Z.eqb_spec (tk_state (primary m i)) S_PRE_START) as [E|E]; [destruct empty|]; cbn [andb].
    - do 2 eexists. split; [done|]. split; [|split; [by destruct i|intros _; unfold set_state; by rewrite primary_set]].
      by apply stepped_state; rewrite ?E.
    - do 2 eexists. split; [done|]. split; [by apply stepped_refl|done].
    - do 2 eexists. split; [done|]. split; [by apply stepped_refl|done]. }
  destruct (_ && empty) eqn:Eb.
  2: { do 2 eexists. by split. }
  apply andb_true_iff in Eb as [Eb _]. destruct (active_ok w m1 i) as (m2 & -> & H2); [by eapply stepped_live|..].
  - unfold S_INITIAL, S_ACTIVE, S_GOT_KEY, S_SENT_KEY in *. lia.
  - rewrite Eo. unfold rank. destruct (to_server (tm_opt m)); cbn [negb andb orb] in Eb; rewrite ?andb_false_r, ?andb_true_r, ?orb_false_r in Eb;
      cbn [orb] in Eb; apply Z.eqb_eq in Eb; rewrite Eb; done.
  - do 2 eexists. split; [done|]. eapply stepped_le; [exact (stepped_trans _ _ _ _ _ _ H1 H2)|]. destruct go; lia.
Qed.

(** ** Packets out *)

Lemma ps_transmit_ok w m i l :
  live_at m i -> link_socket_actual_defined (tk_remote_addr (primary m i)) = true ->
  exists pkt m', ps_transmit w m i l = Some (pkt, m') /\ stepped m m' i 0 /\
    tk_state (primary m' i) = tk_state (primary m i).
Proof.
  intros [Hi Hr] Ha. destruct (parts m i Hi (proj1 Hr)) as (rel & obj & E1 & E2 & Hv & Hq & Hk & Hlo & Hl). unfold ps_transmit.
  rewrite E1, Some_bind. destruct (_ && _) eqn:Ec.
  2: { do 2 eexists. split; [done|]. split; [by apply stepped_refl|done]. }
  apply andb_true_iff in Ec as [_ Ec]. rewrite Ha. cbn [ASSERT]. rewrite Some_bind.
  destruct (transmit_any _ Hlo rel (w_now w) Hv Hk Ec) as (pkt & rel' & -> & Hv' & Hk' & Hq' & Hb). rewrite Some_bind.
  do 2 eexists. split; [done|]. split; [|by rewrite primary_set].
  eapply stepped_rel; try done; [by apply Hq'|lia].
Qed.

(** ** TLS *)

Lemma write_outgoing_ok m i : live_at m i -> step_ok m i (write_outgoing m i).
Proof.
  intros [Hi Hr]. destruct (parts m i Hi (proj1 Hr)) as (rel & obj & E1 & E2 & Hv & Hq & Hk & Hlo & Hl). unfold write_outgoing.
  rewrite E1, E2, !Some_bind. pose proof (avail_bound _ _ Hv) as Hav. unfold avail in Hav.
  destruct (Z.eqb_spec (reliable_get_num_output_sequenced_available (ks_send_reliable rel)) 0) as [E0|E0].
  { by apply step_waits. }
  destruct (write_any _ Hlo rel Hv Hq) as (maxlen & mx & tmp & Hsz & Hal & Hpos & Hout); [unfold avail; lia|].
  unfold avail in Hsz. rewrite Hsz, Some_bind, Hal, Some_bind.
  destruct (key_state_read_ciphertext obj maxlen) as [[st out] obj'] eqn:Er.
  set (k1 := set_tk_ks_ssl (primary m i) (Some obj')).
  assert (Hl1 : key_live true (to_frame (tm_opt m)) k1) by by apply live_ssl.
  assert (H1 : stepped m (set_primary m i k1) i 0).
  { apply stepped_set; [done|apply Hr|done|done|done|done|unfold key_work; cbn; lia]. }
  assert (Ec : ctl (set_primary m i k1) i = ctl m i) by by destruct i. rewrite Ec.
  destruct (st =? -1); [by eapply step_intro; [exact H1|]|]. destruct (Z.eqb_spec st 1) as [->|]; [|by eapply step_intro; [exact H1|]].
  destruct (tl_ciphertext _ _ _ _ _ Er eq_refl) as [Hob Hol].
  destruct (Hout out Hob Hol) as (Hlen & rel' & -> & Hv' & Hq' & Hb'). rewrite Hlen, Some_bind.
  rewrite primary_set, set_set_primary.
  apply (step_intro _ _ _ _ _ (if 0 <? zlen out then 1 else 0)); [|by destruct (0 <? zlen out)].
  apply stepped_set; [done|apply Hr|done|apply live_rel; [done|split; [done|by intros _]|exact Hk]|done|done|].
  unfold key_work. cbn [k1 set_tk_rel set_tk_ks_ssl tk_state tk_rel tk_plaintext_read_buf tk_plaintext_write_buf]. rewrite E1.
  destruct (0 <? zlen out); lia.
Qed.

Lemma check_outgoing_ok m i : live_at m i -> step_ok m i (check_outgoing m i).
Proof.
  intros [Hi Hr]. destruct (parts m i Hi (proj1 Hr)) as (rel & obj & E1 & E2 & Hv & Hq & Hk & Hlo & Hl). unfold check_outgoing.
  destruct (S_START <=? _); [|by apply step_waits]. rewrite E1, Some_bind. pose proof (output_any _ Hlo rel Hv Hq) as Ho.
  destruct (reliable_get_buf_output_sequenced _) as [[[j|] snd]|]; [| |done]; rewrite Some_bind.
  - destruct Ho as [(Hv1 & Hq1 & Hb1 & _) _]. set (m1 := set_primary m i _).
    assert (H1 : stepped m m1 i 0) by (eapply stepped_rel; try done; lia).
    destruct (write_outgoing_ok m1 i (stepped_live _ _ _ _ H1)) as (ok & go & m2 & -> & H2).
    eapply step_intro; [exact (stepped_trans _ _ _ _ _ _ H1 H2)|lia].
  - subst snd. rewrite same_send. apply (step_intro _ _ _ _ _ 0); [|done]. apply (stepped_rel m i rel); try done. cbn. lia.
Qed.

Lemma ps_incoming_ok m i : live_at m i -> step_ok m i (ps_incoming m i).
Proof.
  intros [Hi Hr]. destruct (parts m i Hi (proj1 Hr)) as (rel & obj & E1 & E2 & Hv & Hq & Hk & Hlo & Hl). unfold ps_incoming.
  rewrite E1, Some_bind. pose proof (incoming_any _ rel Hv Hq) as Hin.
  destruct (reliable_get_entry_sequenced _) as [j|]; [|by apply step_waits].
  destruct Hin as (e & rec & He & Hby & Hm & Hv' & Hq' & Hb & Hhard). rewrite He, Some_bind.
  assert (H1 : stepped m (set_primary m i (set_tk_rel (primary m i) (Some (set_rec_reliable rel rec)))) i 1).
  { apply (stepped_rel m i rel); try done. lia. }
  destruct (_ && _) eqn:Eh.
  - destruct (Hhard eq_refl) as [ok ->]. rewrite Some_bind.
    replace (set_resend_wkc rel false) with rel by (pose proof (rq_wkc _ Hq) as Hw; clear -Hw; destruct rel; cbn in Hw; by subst).
    destruct ok; cbn [negb].
    + rewrite Hm, Some_bind. by eapply step_intro; [exact H1|].
    + apply (step_intro _ _ _ _ _ 0); [|done]. apply (stepped_rel m i rel); try done. lia.
  - rewrite E2, Some_bind. destruct (if b_len (e_buf e) =? 0 then _ else _) as [st obj'].
    set (k1 := set_tk_ks_ssl (primary m i) (Some obj')).
    assert (Hl1 : key_live true (to_frame (tm_opt m)) k1) by by apply live_ssl.
    assert (H2 : stepped m (set_primary m i k1) i 0).
    { apply stepped_set; [done|apply Hr|done|done|done|done|unfold key_work; cbn; lia]. }
    destruct (st =? -1); [by eapply step_intro; [exact H2|]|]. destruct (st =? 1); [|by eapply step_intro; [exact H2|]].
    rewrite Hm, Some_bind. apply (step_intro _ _ _ _ _ 1); [|done].
    apply stepped_set; [done|apply Hr|done|apply live_rel; [done|split; [done|by intros _]|exact Hk]|done|done|].
    unfold key_work. cbn [k1 set_tk_rel set_tk_ks_ssl tk_state tk_rel tk_plaintext_read_buf tk_plaintext_write_buf]. rewrite E1. lia.
Qed.

End steps.
