(* ===== verification/TlsRounds.v ===== *)
(** * The rounds of the state machine end

    The steps of [tls_process_state] that exchange the keys, a whole round, and
    [tls_rounds]: whatever the TLS library answers and whatever has arrived, no assertion
    fails, and 64 rounds are enough. *)
From S2P Require Import Prelude Integers Buffer Frame PacketId EpochKeys EpochDerive Reliable AckList Windows SendWindow RecvWindow Control ControlNet ControlOne ControlAny Mroute KeyMethod KeyExpansion Handshake TlsSession TlsLife TlsAuth TlsProcess TlsMulti TlsReceive TlsRun TlsInv TlsText TlsSteps.

(** ** What reading the message changes *)

Section read.
Context `{TL : TlsLib} `{NL : NameLib} `{TK : TokenLib}.
Implicit Types (m : tls_multi) (i : tm_index).

Lemma core_set_primary m m' i k k' :
  multi_core m = multi_core m' -> key_core k = key_core k' -> multi_core (set_primary m i k) = multi_core (set_primary m' i k').
Proof.
  intros Em Ek. unfold multi_core, session_core in *. destruct i; cbn in *; congruence.
Qed.

Lemma authenticate_peer_core w m i msg : multi_core (authenticate_peer w m i msg).2 = multi_core m.
Proof.
  unfold authenticate_peer. destruct (_ || _); [apply set_authenticated_core|].
  destruct (tls_session_user_pass_enabled w); [destruct (_ || _)|]; [| |destruct (negb _); [done|apply set_authenticated_core]].
  - destruct (negb _); [done|apply verify_user_pass_core].
  - apply verify_user_pass_core.
Qed.

(** Two keys with the same core that have been changed in the same way. *)
Ltac core_eq E :=
  unfold key_core in *;
  cbn [set_tk_plaintext_read_buf set_tk_key_src set_tk_authenticated tk_state tk_key_id tk_ks_ssl tk_must_die tk_initial_opcode
    tk_session_id_remote tk_remote_addr tk_crypto tk_key_src tk_plaintext_read_buf tk_plaintext_write_buf tk_rel tk_must_negotiate] in *;
  injection E as ?E ?E ?E ?E ?E ?E ?E ?E ?E ?E ?E ?E ?E; congruence.

(** The message is gone and the key material of the peer is there. *)
Definition message_taken m i src : tls_multi :=
  let k := primary m i in
  set_primary m i (set_tk_plaintext_read_buf (set_tk_key_src k src) (buf_clear (tk_plaintext_read_buf k))).

Lemma taken_core m m1 i src :
  multi_core m1 = multi_core (set_primary m i (set_tk_key_src (primary m i) src)) ->
  multi_core (set_primary m1 i (set_tk_plaintext_read_buf (primary m1 i) (buf_clear (tk_plaintext_read_buf (primary m1 i)))))
    = multi_core (message_taken m i src).
Proof.
  intros E. pose proof (primary_core _ _ i E) as Ep. rewrite primary_set in Ep. unfold message_taken.
  rewrite <- (set_set_primary m i (set_tk_key_src (primary m i) src)). apply core_set_primary; [done|].
  core_eq Ep.
Qed.

Lemma read_core w m i :
  text_buf (tk_plaintext_read_buf (primary m i)) -> sources_ok (tk_key_src (primary m i)) ->
  exists src, sources_ok src /\ multi_core (key_method_2_read w m i).2 = multi_core (message_taken m i src).
Proof.
  intros Hb Hs. unfold key_method_2_read.
  destruct (text_read_message _ _ (to_server (tm_opt m)) Hb Hs) as (msg & src & -> & Hsrc).
  set (m0 := set_primary m i (set_tk_key_src (primary m i) src)).
  assert (Hfail : forall m1, multi_core m1 = multi_core m0 ->
    multi_core (set_primary m1 i (let k := set_tk_key_src (set_tk_authenticated (primary m1 i) KS_AUTH_FALSE) key_source2_zero in
      set_tk_plaintext_read_buf k (buf_clear (tk_plaintext_read_buf k)))) = multi_core (message_taken m i key_source2_zero)).
  { intros m1 E. unfold message_taken. rewrite <- (set_set_primary m i (set_tk_key_src (primary m i) src)).
    apply core_set_primary; [done|]. pose proof (primary_core _ _ i E) as Ep. unfold m0 in Ep. rewrite primary_set in Ep.
    core_eq Ep. }
  destruct msg as [msg|].
  2: { exists key_source2_zero. split; [apply zero_sources|]. by apply Hfail. }
  set (m1 := set_tm_peer_info _ _). pose proof (authenticate_peer_core w m1 i msg) as E.
  assert (E1 : multi_core m1 = multi_core m0).
  { unfold m1. change (multi_core (set_tm_peer_info ?x _)) with (multi_core x). apply set_authenticated_core. }
  destruct (authenticate_peer w m1 i msg) as [ok m2]. cbn [snd] in E. rewrite E1 in E. clearbody m1.
  destruct ok; cbn [negb]; [|exists key_source2_zero; split; [apply zero_sources|by apply Hfail]].
  exists src. split; [done|]. cbn [snd].
  set (m3 := if is_authenticated m2 i then _ else _).
  assert (E3 : multi_core m3 = multi_core m0) by (unfold m3; destruct (is_authenticated m2 i); [rewrite final_checks_core|]; done).
  pose proof (taken_core m m3 i src E3) as E4. destruct (w_plugin_final w); [|done]. destruct (_ && _); [|done].
  by rewrite set_authenticated_core.
Qed.
End read.

Section rounds.
Context `{CL : CryptoLib} `{PL : PrfLib} `{TL : TlsLib} `{!TlsLaws} `{NL : NameLib} `{TK : TokenLib}.
Implicit Types (m : tls_multi) (i : tm_index).

(** ** The exchange of the keys *)

Lemma ps_plaintext_ok m i wakeup :
  live_at m i -> exists ok go m' wakeup', ps_plaintext m i wakeup = Some (ok, go, m', wakeup') /\ stepped m m' i (cost ok go).
Proof.
  intros [Hi Hr]. destruct (parts m i Hi (proj1 Hr)) as (rel & obj & E1 & E2 & Hv & Hq & Hk & Hlo & Hl). unfold ps_plaintext.
  destruct (Z.eqb_spec (b_len (tk_plaintext_read_buf (primary m i))) 0) as [E0|E0].
  2: { do 4 eexists. split; [done|]. by apply stepped_refl. }
  rewrite E2, Some_bind. destruct (text_init _ (kl_read _ _ _ Hl)) as (b & -> & Hb). rewrite Some_bind. cbn [ASSERT]. rewrite Some_bind.
  assert (Hfc : buf_forward_capacity b = TLS_CHANNEL_BUF_SIZE).
  { unfold buf_forward_capacity. rewrite (rep_valid _ _ _ _ Hb), (rep_cap _ _ _ _ Hb), (rep_head _ _ _ _ Hb), (rep_len _ _ _ _ Hb). done. }
  rewrite Hfc. destruct (key_state_read_plaintext obj _) as [[[st out] obj'] ev] eqn:Er.
  assert (Hset : forall b' c, text_buf b' -> (if b_len b' =? 0 then 1 else 0) + c <= 1 ->
    stepped m (apply_cert_event (set_primary m i (set_tk_plaintext_read_buf (set_tk_ks_ssl (primary m i) (Some obj')) b')) i ev) i c).
  { intros b' c Hb' Hc. eapply stepped_core; [|apply apply_cert_event_core].
    apply stepped_set; [done|apply Hr|done|by apply live_read, Hb'; apply live_ssl|done|done|].
    unfold key_work. cbn [set_tk_plaintext_read_buf set_tk_ks_ssl tk_state tk_rel tk_plaintext_read_buf tk_plaintext_write_buf].
    rewrite E0. change (0 =? 0) with true. cbv iota. lia. }
  pose proof (rep_text _ _ _ Hb eq_refl) as Ht.
  assert (Hb0 : b_len b = 0) by by rewrite (rep_len _ _ _ _ Hb).
  destruct (st =? -1); [do 4 eexists; split; [done|apply Hset; [done|rewrite Hb0; cbn; lia]]|].
  destruct (Z.eqb_spec st 1) as [->|]; [|do 4 eexists; split; [done|apply Hset; [done|rewrite Hb0; cbn; lia]]].
  destruct (tl_plaintext _ _ _ _ _ _ Er eq_refl) as [Hob Hol].
  destruct (write_rep _ _ _ _ out Hb Hob) as (b' & -> & Hb'); [lia|]. do 4 eexists. split; [done|]. cbn [snd].
  apply Hset; [eapply rep_text; [exact Hb'|cbn [app]; lia]|]. rewrite (rep_len _ _ _ _ Hb'). cbn [app].
  replace (zlen out =? 0) with false by lia. cbn. lia.
Qed.

Lemma ps_send_key_ok w m i : live_at m i -> world_ok w -> step_ok m i (ps_send_key w m i).
Proof.
  intros [Hi Hr] Hw. destruct (parts m i Hi (proj1 Hr)) as (rel & obj & E1 & E2 & Hv & Hq & Hk & Hlo & Hl). unfold ps_send_key.
  destruct (_ && _) eqn:Ec; [|by apply step_waits]. apply andb_true_iff in Ec as [E0%Z.eqb_eq Ec].
  destruct (text_key_message (tk_plaintext_write_buf (primary m i)) (tk_key_src (primary m i)) (to_server (tm_opt m))
    (w_key_source w) (to_local_options (tm_opt m)) (w_user_pass w) (w_peer_info w)) as (ok & src & b & -> & Hsrc & Hb).
  { apply Hl. } { apply Hl. } { apply Hw. } { apply Hi. } { apply Hw. } { apply Hw. }
  rewrite Some_bind. set (k := set_tk_key_src _ src).
  assert (Hlk : key_live true (to_frame (tm_opt m)) k) by by apply live_src, Hsrc; apply live_write.
  destruct ok.
  - apply (step_intro _ _ _ _ _ 1); [|done].
    apply stepped_set; [done|done|done|apply live_state; [done| |done]|done|done|].
    + intros _. apply Hl. destruct (to_server (tm_opt m)); cbn [negb] in Ec; unfold S_INITIAL, S_ACTIVE, S_START, S_GOT_KEY in *; lia.
    + unfold key_work. cbn [k set_tk_state set_tk_key_src set_tk_plaintext_write_buf tk_state tk_rel tk_plaintext_read_buf tk_plaintext_write_buf].
      rewrite E0. change (0 =? 0) with true. cbv iota.
      assert (rank (to_server (tm_opt m)) (tk_state (primary m i)) = rank (to_server (tm_opt m)) S_SENT_KEY + 1).
      { destruct (to_server (tm_opt m)); cbn [negb] in Ec; rewrite ?andb_false_r, ?andb_true_r, ?orb_false_r in Ec; cbn [orb] in Ec;
          apply Z.eqb_eq in Ec; by rewrite Ec. }
      destruct (b_len b =? 0); lia.
  - apply (step_intro _ _ _ _ _ (-1)); [|done].
    apply stepped_set; [done|apply Hr|done|done|done|done|].
    unfold key_work. cbn [k set_tk_key_src set_tk_plaintext_write_buf tk_state tk_rel tk_plaintext_read_buf tk_plaintext_write_buf].
    rewrite E0. change (0 =? 0) with true. cbv iota. destruct (b_len b =? 0); lia.
Qed.

Lemma ps_receive_key_ok w m i : live_at m i -> step_ok m i (Some (ps_receive_key w m i)).
Proof.
  intros [Hi Hr]. destruct (parts m i Hi (proj1 Hr)) as (rel & obj & E1 & E2 & Hv & Hq & Hk & Hlo & Hl). unfold ps_receive_key.
  destruct (_ && _) eqn:Ec; [|by apply step_waits]. apply andb_true_iff in Ec as [E0 Ec]. rewrite negb_true_iff in E0.
  destruct (read_core w m i (kl_read _ _ _ Hl) (kl_src _ _ _ Hl)) as (src & Hsrc & Ecore).
  destruct (text_clear _ (kl_read _ _ _ Hl)) as [Htc Hz].
  assert (Hlk : key_live true (to_frame (tm_opt m))
    (set_tk_plaintext_read_buf (set_tk_key_src (primary m i) src) (buf_clear (tk_plaintext_read_buf (primary m i))))).
  { apply live_read; [|done]. by apply live_src. }
  destruct (key_method_2_read w m i) as [ok m']. cbn [snd] in Ecore. pose proof (primary_core _ _ i Ecore) as Ep.
  unfold message_taken in Ep. rewrite primary_set in Ep.
  destruct ok.
  - apply (step_intro _ _ _ _ _ 1); [|done]. unfold set_state.
    eapply stepped_core; [|apply core_set_primary; [exact Ecore|reflexivity]].
    unfold message_taken. rewrite set_set_primary.
    assert (Hlk' : key_live true (to_frame (tm_opt m)) (primary m' i)) by by eapply key_live_core.
    unfold key_core in Ep. cbn [set_tk_plaintext_read_buf set_tk_key_src tk_state tk_rel tk_plaintext_read_buf tk_plaintext_write_buf
      tk_key_id tk_remote_addr] in Ep.
    injection Ep as P1 P2 P3 P4 P5 P6 P7 P8 P9 P10 P11 P12 P13.
    apply stepped_set; [done|done|done|apply live_state; [done| |done]|done|done|].
    + rewrite P8. intros _. apply Hl. destruct (to_server (tm_opt m)); cbn [negb] in Ec; unfold S_INITIAL, S_ACTIVE, S_START, S_SENT_KEY in *; lia.
    + unfold key_work. cbn [set_tk_state tk_state tk_rel tk_plaintext_read_buf tk_plaintext_write_buf]. rewrite P10, P11, P12, E0, Hz.
      change (0 =? 0) with true. cbv iota.
      assert (rank (to_server (tm_opt m)) (tk_state (primary m i)) = rank (to_server (tm_opt m)) S_GOT_KEY + 1).
      { destruct (to_server (tm_opt m)); cbn [negb] in Ec; rewrite ?andb_false_r, ?andb_true_r, ?orb_false_r in Ec; cbn [orb] in Ec;
          apply Z.eqb_eq in Ec; by rewrite Ec. }
      lia.
  - apply (step_intro _ _ _ _ _ (-1)); [|done]. eapply stepped_core; [|exact Ecore].
    apply stepped_set; [done|apply Hr|done|done|done|done|].
    unfold key_work. cbn [set_tk_plaintext_read_buf set_tk_key_src tk_state tk_rel tk_plaintext_read_buf tk_plaintext_write_buf].
    rewrite E0, Hz. change (0 =? 0) with true. cbv iota. lia.
Qed.

Lemma ps_write_plaintext_ok m i : live_at m i -> step_ok m i (ps_write_plaintext m i).
Proof.
  intros [Hi Hr]. destruct (parts m i Hi (proj1 Hr)) as (rel & obj & E1 & E2 & Hv & Hq & Hk & Hlo & Hl). unfold ps_write_plaintext.
  destruct (b_len (tk_plaintext_write_buf (primary m i)) =? 0) eqn:E0; cbn [negb]; [by apply step_waits|].
  rewrite E2, Some_bind. destruct (key_state_write_plaintext obj _) as [[st obj'] ev].
  set (k1 := set_tk_ks_ssl (primary m i) (Some obj')).
  assert (H1 : stepped m (apply_cert_event (set_primary m i k1) i ev) i 0).
  { eapply stepped_core; [|apply apply_cert_event_core].
    apply stepped_set; [done|apply Hr|done|by apply live_ssl|done|done|unfold key_work; cbn; lia]. }
  destruct (st =? -1); [by eapply step_intro; [exact H1|]|]. destruct (st =? 1); [|by eapply step_intro; [exact H1|]].
  apply (step_intro _ _ _ _ _ 1); [|done]. eapply stepped_core; [|apply apply_cert_event_core].
  change (mk_buffer _ _ 0 _) with (buf_no_len (tk_plaintext_write_buf (primary m i))).
  destruct (text_no_len _ (kl_write _ _ _ Hl)) as [Ht Hz].
  apply stepped_set; [done|apply Hr|done|by apply live_write, Ht; apply live_ssl|done|done|].
  unfold key_work. cbn [k1 set_tk_plaintext_write_buf set_tk_ks_ssl tk_state tk_rel tk_plaintext_read_buf tk_plaintext_write_buf].
  rewrite E0, Hz. change (0 =? 0) with true. cbv iota. lia.
Qed.

(** ** A whole round *)

(** The session of [i] may have changed, nothing else. *)
Record kept (m m' : tls_multi) (i : tm_index) : Prop := {
  kp_inv : multi_inv true m';
  kp_opt : tm_opt m' = tm_opt m;
  kp_addr : tk_remote_addr (primary m' i) = tk_remote_addr (primary m i);
  kp_state : tk_state (primary m' i) <> S_UNDEF;
  kp_other : forall j, j <> i -> session_core (get_session m' j) = session_core (get_session m j)
}.

Lemma kept_refl m i : multi_inv true m -> tk_state (primary m i) <> S_UNDEF -> kept m m i.
Proof. by split. Qed.

Lemma kept_trans m m1 m2 i : kept m m1 i -> kept m1 m2 i -> kept m m2 i.
Proof. intros [A1 A2 A3 A4 A5] [B1 B2 B3 B4 B5]. split; try done; try congruence. intros j Hj. by rewrite B5, A5. Qed.

Lemma stepped_kept m m' i c : stepped m m' i c -> kept m m' i.
Proof. intros [[A1 A2 A3 [A4 _] A5 _] _]. by split. Qed.

Lemma kept_state m i st :
  multi_inv true m -> tk_state (primary m i) <> S_UNDEF -> st < S_UNDEF -> kept m (set_state m i st) i.
Proof.
  intros Hi Hu Hst. unfold S_UNDEF in Hst. unfold set_state. split; rewrite ?primary_set; try done.
  - apply inv_set_primary; [done|done|cbn; unfold S_UNDEF; lia| |done].
    apply live_state; [by apply inv_primary| |]; unfold S_INITIAL, S_GENERATED_KEYS; lia.
  - apply opt_set_session.
  - cbn. unfold S_UNDEF. lia.
  - intros j Hj. unfold set_primary. by rewrite get_set_session, decide_False.
Qed.

(** After an error nothing but [S_ERROR] is left. *)
Definition failed m m' i : Prop := kept m m' i /\ tk_state (primary m' i) = S_ERROR_PRE.

Lemma tls_error_ok m0 m i :
  kept m0 m i -> running (tk_state (primary m i)) -> exists m', tls_error m i = Some m' /\ failed m0 m' i.
Proof.
  intros Hk0 Hr. pose proof (kp_inv _ _ _ Hk0) as Hi.
  destruct (parts m i Hi (proj1 Hr)) as (rel & obj & E1 & E2 & Hv & Hq & Hk & Hlo & Hl). unfold tls_error.
  rewrite E2, Some_bind. set (m1 := set_primary m i _).
  assert (H1 : stepped m m1 i 0).
  { apply stepped_set; [done|apply Hr|done|by apply live_ssl|done|done|unfold key_work; cbn; lia]. }
  destruct (check_outgoing_ok m1 i (stepped_live _ _ _ _ H1)) as (ok & go & m2 & -> & H2). rewrite Some_bind.
  eexists. split; [done|]. split; [|unfold set_state; by rewrite primary_set].
  pose proof (stepped_kept _ _ _ _ (stepped_trans _ _ _ _ _ _ H1 H2)) as H3.
  eapply kept_trans; [exact Hk0|]. eapply kept_trans; [exact H3|]. apply kept_state; [apply H3|apply (kp_state _ _ _ H3)|done].
Qed.

(** What a round comes to: it asks for another one only after progress or an error. *)
Definition round_result m i (go : bool) m' : Prop :=
  (exists c, stepped m m' i c /\ (if go then 1 else 0) <= c) \/ (go = true /\ failed m m' i).

Lemma error_result m0 m i c (w : Z) :
  stepped m0 m i c ->
  exists go m' w', (m' ← tls_error m i; Some (true, m', w)) = Some (go, m', w') /\ round_result m0 i go m'.
Proof.
  intros Hs. destruct (stepped_live _ _ _ _ Hs) as [_ Hr].
  destruct (tls_error_ok m0 m i (stepped_kept _ _ _ _ Hs) Hr) as (m' & -> & Hf). rewrite Some_bind.
  do 3 eexists. split; [done|]. by right.
Qed.

Lemma tls_exchange_ok w m0 m i (go : bool) wakeup :
  world_ok w -> stepped m0 m i (if go then 1 else 0) ->
  exists go' m' wakeup', tls_exchange w m i go wakeup = Some (go', m', wakeup') /\ round_result m0 i go' m'.
Proof.
  intros Hw Hs. unfold tls_exchange.
  destruct (ps_incoming_ok m i (stepped_live _ _ _ _ Hs)) as (ok & c1 & m1 & -> & Hst). rewrite Some_bind.
  pose proof (stepped_trans _ _ _ _ _ _ Hs Hst) as Hs1. clear Hst. destruct ok; cbn [negb cost] in *; [|by eapply error_result].
  destruct (ps_plaintext_ok m1 i wakeup (stepped_live _ _ _ _ Hs1)) as (ok & c2 & m2 & wk & -> & Hst). rewrite Some_bind.
  pose proof (stepped_trans _ _ _ _ _ _ Hs1 Hst) as Hs2. clear Hst. destruct ok; cbn [negb cost] in *; [|by eapply error_result].
  destruct (ps_send_key_ok w m2 i (stepped_live _ _ _ _ Hs2) Hw) as (ok & c3 & m3 & -> & Hst). rewrite Some_bind.
  pose proof (stepped_trans _ _ _ _ _ _ Hs2 Hst) as Hs3. clear Hst. destruct ok; cbn [negb cost] in *; [|by eapply error_result].
  destruct (ps_receive_key_ok w m3 i (stepped_live _ _ _ _ Hs3)) as (ok & c4 & m4 & -> & Hst). rewrite Some_bind.
  pose proof (stepped_trans _ _ _ _ _ _ Hs3 Hst) as Hs4. clear Hst. destruct ok; cbn [negb cost] in *; [|by eapply error_result].
  destruct (ps_write_plaintext_ok m4 i (stepped_live _ _ _ _ Hs4)) as (ok & c5 & m5 & -> & Hst). rewrite Some_bind.
  pose proof (stepped_trans _ _ _ _ _ _ Hs4 Hst) as Hs5. clear Hst. destruct ok; cbn [negb cost] in *; [|by eapply error_result].
  destruct (check_outgoing_ok m5 i (stepped_live _ _ _ _ Hs5)) as (ok & c6 & m6 & -> & Hst). rewrite Some_bind.
  pose proof (stepped_trans _ _ _ _ _ _ Hs5 Hst) as Hs6. clear Hst. destruct ok; cbn [negb cost] in *; [|by eapply error_result].
  do 3 eexists. split; [done|]. left. eexists. split; [exact Hs6|]. destruct go, c1, c2, c3, c4, c5, c6; cbn; lia.
Qed.

Definition addressed m i : Prop := link_socket_actual_defined (tk_remote_addr (primary m i)) = true.

Lemma error_acknowledged w m i go m' :
  tk_state (primary m i) = S_ERROR_PRE -> ps_acknowledged w m i = Some (go, m') -> tk_state (primary m' i) = S_ERROR_PRE.
Proof.
  intros Hp. unfold ps_acknowledged. destruct (send_empty (primary m i)) as [e|]; [|done]. rewrite Some_bind, Hp.
  change (S_ERROR_PRE =? S_PRE_START) with false. cbn [andb]. rewrite Hp. change (S_ERROR_PRE =? S_GOT_KEY) with false.
  change (S_ERROR_PRE =? S_SENT_KEY) with false. cbn [andb orb]. by intros [= <- <-].
Qed.

Lemma tls_process_state_ok w m i l wakeup :
  world_ok w -> live_at m i -> addressed m i ->
  exists go m' l' wakeup', tls_process_state w m i l wakeup = Some (go, m', l', wakeup') /\
    ((tk_state (primary m i) <> S_ERROR_PRE /\ round_result m i go m') \/ (go = false /\ kept m m' i)).
Proof.
  intros Hw Hlv Ha. unfold tls_process_state.
  destruct (ps_start_ok w m i Hlv) as (c0 & m1 & E & H1). rewrite E, Some_bind. pose proof (stepped_live _ _ _ _ H1) as Hlv1.
  destruct (timed_out w (primary m1 i)) eqn:Et.
  - destruct (tls_error_ok m m1 i (stepped_kept _ _ _ _ H1)) as (m' & -> & Hf); [apply Hlv1|]. rewrite Some_bind.
    do 4 eexists. split; [done|]. left. split; [|by right]. intros Hp.
    unfold ps_start in E. rewrite Hp in E. injection E as <- <-. unfold timed_out in Et. rewrite Hp in Et.
    unfold S_ERROR_PRE, S_UNDEF in Et. lia.
  - destruct (ps_acknowledged_ok w m1 i Hlv1) as (c1 & m2 & Eack & H2). rewrite Eack, Some_bind.
    pose proof (stepped_trans _ _ _ _ _ _ H1 H2) as Hs2.
    destruct (ps_transmit_ok w m2 i l (stepped_live _ _ _ _ Hs2)) as (pkt & m3 & -> & H3 & Est).
    { rewrite (mv_addr _ _ _ _ (sp_moved _ _ _ _ Hs2)). exact Ha. }
    rewrite Some_bind. pose proof (stepped_trans _ _ _ _ _ _ Hs2 H3) as Hs3. pose proof (stepped_kept _ _ _ _ Hs3) as Hk3.
    destruct pkt as [p|]; [by do 4 eexists; split; [done|right]|].
    destruct (Z.eqb_spec (tk_state (primary m3 i)) S_ERROR_PRE) as [Hp|Hp].
    { do 4 eexists. split; [done|]. right. split; [done|]. eapply kept_trans; [exact Hk3|]. by apply kept_state; [apply Hk3|apply (kp_state _ _ _ Hk3)|]. }
    destruct (tls_exchange_ok w m m3 i (c0 || c1) wakeup Hw) as (go & m4 & wk & -> & Hres).
    { eapply stepped_le; [exact Hs3|]. destruct c0, c1; cbn; lia. }
    rewrite Some_bind. do 4 eexists. split; [done|]. left. split; [|exact Hres]. intros Hp0.
    apply Hp. rewrite Est. assert (m1 = m) as -> by (unfold ps_start in E; rewrite Hp0 in E; by injection E as <- <-).
    by rewrite (error_acknowledged _ _ _ _ _ Hp0 Eack).
Qed.
(** In [S_ERROR_PRE] there is a packet to send, or the error is final. *)
Lemma error_round w m i l wakeup :
  live_at m i -> addressed m i -> tk_state (primary m i) = S_ERROR_PRE ->
  exists m' l', tls_process_state w m i l wakeup = Some (false, m', l', wakeup) /\
    (tk_state (primary m' i) = S_ERROR \/ (tk_state (primary m' i) = S_ERROR_PRE /\ exists p, l' = LinkPacket p)).
Proof.
  intros Hlv Ha Hp. unfold tls_process_state. assert (Es : ps_start w m i = Some (false, m)) by (unfold ps_start; by rewrite Hp).
  rewrite Es, Some_bind. assert (Et : timed_out w (primary m i) = false).
  { unfold timed_out. rewrite Hp. change (S_UNDEF <=? S_ERROR_PRE) with false. by rewrite andb_false_r. }
  rewrite Et. destruct (ps_acknowledged_ok w m i Hlv) as (c1 & m1 & Eack & H1). rewrite Eack, Some_bind.
  pose proof (error_acknowledged _ _ _ _ _ Hp Eack) as Hp1.
  destruct (ps_transmit_ok w m1 i l (stepped_live _ _ _ _ H1)) as (pkt & m2 & -> & _ & Hp2).
  { rewrite (mv_addr _ _ _ _ (sp_moved _ _ _ _ H1)). exact Ha. }
  rewrite Some_bind. destruct pkt as [p|].
  - do 2 eexists. split; [done|]. right. split; [congruence|by eexists].
  - rewrite Hp2, Hp1. do 2 eexists. split; [done|]. left. unfold set_state. by rewrite primary_set.
Qed.

(** ** All rounds *)

(** After an error there is one round left. *)
Definition rounds_left m i : Z := if tk_state (primary m i) =? S_ERROR_PRE then 0 else work m i + 1.

Lemma rounds_left_work m i : tk_state (primary m i) <> S_ERROR_PRE -> rounds_left m i = work m i + 1.
Proof. intros Hne. unfold rounds_left. by rewrite (proj2 (Z.eqb_neq _ _) Hne). Qed.

Lemma work_range m i : live_at m i -> 0 <= work m i <= 32.
Proof.
  intros [Hi Hr]. destruct (parts m i Hi (proj1 Hr)) as (rel & obj & _ & _ & _ & _ & _ & Hlo & Hl).
  apply (work_bound _ _ _ _ Hl). by exists (ctl m i).
Qed.

Lemma rounds_left_bound m i : live_at m i -> 0 <= rounds_left m i <= 33.
Proof. intros Hl. pose proof (work_range m i Hl). unfold rounds_left. destruct (_ =? _); lia. Qed.

Lemma tls_rounds_step fuel w m i l wakeup :
  tls_rounds (S fuel) w m i l wakeup =
    ('(go, m, l, wakeup) ← tls_process_state w m i l wakeup;
     if (tk_state (primary m i) =? S_ERROR) || negb (go : bool) then Some (m, l, wakeup) else tls_rounds fuel w m i l wakeup).
Proof. done. Qed.

Lemma tls_rounds_ok fuel w m i l wakeup :
  world_ok w -> live_at m i -> addressed m i -> rounds_left m i < Z.of_nat fuel ->
  exists m' l' wakeup', kept m m' i /\
    forall extra, tls_rounds (fuel + extra) w m i l wakeup = Some (m', l', wakeup').
Proof.
  intros Hw. revert m l wakeup. induction fuel as [|fuel IH]; intros m l wakeup Hlv Ha Hf.
  { pose proof (rounds_left_bound m i Hlv). lia. }
  destruct (tls_process_state_ok w m i l wakeup Hw Hlv Ha) as (go & m1 & l1 & wk1 & E & Hres).
  assert (Hk : kept m m1 i).
  { destruct Hres as [[_ [(c & Hs & _)|[_ [Hk _]]]]|[_ Hk]]; [by eapply stepped_kept|done..]. }
  cbn [Nat.add tls_rounds]. rewrite E. cbn [mbind option_bind].
  destruct (_ || negb go) eqn:Estop; [by do 3 eexists|]. apply orb_false_iff in Estop as [Hne Hgo]. rewrite negb_false_iff in Hgo.
  subst go. destruct Hres as [[Hne0 Hres]|[? _]]; [|done].
  assert (Hlv1 : live_at m1 i) by (split; [apply Hk|]; split; [apply (kp_state _ _ _ Hk)|by apply Z.eqb_neq]).
  destruct (IH m1 l1 wk1 Hlv1) as (m2 & l2 & wk2 & Hk2 & E2).
  - unfold addressed. by rewrite (kp_addr _ _ _ Hk).
  - rewrite (rounds_left_work m i Hne0) in Hf. destruct Hres as [(c & Hs & Hc)|[_ [_ Hf1]]].
    + pose proof (sp_pre _ _ _ _ Hs Hne0) as Hne1. pose proof (mv_work _ _ _ _ (sp_moved _ _ _ _ Hs)).
      rewrite (rounds_left_work m1 i Hne1). lia.
    + unfold rounds_left. rewrite Hf1. pose proof (work_range m i Hlv). change (S_ERROR_PRE =? S_ERROR_PRE) with true. lia.
  - do 3 eexists. split; [by eapply kept_trans|exact E2].
Qed.
End rounds.
