(* ===== verification/TlsServe.v ===== *)
(** * Serving the sessions does not fail

    [tls_process], the treatment of a session that has failed, the generation of the data
    channel keys, and [tls_multi_process]: from any state of the invariant they come to
    another one. *)
From S2P Require Import Prelude Integers Buffer Frame PacketId Replay EpochKeys EpochDerive EpochInv DataChannel DataSafety DataSend Data Reliable AckList Windows SendWindow RecvWindow Control ControlNet ControlOne ControlAny Mroute KeyMethod KeyExpansion Handshake TlsSession TlsLife TlsAuth TlsProcess TlsMulti TlsReceive TlsRun TlsInv TlsText TlsSteps TlsRounds.

Section serve.
Context `{CL : CryptoLib} `{Cok : !CryptoLaws} `{PL : PrfLib} `{Pok : !PrfLaws} `{TL : TlsLib} `{Tok : !TlsLaws} `{NL : NameLib} `{TK : TokenLib}.
Implicit Types (m : tls_multi) (i : tm_index).

(** ** One session *)

Lemma free_lame_ok m i :
  multi_inv true m -> tk_state (primary m i) <> S_UNDEF ->
  kept m (set_session m i (set_ts_lame (get_session m i) (key_state_free (ts_lame (get_session m i)) true))) i.
Proof.
  intros Hi Hu. set (s := set_ts_lame _ _). assert (Ep : primary (set_session m i s) i = primary m i) by (unfold primary; by rewrite get_set_eq).
  split; rewrite ?Ep; try done.
  - apply inv_set_session; [done|]. destruct (proj2 Hi i). by split.
  - apply opt_set_session.
  - intros j Hj. by rewrite get_set_session, decide_False.
Qed.

Lemma soft_reset_kept now m i :
  multi_inv true m -> tk_state (primary m i) <> S_UNDEF -> 0 < now ->
  exists m', key_state_soft_reset now m i = Some m' /\ kept m m' i /\ key_fresh (primary m' i).
Proof.
  intros Hi Hu Hn. destruct (soft_reset_ok true m i now Hi Hu Hn) as (m' & E & H1 & H2 & H3 & _ & H5 & H6).
  exists m'. split; [done|]. split; [|done]. split; try done. by rewrite (kf_state _ H3).
Qed.

Lemma tp_acknowledge_ok m i l :
  live_at m i -> addressed m i -> exists ok m' l', tp_acknowledge m i l = Some (ok, m', l') /\ stepped m m' i 0.
Proof.
  intros [Hi Hr] Ha. destruct (parts m i Hi (proj1 Hr)) as (rel & obj & E1 & E2 & Hv & Hq & Hk & Hlo & Hl). unfold tp_acknowledge.
  rewrite E1, Some_bind. destruct (link_free l && _) eqn:Ec.
  2: { do 3 eexists. split; [done|]. by apply stepped_refl. }
  apply andb_true_iff in Ec as [_ Ec]. unfold control_packet_needs_wkc. rewrite (rq_wkc _ Hq). cbn [andb].
  unfold addressed in Ha. rewrite Ha. cbn [ASSERT]. rewrite Some_bind.
  destruct (ack_any _ Hlo rel Hv Hk Hq) as (pkt & rel' & -> & Hv' & Hk' & Hq' & Hb); [by intros En; rewrite En in Ec|].
  rewrite !Some_bind. do 3 eexists. split; [done|]. eapply stepped_rel; try done. lia.
Qed.

Lemma lame_duck_ok now m i wakeup :
  multi_inv true m -> exists die wakeup', lame_duck_must_die now (get_session m i) wakeup = Some (die, wakeup').
Proof.
  intros [_ Hs]. unfold lame_duck_must_die. destruct (Z.leb_spec S_INITIAL (tk_state (ts_lame (get_session m i)))) as [Hl|Hl].
  - rewrite ASSERT_true; [rewrite Some_bind; destruct (_ <? _); by do 2 eexists|].
    rewrite negb_true_iff, Z.eqb_neq. apply (sn_die _ _ _ (Hs i)). unfold S_INITIAL, S_UNDEF in *. lia.
  - destruct (_ =? _); by do 2 eexists.
Qed.

Lemma tp_wakeup_ok w m i wakeup : multi_inv true m -> tk_state (primary m i) <> S_UNDEF -> is_Some (tp_wakeup w m i wakeup).
Proof.
  intros Hi Hu. destruct (parts m i Hi Hu) as (rel & obj & E1 & _). unfold tp_wakeup. rewrite E1, Some_bind. done.
Qed.

Lemma tls_process_ok w m i l wakeup :
  world_ok w -> live_at m i -> addressed m i ->
  exists active m' l' wakeup', tls_process w m i l wakeup = Some (active, m', l', wakeup') /\ kept m m' i.
Proof.
  intros Hw [Hi Hr] Ha. unfold tls_process. destruct Hr as [Hu He].
  rewrite (proj2 (Z.eqb_neq _ _) Hu), (proj2 (Z.eqb_neq _ _) He), (sn_defined _ _ _ (proj2 Hi i) Hu). cbn [negb ASSERT]. rewrite !Some_bind.
  set (reset := _ && should_trigger_renegotiation _ _ _).
  assert (exists m1 l1, (if reset then m' ← key_state_soft_reset (w_now w) m i; Some (m', release [ts_lame (get_session m i)] l)
           else Some (m, l)) = Some (m1, l1) /\ kept m m1 i /\ running (tk_state (primary m1 i))) as (m1 & l1 & -> & Hk1 & Hr1).
  { destruct reset.
    - destruct (soft_reset_kept (w_now w) m i Hi Hu (wo_now _ Hw)) as (m1 & -> & Hk1 & Hf). rewrite Some_bind. do 2 eexists.
      split; [done|]. split; [done|]. rewrite (kf_state _ Hf). by split.
    - do 2 eexists. split; [done|]. split; [by apply kept_refl|by split]. }
  rewrite Some_bind. destruct (lame_duck_ok (w_now w) m1 i wakeup (kp_inv _ _ _ Hk1)) as (die & wk1 & ->). rewrite Some_bind.
  generalize (if die then release [ts_lame (get_session m1 i)] l1 else l1). intros l2.
  set (m2 := if die then _ else m1). assert (Hk2 : kept m m2 i /\ running (tk_state (primary m2 i))).
  { unfold m2. destruct die; [|done]. split; [eapply kept_trans; [exact Hk1|apply free_lame_ok; [apply Hk1|apply (kp_state _ _ _ Hk1)]]|].
    unfold primary. by rewrite get_set_eq. }
  destruct Hk2 as [Hk2 Hr2]. clearbody m2. clear m1 l1 Hk1 Hr1 die reset.
  assert (Hlv : live_at m2 i) by (split; [apply Hk2|done]).
  assert (Ha2 : addressed m2 i) by (unfold addressed; by rewrite (kp_addr _ _ _ Hk2)).
  destruct (tls_rounds_ok TLS_ROUNDS w m2 i l2 wk1 Hw Hlv Ha2) as (m3 & l3 & wk3 & Hk3 & E3).
  { pose proof (rounds_left_bound m2 i Hlv). unfold TLS_ROUNDS. lia. }
  specialize (E3 0%nat). rewrite Nat.add_0_r in E3. rewrite E3, Some_bind. pose proof (kept_trans _ _ _ _ Hk2 Hk3) as Hk.
  destruct (Z.eqb_spec (tk_state (primary m3 i)) S_ERROR) as [Es|Es]; [by do 4 eexists|].
  destruct (tp_acknowledge_ok m3 i l3) as (ok & m4 & l4 & -> & Hs4).
  { split; [apply Hk|]. split; [apply (kp_state _ _ _ Hk)|done]. }
  { unfold addressed. by rewrite (kp_addr _ _ _ Hk). }
  rewrite Some_bind. pose proof (kept_trans _ _ _ _ Hk (stepped_kept _ _ _ _ Hs4)) as Hk4.
  destruct ok; cbn [negb]; [|by do 4 eexists].
  destruct (tp_wakeup_ok w m4 i wk3 (kp_inv _ _ _ Hk4) (kp_state _ _ _ Hk4)) as [wk4 ->]. rewrite Some_bind.
  destruct (wk4 <=? 0); by do 4 eexists.
Qed.

(** ** A session that has failed *)

Lemma settled_other m m' i :
  settled m -> (forall j, j <> i -> session_core (get_session m' j) = session_core (get_session m j)) ->
  running (tk_state (primary m' i)) -> settled m'.
Proof.
  intros [H1 H2] Ho Hr.
  assert (Hst : forall j, j <> i -> tk_state (primary m' j) = tk_state (primary m j)).
  { intros j Hj. specialize (Ho j Hj). unfold session_core, key_core in Ho. unfold primary. congruence. }
  split; [destruct (decide (i = TM_ACTIVE)) as [->|]|destruct (decide (i = TM_INITIAL)) as [->|]]; rewrite ?Hst by congruence; done.
Qed.

Lemma fresh_running k : key_fresh k -> running (tk_state k).
Proof. intros [-> _]. by split. Qed.

Lemma handle_error_ok m i l :
  multi_inv true m ->
  (forall j, j <> i -> j = TM_ACTIVE \/ j = TM_INITIAL -> running (tk_state (primary m j))) ->
  exists m' l' error, handle_error m i l = Some (m', l', error) /\ multi_inv true m' /\ settled m'.
Proof.
  intros Hi Hoth. unfold handle_error. set (m1 := add_soft_error m). set (error := bool_decide _ || _).
  assert (Hi1 : multi_inv true m1) by by apply (multi_inv_core true m).
  assert (Hst : forall m' j, session_core (get_session m' j) = session_core (get_session m j) ->
            tk_state (primary m' j) = tk_state (primary m j)).
  { intros m' j E. unfold session_core, key_core in E. unfold primary. congruence. }
  destruct (_ && negb (to_single_session _)) eqn:Ec.
  - apply andb_true_iff in Ec as [[->%bool_decide_eq_true _]%andb_true_iff _].
    destruct (move_session_ok true m1 TM_LAME_DUCK TM_ACTIVE Hi1) as (m2 & -> & H2 & _ & _ & Hf & Ho); [done|]. rewrite Some_bind.
    do 3 eexists. split; [done|]. split; [done|]. split; [by apply fresh_running|].
    rewrite (Hst m2 TM_INITIAL); [by apply Hoth; [|right]|by apply Ho].
  - destruct (reset_session_ok true m1 i Hi1) as (m2 & -> & H2 & _ & Hf & Ho). rewrite Some_bind.
    do 3 eexists. split; [done|]. split; [done|]. apply fresh_running in Hf.
    split; [destruct (decide (i = TM_ACTIVE)) as [->|]|destruct (decide (i = TM_INITIAL)) as [->|]]; try done;
      (rewrite (Hst m2); [apply Hoth; [congruence|tauto]|apply Ho; congruence]).
Qed.

Lemma process_one_ok w actual i st :
  world_ok w -> multi_inv true (mp_m st) -> settled (mp_m st) ->
  exists st', process_one w actual i st = Some st' /\ multi_inv true (mp_m st') /\ settled (mp_m st').
Proof.
  intros Hw Hi Hs. unfold process_one. set (m := mp_m st) in *. set (k := primary m i).
  set (m0 := if _ && _ && _ && _ then _ else m).
  assert (H0 : multi_inv true m0 /\ settled m0 /\ tm_opt m0 = tm_opt m).
  { unfold m0. destruct (_ && _) eqn:Ec; [|done]. apply andb_true_iff in Ec as [Ec Ha].
    assert (i = TM_INITIAL) as -> by (destruct i; done). destruct Hs as [Hs1 Hs2].
    split; [|split; [by split|done]]. apply inv_set_primary; [done|apply Hs2|apply Hs2| |done].
    destruct (inv_primary _ _ TM_INITIAL Hi (proj1 Hs2)) as [K1 (rel & K2 & K3 & [P1 P2 P3]) K4 K5 K6 K7 K8 K9 K10].
    split; try done. exists rel. split; [done|]. split; [done|]. split; [done| |done]. intros _. cbn.
    by intros ->. }
  destruct H0 as (Hi0 & Hs0 & _). clearbody m0.
  destruct (_ && link_socket_actual_defined _) eqn:Ec; [|by eexists].
  apply andb_true_iff in Ec as [Ec Ha].
  assert (Hr : running (tk_state (primary m0 i))).
  { unfold running, S_INITIAL, S_ERROR_PRE, S_UNDEF, S_ERROR in *. lia. }
  destruct (tls_process_ok w m0 i (mp_link st) (mp_wakeup st) Hw) as (act & m1 & l1 & wk1 & -> & Hk); [by split|done|].
  rewrite Some_bind. pose proof (kp_other _ _ _ Hk) as Ho.
  destruct (Z.eqb_spec (tk_state (primary m1 i)) S_ERROR) as [He|He].
  - destruct (handle_error_ok m1 i l1) as (m2 & l2 & er & -> & Hi2 & Hs2).
    { apply Hk. }
    { intros j Hj Hj'. specialize (Ho j Hj). unfold session_core, key_core in Ho. unfold primary.
      assert (tk_state (ts_primary (get_session m1 j)) = tk_state (ts_primary (get_session m0 j))) as -> by congruence.
      destruct Hs0, Hj' as [-> | ->]; done. }
    rewrite Some_bind. by eexists.
  - eexists. split; [done|]. split; [apply Hk|]. apply (settled_other m0 m1 i); [done|done|].
    split; [apply (kp_state _ _ _ Hk)|done].
Qed.
End serve.

(** ** Data channel keys, and all sessions together

    The keys of the data channel are generated, or the session fails; the session that is
    being negotiated may take the place of the active one; and so [tls_multi_process] comes
    from one state of the invariant to another. *)

Section generate.
Context `{CL : CryptoLib} `{Cok : !CryptoLaws} `{PL : PrfLib} `{Pok : !PrfLaws} `{TL : TlsLib} `{Tok : !TlsLaws} `{NL : NameLib} `{TK : TokenLib}.
Implicit Types (m : tls_multi) (i : tm_index).

(** ** The expansion, for one end *)

Lemma expansion_refused xp co co' : generate_key_expansion xp co = Some (false, co') -> co' = co.
Proof.
  unfold generate_key_expansion. destruct (co_initialized co); [by intros [= <-]|].
  destruct (if xp_export xp then _ else _) as [[k2|]|]; [|by intros [= <-]|done]. rewrite Some_bind.
  destruct (negb _); [by intros [= <-]|]. by destruct (init_key_contexts _ _ _ _ _).
Qed.

(** Every part of a computation that has a result has one. *)
Ltac peel E :=
  repeat match type of E with
         | ?x ≫= _ = Some _ => destruct x; cbn [mbind option_bind] in E; [|done]
         | (let '(_, _) := ?p in _) = Some _ => destruct p
         end.

Lemma future_keys_initialized co co' :
  epoch_generate_future_receive_keys co = Some co' -> co_initialized co' = co_initialized co.
Proof.
  unfold epoch_generate_future_receive_keys. cbv zeta. intros E.
  peel E. by injection E as <-.
Qed.

Lemma expansion_initialized xp co co' : generate_key_expansion xp co = Some (true, co') -> co_initialized co' = true.
Proof.
  unfold generate_key_expansion. destruct (co_initialized co); [done|].
  destruct (if xp_export xp then _ else _) as [[k2|]|]; [|done..]. rewrite Some_bind. destruct (negb _); [done|].
  destruct (init_key_contexts _ _ _ _ _) as [c|] eqn:E; [|done]. rewrite Some_bind. intros [= <-].
  unfold init_key_contexts in E. destruct (xp_epoch_format xp).
  - destruct (cipher_kt_mode_aead _); [|done]. unfold init_epoch_keys, epoch_init_key_ctx in E.
    peel E. by apply future_keys_initialized in E.
  - unfold init_key_ctx_bi in E. peel E. by injection E as <-.
Qed.

(** With key material from the library the expansion does not fail an assertion. *)
Lemma expansion_total xp co :
  key_type_ok (xp_epoch_format xp) (xp_key_type xp) -> fresh_options co -> sources_ok (xp_key_src xp) ->
  (forall l n out, xp_exporter xp l n = Some out -> zlen out = n) ->
  zlen (xp_session_id xp) = SID_SIZE /\ bytes (xp_session_id xp) ->
  zlen (xp_session_id_remote xp) = SID_SIZE /\ bytes (xp_session_id_remote xp) ->
  exists ok co', generate_key_expansion xp co = Some (ok, co').
Proof.
  intros Hkt Hco [Hc Hs] Hex Hsid Hrid. destruct Hs as [Q1 Q2 Q3 (B1 & B2 & B3)].
  set (peer := mk_expansion (negb (xp_server xp)) (xp_export xp) (xp_epoch_format xp) (xp_key_type xp) (xp_exporter xp)
    (xp_session_id_remote xp) (xp_session_id xp) (xp_key_src xp)).
  destruct (xp_server xp) eqn:E.
  - assert (Hss : same_session peer xp) by by split.
    destruct (expansion_ok peer xp co co Hss Hkt Hco Hco Hc B2 B3 Q2 Q3) as (ok & c' & s' & _ & E' & _). by do 2 eexists.
  - assert (Hss : same_session xp peer) by by split.
    destruct (expansion_ok xp peer co co Hss Hkt Hco Hco Hc B2 B3 Q2 Q3) as (ok & c' & s' & E' & _). by do 2 eexists.
Qed.

(** ** The keys of a session *)

Lemma inv_opt q m o :
  multi_inv q m -> opts_ok o -> to_frame o = to_frame (tm_opt m) -> multi_inv q (set_tm_opt m o).
Proof. intros [Ho Hs] Ho' Ef. split; [done|]. cbn [set_tm_opt tm_opt]. rewrite Ef. intros i. by destruct i; apply (Hs TM_ACTIVE) || apply (Hs TM_INITIAL) || apply (Hs TM_LAME_DUCK). Qed.

Lemma limits_ok o b a : opts_ok o -> opts_ok (set_limits o b a).
Proof. intros []. by split. Qed.

Lemma live_crypto q f k co :
  key_live q f k -> (S_INITIAL <= tk_state k <= S_ACTIVE -> fresh_options co) ->
  (S_GENERATED_KEYS <= tk_state k -> co_initialized co = true) -> key_live q f (set_tk_crypto k co).
Proof. intros [K1 (rel & K2 & K3 & [P1 P2 P3])] Hf Hk. split; try done. exists rel. split; [done|]. split; [done|]. by split. Qed.

Lemma live_clear q f k : key_live q f k -> key_live q f (clear_resend k).
Proof.
  intros Hl. destruct (kl_rel _ _ _ Hl) as (rel & Hr & [Hi Hq] & Hp). unfold clear_resend. rewrite Hr. apply live_rel; [done| |apply Hp].
  split; [by destruct Hi|]. intros Ht. specialize (Hq Ht). by destruct Hq.
Qed.

Lemma settled_primary m i k : settled m -> running (tk_state k) -> settled (set_primary m i k).
Proof.
  intros Hs Hr. apply (settled_other m _ i); [done| |by rewrite primary_set].
  intros j Hj. unfold set_primary. by rewrite get_set_session, decide_False.
Qed.

Lemma replaced_ok m i k o :
  multi_inv true m -> settled m -> tk_state (primary m i) <> S_UNDEF -> running (tk_state k) ->
  key_live true (to_frame (tm_opt m)) k -> tk_key_id k = tk_key_id (primary m i) ->
  opts_ok o -> to_frame o = to_frame (tm_opt m) ->
  let m' := set_tm_opt (set_primary m i k) o in multi_inv true m' /\ settled m' /\ primary m' i = k.
Proof.
  intros Hi Hs Hu Hr Hl Hid Ho Hf. cbv zeta. split; [|split].
  - apply inv_opt; [by apply inv_set_primary; [..|apply Hr| |]|done|]. unfold set_primary. by rewrite opt_set_session.
  - pose proof (settled_primary m i k Hs Hr) as [H1 H2]. by destruct i.
  - by destruct i.
Qed.

Lemma live_generated q f k co :
  key_live q f k -> co_initialized co = true -> key_live q f (set_tk_state (set_tk_crypto k co) S_GENERATED_KEYS).
Proof.
  intros [K1 (rel & K2 & K3 & [P1 P2 P3])] Hc. split; try done.
  - exists rel. split; [done|]. split; [done|]. by split.
  - cbn. unfold S_GENERATED_KEYS, S_ACTIVE. lia.
Qed.

Lemma generate_keys_ok m i :
  multi_inv true m -> settled m -> tk_state (primary m i) = S_ACTIVE ->
  exists ok m', tls_session_generate_data_channel_keys m i = Some (ok, m') /\ multi_inv true m' /\ settled m' /\
    tk_state (primary m' i) = (if ok then S_GENERATED_KEYS else S_ACTIVE).
Proof.
  intros Hi Hs Hst. unfold tls_session_generate_data_channel_keys.
  assert (Hu : tk_state (primary m i) <> S_UNDEF) by by rewrite Hst.
  pose proof (inv_primary _ _ _ Hi Hu) as Hl.
  assert (Herase : forall m1, multi_inv true m1 -> settled m1 -> running (tk_state (primary m1 i)) ->
    let m2 := set_primary m1 i (set_tk_key_src (primary m1 i) key_source2_zero) in
    multi_inv true m2 /\ settled m2 /\ tk_state (primary m2 i) = tk_state (primary m1 i)).
  { intros m1 Hi1 Hs1 Hr1. cbv zeta. rewrite primary_set. split; [|split; [by apply settled_primary|done]].
    apply inv_set_primary; [done|apply Hr1|apply Hr1|apply live_src, zero_sources; apply inv_primary; [done|apply Hr1]|done]. }
  case_bool_decide.
  { do 2 eexists. split; [done|]. destruct (Herase m Hi Hs) as (H1 & H2 & H3); [by rewrite Hst|]. by rewrite H3. }
  set (k1 := clear_resend _). assert (Hk1 : key_live true (to_frame (tm_opt m)) k1 /\ tk_state k1 = S_ACTIVE /\
    tk_key_id k1 = tk_key_id (primary m i) /\ tk_crypto k1 = with_flags (tm_opt m) (tk_crypto (primary m i)) /\
    tk_ks_ssl k1 = tk_ks_ssl (primary m i) /\ tk_session_id_remote k1 = tk_session_id_remote (primary m i) /\
    tk_key_src k1 = tk_key_src (primary m i)).
  { split.
    - apply live_clear, live_crypto; [done| |].
      + intros Hr. destruct (kl_fresh _ _ _ Hl Hr) as [F1 F2]. by split.
      + rewrite Hst. unfold S_GENERATED_KEYS, S_ACTIVE. lia.
    - unfold k1, clear_resend. cbn [set_tk_crypto tk_rel]. by destruct (tk_rel (primary m i)). }
  destruct Hk1 as (Hl1 & Es1 & Eid1 & Eco1 & Eo1 & Er1 & Esrc1). clearbody k1.
  rewrite primary_set. destruct (kl_ssl _ _ _ Hl) as [obj Hobj]. rewrite Eo1, Hobj, Some_bind.
  destruct (expansion_total (expansion_of (set_primary m i k1) i obj) (tk_crypto k1)) as (ok & co & E).
  { unfold expansion_of. cbn [xp_key_type]. unfold set_primary. rewrite opt_set_session. apply Hi. }
  { rewrite Eco1. destruct (kl_fresh _ _ _ Hl) as [F1 F2]; [rewrite Hst; by split|]. by split. }
  { unfold expansion_of. cbn [xp_key_src]. rewrite primary_set, Esrc1. apply Hl. }
  { intros l n out. apply tl_export. }
  { unfold expansion_of. cbn [xp_session_id]. unfold set_primary. rewrite get_set_eq. apply (sn_sid _ _ _ (proj2 Hi i)). }
  { unfold expansion_of. cbn [xp_session_id_remote]. rewrite primary_set, Er1.
    destruct (kl_rel _ _ _ Hl) as (rel & _ & _ & [Hp _ _]). exact Hp. }
  rewrite E, Some_bind, !set_set_primary. assert (Hu1 : running (tk_state k1)) by by rewrite Es1.
  destruct ok; cbn [negb].
  - apply expansion_initialized in E. do 2 eexists. split; [done|].
    match goal with |- context [set_state (set_tm_opt _ ?o) _ _] => set (o' := o) end.
    set (k3 := set_tk_state (set_tk_crypto k1 co) S_GENERATED_KEYS).
    assert (Em : set_state (set_tm_opt (set_primary m i (set_tk_crypto k1 co)) o') i S_GENERATED_KEYS
                 = set_tm_opt (set_primary m i k3) o') by (unfold k3; clearbody o'; by destruct i).
    rewrite Em. destruct (replaced_ok m i k3 o' Hi Hs Hu) as (H1 & H2 & H3); [done| |done| | |].
    + apply live_generated; [done|done].
    + unfold o'. apply limits_ok. unfold set_primary. rewrite opt_set_session. apply Hi.
    + unfold o'. by destruct i.
    + destruct (Herase _ H1 H2) as (J1 & J2 & J3); [rewrite H3; by split|]. rewrite H3 in J1, J2, J3. rewrite H3, J3. done.
  - apply expansion_refused in E. subst co. do 2 eexists. split; [done|].
    set (k3 := set_tk_crypto k1 _). destruct (replaced_ok m i k3 (tm_opt m) Hi Hs Hu) as (H1 & H2 & H3); [done| |done|apply Hi|done|].
    { apply live_crypto; [done| |]; apply Hl1. }
    assert (Em : set_tm_opt (set_primary m i k3) (tm_opt m) = set_primary m i k3) by (by destruct i, m). rewrite Em in *.
    destruct (Herase _ H1 H2) as (J1 & J2 & J3); [rewrite H3; exact Hu1|]. rewrite H3 in J1, J2, J3. rewrite set_set_primary in J1, J2. rewrite H3, primary_set. by split_and!.
Qed.

(** ** All sessions *)

Lemma settled_core m m' : multi_core m' = multi_core m -> settled m -> settled m'.
Proof.
  intros E [H1 H2]. assert (Hst : forall i, tk_state (primary m' i) = tk_state (primary m i)).
  { intros i. pose proof (primary_core _ _ i E) as Ep. unfold key_core in Ep. congruence. }
  split; by rewrite Hst.
Qed.

(** What holds between any two steps of an event. *)
Definition good m : Prop := multi_inv true m /\ settled m.

Lemma good_core m m' : multi_core m' = multi_core m -> good m -> good m'.
Proof. intros E [H1 H2]. split; [by apply (multi_inv_core true m)|by apply (settled_core m)]. Qed.

Lemma mp_generate_ok m : good m -> exists m', mp_generate m = Some m' /\ good m'.
Proof.
  intros [Hi Hs]. unfold mp_generate. destruct (_ && bool_decide _) eqn:Ec; [|by eexists].
  apply andb_true_iff in Ec as [[_ Ec]%andb_true_iff _]. apply Z.eqb_eq in Ec.
  destruct (generate_keys_ok m TM_ACTIVE Hi Hs Ec) as (ok & m1 & -> & Hi1 & Hs1 & Hst). rewrite Some_bind.
  destruct ok; [by eexists|]. assert (Hu : tk_state (primary m1 TM_ACTIVE) <> S_UNDEF) by by rewrite Hst.
  pose proof (inv_primary _ _ _ Hi1 Hu) as Hl. destruct (kl_ssl _ _ _ Hl) as [obj Ho]. rewrite Ho, Some_bind.
  eexists. split; [done|]. split; [|by apply settled_primary].
  apply inv_set_primary; try done. apply live_state; [|unfold S_INITIAL, S_ERROR_PRE; lia|unfold S_GENERATED_KEYS, S_ERROR_PRE; lia]. apply live_ssl. by eapply key_live_parts; [|exact Hl].
Qed.

Lemma mp_promote_ok w m l tas active :
  good m -> exists m' l' tas' active', mp_promote w m l tas active = Some (m', l', tas', active') /\ good m'.
Proof.
  intros [Hi [Hs1 Hs2]]. unfold mp_promote. destruct (TLS_AUTHENTICATED _ _); [|by do 4 eexists].
  destruct (move_session_ok true m TM_ACTIVE TM_INITIAL Hi) as (m1 & -> & Hi1 & _ & Hc & Hf & _); [done|]. rewrite Some_bind.
  assert (Hg : good m1).
  { split; [done|]. split; [|by apply fresh_running]. unfold session_core, key_core in Hc. unfold primary in *.
    assert (tk_state (ts_primary (get_session m1 TM_ACTIVE)) = tk_state (ts_primary (get_session m TM_INITIAL))) as -> by congruence. done. }
  pose proof (authentication_status_core w m1) as E. destruct (tls_authentication_status w m1) as [tas' m2]. cbn [snd] in E.
  pose proof (good_core _ _ E Hg) as Hg2. destruct (bool_decide _); do 4 eexists; split; [done| |done|done]; by apply (good_core m2).
Qed.

Lemma tls_multi_process_ok w m l actual wakeup :
  world_ok w -> good m ->
  exists active m' l' wakeup', tls_multi_process w m l actual wakeup = Some (active, m', l', wakeup') /\ good m'.
Proof.
  intros Hw [Hi Hs]. unfold tls_multi_process.
  destruct (process_one_ok w actual TM_ACTIVE (mk_mp m l wakeup false false) Hw Hi Hs) as (st1 & -> & Hi1 & Hs1). rewrite Some_bind.
  destruct (process_one_ok w actual TM_INITIAL st1 Hw Hi1 Hs1) as (st2 & -> & Hi2 & Hs2). rewrite Some_bind.
  destruct (process_one_ok w actual TM_LAME_DUCK st2 Hw Hi2 Hs2) as (st3 & -> & Hi3 & Hs3). rewrite Some_bind.
  pose proof (authentication_status_core w (mp_m st3)) as E. destruct (tls_authentication_status w (mp_m st3)) as [tas m1]. cbn [snd] in E.
  pose proof (good_core _ _ E (conj Hi3 Hs3)) as Hg1. destruct (mp_generate_ok m1 Hg1) as (m2 & -> & Hg2). rewrite Some_bind.
  set (m3 := if bool_decide _ && _ then _ else m2). assert (Hg3 : good m3).
  { unfold m3. destruct (bool_decide _ && _); [by apply (good_core m2)|done]. }
  clearbody m3. destruct (lame_duck_ok (w_now w) m3 TM_LAME_DUCK (mp_wakeup st3) (proj1 Hg3)) as (die & wk & Ed).
  cbn [get_session] in Ed. rewrite Ed, Some_bind.
  set (m4 := if die then _ else m3). assert (Hg4 : good m4).
  { unfold m4. destruct die; [|done]. destruct Hg3 as [Hi4 Hs4]. split; [|done].
    apply (inv_set_session true m3 TM_LAME_DUCK); [done|apply session_zero_inv]. }
  clearbody m4. generalize (if die then release (keys_of (tm_lame_duck m3)) (mp_link st3) else mp_link st3). intros l4.
  destruct (mp_promote_ok w m4 l4 tas (if mp_active st3 then TLSMP_ACTIVE else TLSMP_INACTIVE) Hg4) as (m5 & l5 & tas5 & act5 & -> & Hg5).
  rewrite Some_bind. do 4 eexists. split; [done|]. destruct (mp_error st3 && _); [by apply (good_core m5)|done].
Qed.
End generate.
