(* ===== verification/TlsPacket.v ===== *)
(** * Packets from anyone

    [tls_pre_decrypt] for any packet from any address, as long as the control channel is
    [calm]: the sessions stay in their invariant. *)
From S2P Require Import Prelude Integers Buffer Frame PacketId EpochKeys EpochDerive Reliable AckList Windows SendWindow RecvWindow Control ControlNet ControlOne ControlAny Mroute KeyMethod KeyExpansion Handshake TlsSession TlsLife TlsAuth TlsProcess TlsMulti TlsReceive TlsRun TlsInv TlsText TlsSteps TlsRounds TlsServe.

(** Nobody has asked for a wrapped client key, and the packet ids are far from their end. *)
Definition calm_key `{TlsLib} (k : tls_key) : bool := match tk_rel k with Some rel => calm rel | None => true end.

Definition calm_multi `{TlsLib} (m : tls_multi) : bool := forallb (fun i => calm_key (primary m i)) tm_scan.

Section packet.
Context `{CL : CryptoLib} `{TL : TlsLib} `{NL : NameLib} `{TK : TokenLib}.
Implicit Types (m : tls_multi) (i : tm_index).

(** Between two events. *)
Definition rest m : Prop := multi_inv false m /\ settled m.

Lemma rest_core m m' : multi_core m' = multi_core m -> rest m -> rest m'.
Proof. intros E [H1 H2]. split; [by apply (multi_inv_core false m)|by apply (settled_core m)]. Qed.

Lemma calm_at m i : calm_multi m = true -> calm_key (primary m i) = true.
Proof. unfold calm_multi. cbn. intros Hc. destruct i; lia. Qed.

Lemma calm_good m : rest m -> calm_multi m = true -> good m.
Proof.
  intros [Hi Hs] Hc. split; [|done]. destruct Hi as [Ho Hsn]. split; [done|]. intros i. pose proof (Hsn i) as [H1 H2 H3 H4 H5 H6 H7 H8 H9].
  split; try done. intros Hu. destruct (H3 Hu) as [K1 (rel & K2 & [K3 _] & K4) K5 K6 K7 K8 K9 K10 K11]. split; try done.
  exists rel. split; [done|]. split; [|done]. split; [done|]. intros _. pose proof (calm_at m i Hc) as Hck. unfold calm_key, primary in Hck.
  rewrite K2 in Hck. by apply (calm_quiet (ctl m i)).
Qed.

Lemma good_rest m : good m -> rest m.
Proof.
  intros [[Ho Hs] Hst]. split; [|done]. split; [done|]. intros i. by apply session_lift.
Qed.

Lemma key_live_at m x : multi_inv false m -> tk_state (get_key_at m x) <> S_UNDEF -> key_live false (to_frame (tm_opt m)) (get_key_at m x).
Proof. intros [_ Hs] Hu. destruct x as [i []]; [by apply (sn_primary _ _ _ (Hs i))|by apply (sn_lame _ _ _ (Hs i))]. Qed.

Lemma settled_running m i : settled m -> i = TM_ACTIVE \/ i = TM_INITIAL -> running (tk_state (primary m i)).
Proof. intros [H1 H2] [-> | ->]; done. Qed.

Lemma rest_primary m i k :
  rest m -> running (tk_state (primary m i)) -> running (tk_state k) -> key_live false (to_frame (tm_opt m)) k ->
  tk_key_id k = tk_key_id (primary m i) -> rest (set_primary m i k).
Proof.
  intros [Hi Hs] Hr Hk Hl Hid. split; [by apply inv_set_primary; [..|apply Hr|apply Hk| |]|].
  apply (settled_other m _ i); [done| |by rewrite primary_set].
  intros j Hj. unfold set_primary. by rewrite get_set_session, decide_False.
Qed.

(** ** Data packets *)

Lemma match_known from addr : known_addr from -> is_Some (link_socket_actual_match from addr).
Proof. unfold known_addr. by destruct from, addr. Qed.

Lemma find_data_key_ok m from floated key_id scan :
  known_addr from ->
  exists r, find_data_key m from floated key_id scan = Some r /\
    forall x, r = Some x -> S_GENERATED_KEYS <= tk_state (get_key_at m x).
Proof.
  intros Hf. induction scan as [|x scan IH]; cbn [find_data_key]; [by exists None|].
  unfold key_matches. destruct (_ && _) eqn:Ec; [|cbn [mbind option_bind]; exact IH].
  assert (S_GENERATED_KEYS <= tk_state (get_key_at m x)) as Hg by lia.
  destruct floated.
  - exists (Some x). split; [done|]. by intros y [= <-].
  - destruct (match_known from (tk_remote_addr (get_key_at m x)) Hf) as [[] ->]; cbn [mbind option_bind]; [|exact IH].
    exists (Some x). split; [done|]. by intros y [= <-].
Qed.

Lemma handle_data_ok m from buf h c t floated :
  multi_inv false m -> known_addr from -> buf_rep buf h c t -> 0 < zlen c ->
  exists pd m', handle_data_channel_packet m from buf floated = Some (pd, m') /\ multi_core m' = multi_core m.
Proof.
  intros Hi Hf Hb Hc. unfold handle_data_channel_packet.
  destruct (find_data_key_ok m from floated (Z.land (buf_peek_u8 buf) P_KEY_ID_MASK) key_scan Hf) as (r & -> & Hr). rewrite Some_bind.
  destruct r as [x|]; [|by do 2 eexists]. specialize (Hr x eq_refl).
  assert (Hu : tk_state (get_key_at m x) <> S_UNDEF) by (unfold S_GENERATED_KEYS, S_UNDEF in *; lia).
  rewrite (kl_keys _ _ _ (key_live_at m x Hi Hu) Hr). cbn [ASSERT]. rewrite Some_bind.
  destruct c as [|b0 c]; [done|]. change (b0 :: c) with ([b0] ++ c) in Hb.
  destruct (advance_rep _ _ _ _ _ Hb) as (b1 & E1 & Hb1). change (zlen [b0]) with 1 in E1. rewrite E1, Some_bind. cbn [ASSERT].
  rewrite Some_bind. destruct (_ =? P_DATA_V2).
  - rewrite (rep_len _ _ _ _ Hb1). destruct (Z.ltb_spec (zlen c) 4); [by do 2 eexists|].
    rewrite <- (take_drop 3 c) in Hb1. destruct (advance_rep _ _ _ _ _ Hb1) as (b2 & E2 & Hb2).
    assert (zlen (take 3 c) = 3) as El by (rewrite length_take; lia). rewrite El in E2. rewrite E2, Some_bind. cbn [ASSERT].
    rewrite Some_bind. do 2 eexists. split; [done|]. by apply core_key.
  - do 2 eexists. split; [done|]. by apply core_key.
Qed.

(** ** Control packets *)

(** The session that a packet is for, as it is when the packet has been admitted. *)
Record ready m i : Prop := {
  rd_rest : rest m;
  rd_run : running (tk_state (primary m i));
  rd_calm : calm_key (primary m i) = true
}.

Definition linked m i : Prop := session_id_defined (tk_session_id_remote (primary m i)) = true.

Lemma linked_known m i : ready m i -> linked m i -> known_addr (tk_remote_addr (primary m i)).
Proof.
  intros [[Hi _] Hr _] Hd. destruct (kl_rel _ _ _ (inv_primary _ _ _ Hi (proj1 Hr))) as (rel & _ & _ & [_ Ha _]). by apply Ha.
Qed.

(** Another key, with the same id. *)
Lemma ready_primary m i k :
  ready m i -> running (tk_state k) -> key_live false (to_frame (tm_opt m)) k ->
  tk_key_id k = tk_key_id (primary m i) -> calm_key k = true -> ready (set_primary m i k) i.
Proof. intros [H1 H2 H3] Hk Hl Hid Hc. split; rewrite ?primary_set; try done. by apply rest_primary. Qed.

Lemma ready_core m m' i : multi_core m' = multi_core m -> ready m i -> ready m' i.
Proof.
  intros E [H1 H2 H3]. pose proof (primary_core _ _ i E) as Ep. unfold key_core in Ep. injection Ep as E1 E2 E3 E4 E5 E6 E7 E8 E9 E10 E11 E12 E13.
  split; [by apply (rest_core m)|by rewrite E1|]. unfold calm_key in *. by rewrite E12.
Qed.

Lemma ready_live m i : ready m i -> key_live false (to_frame (tm_opt m)) (primary m i).
Proof. intros [[Hi _] Hr _]. apply inv_primary; [done|apply Hr]. Qed.

Lemma calm_schedule now rel : calm rel = true -> calm (set_send_reliable rel (reliable_schedule_now now (ks_send_reliable rel))) = true.
Proof. done. Qed.

Lemma burst_runs now m i :
  ready m i -> linked m i -> exists m', burst now m i = Some m' /\ ready m' i /\ linked m' i /\
    tk_remote_addr (primary m' i) = tk_remote_addr (primary m i).
Proof.
  intros Hd Hln. unfold burst. destruct (ts_burst _); [by eexists|].
  pose proof (ready_live m i Hd) as Hl. destruct (kl_rel _ _ _ Hl) as (rel & Er & [Hv _] & Hp). rewrite Er, Some_bind.
  eexists. split; [done|]. set (k := set_tk_rel _ _). set (m1 := set_primary m i k).
  assert (Hc : calm rel = true) by (pose proof (rd_calm _ _ Hd) as Hc; unfold calm_key in Hc; by rewrite Er in Hc).
  assert (H1 : ready m1 i).
  { destruct Hd as [H1 H2 H3]. apply ready_primary; try done. apply live_rel; [done| |by left].
    split; [|done]. apply (schedule_any (ctl m i)); [|done]. by eapply ctl_local; [apply H1|apply H2]. }
  assert (Ec : multi_core (set_session m1 i (set_ts_burst (get_session m1 i) true)) = multi_core m1) by by apply core_session.
  pose proof (primary_core _ _ i Ec) as Ep. assert (primary m1 i = k) as Ek by apply primary_set. rewrite Ek in Ep. unfold key_core in Ep.
  injection Ep as _ _ _ _ _ E6 E7 _. split; [by apply (ready_core m1)|]. split; [unfold linked; by rewrite E6|by rewrite E7].
Qed.

(** A packet that has been admitted. *)
Lemma receive_control_ok now m i new_link do_burst from buf op key_id :
  ready m i -> known_addr from -> some_rep buf ->
  match new_link with
  | Some sid => zlen sid = SID_SIZE /\ bytes sid /\ session_id_defined sid = true
  | None => linked m i
  end ->
  exists ok m', receive_control now m i new_link do_burst from buf op key_id = Some (ok, m') /\ rest m'.
Proof.
  intros Hd Hf Hb Hnew. unfold receive_control. pose proof (rd_run _ _ Hd) as [Hu He].
  rewrite (proj2 (Z.eqb_neq _ _) Hu), (proj2 (Z.eqb_neq _ _) He). cbn [negb ASSERT]. rewrite !Some_bind.
  rewrite (sn_defined _ _ _ (proj2 (proj1 (rd_rest _ _ Hd)) i) Hu). cbn [ASSERT]. rewrite Some_bind.
  assert (exists known m1, match new_link with
                 | Some sid => Some (true, set_peer m i sid from)
                 | None => same ← link_socket_actual_match (tk_remote_addr (primary m i)) from; Some (same, m)
                 end = Some (known, m1) /\ ready m1 i /\ linked m1 i) as (known & m1 & -> & Hd1 & Hl1).
  { destruct new_link as [sid|].
    - destruct Hnew as (Hz & Hby & Hdef). do 2 eexists. split; [done|]. unfold set_peer.
      set (k := set_tk_remote_addr _ from). assert (H1 : ready (set_primary m i k) i).
      { apply ready_primary; try done; [|exact (rd_calm _ _ Hd)].
        destruct (ready_live m i Hd) as [K1 (rel & K2 & K3 & [P1 P2 P3]) K4 K5 K6 K7 K8 K9 K10]. split; try done.
        exists rel. split; [done|]. split; [done|]. split; [done|done|by left]. }
      split; [by apply (ready_core (set_primary m i k))|]. unfold linked. by destruct i.
    - destruct (match_known _ from (linked_known m i Hd Hnew)) as [same ->]. rewrite Some_bind. by do 2 eexists. }
  rewrite Some_bind. destruct known; cbn [negb]; [|do 2 eexists; split; [done|apply Hd1]].
  assert (exists m2, (if do_burst then burst now m1 i else Some m1) = Some m2 /\ ready m2 i /\ linked m2 i) as (m2 & -> & Hd2 & Hl2).
  { destruct do_burst; [|by eexists]. destruct (burst_runs now m1 i Hd1 Hl1) as (m2 & E & H1 & H2 & _). by exists m2. }
  rewrite Some_bind. destruct (negb _); [do 2 eexists; split; [done|apply Hd2]|].
  pose proof (ready_live m2 i Hd2) as Hlv. destruct (kl_rel _ _ _ Hlv) as (rel & Er & [Hv _] & Hp). rewrite Er, Some_bind.
  assert (Hc : calm rel = true) by (pose proof (rd_calm _ _ Hd2) as Hc; unfold calm_key in Hc; by rewrite Er in Hc).
  assert (Hlo : local_ok (ctl m2 i)) by (eapply ctl_local; [apply Hd2|apply (rd_run _ _ Hd2)]).
  destruct (receive_any (ctl m2 i) Hlo rel buf op Hv Hc Hb) as (ok & rel' & -> & Hv'). rewrite Some_bind.
  do 2 eexists. split; [done|].
  assert (Hlr : key_live false (to_frame (tm_opt m2)) (set_tk_rel (primary m2 i) (Some rel'))) by (apply live_rel; [done|by split|by left]).
  apply rest_primary; [apply Hd2|apply (rd_run _ _ Hd2)| | |].
  - destruct ok; apply (rd_run _ _ Hd2).
  - destruct ok; [|done]. by eapply key_live_parts; [|exact Hlr].
  - by destruct ok.
Qed.

Lemma read_auth_some buf : some_rep buf -> some_rep (read_control_auth buf).2.
Proof. intros Hb. unfold read_control_auth. destruct (carries_client_key _); [done|by apply some_advance]. Qed.

Lemma fresh_ready m i : rest m -> key_fresh (primary m i) -> ready m i.
Proof.
  intros Hr Hf. split; [done|by apply fresh_running|]. destruct (kf_calm _ Hf) as (rel & E & Hc & _). unfold calm_key. by rewrite E.
Qed.

(** The packet is refused, or its session is ready for it. *)
Lemma accept_existing_ok now m i from buf op :
  ready m i -> linked m i -> known_addr from -> some_rep buf -> 0 < now ->
  exists adm, accept_existing now m i from buf op = Some adm /\
    match adm with
    | Refused m' => rest m'
    | Accepted m' buf' _ => ready m' i /\ linked m' i /\ some_rep buf'
    end.
Proof.
  intros Hd Hln Hf Hb Hnow. unfold accept_existing.
  destruct (match_known _ from (linked_known m i Hd Hln)) as [same ->]. rewrite Some_bind.
  destruct same; cbn [negb]; [|eexists; split; [done|apply Hd]].
  pose proof (read_auth_some buf Hb) as Hb'. destruct (read_control_auth buf) as [ok buf']. cbn [snd] in Hb'.
  pose proof (rd_run _ _ Hd) as Hr. destruct (_ && _).
  - destruct ok; cbn [negb]; [|eexists; split; [done|apply Hd]].
    destruct (rd_rest _ _ Hd) as [Hi Hs].
    destruct (soft_reset_ok false m i now Hi (proj1 Hr) Hnow) as (m1 & -> & Hi1 & _ & Hf1 & Hrem & _ & Ho). rewrite Some_bind.
    eexists. split; [done|]. split; [|split; [|done]].
    + apply fresh_ready; [|done]. split; [done|]. apply (settled_other m m1 i); [done|done|by apply fresh_running].
    + unfold linked. by rewrite Hrem.
  - destruct (Z.eqb_spec (tk_state (primary m i)) S_PRE_START_SKIP) as [Es|Es].
    + assert (H1 : ready (set_state m i S_PRE_START) i).
      { unfold set_state. apply ready_primary; try done; [|exact (rd_calm _ _ Hd)]. pose proof (ready_live m i Hd) as Hl.
        apply live_state; [done| |done]. intros _. apply (kl_fresh _ _ _ Hl). by rewrite Es. }
      assert (H2 : linked (set_state m i S_PRE_START) i) by (unfold linked, set_state; by rewrite primary_set).
      destruct ok; eexists; (split; [done|]); [done|]. apply (rest_core (set_state m i S_PRE_START)); [done|apply H1].
    + destruct ok; eexists; (split; [done|]); [done|apply Hd].
Qed.

Lemma packet_sid_ok m buf op sid :
  some_rep buf -> control_packet_sid m buf op = Some sid ->
  zlen sid = SID_SIZE /\ bytes sid /\ session_id_defined sid = true.
Proof.
  intros Hb. unfold control_packet_sid, session_id_read. destruct (_ || _); [done|]. destruct (wrong_direction _ _); [done|].
  destruct (some_read (buf_advance buf 1).2 SID_SIZE (some_advance buf 1 Hb)) as [_ Hs]; [done|].
  destruct (buf_read _ SID_SIZE) as [[x|] b]; [|done]. destruct (session_id_defined x) eqn:E; [|done]. intros [= <-].
  destruct (Hs x eq_refl). done.
Qed.

Lemma match_session_ok m sid i :
  match_session m sid = Some i -> session_id_defined sid = true -> linked m i.
Proof.
  unfold match_session. intros [_ E]%find_some Hd. apply bool_decide_eq_true in E. unfold linked. by rewrite E.
Qed.

Lemma pre_decrypt_control_ok now m from buf op key_id :
  rest m -> calm_multi m = true -> known_addr from -> some_rep buf -> 0 < now ->
  exists pd m', pre_decrypt_control now m from buf op key_id = Some (pd, m') /\ rest m'.
Proof.
  intros Hr Hc Hf Hb Hnow. unfold pre_decrypt_control.
  assert (Herr : forall m', rest m' -> rest (add_soft_error m')) by (intros m' Hm; by apply (rest_core m')).
  destruct (control_packet_sid m buf op) as [sid|] eqn:Es; [|do 2 eexists; split; [done|by apply Herr]].
  destruct (packet_sid_ok m buf op sid Hb Es) as (Hz & Hby & Hdef).
  assert (Hready : forall i, i = TM_ACTIVE \/ i = TM_INITIAL -> ready m i).
  { intros i Hi. split; [done|by apply settled_running; [apply Hr|]|by apply calm_at]. }
  assert (Hex : forall i, i = TM_ACTIVE \/ i = TM_INITIAL -> match_session m sid = Some i ->
    exists pd m', (adm ← accept_existing now m i from buf op;
          match adm with
          | Refused m => Some (drop_packet false buf, add_soft_error m)
          | Accepted m rest do_burst => r ← receive_control now m i None do_burst from rest op key_id;
              Some (drop_packet true buf, if r.1 : bool then r.2 else add_soft_error r.2)
          end) = Some (pd, m') /\ rest m').
  { intros i Hi Hm. destruct (accept_existing_ok now m i from buf op (Hready i Hi)) as (adm & -> & Ha); [by eapply match_session_ok|done..|].
    rewrite Some_bind. destruct adm as [m1|m1 buf1 bu]; [do 2 eexists; split; [done|by apply Herr]|].
    destruct Ha as (Hd1 & Hl1 & Hb1).
    destruct (receive_control_ok now m1 i None bu from buf1 op key_id Hd1 Hf Hb1 Hl1) as (ok & m2 & -> & Hr2). rewrite Some_bind.
    do 2 eexists. split; [done|]. cbn [fst snd]. destruct ok; [done|by apply Herr]. }
  destruct (match_session m sid) as [[]|] eqn:Em.
  - apply Hex; [by left|done].
  - apply Hex; [by right|done].
  - do 2 eexists. split; [done|by apply Herr].
  - destruct (is_hard_reset_method2 op); [|do 2 eexists; split; [done|by apply Herr]].
    unfold accept_new_session. destruct (_ && _); [do 2 eexists; split; [done|by apply Herr]|].
    pose proof (read_auth_some buf Hb) as Hb'. destruct (read_control_auth buf) as [[] buf']; [|do 2 eexists; split; [done|by apply Herr]].
    set (m1 := set_tm_initial m _).
    assert (H1 : ready m1 TM_INITIAL) by (apply (ready_core m); [by apply (core_session m TM_INITIAL)|apply Hready; by right]).
    destruct (receive_control_ok now m1 TM_INITIAL (Some sid) true from buf' op key_id H1 Hf Hb' (conj Hz (conj Hby Hdef))) as (ok & m2 & -> & Hr2).
    rewrite Some_bind. do 2 eexists. split; [done|]. cbn [fst snd]. destruct ok; [done|by apply Herr].
Qed.

(** Any packet. *)
Lemma tls_pre_decrypt_ok now m from buf h c t floated :
  rest m -> calm_multi m = true -> known_addr from -> buf_rep buf h c t -> 0 < now ->
  exists pd m', tls_pre_decrypt now m from buf floated = Some (pd, m') /\ rest m'.
Proof.
  intros Hr Hc Hf Hb Hnow. unfold tls_pre_decrypt. rewrite (rep_len _ _ _ _ Hb).
  destruct (Z.leb_spec (zlen c) 0); [by do 2 eexists|]. destruct (is_data_packet _).
  - destruct (handle_data_ok m from buf h c t floated (proj1 Hr) Hf Hb) as (pd & m' & -> & E); [done|].
    do 2 eexists. split; [done|]. by apply (rest_core m).
  - apply pre_decrypt_control_ok; try done. by exists h, c, t.
Qed.
End packet.
