(* ===== verification/TlsSafe.v ===== *)
(** * A tunnel never fails

    Every sequence of events, from the initialisation of a tunnel on: whatever arrives from
    whomever, and whatever the TLS library and the environment answer, no assertion fails,
    and the loops of the state machine end - as long as the control channel is [calm]: no
    packet of a peer has asked for the wrapped client key ([EARLY_NEG_FLAG_RESEND_WKC]), which
    a server without such a key does not survive ([server_without_key_aborts]), and the packet
    ids of the control channel of each key are below [ID_BOUND], near 2^31. *)
From S2P Require Import Prelude Integers Buffer Frame PacketId Replay EpochKeys EpochDerive EpochInv DataChannel DataSafety DataSend Data Reliable AckList Windows SendWindow RecvWindow Control ControlNet ControlOne ControlAny Mroute KeyMethod KeyExpansion Handshake TlsSession TlsLife TlsAuth TlsProcess TlsMulti TlsReceive TlsRun TlsInv TlsText TlsSteps TlsRounds TlsServe TlsPacket.

(** What may happen to a tunnel. *)
Definition tls_event_ok (ev : tls_event) : Prop :=
  match ev with
  | EvProcess w _ => world_ok w
  | EvPacket now from pkt _ => 0 < now /\ known_addr from /\ bytes pkt /\ zlen pkt < BUF_SIZE_MAX
  | EvSoftReset now => 0 < now
  | EvFloat addr => known_addr addr
  | EvSent | EvState _ | EvPayload _ | EvTakePayload | EvAuthenticate _ _ => True
  end.

(** A configuration. *)
Record config_ok (o : tls_options) (tls_mtu : Z) `{CryptoLib} : Prop := {
  cf_mtu : TLS_CHANNEL_MTU_MIN <= tls_mtu <= TLS_CHANNEL_BUF_SIZE;
  cf_type : key_type_ok (to_epoch_format o) (to_key_type o);
  cf_local : is_c_string (to_local_options o);
  cf_window : 0 <= to_transition_window o;
  cf_replay : 0 <= to_replay_window o;
  cf_replay_ok name unit_ : is_Some (packet_id_init (to_replay_window o) (to_replay_time o) name unit_)
}.

Section safe.
Context `{CL : CryptoLib} `{Cok : !CryptoLaws} `{PL : PrfLib} `{Pok : !PrfLaws} `{TL : TlsLib} `{Tok : !TlsLaws} `{NL : NameLib} `{TK : TokenLib}.
Implicit Types (m : tls_multi) (i : tm_index) (t : tunnel).

(** ** The other events *)

Lemma send_payload_ok m data :
  rest m -> exists r m', tls_send_payload m (TM_ACTIVE, KS_PRIMARY) data = Some (r, m') /\ rest m'.
Proof.
  intros Hr. pose proof (proj1 (proj2 Hr)) as Hu. unfold tls_send_payload. change (get_key_at m (TM_ACTIVE, KS_PRIMARY)) with (primary m TM_ACTIVE).
  pose proof (inv_primary _ _ _ (proj1 Hr) (proj1 Hu)) as Hl. destruct (_ <=? _).
  - destruct (kl_ssl _ _ _ Hl) as [obj Ho]. rewrite Ho, Some_bind. destruct (key_state_write_plaintext obj data) as [[st obj'] ev].
    do 2 eexists. split; [done|]. eapply rest_core; [apply apply_cert_event_core|].
    change (set_key_at m (TM_ACTIVE, KS_PRIMARY) ?k) with (set_primary m TM_ACTIVE k). apply rest_primary; try done. by apply live_ssl.
  - do 2 eexists. split; [done|]. apply (rest_core m); [by apply core_key|done].
Qed.

Lemma rec_payload_ok m buf : rest m -> rest (tls_rec_payload m buf).2.
Proof.
  intros Hr. unfold tls_rec_payload. change (get_key_at m (TM_ACTIVE, KS_PRIMARY)) with (primary m TM_ACTIVE).
  destruct (_ && _); [|done]. destruct (buf_copy _ _) as [ret b]. cbn [snd]. pose proof (proj1 (proj2 Hr)) as Hu.
  pose proof (inv_primary _ _ _ (proj1 Hr) (proj1 Hu)) as Hl. apply rest_primary; try done.
  apply live_read; [done|]. apply text_no_len, Hl.
Qed.

(** A key with another address. *)
Lemma inv_same_key m x k :
  multi_inv false m -> tk_state k = tk_state (get_key_at m x) -> tk_key_id k = tk_key_id (get_key_at m x) ->
  tk_must_die k = tk_must_die (get_key_at m x) ->
  (tk_state k <> S_UNDEF -> key_live false (to_frame (tm_opt m)) k) -> multi_inv false (set_key_at m x k).
Proof.
  intros Hi Es Eid Ed Hl. unfold set_key_at. apply inv_set_session; [done|]. destruct (proj2 Hi x.1) as [H1 H2 H3 H4 H5 H6 H7 H8 H9].
  unfold get_key_at in *. destruct x as [i []]; cbn [fst snd get_ks set_ks_of] in *.
  - split; cbn [set_ts_primary ts_session_id ts_primary ts_lame ts_key_id ts_initial_opcode]; rewrite ?Es, ?Eid; done.
  - split; cbn [set_ts_lame ts_session_id ts_primary ts_lame ts_key_id ts_initial_opcode]; rewrite ?Es, ?Eid, ?Ed; done.
Qed.

Lemma update_addr_ok addr k :
  known_addr addr -> exists k', update_remote_addr_of addr k = Some k' /\ (k' = k \/ k' = set_tk_remote_addr k addr).
Proof.
  intros Ha. unfold update_remote_addr_of. destruct (negb _); [by eexists; split; [|left]|].
  destruct (match_known _ (tk_remote_addr k) Ha) as [[] ->]; rewrite Some_bind; eexists; (split; [done|]); auto.
Qed.

Lemma live_addr q f k addr : key_live q f k -> known_addr addr -> key_live q f (set_tk_remote_addr k addr).
Proof. intros [K1 (rel & K2 & K3 & [P1 P2 P3])] Ha. split; try done. exists rel. split; [done|]. split; [done|]. by split. Qed.

Lemma update_addrs_ok addr keys m :
  rest m -> known_addr addr -> exists m', update_remote_addrs addr m keys = Some m' /\ rest m'.
Proof.
  intros Hr Ha. revert m Hr. induction keys as [|x keys IH]; intros m Hr; cbn [update_remote_addrs]; [by eexists|].
  destruct (update_addr_ok addr (get_key_at m x) Ha) as (k & -> & Hk). cbn [mbind option_bind]. apply IH.
  assert (Hst : tk_state k = tk_state (get_key_at m x)) by (by destruct Hk as [-> | ->]).
  split.
  - apply inv_same_key; [apply Hr|done|by destruct Hk as [-> | ->]..|].
    intros Hu. rewrite Hst in Hu. pose proof (key_live_at m x (proj1 Hr) Hu) as Hl. destruct Hk as [-> | ->]; [done|by apply live_addr].
  - destruct Hr as [_ [H1 H2]]. unfold settled, primary, set_key_at in *. rewrite !get_set_session.
    destruct x as [i []]; cbn [fst snd get_key_at get_ks set_ks_of] in *; split; case_decide; subst; cbn [set_ts_primary set_ts_lame ts_primary];
      try done; by rewrite Hst.
Qed.

(** ** Runs *)

Definition calm_tunnel t : bool := calm_multi (tn_multi t).

Lemma tunnel_step_ok t ev :
  rest (tn_multi t) -> calm_tunnel t = true -> tls_event_ok ev ->
  exists out t', tunnel_step t ev = Some (out, t') /\ rest (tn_multi t').
Proof.
  intros Hr Hc Hev. destruct ev as [w actual|now from pkt floated| |s|data| |now|id auth|addr]; cbn [tunnel_step tls_event_ok] in *.
  - destruct (tls_multi_process_ok w (tn_multi t) (tn_link t) actual BIG_TIMEOUT Hev (calm_good _ Hr Hc)) as (act & m' & l' & wk & -> & Hg).
    rewrite Some_bind. do 2 eexists. split; [done|]. by apply good_rest.
  - destruct Hev as (Hnow & Hf & Hby & Hl).
    destruct (tls_pre_decrypt_ok now (tn_multi t) from (received pkt) 0 pkt 0 floated Hr Hc Hf) as (pd & m' & -> & Hr'); [by apply received_rep|done|].
    rewrite Some_bind. by do 2 eexists.
  - by do 2 eexists.
  - do 2 eexists. split; [done|]. by apply (rest_core (tn_multi t)).
  - destruct (send_payload_ok _ data Hr) as (r & m' & -> & Hr'). rewrite Some_bind. by do 2 eexists.
  - pose proof (rec_payload_ok (tn_multi t) payload_buf Hr) as H1. destruct (tls_rec_payload _ _) as [[ret b] m']. by do 2 eexists.
  - destruct Hr as [Hi Hs]. destruct (soft_reset_ok false (tn_multi t) TM_ACTIVE now Hi (proj1 (proj1 Hs)) Hev) as (m' & E & Hi' & _ & Hf & _ & _ & Ho).
    unfold tls_session_soft_reset. rewrite E, Some_bind. do 2 eexists. split; [done|]. split; [done|].
    apply (settled_other (tn_multi t) m' TM_ACTIVE); [done|done|by apply fresh_running].
  - do 2 eexists. split; [done|]. apply (rest_core (tn_multi t)); [apply authenticate_key_core|done].
  - destruct (update_addrs_ok addr all_keys (tn_multi t) Hr Hev) as (m' & E & Hr'). unfold tls_update_remote_addr. rewrite E, Some_bind. by do 2 eexists.
Qed.

(** [tls_multi_init] and [tls_multi_init_finalize]. *)
Lemma tunnel_init_ok o tls_mtu :
  config_ok o tls_mtu -> exists t, tunnel_init o tls_mtu = Some t /\ rest (tn_multi t).
Proof.
  intros [C1 C2 C3 C4 C5 C6]. unfold tunnel_init, tls_multi_init_finalize. set (m0 := set_tm_opt _ _).
  assert (Ho : opts_ok (tm_opt m0)).
  { split; try done. by exists (to_frame o), tls_mtu. }
  destruct (session_init_ok m0 Ho) as (m1 & a & -> & Ec1 & Ha & Hfa). rewrite Some_bind.
  assert (Ho1 : tm_opt (set_session m1 TM_ACTIVE a) = tm_opt m0) by (rewrite opt_set_session; by apply opt_core).
  destruct (session_init_ok (set_session m1 TM_ACTIVE a)) as (m2 & s & -> & Ec2 & Hs & Hfs); [by rewrite Ho1|]. rewrite Some_bind, Some_bind.
  eexists. split; [done|]. cbn [tn_multi]. assert (Ho2 : tm_opt (set_session m2 TM_INITIAL s) = tm_opt m0).
  { rewrite opt_set_session, (opt_core _ _ Ec2). done. }
  assert (Hact : session_core (get_session (set_session m2 TM_INITIAL s) TM_ACTIVE) = session_core a).
  { rewrite get_set_session, decide_False by done. rewrite (get_session_core _ _ TM_ACTIVE Ec2), get_set_eq. done. }
  assert (Hlame : session_core (get_session (set_session m2 TM_INITIAL s) TM_LAME_DUCK) = session_core tls_session_zero).
  { rewrite get_set_session, decide_False by done. rewrite (get_session_core _ _ TM_LAME_DUCK Ec2), get_set_session, decide_False by done.
    by rewrite (get_session_core _ _ TM_LAME_DUCK Ec1). }
  rewrite Ho1 in Hs. split; [split|split].
  - by rewrite Ho2.
  - intros []; rewrite Ho2.
    + eapply session_inv_core; [symmetry; exact Hact|by apply session_lift].
    + rewrite get_set_eq. by apply session_lift.
    + eapply session_inv_core; [symmetry; exact Hlame|apply session_zero_inv].
  - apply fresh_running in Hfa. unfold session_core, key_core in Hact. unfold primary.
    assert (tk_state (ts_primary (get_session (set_session m2 TM_INITIAL s) TM_ACTIVE)) = tk_state (ts_primary a)) as -> by congruence. done.
  - unfold primary. rewrite get_set_eq. by apply fresh_running.
Qed.

(** What a tunnel may come to. *)
Inductive reachable (o : tls_options) (tls_mtu : Z) : tunnel -> Prop :=
| reach_init t : tunnel_init o tls_mtu = Some t -> reachable o tls_mtu t
| reach_step t ev out t' :
    reachable o tls_mtu t -> calm_tunnel t = true -> tls_event_ok ev -> tunnel_step t ev = Some (out, t') -> reachable o tls_mtu t'.

Lemma reachable_rest o tls_mtu t : config_ok o tls_mtu -> reachable o tls_mtu t -> rest (tn_multi t).
Proof.
  intros Hc. induction 1 as [t E|t ev out t' _ IH Hcalm Hev E].
  - destruct (tunnel_init_ok o tls_mtu Hc) as (t' & E' & Hr). congruence.
  - destruct (tunnel_step_ok t ev IH Hcalm Hev) as (out' & t2 & E' & Hr). congruence.
Qed.
End safe.

(** C2: A tunnel does not fail while its control channel is calm, that is, while no peer has
    asked for the wrapped client key to be sent again (a first packet with the flag
    [EARLY_NEG_FLAG_RESEND_WKC] is held or has been read - with it a peer does make a server
    without such a key fail, [server_without_key_aborts]), and while the packet ids of each key's
    control channel are below 2^31 - 28.  With any cipher and digest of a known size, the tunnel
    can be initialised; and in every state that it comes to through calm ones - by any other
    packets from any address, in any order, by timers, payload, renegotiations and the answers of
    authentication methods, with a TLS library of any behaviour - the next event is handled: no
    assertion of the sessions, of the reliability layer or of the buffers fails, and the loop of
    [tls_process] ends. *)
Theorem tunnel_never_fails `{CL : CryptoLib} `{!CryptoLaws} `{PL : PrfLib} `{!PrfLaws} `{TL : TlsLib} `{!TlsLaws} `{NL : NameLib} `{TK : TokenLib} o tls_mtu :
  config_ok o tls_mtu ->
  is_Some (tunnel_init o tls_mtu) /\
  forall t ev, reachable o tls_mtu t -> calm_tunnel t = true -> tls_event_ok ev -> is_Some (tunnel_step t ev).
Proof.
  intros Hc. split.
  - destruct (tunnel_init_ok o tls_mtu Hc) as (t & -> & _). done.
  - intros t ev Hr Hcalm Hev. destruct (tunnel_step_ok t ev (reachable_rest o tls_mtu t Hc Hr) Hcalm Hev) as (out & t' & -> & _). done.
Qed.


(** C20: The loop of [tls_process] ends, while the control channel is calm (no peer has asked for
    the wrapped client key with [EARLY_NEG_FLAG_RESEND_WKC], and packet ids are below 2^31 - 28).
    For a session under way that knows its peer's address, as [tls_multi_process] calls it, and
    any TLS library - one that always has something to say, or never an end of what it reads - 34
    rounds are enough, and more make no difference: each round that goes on has brought the key nearer to its last state, taken a
    packet from the receive window, used a place of the send window, or filled or emptied one
    of the plaintext buffers. *)
Theorem tls_rounds_bounded `{CL : CryptoLib} `{!CryptoLaws} `{PL : PrfLib} `{!PrfLaws} `{TL : TlsLib} `{!TlsLaws} `{NL : NameLib} `{TK : TokenLib} o tls_mtu t i w l wakeup :
  config_ok o tls_mtu -> reachable o tls_mtu t -> calm_tunnel t = true -> world_ok w ->
  running (tk_state (primary (tn_multi t) i)) -> addressed (tn_multi t) i ->
  exists r, forall fuel, (34 <= fuel)%nat -> tls_rounds fuel w (tn_multi t) i l wakeup = Some r.
Proof.
  intros Hc Hr Hcalm Hw Hrun Ha. pose proof (calm_good _ (reachable_rest o tls_mtu t Hc Hr) Hcalm) as [Hi _].
  assert (Hlv : live_at (tn_multi t) i) by done. pose proof (rounds_left_bound _ _ Hlv).
  destruct (tls_rounds_ok 34 w (tn_multi t) i l wakeup Hw Hlv Ha) as (m' & l' & wk & _ & E); [lia|].
  exists (m', l', wk). intros fuel Hf. specialize (E (fuel - 34)%nat). by replace (34 + (fuel - 34))%nat with fuel in E by lia.
Qed.

(** C21: A handshake that is not complete in time is given up.  When the deadline of a key
    that is between its first packet and [S_ACTIVE] has passed, its session, if it knows its
    peer's address, is in [S_ERROR]
    after the rounds of [tls_process] - or still in [S_ERROR_PRE], with a last packet for the
    network - whatever has arrived in the meantime, as long as the control channel is calm: no
    peer has asked for the wrapped client key with [EARLY_NEG_FLAG_RESEND_WKC], and packet ids
    are below 2^31 - 28. *)
Theorem negotiation_times_out `{CL : CryptoLib} `{!CryptoLaws} `{PL : PrfLib} `{!PrfLaws} `{TL : TlsLib} `{!TlsLaws} `{NL : NameLib} `{TK : TokenLib} o tls_mtu t i w l wakeup :
  config_ok o tls_mtu -> reachable o tls_mtu t -> calm_tunnel t = true ->
  S_PRE_START_SKIP <= tk_state (primary (tn_multi t) i) < S_ACTIVE ->
  tk_must_negotiate (primary (tn_multi t) i) <= w_now w -> addressed (tn_multi t) i ->
  exists m' l', tls_rounds TLS_ROUNDS w (tn_multi t) i l wakeup = Some (m', l', wakeup) /\
    (tk_state (primary m' i) = S_ERROR \/ (tk_state (primary m' i) = S_ERROR_PRE /\ exists p, l' = LinkPacket p)).
Proof.
  intros Hc Hr Hcalm Hst Hn Ha. pose proof (calm_good _ (reachable_rest o tls_mtu t Hc Hr) Hcalm) as [Hi _]. set (m := tn_multi t) in *.
  unfold S_PRE_START_SKIP, S_ACTIVE in Hst.
  assert (Hrun : running (tk_state (primary m i))) by (unfold running, S_UNDEF, S_ERROR; lia).
  change TLS_ROUNDS with (S (S 62)). rewrite tls_rounds_step. unfold tls_process_state at 1.
  assert (Es : ps_start w m i = Some (false, m)).
  { unfold ps_start. by rewrite (proj2 (Z.eqb_neq _ S_INITIAL)) by (unfold S_INITIAL; lia). }
  rewrite Es, Some_bind. replace (timed_out w (primary m i)) with true by (unfold timed_out, S_UNDEF, S_ACTIVE; lia).
  destruct (tls_error_ok m m i (kept_refl m i Hi (proj1 Hrun)) Hrun) as (m1 & -> & Hk1 & Hp1). rewrite !Some_bind, Hp1.
  change ((S_ERROR_PRE =? S_ERROR) || negb true) with false. cbv iota.
  rewrite tls_rounds_step. destruct (error_round w m1 i l wakeup) as (m2 & l2 & -> & Hfin).
  { split; [apply Hk1|]. by rewrite Hp1. }
  { unfold addressed. by rewrite (kp_addr _ _ _ Hk1). }
  { done. }
  rewrite Some_bind, orb_true_r. by do 2 eexists.
Qed.
