(* ===== verification/TlsAccess.v ===== *)
(** * Who may use the data channel

    Which key a data packet gets, in both directions, and what becomes of all keys when a
    peer that has been accepted comes back under another name. *)
From S2P Require Import Prelude Integers Buffer Frame PacketId Replay EpochKeys EpochDerive EpochInv DataChannel DataSafety DataSend Data Reliable AckList Windows SendWindow RecvWindow Control ControlNet ControlOne ControlAny Mroute KeyMethod KeyExpansion Handshake TlsSession TlsLife TlsAuth TlsProcess TlsMulti TlsReceive TlsRun TlsInv TlsText TlsSteps TlsRounds TlsServe TlsPacket TlsSafe.


Section access.
Context `{CL : CryptoLib} `{TL : TlsLib} `{NL : NameLib} `{TK : TokenLib}.
Implicit Types (m : tls_multi) (i : tm_index).










(** ** Nobody is trusted *)

Definition deauthenticated m : Prop := forall x, tk_authenticated (get_key_at m x) = KS_AUTH_FALSE.

Lemma deauthenticate_all m : deauthenticated (tls_deauthenticate m).
Proof. by intros [[] []]. Qed.

Lemma deauthenticated_set m i : deauthenticated m -> deauthenticated (set_authenticated m i KS_AUTH_FALSE).
Proof. intros Hd [j k]. specialize (Hd (j, k)). unfold set_authenticated. destruct i, j, k; done || exact Hd. Qed.

(** Then no data packet is accepted, and none is sent. *)
Lemma nothing_trusted m :
  deauthenticated m ->
  (forall from buf floated, handle_data_channel_packet m from buf floated = Some (drop_packet false buf, m)) /\
  (forall now buf, tls_pre_encrypt now m buf = Some (buf_no_len buf, None, set_tm_save_ks m None)).
Proof.
  intros Hd. split.
  - intros from buf floated. unfold handle_data_channel_packet.
    assert (E : forall scan, find_data_key m from floated (Z.land (buf_peek_u8 buf) P_KEY_ID_MASK) scan = Some None).
    { induction scan as [|x scan IH]; cbn [find_data_key]; [done|]. unfold key_matches. rewrite (Hd x).
      rewrite bool_decide_eq_false_2, andb_false_r by done. exact IH. }
    by rewrite E.
  - intros now buf. unfold tls_pre_encrypt. destruct (_ <=? _); [done|]. unfold tls_select_encryption_key.
    assert (E : forall scan, select_key now (set_tm_save_ks m None) scan None = Some None).
    { induction scan as [|x scan IH]; cbn [select_key]; [done|]. unfold usable_key.
      change (get_key_at (set_tm_save_ks m None) x) with (get_key_at m x) in *. rewrite (Hd x).
      rewrite bool_decide_eq_false_2, andb_false_r by done. exact IH. }
    by rewrite E.
Qed.
(** ** Another name *)

(** The peer of a tunnel with a locked identity comes as somebody else: with a username
    that its authentication method accepts, or with a certificate that it accepts. *)
Inductive identity_changed (w : world) m i : tls_multi -> Prop :=
| changed_username username password locked :
    tm_locked_username m = Some locked ->
    string_mod_remap_name username <> locked ->
    (forall original, tm_locked_original_username m = Some original -> string_mod_remap_name username <> original) ->
    set_verify_user_pass_env (tm_opt m) (string_mod_remap_name username) = true ->
    to_auth_token_generate (tm_opt m) && is_auth_token (string_mod_password password) = false ->
    (forall st, w_plugin w = Some st -> status_ok st = true) -> (forall st, w_script w = Some st -> status_ok st = true) ->
    ssl_verify_username_length (tm_opt m) (string_mod_remap_name username) = true ->
    identity_changed w m i (verify_user_pass w m i username password)
| changed_certificate :
    is_authenticated m i = true ->
    (exists locked cn, tm_locked_cn m = Some locked /\ ts_common_name (get_session m i) = Some cn /\ cn <> locked) \/
    (exists locked chs, tm_locked_cert_hash_set m = Some locked /\ ts_cert_hash_set (get_session m i) = Some chs /\ chs <> locked) ->
    identity_changed w m i (verify_final_auth_checks w m i).

Lemma ask_methods_ok w m i :
  (forall st, w_plugin w = Some st -> status_ok st = true) -> (forall st, w_script w = Some st -> status_ok st = true) ->
  exists man ps ss m', ask_methods w m i = (man, ps, ss, m') /\ status_ok ps = true /\ status_ok ss = true /\
    tm_locked_username m' = tm_locked_username m /\ tm_locked_original_username m' = tm_locked_original_username m /\
    tm_opt m' = tm_opt m.
Proof.
  intros Hp Hs. unfold ask_methods. destruct (w_plugin w) as [ps|], (w_script w) as [ss|]; do 4 eexists; (split; [reflexivity|]);
    split_and!; first [done | (by apply Hp) | (by apply Hs) | (by destruct i)].
Qed.

Lemma username_deauthenticated w m i username password locked :
  tm_locked_username m = Some locked ->
  string_mod_remap_name username <> locked ->
  (forall original, tm_locked_original_username m = Some original -> string_mod_remap_name username <> original) ->
  set_verify_user_pass_env (tm_opt m) (string_mod_remap_name username) = true ->
  to_auth_token_generate (tm_opt m) && is_auth_token (string_mod_password password) = false ->
  (forall st, w_plugin w = Some st -> status_ok st = true) -> (forall st, w_script w = Some st -> status_ok st = true) ->
  ssl_verify_username_length (tm_opt m) (string_mod_remap_name username) = true ->
  deauthenticated (verify_user_pass w m i username password).
Proof.
  intros Hl Hne Hor Henv Htok Hp Hs Hlen. unfold verify_user_pass. rewrite Hl.
  assert (E : match tm_locked_original_username m with
              | Some original => if bool_decide (string_mod_remap_name username = original) then locked else string_mod_remap_name username
              | None => string_mod_remap_name username end = string_mod_remap_name username).
  { destruct (tm_locked_original_username m) as [o|]; [|done]. by rewrite bool_decide_eq_false_2 by by apply Hor. }
  rewrite E. unfold verify_token. rewrite Htok, Henv. cbn [negb].
  destruct (ask_methods_ok w m i Hp Hs) as (man & ps & ss & m1 & -> & Ep & Es & L1 & L2 & Eo). rewrite Eo, Hlen.
  unfold user_pass_verdict. rewrite Ep, Es. cbn [andb]. unfold tls_lock_username. rewrite L1, Hl, L2.
  rewrite bool_decide_eq_true_2 by done. cbn [andb].
  assert (Ho : match tm_locked_original_username m with Some original => bool_decide (string_mod_remap_name username <> original) | None => true end = true).
  { destruct (tm_locked_original_username m) as [o|]; [|done]. by rewrite bool_decide_eq_true_2 by by apply Hor. }
  rewrite Ho. cbn [andb]. apply deauthenticated_set, deauthenticate_all.
Qed.

Lemma deauthenticated_not m i : deauthenticated m -> is_authenticated m i = false.
Proof. intros Hd. unfold is_authenticated, primary_auth. by rewrite (Hd (i, KS_PRIMARY)). Qed.

Lemma certificate_deauthenticated w m i :
  is_authenticated m i = true ->
  (exists locked cn, tm_locked_cn m = Some locked /\ ts_common_name (get_session m i) = Some cn /\ cn <> locked) \/
  (exists locked chs, tm_locked_cert_hash_set m = Some locked /\ ts_cert_hash_set (get_session m i) = Some chs /\ chs <> locked) ->
  deauthenticated (verify_final_auth_checks w m i).
Proof.
  intros Ha Hc. unfold verify_final_auth_checks. set (m0 := some_common_name m i).
  assert (H0 : is_authenticated m0 i = true /\ tm_locked_cn m0 = tm_locked_cn m /\ tm_locked_cert_hash_set m0 = tm_locked_cert_hash_set m /\
    ts_cert_hash_set (get_session m0 i) = ts_cert_hash_set (get_session m i) /\
    (forall cn, ts_common_name (get_session m i) = Some cn -> ts_common_name (get_session m0 i) = Some cn)).
  { unfold m0, some_common_name. destruct (ts_common_name (get_session m i)) eqn:E; [split_and!; congruence|]. destruct i; by split_and!. }
  destruct H0 as (Ha0 & E1 & E2 & E3 & E4). clearbody m0.
  assert (Hd : deauthenticated (check_locked_cert_hash_set (check_locked_cn m0 i) i)).
  { assert (Hcn : deauthenticated (check_locked_cn m0 i) \/ check_locked_cn m0 i = m0).
    { unfold check_locked_cn. destruct (tm_locked_cn m0), (ts_common_name (get_session m0 i)); try by right.
      destruct (_ && _); [left; apply deauthenticate_all|by right]. }
    destruct Hcn as [Hcn|Hcn].
    - unfold check_locked_cert_hash_set. rewrite (deauthenticated_not _ i Hcn). cbn [andb]. by repeat case_match.
    - rewrite Hcn. destruct Hc as [(locked & cn & C1 & C2 & C3)|(locked & chs & C1 & C2 & C3)].
      + exfalso. apply E4 in C2. unfold check_locked_cn in Hcn. rewrite E1, C1, C2, Ha0, bool_decide_eq_true_2 in Hcn by done.
        cbn [andb] in Hcn. pose proof (deauthenticate_all (set_session m0 i (set_ts_common_name (get_session m0 i) (Some locked)))) as Hd.
        rewrite Hcn in Hd. by rewrite (deauthenticated_not _ i Hd) in Ha0.
      + unfold check_locked_cert_hash_set. rewrite E2, C1, E3, C2, Ha0. unfold cert_hash_compare.
        rewrite bool_decide_eq_false_2 by congruence. cbn [andb negb]. apply deauthenticate_all. }
  unfold check_ccd. rewrite (deauthenticated_not _ i Hd). done.
Qed.
End access.

(** C5: A peer cannot change its name.  When the peer of a tunnel authenticates again - for a
    renegotiation, or in a new session - under another username, with another common name or
    with other certificates than the ones that are locked, then even if the authentication
    method accepts it no key of the tunnel is left: every data packet is dropped, from
    whomever it comes, and none is sent. *)
Theorem identity_change_stops_data `{CL : CryptoLib} `{TL : TlsLib} `{NL : NameLib} `{TK : TokenLib} w m i m' :
  identity_changed w m i m' ->
  (forall from buf floated, handle_data_channel_packet m' from buf floated = Some (drop_packet false buf, m')) /\
  (forall now buf, tls_pre_encrypt now m' buf = Some (buf_no_len buf, None, set_tm_save_ks m' None)).
Proof.
  intros Hc. apply nothing_trusted. destruct Hc; [by eapply username_deauthenticated|by apply certificate_deauthenticated].
Qed.


