(* ===== verification/TlsWitness.v ===== *)
(** * The theorems about tunnels, at concrete tunnels

    The laws of the libraries hold of the concrete instances of [TlsDemo], and the theorems
    about key exchange and tunnels apply to what is computed there. *)
From S2P Require Import Prelude Integers Buffer Frame PacketId Replay EpochKeys EpochDerive EpochInv DataChannel DataSafety DataSend Data Reliable AckList Windows SendWindow RecvWindow Control ControlNet ControlOne ControlAny Mroute KeyMethod KeyExpansion Handshake TlsSession TlsLife TlsAuth TlsProcess TlsMulti TlsReceive TlsRun TlsDemo TlsInv TlsText TlsSteps TlsRounds TlsServe TlsPacket TlsSafe TlsAccess.

Import Data.Demo TlsDemo.

#[local] Arguments be_bytes : simpl never.

(** ** The laws *)

Lemma u8_bytes l : bytes (u8 <$> l).
Proof. apply Forall_fmap, Forall_forall. intros x _. unfold compose, u8, is_u8. cbn. lia_mod. Qed.

Lemma length_u8_take n (l : list Z) : 0 <= n -> zlen (u8 <$> take (Z.to_nat n) l) <= n.
Proof. intros. rewrite length_fmap, length_take. lia. Qed.

Lemma length_mix l n : 0 <= n -> zlen (mix l n) = n.
Proof. intros. unfold mix. rewrite length_fmap, length_seqZ. lia. Qed.

#[export] Instance toy_tls_laws : TlsLaws.
Proof.
  split; cbn.
  - intros o n st out o'. destruct (toy_out o); [by intros [= <- <- _]|]. destruct (Z.leb_spec n 0); [by intros [= <- <- _]|].
    intros [= <- <- _] _. split; [apply (u8_bytes (take (Z.to_nat n) (z :: l)))|apply (length_u8_take n (z :: l)); lia].
  - intros o n st out o' ev. destruct (toy_in o) as [|z l]; [by intros [= <- <- _ _]|]. destruct (Z.leb_spec n 0); [by intros [= <- <- _ _]|].
    intros [= <- <- _ _] _. split; [apply (u8_bytes (take (Z.to_nat n) (z :: l)))|]. split; [|apply (length_u8_take n (z :: l)); lia].
    destruct (Z.to_nat n) eqn:E; [lia|]. cbn. lia.
  - intros o l n out. destruct (Z.ltb_spec n 0); [done|]. intros [= <-]. by apply length_mix.
  - intros n. split; [cbn [length]; by rewrite length_be_bytes|]. constructor; [done|]. apply be_bytes_bytes.
  - intros n. exists 0%nat. split; [unfold SID_DRAWS; lia|]. unfold session_id_defined. by apply bool_decide_eq_true_2.
Qed.

#[export] Instance toy_prf_laws : PrfLaws.
Proof. split. intros seed secret n out. cbn. destruct (Z.ltb_spec n 0); [done|]. intros [= <-]. by apply length_mix. Qed.

Lemma options_ok server export epoch : config_ok (options server export epoch) 1250.
Proof.
  split; cbn; [by split|split; [intros H; by vm_compute in H|intros _; apply kt_ok]|by repeat constructor|done|done|].
  intros name unit_. unfold packet_id_init, packet_id_init_recv. cbn. done.
Qed.

Lemma world_of_ok now x : 0 < now -> 0 <= x < 250 -> world_ok (world_of now x).
Proof.
  intros Hn Hx. split; [done| |done|done]. split; [done..|]. split_and!; apply Forall_replicate; unfold is_u8; lia.
Qed.

(** ** The key exchange *)

Definition texts_demo : texts := mk_texts [86; 52] (Some ([117], [112])) (Some [73; 86]).

Lemma texts_demo_ok : texts_ok (tx_options texts_demo) (tx_user_pass texts_demo) (tx_peer_info texts_demo).
Proof.
  split; cbn.
  - split; [by repeat constructor|done].
  - intros u p [= <- <-]. split; (split; [by repeat constructor|done]).
  - intros s [= <-]. split; [by repeat constructor|done].
Qed.

Lemma rnd_ok x : 0 <= x < 250 -> source_ok (rnd x).
Proof. intros Hx. split; [done..|]. split_and!; apply Forall_replicate; unfold is_u8; lia. Qed.

Lemma exchange_block : buf_rep (block 500 0 0) 0 [] 500.
Proof. apply (block_rep 500 0 0); done || lia. Qed.

Lemma key_method_2_round_trip_witness :
  exists wb', key_method_2_write (block 500 0 0) key_source2_zero false (rnd 5) (tx_options texts_demo) (tx_user_pass texts_demo) (tx_peer_info texts_demo) =
      Some (true, set_half key_source2_zero false (sent_source false (rnd 5)), wb') /\
    forall rb h' t', buf_rep rb h' (content wb') t' ->
      read_key_message rb key_source2_zero (negb false) =
        (Some (received_message (tx_options texts_demo) (tx_user_pass texts_demo) (tx_peer_info texts_demo)),
         set_half key_source2_zero false (sent_source false (rnd 5))).
Proof.
  apply (key_method_2_round_trip (block 500 0 0) 0 [] 500); [exact exchange_block|by apply rnd_ok|exact texts_demo_ok|].
  vm_compute. discriminate.
Defined.

Lemma handshake_opens_data_channel_witness :
  exists cb' src_c, key_method_2_write (block 500 0 0) key_source2_zero false (rnd 5) (tx_options texts_demo) (tx_user_pass texts_demo) (tx_peer_info texts_demo)
      = Some (true, src_c, cb') /\
  forall rb h t, buf_rep rb h (content cb') t ->
  exists m src_s sb' src, read_key_message rb key_source2_zero true = (Some m, src_s) /\
    key_method_2_write (block 500 0 0) src_s true (rnd 9) (tx_options texts_demo) (tx_user_pass texts_demo) (tx_peer_info texts_demo) = Some (true, src, sb') /\
  forall rb' h' t', buf_rep rb' h' (content sb') t' ->
  exists m', read_key_message rb' src_c false = (Some m', src) /\
  forall c s co_c co_s, same_session c s -> xp_key_src c = src -> key_type_ok (xp_epoch_format c) (xp_key_type c) ->
    fresh_options co_c -> fresh_options co_s ->
  exists ok co_c' co_s', generate_key_expansion c co_c = Some (ok, co_c') /\
    generate_key_expansion s co_s = Some (ok, co_s') /\
    (ok = true -> opened (xp_key_type c) (xp_epoch_format c) co_c' co_s').
Proof.
  apply (handshake_opens_data_channel (block 500 0 0) 0 [] 500 (block 500 0 0) 0 [] 500 (rnd 5) (rnd 9) texts_demo texts_demo);
    [exact exchange_block|exact exchange_block|by apply rnd_ok|by apply rnd_ok|exact texts_demo_ok|exact texts_demo_ok| |];
    vm_compute; discriminate.
Defined.

(** ** Tunnels *)

Lemma tunnel_never_fails_witness :
  is_Some (tunnel_init (options true false true) 1250) /\
  forall t ev, reachable (options true false true) 1250 t -> calm_tunnel t = true -> tls_event_ok ev -> is_Some (tunnel_step t ev).
Proof. apply (tunnel_never_fails (options true false true) 1250). apply options_ok. Defined.

(** A client that has sent its first packet. *)
Definition first_step : option tunnel :=
  t ← tunnel_init (options false false false) 1250; step t (EvProcess (world_of 100 10) server_addr).

Lemma first_step_ok :
  exists t, first_step = Some t /\ reachable (options false false false) 1250 t /\ calm_tunnel t = true /\
    tk_state (primary (tn_multi t) TM_INITIAL) = S_PRE_START /\ addressed (tn_multi t) TM_INITIAL /\
    tk_must_negotiate (primary (tn_multi t) TM_INITIAL) = 160.
Proof.
  destruct (tunnel_init_ok (options false false false) 1250 (options_ok false false false)) as (t0 & E0 & Hr0).
  assert (Hc : (match tunnel_init (options false false false) 1250 with Some t => calm_tunnel t | None => false end) = true) by by vm_compute.
  rewrite E0 in Hc. assert (He : tls_event_ok (EvProcess (world_of 100 10) server_addr)) by by apply world_of_ok.
  destruct (tunnel_step_ok t0 _ Hr0 Hc He) as (out & t & E & Hr). exists t.
  assert (Ef : first_step = Some t) by (unfold first_step, step; by rewrite E0, Some_bind, E).
  assert (Hd : (match first_step with
                | Some t => calm_tunnel t && (tk_state (primary (tn_multi t) TM_INITIAL) =? S_PRE_START)
                    && link_socket_actual_defined (tk_remote_addr (primary (tn_multi t) TM_INITIAL))
                    && (tk_must_negotiate (primary (tn_multi t) TM_INITIAL) =? 160)
                | None => false end) = true) by by vm_compute.
  rewrite Ef in Hd. apply andb_true_iff in Hd as [[[H1 H2]%andb_true_iff H3]%andb_true_iff H4].
  split; [done|]. split; [by eapply reach_step; [apply reach_init|..]|]. split; [done|]. split; [lia|]. split; [done|lia].
Qed.


Lemma tls_rounds_bounded_witness :
  exists t, first_step = Some t /\
  exists r, forall fuel, (34 <= fuel)%nat -> tls_rounds fuel (world_of 101 10) (tn_multi t) TM_INITIAL LinkEmpty 60 = Some r.
Proof.
  destruct first_step_ok as (t & E & Hr & Hc & Hst & Ha & _). exists t. split; [exact E|].
  apply (tls_rounds_bounded (options false false false) 1250 t TM_INITIAL (world_of 101 10) LinkEmpty 60);
    [apply options_ok|exact Hr|exact Hc|apply world_of_ok; lia|rewrite Hst; by split|exact Ha].
Defined.

Lemma negotiation_times_out_witness :
  exists t, first_step = Some t /\
  exists m' l', tls_rounds TLS_ROUNDS (world_of 200 10) (tn_multi t) TM_INITIAL LinkEmpty 60 = Some (m', l', 60) /\
    (tk_state (primary m' TM_INITIAL) = S_ERROR \/ (tk_state (primary m' TM_INITIAL) = S_ERROR_PRE /\ exists p, l' = LinkPacket p)).
Proof.
  destruct first_step_ok as (t & E & Hr & Hc & Hst & Ha & Hn). exists t. split; [exact E|].
  apply (negotiation_times_out (options false false false) 1250 t TM_INITIAL (world_of 200 10) LinkEmpty 60);
    [apply options_ok|exact Hr|exact Hc|rewrite Hst; by split|rewrite Hn; done|exact Ha].
Defined.


(** The server of two connected tunnels, had it another name locked. *)
Definition renamed : tls_multi :=
  match connected false false with
  | Some (_, s) => set_tm_locked_cn (tn_multi s) (Some [120])
  | None => tls_multi_init (options true false false)
  end.

Lemma identity_change_stops_data_witness :
  (forall from buf floated, handle_data_channel_packet (verify_final_auth_checks (world_of 300 20) renamed TM_ACTIVE) from buf floated =
     Some (drop_packet false buf, verify_final_auth_checks (world_of 300 20) renamed TM_ACTIVE)) /\
  (forall now buf, tls_pre_encrypt now (verify_final_auth_checks (world_of 300 20) renamed TM_ACTIVE) buf =
     Some (buf_no_len buf, None, set_tm_save_ks (verify_final_auth_checks (world_of 300 20) renamed TM_ACTIVE) None)).
Proof.
  apply (identity_change_stops_data (world_of 300 20) renamed TM_ACTIVE). apply changed_certificate.
  - vm_compute. reflexivity.
  - left. exists [120], [99; 110]. split; [vm_compute; reflexivity|]. split; [vm_compute; reflexivity|]. discriminate.
Defined.
