(* ===== verification/WrapDemo.v ===== *)
(** * The wrapped control channel at concrete inputs

    A library with a sum for a digest and a pad for a cipher that obeys the documented laws,
    padding of CBC blocks included; data packets of the older modes and their sizes; contexts of
    a client and a server in the three modes of the control channel, and a first connection:
    reset, answer, cookie. *)
From Stdlib Require Import ZifyNat.
From S2P Require Import Prelude Integers Buffer Frame PacketId ReplayWindow Replay EpochKeys DataChannel CryptoV1 CryptoModes Reliable AckList Control PacketSize OTime HashTable Mroute KeyMethod KeyExpansion TlsCrypt TlsCryptSpec TlsWrap WrapSpec ClientKey TlsSession TlsLife TlsMulti Mudp FirstPacket TlsDemo.

Module WrapDemo.

(** ** The library *)

Definition digest_of (k m : list Z) (n : nat) : list Z :=
  let s := foldl (fun a b => (a * 257 + b) mod 4294967291) 7 (k ++ m) in
  (fun i => (s / 256 + 37 * i + s * i / 7) mod 256) <$> seqZ 1 (Z.of_nat n).

Definition digest_size (d : string) : Z := if bool_decide (d = "SHA256"%string) then 32 else 20.

#[export] Instance pad_crypto : CryptoLib := {
  hmac_sha256 k m := digest_of k m 32;
  cipher_kt_iv_size _ := 16;
  cipher_kt_key_size _ := 32;
  cipher_kt_block_size _ := 16;
  cipher_kt_mode_aead c := bool_decide (c = "AES-256-GCM"%string);
  cipher_kt_name c := c;
  md_kt_size d := digest_size d;
  aead_seal _ _ _ _ m := (m, zeros 16);
  aead_open _ _ _ _ m tag := Some m
}.

Lemma length_digest k m n : length (digest_of k m n) = n.
Proof. unfold digest_of. rewrite length_fmap, length_seqZ. lia. Qed.

Lemma digest_bytes k m n : bytes (digest_of k m n).
Proof.
  apply Forall_fmap, Forall_forall. intros i _. cbn. unfold is_u8. apply Z.mod_pos_bound. lia.
Qed.

#[export] Instance pad_laws : CryptoLaws.
Proof.
  split.
  - intros k m. change (hmac_sha256 k m) with (digest_of k m 32). by rewrite length_digest.
  - intros k m. apply digest_bytes.
  - intros c _. cbn. unfold OPENVPN_AEAD_MIN_IV_LEN, OPENVPN_MAX_IV_LENGTH. lia.
  - intros c. cbn. unfold MAX_CIPHER_KEY_LENGTH. lia.
  - intros c. cbn. lia.
  - done.
  - intros c k iv ad m Hm. split; [done|by apply Forall_replicate].
  - intros c k iv ad m tag m' [= <-]. done.
  - intros c k iv ad m tag m' Hm [= <-]. done.
  - done.
Qed.

(** A pad of one byte; in CBC mode whole blocks, the last of them filled up with the number of
    bytes that it takes. *)
Record pad := mk_pad { pad_encrypt : bool; pad_cbc : bool; pad_byte : Z; pad_rest : list Z }.

Definition with_rest (p : pad) (rest : list Z) : pad := mk_pad (pad_encrypt p) (pad_cbc p) (pad_byte p) rest.

Definition is_cbc (c : string) : bool := bool_decide (c = "AES-256-CBC"%string).

Definition pad_text (p : pad) (x : list Z) : list Z := Z.lxor (pad_byte p) <$> x.

(** The bytes that can be given out: whole blocks, and not the last one when decrypting. *)
Definition blocks_of (p : pad) (n : nat) : nat := ((if pad_encrypt p then n else n - 1) / 16 * 16)%nat.

Definition pad_update (p : pad) (x : list Z) : option (list Z * pad) :=
  if pad_cbc p then
    let a := pad_rest p ++ x in
    let n := blocks_of p (length a) in
    Some (pad_text p (take n a), with_rest p (drop n a))
  else Some (pad_text p x, p).

Definition pad_final (p : pad) : option (list Z) :=
  if pad_cbc p then
    if pad_encrypt p then
      let k := (16 - length (pad_rest p))%nat in Some (pad_text p (pad_rest p ++ replicate k (Z.of_nat k)))
    else if bool_decide (length (pad_rest p) = 16%nat) then
      let t := pad_text p (pad_rest p) in Some (take (16 - Z.to_nat (List.last t 0)) t)
    else None
  else Some [].

#[export] Instance pad_modes : ModeLib := {
  md_hmac d k m := digest_of k m (Z.to_nat (digest_size d));
  cipher_kt_mode_cbc c := is_cbc c;
  cipher_kt_mode_ofb_cfb c := bool_decide (c = "AES-256-CFB"%string);
  cipher_stream := pad;
  cipher_ctx_reset e c k iv := Some (mk_pad e (is_cbc c) (be_val (k ++ iv) mod 256) []);
  cipher_ctx_update := pad_update;
  cipher_ctx_final := pad_final
}.

Lemma lxor_u8 a b : is_u8 a -> is_u8 b -> is_u8 (Z.lxor a b).
Proof.
  unfold is_u8. intros Ha Hb. assert (Hn : 0 <= Z.lxor a b) by (apply Z.lxor_nonneg; lia). split; [done|].
  destruct (Z.eqb_spec (Z.lxor a b) 0) as [->|Hz]; [done|]. change 256 with (2 ^ 8). apply Z.log2_lt_pow2; [lia|].
  pose proof (Z.log2_lxor a b ltac:(lia) ltac:(lia)).
  assert (forall x, 0 <= x < 256 -> Z.log2 x < 8).
  { intros x Hx. destruct (Z.eqb_spec x 0) as [->|]; [done|]. apply Z.log2_lt_pow2; lia. }
  pose proof (H0 a Ha). pose proof (H0 b Hb). lia.
Qed.

Lemma pad_text_bytes p x : is_u8 (pad_byte p) -> bytes x -> bytes (pad_text p x).
Proof. intros Hp Hx. apply Forall_fmap. eapply Forall_impl; [exact Hx|]. intros y Hy. by apply lxor_u8. Qed.

Lemma pad_text_twice p x : pad_text p (pad_text p x) = x.
Proof.
  unfold pad_text. rewrite <- list_fmap_compose. rewrite <- (list_fmap_id x) at 2. apply list_fmap_ext. intros i y _. cbn.
  by rewrite <- Z.lxor_assoc, Z.lxor_nilpotent, Z.lxor_0_l.
Qed.

Lemma pad_text_app p x y : pad_text p (x ++ y) = pad_text p x ++ pad_text p y.
Proof. apply fmap_app. Qed.

Lemma pad_text_rest p r x : pad_text (with_rest p r) x = pad_text p x.
Proof. done. Qed.

Lemma pad_text_length p x : length (pad_text p x) = length x.
Proof. apply length_fmap. Qed.

(** Whole blocks of a number of bytes. *)
Ltac lia_div := zify; Z.div_mod_to_equations; lia.
#[local] Arguments Nat.div : simpl never.

Lemma blocks_le p n : (blocks_of p n <= n)%nat.
Proof. unfold blocks_of. destruct (pad_encrypt p); lia_div. Qed.

Lemma plain_run p texts : pad_cbc p = false -> stream_run p texts = Some (pad_text p (concat texts), p).
Proof.
  intros Hp. induction texts as [|x texts IH]; [done|]. cbn [stream_run concat]. cbn [cipher_ctx_update pad_modes]. unfold pad_update. rewrite Hp. cbn [mbind option_bind].
  rewrite IH. cbn [mbind option_bind]. by rewrite pad_text_app.
Qed.

Lemma cbc_run texts : forall p, pad_cbc p = true -> pad_encrypt p = true -> (length (pad_rest p) < 16)%nat ->
  let a := pad_rest p ++ concat texts in let n := (length a / 16 * 16)%nat in
  stream_run p texts = Some (pad_text p (take n a), with_rest p (drop n a)).
Proof.
  induction texts as [|x texts IH]; intros p Hc He Hr; cbv zeta; cbn [stream_run concat].
  - rewrite app_nil_r. replace (length (pad_rest p) / 16 * 16)%nat with 0%nat by (rewrite Nat.div_small; lia). rewrite take_0, drop_0. by destruct p.
  - cbn [cipher_ctx_update pad_modes]. unfold pad_update, blocks_of. rewrite Hc, He. cbn [mbind option_bind].
    set (a1 := pad_rest p ++ x). set (n1 := (length a1 / 16 * 16)%nat).
    rewrite (IH (with_rest p (drop n1 a1))) by (done || cbn [with_rest pad_rest]; rewrite length_drop; unfold n1; lia_div).
    cbn [mbind option_bind pad_rest with_rest]. fold (with_rest p (drop n1 a1)). rewrite pad_text_rest, <- pad_text_app, app_assoc. fold a1.
    assert (Hn1 : (n1 <= length a1)%nat) by (unfold n1; lia_div).
    set (n2 := (length (drop n1 a1 ++ concat texts) / 16 * 16)%nat).
    assert (Hn : (length (a1 ++ concat texts) / 16 * 16 = n1 + n2)%nat).
    { unfold n2. rewrite !length_app, length_drop. unfold n1. lia_div. }
    rewrite Hn. replace (drop n1 a1 ++ concat texts) with (drop n1 (a1 ++ concat texts)) by by rewrite drop_app_le.
    rewrite drop_drop. f_equal. f_equal. f_equal. rewrite <- (take_take_drop (a1 ++ concat texts) n1 n2). f_equal. by rewrite take_app_le.
Qed.

Lemma plain_out e c k iv texts : is_cbc c = false ->
  stream_out e c k iv texts = Some (pad_text (mk_pad e false (be_val (k ++ iv) mod 256) []) (concat texts), []).
Proof.
  intros Ec. unfold stream_out. cbn [cipher_ctx_reset pad_modes mbind option_bind]. rewrite Ec, plain_run by done. done.
Qed.

(** What encryption gives. *)
Lemma pad_out c k iv texts : let p := mk_pad true (is_cbc c) (be_val (k ++ iv) mod 256) [] in
  let a := concat texts in let n := (length a / 16 * 16)%nat in let fill := (16 - (length a - n))%nat in
  stream_out true c k iv texts =
    Some (if is_cbc c then (pad_text p (take n a), pad_text p (drop n a ++ replicate fill (Z.of_nat fill))) else (pad_text p a, [])).
Proof.
  intros p a n fill. unfold stream_out. cbn [cipher_ctx_reset pad_modes mbind option_bind]. fold p. destruct (is_cbc c) eqn:Ec.
  - rewrite cbc_run by (done || cbn; lia). cbn [mbind option_bind p pad_rest app]. fold a n. cbn [cipher_ctx_final pad_modes]. unfold pad_final.
    cbn [with_rest pad_cbc pad_encrypt pad_rest p]. cbn [mbind option_bind]. rewrite length_drop. fold fill. done.
  - rewrite plain_run by done. cbn [mbind option_bind cipher_ctx_final pad_modes]. unfold pad_final. by cbn [pad_cbc p].
Qed.

Lemma fill_bytes n : (n <= 16)%nat -> bytes (replicate n (Z.of_nat n)).
Proof. intros. apply Forall_replicate. unfold is_u8. lia. Qed.

(** Decryption of what has been filled up. *)
Lemma pad_undo p a : let n := (length a / 16 * 16)%nat in let fill := (16 - (length a - n))%nat in
  pad_cbc p = true -> pad_encrypt p = false -> pad_rest p = [] ->
  let x := pad_text p (take n a) ++ pad_text p (drop n a ++ replicate fill (Z.of_nat fill)) in
  exists p', pad_update p x = Some (take n a, p') /\ pad_final p' = Some (drop n a).
Proof.
  intros n fill Hc He Hr x.
  assert (Hn : (n <= length a < n + 16)%nat) by (unfold n; lia_div).
  assert (Hx : length x = (n + 16)%nat) by (unfold x, fill; rewrite length_app, !pad_text_length, length_app, length_take, length_drop, length_replicate; lia).
  unfold pad_update, blocks_of. rewrite Hc, He, Hr, app_nil_l, Hx.
  replace ((n + 16 - 1) / 16 * 16)%nat with n by (unfold n; lia_div).
  unfold x. rewrite take_app_length', drop_app_length' by (rewrite pad_text_length, length_take; lia).
  rewrite pad_text_twice. eexists. split; [done|]. unfold pad_final. cbn [with_rest pad_cbc pad_encrypt pad_rest]. rewrite Hc, He.
  rewrite bool_decide_eq_true_2 by (rewrite pad_text_length, length_app, length_drop, length_replicate; unfold fill; lia).
  rewrite pad_text_rest, pad_text_twice.
  assert (Hl : List.last (drop n a ++ replicate fill (Z.of_nat fill)) 0 = Z.of_nat fill).
  { destruct fill as [|f] eqn:Ef; [lia|]. rewrite replicate_S_end, app_assoc. apply List.last_last. }
  rewrite Hl, Nat2Z.id, take_app_length' by (rewrite length_drop; lia). done.
Qed.

#[export] Instance pad_mode_laws : ModeLaws.
Proof.
  assert (Hpb : forall e c k iv, is_u8 (pad_byte (mk_pad e (is_cbc c) (be_val (k ++ iv) mod 256) []))).
  { intros. cbn. unfold is_u8. pose proof (Z.mod_pos_bound (be_val (k ++ iv)) 256). lia. }
  split.
  - intros d k m. cbn [md_hmac md_kt_size pad_modes pad_crypto]. rewrite length_digest. unfold digest_size. by case_bool_decide.
  - intros. apply digest_bytes.
  - intros d. cbn. unfold digest_size, MAX_HMAC_KEY_LENGTH. case_bool_decide; lia.
  - intros c _. cbn. unfold OPENVPN_MAX_IV_LENGTH. lia.
  - intros c k iv texts _. rewrite pad_out. done.
  - intros c k iv texts out fin Hb. rewrite pad_out. cbn [cipher_kt_mode_cbc pad_modes cipher_kt_block_size cipher_kt_iv_size pad_crypto].
    assert (Ht : bytes (concat texts)) by by apply Forall_concat.
    assert (Hn : (length (concat texts) / 16 * 16 <= length (concat texts) < length (concat texts) / 16 * 16 + 16)%nat) by lia_div.
    revert Hn. generalize (length (concat texts) / 16 * 16)%nat. intros n Hn. destruct (is_cbc c) eqn:Ec; intros [= <- <-].
    + rewrite !pad_text_length, length_app, length_take, length_drop, length_replicate. split_and!; try lia; apply pad_text_bytes.
      * apply (Hpb true c).
      * by apply Forall_take.
      * apply (Hpb true c).
      * apply Forall_app. split; [by apply Forall_drop|]. apply fill_bytes. lia.
    + rewrite pad_text_length. split_and!; [lia|cbn; lia|done|apply pad_text_bytes; [apply (Hpb true c)|done]|constructor].
  - intros c k iv texts out fin Hne. rewrite pad_out. destruct (is_cbc c); intros [= <- <-] E; apply (f_equal length) in E; rewrite length_app in E.
    + rewrite !pad_text_length, length_app, length_take, length_drop, length_replicate in E. cbn [length] in E.
      assert (Hn : (length (concat texts) < length (concat texts) / 16 * 16 + 16)%nat) by lia_div. lia.
    + rewrite pad_text_length in E. cbn [length] in E. destruct (concat texts); cbn in E; [done|lia].
  - intros c k iv st x out st' Hx. cbn. intros [= <-]. unfold pad_update. cbn [pad_cbc pad_rest app]. destruct (is_cbc c) eqn:Ec; intros [= <- _].
    + rewrite pad_text_length, length_take. split; [lia|]. apply pad_text_bytes; [apply (Hpb false c)|by apply Forall_take].
    + rewrite pad_text_length. split; [lia|]. apply pad_text_bytes; [apply (Hpb false c)|done].
  - intros c k iv x out fin Hx. unfold stream_out. cbn [stream_run cipher_ctx_reset pad_modes mbind option_bind cipher_ctx_update cipher_ctx_final]. unfold pad_update.
    cbn [pad_cbc pad_rest app]. destruct (is_cbc c) eqn:Ec; cbn [mbind option_bind]; unfold pad_final; cbn [with_rest pad_cbc pad_encrypt pad_rest].
    + case_bool_decide as Hl; [|done]. cbn [mbind option_bind]. intros [= <- <-]. rewrite app_nil_r, length_take, !pad_text_length, length_take, length_drop in *.
      split; [lia|]. apply Forall_take, pad_text_bytes; [apply (Hpb false c)|by apply Forall_drop].
    + intros [= <- <-]. rewrite app_nil_r, pad_text_length. cbn. split; [lia|constructor].
  - intros c k iv texts out fin. rewrite pad_out. unfold stream_out. cbn [stream_run cipher_ctx_reset pad_modes mbind option_bind cipher_ctx_update cipher_ctx_final].
    destruct (is_cbc c) eqn:Ec; intros [= <- <-].
    + destruct (pad_undo (mk_pad false true (be_val (k ++ iv) mod 256) []) (concat texts)) as (p' & E1 & E2); [done..|].
      change (pad_text (mk_pad false true (be_val (k ++ iv) mod 256) [])) with (pad_text (mk_pad true true (be_val (k ++ iv) mod 256) [])) in E1.
      rewrite E1. cbn [mbind option_bind]. rewrite E2. cbn [mbind option_bind]. eexists _, _. split; [done|]. by rewrite app_nil_r, take_drop.
    + unfold pad_update. cbn [pad_cbc mbind option_bind]. unfold pad_final. cbn [pad_cbc mbind option_bind]. eexists _, _. split; [done|]. rewrite !app_nil_r.
      apply (pad_text_twice (mk_pad true false (be_val (k ++ iv) mod 256) [])).
Qed.

#[export] Instance pad_ctr_laws : CtrLaws.
Proof.
  split; try done. intros e k iv texts out fin. rewrite plain_out by done. intros [= <- <-]. by rewrite pad_text_length.
Qed.

(** ** Buffers, keys and contexts *)

(** [l] at [off] in a block of [cap] bytes. *)
Definition buf_at (cap off : Z) (l : list Z) : buffer := mk_buffer cap off (zlen l) (Some (splice off l (zeros cap))).

Definition fits (cap off : Z) (l : list Z) : bool :=
  (0 <=? off) && (off + zlen l <=? cap) && (cap <? BUF_SIZE_MAX) && forallb (fun b => (0 <=? b) && (b <? 256)) l.

Lemma bytes_b l : forallb (fun b => (0 <=? b) && (b <? 256)) l = true -> bytes l.
Proof. intros H. apply Forall_forall. intros x Hx. rewrite forallb_forall in H. apply list_elem_of_In, H in Hx. unfold is_u8. lia. Qed.

Lemma buf_at_rep cap off l : fits cap off l = true -> buf_rep (buf_at cap off l) off l (cap - off - zlen l).
Proof.
  unfold fits. intros H. apply andb_true_iff in H as [H Hb]. apply bytes_b in Hb.
  assert (Hz : zlen (zeros cap) = cap) by (unfold zeros; rewrite length_replicate; lia).
  apply rep_intro; try lia; try done.
  - rewrite length_splice; lia.
  - apply Forall_splice; [by apply Forall_replicate|done].
  - apply slice_splice_eq. lia.
Qed.

Definition key32 (x : Z) : list Z := replicate 32 x.

(** Packet ids of a session with a window of 64. *)
Definition ids : packet_id := default (mk_pid (mk_send 0 0) rec_zero) (packet_id_init 64 15 "demo" 0).

Definition with_keys (c : key_ctx) : crypto_options :=
  mk_co c c true (mk_ekey [] 0) (mk_ekey [] 0) (mk_kt "" "") 0 [] key_ctx_zero rec_zero ids None true false.

Definition cbc_ctx : key_ctx := mk_ctx (Some ("AES-256-CBC"%string, key32 3)) (Some ("SHA1"%string, key32 4)) (zeros 16) 0 0 0.
Definition auth_ctx : key_ctx := mk_ctx None (Some ("SHA1"%string, key32 5)) (zeros 16) 0 0 0.
Definition crypt_ctx : key_ctx := mk_ctx (Some ("AES-256-CTR"%string, key32 6)) (Some ("SHA256"%string, key32 7)) (zeros 16) 0 0 0.

Definition wrap_of (mode : tls_wrap_mode) (co : crypto_options) (standalone : bool) (srv : key_ctx) : tls_wrap_ctx :=
  mk_wrap mode co standalone false (buf_at 1200 0 []) srv None clear_buf false key2_zero.

Definition auth_wrap : tls_wrap_ctx := wrap_of TLS_WRAP_AUTH (with_keys auth_ctx) false key_ctx_zero.
Definition crypt_wrap : tls_wrap_ctx := wrap_of TLS_WRAP_CRYPT (with_keys crypt_ctx) false key_ctx_zero.

Definition sid_a : list Z := [1; 2; 3; 4; 5; 6; 7; 8].
Definition hello : list Z := [0; 0; 0; 0; 0; 72; 105].
Definition out_buf : buffer := buf_at 400 100 hello.

Lemma out_buf_rep : buf_rep out_buf 100 hello 293.
Proof. exact (buf_at_rep 400 100 hello eq_refl). Qed.

Lemma work_rep : buf_rep (buf_at 1200 0 []) 0 [] 1200.
Proof. exact (buf_at_rep 1200 0 [] eq_refl). Qed.

(** The bytes that a function leaves in a buffer. *)
Definition made {A} (r : option (buffer * A)) : list Z := match r with Some (b, _) => content b | None => [] end.

(** A packet of the data channel in CBC mode, opened in another buffer. *)
Lemma data_v1_round_trip_witness :
  exists out oh ot pkt, openvpn_encrypt 100 out_buf (buf_at 1200 0 []) (with_keys cbc_ctx) (zeros 16) = Some (out, set_send (with_keys cbc_ctx) (mk_send 1 100)) /\
    buf_rep out oh ([] ++ pkt) ot /\
    forall rb rh rt, buf_rep rb rh pkt rt -> zlen pkt <= 200 ->
      exists dropped out_r ho to, b_len dropped = 0 /\ buf_rep out_r ho hello to /\
        openvpn_decrypt 101 rb (buf_at 1200 0 []) (with_keys cbc_ctx) false (Some 0) 0 =
          '(ok, opt) ← crypto_check_replay 101 (with_keys cbc_ctx) (mk_net 1 100) 0; Some (ok : bool, if ok then out_r else dropped, opt).
Proof.
  destruct (data_v1_round_trip 100 out_buf 100 hello 293 (buf_at 1200 0 []) [] (with_keys cbc_ctx) (zeros 16) (mk_send 1 100))
    as (out & oh & ot & pkt & E & Ho & Hr).
  - exact out_buf_rep.
  - done.
  - split; [done|]. left. done.
  - by vm_compute.
  - by vm_compute.
  - by vm_compute.
  - done.
  - split; [done|]. split; [apply bytes_b; reflexivity|]. split; [lia|]. exists 0, 1200. split; [exact work_rep|]. vm_compute. done.
  - exists out, oh, ot, pkt. split; [exact E|]. split; [exact Ho|]. intros rb rh rt Hrb Hlen.
    destruct (Hr 101 rb rh rt (buf_at 1200 0 []) (with_keys cbc_ctx) false (Some 0) 0 Hrb) as (d & o & ho & to & Hd & Hrep & Edec); try done.
    { exists 0, 0, [], 1200. split; [done|]. split; [exact work_rep|]. change (cipher_kt_block_size "AES-256-CBC") with 16. cbn [length]. lia. }
    exists d, o, ho, to. done.
Defined.

(** Fragments of at most 1000 bytes with their IP and UDP headers, in CBC mode with a digest. *)
#[export] Instance pad_sizes : SizeLaws.
Proof.
  split.
  - intros c k iv texts out fin Hc. cbn [cipher_kt_mode_cbc pad_modes] in Hc. rewrite pad_out, Hc. intros [= <- <-].
    cbn [cipher_kt_block_size pad_crypto]. rewrite !pad_text_length, length_app, length_take, length_drop, length_replicate. lia_div.
  - done.
  - intros c k iv texts out fin Hc. cbn in Hc. apply bool_decide_eq_true in Hc as ->. rewrite plain_out by done. intros [= <- <-].
    rewrite pad_text_length. cbn. lia.
  - intros c Hc. cbn in *. by apply bool_decide_eq_true in Hc as ->.
  - intros c Hc. unfold cipher_defined in Hc. apply negb_false_iff, bool_decide_eq_true in Hc as ->. done.
Qed.

Definition size_options : mtu_options :=
  mk_mo false true false true 0 "AES-256-CBC" "SHA1" PROTO_UDP true false 1500 1000 true 1400 true false.

Definition size_co (c : key_ctx) : crypto_options :=
  mk_co c c true (mk_ekey [] 0) (mk_ekey [] 0) (mk_kt "" "") 0 [] key_ctx_zero rec_zero ids None false false.

(** 1000 - (4 + 28) - 20 - 16 are 58 blocks of 16 bytes and 4 bytes; less the padding and the
    packet id, 923 bytes are left for a fragment with its header. *)
Lemma packet_limits_kept_witness :
  exists f', frame_calculate_dynamic frame_zero (mk_kt "AES-256-CBC" "SHA1") size_options None = Some f' /\
    f_max_fragment_size f' = 919 /\ f_mss_fix f' = 1279 /\
    exists out opt', openvpn_encrypt 100 (buf_at 1200 100 (replicate 923 7)) (buf_at 1200 0 [72; 0; 0; 1]) (size_co cbc_ctx) (zeros 16) = Some (out, opt') /\
      b_len out + 28 <= 1000.
Proof.
  destruct (packet_limits_kept frame_zero (mk_kt "AES-256-CBC" "SHA1") size_options None) as (f' & E & H).
  - split; [by vm_compute|]. split; intros; split; by vm_compute.
  - exists f'. split; [exact E|]. assert (E2 : f_max_fragment_size f' = 919 /\ f_mss_fix f' = 1279) by (revert E; vm_compute; by intros [= <-]).
    destruct E2 as [E2 E3]. split; [exact E2|]. split; [exact E3|].
    destruct (H 100 (buf_at 1200 100 (replicate 923 7)) 100 (replicate 923 7) 177 (buf_at 1200 0 [72; 0; 0; 1]) [72; 0; 0; 1] (size_co cbc_ctx) (zeros 16) (mk_send 1 100) 0)
      as (out & opt' & Ee & Hw & _).
    + exact (buf_at_rep 1200 100 (replicate 923 7) eq_refl).
    + done.
    + split; try done. intros _. right. by left.
    + split; [by vm_compute|]. split; [done|]. split; [apply bytes_b; reflexivity|]. split; [lia|]. exists 0, 1196.
      split; [exact (buf_at_rep 1200 0 [72; 0; 0; 1] eq_refl)|]. by vm_compute.
    + done.
    + exists out, opt'. split; [exact Ee|]. specialize (Hw eq_refl). rewrite E2 in Hw. assert (Hlen : zlen (replicate 923 7) <= 4 + 919) by (rewrite length_replicate; lia). specialize (Hw Hlen).
      change (proxy_size size_options) with 0 in Hw. change (encap_size _ _ _) with 28 in Hw. change (mo_ce_fragment size_options) with 1000 in Hw. lia.
Defined.

(** A message from one end to the other under [tls-crypt]. *)
Lemma control_wrapping_transparent_witness :
  exists out ctx' oh ot pkt, tls_wrap_control 100 crypt_wrap 32 out_buf sid_a = Some (out, ctx') /\ buf_rep out oh pkt ot /\
    forall rb rh rt, buf_rep rb rh pkt rt ->
      exists dropped out_r ho to, buf_rep out_r ho hello to /\
        read_control_auth 101 rb crypt_wrap None false =
          '(ok, o) ← crypto_check_replay 101 (tw_opt crypt_wrap) (mk_net 1 100) 0;
          Some (ok : bool, if ok then out_r else dropped, set_tw_opt crypt_wrap o).
Proof.
  destruct (control_wrapping_transparent 100 crypt_wrap out_buf 100 hello 293 32 sid_a (mk_send 1 100)) as (out & ctx' & oh & ot & pkt & E & _ & Ho & _ & Hr).
  - exact out_buf_rep.
  - split; [by eexists _, _|]. exists 0, [], 1200. split; [exact work_rep|]. vm_compute. done.
  - by vm_compute.
  - by vm_compute.
  - apply bytes_b. reflexivity.
  - done.
  - done.
  - exists out, ctx', oh, ot, pkt. split; [exact E|]. split; [exact Ho|]. intros rb rh rt Hrb.
    destruct (Hr 101 rb rh rt crypt_wrap None false Hrb) as (d & o & ho & to & Hrep & Eq); [done|split; [by eexists _, _|done]|].
    exists d, o, ho, to. split; [exact Hrep|]. rewrite Eq. done.
Defined.

(** Two packets under [tls-auth], the first of them twice, and a forged one. *)
Definition auth_pkt1 : list Z := made (tls_wrap_control 100 auth_wrap 32 out_buf sid_a).
Definition auth_pkt2 : list Z :=
  match tls_wrap_control 100 auth_wrap 32 out_buf sid_a with
  | Some (_, ctx) => made (tls_wrap_control 100 ctx 32 (buf_at 400 100 [9; 9]) sid_a)
  | None => []
  end.
Definition forged : list Z := [32] ++ sid_a ++ zeros 28 ++ hello.
Definition arrivals : list (Z * buffer) :=
  [(100, buf_at 200 0 auth_pkt1); (101, buf_at 200 0 forged); (102, buf_at 200 0 auth_pkt1); (103, buf_at 200 0 auth_pkt2)].

Definition ids_filter : ReplayFilter check_replay move_recv r_initialized :=
  udp_filter 64 15 ltac:(by split) ltac:(by split).

Lemma ids_fresh : rf_inv (ReplayFilter := ids_filter) [] (rec ids).
Proof. destruct (init_win_rel 64 15 "demo" 0 ids) as (_ & _ & Hr); [lia|reflexivity|]. exists w_empty. split; [exact Hr|]. intros pin Hp. by apply elem_of_nil in Hp. Qed.

Lemma control_packets_authentic_witness :
  (fst <$> read_controls arrivals None [] auth_wrap) = Some [(auth_pkt2, [9; 9]); (auth_pkt1, hello)] /\
  exists accepted ctx' pins, read_controls arrivals None [] auth_wrap = Some (accepted, ctx') /\ NoDup pins /\
    Forall2 (fun '(c, m) pin => authentic auth_wrap (signed_part c) pin m /\ exists now buf, (now, buf) ∈ arrivals /\ content buf = c) accepted pins.
Proof.
  split; [vm_compute; reflexivity|]. apply (control_packets_authentic ids_filter arrivals None auth_wrap); try done.
  - split; [by eexists _, _|done].
  - exact ids_fresh.
  - assert (Hp : forall now l, fits 200 0 l = true -> l <> [] -> SEQ_EXPIRED < now -> control_arrival (now, buf_at 200 0 l)).
    { intros now l Hf Hl Hn. split; [done|]. exists 0, l, (200 - 0 - zlen l). split; [by apply buf_at_rep|done]. }
    repeat (constructor; [apply Hp; vm_compute; done|]). constructor.
Defined.

(** Without keys: the packet of a session, and what comes back from a short one. *)
Definition plain_wrap : tls_wrap_ctx := wrap_of TLS_WRAP_NONE (with_keys key_ctx_zero) false key_ctx_zero.

Lemma plain_control_is_control_witness :
  tls_wrap_control 100 plain_wrap 32 out_buf sid_a = (fun b => (b, plain_wrap)) <$> Control.tls_wrap_control 32 out_buf sid_a /\
  read_control_auth 100 (buf_at 20 0 [32; 1; 2]) plain_wrap None false = Some (true, buf_at 20 0 [32; 1; 2], plain_wrap).
Proof.
  split; [apply (plain_control_is_control 100 plain_wrap 32 out_buf sid_a None false); reflexivity|].
  destruct (plain_control_is_control 100 plain_wrap 32 (buf_at 20 0 [32; 1; 2]) sid_a None false) as [_ E]; [reflexivity|reflexivity|].
  rewrite E. vm_compute. reflexivity.
Defined.

(** ** The key of a client *)

Definition server_key : key_ctx := mk_ctx (Some ("AES-256-CTR"%string, key32 8)) (Some ("SHA256"%string, key32 9)) (zeros 16) 0 0 0.
Definition client_key : key2 := key2_of_bytes (seqZ 0 256).
Definition metadata : list Z := [1] ++ be_bytes 8 50.

Definition client_opt : crypto_options := default (with_keys key_ctx_zero) (tls_crypt_v2_load_client_key (with_keys key_ctx_zero) client_key false).

Lemma ids_next co : co_packet_id co = ids -> co_long_form co = true ->
  packet_id_initialized (co_packet_id co) = true /\ co_long_form co = true /\
  packet_id_send_update 100 (send (co_packet_id co)) true = (true, mk_send 1 100) /\ is_u32 1 /\ is_u32 100.
Proof. intros -> ->. by vm_compute. Qed.

(** A server that knows its own key only. *)
Definition v2_server : tls_wrap_ctx := wrap_of TLS_WRAP_NONE (with_keys key_ctx_zero) true server_key.

Lemma client_key_ok : key2_ok client_key.
Proof. split; (split; [done|]; split; [done|]; split; apply bytes_b; reflexivity). Qed.

Lemma metadata_rep : buf_rep (buf_at 40 0 metadata) 0 metadata 31.
Proof. exact (buf_at_rep 40 0 metadata eq_refl). Qed.

(** The packet with the key in it, which a server of 10 days' patience opens a minute later. *)
Lemma client_key_round_trip_witness :
  exists wkc s out s', tls_crypt_v2_wrap_client_key (buf_at 1024 0 []) client_key (buf_at 40 0 metadata) server_key = Some (true, wkc) /\
    s = mk_wrap TLS_WRAP_CRYPT client_opt false false (buf_at 1200 0 []) key_ctx_zero (Some wkc) clear_buf false client_key /\
    tls_wrap_control 100 s 80 out_buf sid_a = Some (out, s') /\
    forall rb rh rt, buf_rep rb rh (content out) rt ->
      exists r' out_r ho to, has_client_key v2_server r' client_key (tw_metadata r') /\ content (tw_metadata r') = metadata /\
        buf_rep out_r ho hello to /\
        read_control_auth 160 rb v2_server (Some (mk_v2opt 10 None)) true = Some (true, out_r, r').
Proof.
  destruct (client_key_round_trip server_key (key32 8) (key32 9) client_key (buf_at 1024 0 []) 0 1024 (buf_at 40 0 metadata) 0 metadata 31)
    as (wkc & Ew & Hrt).
  - done.
  - exact client_key_ok.
  - exact metadata_rep.
  - vm_compute. done.
  - exact (buf_at_rep 1024 0 [] eq_refl).
  - vm_compute. done.
  - set (s := mk_wrap TLS_WRAP_CRYPT client_opt false false (buf_at 1200 0 []) key_ctx_zero (Some wkc) clear_buf false client_key).
    destruct (load_client_key_ok (with_keys key_ctx_zero) client_key false) as (co & El & Hk & _ & Hp & Hlf).
    assert (Eco : client_opt = co) by (unfold client_opt; by rewrite El).
    destruct (Hrt 100 s (with_keys key_ctx_zero) out_buf 100 hello 293 80 sid_a (mk_send 1 100)) as (out & s' & E & Hr).
    + reflexivity.
    + unfold s. cbn [tw_opt]. rewrite Eco. exact El.
    + reflexivity.
    + exact out_buf_rep.
    + split; [unfold s; cbn [tw_opt]; rewrite Eco; eexists _, _; exact Hk|]. exists 0, [], 1200. split; [exact work_rep|]. clear. vm_compute. discriminate.
    + unfold wrap_next, s. cbn [tw_mode tw_opt]. rewrite Eco. exact (ids_next co Hp Hlf).
    + clear. by vm_compute.
    + reflexivity.
    + apply bytes_b. reflexivity.
    + reflexivity.
    + exists wkc, s, out, s'. split; [exact Ew|]. split; [reflexivity|]. split; [exact E|]. intros rb rh rt Hrb.
      destruct (Hr 160 rb rh rt v2_server (Some (mk_v2opt 10 None)) Hrb) as (mdb & mt & Hmdb & Hw); [reflexivity|reflexivity|].
      assert (Hwel : client_key_welcome 160 (Some (mk_v2opt 10 None)) mdb = true).
      { unfold client_key_welcome. cbn [v2_max_age v2_verify_script]. change (0 <? 10) with true. cbn [negb orb]. rewrite andb_true_r.
        unfold tls_crypt_v2_check_client_key_age. pose proof (rep_slice _ _ _ _ Hmdb) as Hsl. change (zlen metadata) with 9 in Hsl.
        rewrite (buf_len_wf _ (rep_wf _ _ _ _ Hmdb)), (rep_len _ _ _ _ Hmdb). change (zlen metadata <? 1 + 8) with false. cbv iota.
        assert (Hd : exists rest, mem mdb = metadata ++ rest).
        { exists (drop 9 (mem mdb)). rewrite <- Hsl. unfold slice. change (Z.to_nat 0) with 0%nat. rewrite drop_0. change (Z.to_nat 9) with 9%nat. by rewrite take_drop. }
        destruct Hd as (rest & ->). vm_compute. done. }
      rewrite Hwel in Hw. destruct Hw as (r' & out_r & ho & to & d & Hck & Ho & Eq). exists r', out_r, ho, to.
      pose proof Hck as (Hm & _ & _ & Hmd & Hig & _). rewrite Hmd. split; [exact Hck|]. split; [by apply (rep_content _ _ _ _ Hmdb)|]. split; [exact Ho|].
      rewrite Eq. unfold wrap_seen. rewrite Hm, Hig. reflexivity.
Defined.

(** ** A first connection *)

Definition image (a : openvpn_sockaddr) : list Z := match a with SockIn4 l p | SockIn6 l p => l ++ p | SockOther => [] end.
Definition client_addr : openvpn_sockaddr := SockIn4 [10; 0; 0; 1] [4; 210].

Definition demo_frame : frame := mk_frame 1250 128 128 0 0 1500 1500 0.
Definition server_wrap : tls_wrap_ctx := wrap_of TLS_WRAP_CRYPT (with_keys crypt_ctx) true key_ctx_zero.
Definition udp_server (handwindow : Z) : udp_context :=
  mk_udp (mk_tas server_wrap (buf_at 1500 0 []) demo_frame) (key32 77) handwindow (buf_at 1500 0 []) (initial_rate_limit_init 100 10) None.

Lemma wide_rep : buf_rep (buf_at 1500 0 []) 0 [] 1500.
Proof. exact (buf_at_rep 1500 0 [] eq_refl). Qed.

Lemma server_tas hw : tas_ready (uc_tas (udp_server hw)).
Proof. split; [split; [by eexists _, _|done]|]. split; [by left|done]. Qed.

Lemma udp_server_ok : server_ok (udp_server 60).
Proof.
  split; [apply server_tas|]. split; [|done]. split; [done|]. split; [exists 0, [], 1500; by split; [exact wide_rep|]|].
  split; [exists 0, [], 1200; by split; [exact work_rep|]|]. split; [exists 0, [], 1500; by split; [exact wide_rep|]|]. split; [done|]. by eexists _, _.
Qed.

(** The client's reset, the cookie that it gets, and the packet that shows it 40 seconds later. *)
Definition reset_pkt : list Z := made (tls_wrap_control 100 crypt_wrap 56 (buf_at 400 100 [0; 0; 0; 0; 0]) sid_a).
Definition own : list Z := cookie image (key32 77) client_addr sid_a (slot_of 100 60).
Definition shown : list Z := ack_record [0] own ++ be_bytes 4 1 ++ [9; 9].
Definition second_pkt : list Z := made (tls_wrap_control 140 crypt_wrap 32 (buf_at 400 100 shown) sid_a).

Lemma demo_first hw c op m :
  fits 300 0 c = true -> take 9 c = Z.shiftl op P_OPCODE_SHIFT :: sid_a -> (9 <=? zlen c) = true -> first_packet_opcode op = true ->
  carries_client_key (packet_opcode c) = false -> control_open server_wrap c = Some (None, m) ->
  first_packet (uc_tas (udp_server hw)) (buf_at 300 0 c) (zeros 300) c sid_a op m.
Proof.
  intros Hf Ht Hl Hop Hc Ho. split; [eexists 0, _; by apply buf_at_rep|]. split; [reflexivity|]. split; [by apply Forall_replicate|].
  split; [done|]. split; [lia|]. split; [reflexivity|]. split; [done|]. unfold first_open. rewrite Hc. by exists None.
Qed.

Lemma reset_first hw : first_packet (uc_tas (udp_server hw)) (buf_at 300 0 reset_pkt) (zeros 300) reset_pkt sid_a 7 [0; 0; 0; 0; 0].
Proof. apply demo_first; vm_compute; reflexivity. Qed.

Lemma shown_first : first_packet (uc_tas (udp_server 60)) (buf_at 300 0 second_pkt) (zeros 300) second_pkt sid_a 4 shown.
Proof. apply demo_first; vm_compute; reflexivity. Qed.

Lemma three_way_handshake_witness :
  exists m' st' st2, do_pre_decrypt_check image 100 (udp_server 60) pds_zero (zeros 300) client_addr (buf_at 300 0 reset_pkt) = Some (false, m', st') /\
    (exists reply, uc_hmac_reply m' = Some (reply, client_addr) /\ take 9 (content reply) = 64 :: own) /\
    do_pre_decrypt_check image 140 m' pds_zero (zeros 300) client_addr (buf_at 300 0 second_pkt) = Some (true, m', st2) /\
    pds_peer_session_id st2 = sid_a /\ pds_server_session_id st2 = own.
Proof.
  destruct (three_way_handshake image 100 (udp_server 60) pds_zero (zeros 300) client_addr (buf_at 300 0 reset_pkt) reset_pkt sid_a 7 [0; 0; 0; 0; 0])
    as (m' & st' & reply & oh & ot & pkt & p' & ctx & E & Er & Ho & Ht & _ & _ & Hnext).
  - exact udp_server_ok.
  - by vm_compute.
  - apply reset_first.
  - by vm_compute.
  - by left.
  - destruct (Hnext 140 pds_zero (zeros 300) (buf_at 300 0 second_pkt) second_pkt 4 [0] (be_bytes 4 1 ++ [9; 9])) as (st2 & E2 & Hp & Hs).
    + vm_compute. split; discriminate.
    + left.
    + exact shown_first.
    + split; [apply NoDup_singleton|]. split; [vm_compute; discriminate|]. repeat constructor; by vm_compute.
    + discriminate.
    + by repeat constructor.
    + intros _. exists 1, [9; 9]. split; [reflexivity|lia].
    + exists m', st', st2. split; [exact E|]. split; [exists reply; split; [exact Er|]; by rewrite (rep_content _ _ _ _ Ho)|]. split; [exact E2|]. by split.
Defined.

Lemma zero_hand_window_aborts_witness :
  within_limit 100 (udp_server 0) /\
  do_pre_decrypt_check image 100 (udp_server 0) pds_zero (zeros 300) client_addr (buf_at 300 0 reset_pkt) = None.
Proof.
  split; [by vm_compute|]. apply (zero_hand_window_aborts image 100 (udp_server 0) pds_zero (zeros 300) client_addr (buf_at 300 0 reset_pkt) reset_pkt sid_a [0; 0; 0; 0; 0]).
  - apply server_tas.
  - done.
  - by vm_compute.
  - apply reset_first.
Defined.

(** The cookie of second 100 under a window of 60 seconds, at 160 and at 190. *)
Definition cookie_state : tls_pre_decrypt_state := mk_pds wrap_zero clear_buf sid_a own.

Lemma cookie_window_witness :
  check_slots image 160 cookie_state client_addr (key32 77) 60 [-2; -1; 0] = Some true /\
  check_slots image 190 cookie_state client_addr (key32 77) 60 [-2; -1; 0] = Some false.
Proof.
  split.
  - destruct (cookie_window image 100 160 sid_a client_addr (key32 77) 60 own cookie_state) as (ok & E & Hok & _);
      [lia|lia|by vm_compute|reflexivity|reflexivity|reflexivity|].
    rewrite E. f_equal. apply Hok. lia.
  - vm_compute. reflexivity.
Defined.

Lemma answers_limited_witness :
  limiter_run [ResetAt 100; ResetAt 101; Completed; ResetAt 102; ResetAt 103; ResetAt 110] (initial_rate_limit_init 2 10) = (3, 1) /\
  exists n k, limiter_run [ResetAt 100; ResetAt 101; Completed; ResetAt 102; ResetAt 103; ResetAt 110] (initial_rate_limit_init 2 10) = (n, k) /\ n <= 2 * 2 + k.
Proof.
  split; [vm_compute; reflexivity|].
  apply (answers_limited [ResetAt 100; ResetAt 101; Completed; ResetAt 102; ResetAt 103; ResetAt 110] 100 (initial_rate_limit_init 2 10)); try done.
  repeat constructor; vm_compute; discriminate.
Defined.

Import TlsDemo.TlsDemo.

Definition udp_net_of (uc : udp_context) : udp_net :=
  mk_udpnet uc (mk_hash 1 0 0 0 [[]]) [] 0 ∅ (mk_fl 0 0 0 0) false.

(** The client's second packet under another session id: nothing is made. *)
Definition stolen_pkt : list Z := made (tls_wrap_control 140 crypt_wrap 32 (buf_at 400 100 shown) [8; 7; 6; 5; 4; 3; 2; 1]).

Lemma stolen_rep : buf_rep (buf_at 300 0 stolen_pkt) 0 stolen_pkt (300 - 0 - zlen stolen_pkt).
Proof. apply buf_at_rep. vm_compute. reflexivity. Qed.

Lemma server_stateless_witness :
  exists uc, new_instance image 140 (udp_net_of (udp_server 60)) (zeros 300) mroute_addr_init 0 0 client_addr (buf_at 300 0 stolen_pkt) None =
    Some (None, set_un_context (udp_net_of (udp_server 60)) uc) /\ unmoved image 140 (udp_server 60) uc client_addr stolen_pkt.
Proof.
  destruct (server_stateless image 140 (udp_net_of (udp_server 60)) (zeros 300) mroute_addr_init 0 0 client_addr (buf_at 300 0 stolen_pkt) None 0 stolen_pkt
              (300 - 0 - zlen stolen_pkt)) as (go & uc & st & E & Hgo).
  - exact udp_server_ok.
  - by vm_compute.
  - exact stolen_rep.
  - reflexivity.
  - by apply Forall_replicate.
  - reflexivity.
  - assert (Ego : go = false).
    { pose proof (f_equal (fmap (fun r => r.1.1)) E) as Eg.
      assert (Hv : (fun r => r.1.1) <$> do_pre_decrypt_check image 140 (udp_server 60) pds_zero (zeros 300) client_addr (buf_at 300 0 stolen_pkt) = Some false)
        by (vm_compute; reflexivity).
      change (un_context (udp_net_of (udp_server 60))) with (udp_server 60) in Eg. rewrite Hv in Eg. cbn [fmap option_fmap option_map fst] in Eg. congruence. }
    subst go. destruct Hgo as [Hu En]. exists uc. split; [exact En|exact Hu].
Defined.
End WrapDemo.
